(* ===== verification/_CoqProject ===== *)
-Q . S2P
Prelude.v
Text.v
ByteBuffer.v
Channel.v
ChannelMgr.v
Crypto.v
AuthSocket.v
AuthCrypt.v
WorldSocket.v
Rolls.v
Group.v
Party.v
PartySample.v
PartyRuns.v
PartyRoster.v
PartySteps.v
PartySpec.v
Market.v
Mail.v
Auction.v
MarketGold.v
MarketMails.v
MarketSpec.v
MarketRuns.v
Guild.v
GuildBank.v
GuildHandler.v
GuildSample.v
GuildCore.v
GuildGold.v
GuildStock.v
GuildRoster.v
Petition.v
PetitionRuns.v
Social.v
SocialRuns.v
