(* ===== verification/Prelude.v ===== *)
(** * DarkCore: the protocol, chat, party, guild and market core of the server

    DarkCore is a game server in C++: a login server (authserver), a game server
    (worldserver) and the code the two share.  This library models the part of it
    that faces the clients: how their bytes become packets, how they log in to
    the two servers, the text and names they send, and what their packets drive: the
    chat channels, the loot rolls, the parties and raids, the mails, the auctions and the
    guilds.
    Paths below are relative to src/src/server.

    ** Parts and files

    - [Prelude] (this file): machine integers as [Z] with their wrap-around
      ([uwrap], [swrap]), little-endian encodings, iteration of [std::map] and
      [std::set] in key order ([omap_list], [oset_list]), and the state monad with
      an event log ([M]) in which the handlers of all components are written.
    - [Text]: shared/Utilities/Util.cpp and Util.h (tokens, durations, hexadecimal,
      UTF-8 conversions, case mapping, scripts, [stripLineInvisibleChars]) and the
      name checks of game/Globals/ObjectMgr.cpp.
    - [ByteBuffer]: shared/Packets/ByteBuffer.h and WorldPacket.h.  A buffer is its
      two positions and its bytes; a call returns a value, throws, or fails.
    - [Channel]: game/Chat/Channels/Channel.cpp and Channel.h.  The record
      [Channel] has the members of the class; one definition per handler; what a
      handler sends, saves or calls on a [Player] is logged as an [event].
    - [ChannelMgr]: game/Chat/Channels/ChannelMgr.cpp, the opcode handlers of
      game/Server/Protocol/Handlers/ChannelHandler.cpp and the channel list of
      game/Entities/Player/Player.cpp.  [Server] is a store: the channels that
      exist, keyed by the place a manager keeps them, and the pointers to them in
      the players' lists.  A step of the server is one packet, zone change or
      logout of one player ([chat_step]).
    - [Crypto]: shared/Cryptography/BigNumber.cpp and SHA1.cpp over the class
      [OpenSSL].
    - [AuthSocket]: authserver/Server/AuthSocket.cpp, the receive side of
      RealmSocket.cpp, authserver/Authentication/AuthCodes.cpp and
      authserver/Realms/RealmList.cpp.  The state is the members of [AuthSocket]
      and its receive buffer; [OnRead] is the command loop over the table of
      handlers.
    - [AuthCrypt]: shared/Cryptography/ARC4.cpp, HMACSHA1.cpp and
      Authentication/AuthCrypt.cpp over the class [Evp].
    - [WorldSocket]: game/Server/WorldSocket.cpp and WorldSocket.h, and
      [WorldSession::ReadAddonsInfo] of game/Server/WorldSession.cpp.  [Incoming]
      is the packet being received, [Outgoing] the output buffer and queue;
      [handle_input] and [handle_output] are driven by what the peer delivers and
      by the answers of [send].  The queue is that of ACE (dep/acelite/ace,
      Message_Queue_T.cpp), with its high-water mark and the size it accounts for a
      block; putting a block into a full queue fails.
    - [Rolls]: the loot rolls of game/Groups/Group.cpp and Group.h over the part
      of game/Loot/LootMgr.h they touch.  [LootState] is the rolls of one group
      and the store of loots they point to; opening rolls, voting, the timer, a
      member who leaves and a loot that is cleared are its steps ([run_roll_op]).
    - [Group]: the rest of game/Groups/Group.cpp and Group.h, GroupReference and
      shared/Dynamic/LinkedReference.  [World] is a store of groups by address, of
      players by GUID with the links of both sides ([m_group], [m_originalGroup],
      [m_groupInvite], [m_memberMgr], [m_invitees]) and of the rows of group_member;
      the record [Group] has the members of the class, one definition per method.
    - [Party]: the group part of game/Entities/Player/Player.cpp, of
      game/Server/WorldSession.cpp and of game/Battlegrounds/Battleground.cpp, and
      the opcode handlers of game/Server/Protocol/Handlers/GroupHandler.cpp.  A step
      of the server is one packet, login, logout, change of map or battleground of
      one player, or a loot that is opened ([party_step], [run_party_step]).
    - [PartyRuns], [PartyRoster], [PartySteps], [PartySpec]: the theorems on the
      two.  [PartyRuns] describes the programs as transitions of the part of the
      state the rosters depend on ([core]); [PartyRoster] states the invariant and
      that the transitions keep it; [PartySteps] takes it through every handler;
      [PartySpec] has what a player is promised.  [PartySample] is the small server
      of the examples.
    - [Market]: the stores mails and auctions live in: the gold of the characters
      ([ModifyMoney] of Player.cpp and its limit), who is online, the tables mail,
      mail_items, item_instance and auctionhouse with the prepared statements on
      them ([market_statement], [execute_on]), the three houses and the identifiers
      given out.
    - [Mail]: game/Mails/Mail.cpp and Mail.h, the mails of a player in
      game/Entities/Player/Player.cpp, the opcode handlers of
      game/Server/Protocol/Handlers/MailHandler.cpp, and the return of old mails in
      game/Globals/ObjectMgr.cpp.
    - [Auction]: game/AuctionHouse/AuctionHouseMgr.cpp and AuctionHouseMgr.h and the
      opcode handlers of AuctionHouseHandler.cpp.  A step of the server is one
      packet, login, logout or change of map of one player, a tick of his mails, a
      tick of the auction houses, or the return of old mails ([market_step],
      [run_market_step]).
    - [MarketGold], [MarketMails], [MarketSpec], [MarketRuns]: the theorems on the
      three.  [MarketGold] defines the wealth of the server (purses, mails, bids and
      deposits) and what a program may do to it; [MarketMails] has the programs that
      move no gold; [MarketSpec] is the abstract market: its transitions ([deals])
      and that every step is a sequence of them ([deals_step]); [MarketRuns] has the
      theorems over runs and what each operation promises.
    - [Guild]: game/Guilds/Guild.cpp and Guild.h (all but the bank) and GuildMgr.cpp.
      [GuildWorld] is the [Market] with the guilds, what a [Player] keeps of his guild,
      the items with the places they lie in, and the rows of guilds, ranks, members,
      bank items and logs; the record [Guild] has the members of the class.  The members
      of a guild are a hash table: the order it is visited in is the class [HashOrder].
    - [GuildBank]: the bank of Guild.cpp: money with its daily limits, tabs, and the
      moves of items ([MoveItemData] and its two subclasses, told apart by [IsBank]),
      with [ModifyMoney] and [_StoreItem] of Player.cpp and [CloneItem] of Item.cpp.
    - [GuildHandler]: the opcode handlers of
      game/Server/Protocol/Handlers/GuildHandler.cpp and the guild parts of login,
      logout, chat, repairs and the deletion of characters.  A step of the server is
      one of them ([guild_step], [run_guild_step]).
    - [GuildCore], [GuildGold], [GuildStock], [GuildRoster]: the theorems on the three.
      [GuildCore] names the part of the state that matters to them ([core]) and proves
      which programs leave it alone; [GuildGold] has the gold of purses and banks;
      [GuildStock] describes what a move does to the items ([Shelf]); [GuildRoster]
      describes what the programs do to members, rows and players ([Roster], [enrol]).
      [GuildSample] is the small server of the examples.
    - [Petition]: PetitionsHandler.cpp, [Player::RemovePetitionsAndSigns] and the charter
      among the items of its owner ([StoreNewItem], [GetItemByGuid], [DestroyItem]).  The
      state is that of [Guild] with the tables petition and petition_sign
      ([PetitionWorld]); a program of a guild runs in it by [in_guilds], which does to
      signatures what the program says of joining.  [PetitionRuns]: the theorems on it.
    - [Social]: SocialMgr.cpp and the handlers of the friend list in MiscHandler.cpp, with
      the queries a session waits for ([SocialSession]), logging in and out, and what a
      deleted character leaves behind; the state is [SocialWorld], a step [social_step].
      [SocialRuns]: the theorems, on what matters to the lists ([Book], [contacts_ok]).

    [Text] and [ByteBuffer] are used by all the others: a notice of a channel, a
    log-in packet and a realm list are written with the same [append] and read
    with the same [read].  [ChannelMgr] runs the programs of [Channel] on the
    channel a pointer leads to, and learns from their log which players were told
    that they joined or left.  [AuthSocket] stores the session key in the
    database; [WorldSocket] reads it from there and keys [AuthCrypt] with it.
    [Group] runs the programs of [Rolls] on the rolls of a group and the loots of the
    server: a member who leaves takes his votes back, a group that is deleted drops
    its rolls.  The handlers of [Party] read their packets with [ByteBuffer] and the
    names in them with [Text].  The handlers of [Auction] send their payments, refunds and
    items with [SendMailTo] of [Mail]; both change the purses with [ModifyMoney] of
    [Market] and read their packets with [ByteBuffer].  [GuildBank] runs [ModifyMoney]
    of [Market] on the purses of the same server.  [Petition] founds guilds with
    [CreateGuild] and [AddMember] of [Guild].

    ** Conventions

    An integer of [w] bits is a [Z]; where the code converts or overflows, [uwrap]
    or [swrap] says so.  Strings and packets are lists of bytes.  A pointer that is
    tested against NULL is an [option].  What the code reads of the rest of the
    server (who is online, configuration switches, rows of the database, the
    clock, random numbers) is an argument: [WorldView], [ChatData], [AuthEnv],
    [WorldEnv], [RollView], [GroupView], [MarketView], [GuildView], [PetitionView],
    [SocialView].  Undefined behaviour and failed assertions
    are outcomes of their own ([Undefined], [AssertFailed], [ConvOverflow], the events [UseAfterFree],
    [OutOfBounds], [NullDereference], [AssertionFailed], [SocialUseAfterFree],
    [GroupAssertionFailed], [AuctionUseAfterFree], [ConversionOverflow],
    [MarketAssertFailed], [GuildUndefined] and [GuildAssertFailed]), so that their absence is something
    to prove.

    Libraries the sources call but do not contain enter as classes of parameters,
    with what the code relies on as a class of laws: utf8cpp ([Utf8Lib],
    [Utf8Laws]), OpenSSL ([OpenSSL], [OpenSSLLaws], [Evp], [EvpLaws]) and zlib (a
    field of [WorldEnv]).  Each is instantiated with concrete functions
    ([astral_utf8], [toy_ssl], [toy_evp]) in the witnesses.  [Player::CanStoreItem] is a
    field of [GuildView] with the contract [BagsContract] (its answer is a plan that
    fits the bags), and the order of hash tables the class [HashOrder] with its law
    [HashOrderLaws]; both hold for the sample server ([sample_bags], [key_order_laws]).  The
    client library of MySQL is [SqlLib] (its escaping of strings, on which nothing is
    assumed), the order of its answers [ResultOrder] with [ResultOrderLaws].

    ** What the theorems show

    - Streams and packets: cutting the byte stream of a client into blocks does not
      change what is processed ([stream_cut_anywhere]); a packet put on the wire is
      delivered once and intact ([packet_delivered]); what a connection sends is a
      queue of bytes ([output_fifo]), of which a block is lost only when the queue was
      filled beyond its high-water mark ([overfull_queue_drops]); headers are read back
      ([server_header_roundtrip]); no client makes an assertion of the socket fail
      ([input_never_asserts]).
    - Buffers: typed values survive writing and reading ([fields_roundtrip],
      [vector_roundtrip], [write_counted_spec]); reading arbitrary bytes stays
      inside the buffer ([read_kinds_safe]).
    - Logging in: SRP6 agrees with a client that is written from the protocol, from
      the challenge to the proof of the server ([srp_login_accepted]), unless one of the
      values ends in a zero byte, which [AsByteArray] loses ([as_byte_array_value],
      [short_value_refused]); the hole of the check ([srp_accepts_A_equal_N]); a realm list goes to authorised
      connections only ([realm_list_needs_proof]) and is well formed
      ([realm_list_framing]); the command loop ends ([on_read_terminates]); the
      game server queues packets only for the session of an account that was named in a
      log-in packet on this connection and may enter from its address
      ([queued_packets_vouched]) but does not check their key
      ([world_login_without_key]); the limits on pings ([ping_limit],
      [ping_before_login]); what fragments and reconnections break
      ([challenge_split_desync], [reconnect_forgets_cataclysm]).
    - Channels: invariants by induction over every sequence of handler calls
      ([owner_unique], [members_consistent]), who may change what
      ([moderation_guarded], [join_admission]), who hears what ([say_delivery]),
      the saved row ([channel_reload]), and the pointers of the players, which
      never dangle ([channel_pointers_valid], [cleanup_channels_spec]).
      [self_ban_keeps_owner] is the case the invariants leave out.
    - Loot rolls: the counters agree with the votes over every sequence of steps
      ([rolls_tallied]), who gets the item, also after votes that were changed
      ([roll_award]), what a leaving member
      does to a roll ([remove_rolls_spec]), the timer ([end_roll_spec]), and the
      votes that are counted more than once ([need_spam_wins]).
    - Parties and raids: over every sequence of allowed steps the slots, the
      subgroup counters, the flags, the leader, the links of the players, the
      invitations and the rows agree ([party_rosters]); the first guest founds the
      group ([first_guest_founds]), leaving and dissolving ([leave_party]), a logout
      that keeps the place in a raid ([raid_relogin]), the turns of the looter
      ([looter_rotation]).  A step is allowed unless it is one of those that break
      the rosters ([allowed], [allowed_b]): a player who invites himself
      ([self_invite_dangles]), a packet that looks for members, or a logout, while
      a player is between two maps ([moved_in_transit]), battleground raids, and the
      low GUID that would wrap around.
    - Gold: no sequence of allowed steps makes copper ([no_gold_minted]): sending and
      reading mails, selling, bidding, buying out, cancelling and the end of an
      auction pay out at most what was paid in.  The mails in memory agree with their
      rows ([mails_in_step]).  What each operation does: a posted mail
      ([mail_posted]), its money ([money_taken]), a bid ([place_bid_raises]), the end
      of an auction, with or without a bid, and which mails are sent and which not
      ([auction_settled], [due_auctions_end]), a restart, for auctions whose values fit
      their columns ([auctions_reload]), the size of the list ([mail_list_bounded]).  A step is
      allowed ([MarketSpec.allowed]) when: the packet is bytes; the postage and
      money, and the payment, of a posted mail fit 32 bits; a bid and the
      deposit stay within MAX_MONEY_AMOUNT; the cut factor is 0 or 1 ([fair_cuts]);
      no identifier wraps around; a player logs in under a GUID of 32 bits; old mails
      are returned while nobody is between two maps.  [corners_mint_gold] shows two
      of these conditions are needed; [item_without_payment] and
      [offline_winner_gets_nothing] are losses the code allows.
    - Guilds: no sequence of steps makes copper at the bank ([guild_gold]), unless a
      loot window is open (the code adds the guild's share on top of what is found) or
      exactly 2^31 - 1 copper is withdrawn; a move of items keeps every stack, slot and
      row ([bank_items_kept]); members in memory, rows, players and leaders agree over every
      fair run ([guild_rosters]).  A run is fair ([fair_run]) when packets are handled and
      characters deleted while nobody is between two maps, no member declines an
      invitation, no leader passes the guild on to himself, nobody is removed by a GUID
      with more than its low part, and no guild number wraps around: four examples show
      what happens otherwise ([decline_forgets_guild], [self_crowned_officer],
      [kicked_by_high_guid], [kicked_between_maps]).  Removing a rank gives its members
      every right ([removed_rank_rights]).
    - Charters: turning one in founds the guild, under its name, with exactly the
      signers who are free ([petition_turned_in]); nine signatures at most, one for an account, over every
      run ([signatures_ok]); joining a guild takes no signature away, though the code
      means to ([stale_signatures]).
    - Friends: over every run, with answers of the database that arrive late, the lists
      have at most fifty friends and fifty ignored and the database has them
      ([social_lists]); logging out and in gives the list back ([social_reload]); who is
      told of a friend ([friend_listers_told]).  [note_escaped] and [answered_to_another]
      are what the code does besides.
    - Text: normal forms and inverses ([normalize_stable], [case_mapping_inverse],
      [time_string_roundtrip], [strip_line_spec], [main_part_spec]) and the one
      buffer a name can overflow ([normalize_overflow]).

    ** Fuel

    Loops of the code that are not structural take a fuel argument: the digits of a
    number (20, enough for 64 bits), the extraction of a string and the command
    loop of [AuthSocket] (the bytes left, each turn takes one:
    [on_read_terminates]), the loop over a received block (its length:
    [input_never_asserts]), [CleanupChannels] (the length of the list:
    [cleanup_channels_spec]), [Update] of [WorldSocket] (the blocks queued), the
    restarted loop of the timer ((n + 1)^2 for n rolls: [end_roll_spec]) and the
    loop over the rolls a member leaves (their number: [remove_rolls_spec]).  The loop of
    [Guild::Disband] takes the number of members, that of [GainXP] 256 (a level is
    8 bits).  The loops of [Group] run over its lists and take none.  Where
    fuel could run out, that is an outcome of its own, which the theorems exclude.

    ** Not modelled

    The world simulation (spells, units, maps, scripts, battlegrounds beyond their
    raids), loot generation; the database layer,
    configuration, logging and the start-up of the processes, which are I/O; collision geometry, which is
    floating point.  Of the modelled files: the random-number and console
    functions of Util.cpp, the patch transfer of AuthSocket (disabled in the
    sources), the locks and reactor registration of WorldSocket, the
    loading of groups from the database, the roles of the dungeon finder, the saved
    binds of instances, [CanJoinBattlegroundQueue] and the packets of member
    statistics; mails whose items are drawn from loot tables, the
    senders that are creatures or objects, and, for mails and auctions, the positions of
    items in bags: there an item is its GUID, and whether it can be stored or merges with
    a stack is asked of the view; the loaders of guilds besides
    that of the event log, [Player::CanStoreItem] and [Player::CanStoreNewItem].  Transactions and asynchronous statements of the database take effect at
    once. *)
From Stdlib Require Export ZArith Lia.
From Stdlib Require Ascii String.
Export String.StringSyntax.
From stdpp Require Export base tactics option list gmap sets sorting.

#[export] Set Default Goal Selector "!".

Declare Scope dc_scope.
Delimit Scope dc_scope with dc.
#[global] Open Scope Z_scope.
#[global] Open Scope dc_scope.

Create HintDb dc.
Create Rewrite HintDb dc.
Create Rewrite HintDb dc_run.

(** ** Machine integers

    A [w]-bit C++ integer is a [Z] in the range of its type; every conversion
    that can change the value is written out with one of these functions. *)

Definition uwrap (w v : Z) : Z := v mod 2 ^ w.
Definition swrap (w v : Z) : Z := (v + 2 ^ (w - 1)) mod 2 ^ w - 2 ^ (w - 1).

Abbreviation u8 := (uwrap 8).
Abbreviation u16 := (uwrap 16).
Abbreviation u32 := (uwrap 32).
Abbreviation u64 := (uwrap 64).
Abbreviation s8 := (swrap 8).
Abbreviation s16 := (swrap 16).
Abbreviation s32 := (swrap 32).
Abbreviation s64 := (swrap 64).

(** The GUID of an object: its counter, its entry and its kind; the low part is the
    counter of an object without an entry. *)
Definition MAKE_NEW_GUID (l e h : Z) : Z := u64 (Z.lor (Z.lor l (Z.shiftl e 24)) (Z.shiftl h 48)).
Definition GUID_LOPART (guid : Z) : Z := Z.land guid 0xFFFFFFFF.

Definition in_u (w v : Z) : Prop := 0 <= v < 2 ^ w.
Definition in_s (w v : Z) : Prop := - 2 ^ (w - 1) <= v < 2 ^ (w - 1).

Lemma uwrap_range w v : 0 <= w -> in_u w (uwrap w v).
Proof. intros. unfold in_u, uwrap. apply Z.mod_pos_bound. lia. Qed.

Lemma uwrap_id w v : in_u w v -> uwrap w v = v.
Proof. intros. apply Z.mod_small. assumption. Qed.
Lemma u8_small v : 0 <= v < 256 -> u8 v = v.
Proof. intros. apply Z.mod_small. assumption. Qed.

Lemma uwrap_idem w v : 0 <= w -> uwrap w (uwrap w v) = uwrap w v.
Proof. intros. apply uwrap_id, uwrap_range; lia. Qed.

Lemma pow2_split w : 0 < w -> 2 ^ w = 2 * 2 ^ (w - 1).
Proof. intros. rewrite <- Z.pow_succ_r by lia. f_equal. lia. Qed.

(** Cutting to a wide integer first changes nothing. *)
Lemma uwrap_uwrap w w' v : 0 <= w <= w' -> uwrap w (uwrap w' v) = uwrap w v.
Proof.
  intros Hw. unfold uwrap. symmetry. apply Znumtheory.Zmod_div_mod; [apply Z.pow_pos_nonneg; lia..|].
  exists (2 ^ (w' - w)). rewrite <- Z.pow_add_r by lia. f_equal. lia.
Qed.

Lemma swrap_range w v : 0 < w -> in_s w (swrap w v).
Proof.
  intros Hw. unfold in_s, swrap. pose proof (pow2_split w Hw).
  pose proof (Z.mod_pos_bound (v + 2 ^ (w - 1)) (2 ^ w)). lia.
Qed.

Lemma swrap_id w v : 0 < w -> in_s w v -> swrap w v = v.
Proof.
  intros Hw [? ?]. unfold swrap. pose proof (pow2_split w Hw).
  rewrite Z.mod_small; lia.
Qed.

(** Two's complement: storing a signed value in the unsigned type of its width
    and reading it back is the identity. *)
Lemma swrap_uwrap w v : 0 < w -> swrap w (uwrap w v) = swrap w v.
Proof.
  intros Hw. unfold swrap, uwrap.
  rewrite Zplus_mod_idemp_l. reflexivity.
Qed.

Lemma swrap_uwrap_id w v : 0 < w -> in_s w v -> swrap w (uwrap w v) = v.
Proof. intros. rewrite swrap_uwrap by lia. apply swrap_id; assumption. Qed.

#[export] Hint Resolve uwrap_range swrap_range : dc.
#[export] Hint Rewrite uwrap_id swrap_id using (unfold in_u, in_s; lia) : dc.

(** A test of a flag mask, [x & m] used as a condition. *)
Lemma s32_small x : 0 <= x < 2 ^ 31 -> s32 x = x.
Proof. intros. apply swrap_id; [lia | unfold in_s; lia]. Qed.
Lemma u32_small x : 0 <= x < 2 ^ 32 -> u32 x = x.
Proof. intros. apply Z.mod_small. lia. Qed.
Lemma u64_small x : 0 <= x < 2 ^ 64 -> u64 x = x.
Proof. intros. apply Z.mod_small. lia. Qed.

Definition has_flag (x m : Z) : bool := negb (Z.land x m =? 0).

Lemma has_flag_lor_same x m : m <> 0 -> has_flag (Z.lor x m) m = true.
Proof.
  intros Hm. unfold has_flag.
  rewrite Z.land_lor_distr_l, Z.land_diag.
  destruct (Z.eqb_spec (Z.lor (Z.land x m) m) 0) as [E|]; [|reflexivity].
  apply Z.lor_eq_0_iff in E. tauto.
Qed.

Lemma has_flag_lor_other x m n : Z.land m n = 0 -> has_flag (Z.lor x m) n = has_flag x n.
Proof.
  intros Hm. unfold has_flag.
  rewrite Z.land_lor_distr_l, Hm, Z.lor_0_r. reflexivity.
Qed.

Lemma has_flag_ldiff_same x m : has_flag (Z.ldiff x m) m = false.
Proof.
  unfold has_flag.
  replace (Z.land (Z.ldiff x m) m) with 0; [reflexivity|].
  apply Z.bits_inj'. intros i Hi. rewrite Z.land_spec, Z.ldiff_spec, Z.bits_0.
  destruct (Z.testbit x i), (Z.testbit m i); reflexivity.
Qed.

Lemma has_flag_ldiff_other x m n : Z.land m n = 0 -> has_flag (Z.ldiff x m) n = has_flag x n.
Proof.
  intros Hm. unfold has_flag. do 2 f_equal.
  apply Z.bits_inj'. intros i Hi.
  assert (Hb : Z.testbit (Z.land m n) i = false) by (rewrite Hm; apply Z.bits_0).
  rewrite Z.land_spec in Hb. rewrite !Z.land_spec, Z.ldiff_spec.
  destruct (Z.testbit x i), (Z.testbit m i), (Z.testbit n i); simpl in *; congruence.
Qed.

(** ** Little-endian encodings

    The repository is compiled for little-endian targets, where the conversion
    to wire order is the identity: a value is written as its bytes, lowest
    first. *)

Fixpoint le_encode (n : nat) (v : Z) : list Z :=
  match n with
  | O => []
  | S n' => v mod 256 :: le_encode n' (v / 256)
  end.

Fixpoint le_decode (bs : list Z) : Z :=
  match bs with
  | [] => 0
  | b :: bs' => b + 256 * le_decode bs'
  end.

Definition is_byte (b : Z) : Prop := 0 <= b < 256.
Abbreviation bytes_ok := (Forall is_byte).

Lemma length_le_encode n v : length (le_encode n v) = n.
Proof. revert v; induction n; intros; simpl; [|rewrite IHn]; reflexivity. Qed.

Lemma le_encode_ok n v : bytes_ok (le_encode n v).
Proof.
  revert v; induction n; intros; simpl; constructor; [|apply IHn].
  unfold is_byte. apply Z.mod_pos_bound. lia.
Qed.

Lemma le_decode_encode n v : le_decode (le_encode n v) = v mod 2 ^ (8 * Z.of_nat n).
Proof.
  revert v; induction n as [|n IH]; intros v; simpl le_encode; simpl le_decode.
  - rewrite Z.mod_1_r. reflexivity.
  - rewrite IH. replace (8 * Z.of_nat (S n)) with (8 + 8 * Z.of_nat n) by lia.
    rewrite Z.pow_add_r by lia. change (2 ^ 8) with 256.
    rewrite Z.rem_mul_r by lia. lia.
Qed.

Lemma le_decode_range bs : bytes_ok bs -> 0 <= le_decode bs < 2 ^ (8 * Z.of_nat (length bs)).
Proof.
  induction 1 as [|b bs Hb Hbs IH]; [simpl; lia|].
  simpl le_decode. cbn [length].
  replace (8 * Z.of_nat (S (length bs))) with (8 + 8 * Z.of_nat (length bs)) by lia.
  rewrite Z.pow_add_r by lia. change (2 ^ 8) with 256. unfold is_byte in Hb. lia.
Qed.

Lemma le_encode_decode bs : bytes_ok bs -> le_encode (length bs) (le_decode bs) = bs.
Proof.
  induction 1 as [|b bs Hb Hbs IH]; [reflexivity|].
  unfold is_byte in Hb. cbn [length le_encode le_decode].
  rewrite (Z.mul_comm 256), Z.mod_add, Z.mod_small by lia.
  rewrite Z.div_add, Z.div_small, Z.add_0_l, IH by lia. reflexivity.
Qed.

Lemma le_encode_byte v : le_encode 1 v = [u8 v].
Proof. reflexivity. Qed.

#[export] Hint Resolve le_encode_ok length_le_encode : dc.

(** ** Text

    A string literal of the source is the list of its bytes. *)

Fixpoint text (s : String.string) : list Z :=
  match s with
  | String.EmptyString => []
  | String.String c s' => Z.of_N (Ascii.N_of_ascii c) :: text s'
  end.
Arguments text s%_string_scope.

(** ** Maps *)

Lemma alter_twice {A} (m : gmap Z A) i (f f' : A -> A) : alter f i (alter f' i m) = alter (f ∘ f') i m.
Proof.
  apply map_eq. intros h. destruct (decide (i = h)) as [<-|Hne].
  - rewrite !lookup_alter_eq. by destruct (m !! i).
  - by rewrite !lookup_alter_ne.
Qed.

(** ** Ordered iteration

    [std::map] and [std::set] iterate in key order.  Maps are modelled as
    stdpp's [gmap]; this is the sequence the C++ iterator visits. *)

Definition key_le {A} (p q : Z * A) : Prop := p.1 <= q.1.
#[export] Instance key_le_dec {A} (p q : Z * A) : Decision (key_le p q).
Proof. unfold key_le. apply _. Defined.
#[export] Instance key_le_total {A} : Total (@key_le A).
Proof. intros p q. unfold key_le. lia. Qed.
#[export] Instance key_le_trans {A} : Transitive (@key_le A).
Proof. intros p q r. unfold key_le. lia. Qed.

Definition omap_list {A} (m : gmap Z A) : list (Z * A) := merge_sort key_le (map_to_list m).
Definition oset_list (s : gset Z) : list Z := merge_sort Z.le (elements s).

Lemma omap_list_perm {A} (m : gmap Z A) : omap_list m ≡ₚ map_to_list m.
Proof. apply merge_sort_Permutation. Qed.

Lemma elem_of_omap_list {A} (m : gmap Z A) k x : (k, x) ∈ omap_list m <-> m !! k = Some x.
Proof. rewrite omap_list_perm. apply elem_of_map_to_list. Qed.

Lemma omap_list_sorted {A} (m : gmap Z A) : Sorted key_le (omap_list m).
Proof. apply Sorted_merge_sort, _. Qed.

Lemma omap_list_NoDup {A} (m : gmap Z A) : NoDup (omap_list m).*1.
Proof. rewrite omap_list_perm. apply NoDup_fst_map_to_list. Qed.

Lemma length_omap_list {A} (m : gmap Z A) : length (omap_list m) = size m.
Proof. rewrite omap_list_perm. apply length_map_to_list. Qed.

Lemma omap_list_nil {A} (m : gmap Z A) : omap_list m = [] <-> m = ∅.
Proof.
  rewrite <- (map_to_list_empty_iff m), <- !length_zero_iff_nil, <- omap_list_perm. reflexivity.
Qed.

Lemma elem_of_oset_list (s : gset Z) k : k ∈ oset_list s <-> k ∈ s.
Proof. unfold oset_list. rewrite merge_sort_Permutation. apply elem_of_elements. Qed.

(** ** Filtered lists *)

Lemma Forall_filter_keep {A} (P Q : A -> Prop) `{!forall x, Decision (P x)} (l : list A) :
  Forall Q l -> Forall Q (filter P l).
Proof. rewrite !Forall_forall. intros Hl x [_ Hx]%list_elem_of_filter. by apply Hl. Qed.

(** ** A state monad with an event log

    A handler reads and updates the component's state and emits events (packets
    handed to a session, database statements, calls into other components), in
    the order the code performs them. *)

Definition M (S E A : Type) : Type := S -> A * S * list E.

Section monad.
Context {S E : Type}.

Definition ret {A} (a : A) : M S E A := fun s => (a, s, []).
Definition bind {A B} (m : M S E A) (k : A -> M S E B) : M S E B :=
  fun s => let '(a, s1, e1) := m s in
           let '(b, s2, e2) := k a s1 in (b, s2, e1 ++ e2).
(** [with_state] passes the current state to the continuation, the way a
    method body reads its object's members. *)
Definition with_state {A} (k : S -> M S E A) : M S E A := fun s => k s s.
Definition modify (f : S -> S) : M S E unit := fun s => (tt, f s, []).
Definition emit (e : E) : M S E unit := fun s => (tt, s, [e]).
Definition when (b : bool) (m : M S E unit) : M S E unit := if b then m else ret tt.

Fixpoint for_each {A} (l : list A) (f : A -> M S E unit) : M S E unit :=
  match l with
  | [] => ret tt
  | x :: l' => bind (f x) (fun _ => for_each l' f)
  end.

Definition run_value {A} (m : M S E A) (s : S) : A := (m s).1.1.
Definition run_state {A} (m : M S E A) (s : S) : S := (m s).1.2.
Definition run_log {A} (m : M S E A) (s : S) : list E := (m s).2.
End monad.

Notation "'let!' x := m 'in' k" := (bind m (fun x => k))
  (at level 10, x pattern, m at level 100, k at level 200) : dc_scope.
Notation "m ;; k" := (bind m (fun _ => k))
  (at level 100, k at level 200, right associativity) : dc_scope.

(** Hoare triples over the monad: [Q] relates the value, the final state and
    the events of a run that starts in a state satisfying [P]. *)
Section hoare.
Context {S E : Type}.

Definition triple {A} (P : S -> Prop) (m : M S E A) (Q : A -> S -> list E -> Prop) : Prop :=
  forall s, P s -> Q (run_value m s) (run_state m s) (run_log m s).

(** [keeps I m]: the invariant [I] survives a run of [m]. *)
Definition keeps {A} (I : S -> Prop) (m : M S E A) : Prop :=
  forall s, I s -> I (run_state m s).

(** [pure_state m]: a run of [m] leaves the state as it is. *)
Definition pure_state {A} (m : M S E A) : Prop := forall s, run_state m s = s.

Lemma run_state_bind {A B} (m : M S E A) (k : A -> M S E B) s :
  run_state (bind m k) s = run_state (k (run_value m s)) (run_state m s).
Proof.
  unfold run_state, run_value, bind.
  destruct (m s) as [[a s1] e1]. simpl. destruct (k a s1) as [[b s2] e2]. reflexivity.
Qed.

Lemma run_value_bind {A B} (m : M S E A) (k : A -> M S E B) s :
  run_value (bind m k) s = run_value (k (run_value m s)) (run_state m s).
Proof.
  unfold run_state, run_value, bind.
  destruct (m s) as [[a s1] e1]. simpl. destruct (k a s1) as [[b s2] e2]. reflexivity.
Qed.

Lemma run_log_bind {A B} (m : M S E A) (k : A -> M S E B) s :
  run_log (bind m k) s = run_log m s ++ run_log (k (run_value m s)) (run_state m s).
Proof.
  unfold run_state, run_value, run_log, bind.
  destruct (m s) as [[a s1] e1]. simpl. destruct (k a s1) as [[b s2] e2]. reflexivity.
Qed.

(** A first step that is known to be silent. *)
Lemma bind_silent {A B} (m : M S E A) (k : A -> M S E B) s a s1 :
  m s = (a, s1, []) -> bind m k s = k a s1.
Proof. intros H. unfold bind. rewrite H. by destruct (k a s1) as [[b s2] e2]. Qed.

Lemma keeps_ret {A} I (a : A) : keeps I (ret a).
Proof. intros s H. exact H. Qed.
Lemma keeps_bind {A B} I (m : M S E A) (k : A -> M S E B) :
  keeps I m -> (forall a, keeps I (k a)) -> keeps I (bind m k).
Proof. intros Hm Hk s H. rewrite run_state_bind. apply Hk, Hm, H. Qed.
Lemma keeps_modify I f : (forall s, I s -> I (f s)) -> keeps I (modify f).
Proof. intros H s Hs. apply H, Hs. Qed.
Lemma keeps_emit I (e : E) : keeps I (emit e).
Proof. intros s H. exact H. Qed.
Lemma keeps_when I b (m : M S E unit) : keeps I m -> keeps I (when b m).
Proof. intros H. destruct b; [exact H | apply keeps_ret]. Qed.
Lemma keeps_for_each {A} I (l : list A) (f : A -> M S E unit) :
  (forall x, x ∈ l -> keeps I (f x)) -> keeps I (for_each l f).
Proof.
  induction l as [|x l IH]; intros H; [apply keeps_ret|].
  apply keeps_bind; [apply H; left|]. intros _. apply IH. intros y Hy. apply H. right; exact Hy.
Qed.
(** The state read by [with_state] may be assumed to satisfy the invariant. *)
Lemma keeps_with_state {A} I (k : S -> M S E A) :
  (forall s, I s -> keeps (fun s' => I s') (k s)) -> keeps I (with_state k).
Proof. intros H s Hs. exact (H s Hs s Hs). Qed.

Lemma pure_ret {A} (a : A) : pure_state (ret a).
Proof. intros s. reflexivity. Qed.
Lemma pure_emit (e : E) : pure_state (emit e).
Proof. intros s. reflexivity. Qed.
Lemma pure_bind {A B} (m : M S E A) (k : A -> M S E B) :
  pure_state m -> (forall a, pure_state (k a)) -> pure_state (bind m k).
Proof. intros Hm Hk s. rewrite run_state_bind, Hk. apply Hm. Qed.
Lemma pure_when b (m : M S E unit) : pure_state m -> pure_state (when b m).
Proof. intros H. destruct b; [exact H | apply pure_ret]. Qed.
Lemma pure_for_each {A} (l : list A) (f : A -> M S E unit) :
  (forall x, pure_state (f x)) -> pure_state (for_each l f).
Proof.
  intros H. induction l as [|x l IH]; [apply pure_ret|].
  apply pure_bind; [apply H|]. intros _. exact IH.
Qed.
Lemma pure_with_state {A} (k : S -> M S E A) :
  (forall s, pure_state (k s)) -> pure_state (with_state k).
Proof. intros H s. apply H. Qed.
Lemma pure_keeps {A} I (m : M S E A) : pure_state m -> keeps I m.
Proof. intros H s Hs. rewrite H. exact Hs. Qed.

Lemma run_log_for_each_pure {A} (l : list A) (f : A -> M S E unit) s :
  (forall x, pure_state (f x)) ->
  run_log (for_each l f) s = concat ((fun x => run_log (f x) s) <$> l).
Proof.
  intros Hf. induction l as [|x l IH]; [reflexivity|].
  cbn [for_each]. rewrite run_log_bind, Hf, IH. reflexivity.
Qed.
End hoare.

#[export] Hint Resolve keeps_ret keeps_emit keeps_bind keeps_when keeps_for_each
  pure_ret pure_emit pure_bind pure_when pure_for_each pure_with_state : dc.
#[export] Hint Rewrite @run_state_bind @run_value_bind @run_log_bind : dc_run.

Section run.
Context {S E : Type}.
Lemma rs_ret {A} (a : A) (s : S) : run_state (ret (E := E) a) s = s.
Proof. reflexivity. Qed.
Lemma rs_emit (e : E) (s : S) : run_state (emit e) s = s.
Proof. reflexivity. Qed.
Lemma rs_modify (f : S -> S) (s : S) : run_state (modify (E := E) f) s = f s.
Proof. reflexivity. Qed.
Lemma rs_with_state {A} (k : S -> M S E A) (s : S) :
  run_state (with_state k) s = run_state (k s) s.
Proof. reflexivity. Qed.
Lemma rs_when b (m : M S E unit) (s : S) :
  run_state (when b m) s = if b then run_state m s else s.
Proof. destruct b; reflexivity. Qed.
Lemma rs_if {A} (b : bool) (m n : M S E A) (s : S) :
  run_state (if b then m else n) s = if b then run_state m s else run_state n s.
Proof. destruct b; reflexivity. Qed.
Lemma rv_ret {A} (a : A) (s : S) : run_value (ret (E := E) a) s = a.
Proof. reflexivity. Qed.
Lemma rv_with_state {A} (k : S -> M S E A) (s : S) :
  run_value (with_state k) s = run_value (k s) s.
Proof. reflexivity. Qed.
Lemma rl_ret {A} (a : A) (s : S) : run_log (ret (E := E) a) s = [].
Proof. reflexivity. Qed.
Lemma rl_emit (e : E) (s : S) : run_log (emit e) s = [e].
Proof. reflexivity. Qed.
Lemma rl_modify (f : S -> S) (s : S) : run_log (modify (E := E) f) s = [].
Proof. reflexivity. Qed.
Lemma rl_with_state {A} (k : S -> M S E A) (s : S) :
  run_log (with_state k) s = run_log (k s) s.
Proof. reflexivity. Qed.
Lemma rl_when b (m : M S E unit) (s : S) :
  run_log (when b m) s = if b then run_log m s else [].
Proof. destruct b; reflexivity. Qed.
End run.

#[export] Hint Rewrite @rs_ret @rs_emit @rs_modify @rs_with_state @rs_when
  @rl_ret @rl_emit @rl_modify @rl_with_state @rl_when : dc_run.

(** [run_simp] executes a monadic program symbolically; [run_cases] also splits
    on the conditions it meets. *)
Ltac run_simp := repeat (autorewrite with dc_run; cbn beta iota).
Ltac run_cases := run_simp; repeat (case_match; run_simp).

(** ** Sums over finite maps *)

Definition msum {K} `{CK : Countable K} {A} (f : A -> Z) (m : gmap K A) : Z := map_fold (fun _ a acc => f a + acc) 0 m.

Section msum.
Context {K} `{CK : Countable K} {A : Type} (f : A -> Z).
Implicit Types m : gmap K A.

Lemma msum_empty : msum f (∅ : gmap K A) = 0.
Proof. apply map_fold_empty. Qed.
Lemma msum_insert_new m k a : m !! k = None -> msum f (<[k := a]> m) = f a + msum f m.
Proof. intros Hk. unfold msum. rewrite map_fold_insert_L; [done | intros; lia | done]. Qed.
Lemma msum_delete m k a : m !! k = Some a -> msum f (delete k m) = msum f m - f a.
Proof.
  intros Hk. unfold msum. rewrite (map_fold_delete_L _ 0 k a m); [lia | intros; lia | done].
Qed.
Lemma msum_insert m k a b : m !! k = Some a -> msum f (<[k := b]> m) = msum f m - f a + f b.
Proof.
  intros Hk. rewrite <- insert_delete_eq, msum_insert_new by apply lookup_delete_eq.
  rewrite (msum_delete m k a) by done. lia.
Qed.
Lemma msum_alter m k a g : m !! k = Some a -> msum f (alter g k m) = msum f m - f a + f (g a).
Proof.
  intros Hk. replace (alter g k m) with (<[k := g a]> m); [by apply msum_insert|].
  apply map_eq. intros j. destruct (decide (k = j)) as [<-|Hj].
  - by rewrite lookup_insert_eq, lookup_alter_eq, Hk.
  - by rewrite lookup_insert_ne, lookup_alter_ne by done.
Qed.

Lemma msum_ind (P : gmap K A -> Z -> Prop) :
  P ∅ 0 -> (forall k a m, m !! k = None -> P m (msum f m) -> P (<[k := a]> m) (f a + msum f m)) ->
  forall m, P m (msum f m).
Proof.
  intros H0 Hi m. induction m as [|k a m Hk IH] using map_ind; [by rewrite msum_empty|].
  rewrite msum_insert_new by done. auto.
Qed.

Definition all_nonneg m : Prop := forall k a, m !! k = Some a -> 0 <= f a.
Lemma all_nonneg_tail m k a : m !! k = None -> all_nonneg (<[k := a]> m) -> 0 <= f a /\ all_nonneg m.
Proof.
  intros Hk H. split; [apply (H k a), lookup_insert_eq|].
  intros j b Hj. apply (H j b). rewrite lookup_insert_ne by congruence. done.
Qed.
Lemma msum_nonneg m : all_nonneg m -> 0 <= msum f m.
Proof.
  apply (msum_ind (fun m t => all_nonneg m -> 0 <= t)); [lia|].
  intros k a m' Hk IH H. apply all_nonneg_tail in H as [Ha H]; [|done]. specialize (IH H). lia.
Qed.
Lemma msum_filter_le (P : K * A -> Prop) `{!forall x, Decision (P x)} m :
  all_nonneg m -> msum f (filter P m) <= msum f m.
Proof.
  apply (msum_ind (fun m t => all_nonneg m -> msum f (filter P m) <= t)).
  - intros _. rewrite map_filter_empty, msum_empty. lia.
  - intros k a m' Hk IH Hnn. apply all_nonneg_tail in Hnn as [Ha Hnn]; [|done]. specialize (IH Hnn).
    destruct (decide (P (k, a))) as [Hp|Hp].
    + rewrite map_filter_insert_True by done.
      rewrite msum_insert_new; [lia|]. apply map_lookup_filter_None. by left.
    + rewrite map_filter_insert_not' by (try done; intros ? E; congruence). lia.
Qed.
Lemma msum_delete_le m k : all_nonneg m -> msum f (delete k m) <= msum f m.
Proof.
  intros H. destruct (m !! k) as [a|] eqn:E.
  - rewrite (msum_delete m k a) by done. specialize (H k a E). lia.
  - rewrite delete_id by done. lia.
Qed.
Lemma msum_elem m k a : all_nonneg m -> m !! k = Some a -> f a <= msum f m.
Proof.
  intros Hn Hk. pose proof (msum_delete m k a Hk). assert (0 <= msum f (delete k m)); [|lia].
  apply msum_nonneg. intros j b [_ Hj]%lookup_delete_Some. by apply (Hn j).
Qed.
End msum.
Lemma msum_ext {K} `{CK : Countable K} {A} (f h : A -> Z) (m : gmap K A) :
  (forall k a, m !! k = Some a -> f a = h a) -> msum f m = msum h m.
Proof.
  induction m as [|k a m Hk IH] using map_ind; intros Hf; [done|]. rewrite !msum_insert_new by done.
  rewrite (Hf k a) by apply lookup_insert_eq. f_equal. apply IH. intros j b Hj. apply (Hf j b).
  rewrite lookup_insert_ne; [done | congruence].
Qed.
Lemma msum_fmap {K} `{CK : Countable K} {A B} (h : A -> B) (f : B -> Z) (m : gmap K A) :
  msum f (h <$> m) = msum (fun a => f (h a)) m.
Proof.
  induction m as [|k a m Hk IH] using map_ind; [by rewrite fmap_empty, !msum_empty|].
  rewrite fmap_insert, !msum_insert_new by (try done; by rewrite lookup_fmap, Hk). lia.
Qed.

(** *** What a program does to the state

    [runs R m]: whatever state the program starts in, the state it leaves is related
    to it by the preorder [R]; [frames π m] is the case where [R] compares a part
    [π] of the two. *)
Create HintDb runs.
Definition runs {S E A} (R : S -> S -> Prop) (m : M S E A) : Prop := forall s, R s (run_state m s).
Definition frames {S E A X} (π : S -> X) (m : M S E A) : Prop := runs (fun s s' => π s' = π s) m.

Section runs.
Context {S E : Type} (R : S -> S -> Prop) `{!PreOrder R}.

Lemma runs_ret {A} (a : A) : runs R (ret (E := E) a).
Proof. intros s. reflexivity. Qed.
Lemma runs_emit (e : E) : runs R (emit e).
Proof. intros s. reflexivity. Qed.
Lemma runs_bind {A B} (m : M S E A) (k : A -> M S E B) : runs R m -> (forall a, runs R (k a)) -> runs R (bind m k).
Proof. intros Hm Hk s. rewrite run_state_bind. etransitivity; [apply Hm | apply Hk]. Qed.
Lemma runs_when b (m : M S E unit) : runs R m -> runs R (when b m).
Proof. destruct b; [done | intros _; apply runs_ret]. Qed.
Lemma runs_if {A} (b : bool) (m n : M S E A) : runs R m -> runs R n -> runs R (if b then m else n).
Proof. by destruct b. Qed.
Lemma runs_with_state {A} (k : S -> M S E A) : (forall s, runs R (k s)) -> runs R (with_state k).
Proof. intros Hk s. apply Hk. Qed.
Lemma runs_for_each {A} (l : list A) (f : A -> M S E unit) : (forall x, runs R (f x)) -> runs R (for_each l f).
Proof. intros Hf. induction l as [|x l IH]; [apply runs_ret | by apply runs_bind]. Qed.
Lemma runs_modify f : (forall s, R s (f s)) -> runs R (modify (E := E) f).
Proof. intros Hf s. apply Hf. Qed.
End runs.
#[export] Instance frames_preorder {S X} (π : S -> X) : PreOrder (fun s s' => π s' = π s).
Proof. split; [intros s; reflexivity | intros s1 s2 s3 H1 H2; congruence]. Qed.
Lemma runs_weaken {S E A} (R R' : S -> S -> Prop) (m : M S E A) :
  (forall s s', R s s' -> R' s s') -> runs R m -> runs R' m.
Proof. intros HR Hm s. apply HR, Hm. Qed.
