(* ===== verification/Text.v ===== *)
(** * Text utilities

    The string functions of src/src/server/shared/Utilities/Util.cpp and Util.h
    (tokens, durations, hexadecimal, UTF-8 conversion, case mapping, scripts)
    and the name checks of ObjectMgr.cpp built on them.  A [std::string] is the
    list of its bytes, a [std::wstring] the list of its [wchar_t] values.

    The conversions between UTF-8 and UTF-16 are the library utf8cpp: they enter
    as a class [Utf8Lib] of parameters. *)
From S2P Require Import Prelude.

(** ** C strings and decimal text *)

Definition SPACE : Z := 32.

(** [c_str]: the bytes of a C string, up to the first zero. *)
Fixpoint c_str (s : list Z) : list Z :=
  match s with
  | [] => []
  | c :: s' => if c =? 0 then [] else c :: c_str s'
  end.

Fixpoint dec_digits (fuel : nat) (n : Z) (acc : list Z) : list Z :=
  match fuel with
  | O => acc
  | S fuel' =>
      let acc' := (48 + n mod 10) :: acc in
      if n / 10 =? 0 then acc' else dec_digits fuel' (n / 10) acc'
  end.
(** [ostream << uint64]: at most 20 digits. *)
Definition dec_string (n : Z) : list Z := dec_digits 20 n [].

(** [atol] on a 64-bit [long]: white space, a sign, the digits up to the first
    other character; a value out of range saturates, as [strtol] does. *)
Fixpoint atol_digits (acc : Z) (s : list Z) : Z :=
  match s with
  | c :: s' => if (48 <=? c) && (c <=? 57) then atol_digits (acc * 10 + (c - 48)) s' else acc
  | [] => acc
  end.
Fixpoint skip_space (s : list Z) : list Z :=
  match s with
  | c :: s' => if (c =? SPACE) || ((9 <=? c) && (c <=? 13)) then skip_space s' else s
  | [] => []
  end.
Definition atol (s : list Z) : Z :=
  match skip_space s with
  | 45 :: s' => Z.max (- atol_digits 0 s') (- 2 ^ 63)
  | 43 :: s' => Z.min (atol_digits 0 s') (2 ^ 63 - 1)
  | s' => Z.min (atol_digits 0 s') (2 ^ 63 - 1)
  end.

(** [Tokens(src, sep)]: the pieces between separators, up to the first zero
    byte; an empty last piece is dropped. *)
Fixpoint Tokens_loop (sep : Z) (posold : list Z) (src : list Z) : list (list Z) :=
  match src with
  | [] => match posold with [] => [] | _ => [posold] end
  | c :: src' => if c =? sep then posold :: Tokens_loop sep [] src'
                 else if c =? 0 then match posold with [] => [] | _ => [posold] end
                 else Tokens_loop sep (posold ++ [c]) src'
  end.
Definition Tokens (src : list Z) (sep : Z) : list (list Z) := Tokens_loop sep [] src.

(** ** [stripLineInvisibleChars] *)

(** Blank, tab, bell, line feed. *)
Definition invChars : list Z := [32; 9; 7; 10].
Definition invisible (c : Z) : bool := bool_decide (c ∈ invChars).

(** The loop: [str[0..wpos)] is the text kept so far, [space] whether it ends a
    run of invisible characters. *)
Fixpoint strip_loop (space : bool) (str : list Z) : list Z :=
  match str with
  | [] => []
  | c :: str' =>
      if invisible c then (if negb space then SPACE :: strip_loop true str' else strip_loop space str')
      else c :: strip_loop false str'
  end.

Fixpoint is_prefix_of (p s : list Z) : bool :=
  match p, s with
  | [], _ => true
  | x :: p', y :: s' => (x =? y) && is_prefix_of p' s'
  | _ :: _, [] => false
  end.
(** [str.find(sub) != npos]. *)
Fixpoint contains (sub str : list Z) : bool :=
  is_prefix_of sub str || match str with [] => false | _ :: str' => contains sub str' end.

Definition TInterface : list Z := text "|TInterface".

Definition stripLineInvisibleChars (str : list Z) : list Z :=
  let str := strip_loop false str in
  if contains TInterface str then [] else str.

(** ** Durations *)

Definition MINUTE : Z := 60.
Definition HOUR : Z := MINUTE * 60.
Definition DAY : Z := HOUR * 24.

Definition secsToTimeString (timeInSecs : Z) (shortText hoursOnly : bool) : list Z :=
  let secs := timeInSecs mod MINUTE in
  let minutes := timeInSecs mod HOUR / MINUTE in
  let hours := timeInSecs mod DAY / HOUR in
  let days := timeInSecs / DAY in
  (if negb (days =? 0) then dec_string days ++ text (if shortText then "d" else " Day(s) ") else []) ++
  (if negb (hours =? 0) || hoursOnly
   then dec_string hours ++ text (if shortText then "h" else " Hour(s) ") else []) ++
  (if negb hoursOnly then
     (if negb (minutes =? 0)
      then dec_string minutes ++ text (if shortText then "m" else " Minute(s) ") else []) ++
     (if negb (secs =? 0) || ((days =? 0) && (hours =? 0) && (minutes =? 0))
      then dec_string secs ++ text (if shortText then "s" else " Second(s).") else [])
   else []).

Definition isdigit (c : Z) : bool := (48 <=? c) && (c <=? 57).

(** One unit letter of [TimeStringToSecs]. *)
Definition multiplier_of (c : Z) : option Z :=
  if c =? 100 then Some DAY
  else if c =? 104 then Some HOUR
  else if c =? 109 then Some MINUTE
  else if c =? 115 then Some 1
  else None.

Fixpoint TimeStringToSecs_loop (secs buffer : Z) (timestring : list Z) : Z :=
  match timestring with
  | [] => secs
  | c :: rest =>
      if isdigit c then TimeStringToSecs_loop secs (u32 (u32 (buffer * 10) + (c - 48))) rest
      else match multiplier_of c with
           | None => 0
           | Some multiplier => TimeStringToSecs_loop (u32 (secs + u32 (buffer * multiplier))) 0 rest
           end
  end.
Definition TimeStringToSecs (timestring : list Z) : Z := TimeStringToSecs_loop 0 0 timestring.

(** ** Hexadecimal *)

Definition encodedNibble (nibble : Z) : Z :=
  if nibble <? 0x0A then 48 + nibble else 65 + nibble - 0x0A.
Definition hexEncodeByteArray (bytes : list Z) : list Z :=
  concat ((fun b => [encodedNibble (Z.land 0x0F (Z.shiftr b 4));
                     encodedNibble (Z.land 0x0F (Z.shiftr b 0))]) <$> bytes).

(** ** Scripts and case *)

Definition in_range (lo hi c : Z) : bool := (lo <=? c) && (c <=? hi).

Definition isBasicLatinCharacter (c : Z) : bool := in_range 97 122 c || in_range 65 90 c.

Definition isExtendedLatinCharacter (c : Z) : bool :=
  isBasicLatinCharacter c || in_range 0x00C0 0x00D6 c || in_range 0x00D8 0x00DF c ||
  (c =? 0x00DF) || in_range 0x00E0 0x00F6 c || in_range 0x00F8 0x00FE c ||
  in_range 0x0100 0x012F c || (c =? 0x1E9E).

Definition isCyrillicCharacter (c : Z) : bool :=
  in_range 0x0410 0x044F c || ((c =? 0x0401) || (c =? 0x0451)).

Definition isEastAsianCharacter (c : Z) : bool :=
  in_range 0x1100 0x11F9 c || in_range 0x3041 0x30FF c || in_range 0x3131 0x318E c ||
  in_range 0x31F0 0x31FF c || in_range 0x3400 0x4DB5 c || in_range 0x4E00 0x9FC3 c ||
  in_range 0xAC00 0xD7A3 c || in_range 0xFF01 0xFFEE c.

Definition isNumeric (c : Z) : bool := in_range 48 57 c.
Definition isNumericOrSpace (c : Z) : bool := isNumeric c || (c =? 32).

(** The four [is...String] loops. *)
Definition all_script (is_char : Z -> bool) (wstr : list Z) (numericOrSpace : bool) : bool :=
  forallb (fun c => negb (negb (is_char c) && (negb numericOrSpace || negb (isNumericOrSpace c)))) wstr.
Definition isBasicLatinString := all_script isBasicLatinCharacter.
Definition isExtendedLatinString := all_script isExtendedLatinCharacter.
Definition isCyrillicString := all_script isCyrillicCharacter.
Definition isEastAsianString := all_script isEastAsianCharacter.

Definition wcharToUpper (c : Z) : Z :=
  if in_range 97 122 c then u16 c - 0x0020
  else if c =? 0x00DF then 0x1E9E
  else if in_range 0x00E0 0x00F6 c then u16 c - 0x0020
  else if in_range 0x00F8 0x00FE c then u16 c - 0x0020
  else if in_range 0x0101 0x012F c && (c mod 2 =? 1) then u16 c - 0x0001
  else if in_range 0x0430 0x044F c then u16 c - 0x0020
  else if c =? 0x0451 then 0x0401
  else c.

Definition wcharToLower (c : Z) : Z :=
  if in_range 65 90 c then u16 c + 0x0020
  else if in_range 0x00C0 0x00D6 c then u16 c + 0x0020
  else if in_range 0x00D8 0x00DE c then u16 c + 0x0020
  else if in_range 0x0100 0x012E c && (c mod 2 =? 0) then u16 c + 0x0001
  else if c =? 0x1E9E then 0x00DF
  else if c =? 0x0401 then 0x0451
  else if in_range 0x0410 0x042F c then u16 c + 0x0020
  else c.

Definition wstrToLower (str : list Z) : list Z := wcharToLower <$> str.
Definition wstrToUpper (str : list Z) : list Z := wcharToUpper <$> str.

(** [GetMainPartOfName]: [None] is the [std::out_of_range] that
    [wname.substr(wname.size() - len, len)] throws when the subtraction wraps. *)
Definition dropEnds (declension : Z) : list (list Z) :=
  nth (Z.to_nat declension)
    [[[0x0430]; [0x043E]; [0x044F]; [0x0435]; [0x044C]; [0x0439]];
     [[0x0430]; [0x044F]; [0x044B]; [0x0438]];
     [[0x0435]; [0x0443]; [0x044E]; [0x0438]];
     [[0x0443]; [0x044E]; [0x043E]; [0x0435]; [0x044C]; [0x044F]; [0x0430]];
     [[0x043E; 0x0439]; [0x0451; 0x0439]; [0x0435; 0x0439]; [0x043E; 0x043C]; [0x0451; 0x043C];
      [0x0435; 0x043C]; [0x044E]];
     [[0x0435]; [0x0438]]] [].

Fixpoint drop_ends_loop (wname : list Z) (ends : list (list Z)) : option (list Z) :=
  match ends with
  | [] => Some wname
  | e :: ends' =>
      if (length wname <? length e)%nat then None
      else if bool_decide (drop (length wname - length e) wname = e)
           then Some (take (length wname - length e) wname)
           else drop_ends_loop wname ends'
  end.

Definition GetMainPartOfName (wname : list Z) (declension : Z) : option (list Z) :=
  match wname with
  | [] => Some wname
  | c :: _ =>
      if negb (isCyrillicCharacter c) || (5 <? declension) then Some wname
      else drop_ends_loop wname (dropEnds declension)
  end.

(** ** UTF-8 *)

(** utf8cpp: [None] is an exception. [utf8_distance] counts code points. *)
Class Utf8Lib := {
  utf8_distance : list Z -> option Z;
  utf8to16 : list Z -> option (list Z);
  utf16to8 : list Z -> option (list Z)
}.

(** A conversion into a buffer: the text, a failure reported to the caller, or a
    write past the end of the buffer. *)
Inductive conv (A : Type) :=
| Conv (a : A)
| ConvFailed
| ConvOverflow.
Arguments Conv {A} a.
Arguments ConvFailed {A}.
Arguments ConvOverflow {A}.

Section utf8.
Context `{Utf8Lib}.

(** [Utf8toWStr(std::string, std::wstring&)]: the target is resized to the number
    of code points, then written. *)
Definition Utf8toWStr (utf8str : list Z) : conv (list Z) :=
  match utf8_distance utf8str with
  | None => ConvFailed
  | Some len =>
      if len =? 0 then Conv []
      else match utf8to16 utf8str with
           | None => ConvFailed
           | Some w => if Z.of_nat (length w) <=? len
                       then Conv (w ++ replicate (Z.to_nat len - length w) 0)
                       else ConvOverflow
           end
  end.

(** [Utf8toWStr(utf8str, wstr, wsize)] with room for [wsize] characters and a
    final zero: the text up to the returned length. *)
Definition Utf8toWStr_buf (wsize : Z) (utf8str : list Z) : conv (list Z) :=
  match utf8_distance utf8str with
  | None => ConvFailed
  | Some len =>
      if wsize <? len then ConvFailed
      else match utf8to16 utf8str with
           | None => ConvFailed
           | Some w => if Z.of_nat (length w) <=? wsize + 1
                       then Conv (take (Z.to_nat len) w)
                       else ConvOverflow
           end
  end.

Definition WStrToUtf8 (wstr : list Z) : option (list Z) :=
  match wstr with [] => Some [] | _ => utf16to8 wstr end.

(** [utf8length]: the length and the string, emptied when invalid. *)
Definition utf8length (utf8str : list Z) : Z * list Z :=
  match utf8_distance utf8str with Some n => (n, utf8str) | None => (0, []) end.

Definition utf8truncate (utf8str : list Z) (len : Z) : conv (list Z) :=
  match utf8_distance utf8str with
  | None => Conv []
  | Some wlen =>
      if wlen <=? len then Conv utf8str
      else match utf8to16 utf8str with
           | None => Conv []
           | Some w =>
               if Z.of_nat (length w) <=? wlen then
                 match utf16to8 (take (Z.to_nat len) (w ++ replicate (Z.to_nat wlen - length w) 0)) with
                 | Some s => Conv s
                 | None => Conv []
                 end
               else ConvOverflow
           end
  end.

(** ** Player names *)

Definition MAX_INTERNAL_PLAYER_NAME : Z := 15.
Definition MAX_PLAYER_NAME : Z := 12.

Definition capitalise (wstr : list Z) : list Z :=
  match wstr with
  | [] => []
  | c :: rest => wcharToUpper c :: (wcharToLower <$> rest)
  end.

(** [normalizePlayerName]: [ConvFailed] is its [false]. *)
Definition normalizePlayerName (name : list Z) : conv (list Z) :=
  match name with
  | [] => ConvFailed
  | _ => match Utf8toWStr_buf MAX_INTERNAL_PLAYER_NAME name with
         | Conv w => match WStrToUtf8 (capitalise w) with Some s => Conv s | None => ConvFailed end
         | ConvFailed => ConvFailed
         | ConvOverflow => ConvOverflow
         end
  end.

Definition LT_BASIC_LATIN : Z := 0x0000.
Definition LT_EXTENDEN_LATIN : Z := 0x0001.
Definition LT_CYRILLIC : Z := 0x0002.
Definition LT_EAST_ASIA : Z := 0x0004.
Definition LT_ANY : Z := 0xFFFF.

(** [GetRealmLanguageType]: [zone] is [CONFIG_REALM_ZONE]. *)
Definition GetRealmLanguageType (zone : Z) (create : bool) : Z :=
  if bool_decide (zone ∈ [0; 1; 26; 28]) then LT_ANY
  else if bool_decide (zone ∈ [2; 3; 4; 8; 9; 10; 11]) then LT_EXTENDEN_LATIN
  else if bool_decide (zone ∈ [6; 14; 16]) then LT_EAST_ASIA
  else if zone =? 12 then LT_CYRILLIC
  else if create then LT_BASIC_LATIN else LT_ANY.

Definition isValidString (zone : Z) (wstr : list Z) (strictMask : Z) (numericOrSpace create : bool) : bool :=
  if strictMask =? 0 then
    isExtendedLatinString wstr numericOrSpace || isCyrillicString wstr numericOrSpace ||
    isEastAsianString wstr numericOrSpace
  else
    (has_flag strictMask 0x2 &&
     let lt := GetRealmLanguageType zone create in
     ((has_flag lt LT_EXTENDEN_LATIN && isExtendedLatinString wstr numericOrSpace) ||
      (has_flag lt LT_CYRILLIC && isCyrillicString wstr numericOrSpace) ||
      (has_flag lt LT_EAST_ASIA && isEastAsianString wstr numericOrSpace))) ||
    (has_flag strictMask 0x1 && isBasicLatinString wstr numericOrSpace).

(** The configuration the name checks read. *)
Record NameConfig := mkNameConfig {
  CONFIG_REALM_ZONE : Z;
  CONFIG_MIN_PLAYER_NAME : Z;
  CONFIG_STRICT_PLAYER_NAMES : Z
}.

Definition CHAR_NAME_SUCCESS : Z := 0x57.
Definition CHAR_NAME_TOO_SHORT : Z := 0x5A.
Definition CHAR_NAME_TOO_LONG : Z := 0x5B.
Definition CHAR_NAME_INVALID_CHARACTER : Z := 0x5C.
Definition CHAR_NAME_MIXED_LANGUAGES : Z := 0x5D.

Definition CheckPlayerName (cfg : NameConfig) (name : list Z) (create : bool) : conv Z :=
  match Utf8toWStr name with
  | ConvFailed => Conv CHAR_NAME_INVALID_CHARACTER
  | ConvOverflow => ConvOverflow
  | Conv wname =>
      let size := Z.of_nat (length wname) in
      Conv (if MAX_PLAYER_NAME <? size then CHAR_NAME_TOO_LONG
            else if size <? CONFIG_MIN_PLAYER_NAME cfg then CHAR_NAME_TOO_SHORT
            else if negb (isValidString (CONFIG_REALM_ZONE cfg) wname
                            (CONFIG_STRICT_PLAYER_NAMES cfg) false create)
            then CHAR_NAME_MIXED_LANGUAGES
            else CHAR_NAME_SUCCESS)
  end.

Definition IsReservedName (m_ReservedNames : gset (list Z)) (name : list Z) : conv bool :=
  match Utf8toWStr name with
  | ConvFailed => Conv false
  | ConvOverflow => ConvOverflow
  | Conv w => Conv (bool_decide (wstrToLower w ∈ m_ReservedNames))
  end.

Definition Utf8FitTo (str search : list Z) : conv bool :=
  match Utf8toWStr str with
  | ConvFailed => Conv false
  | ConvOverflow => ConvOverflow
  | Conv temp => Conv (contains search (wstrToLower temp))
  end.
End utf8.

(** ** Decimal text: lemmas *)

Lemma dec_digits_app fuel n acc : dec_digits fuel n acc = dec_digits fuel n [] ++ acc.
Proof.
  revert n acc. induction fuel as [|f IH]; intros n acc; [reflexivity|]. cbn [dec_digits].
  destruct (n / 10 =? 0); [reflexivity|].
  rewrite IH, (IH _ [_]), <- app_assoc. reflexivity.
Qed.

Definition is_digit (c : Z) : Prop := 48 <= c <= 57.

Lemma dec_digits_digits fuel n acc :
  Forall is_digit acc -> Forall is_digit (dec_digits fuel n acc).
Proof.
  revert n acc. induction fuel as [|f IH]; intros n acc H; [exact H|]. cbn [dec_digits].
  assert (H' : Forall is_digit ((48 + n mod 10) :: acc)).
  { constructor; [unfold is_digit; pose proof (Z.mod_pos_bound n 10); lia | exact H]. }
  destruct (n / 10 =? 0); [exact H' | by apply IH].
Qed.

Lemma atol_digits_app acc s t :
  Forall is_digit s -> atol_digits acc (s ++ t) = atol_digits (atol_digits acc s) t.
Proof.
  intros H. revert acc. induction H as [|d s Hd Hs IH]; intros acc; [reflexivity|].
  unfold is_digit in Hd. cbn [app atol_digits].
  rewrite !(proj2 (Z.leb_le _ _)) by lia. cbn [andb]. apply IH.
Qed.

Lemma atol_digits_dec fuel n :
  0 <= n < 10 ^ Z.of_nat fuel -> (fuel <> O) -> atol_digits 0 (dec_digits fuel n []) = n.
Proof.
  revert n. induction fuel as [|f IH]; intros n Hn Hf; [done|]. cbn [dec_digits].
  pose proof (Z.mod_pos_bound n 10 ltac:(lia)) as Hm.
  pose proof (Z.div_mod n 10 ltac:(lia)) as Hd.
  assert (Hlast : forall a, atol_digits a [48 + n mod 10] = a * 10 + n mod 10).
  { intros a. cbn [atol_digits]. rewrite !(proj2 (Z.leb_le _ _)) by lia. cbn [andb]. lia. }
  destruct (Z.eqb_spec (n / 10) 0) as [E|E].
  - rewrite Hlast. lia.
  - rewrite dec_digits_app. rewrite atol_digits_app by (apply dec_digits_digits; constructor).
    rewrite IH, Hlast; [lia| |].
    + split; [apply Z.div_pos; lia|]. apply Z.div_lt_upper_bound; [lia|].
      rewrite Nat2Z.inj_succ, Z.pow_succ_r in Hn by lia. lia.
    + intros ->. simpl in Hn. lia.
Qed.

Lemma dec_string_digits n : Forall is_digit (dec_string n).
Proof. apply dec_digits_digits. constructor. Qed.

Lemma atol_dec_string n : 0 <= n < 2 ^ 63 -> atol (dec_string n) = n.
Proof.
  intros Hn. pose proof (dec_string_digits n) as Hd.
  assert (Hv : atol_digits 0 (dec_string n) = n).
  { apply atol_digits_dec; [|done]. change (10 ^ Z.of_nat 20) with 100000000000000000000. lia. }
  unfold atol. destruct Hd as [|d s Hd Hs]; [simpl in *; lia|]. unfold is_digit in Hd.
  cbn [skip_space]. unfold SPACE. rewrite (proj2 (Z.eqb_neq d 32)), (proj2 (Z.leb_gt d 13)) by lia.
  rewrite andb_false_r. cbn [orb].
  assert (Hm : Z.min (atol_digits 0 (d :: s)) (2 ^ 63 - 1) = n) by lia.
  etransitivity; [|exact Hm]. clear -Hd.
  destruct d as [|d|d]; [reflexivity| |lia].
  do 6 (destruct d as [d|d|]; try reflexivity; try lia).
Qed.

Lemma Tokens_loop_word sep pre w rest :
  sep ∉ w -> 0 ∉ w -> Tokens_loop sep pre (w ++ sep :: rest) = (pre ++ w) :: Tokens_loop sep [] rest.
Proof.
  revert pre. induction w as [|c w IH]; intros pre Hw H0; cbn [app Tokens_loop].
  - rewrite Z.eqb_refl, app_nil_r. reflexivity.
  - rewrite (proj2 (Z.eqb_neq c sep)), (proj2 (Z.eqb_neq c 0)) by set_solver. rewrite IH by set_solver.
    rewrite <- app_assoc. reflexivity.
Qed.

Lemma Tokens_words ws :
  Forall (fun w => (SPACE ∉ w) /\ (0 ∉ w)) ws -> Tokens (concat ((fun w => w ++ [SPACE]) <$> ws)) SPACE = ws.
Proof.
  unfold Tokens. induction 1 as [|w ws [Hw H0] _ IH]; [reflexivity|].
  cbn [fmap list_fmap concat]. rewrite <- app_assoc. cbn [app].
  rewrite Tokens_loop_word by assumption. by rewrite IH.
Qed.

(** ** Durations: round trip *)

Lemma atol_digits_mono ds acc : Forall is_digit ds -> 0 <= acc -> acc <= atol_digits acc ds.
Proof.
  intros H. revert acc. induction H as [|d ds Hd _ IH]; intros acc Ha; [simpl; lia|].
  unfold is_digit in Hd. cbn [atol_digits].
  rewrite !(proj2 (Z.leb_le _ _)) by lia. cbn [andb].
  specialize (IH (acc * 10 + (d - 48)) ltac:(lia)). lia.
Qed.

Lemma parse_digits secs ds buffer rest :
  Forall is_digit ds -> 0 <= buffer -> atol_digits buffer ds < 2 ^ 32 ->
  TimeStringToSecs_loop secs buffer (ds ++ rest) =
  TimeStringToSecs_loop secs (atol_digits buffer ds) rest.
Proof.
  intros H. revert buffer. induction H as [|d ds Hd Hds IH]; intros b Hb Hlt; [reflexivity|].
  unfold is_digit in Hd. cbn [app TimeStringToSecs_loop]. cbn [atol_digits] in *.
  unfold isdigit. rewrite !(proj2 (Z.leb_le _ _)) in * by lia. cbn [andb] in *.
  pose proof (atol_digits_mono ds (b * 10 + (d - 48)) Hds ltac:(lia)).
  rewrite (uwrap_id 32 (b * 10)), uwrap_id by (unfold in_u; lia). apply IH; lia.
Qed.

Lemma parse_number secs n c m rest :
  0 <= n < 2 ^ 32 -> multiplier_of c = Some m -> isdigit c = false ->
  TimeStringToSecs_loop secs 0 (dec_string n ++ c :: rest) =
  TimeStringToSecs_loop (u32 (secs + u32 (n * m))) 0 rest.
Proof.
  intros Hn Hm Hc.
  assert (Hv : atol_digits 0 (dec_string n) = n).
  { apply atol_digits_dec; [|done]. change (10 ^ Z.of_nat 20) with 100000000000000000000. lia. }
  rewrite parse_digits by (rewrite ?Hv; first [apply dec_string_digits | lia]).
  rewrite Hv. cbn [TimeStringToSecs_loop]. rewrite Hc, Hm. reflexivity.
Qed.

(** A part of the text that is left out when its count is zero. *)
Lemma parse_part (b : bool) secs n c m rest :
  0 <= secs -> 0 <= n -> 0 < m -> secs + n * m < 2 ^ 32 -> (b = false -> n = 0) ->
  multiplier_of c = Some m -> isdigit c = false ->
  TimeStringToSecs_loop secs 0 ((if b then dec_string n ++ [c] else []) ++ rest) =
  TimeStringToSecs_loop (secs + n * m) 0 rest.
Proof.
  intros Hs Hn Hm Hb Hz Hc Hd. destruct b.
  - rewrite <- app_assoc. cbn [app]. rewrite (parse_number secs n c m rest) by (assumption || nia).
    rewrite (uwrap_id 32 (n * m)), uwrap_id by (unfold in_u; nia). reflexivity.
  - rewrite Hz by done. f_equal. lia.
Qed.

(** The short text of a duration that fits in 32 bits is read back as the
    same number of seconds ([secsToTimeString] then [TimeStringToSecs]), with
    every wrap-around of the 32-bit accumulators accounted for. *)
Lemma time_string_roundtrip (t : Z) :
  0 <= t < 2 ^ 32 -> TimeStringToSecs (secsToTimeString t true false) = t.
Proof.
  intros Ht. unfold secsToTimeString, TimeStringToSecs.
  set (d := t / DAY). set (h := t mod DAY / HOUR).
  set (m := t mod HOUR / MINUTE). set (s := t mod MINUTE).
  assert (Hsum : t = d * 86400 + h * 3600 + m * 60 + s /\ 0 <= d /\ 0 <= h /\ 0 <= m /\ 0 <= s).
  { unfold d, h, m, s, DAY, HOUR, MINUTE. Z.to_euclidean_division_equations. lia. }
  destruct Hsum as (Hsum & Hd & Hh & Hm & Hs). clearbody d h m s.
  cbn [negb orb]. rewrite orb_false_r.
  change (text "d") with [100]. change (text "h") with [104].
  change (text "m") with [109]. change (text "s") with [115].
  rewrite (parse_part _ 0 d 100 86400), (parse_part _ _ h 104 3600), (parse_part _ _ m 109 60);
    try reflexivity; try lia; try (intros E; apply negb_false_iff, Z.eqb_eq in E; exact E).
  match goal with |- TimeStringToSecs_loop _ _ ?l = _ => rewrite <- (app_nil_r l) end.
  rewrite (parse_part _ _ s 115 1); try reflexivity; try lia.
  simpl. lia.
Qed.

Lemma time_string_roundtrip_witness :
  secsToTimeString 93784 true false = text "1d2h3m4s" /\
  TimeStringToSecs (secsToTimeString 93784 true false) = 93784.
Proof. split; [vm_compute; reflexivity | apply time_string_roundtrip; lia]. Defined.

(** ** Stripped lines *)

Lemma invisible_true c : invisible c = true <-> c ∈ invChars.
Proof. apply bool_decide_eq_true. Qed.

(** A line [strip_loop] leaves alone: its only invisible character is the blank,
    and no blank follows another (or the start, when [space] is set). *)
Fixpoint stripped (space : bool) (str : list Z) : bool :=
  match str with
  | [] => true
  | c :: str' =>
      if invisible c then (c =? SPACE) && negb space && stripped true str' else stripped false str'
  end.

Lemma strip_loop_stripped space str : stripped space (strip_loop space str) = true.
Proof.
  revert space. induction str as [|c str IH]; intros space; [reflexivity|]. cbn [strip_loop].
  destruct (invisible c) eqn:E; [|cbn [stripped]; rewrite E; apply IH].
  destruct space; cbn [negb]; [apply IH|]. cbn [stripped].
  rewrite (proj2 (invisible_true SPACE)), Z.eqb_refl by (unfold SPACE, invChars; set_solver).
  apply IH.
Qed.

Lemma strip_loop_id space str : stripped space str = true -> strip_loop space str = str.
Proof.
  revert space. induction str as [|c str IH]; intros space Hs; [reflexivity|].
  cbn [strip_loop stripped] in *. destruct (invisible c).
  - apply andb_true_iff in Hs as [Hs Hr]. apply andb_true_iff in Hs as [Hc Hsp].
    apply Z.eqb_eq in Hc. rewrite Hsp, (IH true Hr), Hc. reflexivity.
  - by rewrite (IH false Hs).
Qed.

Lemma strip_loop_visible space str :
  filter (fun c => negb (invisible c)) (strip_loop space str) = filter (fun c => negb (invisible c)) str.
Proof.
  revert space. induction str as [|c str IH]; intros space; [reflexivity|]. cbn [strip_loop].
  destruct (invisible c) eqn:E.
  - rewrite (filter_cons_False _ c) by (rewrite E; simpl; tauto).
    destruct space; cbn [negb]; [apply IH|].
    rewrite filter_cons_False by (vm_compute; tauto). apply IH.
  - rewrite !(filter_cons_True _ c) by (rewrite E; exact I). by rewrite IH.
Qed.

(** [stripLineInvisibleChars] keeps the visible characters of a line in
    order, leaves no control character and no two blanks in a row, does nothing
    to a line already in that form, and empties a line that holds an interface
    link. *)
Lemma strip_line_spec (str : list Z) :
  let out := stripLineInvisibleChars str in
  stripped false out = true /\
  stripLineInvisibleChars out = out /\
  (contains TInterface (strip_loop false str) = false ->
     filter (fun c => negb (invisible c)) out = filter (fun c => negb (invisible c)) str) /\
  (contains TInterface (strip_loop false str) = true -> out = []).
Proof.
  unfold stripLineInvisibleChars. destruct (contains TInterface (strip_loop false str)) eqn:E.
  - split_and!; try reflexivity. discriminate.
  - pose proof (strip_loop_stripped false str) as Hs.
    rewrite (strip_loop_id false _ Hs), E.
    split_and!; [exact Hs | reflexivity | intros _; apply strip_loop_visible | discriminate].
Qed.

Lemma strip_line_spec_witness :
  stripLineInvisibleChars (text "hi" ++ [9; 7] ++ text "you") = text "hi you" /\
  filter (fun c => negb (invisible c)) (stripLineInvisibleChars (text "hi" ++ [9; 7] ++ text "you"))
    = text "hiyou".
Proof.
  split; [vm_compute; reflexivity|].
  rewrite (proj1 (proj2 (proj2 (strip_line_spec (text "hi" ++ [9; 7] ++ text "you")))));
    vm_compute; reflexivity.
Defined.

(** ** Case mapping *)

(** A UTF-16 unit that is a character by itself. *)
Definition bmp (c : Z) : Prop := 0 <= c < 0xD800 \/ 0xE000 <= c < 0x10000.

Lemma in_range_spec lo hi c : reflect (lo <= c <= hi) (in_range lo hi c).
Proof.
  unfold in_range. apply iff_reflect. rewrite andb_true_iff, !Z.leb_le. reflexivity.
Qed.

(** Decide every range test of a goal; the remaining facts are linear. *)
Ltac ranges :=
  repeat match goal with
  | |- context [in_range ?lo ?hi ?c] => destruct (in_range_spec lo hi c); cbn [andb orb]
  | |- context [?x =? ?y] => destruct (Z.eqb_spec x y); cbn [andb orb]
  end;
  rewrite ?uwrap_id by (unfold in_u; lia).

Lemma wcharToLower_cases c :
  wcharToLower c = c \/
  (wcharToLower c = c + 0x20 /\
     (65 <= c <= 90 \/ 0xC0 <= c <= 0xD6 \/ 0xD8 <= c <= 0xDE \/ 0x410 <= c <= 0x42F)) \/
  (wcharToLower c = c + 1 /\ 0x100 <= c <= 0x12E /\ c mod 2 = 0) \/
  (wcharToLower c = 0xDF /\ c = 0x1E9E) \/ (wcharToLower c = 0x451 /\ c = 0x401).
Proof. unfold wcharToLower. ranges; lia. Qed.

Lemma wcharToUpper_cases c :
  wcharToUpper c = c \/
  (wcharToUpper c = c - 0x20 /\
     (97 <= c <= 122 \/ 0xE0 <= c <= 0xF6 \/ 0xF8 <= c <= 0xFE \/ 0x430 <= c <= 0x44F)) \/
  (wcharToUpper c = c - 1 /\ 0x101 <= c <= 0x12F /\ c mod 2 = 1) \/
  (wcharToUpper c = 0x1E9E /\ c = 0xDF) \/ (wcharToUpper c = 0x401 /\ c = 0x451).
Proof. unfold wcharToUpper. ranges; lia. Qed.

Lemma wcharToLower_id c :
  ~ (65 <= c <= 90 \/ 0xC0 <= c <= 0xD6 \/ 0xD8 <= c <= 0xDE \/ 0x410 <= c <= 0x42F) ->
  ~ (0x100 <= c <= 0x12E /\ c mod 2 = 0) -> c <> 0x1E9E -> c <> 0x401 -> wcharToLower c = c.
Proof. intros. destruct (wcharToLower_cases c) as [?|[?|[?|[?|?]]]]; tauto. Qed.

Lemma wcharToUpper_id c :
  ~ (97 <= c <= 122 \/ 0xE0 <= c <= 0xF6 \/ 0xF8 <= c <= 0xFE \/ 0x430 <= c <= 0x44F) ->
  ~ (0x101 <= c <= 0x12F /\ c mod 2 = 1) -> c <> 0xDF -> c <> 0x451 -> wcharToUpper c = c.
Proof. intros. destruct (wcharToUpper_cases c) as [?|[?|[?|[?|?]]]]; tauto. Qed.

Lemma wcharToLower_idem c : wcharToLower (wcharToLower c) = wcharToLower c.
Proof.
  destruct (wcharToLower_cases c) as [E|[[E ?]|[[E ?]|[[E ?]|[E ?]]]]]; rewrite E; [exact E|..];
    apply wcharToLower_id; try lia; Z.to_euclidean_division_equations; lia.
Qed.

Lemma wcharToUpper_idem c : wcharToUpper (wcharToUpper c) = wcharToUpper c.
Proof.
  destruct (wcharToUpper_cases c) as [E|[[E ?]|[[E ?]|[[E ?]|[E ?]]]]]; rewrite E; [exact E|..];
    apply wcharToUpper_id; try lia; Z.to_euclidean_division_equations; lia.
Qed.

Lemma bmp_lower c : bmp c -> bmp (wcharToLower c).
Proof.
  unfold bmp. destruct (wcharToLower_cases c) as [E|[[E ?]|[[E ?]|[[E ?]|[E ?]]]]]; rewrite E; lia.
Qed.
Lemma bmp_upper c : bmp c -> bmp (wcharToUpper c).
Proof.
  unfold bmp. destruct (wcharToUpper_cases c) as [E|[[E ?]|[[E ?]|[[E ?]|[E ?]]]]]; rewrite E; lia.
Qed.

(** The two case tables are inverse where they act: lowering a capital and
    raising it again gives it back, and both are idempotent, so a key folded
    with [wstrToLower] (a channel name, a reserved name) is found again. *)
Lemma case_mapping_inverse (c : Z) :
  wcharToLower (wcharToLower c) = wcharToLower c /\
  wcharToUpper (wcharToUpper c) = wcharToUpper c /\
  (wcharToLower c <> c -> wcharToUpper (wcharToLower c) = c) /\
  (wcharToUpper c <> c -> wcharToLower (wcharToUpper c) = c).
Proof.
  split; [apply wcharToLower_idem|]. split; [apply wcharToUpper_idem|]. split; intros Hne.
  - destruct (wcharToLower_cases c) as [E|[[E ?]|[[E ?]|[[E ?]|[E ?]]]]]; [done|..]; rewrite E;
      unfold wcharToUpper; ranges; Z.to_euclidean_division_equations; lia.
  - destruct (wcharToUpper_cases c) as [E|[[E ?]|[[E ?]|[[E ?]|[E ?]]]]]; [done|..]; rewrite E;
      unfold wcharToLower; ranges; Z.to_euclidean_division_equations; lia.
Qed.


(** ** Normalised names *)

(** What the name functions rely on: text written by utf8cpp from characters of
    the basic plane is read back as those characters, one unit each. *)
Class Utf8Laws `{Utf8Lib} : Prop := {
  utf8_distance_nil : utf8_distance [] = Some 0;
  utf16to8_back : forall w s, Forall bmp w -> utf16to8 w = Some s ->
    utf8to16 s = Some w /\ utf8_distance s = Some (Z.of_nat (length w))
}.

Lemma capitalise_idem w : capitalise (capitalise w) = capitalise w.
Proof.
  destruct w as [|c w]; [reflexivity|]. cbn [capitalise]. rewrite wcharToUpper_idem. f_equal.
  rewrite <- list_fmap_compose. apply list_fmap_ext. intros i x _. apply wcharToLower_idem.
Qed.
Lemma capitalise_bmp w : Forall bmp w -> Forall bmp (capitalise w).
Proof.
  destruct 1 as [|c w Hc Hw]; [constructor|]. cbn [capitalise].
  constructor; [by apply bmp_upper|]. apply Forall_fmap. eapply Forall_impl; [exact Hw|].
  intros x. apply bmp_lower.
Qed.
Lemma length_capitalise w : length (capitalise w) = length w.
Proof. destruct w; [reflexivity|]. cbn [capitalise length]. by rewrite length_fmap. Qed.

(** A name accepted by [normalizePlayerName] is in normal form: it has at
    most fifteen characters, its first letter raised and the rest lowered, and
    normalising it again gives the same name, so that a player found under it is
    found however the client spells the case. *)
Lemma normalize_stable `{Utf8Laws} (name s w : list Z) :
  utf8to16 name = Some w -> Forall bmp w -> s <> [] ->
  normalizePlayerName name = Conv s ->
  normalizePlayerName s = Conv s /\
  exists w', utf8to16 s = Some (capitalise w') /\ Z.of_nat (length w') <= MAX_INTERNAL_PLAYER_NAME.
Proof.
  intros Hw Hbmp Hs Hn.
  unfold normalizePlayerName, Utf8toWStr_buf in Hn. rewrite Hw in Hn.
  destruct name as [|x name]; [discriminate|].
  destruct (utf8_distance (x :: name)) as [len|]; [|discriminate].
  destruct (Z.ltb_spec MAX_INTERNAL_PLAYER_NAME len) as [|Hlen]; [discriminate|].
  destruct (Z.of_nat (length w) <=? _); [|discriminate].
  set (u := take (Z.to_nat len) w) in *.
  assert (Hu : Forall bmp (capitalise u)) by (apply capitalise_bmp, Forall_take, Hbmp).
  assert (Hl : Z.of_nat (length u) <= MAX_INTERNAL_PLAYER_NAME).
  { unfold u. rewrite length_take. unfold MAX_INTERNAL_PLAYER_NAME in *. lia. }
  unfold WStrToUtf8 in Hn. destruct (capitalise u) as [|c cu] eqn:Ec; [congruence|].
  destruct (utf16to8 (c :: cu)) as [s'|] eqn:E8; [|discriminate]. injection Hn as ->.
  destruct (utf16to8_back _ _ Hu E8) as [Hback Hdist].
  split; [|exists u; rewrite Ec; split; assumption].
  unfold normalizePlayerName, Utf8toWStr_buf. destruct s as [|y s]; [done|].
  rewrite Hdist, Hback. rewrite <- Ec, length_capitalise.
  rewrite (proj2 (Z.ltb_ge _ _) Hl), (proj2 (Z.leb_le _ _)) by lia.
  rewrite Nat2Z.id, take_ge by (rewrite length_capitalise; lia).
  rewrite capitalise_idem, Ec. unfold WStrToUtf8. by rewrite E8.
Qed.

(** A library for plain ASCII text, to run the functions on. *)
Definition ascii (c : Z) : bool := (0 <=? c) && (c <? 128).
Instance ascii_utf8 : Utf8Lib := {
  utf8_distance s := if forallb ascii s then Some (Z.of_nat (length s)) else None;
  utf8to16 s := if forallb ascii s then Some s else None;
  utf16to8 w := if forallb ascii w then Some w else None
}.

Lemma ascii_utf8_laws : Utf8Laws.
Proof.
  split; [reflexivity|]. intros w s _ E. simpl in E |- *.
  destruct (forallb ascii w) eqn:Hw; [|discriminate]. injection E as <-. rewrite Hw. auto.
Qed.

Lemma normalize_stable_witness :
  normalizePlayerName (text "aRTHAS") = Conv (text "Arthas") /\
  normalizePlayerName (text "Arthas") = Conv (text "Arthas").
Proof.
  split; [vm_compute; reflexivity|].
  refine (proj1 (normalize_stable (H0 := ascii_utf8_laws) (text "aRTHAS") (text "Arthas") (text "aRTHAS") _ _ _ _));
    [reflexivity | repeat (constructor; [left; vm_compute; split; congruence|]); constructor
    | discriminate | vm_compute; reflexivity].
Defined.

(** A player name of nine to fifteen characters outside the basic plane makes
    [normalizePlayerName] write past its sixteen-character buffer: the length
    check counts code points, the conversion writes two units for each. *)
Lemma normalize_overflow `{Utf8Lib} (name w : list Z) (n : Z) :
  name <> [] -> utf8_distance name = Some n -> utf8to16 name = Some w ->
  Z.of_nat (length w) = 2 * n -> 9 <= n <= 15 ->
  normalizePlayerName name = ConvOverflow.
Proof.
  intros Hne Hd Hw Hl Hn. unfold normalizePlayerName, Utf8toWStr_buf, MAX_INTERNAL_PLAYER_NAME.
  destruct name as [|c name]; [done|]. rewrite Hd, Hw.
  rewrite (proj2 (Z.ltb_ge 15 n)), (proj2 (Z.leb_gt (Z.of_nat (length w)) (15 + 1))) by lia.
  reflexivity.
Qed.

(** A library that knows one character, U+1D4AF (240 157 146 175), a surrogate
    pair in UTF-16. *)
Fixpoint astral_units (fuel : nat) (s : list Z) : option (list Z) :=
  match fuel, s with
  | _, [] => Some []
  | S fuel', 240 :: 157 :: 146 :: 175 :: s' =>
      match astral_units fuel' s' with Some w => Some (0xD835 :: 0xDCAF :: w) | None => None end
  | _, _ => None
  end.
Definition astral_utf8 : Utf8Lib := {|
  utf8_distance s := match astral_units (length s) s with
                     | Some w => Some (Z.of_nat (length w) / 2) | None => None end;
  utf8to16 s := astral_units (length s) s;
  utf16to8 w := None
|}.


(** ** Declined names *)

Lemma drop_ends_loop_spec wname ends :
  Forall (fun e => length e <= length wname)%nat ends ->
  drop_ends_loop wname ends = Some wname \/
  exists r e, drop_ends_loop wname ends = Some r /\ e ∈ ends /\ wname = r ++ e.
Proof.
  induction 1 as [|e ends He _ IH]; [left; reflexivity|]. cbn [drop_ends_loop].
  rewrite (proj2 (Nat.ltb_ge _ _) He). case_bool_decide as Hd.
  - right. exists (take (length wname - length e) wname), e.
    split; [reflexivity|]. split; [left|].
    rewrite <- (take_drop (length wname - length e) wname) at 1. by rewrite Hd.
  - destruct IH as [E|(r & e' & E & Hin & Hw)]; [left; exact E|].
    right. exists r, e'. split; [exact E|]. split; [right; exact Hin | exact Hw].
Qed.

Lemma dropEnds_length d e : e ∈ dropEnds d -> (length e <= 2)%nat.
Proof.
  unfold dropEnds. generalize (Z.to_nat d). intros n.
  do 6 (destruct n as [|n]; [cbn [nth]; set_unfold; intuition (subst; simpl; lia)|]).
  simpl. destruct n; set_solver.
Qed.

(** On a name of two letters or more [GetMainPartOfName] returns the name, or
    the name without one of the endings of its declension; on a name that is a
    single Cyrillic letter other than the short ending it throws
    [std::out_of_range] in the fifth declension, where the endings have two. *)
Lemma main_part_spec (wname : list Z) (declension : Z) :
  ((2 <= length wname)%nat ->
     GetMainPartOfName wname declension = Some wname \/
     exists r e, GetMainPartOfName wname declension = Some r /\ e ∈ dropEnds declension /\
                 wname = r ++ e) /\
  (forall c, wname = [c] -> isCyrillicCharacter c = true -> declension = 4 ->
     GetMainPartOfName wname declension = None).
Proof.
  split.
  - intros Hlen. destruct wname as [|c w]; [left; reflexivity|]. unfold GetMainPartOfName.
    destruct (_ || _); [left; reflexivity|]. apply drop_ends_loop_spec.
    apply Forall_forall. intros e He. apply dropEnds_length in He. lia.
  - intros c -> Hc ->. unfold GetMainPartOfName. rewrite Hc. reflexivity.
Qed.

