(* ===== verification/ByteBuffer.v ===== *)
(** * The packet buffer

    [ByteBuffer] of src/src/server/shared/Packets/ByteBuffer.h: a byte vector
    with a read and a write position, the typed insertions and extractions, the
    bounds checks that throw [ByteBufferException], packed GUIDs, and
    [WorldPacket] of WorldPacket.h on top of it.  A [float] or [double] is
    carried as the unsigned integer of its bit pattern. *)
From S2P Require Import Prelude Text.

(** ** State and results *)

Record ByteBuffer := mkBuf {
  _rpos : Z;
  _wpos : Z;
  _storage : list Z
}.

(** What a call can end with besides a value: the exception the class throws,
    a failed [ASSERT], or an access outside the vector (undefined behaviour). *)
Inductive failure :=
| ByteBufferException (add : bool) (pos esize sz : Z)
| AssertFailed
| Undefined
| OutOfFuel.

Inductive result (A : Type) :=
| Ok (a : A)
| Err (f : failure).
Arguments Ok {A} a.
Arguments Err {A} f.

(** A member function: it may move the positions before it throws. *)
Definition B (A : Type) : Type := ByteBuffer -> result A * ByteBuffer.

Definition bret {A} (a : A) : B A := fun b => (Ok a, b).
Definition bthrow {A} (f : failure) : B A := fun b => (Err f, b).
Definition bbind {A C} (m : B A) (k : A -> B C) : B C :=
  fun b => match m b with
           | (Ok a, b') => k a b'
           | (Err f, b') => (Err f, b')
           end.

Notation "'let?' x := m 'in' k" := (bbind m (fun x => k))
  (at level 10, x pattern, m at level 100, k at level 200) : dc_scope.

Definition bb_size (b : ByteBuffer) : Z := Z.of_nat (length (_storage b)).
Definition bb_empty (b : ByteBuffer) : bool := match _storage b with [] => true | _ => false end.

Definition new_buffer : ByteBuffer := mkBuf 0 0 [].
Definition clear (b : ByteBuffer) : ByteBuffer := mkBuf 0 0 [].
Definition set_rpos (p : Z) (b : ByteBuffer) : ByteBuffer := mkBuf (u64 p) (_wpos b) (_storage b).
Definition set_wpos (p : Z) (b : ByteBuffer) : ByteBuffer := mkBuf (_rpos b) (u64 p) (_storage b).
Definition rfinish (b : ByteBuffer) : ByteBuffer := mkBuf (_wpos b) (_wpos b) (_storage b).

(** [std::vector::resize]: cut, or fill with zero bytes. *)
Definition vec_resize (n : Z) (l : list Z) : list Z :=
  take (Z.to_nat n) l ++ replicate (Z.to_nat n - length l) 0.

(** [memcpy] into a vector; only called where the range is inside it. *)
Definition vec_write (pos : Z) (src l : list Z) : list Z :=
  take (Z.to_nat pos) l ++ src ++ drop (Z.to_nat pos + length src) l.

Definition resize (newsize : Z) (b : ByteBuffer) : ByteBuffer :=
  let st := vec_resize newsize (_storage b) in mkBuf 0 (Z.of_nat (length st)) st.

(** ** Writing *)

Definition append (src : list Z) : B unit := fun b =>
  let cnt := Z.of_nat (length src) in
  if cnt =? 0 then (Ok tt, b)
  else if negb (bb_size b <? 10000000) then (Err AssertFailed, b)
  else
    let st := if bb_size b <? u64 (_wpos b + cnt)
              then vec_resize (u64 (_wpos b + cnt)) (_storage b) else _storage b in
    if Z.of_nat (length st) <? _wpos b + cnt then (Err Undefined, b)
    else (Ok tt, mkBuf (_rpos b) (u64 (_wpos b + cnt)) (vec_write (_wpos b) src st)).

Definition put (pos : Z) (src : list Z) : B unit := fun b =>
  let cnt := Z.of_nat (length src) in
  if bb_size b <? u64 (pos + cnt) then (Err (ByteBufferException true pos cnt (bb_size b)), b)
  else if bb_size b <? pos + cnt then (Err Undefined, b)
  else (Ok tt, mkBuf (_rpos b) (_wpos b) (vec_write pos src (_storage b))).

(** [append<T>] and [put<T>]: [n] is [sizeof(T)], the value is stored in two's
    complement when it is negative. *)
Definition append_T (n : nat) (v : Z) : B unit := append (le_encode n v).
Definition put_T (n : nat) (pos v : Z) : B unit := put pos (le_encode n v).

(** [operator<<] for a [std::string] and for a C string (the latter with a null
    pointer as [None]). *)
Definition shl_string (s : list Z) : B unit :=
  let? _ := append s in append_T 1 0.
Definition shl_cstr (str : option (list Z)) : B unit :=
  let? _ := append (match str with Some s => c_str s | None => [] end) in append_T 1 0.

Definition append_buffer (src : ByteBuffer) : B unit :=
  if negb (_wpos src =? 0) then append (take (Z.to_nat (_wpos src)) (_storage src)) else bret tt.

(** The loop of [appendPackGUID]: the mask byte and the bytes stored so far. *)
Fixpoint packGUID_loop (fuel : nat) (i guid mask : Z) (bytes : list Z) : Z * list Z :=
  match fuel with
  | O => (mask, bytes)
  | S fuel' =>
      if guid =? 0 then (mask, bytes)
      else if negb (Z.land guid 255 =? 0) then
        packGUID_loop fuel' (i + 1) (Z.shiftr guid 8)
          (Z.lor mask (u8 (Z.shiftl 1 i))) (bytes ++ [u8 (Z.land guid 255)])
      else packGUID_loop fuel' (i + 1) (Z.shiftr guid 8) mask bytes
  end.

Definition appendPackGUID (guid : Z) : B unit :=
  let '(mask, bytes) := packGUID_loop 8 0 guid 0 [] in append (mask :: bytes).

(** ** Reading *)

Definition read_at (n : Z) (pos : Z) : B (list Z) := fun b =>
  if bb_size b <? u64 (pos + n) then (Err (ByteBufferException false pos n (bb_size b)), b)
  else if bb_size b <? pos + n then (Err Undefined, b)
  else (Ok (take (Z.to_nat n) (drop (Z.to_nat pos) (_storage b))), b).

(** [read] into an array and [read<T>()]: read and advance. *)
Definition read (n : Z) : B (list Z) :=
  fun b => match read_at n (_rpos b) b with
           | (Ok bs, b') => (Ok bs, mkBuf (u64 (_rpos b' + n)) (_wpos b') (_storage b'))
           | (Err f, b') => (Err f, b')
           end.

Definition read_skip (skip : Z) : B unit := fun b =>
  if bb_size b <? u64 (_rpos b + skip) then (Err (ByteBufferException false (_rpos b) skip (bb_size b)), b)
  else (Ok tt, mkBuf (u64 (_rpos b + skip)) (_wpos b) (_storage b)).

Definition shr_uint (n : nat) : B Z := let? bs := read (Z.of_nat n) in bret (le_decode bs).
Definition shr_int (n : nat) : B Z :=
  let? bs := read (Z.of_nat n) in bret (swrap (8 * Z.of_nat n) (le_decode bs)).

(** [operator>>(bool&)] reads a [char], which is signed on the target. *)
Definition shr_bool : B bool := let? c := shr_int 1 in bret (0 <? c).

Fixpoint shr_string_loop (fuel : nat) (value : list Z) : B (list Z) := fun b =>
  match fuel with
  | O => (Err OutOfFuel, b)
  | S fuel' =>
      if _rpos b <? bb_size b then
        (let? c := shr_uint 1 in
         if c =? 0 then bret value else shr_string_loop fuel' (value ++ [c])) b
      else (Ok value, b)
  end.

(** [operator>>(std::string&)]: at most one pass over the rest of the buffer. *)
Definition shr_string : B (list Z) := fun b =>
  shr_string_loop (S (Z.to_nat (bb_size b - _rpos b))) [] b.

Fixpoint readPackGUID_loop (bits : list Z) (guidmark guid : Z) : B Z := fun b =>
  match bits with
  | [] => (Ok guid, b)
  | i :: bits' =>
      if has_flag guidmark (u8 (Z.shiftl 1 i)) then
        if bb_size b <? u64 (_rpos b + 1) then (Err (ByteBufferException false (_rpos b) 1 (bb_size b)), b)
        else (let? bit := shr_uint 1 in
              readPackGUID_loop bits' guidmark (Z.lor guid (u64 (Z.shiftl bit (i * 8))))) b
      else readPackGUID_loop bits' guidmark guid b
  end.

Definition readPackGUID : B Z := fun b =>
  if bb_size b <? u64 (_rpos b + 1) then (Err (ByteBufferException false (_rpos b) 1 (bb_size b)), b)
  else (let? guidmark := shr_uint 1 in
        readPackGUID_loop [0; 1; 2; 3; 4; 5; 6; 7] guidmark 0) b.

(** ** Containers

    [operator<<] and [operator>>] for [std::vector] and [std::list]: the
    element count as a [uint32], then the elements. *)
Section containers.
  Context {T : Type} (wr : T -> B unit) (rd : B T).

Fixpoint shl_elems (v : list T) : B unit :=
  match v with
  | [] => bret tt
  | x :: v' => let? _ := wr x in shl_elems v'
  end.

Definition shl_vector (v : list T) : B unit :=
  let? _ := append_T 4 (u32 (Z.of_nat (length v))) in shl_elems v.

Fixpoint shr_elems (n : nat) (v : list T) : B (list T) :=
  match n with
  | O => bret v
  | S n' => let? t := rd in shr_elems n' (v ++ [t])
  end.

Definition shr_vector : B (list T) :=
  let? vsize := shr_uint 4 in shr_elems (Z.to_nat vsize) [].
End containers.

(** ** Typed sequences

    The way handlers use the buffer: a sequence of insertions, taken apart on
    the other side by the matching sequence of extractions. *)

Inductive field :=
| FU (n : nat) (v : Z)
| FS (n : nat) (v : Z)
| FStr (s : list Z)
| FGuid (g : Z).

Inductive kind :=
| KU (n : nat)
| KS (n : nat)
| KStr
| KGuid.

Definition kind_of (f : field) : kind :=
  match f with FU n _ => KU n | FS n _ => KS n | FStr _ => KStr | FGuid _ => KGuid end.

Definition write_field (f : field) : B unit :=
  match f with
  | FU n v => append_T n v
  | FS n v => append_T n v
  | FStr s => shl_string s
  | FGuid g => appendPackGUID g
  end.

Definition read_kind (k : kind) : B field :=
  match k with
  | KU n => let? v := shr_uint n in bret (FU n v)
  | KS n => let? v := shr_int n in bret (FS n v)
  | KStr => let? s := shr_string in bret (FStr s)
  | KGuid => let? g := readPackGUID in bret (FGuid g)
  end.

Fixpoint write_fields (fs : list field) : B unit :=
  match fs with
  | [] => bret tt
  | f :: fs' => let? _ := write_field f in write_fields fs'
  end.

Fixpoint read_kinds (ks : list kind) : B (list field) :=
  match ks with
  | [] => bret []
  | k :: ks' => let? f := read_kind k in let? fs := read_kinds ks' in bret (f :: fs)
  end.

(** The value is one the C++ type can hold: an integer of its width, a string
    without an embedded zero, a 64-bit GUID. *)
Definition field_ok (f : field) : Prop :=
  match f with
  | FU n v => (1 <= n <= 8)%nat /\ in_u (8 * Z.of_nat n) v
  | FS n v => (1 <= n <= 8)%nat /\ in_s (8 * Z.of_nat n) v
  | FStr s => Forall (fun c => 1 <= c < 256) s
  | FGuid g => in_u 64 g
  end.

(** The bytes a field takes on the wire. *)
Definition nonzero (b : Z) : bool := negb (b =? 0).

Fixpoint pack_mask (i : Z) (bs : list Z) : Z :=
  match bs with
  | [] => 0
  | b :: bs' => Z.lor (if b =? 0 then 0 else 2 ^ i) (pack_mask (i + 1) bs')
  end.

Definition guid_bytes (g : Z) : list Z :=
  pack_mask 0 (le_encode 8 g) :: filter nonzero (le_encode 8 g).

Definition field_bytes (f : field) : list Z :=
  match f with
  | FU n v | FS n v => le_encode n v
  | FStr s => s ++ [0]
  | FGuid g => guid_bytes g
  end.

Definition ser (fs : list field) : list Z := concat (field_bytes <$> fs).

(** ** Lemmas *)

Lemma size_nonneg b : 0 <= bb_size b.
Proof. unfold bb_size. lia. Qed.

Lemma bbind_ok {A C} (m : B A) (k : A -> B C) b a b' :
  m b = (Ok a, b') -> bbind m k b = k a b'.
Proof. unfold bbind. intros ->. reflexivity. Qed.

(** The write position is at the end and the positions are in the buffer. *)
Definition at_end (b : ByteBuffer) : Prop := _wpos b = bb_size b /\ 0 <= _rpos b <= bb_size b.

Definition room (b : ByteBuffer) (n : nat) : Prop := bb_size b + Z.of_nat n <= 10000000.

Definition extend (src : list Z) (b : ByteBuffer) : ByteBuffer :=
  mkBuf (_rpos b) (_wpos b + Z.of_nat (length src)) (_storage b ++ src).

Lemma extend_nil b : extend [] b = b.
Proof. destruct b. unfold extend. simpl. f_equal; [lia | apply app_nil_r]. Qed.

Lemma extend_app s1 s2 b : extend s2 (extend s1 b) = extend (s1 ++ s2) b.
Proof.
  unfold extend. simpl. rewrite length_app, app_assoc. f_equal. lia.
Qed.

Lemma size_extend src b : bb_size (extend src b) = bb_size b + Z.of_nat (length src).
Proof. unfold bb_size, extend. simpl. rewrite length_app. lia. Qed.

Lemma at_end_extend src b : at_end b -> at_end (extend src b).
Proof. unfold at_end. rewrite size_extend. simpl. lia. Qed.

(** Appending at the end of a buffer below the assertion limit. *)
Lemma append_at_end src b :
  at_end b -> room b (length src) -> append src b = (Ok tt, extend src b).
Proof.
  intros [Hw Hr] Hroom. unfold room in Hroom. unfold append.
  destruct (Z.eqb_spec (Z.of_nat (length src)) 0) as [E|E].
  - destruct src; [|simpl in E; lia]. rewrite extend_nil. reflexivity.
  - pose proof (size_nonneg b).
    destruct (Z.ltb_spec (bb_size b) 10000000) as [_|]; [|lia]. simpl.
    rewrite Hw, uwrap_id by (unfold in_u; lia).
    destruct (Z.ltb_spec (bb_size b) (bb_size b + Z.of_nat (length src))) as [_|]; [|lia].
    assert (Hres : vec_resize (bb_size b + Z.of_nat (length src)) (_storage b)
                   = _storage b ++ replicate (length src) 0).
    { unfold vec_resize, bb_size. rewrite take_ge by lia. do 2 f_equal. lia. }
    rewrite Hres, length_app, length_replicate.
    destruct (Z.ltb_spec (Z.of_nat (length (_storage b) + length src))
               (bb_size b + Z.of_nat (length src))) as [C|_]; [unfold bb_size in C; lia|].
    unfold extend. rewrite Hw. do 2 f_equal. unfold vec_write, bb_size.
    rewrite Nat2Z.id, take_app_length, drop_ge, app_nil_r; [reflexivity|].
    rewrite length_app, length_replicate. lia.
Qed.

Definition ready (b : ByteBuffer) (bs rest : list Z) : Prop :=
  0 <= _rpos b /\ bb_size b < 2 ^ 64 /\ drop (Z.to_nat (_rpos b)) (_storage b) = bs ++ rest.

Definition advance (n : nat) (b : ByteBuffer) : ByteBuffer :=
  mkBuf (_rpos b + Z.of_nat n) (_wpos b) (_storage b).

Lemma advance_advance n m b : advance m (advance n b) = advance (n + m) b.
Proof. unfold advance. simpl. f_equal. lia. Qed.

Lemma advance_0 b : advance 0 b = b.
Proof. destruct b. unfold advance. simpl. f_equal. lia. Qed.

Lemma ready_bound b bs rest :
  ready b bs rest -> bs ++ rest <> [] -> _rpos b + Z.of_nat (length (bs ++ rest)) = bb_size b.
Proof.
  intros (H0 & _ & Hd) Hne. pose proof (f_equal length Hd) as Hl.
  rewrite length_drop in Hl. unfold bb_size. destruct (bs ++ rest) as [|x l]; [done|].
  simpl in Hl |- *. lia.
Qed.

Lemma ready_advance b bs rest : ready b bs rest -> ready (advance (length bs) b) [] rest.
Proof.
  intros (H0 & Hs & Hd). unfold ready, advance, bb_size in *. simpl. split; [lia|]. split; [lia|].
  rewrite Z2Nat.inj_add, Nat2Z.id by lia. rewrite <- drop_drop, Hd.
  apply drop_app_length.
Qed.

Lemma ready_split b bs1 bs2 rest : ready b (bs1 ++ bs2) rest <-> ready b bs1 (bs2 ++ rest).
Proof. unfold ready. rewrite <- app_assoc. reflexivity. Qed.

(** Reading exactly the next bytes. *)
Lemma read_ready b bs rest :
  ready b bs rest -> bs <> [] ->
  read (Z.of_nat (length bs)) b = (Ok bs, advance (length bs) b).
Proof.
  intros Hr Hne.
  assert (Hb := ready_bound b bs rest Hr ltac:(destruct bs; done)).
  destruct Hr as (H0 & Hs & Hd). rewrite length_app in Hb.
  unfold read, read_at. rewrite uwrap_id by (unfold in_u; lia).
  destruct (Z.ltb_spec (bb_size b) (_rpos b + Z.of_nat (length bs))) as [C|_]; [lia|].
  rewrite Hd, Nat2Z.id, take_app_length. unfold advance.
  rewrite uwrap_id by (unfold in_u; lia). reflexivity.
Qed.

Lemma shr_uint_ready b n v rest :
  (1 <= n)%nat -> in_u (8 * Z.of_nat n) v -> ready b (le_encode n v) rest ->
  shr_uint n b = (Ok v, advance n b).
Proof.
  intros Hn Hv Hr. unfold shr_uint.
  rewrite <- (length_le_encode n v) at 1.
  rewrite (bbind_ok _ _ _ _ _ (read_ready _ _ _ Hr ltac:(destruct n; [lia|done]))).
  unfold bret. rewrite le_decode_encode, Z.mod_small, length_le_encode by exact Hv. reflexivity.
Qed.

Lemma shr_int_ready b n v rest :
  (1 <= n)%nat -> in_s (8 * Z.of_nat n) v -> ready b (le_encode n v) rest ->
  shr_int n b = (Ok v, advance n b).
Proof.
  intros Hn Hv Hr. unfold shr_int.
  rewrite <- (length_le_encode n v) at 1.
  rewrite (bbind_ok _ _ _ _ _ (read_ready _ _ _ Hr ltac:(destruct n; [lia|done]))).
  unfold bret. rewrite le_decode_encode, length_le_encode.
  change (v mod 2 ^ (8 * Z.of_nat n)) with (uwrap (8 * Z.of_nat n) v).
  rewrite swrap_uwrap_id by (assumption || lia). reflexivity.
Qed.

Lemma shr_byte_ready b c rest :
  is_byte c -> ready b [c] rest -> shr_uint 1 b = (Ok c, advance 1 b).
Proof.
  intros Hc Hr. apply (shr_uint_ready b 1 c rest); [lia | exact Hc |].
  rewrite le_encode_byte, uwrap_id by exact Hc. exact Hr.
Qed.

Lemma shr_string_loop_ready fuel value b s rest :
  Forall (fun c => 1 <= c < 256) s -> (length s < fuel)%nat ->
  ready b (s ++ [0]) rest ->
  shr_string_loop fuel value b = (Ok (value ++ s), advance (S (length s)) b).
Proof.
  intros Hs. revert fuel value b. induction Hs as [|c s Hc Hs IH]; intros fuel value b Hf Hr;
    (destruct fuel as [|fuel]; [simpl in Hf; lia|]); cbn [shr_string_loop].
  - pose proof (ready_bound b _ rest Hr ltac:(done)) as Hb. simpl in Hb.
    destruct (Z.ltb_spec (_rpos b) (bb_size b)) as [_|]; [|lia].
    rewrite (bbind_ok _ _ _ _ _ (shr_byte_ready b 0 rest ltac:(unfold is_byte; lia) Hr)).
    simpl. unfold bret. rewrite app_nil_r. reflexivity.
  - pose proof (ready_bound b _ rest Hr ltac:(done)) as Hb. simpl in Hb.
    destruct (Z.ltb_spec (_rpos b) (bb_size b)) as [_|]; [|lia].
    change ((c :: s) ++ [0]) with ([c] ++ (s ++ [0])) in Hr. apply ready_split in Hr.
    rewrite (bbind_ok _ _ _ _ _ (shr_byte_ready b c _ ltac:(unfold is_byte; lia) Hr)).
    destruct (Z.eqb_spec c 0) as [|_]; [lia|].
    rewrite IH; [|simpl in Hf; lia|].
    + rewrite <- app_assoc, advance_advance. reflexivity.
    + apply (ready_advance b [c]) in Hr. exact Hr.
Qed.

Lemma shr_string_ready b s rest :
  Forall (fun c => 1 <= c < 256) s -> ready b (s ++ [0]) rest ->
  shr_string b = (Ok s, advance (S (length s)) b).
Proof.
  intros Hs Hr. unfold shr_string.
  rewrite (shr_string_loop_ready _ _ _ s rest); [reflexivity|done| |done].
  pose proof (ready_bound b _ rest Hr ltac:(by destruct s)) as Hb.
  rewrite !length_app in Hb. simpl in Hb. destruct Hr as (H0 & _). lia.
Qed.

(** *** Packed GUIDs *)

Lemma lor_shift_add a b n : 0 <= n -> 0 <= a < 2 ^ n -> Z.lor a (Z.shiftl b n) = a + b * 2 ^ n.
Proof.
  intros Hn Ha.
  assert (Hd : Z.land a (Z.shiftl b n) = 0).
  { apply Z.bits_inj'. intros i Hi. rewrite Z.land_spec, Z.bits_0.
    destruct (Z.ltb_spec i n).
    - rewrite (Z.shiftl_spec_low b) by lia. apply andb_false_r.
    - rewrite <- (Z.mod_small a (2 ^ n)) by lia.
      rewrite Z.mod_pow2_bits_high by lia. reflexivity. }
  pose proof (Z.add_lor_land a (Z.shiftl b n)) as E. rewrite Hd in E.
  rewrite <- (Z.shiftl_mul_pow2 b n) by lia. lia.
Qed.

Lemma has_flag_pow2 m i : 0 <= i -> has_flag m (2 ^ i) = Z.testbit m i.
Proof.
  intros Hi. unfold has_flag.
  assert (E : Z.land m (2 ^ i) = if Z.testbit m i then 2 ^ i else 0).
  { apply Z.bits_inj'. intros j Hj. rewrite Z.land_spec, Z.pow2_bits_eqb by lia.
    destruct (Z.eqb_spec i j) as [<-|Hne].
    - rewrite andb_true_r. destruct (Z.testbit m i).
      + rewrite Z.pow2_bits_true by lia. reflexivity.
      + rewrite Z.bits_0. reflexivity.
    - rewrite andb_false_r. destruct (Z.testbit m i).
      + rewrite Z.pow2_bits_false by lia. reflexivity.
      + rewrite Z.bits_0. reflexivity. }
  rewrite E. destruct (Z.testbit m i); [|reflexivity].
  destruct (Z.eqb_spec (2 ^ i) 0); [|reflexivity].
  pose proof (Z.pow_pos_nonneg 2 i). lia.
Qed.

Lemma pack_mask_low i j bs : 0 <= j < i -> Z.testbit (pack_mask i bs) j = false.
Proof.
  revert i. induction bs as [|b bs IH]; intros i Hj; cbn [pack_mask]; [apply Z.bits_0|].
  rewrite Z.lor_spec, IH by lia. rewrite orb_false_r.
  destruct (b =? 0); [apply Z.bits_0 | apply Z.pow2_bits_false; lia].
Qed.

Lemma pack_mask_bit i bs k :
  0 <= i -> Z.testbit (pack_mask i bs) (i + Z.of_nat k) = from_option nonzero false (bs !! k).
Proof.
  intros Hi. revert i k Hi. induction bs as [|b bs IH]; intros i k Hi; cbn [pack_mask].
  { rewrite Z.bits_0. reflexivity. }
  rewrite Z.lor_spec. destruct k as [|k].
  - rewrite Z.add_0_r, pack_mask_low, orb_false_r by lia. simpl. unfold nonzero.
    destruct (b =? 0); [apply Z.bits_0 | apply Z.pow2_bits_true; lia].
  - replace (i + Z.of_nat (S k)) with (i + 1 + Z.of_nat k) by lia.
    rewrite IH by lia. simpl.
    replace (Z.testbit _ (i + 1 + Z.of_nat k)) with false; [reflexivity|].
    destruct (b =? 0); [symmetry; apply Z.bits_0 | symmetry; apply Z.pow2_bits_false; lia].
Qed.

Lemma le_encode_zero n : le_encode n 0 = replicate n 0.
Proof.
  induction n; [reflexivity|]. cbn [le_encode replicate].
  rewrite Z.mod_0_l, Z.div_0_l, IHn by lia. reflexivity.
Qed.

Lemma pack_mask_zero i n : pack_mask i (replicate n 0) = 0.
Proof. revert i; induction n; intros; simpl; [|rewrite IHn]; reflexivity. Qed.

Lemma filter_nonzero_zero n : filter nonzero (replicate n 0) = [].
Proof. induction n; [reflexivity|]. exact IHn. Qed.

(** The loop of [appendPackGUID] computes the mask and the nonzero bytes. *)
Lemma packGUID_loop_spec fuel i guid mask bytes :
  0 <= guid -> 0 <= i -> i + Z.of_nat fuel <= 8 ->
  packGUID_loop fuel i guid mask bytes =
    (Z.lor mask (pack_mask i (le_encode fuel guid)), bytes ++ filter nonzero (le_encode fuel guid)).
Proof.
  revert i guid mask bytes. induction fuel as [|fuel IH]; intros i guid mask bytes Hg Hi Hf.
  { simpl. rewrite Z.lor_0_r, app_nil_r. reflexivity. }
  cbn [packGUID_loop]. destruct (Z.eqb_spec guid 0) as [->|Hne].
  { rewrite le_encode_zero, pack_mask_zero, filter_nonzero_zero, Z.lor_0_r, app_nil_r. reflexivity. }
  change 255 with (Z.ones 8). rewrite Z.land_ones, Z.shiftr_div_pow2 by lia.
  change (2 ^ 8) with 256. cbn [le_encode pack_mask].
  assert (Hd : 0 <= guid / 256) by (apply Z.div_pos; lia).
  destruct (Z.eqb_spec (guid mod 256) 0) as [E|E]; cbn [negb].
  - rewrite IH by lia. rewrite Z.lor_0_l, E. reflexivity.
  - rewrite IH by lia. rewrite Z.shiftl_1_l, uwrap_id.
    + rewrite Z.lor_assoc, <- app_assoc.
      rewrite uwrap_id by (unfold in_u; apply Z.mod_pos_bound; lia).
      rewrite filter_cons_True by (unfold nonzero; destruct (Z.eqb_spec (guid mod 256) 0); done).
      reflexivity.
    + unfold in_u. split; [apply Z.pow_nonneg; lia | apply Z.pow_lt_mono_r; lia].
Qed.

Lemma appendPackGUID_spec g b :
  in_u 64 g -> appendPackGUID g b = append (guid_bytes g) b.
Proof.
  intros Hg. unfold appendPackGUID.
  rewrite packGUID_loop_spec by (unfold in_u in Hg; lia).
  rewrite Z.lor_0_l. reflexivity.
Qed.

(** The loop of [readPackGUID] from bit [i], the mask announcing exactly the
    nonzero ones among the bytes [bs] that remain. *)
Lemma readPackGUID_loop_ready b i bs mark guid rest :
  bytes_ok bs -> 0 <= i -> i + Z.of_nat (length bs) <= 8 ->
  0 <= guid < 2 ^ (8 * i) ->
  (forall k, (k < length bs)%nat ->
     Z.testbit mark (i + Z.of_nat k) = from_option nonzero false (bs !! k)) ->
  ready b (filter nonzero bs) rest ->
  readPackGUID_loop (Z.of_nat <$> seq (Z.to_nat i) (length bs)) mark guid b =
    (Ok (guid + 2 ^ (8 * i) * le_decode bs), advance (length (filter nonzero bs)) b).
Proof.
  intros Hok. revert b i guid. induction Hok as [|c bs Hc Hok IH]; intros b i guid Hi Hlen Hg Hm Hr.
  { simpl. rewrite Z.mul_0_r, Z.add_0_r, advance_0. reflexivity. }
  cbn [length] in Hlen. cbn [length seq fmap list_fmap readPackGUID_loop].
  rewrite Z2Nat.id by lia. rewrite Z.shiftl_1_l, uwrap_id.
  2:{ unfold in_u. split; [apply Z.pow_nonneg; lia | apply Z.pow_lt_mono_r; lia]. }
  rewrite has_flag_pow2 by lia.
  pose proof (Hm 0%nat ltac:(simpl; lia)) as Hm0. rewrite Z.add_0_r in Hm0. rewrite Hm0.
  assert (Hpow : 2 ^ (8 * (i + 1)) = 256 * 2 ^ (8 * i)).
  { replace (8 * (i + 1)) with (8 + 8 * i) by lia. rewrite Z.pow_add_r by lia. reflexivity. }
  assert (Hms : forall k, (k < length bs)%nat ->
     Z.testbit mark (i + 1 + Z.of_nat k) = from_option nonzero false (bs !! k)).
  { intros k Hk. replace (i + 1 + Z.of_nat k) with (i + Z.of_nat (S k)) by lia.
    rewrite Hm by (simpl; lia). reflexivity. }
  replace (S (Z.to_nat i)) with (Z.to_nat (i + 1)) by lia.
  unfold is_byte in Hc. simpl from_option. unfold nonzero at 1.
  destruct (Z.eqb_spec c 0) as [->|Hnz]; cbn [negb].
  - rewrite IH; [|lia|lia|lia|exact Hms|exact Hr].
    cbn [le_decode]. rewrite Hpow. do 2 f_equal. lia.
  - rewrite filter_cons_True in Hr |- * by (unfold nonzero; destruct (Z.eqb_spec c 0); done).
    pose proof (ready_bound b _ rest Hr ltac:(done)) as Hb. rewrite length_app in Hb. simpl in Hb.
    destruct Hr as (Hr1 & Hr2 & Hr3).
    rewrite uwrap_id by (unfold in_u; lia).
    destruct (Z.ltb_spec (bb_size b) (_rpos b + 1)) as [C|_]; [lia|].
    assert (Hr' : ready b [c] (filter nonzero bs ++ rest)).
    { apply ready_split. split; [lia|]. split; [lia|]. exact Hr3. }
    rewrite (bbind_ok _ _ _ _ _ (shr_byte_ready b c _ Hc Hr')).
    assert (Hsh : 0 <= c * 2 ^ (8 * i) < 2 ^ 64).
    { split; [apply Z.mul_nonneg_nonneg; [lia|apply Z.pow_nonneg; lia]|].
      apply Z.lt_le_trans with (2 ^ (8 * (i + 1))); [rewrite Hpow; nia|].
      apply Z.pow_le_mono_r; lia. }
    rewrite (Z.mul_comm i 8), uwrap_id by (unfold in_u; rewrite Z.shiftl_mul_pow2 by lia; exact Hsh).
    rewrite lor_shift_add by lia.
    rewrite IH; [|lia|lia|rewrite Hpow; nia|exact Hms|].
    + cbn [le_decode length]. rewrite Hpow, advance_advance. do 2 f_equal. lia.
    + apply (ready_advance b [c]) in Hr'. exact Hr'.
Qed.

Lemma readPackGUID_ready b g rest :
  in_u 64 g -> ready b (guid_bytes g) rest ->
  readPackGUID b = (Ok g, advance (length (guid_bytes g)) b).
Proof.
  intros Hg Hr. unfold readPackGUID, guid_bytes in *.
  set (bs := le_encode 8 g) in *.
  assert (Hlen : length bs = 8%nat) by apply length_le_encode.
  pose proof (ready_bound b _ rest Hr ltac:(done)) as Hb. rewrite length_app in Hb. simpl in Hb.
  assert (Hr' : ready b [pack_mask 0 bs] (filter nonzero bs ++ rest)).
  { apply ready_split. exact Hr. }
  destruct Hr as (Hr1 & Hr2 & Hr3).
  rewrite uwrap_id by (unfold in_u; lia).
  destruct (Z.ltb_spec (bb_size b) (_rpos b + 1)) as [C|_]; [lia|].
  assert (Hmask : is_byte (pack_mask 0 bs)).
  { unfold bs, is_byte. clear. cbn [le_encode pack_mask].
    repeat match goal with |- context [?x mod 256 =? 0] => destruct (x mod 256 =? 0) end;
      vm_compute; split; congruence. }
  rewrite (bbind_ok _ _ _ _ _ (shr_byte_ready b _ _ Hmask Hr')).
  change [0; 1; 2; 3; 4; 5; 6; 7] with (Z.of_nat <$> seq (Z.to_nat 0) 8).
  rewrite <- Hlen.
  rewrite (readPackGUID_loop_ready _ 0 bs _ 0 rest); try lia.
  - unfold bs at 1. rewrite le_decode_encode. change (8 * Z.of_nat 8) with 64.
    rewrite Z.mod_small by exact Hg. rewrite advance_advance. do 2 f_equal. lia.
  - apply le_encode_ok.
  - intros k _. rewrite pack_mask_bit by lia. reflexivity.
  - apply (ready_advance b [_]) in Hr'. exact Hr'.
Qed.

(** *** Fields and sequences *)

Lemma write_field_at_end f b :
  field_ok f -> at_end b -> room b (length (field_bytes f)) ->
  write_field f b = (Ok tt, extend (field_bytes f) b).
Proof.
  intros Hf He Hroom. destruct f as [n v|n v|s|g]; cbn [write_field field_bytes] in *.
  - apply append_at_end; assumption.
  - apply append_at_end; assumption.
  - unfold shl_string, bbind.
    unfold room in *. rewrite length_app in Hroom. simpl in Hroom.
    rewrite (append_at_end s) by (try assumption; unfold room; lia).
    unfold append_T. change (le_encode 1 0) with [0].
    rewrite (append_at_end [0]) by
      (try (by apply at_end_extend); unfold room; rewrite size_extend; simpl; lia).
    rewrite extend_app. reflexivity.
  - rewrite appendPackGUID_spec by assumption. apply append_at_end; assumption.
Qed.

Lemma field_bytes_ne f : field_ok f -> field_bytes f <> [].
Proof.
  destruct f as [n v|n v|s|g]; simpl; intros Hf; try (by destruct s); try done;
    (destruct n; [lia|done]).
Qed.

Lemma read_kind_ready f b rest :
  field_ok f -> ready b (field_bytes f) rest ->
  read_kind (kind_of f) b = (Ok f, advance (length (field_bytes f)) b).
Proof.
  intros Hf Hr. destruct f as [n v|n v|s|g]; cbn [kind_of read_kind field_bytes] in *.
  - destruct Hf as [Hn Hv]. rewrite (bbind_ok _ _ _ _ _ (shr_uint_ready b n v rest ltac:(lia) Hv Hr)).
    rewrite length_le_encode. reflexivity.
  - destruct Hf as [Hn Hv]. rewrite (bbind_ok _ _ _ _ _ (shr_int_ready b n v rest ltac:(lia) Hv Hr)).
    rewrite length_le_encode. reflexivity.
  - rewrite (bbind_ok _ _ _ _ _ (shr_string_ready b s rest Hf Hr)).
    rewrite length_app, Nat.add_comm. reflexivity.
  - rewrite (bbind_ok _ _ _ _ _ (readPackGUID_ready b g rest Hf Hr)). reflexivity.
Qed.

Lemma ser_cons f fs : ser (f :: fs) = field_bytes f ++ ser fs.
Proof. reflexivity. Qed.

Lemma ser_app fs1 fs2 : ser (fs1 ++ fs2) = ser fs1 ++ ser fs2.
Proof. unfold ser. rewrite fmap_app, concat_app. reflexivity. Qed.

Lemma write_fields_at_end fs b :
  Forall field_ok fs -> at_end b -> room b (length (ser fs)) ->
  write_fields fs b = (Ok tt, extend (ser fs) b).
Proof.
  intros Hfs. revert b. induction Hfs as [|f fs Hf Hfs IH]; intros b He Hroom.
  { cbn. unfold bret. unfold ser. simpl. rewrite extend_nil. reflexivity. }
  rewrite ser_cons in *. unfold room in *. rewrite length_app in Hroom. cbn [write_fields].
  rewrite (bbind_ok _ _ _ _ _ (write_field_at_end f b Hf He ltac:(unfold room; lia))).
  rewrite IH.
  - rewrite extend_app. reflexivity.
  - by apply at_end_extend.
  - rewrite size_extend. lia.
Qed.

Lemma read_kinds_ready fs b rest :
  Forall field_ok fs -> ready b (ser fs) rest ->
  read_kinds (kind_of <$> fs) b = (Ok fs, advance (length (ser fs)) b).
Proof.
  intros Hfs. revert b. induction Hfs as [|f fs Hf Hfs IH]; intros b Hr.
  { unfold ser. simpl. unfold bret. rewrite advance_0. reflexivity. }
  rewrite ser_cons in *. apply ready_split in Hr.
  rewrite fmap_cons. cbn [read_kinds].
  rewrite (bbind_ok _ _ _ _ _ (read_kind_ready f b _ Hf Hr)).
  apply ready_advance in Hr. 
  rewrite (bbind_ok _ _ _ _ _ (IH _ Hr)).
  unfold bret. rewrite advance_advance, length_app. reflexivity.
Qed.

(** ** Properties *)

(** C27: Writing a sequence of typed values (integers of every width and sign,
    strings, packed GUIDs) at the end of a buffer and reading them back with
    the matching extractions from where the writing began gives the same values
    and leaves the read position at the end; nothing throws below the size
    limit of [append]. *)
Theorem fields_roundtrip (fs : list field) (b : ByteBuffer) :
  Forall field_ok fs -> at_end b -> _rpos b = bb_size b -> room b (length (ser fs)) ->
  exists b1, write_fields fs b = (Ok tt, b1) /\
    read_kinds (kind_of <$> fs) b1 = (Ok fs, rfinish b1) /\
    _storage b1 = _storage b ++ ser fs.
Proof.
  intros Hfs He Hr Hroom. exists (extend (ser fs) b).
  split; [by apply write_fields_at_end|]. split; [|reflexivity].
  rewrite (read_kinds_ready fs _ []); [|done|].
  - unfold advance, rfinish, extend. simpl. do 2 f_equal.
    destruct He as [Hw _]. lia.
  - unfold room in Hroom. pose proof (size_nonneg b). split; [simpl; lia|]. split.
    + rewrite size_extend. lia.
    + unfold extend. simpl. rewrite Hr, app_nil_r. unfold bb_size. rewrite Nat2Z.id.
      apply drop_app_length.
Qed.

Lemma fields_roundtrip_witness :
  let fs := [FU 1 5; FU 4 (2 ^ 32 - 1); FS 4 (-7); FStr [87; 111; 87]; FGuid 0xF130001200000042] in
  exists b1, write_fields fs new_buffer = (Ok tt, b1) /\
    read_kinds (kind_of <$> fs) b1 = (Ok fs, rfinish b1) /\
    _storage b1 = _storage new_buffer ++ ser fs.
Proof.
  intros fs. apply (fields_roundtrip fs new_buffer).
  - unfold fs. repeat constructor; unfold in_u, in_s; simpl; lia.
  - unfold at_end. simpl. unfold bb_size. simpl. lia.
  - reflexivity.
  - unfold room. vm_compute. congruence.
Defined.

(** A buffer the network layer hands to a parser: the read position is inside
    the vector, whose size is far below the range of [size_t]. *)
Definition parsable (b : ByteBuffer) : Prop := 0 <= _rpos b <= bb_size b /\ bb_size b < 2 ^ 62.

(** The outcome of an extraction that never leaves the vector: a value or the
    exception; the bytes are not touched and the read position stays inside. *)
Definition safe {A} (m : B A) : Prop :=
  forall b, parsable b ->
    let '(r, b') := m b in
    parsable b' /\ _storage b' = _storage b /\ _rpos b <= _rpos b' /\
    match r with
    | Ok _ => True
    | Err (ByteBufferException add pos esize sz) => add = false /\ sz = bb_size b /\ sz < pos + esize
    | Err _ => False
    end.

Lemma safe_bret {A} (a : A) : safe (bret a).
Proof. intros b Hb. simpl. split_and!; try done; lia. Qed.

Lemma safe_bbind {A C} (m : B A) (k : A -> B C) :
  safe m -> (forall a, safe (k a)) -> safe (bbind m k).
Proof.
  intros Hm Hk b Hb. unfold bbind. specialize (Hm b Hb).
  destruct (m b) as [[a|f] b1]; [|exact Hm].
  destruct Hm as (Hp1 & Hs1 & Hle & _). specialize (Hk a b1 Hp1).
  destruct (k a b1) as [r b2]. destruct Hk as (Hp2 & Hs2 & Hle2 & Hr).
  split_and!; try assumption; [congruence|lia|].
  destruct r as [|[]]; try assumption. unfold bb_size in *. rewrite Hs1 in Hr. exact Hr.
Qed.

Lemma safe_read n : 0 <= n < 2 ^ 62 -> safe (read n).
Proof.
  intros Hn b Hb. pose proof Hb as [Hr Hs]. unfold read, read_at.
  rewrite uwrap_id by (unfold in_u; lia).
  destruct (Z.ltb_spec (bb_size b) (_rpos b + n)).
  - split_and!; try done; lia.
  - rewrite uwrap_id by (unfold in_u; lia).
    split_and!; try done; unfold parsable, bb_size in *; simpl; lia.
Qed.

Lemma safe_shr_uint n : (n <= 8)%nat -> safe (shr_uint n).
Proof. intros. apply safe_bbind; [apply safe_read; lia | intros; apply safe_bret]. Qed.
Lemma safe_shr_int n : (n <= 8)%nat -> safe (shr_int n).
Proof. intros. apply safe_bbind; [apply safe_read; lia | intros; apply safe_bret]. Qed.

Lemma shr_byte_moves b c b' : parsable b -> shr_uint 1 b = (Ok c, b') -> _rpos b' = _rpos b + 1 /\ bb_size b' = bb_size b.
Proof.
  intros [Hr Hs]. unfold shr_uint, bbind, read, read_at. change (Z.of_nat 1) with 1.
  rewrite uwrap_id by (unfold in_u; lia).
  destruct (Z.ltb_spec (bb_size b) (_rpos b + 1)); [discriminate|].
  unfold bret. rewrite uwrap_id by (unfold in_u; lia).
  intros E. injection E as _ <-. unfold bb_size. simpl. lia.
Qed.

Lemma safe_shr_string_loop fuel value b :
  parsable b -> bb_size b - _rpos b < Z.of_nat fuel ->
  let '(r, b') := shr_string_loop fuel value b in
  parsable b' /\ _storage b' = _storage b /\ _rpos b <= _rpos b' /\ exists s, r = Ok s.
Proof.
  revert value b. induction fuel as [|fuel IH]; intros value b Hb Hf; [unfold parsable in Hb; lia|].
  cbn [shr_string_loop]. destruct (Z.ltb_spec (_rpos b) (bb_size b)) as [Hlt|].
  2:{ split_and!; try done; eauto. }
  unfold bbind at 1. pose proof (safe_shr_uint 1 ltac:(lia) b Hb) as Hs.
  destruct (shr_uint 1 b) as [[c|f] b1] eqn:E.
  - destruct Hs as (Hp1 & Hs1 & Hle & _). destruct (shr_byte_moves b c b1 Hb E) as [Hr1 Hsz].
    destruct (c =? 0).
    + simpl. split_and!; try assumption; eauto.
    + specialize (IH (value ++ [c]) b1 Hp1 ltac:(lia)).
      destruct (shr_string_loop fuel (value ++ [c]) b1) as [r b2].
      destruct IH as (? & ? & ? & ?). split_and!; try assumption; [congruence|lia].
  - exfalso. destruct Hs as (_ & _ & _ & Hf').
    unfold shr_uint, bbind, read, read_at in E. change (Z.of_nat 1) with 1 in E. destruct Hb.
    rewrite uwrap_id in E by (unfold in_u; lia).
    destruct (Z.ltb_spec (bb_size b) (_rpos b + 1)); [lia|]. discriminate.
Qed.

Lemma safe_shr_string : safe shr_string.
Proof.
  intros b Hb. unfold shr_string.
  pose proof (safe_shr_string_loop (S (Z.to_nat (bb_size b - _rpos b))) [] b Hb ltac:(lia)) as H.
  destruct (shr_string_loop _ [] b) as [r b']. destruct H as (? & ? & ? & s & ->). done.
Qed.

Lemma safe_readPackGUID_loop bits mark guid : safe (readPackGUID_loop bits mark guid).
Proof.
  revert guid. induction bits as [|i bits IH]; intros guid b Hb; cbn [readPackGUID_loop].
  { split_and!; try done; lia. }
  destruct (has_flag _ _); [|apply IH, Hb].
  pose proof Hb as [Hr Hs]. rewrite uwrap_id by (unfold in_u; lia).
  destruct (Z.ltb_spec (bb_size b) (_rpos b + 1)).
  - split_and!; try done; lia.
  - apply (safe_bbind (shr_uint 1)); [apply safe_shr_uint; lia | intros c; apply IH | exact Hb].
Qed.

Lemma safe_readPackGUID : safe readPackGUID.
Proof.
  intros b Hb. unfold readPackGUID. pose proof Hb as [Hr Hs].
  rewrite uwrap_id by (unfold in_u; lia).
  destruct (Z.ltb_spec (bb_size b) (_rpos b + 1)).
  - split_and!; try done; lia.
  - apply (safe_bbind (shr_uint 1)); [apply safe_shr_uint; lia | intros c; apply safe_readPackGUID_loop | exact Hb].
Qed.

Definition kind_ok (k : kind) : Prop :=
  match k with KU n | KS n => (n <= 8)%nat | _ => True end.

Lemma safe_read_kind k : kind_ok k -> safe (read_kind k).
Proof.
  destruct k; simpl; intros Hk; (apply safe_bbind; [|intros; apply safe_bret]).
  - by apply safe_shr_uint.
  - by apply safe_shr_int.
  - apply safe_shr_string.
  - apply safe_readPackGUID.
Qed.

(** C14: Parsing an arbitrary, possibly malformed packet with any sequence of
    extractions (integers, strings, packed GUIDs) never reads outside the
    buffer and never loops: it yields values or throws the read exception whose
    position and size exceed the buffer; the bytes are unchanged and the read
    position only moves forward within the buffer. *)
Theorem read_kinds_safe (ks : list kind) (b : ByteBuffer) :
  Forall kind_ok ks -> parsable b ->
  let '(r, b') := read_kinds ks b in
  parsable b' /\ _storage b' = _storage b /\ _rpos b <= _rpos b' /\
  match r with
  | Ok _ => True
  | Err (ByteBufferException add pos esize sz) => add = false /\ sz = bb_size b /\ sz < pos + esize
  | Err _ => False
  end.
Proof.
  intros Hks. revert b. change (safe (read_kinds ks)).
  induction Hks as [|k ks Hk Hks IH]; [apply safe_bret|].
  apply safe_bbind; [by apply safe_read_kind|]. intros f.
  apply safe_bbind; [exact IH|]. intros fs. apply safe_bret.
Qed.

Lemma read_kinds_safe_witness :
  let b := mkBuf 0 3 [0x81; 66; 67] in
  let '(r, b') := read_kinds [KGuid; KU 4] b in
  parsable b' /\ _storage b' = _storage b /\ _rpos b <= _rpos b' /\
  match r with
  | Ok _ => True
  | Err (ByteBufferException add pos esize sz) => add = false /\ sz = bb_size b /\ sz < pos + esize
  | Err _ => False
  end.
Proof.
  intros b. apply (read_kinds_safe [KGuid; KU 4] b).
  - repeat constructor; simpl; lia.
  - unfold parsable, b, bb_size. simpl. lia.
Defined.

(** *** Back-patching

    Several handlers write a placeholder count, then the entries, and finally
    [put] the real count over the placeholder. *)

Definition write_counted (fs1 fs2 : list field) (count : Z) : B unit :=
  let? _ := write_fields fs1 in
  let? pos := (fun b => (Ok (_wpos b), b)) in
  let? _ := append_T 4 0 in
  let? _ := write_fields fs2 in
  put_T 4 pos count.

Lemma vec_write_mid pre old src post :
  length old = length src ->
  vec_write (Z.of_nat (length pre)) src (pre ++ old ++ post) = pre ++ src ++ post.
Proof.
  intros Hl. unfold vec_write. rewrite Nat2Z.id, take_app_length.
  rewrite <- Hl, <- length_app, (app_assoc pre old post), drop_app_length. reflexivity.
Qed.

(** The placeholder idiom: writing a header, a 4-byte placeholder, the
    entries, and then putting the count at the remembered position gives exactly
    the header, the count and the entries, and moves no position. *)
Lemma write_counted_spec (fs1 fs2 : list field) (count : Z) (b : ByteBuffer) :
  Forall field_ok fs1 -> Forall field_ok fs2 -> at_end b ->
  room b (length (ser fs1) + 4 + length (ser fs2)) ->
  write_counted fs1 fs2 count b = (Ok tt, extend (ser (fs1 ++ [FU 4 count] ++ fs2)) b).
Proof.
  intros H1 H2 He Hroom. unfold room in Hroom. unfold write_counted.
  rewrite (bbind_ok _ _ _ _ _ (write_fields_at_end fs1 b H1 He ltac:(unfold room; lia))).
  unfold bbind at 1. unfold append_T.
  assert (He1 : at_end (extend (ser fs1) b)) by by apply at_end_extend.
  rewrite (bbind_ok _ _ _ _ _ (append_at_end (le_encode 4 0) _ He1
    ltac:(unfold room; rewrite size_extend, length_le_encode; lia))).
  assert (He2 : at_end (extend (le_encode 4 0) (extend (ser fs1) b))) by by apply at_end_extend.
  rewrite (bbind_ok _ _ _ _ _ (write_fields_at_end fs2 _ H2 He2
    ltac:(unfold room; rewrite !size_extend, length_le_encode; lia))).
  pose proof (size_nonneg b). destruct He as [Hw Hr].
  unfold put_T, put. rewrite length_le_encode, !size_extend, length_le_encode.
  cbn [_wpos extend]. rewrite Hw, uwrap_id by (unfold in_u; lia).
  destruct (Z.ltb_spec (bb_size b + Z.of_nat (length (ser fs1)) + Z.of_nat 4 + Z.of_nat (length (ser fs2)))
    (bb_size b + Z.of_nat (length (ser fs1)) + Z.of_nat 4)) as [C|_]; [lia|].
  unfold extend. cbn [_rpos _wpos _storage]. do 2 f_equal.
  - rewrite Hw, !ser_app, !length_app. change (ser [FU 4 count]) with (le_encode 4 count ++ []).
    rewrite length_app, !length_le_encode. cbn [length]. lia.
  - rewrite !ser_app. change (ser [FU 4 count]) with (le_encode 4 count ++ []).
    rewrite (app_nil_r (le_encode 4 count)).
    replace (bb_size b + Z.of_nat (length (ser fs1)))
      with (Z.of_nat (length (_storage b ++ ser fs1))) by (unfold bb_size; rewrite length_app; lia).
    rewrite <- (app_assoc _ (le_encode 4 0)), vec_write_mid by (rewrite !length_le_encode; reflexivity).
    rewrite <- app_assoc. reflexivity.
Qed.

Lemma write_counted_spec_witness :
  let fs1 := [FU 1 1; FStr [71; 101]; FU 1 16] in
  let fs2 := [FU 8 42; FU 1 3] in
  write_counted fs1 fs2 1 new_buffer =
    (Ok tt, extend (ser (fs1 ++ [FU 4 1] ++ fs2)) new_buffer).
Proof.
  intros fs1 fs2. apply (write_counted_spec fs1 fs2 1 new_buffer).
  - unfold fs1. repeat constructor; unfold in_u; simpl; lia.
  - unfold fs2. repeat constructor; unfold in_u; simpl; lia.
  - unfold at_end, bb_size. simpl. lia.
  - unfold room. vm_compute. intros E; inversion E.
Defined.

(** *** Vectors *)

Lemma shl_elems_fields (fs : list field) b :
  shl_elems write_field fs b = write_fields fs b.
Proof.
  revert b. induction fs as [|f fs IH]; intros b; [reflexivity|].
  cbn [shl_elems write_fields]. unfold bbind.
  destruct (write_field f b) as [[u|e] b1]; [apply IH|reflexivity].
Qed.

Lemma shr_elems_kinds k fs b acc b' :
  Forall (fun f => kind_of f = k) fs ->
  read_kinds (kind_of <$> fs) b = (Ok fs, b') ->
  shr_elems (read_kind k) (length fs) acc b = (Ok (acc ++ fs), b').
Proof.
  intros Hk. revert b acc. induction Hk as [|f fs Hf Hk IH]; intros b acc Hr.
  { cbn in Hr. injection Hr as <-. simpl. rewrite app_nil_r. reflexivity. }
  rewrite fmap_cons in Hr. cbn [read_kinds] in Hr. cbn [length shr_elems]. subst k.
  unfold bbind in Hr |- *. destruct (read_kind (kind_of f) b) as [[f'|e] b1]; [|discriminate].
  destruct (read_kinds (kind_of <$> fs) b1) as [[fs'|e] b2] eqn:E; [|discriminate].
  unfold bret in Hr. injection Hr as -> -> ->.
  rewrite (IH b1 (acc ++ [f]) E), <- app_assoc. reflexivity.
Qed.

(** A [std::vector] (or [std::list]) of values of one type survives
    insertion and extraction: the count and every element come back in order. *)
Lemma vector_roundtrip (k : kind) (fs : list field) (b : ByteBuffer) :
  Forall field_ok fs -> Forall (fun f => kind_of f = k) fs ->
  at_end b -> _rpos b = bb_size b -> room b (4 + length (ser fs)) ->
  exists b1, shl_vector write_field fs b = (Ok tt, b1) /\
    shr_vector (read_kind k) b1 = (Ok fs, rfinish b1).
Proof.
  intros Hfs Hk He Hr Hroom. unfold room in Hroom. pose proof (size_nonneg b) as Hsz.
  assert (Hcnt : (length fs <= length (ser fs))%nat).
  { clear -Hfs. induction Hfs as [|f fs Hf Hfs IH]; [simpl; lia|].
    rewrite ser_cons, length_app. pose proof (field_bytes_ne f Hf).
    destruct (field_bytes f); [done|]. simpl. lia. }
  set (n := Z.of_nat (length fs)).
  assert (Hn : in_u 32 n) by (unfold in_u, n; lia).
  set (bs := ser (FU 4 n :: fs)).
  assert (Hbs : length bs = (4 + length (ser fs))%nat).
  { unfold bs. rewrite ser_cons, length_app. simpl. reflexivity. }
  exists (extend bs b). split.
  - unfold shl_vector. change (u32 (Z.of_nat (length fs))) with (u32 n).
    rewrite uwrap_id by exact Hn. unfold append_T.
    rewrite (bbind_ok _ _ _ _ _ (append_at_end (le_encode 4 n) b He
      ltac:(unfold room; rewrite length_le_encode; lia))).
    rewrite shl_elems_fields, write_fields_at_end; [|done|by apply at_end_extend|].
    + rewrite extend_app. reflexivity.
    + unfold room. rewrite size_extend, length_le_encode. lia.
  - unfold shr_vector.
    assert (Hready : ready (extend bs b) (le_encode 4 n) (ser fs)).
    { split; [simpl; lia|]. split; [rewrite size_extend; lia|].
      unfold extend. simpl _rpos. simpl _storage. rewrite Hr. unfold bb_size. rewrite Nat2Z.id.
      apply drop_app_length. }
    rewrite (bbind_ok _ _ _ _ _ (shr_uint_ready _ 4 n _ ltac:(lia) Hn Hready)).
    unfold n at 1. rewrite Nat2Z.id. apply (shr_elems_kinds k fs _ [] _ Hk).
    rewrite (read_kinds_ready fs _ []); [|done|].
    + unfold advance, rfinish, extend. cbn [_rpos _wpos _storage]. do 2 f_equal.
      destruct He as [Hw _]. lia.
    + apply ready_advance in Hready. rewrite length_le_encode in Hready.
      rewrite <- (app_nil_r (ser fs)) in Hready. apply (ready_split _ [] (ser fs) []). exact Hready.
Qed.


(** ** WorldPacket

    A buffer with an opcode; with the [hack] flag the real opcode travels as
    the first two bytes of an [SMSG_MULTIPLE_PACKETS]. *)

Definition SMSG_MULTIPLE_PACKETS : Z := 0x0FEC0.

Record WorldPacket := mkPacket { m_opcode : Z; wp_buffer : ByteBuffer }.

Definition new_packet (opcode : Z) (hack : bool) : result WorldPacket :=
  if hack then
    match append_T 2 (u16 opcode) new_buffer with
    | (Ok _, b) => Ok (mkPacket SMSG_MULTIPLE_PACKETS b)
    | (Err f, _) => Err f
    end
  else Ok (mkPacket opcode new_buffer).

Definition Initialize (p : WorldPacket) (opcode : Z) (hack : bool) : result WorldPacket :=
  let b := clear (wp_buffer p) in
  if hack then
    match append_T 2 (u16 opcode) b with
    | (Ok _, b') => Ok (mkPacket SMSG_MULTIPLE_PACKETS b')
    | (Err f, _) => Err f
    end
  else Ok (mkPacket opcode b).

(** A packet as handlers build it: an opcode and the sequence of typed values
    streamed into it, and the [WorldPacket] it becomes. *)
Record packet := Pkt { pkt_opcode : Z; pkt_body : list field }.

Definition render (p : packet) : result WorldPacket :=
  match new_packet (pkt_opcode p) false with
  | Ok wp => match write_fields (pkt_body p) (wp_buffer wp) with
             | (Ok _, b) => Ok (mkPacket (m_opcode wp) b)
             | (Err f, _) => Err f
             end
  | Err f => Err f
  end.

Lemma at_end_new : at_end new_buffer.
Proof. unfold at_end, bb_size. simpl. lia. Qed.

(** What the peer of a packet sees: the rendered bytes parse back, with the
    packet's own sequence of types, to the values that were streamed. *)
Definition decodes (p : packet) : Prop :=
  exists wp, render p = Ok wp /\ m_opcode wp = pkt_opcode p /\
    _storage (wp_buffer wp) = ser (pkt_body p) /\
    (read_kinds (kind_of <$> pkt_body p) (wp_buffer wp)).1 = Ok (pkt_body p).

Lemma packet_decodes p :
  Forall field_ok (pkt_body p) -> Z.of_nat (length (ser (pkt_body p))) <= 10000000 -> decodes p.
Proof.
  intros Hok Hlen.
  destruct (fields_roundtrip (pkt_body p) new_buffer Hok at_end_new eq_refl) as (b1 & Hw & Hr & Hs).
  { unfold room, bb_size. simpl. lia. }
  exists (mkPacket (pkt_opcode p) b1). unfold render, new_packet. cbn [wp_buffer m_opcode].
  rewrite Hw. split_and!; [reflexivity..| exact Hs |]. rewrite Hr. reflexivity.
Qed.

(** [operator>>(bool&)] takes the bytes from 128 up, which a signed [char]
    reads as negative, for [false]. *)
Lemma shr_bool_byte c b rest :
  is_byte c -> ready b [c] rest ->
  shr_bool b = (Ok (bool_decide (1 <= c <= 127)), advance 1 b).
Proof.
  intros Hc Hr. unfold shr_bool, shr_int.
  assert (Hrd := read_ready b [c] rest Hr ltac:(done)).
  change (Z.of_nat (length [c])) with (Z.of_nat 1) in Hrd.
  unfold bbind at 1 2. rewrite Hrd. unfold bret. do 2 f_equal.
  unfold is_byte in Hc. cbn [le_decode]. unfold swrap. change (8 * Z.of_nat 1) with 8.
  change (2 ^ (8 - 1)) with 128. change (2 ^ 8) with 256.
  destruct (Z.ltb_spec c 128).
  - rewrite Z.mod_small by lia. case_bool_decide; [apply Z.ltb_lt|apply Z.ltb_ge]; lia.
  - replace (c + 256 * 0 + 128) with (c - 128 + 1 * 256) by lia.
    rewrite Z.mod_add, Z.mod_small by lia. rewrite bool_decide_false by lia. apply Z.ltb_ge; lia.
Qed.
