(* ===== verification/Channel.v ===== *)
(** * Chat channels

    [Channel] of src/src/server/game/Chat/Channels/Channel.cpp and Channel.h:
    membership, ownership, moderation, bans, the notices sent to the clients
    and the row kept in the [channels] table.  Every handler is a program over
    the channel's members that logs the packets it sends, the database
    statements it runs and the calls it makes on [Player].

    The rest of the server enters as a [WorldView]: what [sObjectMgr] finds
    online and the configuration switches a handler reads. *)
From S2P Require Import Prelude Text ByteBuffer.

(** ** What the handlers read of the rest of the server *)

Definition SEC_PLAYER : Z := 0.
Definition SEC_GAMEMASTER : Z := 2.

Record PlayerView := mkPlayerView {
  GetGUID : Z;
  GetSecurity : Z;
  GetTeam : Z;
  GetGroup : bool;
  HasIgnore : Z -> bool;
  GetPlayerName : list Z;
  chatTag : Z
}.

Record WorldView := mkWorldView {
  GetPlayer : Z -> option PlayerView;
  GetPlayer_name : list Z -> option PlayerView;
  GetPlayerNameByGUID : Z -> option (list Z);
  IsVisibleGloballyFor : Z -> Z -> bool;
  CONFIG_ALLOW_TWO_SIDE_INTERACTION_CHANNEL : bool;
  CONFIG_RESTRICTED_LFG_CHANNEL : bool;
  CONFIG_SILENTLY_GM_JOIN_TO_CHANNEL : bool;
  CONFIG_GM_LEVEL_IN_WHO_LIST : Z;
  CONFIG_PRESERVE_CUSTOM_CHANNELS : bool;
  CONFIG_PRESERVE_CUSTOM_CHANNEL_DURATION : Z
}.

(** [GUID_LOPART] of a player's GUID. *)
Definition GUID_LOPART (guid : Z) : Z := Z.land guid 0xFFFFFFFF.

(** ** Data *)

Definition CHANNEL_FLAG_CUSTOM : Z := 0x01.
Definition CHANNEL_FLAG_TRADE : Z := 0x04.
Definition CHANNEL_FLAG_NOT_LFG : Z := 0x08.
Definition CHANNEL_FLAG_GENERAL : Z := 0x10.
Definition CHANNEL_FLAG_CITY : Z := 0x20.
Definition CHANNEL_FLAG_LFG : Z := 0x40.

Definition CHANNEL_DBC_FLAG_TRADE : Z := 0x00008.
Definition CHANNEL_DBC_FLAG_CITY_ONLY2 : Z := 0x00020.
Definition CHANNEL_DBC_FLAG_LFG : Z := 0x40000.

Definition MEMBER_FLAG_NONE : Z := 0x00.
Definition MEMBER_FLAG_OWNER : Z := 0x01.
Definition MEMBER_FLAG_MODERATOR : Z := 0x02.
Definition MEMBER_FLAG_MUTED : Z := 0x08.

Record PlayerInfo := mkPI { player : Z; flags : Z }.

Definition IsOwner (pi : PlayerInfo) : bool := has_flag (flags pi) MEMBER_FLAG_OWNER.
Definition IsModerator (pi : PlayerInfo) : bool := has_flag (flags pi) MEMBER_FLAG_MODERATOR.
Definition IsMuted (pi : PlayerInfo) : bool := has_flag (flags pi) MEMBER_FLAG_MUTED.

Definition set_member_flag (f : Z) (state : bool) (pi : PlayerInfo) : PlayerInfo :=
  mkPI (player pi) (if state then Z.lor (flags pi) f else Z.ldiff (flags pi) f).
Definition pi_SetOwner : bool -> PlayerInfo -> PlayerInfo := set_member_flag MEMBER_FLAG_OWNER.
Definition pi_SetModerator : bool -> PlayerInfo -> PlayerInfo := set_member_flag MEMBER_FLAG_MODERATOR.
Definition pi_SetMuted : bool -> PlayerInfo -> PlayerInfo := set_member_flag MEMBER_FLAG_MUTED.

Record Channel := mkChannel {
  players : gmap Z PlayerInfo;
  banned : gset Z;
  m_announce : bool;
  m_ownership : bool;
  m_name : list Z;
  m_password : list Z;
  m_flags : Z;
  m_channelId : Z;
  m_ownerGUID : Z;
  m_IsSaved : bool;
  m_Team : Z
}.

Definition with_players (f : gmap Z PlayerInfo -> gmap Z PlayerInfo) (c : Channel) : Channel :=
  mkChannel (f (players c)) (banned c) (m_announce c) (m_ownership c) (m_name c) (m_password c)
    (m_flags c) (m_channelId c) (m_ownerGUID c) (m_IsSaved c) (m_Team c).
Definition with_banned (f : gset Z -> gset Z) (c : Channel) : Channel :=
  mkChannel (players c) (f (banned c)) (m_announce c) (m_ownership c) (m_name c) (m_password c)
    (m_flags c) (m_channelId c) (m_ownerGUID c) (m_IsSaved c) (m_Team c).
Definition with_announce (b : bool) (c : Channel) : Channel :=
  mkChannel (players c) (banned c) b (m_ownership c) (m_name c) (m_password c)
    (m_flags c) (m_channelId c) (m_ownerGUID c) (m_IsSaved c) (m_Team c).
Definition with_password (s : list Z) (c : Channel) : Channel :=
  mkChannel (players c) (banned c) (m_announce c) (m_ownership c) (m_name c) s
    (m_flags c) (m_channelId c) (m_ownerGUID c) (m_IsSaved c) (m_Team c).
Definition with_owner (g : Z) (c : Channel) : Channel :=
  mkChannel (players c) (banned c) (m_announce c) (m_ownership c) (m_name c) (m_password c)
    (m_flags c) (m_channelId c) g (m_IsSaved c) (m_Team c).

Inductive event :=
| SendPacket (to : Z) (data : packet)
| JoinedChannel (guid : Z)
| LeftChannel (guid : Z)
| DbSetChannel (announce ownership : bool) (password banlist name : list Z) (team : Z)
| DbSetChannelUsage (name : list Z) (team : Z)
| DbAddChannel (name : list Z) (team : Z)
| DbCleanChannel (seconds : Z).

Abbreviation CM := (M Channel event).

Definition IsOn (c : Channel) (who : Z) : bool := bool_decide (is_Some (players c !! who)).
Definition IsBanned (c : Channel) (guid : Z) : bool := bool_decide (guid ∈ banned c).
Definition IsConstant (c : Channel) : bool := negb (m_channelId c =? 0).
Definition GetNumPlayers (c : Channel) : Z := u32 (Z.of_nat (size (players c))).
Definition HasFlag (c : Channel) (flag : Z) : bool := has_flag (m_flags c) flag.

(** [players[p]]: the entry, value-initialised if the key is not in the map. *)
Definition players_at (c : Channel) (p : Z) : PlayerInfo := default (mkPI 0 0) (players c !! p).
(** [players[p].Set...(...)], which inserts that entry first. *)
Definition update_player (p : Z) (f : PlayerInfo -> PlayerInfo) (c : Channel) : Channel :=
  with_players (<[p := f (players_at c p)]>) c.

Definition GetPlayerFlags (c : Channel) (p : Z) : Z :=
  match players c !! p with Some pi => flags pi | None => 0 end.

(** ** The saved form of the ban list *)

Definition banlist_string (b : gset Z) : list Z :=
  concat ((fun g => dec_string g ++ [SPACE]) <$> oset_list b).

Definition load_banlist (s : list Z) : gset Z :=
  foldl (fun b tok => let banned_guid := u64 (atol tok) in
                      if negb (banned_guid =? 0) then {[banned_guid]} ∪ b else b)
    ∅ (Tokens s SPACE).

(** ** Notices *)

Definition SMSG_CHANNEL_NOTIFY : Z := 0x07CAC.
Definition SMSG_CHANNEL_LIST : Z := 0x069E0.
Definition SMSG_MESSAGECHAT : Z := 0x061E4.
Definition SMSG_USERLIST_ADD : Z := 0x0F8CC.
Definition SMSG_USERLIST_REMOVE : Z := 0x0EF80.
Definition SMSG_USERLIST_UPDATE : Z := 0x02C8C.

Definition b2z (b : bool) : Z := if b then 1 else 0.

Definition MakeNotifyPacket (c : Channel) (notify_type : Z) (rest : list field) : packet :=
  Pkt SMSG_CHANNEL_NOTIFY (FU 1 notify_type :: FStr (m_name c) :: rest).

Definition MakeJoined c guid := MakeNotifyPacket c 0x00 [FU 8 guid].
Definition MakeLeft c guid := MakeNotifyPacket c 0x01 [FU 8 guid].
Definition MakeYouJoined c := MakeNotifyPacket c 0x02 [FU 1 (m_flags c); FU 4 (m_channelId c); FU 4 0].
Definition MakeYouLeft c := MakeNotifyPacket c 0x03 [FU 4 (m_channelId c); FU 1 (b2z (IsConstant c))].
Definition MakeWrongPassword c := MakeNotifyPacket c 0x04 [].
Definition MakeNotMember c := MakeNotifyPacket c 0x05 [].
Definition MakeNotModerator c := MakeNotifyPacket c 0x06 [].
Definition MakePasswordChanged c guid := MakeNotifyPacket c 0x07 [FU 8 guid].
Definition MakeOwnerChanged c guid := MakeNotifyPacket c 0x08 [FU 8 guid].
Definition MakePlayerNotFound c name := MakeNotifyPacket c 0x09 [FStr name].
Definition MakeNotOwner c := MakeNotifyPacket c 0x0A [].
Definition MakeModeChange c guid oldflags :=
  MakeNotifyPacket c 0x0C [FU 8 guid; FU 1 oldflags; FU 1 (GetPlayerFlags c guid)].
Definition MakeAnnouncementsOn c guid := MakeNotifyPacket c 0x0D [FU 8 guid].
Definition MakeAnnouncementsOff c guid := MakeNotifyPacket c 0x0E [FU 8 guid].
Definition MakeMuted c := MakeNotifyPacket c 0x11 [].
Definition MakePlayerKicked c bad good := MakeNotifyPacket c 0x12 [FU 8 bad; FU 8 good].
Definition MakeBanned c := MakeNotifyPacket c 0x13 [].
Definition MakePlayerBanned c bad good := MakeNotifyPacket c 0x14 [FU 8 bad; FU 8 good].
Definition MakePlayerUnbanned c bad good := MakeNotifyPacket c 0x15 [FU 8 bad; FU 8 good].
Definition MakePlayerAlreadyMember c guid := MakeNotifyPacket c 0x17 [FU 8 guid].
Definition MakeInvite c guid := MakeNotifyPacket c 0x18 [FU 8 guid].
Definition MakeInviteWrongFaction c := MakeNotifyPacket c 0x19 [].
Definition MakePlayerInvited c name := MakeNotifyPacket c 0x1D [FStr name].
Definition MakePlayerInviteBanned c name := MakeNotifyPacket c 0x1E [FStr name].
Definition MakeNotInLfg c := MakeNotifyPacket c 0x21 [].

(** "PLAYER_NOT_FOUND" and "Nobody". *)
Definition PLAYER_NOT_FOUND : list Z :=
  [80; 76; 65; 89; 69; 82; 95; 78; 79; 84; 95; 70; 79; 85; 78; 68].
Definition Nobody : list Z := [78; 111; 98; 111; 100; 121].

Section handlers.
Context (w : WorldView).

Definition MakeChannelOwner (c : Channel) : packet :=
  let name := match GetPlayerNameByGUID w (m_ownerGUID c) with
              | Some ((_ :: _) as n) => n
              | _ => PLAYER_NOT_FOUND
              end in
  MakeNotifyPacket c 0x0B
    [FStr (if IsConstant c || (m_ownerGUID c =? 0) then Nobody else name)].

(** ** Sending *)

Definition SendToOne (data : packet) (who : Z) : CM unit :=
  match GetPlayer w who with
  | Some _ => emit (SendPacket who data)
  | None => ret tt
  end.

Definition SendToAll (data : packet) (p : Z) : CM unit :=
  with_state (fun c => for_each (omap_list (players c)) (fun '(i, _) =>
    match GetPlayer w i with
    | Some plr => when ((p =? 0) || negb (HasIgnore plr (GUID_LOPART p))) (emit (SendPacket i data))
    | None => ret tt
    end)).

Definition SendToAllButOne (data : packet) (who : Z) : CM unit :=
  with_state (fun c => for_each (omap_list (players c)) (fun '(i, _) =>
    when (negb (i =? who))
      match GetPlayer w i with
      | Some plr => emit (SendPacket i data)
      | None => ret tt
      end)).

(** ** Database *)

Definition UpdateChannelInDB : CM unit :=
  with_state (fun c => when (m_IsSaved c)
    (emit (DbSetChannel (m_announce c) (m_ownership c) (m_password c)
             (banlist_string (banned c)) (m_name c) (m_Team c)))).

Definition UpdateChannelUseageInDB : CM unit :=
  with_state (fun c => emit (DbSetChannelUsage (m_name c) (m_Team c))).

Definition CleanOldChannelsInDB : list event :=
  if 0 <? CONFIG_PRESERVE_CUSTOM_CHANNEL_DURATION w
  then [DbCleanChannel (u32 (CONFIG_PRESERVE_CUSTOM_CHANNEL_DURATION w * 86400))] else [].

(** ** Membership notifications *)

Definition JoinNotify (guid : Z) : CM unit := with_state (fun c =>
  let data := Pkt (if IsConstant c then SMSG_USERLIST_ADD else SMSG_USERLIST_UPDATE)
    [FU 8 guid; FU 1 (GetPlayerFlags c guid); FU 1 (m_flags c); FU 4 (GetNumPlayers c); FStr (m_name c)] in
  if IsConstant c then SendToAllButOne data guid else SendToAll data 0).

Definition LeaveNotify (guid : Z) : CM unit := with_state (fun c =>
  let data := Pkt SMSG_USERLIST_REMOVE
    [FU 8 guid; FU 1 (m_flags c); FU 4 (GetNumPlayers c); FStr (m_name c)] in
  if IsConstant c then SendToAllButOne data guid else SendToAll data 0).

(** ** Flags and ownership *)

(** [SetOwner(uint64 guid, bool exclaim)]. *)
Definition SetOwner_guid (guid : Z) (exclaim : bool) : CM unit :=
  with_state (fun c =>
    when (negb (m_ownerGUID c =? 0) && IsOn c (m_ownerGUID c))
      (modify (update_player (m_ownerGUID c) (pi_SetOwner false)))) ;;
  modify (with_owner guid) ;;
  when (negb (guid =? 0)) (
    with_state (fun c =>
      let oldFlag := GetPlayerFlags c guid in
      modify (update_player guid (pi_SetModerator true)) ;;
      modify (update_player guid (pi_SetOwner true)) ;;
      with_state (fun c => SendToAll (MakeModeChange c guid oldFlag) 0) ;;
      when exclaim (with_state (fun c => SendToAll (MakeOwnerChanged c guid) 0)) ;;
      UpdateChannelInDB)).

(** [SetModerator(uint64 p, bool set)] and [SetMute(uint64 p, bool set)]. *)
Definition SetModerator_guid (p : Z) (set : bool) : CM unit := with_state (fun c =>
  when (negb (Bool.eqb (IsModerator (players_at c p)) set)) (
    let oldFlag := GetPlayerFlags c p in
    modify (update_player p (pi_SetModerator set)) ;;
    with_state (fun c => SendToAll (MakeModeChange c p oldFlag) 0))).

Definition SetMute_guid (p : Z) (set : bool) : CM unit := with_state (fun c =>
  when (negb (Bool.eqb (IsMuted (players_at c p)) set)) (
    let oldFlag := GetPlayerFlags c p in
    modify (update_player p (pi_SetMuted set)) ;;
    with_state (fun c => SendToAll (MakeModeChange c p oldFlag) 0))).

(** The security of the acting player, [SEC_PLAYER] when offline. *)
Definition security_of (p : Z) : Z :=
  match GetPlayer w p with Some plr => GetSecurity plr | None => SEC_PLAYER end.

(** Announcements skip silent game masters. *)
Definition announces (c : Channel) (plr : option PlayerView) : bool :=
  m_announce c &&
  match plr with
  | None => true
  | Some v => (GetSecurity v <? SEC_GAMEMASTER) || negb (CONFIG_SILENTLY_GM_JOIN_TO_CHANNEL w)
  end.

(** ** Handlers *)

Definition Join (p : Z) (pass : list Z) : CM unit := with_state (fun c =>
  if IsOn c p then
    when (negb (IsConstant c)) (SendToOne (MakePlayerAlreadyMember c p) p)
  else if IsBanned c p then SendToOne (MakeBanned c) p
  else if (0 <? Z.of_nat (length (m_password c))) &&
          negb (bool_decide (c_str pass = c_str (m_password c))) then
    SendToOne (MakeWrongPassword c) p
  else
    let plr := GetPlayer w p in
    if match plr with
       | Some v => HasFlag c CHANNEL_FLAG_LFG && CONFIG_RESTRICTED_LFG_CHANNEL w &&
                   (GetSecurity v =? SEC_PLAYER) && GetGroup v
       | None => false
       end then SendToOne (MakeNotInLfg c) p
    else
      match plr with Some _ => emit (JoinedChannel p) | None => ret tt end ;;
      when (announces c plr) (SendToAll (MakeJoined c p) 0) ;;
      modify (with_players (<[p := mkPI p MEMBER_FLAG_NONE]>)) ;;
      with_state (fun c => SendToOne (MakeYouJoined c) p) ;;
      JoinNotify p ;;
      when (negb (IsConstant c)) (
        with_state (fun c => when (negb (bool_decide (players c = ∅))) UpdateChannelUseageInDB) ;;
        with_state (fun c =>
          when ((m_ownerGUID c =? 0) && m_ownership c) (
            SetOwner_guid p (1 <? Z.of_nat (size (players c))) ;;
            modify (update_player p (pi_SetModerator true)))))).

Definition Leave (p : Z) (send : bool) : CM unit := with_state (fun c =>
  if negb (IsOn c p) then when send (SendToOne (MakeNotMember c) p)
  else
    let plr := GetPlayer w p in
    when send (
      SendToOne (MakeYouLeft c) p ;;
      match plr with Some _ => emit (LeftChannel p) | None => ret tt end) ;;
    let changeowner := IsOwner (players_at c p) in
    modify (with_players (delete p)) ;;
    with_state (fun c => when (announces c plr) (SendToAll (MakeLeft c p) 0)) ;;
    LeaveNotify p ;;
    when (negb (IsConstant c)) (
      UpdateChannelUseageInDB ;;
      with_state (fun c =>
        match omap_list (players c) with
        | (_, first) :: _ =>
            when (changeowner && m_ownership c) (
              let newowner := player first in
              modify (update_player newowner (pi_SetModerator true)) ;;
              SetOwner_guid newowner true)
        | [] => ret tt
        end))).

Definition KickOrBan (good : Z) (badname : list Z) (ban : bool) : CM unit := with_state (fun c =>
  let sec := security_of good in
  if negb (IsOn c good) then SendToOne (MakeNotMember c) good
  else if negb (IsModerator (players_at c good)) && (sec <? SEC_GAMEMASTER) then
    SendToOne (MakeNotModerator c) good
  else
    match GetPlayer_name w badname with
    | None => SendToOne (MakePlayerNotFound c badname) good
    | Some bad =>
        if negb (IsOn c (GetGUID bad)) then SendToOne (MakePlayerNotFound c badname) good
        else if (sec <? SEC_GAMEMASTER) && (GetGUID bad =? m_ownerGUID c) && negb (good =? m_ownerGUID c)
        then SendToOne (MakeNotOwner c) good
        else
          let changeowner := m_ownerGUID c =? GetGUID bad in
          (if ban && negb (IsBanned c (GetGUID bad)) then
             modify (with_banned (fun b => {[GetGUID bad]} ∪ b)) ;;
             UpdateChannelInDB ;;
             with_state (fun c => SendToAll (MakePlayerBanned c (GetGUID bad) good) 0)
           else with_state (fun c => SendToAll (MakePlayerKicked c (GetGUID bad) good) 0)) ;;
          modify (with_players (delete (GetGUID bad))) ;;
          emit (LeftChannel (GetGUID bad)) ;;
          with_state (fun c =>
            when (changeowner && m_ownership c && negb (bool_decide (players c = ∅))) (
              modify (update_player good (pi_SetModerator true)) ;;
              SetOwner_guid good true))
    end).

Definition UnBan (good : Z) (badname : list Z) : CM unit := with_state (fun c =>
  let sec := security_of good in
  if negb (IsOn c good) then SendToOne (MakeNotMember c) good
  else if negb (IsModerator (players_at c good)) && (sec <? SEC_GAMEMASTER) then
    SendToOne (MakeNotModerator c) good
  else
    match GetPlayer_name w badname with
    | None => SendToOne (MakePlayerNotFound c badname) good
    | Some bad =>
        if negb (IsBanned c (GetGUID bad)) then SendToOne (MakePlayerNotFound c badname) good
        else
          modify (with_banned (fun b => b ∖ {[GetGUID bad]})) ;;
          with_state (fun c => SendToAll (MakePlayerUnbanned c (GetGUID bad) good) 0) ;;
          UpdateChannelInDB
    end).

Definition Password (p : Z) (pass : list Z) : CM unit := with_state (fun c =>
  let sec := security_of p in
  if negb (IsOn c p) then SendToOne (MakeNotMember c) p
  else if negb (IsModerator (players_at c p)) && (sec <? SEC_GAMEMASTER) then
    SendToOne (MakeNotModerator c) p
  else
    modify (with_password (c_str pass)) ;;
    with_state (fun c => SendToAll (MakePasswordChanged c p) 0) ;;
    UpdateChannelInDB).

Definition SetMode (p : Z) (p2n : list Z) (moderator set : bool) : CM unit := with_state (fun c =>
  match GetPlayer w p with
  | None => ret tt
  | Some plr =>
      let sec := GetSecurity plr in
      if negb (IsOn c p) then SendToOne (MakeNotMember c) p
      else if negb (IsModerator (players_at c p)) && (sec <? SEC_GAMEMASTER) then
        SendToOne (MakeNotModerator c) p
      else
        match GetPlayer_name w p2n with
        | None => SendToOne (MakePlayerNotFound c p2n) p
        | Some newp =>
            if (p =? m_ownerGUID c) && (GetGUID newp =? m_ownerGUID c) && moderator then ret tt
            else if negb (IsOn c (GetGUID newp)) then SendToOne (MakePlayerNotFound c p2n) p
            else if ((GetSecurity plr <? SEC_GAMEMASTER) || (GetSecurity newp <? SEC_GAMEMASTER)) &&
                    negb (GetTeam plr =? GetTeam newp) &&
                    negb (CONFIG_ALLOW_TWO_SIDE_INTERACTION_CHANNEL w) then
              SendToOne (MakePlayerNotFound c p2n) p
            else if (m_ownerGUID c =? GetGUID newp) && negb (m_ownerGUID c =? p) then
              SendToOne (MakeNotOwner c) p
            else if moderator then SetModerator_guid (GetGUID newp) set
            else SetMute_guid (GetGUID newp) set
        end
  end).

(** [SetOwner(uint64 p, const char *newname)]. *)
Definition SetOwner_name (p : Z) (newname : list Z) : CM unit := with_state (fun c =>
  match GetPlayer w p with
  | None => ret tt
  | Some plr =>
      let sec := GetSecurity plr in
      if negb (IsOn c p) then SendToOne (MakeNotMember c) p
      else if (sec <? SEC_GAMEMASTER) && negb (p =? m_ownerGUID c) then SendToOne (MakeNotOwner c) p
      else
        match GetPlayer_name w newname with
        | None => SendToOne (MakePlayerNotFound c newname) p
        | Some newp =>
            if negb (IsOn c (GetGUID newp)) then SendToOne (MakePlayerNotFound c newname) p
            else if negb (GetTeam newp =? GetTeam plr) &&
                    negb (CONFIG_ALLOW_TWO_SIDE_INTERACTION_CHANNEL w) then
              SendToOne (MakePlayerNotFound c newname) p
            else
              modify (update_player (GetGUID newp) (pi_SetModerator true)) ;;
              SetOwner_guid (GetGUID newp) true
        end
  end).

Definition SendWhoOwner (p : Z) : CM unit := with_state (fun c =>
  if negb (IsOn c p) then SendToOne (MakeNotMember c) p
  else SendToOne (MakeChannelOwner c) p).

(** The entries of the member list [player] may see. *)
Definition listed (viewer : PlayerView) (i : Z) : bool :=
  match GetPlayer w i with
  | Some plr => ((SEC_PLAYER <? GetSecurity viewer) ||
                 (GetSecurity plr <=? CONFIG_GM_LEVEL_IN_WHO_LIST w)) &&
                IsVisibleGloballyFor w i (GetGUID viewer)
  | None => false
  end.

Definition list_entries (viewer : PlayerView) (c : Channel) : list (Z * PlayerInfo) :=
  filter (fun '(i, _) => listed viewer i) (omap_list (players c)).

(** The count is written as a placeholder and put afterwards, see
    [write_counted_spec]. *)
Definition List (viewer : PlayerView) : CM unit := with_state (fun c =>
  let p := GetGUID viewer in
  if negb (IsOn c p) then SendToOne (MakeNotMember c) p
  else
    let entries := list_entries viewer c in
    SendToOne (Pkt SMSG_CHANNEL_LIST
      ([FU 1 1; FStr (m_name c); FU 1 (m_flags c)] ++
       [FU 4 (u32 (Z.of_nat (length entries)))] ++
       concat ((fun '(i, pi) => [FU 8 i; FU 1 (flags pi)]) <$> entries))) p).

Definition Announce (p : Z) : CM unit := with_state (fun c =>
  let sec := security_of p in
  if negb (IsOn c p) then SendToOne (MakeNotMember c) p
  else if negb (IsModerator (players_at c p)) && (sec <? SEC_GAMEMASTER) then
    SendToOne (MakeNotModerator c) p
  else
    modify (with_announce (negb (m_announce c))) ;;
    with_state (fun c => SendToAll (if m_announce c then MakeAnnouncementsOn c p
                                    else MakeAnnouncementsOff c p) 0) ;;
    UpdateChannelInDB).

Definition chat_packet (c : Channel) (p : Z) (what : list Z) (lang : Z) : packet :=
  Pkt SMSG_MESSAGECHAT
    [FU 1 0x11; FU 4 lang; FU 8 p; FU 4 0; FStr (m_name c); FU 8 p;
     FU 4 (u32 (Z.of_nat (length (c_str what)) + 1)); FStr (c_str what);
     FU 1 (match GetPlayer w p with Some plr => chatTag plr | None => 0 end)].

Definition Say (p : Z) (what : option (list Z)) (lang0 : Z) : CM unit :=
  match what with
  | None => ret tt
  | Some what =>
      let lang := if CONFIG_ALLOW_TWO_SIDE_INTERACTION_CHANNEL w then 0 else lang0 in
      with_state (fun c =>
        if negb (IsOn c p) then SendToOne (MakeNotMember c) p
        else if IsMuted (players_at c p) then SendToOne (MakeMuted c) p
        else SendToAll (chat_packet c p what lang)
               (if negb (IsModerator (players_at c p)) then p else 0))
  end.

Definition Invite (p : Z) (newname : list Z) : CM unit := with_state (fun c =>
  if negb (IsOn c p) then SendToOne (MakeNotMember c) p
  else
    match GetPlayer_name w newname with
    | None => SendToOne (MakePlayerNotFound c newname) p
    | Some newp =>
        if IsBanned c (GetGUID newp) then SendToOne (MakePlayerInviteBanned c newname) p
        else
          match GetPlayer w p with
          | None => ret tt
          | Some plr =>
              if negb (GetTeam newp =? GetTeam plr) &&
                 negb (CONFIG_ALLOW_TWO_SIDE_INTERACTION_CHANNEL w) then
                SendToOne (MakeInviteWrongFaction c) p
              else if IsOn c (GetGUID newp) then SendToOne (MakePlayerAlreadyMember c (GetGUID newp)) p
              else
                when (negb (HasIgnore newp (GUID_LOPART p)))
                  (SendToOne (MakeInvite c p) (GetGUID newp)) ;;
                SendToOne (MakePlayerInvited c (GetPlayerName newp)) p
          end
    end).
End handlers.

(** ** Construction *)

(** A row of the [channels] table: announce, ownership, password, ban list. *)
Record ChannelRow := mkRow {
  row_announce : bool;
  row_ownership : bool;
  row_password : list Z;
  row_bannedList : option (list Z)
}.

(** [Channel::Channel]: [entry] is the flags of the DBC entry of [channel_id],
    when there is one, [row] what the [CHAR_LOAD_CHANNEL] query returns. *)
Definition new_Channel (w : WorldView) (name : list Z) (channel_id Team : Z)
    (entry : option Z) (row : option ChannelRow) : Channel * list event :=
  match entry with
  | Some ch_flags =>
      let fl := CHANNEL_FLAG_GENERAL in
      let fl := if has_flag ch_flags CHANNEL_DBC_FLAG_TRADE then Z.lor fl CHANNEL_FLAG_TRADE else fl in
      let fl := if has_flag ch_flags CHANNEL_DBC_FLAG_CITY_ONLY2 then Z.lor fl CHANNEL_FLAG_CITY else fl in
      let fl := if has_flag ch_flags CHANNEL_DBC_FLAG_LFG then Z.lor fl CHANNEL_FLAG_LFG
                else Z.lor fl CHANNEL_FLAG_NOT_LFG in
      (mkChannel ∅ ∅ false false name [] fl channel_id 0 false Team, [])
  | None =>
      if CONFIG_PRESERVE_CUSTOM_CHANNELS w then
        match row with
        | Some r =>
            (mkChannel ∅
               match row_bannedList r with Some l => load_banlist (c_str l) | None => ∅ end
               (row_announce r) (row_ownership r) name (row_password r)
               CHANNEL_FLAG_CUSTOM channel_id 0 true Team, [])
        | None =>
            (mkChannel ∅ ∅ true true name [] CHANNEL_FLAG_CUSTOM channel_id 0 true Team,
             [DbAddChannel name Team])
        end
      else (mkChannel ∅ ∅ true true name [] CHANNEL_FLAG_CUSTOM channel_id 0 false Team, [])
  end.

(** ** Reachable channels *)

Inductive channel_op :=
| OpJoin (p : Z) (pass : list Z)
| OpLeave (p : Z) (send : bool)
| OpKickOrBan (good : Z) (badname : list Z) (ban : bool)
| OpUnBan (good : Z) (badname : list Z)
| OpPassword (p : Z) (pass : list Z)
| OpSetMode (p : Z) (p2n : list Z) (moderator set : bool)
| OpSetOwner (p : Z) (newname : list Z)
| OpSendWhoOwner (p : Z)
| OpList (viewer : PlayerView)
| OpAnnounce (p : Z)
| OpSay (p : Z) (what : option (list Z)) (lang : Z)
| OpInvite (p : Z) (newname : list Z).

Definition run_op (w : WorldView) (op : channel_op) : CM unit :=
  match op with
  | OpJoin p pass => Join w p pass
  | OpLeave p send => Leave w p send
  | OpKickOrBan good badname ban => KickOrBan w good badname ban
  | OpUnBan good badname => UnBan w good badname
  | OpPassword p pass => Password w p pass
  | OpSetMode p p2n moderator set => SetMode w p p2n moderator set
  | OpSetOwner p newname => SetOwner_name w p newname
  | OpSendWhoOwner p => SendWhoOwner w p
  | OpList viewer => List w viewer
  | OpAnnounce p => Announce w p
  | OpSay p what lang => Say w p what lang
  | OpInvite p newname => Invite w p newname
  end.

(** The world may change between two calls. *)
Inductive reachable : Channel -> Prop :=
| reach_new w name channel_id Team entry row :
    reachable (new_Channel w name channel_id Team entry row).1
| reach_op w op c : reachable c -> reachable (run_state (run_op w op) c).

(** ** The sending primitives do not touch the channel *)

Section sending.
Context (w : WorldView).

Lemma pure_SendToOne data who : pure_state (SendToOne w data who).
Proof. unfold SendToOne. destruct (GetPlayer w who); auto with dc. Qed.

Lemma pure_SendToAll data p : pure_state (SendToAll w data p).
Proof.
  unfold SendToAll. apply pure_with_state. intros c. apply pure_for_each. intros [i pi].
  destruct (GetPlayer w i); auto with dc.
Qed.

Lemma pure_SendToAllButOne data who : pure_state (SendToAllButOne w data who).
Proof.
  unfold SendToAllButOne. apply pure_with_state. intros c. apply pure_for_each. intros [i pi].
  apply pure_when. destruct (GetPlayer w i); auto with dc.
Qed.

Lemma pure_UpdateChannelInDB : pure_state UpdateChannelInDB.
Proof. unfold UpdateChannelInDB. auto with dc. Qed.

Lemma pure_UpdateChannelUseageInDB : pure_state UpdateChannelUseageInDB.
Proof. unfold UpdateChannelUseageInDB. auto with dc. Qed.

Lemma pure_JoinNotify guid : pure_state (JoinNotify w guid).
Proof.
  unfold JoinNotify. apply pure_with_state. intros c.
  destruct (IsConstant c); [apply pure_SendToAllButOne | apply pure_SendToAll].
Qed.

Lemma pure_LeaveNotify guid : pure_state (LeaveNotify w guid).
Proof.
  unfold LeaveNotify. apply pure_with_state. intros c.
  destruct (IsConstant c); [apply pure_SendToAllButOne | apply pure_SendToAll].
Qed.

Lemma rs_SendToOne data who c : run_state (SendToOne w data who) c = c.
Proof. apply pure_SendToOne. Qed.
Lemma rs_SendToAll data p c : run_state (SendToAll w data p) c = c.
Proof. apply pure_SendToAll. Qed.
Lemma rs_UpdateChannelInDB c : run_state UpdateChannelInDB c = c.
Proof. apply pure_UpdateChannelInDB. Qed.
Lemma rs_UpdateChannelUseageInDB c : run_state UpdateChannelUseageInDB c = c.
Proof. apply pure_UpdateChannelUseageInDB. Qed.
Lemma rs_JoinNotify guid c : run_state (JoinNotify w guid) c = c.
Proof. apply pure_JoinNotify. Qed.
Lemma rs_LeaveNotify guid c : run_state (LeaveNotify w guid) c = c.
Proof. apply pure_LeaveNotify. Qed.
End sending.

#[export] Hint Rewrite rs_SendToOne rs_SendToAll rs_UpdateChannelInDB
  rs_UpdateChannelUseageInDB rs_JoinNotify rs_LeaveNotify : dc_run.

(** ** Member flags *)

Lemma owner_set_owner b pi : IsOwner (pi_SetOwner b pi) = b.
Proof.
  unfold IsOwner, pi_SetOwner, set_member_flag. destruct b; simpl;
    [apply has_flag_lor_same; done | apply has_flag_ldiff_same].
Qed.
Lemma owner_set_moderator b pi : IsOwner (pi_SetModerator b pi) = IsOwner pi.
Proof.
  unfold IsOwner, pi_SetModerator, set_member_flag. destruct b; simpl;
    [apply has_flag_lor_other | apply has_flag_ldiff_other]; reflexivity.
Qed.
Lemma owner_set_muted b pi : IsOwner (pi_SetMuted b pi) = IsOwner pi.
Proof.
  unfold IsOwner, pi_SetMuted, set_member_flag. destruct b; simpl;
    [apply has_flag_lor_other | apply has_flag_ldiff_other]; reflexivity.
Qed.
Lemma moderator_set_owner b pi : IsModerator (pi_SetOwner b pi) = IsModerator pi.
Proof.
  unfold IsModerator, pi_SetOwner, set_member_flag. destruct b; simpl;
    [apply has_flag_lor_other | apply has_flag_ldiff_other]; reflexivity.
Qed.
Lemma moderator_set_moderator b pi : IsModerator (pi_SetModerator b pi) = b.
Proof.
  unfold IsModerator, pi_SetModerator, set_member_flag. destruct b; simpl;
    [apply has_flag_lor_same; done | apply has_flag_ldiff_same].
Qed.
#[export] Hint Rewrite owner_set_owner owner_set_moderator owner_set_muted
  moderator_set_owner moderator_set_moderator : dc.

(** ** Ownership invariant *)

Definition owner_flag (c : Channel) : Prop :=
  forall g pi, players c !! g = Some pi -> IsOwner pi = true -> g = m_ownerGUID c /\ g <> 0.

(** The entry of every member carries the member's own GUID. *)
Definition well_keyed (c : Channel) : Prop :=
  forall g pi, players c !! g = Some pi -> player pi = g.

Definition no_banned_member (c : Channel) : Prop :=
  forall g, is_Some (players c !! g) -> g ∉ banned c.

Lemma lookup_update_player p f c g :
  players (update_player p f c) !! g =
    if decide (p = g) then Some (f (players_at c p)) else players c !! g.
Proof. unfold update_player, with_players. simpl. apply lookup_insert. Qed.

Lemma IsOn_true c g : IsOn c g = true <-> is_Some (players c !! g).
Proof. unfold IsOn. apply bool_decide_eq_true. Qed.

Lemma players_at_on c g : IsOn c g = true -> players c !! g = Some (players_at c g).
Proof. rewrite IsOn_true. intros [pi E]. unfold players_at. rewrite E. reflexivity. Qed.

Lemma owner_players_at c p :
  owner_flag c -> IsOwner (players_at c p) = true -> p = m_ownerGUID c /\ p <> 0.
Proof.
  intros Hinv Ho. unfold players_at in Ho. destruct (players c !! p) as [pi|] eqn:E.
  - exact (Hinv p pi E Ho).
  - discriminate.
Qed.

(** An update that does not raise the owner flag keeps the invariant. *)
Lemma owner_flag_update p f c :
  (forall pi, IsOwner (f pi) = IsOwner pi) -> owner_flag c -> owner_flag (update_player p f c).
Proof.
  intros Hf Hinv g pi E Ho. rewrite lookup_update_player in E. case_decide.
  - subst g. injection E as <-. rewrite Hf in Ho. exact (owner_players_at c p Hinv Ho).
  - exact (Hinv g pi E Ho).
Qed.

Lemma owner_flag_delete p c : owner_flag c -> owner_flag (with_players (delete p) c).
Proof.
  intros Hinv g pi E. simpl in E. apply lookup_delete_Some in E as [_ E]. exact (Hinv g pi E).
Qed.

Lemma owner_flag_join p c :
  owner_flag c -> owner_flag (with_players (<[p := mkPI p MEMBER_FLAG_NONE]>) c).
Proof.
  intros Hinv g pi E Ho. simpl in E. apply lookup_insert_Some in E as [[<- <-]|[_ E]].
  - discriminate.
  - exact (Hinv g pi E Ho).
Qed.

(** The net effect of [SetOwner(guid, exclaim)] on the channel. *)
Definition demote_owner (c : Channel) : Channel :=
  if negb (m_ownerGUID c =? 0) && IsOn c (m_ownerGUID c)
  then update_player (m_ownerGUID c) (pi_SetOwner false) c else c.

Definition promote (guid : Z) (c : Channel) : Channel :=
  if negb (guid =? 0)
  then update_player guid (pi_SetOwner true) (update_player guid (pi_SetModerator true) c) else c.

Lemma rs_SetOwner_guid w guid exclaim c :
  run_state (SetOwner_guid w guid exclaim) c = promote guid (with_owner guid (demote_owner c)).
Proof.
  unfold SetOwner_guid. run_simp. unfold promote, demote_owner.
  destruct (negb (m_ownerGUID c =? 0) && IsOn c (m_ownerGUID c)); destruct (negb (guid =? 0));
    try reflexivity; destruct exclaim; reflexivity.
Qed.

Lemma rs_SetModerator_guid w p set c :
  run_state (SetModerator_guid w p set) c =
    if negb (Bool.eqb (IsModerator (players_at c p)) set)
    then update_player p (pi_SetModerator set) c else c.
Proof. unfold SetModerator_guid. run_simp. reflexivity. Qed.

Lemma rs_SetMute_guid w p set c :
  run_state (SetMute_guid w p set) c =
    if negb (Bool.eqb (IsMuted (players_at c p)) set)
    then update_player p (pi_SetMuted set) c else c.
Proof. unfold SetMute_guid. run_simp. reflexivity. Qed.

#[export] Hint Rewrite rs_SetOwner_guid rs_SetModerator_guid rs_SetMute_guid : dc_run.

Lemma demote_owner_clears c g pi :
  owner_flag c -> players (demote_owner c) !! g = Some pi -> IsOwner pi = false.
Proof.
  intros Hinv E. unfold demote_owner in E.
  destruct (IsOwner pi) eqn:Ho; [|reflexivity]. exfalso.
  destruct (Z.eqb_spec (m_ownerGUID c) 0) as [E0|E0]; cbn [negb andb] in E.
  - pose proof (Hinv g pi E Ho). lia.
  - destruct (IsOn c (m_ownerGUID c)) eqn:On.
    + rewrite lookup_update_player in E. case_decide as Hg.
      * injection E as <-. rewrite owner_set_owner in Ho. discriminate.
      * apply Hg. symmetry. apply (Hinv g pi E Ho).
    + destruct (Hinv g pi E Ho) as [-> _]. unfold IsOn in On.
      apply bool_decide_eq_false in On. apply On. eauto.
Qed.

Lemma owner_flag_SetOwner guid c :
  owner_flag c -> owner_flag (promote guid (with_owner guid (demote_owner c))).
Proof.
  intros Hinv. set (d := demote_owner c).
  assert (Hd : forall g pi, players d !! g = Some pi -> IsOwner pi = false).
  { intros g pi E. exact (demote_owner_clears c g pi Hinv E). }
  unfold promote. destruct (Z.eqb_spec guid 0) as [->|Hne]; cbn [negb].
  - intros g pi E Ho. simpl in E. rewrite (Hd g pi E) in Ho. discriminate.
  - intros g pi E Ho. rewrite lookup_update_player in E. case_decide as Hg; [subst; simpl; tauto|].
    rewrite lookup_update_player in E. case_decide; [done|].
    simpl in E. rewrite (Hd g pi E) in Ho. discriminate.
Qed.

Lemma owner_flag_with_banned f c : owner_flag c -> owner_flag (with_banned f c).
Proof. exact (fun H => H). Qed.
Lemma owner_flag_with_announce b c : owner_flag c -> owner_flag (with_announce b c).
Proof. exact (fun H => H). Qed.
Lemma owner_flag_with_password s c : owner_flag c -> owner_flag (with_password s c).
Proof. exact (fun H => H). Qed.

Create HintDb channel_inv.
#[local] Hint Resolve owner_flag_SetOwner owner_flag_with_banned owner_flag_with_announce
  owner_flag_with_password owner_flag_delete owner_flag_join
  owner_set_moderator owner_set_muted owner_flag_update : channel_inv.

Lemma owner_flag_op w op c : owner_flag c -> owner_flag (run_state (run_op w op) c).
Proof.
  intros Hinv. destruct op; cbn [run_op];
    unfold Join, Leave, KickOrBan, UnBan, Password, SetMode, SetOwner_name, SendWhoOwner, List,
      Announce, Say, Invite;
    run_cases; eauto 8 with channel_inv.
Qed.

Lemma new_Channel_empty w name id team entry row :
  players (new_Channel w name id team entry row).1 = ∅ /\
  m_ownerGUID (new_Channel w name id team entry row).1 = 0.
Proof. unfold new_Channel. repeat case_match; split; reflexivity. Qed.

Lemma owner_flag_empty c : players c = ∅ -> owner_flag c.
Proof. intros E g pi. rewrite E, lookup_empty. discriminate. Qed.

(** C16: In every channel reachable from its construction by any sequence of
    handler calls, under any state of the rest of the server, a member carrying
    the owner flag is the recorded owner, so at most one member carries it. *)
Theorem owner_unique (c : Channel) :
  reachable c ->
  (forall g pi, players c !! g = Some pi -> IsOwner pi = true -> g = m_ownerGUID c) /\
  (forall g1 g2 pi1 pi2, players c !! g1 = Some pi1 -> players c !! g2 = Some pi2 ->
     IsOwner pi1 = true -> IsOwner pi2 = true -> g1 = g2).
Proof.
  intros Hr. assert (Hinv : owner_flag c).
  { induction Hr; [apply owner_flag_empty, new_Channel_empty | by apply owner_flag_op]. }
  split.
  - intros g pi E Ho. apply (Hinv g pi E Ho).
  - intros g1 g2 pi1 pi2 E1 E2 Ho1 Ho2.
    destruct (Hinv g1 pi1 E1 Ho1) as [-> _], (Hinv g2 pi2 E2 Ho2) as [-> _]. reflexivity.
Qed.

(** ** Membership invariant *)

Definition membership (c : Channel) : Prop := well_keyed c /\ no_banned_member c.

Lemma IsOn_update q f c p : IsOn c p = true -> IsOn (update_player q f c) p = true.
Proof.
  rewrite !IsOn_true, lookup_update_player. intros H. case_decide; eauto.
Qed.
Lemma IsOn_demote c p : IsOn (demote_owner c) p = IsOn c p.
Proof.
  unfold demote_owner. destruct (negb _ && _) eqn:E; [|reflexivity].
  apply andb_true_iff in E as [_ E].
  apply Bool.eq_iff_eq_true. rewrite !IsOn_true, lookup_update_player.
  case_decide; [subst; apply IsOn_true in E; split; eauto | reflexivity].
Qed.
Lemma IsOn_with_owner g c p : IsOn (with_owner g c) p = IsOn c p.
Proof. reflexivity. Qed.

Lemma membership_update p f c :
  (forall pi, player (f pi) = player pi) -> IsOn c p = true ->
  membership c -> membership (update_player p f c).
Proof.
  intros Hf On [Hk Hb]. apply IsOn_true in On as [pi0 E0]. split.
  - intros g pi E. rewrite lookup_update_player in E. case_decide.
    + subst g. injection E as <-. rewrite Hf. unfold players_at. rewrite E0. exact (Hk p pi0 E0).
    + exact (Hk g pi E).
  - intros g [pi E]. rewrite lookup_update_player in E. apply Hb. case_decide; [subst|]; eauto.
Qed.

Lemma membership_demote c : membership c -> membership (demote_owner c).
Proof.
  intros H. unfold demote_owner. destruct (negb _ && _) eqn:E; [|exact H].
  apply andb_true_iff in E as [_ E]. apply membership_update; [done|exact E|exact H].
Qed.

Lemma membership_promote g c :
  IsOn c g = true -> membership c -> membership (promote g (with_owner g (demote_owner c))).
Proof.
  intros On H. apply membership_demote in H. rewrite <- IsOn_demote in On. unfold promote.
  destruct (negb (g =? 0)); [|exact H].
  apply membership_update; [done|by apply IsOn_update|].
  apply membership_update; [done|exact On|exact H].
Qed.

Lemma membership_delete p c : membership c -> membership (with_players (delete p) c).
Proof.
  intros [Hk Hb]. split.
  - intros g pi E. simpl in E. apply lookup_delete_Some in E as [_ E]. exact (Hk g pi E).
  - intros g [pi E]. simpl in E. apply lookup_delete_Some in E as [_ E]. apply Hb. eauto.
Qed.

Lemma membership_join p c :
  IsBanned c p = false -> membership c ->
  membership (with_players (<[p := mkPI p MEMBER_FLAG_NONE]>) c).
Proof.
  intros Hnb [Hk Hb]. unfold IsBanned in Hnb. apply bool_decide_eq_false in Hnb. split.
  - intros g pi E. simpl in E. apply lookup_insert_Some in E as [[<- <-]|[_ E]]; [done|].
    exact (Hk g pi E).
  - intros g [pi E]. simpl in E. apply lookup_insert_Some in E as [[<- _]|[_ E]]; [done|].
    apply Hb. eauto.
Qed.

(** Banning a player and removing him, in the order of [KickOrBan]. *)
Lemma membership_ban p c :
  membership c ->
  membership (with_players (delete p) (with_banned (fun b => {[p]} ∪ b) c)).
Proof.
  intros [Hk Hb]. split.
  - intros g pi E. simpl in E. apply lookup_delete_Some in E as [_ E]. exact (Hk g pi E).
  - intros g [pi E]. simpl in E |- *. apply lookup_delete_Some in E as [Hne E].
    specialize (Hb g ltac:(eauto)). set_solver.
Qed.

Lemma membership_unban p c : membership c -> membership (with_banned (fun b => b ∖ {[p]}) c).
Proof. intros [Hk Hb]. split; [exact Hk|]. intros g Hg. specialize (Hb g Hg). simpl. set_solver. Qed.
Lemma membership_announce b c : membership c -> membership (with_announce b c).
Proof. exact (fun H => H). Qed.
Lemma membership_password s c : membership c -> membership (with_password s c).
Proof. exact (fun H => H). Qed.

Lemma IsOn_delete_ne p q c : p <> q -> IsOn c p = true -> IsOn (with_players (delete q) c) p = true.
Proof. intros Hne. rewrite !IsOn_true. simpl. rewrite lookup_delete_ne by done. done. Qed.
Lemma IsOn_insert p pi c : IsOn (with_players (<[p := pi]>) c) p = true.
Proof. rewrite IsOn_true. simpl. rewrite lookup_insert_eq. eauto. Qed.
Lemma IsOn_with_banned f c p : IsOn c p = true -> IsOn (with_banned f c) p = true.
Proof. exact (fun H => H). Qed.
Lemma IsOn_promote g q c p : IsOn c p = true -> IsOn (promote g (with_owner q (demote_owner c))) p = true.
Proof.
  intros On. rewrite <- IsOn_demote in On. unfold promote.
  destruct (negb (g =? 0)); [by apply IsOn_update, IsOn_update | exact On].
Qed.

(** The successor [Leave] picks: the first entry in key order. *)
Lemma first_entry_on c g pi rest :
  well_keyed c -> omap_list (players c) = (g, pi) :: rest -> IsOn c (player pi) = true.
Proof.
  intros Hk E. assert (Hin : players c !! g = Some pi).
  { apply elem_of_omap_list. rewrite E. left. }
  rewrite (Hk g pi Hin). apply IsOn_true. eauto.
Qed.

Lemma player_moderator b pi : player (pi_SetModerator b pi) = player pi.
Proof. reflexivity. Qed.
Lemma player_muted b pi : player (pi_SetMuted b pi) = player pi.
Proof. reflexivity. Qed.

Create HintDb channel_mem.
#[local] Hint Resolve membership_update membership_promote membership_delete membership_join
  membership_ban membership_unban membership_announce membership_password
  IsOn_update IsOn_insert IsOn_delete_ne IsOn_with_banned IsOn_promote
  player_moderator player_muted : channel_mem.

(** The actor kicking or banning himself, the case [KickOrBan] mishandles. *)
Definition self_kick (w : WorldView) (op : channel_op) : bool :=
  match op with
  | OpKickOrBan good badname _ =>
      match GetPlayer_name w badname with Some bad => GetGUID bad =? good | None => false end
  | _ => false
  end.

Ltac bool_hyps := repeat match goal with
  | H : negb _ = true |- _ => apply negb_true_iff in H
  | H : negb _ = false |- _ => apply negb_false_iff in H
  | H : _ && _ = true |- _ => apply andb_true_iff in H as [? ?]
  | H : (_ =? _) = true |- _ => apply Z.eqb_eq in H
  | H : (_ =? _) = false |- _ => apply Z.eqb_neq in H
  end.

Lemma membership_succession c g pi rest :
  membership c -> omap_list (players c) = (g, pi) :: rest ->
  membership (promote (player pi) (with_owner (player pi)
    (demote_owner (update_player (player pi) (pi_SetModerator true) c)))).
Proof.
  intros Hm E. pose proof (first_entry_on c g pi rest (proj1 Hm) E) as On.
  auto with channel_mem.
Qed.

Lemma membership_op w op c :
  self_kick w op = false -> membership c -> membership (run_state (run_op w op) c).
Proof.
  intros Hself Hm. destruct op; cbn [run_op self_kick] in *;
    unfold Join, Leave, KickOrBan, UnBan, Password, SetMode, SetOwner_name, SendWhoOwner, List,
      Announce, Say, Invite;
    run_cases; simplify_eq; bool_hyps; auto 8 with channel_mem;
    (eapply membership_succession; [apply membership_delete; exact Hm | eassumption]).
Qed.

(** Channels reachable without a member kicking or banning himself. *)
Inductive ordinary : Channel -> Prop :=
| ord_new w name channel_id Team entry row :
    ordinary (new_Channel w name channel_id Team entry row).1
| ord_op w op c : self_kick w op = false -> ordinary c -> ordinary (run_state (run_op w op) c).

(** C34: As long as nobody kicks or bans himself, every entry of the member map
    carries its member's own GUID and nobody on the channel is banned from it,
    whatever sequence of joins, leaves, kicks, bans, unbans, ownership and mode
    changes is made. *)
Theorem members_consistent (c : Channel) :
  ordinary c ->
  (forall g pi, players c !! g = Some pi -> player pi = g) /\
  (forall g, IsOn c g = true -> IsBanned c g = false).
Proof.
  intros Ho. assert (Hm : membership c).
  { induction Ho as [w name id team entry row|w op c Hself Ho IH].
    - pose proof (proj1 (new_Channel_empty w name id team entry row)) as E.
      split; [intros g pi Hp | intros g [pi Hp]]; rewrite E, lookup_empty in Hp; discriminate.
    - by apply membership_op. }
  destruct Hm as [Hk Hb]. split; [exact Hk|].
  intros g Hg. apply IsOn_true in Hg. apply bool_decide_eq_false. by apply Hb.
Qed.

(** ** A concrete server *)

Definition ex_player (g : Z) : PlayerView :=
  mkPlayerView g SEC_PLAYER 469 false (fun _ => false) [g] 0.
(** Three players with GUIDs 1 to 3, named by the byte of their GUID. *)
Definition ex_world : WorldView :=
  mkWorldView
    (fun g => if (1 <=? g) && (g <=? 3) then Some (ex_player g) else None)
    (fun s => match s with [g] => if (1 <=? g) && (g <=? 3) then Some (ex_player g) else None
                         | _ => None end)
    (fun g => if (1 <=? g) && (g <=? 3) then Some [g] else None)
    (fun _ _ => true) false false false 0 false 0.
Definition ex_channel : Channel := (new_Channel ex_world [103] 0 469 None None).1.
Definition ex_joined : Channel :=
  run_state (run_op ex_world (OpJoin 2 [])) (run_state (run_op ex_world (OpJoin 1 [])) ex_channel).

Lemma ex_joined_ordinary : ordinary ex_joined.
Proof. repeat (apply ord_op; [reflexivity|]). apply ord_new. Qed.
Lemma ex_joined_reachable : reachable ex_joined.
Proof. repeat apply reach_op. apply reach_new. Qed.

Lemma owner_unique_witness :
  players ex_joined !! 1 = Some (mkPI 1 3) /\
  forall g1 g2 pi1 pi2, players ex_joined !! g1 = Some pi1 -> players ex_joined !! g2 = Some pi2 ->
     IsOwner pi1 = true -> IsOwner pi2 = true -> g1 = g2.
Proof.
  split; [vm_compute; reflexivity|]. apply (owner_unique ex_joined). apply ex_joined_reachable.
Defined.

Lemma members_consistent_witness :
  players ex_joined !! 2 = Some (mkPI 2 0) /\
  forall g, IsOn ex_joined g = true -> IsBanned ex_joined g = false.
Proof.
  split; [vm_compute; reflexivity|]. apply (members_consistent ex_joined). apply ex_joined_ordinary.
Defined.

(** No flag change touches the [player] field. *)
Lemma player_at_update p f c q :
  (forall pi, player (f pi) = player pi) ->
  player (players_at (update_player p f c) q) = player (players_at c q).
Proof.
  intros Hf. unfold players_at at 1. rewrite lookup_update_player. case_decide; [|reflexivity].
  subst. simpl. apply Hf.
Qed.
Lemma player_at_promote g q c p :
  player (players_at (promote g (with_owner q (demote_owner c))) p) = player (players_at c p).
Proof.
  assert (Hd : player (players_at (demote_owner c) p) = player (players_at c p)).
  { unfold demote_owner. destruct (negb _ && _); [by apply player_at_update | reflexivity]. }
  unfold promote. destruct (negb (g =? 0)); [|exact Hd].
  rewrite !player_at_update by reflexivity. exact Hd.
Qed.

(** What [KickOrBan] does once its guards have passed. *)
Definition kick_body (w : WorldView) (good bad : Z) (ban changeowner : bool) : CM unit :=
  (if ban then
     modify (with_banned (fun b => {[bad]} ∪ b)) ;;
     UpdateChannelInDB ;;
     with_state (fun c => SendToAll w (MakePlayerBanned c bad good) 0)
   else with_state (fun c => SendToAll w (MakePlayerKicked c bad good) 0)) ;;
  modify (with_players (delete bad)) ;;
  emit (LeftChannel bad) ;;
  with_state (fun c =>
    when (changeowner && m_ownership c && negb (bool_decide (players c = ∅))) (
      modify (update_player good (pi_SetModerator true)) ;;
      SetOwner_guid w good true)).

Lemma KickOrBan_accepted w good name ban c v :
  IsOn c good = true ->
  negb (IsModerator (players_at c good)) && (security_of w good <? SEC_GAMEMASTER) = false ->
  GetPlayer_name w name = Some v -> IsOn c (GetGUID v) = true ->
  (security_of w good <? SEC_GAMEMASTER) && (GetGUID v =? m_ownerGUID c) &&
    negb (good =? m_ownerGUID c) = false ->
  KickOrBan w good name ban c =
    kick_body w good (GetGUID v) (ban && negb (IsBanned c (GetGUID v))) (m_ownerGUID c =? GetGUID v) c.
Proof.
  intros H1 H2 H3 H4 H5. unfold KickOrBan, with_state at 1. rewrite H1, H2, H3, H4, H5. reflexivity.
Qed.

(** The owner of a channel who bans himself while others are on it is put
    back by the code that looks for a new owner: he is told he left, he is on
    the ban list, and yet he stays a member and the owner, with an entry whose
    [player] field is 0. *)
Lemma self_ban_keeps_owner (w : WorldView) (c : Channel) (me other : Z) (name : list Z) (v : PlayerView) :
  GetPlayer_name w name = Some v -> GetGUID v = me -> me <> 0 ->
  m_ownerGUID c = me -> IsOn c me = true -> IsModerator (players_at c me) = true ->
  m_ownership c = true -> IsBanned c me = false ->
  other <> me -> IsOn c other = true ->
  let c' := run_state (KickOrBan w me name true) c in
  IsOn c' me = true /\ IsBanned c' me = true /\ m_ownerGUID c' = me /\
  player (players_at c' me) = 0 /\
  LeftChannel me ∈ run_log (KickOrBan w me name true) c.
Proof.
  intros Hname Hv Hne Hown Hon Hmod Hownership Hnb Hother Hon2 c'.
  assert (Hk : KickOrBan w me name true c = kick_body w me me true true c).
  { rewrite (KickOrBan_accepted w me name true c v);
      rewrite ?Hv, ?Hown, ?Hmod, ?Hon, ?Hnb, ?Z.eqb_refl, ?andb_false_r; reflexivity || assumption. }
  assert (Hrest : players (with_players (delete me) c) <> ∅).
  { intros E. apply IsOn_true in Hon2 as [pi Hpi].
    assert (E2 : players (with_players (delete me) c) !! other = Some pi)
      by (simpl; rewrite lookup_delete_ne by done; exact Hpi).
    rewrite E, lookup_empty in E2. discriminate. }
  set (d := with_players (delete me) (with_banned (fun b => {[me]} ∪ b) c)).
  assert (Hstate : c' = promote me (with_owner me (demote_owner (update_player me (pi_SetModerator true) d)))).
  { unfold c', run_state. rewrite Hk. change ((kick_body w me me true true c).1.2)
      with (run_state (kick_body w me me true true) c).
    unfold kick_body. run_simp. fold d. unfold d in *. simpl m_ownership.
    rewrite Hownership, bool_decide_false by exact Hrest. reflexivity. }
  split_and!.
  - rewrite Hstate. apply IsOn_promote, IsOn_true. rewrite lookup_update_player, decide_True by done. eauto.
  - rewrite Hstate. apply bool_decide_eq_true. unfold promote, demote_owner.
    repeat case_match; simpl; set_solver.
  - rewrite Hstate. unfold promote. destruct (negb (me =? 0)); reflexivity.
  - rewrite Hstate, player_at_promote, player_at_update by reflexivity.
    unfold players_at, d. simpl. rewrite lookup_delete_eq. reflexivity.
  - unfold run_log. rewrite Hk. change ((kick_body w me me true true c).2)
      with (run_log (kick_body w me me true true) c).
    unfold kick_body. run_simp. rewrite !elem_of_app. right. right. left. left.
Qed.

Lemma self_ban_keeps_owner_witness :
  let c' := run_state (KickOrBan ex_world 1 [1] true) ex_joined in
  IsOn c' 1 = true /\ IsBanned c' 1 = true /\ m_ownerGUID c' = 1 /\
  player (players_at c' 1) = 0 /\
  LeftChannel 1 ∈ run_log (KickOrBan ex_world 1 [1] true) ex_joined.
Proof.
  apply (self_ban_keeps_owner ex_world ex_joined 1 2 [1] (ex_player 1));
    first [reflexivity | discriminate | vm_compute; reflexivity].
Defined.

(** ** Moderation rights *)

(** The acting player of the handlers that change other members or the channel. *)
Definition moderates (op : channel_op) : option Z :=
  match op with
  | OpKickOrBan good _ _ | OpUnBan good _ => Some good
  | OpPassword p _ | OpSetMode p _ _ _ | OpSetOwner p _ | OpAnnounce p => Some p
  | _ => None
  end.

Definition entitled (w : WorldView) (c : Channel) (p : Z) (op : channel_op) : bool :=
  IsOn c p &&
  ((SEC_GAMEMASTER <=? security_of w p) ||
   match op with
   | OpSetOwner _ _ => p =? m_ownerGUID c
   | _ => IsModerator (players_at c p)
   end).

Lemma entitled_false w c p op :
  entitled w c p op = false ->
  IsOn c p = false \/
  (security_of w p <? SEC_GAMEMASTER) = true /\
  match op with OpSetOwner _ _ => p =? m_ownerGUID c | _ => IsModerator (players_at c p) end = false.
Proof.
  unfold entitled. destruct (IsOn c p); [right|left; reflexivity].
  apply orb_false_iff in H as [H1 H2]. split; [|exact H2].
  apply Z.ltb_lt. apply Z.leb_gt in H1. exact H1.
Qed.

Ltac guard_simpl := repeat match goal with
  | H : ?x = true |- context [?x] => rewrite H
  | H : ?x = false |- context [?x] => rewrite H
  end; cbn [negb andb orb].

(** C35: Kicking, banning, unbanning, setting the password, changing modes,
    toggling announcements and handing over ownership change nothing unless the
    actor is on the channel and is a moderator or a game master (for ownership:
    the owner or a game master); and no actor below game master other than the
    owner can change the owner or the owner's entry. *)
Theorem moderation_guarded (w : WorldView) (op : channel_op) (c : Channel) (p : Z) :
  moderates op = Some p ->
  (entitled w c p op = false -> run_state (run_op w op) c = c) /\
  (security_of w p < SEC_GAMEMASTER -> p <> m_ownerGUID c ->
     m_ownerGUID (run_state (run_op w op) c) = m_ownerGUID c /\
     players (run_state (run_op w op) c) !! m_ownerGUID c = players c !! m_ownerGUID c).
Proof.
  intros Hm. split.
  - intros He. apply entitled_false in He.
    destruct op; try discriminate; injection Hm as ->; cbn [run_op];
      unfold KickOrBan, UnBan, Password, SetMode, SetOwner_name, Announce, security_of in *;
      run_simp; destruct (GetPlayer w p) as [plr|] eqn:Hp; run_simp; try reflexivity;
      (destruct He as [He|[He1 He2]]; guard_simpl; run_simp; [reflexivity|]);
      destruct (IsOn c p); guard_simpl; run_simp; reflexivity.
  - intros Hs Hne. apply Z.ltb_lt in Hs.
    assert (Hpo : (p =? m_ownerGUID c) = false) by (apply Z.eqb_neq; exact Hne).
    assert (Hop : (m_ownerGUID c =? p) = false) by (rewrite Z.eqb_sym; exact Hpo).
    destruct op; try discriminate; injection Hm as ->; cbn [run_op];
      unfold KickOrBan, UnBan, Password, SetMode, SetOwner_name, Announce, security_of in *.
    all: run_cases; simplify_eq; rewrite ?Hs, ?Hpo, ?Hop in *; cbn [negb andb] in *; try (split; reflexivity).
    all: rewrite ?andb_true_r in *; bool_hyps; try congruence; (split; [reflexivity|]);
      rewrite ?lookup_update_player; simpl; rewrite ?decide_False, ?lookup_delete_ne by congruence;
      reflexivity.
Qed.

Lemma moderation_guarded_witness :
  run_state (run_op ex_world (OpKickOrBan 2 [1] true)) ex_joined = ex_joined /\
  m_ownerGUID (run_state (run_op ex_world (OpKickOrBan 2 [1] true)) ex_joined) = 1.
Proof.
  split.
  - apply (moderation_guarded ex_world (OpKickOrBan 2 [1] true) ex_joined 2); vm_compute; reflexivity.
  - transitivity (m_ownerGUID ex_joined); [|vm_compute; reflexivity].
    apply (moderation_guarded ex_world (OpKickOrBan 2 [1] true) ex_joined 2);
      vm_compute; first [reflexivity | discriminate].
Defined.

(** ** Delivery *)

(** Who receives a packet that [p] sends to the channel: a member who is online
    and, unless [p] is 0, does not ignore [p]. *)
Definition hears (w : WorldView) (p i : Z) : bool :=
  match GetPlayer w i with
  | Some plr => (p =? 0) || negb (HasIgnore plr (GUID_LOPART p))
  | None => false
  end.
Definition recipients (w : WorldView) (p : Z) (c : Channel) : list Z :=
  filter (fun i => hears w p i) (omap_list (players c)).*1.

Lemma run_log_SendToAll w data p c :
  run_log (SendToAll w data p) c = (fun i => SendPacket i data) <$> recipients w p c.
Proof.
  unfold SendToAll, recipients. rewrite rl_with_state, run_log_for_each_pure.
  - induction (omap_list (players c)) as [|[i pi] l IH]; [reflexivity|].
    cbn [fmap list_fmap concat]. rewrite IH, filter_cons. cbn [fst].
    unfold hears. destruct (GetPlayer w i) as [v|]; [|reflexivity].
    rewrite rl_when. destruct (_ || _); reflexivity.
  - intros [i pi]. destruct (GetPlayer w i); auto with dc.
Qed.

Lemma elem_of_recipients w p c i :
  i ∈ recipients w p c <-> IsOn c i = true /\ hears w p i = true.
Proof.
  unfold recipients. rewrite list_elem_of_filter, list_elem_of_fmap, IsOn_true. split.
  - intros [Hh ([j pi] & -> & Hin)]. apply elem_of_omap_list in Hin. simpl in *.
    split; [eauto|]. apply Is_true_eq_true, Hh.
  - intros [[pi E] Hh]. split; [by apply Is_true_eq_left|].
    exists (i, pi). split; [reflexivity|]. by apply elem_of_omap_list.
Qed.

Lemma NoDup_recipients w p c : NoDup (recipients w p c).
Proof. apply NoDup_filter, omap_list_NoDup. Qed.

(** A line said on the channel leaves the channel as it is and reaches, once
    each and in key order, exactly the members who are online and, unless the
    speaker is a moderator, do not ignore him; a muted member or someone who is
    not on the channel is heard by nobody and gets a notice instead. *)
Lemma say_delivery (w : WorldView) (c : Channel) (p : Z) (what : list Z) (lang : Z) :
  let c' := run_state (Say w p (Some what) lang) c in
  let sent := run_log (Say w p (Some what) lang) c in
  let heard_as := if IsModerator (players_at c p) then 0 else p in
  let line := chat_packet w c p what
                (if CONFIG_ALLOW_TWO_SIDE_INTERACTION_CHANNEL w then 0 else lang) in
  c' = c /\
  sent = match IsOn c p, IsMuted (players_at c p) with
         | true, false => (fun i => SendPacket i line) <$> recipients w heard_as c
         | true, true => run_log (SendToOne w (MakeMuted c) p) c
         | false, _ => run_log (SendToOne w (MakeNotMember c) p) c
         end /\
  NoDup (recipients w heard_as c) /\
  (forall i, i ∈ recipients w heard_as c <-> IsOn c i = true /\ hears w heard_as i = true).
Proof.
  intros c' sent heard_as line. split_and!.
  - unfold c', Say. run_cases; reflexivity.
  - unfold sent, Say. run_simp. destruct (IsOn c p); cbn [negb]; [|reflexivity].
    destruct (IsMuted (players_at c p)); [reflexivity|].
    rewrite run_log_SendToAll. unfold heard_as, line.
    destruct (IsModerator (players_at c p)); reflexivity.
  - apply NoDup_recipients.
  - apply elem_of_recipients.
Qed.

(** ** Admission *)

(** The conditions under which [Join] lets [p] in. *)
Definition admitted (w : WorldView) (c : Channel) (p : Z) (pass : list Z) : bool :=
  negb (IsBanned c p) &&
  (negb (0 <? Z.of_nat (length (m_password c))) || bool_decide (c_str pass = c_str (m_password c))) &&
  negb match GetPlayer w p with
       | Some v => HasFlag c CHANNEL_FLAG_LFG && CONFIG_RESTRICTED_LFG_CHANNEL w &&
                   (GetSecurity v =? SEC_PLAYER) && GetGroup v
       | None => false
       end.

Lemma demote_owner_guid c : m_ownerGUID (demote_owner c) = m_ownerGUID c.
Proof. unfold demote_owner. case_match; reflexivity. Qed.

Lemma if_same {A} (b : bool) (x : A) : (if b then x else x) = x.
Proof. destruct b; reflexivity. Qed.

Lemma rs_Join w p pass c :
  run_state (Join w p pass) c =
    if IsOn c p || negb (admitted w c p pass) then c
    else let d := with_players (<[p := mkPI p MEMBER_FLAG_NONE]>) c in
         if negb (IsConstant c) && (m_ownerGUID c =? 0) && m_ownership c
         then update_player p (pi_SetModerator true) (promote p (with_owner p (demote_owner d)))
         else d.
Proof.
  unfold Join, admitted. rewrite rs_with_state.
  destruct (IsOn c p); cbn [orb]; [destruct (IsConstant c); run_simp; reflexivity|].
  destruct (IsBanned c p); [run_simp; reflexivity|].
  destruct (0 <? Z.of_nat (length (m_password c))); cbn [negb andb orb].
  1: destruct (bool_decide _); cbn [negb andb]; [|run_simp; reflexivity].
  all: destruct (GetPlayer w p) as [v|]; [destruct (_ && _)|]; cbn [negb]; run_simp; rewrite ?if_same;
    change (IsConstant (with_players _ c)) with (IsConstant c); try reflexivity.
  all: destruct (IsConstant c); run_simp; try reflexivity.
  all: change (m_ownerGUID (with_players _ c)) with (m_ownerGUID c);
    change (m_ownership (with_players _ c)) with (m_ownership c).
  all: destruct ((m_ownerGUID c =? 0) && m_ownership c); reflexivity.
Qed.

Lemma demote_no_owner c : m_ownerGUID c = 0 -> demote_owner c = c.
Proof. intros E. unfold demote_owner. rewrite E. reflexivity. Qed.

(** [Join] admits exactly the players who are not banned, give the password
    if the channel has one and, where looking-for-group channels are restricted,
    are not in a group.  An admitted player is added with no flags, except that
    on a custom channel with ownership and no owner he becomes owner and
    moderator; every other entry, the ban list and the password stay. *)
Lemma join_admission (w : WorldView) (c : Channel) (p : Z) (pass : list Z) :
  p <> 0 -> IsOn c p = false ->
  let c' := run_state (Join w p pass) c in
  let founds := negb (IsConstant c) && (m_ownerGUID c =? 0) && m_ownership c in
  (admitted w c p pass = false -> c' = c) /\
  (admitted w c p pass = true ->
     players c' !! p =
       Some (mkPI p (if founds then Z.lor MEMBER_FLAG_MODERATOR MEMBER_FLAG_OWNER else MEMBER_FLAG_NONE)) /\
     m_ownerGUID c' = (if founds then p else m_ownerGUID c) /\
     (forall g, g <> p -> players c' !! g = players c !! g) /\
     banned c' = banned c /\ m_password c' = m_password c).
Proof.
  intros Hp Hon c' founds. unfold c'. rewrite rs_Join, Hon. cbn [orb]. fold founds.
  destruct (admitted w c p pass); cbn [negb]; split; try discriminate; [|reflexivity].
  intros _. destruct founds eqn:Hf.
  - unfold founds in Hf. bool_hyps.
    rewrite demote_no_owner by assumption. unfold promote.
    rewrite (proj2 (Z.eqb_neq p 0) Hp). cbn [negb]. split_and!; try reflexivity.
    + rewrite lookup_update_player, decide_True by done. unfold players_at.
      repeat (rewrite lookup_update_player, decide_True by done; unfold players_at).
      simpl. rewrite lookup_insert_eq. reflexivity.
    + intros g Hg. rewrite !lookup_update_player, !decide_False by congruence. simpl.
      by rewrite lookup_insert_ne by congruence.
  - split_and!; try reflexivity; simpl; [by rewrite lookup_insert_eq|].
    intros g Hg. by rewrite lookup_insert_ne by congruence.
Qed.

Lemma join_admission_witness :
  players (run_state (Join ex_world 1 []) ex_channel) !! 1 = Some (mkPI 1 3) /\
  players (run_state (Join ex_world 2 []) ex_joined) !! 1 = Some (mkPI 1 3).
Proof.
  split.
  - refine (proj1 (proj2 (join_admission ex_world ex_channel 1 [] _ _) _));
      first [discriminate | vm_compute; reflexivity].
  - vm_compute. reflexivity.
Defined.

(** ** The saved ban list *)

Lemma foldl_union_elements (l : list Z) (acc : gset Z) :
  Forall (fun g => 0 < g < 2 ^ 63) l ->
  foldl (fun b tok => let banned_guid := u64 (atol tok) in
                      if negb (banned_guid =? 0) then {[banned_guid]} ∪ b else b)
    acc (dec_string <$> l) = list_to_set l ∪ acc.
Proof.
  intros H. revert acc. induction H as [|g l Hg _ IH]; intros acc; [set_solver|].
  cbn [fmap list_fmap foldl]. cbv zeta. rewrite atol_dec_string by lia.
  rewrite uwrap_id by (unfold in_u; lia). rewrite (proj2 (Z.eqb_neq g 0)) by lia. cbn [negb].
  rewrite IH. set_solver.
Qed.

Lemma load_banlist_string (b : gset Z) :
  (forall g, g ∈ b -> 0 < g < 2 ^ 63) -> load_banlist (banlist_string b) = b.
Proof.
  intros Hb. unfold load_banlist, banlist_string.
  replace ((fun g => dec_string g ++ [SPACE]) <$> oset_list b)
    with ((fun w => w ++ [SPACE]) <$> (dec_string <$> oset_list b))
    by (rewrite <- list_fmap_compose; reflexivity).
  rewrite Tokens_words.
  - rewrite foldl_union_elements.
    + apply set_eq. intros g. rewrite elem_of_union, elem_of_list_to_set, elem_of_oset_list. set_solver.
    + apply Forall_forall. intros g Hg. apply Hb, elem_of_oset_list, Hg.
  - apply Forall_fmap, Forall_true. intros g. simpl.
    split; intros Hin; pose proof (proj1 (Forall_forall _ _) (dec_string_digits g) _ Hin) as Hd;
      unfold is_digit, SPACE in Hd; lia.
Qed.

Lemma c_str_no_zero s : Forall (fun b => b <> 0) s -> c_str s = s.
Proof.
  induction 1 as [|b s Hb _ IH]; [reflexivity|]. cbn [c_str].
  destruct (Z.eqb_spec b 0); [done|]. by rewrite IH.
Qed.

Lemma banlist_string_no_zero b : Forall (fun x => x <> 0) (banlist_string b).
Proof.
  unfold banlist_string. apply Forall_concat, Forall_fmap, Forall_true. intros g.
  apply Forall_app. split; [|repeat constructor; discriminate].
  eapply Forall_impl; [apply dec_string_digits|]. unfold is_digit. intros. lia.
Qed.

(** What a handler saves in the [channels] table restores the channel: the
    row written by [UpdateChannelInDB], read back by the constructor after a
    restart, gives the announcement and ownership settings, the password and
    exactly the set of banned GUIDs, with nobody on the channel. *)
Lemma channel_reload (w w' : WorldView) (c : Channel) (id : Z) :
  m_IsSaved c = true -> CONFIG_PRESERVE_CUSTOM_CHANNELS w' = true ->
  (forall g, g ∈ banned c -> 0 < g < 2 ^ 63) ->
  exists a o pw bl name team,
    run_log UpdateChannelInDB c = [DbSetChannel a o pw bl name team] /\
    new_Channel w' name id team None (Some (mkRow a o pw (Some bl))) =
      (mkChannel ∅ (banned c) (m_announce c) (m_ownership c) (m_name c) (m_password c)
         CHANNEL_FLAG_CUSTOM id 0 true (m_Team c), []).
Proof.
  intros Hs Hw Hb. do 6 eexists. split.
  - unfold UpdateChannelInDB. rewrite rl_with_state, rl_when, Hs. reflexivity.
  - unfold new_Channel. rewrite Hw. cbn [row_bannedList row_announce row_ownership row_password].
    rewrite c_str_no_zero by apply banlist_string_no_zero.
    rewrite load_banlist_string by exact Hb. reflexivity.
Qed.

Lemma channel_reload_witness :
  let c := mkChannel ∅ {[7; 300]} true true [103] [] CHANNEL_FLAG_CUSTOM 0 0 true 469 in
  let w' := mkWorldView (fun _ => None) (fun _ => None) (fun _ => None)
              (fun _ _ => true) false false false 0 true 0 in
  exists a o pw bl name team,
    run_log UpdateChannelInDB c = [DbSetChannel a o pw bl name team] /\
    banned (new_Channel w' name 0 team None (Some (mkRow a o pw (Some bl)))).1 = {[7; 300]}.
Proof.
  intros c w'.
  destruct (channel_reload w' w' c 0) as (a & o & pw & bl & name & team & Hlog & Hnew);
    [reflexivity | reflexivity | simpl; intros g Hg; set_unfold in Hg; lia |].
  exists a, o, pw, bl, name, team. split; [exact Hlog|]. rewrite Hnew. reflexivity.
Defined.
