(* ===== verification/ChannelMgr.v ===== *)
(** * Channel managers

    [ChannelMgr] of src/src/server/game/Chat/Channels/ChannelMgr.cpp, the opcode
    handlers of ChannelHandler.cpp that drive it and the members of [Player] that
    keep the list of joined channels ([JoinedChannel], [LeftChannel],
    [CleanupChannels], [UpdateLocalChannels], [LeaveLFGChannel]).

    A [Channel*] is modelled by the place the channel has in its manager: the
    manager and the folded name.  The player's list holds such pointers, and a
    use of one whose channel has been deleted is logged as [UseAfterFree]. *)
From S2P Require Import Prelude Text ByteBuffer Channel.

(** ** State *)

(** [true] is the [AllianceChannelMgr] singleton, [false] the [HordeChannelMgr]. *)
Abbreviation chan_ptr := (bool * list Z)%type.

Record Server := mkServer {
  mgr_team : bool -> Z;
  channels : gmap chan_ptr Channel;
  m_channels : gmap Z (list chan_ptr)
}.

Inductive chat_event :=
| Sent (e : event)
| UseAfterFree (p : chan_ptr)
| BufferOverflow.

Abbreviation SM := (M Server chat_event).

Definition set_channels (f : gmap chan_ptr Channel -> gmap chan_ptr Channel) (s : Server) : Server :=
  mkServer (mgr_team s) (f (channels s)) (m_channels s).
Definition set_joined (f : gmap Z (list chan_ptr) -> gmap Z (list chan_ptr)) (s : Server) : Server :=
  mkServer (mgr_team s) (channels s) (f (m_channels s)).
Definition set_team (side : bool) (team : Z) (s : Server) : Server :=
  mkServer (fun b => if Bool.eqb b side then team else mgr_team s b) (channels s) (m_channels s).

Definition joined_of (s : Server) (guid : Z) : list chan_ptr := default [] (m_channels s !! guid).

(** ** Static data and the acting session *)

Definition ALLIANCE : Z := 469.
Definition HORDE : Z := 67.

Definition CHANNEL_DBC_FLAG_ZONE_DEP : Z := 0x00002.
Definition CHANNEL_DBC_FLAG_GLOBAL : Z := 0x00004.
Definition CHANNEL_DBC_FLAG_CITY_ONLY : Z := 0x00010.
Definition CHANNEL_DBC_FLAG_GUILD_REQ : Z := 0x20000.
Definition AREA_FLAG_CAPITAL : Z := 0x00000100.
Definition AREA_FLAG_ARENA_INSTANCE : Z := 0x00010000.

Record ChatChannelsEntry := mkChatChannels {
  ChannelID : Z;
  dbc_flags : Z;
  pattern : list Z
}.

Record AreaTableEntry := mkArea { area_flags : Z; area_name : list Z }.

(** The data stores, the [channels] table and [snprintf] of a channel name. *)
Record ChatData := mkChatData {
  sChatChannelsStore : list (Z * ChatChannelsEntry);
  GetAreaEntryByAreaID : Z -> option AreaTableEntry;
  load_channel : list Z -> Z -> option ChannelRow;
  format_name : list Z -> list Z -> list Z;
  LANG_CHANNEL_CITY : list Z
}.

Definition LookupEntry (d : ChatData) (id : Z) : option ChatChannelsEntry :=
  snd <$> head (filter (fun e => Z.eqb e.1 id) (sChatChannelsStore d)).

Record Session := mkSession {
  _player : PlayerView;
  GetZoneId : Z;
  GetGuildId : Z;
  PlayerLoading : bool;
  IsBeingTeleportedFar : bool
}.
Definition session_guid (s : Session) : Z := GetGUID (_player s).
Definition session_team (s : Session) : Z := GetTeam (_player s).

Definition CanJoinConstantChannelInZone (channel : ChatChannelsEntry) (zone : AreaTableEntry) : bool :=
  if has_flag (dbc_flags channel) CHANNEL_DBC_FLAG_ZONE_DEP then
    if has_flag (area_flags zone) AREA_FLAG_ARENA_INSTANCE then false
    else if has_flag (dbc_flags channel) CHANNEL_DBC_FLAG_CITY_ONLY &&
            negb (has_flag (area_flags zone) AREA_FLAG_CAPITAL) then false
    else true
  else true.

Section manager.
Context `{Utf8Lib} (w : WorldView) (d : ChatData).

Definition channelMgr (team : Z) : option bool :=
  if CONFIG_ALLOW_TWO_SIDE_INTERACTION_CHANNEL w then Some true
  else if team =? ALLIANCE then Some true
  else if team =? HORDE then Some false
  else None.

(** ** Calls on a channel *)

(** [Player::JoinedChannel] and [Player::LeftChannel]. *)
Definition track (k : chan_ptr) (j : gmap Z (list chan_ptr)) (e : event) : gmap Z (list chan_ptr) :=
  match e with
  | JoinedChannel g => <[g := default [] (j !! g) ++ [k]]> j
  | LeftChannel g => <[g := filter (fun k' => k' <> k) (default [] (j !! g))]> j
  | _ => j
  end.

(** [chn->Handler(...)] through the pointer [k]. *)
Definition call (k : chan_ptr) (m : CM unit) : SM unit := with_state (fun s =>
  match channels s !! k with
  | None => emit (UseAfterFree k)
  | Some c =>
      modify (set_channels (<[k := run_state m c]>)) ;;
      modify (set_joined (fun j => foldl (track k) j (run_log m c))) ;;
      for_each (run_log m c) (fun e => emit (Sent e))
  end).

(** [Utf8toWStr] and [wstrToLower]: the key of a name; an invalid name has the
    empty key, a name that overflows the buffer none. *)
Definition fold_name (name : list Z) : option (list Z) :=
  match Utf8toWStr name with
  | Conv wname => Some (wstrToLower wname)
  | ConvFailed => Some []
  | ConvOverflow => None
  end.

(** ** [ChannelMgr] *)

Definition GetJoinChannel (side : bool) (name : list Z) (channel_id : Z) : SM (option chan_ptr) :=
  match fold_name name with
  | None => emit BufferOverflow ;; ret None
  | Some wname => with_state (fun s =>
      let k := (side, wname) in
      match channels s !! k with
      | Some _ => ret (Some k)
      | None =>
          let team := mgr_team s side in
          let '(nchan, ev) := new_Channel w name channel_id team
                                (dbc_flags <$> LookupEntry d channel_id) (load_channel d name team) in
          modify (set_channels (<[k := nchan]>)) ;;
          for_each ev (fun e => emit (Sent e)) ;;
          ret (Some k)
      end)
  end.

Definition MakeNotOnPacket (name : list Z) : packet :=
  Pkt SMSG_CHANNEL_NOTIFY [FU 1 0x05; FStr name].

Definition GetChannel (side : bool) (name : list Z) (p : PlayerView) (pkt : bool) : SM (option chan_ptr) :=
  match fold_name name with
  | None => emit BufferOverflow ;; ret None
  | Some wname => with_state (fun s =>
      match channels s !! (side, wname) with
      | Some _ => ret (Some (side, wname))
      | None => when pkt (emit (Sent (SendPacket (GetGUID p) (MakeNotOnPacket name)))) ;; ret None
      end)
  end.

(** [ChannelMgr::LeftChannel]. *)
Definition mgr_LeftChannel (side : bool) (name : list Z) : SM unit :=
  match fold_name name with
  | None => emit BufferOverflow
  | Some wname => with_state (fun s =>
      match channels s !! (side, wname) with
      | None => ret tt
      | Some channel =>
          when ((GetNumPlayers channel =? 0) && negb (IsConstant channel))
            (modify (set_channels (delete (side, wname))))
      end)
  end.

(** ** [Player] *)

Definition erase_joined (guid : Z) (j : gmap Z (list chan_ptr)) : gmap Z (list chan_ptr) :=
  <[guid := tail (default [] (j !! guid))]> j.

(** One iteration of [CleanupChannels], on the first channel of the list. *)
Definition CleanupChannels_step (s : Session) (ch : chan_ptr) : SM unit :=
  modify (set_joined (erase_joined (session_guid s))) ;;
  call ch (Leave w (session_guid s) false) ;;
  match channelMgr (session_team s) with
  | Some cMgr => with_state (fun st =>
      match channels st !! ch with
      | Some c => mgr_LeftChannel cMgr (m_name c)
      | None => emit (UseAfterFree ch)
      end)
  | None => ret tt
  end.

Fixpoint CleanupChannels_loop (fuel : nat) (s : Session) : SM unit :=
  match fuel with
  | O => ret tt
  | S fuel' => with_state (fun st =>
      match joined_of st (session_guid s) with
      | [] => ret tt
      | ch :: _ => CleanupChannels_step s ch ;; CleanupChannels_loop fuel' s
      end)
  end.
(** Each iteration removes an entry of the list: its length is enough fuel, see
    [cleanup_channels_spec]. *)
Definition CleanupChannels (s : Session) : SM unit :=
  with_state (fun st => CleanupChannels_loop (length (joined_of st (session_guid s))) s).

(** The loop over [m_channels] that looks for the channel with DBC id [i]. *)
Fixpoint find_used (i : Z) (l : list chan_ptr) : SM (option chan_ptr) :=
  match l with
  | [] => ret None
  | k :: l' => with_state (fun st =>
      match channels st !! k with
      | None => emit (UseAfterFree k) ;; ret None
      | Some c => if m_channelId c =? i then ret (Some k) else find_used i l'
      end)
  end.

(** Which channel of one DBC row to join and which to leave. *)
Definition local_target (s : Session) (cMgr : bool) (zone : AreaTableEntry) (i : Z)
    (channel : ChatChannelsEntry) (usedChannel : option chan_ptr)
  : SM (option (option chan_ptr * option chan_ptr * bool)) :=
  if CanJoinConstantChannelInZone channel zone then
    if negb (has_flag (dbc_flags channel) CHANNEL_DBC_FLAG_GLOBAL) then
      if has_flag (dbc_flags channel) CHANNEL_DBC_FLAG_CITY_ONLY && bool_decide (is_Some usedChannel) then
        ret None
      else
        let currentNameExt := if has_flag (dbc_flags channel) CHANNEL_DBC_FLAG_CITY_ONLY
                              then LANG_CHANNEL_CITY d else area_name zone in
        let! joinChannel := GetJoinChannel cMgr (format_name d (pattern channel) currentNameExt)
                              (ChannelID channel) in
        ret (Some match usedChannel with
                  | Some _ => if bool_decide (joinChannel = usedChannel) then (None, None, true)
                              else (joinChannel, usedChannel, false)
                  | None => (joinChannel, None, true)
                  end)
    else
      let! joinChannel := GetJoinChannel cMgr (pattern channel) (ChannelID channel) in
      ret (Some (joinChannel, None, true))
  else ret (Some (None, usedChannel, true)).

(** The body of the loop of [UpdateLocalChannels] over the channel store. *)
Definition UpdateLocalChannels_row (s : Session) (cMgr : bool) (zone : AreaTableEntry)
    (row : Z * ChatChannelsEntry) : SM unit :=
  let '(i, channel) := row in
  if negb (has_flag (dbc_flags channel) CHANNEL_DBC_FLAG_ZONE_DEP) then ret tt
  else if has_flag (dbc_flags channel) CHANNEL_DBC_FLAG_GUILD_REQ && negb (GetGuildId s =? 0) then ret tt
  else
    with_state (fun st =>
      let! usedChannel := find_used i (joined_of st (session_guid s)) in
      let! target := local_target s cMgr zone i channel usedChannel in
      match target with
      | None => ret tt
      | Some (joinChannel, removeChannel, sendRemove) =>
          match joinChannel with
          | Some k => call k (Join w (session_guid s) [])
          | None => ret tt
          end ;;
          match removeChannel with
          | Some k =>
              call k (Leave w (session_guid s) sendRemove) ;;
              with_state (fun st =>
                match channels st !! k with
                | None => emit (UseAfterFree k)
                | Some c =>
                    let name := m_name c in
                    modify (set_joined (fun j => track k j (LeftChannel (session_guid s)))) ;;
                    mgr_LeftChannel cMgr name
                end)
          | None => ret tt
          end
      end).

Definition UpdateLocalChannels (s : Session) (newZone : Z) : SM unit :=
  if PlayerLoading s && negb (IsBeingTeleportedFar s) then ret tt
  else match GetAreaEntryByAreaID d newZone with
       | None => ret tt
       | Some zone =>
           match channelMgr (session_team s) with
           | None => ret tt
           | Some cMgr => for_each (sChatChannelsStore d) (UpdateLocalChannels_row s cMgr zone)
           end
       end.

Fixpoint LeaveLFGChannel_loop (s : Session) (l : list chan_ptr) : SM unit :=
  match l with
  | [] => ret tt
  | k :: l' => with_state (fun st =>
      match channels st !! k with
      | None => emit (UseAfterFree k)
      | Some c => if has_flag (m_flags c) CHANNEL_FLAG_LFG
                  then call k (Leave w (session_guid s) true)
                  else LeaveLFGChannel_loop s l'
      end)
  end.
Definition LeaveLFGChannel (s : Session) : SM unit :=
  with_state (fun st => LeaveLFGChannel_loop s (joined_of st (session_guid s))).

(** ** The opcode handlers

    Every handler first reads its packet; an exception of [ByteBuffer] ends it
    (the session's packet loop catches it). *)

Definition with_packet {A} (p : B A) (recvPacket : ByteBuffer) (k : A -> SM unit) : SM unit :=
  match (p recvPacket).1 with Ok a => k a | Err _ => ret tt end.

(** [if (cMgr = channelMgr(...)) if (chn = cMgr->GetChannel(channelname, _player))]. *)
Definition on_channel (s : Session) (channelname : list Z) (k : chan_ptr -> SM unit) : SM unit :=
  match channelMgr (session_team s) with
  | None => ret tt
  | Some cMgr =>
      let! chn := GetChannel cMgr channelname (_player s) true in
      match chn with Some c => k c | None => ret tt end
  end.

(** The zone check of [HandleJoinChannel] for a channel of the store. *)
Definition may_join (s : Session) (channel_id : Z) : bool :=
  match LookupEntry d channel_id with
  | None => false
  | Some channel =>
      match GetAreaEntryByAreaID d (GetZoneId s) with
      | None => false
      | Some current_zone => CanJoinConstantChannelInZone channel current_zone
      end
  end.

Definition parse_join (s : Session) : B (option (Z * list Z * list Z)) :=
  let? channel_id := shr_uint 4 in
  if negb (channel_id =? 0) && negb (may_join s channel_id) then bret None
  else
    let? unknown1 := shr_uint 1 in
    let? unknown2 := shr_uint 1 in
    let? pass := shr_string in
    let? channelname := shr_string in
    bret (Some (channel_id, pass, channelname)).

Definition HandleJoinChannel (s : Session) (recvPacket : ByteBuffer) : SM unit :=
  with_packet (parse_join s) recvPacket (fun r =>
    match r with
    | None | Some (_, _, []) => ret tt
    | Some (channel_id, pass, channelname) =>
        match channelMgr (session_team s) with
        | None => ret tt
        | Some cMgr =>
            modify (set_team cMgr (session_team s)) ;;
            let! chn := GetJoinChannel cMgr channelname channel_id in
            match chn with
            | Some c => call c (Join w (session_guid s) (c_str pass))
            | None => ret tt
            end
        end
    end).

Definition parse_leave : B (list Z) := let? unk := shr_uint 4 in shr_string.

Definition HandleLeaveChannel (s : Session) (recvPacket : ByteBuffer) : SM unit :=
  with_packet parse_leave recvPacket (fun channelname =>
    match channelname with
    | [] => ret tt
    | _ =>
        match channelMgr (session_team s) with
        | None => ret tt
        | Some cMgr =>
            (let! chn := GetChannel cMgr channelname (_player s) true in
             match chn with
             | Some c => call c (Leave w (session_guid s) true)
             | None => ret tt
             end) ;;
            mgr_LeftChannel cMgr channelname
        end
    end).

Definition HandleChannelList (s : Session) (recvPacket : ByteBuffer) : SM unit :=
  with_packet shr_string recvPacket (fun channelname =>
    on_channel s channelname (fun c => call c (List w (_player s)))).

Definition parse_two : B (list Z * list Z) :=
  let? channelname := shr_string in let? otp := shr_string in bret (channelname, otp).

Definition HandleChannelPassword (s : Session) (recvPacket : ByteBuffer) : SM unit :=
  with_packet parse_two recvPacket (fun '(channelname, pass) =>
    on_channel s channelname (fun c => call c (Password w (session_guid s) pass))).

(** The handlers whose packet names a channel and a player. *)
Definition on_named (s : Session) (recvPacket : ByteBuffer) (op : list Z -> CM unit) : SM unit :=
  with_packet parse_two recvPacket (fun '(channelname, otp) =>
    match normalizePlayerName otp with
    | ConvFailed => ret tt
    | ConvOverflow => emit BufferOverflow
    | Conv otp => on_channel s channelname (fun c => call c (op (c_str otp)))
    end).

Definition HandleChannelSetOwner (s : Session) (recvPacket : ByteBuffer) : SM unit :=
  on_named s recvPacket (SetOwner_name w (session_guid s)).
Definition HandleChannelOwner (s : Session) (recvPacket : ByteBuffer) : SM unit :=
  with_packet shr_string recvPacket (fun channelname =>
    on_channel s channelname (fun c => call c (SendWhoOwner w (session_guid s)))).
Definition HandleChannelModerator (s : Session) (recvPacket : ByteBuffer) : SM unit :=
  on_named s recvPacket (fun otp => SetMode w (session_guid s) otp true true).
Definition HandleChannelUnmoderator (s : Session) (recvPacket : ByteBuffer) : SM unit :=
  on_named s recvPacket (fun otp => SetMode w (session_guid s) otp true false).
Definition HandleChannelMute (s : Session) (recvPacket : ByteBuffer) : SM unit :=
  on_named s recvPacket (fun otp => SetMode w (session_guid s) otp false true).
Definition HandleChannelUnmute (s : Session) (recvPacket : ByteBuffer) : SM unit :=
  on_named s recvPacket (fun otp => SetMode w (session_guid s) otp false false).
Definition HandleChannelInvite (s : Session) (recvPacket : ByteBuffer) : SM unit :=
  on_named s recvPacket (Invite w (session_guid s)).
Definition HandleChannelKick (s : Session) (recvPacket : ByteBuffer) : SM unit :=
  on_named s recvPacket (fun otp => KickOrBan w (session_guid s) otp false).
Definition HandleChannelBan (s : Session) (recvPacket : ByteBuffer) : SM unit :=
  on_named s recvPacket (fun otp => KickOrBan w (session_guid s) otp true).
Definition HandleChannelUnban (s : Session) (recvPacket : ByteBuffer) : SM unit :=
  on_named s recvPacket (UnBan w (session_guid s)).
Definition HandleChannelAnnouncements (s : Session) (recvPacket : ByteBuffer) : SM unit :=
  with_packet shr_string recvPacket (fun channelname =>
    on_channel s channelname (fun c => call c (Announce w (session_guid s)))).
Definition HandleChannelDisplayListQuery := HandleChannelList.

Definition SMSG_CHANNEL_MEMBER_COUNT : Z := 0x02CEC.

Definition HandleGetChannelMemberCount (s : Session) (recvPacket : ByteBuffer) : SM unit :=
  with_packet shr_string recvPacket (fun channelname =>
    on_channel s channelname (fun k => with_state (fun st =>
      match channels st !! k with
      | None => emit (UseAfterFree k)
      | Some chn => emit (Sent (SendPacket (session_guid s)
          (Pkt SMSG_CHANNEL_MEMBER_COUNT
             [FStr (m_name chn); FU 1 (m_flags chn); FU 4 (GetNumPlayers chn)])))
      end))).

(** The handler's only statement that reads is kept, the rest is commented out. *)
Definition HandleSetChannelWatch (s : Session) (recvPacket : ByteBuffer) : SM unit :=
  with_packet shr_string recvPacket (fun channelname => ret tt).
End manager.

(** ** Steps of the server *)

Inductive handler :=
| HJoin | HLeave | HList | HPassword | HSetOwner | HOwner | HModerator | HUnmoderator
| HMute | HUnmute | HInvite | HKick | HBan | HUnban | HAnnouncements | HMemberCount | HWatch.

Inductive chat_step :=
| StPacket (h : handler) (s : Session) (recvPacket : ByteBuffer)
| StUpdateLocal (s : Session) (newZone : Z)
| StLeaveLFG (s : Session)
| StCleanup (s : Session).

Definition run_handler `{Utf8Lib} (w : WorldView) (d : ChatData) (h : handler)
    (s : Session) (p : ByteBuffer) : SM unit :=
  match h with
  | HJoin => HandleJoinChannel w d s p
  | HLeave => HandleLeaveChannel w s p
  | HList => HandleChannelList w s p
  | HPassword => HandleChannelPassword w s p
  | HSetOwner => HandleChannelSetOwner w s p
  | HOwner => HandleChannelOwner w s p
  | HModerator => HandleChannelModerator w s p
  | HUnmoderator => HandleChannelUnmoderator w s p
  | HMute => HandleChannelMute w s p
  | HUnmute => HandleChannelUnmute w s p
  | HInvite => HandleChannelInvite w s p
  | HKick => HandleChannelKick w s p
  | HBan => HandleChannelBan w s p
  | HUnban => HandleChannelUnban w s p
  | HAnnouncements => HandleChannelAnnouncements w s p
  | HMemberCount => HandleGetChannelMemberCount w s p
  | HWatch => HandleSetChannelWatch s p
  end.

Definition run_step `{Utf8Lib} (w : WorldView) (d : ChatData) (st : chat_step) : SM unit :=
  match st with
  | StPacket h s p => run_handler w d h s p
  | StUpdateLocal s newZone => UpdateLocalChannels w d s newZone
  | StLeaveLFG s => LeaveLFGChannel w s
  | StCleanup s => CleanupChannels w s
  end.

(** ** What a channel operation tells the players *)

Definition joins (l : list event) : list Z :=
  omap (fun e => match e with JoinedChannel g => Some g | _ => None end) l.
Definition leaves (l : list event) : list Z :=
  omap (fun e => match e with LeftChannel g => Some g | _ => None end) l.

Lemma joins_app l1 l2 : joins (l1 ++ l2) = joins l1 ++ joins l2.
Proof. apply omap_app. Qed.
Lemma leaves_app l1 l2 : leaves (l1 ++ l2) = leaves l1 ++ leaves l2.
Proof. apply omap_app. Qed.

(** A program that neither adds to nor removes from a player's list. *)
Definition quiet {A} (m : CM A) : Prop :=
  forall c, joins (run_log m c) = [] /\ leaves (run_log m c) = [].

Lemma quiet_ret {A} (a : A) : quiet (ret a).
Proof. split; reflexivity. Qed.
Lemma quiet_modify f : quiet (modify f).
Proof. split; reflexivity. Qed.
Lemma quiet_bind {A C} (m : CM A) (k : A -> CM C) : quiet m -> (forall a, quiet (k a)) -> quiet (bind m k).
Proof.
  intros Hm Hk c. rewrite run_log_bind, joins_app, leaves_app.
  destruct (Hm c) as [-> ->]. apply Hk.
Qed.
Lemma quiet_when b m : quiet m -> quiet (when b m).
Proof. intros H. destruct b; [exact H | apply quiet_ret]. Qed.
Lemma quiet_with_state {A} (k : Channel -> CM A) : (forall c, quiet (k c)) -> quiet (with_state k).
Proof. intros H c. apply H. Qed.
Lemma quiet_for_each {A} (l : list A) f : (forall x, quiet (f x)) -> quiet (for_each l f).
Proof.
  intros H. induction l; [apply quiet_ret|]. apply quiet_bind; [apply H | intros _; assumption].
Qed.
Lemma quiet_packet g p : quiet (emit (SendPacket g p)).
Proof. split; reflexivity. Qed.

Create HintDb quiet.
#[local] Hint Resolve quiet_ret quiet_modify quiet_bind quiet_when quiet_with_state
  quiet_for_each quiet_packet : quiet.

Lemma quiet_SendToOne w p g : quiet (SendToOne w p g).
Proof. unfold SendToOne. case_match; auto with quiet. Qed.
Lemma quiet_SendToAll w p g : quiet (SendToAll w p g).
Proof.
  unfold SendToAll. apply quiet_with_state. intros c. apply quiet_for_each. intros [i pi].
  case_match; auto with quiet.
Qed.
Lemma quiet_SendToAllButOne w p g : quiet (SendToAllButOne w p g).
Proof.
  unfold SendToAllButOne. apply quiet_with_state. intros c. apply quiet_for_each. intros [i pi].
  apply quiet_when. case_match; auto with quiet.
Qed.
Lemma quiet_UpdateChannelInDB : quiet UpdateChannelInDB.
Proof. intros c. unfold UpdateChannelInDB. rewrite rl_with_state, rl_when. case_match; split; reflexivity. Qed.
Lemma quiet_UpdateChannelUseageInDB : quiet UpdateChannelUseageInDB.
Proof. split; reflexivity. Qed.
#[local] Hint Resolve quiet_SendToOne quiet_SendToAll quiet_SendToAllButOne quiet_UpdateChannelInDB
  quiet_UpdateChannelUseageInDB : quiet.
Lemma quiet_JoinNotify w g : quiet (JoinNotify w g).
Proof. unfold JoinNotify. apply quiet_with_state. intros c. case_match; auto with quiet. Qed.
Lemma quiet_LeaveNotify w g : quiet (LeaveNotify w g).
Proof. unfold LeaveNotify. apply quiet_with_state. intros c. case_match; auto with quiet. Qed.
Ltac quiet_cases :=
  repeat first
    [ lazymatch goal with
      | |- quiet (bind _ _) => apply quiet_bind; [|intros ?]
      | |- quiet (when _ _) => apply quiet_when
      | |- quiet (with_state _) => apply quiet_with_state; intros ?
      | |- quiet (if ?b then _ else _) => destruct b
      | |- quiet (match ?x with _ => _ end) => destruct x
      | |- _ => solve [auto 2 with quiet]
      end ].

Lemma quiet_SetOwner_guid w g b : quiet (SetOwner_guid w g b).
Proof. unfold SetOwner_guid. quiet_cases. Qed.
Lemma quiet_SetModerator_guid w g b : quiet (SetModerator_guid w g b).
Proof. unfold SetModerator_guid. quiet_cases. Qed.
Lemma quiet_SetMute_guid w g b : quiet (SetMute_guid w g b).
Proof. unfold SetMute_guid. quiet_cases. Qed.
#[local] Hint Resolve quiet_JoinNotify quiet_LeaveNotify quiet_SetOwner_guid quiet_SetModerator_guid
  quiet_SetMute_guid : quiet.

(** The operations that leave every member on the channel. *)
Definition stays {A} (m : CM A) : Prop :=
  forall c g, IsOn c g = true -> IsOn (run_state m c) g = true.

Lemma quiet_UnBan w g n : quiet (UnBan w g n).
Proof. unfold UnBan. quiet_cases. Qed.
Lemma quiet_Password w g n : quiet (Password w g n).
Proof. unfold Password. quiet_cases. Qed.
Lemma quiet_SetMode w g n m s : quiet (SetMode w g n m s).
Proof. unfold SetMode. quiet_cases. Qed.
Lemma quiet_SetOwner_name w g n : quiet (SetOwner_name w g n).
Proof. unfold SetOwner_name. quiet_cases. Qed.
Lemma quiet_SendWhoOwner w g : quiet (SendWhoOwner w g).
Proof. unfold SendWhoOwner. quiet_cases. Qed.
Lemma quiet_List w v : quiet (List w v).
Proof. unfold List. quiet_cases. Qed.
Lemma quiet_Announce w g : quiet (Announce w g).
Proof. unfold Announce. quiet_cases. Qed.
Lemma quiet_Invite w g n : quiet (Invite w g n).
Proof. unfold Invite. quiet_cases. Qed.

Create HintDb stays.
#[local] Hint Resolve IsOn_update IsOn_promote : stays.

Lemma stays_UnBan w g n : stays (UnBan w g n).
Proof. intros c h H. unfold UnBan. run_cases; exact H. Qed.
Lemma stays_Password w g n : stays (Password w g n).
Proof. intros c h H. unfold Password. run_cases; exact H. Qed.
Lemma stays_SetMode w g n m s : stays (SetMode w g n m s).
Proof. intros c h H. unfold SetMode. run_cases; try exact H; auto with stays. Qed.
Lemma stays_SetOwner_name w g n : stays (SetOwner_name w g n).
Proof. intros c h H. unfold SetOwner_name. run_cases; try exact H; auto with stays. Qed.
Lemma stays_SendWhoOwner w g : stays (SendWhoOwner w g).
Proof. intros c h H. unfold SendWhoOwner. run_cases; exact H. Qed.
Lemma stays_List w v : stays (List w v).
Proof. intros c h H. unfold List. run_cases; exact H. Qed.
Lemma stays_Announce w g : stays (Announce w g).
Proof. intros c h H. unfold Announce. run_cases; exact H. Qed.
Lemma stays_Invite w g n : stays (Invite w g n).
Proof. intros c h H. unfold Invite. run_cases; exact H. Qed.

Lemma quiet_tail {A C} (m : CM A) (k : A -> CM C) c :
  (forall a, quiet (k a)) ->
  joins (run_log (bind m k) c) = joins (run_log m c) /\
  leaves (run_log (bind m k) c) = leaves (run_log m c).
Proof.
  intros Hk. rewrite run_log_bind, joins_app, leaves_app.
  destruct (Hk (run_value m c) (run_state m c)) as [-> ->]. rewrite !app_nil_r. auto.
Qed.

Lemma Join_tells w p pass c :
  leaves (run_log (Join w p pass) c) = [] /\
  joins (run_log (Join w p pass) c) =
    if IsOn c p || negb (admitted w c p pass) then []
    else match GetPlayer w p with Some _ => [p] | None => [] end.
Proof.
  unfold Join, admitted. rewrite rl_with_state.
  assert (Hq : forall pk b, leaves (run_log (when b (SendToOne w pk p)) c) = [] /\
                            joins (run_log (when b (SendToOne w pk p)) c) = []).
  { intros pk b. apply and_comm. apply quiet_when, quiet_SendToOne. }
  assert (Hs : forall pk, leaves (run_log (SendToOne w pk p) c) = [] /\
                          joins (run_log (SendToOne w pk p) c) = []).
  { intros pk. apply (Hq pk true). }
  destruct (IsOn c p); cbn [orb]; [apply Hq|].
  destruct (IsBanned c p); [apply Hs|]. cbn [negb andb].
  set (locked := 0 <? Z.of_nat (length (m_password c))).
  set (right := bool_decide (c_str pass = c_str (m_password c))).
  destruct (locked && negb right) eqn:El.
  { destruct locked, right; try discriminate. apply Hs. }
  replace (negb locked || right) with true by (destruct locked, right; try discriminate; reflexivity).
  cbn [andb negb].
  set (lfg := match GetPlayer w p with Some _ => _ | None => false end).
  destruct lfg; cbn [negb]; [apply Hs|].
  match goal with |- leaves (run_log (bind ?m ?k) c) = _ /\ _ => destruct (quiet_tail m k c) as [-> ->] end.
  - intros []. quiet_cases.
  - destruct (GetPlayer w p); split; reflexivity.
Qed.

Lemma IsOn_Join w p pass c :
  stays (Join w p pass) /\
  (IsOn c p || negb (admitted w c p pass) = false -> IsOn (run_state (Join w p pass) c) p = true).
Proof.
  split.
  - intros c' g Hg. rewrite rs_Join. destruct (_ || _); [exact Hg|].
    assert (Hd : IsOn (with_players (<[p := mkPI p MEMBER_FLAG_NONE]>) c') g = true).
    { apply IsOn_true. simpl. apply IsOn_true in Hg. rewrite lookup_insert. case_decide; eauto. }
    cbn zeta. destruct (_ && _); auto with stays.
  - intros E. rewrite rs_Join, E. cbn zeta.
    destruct (_ && _); auto using IsOn_insert with stays.
Qed.

Lemma Leave_tells w p send c :
  joins (run_log (Leave w p send) c) = [] /\
  leaves (run_log (Leave w p send) c) =
    if IsOn c p && send then match GetPlayer w p with Some _ => [p] | None => [] end else [].
Proof.
  unfold Leave. rewrite rl_with_state. destruct (IsOn c p); cbn [negb andb].
  2: apply quiet_when, quiet_SendToOne.
  match goal with |- joins (run_log (bind ?m ?k) c) = _ /\ _ => destruct (quiet_tail m k c) as [-> ->] end.
  - intros []. quiet_cases.
  - rewrite rl_when. destruct send; [|split; reflexivity].
    rewrite run_log_bind, joins_app, leaves_app.
    destruct (quiet_SendToOne w (MakeYouLeft c) p c) as [-> ->]. rewrite rs_SendToOne.
    destruct (GetPlayer w p); split; reflexivity.
Qed.

Lemma rs_Leave w p send c :
  run_state (Leave w p send) c =
    if negb (IsOn c p) then c
    else let d := with_players (delete p) c in
         if negb (IsConstant c) then
           match omap_list (players d) with
           | (_, first) :: _ =>
               if IsOwner (players_at c p) && m_ownership c
               then promote (player first) (with_owner (player first)
                      (demote_owner (update_player (player first) (pi_SetModerator true) d)))
               else d
           | [] => d
           end
         else d.
Proof.
  unfold Leave. rewrite rs_with_state. destruct (IsOn c p); cbn [negb].
  2: run_simp; apply if_same.
  assert (Hhead : forall m, run_state (when send (SendToOne w (MakeYouLeft c) p ;;
      match GetPlayer w p with Some _ => emit (LeftChannel p) | None => ret tt end)) m = m).
  { intros m. run_simp. destruct send, (GetPlayer w p); reflexivity. }
  rewrite run_state_bind, Hhead. run_simp. rewrite if_same.
  change (IsConstant (with_players (delete p) c)) with (IsConstant c).
  destruct (IsConstant c); cbn [negb]; [reflexivity|].
  destruct (omap_list _) as [|[k first] rest]; [reflexivity|]. run_simp. reflexivity.
Qed.

Lemma IsOn_Leave w p send c g : g <> p -> IsOn c g = true -> IsOn (run_state (Leave w p send) c) g = true.
Proof.
  intros Hne Hg. rewrite rs_Leave. destruct (IsOn c p); cbn [negb]; [|exact Hg].
  assert (Hd : IsOn (with_players (delete p) c) g = true).
  { apply IsOn_true. simpl. rewrite lookup_delete_ne by congruence. by apply IsOn_true. }
  cbn zeta. destruct (negb (IsConstant c)); [|exact Hd].
  destruct (omap_list _) as [|[k first] rest]; [exact Hd|].
  destruct (_ && _); auto with stays.
Qed.

(** ** Sizes *)

Definition size_of (c : Channel) : Z := Z.of_nat (size (players c)).

Lemma size_update q f c : size_of (update_player q f c) <= size_of c + 1.
Proof.
  unfold size_of, update_player. simpl. rewrite map_size_insert. case_match; unfold id; lia.
Qed.
Lemma size_update_on q f c : IsOn c q = true -> size_of (update_player q f c) = size_of c.
Proof.
  intros On. apply IsOn_true in On as [pi E].
  unfold size_of, update_player. simpl. by rewrite map_size_insert, E.
Qed.
Lemma size_demote c : size_of (demote_owner c) = size_of c.
Proof.
  unfold demote_owner. destruct (negb _ && _) eqn:E; [|reflexivity].
  apply andb_true_iff in E as [_ E]. by apply size_update_on.
Qed.
Lemma IsOn_update_self q f c : IsOn (update_player q f c) q = true.
Proof. apply IsOn_true. rewrite lookup_update_player, decide_True by done. eauto. Qed.
Lemma size_promote g q c :
  IsOn c g = true -> size_of (promote g (with_owner q (demote_owner c))) = size_of c.
Proof.
  intros On. unfold promote. destruct (negb (g =? 0)).
  - rewrite size_update_on by apply IsOn_update_self.
    rewrite size_update_on by (change (IsOn (demote_owner c) g = true); by rewrite IsOn_demote).
    apply (size_demote c).
  - apply (size_demote c).
Qed.
Lemma size_delete p c : IsOn c p = true -> size_of (with_players (delete p) c) = size_of c - 1.
Proof.
  intros On. apply IsOn_true in On as [pi E]. unfold size_of. simpl.
  rewrite map_size_delete_Some by eauto.
  assert (size (players c) <> 0%nat); [|lia].
  intros Hz. apply map_size_empty_inv in Hz. by rewrite Hz, lookup_empty in E.
Qed.

Lemma size_Leave w p send c : size_of (run_state (Leave w p send) c) <= size_of c.
Proof.
  rewrite rs_Leave. destruct (IsOn c p) eqn:On; cbn [negb]; [|lia].
  pose proof (size_delete p c On) as Hd. cbn zeta.
  destruct (negb (IsConstant c)); [|lia].
  destruct (omap_list _) as [|[k first] rest]; [lia|].
  destruct (_ && _); [|lia]. rewrite size_promote by apply IsOn_update_self.
  pose proof (size_update (player first) (pi_SetModerator true) (with_players (delete p) c)). lia.
Qed.

Lemma size_Join w p pass c : size_of (run_state (Join w p pass) c) <= size_of c + 1.
Proof.
  rewrite rs_Join. destruct (_ || _); [lia|]. cbn zeta.
  assert (Hd : size_of (with_players (<[p := mkPI p MEMBER_FLAG_NONE]>) c) <= size_of c + 1).
  { unfold size_of. simpl. rewrite map_size_insert. case_match; unfold id; lia. }
  destruct (_ && _); [|exact Hd].
  pose proof (IsOn_insert p (mkPI p MEMBER_FLAG_NONE) c) as On.
  rewrite size_update_on by (by apply IsOn_promote). rewrite size_promote by exact On. exact Hd.
Qed.

(** ** The pointers of the players *)

(** Every pointer in a player's list leads to a live channel the player is on,
    except for the pair [x] a handler is about to remove. *)
Definition inv_but (x : option (Z * chan_ptr)) (s : Server) : Prop :=
  (forall p k, k ∈ joined_of s p ->
     exists c, channels s !! k = Some c /\ (x = Some (p, k) \/ IsOn c p = true)) /\
  (forall p, NoDup (joined_of s p)).
Definition chat_inv : Server -> Prop := inv_but None.

Definition sized (n : Z) (s : Server) : Prop :=
  forall k c, channels s !! k = Some c -> size_of c + n < 2 ^ 32.

Lemma inv_weaken x s : chat_inv s -> inv_but x s.
Proof.
  intros [Ha Hb]. split; [|exact Hb]. intros p k Hk.
  destruct (Ha p k Hk) as (c & Hc & [|On]); [discriminate | eauto].
Qed.

Lemma inv_close p k s : inv_but (Some (p, k)) s -> k ∉ joined_of s p -> chat_inv s.
Proof.
  intros [Ha Hb] Hk. split; [|exact Hb]. intros q k' Hk'.
  destruct (Ha q k' Hk') as (c & Hc & [E|On]); [injection E as -> ->; done | eauto].
Qed.

Lemma run_call k m s c :
  channels s !! k = Some c ->
  run_state (call k m) s = mkServer (mgr_team s) (<[k := run_state m c]> (channels s))
                             (foldl (track k) (m_channels s) (run_log m c)) /\
  run_log (call k m) s = Sent <$> run_log m c.
Proof.
  intros Hk. unfold call. rewrite rs_with_state, rl_with_state, Hk.
  set (L := run_log m c). split.
  - run_simp. assert (Hp : pure_state (for_each L (fun e : event => emit (S := Server) (Sent e)))).
    { apply pure_for_each. intros e. apply pure_emit. }
    rewrite Hp. reflexivity.
  - run_simp. rewrite run_log_for_each_pure by (intros; apply pure_emit).
    clear. induction L as [|e L IH]; [reflexivity|]. cbn. f_equal. exact IH.
Qed.

Lemma track_quiet k (j : gmap Z (list chan_ptr)) l g :
  joins l = [] ->
  default [] (foldl (track k) j l !! g) =
    if decide (g ∈ leaves l) then filter (fun k' => k' <> k) (default [] (j !! g))
    else default [] (j !! g).
Proof.
  revert j. induction l as [|e l IH]; intros j Hj; [rewrite decide_False by (apply not_elem_of_nil); reflexivity|].
  cbn [foldl]. destruct e as [t pk|h|h| | | |]; try discriminate; try (apply IH; exact Hj).
  rewrite (IH _ Hj). cbn [track]. change (leaves (LeftChannel h :: l)) with (h :: leaves l).
  rewrite lookup_insert. destruct (decide (h = g)) as [->|Hne].
  - rewrite (decide_True (P := g ∈ g :: leaves l)) by left. simpl.
    case_decide; [|reflexivity]. rewrite list_filter_filter. apply list_filter_iff. tauto.
  - do 2 case_decide; try reflexivity; set_solver.
Qed.

Lemma track_join k (j : gmap Z (list chan_ptr)) l p g :
  joins l = [p] -> leaves l = [] ->
  default [] (foldl (track k) j l !! g) =
    if decide (g = p) then default [] (j !! g) ++ [k] else default [] (j !! g).
Proof.
  revert j. induction l as [|e l IH]; intros j Hj Hl; [discriminate|].
  cbn [foldl]. destruct e as [t pk|h|h| | | |]; try discriminate; try (apply IH; assumption).
  change (h :: joins l = [p]) in Hj. injection Hj as -> Hj.
  rewrite track_quiet by exact Hj. change (leaves l = []) in Hl. rewrite Hl.
  rewrite decide_False by apply not_elem_of_nil. cbn [track]. rewrite lookup_insert.
  do 2 case_decide; subst; try reflexivity; done.
Qed.

(** A call that adds nobody to a list: those it takes off the channel are told so,
    or are the pair [x]. *)
Lemma inv_call x k m s c :
  inv_but x s -> channels s !! k = Some c ->
  joins (run_log m c) = [] ->
  (forall g, IsOn c g = true ->
     IsOn (run_state m c) g = true \/ g ∈ leaves (run_log m c) \/ x = Some (g, k)) ->
  inv_but x (run_state (call k m) s).
Proof.
  intros [Ha Hb] Hk Hj Hon. destruct (run_call k m s c Hk) as [-> _].
  assert (Hjo : forall p, joined_of (mkServer (mgr_team s) (<[k := run_state m c]> (channels s))
      (foldl (track k) (m_channels s) (run_log m c))) p =
      if decide (p ∈ leaves (run_log m c)) then filter (fun k' => k' <> k) (joined_of s p) else joined_of s p).
  { intros p. apply track_quiet, Hj. }
  split.
  - intros p k' Hin. rewrite Hjo in Hin. cbn [channels].
    assert (Hold : k' ∈ joined_of s p) by (case_decide; [apply list_elem_of_filter in Hin as [_ ?]|]; done).
    destruct (Ha p k' Hold) as (c' & Hc' & Hor). rewrite lookup_insert.
    destruct (decide (k = k')) as [<-|Hne]; [|eauto].
    exists (run_state m c). split; [reflexivity|]. rewrite Hk in Hc'. injection Hc' as <-.
    destruct Hor as [|On]; [left; assumption|].
    destruct (Hon p On) as [|[Hl|]]; [right; assumption| |left; assumption].
    rewrite decide_True in Hin by exact Hl. apply list_elem_of_filter in Hin as [? _]. done.
  - intros p. rewrite Hjo. case_decide; [apply NoDup_filter|]; apply Hb.
Qed.

Lemma inv_call_stays x k m s c :
  inv_but x s -> channels s !! k = Some c -> quiet m -> stays m ->
  inv_but x (run_state (call k m) s).
Proof.
  intros Hi Hk Hq Hs. apply (inv_call x k m s c Hi Hk); [apply Hq|]. intros g Hg. left. by apply Hs.
Qed.

Lemma inv_call_join w k p pass s c :
  chat_inv s -> channels s !! k = Some c -> chat_inv (run_state (call k (Join w p pass)) s).
Proof.
  intros Hi Hk. destruct (Join_tells w p pass c) as [Hl Hj]. destruct (IsOn_Join w p pass c) as [Hst Hp].
  destruct (joins (run_log (Join w p pass) c)) as [|q r] eqn:Eq.
  { apply (inv_call None k _ s c Hi Hk Eq). intros g Hg. left. by apply Hst. }
  destruct (IsOn c p || negb (admitted w c p pass)) eqn:Ea; [discriminate|].
  destruct (GetPlayer w p); [|discriminate]. injection Hj as -> ->. specialize (Hp eq_refl).
  apply orb_false_iff in Ea as [Hoff _]. destruct Hi as [Ha Hb].
  destruct (run_call k (Join w p pass) s c Hk) as [-> _].
  assert (Hjo : forall g, joined_of (mkServer (mgr_team s) (<[k := run_state (Join w p pass) c]> (channels s))
      (foldl (track k) (m_channels s) (run_log (Join w p pass) c))) g =
      if decide (g = p) then joined_of s g ++ [k] else joined_of s g).
  { intros g. by apply track_join. }
  assert (Hnew : k ∉ joined_of s p).
  { intros Hin. destruct (Ha p k Hin) as (c' & Hc' & [|On]); [discriminate|].
    rewrite Hk in Hc'. injection Hc' as <-. congruence. }
  split.
  - intros g k' Hin. rewrite Hjo in Hin. cbn [channels]. rewrite lookup_insert.
    destruct (decide (k = k')) as [<-|Hne].
    + exists (run_state (Join w p pass) c). split; [reflexivity|]. right.
      case_decide; [subst; exact Hp|]. destruct (Ha g k Hin) as (c' & Hc' & [|On]); [discriminate|].
      rewrite Hk in Hc'. injection Hc' as <-. by apply Hst.
    + apply Ha. case_decide; [|exact Hin]. apply elem_of_app in Hin as [|Hin]; [done|].
      apply list_elem_of_singleton in Hin. congruence.
  - intros g. rewrite Hjo. case_decide; [|apply Hb]. subst g.
    apply NoDup_app. split; [apply Hb|]. split; [|apply NoDup_singleton].
    intros k' Hin Hk'. apply list_elem_of_singleton in Hk'. congruence.
Qed.

(** [Leave] leaves the pair of the leaver and the channel to the caller. *)
Lemma inv_call_leave w k p send s c :
  chat_inv s -> channels s !! k = Some c ->
  inv_but (Some (p, k)) (run_state (call k (Leave w p send)) s).
Proof.
  intros Hi Hk. destruct (Leave_tells w p send c) as [Hj _].
  apply (inv_call _ k _ s c (inv_weaken _ s Hi) Hk Hj). intros g Hg.
  destruct (decide (g = p)) as [->|Hne]; [auto|]. left. by apply IsOn_Leave.
Qed.

(** What is left of the leaver's list. *)
Lemma joined_Leave w k p send s c g :
  channels s !! k = Some c ->
  joined_of (run_state (call k (Leave w p send)) s) g =
    if decide (g ∈ leaves (run_log (Leave w p send) c))
    then filter (fun k' => k' <> k) (joined_of s g) else joined_of s g.
Proof.
  intros Hk. destruct (run_call k (Leave w p send) s c Hk) as [-> _].
  apply track_quiet, Leave_tells.
Qed.

Lemma inv_call_leave_online w k p s c :
  chat_inv s -> channels s !! k = Some c -> is_Some (GetPlayer w p) ->
  chat_inv (run_state (call k (Leave w p true)) s).
Proof.
  intros Hi Hk [v Hv]. apply (inv_close p k); [by apply (inv_call_leave w k p true s c)|].
  rewrite (joined_Leave w k p true s c p Hk). destruct (Leave_tells w p true c) as [_ ->].
  rewrite Hv. destruct (IsOn c p) eqn:On; cbn [andb].
  - rewrite decide_True by left. rewrite list_elem_of_filter. tauto.
  - rewrite decide_False by apply not_elem_of_nil. intros Hin.
    destruct (proj1 Hi p k Hin) as (c' & Hc' & [|On']); [discriminate|].
    rewrite Hk in Hc'. injection Hc' as <-. congruence.
Qed.

(** ** The manager's operations *)

Definition no_uaf (l : list chat_event) : Prop := forall k, UseAfterFree k ∉ l.

Lemma no_uaf_nil : no_uaf [].
Proof. intros k. apply not_elem_of_nil. Qed.
Lemma no_uaf_app l1 l2 : no_uaf l1 -> no_uaf l2 -> no_uaf (l1 ++ l2).
Proof. intros H1 H2 k [H|H]%elem_of_app; [by apply (H1 k)|by apply (H2 k)]. Qed.
Lemma no_uaf_sent l : no_uaf (Sent <$> l).
Proof. intros k (e & He & _)%list_elem_of_fmap. discriminate. Qed.
Lemma no_uaf_one e : (forall k, e <> UseAfterFree k) -> no_uaf [e].
Proof. intros H k Hk%list_elem_of_singleton. by apply (H k). Qed.
Create HintDb uaf.
#[local] Hint Resolve no_uaf_nil no_uaf_app no_uaf_sent : uaf.

Lemma no_uaf_bind {A C} (m : SM A) (k : A -> SM C) s :
  no_uaf (run_log m s) -> no_uaf (run_log (k (run_value m s)) (run_state m s)) ->
  no_uaf (run_log (bind m k) s).
Proof. intros. rewrite run_log_bind. by apply no_uaf_app. Qed.

Lemma no_uaf_call k m s c : channels s !! k = Some c -> no_uaf (run_log (call k m) s).
Proof. intros Hk. destruct (run_call k m s c Hk) as [_ ->]. apply no_uaf_sent. Qed.

(** [live s k]: the pointer leads to a channel. *)
Definition live (s : Server) (k : chan_ptr) : Prop := is_Some (channels s !! k).

Lemma live_call k m s c k' : channels s !! k = Some c -> live s k' -> live (run_state (call k m) s) k'.
Proof.
  intros Hk Hl. destruct (run_call k m s c Hk) as [-> _]. unfold live. cbn [channels].
  rewrite lookup_insert. case_decide; [eauto|exact Hl].
Qed.

Lemma sized_call n n' k m s c :
  channels s !! k = Some c -> sized n s -> size_of (run_state m c) + n' <= size_of c + n ->
  n' <= n -> sized n' (run_state (call k m) s).
Proof.
  intros Hk Hs Hg Hn. destruct (run_call k m s c Hk) as [-> _]. intros k' c' Hc'. cbn [channels] in Hc'.
  rewrite lookup_insert in Hc'. case_decide.
  - injection Hc' as <-. specialize (Hs k c Hk). lia.
  - specialize (Hs k' c' Hc'). lia.
Qed.

Section manager_ops.
Context `{Utf8Lib} (w : WorldView) (d : ChatData).

(** What a run promises from a good state: no use after free, a good state again
    and every channel still where it was. *)
Record good_run {A} (n : Z) (m : SM A) (s : Server) : Prop := {
  gr_uaf : no_uaf (run_log m s);
  gr_inv : chat_inv (run_state m s);
  gr_sized : sized n (run_state m s);
  gr_live : forall k, live s k -> live (run_state m s) k
}.

Lemma new_Channel_size name id team entry row : size_of (new_Channel w name id team entry row).1 = 0.
Proof. unfold size_of. rewrite (proj1 (new_Channel_empty w name id team entry row)). reflexivity. Qed.

Lemma GetJoinChannel_good n side name id s :
  chat_inv s -> sized n s -> 0 <= n < 2 ^ 32 ->
  good_run n (GetJoinChannel w d side name id) s /\
  (forall k, run_value (GetJoinChannel w d side name id) s = Some k ->
     live (run_state (GetJoinChannel w d side name id) s) k).
Proof.
  intros Hi Hs Hn. unfold GetJoinChannel. destruct (fold_name name) as [wname|].
  2: { split; [split|]; try assumption; [apply no_uaf_one; discriminate | auto | discriminate]. }
  destruct (channels s !! (side, wname)) as [c|] eqn:Hk.
  - assert (E : with_state (fun s0 => match channels s0 !! (side, wname) with
        | Some _ => ret (Some (side, wname)) | None => ret (E := chat_event) None end) s =
      (Some (side, wname), s, [])) by (unfold with_state; by rewrite Hk).
    split; [split|]; unfold run_log, run_state, run_value, with_state; rewrite Hk; simpl;
      auto with uaf. intros k [= <-]. red. eauto.
  - set (team := mgr_team s side).
    set (nc := new_Channel w name id team (dbc_flags <$> LookupEntry d id) (load_channel d name team)).
    set (prog := with_state _).
    assert (E : run_state prog s = set_channels (<[(side, wname) := nc.1]>) s /\
                run_value prog s = Some (side, wname) /\ no_uaf (run_log prog s)).
    { unfold prog. unfold run_state, run_value, run_log, with_state. rewrite Hk. fold team. fold nc.
      destruct nc as [nchan ev]. set (body := for_each ev _).
      assert (Hp : pure_state body) by (apply pure_for_each; intros; apply pure_emit).
      assert (Hl : forall t, run_log body t = Sent <$> ev).
      { intros t. unfold body. rewrite run_log_for_each_pure by (intros; apply pure_emit).
        clear. induction ev as [|e l IH]; [reflexivity|]. cbn. f_equal. exact IH. }
      set (q := bind _ _).
      change (run_state q s = set_channels <[(side, wname):=nchan]> s /\
              run_value q s = Some (side, wname) /\ no_uaf (run_log q s)).
      unfold q. rewrite run_state_bind, run_value_bind, run_log_bind.
      rewrite !run_state_bind, run_value_bind, run_log_bind, Hp, Hl. rewrite rs_modify.
      split; [reflexivity|]. split; [reflexivity|]. change (run_log (modify _) s) with (@nil chat_event).
      apply no_uaf_app; [apply no_uaf_nil|]. apply no_uaf_app; [apply no_uaf_sent | apply no_uaf_nil]. }
    destruct E as (Es & Ev & Eu).
    assert (Hlive : forall k, live s k -> live (run_state prog s) k).
    { intros k Hl. rewrite Es. unfold live. simpl. rewrite lookup_insert. case_decide; [eauto|exact Hl]. }
    split; [split|]; try assumption.
    + rewrite Es. split; [|apply Hi]. intros p k Hin. simpl. destruct (proj1 Hi p k Hin) as (c & Hc & Hor).
      exists c. split; [|exact Hor]. rewrite lookup_insert_ne by congruence. exact Hc.
    + rewrite Es. intros k c Hc. simpl in Hc. rewrite lookup_insert in Hc. case_decide.
      * injection Hc as <-. pose proof (new_Channel_size name id team (dbc_flags <$> LookupEntry d id)
          (load_channel d name team)) as Hz. fold nc in Hz. lia.
      * by apply (Hs k).
    + rewrite Es, Ev. intros k [= <-]. unfold live. simpl. rewrite lookup_insert_eq. eauto.
Qed.

Lemma GetChannel_pure side name p pkt s :
  run_state (GetChannel side name p pkt) s = s /\ no_uaf (run_log (GetChannel side name p pkt) s) /\
  (forall k, run_value (GetChannel side name p pkt) s = Some k -> live s k).
Proof.
  unfold GetChannel. destruct (fold_name name) as [wname|].
  2: { split_and!; [reflexivity | apply no_uaf_one; discriminate | discriminate]. }
  unfold run_state, run_log, run_value, with_state.
  destruct (channels s !! (side, wname)) as [c|] eqn:Hk; [|destruct pkt]; simpl; split_and!;
    try reflexivity; try discriminate; auto with uaf.
  - intros k [= <-]. red. eauto.
  - apply no_uaf_one. discriminate.
Qed.

Lemma empty_channel c : size_of c < 2 ^ 32 -> GetNumPlayers c = 0 -> players c = ∅.
Proof.
  unfold size_of, GetNumPlayers. intros Hs Hz. rewrite uwrap_id in Hz by (unfold in_u; lia).
  apply map_size_empty_inv. lia.
Qed.

(** Only channels without members are deleted, so no player's list loses one. *)
Lemma mgr_LeftChannel_good n side name s :
  chat_inv s -> sized n s -> 0 <= n ->
  no_uaf (run_log (mgr_LeftChannel side name) s) /\
  chat_inv (run_state (mgr_LeftChannel side name) s) /\
  sized n (run_state (mgr_LeftChannel side name) s) /\
  m_channels (run_state (mgr_LeftChannel side name) s) = m_channels s.
Proof.
  intros Hi Hs Hn. unfold mgr_LeftChannel. destruct (fold_name name) as [wname|].
  2: { split_and!; try assumption; [apply no_uaf_one; discriminate | reflexivity]. }
  rewrite rl_with_state, rs_with_state. destruct (channels s !! (side, wname)) as [c|] eqn:Hk.
  2: { split_and!; try assumption; [apply no_uaf_nil | reflexivity]. }
  destruct ((GetNumPlayers c =? 0) && negb (IsConstant c)) eqn:E; cbn [when].
  2: { split_and!; try assumption; [apply no_uaf_nil | reflexivity]. }
  apply andb_true_iff in E as [E _]. apply Z.eqb_eq in E.
  pose proof (Hs _ _ Hk) as Hsz. apply empty_channel in E; [|lia].
  split_and!; [apply no_uaf_nil | | | reflexivity]; rewrite rs_modify.
  - split; [|apply Hi]. intros p k Hin. simpl. destruct (proj1 Hi p k Hin) as (c' & Hc & [|On]); [discriminate|].
    exists c'. split; [|auto]. rewrite lookup_delete_ne; [exact Hc|]. intros <-.
    rewrite Hk in Hc. injection Hc as <-. apply IsOn_true in On as [pi Hpi].
    rewrite E, lookup_empty in Hpi. discriminate.
  - intros k c' Hc. simpl in Hc. apply lookup_delete_Some in Hc as [_ Hc]. by apply (Hs k).
Qed.

(** ** Programs without a use after free *)

Definition ok {A} (P : Server -> Prop) (m : SM A) (Q : A -> Server -> Prop) : Prop :=
  triple P m (fun a s l => no_uaf l /\ Q a s).

Lemma ok_bind {A C} P R Q (m : SM A) (k : A -> SM C) :
  ok P m R -> (forall a, ok (R a) (k a) Q) -> ok P (bind m k) Q.
Proof.
  intros Hm Hk s Hs. destruct (Hm s Hs) as [Hu HR]. destruct (Hk _ _ HR) as [Hu2 HQ].
  rewrite run_value_bind, run_state_bind. split; [by apply no_uaf_bind | exact HQ].
Qed.
Lemma ok_ret {A} (P : Server -> Prop) (Q : A -> Server -> Prop) a : (forall s, P s -> Q a s) -> ok P (ret a) Q.
Proof. intros Hq s Hs. split; [apply no_uaf_nil | by apply Hq]. Qed.
Lemma ok_with_state {A} P Q (k : Server -> SM A) :
  (forall s, P s -> ok (eq s) (k s) Q) -> ok P (with_state k) Q.
Proof. intros Hk s Hs. exact (Hk s Hs s eq_refl). Qed.
Lemma ok_pre {A} (P P' : Server -> Prop) (Q : A -> Server -> Prop) m :
  (forall s, P s -> P' s) -> ok P' m Q -> ok P m Q.
Proof. intros Hp Hm s Hs. apply Hm, Hp, Hs. Qed.
Lemma ok_emit (P : Server -> Prop) e (Q : unit -> Server -> Prop) :
  (forall k, e <> UseAfterFree k) -> (forall s, P s -> Q tt s) -> ok P (emit e) Q.
Proof. intros He Hq s Hs. split; [by apply no_uaf_one | by apply Hq]. Qed.
Lemma ok_modify (P : Server -> Prop) f (Q : unit -> Server -> Prop) :
  (forall s, P s -> Q tt (f s)) -> ok P (modify f) Q.
Proof. intros Hq s Hs. split; [apply no_uaf_nil | by apply Hq]. Qed.
(** The good states, with room for [n] more members in every channel. *)
Definition good (n : Z) (s : Server) : Prop := chat_inv s /\ sized n s.

Lemma good_weaken n n' s : n' <= n -> good n s -> good n' s.
Proof. intros Hn [Hi Hs]. split; [exact Hi|]. intros k c Hc. specialize (Hs k c Hc). lia. Qed.

Lemma joined_erase g s p :
  joined_of (set_joined (erase_joined g) s) p =
    if decide (p = g) then tail (joined_of s p) else joined_of s p.
Proof.
  unfold joined_of, erase_joined, set_joined. simpl. rewrite lookup_insert.
  destruct (decide (g = p)) as [<-|Hne]; [by rewrite decide_True|]. by rewrite decide_False.
Qed.

Lemma joined_track_left k g s p :
  joined_of (set_joined (fun j => track k j (LeftChannel g)) s) p =
    if decide (p = g) then filter (fun k' => k' <> k) (joined_of s p) else joined_of s p.
Proof.
  unfold joined_of, set_joined. cbn [track m_channels]. rewrite lookup_insert.
  destruct (decide (g = p)) as [<-|Hne]; [by rewrite decide_True|]. by rewrite decide_False.
Qed.

(** Shrinking the lists keeps the invariant. *)
Lemma inv_shrink x f s :
  (forall p k, k ∈ joined_of (set_joined f s) p -> k ∈ joined_of s p) ->
  (forall p, NoDup (joined_of (set_joined f s) p)) ->
  inv_but x s -> inv_but x (set_joined f s).
Proof. intros Hsub Hnd [Ha _]. split; [|exact Hnd]. intros p k Hk. apply Ha, Hsub, Hk. Qed.

Lemma inv_track_left x k g s :
  inv_but x s -> inv_but x (set_joined (fun j => track k j (LeftChannel g)) s).
Proof.
  intros Hi. apply inv_shrink; [| |exact Hi].
  - intros p k'. rewrite joined_track_left. case_decide; [|done]. by intros [_ ?]%list_elem_of_filter.
  - intros p. rewrite joined_track_left. case_decide; [apply NoDup_filter|]; apply Hi.
Qed.

Lemma CleanupChannels_step_ok s ch st :
  good 0 st -> head (joined_of st (session_guid s)) = Some ch ->
  no_uaf (run_log (CleanupChannels_step w s ch) st) /\
  good 0 (run_state (CleanupChannels_step w s ch) st) /\
  forall p, joined_of (run_state (CleanupChannels_step w s ch) st) p =
    if decide (p = session_guid s) then tail (joined_of st p) else joined_of st p.
Proof.
  intros [Hi Hs] Hhd. set (g := session_guid s) in *.
  assert (Hin : ch ∈ joined_of st g) by (destruct (joined_of st g); [done|]; injection Hhd as ->; left).
  destruct (proj1 Hi g ch Hin) as (c & Hc & _).
  set (st1 := set_joined (erase_joined g) st).
  assert (Hnd : forall p, NoDup (joined_of st1 p)).
  { intros p. unfold st1. rewrite joined_erase. pose proof (proj2 Hi p) as Hp.
    case_decide; [destruct Hp; [constructor|assumption] | exact Hp]. }
  assert (Hi1 : chat_inv st1).
  { apply inv_shrink; [|exact Hnd|exact Hi]. intros p k. fold st1. unfold st1. rewrite joined_erase.
    case_decide; [|done]. destruct (joined_of st p); [done|]. by right. }
  assert (Hc1 : channels st1 !! ch = Some c) by exact Hc.
  set (st2 := run_state (call ch (Leave w g false)) st1).
  assert (Hj2 : forall p, joined_of st2 p = joined_of st1 p).
  { intros p. unfold st2. rewrite (joined_Leave w ch g false st1 c p Hc1).
    destruct (Leave_tells w g false c) as [_ ->]. rewrite andb_false_r.
    apply decide_False. apply not_elem_of_nil. }
  assert (Hi2 : chat_inv st2).
  { apply (inv_close g ch); [by apply (inv_call_leave w ch g false st1 c)|]. rewrite Hj2. unfold st1.
    rewrite joined_erase, decide_True by done. pose proof (proj2 Hi g) as Hg.
    destruct (joined_of st g); [done|]. injection Hhd as ->. by inversion Hg. }
  assert (Hs2 : sized 0 st2).
  { apply (sized_call 0 0 ch _ st1 c Hc1 Hs); [pose proof (size_Leave w g false c)|]; lia. }
  destruct (live_call ch (Leave w g false) st1 c ch Hc1 ltac:(red; eauto)) as [c2 Hc2]. fold st2 in Hc2.
  assert (Hstep : run_state (CleanupChannels_step w s ch) st =
      run_state (match channelMgr w (session_team s) with
                 | Some cMgr => mgr_LeftChannel cMgr (m_name c2) | None => ret tt end) st2 /\
      (no_uaf (run_log (match channelMgr w (session_team s) with
                 | Some cMgr => mgr_LeftChannel cMgr (m_name c2) | None => ret tt end) st2) ->
       no_uaf (run_log (CleanupChannels_step w s ch) st))).
  { unfold CleanupChannels_step. fold g. rewrite !run_state_bind, run_log_bind, run_log_bind, rs_modify.
    fold st1. fold st2. destruct (channelMgr w (session_team s)) as [cMgr|].
    - rewrite rs_with_state, rl_with_state, Hc2. split; [reflexivity|]. intros Hu.
      apply no_uaf_app; [apply no_uaf_nil|]. apply no_uaf_app; [by apply (no_uaf_call _ _ _ c)|exact Hu].
    - split; [reflexivity|]. intros Hu.
      apply no_uaf_app; [apply no_uaf_nil|]. apply no_uaf_app; [by apply (no_uaf_call _ _ _ c)|exact Hu]. }
  destruct Hstep as [-> Hlog].
  assert (Hj1 : forall p, joined_of st1 p =
    if decide (p = g) then tail (joined_of st p) else joined_of st p) by (intros; apply joined_erase).
  destruct (channelMgr w (session_team s)) as [cMgr|].
  - destruct (mgr_LeftChannel_good 0 cMgr (m_name c2) st2 Hi2 Hs2 ltac:(lia)) as (Hu & Hi3 & Hs3 & Hm).
    split_and!; [by apply Hlog | split; assumption |]. intros p. unfold joined_of. rewrite Hm.
    fold (joined_of st2 p). rewrite Hj2. apply Hj1.
  - split_and!; [apply Hlog, no_uaf_nil | split; assumption |]. intros p. rewrite rs_ret, Hj2. apply Hj1.
Qed.

Lemma CleanupChannels_loop_ok fuel s st :
  good 0 st -> (length (joined_of st (session_guid s)) <= fuel)%nat ->
  no_uaf (run_log (CleanupChannels_loop w fuel s) st) /\
  good 0 (run_state (CleanupChannels_loop w fuel s) st) /\
  joined_of (run_state (CleanupChannels_loop w fuel s) st) (session_guid s) = [] /\
  forall p, p <> session_guid s ->
    joined_of (run_state (CleanupChannels_loop w fuel s) st) p = joined_of st p.
Proof.
  revert st. induction fuel as [|fuel IH]; intros st Hg Hlen.
  { destruct (joined_of st (session_guid s)) eqn:E; [|simpl in Hlen; lia]. cbn [CleanupChannels_loop].
    split_and!; [apply no_uaf_nil | exact Hg | rewrite rs_ret; exact E | reflexivity]. }
  cbn [CleanupChannels_loop]. rewrite rs_with_state, rl_with_state.
  destruct (joined_of st (session_guid s)) as [|ch rest] eqn:E.
  { split_and!; [apply no_uaf_nil | exact Hg | rewrite rs_ret; exact E | reflexivity]. }
  destruct (CleanupChannels_step_ok s ch st Hg ltac:(rewrite E; reflexivity)) as (Hu & Hg' & Hj).
  rewrite run_state_bind, run_log_bind. set (st' := run_state (CleanupChannels_step w s ch) st) in *.
  assert (Hlen' : (length (joined_of st' (session_guid s)) <= fuel)%nat).
  { rewrite Hj, decide_True, E by done. simpl in *. lia. }
  destruct (IH st' Hg' Hlen') as (Hu2 & Hg2 & Hnil & Hoth).
  split_and!; [by apply no_uaf_app | exact Hg2 | exact Hnil |].
  intros p Hp. rewrite (Hoth p Hp), Hj, decide_False by done. reflexivity.
Qed.

(** ** [UpdateLocalChannels] *)

Lemma find_used_ok i l s0 :
  (forall k, k ∈ l -> live s0 k) ->
  ok (eq s0) (find_used i l) (fun r s => s = s0 /\ forall k, r = Some k -> k ∈ l).
Proof.
  induction l as [|k l IH]; intros Hl; cbn [find_used].
  - apply ok_ret. intros s <-. split; [reflexivity|discriminate].
  - apply ok_with_state. intros s <-. destruct (Hl k ltac:(left)) as [c Hc]. rewrite Hc.
    destruct (m_channelId c =? i).
    + apply ok_ret. intros s <-. split; [reflexivity|]. intros k' [= <-]. left.
    + intros s <-. destruct (IH ltac:(intros k' Hk'; apply Hl; by right) s0 eq_refl) as [Hu [Hst Hin]].
      split; [exact Hu|]. split; [exact Hst|]. intros k' Hk'. right. by apply Hin.
Qed.

(** The channels [UpdateLocalChannels] is about to use stay where they are. *)
Definition targets (n : Z) (join leave : option chan_ptr) (s : Server) : Prop :=
  good n s /\ (forall k, join = Some k -> live s k) /\ (forall k, leave = Some k -> live s k).

Lemma GetJoinChannel_ok n side name id (used : option chan_ptr) :
  0 <= n < 2 ^ 32 ->
  ok (fun s => good n s /\ forall k, used = Some k -> live s k)
     (GetJoinChannel w d side name id)
     (fun r s => good n s /\ (forall k, used = Some k -> live s k) /\ (forall k, r = Some k -> live s k)).
Proof.
  intros Hn s [[Hi Hs] Hu]. destruct (GetJoinChannel_good n side name id s Hi Hs Hn) as [[G1 G2 G3 G4] G5].
  split; [exact G1|]. split; [by split|]. split; [|exact G5]. intros k Hk. by apply G4, Hu.
Qed.

Lemma local_target_ok n s cMgr zone i channel used :
  0 <= n < 2 ^ 32 ->
  ok (fun st => good n st /\ forall k, used = Some k -> live st k)
     (local_target w d s cMgr zone i channel used)
     (fun r st => match r with
                  | None => good n st
                  | Some (join, leave, _) => targets n join leave st
                  end).
Proof.
  intros Hn. unfold local_target, targets.
  destruct (CanJoinConstantChannelInZone channel zone).
  2: { apply ok_ret. intros st [Hg Hu]. split_and!; [exact Hg | discriminate | exact Hu]. }
  destruct (negb _).
  2: { eapply ok_bind; [by apply (GetJoinChannel_ok n cMgr _ _ used)|]. intros r. apply ok_ret.
       intros st (Hg & Hu & Hr). split_and!; [exact Hg | exact Hr | discriminate]. }
  destruct (_ && _); [apply ok_ret; tauto|].
  eapply ok_bind; [by apply (GetJoinChannel_ok n cMgr _ _ used)|]. intros r. apply ok_ret.
  intros st (Hg & Hu & Hr). destruct used as [u|]; [case_bool_decide|]; split_and!;
    first [exact Hg | discriminate | exact Hr | exact Hu].
Qed.

Lemma call_Join_ok n k p pass (leave : option chan_ptr) :
  ok (fun st => good (n + 1) st /\ live st k /\ forall k', leave = Some k' -> live st k')
     (call k (Join w p pass))
     (fun _ st => good n st /\ forall k', leave = Some k' -> live st k').
Proof.
  intros st ([Hi Hs] & [c Hc] & Hl). split; [by apply (no_uaf_call _ _ _ c)|]. split; [split|].
  - by apply (inv_call_join w k p pass st c).
  - apply (sized_call (n + 1) n k _ st c Hc Hs); [pose proof (size_Join w p pass c)|]; lia.
  - intros k' Hk'. apply (live_call _ _ _ c _ Hc). by apply Hl.
Qed.

Lemma leave_local_ok n k p send cMgr :
  0 <= n ->
  ok (fun st => good n st /\ live st k)
     (call k (Leave w p send) ;;
      with_state (fun st =>
        match channels st !! k with
        | None => emit (UseAfterFree k)
        | Some c =>
            let name := m_name c in
            modify (set_joined (fun j => track k j (LeftChannel p))) ;;
            mgr_LeftChannel cMgr name
        end))
     (fun _ st => good n st).
Proof.
  intros Hn. eapply (ok_bind _ (fun _ st => inv_but (Some (p, k)) st /\ sized n st /\ live st k)).
  - intros st ([Hi Hs] & [c Hc]). split; [by apply (no_uaf_call _ _ _ c)|]. split_and!.
    + by apply (inv_call_leave w k p send st c).
    + apply (sized_call n n k _ st c Hc Hs); [pose proof (size_Leave w p send c)|]; lia.
    + apply (live_call _ _ _ c _ Hc). red. eauto.
  - intros []. apply ok_with_state. intros st (Hi & Hs & [c Hc]). rewrite Hc. cbn zeta.
    eapply (ok_bind _ (fun _ st' => good n st')).
    + apply ok_modify. intros st' <-. split; [|exact Hs].
      apply (inv_close p k); [by apply inv_track_left|].
      rewrite joined_track_left, decide_True by done. rewrite list_elem_of_filter. tauto.
    + intros [] st' [Hi' Hs'].
      destruct (mgr_LeftChannel_good n cMgr (m_name c) st' Hi' Hs' Hn) as (Hu & Hi2 & Hs2 & _).
      split; [exact Hu | by split].
Qed.

Lemma UpdateLocalChannels_row_ok n s cMgr zone row :
  0 <= n < 2 ^ 32 - 1 ->
  ok (good (n + 1)) (UpdateLocalChannels_row w d s cMgr zone row) (fun _ => good n).
Proof.
  intros Hn. destruct row as [i channel]. unfold UpdateLocalChannels_row.
  assert (Hret : ok (good (n + 1)) (ret tt) (fun _ => good n)).
  { apply ok_ret. intros st. apply good_weaken. lia. }
  destruct (negb _); [exact Hret|]. destruct (_ && _); [exact Hret|].
  apply ok_with_state. intros s0 [Hi0 Hs0].
  eapply (ok_bind _ (fun used st => good (n + 1) st /\ forall k, used = Some k -> live st k)).
  { intros st <-. set (l := joined_of s0 (session_guid s)).
    assert (Hl : forall k, k ∈ l -> live s0 k).
    { intros k Hk. destruct (proj1 Hi0 _ k Hk) as (c & Hc & _). red. eauto. }
    destruct (find_used_ok i l s0 Hl s0 eq_refl) as [Hu [Hst Hin]].
    split; [exact Hu|]. rewrite Hst. split; [by split|]. intros k Hk. by apply Hl, Hin. }
  intros used.
  eapply ok_bind; [apply local_target_ok; lia|]. intros [[[join leave] send]|].
  2: { apply ok_ret. intros st. apply good_weaken. lia. }
  eapply (ok_bind _ (fun _ st => good n st /\ forall k, leave = Some k -> live st k)).
  - destruct join as [k|].
    + eapply ok_pre; [|apply (call_Join_ok n k _ _ leave)].
      intros st (Hg & Hj & Hl). split_and!; [exact Hg | by apply Hj | exact Hl].
    + apply ok_ret. intros st (Hg & _ & Hl). split; [|exact Hl]. eapply good_weaken; [|exact Hg]. lia.
  - intros []. destruct leave as [k|].
    + eapply ok_pre; [|apply leave_local_ok; lia]. intros st [Hg Hl]. split; [exact Hg|]. by apply Hl.
    + apply ok_ret. tauto.
Qed.

(** Room for one new member per row of the store. *)
Definition store_room : Z := Z.of_nat (length (sChatChannelsStore d)) + 1.

Lemma UpdateLocalChannels_ok s newZone :
  store_room < 2 ^ 32 - 1 ->
  ok (good store_room) (UpdateLocalChannels w d s newZone) (fun _ => chat_inv).
Proof.
  intros Hroom. unfold UpdateLocalChannels, store_room in *.
  assert (Hret : ok (good (Z.of_nat (length (sChatChannelsStore d)) + 1)) (ret tt) (fun _ => chat_inv)).
  { apply ok_ret. intros st Hg. apply Hg. }
  destruct (_ && _); [exact Hret|]. destruct (GetAreaEntryByAreaID d newZone); [|exact Hret].
  destruct (channelMgr w (session_team s)) as [cMgr|]; [|exact Hret].
  intros st Hg.
  assert (Hn : forall n, (n <= length (sChatChannelsStore d))%nat ->
     0 <= Z.of_nat n < 2 ^ 32 - 1) by lia.
  revert st Hg. generalize (sChatChannelsStore d) Hn Hroom. clear.
  intros l. induction l as [|row l IH]; intros Hn Hroom st Hg.
  - split; [apply no_uaf_nil | apply Hg].
  - cbn [for_each length] in *. rewrite run_log_bind, run_state_bind.
    destruct (UpdateLocalChannels_row_ok (Z.of_nat (S (length l))) s cMgr a row ltac:(lia) st) as [Hu Hg'].
    { eapply good_weaken; [|exact Hg]. lia. }
    destruct (IH ltac:(intros; apply Hn; lia) ltac:(lia) _ ltac:(eapply good_weaken; [|exact Hg']; lia)) as [Hu2 Hi].
    split; [by apply no_uaf_app | exact Hi].
Qed.

(** ** The handlers *)

Lemma LeaveLFGChannel_ok s :
  is_Some (GetPlayer w (session_guid s)) ->
  ok chat_inv (LeaveLFGChannel w s) (fun _ => chat_inv).
Proof.
  intros Hon. unfold LeaveLFGChannel. apply ok_with_state. intros st Hi.
  assert (Hl : forall k, k ∈ joined_of st (session_guid s) -> live st k).
  { intros k Hk. destruct (proj1 Hi _ k Hk) as (c & Hc & _). red. eauto. }
  induction (joined_of st (session_guid s)) as [|k l IH]; cbn [LeaveLFGChannel_loop].
  - apply ok_ret. by intros ? <-.
  - apply ok_with_state. intros st' <-. destruct (Hl k ltac:(left)) as [c Hc]. rewrite Hc.
    destruct (has_flag (m_flags c) CHANNEL_FLAG_LFG).
    + intros st' <-. split; [by apply (no_uaf_call _ _ _ c)|]. by apply (inv_call_leave_online w k _ st c).
    + apply IH. intros k' Hk'. apply Hl. by right.
Qed.

Lemma with_packet_ok {A} P Q (p : B A) buf (k : A -> SM unit) :
  (forall s, P s -> Q tt s) -> (forall a, ok P (k a) Q) -> ok P (with_packet p buf k) Q.
Proof. intros Hr Hk. unfold with_packet. case_match; [apply Hk | by apply ok_ret]. Qed.

Lemma GetChannel_ok side name p pkt :
  ok (good 0) (GetChannel side name p pkt) (fun r s => good 0 s /\ forall k, r = Some k -> live s k).
Proof.
  intros st Hg. destruct (GetChannel_pure side name p pkt st) as (E & Hu & Hl).
  split; [exact Hu|]. rewrite E. split; [exact Hg | exact Hl].
Qed.

Lemma on_channel_ok s name (k : chan_ptr -> SM unit) :
  (forall c, ok (fun st => good 0 st /\ live st c) (k c) (fun _ => chat_inv)) ->
  ok (good 0) (on_channel w s name k) (fun _ => chat_inv).
Proof.
  intros Hk. unfold on_channel. case_match; [|apply ok_ret; intros st Hg; apply Hg].
  eapply ok_bind; [apply GetChannel_ok|]. intros [c|].
  - eapply ok_pre; [|apply (Hk c)]. intros st [Hg Hl]. split; [exact Hg | by apply Hl].
  - apply ok_ret. intros st [Hg _]. apply Hg.
Qed.

Lemma call_stays_ok (m : CM unit) c :
  quiet m -> stays m -> ok (fun st => good 0 st /\ live st c) (call c m) (fun _ => chat_inv).
Proof.
  intros Hq Hs st [[Hi _] [ch Hc]]. split; [by apply (no_uaf_call _ _ _ ch)|].
  by apply (inv_call_stays None c m st ch).
Qed.

Lemma on_named_ok s buf (op : list Z -> CM unit) :
  (forall n c, ok (fun st => good 0 st /\ live st c) (call c (op n)) (fun _ => chat_inv)) ->
  ok (good 0) (on_named w s buf op) (fun _ => chat_inv).
Proof.
  intros Hop. unfold on_named. apply with_packet_ok; [intros st Hg; apply Hg|]. intros [name otp].
  destruct (normalizePlayerName otp).
  - by apply on_channel_ok.
  - apply ok_ret. intros st Hg. apply Hg.
  - apply ok_emit; [discriminate|]. intros st Hg. apply Hg.
Qed.

Lemma IsOn_delete q c g : IsOn c g = true -> g <> q -> IsOn (with_players (delete q) c) g = true.
Proof. intros On Hne. apply IsOn_true. simpl. rewrite lookup_delete_ne by congruence. by apply IsOn_true. Qed.

Lemma KickOrBan_tells good_ name ban c :
  joins (run_log (KickOrBan w good_ name ban) c) = [] /\
  forall g, IsOn c g = true ->
    IsOn (run_state (KickOrBan w good_ name ban) c) g = true \/
    g ∈ leaves (run_log (KickOrBan w good_ name ban) c).
Proof.
  assert (Hstay : forall pk, joins (run_log (SendToOne w pk good_) c) = [] /\
    forall g, IsOn c g = true -> IsOn (run_state (SendToOne w pk good_) c) g = true \/
      g ∈ leaves (run_log (SendToOne w pk good_) c)).
  { intros pk. split; [apply quiet_SendToOne|]. intros g Hg. left. by rewrite rs_SendToOne. }
  destruct (IsOn c good_) eqn:E1.
  2: { unfold KickOrBan. rewrite rl_with_state, rs_with_state, E1. apply Hstay. }
  destruct (negb (IsModerator (players_at c good_)) && (security_of w good_ <? SEC_GAMEMASTER)) eqn:E2.
  { unfold KickOrBan. rewrite rl_with_state, rs_with_state, E1, E2. apply Hstay. }
  destruct (GetPlayer_name w name) as [v|] eqn:E3.
  2: { unfold KickOrBan. rewrite rl_with_state, rs_with_state, E1, E2, E3. apply Hstay. }
  destruct (IsOn c (GetGUID v)) eqn:E4.
  2: { unfold KickOrBan. rewrite rl_with_state, rs_with_state, E1, E2, E3, E4. apply Hstay. }
  destruct ((security_of w good_ <? SEC_GAMEMASTER) && (GetGUID v =? m_ownerGUID c) &&
    negb (good_ =? m_ownerGUID c)) eqn:E5.
  { unfold KickOrBan. rewrite rl_with_state, rs_with_state, E1, E2, E3, E4, E5. apply Hstay. }
  unfold run_log, run_state. rewrite (KickOrBan_accepted w good_ name ban c v) by assumption.
  set (m := kick_body w good_ (GetGUID v) _ _).
  change (joins (run_log m c) = [] /\ forall g, IsOn c g = true ->
    IsOn (run_state m c) g = true \/ g ∈ leaves (run_log m c)).
  assert (Hlog : joins (run_log m c) = [] /\ leaves (run_log m c) = [GetGUID v]).
  { unfold m, kick_body. rewrite run_log_bind, joins_app, leaves_app.
    match goal with |- context [run_log ?h c] => assert (Hq : quiet h) by (destruct (ban && _); quiet_cases) end.
    destruct (Hq c) as [-> ->]. rewrite !run_log_bind, !joins_app, !leaves_app.
    match goal with |- context [run_log (with_state ?h) ?c2] =>
      assert (Hq2 : quiet (with_state h)) by (quiet_cases); destruct (Hq2 c2) as [-> ->] end.
    split; reflexivity. }
  destruct Hlog as [Hj Hl]. split; [exact Hj|]. intros g Hg. rewrite Hl.
  destruct (decide (g = GetGUID v)) as [->|Hne]; [right; left|]. left.
  assert (Hbase : forall c', (forall h, IsOn c h = true -> IsOn c' h = true) ->
     IsOn (with_players (delete (GetGUID v)) c') g = true).
  { intros c' Hc'. apply IsOn_delete; [by apply Hc' | exact Hne]. }
  unfold m, kick_body. rewrite run_state_bind.
  match goal with |- context [run_state (if ?b then _ else _) c] => destruct b end; run_simp;
    (match goal with |- IsOn (if ?b then _ else _) g = true => destruct b end);
    try (apply IsOn_promote, IsOn_update); apply Hbase; auto.
Qed.

Lemma call_KickOrBan_ok good_ name ban c :
  ok (fun st => good 0 st /\ live st c) (call c (KickOrBan w good_ name ban)) (fun _ => chat_inv).
Proof.
  intros st [[Hi _] [ch Hc]]. split; [by apply (no_uaf_call _ _ _ ch)|].
  destruct (KickOrBan_tells good_ name ban ch) as [Hj Hon].
  apply (inv_call None c _ st ch Hi Hc Hj). intros g Hg. destruct (Hon g Hg); auto.
Qed.

Lemma HandleJoinChannel_ok s buf :
  ok (good 1) (HandleJoinChannel w d s buf) (fun _ => chat_inv).
Proof.
  unfold HandleJoinChannel. apply with_packet_ok; [intros st Hg; apply Hg|].
  assert (Hret : ok (good 1) (ret tt) (fun _ => chat_inv)) by (apply ok_ret; intros st Hg; apply Hg).
  intros [[[id pass] [|x name]]|]; try exact Hret.
  destruct (channelMgr w (session_team s)) as [cMgr|]; [|exact Hret].
  eapply (ok_bind _ (fun _ => good 1)); [apply ok_modify; exact (fun st Hg => Hg)|]. intros [].
  eapply ok_bind.
  - eapply ok_pre; [|apply (GetJoinChannel_ok 1 cMgr _ _ None); lia]. intros st Hg. split; [exact Hg|discriminate].
  - intros [k|]; [|apply ok_ret; intros st (Hg & _); apply Hg].
    intros st ([Hi Hs] & _ & Hl). destruct (Hl k eq_refl) as [c Hc].
    split; [by apply (no_uaf_call _ _ _ c) | by apply (inv_call_join w k _ _ st c)].
Qed.

Lemma HandleLeaveChannel_ok s buf :
  is_Some (GetPlayer w (session_guid s)) ->
  ok (good 0) (HandleLeaveChannel w s buf) (fun _ => chat_inv).
Proof.
  intros Hon. unfold HandleLeaveChannel. apply with_packet_ok; [intros st Hg; apply Hg|].
  intros [|x name]; [apply ok_ret; intros st Hg; apply Hg|].
  destruct (channelMgr w (session_team s)) as [cMgr|]; [|apply ok_ret; intros st Hg; apply Hg].
  eapply (ok_bind _ (fun _ => good 0)).
  - eapply ok_bind; [apply GetChannel_ok|]. intros [k|]; [|apply ok_ret; by intros st [Hg _]].
    intros st [[Hi Hs] Hl]. destruct (Hl k eq_refl) as [c Hc]. split; [by apply (no_uaf_call _ _ _ c)|].
    split; [by apply (inv_call_leave_online w k _ st c)|].
    apply (sized_call 0 0 k _ st c Hc Hs); [pose proof (size_Leave w (session_guid s) true c)|]; lia.
  - intros [] st [Hi Hs]. destruct (mgr_LeftChannel_good 0 cMgr (x :: name) st Hi Hs) as (Hu & Hi' & _); [lia|].
    by split.
Qed.

(** A handler that names a player and calls an operation that keeps the members. *)
Lemma named_stays_ok s buf (op : list Z -> CM unit) :
  (forall n, quiet (op n)) -> (forall n, stays (op n)) ->
  ok (good 0) (on_named w s buf op) (fun _ => chat_inv).
Proof. intros Hq Hs. apply on_named_ok. intros n c. by apply call_stays_ok. Qed.

(** A handler that names the channel only. *)
Lemma simple_stays_ok s buf (m : CM unit) :
  quiet m -> stays m ->
  ok (good 0) (with_packet shr_string buf (fun name => on_channel w s name (fun c => call c m)))
    (fun _ => chat_inv).
Proof.
  intros Hq Hs. apply with_packet_ok; [intros st Hg; apply Hg|]. intros name.
  apply on_channel_ok. intros c. by apply call_stays_ok.
Qed.

Lemma run_handler_ok h s buf :
  is_Some (GetPlayer w (session_guid s)) ->
  ok (good 1) (run_handler w d h s buf) (fun _ => chat_inv).
Proof.
  intros Hon.
  assert (H0 : forall A (m : SM A) Q, ok (good 0) m Q -> ok (good 1) m Q).
  { intros A m Q. apply ok_pre. intros st. apply good_weaken. lia. }
  destruct h; cbn [run_handler].
  - apply HandleJoinChannel_ok.
  - apply H0. by apply HandleLeaveChannel_ok.
  - apply H0, simple_stays_ok; [apply quiet_List | apply stays_List].
  - apply H0. unfold HandleChannelPassword. apply with_packet_ok; [intros st Hg; apply Hg|].
    intros [name pass]. apply on_channel_ok. intros c.
    apply call_stays_ok; [apply quiet_Password | apply stays_Password].
  - apply H0, named_stays_ok; intros n; [apply quiet_SetOwner_name | apply stays_SetOwner_name].
  - apply H0, simple_stays_ok; [apply quiet_SendWhoOwner | apply stays_SendWhoOwner].
  - apply H0, named_stays_ok; intros n; [apply quiet_SetMode | apply stays_SetMode].
  - apply H0, named_stays_ok; intros n; [apply quiet_SetMode | apply stays_SetMode].
  - apply H0, named_stays_ok; intros n; [apply quiet_SetMode | apply stays_SetMode].
  - apply H0, named_stays_ok; intros n; [apply quiet_SetMode | apply stays_SetMode].
  - apply H0, named_stays_ok; intros n; [apply quiet_Invite | apply stays_Invite].
  - apply H0, on_named_ok. intros n c. apply call_KickOrBan_ok.
  - apply H0, on_named_ok. intros n c. apply call_KickOrBan_ok.
  - apply H0, named_stays_ok; intros n; [apply quiet_UnBan | apply stays_UnBan].
  - apply H0, simple_stays_ok; [apply quiet_Announce | apply stays_Announce].
  - apply H0. unfold HandleGetChannelMemberCount. apply with_packet_ok; [intros st Hg; apply Hg|].
    intros name. apply on_channel_ok. intros k. apply ok_with_state. intros st [[Hi _] [c Hc]]. rewrite Hc.
    apply ok_emit; [discriminate|]. by intros st' <-.
  - apply H0. unfold HandleSetChannelWatch. apply with_packet_ok; [intros st Hg; apply Hg|].
    intros name. apply ok_ret. intros st Hg. apply Hg.
Qed.
End manager_ops.

(** A step may be taken when the acting player is in the world (his packets are
    handled and he is found by [sObjectMgr] only then; [CleanupChannels] runs at
    logout and needs nothing) and no channel is within [room] of 2^32 members. *)
Definition step_allowed (w : WorldView) (d : ChatData) (st : chat_step) (s : Server) : Prop :=
  sized (store_room d) s /\ store_room d < 2 ^ 32 - 1 /\
  match st with
  | StPacket _ ses _ | StLeaveLFG ses => is_Some (GetPlayer w (session_guid ses))
  | StUpdateLocal _ _ | StCleanup _ => True
  end.

Definition initial_server : Server := mkServer (fun _ => 0) ∅ ∅.

Inductive chat_reachable `{Utf8Lib} : Server -> Prop :=
| cr_init : chat_reachable initial_server
| cr_step w d st s :
    step_allowed w d st s -> chat_reachable s -> chat_reachable (run_state (run_step w d st) s).

Lemma run_step_ok `{Utf8Lib} w d st s :
  step_allowed w d st s -> chat_inv s ->
  no_uaf (run_log (run_step w d st) s) /\ chat_inv (run_state (run_step w d st) s).
Proof.
  intros (Hsz & Hroom & Hst) Hi. assert (Hg : good (store_room d) s) by by split.
  assert (Hg1 : good 1 s) by (eapply good_weaken; [|exact Hg]; unfold store_room; lia).
  assert (Hg0 : good 0 s) by (eapply good_weaken; [|exact Hg]; unfold store_room; lia).
  destruct st as [h ses buf|ses zone|ses|ses]; cbn [run_step].
  - exact (run_handler_ok w d h ses buf Hst s Hg1).
  - exact (UpdateLocalChannels_ok w d ses zone Hroom s Hg).
  - exact (LeaveLFGChannel_ok w ses Hst s Hi).
  - unfold CleanupChannels. rewrite rs_with_state, rl_with_state.
    destruct (CleanupChannels_loop_ok w (length (joined_of s (session_guid ses))) ses s Hg0 (le_n _))
      as (Hu & [Hi' _] & _). by split.
Qed.

Lemma chat_reachable_inv `{Utf8Lib} s : chat_reachable s -> chat_inv s.
Proof.
  induction 1 as [|w d st s Hst _ IH].
  - split; [|intros p; constructor]. intros p k Hk. by apply not_elem_of_nil in Hk.
  - by apply run_step_ok.
Qed.

(** C2: The raw [Channel] pointers the players keep never dangle.  In every state
    of the chat server reached by any sequence of channel packets, zone changes
    and logouts, every pointer in a player's list leads to a channel that still
    exists and has the player as a member, no pointer is listed twice, and no
    further packet, zone change or logout uses a channel after it was deleted. *)
Theorem channel_pointers_valid `{Utf8Lib} (s : Server) :
  chat_reachable s ->
  (forall p k, k ∈ joined_of s p -> exists c, channels s !! k = Some c /\ IsOn c p = true) /\
  (forall p, NoDup (joined_of s p)) /\
  (forall w d st k, step_allowed w d st s -> UseAfterFree k ∉ run_log (run_step w d st) s).
Proof.
  intros Hr. pose proof (chat_reachable_inv s Hr) as Hi. split_and!.
  - intros p k Hk. destruct (proj1 Hi p k Hk) as (c & Hc & [|On]); [discriminate|eauto].
  - apply Hi.
  - intros w d st k Hst. by apply (run_step_ok w d st s Hst Hi).
Qed.

(** C39: [CleanupChannels] at logout terminates with the player's list empty and
    everybody else's list untouched. *)
Theorem cleanup_channels_spec `{Utf8Lib} (w : WorldView) (s : Server) (ses : Session) :
  chat_reachable s -> sized 0 s ->
  let s' := run_state (CleanupChannels w ses) s in
  joined_of s' (session_guid ses) = [] /\
  (forall p, p <> session_guid ses -> joined_of s' p = joined_of s p) /\
  (forall k, UseAfterFree k ∉ run_log (CleanupChannels w ses) s).
Proof.
  intros Hr Hs s'. pose proof (chat_reachable_inv s Hr) as Hi.
  destruct (CleanupChannels_loop_ok w (length (joined_of s (session_guid ses))) ses s
    (conj Hi Hs) (le_n _)) as (Hu & _ & Hnil & Hoth).
  unfold s', CleanupChannels. rewrite rs_with_state, rl_with_state. by split_and!.
Qed.

(** *** A concrete run: player 1 joins "g", player 2 joins it too *)

Definition ex_data : ChatData := mkChatData [] (fun _ => None) (fun _ _ => None) (fun p _ => p) [].
Definition ex_session (g : Z) : Session := mkSession (ex_player g) 0 0 false false.
(** CMSG_JOIN_CHANNEL: id 0, two bytes, no password, "g". *)
Definition ex_join : ByteBuffer := mkBuf 0 9 [0; 0; 0; 0; 0; 0; 0; 103; 0].
Definition ex_step (s : Server) (st : chat_step) : Server :=
  run_state (run_step (H := ascii_utf8) ex_world ex_data st) s.
Definition ex_server : Server :=
  ex_step (ex_step initial_server (StPacket HJoin (ex_session 1) ex_join))
    (StPacket HJoin (ex_session 2) ex_join).

Lemma ex_allowed s st :
  (forall k c, channels s !! k = Some c -> size_of c < 1000) ->
  match st with StPacket _ ses _ | StLeaveLFG ses => is_Some (GetPlayer ex_world (session_guid ses))
  | _ => True end -> step_allowed ex_world ex_data st s.
Proof.
  intros Hs Ho. split; [|split; [reflexivity | exact Ho]]. intros k c Hc. specialize (Hs k c Hc).
  unfold store_room. simpl. lia.
Qed.

Lemma ex_sizes s : Forall (fun kc => size_of kc.2 < 1000) (map_to_list (channels s)) ->
  forall k c, channels s !! k = Some c -> size_of c < 1000.
Proof.
  intros Hf k c Hc. apply elem_of_map_to_list in Hc.
  exact (proj1 (Forall_forall _ _) Hf (k, c) Hc).
Qed.

Lemma ex_server_reachable : chat_reachable (H := ascii_utf8) ex_server.
Proof.
  unfold ex_server, ex_step.
  repeat (apply cr_step; [apply ex_allowed; [apply ex_sizes; vm_compute; repeat constructor | eexists; reflexivity]|]).
  apply cr_init.
Qed.

Lemma channel_pointers_valid_witness :
  joined_of ex_server 1 = [(true, [103])] /\
  (exists c, channels ex_server !! (true, [103]) = Some c /\ IsOn c 1 = true).
Proof.
  split; [vm_compute; reflexivity|].
  apply (proj1 (channel_pointers_valid (H := ascii_utf8) ex_server ex_server_reachable)).
  vm_compute. left.
Defined.

Lemma cleanup_channels_spec_witness :
  joined_of (run_state (CleanupChannels (H := ascii_utf8) ex_world (ex_session 1)) ex_server) 1 = [].
Proof.
  apply (cleanup_channels_spec (H := ascii_utf8) ex_world ex_server (ex_session 1) ex_server_reachable).
  intros k c Hc. pose proof (ex_sizes ex_server ltac:(vm_compute; repeat constructor) k c Hc). lia.
Defined.
