(* ===== verification/Crypto.v ===== *)
(** * Big numbers and hashing

    [BigNumber] (src/src/server/shared/Cryptography/BigNumber.cpp) and [SHA1Hash]
    (SHA1.cpp).  Both are thin layers over OpenSSL, which is not part of the
    repository: it enters as the class [OpenSSL] of its functions, with their
    documented behaviour as [OpenSSLLaws].  A BIGNUM is the integer it stands
    for; bytes and their order are explicit. *)
From Stdlib Require Import Zpow_facts.
From S2P Require Import Prelude.

(** The value of a big-endian byte string. *)
Definition be_decode (bs : list Z) : Z := le_decode (rev bs).

(** The upper-case hexadecimal digits of a byte string. *)
Definition hex_digit (d : Z) : Z := if d <? 10 then 48 + d else 55 + d.
Definition hex_text (bs : list Z) : list Z := concat ((fun b => [hex_digit (b / 16); hex_digit (b mod 16)]) <$> bs).

Class OpenSSL := {
  BN_bin2bn : list Z -> Z;
  BN_bn2bin : Z -> list Z;
  BN_num_bytes : Z -> Z;
  BN_add : Z -> Z -> Z;
  BN_sub : Z -> Z -> Z;
  BN_mul : Z -> Z -> Z;
  BN_div : Z -> Z -> Z;
  BN_mod : Z -> Z -> Z;
  BN_exp : Z -> Z -> Z;
  BN_mod_exp : Z -> Z -> Z -> Z;
  BN_hex2bn : Z -> list Z -> Z;
  BN_bn2hex : Z -> list Z;
  BN_bn2dec : Z -> list Z;
  (** [SHA1_Init], [SHA1_Update] on the pieces of the argument, [SHA1_Final]. *)
  SHA1 : list Z -> list Z
}.

(** The documentation of these functions, for the arguments the code uses. *)
Class OpenSSLLaws `{OpenSSL} : Prop := {
  bin2bn_value : forall bs, bytes_ok bs -> BN_bin2bn bs = be_decode bs;
  num_bytes_zero : BN_num_bytes 0 = 0;
  num_bytes_minimal : forall n, 0 < n ->
    0 < BN_num_bytes n /\ 256 ^ (BN_num_bytes n - 1) <= n < 256 ^ BN_num_bytes n;
  bn2bin_value : forall n, 0 <= n ->
    bytes_ok (BN_bn2bin n) /\ Z.of_nat (length (BN_bn2bin n)) = BN_num_bytes n /\
    be_decode (BN_bn2bin n) = n;
  add_value : forall a b, BN_add a b = a + b;
  mul_value : forall a b, BN_mul a b = a * b;
  mod_value : forall a m, 0 <= a -> 0 < m -> BN_mod a m = a mod m;
  hex2bn_value : forall n bs, bytes_ok bs -> bs <> [] -> BN_hex2bn n (hex_text bs) = be_decode bs;
  mod_exp_value : forall a p m, 0 <= a -> 0 <= p -> 0 < m -> BN_mod_exp a p m = a ^ p mod m;
  sha1_bytes : forall bs, bytes_ok (SHA1 bs) /\ length (SHA1 bs) = 20%nat
}.

(** ** [BigNumber] *)

Section bignumber.
Context `{OpenSSL}.

Definition SetDword (val : Z) : Z := u32 val.
(** On a number [bn], as the code has it. *)
Definition SetQword (bn val : Z) : Z :=
  BN_add (Z.shiftl (BN_add bn (u32 (Z.shiftr val 32))) 32) (u32 (Z.land val 0xFFFFFFFF)).
(** The bytes are little-endian. *)
Definition SetBinary (bytes : list Z) : Z := BN_bin2bn (rev bytes).
Definition SetHexStr (bn : Z) (str : list Z) : Z := BN_hex2bn bn str.
Definition bn_add_assign (a b : Z) : Z := BN_add a b.
Definition bn_sub_assign (a b : Z) : Z := BN_sub a b.
Definition bn_mul_assign (a b : Z) : Z := BN_mul a b.
Definition bn_div_assign (a b : Z) : Z := BN_div a b.
Definition bn_mod_assign (a b : Z) : Z := BN_mod a b.
Definition Exp (a b : Z) : Z := BN_exp a b.
Definition ModExp (a bn1 bn2 : Z) : Z := BN_mod_exp a bn1 bn2.
Definition GetNumBytes (a : Z) : Z := BN_num_bytes a.
Definition AsDword (a : Z) : Z := u32 a.
Definition isZero (a : Z) : bool := a =? 0.
Definition AsHexStr (a : Z) : list Z := BN_bn2hex a.
Definition AsDecStr (a : Z) : list Z := BN_bn2dec a.

(** [BN_bn2bin] writes at the start of the zeroed array, then the whole array is
    reversed. *)
Definition AsByteArray (a minSize : Z) (reverse : bool) : list Z :=
  let length_ := if GetNumBytes a <=? minSize then minSize else GetNumBytes a in
  let array := BN_bn2bin a ++ replicate (Z.to_nat length_ - length (BN_bn2bin a)) 0 in
  if reverse then rev array else array.

(** ** [SHA1Hash]: the data given so far *)

Definition UpdateData (mC dta : list Z) : list Z := mC ++ dta.
Definition UpdateBigNumbers (mC : list Z) (bns : list Z) : list Z :=
  foldl (fun c bn => UpdateData c (AsByteArray bn 0 true)) mC bns.
Definition Finalize (mC : list Z) : list Z := SHA1 mC.
End bignumber.

(** ** Laws *)

Lemma le_decode_app xs ys : le_decode (xs ++ ys) = le_decode xs + 256 ^ Z.of_nat (length xs) * le_decode ys.
Proof.
  induction xs as [|x xs IH]; [simpl; lia|]. cbn [app le_decode length]. rewrite IH.
  rewrite Nat2Z.inj_succ, Z.pow_succ_r by lia. lia.
Qed.

Lemma le_decode_zeros l : Forall (fun b => b = 0) l -> le_decode l = 0.
Proof. induction 1 as [|x l -> _ IH]; [reflexivity|]. cbn [le_decode]. lia. Qed.

Lemma bytes_ok_rev bs : bytes_ok bs -> bytes_ok (rev bs).
Proof. apply List.Forall_rev. Qed.

Section laws.
Context `{OpenSSLLaws}.

Lemma num_bytes_nonneg n : 0 <= n -> 0 <= BN_num_bytes n.
Proof.
  intros Hn. destruct (Z.eq_dec n 0) as [->|]; [rewrite num_bytes_zero; lia|].
  destruct (num_bytes_minimal n); lia.
Qed.

Lemma num_bytes_unique n k : 0 < k -> 256 ^ (k - 1) <= n < 256 ^ k -> BN_num_bytes n = k.
Proof.
  intros Hk Hn. assert (Hpos : 0 < n) by (pose proof (Z.pow_pos_nonneg 256 (k - 1)); lia).
  destruct (num_bytes_minimal n Hpos) as [Hm Hb]. 
  destruct (Z.lt_trichotomy (BN_num_bytes n) k) as [Hlt|[Heq|Hgt]]; [|exact Heq|].
  - pose proof (Z.pow_le_mono_r 256 (BN_num_bytes n) (k - 1)). lia.
  - pose proof (Z.pow_le_mono_r 256 k (BN_num_bytes n - 1)). lia.
Qed.

Lemma SetBinary_value bs : bytes_ok bs -> SetBinary bs = le_decode bs.
Proof.
  intros Hb. unfold SetBinary. rewrite bin2bn_value by (by apply bytes_ok_rev).
  unfold be_decode. by rewrite rev_involutive.
Qed.

Lemma length_AsByteArray a m r : 0 <= a -> 0 <= m ->
  Z.of_nat (length (AsByteArray a m r)) = Z.max m (BN_num_bytes a).
Proof.
  intros Ha Hm. destruct (bn2bin_value a Ha) as (_ & Hl & _). pose proof (num_bytes_nonneg a Ha).
  unfold AsByteArray, GetNumBytes.
  destruct r; rewrite ?length_rev, length_app, length_replicate;
    destruct (Z.leb_spec (BN_num_bytes a) m); lia.
Qed.

Lemma AsByteArray_bytes a m r : 0 <= a -> bytes_ok (AsByteArray a m r).
Proof.
  intros Ha. destruct (bn2bin_value a Ha) as (Hb & _ & _). unfold AsByteArray.
  assert (Hp : forall n, bytes_ok (BN_bn2bin a ++ replicate n 0)).
  { intros n. apply Forall_app. split; [exact Hb|]. apply Forall_replicate. unfold is_byte. lia. }
  destruct r; [apply bytes_ok_rev|]; apply Hp.
Qed.

Lemma AsByteArray_short a m : 0 <= a -> m <= BN_num_bytes a -> AsByteArray a m true = rev (BN_bn2bin a).
Proof.
  intros Ha Hm. destruct (bn2bin_value a Ha) as (_ & Hl & _). unfold AsByteArray, GetNumBytes.
  set (len := if BN_num_bytes a <=? m then m else BN_num_bytes a).
  replace (Z.to_nat len - length (BN_bn2bin a))%nat with 0%nat
    by (unfold len; destruct (Z.leb_spec (BN_num_bytes a) m); lia).
  simpl. by rewrite app_nil_r.
Qed.

(** The little-endian bytes [AsByteArray] returns stand for the number only
    when the requested size does not exceed its own: when the array is padded,
    the number is shifted up by the missing bytes, so a 32-byte field that holds
    a shorter value (one public key or session secret in 256) is wrong.  Without
    padding, [SetBinary] reads the bytes back as the same number. *)
Lemma as_byte_array_value (a minSize : Z) :
  0 <= a -> 0 <= minSize ->
  let bs := AsByteArray a minSize true in
  Z.of_nat (length bs) = Z.max minSize (BN_num_bytes a) /\
  SetBinary bs = a * 256 ^ Z.max 0 (minSize - BN_num_bytes a) /\
  (SetBinary bs = a <-> minSize <= BN_num_bytes a \/ a = 0).
Proof.
  intros Ha Hm bs. pose proof (num_bytes_nonneg a Ha) as Hnn.
  destruct (bn2bin_value a Ha) as (Hb & Hl & Hv).
  assert (Hval : SetBinary bs = a * 256 ^ Z.max 0 (minSize - BN_num_bytes a)).
  { unfold bs. rewrite SetBinary_value by (by apply AsByteArray_bytes). unfold AsByteArray, GetNumBytes.
    rewrite rev_app_distr, le_decode_app, length_rev, length_replicate.
    rewrite le_decode_zeros by (apply List.Forall_rev, Forall_replicate; reflexivity). change (le_decode (rev (BN_bn2bin a))) with (be_decode (BN_bn2bin a)).
    rewrite Hv, Z.add_0_l, Z.mul_comm. f_equal. f_equal.
    destruct (Z.leb_spec (BN_num_bytes a) minSize); lia. }
  split; [by apply length_AsByteArray|]. split; [exact Hval|]. rewrite Hval.
  destruct (Z.le_gt_cases minSize (BN_num_bytes a)) as [Hle|Hgt].
  - rewrite Z.max_l, Z.pow_0_r by lia. split; [auto | lia].
  - rewrite Z.max_r by lia. split; [|intros [?|E]; [lia | rewrite E; lia]]. intros E. right.
    assert (256 <= 256 ^ (minSize - BN_num_bytes a)).
    { change 256 with (256 ^ 1) at 1. apply Z.pow_le_mono_r; lia. }
    nia.
Qed.
End laws.

(** ** A concrete library

    The arithmetic functions as they are documented, and a 20-byte checksum in
    the place of the hash, whose last byte comes from the length; it is a small number
    for the messages of 52 and 64 bytes, which SRP6 uses as exponents. *)

Definition num_bytes (n : Z) : Z := if n <=? 0 then 0 else Z.log2 n / 8 + 1.
Definition be_encode (n : Z) : list Z := rev (le_encode (Z.to_nat (num_bytes n)) n).
Definition checksum (bs : list Z) : list Z :=
  le_encode 20 (foldl (fun acc b => (acc * 31 + b + 7) mod 65521) 1 bs +
                let n := Z.of_nat (length bs) in
                if (n =? 52) || (n =? 64) then 0 else (1 + n mod 100) * 2 ^ 152).
Definition hex_value (c : Z) : Z :=
  if c <? 58 then c - 48 else if c <? 71 then c - 55 else c - 87.

Definition toy_ssl : OpenSSL := {|
  BN_bin2bn := be_decode;
  BN_bn2bin := be_encode;
  BN_num_bytes := num_bytes;
  BN_add := Z.add; BN_sub := Z.sub; BN_mul := Z.mul; BN_div := Z.div; BN_mod := Z.modulo;
  BN_exp := Z.pow;
  BN_mod_exp a p m := Zpow_mod a p m;
  BN_hex2bn _ s := foldl (fun acc c => acc * 16 + hex_value c) 0 s;
  BN_bn2hex n := be_encode n;
  BN_bn2dec n := be_encode n;
  SHA1 := checksum
|}.

Lemma num_bytes_bounds n : 0 < n -> 0 < num_bytes n /\ 256 ^ (num_bytes n - 1) <= n < 256 ^ num_bytes n.
Proof.
  intros Hn. unfold num_bytes. rewrite (proj2 (Z.leb_gt n 0)) by lia.
  pose proof (Z.log2_nonneg n) as Hl0. pose proof (Z.log2_spec n Hn) as [Hlo Hhi].
  set (q := Z.log2 n / 8). assert (Hq : 0 <= q) by (apply Z.div_pos; lia).
  assert (Hd : 8 * q <= Z.log2 n < 8 * q + 8).
  { unfold q. Z.to_euclidean_division_equations. lia. }
  split; [lia|]. change 256 with (2 ^ 8). rewrite <- !Z.pow_mul_r by lia.
  replace (8 * (q + 1 - 1)) with (8 * q) by lia. split.
  - etransitivity; [|exact Hlo]. apply Z.pow_le_mono_r; lia.
  - eapply Z.lt_le_trans; [exact Hhi|]. apply Z.pow_le_mono_r; lia.
Qed.

Lemma be_encode_value n : 0 <= n ->
  bytes_ok (be_encode n) /\ Z.of_nat (length (be_encode n)) = num_bytes n /\ be_decode (be_encode n) = n.
Proof.
  intros Hn. unfold be_encode, be_decode. rewrite rev_involutive, length_rev, length_le_encode, le_decode_encode.
  assert (Hnum : 0 <= num_bytes n /\ n < 256 ^ num_bytes n).
  { destruct (Z.eq_dec n 0) as [->|]; [split; vm_compute; congruence|].
    pose proof (num_bytes_bounds n). lia. }
  split; [apply bytes_ok_rev, le_encode_ok|]. split; [lia|].
  rewrite Z2Nat.id by lia. rewrite Z.pow_mul_r by lia. change (2 ^ 8) with 256.
  apply Z.mod_small. lia.
Qed.

Lemma hex_value_digit d : 0 <= d < 16 -> hex_value (hex_digit d) = d.
Proof.
  intros Hd. unfold hex_digit, hex_value. destruct (Z.ltb_spec d 10).
  - rewrite (proj2 (Z.ltb_lt _ 58)) by lia. lia.
  - rewrite (proj2 (Z.ltb_ge _ 58)), (proj2 (Z.ltb_lt _ 71)) by lia. lia.
Qed.

Lemma toy_hex2bn bs acc : bytes_ok bs ->
  foldl (fun acc c => acc * 16 + hex_value c) acc (hex_text bs) = acc * 256 ^ Z.of_nat (length bs) + be_decode bs.
Proof.
  intros Hb. revert acc. induction Hb as [|b bs Hb _ IH]; intros acc; [cbn; lia|].
  unfold is_byte in Hb. change (hex_text (b :: bs)) with (hex_digit (b / 16) :: hex_digit (b mod 16) :: hex_text bs).
  cbn [foldl]. rewrite IH, !hex_value_digit by (Z.to_euclidean_division_equations; lia).
  unfold be_decode. cbn [rev]. rewrite le_decode_app, length_rev. cbn [le_decode length].
  rewrite Nat2Z.inj_succ, Z.pow_succ_r by lia. pose proof (Z.div_mod b 16). nia.
Qed.

Lemma toy_ssl_laws : OpenSSLLaws (H := toy_ssl).
Proof.
  split; try reflexivity.
  - apply num_bytes_bounds.
  - apply be_encode_value.
  - intros n bs Hb _. change (BN_hex2bn n (hex_text bs)) with (foldl (fun acc c => acc * 16 + hex_value c) 0 (hex_text bs)).
    rewrite toy_hex2bn by exact Hb. lia.
  - intros a p m _ _ Hm. apply Zpow_mod_correct. lia.
  - intros bs. change (SHA1 bs) with (checksum bs). unfold checksum.
    split; [apply le_encode_ok | apply length_le_encode].
Qed.

Lemma as_byte_array_value_witness :
  AsByteArray (H := toy_ssl) 258 4 true = [0; 0; 2; 1] /\
  SetBinary (H := toy_ssl) (AsByteArray (H := toy_ssl) 258 4 true) = 258 * 65536.
Proof.
  split; [vm_compute; reflexivity|].
  apply (as_byte_array_value (H := toy_ssl) (H0 := toy_ssl_laws) 258 4); lia.
Defined.
