(* ===== verification/AuthSocket.v ===== *)
(** * The login server

    [AuthSocket] (src/src/server/authserver/Server/AuthSocket.cpp) with the
    receive buffer of [RealmSocket], the accepted builds of AuthCodes.cpp and the
    realm list of RealmList.cpp.

    A connection is a state machine driven by the bytes in its receive buffer;
    what it sends and what it writes to the database are logged.  The answers of
    the database, the configuration, the clock and the random numbers of one
    command are an [AuthEnv]. *)
From Stdlib Require Import Zpow_facts.
From S2P Require Import Prelude Text ByteBuffer Crypto.

(** ** Codes *)

Definition AUTH_LOGON_CHALLENGE : Z := 0x00.
Definition AUTH_LOGON_PROOF : Z := 0x01.
Definition AUTH_RECONNECT_CHALLENGE : Z := 0x02.
Definition AUTH_RECONNECT_PROOF : Z := 0x03.
Definition REALM_LIST : Z := 0x10.
Definition XFER_ACCEPT : Z := 0x32.
Definition XFER_RESUME : Z := 0x33.
Definition XFER_CANCEL : Z := 0x34.

Definition WOW_SUCCESS : Z := 0x00.
Definition WOW_FAIL_BANNED : Z := 0x03.
Definition WOW_FAIL_UNKNOWN_ACCOUNT : Z := 0x04.
Definition WOW_FAIL_SUSPENDED : Z := 0x0C.

Definition POST_WOTLK_EXP_FLAG : Z := 0x4.
Definition POST_BC_EXP_FLAG : Z := 0x2.
Definition PRE_BC_EXP_FLAG : Z := 0x1.
Definition NO_VALID_EXP_FLAG : Z := 0x0.

Definition SEC_ADMINISTRATOR : Z := 3.

Definition POST_WOTLK_ACCEPTED_CLIENT_BUILD : list Z := [13623; 13596; 13329; 0].
Definition POST_BC_ACCEPTED_CLIENT_BUILD : list Z :=
  [13205; 13164; 12340; 11723; 11403; 11159; 10571; 10505; 10146; 9947; 8606; 0].
Definition PRE_BC_ACCEPTED_CLIENT_BUILD : list Z := [5875; 6005; 0].

(** The loop over a zero-terminated table. *)
Fixpoint accepted_in (accepted_versions : list Z) (build : Z) : bool :=
  match accepted_versions with
  | [] => false
  | v :: rest => if v =? 0 then false else if build =? v then true else accepted_in rest build
  end.
Definition IsPreBCAcceptedClientBuild : Z -> bool := accepted_in PRE_BC_ACCEPTED_CLIENT_BUILD.
Definition IsPostBCAcceptedClientBuild : Z -> bool := accepted_in POST_BC_ACCEPTED_CLIENT_BUILD.
Definition IsPostWotLKAcceptedClientBuild : Z -> bool := accepted_in POST_WOTLK_ACCEPTED_CLIENT_BUILD.
Definition IsAcceptedClientBuild (build : Z) : bool :=
  IsPostWotLKAcceptedClientBuild build || IsPostBCAcceptedClientBuild build ||
  IsPreBCAcceptedClientBuild build.

(** ** Locales *)

Definition localeNames : list (list Z) :=
  [text "enUS"; text "koKR"; text "frFR"; text "deDE"; text "zhCN"; text "zhTW"; text "esES";
   text "esMX"; text "ruRU"].
Fixpoint locale_index (i : Z) (names : list (list Z)) (name : list Z) : Z :=
  match names with
  | [] => 0
  | n :: rest => if bool_decide (name = n) then i else locale_index (i + 1) rest name
  end.
Definition GetLocaleByName (name : list Z) : Z := locale_index 0 localeNames name.

(** ** Realms *)

Record Realm := mkRealm {
  realm_address : list Z;
  realm_icon : Z;
  realm_color : Z;
  realm_timezone : Z;
  m_ID : Z;
  allowedSecurityLevel : Z;
  populationLevel : Z;      (** the bits of the [float] *)
  gamebuild : Z
}.

(** A row of the [realmlist] table. *)
Record RealmRow := mkRealmRow {
  rr_id : Z; rr_name : list Z; rr_address : list Z; rr_port : Z; rr_icon : Z; rr_color : Z;
  rr_timezone : Z; rr_security : Z; rr_population : Z; rr_build : Z
}.

Record RealmList := mkRealmList {
  m_realms : gmap (list Z) Realm;
  m_UpdateInterval : Z;
  m_NextUpdateTime : Z
}.

Definition clamp_security (lvl : Z) : Z := if lvl <=? SEC_ADMINISTRATOR then lvl else SEC_ADMINISTRATOR.

Definition UpdateRealm (rl : RealmList) (ID : Z) (name address : list Z)
    (port icon color timezone security popu build : Z) : RealmList :=
  mkRealmList
    (<[name := mkRealm (address ++ text ":" ++ dec_string port) icon color timezone ID security popu build]>
       (m_realms rl))
    (m_UpdateInterval rl) (m_NextUpdateTime rl).

Definition UpdateRealms (rows : list RealmRow) (rl : RealmList) : RealmList :=
  foldl (fun rl r => UpdateRealm rl (rr_id r) (rr_name r) (rr_address r) (rr_port r) (rr_icon r)
                       (rr_color r) (rr_timezone r) (clamp_security (rr_security r))
                       (rr_population r) (rr_build r)) rl rows.

Definition RealmList_Initialize (rows : list RealmRow) (updateInterval now : Z) : RealmList :=
  UpdateRealms rows (mkRealmList ∅ updateInterval now).

Definition UpdateIfNeed (rows : list RealmRow) (now : Z) (rl : RealmList) : RealmList :=
  if (m_UpdateInterval rl =? 0) || (now <? m_NextUpdateTime rl) then rl
  else UpdateRealms rows (mkRealmList ∅ (m_UpdateInterval rl) (now + m_UpdateInterval rl)).

(** [std::map<std::string, Realm>] iterates in the order of [std::string]. *)
Fixpoint str_leb (a b : list Z) : bool :=
  match a, b with
  | [], _ => true
  | _ :: _, [] => false
  | x :: a', y :: b' => (x <? y) || ((x =? y) && str_leb a' b')
  end.
Definition realm_le (a b : list Z * Realm) : Prop := str_leb a.1 b.1 = true.
Instance realm_le_dec a b : Decision (realm_le a b).
Proof. unfold realm_le. apply _. Defined.
Definition realms_in_order (rl : RealmList) : list (list Z * Realm) :=
  merge_sort realm_le (map_to_list (m_realms rl)).

(** ** The environment of a command *)

(** The row of LOGIN_GET_LOGONCHALLENGE. *)
Record AccountRow := mkAccount {
  sha_pass_hash : list Z;
  acc_id : Z;
  acc_locked : Z;
  acc_last_ip : list Z;
  acc_gmlevel : Z;
  acc_v : list Z;
  acc_s : list Z
}.

Record AuthEnv := mkAuthEnv {
  remote_address : list Z;
  ip_banned : list Z -> bool;
  get_account : list Z -> option AccountRow;
  account_banned : Z -> option (Z * Z);
  get_sessionkey : list Z -> option (list Z * Z);
  get_failed_logins : list Z -> option (Z * Z);
  get_account_id : list Z -> option Z;
  num_chars_on_realm : Z -> Z -> option Z;
  realm_rows : list RealmRow;
  now : Z;
  WrongPass_MaxCount : Z;
  WrongPass_BanTime : Z;
  WrongPass_BanType : bool;
  rand_s : Z; rand_b : Z; rand_unk3 : Z; rand_reconnect : Z;
  (** the bytes of the heap after the proof's array, and the file pointer, which
      the constructor does not set *)
  heap_after : list Z;
  pPatch : bool
}.

(** ** State *)

Record AuthSocket := mkAuth {
  input_buffer : list Z;
  srp_s : Z; srp_v : Z; srp_b : Z; srp_B : Z; srp_K : Z;
  _reconnectProof : Z;
  _authed : bool;
  _login : list Z;
  _localizationName : list Z;
  _build : Z;
  _expversion : Z;
  _accountSecurityLevel : Z;
  realmList : RealmList
}.

Definition N : Z := 0x894B645E89E1535BBDAD5B8B290650530801B18EBFBF5E8FAB3C82872A3E9BB7.
Definition g : Z := 7.

(** The constructor; [exp] is what memory held where [_expversion] lies. *)
Definition new_AuthSocket (exp : Z) (rl : RealmList) : AuthSocket :=
  mkAuth [] 0 0 0 0 0 0 false [] [] 0 exp 0 rl.

Definition set_input (f : list Z -> list Z) (a : AuthSocket) : AuthSocket :=
  mkAuth (f (input_buffer a)) (srp_s a) (srp_v a) (srp_b a) (srp_B a) (srp_K a) (_reconnectProof a)
    (_authed a) (_login a) (_localizationName a) (_build a) (_expversion a) (_accountSecurityLevel a)
    (realmList a).
Definition set_srp (s v b B : Z) (a : AuthSocket) : AuthSocket :=
  mkAuth (input_buffer a) s v b B (srp_K a) (_reconnectProof a)
    (_authed a) (_login a) (_localizationName a) (_build a) (_expversion a) (_accountSecurityLevel a)
    (realmList a).
Definition set_K (K : Z) (a : AuthSocket) : AuthSocket :=
  mkAuth (input_buffer a) (srp_s a) (srp_v a) (srp_b a) (srp_B a) K (_reconnectProof a)
    (_authed a) (_login a) (_localizationName a) (_build a) (_expversion a) (_accountSecurityLevel a)
    (realmList a).
Definition set_authed (x : bool) (a : AuthSocket) : AuthSocket :=
  mkAuth (input_buffer a) (srp_s a) (srp_v a) (srp_b a) (srp_B a) (srp_K a) (_reconnectProof a)
    x (_login a) (_localizationName a) (_build a) (_expversion a) (_accountSecurityLevel a)
    (realmList a).
Definition set_client (login : list Z) (build exp : Z) (a : AuthSocket) : AuthSocket :=
  mkAuth (input_buffer a) (srp_s a) (srp_v a) (srp_b a) (srp_B a) (srp_K a) (_reconnectProof a)
    (_authed a) login (_localizationName a) build exp (_accountSecurityLevel a) (realmList a).
Definition set_level (lvl : Z) (a : AuthSocket) : AuthSocket :=
  mkAuth (input_buffer a) (srp_s a) (srp_v a) (srp_b a) (srp_B a) (srp_K a) (_reconnectProof a)
    (_authed a) (_login a) (_localizationName a) (_build a) (_expversion a) lvl (realmList a).
Definition set_locale (loc : list Z) (a : AuthSocket) : AuthSocket :=
  mkAuth (input_buffer a) (srp_s a) (srp_v a) (srp_b a) (srp_B a) (srp_K a) (_reconnectProof a)
    (_authed a) (_login a) loc (_build a) (_expversion a) (_accountSecurityLevel a) (realmList a).
Definition set_reconnect (r : Z) (a : AuthSocket) : AuthSocket :=
  mkAuth (input_buffer a) (srp_s a) (srp_v a) (srp_b a) (srp_B a) (srp_K a) r
    (_authed a) (_login a) (_localizationName a) (_build a) (_expversion a) (_accountSecurityLevel a)
    (realmList a).
Definition set_realms (f : RealmList -> RealmList) (a : AuthSocket) : AuthSocket :=
  mkAuth (input_buffer a) (srp_s a) (srp_v a) (srp_b a) (srp_B a) (srp_K a) (_reconnectProof a)
    (_authed a) (_login a) (_localizationName a) (_build a) (_expversion a) (_accountSecurityLevel a)
    (f (realmList a)).

Inductive auth_event :=
| Send (data : list Z)
| Shutdown
| DbExpireIpBans
| DbExpireAccBans
| DbSetVS (v_hex s_hex login : list Z)
| DbSetLogonProof (K_hex address : list Z) (locale : Z) (login : list Z)
| DbSetFailedLogins (login : list Z)
| DbBanAccount (id time : Z)
| DbBanIp (address : list Z) (time : Z)
| StartTransfer (offset : Z).

Abbreviation AM := (M AuthSocket auth_event).

(** ** [RealmSocket]: the receive buffer *)

Definition recv_len : AuthSocket -> Z := fun a => Z.of_nat (length (input_buffer a)).
Definition recv_skip (len : Z) : AM unit := modify (set_input (drop (Z.to_nat len))).
Definition recv_soft (len : Z) (a : AuthSocket) : option (list Z) :=
  if recv_len a <? len then None else Some (take (Z.to_nat len) (input_buffer a)).
Definition recv (len : Z) : AM (option (list Z)) := with_state (fun a =>
  match recv_soft len a with
  | None => ret None
  | Some buf => recv_skip len ;; ret (Some buf)
  end).

(** Bytes [from, from + n) of a packet. *)
Definition bytes_at (from n : nat) (p : list Z) : list Z := take n (drop from p).

(** ** The SRP6 calculations *)

Section srp.
Context `{OpenSSL}.

Definition s_BYTE_SIZE : Z := 32.

(** [_SetVSFields]: the verifier for the salt [s] and the stored hash. *)
Definition srp_digest (rI : list Z) : list Z :=
  let I := SetHexStr 0 rI in
  rev (if GetNumBytes I <=? 20
       then AsByteArray I 0 true ++ replicate (20 - length (AsByteArray I 0 true)) 0
       else replicate 20 0).
Definition srp_x (s : Z) (rI : list Z) : Z :=
  SetBinary (Finalize (UpdateData (UpdateData [] (AsByteArray s 0 true)) (srp_digest rI))).
Definition srp_verifier (s : Z) (rI : list Z) : Z := ModExp g (srp_x s rI) N.

Definition srp_public (v b : Z) : Z := bn_mod_assign (bn_add_assign (bn_mul_assign v 3) (ModExp g b N)) N.

Definition srp_u (A B : Z) : Z := SetBinary (Finalize (UpdateBigNumbers [] [A; B])).
Definition srp_S (v b A B : Z) : Z := ModExp (bn_mul_assign A (ModExp v (srp_u A B) N)) b N.

(** Every second byte of [t], from [i]. *)
Definition every_other (i : nat) (t : list Z) : list Z :=
  (fun k => nth (2 * k + i) t 0) <$> seq 0 16.
Fixpoint interleave (xs ys : list Z) : list Z :=
  match xs, ys with
  | x :: xs', y :: ys' => x :: y :: interleave xs' ys'
  | _, _ => []
  end.
Definition srp_key (S : Z) : Z :=
  let t := take 32 (AsByteArray S 32 true) in
  SetBinary (interleave (take 20 (Finalize (UpdateData [] (every_other 0 t))))
                        (take 20 (Finalize (UpdateData [] (every_other 1 t))))).

Definition xor_bytes (xs ys : list Z) : list Z := zip_with Z.lxor xs ys.
Definition srp_Ng : Z :=
  SetBinary (xor_bytes (Finalize (UpdateBigNumbers [] [N])) (Finalize (UpdateBigNumbers [] [g]))).

Definition srp_M (login : list Z) (s A B K : Z) : Z :=
  let t4 := Finalize (UpdateData [] login) in
  SetBinary (Finalize (UpdateBigNumbers (UpdateData (UpdateBigNumbers [] [srp_Ng]) t4) [s; A; B; K])).
Definition srp_M2 (A M K : Z) : list Z := Finalize (UpdateBigNumbers [] [A; M; K]).
End srp.

(** ** Command handlers *)

Section handlers.
Context `{OpenSSL} (e : AuthEnv).

(** The fixed part of [sAuthLogonChallenge_C] and of the other packets. *)
Definition sizeof_challenge : Z := 35.
Definition sizeof_proof : Z := 75.
Definition sizeof_reconnect_proof : Z := 58.

(** The reading of a logon or reconnect challenge: the header, then the body; the
    packet with its terminating zero. *)
Definition read_challenge : AM (option (list Z)) := with_state (fun a =>
  if recv_len a <? sizeof_challenge then ret None
  else
    let! hdr := recv 4 in
    match hdr with
    | None => ret None
    | Some buf =>
        let remaining := le_decode (bytes_at 2 2 buf) in
        with_state (fun a =>
          if (remaining <? sizeof_challenge - 4) || (recv_len a <? remaining) then ret None
          else
            let! body := recv remaining in
            match body with
            | None => ret None
            | Some b => ret (Some (buf ++ b ++ [0]))
            end)
    end).

Definition ch_build (ch : list Z) : Z := le_decode (bytes_at 11 2 ch).
Definition ch_country (ch : list Z) : list Z := bytes_at 21 4 ch.
Definition ch_login (ch : list Z) : list Z := c_str (drop 34 ch).

Definition logon_expversion (build : Z) : Z :=
  Z.lor (Z.lor (if IsPostWotLKAcceptedClientBuild build then POST_WOTLK_EXP_FLAG else NO_VALID_EXP_FLAG)
               (if IsPostBCAcceptedClientBuild build then POST_BC_EXP_FLAG else NO_VALID_EXP_FLAG))
        (if IsPreBCAcceptedClientBuild build then PRE_BC_EXP_FLAG else NO_VALID_EXP_FLAG).
Definition reconnect_expversion (build : Z) : Z :=
  Z.lor (if IsPostBCAcceptedClientBuild build then POST_BC_EXP_FLAG else NO_VALID_EXP_FLAG)
        (if IsPreBCAcceptedClientBuild build then PRE_BC_EXP_FLAG else NO_VALID_EXP_FLAG).

(** [_SetVSFields]. *)
Definition _SetVSFields (rI : list Z) : AM unit := with_state (fun a =>
  let s := rand_s e in
  let v := srp_verifier s rI in
  modify (set_srp s v (srp_b a) (srp_B a)) ;;
  emit (DbSetVS (AsHexStr v) (AsHexStr s) (_login a))).

(** The branch of [_HandleLogonChallenge] for an account that may log in; the
    response it appends. *)
Definition challenge_success (ch : list Z) (acc : AccountRow) : AM (list Z) :=
  (if negb (Z.of_nat (length (acc_v acc)) =? s_BYTE_SIZE * 2) ||
      negb (Z.of_nat (length (acc_s acc)) =? s_BYTE_SIZE * 2)
   then _SetVSFields (sha_pass_hash acc)
   else modify (fun a => set_srp (SetHexStr (srp_s a) (c_str (acc_s acc)))
                                 (SetHexStr (srp_v a) (c_str (acc_v acc))) (srp_b a) (srp_B a) a)) ;;
  modify (fun a => set_srp (srp_s a) (srp_v a) (rand_b e) (srp_public (srp_v a) (rand_b e)) a) ;;
  modify (set_level (clamp_security (acc_gmlevel acc))) ;;
  modify (set_locale (rev (ch_country ch))) ;;
  with_state (fun a =>
    ret ([WOW_SUCCESS] ++ take 32 (AsByteArray (srp_B a) 32 true) ++ [1] ++
         take 1 (AsByteArray g 0 true) ++ [32] ++ take 32 (AsByteArray N 32 true) ++
         AsByteArray (srp_s a) 0 true ++ take 16 (AsByteArray (rand_unk3 e) 16 true) ++ [0])).

Definition _HandleLogonChallenge : AM bool :=
  let! packet := read_challenge in
  match packet with
  | None => ret false
  | Some ch =>
      let login := ch_login ch in
      let build := ch_build ch in
      modify (set_client login build (logon_expversion build)) ;;
      emit DbExpireIpBans ;;
      let! answer :=
        if ip_banned e (remote_address e) then ret [WOW_FAIL_BANNED]
        else
          match get_account e login with
          | None => ret [WOW_FAIL_UNKNOWN_ACCOUNT]
          | Some acc =>
              if (acc_locked acc =? 1) &&
                 negb (bool_decide (c_str (acc_last_ip acc) = c_str (remote_address e)))
              then ret [WOW_FAIL_SUSPENDED]
              else
                emit DbExpireAccBans ;;
                match account_banned e (acc_id acc) with
                | Some (bandate, unbandate) =>
                    ret [if bandate =? unbandate then WOW_FAIL_BANNED else WOW_FAIL_SUSPENDED]
                | None => challenge_success ch acc
                end
          end in
      emit (Send ([AUTH_LOGON_CHALLENGE; 0x00] ++ answer)) ;;
      ret true
  end.

(** The failed-login bookkeeping at the end of [_HandleLogonProof]. *)
Definition wrong_password (login : list Z) : AM unit :=
  emit (Send [AUTH_LOGON_PROOF; WOW_FAIL_UNKNOWN_ACCOUNT; 3; 0]) ;;
  when (0 <? WrongPass_MaxCount e) (
    emit (DbSetFailedLogins login) ;;
    match get_failed_logins e login with
    | None => ret tt
    | Some (id, failed_logins) =>
        when (WrongPass_MaxCount e <=? failed_logins)
          (if WrongPass_BanType e then emit (DbBanAccount id (WrongPass_BanTime e))
           else emit (DbBanIp (remote_address e) (WrongPass_BanTime e)))
    end).

Definition modern (exp : Z) : bool := has_flag exp POST_BC_EXP_FLAG || has_flag exp POST_WOTLK_EXP_FLAG.

(** [memcmp(M.AsByteArray(), lp.M1, 20)]: a digest with a leading zero byte gives
    a shorter array, and the comparison reads on in the heap. *)
Definition proof_matches (M : Z) (M1 : list Z) : bool :=
  bool_decide (take 20 (AsByteArray M 0 true ++ heap_after e) = M1).

Definition _HandleLogonProof : AM bool :=
  let! lp := recv sizeof_proof in
  match lp with
  | None => ret false
  | Some lp => with_state (fun a =>
      if _expversion a =? NO_VALID_EXP_FLAG then emit Shutdown ;; ret true
      else
        let A := SetBinary (bytes_at 1 32 lp) in
        let M1 := bytes_at 33 20 lp in
        if isZero A then emit Shutdown ;; ret true
        else
          let K := srp_key (srp_S (srp_v a) (srp_b a) A (srp_B a)) in
          let M := srp_M (_login a) (srp_s a) A (srp_B a) K in
          modify (set_K K) ;;
          (if proof_matches M M1 then
             emit (DbSetLogonProof (AsHexStr K) (c_str (remote_address e))
                     (GetLocaleByName (_localizationName a)) (_login a)) ;;
             emit (Send ([AUTH_LOGON_PROOF; 0] ++ srp_M2 A M K ++
                         if modern (_expversion a)
                         then ser [FU 4 0x00800000; FU 4 0x00; FU 2 0x00] else ser [FU 4 0x00])) ;;
             modify (set_authed true)
           else wrong_password (_login a)) ;;
          ret true)
  end.

Definition _HandleReconnectChallenge : AM bool :=
  let! packet := read_challenge in
  match packet with
  | None => ret false
  | Some ch =>
      let login := ch_login ch in
      modify (fun a => set_client login (_build a) (_expversion a) a) ;;
      match get_sessionkey e login with
      | None => emit Shutdown ;; ret false
      | Some (sessionkey, gmlevel) =>
          let build := ch_build ch in
          modify (set_client login build (reconnect_expversion build)) ;;
          modify (set_level (clamp_security gmlevel)) ;;
          modify (fun a => set_K (SetHexStr (srp_K a) (c_str sessionkey)) a) ;;
          modify (set_reconnect (rand_reconnect e)) ;;
          emit (Send ([AUTH_RECONNECT_CHALLENGE; 0x00] ++
                      take 16 (AsByteArray (rand_reconnect e) 16 true) ++ replicate 16 0)) ;;
          ret true
      end
  end.

(** What the client has to send in [R2]. *)
Definition reconnect_digest (login R1 : list Z) (reconnectProof K : Z) : list Z :=
  Finalize (UpdateBigNumbers (UpdateData [] login) [SetBinary R1; reconnectProof; K]).

Definition _HandleReconnectProof : AM bool :=
  let! lp := recv sizeof_reconnect_proof in
  match lp with
  | None => ret false
  | Some lp => with_state (fun a =>
      if bool_decide (_login a = []) || (GetNumBytes (_reconnectProof a) =? 0) ||
         (GetNumBytes (srp_K a) =? 0) then ret false
      else if bool_decide (reconnect_digest (_login a) (bytes_at 1 16 lp) (_reconnectProof a) (srp_K a) =
                           bytes_at 17 20 lp) then
        emit (Send [AUTH_RECONNECT_PROOF; 0x00; 0x00; 0x00]) ;;
        modify (set_authed true) ;;
        ret true
      else emit Shutdown ;; ret false)
  end.

(** The realms a client of this version may see. *)
Definition realm_compatible (exp build : Z) (r : Realm) : bool :=
  if modern exp then gamebuild r =? build
  else if has_flag exp PRE_BC_EXP_FLAG then IsPreBCAcceptedClientBuild (gamebuild r)
  else true.

Definition realm_entry (a : AuthSocket) (id : Z) (name : list Z) (r : Realm) : list Z :=
  let AmountOfCharacters := match num_chars_on_realm e (m_ID r) id with Some n => u8 n | None => 0 end in
  let lock := if _accountSecurityLevel a <? allowedSecurityLevel r then 1 else 0 in
  ser ([FU 1 (realm_icon r)] ++ (if modern (_expversion a) then [FU 1 lock] else []) ++
       [FU 1 (realm_color r); FStr name; FStr (realm_address r); FU 4 (populationLevel r);
        FU 1 AmountOfCharacters; FU 1 (realm_timezone r);
        FU 1 (if modern (_expversion a) then 0x2C else 0x0)]).

Definition listed_realms (a : AuthSocket) : list (list Z * Realm) :=
  filter (fun nr => realm_compatible (_expversion a) (_build a) nr.2) (realms_in_order (realmList a)).

Definition realm_list_packet (a : AuthSocket) (id : Z) : list Z :=
  let listed := listed_realms a in
  let pkt := concat ((fun nr => realm_entry a id nr.1 nr.2) <$> listed) ++
             (if modern (_expversion a) then [0x10; 0x00] else [0x00; 0x02]) in
  let count := Z.of_nat (length listed) in
  let sizes := ser (FU 4 0 :: if modern (_expversion a) then [FU 2 (u16 count)] else [FU 4 (u32 count)]) in
  ser [FU 1 REALM_LIST; FU 2 (u16 (Z.of_nat (length pkt) + Z.of_nat (length sizes)))] ++ sizes ++ pkt.

Definition _HandleRealmList : AM bool := with_state (fun a =>
  if recv_len a <? 5 then ret false
  else
    recv_skip 5 ;;
    match get_account_id e (_login a) with
    | None => emit Shutdown ;; ret false
    | Some id =>
        modify (set_realms (UpdateIfNeed (realm_rows e) (now e))) ;;
        with_state (fun a => emit (Send (realm_list_packet a id))) ;;
        ret true
    end).

(** The patch handlers; nothing ever opens the file behind [pPatch]. *)
Definition _HandleXferResume : AM bool := with_state (fun a =>
  if (recv_len a <? 9) || negb (pPatch e) then ret false
  else
    recv_skip 1 ;;
    let! start := recv 8 in
    emit (StartTransfer (le_decode (default [] start))) ;;
    ret true).

Definition _HandleXferCancel : AM bool := recv_skip 1 ;; emit Shutdown ;; ret true.

Definition _HandleXferAccept : AM bool :=
  if negb (pPatch e) then ret false else recv_skip 1 ;; emit (StartTransfer 0) ;; ret true.

(** ** [OnRead] *)

(** The command table: the command, whether it needs [STATUS_AUTHED], the handler. *)
Definition table : list (Z * bool * AM bool) :=
  [(AUTH_LOGON_CHALLENGE, false, _HandleLogonChallenge);
   (AUTH_LOGON_PROOF, false, _HandleLogonProof);
   (AUTH_RECONNECT_CHALLENGE, false, _HandleReconnectChallenge);
   (AUTH_RECONNECT_PROOF, false, _HandleReconnectProof);
   (REALM_LIST, true, _HandleRealmList);
   (XFER_ACCEPT, false, _HandleXferAccept);
   (XFER_RESUME, false, _HandleXferResume);
   (XFER_CANCEL, false, _HandleXferCancel)].

Fixpoint find_handler (cmd : Z) (authed : bool) (t : list (Z * bool * AM bool)) : option (AM bool) :=
  match t with
  | [] => None
  | (c, needs, h) :: rest =>
      if (c =? cmd) && (negb needs || authed) then Some h else find_handler cmd authed rest
  end.

(** One turn of the loop: [true] when it goes on. *)
Definition OnRead_step : AM bool := with_state (fun a =>
  match recv_soft 1 a with
  | None => ret false
  | Some c =>
      match find_handler (default 0 (head c)) (_authed a) table with
      | Some h => h
      | None => emit Shutdown ;; ret false
      end
  end).
End handlers.

(** The loop; the environment may answer differently to every command.  The
    result tells whether the loop ended before the fuel did. *)
Fixpoint OnRead_loop `{OpenSSL} (fuel : nat) (env : nat -> AuthEnv) : AM bool :=
  match fuel with
  | O => ret false
  | S fuel' =>
      let! again := OnRead_step (env fuel) in
      if again then OnRead_loop fuel' env else ret true
  end.

(** Every turn that goes on consumes a byte, so the buffer's length is enough
    fuel: [on_read_terminates]. *)
Definition OnRead `{OpenSSL} (env : nat -> AuthEnv) : AM bool :=
  with_state (fun a => OnRead_loop (S (length (input_buffer a))) env).

(** [RealmSocket::handle_input] when [data] waits in the socket: what fits in the
    buffer of 4096 bytes is read; nothing read closes the connection. *)
Definition input_buffer_size : nat := 4096.
Definition handle_input `{OpenSSL} (data : list Z) (env : nat -> AuthEnv) : AM bool := with_state (fun a =>
  let got := take (input_buffer_size - length (input_buffer a)) data in
  if bool_decide (got = []) then emit Shutdown ;; ret true
  else modify (set_input (fun buf => buf ++ got)) ;; OnRead env).

(** ** Reading from the buffer *)

Lemma recv_short len a : recv_len a < len -> recv len a = (None, a, []).
Proof. intros Hl. unfold recv, recv_soft, with_state. by rewrite (proj2 (Z.ltb_lt _ _) Hl). Qed.

Lemma recv_enough len a :
  len <= recv_len a ->
  recv len a = (Some (take (Z.to_nat len) (input_buffer a)),
                set_input (drop (Z.to_nat len)) a, []).
Proof. intros Hl. unfold recv, recv_soft, with_state. by rewrite (proj2 (Z.ltb_ge _ _) Hl). Qed.

Lemma recv_prefix p rest a :
  input_buffer a = p ++ rest ->
  recv (Z.of_nat (length p)) a = (Some p, set_input (fun _ => rest) a, []).
Proof.
  intros E. rewrite recv_enough by (unfold recv_len; rewrite E, length_app; lia).
  rewrite E, Nat2Z.id, take_app_length. unfold set_input. by rewrite E, drop_app_length.
Qed.

(** [eats k m]: a run of [m] never adds input, and takes at least [k] bytes when
    its result satisfies [good]. *)
Definition eats {A} (k : nat) (good : A -> bool) (m : AM A) : Prop :=
  forall a, (k <= length (input_buffer a))%nat ->
    (length (input_buffer (run_state m a)) + (if good (run_value m a) then k else 0) <=
     length (input_buffer a))%nat.

(** [keeps_input m]: the buffer is not touched. *)
Definition keeps_input {A} (m : AM A) : Prop :=
  forall a, input_buffer (run_state m a) = input_buffer a.

Lemma ki_ret {A} (x : A) : keeps_input (ret x).
Proof. intros a. reflexivity. Qed.
Lemma ki_emit x : keeps_input (emit x).
Proof. intros a. reflexivity. Qed.
Lemma ki_bind {A C} (m : AM A) (k : A -> AM C) :
  keeps_input m -> (forall x, keeps_input (k x)) -> keeps_input (bind m k).
Proof. intros Hm Hk a. rewrite run_state_bind, Hk. apply Hm. Qed.
Lemma ki_with_state {A} (k : AuthSocket -> AM A) : (forall s, keeps_input (k s)) -> keeps_input (with_state k).
Proof. intros Hk a. apply Hk. Qed.
Lemma ki_when b m : keeps_input m -> keeps_input (when b m).
Proof. intros Hm. destruct b; [exact Hm | apply ki_ret]. Qed.
Lemma ki_modify f : (forall a, input_buffer (f a) = input_buffer a) -> keeps_input (modify f).
Proof. intros Hf a. apply Hf. Qed.

Create HintDb auth_input.
#[local] Hint Resolve ki_ret ki_emit ki_when : auth_input.
Ltac input_cases := repeat lazymatch goal with
  | |- keeps_input (bind _ _) => apply ki_bind; [|intros ?]
  | |- keeps_input (with_state _) => apply ki_with_state; intros ?
  | |- keeps_input (modify _) => apply ki_modify; reflexivity
  | |- keeps_input (when _ _) => apply ki_when
  | |- keeps_input (if ?b then _ else _) => destruct b
  | |- keeps_input (match ?x with _ => _ end) => destruct x
  | |- _ => solve [auto with auth_input]
  end.

Section termination.
Context `{OpenSSL} (e : AuthEnv).

Lemma ki_challenge_success ch acc : keeps_input (challenge_success e ch acc).
Proof. unfold challenge_success, _SetVSFields. input_cases. Qed.
Lemma ki_wrong_password login : keeps_input (wrong_password e login).
Proof. unfold wrong_password. input_cases. Qed.

(** A handler that starts with a read which, when it succeeds, takes a byte. *)
Lemma eats_bind {A} (m : AM (option A)) (k : option A -> AM bool) :
  (forall a, (length (input_buffer (run_state m a)) <= length (input_buffer a))%nat /\
             (is_Some (run_value m a) ->
              (length (input_buffer (run_state m a)) < length (input_buffer a))%nat)) ->
  keeps_input (k None) -> (forall a, run_value (k None) a = false) -> (forall x, keeps_input (k (Some x))) ->
  eats 1 id (bind m k).
Proof.
  intros Hm Hn Hf Hs a Hlen. rewrite run_state_bind, run_value_bind. destruct (Hm a) as [Hle Hlt].
  destruct (run_value m a) as [x|] eqn:E.
  - rewrite Hs. specialize (Hlt ltac:(eauto)). destruct (id _); lia.
  - rewrite Hn, Hf. simpl. lia.
Qed.

Lemma recv_eats len a : 0 < len ->
  (length (input_buffer (run_state (recv len) a)) <= length (input_buffer a))%nat /\
  (is_Some (run_value (recv len) a) ->
   (length (input_buffer (run_state (recv len) a)) < length (input_buffer a))%nat).
Proof.
  intros Hlen. unfold run_state, run_value. destruct (Z.lt_ge_cases (recv_len a) len) as [Hs|Hs].
  - rewrite (recv_short _ _ Hs). simpl. split; [lia|]. by intros [? ?].
  - rewrite (recv_enough _ _ Hs). unfold recv_len in Hs. simpl. rewrite length_drop. split; lia.
Qed.

Lemma read_challenge_eq a :
  read_challenge a =
    if recv_len a <? sizeof_challenge then (None, a, [])
    else
      let buf := take 4 (input_buffer a) in
      let remaining := le_decode (bytes_at 2 2 buf) in
      let a1 := set_input (drop 4) a in
      if (remaining <? sizeof_challenge - 4) || (recv_len a1 <? remaining) then (None, a1, [])
      else (Some (buf ++ take (Z.to_nat remaining) (input_buffer a1) ++ [0]),
            set_input (drop (Z.to_nat remaining)) a1, []).
Proof.
  unfold read_challenge, with_state. destruct (Z.ltb_spec (recv_len a) sizeof_challenge) as [Hs|Hs]; [reflexivity|].
  unfold sizeof_challenge in *. unfold bind at 1. rewrite recv_enough by lia. cbv zeta.
  change (Z.to_nat 4) with 4%nat.
  destruct (_ || _) eqn:Hc; [reflexivity|]. apply orb_false_iff in Hc as [_ Hc2]. apply Z.ltb_ge in Hc2.
  unfold bind. rewrite recv_enough by exact Hc2. reflexivity.
Qed.

Lemma read_challenge_eats a :
  (length (input_buffer (run_state read_challenge a)) <= length (input_buffer a))%nat /\
  (is_Some (run_value read_challenge a) ->
   (length (input_buffer (run_state read_challenge a)) < length (input_buffer a))%nat).
Proof.
  unfold run_state, run_value. rewrite read_challenge_eq.
  destruct (Z.ltb_spec (recv_len a) sizeof_challenge) as [Hs|Hs]; [simpl; split; [lia|by intros [? ?]]|].
  cbv zeta. set (a1 := set_input (drop 4) a).
  assert (Hl1 : (length (input_buffer a1) < length (input_buffer a))%nat).
  { unfold recv_len, sizeof_challenge in Hs. unfold a1. cbn [input_buffer set_input]. rewrite length_drop. lia. }
  destruct (_ || _); cbn [fst snd].
  - clearbody a1. split; [lia|]. by intros [? ?].
  - cbn [input_buffer set_input] in *. rewrite length_drop. split; [|intros _]; lia.
Qed.

Lemma LogonChallenge_eats : eats 1 id (_HandleLogonChallenge e).
Proof.
  unfold _HandleLogonChallenge. apply eats_bind; [apply read_challenge_eats | input_cases | reflexivity |].
  intros ch. input_cases. apply ki_challenge_success.
Qed.
Lemma LogonProof_eats : eats 1 id (_HandleLogonProof e).
Proof.
  unfold _HandleLogonProof. apply eats_bind; [intros a; by apply recv_eats | input_cases | reflexivity |].
  intros lp. input_cases. apply ki_wrong_password.
Qed.
Lemma ReconnectChallenge_eats : eats 1 id (_HandleReconnectChallenge e).
Proof.
  unfold _HandleReconnectChallenge.
  apply eats_bind; [apply read_challenge_eats | input_cases | reflexivity |]. intros ch. input_cases.
Qed.
Lemma ReconnectProof_eats : eats 1 id (_HandleReconnectProof).
Proof.
  unfold _HandleReconnectProof.
  apply eats_bind; [intros a; by apply recv_eats | input_cases | reflexivity |]. intros lp. input_cases.
Qed.

(** A handler that skips bytes first. *)
Lemma skip_eats n (m : AM bool) a :
  (0 < n <= length (input_buffer a))%nat -> keeps_input m ->
  (length (input_buffer (run_state (recv_skip (Z.of_nat n) ;; m) a)) < length (input_buffer a))%nat.
Proof.
  intros Hn Hm. rewrite run_state_bind, Hm. unfold recv_skip. rewrite rs_modify. simpl.
  rewrite Nat2Z.id, length_drop. lia.
Qed.

Lemma RealmList_eats : eats 1 id (_HandleRealmList e).
Proof.
  intros a Hlen. unfold _HandleRealmList. rewrite rs_with_state, rv_with_state.
  destruct (Z.ltb_spec (recv_len a) 5) as [Hs|Hs].
  - rewrite rs_ret, rv_ret. unfold id. lia.
  - unfold recv_len in Hs. match goal with |- context [run_state (bind (recv_skip 5) (fun _ => ?m)) a] =>
      pose proof (skip_eats 5 m a ltac:(lia) ltac:(input_cases)) as Hk end.
    change (Z.of_nat 5) with 5 in Hk. destruct (id _); lia.
Qed.
Lemma XferCancel_eats : eats 1 id _HandleXferCancel.
Proof.
  intros a Hlen. unfold _HandleXferCancel.
  pose proof (skip_eats 1 (emit Shutdown ;; ret true) a ltac:(lia) ltac:(input_cases)) as Hk.
  change (Z.of_nat 1) with 1 in Hk. destruct (id _); lia.
Qed.
Lemma XferAccept_eats : eats 1 id (_HandleXferAccept e).
Proof.
  intros a Hlen. unfold _HandleXferAccept. destruct (pPatch e); cbn [negb].
  - pose proof (skip_eats 1 (emit (StartTransfer 0) ;; ret true) a ltac:(lia) ltac:(input_cases)) as Hk.
    change (Z.of_nat 1) with 1 in Hk. destruct (id _); lia.
  - rewrite rs_ret, rv_ret. unfold id. lia.
Qed.
Lemma XferResume_eats : eats 1 id (_HandleXferResume e).
Proof.
  intros a Hlen. unfold _HandleXferResume. rewrite rs_with_state, rv_with_state.
  destruct ((recv_len a <? 9) || negb (pPatch e)) eqn:Hc.
  - rewrite rs_ret, rv_ret. unfold id. lia.
  - apply orb_false_iff in Hc as [Hc _]. apply Z.ltb_ge in Hc. unfold recv_len in Hc.
    rewrite run_state_bind. rewrite run_state_bind.
    match goal with |- context [input_buffer (run_state (bind ?m ?k) ?x)] =>
      change (input_buffer (run_state (bind m k) x)) with (input_buffer x) end.
    unfold recv_skip. rewrite rs_modify. set (a1 := set_input _ a).
    assert (Hl : (length (input_buffer a1) < length (input_buffer a))%nat)
      by (unfold a1; simpl; rewrite length_drop; lia).
    destruct (recv_eats 8 a1 ltac:(lia)) as [Hle _]. destruct (id _); lia.
Qed.

Lemma handler_eats cmd authed h : find_handler cmd authed (table e) = Some h -> eats 1 id h.
Proof.
  unfold table. cbn [find_handler]. repeat case_match; intros [= <-];
    auto using LogonChallenge_eats, LogonProof_eats, ReconnectChallenge_eats, ReconnectProof_eats,
      RealmList_eats, XferAccept_eats, XferResume_eats, XferCancel_eats.
Qed.

Lemma OnRead_step_eats a :
  (length (input_buffer (run_state (OnRead_step e) a)) + (if run_value (OnRead_step e) a then 1 else 0)
   <= length (input_buffer a))%nat.
Proof.
  unfold OnRead_step. rewrite rs_with_state.
  change (run_value (with_state _) a) with (run_value (match recv_soft 1 a with
    | None => ret (S := AuthSocket) (E := auth_event) false
    | Some c => match find_handler (default 0 (head c)) (_authed a) (table e) with
                | Some h => h | None => emit Shutdown ;; ret false end
    end) a).
  unfold recv_soft. destruct (Z.ltb_spec (recv_len a) 1) as [Hs|Hs].
  { rewrite rs_ret, rv_ret. lia. }
  destruct (find_handler _ _ _) as [h|] eqn:Eh.
  2: { rewrite run_state_bind, run_value_bind, rs_ret, rv_ret, rs_emit. lia. }
  unfold recv_len in Hs. pose proof (handler_eats _ _ _ Eh a ltac:(lia)) as Hk. exact Hk.
Qed.
End termination.

Lemma OnRead_loop_terminates `{OpenSSL} fuel env a :
  (length (input_buffer a) < fuel)%nat -> run_value (OnRead_loop fuel env) a = true.
Proof.
  revert a. induction fuel as [|fuel IH]; intros a Hl; [lia|]. cbn [OnRead_loop].
  rewrite run_value_bind. pose proof (OnRead_step_eats (env (S fuel)) a) as Hk.
  destruct (run_value (OnRead_step (env (S fuel))) a); [|reflexivity]. apply IH. lia.
Qed.

Lemma OnRead_loop_eats `{OpenSSL} fuel env a :
  (length (input_buffer (run_state (OnRead_loop fuel env) a)) <= length (input_buffer a))%nat.
Proof.
  revert a. induction fuel as [|fuel IH]; intros a; cbn [OnRead_loop]; [reflexivity|].
  rewrite run_state_bind. pose proof (OnRead_step_eats (env (S fuel)) a) as Hk.
  destruct (run_value (OnRead_step (env (S fuel))) a).
  - specialize (IH (run_state (OnRead_step (env (S fuel))) a)). lia.
  - rewrite rs_ret. lia.
Qed.

(** C32: The command loop of a connection ends on every input: whatever bytes
    arrived and whatever the database answers, every turn that goes on has taken
    at least one byte from the receive buffer; the buffer never outgrows its
    4096 bytes. *)
Theorem on_read_terminates `{OpenSSL} (a : AuthSocket) (data : list Z) (env : nat -> AuthEnv) :
  run_value (handle_input data env) a = true /\
  (length (input_buffer (run_state (handle_input data env) a)) <=
   Nat.max (length (input_buffer a)) input_buffer_size)%nat.
Proof.
  unfold handle_input. rewrite rv_with_state, rs_with_state. cbv zeta.
  destruct (bool_decide _).
  { rewrite run_value_bind, run_state_bind, rv_ret, rs_ret, rs_emit. split; [reflexivity | lia]. }
  rewrite run_value_bind, run_state_bind, rs_modify.
  set (a1 := set_input _ a). unfold OnRead. rewrite rv_with_state, rs_with_state.
  split; [apply OnRead_loop_terminates; lia|].
  etransitivity; [apply OnRead_loop_eats|].
  unfold a1. cbn [input_buffer set_input]. rewrite length_app, length_take. lia.
Qed.

(** ** Access *)

(** A proof was accepted: the session key was stored, or a reconnect confirmed. *)
Definition granted (log : list auth_event) : Prop :=
  (exists K address locale login, DbSetLogonProof K address locale login ∈ log) \/
  Send [AUTH_RECONNECT_PROOF; 0x00; 0x00; 0x00] ∈ log.

(** A realm list was sent. *)
Definition realms_sent (log : list auth_event) : Prop :=
  exists data, Send data ∈ log /\ head data = Some REALM_LIST.

Lemma granted_app l1 l2 : granted (l1 ++ l2) <-> granted l1 \/ granted l2.
Proof.
  unfold granted. rewrite elem_of_app. split.
  - intros [(K & ad & lo & lg & Hin)|[Hs|Hs]]; [|tauto|tauto]. apply elem_of_app in Hin as [Hin|Hin]; eauto 10.
  - intros [[(K & ad & lo & lg & Hin)|Hs]|[(K & ad & lo & lg & Hin)|Hs]]; try tauto;
      left; exists K, ad, lo, lg; apply elem_of_app; tauto.
Qed.
Lemma realms_sent_app l1 l2 : realms_sent (l1 ++ l2) <-> realms_sent l1 \/ realms_sent l2.
Proof.
  unfold realms_sent. split.
  - intros (d & Hin & Hh). apply elem_of_app in Hin as [Hin|Hin]; eauto.
  - intros [(d & Hin & Hh)|(d & Hin & Hh)]; exists d; rewrite elem_of_app; tauto.
Qed.

(** [gated m]: a run of [m] authorises the connection or answers with the realm
    list only if the connection was authorised, or a proof is accepted in it. *)
Definition gated {A} (m : AM A) : Prop := forall a,
  (_authed (run_state m a) = true -> _authed a = true \/ granted (run_log m a)) /\
  (realms_sent (run_log m a) -> _authed a = true \/ granted (run_log m a)).

Lemma gated_ret {A} (x : A) : gated (ret x).
Proof. intros a. split; [auto|]. intros (d & Hd & _). by apply not_elem_of_nil in Hd. Qed.
Lemma gated_bind {A C} (m : AM A) (k : A -> AM C) : gated m -> (forall x, gated (k x)) -> gated (bind m k).
Proof.
  intros Hm Hk a. destruct (Hm a) as [H1 H2]. destruct (Hk (run_value m a) (run_state m a)) as [H3 H4].
  rewrite run_state_bind, run_log_bind, granted_app, realms_sent_app. tauto.
Qed.
Lemma gated_with_state {A} (k : AuthSocket -> AM A) : (forall s, gated (k s)) -> gated (with_state k).
Proof. intros Hk a. apply Hk. Qed.
Lemma gated_when b m : gated m -> gated (when b m).
Proof. intros Hm. destruct b; [exact Hm | apply gated_ret]. Qed.
Lemma gated_modify f : (forall a, _authed (f a) = _authed a) -> gated (modify f).
Proof.
  intros Hf a. rewrite rs_modify, Hf. split; [auto|]. intros (d & Hd & _). by apply not_elem_of_nil in Hd.
Qed.
Lemma gated_emit x : (forall d, x = Send d -> head d <> Some REALM_LIST) -> gated (emit x).
Proof.
  intros Hx a. split; [auto|]. intros (d & Hd & Hh). apply list_elem_of_singleton in Hd.
  exfalso. by apply (Hx d).
Qed.

Ltac gate_cases := repeat lazymatch goal with
  | |- gated (bind _ _) => apply gated_bind; [|intros ?]
  | |- gated (with_state _) => apply gated_with_state; intros ?
  | |- gated (modify _) => apply gated_modify; reflexivity
  | |- gated (when _ _) => apply gated_when
  | |- gated (emit _) => apply gated_emit; intros ? [= <-]; discriminate
  | |- gated (ret _) => apply gated_ret
  | |- gated (if ?b then _ else _) => destruct b
  | |- gated (match ?x with _ => _ end) => destruct x
  end.

Lemma gated_recv len : gated (recv len).
Proof. unfold recv, recv_skip. gate_cases. Qed.
Lemma gated_read_challenge : gated read_challenge.
Proof. unfold read_challenge. gate_cases; apply gated_recv. Qed.

(** The accepting branches: the proof event comes before the flag. *)
Lemma gated_accept {A} (x : auth_event) (m : AM A) : granted [x] -> gated (emit x ;; m).
Proof.
  intros Hg a. rewrite run_log_bind, granted_app. change (run_log (emit x) a) with [x]. tauto.
Qed.

Section gate.
Context `{OpenSSL} (e : AuthEnv).

Lemma gated_challenge_success ch acc : gated (challenge_success e ch acc).
Proof. unfold challenge_success, _SetVSFields. gate_cases. Qed.

Lemma gated_LogonChallenge : gated (_HandleLogonChallenge e).
Proof.
  unfold _HandleLogonChallenge. apply gated_bind; [apply gated_read_challenge|]. intros [ch|]; [|gate_cases].
  gate_cases. apply gated_challenge_success.
Qed.

Lemma gated_LogonProof : gated (_HandleLogonProof e).
Proof.
  unfold _HandleLogonProof. apply gated_bind; [apply gated_recv|]. intros [lp|]; [|gate_cases].
  apply gated_with_state. intros a. destruct (_ =? _); [gate_cases|]. cbv zeta.
  destruct (isZero _); [gate_cases|]. apply gated_bind; [gate_cases|]. intros _.
  apply gated_bind; [|intros _; gate_cases]. destruct (proof_matches _ _ _).
  - apply gated_accept. left. do 4 eexists. by left.
  - unfold wrong_password. gate_cases.
Qed.

Lemma gated_ReconnectChallenge : gated (_HandleReconnectChallenge e).
Proof.
  unfold _HandleReconnectChallenge. apply gated_bind; [apply gated_read_challenge|].
  intros [ch|]; gate_cases.
Qed.

Lemma gated_ReconnectProof : gated (_HandleReconnectProof).
Proof.
  unfold _HandleReconnectProof. apply gated_bind; [apply gated_recv|]. intros [lp|]; [|gate_cases].
  apply gated_with_state. intros a. destruct (_ || _); [gate_cases|].
  destruct (bool_decide _); [|gate_cases]. apply gated_accept. right. by left.
Qed.

Lemma gated_Xfer : gated (_HandleXferResume e) /\ gated (_HandleXferAccept e) /\ gated _HandleXferCancel.
Proof.
  unfold _HandleXferResume, _HandleXferAccept, _HandleXferCancel, recv_skip.
  split_and!; gate_cases. apply gated_recv.
Qed.

Lemma RealmList_keeps_authed : keeps (fun a => _authed a = true) (_HandleRealmList e).
Proof.
  intros a Ha. unfold _HandleRealmList, recv_skip. run_simp. case_match; [exact Ha|].
  run_simp. case_match; run_simp; exact Ha.
Qed.

(** The realm list needs [_authed]. *)
Lemma gated_OnRead_step : gated (OnRead_step e).
Proof.
  unfold OnRead_step. intros a. rewrite rs_with_state, rl_with_state.
  assert (Hret : gated (ret (S := AuthSocket) (E := auth_event) false)) by gate_cases.
  destruct (recv_soft 1 a) as [c|]; [|apply Hret].
  destruct (find_handler (default 0 (head c)) (_authed a) (table e)) as [h|] eqn:Eh;
    [|revert a Eh; intros a _; generalize a; change (gated (emit Shutdown ;; ret false)); gate_cases].
  destruct (_authed a) eqn:Ha; [tauto|].
  assert (Hh : gated h); [|specialize (Hh a); rewrite Ha in Hh; exact Hh].
  unfold table in Eh. cbn [find_handler negb orb] in Eh. rewrite !andb_true_r, andb_false_r in Eh.
  destruct gated_Xfer as (H1 & H2 & H3).
  repeat (case_match; [injection Eh as <-; auto using gated_LogonChallenge, gated_LogonProof,
    gated_ReconnectChallenge, gated_ReconnectProof|]); try discriminate.
Qed.
End gate.

Lemma gated_OnRead_loop `{OpenSSL} fuel env : gated (OnRead_loop fuel env).
Proof.
  induction fuel as [|fuel IH]; cbn [OnRead_loop]; [gate_cases|].
  apply gated_bind; [apply gated_OnRead_step|]. intros []; [exact IH | gate_cases].
Qed.

(** Connections: the state and all it has sent and stored since it was opened. *)
Inductive connection `{OpenSSL} : AuthSocket -> list auth_event -> Prop :=
| conn_open exp rl : connection (new_AuthSocket exp rl) []
| conn_data a log data env :
    connection a log ->
    connection (run_state (handle_input data env) a) (log ++ run_log (handle_input data env) a).

(** C12: Whatever a client sends, in whatever pieces, and whatever the database
    answers, a connection is authorised, and is sent a realm list, only after one
    of its logon or reconnect proofs has been accepted. *)
Theorem realm_list_needs_proof `{OpenSSL} (a : AuthSocket) (log : list auth_event) :
  connection a log ->
  (_authed a = true -> granted log) /\
  (forall data, Send data ∈ log -> head data = Some REALM_LIST -> granted log).
Proof.
  intros Hc. assert (Hinv : (_authed a = true -> granted log) /\ (realms_sent log -> granted log)).
  { induction Hc as [exp rl|a log data env Hc [IH1 IH2]].
    - split; [discriminate|]. intros (d & Hd & _). by apply not_elem_of_nil in Hd.
    - assert (Hg : gated (handle_input data env)).
      { unfold handle_input, OnRead. gate_cases. apply gated_OnRead_loop. }
      destruct (Hg a) as [H1 H2]. rewrite granted_app, realms_sent_app. tauto. }
  split; [apply Hinv|]. intros data Hd Hh. apply (proj2 Hinv). by exists data.
Qed.

(** ** SRP6

    Congruence modulo [N], with the operations compatible with it. *)

Record eqN (a b : Z) : Prop := eqN_intro { eqN_eq : a mod N = b mod N }.
#[local] Instance eqN_equiv : Equivalence eqN.
Proof.
  split; [intros x|intros x y [E]|intros x y z [E1] [E2]]; constructor; congruence.
Qed.
#[local] Instance eqN_add : Proper (eqN ==> eqN ==> eqN) Z.add.
Proof. intros a a' [Ha] b b' [Hb]. constructor. by rewrite Zplus_mod, Ha, Hb, <- Zplus_mod. Qed.
#[local] Instance eqN_sub : Proper (eqN ==> eqN ==> eqN) Z.sub.
Proof. intros a a' [Ha] b b' [Hb]. constructor. by rewrite Zminus_mod, Ha, Hb, <- Zminus_mod. Qed.
#[local] Instance eqN_mul : Proper (eqN ==> eqN ==> eqN) Z.mul.
Proof. intros a a' [Ha] b b' [Hb]. constructor. by rewrite Zmult_mod, Ha, Hb, <- Zmult_mod. Qed.
#[local] Instance eqN_pow : Proper (eqN ==> eq ==> eqN) Z.pow.
Proof.
  intros a a' Ha p _ <-. destruct (Z.le_gt_cases 0 p) as [Hp|Hp].
  - revert p Hp. apply (natlike_ind (fun p => eqN (a ^ p) (a' ^ p))); [reflexivity|]. intros p Hp IH.
    rewrite !Z.pow_succ_r by exact Hp. by apply eqN_mul.
  - rewrite !Z.pow_neg_r by exact Hp. reflexivity.
Qed.

Lemma N_pos : 0 < N.
Proof. reflexivity. Qed.
Lemma eqN_mod a : eqN (a mod N) a.
Proof. constructor. apply Z.mod_mod. discriminate. Qed.

(** *** The client

    SRP6 as a client computes it, from the packets of the server and from its own
    hash function: every value is a little-endian field of its full size.  The
    server's answer to the challenge holds its public value, the generator, the
    modulus and the salt. *)
Record srp_offer := mkOffer { of_B : list Z; of_g : list Z; of_N : list Z; of_salt : list Z }.
Definition read_offer (answer : list Z) : srp_offer :=
  mkOffer (bytes_at 1 32 answer) (bytes_at 34 1 answer) (bytes_at 36 32 answer) (bytes_at 68 32 answer).

Fixpoint evens (l : list Z) : list Z := match l with x :: _ :: l' => x :: evens l' | _ => [] end.
Fixpoint odds (l : list Z) : list Z := match l with _ :: y :: l' => y :: odds l' | _ => [] end.

Section client.
Variables (hash : list Z -> list Z) (o : srp_offer) (login digest : list Z) (secret : Z).

Definition offered_pow (p : Z) : Z := Zpow_mod (le_decode (of_g o)) p (le_decode (of_N o)).
Definition client_x : Z := le_decode (hash (of_salt o ++ digest)).
Definition client_A : list Z := le_encode 32 (offered_pow secret).
Definition client_u : Z := le_decode (hash (client_A ++ of_B o)).
Definition client_S : list Z :=
  let base := (le_decode (of_B o) - 3 * offered_pow client_x) mod le_decode (of_N o) in
  le_encode 32 (Zpow_mod base (secret + client_u * client_x) (le_decode (of_N o))).
Definition client_K : list Z :=
  concat (zip_with (fun x y => [x; y]) (hash (evens client_S)) (hash (odds client_S))).
Definition client_group : list Z := zip_with Z.lxor (hash (of_N o)) (hash (of_g o)).
Definition client_M1 : list Z :=
  hash (client_group ++ hash login ++ of_salt o ++ client_A ++ of_B o ++ client_K).
Definition client_M2 : list Z := hash (client_A ++ client_M1 ++ client_K).

(** None of the client's values ends in a zero byte. *)
Definition no_short_value : Prop :=
  Forall (fun bs => last bs <> Some 0) [client_A; client_S; client_K; client_group; client_M1].
End client.

Section agreement.
Context `{OpenSSLLaws}.

Lemma ModExp_value a p : 0 <= a -> 0 <= p -> ModExp a p N = a ^ p mod N.
Proof. intros. apply mod_exp_value; [assumption|assumption|reflexivity]. Qed.
Lemma mod_N_range a : 0 <= a mod N < N.
Proof. apply Z.mod_pos_bound. reflexivity. Qed.

Lemma SetBinary_range bs n : bytes_ok bs -> length bs = n -> 0 <= SetBinary bs < 256 ^ Z.of_nat n.
Proof.
  intros Hb Hl. rewrite SetBinary_value by exact Hb. pose proof (le_decode_range bs Hb) as Hr.
  rewrite Hl, Z.pow_mul_r in Hr by lia. exact Hr.
Qed.
Lemma Finalize_range bs : 0 <= SetBinary (Finalize bs) < 256 ^ 20.
Proof.
  unfold Finalize. pose proof (sha1_bytes bs) as [Hb Hl]. apply (SetBinary_range _ 20 Hb Hl).
Qed.

Lemma srp_verifier_value s rI : srp_verifier s rI = g ^ srp_x s rI mod N.
Proof. unfold srp_verifier. apply ModExp_value; [discriminate|apply Finalize_range]. Qed.

Lemma srp_public_value v b : 0 <= v -> 0 <= b -> srp_public v b = (3 * v + g ^ b) mod N.
Proof.
  intros Hv Hb. unfold srp_public, bn_mod_assign, bn_add_assign, bn_mul_assign.
  rewrite mul_value, ModExp_value, add_value by (lia || discriminate).
  rewrite mod_value; [|pose proof (mod_N_range (g ^ b)); lia|reflexivity].
  apply eqN_eq. rewrite (eqN_mod (g ^ b)). by rewrite (Z.mul_comm v 3).
Qed.

Lemma srp_S_value v b A B : 0 <= v -> 0 <= b -> 0 <= A ->
  srp_S v b A B = (A * v ^ srp_u A B) ^ b mod N.
Proof.
  intros Hv Hb HA. unfold srp_S, bn_mul_assign. pose proof (Finalize_range (UpdateBigNumbers [] [A; B])) as [Hu _].
  fold (srp_u A B) in Hu. rewrite mul_value, (ModExp_value v) by assumption.
  pose proof (mod_N_range (v ^ srp_u A B)).
  rewrite ModExp_value by nia. apply eqN_eq. by rewrite (eqN_mod (v ^ srp_u A B)).
Qed.

(** The two secrets of SRP6 are equal. *)
Lemma secrets_agree x a b u : 0 <= x -> 0 <= a -> 0 <= b -> 0 <= u ->
  let v := g ^ x mod N in
  (g ^ a mod N * v ^ u) ^ b mod N = ((((3 * v + g ^ b) mod N - 3 * v) mod N) ^ (a + u * x)) mod N.
Proof.
  intros Hx Ha Hb Hu v. apply eqN_eq.
  assert (HB : eqN ((3 * v + g ^ b) mod N - 3 * v) (g ^ b)).
  { rewrite eqN_mod. replace (3 * v + g ^ b - 3 * v) with (g ^ b) by lia. reflexivity. }
  rewrite (eqN_mod (_ - _)), HB. unfold v. rewrite (eqN_mod (g ^ a)), (eqN_mod (g ^ x)).
  rewrite <- (Z.pow_mul_r g x u) by lia. rewrite <- Z.pow_add_r by nia.
  rewrite <- !Z.pow_mul_r by nia. replace ((a + x * u) * b) with (b * (a + u * x)) by lia. reflexivity.
Qed.

(** The bytes of a 20-byte digest with a nonzero last byte. *)
Lemma AsByteArray_full n k : 0 < k -> 256 ^ (k - 1) <= n < 256 ^ k ->
  AsByteArray n 0 true = le_encode (Z.to_nat k) n.
Proof.
  intros Hk Hn. assert (Hn0 : 0 <= n) by (pose proof (Z.pow_nonneg 256 (k - 1)); lia).
  destruct (bn2bin_value n Hn0) as (Hb & Hl & Hv).
  rewrite (num_bytes_unique n k Hk Hn) in Hl.
  rewrite AsByteArray_short by (try exact Hn0; apply num_bytes_nonneg; exact Hn0).
  rewrite <- Hv at 2. unfold be_decode.
  rewrite <- (le_encode_decode (rev (BN_bn2bin n))) at 1 by (by apply bytes_ok_rev).
  f_equal. rewrite length_rev. lia.
Qed.

Lemma proof_matches_full e M : 256 ^ 19 <= M < 256 ^ 20 -> proof_matches e M (le_encode 20 M) = true.
Proof.
  intros HM. unfold proof_matches. rewrite (AsByteArray_full M 20) by (lia || exact HM).
  change (Z.to_nat 20) with 20%nat. rewrite take_app_length' by (symmetry; apply length_le_encode).
  by apply bool_decide_eq_true.
Qed.

(** A logon proof packet: [A] and [M1] little-endian, then a checksum and two
    bytes the server does not look at. *)
Definition proof_packet (A M1 : Z) (tail_ : list Z) : list Z :=
  [AUTH_LOGON_PROOF] ++ le_encode 32 A ++ le_encode 20 M1 ++ tail_.

Lemma SetBinary_le_encode n A : 0 <= A < 256 ^ Z.of_nat n -> SetBinary (le_encode n A) = A.
Proof.
  intros HA. rewrite SetBinary_value by apply le_encode_ok. rewrite le_decode_encode.
  apply Z.mod_small. rewrite Z.pow_mul_r by lia. exact HA.
Qed.

(** The handler on a proof packet whose proof the server computes itself. *)
Lemma LogonProof_accepts e a A tail_ rest :
  length tail_ = 22%nat -> 0 < A < 256 ^ 32 -> _expversion a <> NO_VALID_EXP_FLAG ->
  let K := srp_key (srp_S (srp_v a) (srp_b a) A (srp_B a)) in
  let M1 := srp_M (_login a) (srp_s a) A (srp_B a) K in
  256 ^ 19 <= M1 -> input_buffer a = proof_packet A M1 tail_ ++ rest ->
  let run := _HandleLogonProof e a in
  run.1.1 = true /\ _authed run.1.2 = true /\ input_buffer run.1.2 = rest /\ srp_K run.1.2 = K /\
  DbSetLogonProof (AsHexStr K) (c_str (remote_address e)) (GetLocaleByName (_localizationName a)) (_login a)
    ∈ run.2 /\
  exists more, Send ([AUTH_LOGON_PROOF; 0] ++ srp_M2 A M1 K ++ more) ∈ run.2.
Proof.
  intros Ht HA Hexp K M1 HM Hin run.
  assert (Hlen : length (proof_packet A M1 tail_) = 75%nat).
  { unfold proof_packet. rewrite !length_app, !length_le_encode, Ht. reflexivity. }
  assert (HAb : SetBinary (bytes_at 1 32 (proof_packet A M1 tail_)) = A).
  { unfold bytes_at, proof_packet. rewrite drop_app_length' by reflexivity.
    rewrite take_app_length' by (symmetry; apply length_le_encode). apply SetBinary_le_encode. change (Z.of_nat 32) with 32. lia. }
  assert (HMb : bytes_at 33 20 (proof_packet A M1 tail_) = le_encode 20 M1).
  { unfold bytes_at, proof_packet. rewrite app_assoc.
    rewrite drop_app_length' by (rewrite length_app, length_le_encode; reflexivity).
    apply take_app_length'. symmetry. apply length_le_encode. }
  assert (E : run = (true, set_authed true (set_K K (set_input (fun _ => rest) a)),
    [DbSetLogonProof (AsHexStr K) (c_str (remote_address e)) (GetLocaleByName (_localizationName a)) (_login a);
     Send ([AUTH_LOGON_PROOF; 0] ++ srp_M2 A M1 K ++
           if modern (_expversion a) then ser [FU 4 0x00800000; FU 4 0x00; FU 2 0x00] else ser [FU 4 0x00])])).
  { unfold run, _HandleLogonProof, bind at 1. change sizeof_proof with (Z.of_nat 75). rewrite <- Hlen.
    rewrite (recv_prefix _ _ _ Hin). unfold with_state.
    change (_expversion (set_input _ a)) with (_expversion a).
    rewrite (proj2 (Z.eqb_neq _ _) Hexp). cbv zeta. rewrite HAb, HMb.
    unfold isZero. rewrite (proj2 (Z.eqb_neq A 0)) by lia.
    change (srp_v (set_input _ a)) with (srp_v a). change (srp_b (set_input _ a)) with (srp_b a).
    change (srp_B (set_input _ a)) with (srp_B a). change (srp_s (set_input _ a)) with (srp_s a).
    change (_login (set_input _ a)) with (_login a). fold K. fold M1.
    rewrite proof_matches_full by (split; [exact HM | unfold M1, srp_M; apply Finalize_range]).
    reflexivity. }
  rewrite E. cbn [fst snd]. split_and!; try reflexivity; [left|]. eexists. right. left.
Qed.

(** A field of full size stands for a number whose byte array is the field. *)
Lemma last_byte_range bs : bytes_ok bs -> bs <> [] -> last bs <> Some 0 ->
  256 ^ (Z.of_nat (length bs) - 1) <= le_decode bs < 256 ^ Z.of_nat (length bs).
Proof.
  intros Hb Hne Hl. destruct (exists_last Hne) as (l & x & ->). rewrite last_snoc in Hl.
  apply Forall_app in Hb as [Hb Hx]. apply Forall_cons in Hx as [Hx _]. unfold is_byte in Hx.
  pose proof (le_decode_range l Hb) as Hr. rewrite Z.pow_mul_r in Hr by lia. change (2 ^ 8) with 256 in Hr.
  rewrite le_decode_app, length_app, Nat2Z.inj_add. cbn [le_decode length]. rewrite Z.mul_0_r, Z.add_0_r.
  change (Z.of_nat 1) with 1. rewrite Z.add_simpl_r, Z.pow_add_r, Z.pow_1_r by lia.
  assert (0 < x) by (destruct (Z.eq_dec x 0) as [->|]; [done | lia]).
  set (p := 256 ^ _) in *. nia.
Qed.

Lemma last_byte_nonzero bs : bytes_ok bs -> 256 ^ (Z.of_nat (length bs) - 1) <= le_decode bs -> last bs <> Some 0.
Proof.
  intros Hb Hr Hl. apply last_Some in Hl as [l ->]. apply Forall_app in Hb as [Hb _].
  pose proof (le_decode_range l Hb) as Hd. rewrite Z.pow_mul_r in Hd by lia. change (2 ^ 8) with 256 in Hd.
  rewrite le_decode_app, length_app, Nat2Z.inj_add in Hr. cbn [le_decode length] in Hr.
  change (Z.of_nat 1) with 1 in Hr. rewrite Z.add_simpl_r in Hr. lia.
Qed.

Lemma full_field bs : bytes_ok bs -> bs <> [] -> last bs <> Some 0 ->
  SetBinary bs = le_decode bs /\ BN_num_bytes (le_decode bs) = Z.of_nat (length bs) /\
  forall m, m <= Z.of_nat (length bs) -> AsByteArray (le_decode bs) m true = bs.
Proof.
  intros Hb Hne Hl. pose proof (last_byte_range bs Hb Hne Hl) as Hr.
  assert (Hlen : 0 < Z.of_nat (length bs)) by (destruct bs; [done | simpl; lia]).
  pose proof (num_bytes_unique _ _ Hlen Hr) as En. split; [by apply SetBinary_value|]. split; [exact En|]. intros m Hm.
  assert (Hpos : 0 <= le_decode bs) by (pose proof (Z.pow_pos_nonneg 256 (Z.of_nat (length bs) - 1)); lia).
  rewrite AsByteArray_short by lia. rewrite <- (AsByteArray_short _ 0) by lia.
  rewrite (AsByteArray_full _ _ Hlen Hr), Nat2Z.id. by apply le_encode_decode.
Qed.

Lemma UpdateBigNumbers_fields mC fields :
  Forall (fun bs => bytes_ok bs /\ bs <> [] /\ last bs <> Some 0) fields ->
  UpdateBigNumbers mC (le_decode <$> fields) = mC ++ concat fields.
Proof.
  intros Hf. revert mC. induction Hf as [|bs fields (Hb & Hne & Hl) _ IH]; intros mC; [cbn; by rewrite app_nil_r|].
  cbn [fmap list_fmap UpdateBigNumbers foldl]. destruct (full_field bs Hb Hne Hl) as (_ & _ & ->); [|lia].
  change (foldl _ ?c ?l) with (UpdateBigNumbers c l). unfold UpdateData. rewrite IH. cbn. by rewrite app_assoc.
Qed.

(** The halves of the key. *)
Lemma every_other_halves (t : list Z) : length t = 32%nat -> every_other 0 t = evens t /\ every_other 1 t = odds t.
Proof. intros Ht. do 33 (destruct t as [|? t]; try discriminate Ht). by split. Qed.
Lemma interleave_zip xs ys : interleave xs ys = concat (zip_with (fun x y => [x; y]) xs ys).
Proof. revert ys. induction xs as [|x xs IH]; intros [|y ys]; try reflexivity. cbn. by rewrite IH. Qed.

Lemma sha1_length bs : length (SHA1 bs) = 20%nat.
Proof. apply sha1_bytes. Qed.
Lemma sha1_ok bs : bytes_ok (SHA1 bs).
Proof. apply sha1_bytes. Qed.
Lemma sha1_nonempty bs : SHA1 bs <> [].
Proof. intros E. pose proof (sha1_length bs) as Hl. by rewrite E in Hl. Qed.

Lemma bytes_ok_zip (xs ys : list Z) : bytes_ok xs -> bytes_ok ys -> bytes_ok (concat (zip_with (fun x y => [x; y]) xs ys)).
Proof.
  intros Hx. revert ys. induction Hx as [|x xs Hx _ IH]; intros ys Hy; [constructor|].
  destruct Hy as [|y ys Hy Hys]; [constructor|]. constructor; [exact Hx|]. constructor; [exact Hy | by apply IH].
Qed.
Lemma bytes_ok_xor (xs ys : list Z) : bytes_ok xs -> bytes_ok ys -> bytes_ok (zip_with Z.lxor xs ys).
Proof.
  intros Hx. revert ys. induction Hx as [|x xs Hx _ IH]; intros ys Hy; [constructor|].
  destruct Hy as [|y ys Hy Hys]; [constructor|]. constructor; [|by apply IH]. unfold is_byte in *.
  change 256 with (2 ^ 8) in *. split; [apply Z.lxor_nonneg; lia|].
  destruct (Z.eq_dec (Z.lxor x y) 0) as [->|Hne]; [lia|]. apply Z.log2_lt_pow2; [|].
  - assert (0 <= Z.lxor x y) by (apply Z.lxor_nonneg; lia). lia.
  - pose proof (Z.log2_lxor x y ltac:(lia) ltac:(lia)) as Hlog.
    assert (Hb : forall z, 0 <= z < 2 ^ 8 -> Z.log2 z < 8).
    { intros z Hz. destruct (Z.eq_dec z 0) as [->|]; [reflexivity | apply Z.log2_lt_pow2; lia]. }
    pose proof (Hb x Hx). pose proof (Hb y Hy). lia.
Qed.

(** The stored hash of a password is the hexadecimal of its digest. *)
Lemma srp_digest_hex digest : bytes_ok digest -> length digest = 20%nat -> srp_digest (hex_text digest) = digest.
Proof.
  intros Hb Hl. unfold srp_digest, SetHexStr, GetNumBytes. rewrite hex2bn_value by (try exact Hb; by destruct digest).
  unfold be_decode. set (I := le_decode (rev digest)).
  assert (HI : 0 <= I < 256 ^ 20).
  { unfold I. pose proof (le_decode_range (rev digest) (bytes_ok_rev _ Hb)) as Hr. rewrite length_rev, Hl in Hr. exact Hr. }
  destruct (bn2bin_value I (proj1 HI)) as (Ho & Hn & Hv).
  assert (Hle : BN_num_bytes I <= 20).
  { destruct (Z.eq_dec I 0) as [->|]; [rewrite num_bytes_zero; lia|]. destruct (num_bytes_minimal I) as [_ [Hm _]]; [lia|].
    apply Z.lt_pred_le. destruct (Z.lt_ge_cases (BN_num_bytes I - 1) 20) as [|Hg]; [lia|].
    pose proof (Z.pow_le_mono_r 256 20 (BN_num_bytes I - 1)). lia. }
  rewrite (proj2 (Z.leb_le _ _) Hle). pose proof (num_bytes_nonneg I (proj1 HI)).
  rewrite AsByteArray_short by lia. set (l := rev (BN_bn2bin I) ++ _).
  assert (Hlen : length l = 20%nat) by (unfold l; rewrite length_app, length_replicate, length_rev; lia).
  assert (Hbl : bytes_ok l).
  { apply Forall_app. split; [by apply bytes_ok_rev|]. apply Forall_replicate. unfold is_byte. lia. }
  assert (El : le_decode l = I).
  { unfold l. rewrite le_decode_app, (le_decode_zeros (replicate _ 0)) by (apply Forall_replicate; reflexivity).
    change (le_decode (rev ?x)) with (be_decode x). rewrite Hv. lia. }
  assert (E : l = rev digest).
  { rewrite <- (le_encode_decode l Hbl), El, Hlen, <- (le_encode_decode (rev digest) (bytes_ok_rev _ Hb)), length_rev, Hl.
    reflexivity. }
  rewrite E. apply rev_involutive.
Qed.

Lemma c_str_hex bs : bytes_ok bs -> c_str (hex_text bs) = hex_text bs.
Proof.
  induction 1 as [|b bs Hb _ IH]; [reflexivity|]. unfold is_byte in Hb.
  change (hex_text (b :: bs)) with (hex_digit (b / 16) :: hex_digit (b mod 16) :: hex_text bs).
  assert (Hd : forall d, 0 <= d -> (hex_digit d =? 0) = false).
  { intros d Hd. unfold hex_digit. apply Z.eqb_neq. destruct (d <? 10); lia. }
  cbn [c_str]. rewrite !Hd by (Z.to_euclidean_division_equations; lia). by rewrite IH.
Qed.
Lemma length_hex bs : length (hex_text bs) = (2 * length bs)%nat.
Proof. induction bs as [|b bs IH]; [reflexivity|]. unfold hex_text in *. cbn. rewrite IH. lia. Qed.

(** The account as the database has it, for a password with this digest: with a
    verifier for this salt, or with none, when the salt is drawn by the challenge. *)
Definition password_verifier (digest salt : list Z) : Z := Zpow_mod g (le_decode (SHA1 (salt ++ digest))) N.
Inductive registered (e : AuthEnv) (acc : AccountRow) (digest salt : list Z) : Prop :=
| registered_fresh :
    length (acc_v acc) <> 64%nat \/ length (acc_s acc) <> 64%nat ->
    sha_pass_hash acc = hex_text digest -> rand_s e = le_decode salt -> registered e acc digest salt
| registered_stored :
    acc_v acc = hex_text (rev (le_encode 32 (password_verifier digest salt))) -> acc_s acc = hex_text (rev salt) ->
    registered e acc digest salt.

Lemma hash_range bs : 0 <= le_decode (SHA1 bs).
Proof. pose proof (le_decode_range _ (sha1_ok bs)). lia. Qed.
Lemma offered_value p : 0 <= p -> Zpow_mod g p N = g ^ p mod N.
Proof. intros _. by apply Zpow_mod_correct. Qed.
Lemma password_verifier_range digest salt : 0 <= password_verifier digest salt < 256 ^ 32.
Proof.
  unfold password_verifier. rewrite Zpow_mod_correct by done. pose proof (mod_N_range (g ^ le_decode (SHA1 (salt ++ digest)))).
  assert (N < 256 ^ 32) by reflexivity. lia.
Qed.

(** The challenge: the fields of the connection after it, and its answer. *)
Lemma challenge_runs e ch acc a digest salt :
  registered e acc digest salt -> bytes_ok digest -> length digest = 20%nat ->
  bytes_ok salt -> length salt = 32%nat -> last salt <> Some 0 ->
  let a1 := run_state (challenge_success e ch acc) a in
  let v := password_verifier digest salt in
  srp_s a1 = le_decode salt /\ srp_v a1 = v /\ srp_b a1 = rand_b e /\ srp_B a1 = srp_public v (rand_b e) /\
  _login a1 = _login a /\ _expversion a1 = _expversion a /\
  run_value (challenge_success e ch acc) a =
    [WOW_SUCCESS] ++ take 32 (AsByteArray (srp_B a1) 32 true) ++ [1] ++ take 1 (AsByteArray g 0 true) ++ [32] ++
    take 32 (AsByteArray N 32 true) ++ salt ++ take 16 (AsByteArray (rand_unk3 e) 16 true) ++ [0].
Proof.
  intros Hreg Hd Hdl Hs Hsl Hs0 a1 v. assert (Hne : salt <> []) by (by destruct salt).
  destruct (full_field salt Hs Hne Hs0) as (_ & _ & Es).
  assert (Hrun : exists loc lvl,
    a1 = set_locale loc (set_level lvl (set_srp (le_decode salt) v (rand_b e) (srp_public v (rand_b e)) a))).
  { unfold a1, challenge_success. destruct Hreg as [Hlen Hhash Hrand|Hv Hsalt].
    - assert (Hc : negb (Z.of_nat (length (acc_v acc)) =? s_BYTE_SIZE * 2) ||
                   negb (Z.of_nat (length (acc_s acc)) =? s_BYTE_SIZE * 2) = true).
      { apply orb_true_iff. rewrite !negb_true_iff, !Z.eqb_neq. unfold s_BYTE_SIZE. lia. }
      rewrite Hc. unfold _SetVSFields. rewrite !run_state_bind, !rs_with_state, !run_state_bind, !rs_modify, rs_emit, rs_ret.
      rewrite Hrand, Hhash. eexists _, _.
      assert (Ev : srp_verifier (le_decode salt) (hex_text digest) = v).
      { unfold srp_verifier, srp_x. rewrite Es by lia. rewrite srp_digest_hex by assumption. cbn [UpdateData app].
        unfold Finalize. rewrite SetBinary_value by apply sha1_ok. rewrite ModExp_value by (discriminate || apply hash_range).
        symmetry. by apply Zpow_mod_correct. }
      rewrite Ev. reflexivity.
    - pose proof (password_verifier_range digest salt) as Hr. fold v in Hr, Hv.
      assert (Hb32 : bytes_ok (rev (le_encode 32 v))) by apply bytes_ok_rev, le_encode_ok.
      assert (Hbs : bytes_ok (rev salt)) by (by apply bytes_ok_rev).
      rewrite Hv, Hsalt, !length_hex, !length_rev, length_le_encode, Hsl. cbn [Nat.mul Nat.add Z.of_nat Z.eqb negb orb].
      change (negb _ || negb _) with false. cbv iota.
      rewrite !c_str_hex by assumption. unfold SetHexStr. 
      rewrite !run_state_bind, !rs_modify, !rs_with_state, rs_ret.
      assert (Hnil : forall l : list Z, length l = 32%nat -> rev l <> []).
      { intros l Hl E. apply (f_equal length) in E. rewrite length_rev, Hl in E. discriminate. }
      rewrite !hex2bn_value by (assumption || by apply Hnil, length_le_encode || by apply Hnil).
      unfold be_decode. rewrite !rev_involutive, le_decode_encode, Z.mod_small by exact Hr.
      by eexists _, _. }
  destruct Hrun as (loc & lvl & E). rewrite E. split_and!; try reflexivity.
  assert (Ev : run_value (challenge_success e ch acc) a = run_value (with_state (fun a =>
    ret ([WOW_SUCCESS] ++ take 32 (AsByteArray (srp_B a) 32 true) ++ [1] ++
         take 1 (AsByteArray g 0 true) ++ [32] ++ take 32 (AsByteArray N 32 true) ++
         AsByteArray (srp_s a) 0 true ++ take 16 (AsByteArray (rand_unk3 e) 16 true) ++ [0])) : AM (list Z)) a1).
  { unfold a1, challenge_success. rewrite !run_value_bind, !run_state_bind, !rs_with_state, rs_ret. reflexivity. }
  rewrite Ev, rv_with_state, E. cbn [srp_s srp_B set_locale set_level set_srp]. rewrite Es by lia. reflexivity.
Qed.

Lemma number_field n k m : 0 < k -> 256 ^ (k - 1) <= n < 256 ^ k -> m <= k ->
  AsByteArray n m true = le_encode (Z.to_nat k) n.
Proof.
  intros Hk Hn Hm. assert (Hn0 : 0 <= n) by (pose proof (Z.pow_pos_nonneg 256 (k - 1)); lia).
  pose proof (num_bytes_unique n k Hk Hn) as E. rewrite AsByteArray_short by lia.
  rewrite <- (AsByteArray_short n 0) by lia. by apply AsByteArray_full.
Qed.
Lemma bytes_at_mid (pre mid post : list Z) from n :
  length pre = from -> length mid = n -> bytes_at from n (pre ++ mid ++ post) = mid.
Proof. intros <- <-. unfold bytes_at. rewrite drop_app_length. by apply take_app_length. Qed.

Lemma full_number B : 256 ^ 31 <= B < 256 ^ 32 ->
  bytes_ok (le_encode 32 B) /\ le_encode 32 B <> [] /\ last (le_encode 32 B) <> Some 0 /\ le_decode (le_encode 32 B) = B.
Proof.
  intros HB. assert (E : le_decode (le_encode 32 B) = B).
  { rewrite le_decode_encode. apply Z.mod_small. change (2 ^ (8 * Z.of_nat 32)) with (256 ^ 32). lia. }
  pose proof (length_le_encode 32 B) as Hl. split_and!; [apply le_encode_ok | by intros E0; rewrite E0 in Hl | | exact E].
  apply last_byte_nonzero; [apply le_encode_ok|]. rewrite Hl, E. apply HB.
Qed.

(** What the client reads in the answer. *)
Lemma offer_read B salt more :
  256 ^ 31 <= B < 256 ^ 32 -> length salt = 32%nat ->
  read_offer ([WOW_SUCCESS] ++ take 32 (AsByteArray B 32 true) ++ [1] ++ take 1 (AsByteArray g 0 true) ++ [32] ++
              take 32 (AsByteArray N 32 true) ++ salt ++ more) =
  mkOffer (le_encode 32 B) [7] (le_encode 32 N) salt.
Proof.
  intros HB Hs. rewrite (number_field B 32 32), (number_field N 32 32), (number_field g 1 0) by (lia || by split).
  change (Z.to_nat 32) with 32%nat. change (Z.to_nat 1) with 1%nat.
  rewrite !(take_ge (le_encode _ _)) by (by rewrite length_le_encode). change (le_encode 1 g) with [7].
  pose proof (length_le_encode 32 B) as HlB. pose proof (length_le_encode 32 N) as HlN.
  set (bb := le_encode 32 B) in *. set (nn := le_encode 32 N) in *. clearbody bb nn.
  set (head := [WOW_SUCCESS] ++ bb ++ [1]). assert (Hh : length head = 34%nat) by (unfold head; by rewrite !length_app, HlB).
  set (answer := [WOW_SUCCESS] ++ _).
  assert (E : answer = head ++ [7] ++ [32] ++ nn ++ salt ++ more) by (unfold answer, head; by rewrite <- !app_assoc).
  unfold read_offer. f_equal.
  - by apply bytes_at_mid.
  - rewrite E. by apply bytes_at_mid.
  - assert (E2 : answer = (head ++ [7] ++ [32]) ++ nn ++ salt ++ more) by (rewrite E; by rewrite <- !app_assoc).
    rewrite E2. apply bytes_at_mid; [by rewrite !length_app, Hh | exact HlN].
  - assert (E3 : answer = (head ++ [7] ++ [32] ++ nn) ++ salt ++ more) by (rewrite E; by rewrite <- !app_assoc).
    rewrite E3. apply bytes_at_mid; [by rewrite !length_app, Hh, HlN | exact Hs].
Qed.

(** The session key and the proofs, when no value is short. *)
Lemma srp_key_field (S : list Z) : bytes_ok S -> length S = 32%nat -> last S <> Some 0 ->
  srp_key (le_decode S) = le_decode (concat (zip_with (fun x y => [x; y]) (SHA1 (evens S)) (SHA1 (odds S)))).
Proof.
  intros Hb Hl Hn. assert (Hne : S <> []) by (by destruct S). destruct (full_field S Hb Hne Hn) as (_ & _ & E).
  unfold srp_key. rewrite E by lia. rewrite (take_ge S) by lia. destruct (every_other_halves S Hl) as [-> ->].
  unfold Finalize, UpdateData. cbn [app]. rewrite !take_ge by (by rewrite sha1_length).
  rewrite interleave_zip. apply SetBinary_value, bytes_ok_zip; apply sha1_ok.
Qed.
Lemma srp_Ng_field : srp_Ng = le_decode (zip_with Z.lxor (SHA1 (le_encode 32 N)) (SHA1 [7])).
Proof.
  unfold srp_Ng, UpdateBigNumbers, UpdateData, Finalize, xor_bytes. cbn [foldl app].
  rewrite (number_field N 32 0), (number_field g 1 0) by (lia || by split).
  apply SetBinary_value, bytes_ok_xor; apply sha1_ok.
Qed.

(** *** Agreement of the client and the server

    On the offer of a challenge whose public value has its 32 bytes, for a client
    none of whose values is short. *)
Section agree.
Context (B b : Z) (login digest salt : list Z) (secret : Z).
#[local] Abbreviation o := (mkOffer (le_encode 32 B) [7] (le_encode 32 N) salt).
#[local] Abbreviation A := (le_decode (client_A o secret)).
#[local] Abbreviation v := (password_verifier digest salt).
#[local] Abbreviation K := (srp_key (srp_S v b A B)).
#[local] Abbreviation M1 := (srp_M login (le_decode salt) A B K).
Context (Hsalt : bytes_ok salt) (Hsl : length salt = 32%nat) (Hs0 : last salt <> Some 0).
Context (HB : 256 ^ 31 <= B < 256 ^ 32) (EB : B = (3 * v + g ^ b) mod N) (Hb : 0 <= b) (Hsec : 0 <= secret).
Context (Hfull : no_short_value SHA1 o login digest secret).

(** The fields that are hashed: bytes, and no zero at the end. *)
Definition sound_field (bs : list Z) : Prop := bytes_ok bs /\ bs <> [] /\ last bs <> Some 0.
Lemma sound_fields : sound_field salt /\ sound_field (client_A o secret) /\ sound_field (le_encode 32 B) /\
  sound_field (client_K SHA1 o digest secret) /\ sound_field (client_group SHA1 o) /\
  sound_field (client_M1 SHA1 o login digest secret) /\ last (client_S SHA1 o digest secret) <> Some 0.
Proof using All.
  unfold no_short_value in Hfull. rewrite !Forall_cons in Hfull. destruct Hfull as (HA & HS & HK & HG & HM & _).
  destruct (full_number B HB) as (HB1 & HB2 & HB3 & _).
  assert (Hlen : forall n x, (0 < n)%nat -> le_encode n x <> []).
  { intros n x Hn E. pose proof (length_le_encode n x) as Hl. rewrite E in Hl. simpl in Hl. lia. }
  assert (Hne : client_K SHA1 o digest secret <> [] /\ client_group SHA1 o <> []).
  { pose proof (sha1_length (evens (client_S SHA1 o digest secret))). pose proof (sha1_length (odds (client_S SHA1 o digest secret))).
    pose proof (sha1_length (of_N o)). pose proof (sha1_length (of_g o)). unfold client_K, client_group.
    destruct (SHA1 (evens _)), (SHA1 (odds _)), (SHA1 (of_N o)), (SHA1 (of_g o)); try discriminate. by split. }
  destruct Hne as [HKn HGn]. unfold sound_field. split_and!; try done.
  - by destruct salt.
  - apply le_encode_ok.
  - apply bytes_ok_zip; apply sha1_ok.
  - apply bytes_ok_xor; apply sha1_ok.
  - apply sha1_ok.
  - apply sha1_nonempty.
Qed.

Lemma offer_modulus : le_decode (le_encode 32 N) = N.
Proof. vm_compute. reflexivity. Qed.
Lemma offered_pow_value p : offered_pow o p = g ^ p mod N.
Proof. unfold offered_pow. cbn [of_g of_N]. rewrite offer_modulus. by apply Zpow_mod_correct. Qed.
Lemma below_32 n : 0 <= n < N -> le_decode (le_encode 32 n) = n.
Proof.
  intros Hn. rewrite le_decode_encode. apply Z.mod_small. change (2 ^ (8 * Z.of_nat 32)) with (2 ^ 256).
  assert (N < 2 ^ 256) by reflexivity. lia.
Qed.
Lemma client_A_value : A = g ^ secret mod N.
Proof. unfold client_A. rewrite offered_pow_value. apply below_32, mod_N_range. Qed.

Lemma client_u_value : srp_u A B = client_u SHA1 o secret.
Proof using All.
  destruct sound_fields as (_ & HA & HBf & _). destruct (full_number B HB) as (_ & _ & _ & EBf).
  assert (Ef : [A; B] = le_decode <$> [client_A o secret; le_encode 32 B]) by (cbn [fmap list_fmap]; by rewrite EBf).
  unfold srp_u, Finalize. rewrite Ef, UpdateBigNumbers_fields by (repeat (constructor; [assumption|]); constructor).
  cbn [app concat]. rewrite app_nil_r. apply SetBinary_value, sha1_ok.
Qed.

Lemma client_S_value : srp_S v b A B = le_decode (client_S SHA1 o digest secret).
Proof using All.
  set (x := le_decode (SHA1 (salt ++ digest))). assert (Hx : 0 <= x) by apply hash_range.
  assert (Ev : v = g ^ x mod N) by (unfold password_verifier; by apply Zpow_mod_correct).
  rewrite srp_S_value by (lia || apply password_verifier_range || (rewrite client_A_value; apply mod_N_range)).
  rewrite client_u_value. unfold client_S. cbn [of_B of_N]. rewrite offer_modulus.
  destruct (full_number B HB) as (_ & _ & _ & ->). change (client_x SHA1 o digest) with x.
  rewrite offered_pow_value, Zpow_mod_correct by done. rewrite below_32 by apply mod_N_range.
  set (u := client_u SHA1 o secret). assert (Hu : 0 <= u) by apply hash_range. clearbody u.
  rewrite client_A_value, EB, Ev. by apply secrets_agree.
Qed.

Lemma client_K_value : K = le_decode (client_K SHA1 o digest secret).
Proof using All.
  rewrite client_S_value. apply srp_key_field; [apply le_encode_ok | apply length_le_encode | apply sound_fields].
Qed.

Lemma client_M1_value : M1 = le_decode (client_M1 SHA1 o login digest secret).
Proof using All.
  destruct sound_fields as (Hs & HA & HBf & HK & HG & _). destruct (full_number B HB) as (_ & _ & _ & EBf).
  rewrite client_K_value. set (key := client_K SHA1 o digest secret) in *.
  assert (Ef : [le_decode salt; A; B; le_decode key] = le_decode <$> [salt; client_A o secret; le_encode 32 B; key])
    by (cbn [fmap list_fmap]; by rewrite EBf).
  unfold srp_M, Finalize, UpdateData. cbn [app]. rewrite Ef, srp_Ng_field.
  change (zip_with Z.lxor _ _) with (client_group SHA1 o).
  change [le_decode (client_group SHA1 o)] with (le_decode <$> [client_group SHA1 o]).
  rewrite !UpdateBigNumbers_fields by (repeat (constructor; [assumption|]); constructor).
  cbn [concat app]. rewrite !app_nil_r, <- app_assoc. apply SetBinary_value, sha1_ok.
Qed.

Lemma client_M2_value : srp_M2 A M1 K = client_M2 SHA1 o login digest secret.
Proof using All.
  destruct sound_fields as (_ & HA & _ & HK & _ & HM & _). rewrite client_M1_value, client_K_value.
  set (key := client_K SHA1 o digest secret) in *. set (proof := client_M1 SHA1 o login digest secret) in *.
  unfold srp_M2, Finalize. change [A; le_decode proof; le_decode key] with (le_decode <$> [client_A o secret; proof; key]).
  rewrite UpdateBigNumbers_fields by (repeat (constructor; [assumption|]); constructor).
  cbn [concat app]. by rewrite app_nil_r.
Qed.

Lemma client_ranges : 0 < A < 256 ^ 32 /\ 256 ^ 19 <= M1.
Proof using All.
  destruct sound_fields as (_ & (HA1 & HA2 & HA3) & _ & _ & _ & (HM1 & HM2 & HM3) & _).
  pose proof (last_byte_range _ HA1 HA2 HA3) as HA. unfold client_A at 1 3 in HA. rewrite length_le_encode in HA.
  pose proof (last_byte_range _ HM1 HM2 HM3) as HM. unfold client_M1 at 1 3 in HM. rewrite sha1_length in HM.
  rewrite client_M1_value. split; [split; [|exact (proj2 HA)] | exact (proj1 HM)].
  eapply Z.lt_le_trans; [|exact (proj1 HA)]. reflexivity.
Qed.
End agree.

Lemma client_packet o login digest secret tail_ :
  [AUTH_LOGON_PROOF] ++ client_A o secret ++ client_M1 SHA1 o login digest secret ++ tail_ =
  proof_packet (le_decode (client_A o secret)) (le_decode (client_M1 SHA1 o login digest secret)) tail_.
Proof.
  unfold proof_packet. f_equal. f_equal; [|f_equal]; symmetry.
  - rewrite <- (length_le_encode 32 (offered_pow o secret)) at 1. apply le_encode_decode, le_encode_ok.
  - rewrite <- (sha1_length (client_group SHA1 o ++ SHA1 login ++ of_salt o ++ client_A o secret ++ of_B o ++
                             client_K SHA1 o digest secret)). apply le_encode_decode, sha1_ok.
Qed.

(** C11: SRP6 as the login server computes it agrees with a client that is written
    from the protocol, with every value a field of its full size.  An account
    either has a verifier of the password or gets one from its stored hash when it
    is challenged; the client reads the answer to the challenge, and the proof
    it computes from it and from the digest of the password is accepted: the
    connection is authorised, keeps and stores the key the client has, and answers
    with the proof the client expects.  This holds for a client of an accepted version
    and when the salt, the server's public value and the values of the client have no
    zero as their last byte: otherwise [AsByteArray] shortens or shifts the value, and
    the server refuses the client ([short_value_refused]). *)
Theorem srp_login_accepted e (a : AuthSocket) (ch : list Z) (acc : AccountRow)
    (digest salt tail_ rest : list Z) (secret : Z) :
  registered e acc digest salt -> bytes_ok digest -> length digest = 20%nat ->
  bytes_ok salt -> length salt = 32%nat -> last salt <> Some 0 ->
  0 <= rand_b e -> 0 <= secret -> _expversion a <> NO_VALID_EXP_FLAG -> length tail_ = 22%nat ->
  let a1 := run_state (challenge_success e ch acc) a in
  let o := read_offer (run_value (challenge_success e ch acc) a) in
  256 ^ 31 <= srp_B a1 -> no_short_value SHA1 o (_login a) digest secret ->
  let proof := [AUTH_LOGON_PROOF] ++ client_A o secret ++ client_M1 SHA1 o (_login a) digest secret ++ tail_ in
  let run := _HandleLogonProof e (set_input (fun _ => proof ++ rest) a1) in
  run.1.1 = true /\ _authed run.1.2 = true /\ input_buffer run.1.2 = rest /\
  srp_K run.1.2 = le_decode (client_K SHA1 o digest secret) /\
  DbSetLogonProof (AsHexStr (srp_K run.1.2)) (c_str (remote_address e)) (GetLocaleByName (_localizationName a1)) (_login a)
    ∈ run.2 /\
  exists more, Send ([AUTH_LOGON_PROOF; 0] ++ client_M2 SHA1 o (_login a) digest secret ++ more) ∈ run.2.
Proof.
  intros Hreg Hd Hdl Hs Hsl Hs0 Hb Hsec Hexp Ht a1 o HB31 Hfull proof run.
  destruct (challenge_runs e ch acc a digest salt Hreg Hd Hdl Hs Hsl Hs0) as (Fs & Fv & Fb & FB & Fl & Fe & Fans).
  fold a1 in Fs, Fv, Fb, FB, Fl, Fe, Fans. set (v := password_verifier digest salt) in *. set (B := srp_B a1) in *.
  assert (HB : 256 ^ 31 <= B < 256 ^ 32).
  { split; [exact HB31|]. rewrite FB, srp_public_value by (lia || apply password_verifier_range).
    pose proof (mod_N_range (3 * v + g ^ rand_b e)). assert (N < 256 ^ 32) by reflexivity. lia. }
  assert (Eo : o = mkOffer (le_encode 32 B) [7] (le_encode 32 N) salt).
  { unfold o. rewrite Fans. fold B. by apply offer_read. }
  clearbody o. subst o.
  assert (EB : B = (3 * v + g ^ rand_b e) mod N) by (rewrite FB; by apply srp_public_value; [apply password_verifier_range|]).
  pose proof (client_K_value B (rand_b e) (_login a) digest salt secret Hs Hsl Hs0 HB EB Hb Hsec Hfull) as EK.
  pose proof (client_M1_value B (rand_b e) (_login a) digest salt secret Hs Hsl Hs0 HB EB Hb Hsec Hfull) as EM.
  pose proof (client_M2_value B (rand_b e) (_login a) digest salt secret Hs Hsl Hs0 HB EB Hb Hsec Hfull) as E2.
  destruct (client_ranges B (rand_b e) (_login a) digest salt secret Hs Hsl Hs0 HB EB Hb Hsec Hfull) as [HA HM].
  set (o := mkOffer _ _ _ _) in *.
  assert (Ep : proof = proof_packet (le_decode (client_A o secret)) (le_decode (client_M1 SHA1 o (_login a) digest secret)) tail_)
    by apply client_packet.
  set (a2 := set_input (fun _ => proof ++ rest) a1).
  assert (EK2 : srp_key (srp_S (srp_v a2) (srp_b a2) (le_decode (client_A o secret)) (srp_B a2)) = le_decode (client_K SHA1 o digest secret)).
  { change (srp_v a2) with (srp_v a1). change (srp_b a2) with (srp_b a1). change (srp_B a2) with B. by rewrite Fv, Fb. }
  pose proof (LogonProof_accepts e a2 (le_decode (client_A o secret)) tail_ rest Ht HA ltac:(by rewrite <- Fe in Hexp)) as P.
  cbv zeta in P. change (srp_s a2) with (srp_s a1) in P. change (srp_B a2) with B in P.
  change (_login a2) with (_login a1) in P. change (srp_v a2) with (srp_v a1) in P. change (srp_b a2) with (srp_b a1) in P.
  change (_localizationName a2) with (_localizationName a1) in P.
  rewrite Fs, Fv, Fb, Fl in P. fold v in EK, EM, HM, E2. rewrite EM in P, HM, E2. rewrite <- Ep in P.
  destruct (P HM eq_refl) as (R1 & R2 & R3 & R4 & R5 & R6). rewrite E2 in R6.
  fold a2 in run. fold run in R1, R2, R3, R4, R5, R6.
  split_and!; try assumption; [by rewrite R4, EK | by rewrite R4].
Qed.

(** C40: The safeguard against a zero public value tests [A = 0] only.  A client
    that sends [A = N] makes the shared secret 0 whatever the verifier is: the
    proof it needs is a function of public values, and the server accepts it,
    authorises the connection and overwrites the account's session key, without
    the password ever entering the computation. *)
Theorem srp_accepts_A_equal_N e (a : AuthSocket) (tail_ rest : list Z) :
  length tail_ = 22%nat -> 0 <= srp_v a -> 0 < srp_b a -> _expversion a <> NO_VALID_EXP_FLAG ->
  let K := srp_key 0 in
  let M1 := srp_M (_login a) (srp_s a) N (srp_B a) K in
  256 ^ 19 <= M1 -> input_buffer a = proof_packet N M1 tail_ ++ rest ->
  let run := _HandleLogonProof e a in
  run.1.1 = true /\ _authed run.1.2 = true /\ srp_K run.1.2 = K /\
  DbSetLogonProof (AsHexStr K) (c_str (remote_address e)) (GetLocaleByName (_localizationName a)) (_login a)
    ∈ run.2.
Proof.
  intros Ht Hv Hb Hexp K M1 HM Hin run.
  assert (HS : srp_S (srp_v a) (srp_b a) N (srp_B a) = 0).
  { rewrite srp_S_value by (lia || discriminate).
    assert (E : eqN (N * srp_v a ^ srp_u N (srp_B a)) 0).
    { constructor. rewrite Z.mul_comm. apply Z.mod_mul. discriminate. }
    apply (eqN_eq _ 0). rewrite E. rewrite Z.pow_0_l by lia. reflexivity. }
  assert (HK : K = srp_key (srp_S (srp_v a) (srp_b a) N (srp_B a))) by (by rewrite HS).
  pose proof (LogonProof_accepts e a N tail_ rest Ht ltac:(split; reflexivity) Hexp) as P.
  cbv zeta in P. rewrite <- HK in P. destruct (P HM Hin) as (R1 & R2 & _ & R4 & R5 & _). by split_and!.
Qed.
End agreement.

(** ** Version and realm list *)

Lemma uwrap_idem_mod w v : uwrap w v mod 2 ^ w = v mod 2 ^ w.
Proof.
  unfold uwrap. destruct (Z.eq_dec (2 ^ w) 0) as [->|]; [by rewrite !Z.mod_0_r | by apply Z.mod_mod].
Qed.

(** A client of a Cataclysm build loses its version when it reconnects:
    [_HandleReconnectChallenge] computes the expansion flags without the one
    [_HandleLogonChallenge] sets for these builds, so the connection is left with
    no valid version, and its realm list holds every realm whatever its build. *)
Lemma reconnect_forgets_cataclysm `{OpenSSL} e (a : AuthSocket) :
  run_value (_HandleReconnectChallenge e) a = true ->
  let a' := run_state (_HandleReconnectChallenge e) a in
  IsPostWotLKAcceptedClientBuild (_build a') = true ->
  logon_expversion (_build a') = POST_WOTLK_EXP_FLAG /\
  _expversion a' = NO_VALID_EXP_FLAG /\
  listed_realms a' = realms_in_order (realmList a').
Proof.
  intros Hok a' Hb.
  assert (He : _expversion a' = reconnect_expversion (_build a')).
  { unfold a'. revert Hok. unfold _HandleReconnectChallenge. rewrite run_value_bind, run_state_bind.
    destruct (run_value read_challenge a) as [ch|]; [|discriminate].
    set (a1 := run_state read_challenge a). clearbody a1.
    rewrite run_value_bind, run_state_bind. destruct (get_sessionkey e (ch_login ch)) as [[sk gl]|].
    - intros _. reflexivity.
    - rewrite run_value_bind. discriminate. }
  assert (Hcases : _build a' ∈ [13623; 13596; 13329]).
  { unfold IsPostWotLKAcceptedClientBuild, POST_WOTLK_ACCEPTED_CLIENT_BUILD in Hb. cbn [accepted_in] in Hb.
    cbn [Z.eqb] in Hb.
    repeat (match type of Hb with context [?x =? ?y] => destruct (Z.eqb_spec x y) as [->|] end; [set_solver|]).
    discriminate. }
  assert (Hflags : logon_expversion (_build a') = POST_WOTLK_EXP_FLAG /\
                   reconnect_expversion (_build a') = NO_VALID_EXP_FLAG).
  { set_unfold in Hcases. destruct Hcases as [->|[->|[->|[]]]]; split; reflexivity. }
  destruct Hflags as [Hl Hr]. rewrite Hr in He. split_and!; [exact Hl | exact He|].
  unfold listed_realms, realm_compatible. rewrite He. cbn.
  induction (realms_in_order (realmList a')) as [|x l IH]; [reflexivity|].
  rewrite filter_cons_True by exact I. by rewrite IH.
Qed.

Lemma realms_in_order_perm rl : realms_in_order rl ≡ₚ map_to_list (m_realms rl).
Proof. apply merge_sort_Permutation. Qed.

(** The realm list a client receives holds exactly the realms compatible with
    its version, each once; the packet announces its own length in bytes and the
    number of realms (each truncated to the width of its field). *)
Lemma realm_list_framing e (a : AuthSocket) (id : Z) :
  let pkt := realm_list_packet e a id in
  (forall name r, (name, r) ∈ listed_realms a <->
     m_realms (realmList a) !! name = Some r /\
     realm_compatible (_expversion a) (_build a) r = true) /\
  NoDup (listed_realms a).*1 /\
  head pkt = Some REALM_LIST /\
  le_decode (bytes_at 1 2 pkt) = (Z.of_nat (length pkt) - 3) mod 2 ^ 16 /\
  le_decode (bytes_at 7 (if modern (_expversion a) then 2 else 4) pkt) =
    Z.of_nat (length (listed_realms a)) mod 2 ^ (if modern (_expversion a) then 16 else 32).
Proof.
  intros pkt. split_and!.
  - intros name r. unfold listed_realms. rewrite list_elem_of_filter. simpl.
    rewrite realms_in_order_perm, elem_of_map_to_list.
    destruct (realm_compatible _ _ r); simpl; split; intros [? ?]; try done.
  - unfold listed_realms. eapply sublist_NoDup; [|apply fmap_sublist, sublist_filter].
    rewrite realms_in_order_perm. apply NoDup_fst_map_to_list.
  - reflexivity.
  - unfold pkt, realm_list_packet. set (body := concat _ ++ _). set (sizes := ser (FU 4 0 :: _)).
    change (ser [FU 1 REALM_LIST; FU 2 (u16 (Z.of_nat (length body) + Z.of_nat (length sizes)))])
      with ([REALM_LIST] ++ le_encode 2 (u16 (Z.of_nat (length body) + Z.of_nat (length sizes))) ++ []).
    rewrite app_nil_r. unfold bytes_at. rewrite <- app_assoc.
    rewrite drop_app_length' by reflexivity. rewrite take_app_length' by (symmetry; apply length_le_encode).
    rewrite le_decode_encode. change (8 * Z.of_nat 2) with 16. rewrite uwrap_idem_mod.
    f_equal. rewrite !length_app, length_le_encode. cbn [length]. lia.
  - unfold pkt, realm_list_packet. set (body := concat _ ++ _).
    set (cnt := Z.of_nat (length (listed_realms a))).
    set (hdr := ser [FU 1 REALM_LIST; _]).
    assert (Hh : length hdr = 3%nat) by reflexivity.
    unfold bytes_at. destruct (modern (_expversion a)).
    + change (ser [FU 4 0; FU 2 (u16 cnt)]) with ([0; 0; 0; 0] ++ le_encode 2 (u16 cnt)).
      rewrite <- app_assoc, app_assoc.
      rewrite drop_app_length' by (rewrite length_app, Hh; reflexivity).
      rewrite take_app_length' by (symmetry; apply length_le_encode). rewrite le_decode_encode.
      apply uwrap_idem_mod.
    + change (ser [FU 4 0; FU 4 (u32 cnt)]) with ([0; 0; 0; 0] ++ le_encode 4 (u32 cnt)).
      rewrite <- app_assoc, app_assoc.
      rewrite drop_app_length' by (rewrite length_app, Hh; reflexivity).
      rewrite take_app_length' by (symmetry; apply length_le_encode). rewrite le_decode_encode.
      apply uwrap_idem_mod.
Qed.

(** ** Fragmentation *)

Lemma bytes_at_take from n k p : (from + n <= k)%nat -> bytes_at from n (take k p) = bytes_at from n p.
Proof.
  intros Hk. unfold bytes_at. rewrite skipn_firstn_comm, firstn_firstn. f_equal. lia.
Qed.

(** A complete logon challenge: its size field counts what follows the header. *)
Definition challenge_packet (p : list Z) : Prop :=
  Z.of_nat (length p) = 4 + le_decode (bytes_at 2 2 p) /\ sizeof_challenge <= Z.of_nat (length p).

(** A logon challenge that arrives in one piece is answered; the same packet
    cut after at least its fixed part loses its four-byte header: the handler
    takes the header off the buffer before it finds the rest missing, sends
    nothing, and the next read is parsed from the middle of the packet. *)
Lemma challenge_split_desync `{OpenSSL} e (a : AuthSocket) (p : list Z) (k : nat) :
  challenge_packet p ->
  (input_buffer a = p ->
     run_value (_HandleLogonChallenge e) a = true /\
     exists d, Send d ∈ run_log (_HandleLogonChallenge e) a) /\
  (input_buffer a = take k p -> (35 <= k < length p)%nat ->
     _HandleLogonChallenge e a = (false, set_input (fun _ => drop 4 (take k p)) a, [])).
Proof.
  intros [Hlen Hmin]. unfold sizeof_challenge in Hmin. split.
  - intros Hin. unfold _HandleLogonChallenge. rewrite run_value_bind, run_log_bind.
    assert (Hc : exists ch, run_value read_challenge a = Some ch).
    { unfold run_value. rewrite read_challenge_eq. unfold recv_len, sizeof_challenge. cbn [input_buffer set_input].
      rewrite Hin, length_drop. rewrite (proj2 (Z.ltb_ge _ _)) by lia. cbv zeta.
      assert (E : bytes_at 2 2 (take 4 p) = bytes_at 2 2 p)
        by (apply bytes_at_take; lia).
      rewrite E. rewrite (proj2 (Z.ltb_ge (le_decode (bytes_at 2 2 p)) _)), (proj2 (Z.ltb_ge _ (le_decode _))) by lia.
      eexists. reflexivity. }
    destruct Hc as [ch ->].
    split.
    + repeat (rewrite run_value_bind). reflexivity.
    + eexists. apply elem_of_app. right. rewrite !run_log_bind.
      do 3 (apply elem_of_app; right). apply elem_of_app. left. left.
  - intros Hin Hk. unfold _HandleLogonChallenge, bind at 1. rewrite read_challenge_eq.
    unfold recv_len, sizeof_challenge. cbn [input_buffer set_input]. rewrite Hin, length_drop, length_take.
    rewrite (proj2 (Z.ltb_ge _ _)) by lia. cbv zeta.
    assert (E : bytes_at 2 2 (take 4 (take k p)) = bytes_at 2 2 p) by (rewrite !bytes_at_take by lia; reflexivity).
    rewrite E. rewrite (proj2 (Z.ltb_ge (le_decode (bytes_at 2 2 p)) _)), (proj2 (Z.ltb_lt _ (le_decode _))) by lia.
    cbn [orb]. unfold set_input. rewrite Hin. reflexivity.
Qed.

(** ** Witnesses

    Concrete runs over [toy_ssl]. *)

#[local] Existing Instance toy_ssl.
#[local] Existing Instance toy_ssl_laws.

Definition wit_account : AccountRow := mkAccount (text "5EBE2294ECD0E0F08EAB7690D2A6EE6926AE5CC8") 7 0 [] 0 [] [].
Definition wit_realms : RealmList :=
  RealmList_Initialize [mkRealmRow 1 (text "Outland") (text "10.0.0.1") 8085 0 0 1 0 0 13623;
                        mkRealmRow 2 (text "Azeroth") (text "10.0.0.2") 8085 0 0 1 0 0 12340] 0 0.
Definition wit_salt_number : Z := 0xC0FFEE0123456789ABCDEF0123456789ABCDEF0123456789ABCDEF0123456789.
Definition wit_env : AuthEnv :=
  mkAuthEnv (text "10.0.0.9") (fun _ => false)
    (fun login => if bool_decide (login = text "BOB") then Some wit_account else None)
    (fun _ => None) (fun login => if bool_decide (login = text "BOB") then Some (text "11FF", 0) else None)
    (fun _ => None) (fun login => if bool_decide (login = text "BOB") then Some 7 else None)
    (fun _ _ => None) [] 100 0 0 false wit_salt_number 0xFEDC 99 0x123456789 [] false.

(** The logon (or reconnect) challenge of a client of build 13623. *)
Definition wit_challenge (cmd : Z) : list Z :=
  [cmd; 0] ++ le_encode 2 33 ++ text "WoW" ++ [0; 4; 0; 6] ++ le_encode 2 13623 ++ text "68x" ++ [0] ++
  text "niW" ++ [0] ++ text "SUne" ++ [0; 0; 0; 0] ++ [127; 0; 0; 1] ++ [3] ++ text "BOB".

(** The connection after its logon challenge, with the bytes that arrive next. *)
Definition wit_connected : AuthSocket := Eval vm_compute in
  run_state (handle_input (wit_challenge AUTH_LOGON_CHALLENGE) (fun _ => wit_env)) (new_AuthSocket 0 wit_realms).
Definition wit_challenged (data : list Z) : AuthSocket := set_input (fun _ => data) wit_connected.

(** The bytes of the password's digest, and the client's side: the offer it reads
    in the answer, and its proof. *)
Definition wit_digest : list Z :=
  [0x5E; 0xBE; 0x22; 0x94; 0xEC; 0xD0; 0xE0; 0xF0; 0x8E; 0xAB; 0x76; 0x90; 0xD2; 0xA6; 0xEE; 0x69; 0x26; 0xAE; 0x5C; 0xC8].
Definition wit_salt : list Z := le_encode 32 wit_salt_number.
Definition wit_secret : Z := 0x5EC2E7.
Definition wit_checksum : list Z := replicate 22 0.
Definition wit_named : AuthSocket :=
  set_client (text "BOB") 13623 (logon_expversion 13623) (new_AuthSocket 0 wit_realms).
Definition wit_answer (e : AuthEnv) : list Z :=
  run_value (challenge_success e (wit_challenge AUTH_LOGON_CHALLENGE ++ [0]) wit_account) wit_named.
Definition wit_client_proof (o : srp_offer) (secret : Z) : list Z :=
  [AUTH_LOGON_PROOF] ++ client_A o secret ++ client_M1 SHA1 o (text "BOB") wit_digest secret ++ wit_checksum.
Definition wit_proof : list Z := Eval vm_compute in wit_client_proof (read_offer (wit_answer wit_env)) wit_secret.
(** The connection and the events after the proof of a client with this secret. *)
Definition wit_proved (secret : Z) : bool * AuthSocket * list auth_event :=
  _HandleLogonProof wit_env (set_input (fun _ => wit_client_proof (read_offer (wit_answer wit_env)) secret ++ [REALM_LIST])
    (run_state (challenge_success wit_env (wit_challenge AUTH_LOGON_CHALLENGE ++ [0]) wit_account) wit_named)).
Definition wit_M1 (A S : Z) : Z :=
  srp_M (_login wit_connected) (srp_s wit_connected) A (srp_B wit_connected) (srp_key S).
Definition wit_bad_proof : list Z := Eval vm_compute in proof_packet N (wit_M1 N 0) wit_checksum.

Lemma srp_login_accepted_witness :
  _authed (wit_proved wit_secret).1.2 = true /\ input_buffer (wit_proved wit_secret).1.2 = [REALM_LIST].
Proof.
  destruct (srp_login_accepted wit_env wit_named (wit_challenge AUTH_LOGON_CHALLENGE ++ [0]) wit_account
              wit_digest wit_salt wit_checksum [REALM_LIST] wit_secret) as (_ & R1 & R2 & _).
  - apply registered_fresh; [left; vm_compute; discriminate | vm_compute; reflexivity | vm_compute; reflexivity].
  - repeat (constructor; [unfold is_byte; lia|]). constructor.
  - reflexivity.
  - apply le_encode_ok.
  - apply length_le_encode.
  - vm_compute. discriminate.
  - vm_compute. discriminate.
  - vm_compute. discriminate.
  - vm_compute. discriminate.
  - reflexivity.
  - vm_compute. discriminate.
  - unfold no_short_value. repeat (constructor; [vm_compute; discriminate|]). constructor.
  - exact (conj R1 R2).
Defined.

(** A client that follows the protocol and knows the password, but whose public value
    has 31 bytes, is refused: the server hashes the value without its zero. *)
Example short_value_refused : _authed (wit_proved 0x5FB7).1.2 = false.
Proof. vm_compute. reflexivity. Qed.

Lemma srp_accepts_A_equal_N_witness :
  _authed (_HandleLogonProof wit_env (wit_challenged (wit_bad_proof ++ []))).1.2 = true.
Proof.
  destruct (srp_accepts_A_equal_N wit_env (wit_challenged (wit_bad_proof ++ [])) wit_checksum []) as (_ & R & _).
  - reflexivity.
  - vm_compute. discriminate.
  - vm_compute. reflexivity.
  - vm_compute. discriminate.
  - vm_compute. discriminate.
  - vm_compute. reflexivity.
  - exact R.
Defined.

Lemma reconnect_forgets_cataclysm_witness :
  let a := set_input (fun _ => wit_challenge AUTH_RECONNECT_CHALLENGE) (new_AuthSocket 0 wit_realms) in
  let a' := run_state (_HandleReconnectChallenge wit_env) a in
  _build a' = 13623 /\ _expversion a' = NO_VALID_EXP_FLAG.
Proof.
  intros a a'. split; [vm_compute; reflexivity|].
  apply (reconnect_forgets_cataclysm wit_env a); vm_compute; reflexivity.
Defined.

Lemma challenge_split_desync_witness :
  input_buffer (run_state (_HandleLogonChallenge wit_env)
    (set_input (fun _ => take 36 (wit_challenge AUTH_LOGON_CHALLENGE)) (new_AuthSocket 0 wit_realms))) =
  drop 4 (take 36 (wit_challenge AUTH_LOGON_CHALLENGE)).
Proof.
  unfold run_state.
  rewrite (proj2 (challenge_split_desync wit_env
    (set_input (fun _ => take 36 (wit_challenge AUTH_LOGON_CHALLENGE)) (new_AuthSocket 0 wit_realms))
    (wit_challenge AUTH_LOGON_CHALLENGE) 36 ltac:(split; [vm_compute; reflexivity | vm_compute; discriminate]))
    ltac:(reflexivity) ltac:(split; apply leb_complete; vm_compute; reflexivity)).
  reflexivity.
Defined.

(** A whole session: challenge, proof, realm list. *)
Lemma realm_list_needs_proof_witness :
  let data := wit_proof ++ [REALM_LIST; 0; 0; 0; 0] in
  exists a log, connection a log /\ granted log /\
    length (List.filter (fun x => match x with Send _ => true | _ => false end) log) = 3%nat.
Proof.
  intros data.
  pose proof (conn_data _ _ (wit_challenge AUTH_LOGON_CHALLENGE) (fun _ => wit_env) (conn_open 0 wit_realms)) as Hc.
  pose proof (conn_data _ _ data (fun _ => wit_env) Hc) as Hc2.
  do 2 eexists. split; [exact Hc2|]. split; [|vm_compute; reflexivity].
  apply (realm_list_needs_proof _ _ Hc2). vm_compute. reflexivity.
Defined.
