(* ===== verification/AuthCrypt.v ===== *)
(** * Encryption of the packet headers

    [ARC4], [HmacHash] and [AuthCrypt] of src/src/server/shared/Cryptography.  RC4 and
    HMAC-SHA1 are OpenSSL's: the class [Evp] has them as a keystream generator
    and a function, with what the code relies on as [EvpLaws]. *)
From S2P Require Import Prelude Crypto.

Class Evp := {
  (** [EVP_CIPHER_CTX] for [EVP_rc4]: before and after it has a key. *)
  Rc4 : Type;
  rc4_context : Z -> Rc4;
  rc4_key : list Z -> Rc4 -> Rc4;
  (** [EVP_EncryptUpdate]: the output and the context after it. *)
  rc4_update : Rc4 -> list Z -> list Z * Rc4;
  (** [HMAC_Init_ex], [HMAC_Update] and [HMAC_Final] with [EVP_sha1]. *)
  HMAC_SHA1 : list Z -> list Z -> list Z
}.

(** RC4 is a stream cipher: it handles a message in pieces of any size, and
    applying it twice from the same context gives the message back. *)
Class EvpLaws `{Evp} : Prop := {
  rc4_length : forall c data, length (rc4_update c data).1 = length data;
  rc4_append : forall c d1 d2,
    let '(o1, c1) := rc4_update c d1 in
    let '(o2, c2) := rc4_update c1 d2 in rc4_update c (d1 ++ d2) = (o1 ++ o2, c2);
  rc4_involutive : forall c data, bytes_ok data ->
    rc4_update c (rc4_update c data).1 = (data, (rc4_update c data).2);
  rc4_bytes : forall c data, bytes_ok data -> bytes_ok (rc4_update c data).1
}.

Section crypt.
Context `{OpenSSL, Evp}.

(** ** [ARC4] and [HmacHash] *)

Definition new_ARC4 (len : Z) : Rc4 := rc4_context len.
Definition ARC4_Init (seed : list Z) (c : Rc4) : Rc4 := rc4_key seed c.
Definition ARC4_UpdateData (data : list Z) (c : Rc4) : list Z * Rc4 := rc4_update c data.
Definition ComputeHash (seed : list Z) (bn : Z) : list Z := HMAC_SHA1 seed (AsByteArray bn 0 true).

(** ** [AuthCrypt] *)

Record AuthCrypt := mkCrypt {
  _clientDecrypt : Rc4;
  _serverEncrypt : Rc4;
  _initialized : bool
}.

Definition SHA_DIGEST_LENGTH : Z := 20.
Definition new_AuthCrypt : AuthCrypt :=
  mkCrypt (new_ARC4 SHA_DIGEST_LENGTH) (new_ARC4 SHA_DIGEST_LENGTH) false.

Definition ServerEncryptionKey : list Z :=
  [0xCC; 0x98; 0xAE; 0x04; 0xE8; 0x97; 0xEA; 0xCA; 0x12; 0xDD; 0xC0; 0x93; 0x42; 0x91; 0x53; 0x57].
Definition ServerDecryptionKey : list Z :=
  [0xC2; 0xB3; 0x72; 0x3C; 0xC6; 0xAE; 0xD9; 0xB5; 0x34; 0x3C; 0x53; 0xEE; 0x2F; 0x43; 0x67; 0xCE].

Definition AuthCrypt_Init (K : Z) (c : AuthCrypt) : AuthCrypt :=
  let encryptHash := ComputeHash ServerEncryptionKey K in
  let decryptHash := ComputeHash ServerDecryptionKey K in
  let clientDecrypt := ARC4_Init decryptHash (_clientDecrypt c) in
  let serverEncrypt := ARC4_Init encryptHash (_serverEncrypt c) in
  let syncBuf := replicate 1024 0 in
  mkCrypt (ARC4_UpdateData syncBuf clientDecrypt).2 (ARC4_UpdateData syncBuf serverEncrypt).2 true.

Definition DecryptRecv (data : list Z) (c : AuthCrypt) : list Z * AuthCrypt :=
  if negb (_initialized c) then (data, c)
  else let '(out, d) := ARC4_UpdateData data (_clientDecrypt c) in
       (out, mkCrypt d (_serverEncrypt c) (_initialized c)).

Definition EncryptSend (data : list Z) (c : AuthCrypt) : list Z * AuthCrypt :=
  if negb (_initialized c) then (data, c)
  else let '(out, d) := ARC4_UpdateData data (_serverEncrypt c) in
       (out, mkCrypt (_clientDecrypt c) d (_initialized c)).
End crypt.

(** ** The other side

    What a client does that shares the key: it runs the same two generators. *)

Section peer.
Context `{OpenSSL, EvpLaws}.

(** The bytes a client puts on the wire for a header the server will decrypt
    with [c]. *)
Definition client_encrypt (c : AuthCrypt) (data : list Z) : list Z :=
  if _initialized c then (rc4_update (_clientDecrypt c) data).1 else data.

Definition after_recv (c : AuthCrypt) (data : list Z) : AuthCrypt := (DecryptRecv (client_encrypt c data) c).2.

Lemma length_client_encrypt c data : length (client_encrypt c data) = length data.
Proof. unfold client_encrypt. destruct (_initialized c); [apply rc4_length | reflexivity]. Qed.

Lemma DecryptRecv_client c data : bytes_ok data ->
  (DecryptRecv (client_encrypt c data) c).1 = data.
Proof.
  intros Hb. unfold DecryptRecv, client_encrypt, ARC4_UpdateData. destruct (_initialized c); [|reflexivity].
  cbn [negb]. rewrite rc4_involutive by exact Hb. reflexivity.
Qed.

Lemma length_EncryptSend c data : length (EncryptSend data c).1 = length data.
Proof.
  unfold EncryptSend, ARC4_UpdateData. destruct (_initialized c); [|reflexivity]. cbn [negb].
  pose proof (rc4_length (_serverEncrypt c) data) as Hl. destruct (rc4_update _ _). exact Hl.
Qed.
Lemma length_DecryptRecv c data : length (DecryptRecv data c).1 = length data.
Proof.
  unfold DecryptRecv, ARC4_UpdateData. destruct (_initialized c); [|reflexivity]. cbn [negb].
  pose proof (rc4_length (_clientDecrypt c) data) as Hl. destruct (rc4_update _ _). exact Hl.
Qed.
End peer.

(** ** A concrete cipher

    A counter as the context; byte [n] of its keystream is [n] times 7. *)

Fixpoint counter_stream (c : Z) (data : list Z) : list Z :=
  match data with
  | [] => []
  | x :: rest => Z.lxor x ((c * 7) mod 256) :: counter_stream (c + 1) rest
  end.
Definition toy_evp : Evp := {|
  Rc4 := Z;
  rc4_context _ := 0;
  rc4_key seed _ := le_decode seed mod 1000;
  rc4_update c data := (counter_stream c data, c + Z.of_nat (length data));
  HMAC_SHA1 seed data := checksum (seed ++ data)
|}.

Lemma length_counter_stream c data : length (counter_stream c data) = length data.
Proof. revert c. induction data as [|x data IH]; intros c; simpl; [reflexivity|]. by rewrite IH. Qed.

Lemma lxor_byte x y : is_byte x -> is_byte y -> is_byte (Z.lxor x y).
Proof.
  unfold is_byte. intros Hx Hy. assert (H0 : 0 <= Z.lxor x y) by (apply Z.lxor_nonneg; lia).
  split; [exact H0|]. destruct (Z.eq_dec (Z.lxor x y) 0) as [->|]; [lia|].
  apply (Z.log2_lt_pow2 _ 8); [lia|]. pose proof (Z.log2_lxor x y ltac:(lia) ltac:(lia)) as Hl.
  assert (Z.log2 x < 8 /\ Z.log2 y < 8); [|lia].
  split; [destruct (Z.eq_dec x 0) as [->|]; [reflexivity|] | destruct (Z.eq_dec y 0) as [->|]; [reflexivity|]];
    apply Z.log2_lt_pow2; lia.
Qed.

Lemma counter_stream_bytes c data : bytes_ok data -> bytes_ok (counter_stream c data).
Proof.
  revert c. induction data as [|x data IH]; intros c Hb; [constructor|]. apply Forall_cons in Hb as [Hx Hb].
  constructor; [|by apply IH]. apply lxor_byte; [exact Hx|]. apply Z.mod_pos_bound. lia.
Qed.

Lemma counter_stream_twice c data : counter_stream c (counter_stream c data) = data.
Proof.
  revert c. induction data as [|x data IH]; intros c; simpl; [reflexivity|].
  by rewrite IH, Z.lxor_assoc, Z.lxor_nilpotent, Z.lxor_0_r.
Qed.

Lemma counter_stream_app c d1 d2 :
  counter_stream c (d1 ++ d2) = counter_stream c d1 ++ counter_stream (c + Z.of_nat (length d1)) d2.
Proof.
  revert c. induction d1 as [|x d1 IH]; intros c; simpl; [by rewrite Z.add_0_r|].
  rewrite IH. do 3 f_equal. lia.
Qed.

Lemma toy_evp_laws : EvpLaws (H := toy_evp).
Proof.
  split; cbn.
  - intros c data. apply length_counter_stream.
  - intros c d1 d2. rewrite counter_stream_app, length_app. f_equal. lia.
  - intros c data _. by rewrite counter_stream_twice, length_counter_stream.
  - intros c data. apply counter_stream_bytes.
Qed.
