(* ===== verification/WorldSocket.v ===== *)
(** * The game server's connections

    [WorldSocket] (src/src/server/game/Server/WorldSocket.cpp): cutting the byte stream
    of a client into packets, the instantly handled packets, the log-in to the
    world with [WorldSession::ReadAddonsInfo], and the output buffer and queue.

    A connection is driven by the bytes its peer delivers and by the answers of
    [send]; the [ServerPktHeader], the header and the payload are bytes.  The
    locks only serialise the calls and are left out. *)
From S2P Require Import Prelude Text ByteBuffer Crypto AuthCrypt.

(** ** Codes *)

Definition CMSG_PING : Z := 0x0064E.
Definition SMSG_PONG : Z := 0x0A01B.
Definition SMSG_AUTH_CHALLENGE : Z := 0x06019.
Definition CMSG_AUTH_SESSION : Z := 0x00E0E.
Definition SMSG_AUTH_RESPONSE : Z := 0x0B28C.
Definition CMSG_KEEP_ALIVE : Z := 0x02CE0.
Definition OPCODE_NOT_FOUND : Z := 0x10000.

Definition AUTH_FAILED : Z := 0x0D.
Definition AUTH_REJECT : Z := 0x0E.
Definition AUTH_UNAVAILABLE : Z := 0x10.
Definition AUTH_UNKNOWN_ACCOUNT : Z := 0x15.
Definition AUTH_BANNED : Z := 0x1C.

Definition SEC_PLAYER : Z := 0.
Definition TOTAL_LOCALES : Z := 9.
Definition LOCALE_enUS : Z := 0.

(** ** Headers *)

Definition isLargePacket (size : Z) : bool := 0x7FFF <? size.
Definition ServerPktHeader (size cmd : Z) : list Z :=
  (if isLargePacket size then [Z.lor 0x80 (Z.land 0xFF (Z.shiftr size 16))] else []) ++
  [Z.land 0xFF (Z.shiftr size 8); Z.land 0xFF size; Z.land 0xFF cmd; Z.land 0xFF (Z.shiftr cmd 8)].
Definition getHeaderLength (size : Z) : Z := 2 + (if isLargePacket size then 3 else 2).

(** [ClientPktHeader]: the size in network order, the command little-endian. *)
Definition sizeof_ClientPktHeader : nat := 6.
Definition header_size (h : list Z) : Z := be_decode (take 2 h).
Definition header_cmd (h : list Z) : Z := le_decode (take 4 (drop 2 h)).

(** ** The session of an account *)

Record AddonInfo := mkAddon { Addon_Name : list Z; Addon_Enabled : Z; Addon_CRC : Z }.

Record WorldSession := mkSession {
  ses_account : Z;
  ses_security : Z;
  ses_expansion : Z;
  ses_mutetime : Z;
  ses_locale : Z;
  ses_recruiter : Z;
  m_addonsList : list AddonInfo
}.

(** ** The environment of a packet

    The row of the [account] table, the answers of the database and of the world,
    the clock, and zlib's [uncompress]. *)

Record AccountInfo := mkAccountInfo {
  ai_id : Z;
  ai_sessionkey : list Z;
  ai_last_ip : list Z;
  ai_locked : Z;
  ai_expansion : Z;
  ai_mutetime : Z;
  ai_locale : Z;
  ai_recruiter : Z
}.

Record WorldEnv := mkWorldEnv {
  IsClosed : bool;
  account_by_name : list Z -> option AccountInfo;
  gmlevel_of : Z -> option Z;
  is_banned : Z -> list Z -> bool;
  GetPlayerSecurityLimit : Z;
  CONFIG_EXPANSION : Z;
  CONFIG_MAX_OVERSPEED_PINGS : Z;
  GetAddonInfo : list Z -> option AddonInfo;
  uncompress : Z -> list Z -> option (list Z);
  gettimeofday : Z    (** in microseconds *)
}.

(** What [peer().send] answers to one call, and [peer().recv]: an error, which
    may be that nothing has arrived ([EWOULDBLOCK]), or bytes, none at the end of
    the stream. *)
Inductive send_result :=
| SendError
| SendBlock
| SendAccept (n : Z).
Inductive recv_result :=
| RecvError (would_block : bool)
| RecvBytes (data : list Z).

(** A block of the output queue: the size it was allocated with and the bytes
    between its read and its write pointer. *)
Record ACE_Message_Block := mkBlock { mb_size : Z; mb_data : list Z }.

(** ** State *)

Section state.
Context `{OpenSSL, Evp}.

(** [m_RecvWPct] is the opcode and size of the packet under construction,
    [m_RecvPct] the payload received so far and [m_RecvPct_size] the size of the
    block it goes to. *)
Record Incoming := mkIn {
  m_Header : list Z;
  m_RecvWPct : option (Z * Z);
  m_RecvPct : list Z;
  m_RecvPct_size : Z
}.

(** [kernel] is what the operating system will answer to the next calls of
    [send]; past its end a call would block. *)
Record Outgoing := mkOut {
  m_OutBuffer : option (list Z);
  msg_queue : list ACE_Message_Block;
  m_OutActive : bool;
  kernel : list send_result
}.

(** [packets] counts the packets processed, which indexes the environments. *)
Record WorldSocket := mkSocket {
  closing_ : bool;
  m_LastPingTime : Z;
  m_OverSpeedPings : Z;
  m_Address : list Z;
  m_Seed : Z;
  m_Crypt : AuthCrypt;
  m_Session : option WorldSession;
  incoming : Incoming;
  outgoing : Outgoing;
  packets : nat
}.

Definition m_OutBufferSize : Z := 65536.
Definition high_water_mark : Z := 8 * 1024 * 1024.

Definition no_input : Incoming := mkIn [] None [] 0.
Definition new_WorldSocket (seed : Z) (k : list send_result) : WorldSocket :=
  mkSocket false 0 0 [] seed new_AuthCrypt None no_input (mkOut None [] false k) 0.

Definition set_closing (s : WorldSocket) : WorldSocket :=
  mkSocket true (m_LastPingTime s) (m_OverSpeedPings s) (m_Address s) (m_Seed s) (m_Crypt s)
    (m_Session s) (incoming s) (outgoing s) (packets s).
Definition set_ping (t n : Z) (s : WorldSocket) : WorldSocket :=
  mkSocket (closing_ s) t n (m_Address s) (m_Seed s) (m_Crypt s) (m_Session s) (incoming s) (outgoing s)
    (packets s).
Definition set_crypt (f : AuthCrypt -> AuthCrypt) (s : WorldSocket) : WorldSocket :=
  mkSocket (closing_ s) (m_LastPingTime s) (m_OverSpeedPings s) (m_Address s) (m_Seed s) (f (m_Crypt s))
    (m_Session s) (incoming s) (outgoing s) (packets s).
Definition set_session (ses : option WorldSession) (s : WorldSocket) : WorldSocket :=
  mkSocket (closing_ s) (m_LastPingTime s) (m_OverSpeedPings s) (m_Address s) (m_Seed s) (m_Crypt s)
    ses (incoming s) (outgoing s) (packets s).
Definition set_address (a : list Z) (s : WorldSocket) : WorldSocket :=
  mkSocket (closing_ s) (m_LastPingTime s) (m_OverSpeedPings s) a (m_Seed s) (m_Crypt s)
    (m_Session s) (incoming s) (outgoing s) (packets s).
Definition set_in (f : Incoming -> Incoming) (s : WorldSocket) : WorldSocket :=
  mkSocket (closing_ s) (m_LastPingTime s) (m_OverSpeedPings s) (m_Address s) (m_Seed s) (m_Crypt s)
    (m_Session s) (f (incoming s)) (outgoing s) (packets s).
Definition set_out (f : Outgoing -> Outgoing) (s : WorldSocket) : WorldSocket :=
  mkSocket (closing_ s) (m_LastPingTime s) (m_OverSpeedPings s) (m_Address s) (m_Seed s) (m_Crypt s)
    (m_Session s) (incoming s) (f (outgoing s)) (packets s).
Definition count_packet (s : WorldSocket) : WorldSocket :=
  mkSocket (closing_ s) (m_LastPingTime s) (m_OverSpeedPings s) (m_Address s) (m_Seed s) (m_Crypt s)
    (m_Session s) (incoming s) (outgoing s) (S (packets s)).
End state.

Inductive ws_event :=
| Transmit (bytes : list Z)
| Accepted (frame : list Z)
| Dropped (bytes : list Z)
| CloseWriter
| OnPacketReceive (opcode : Z) (payload : list Z)
| QueuePacket (ses : WorldSession) (opcode : Z) (body : list Z)
| SetLatency (account latency : Z)
| AddSession (ses : WorldSession)
| SaveAddon (addon : AddonInfo)
| DbSetLastIp (address account : list Z)
| Allocate (n : Z)
| NullDereference
| AssertionFailed.

(** ** Output *)

Section output.
Context `{OpenSSL, Evp}.

Abbreviation WM := (M WorldSocket ws_event).

Definition with_out {A} (k : Outgoing -> WM A) : WM A := with_state (fun s => k (outgoing s)).
Definition put_buffer (buf : option (list Z)) : WM unit :=
  modify (set_out (fun o => mkOut buf (msg_queue o) (m_OutActive o) (kernel o))).
Definition put_queue (q : list ACE_Message_Block) : WM unit :=
  modify (set_out (fun o => mkOut (m_OutBuffer o) q (m_OutActive o) (kernel o))).
Definition put_active (b : bool) : WM unit :=
  modify (set_out (fun o => mkOut (m_OutBuffer o) (msg_queue o) b (kernel o))).

(** One call of [peer().send]: the number of bytes it took, with [None] for an
    error and [Some 0] for a full socket. *)
Definition peer_send (block : list Z) : WM (option Z) := with_out (fun o =>
  let rest := match kernel o with [] => [] | _ :: k => k end in
  modify (set_out (fun o => mkOut (m_OutBuffer o) (msg_queue o) (m_OutActive o) rest)) ;;
  match kernel o with
  | [] | SendBlock :: _ => ret (Some 0)
  | SendError :: _ => ret None
  | SendAccept n :: _ =>
      let n := Z.min n (Z.of_nat (length block)) in
      if n <=? 0 then ret None
      else emit (Transmit (take (Z.to_nat n) block)) ;; ret (Some n)
  end).

Definition WRITE_MASK : Z := 2.
Definition cancel_wakeup_output : WM Z := with_out (fun o =>
  if negb (m_OutActive o) then ret 0 else put_active false ;; ret 0).
Definition schedule_wakeup_output : WM Z := with_out (fun o =>
  if m_OutActive o then ret 0 else put_active true ;; ret 0).

(** The queue counts the sizes its blocks were allocated with; it takes a block
    only below its high-water mark, and does not wait until it can. *)
Definition cur_bytes_ (q : list ACE_Message_Block) : Z := foldr (fun b n => mb_size b + n) 0 q.
Definition is_full (q : list ACE_Message_Block) : bool := high_water_mark <=? cur_bytes_ q.
Definition enqueue_tail (b : ACE_Message_Block) : WM Z := with_out (fun o =>
  if is_full (msg_queue o) then ret (-1) else put_queue (msg_queue o ++ [b]) ;; ret 0).
Definition enqueue_head (b : ACE_Message_Block) : WM Z := with_out (fun o =>
  if is_full (msg_queue o) then ret (-1) else put_queue (b :: msg_queue o) ;; ret 0).

(** The answer of [enqueue_head] is not looked at when nothing could be sent:
    [Dropped] marks the block that is lost then. *)
Definition handle_output_queue : WM Z := with_out (fun o =>
  match msg_queue o with
  | [] => cancel_wakeup_output
  | mblk :: q =>
      put_queue q ;;
      let! n := peer_send (mb_data mblk) in
      match n with
      | None => ret (-1)
      | Some n =>
          if n =? 0 then
            let! r := enqueue_head mblk in
            when (r =? -1) (emit (Dropped (mb_data mblk))) ;; schedule_wakeup_output
          else if n <? Z.of_nat (length (mb_data mblk)) then
            let! r := enqueue_head (mkBlock (mb_size mblk) (drop (Z.to_nat n) (mb_data mblk))) in
            if r =? -1 then ret (-1) else schedule_wakeup_output
          else if bool_decide (q = []) then cancel_wakeup_output else ret WRITE_MASK
      end
  end).

Definition handle_output : WM Z := with_state (fun s =>
  if closing_ s then ret (-1)
  else
    match m_OutBuffer (outgoing s) with
    | None => emit NullDereference ;; ret (-1)
    | Some [] => handle_output_queue
    | Some buf =>
        let! n := peer_send buf in
        match n with
        | None => ret (-1)
        | Some n =>
            if n =? 0 then schedule_wakeup_output
            else if n <? Z.of_nat (length buf) then
              put_buffer (Some (drop (Z.to_nat n) buf)) ;; schedule_wakeup_output
            else put_buffer (Some []) ;; handle_output_queue
        end
    end).

(** The loop of [Update]: every turn that goes on sends a block of the queue. *)
Fixpoint Update_loop (fuel : nat) : WM (option Z) :=
  match fuel with
  | O => ret None
  | S fuel' =>
      let! r := handle_output in
      if 0 <? r then Update_loop fuel' else ret (Some r)
  end.

Definition nothing_to_send (o : Outgoing) : bool :=
  match m_OutBuffer o with Some (_ :: _) => false | _ => bool_decide (msg_queue o = []) end.
Definition Update : WM (option Z) := with_state (fun s =>
  if closing_ s then ret (Some (-1))
  else if m_OutActive (outgoing s) || nothing_to_send (outgoing s) then ret (Some 0)
  else Update_loop (S (S (length (msg_queue (outgoing s)))))).

(** [SendPacket]: the opcode and the payload of the packet. *)
Definition SendPacket (opcode : Z) (pct : list Z) : WM Z := with_state (fun s =>
  if closing_ s then ret (-1)
  else if OPCODE_NOT_FOUND <? opcode then ret 0
  else
    let size := Z.of_nat (length pct) + 2 in
    let '(header, crypt) := EncryptSend (ServerPktHeader size opcode) (m_Crypt s) in
    modify (set_crypt (fun _ => crypt)) ;;
    match m_OutBuffer (outgoing s) with
    | None => emit NullDereference ;; ret (-1)
    | Some buf =>
        let q := msg_queue (outgoing s) in
        if (Z.of_nat (length pct) + getHeaderLength size <=? m_OutBufferSize - Z.of_nat (length buf)) &&
           bool_decide (q = []) then
          put_buffer (Some (buf ++ header ++ pct)) ;; emit (Accepted (header ++ pct)) ;; ret 0
        else
          let! r := enqueue_tail (mkBlock (Z.of_nat (length pct) + getHeaderLength size) (header ++ pct)) in
          if r =? -1 then ret (-1) else emit (Accepted (header ++ pct)) ;; ret 0
    end).

(** The packets of this file: an opcode and typed values. *)
Definition send (p : packet) : WM Z := SendPacket (pkt_opcode p) (ser (pkt_body p)).

(** [open]; the two seeds are random numbers. *)
Definition open (address : list Z) (seed1 seed2 : Z) : WM Z := with_state (fun s =>
  if bool_decide (m_OutBuffer (outgoing s) = None) then
    put_active true ;;
    put_buffer (Some []) ;;
    modify (set_address address) ;;
    let! r := SendPacket SMSG_AUTH_CHALLENGE
      (take 16 (AsByteArray seed1 16 true) ++ ser [FU 1 1; FU 4 (m_Seed s)] ++
       take 16 (AsByteArray seed2 16 true)) in
    if r =? -1 then ret (-1) else ret 0
  else ret (-1)).

Definition CloseSocket : WM unit := with_state (fun s =>
  if closing_ s then ret tt
  else modify set_closing ;; emit CloseWriter ;; modify (set_session None)).

(** [handle_close], which the reactor calls after a handler returned -1. *)
Definition handle_close : WM unit :=
  modify set_closing ;; emit CloseWriter ;; modify (set_session None).
End output.

Abbreviation WM := (M WorldSocket ws_event).

(** ** Instantly handled packets *)

Section instant.
Context `{OpenSSL, Evp} (e : WorldEnv).

(** [WorldSession::ReadAddonsInfo]: the add-ons read, and whether a read threw. *)
Definition read_addon : B AddonInfo :=
  let? addonName := shr_string in
  let? enabled := shr_uint 1 in
  let? crc := shr_uint 4 in
  let? _ := shr_uint 4 in
  bret (mkAddon addonName enabled crc).

Fixpoint read_addons_loop (n : nat) (acc : list AddonInfo) (b : ByteBuffer) : list AddonInfo * bool :=
  match n with
  | O => match shr_uint 4 b with (Ok _, _) => (acc, false) | (Err _, _) => (acc, true) end
  | S n' =>
      if bb_size b <? _rpos b + 1 then (acc, false)
      else match read_addon b with
           | (Ok a, b') => read_addons_loop n' (acc ++ [a]) b'
           | (Err _, _) => (acc, true)
           end
  end.

Definition read_addons (data : ByteBuffer) : list AddonInfo * bool :=
  if bb_size data <? _rpos data + 4 then ([], false)
  else
    match shr_uint 4 data with
    | (Err _, _) => ([], true)
    | (Ok size, data) =>
        if (size =? 0) || (0xFFFFF <? size) then ([], false)
        else
          match uncompress e size (drop (Z.to_nat (_rpos data)) (_storage data)) with
          | None => ([], false)
          | Some bytes =>
              let addonInfo := mkBuf 0 size (vec_resize size bytes) in
              match shr_uint 4 addonInfo with
              | (Err _, _) => ([], true)
              | (Ok addonsCount, addonInfo) => read_addons_loop (Z.to_nat addonsCount) [] addonInfo
              end
          end
    end.

(** [SaveAddon] makes an unknown add-on known. *)
Fixpoint save_addons (known : list (list Z)) (addons : list AddonInfo) : WM unit :=
  match addons with
  | [] => ret tt
  | a :: rest =>
      if bool_decide (GetAddonInfo e (Addon_Name a) = None) && negb (bool_decide (Addon_Name a ∈ known))
      then emit (SaveAddon a) ;; save_addons (Addon_Name a :: known) rest
      else save_addons known rest
  end.

Definition ReadAddonsInfo (data : ByteBuffer) : WM bool := with_state (fun s =>
  let '(addons, threw) := read_addons data in
  save_addons [] addons ;;
  match m_Session s with
  | None => ret threw
  | Some ses =>
      modify (set_session (Some (mkSession (ses_account ses) (ses_security ses) (ses_expansion ses)
        (ses_mutetime ses) (ses_locale ses) (ses_recruiter ses) (m_addonsList ses ++ addons)))) ;;
      ret threw
  end).

(** The reading of CMSG_AUTH_SESSION.  The digest the client computed is read in
    pieces over the same array and never looked at. *)
Record AuthSession := mkAuthSession {
  as_clientSeed : Z;
  as_clientBuild : Z;
  as_addons : ByteBuffer;
  as_account : list Z
}.

Fixpoint read_addon_bytes (n : nat) (packetAddon : ByteBuffer) : B ByteBuffer :=
  match n with
  | O => bret packetAddon
  | S n' =>
      let? ByteSize := shr_uint 1 in
      match append_T 1 ByteSize packetAddon with
      | (Ok _, packetAddon') => read_addon_bytes n' packetAddon'
      | (Err f, _) => bthrow f
      end
  end.

(** Up to the size of the add-on data, for which an array is then allocated. *)
Definition read_auth_header : B (Z * Z * Z) :=
  let? _ := read 7 in
  let? _ := read_skip 4 in
  let? _ := read 1 in
  let? _ := read_skip 8 in
  let? _ := read_skip 4 in
  let? _ := read 1 in
  let? _ := read_skip 1 in
  let? _ := read 2 in
  let? clientSeed := shr_uint 4 in
  let? _ := read_skip 4 in
  let? _ := read 6 in
  let? clientBuild := shr_uint 2 in
  let? _ := read 1 in
  let? _ := read_skip 1 in
  let? _ := read_skip 4 in
  let? _ := read 2 in
  let? m_addonSize := shr_uint 4 in
  bret (clientSeed, clientBuild, m_addonSize).

Definition read_auth_rest (clientSeed clientBuild m_addonSize : Z) : B AuthSession :=
  let? packetAddon := read_addon_bytes (Z.to_nat m_addonSize) new_buffer in
  let? accountName := shr_string in
  bret (mkAuthSession clientSeed clientBuild packetAddon accountName).

Definition auth_response (code : Z) : packet := Pkt SMSG_AUTH_RESPONSE [FU 1 code].

(** The level of an account in this realm, kept in a [uint16]. *)
Definition realm_security (id : Z) : Z := match gmlevel_of e id with None => 0 | Some lvl => u16 lvl end.

(** The part of [HandleAuthSession] after the packet is read; [None] when
    [ReadAddonsInfo] threw. *)
Definition login_session (p : AuthSession) : WM (option Z) := with_state (fun s =>
  if IsClosed e then send (auth_response AUTH_REJECT) ;; ret (Some (-1))
  else
    match account_by_name e (as_account p) with
    | None => send (auth_response AUTH_UNKNOWN_ACCOUNT) ;; ret (Some (-1))
    | Some row =>
        let expansion := if CONFIG_EXPANSION e <? ai_expansion row then CONFIG_EXPANSION e else ai_expansion row in
        if (ai_locked row =? 1) && negb (bool_decide (c_str (ai_last_ip row) = c_str (m_Address s))) then
          send (auth_response AUTH_FAILED) ;; ret (Some (-1))
        else
          let id := ai_id row in
          let K := SetHexStr 0 (c_str (ai_sessionkey row)) in
          let locale := if TOTAL_LOCALES <=? ai_locale row then LOCALE_enUS else ai_locale row in
          let security := realm_security id in
          if is_banned e id (m_Address s) then send (auth_response AUTH_BANNED) ;; ret (Some (-1))
          else if (SEC_PLAYER <? GetPlayerSecurityLimit e) && (security <? GetPlayerSecurityLimit e) then
            (* the empty packet is sent, not the one with the code *)
            SendPacket 0 [] ;; ret (Some (-1))
          else
            emit (DbSetLastIp (m_Address s) (as_account p)) ;;
            modify (set_session (Some (mkSession id security expansion (ai_mutetime row) locale (ai_recruiter row) []))) ;;
            modify (set_crypt (AuthCrypt_Init K)) ;;
            let! threw := ReadAddonsInfo (set_rpos 0 (as_addons p)) in
            if threw : bool then ret None
            else with_state (fun s =>
              match m_Session s with Some ses => emit (AddSession ses) | None => ret tt end ;;
              ret (Some 0))
    end).

Definition HandleAuthSession (recvPacket : ByteBuffer) : WM (option Z) :=
  match read_auth_header recvPacket with
  | (Err _, _) => ret None
  | (Ok (clientSeed, clientBuild, m_addonSize), b) =>
      emit (Allocate m_addonSize) ;;
      match read_auth_rest clientSeed clientBuild m_addonSize b with
      | (Err _, _) => ret None
      | (Ok p, _) => login_session p
      end
  end.

(** [HandlePing]: 27 seconds. *)
Definition over_speed (s : WorldSocket) : bool :=
  negb (m_LastPingTime s =? 0) && (gettimeofday e - m_LastPingTime s <? 27 * 1000000).

Definition ping_count (s : WorldSocket) : Z :=
  if m_LastPingTime s =? 0 then m_OverSpeedPings s
  else if over_speed s then u32 (m_OverSpeedPings s + 1) else 0.

Definition ping_flood (s : WorldSocket) : bool :=
  over_speed s && negb (CONFIG_MAX_OVERSPEED_PINGS e =? 0) &&
  (CONFIG_MAX_OVERSPEED_PINGS e <? ping_count s) &&
  match m_Session s with Some ses => ses_security ses =? SEC_PLAYER | None => false end.

Definition HandlePing (recvPacket : ByteBuffer) : WM (option Z) :=
  match (let? latency := shr_uint 4 in let? sequence := shr_uint 4 in bret (latency, sequence)) recvPacket with
  | (Err _, _) => ret None
  | (Ok (latency, sequence), _) => with_state (fun s =>
      modify (set_ping (gettimeofday e) (ping_count s)) ;;
      if ping_flood s then ret (Some (-1))
      else
        match m_Session s with
        | Some ses =>
            emit (SetLatency (ses_account ses) latency) ;;
            let! r := send (Pkt SMSG_PONG [FU 4 sequence]) in ret (Some r)
        | None => emit NullDereference ;; ret (Some (-1))
        end)
  end.

(** [ProcessIncoming]: the packet's opcode and payload; an exception of the
    buffer ends the connection. *)
Definition ProcessIncoming (opcode : Z) (payload : list Z) : WM Z := with_state (fun s =>
  if closing_ s then ret (-1)
  else
    let new_pct := mkBuf 0 (Z.of_nat (length payload)) payload in
    let! r :=
      if opcode =? CMSG_PING then HandlePing new_pct
      else if opcode =? CMSG_AUTH_SESSION then
        match m_Session s with
        | Some _ => ret (Some (-1))
        | None => emit (OnPacketReceive opcode payload) ;; HandleAuthSession new_pct
        end
      else if opcode =? CMSG_KEEP_ALIVE then emit (OnPacketReceive opcode payload) ;; ret (Some 0)
      else
        match m_Session s with
        | Some ses => emit (QueuePacket ses opcode payload) ;; ret (Some 0)
        | None => ret (Some (-1))
        end in
    ret (default (-1) r)).
End instant.

(** ** Input *)

Section input.
Context `{OpenSSL, Evp} (env : nat -> WorldEnv).

Definition m_Header_space (i : Incoming) : nat := sizeof_ClientPktHeader - length (m_Header i).
Definition m_RecvPct_space (i : Incoming) : Z := m_RecvPct_size i - Z.of_nat (length (m_RecvPct i)).

Definition push_header (bs : list Z) : Incoming -> Incoming :=
  fun i => mkIn (m_Header i ++ bs) (m_RecvWPct i) (m_RecvPct i) (m_RecvPct_size i).
Definition push_payload (bs : list Z) : Incoming -> Incoming :=
  fun i => mkIn (m_Header i) (m_RecvWPct i) (m_RecvPct i ++ bs) (m_RecvPct_size i).

Definition ACE_ASSERT (b : bool) : WM unit := when (negb b) (emit AssertionFailed).

(** The header is decrypted in place. *)
Definition handle_input_header : WM Z := with_state (fun s =>
  ACE_ASSERT (bool_decide (m_RecvWPct (incoming s) = None)) ;;
  ACE_ASSERT (bool_decide (length (m_Header (incoming s)) = sizeof_ClientPktHeader)) ;;
  let '(header, crypt) := DecryptRecv (m_Header (incoming s)) (m_Crypt s) in
  modify (set_crypt (fun _ => crypt)) ;;
  modify (set_in (fun i => mkIn header (m_RecvWPct i) (m_RecvPct i) (m_RecvPct_size i))) ;;
  let size := header_size header in
  if (size <? 4) || (10240 <? size) then ret (-1)
  else
    let size := size - 4 in
    ACE_ASSERT ((0 <? size) || (m_RecvPct_space (incoming s) =? 0)) ;;
    modify (set_in (fun i => mkIn header (Some (u16 (header_cmd header), size)) (m_RecvPct i)
                               (if 0 <? size then size else m_RecvPct_size i))) ;;
    ret 0).

Definition handle_input_payload : WM Z := with_state (fun s =>
  ACE_ASSERT (m_RecvPct_space (incoming s) =? 0) ;;
  ACE_ASSERT (bool_decide (m_Header_space (incoming s) = 0%nat)) ;;
  match m_RecvWPct (incoming s) with
  | None => emit AssertionFailed ;; ret (-1)
  | Some (opcode, _) =>
      let! r := ProcessIncoming (env (packets s)) opcode (m_RecvPct (incoming s)) in
      modify count_packet ;;
      modify (set_in (fun _ => no_input)) ;;
      ret r
  end).

(** How the reading of a block ended: everything was read, it stopped in the
    middle of a header or payload ([errno = EWOULDBLOCK]), or the connection must
    be closed. *)
Inductive recv_status := AllRead | WouldBlock | Failed | NoFuel.

(** The rest of a turn once the header is there. *)
Definition recv_payload (block : list Z) : WM (recv_status * list Z) := with_state (fun s =>
  let i := incoming s in
  match m_RecvWPct i with
  | None => ret (Failed, block)
  | Some _ =>
      if 0 <? m_RecvPct_space i then
        let to_data := Nat.min (length block) (Z.to_nat (m_RecvPct_space i)) in
        let rest := drop to_data block in
        modify (set_in (push_payload (take to_data block))) ;;
        with_state (fun s =>
          if 0 <? m_RecvPct_space (incoming s) then
            ACE_ASSERT (bool_decide (rest = [])) ;; ret (WouldBlock, rest)
          else
            let! r := handle_input_payload in
            ret (if r =? -1 then Failed else AllRead, rest))
      else
        let! r := handle_input_payload in
        ret (if r =? -1 then Failed else AllRead, block)
  end).

(** One turn of the loop over the block. *)
Definition recv_turn (block : list Z) : WM (recv_status * list Z) := with_state (fun s =>
  let space := m_Header_space (incoming s) in
  if (0 <? space)%nat then
    let to_header := Nat.min (length block) space in
    let rest := drop to_header block in
    modify (set_in (push_header (take to_header block))) ;;
    with_state (fun s =>
      if (0 <? m_Header_space (incoming s))%nat then
        ACE_ASSERT (bool_decide (rest = [])) ;; ret (WouldBlock, rest)
      else
        let! r := handle_input_header in
        if r =? -1 then ret (Failed, rest) else recv_payload rest)
  else recv_payload block).

Fixpoint recv_loop (fuel : nat) (block : list Z) : WM recv_status :=
  match block with
  | [] => ret AllRead
  | _ =>
      match fuel with
      | O => ret NoFuel
      | S fuel' =>
          let! turn := recv_turn block in
          match turn.1 with AllRead => recv_loop fuel' turn.2 | st => ret st end
      end
  end.

(** Only the first turn can leave the block as it is. *)
Definition recv_block (block : list Z) : WM recv_status := recv_loop (S (length block)) block.

(** [handle_input_missing_data], from what waits in the socket, and
    [handle_input]; the latter's -1 makes the reactor call [handle_close]. *)
Definition recv_size : nat := 4096.
Inductive input_result := PeerError (would_block : bool) | PeerClosed | Read (st : recv_status) (full : bool).

Definition handle_input_missing_data (waiting : recv_result) : WM input_result :=
  match waiting with
  | RecvError would_block => ret (PeerError would_block)
  | RecvBytes data =>
      let got := take recv_size data in
      match got with
      | [] => ret PeerClosed
      | _ => let! st := recv_block got in ret (Read st (bool_decide (length got = recv_size)))
      end
  end.

Definition handle_input (waiting : recv_result) : WM Z := with_state (fun s =>
  if closing_ s then ret (-1)
  else
    let! r := handle_input_missing_data waiting in
    match r with
    | PeerError true => let! u := Update in ret (default (-1) u)
    | PeerError false | PeerClosed => ret (-1)
    | Read Failed _ | Read NoFuel _ => ret (-1)
    | Read AllRead true => ret 1
    | Read AllRead false | Read WouldBlock _ => let! u := Update in ret (default (-1) u)
    end).

Definition on_readable (waiting : recv_result) : WM Z :=
  let! r := handle_input waiting in
  (if r =? -1 then handle_close else ret tt) ;; ret r.
End input.

(** ** The output is a queue of bytes *)

Definition accepted (log : list ws_event) : list Z :=
  concat ((fun x => match x with Accepted f => f | _ => [] end) <$> log).
Definition transmitted (log : list ws_event) : list Z :=
  concat ((fun x => match x with Transmit f => f | _ => [] end) <$> log).

Lemma accepted_app l1 l2 : accepted (l1 ++ l2) = accepted l1 ++ accepted l2.
Proof. unfold accepted. by rewrite fmap_app, concat_app. Qed.
Lemma transmitted_app l1 l2 : transmitted (l1 ++ l2) = transmitted l1 ++ transmitted l2.
Proof. unfold transmitted. by rewrite fmap_app, concat_app. Qed.

Section fifo.
Context `{OpenSSL, EvpLaws}.

(** What has been accepted and not yet handed to the operating system. *)
Definition queued (q : list ACE_Message_Block) : list Z := concat (mb_data <$> q).
Definition pending (s : WorldSocket) : list Z :=
  default [] (m_OutBuffer (outgoing s)) ++ queued (msg_queue (outgoing s)).

(** The buffer is allocated and within its size, and a queued block has bytes and
    room for them. *)
Definition block_sound (b : ACE_Message_Block) : Prop :=
  mb_data b <> [] /\ Z.of_nat (length (mb_data b)) <= mb_size b.
Definition out_ok (s : WorldSocket) : Prop :=
  (exists buf, m_OutBuffer (outgoing s) = Some buf /\ Z.of_nat (length buf) <= m_OutBufferSize) /\
  Forall block_sound (msg_queue (outgoing s)).

(** The queue has not grown beyond its high-water mark. *)
Definition within_mark (s : WorldSocket) : bool := cur_bytes_ (msg_queue (outgoing s)) <=? high_water_mark.

(** [in_order bytes log s]: of the bytes that were pending and those accepted
    since, what was transmitted and then what is pending now are in their order,
    and they are all of them unless a block was dropped. *)
Definition no_drop (log : list ws_event) : Prop := forall b, Dropped b ∉ log.
Definition in_order (bytes : list Z) (log : list ws_event) (s : WorldSocket) : Prop :=
  sublist (transmitted log ++ pending s) (bytes ++ accepted log) /\
  (no_drop log -> bytes ++ accepted log = transmitted log ++ pending s).

Lemma no_drop_nil : no_drop [].
Proof. intros b. apply not_elem_of_nil. Qed.
Lemma no_drop_app l1 l2 : no_drop (l1 ++ l2) <-> no_drop l1 /\ no_drop l2.
Proof. unfold no_drop. setoid_rewrite elem_of_app. firstorder. Qed.

Lemma in_order_same bytes log s : bytes ++ accepted log = transmitted log ++ pending s -> in_order bytes log s.
Proof. intros E. split; [by rewrite E | done]. Qed.

Lemma in_order_app bytes l1 s1 l2 s2 :
  in_order bytes l1 s1 -> in_order (pending s1) l2 s2 -> in_order bytes (l1 ++ l2) s2.
Proof.
  intros [P1 P2] [P3 P4]. unfold in_order. rewrite accepted_app, transmitted_app, no_drop_app. split.
  - rewrite <- app_assoc. etrans; [apply sublist_app; [reflexivity | exact P3]|].
    rewrite !app_assoc. by apply sublist_app.
  - intros [Q1 Q2]. rewrite app_assoc, (P2 Q1), <- app_assoc, (P4 Q2). apply app_assoc.
Qed.

(** The parts that do not touch what is pending. *)
Definition idle {A} (m : WM A) : Prop := forall s,
  (out_ok s -> out_ok (run_state m s)) /\ msg_queue (outgoing (run_state m s)) = msg_queue (outgoing s) /\
  pending (run_state m s) = pending s /\ run_log m s = [].

Lemma idle_ret {A} (x : A) : idle (ret x).
Proof. intros s. split_and!; [done | reflexivity | reflexivity | reflexivity]. Qed.
Lemma idle_active b : idle (put_active b).
Proof. intros s. split_and!; [done | reflexivity | reflexivity | reflexivity]. Qed.
Lemma idle_bind {A C} (m : WM A) (k : A -> WM C) : idle m -> (forall x, idle (k x)) -> idle (bind m k).
Proof.
  intros Hm Hk s. destruct (Hm s) as (P1 & P2 & P3 & P4).
  destruct (Hk (run_value m s) (run_state m s)) as (P5 & P6 & P7 & P8).
  rewrite run_state_bind, run_log_bind, P4, P6, P7, P8. auto.
Qed.
Lemma idle_with_out {A} (k : Outgoing -> WM A) : (forall o, idle (k o)) -> idle (with_out k).
Proof. intros Hk s. apply Hk. Qed.
Lemma idle_cancel : idle cancel_wakeup_output.
Proof. apply idle_with_out. intros o. destruct (negb _); [apply idle_ret | apply idle_bind; auto using idle_active, idle_ret]. Qed.
Lemma idle_schedule : idle schedule_wakeup_output.
Proof. apply idle_with_out. intros o. destruct (m_OutActive o); [apply idle_ret | apply idle_bind; auto using idle_active, idle_ret]. Qed.

(** One call of [send]: it takes a prefix of the block. *)
Lemma peer_send_spec block s :
  let r := run_value (peer_send block) s in let s' := run_state (peer_send block) s in
  m_OutBuffer (outgoing s') = m_OutBuffer (outgoing s) /\ msg_queue (outgoing s') = msg_queue (outgoing s) /\
  accepted (run_log (peer_send block) s) = [] /\ no_drop (run_log (peer_send block) s) /\
  match r with
  | None => transmitted (run_log (peer_send block) s) = []
  | Some n => 0 <= n <= Z.of_nat (length block) /\
              transmitted (run_log (peer_send block) s) = take (Z.to_nat n) block
  end.
Proof.
  unfold peer_send, with_out. rewrite rv_with_state, rs_with_state, rl_with_state.
  destruct (kernel (outgoing s)) as [|[| |n] k]; cbv zeta;
    rewrite ?run_value_bind, ?run_state_bind, ?run_log_bind; cbn.
  1-3: split_and!; try reflexivity; try apply no_drop_nil; try lia; done.
  destruct (Z.leb_spec (Z.min n (Z.of_nat (length block))) 0); cbn.
  - split_and!; try reflexivity. apply no_drop_nil.
  - rewrite app_nil_r. split_and!; try reflexivity; try lia. intros b Hb. by apply list_elem_of_singleton in Hb.
Qed.

Lemma run_after {A C} (m : WM A) (k : A -> WM C) s :
  run_state (bind m k) s = run_state (k (run_value m s)) (run_state m s) /\
  run_value (bind m k) s = run_value (k (run_value m s)) (run_state m s) /\
  run_log (bind m k) s = run_log m s ++ run_log (k (run_value m s)) (run_state m s).
Proof. by rewrite run_state_bind, run_value_bind, run_log_bind. Qed.

(** [sends bytes m s]: run from [s], where [bytes] are what should be pending. *)
Definition sends (bytes : list Z) (m : WM Z) (s : WorldSocket) : Prop :=
  out_ok (run_state m s) /\
  (run_value m s <> -1 -> in_order bytes (run_log m s) (run_state m s)).

Lemma sends_modify f m s bytes : sends bytes m (f s) -> sends bytes (modify f ;; m) s.
Proof.
  assert (E : bind (modify f) (fun _ => m) s = m (f s)).
  { unfold bind, modify. by destruct (m (f s)) as [[v s'] l]. }
  unfold sends, run_state, run_value, run_log. by rewrite E.
Qed.

Lemma sends_idle m s bytes : idle m -> out_ok s -> pending s = bytes -> sends bytes m s.
Proof.
  intros Hm Hs <-. destruct (Hm s) as (P1 & _ & P2 & P3). split; [by apply P1|]. intros _.
  apply in_order_same. rewrite P2, P3. apply app_nil_r.
Qed.

Lemma sends_error s bytes : out_ok s -> sends bytes (ret (-1)) s.
Proof. intros Hs. split; [exact Hs|]. intros Hv. by elim Hv. Qed.

Lemma sends_dropped (m : WM Z) s bytes rest :
  idle m -> out_ok s -> pending s = rest -> sends (bytes ++ rest) (emit (Dropped bytes) ;; m) s.
Proof.
  intros Hm Hs <-. destruct (Hm s) as (P1 & _ & P2 & P3). unfold sends, in_order.
  rewrite run_state_bind, run_value_bind, run_log_bind. cbn -[run_log]. split; [by apply P1|]. intros _.
  change (run_log (emit (Dropped bytes)) s) with [Dropped bytes]. change (run_state (emit _) s) with s. rewrite P3.
  cbn. rewrite P2, app_nil_r. split; [by apply sublist_inserts_l|]. intros Hn. elim (Hn bytes). left.
Qed.

(** The same output, apart from what the operating system will answer. *)
Definition same_out (s s' : WorldSocket) : Prop :=
  m_OutBuffer (outgoing s') = m_OutBuffer (outgoing s) /\ msg_queue (outgoing s') = msg_queue (outgoing s).

Lemma sends_peer (block rest : list Z) (k : option Z -> WM Z) (s : WorldSocket) :
  (forall s', same_out s s' -> out_ok (run_state (k None) s') /\ run_value (k None) s' = -1) ->
  (forall n s', 0 <= n <= Z.of_nat (length block) -> same_out s s' ->
     sends (drop (Z.to_nat n) block ++ rest) (k (Some n)) s') ->
  sends (block ++ rest) (bind (peer_send block) k) s.
Proof.
  intros Hnone Hsome. unfold sends. destruct (run_after (peer_send block) k s) as (-> & -> & ->).
  destruct (peer_send_spec block s) as (E1 & E2 & E3 & E4 & E5).
  destruct (run_value (peer_send block) s) as [n|].
  - destruct E5 as [Hn E5]. destruct (Hsome n _ Hn (conj E1 E2)) as [P1 P2]. split; [exact P1|]. intros Hg.
    destruct (P2 Hg) as [P3 P4]. unfold in_order. rewrite accepted_app, transmitted_app, no_drop_app, E3, E5. cbn [app].
    assert (Eb : block ++ rest = take (Z.to_nat n) block ++ (drop (Z.to_nat n) block ++ rest)) by
      (by rewrite app_assoc, take_drop).
    rewrite Eb, <- !(app_assoc (take _ _)). split; [by apply sublist_app|]. intros [_ Hq]. by rewrite (P4 Hq).
  - destruct (Hnone _ (conj E1 E2)) as [P1 P2]. rewrite P2. split; [exact P1|]. intros Hv. by elim Hv.
Qed.

Lemma pending_eq s buf q :
  m_OutBuffer (outgoing s) = Some buf -> msg_queue (outgoing s) = q -> pending s = buf ++ queued q.
Proof. intros E <-. unfold pending. by rewrite E. Qed.

Lemma out_ok_intro s buf q :
  m_OutBuffer (outgoing s) = Some buf -> Z.of_nat (length buf) <= m_OutBufferSize ->
  msg_queue (outgoing s) = q -> Forall block_sound q -> out_ok s.
Proof. intros Eb Hb Eq Hq. split; [by exists buf|]. by rewrite Eq. Qed.

Lemma drop_sound (n : Z) (b : ACE_Message_Block) :
  0 <= n < Z.of_nat (length (mb_data b)) -> block_sound b -> block_sound (mkBlock (mb_size b) (drop (Z.to_nat n) (mb_data b))).
Proof.
  intros Hn [_ Hb]. unfold block_sound. cbn [mb_data mb_size]. split; [|rewrite length_drop; lia].
  intros E. apply (f_equal length) in E. rewrite length_drop in E. simpl in E. lia.
Qed.

Lemma queued_app q q' : queued (q ++ q') = queued q ++ queued q'.
Proof. unfold queued. by rewrite fmap_app, concat_app. Qed.

(** A first part that has no event. *)
Lemma sends_step {A} (m : WM A) (k : A -> WM Z) s r s1 bytes :
  m s = (r, s1, []) -> sends bytes (k r) s1 -> sends bytes (bind m k) s.
Proof.
  intros E. assert (Eb : bind m k s = k r s1) by (unfold bind; rewrite E; by destruct (k r s1) as [[? ?] ?]).
  unfold sends, run_state, run_value, run_log. by rewrite Eb.
Qed.
Definition out_queue (q : list ACE_Message_Block) : WorldSocket -> WorldSocket :=
  set_out (fun o => mkOut (m_OutBuffer o) q (m_OutActive o) (kernel o)).
Lemma sends_enqueue_head b (k : Z -> WM Z) s q bytes :
  msg_queue (outgoing s) = q ->
  (is_full q = true -> sends bytes (k (-1)) s) ->
  (is_full q = false -> sends bytes (k 0) (out_queue (b :: q) s)) ->
  sends bytes (bind (enqueue_head b) k) s.
Proof.
  intros <- Hfull Hroom. destruct (is_full (msg_queue (outgoing s))) eqn:E.
  - apply (sends_step _ _ _ (-1) s); [|auto]. unfold enqueue_head, with_out, with_state. by rewrite E.
  - eapply (sends_step _ _ _ 0); [|by apply Hroom]. unfold enqueue_head, with_out, with_state. by rewrite E.
Qed.
Lemma sends_enqueue_tail b (k : Z -> WM Z) s q bytes :
  msg_queue (outgoing s) = q ->
  (is_full q = true -> sends bytes (k (-1)) s) ->
  (is_full q = false -> sends bytes (k 0) (out_queue (q ++ [b]) s)) ->
  sends bytes (bind (enqueue_tail b) k) s.
Proof.
  intros <- Hfull Hroom. destruct (is_full (msg_queue (outgoing s))) eqn:E.
  - apply (sends_step _ _ _ (-1) s); [|auto]. unfold enqueue_tail, with_out, with_state. by rewrite E.
  - eapply (sends_step _ _ _ 0); [|by apply Hroom]. unfold enqueue_tail, with_out, with_state. by rewrite E.
Qed.

Lemma cur_bytes_app q q' : cur_bytes_ (q ++ q') = cur_bytes_ q + cur_bytes_ q'.
Proof. induction q as [|b q IH]; [reflexivity|]. unfold cur_bytes_ in *. cbn. rewrite IH. lia. Qed.

(** The queue under its mark, without the block that was taken from its head. *)
Lemma under_mark b q : block_sound b -> cur_bytes_ (b :: q) <= high_water_mark -> is_full q = false.
Proof.
  intros [Hb1 Hb2] Hq. change (cur_bytes_ (b :: q)) with (mb_size b + cur_bytes_ q) in Hq. apply Z.leb_gt. destruct (mb_data b); [done|]. simpl in Hb2. lia.
Qed.

Lemma handle_output_queue_sends s :
  out_ok s -> m_OutBuffer (outgoing s) = Some [] ->
  sends (queued (msg_queue (outgoing s))) handle_output_queue s.
Proof.
  intros Hs Eb. unfold handle_output_queue, with_out.
  change (sends ?b (with_state ?k) s) with (sends b (k s) s). cbv beta.
  destruct (msg_queue (outgoing s)) as [|mblk q] eqn:Eq.
  { apply sends_idle; [apply idle_cancel | exact Hs | by rewrite (pending_eq _ [] [] Eb Eq)]. }
  destruct Hs as [_ Hq]. rewrite Eq in Hq. apply Forall_cons in Hq as [Hm Hq].
  apply sends_modify. change (queued (mblk :: q)) with (mb_data mblk ++ queued q). apply sends_peer.
  - intros s' [E1 E2]. split; [|reflexivity]. apply (out_ok_intro _ [] q); [exact (eq_trans E1 Eb) | done | exact E2 | done].
  - intros n s' Hn [E1 E2]. cbn in E1, E2. rewrite Eb in E1.
    assert (Hok : out_ok s') by (apply (out_ok_intro _ [] q); done).
    destruct (Z.eqb_spec n 0) as [->|]; [|destruct (Z.ltb_spec n (Z.of_nat (length (mb_data mblk))))].
    + apply (sends_enqueue_head _ _ _ q _ E2); intros _; apply (sends_dropped _ _ _ _ idle_schedule) || idtac.
      * exact Hok.
      * by rewrite (pending_eq _ [] q).
      * apply (sends_step _ _ _ _ _ _ eq_refl), sends_idle; [apply idle_schedule | |].
        -- by apply (out_ok_intro _ [] (mblk :: q)); [| | | constructor].
        -- by rewrite (pending_eq _ [] (mblk :: q)).
    + set (rest := mkBlock (mb_size mblk) (drop (Z.to_nat n) (mb_data mblk))).
      apply (sends_enqueue_head _ _ _ q _ E2); intros _; [by apply sends_error|].
      apply sends_idle; [apply idle_schedule | |].
      * apply (out_ok_intro _ [] (rest :: q)); [done | done | done |]. constructor; [apply drop_sound; [lia | done] | done].
      * by rewrite (pending_eq _ [] (rest :: q)).
    + rewrite drop_ge by lia. cbn [app].
      case_bool_decide; apply sends_idle; auto using idle_cancel, idle_ret; by rewrite (pending_eq _ [] q).
Qed.

Lemma handle_output_sends s : out_ok s -> sends (pending s) handle_output s.
Proof.
  intros Hs. pose proof Hs as [(buf & Eb & Hb) Hq]. unfold handle_output.
  change (sends ?b (with_state ?k) s) with (sends b (k s) s). cbv beta.
  destruct (closing_ s); [by apply sends_error|]. rewrite Eb, (pending_eq _ _ _ Eb eq_refl).
  destruct buf as [|x buf]; [by apply handle_output_queue_sends|]. set (block := x :: buf) in *.
  apply sends_peer.
  - intros s' [E1 E2]. split; [|reflexivity].
    apply (out_ok_intro _ block (msg_queue (outgoing s))); [exact (eq_trans E1 Eb) | done | exact E2 | done].
  - intros n s' Hn [E1 E2]. rewrite Eb in E1.
    assert (Hok : out_ok s') by (by apply (out_ok_intro _ block (msg_queue (outgoing s)))).
    destruct (Z.eqb_spec n 0) as [->|]; [|destruct (Z.ltb_spec n (Z.of_nat (length block)))].
    + apply sends_idle; [apply idle_schedule | done | by rewrite (pending_eq _ _ _ E1 E2)].
    + apply sends_modify, sends_idle; [apply idle_schedule | |].
      * apply (out_ok_intro _ (drop (Z.to_nat n) block) (msg_queue (outgoing s))); [done | | done | done].
        rewrite length_drop. lia.
      * by rewrite (pending_eq _ (drop (Z.to_nat n) block) (msg_queue (outgoing s))).
    + rewrite drop_ge by lia. cbn [app]. apply sends_modify. rewrite <- E2.
      match goal with |- sends _ _ ?st =>
        change (msg_queue (outgoing s')) with (msg_queue (outgoing st)) end.
      apply handle_output_queue_sends; [|reflexivity].
      apply (out_ok_intro _ [] (msg_queue (outgoing s))); done.
Qed.

(** [calm n m s]: a run that drops nothing and leaves at most [n] bytes counted
    in the queue. *)
Definition calm {A} (n : Z) (m : WM A) (s : WorldSocket) : Prop :=
  no_drop (run_log m s) /\ cur_bytes_ (msg_queue (outgoing (run_state m s))) <= n.

Lemma calm_idle {A} n (m : WM A) s : idle m -> cur_bytes_ (msg_queue (outgoing s)) <= n -> calm n m s.
Proof. intros Hm Hn. destruct (Hm s) as (_ & P1 & _ & P2). unfold calm. rewrite P1, P2. split; [apply no_drop_nil | exact Hn]. Qed.
Lemma calm_step {A C} n (m : WM A) (k : A -> WM C) s r s1 :
  m s = (r, s1, []) -> calm n (k r) s1 -> calm n (bind m k) s.
Proof.
  intros E. assert (Eb : bind m k s = k r s1) by (unfold bind; rewrite E; by destruct (k r s1) as [[? ?] ?]).
  unfold calm, run_state, run_log. by rewrite Eb.
Qed.
Lemma calm_peer {A} n block (k : option Z -> WM A) s :
  (forall r s', same_out s s' -> (forall m, r = Some m -> 0 <= m <= Z.of_nat (length block)) -> calm n (k r) s') ->
  calm n (bind (peer_send block) k) s.
Proof.
  intros Hk. unfold calm. destruct (run_after (peer_send block) k s) as (-> & _ & ->).
  destruct (peer_send_spec block s) as (E1 & E2 & _ & E3 & E4). rewrite no_drop_app.
  destruct (Hk (run_value (peer_send block) s) _ (conj E1 E2)) as [P1 P2]; [|by split].
  intros m E. rewrite E in E4. apply E4.
Qed.
Lemma enqueue_head_room b s : is_full (msg_queue (outgoing s)) = false ->
  enqueue_head b s = (0, out_queue (b :: msg_queue (outgoing s)) s, []).
Proof. intros E. unfold enqueue_head, with_out, with_state. by rewrite E. Qed.

Lemma handle_output_queue_calm n s :
  Forall block_sound (msg_queue (outgoing s)) ->
  cur_bytes_ (msg_queue (outgoing s)) <= n -> n <= high_water_mark -> calm n handle_output_queue s.
Proof.
  intros Hq Hn Hmark. unfold handle_output_queue, with_out.
  change (calm n (with_state ?k) s) with (calm n (k s) s). cbv beta.
  destruct (msg_queue (outgoing s)) as [|mblk q] eqn:Eq; [by apply calm_idle; [apply idle_cancel | rewrite Eq]|].
  apply Forall_cons in Hq as [Hm _]. pose proof (under_mark mblk q Hm ltac:(lia)) as Hroom.
  apply (calm_step _ _ _ _ tt (out_queue q s) eq_refl), calm_peer. intros r s' [_ E] _. cbn in E.
  assert (Hput : forall b (k : Z -> WM Z), mb_size b = mb_size mblk -> idle (k 0) -> calm n (bind (enqueue_head b) k) s').
  { intros b k Eb Hk. eapply calm_step; [apply enqueue_head_room; by rewrite E|]. apply calm_idle; [exact Hk|].
    cbn in Hn |- *. rewrite E, Eb. exact Hn. }
  assert (Hsz : cur_bytes_ q <= n) by (destruct Hm as [_ Hm]; cbn in Hn; unfold cur_bytes_; lia).
  destruct r as [m|]; [|by apply calm_idle; [apply idle_ret | rewrite E]].
  destruct (m =? 0); [|destruct (m <? _)].
  - apply Hput; [reflexivity|]. apply (idle_bind (ret tt)); [apply idle_ret | intros _; apply idle_schedule].
  - apply Hput; [reflexivity | apply idle_schedule].
  - case_bool_decide; apply calm_idle; auto using idle_cancel, idle_ret; by rewrite E.
Qed.

Lemma handle_output_calm n s :
  out_ok s -> cur_bytes_ (msg_queue (outgoing s)) <= n -> n <= high_water_mark -> calm n handle_output s.
Proof.
  intros [_ Hq] Hn Hmark. unfold handle_output. change (calm n (with_state ?k) s) with (calm n (k s) s). cbv beta.
  destruct (closing_ s); [by apply calm_idle; [apply idle_ret|]|].
  destruct (m_OutBuffer (outgoing s)) as [[|x buf]|].
  - by apply handle_output_queue_calm.
  - apply calm_peer. intros r s' [_ E] _. rewrite <- E in Hn, Hq.
    destruct r as [m|]; [|by apply calm_idle; [apply idle_ret|]].
    destruct (m =? 0); [by apply calm_idle; [apply idle_schedule|]|]. destruct (m <? _).
    + apply (calm_step _ _ _ _ tt _ eq_refl). by apply calm_idle; [apply idle_schedule|].
    + apply (calm_step _ _ _ _ tt _ eq_refl). by apply handle_output_queue_calm.
  - split; [|exact Hn]. intros b Hb. by apply list_elem_of_singleton in Hb.
Qed.

(** A turn of [Update] that goes on has sent a whole block. *)
Lemma bind_put {A} f (m : WM A) s : bind (modify f) (fun _ => m) s = m (f s).
Proof. unfold bind, modify. by destruct (m (f s)) as [[v s'] l]. Qed.
Lemma rv_put {A} f (m : WM A) s : run_value (modify f ;; m) s = run_value m (f s).
Proof. by rewrite run_value_bind, rs_modify. Qed.
Lemma rs_put {A} f (m : WM A) s : run_state (modify f ;; m) s = run_state m (f s).
Proof. by rewrite run_state_bind, rs_modify. Qed.
Lemma rv_wakeup s : run_value schedule_wakeup_output s = 0 /\ run_value cancel_wakeup_output s = 0.
Proof.
  unfold schedule_wakeup_output, cancel_wakeup_output, with_out. rewrite !rv_with_state.
  destruct (m_OutActive (outgoing s)); split; reflexivity.
Qed.

Lemma handle_output_queue_shrinks s :
  0 < run_value handle_output_queue s ->
  (length (msg_queue (outgoing (run_state handle_output_queue s))) < length (msg_queue (outgoing s)))%nat.
Proof.
  unfold handle_output_queue, with_out. rewrite rv_with_state, rs_with_state.
  destruct (msg_queue (outgoing s)) as [|mblk q] eqn:Eq.
  { unfold cancel_wakeup_output, with_out. rewrite rv_with_state. destruct (negb _); cbn; lia. }
  unfold put_queue at 1 2. rewrite rv_put, rs_put. set (s1 := set_out _ s).
  set (k := fun n : option Z => _).
  destruct (run_after (peer_send (mb_data mblk)) k s1) as (-> & -> & _).
  destruct (peer_send_spec (mb_data mblk) s1) as (_ & E2 & _). set (s2 := run_state (peer_send (mb_data mblk)) s1) in *.
  unfold k. destruct (run_value (peer_send (mb_data mblk)) s1) as [n|]; [|cbn; lia].
  destruct (n =? 0); [|destruct (n <? _)].
  { rewrite !run_value_bind, (proj1 (rv_wakeup _)). lia. }
  { rewrite run_value_bind. destruct (_ =? -1); [cbn; lia | rewrite (proj1 (rv_wakeup _)); lia]. }
  destruct (bool_decide _); [rewrite (proj2 (rv_wakeup _)); lia|]. intros _. cbn. rewrite E2. cbn. lia.
Qed.

Lemma handle_output_shrinks s :
  0 < run_value handle_output s ->
  (length (msg_queue (outgoing (run_state handle_output s))) < length (msg_queue (outgoing s)))%nat.
Proof.
  unfold handle_output. rewrite rv_with_state, rs_with_state. destruct (closing_ s); [cbn; lia|].
  destruct (m_OutBuffer (outgoing s)) as [[|x buf]|]; [apply handle_output_queue_shrinks| |cbn; lia].
  set (block := x :: buf). set (k := fun n : option Z => _).
  destruct (run_after (peer_send block) k s) as (-> & -> & _).
  destruct (peer_send_spec block s) as (_ & E2 & _). set (s2 := run_state (peer_send block) s) in *.
  unfold k. destruct (run_value (peer_send block) s) as [n|]; [|cbn; lia].
  destruct (n =? 0); [rewrite (proj1 (rv_wakeup _)); lia|]. destruct (n <? _).
  - rewrite run_value_bind, (proj1 (rv_wakeup _)). lia.
  - unfold put_buffer. rewrite rv_put, rs_put, <- E2. intros Hr. exact (handle_output_queue_shrinks _ Hr).
Qed.


(** The loop of [Update]: it ends, and it keeps the order of the bytes. *)
Lemma Update_loop_sends fuel s :
  out_ok s ->
  out_ok (run_state (Update_loop fuel) s) /\
  ((length (msg_queue (outgoing s)) < fuel)%nat -> run_value (Update_loop fuel) s <> None) /\
  (forall r, run_value (Update_loop fuel) s = Some r -> r <> -1 ->
   in_order (pending s) (run_log (Update_loop fuel) s) (run_state (Update_loop fuel) s)).
Proof.
  revert s. induction fuel as [|fuel IH]; intros s Hs; cbn [Update_loop].
  { split_and!; [exact Hs | lia | discriminate]. }
  destruct (handle_output_sends s Hs) as [P1 P2].
  destruct (run_after handle_output (fun r => if 0 <? r then Update_loop fuel else ret (Some r)) s) as (-> & -> & ->).
  destruct (Z.ltb_spec 0 (run_value handle_output s)) as [Hr|Hr].
  - pose proof (handle_output_shrinks s Hr) as Hk.
    destruct (IH _ P1) as (Q1 & Q2 & Q3). split_and!; [exact Q1 | intros Hl; apply Q2; lia |].
    intros r Er Hne. eapply in_order_app; [apply P2; lia | by apply (Q3 r)].
  - cbn. split_and!; [exact P1 | done |]. intros r [= <-] Hne. rewrite app_nil_r. by apply P2.
Qed.

Lemma Update_loop_calm fuel n s :
  out_ok s -> cur_bytes_ (msg_queue (outgoing s)) <= n -> n <= high_water_mark -> calm n (Update_loop fuel) s.
Proof.
  revert s. induction fuel as [|fuel IH]; intros s Hs Hn Hmark; cbn [Update_loop];
    [by apply calm_idle; [apply idle_ret|]|].
  destruct (handle_output_calm n s Hs Hn Hmark) as [P1 P2]. destruct (handle_output_sends s Hs) as [P3 _].
  unfold calm. destruct (run_after handle_output (fun r => if 0 <? r then Update_loop fuel else ret (Some r)) s)
    as (-> & _ & ->). rewrite no_drop_app. destruct (0 <? _).
  - destruct (IH _ P3 P2 Hmark) as [Q1 Q2]. by split.
  - split; [split; [exact P1 | apply no_drop_nil] | exact P2].
Qed.

Lemma Update_sends s :
  out_ok s ->
  out_ok (run_state Update s) /\
  (exists r, run_value Update s = Some r /\
    (r <> -1 -> in_order (pending s) (run_log Update s) (run_state Update s))) /\
  (within_mark s = true -> no_drop (run_log Update s)).
Proof.
  intros Hs. unfold Update. rewrite rs_with_state, rv_with_state, rl_with_state.
  destruct (closing_ s); [split_and!; [exact Hs | by exists (-1) | intros _; apply no_drop_nil]|].
  destruct (_ || _).
  { split_and!; [exact Hs | | intros _; apply no_drop_nil]. exists 0. split; [reflexivity|]. intros _.
    apply in_order_same. cbn. by rewrite app_nil_r. }
  set (fuel := S (S _)). destruct (Update_loop_sends fuel s Hs) as (P1 & P2 & P3).
  split_and!; [exact P1 | |].
  - destruct (run_value (Update_loop _) s) as [r|]; [|exfalso; apply P2; [unfold fuel; lia | reflexivity]].
    exists r. split; [reflexivity|]. intros Hne. by apply (P3 r).
  - intros Hw. apply Z.leb_le in Hw. apply (Update_loop_calm fuel high_water_mark s Hs Hw). lia.
Qed.

Lemma SendPacket_frame (opcode : Z) (pct : list Z) (s : WorldSocket) (size := Z.of_nat (length pct) + 2)
    (header := (EncryptSend (ServerPktHeader size opcode) (m_Crypt s)).1) :
  Z.of_nat (length header) = getHeaderLength size.
Proof.
  unfold header. rewrite length_EncryptSend. unfold ServerPktHeader, getHeaderLength.
  rewrite length_app. by destruct (isLargePacket _).
Qed.

Lemma SendPacket_sends opcode pct s : out_ok s -> sends (pending s) (SendPacket opcode pct) s.
Proof.
  intros Hs. pose proof Hs as [(buf & Eb & Hb) Hq]. unfold SendPacket.
  change (sends ?b (with_state ?k) s) with (sends b (k s) s). cbv beta zeta.
  destruct (closing_ s); [by apply sends_error|].
  destruct (_ <? opcode); [by apply sends_idle; [apply idle_ret | | reflexivity]|].
  pose proof (SendPacket_frame opcode pct s) as Hh. cbv zeta in Hh.
  destruct (EncryptSend _ _) as [header crypt]. cbn [fst] in Hh.
  apply sends_modify. rewrite Eb, (pending_eq _ _ _ Eb eq_refl).
  assert (Haccept : forall s' b q, m_OutBuffer (outgoing s') = Some b -> Z.of_nat (length b) <= m_OutBufferSize ->
    msg_queue (outgoing s') = q -> Forall block_sound q ->
    b ++ queued q = (buf ++ queued (msg_queue (outgoing s))) ++ header ++ pct ->
    sends (buf ++ queued (msg_queue (outgoing s))) (emit (Accepted (header ++ pct)) ;; ret 0) s').
  { intros s' b q E1 Hb' E2 Hq' E. split; [by apply (out_ok_intro _ b q)|]. intros _. apply in_order_same. cbn.
    unfold accepted, transmitted. cbn. rewrite app_nil_r. change (run_state _ s') with s'.
    by rewrite (pending_eq s' b q E1 E2), E. }
  destruct (_ && _) eqn:Hc.
  - apply andb_true_iff in Hc as [Hc1 Hc2]. apply Z.leb_le in Hc1. apply bool_decide_eq_true in Hc2.
    apply sends_modify. eapply (Haccept _ (buf ++ header ++ pct) []); [done | | done | done |].
    + rewrite !length_app. lia.
    + rewrite Hc2. cbn. by rewrite !app_nil_r.
  - apply (sends_enqueue_tail _ _ _ (msg_queue (outgoing s))); [reflexivity | intros _..].
    { apply sends_error, (out_ok_intro _ buf (msg_queue (outgoing s))); done. }
    eapply (Haccept _ buf (msg_queue (outgoing s) ++ [_])); [done | done | reflexivity | |].
    + apply Forall_app. split; [done|]. constructor; [|constructor]. unfold block_sound. cbn [mb_data mb_size].
      rewrite length_app. split; [|lia]. intros E. apply (f_equal length) in E. rewrite length_app in E. simpl in E.
      unfold getHeaderLength in Hh. destruct (isLargePacket _); lia.
    + rewrite queued_app. unfold queued at 2. cbn. by rewrite app_nil_r, app_assoc.
Qed.

Lemma SendPacket_no_drop opcode pct s : no_drop (run_log (SendPacket opcode pct) s).
Proof.
  assert (Hone : forall x : ws_event, (forall b, x <> Dropped b) -> no_drop [x]).
  { intros x Hx b Hb. apply list_elem_of_singleton in Hb. by elim (Hx b). }
  unfold SendPacket. rewrite rl_with_state. destruct (closing_ s); [apply no_drop_nil|].
  destruct (_ <? opcode); [apply no_drop_nil|]. cbv zeta. destruct (EncryptSend _ _) as [header crypt].
  rewrite run_log_bind. apply no_drop_app. split; [apply no_drop_nil|].
  destruct (m_OutBuffer (outgoing s)) as [buf|]; [|by apply Hone].
  destruct (_ && _); rewrite run_log_bind; apply no_drop_app; (split; [|]).
  - apply no_drop_nil.
  - by apply Hone.
  - unfold enqueue_tail, with_out. rewrite rl_with_state. destruct (is_full _); apply no_drop_nil.
  - destruct (_ =? -1); [apply no_drop_nil | by apply Hone].
Qed.

(** What the server does to the output of a connection: it sends a packet, polls
    the connection, or is told that the socket is writable. *)
Inductive out_op := OpSend (opcode : Z) (pct : list Z) | OpUpdate | OpWritable.
Definition run_out_op (o : out_op) : WM Z :=
  match o with
  | OpSend opcode pct => SendPacket opcode pct
  | OpUpdate => let! r := Update in ret (default (-1) r)
  | OpWritable => handle_output
  end.
Fixpoint run_out_ops (ops : list out_op) : WM bool :=
  match ops with
  | [] => ret true
  | o :: rest => let! r := run_out_op o in if r =? -1 then ret false else run_out_ops rest
  end.

(** Whenever something is sent, polled or written, the queue is within its mark. *)
Fixpoint stays_within (ops : list out_op) (s : WorldSocket) : bool :=
  within_mark s && match ops with [] => true | o :: rest => stays_within rest (run_state (run_out_op o) s) end.

Lemma run_out_op_sends o s : out_ok s ->
  sends (pending s) (run_out_op o) s /\ (within_mark s = true -> no_drop (run_log (run_out_op o) s)).
Proof.
  intros Hs. destruct o as [opcode pct| |]; cbn [run_out_op].
  - split; [by apply SendPacket_sends | intros _; apply SendPacket_no_drop].
  - destruct (Update_sends s Hs) as (P1 & (r & E & P2) & P3). unfold sends.
    destruct (run_after Update (fun r => ret (default (-1) r)) s) as (-> & -> & ->). rewrite E. cbn.
    rewrite app_nil_r. auto.
  - split; [by apply handle_output_sends|]. intros Hw. apply Z.leb_le in Hw.
    apply (handle_output_calm high_water_mark s Hs Hw). lia.
Qed.

(** A packet is put in the queue whatever its size as long as the queue is below
    its mark, so the queue can grow beyond it.  If the block at its head cannot be
    sent then, it cannot be put back either: it is lost, and the connection goes
    on without it. *)
Lemma overfull_queue_drops (opcode : Z) (pct : list Z) (s : WorldSocket) mblk q (size := Z.of_nat (length pct) + 2) :
  closing_ s = false -> opcode <= OPCODE_NOT_FOUND ->
  m_OutBuffer (outgoing s) = Some [] -> msg_queue (outgoing s) = mblk :: q -> kernel (outgoing s) = [] ->
  is_full (mblk :: q) = false -> high_water_mark <= cur_bytes_ q + (Z.of_nat (length pct) + getHeaderLength size) ->
  let s1 := run_state (SendPacket opcode pct) s in
  run_value (SendPacket opcode pct) s = 0 /\ closing_ s1 = false /\
  run_value handle_output s1 = 0 /\ run_log handle_output s1 = [Dropped (mb_data mblk)] /\
  closing_ (run_state handle_output s1) = false.
Proof.
  intros Hcl Hop Eb Eq Ek Hroom Hover s1.
  set (frame := (EncryptSend (ServerPktHeader size opcode) (m_Crypt s)).1 ++ pct).
  set (q1 := q ++ [mkBlock (Z.of_nat (length pct) + getHeaderLength size) frame]).
  assert (E : exists crypt, SendPacket opcode pct s =
    (0, out_queue (mblk :: q1) (set_crypt (fun _ => crypt) s), [Accepted frame])).
  { unfold SendPacket, with_state. rewrite Hcl, (proj2 (Z.ltb_ge _ _) Hop), Eb, Eq. cbv zeta. fold size. unfold frame, q1.
    destruct (EncryptSend _ _) as [header crypt] eqn:Ec. exists crypt. rewrite andb_false_r. 
    unfold enqueue_tail, with_out, with_state, bind. cbn. rewrite Eq. cbn in Hroom |- *. rewrite Hroom. reflexivity. }
  destruct E as [crypt E]. unfold s1, run_state, run_value, run_log. rewrite E. cbn [fst snd].
  assert (Hfull : is_full q1 = true).
  { unfold is_full, q1. apply Z.leb_le. rewrite cur_bytes_app. cbn [cur_bytes_ foldr mb_size]. lia. }
  unfold handle_output, handle_output_queue, peer_send, enqueue_head, schedule_wakeup_output, with_out, with_state, bind. cbn.
  rewrite Hcl, Eb. cbn. rewrite Ek. cbn. rewrite Hfull. cbn. by destruct (m_OutActive (outgoing s)); cbn; rewrite ?Hcl.
Qed.
End fifo.

(** C17: the output of a connection is a first-in first-out queue of bytes.
    Whatever packets are sent and whenever the connection is polled or writable,
    and however much the operating system takes each time, what reached the peer
    and then what the buffer and the queue hold are bytes of the accepted packets
    in the order they were sent.  They are all of them unless a block was dropped
    ([overfull_queue_drops]), which does not happen while the queue stays within
    its high-water mark.  The buffer stays within its 64 KB, and the loop of
    [Update] ends. *)
Theorem output_fifo `{OpenSSL, EvpLaws} (ops : list out_op) (s : WorldSocket) :
  out_ok s ->
  run_value Update s <> None /\
  (run_value (run_out_ops ops) s = true ->
   let s' := run_state (run_out_ops ops) s in
   let log := run_log (run_out_ops ops) s in
   out_ok s' /\
   sublist (transmitted log ++ pending s') (pending s ++ accepted log) /\
   ((forall b, Dropped b ∉ log) -> pending s ++ accepted log = transmitted log ++ pending s') /\
   (stays_within ops s = true -> forall b, Dropped b ∉ log)).
Proof.
  intros Hs. split; [destruct (Update_sends s Hs) as (_ & (r & -> & _) & _); discriminate|]. intros Hr s' log.
  enough (Hall : out_ok s' /\ in_order (pending s) log s' /\ (stays_within ops s = true -> no_drop log)).
  { destruct Hall as (P1 & [P2 P3] & P4). split_and!; auto. }
  unfold s', log. clear s' log. revert Hs Hr.
  revert s. induction ops as [|o ops IH]; intros s Hs; cbn [run_out_ops stays_within].
  { intros _. split_and!; [exact Hs | apply in_order_same, app_nil_r | intros _; apply no_drop_nil]. }
  destruct (run_after (run_out_op o) (fun r => if r =? -1 then ret false else run_out_ops ops) s) as (-> & -> & ->).
  destruct (run_out_op_sends o s Hs) as [[P1 P2] P3].
  destruct (Z.eqb_spec (run_value (run_out_op o) s) (-1)) as [E|E]; [discriminate|]. intros Hr.
  destruct (IH _ P1 Hr) as (Q1 & Q2 & Q3). split_and!; [exact Q1 | by eapply in_order_app; [apply P2|] |].
  intros Hw. apply andb_true_iff in Hw as [Hw1 Hw2]. apply no_drop_app. auto.
Qed.

(** ** Cutting the stream into packets *)

Section stream.
Context `{OpenSSL, EvpLaws} (env : nat -> WorldEnv).

(** Between two bytes of an open connection: a part of a header and no packet,
    or a whole header and a packet whose payload is not complete. *)
Definition mid_header (s : WorldSocket) : Prop :=
  (length (m_Header (incoming s)) < sizeof_ClientPktHeader)%nat /\ m_RecvWPct (incoming s) = None /\
  m_RecvPct (incoming s) = [] /\ m_RecvPct_size (incoming s) = 0.
Definition mid_payload (s : WorldSocket) : Prop :=
  length (m_Header (incoming s)) = sizeof_ClientPktHeader /\ is_Some (m_RecvWPct (incoming s)) /\
  0 < m_RecvPct_space (incoming s).
Definition in_ok (s : WorldSocket) : Prop := mid_header s \/ mid_payload s.

(** The result of reading, without the difference between a packet boundary and
    the middle of a packet. *)
Definition alive (st : recv_status) : bool := match st with AllRead | WouldBlock => true | _ => false end.
Definition recv_all (block : list Z) : WM bool := let! st := recv_block env block in ret (alive st).

(** The end of a turn: the payload is there. *)
Definition finish (rest : list Z) : WM (recv_status * list Z) :=
  let! r := handle_input_payload env in ret (if r =? -1 then Failed else AllRead, rest).

Definition after_header (rest : list Z) : WM (recv_status * list Z) :=
  let! r := handle_input_header in if r =? -1 then ret (Failed, rest) else recv_payload env rest.

(** A turn on a longer block: [grow b2 out] is [out] with [b2] after what is left. *)
Definition grow (b2 : list Z) (out : recv_status * list Z * WorldSocket * list ws_event) :=
  let '(st, rest, s, l) := out in (st, rest ++ b2, s, l).

Lemma finish_grow rest b2 s : finish (rest ++ b2) s = grow b2 (finish rest s).
Proof.
  unfold finish, bind, ret. destruct (handle_input_payload env s) as [[r s1] l]. reflexivity.
Qed.

(** [recv_payload] when there is a packet. *)
Lemma recv_payload_short block s :
  is_Some (m_RecvWPct (incoming s)) -> Z.of_nat (length block) < m_RecvPct_space (incoming s) ->
  recv_payload env block s = (WouldBlock, [], set_in (push_payload block) s, []).
Proof.
  intros [p Ep] Hl. unfold recv_payload, with_state. rewrite Ep.
  rewrite (proj2 (Z.ltb_lt 0 _)) by lia. cbv zeta. rewrite Nat.min_l by lia.
  rewrite drop_all, take_ge by lia. rewrite bind_put. rewrite (proj2 (Z.ltb_lt 0 _)); [reflexivity|].
  unfold m_RecvPct_space in *. cbn. rewrite length_app. lia.
Qed.

Lemma recv_payload_full block s :
  is_Some (m_RecvWPct (incoming s)) -> 0 < m_RecvPct_space (incoming s) <= Z.of_nat (length block) ->
  let n := Z.to_nat (m_RecvPct_space (incoming s)) in
  recv_payload env block s = finish (drop n block) (set_in (push_payload (take n block)) s).
Proof.
  intros [p Ep] Hl n. unfold recv_payload, with_state. rewrite Ep.
  rewrite (proj2 (Z.ltb_lt 0 _)) by lia. cbv zeta. fold n. rewrite Nat.min_r by lia.
  rewrite bind_put. rewrite (proj2 (Z.ltb_ge 0 _)); [reflexivity|].
  unfold m_RecvPct_space in *. cbn. rewrite length_app, length_take. lia.
Qed.

Lemma recv_payload_zero block s :
  is_Some (m_RecvWPct (incoming s)) -> m_RecvPct_space (incoming s) <= 0 ->
  recv_payload env block s = finish block s.
Proof.
  intros [p Ep] Hl. unfold recv_payload, with_state. rewrite Ep. by rewrite (proj2 (Z.ltb_ge 0 _)).
Qed.

(** The two parts of a turn on a block cut in two: either the first part makes the
    turn, or the turn stops in the middle without an event and the second part
    goes on with it. *)
Definition turn_split (turn : list Z -> WM (recv_status * list Z)) (next : list Z -> WM (recv_status * list Z))
    (mid : WorldSocket -> Prop) (b1 : list Z) (s : WorldSocket) : Prop :=
  (exists s1, turn b1 s = (WouldBlock, [], s1, []) /\ mid s1 /\ forall b2, turn (b1 ++ b2) s = next b2 s1) \/
  ((turn b1 s).1.1.1 <> WouldBlock /\ forall b2, turn (b1 ++ b2) s = grow b2 (turn b1 s)).

Lemma finish_status rest s : (finish rest s).1.1.1 <> WouldBlock.
Proof. unfold finish, bind, ret. destruct (handle_input_payload env s) as [[r s1] l]. cbn. by destruct (r =? -1). Qed.

Lemma recv_payload_split b1 s :
  length (m_Header (incoming s)) = sizeof_ClientPktHeader -> is_Some (m_RecvWPct (incoming s)) ->
  turn_split (recv_payload env) (recv_payload env) mid_payload b1 s.
Proof.
  intros Hh Hp. destruct (Z.le_gt_cases (m_RecvPct_space (incoming s)) 0) as [Hz|Hpos].
  { right. rewrite recv_payload_zero by assumption. split; [apply finish_status|]. intros b2.
    rewrite recv_payload_zero by assumption. apply finish_grow. }
  destruct (Z.lt_ge_cases (Z.of_nat (length b1)) (m_RecvPct_space (incoming s))) as [Hl|Hl].
  - left. exists (set_in (push_payload b1) s). rewrite recv_payload_short by assumption. split; [reflexivity|].
    set (s1 := set_in (push_payload b1) s).
    assert (Hsp : m_RecvPct_space (incoming s1) = m_RecvPct_space (incoming s) - Z.of_nat (length b1)).
    { unfold m_RecvPct_space, s1. cbn. rewrite length_app. lia. }
    split; [split_and!; [exact Hh | exact Hp | lia]|]. intros b2.
    destruct (Z.lt_ge_cases (Z.of_nat (length b2)) (m_RecvPct_space (incoming s1))) as [Hl2|Hl2].
    + rewrite !recv_payload_short by (try assumption; rewrite ?length_app; lia).
      unfold s1, set_in, push_payload. cbn. by rewrite app_assoc.
    + rewrite !recv_payload_full by (try assumption; rewrite ?length_app; lia). rewrite Hsp.
      replace (Z.to_nat (m_RecvPct_space (incoming s)))
        with (length b1 + Z.to_nat (m_RecvPct_space (incoming s) - Z.of_nat (length b1)))%nat by lia.
      rewrite take_app_add, drop_app_add. unfold s1, set_in, push_payload. cbn. by rewrite app_assoc.
  - right. rewrite recv_payload_full by (try assumption; lia). split; [apply finish_status|]. intros b2.
    rewrite recv_payload_full by (try assumption; rewrite length_app; lia).
    rewrite drop_app_le, take_app_le by lia. apply finish_grow.
Qed.

(** [handle_input_header] in the middle of a header that is complete now. *)
Definition header_there (s : WorldSocket) : Prop :=
  length (m_Header (incoming s)) = sizeof_ClientPktHeader /\ m_RecvWPct (incoming s) = None /\
  m_RecvPct (incoming s) = [] /\ m_RecvPct_size (incoming s) = 0.

Lemma handle_input_header_eq s :
  header_there s ->
  let hdr := (DecryptRecv (m_Header (incoming s)) (m_Crypt s)).1 in
  let s1 := set_crypt (fun _ => (DecryptRecv (m_Header (incoming s)) (m_Crypt s)).2) s in
  let size := header_size hdr - 4 in
  handle_input_header s =
    if (header_size hdr <? 4) || (10240 <? header_size hdr)
    then (-1, set_in (fun i => mkIn hdr (m_RecvWPct i) (m_RecvPct i) (m_RecvPct_size i)) s1, [])
    else (0, set_in (fun _ => mkIn hdr (Some (u16 (header_cmd hdr), size)) [] size) s1, []).
Proof.
  intros (Hh & Hp & Hd & Hz) hdr s1 size. unfold handle_input_header, with_state, ACE_ASSERT.
  rewrite Hp, (bool_decide_true _ Hh). cbn [negb when bool_decide decide_rel].
  subst hdr s1 size. destruct (DecryptRecv _ _) as [hdr crypt]. cbn [fst snd].
  destruct (_ || _) eqn:Hc; [reflexivity|]. apply orb_false_iff in Hc as [Hc _]. apply Z.ltb_ge in Hc.
  unfold m_RecvPct_space. rewrite Hd, Hz. cbn. rewrite orb_true_r. cbn.
  unfold set_in, set_crypt. cbn. rewrite Hd, Hz. destruct (Z.ltb_spec 0 (header_size hdr - 4)); [reflexivity|].
  by replace (header_size hdr - 4) with 0 by lia.
Qed.

Lemma header_there_length s (hdr := (DecryptRecv (m_Header (incoming s)) (m_Crypt s)).1) :
  header_there s -> length hdr = sizeof_ClientPktHeader.
Proof. intros (Hh & _). unfold hdr. by rewrite length_DecryptRecv. Qed.

Lemma after_header_split b1 s :
  header_there s -> turn_split after_header (recv_payload env) mid_payload b1 s.
Proof.
  intros Hs. unfold turn_split, after_header, bind. rewrite handle_input_header_eq by exact Hs. cbv zeta.
  pose proof (header_there_length s Hs) as Hl. cbv zeta in Hl.
  destruct (_ || _); [right; cbn; split; [discriminate | reflexivity]|].
  set (s2 := set_in _ _). change (0 =? -1) with false. cbv iota.
  destruct (recv_payload_split b1 s2 Hl ltac:(by eexists)) as [(s3 & E & Hok & Hn)|[E Hn]].
  - left. exists s3. rewrite E. split_and!; [reflexivity | exact Hok |]. intros b2. rewrite Hn.
    by destruct (recv_payload env b2 s3) as [[[? ?] ?] ?].
  - right. split.
    + revert E. by destruct (recv_payload env b1 s2) as [[[? ?] ?] ?].
    + intros b2. rewrite Hn. by destruct (recv_payload env b1 s2) as [[[? ?] ?] ?].
Qed.

Lemma recv_turn_short block s :
  (length block < m_Header_space (incoming s))%nat ->
  recv_turn env block s = (WouldBlock, [], set_in (push_header block) s, []).
Proof.
  intros Hl. unfold recv_turn, with_state. rewrite (proj2 (Nat.ltb_lt 0 _)) by lia. cbv zeta.
  rewrite Nat.min_l by lia. rewrite drop_all, take_ge by lia. rewrite bind_put.
  rewrite (proj2 (Nat.ltb_lt 0 _)); [reflexivity|].
  unfold m_Header_space in *. cbn [incoming set_in push_header m_Header]. rewrite length_app. lia.
Qed.

Lemma recv_turn_full block s (n := m_Header_space (incoming s)) :
  (0 < n <= length block)%nat ->
  recv_turn env block s = after_header (drop n block) (set_in (push_header (take n block)) s).
Proof.
  intros Hl. unfold recv_turn, with_state. fold n. rewrite (proj2 (Nat.ltb_lt 0 _)) by lia. cbv zeta.
  rewrite Nat.min_r by lia. rewrite bind_put.
  rewrite (proj2 (Nat.ltb_ge 0 _)); [reflexivity|].
  unfold m_Header_space in *. subst n. cbn [incoming set_in push_header m_Header]. rewrite length_app, length_take. lia.
Qed.

Lemma recv_turn_payload block s :
  m_Header_space (incoming s) = 0%nat -> recv_turn env block s = recv_payload env block s.
Proof. intros Hl. unfold recv_turn, with_state. by rewrite Hl. Qed.

Lemma in_ok_header s :
  in_ok s -> (0 < m_Header_space (incoming s))%nat ->
  forall bs, length bs = m_Header_space (incoming s) -> header_there (set_in (push_header bs) s).
Proof.
  intros Hok Hsp bs Hl. unfold m_Header_space, sizeof_ClientPktHeader in *. 
  destruct Hok as [(P1 & P2 & P3 & P4)|(P1 & _)]; [|unfold sizeof_ClientPktHeader in P1; lia].
  unfold header_there, sizeof_ClientPktHeader in *. cbn. rewrite length_app. split_and!; [lia | done..].
Qed.

Lemma mid_payload_turn block s : mid_payload s -> recv_turn env block s = recv_payload env block s.
Proof. intros (P1 & _). apply recv_turn_payload. unfold m_Header_space. lia. Qed.

Lemma turn_split_weaken turn (b1 : list Z) s s0 (turn0 : list Z -> WM (recv_status * list Z)) bs :
  turn_split turn (recv_payload env) mid_payload b1 s ->
  (forall b2, turn0 (bs ++ b1 ++ b2) s0 = turn (b1 ++ b2) s) ->
  turn_split turn0 (recv_turn env) in_ok (bs ++ b1) s0.
Proof.
  intros Ht E. assert (E0 : turn0 (bs ++ b1) s0 = turn b1 s) by (specialize (E []); by rewrite !app_nil_r in E).
  destruct Ht as [(s1 & P1 & P2 & P3)|[P1 P2]].
  - left. exists s1. rewrite E0. split_and!; [exact P1 | by right|]. intros b2.
    rewrite <- app_assoc, E, P3, mid_payload_turn by exact P2. reflexivity.
  - right. rewrite E0. split; [exact P1|]. intros b2. by rewrite <- app_assoc, E, P2.
Qed.

Lemma turn_split_recv b1 s : in_ok s -> turn_split (recv_turn env) (recv_turn env) in_ok b1 s.
Proof.
  intros [Hmid|Hmid].
  2: { apply (turn_split_weaken (recv_payload env) b1 s s (recv_turn env) []).
       - apply recv_payload_split; apply Hmid.
       - intros b2. by apply mid_payload_turn. }
  pose proof Hmid as (P1 & P2 & P3 & P4). set (n := m_Header_space (incoming s)).
  assert (Hn : (0 < n)%nat) by (unfold n, m_Header_space; lia).
  destruct (decide (length b1 < n)%nat) as [Hl|Hl].
  - left. exists (set_in (push_header b1) s). rewrite recv_turn_short by exact Hl. split; [reflexivity|].
    set (s1 := set_in (push_header b1) s).
    assert (Hsp : m_Header_space (incoming s1) = (n - length b1)%nat).
    { unfold n, m_Header_space, s1. cbn [incoming set_in push_header m_Header]. rewrite length_app. lia. }
    split; [left; unfold m_Header_space, n, m_Header_space in *; split_and!; [lia | done..]|]. intros b2.
    destruct (decide (length b2 < m_Header_space (incoming s1))%nat) as [Hl2|Hl2].
    + rewrite !recv_turn_short by (rewrite ?length_app; lia).
      unfold s1, set_in, push_header. cbn. by rewrite app_assoc.
    + rewrite !recv_turn_full by (rewrite ?length_app; lia). rewrite Hsp. fold n.
      replace (take n (b1 ++ b2)) with (b1 ++ take (n - length b1) b2) by (rewrite take_app; f_equal; by rewrite take_ge by lia).
      replace (drop n (b1 ++ b2)) with (drop (n - length b1) b2) by (rewrite drop_app; by rewrite (drop_ge b1) by lia).
      unfold s1, set_in, push_header. cbn. by rewrite app_assoc.
  - rewrite <- (take_drop n b1). apply (turn_split_weaken after_header _ (set_in (push_header (take n b1)) s)).
    + apply after_header_split, in_ok_header; [by left | exact Hn | rewrite length_take; lia].
    + intros b2. rewrite app_assoc, take_drop. rewrite recv_turn_full by (rewrite length_app; lia). fold n.
      by rewrite drop_app_le, take_app_le by lia.
Qed.

(** A turn keeps the invariant and, on a block that is not empty, makes progress. *)
Definition turn_ok (before : nat) (out : recv_status * list Z * WorldSocket * list ws_event) : Prop :=
  let '(st, rest, s, _) := out in
  match st with
  | AllRead => in_ok s /\ (length rest < before)%nat
  | WouldBlock => in_ok s /\ rest = []
  | Failed => True
  | NoFuel => False
  end.

Lemma mid_header_fresh (s : WorldSocket) : incoming s = no_input -> mid_header s.
Proof. unfold mid_header. intros ->. cbn. unfold sizeof_ClientPktHeader. split_and!; [lia | done..]. Qed.

Lemma finish_ok rest n s : (length rest < n)%nat -> turn_ok n (finish rest s).
Proof.
  intros Hl. unfold finish.
  assert (Hin : run_value (handle_input_payload env) s <> -1 ->
                incoming (run_state (handle_input_payload env) s) = no_input).
  { unfold handle_input_payload. rewrite rs_with_state, rv_with_state.
    destruct (m_RecvWPct (incoming s)) as [[op sz]|].
    - intros _. rewrite !run_state_bind. reflexivity.
    - rewrite !run_value_bind. intros Hv. by elim Hv. }
  unfold bind, ret, turn_ok. unfold run_value, run_state in Hin.
  destruct (handle_input_payload env s) as [[r s1] l]. cbn in Hin. cbn. destruct (Z.eqb_spec r (-1)); [done|].
  split; [left; apply mid_header_fresh; auto | exact Hl].
Qed.

Lemma recv_payload_ok block n s : mid_payload s -> (length block <= n)%nat -> (block = [] \/ block <> []) ->
  turn_ok (S n) (recv_payload env block s) /\ (block <> [] -> turn_ok n (recv_payload env block s)).
Proof.
  intros (P1 & P2 & P3) Hl _.
  destruct (Z.lt_ge_cases (Z.of_nat (length block)) (m_RecvPct_space (incoming s))) as [Hs|Hs].
  - rewrite recv_payload_short by assumption.
    assert (in_ok (set_in (push_payload block) s)); [|by split; [|intros _]].
    right. split_and!; [exact P1 | exact P2|]. unfold m_RecvPct_space in *. cbn. rewrite length_app. lia.
  - rewrite recv_payload_full by (try assumption; lia).
    split; [apply finish_ok | intros _; apply finish_ok]; rewrite length_drop; lia.
Qed.

Lemma recv_turn_ok block s : in_ok s -> block <> [] -> turn_ok (length block) (recv_turn env block s).
Proof.
  intros [Hmid|Hmid] Hne.
  2: { rewrite mid_payload_turn by exact Hmid. by apply (recv_payload_ok block (length block) s Hmid); auto. }
  pose proof Hmid as (P1 & P2 & P3 & P4).
  destruct (decide (length block < m_Header_space (incoming s))%nat) as [Hl|Hl].
  { rewrite recv_turn_short by exact Hl. split; [|reflexivity]. left. unfold m_Header_space in *.
    unfold mid_header. cbn [incoming set_in push_header m_Header m_RecvWPct m_RecvPct m_RecvPct_size].
    rewrite length_app. split_and!; [lia | done..]. }
  set (n := m_Header_space (incoming s)) in *. assert (Hn : (0 < n)%nat) by (unfold n, m_Header_space; lia).
  rewrite recv_turn_full by (fold n; lia). fold n. set (s1 := set_in _ s).
  assert (Hs1 : header_there s1) by (apply in_ok_header; [by left | exact Hn | rewrite length_take; lia]).
  unfold after_header, bind. rewrite handle_input_header_eq by exact Hs1. cbv zeta.
  pose proof (header_there_length s1 Hs1) as Hlen. cbv zeta in Hlen.
  destruct (_ || _) eqn:Hc; [done|]. change (0 =? -1) with false. cbv iota. set (s2 := set_in _ _).
  apply orb_false_iff in Hc as [Hc _]. apply Z.ltb_ge in Hc.
  assert (Hd : (length (drop n block) < length block)%nat) by (rewrite length_drop; lia).
  destruct (Z.lt_ge_cases 0 (m_RecvPct_space (incoming s2))) as [Hsp|Hsp].
  - assert (Hm : mid_payload s2) by (split_and!; [exact Hlen | by eexists | exact Hsp]).
    destruct (recv_payload_ok (drop n block) (length block - 1) s2 Hm ltac:(lia) ltac:(destruct (drop n block); auto)) as [Hk _].
    replace (S (length block - 1)) with (length block) in Hk by lia.
    unfold turn_ok in *. by destruct (recv_payload env _ s2) as [[[? ?] ?] ?].
  - rewrite recv_payload_zero by (try exact Hsp; by eexists).
    pose proof (finish_ok (drop n block) (length block) s2 Hd) as Hk.
    unfold turn_ok in *. by destruct (finish _ s2) as [[[? ?] ?] ?].
Qed.

Lemma recv_loop_cons f x block s :
  recv_loop env (S f) (x :: block) s =
    let '(st, rest, s1, l) := recv_turn env (x :: block) s in
    match st with
    | AllRead => let '(st', s2, l') := recv_loop env f rest s1 in (st', s2, l ++ l')
    | _ => (st, s1, l)
    end.
Proof.
  cbn [recv_loop]. unfold bind. destruct (recv_turn env (x :: block) s) as [[[st rest] s1] l].
  destruct st; cbn; rewrite ?app_nil_r; reflexivity.
Qed.

Lemma recv_loop_fuel f f' block s :
  in_ok s -> (length block <= f)%nat -> (length block <= f')%nat ->
  recv_loop env f block s = recv_loop env f' block s.
Proof.
  revert f' block s. induction f as [|f IH]; intros f' [|x block] s Hok Hf Hf';
    try (destruct f'; reflexivity); [simpl in Hf; lia|].
  destruct f' as [|f']; [simpl in Hf'; lia|]. rewrite !recv_loop_cons.
  pose proof (recv_turn_ok (x :: block) s Hok ltac:(discriminate)) as Ht.
  destruct (recv_turn env (x :: block) s) as [[[st rest] s1] l]. destruct st; try reflexivity.
  destruct Ht as [Hok1 Hl]. simpl in Hf, Hf', Hl. by rewrite (IH f' rest s1) by (try exact Hok1; lia).
Qed.

(** Running on after a first part: [follow out more]. *)
Definition follow (out : recv_status * WorldSocket * list ws_event)
    (more : WorldSocket -> recv_status * WorldSocket * list ws_event) : bool * WorldSocket * list ws_event :=
  let '(st, s1, l) := out in
  if alive st then let '(st', s2, l') := more s1 in (alive st', s2, l ++ l') else (false, s1, l).
Definition as_alive (out : recv_status * WorldSocket * list ws_event) : bool * WorldSocket * list ws_event :=
  let '(st, s1, l) := out in (alive st, s1, l).

Lemma recv_loop_split n f1 f2 f b1 b2 s :
  in_ok s -> (length b1 <= n)%nat -> (length b1 <= f1)%nat -> (length b2 <= f2)%nat ->
  (length b1 + length b2 <= f)%nat ->
  (alive (recv_loop env f1 b1 s).1.1 = true -> in_ok (recv_loop env f1 b1 s).1.2) /\
  as_alive (recv_loop env f (b1 ++ b2) s) = follow (recv_loop env f1 b1 s) (recv_loop env f2 b2).
Proof.
  revert f1 f b1 s. induction n as [|n IH]; intros f1 f [|x b1] s Hok Hn Hf1 Hf2 Hf.
  1, 3: replace (recv_loop env f1 [] s) with (AllRead, s, @nil ws_event) by (by destruct f1).
  1, 2: split; [done|].
  1, 2: cbn in Hf |- *; rewrite (recv_loop_fuel f f2) by (assumption || lia).
  1, 2: by destruct (recv_loop env f2 b2 s) as [[? ?] ?].
  { simpl in Hn. lia. }
  simpl in Hn, Hf1, Hf. destruct f1 as [|f1]; [lia|]. destruct f as [|f]; [lia|].
  cbn [app]. rewrite !recv_loop_cons. pose proof (recv_turn_ok (x :: b1) s Hok ltac:(discriminate)) as Ht.
  destruct (turn_split_recv (x :: b1) s Hok) as [(s1 & E & Hok1 & Hnext)|[E Hnext]].
  - specialize (Hnext b2). cbn [app] in Hnext. rewrite E, Hnext. cbn. split; [done|].
    destruct b2 as [|y b2].
    + rewrite app_nil_r, E in Hnext. rewrite <- Hnext. by destruct f2.
    + destruct f2 as [|f2]; [simpl in Hf2; lia|]. rewrite recv_loop_cons.
      pose proof (recv_turn_ok (y :: b2) s1 Hok1 ltac:(discriminate)) as Ht2.
      destruct (recv_turn env (y :: b2) s1) as [[[st rest] s2] l2].
      destruct st; try reflexivity. destruct Ht2 as [Hok2 Hl2]. simpl in Hl2, Hf2, Hf.
      rewrite (recv_loop_fuel f f2 rest s2) by (assumption || lia).
      by destruct (recv_loop env f2 rest s2) as [[? ?] ?].
  - specialize (Hnext b2). cbn [app] in Hnext. rewrite Hnext. clear Hnext.
    destruct (recv_turn env (x :: b1) s) as [[[st rest] s1] l]. cbn [grow fst snd] in *.
    destruct st; try done.
    destruct Ht as [Hok1 Hl]. simpl in Hl.
    destruct (IH f1 f rest s1 Hok1 ltac:(lia) ltac:(lia) Hf2 ltac:(lia)) as [Q1 Q2].
    destruct (recv_loop env f (rest ++ b2) s1) as [[sa s2] la], (recv_loop env f1 rest s1) as [[sb s3] lb].
    cbn in Q1, Q2 |- *. split; [exact Q1|].
    destruct (alive sb); [|congruence]. destruct (recv_loop env f2 b2 s3) as [[sc s4] lc].
    injection Q2 as -> -> ->. by rewrite app_assoc.
Qed.
End stream.

(** Reading a list of blocks, until one of them closes the connection. *)
Fixpoint read_blocks `{OpenSSL, Evp} (env : nat -> WorldEnv) (blocks : list (list Z)) : WM bool :=
  match blocks with
  | [] => ret true
  | b :: rest =>
      let! r := handle_input_missing_data env (RecvBytes b) in
      match r with
      | Read AllRead _ | Read WouldBlock _ => read_blocks env rest
      | _ => ret false
      end
  end.

Definition block_ok (b : list Z) : Prop := (0 < length b <= recv_size)%nat.

(** C1: how the network cuts the stream does not matter.  Whatever bytes a client
    sends, reading them block by block, in blocks of any sizes, is reading them at
    once: the same packets are processed in the same order, the connection ends
    in the same state, or is closed at the same point. *)
Theorem stream_cut_anywhere `{OpenSSL, EvpLaws} env (blocks : list (list Z)) (s : WorldSocket) :
  in_ok s -> Forall block_ok blocks ->
  read_blocks env blocks s = recv_all env (concat blocks) s.
Proof.
  revert s. induction blocks as [|b blocks IH]; intros s Hok Hb; [reflexivity|].
  apply Forall_cons in Hb as [[Hb1 Hb2] Hb]. cbn [read_blocks concat].
  assert (E : forall s, handle_input_missing_data env (RecvBytes b) s =
    let '(st, s1, l) := recv_block env b s in (Read st (bool_decide (length b = recv_size)), s1, l)).
  { intros s0. unfold handle_input_missing_data. rewrite take_ge by exact Hb2. destruct b; [simpl in Hb1; lia|].
    unfold bind, ret. destruct (recv_block env _ s0) as [[? ?] ?]. by rewrite app_nil_r. }
  unfold bind at 1. rewrite E. unfold recv_all, recv_block, bind, ret.
  destruct (recv_loop_split env (length b) (S (length b)) (S (length (concat blocks))) (S (length (b ++ concat blocks)))
    b (concat blocks) s Hok ltac:(lia) ltac:(lia) ltac:(lia) ltac:(rewrite length_app; lia)) as [Q1 Q2].
  destruct (recv_loop env (S (length (b ++ concat blocks))) (b ++ concat blocks) s) as [[sa s2] la].
  destruct (recv_loop env (S (length b)) b s) as [[sb s3] lb]. cbn [fst snd follow as_alive] in Q1, Q2 |- *.
  unfold follow, as_alive in Q2. destruct (alive sb) eqn:Ea.
  - specialize (IH s3 (Q1 eq_refl) Hb). unfold recv_all, recv_block, bind, ret in IH.
    destruct (recv_loop env (S (length (concat blocks))) (concat blocks) s3) as [[sc s4] lc].
    destruct sb; try discriminate; rewrite IH, ?app_nil_r; congruence.
  - destruct sb; try discriminate; cbn; rewrite ?app_nil_r; congruence.
Qed.

(** ** A packet on the wire *)

Section framing.
Context `{OpenSSL, EvpLaws} (env : nat -> WorldEnv).

(** The header a client sends: the size, which counts the command, in network
    order, then the command. *)
Definition client_header (size cmd : Z) : list Z := rev (le_encode 2 size) ++ le_encode 4 cmd.
Definition wire_header (s : WorldSocket) (size cmd : Z) : list Z :=
  client_encrypt (m_Crypt s) (client_header size cmd).

Lemma client_header_bytes size cmd : bytes_ok (client_header size cmd).
Proof. apply Forall_app. split; [apply bytes_ok_rev|]; apply le_encode_ok. Qed.

Lemma length_client_header size cmd : length (client_header size cmd) = sizeof_ClientPktHeader.
Proof. unfold client_header. by rewrite length_app, length_rev, !length_le_encode. Qed.

Lemma header_size_client size cmd : in_u 16 size -> header_size (client_header size cmd) = size.
Proof.
  intros Hs. unfold header_size, client_header.
  rewrite take_app_length' by (by rewrite length_rev, length_le_encode).
  unfold be_decode. rewrite rev_involutive, le_decode_encode. by apply uwrap_id.
Qed.
Lemma header_cmd_client size cmd : in_u 32 cmd -> header_cmd (client_header size cmd) = cmd.
Proof.
  intros Hc. unfold header_cmd, client_header.
  rewrite drop_app_length' by (by rewrite length_rev, length_le_encode).
  rewrite take_ge by (by rewrite length_le_encode). rewrite le_decode_encode. by apply uwrap_id.
Qed.

(** The state with the packet in place, and the rest of the stream after it. *)
Definition packet_there (s : WorldSocket) (cmd : Z) (payload : list Z) : WorldSocket :=
  let size := Z.of_nat (length payload) in
  let hdr := client_header (size + 4) cmd in
  set_in (fun _ => mkIn hdr (Some (u16 cmd, size)) payload size)
    (set_crypt (fun c => after_recv c hdr) s).

Definition deliver (index : nat) (cmd : Z) (payload rest : list Z) : WM bool :=
  let! r := ProcessIncoming (env index) (u16 cmd) payload in
  modify count_packet ;;
  modify (set_in (fun _ => no_input)) ;;
  if r =? -1 then ret false else recv_all env rest.

Lemma finish_deliver s cmd payload rest :
  finish env rest (packet_there s cmd payload) =
    let '(r, s2, l) := ProcessIncoming (env (packets s)) (u16 cmd) payload (packet_there s cmd payload) in
    (if r =? -1 then Failed else AllRead, rest, set_in (fun _ => no_input) (count_packet s2), l).
Proof.
  set (s1 := packet_there s cmd payload).
  assert (E1 : m_RecvPct_space (incoming s1) = 0) by (unfold m_RecvPct_space; cbn; lia).
  assert (E2 : m_Header_space (incoming s1) = 0%nat).
  { unfold m_Header_space. cbn [incoming set_in m_Header s1 packet_there]. rewrite length_client_header. reflexivity. }
  unfold finish, bind at 1. assert (Eh : handle_input_payload env s1 =
    (let! r := ProcessIncoming (env (packets s)) (u16 cmd) payload in
     modify count_packet ;; modify (set_in (fun _ => no_input)) ;; ret r) s1).
  { unfold handle_input_payload, ACE_ASSERT, with_state. rewrite E1, E2. 
    change (m_RecvWPct (incoming s1)) with (Some (u16 cmd, Z.of_nat (length payload))).
    cbn [Z.eqb negb when bool_decide decide_rel]. rewrite bool_decide_true by reflexivity. cbn [negb when].
    change (m_RecvPct (incoming s1)) with payload. change (packets s1) with (packets s).
    unfold bind, ret, modify. by destruct (ProcessIncoming _ _ _ s1) as [[r s2] l]. }
  rewrite Eh. unfold bind, ret, modify.

  destruct (ProcessIncoming (env (packets s)) (u16 cmd) payload s1) as [[r s2] l]. cbn. by rewrite !app_nil_r.
Qed.

Lemma header_turn s size cmd rest :
  incoming s = no_input -> in_u 16 size -> in_u 32 cmd ->
  let hdr := client_header size cmd in
  let s1 := set_crypt (fun c => after_recv c hdr) s in
  recv_turn env (wire_header s size cmd ++ rest) s =
    if (size <? 4) || (10240 <? size)
    then (Failed, rest, set_in (fun _ => mkIn hdr None [] 0) s1, [])
    else recv_payload env rest (set_in (fun _ => mkIn hdr (Some (u16 cmd, size - 4)) [] (size - 4)) s1).
Proof.
  intros Hin Hsz Hcmd hdr s1. set (w := wire_header s size cmd).
  assert (Hw : length w = 6%nat).
  { unfold w, wire_header. rewrite length_client_encrypt. apply length_client_header. }
  assert (Hsp : m_Header_space (incoming s) = 6%nat) by (by rewrite Hin).
  rewrite recv_turn_full by (rewrite Hsp, length_app, Hw; lia). rewrite Hsp.
  rewrite (take_app_length' w) by (by rewrite Hw). rewrite (drop_app_length' w) by (by rewrite Hw).
  set (s2 := set_in (push_header w) s).
  assert (Hs2 : header_there s2).
  { unfold header_there, s2. cbn [incoming set_in push_header m_Header m_RecvWPct m_RecvPct m_RecvPct_size].
    rewrite Hin. cbn. by rewrite Hw. }
  unfold after_header, bind. rewrite handle_input_header_eq by exact Hs2. cbv zeta.
  assert (Ew : m_Header (incoming s2) = w) by (unfold s2; cbn; by rewrite Hin).
  rewrite Ew. change (m_Crypt s2) with (m_Crypt s).
  assert (Hdec : (DecryptRecv w (m_Crypt s)).1 = hdr) by (apply DecryptRecv_client, client_header_bytes).
  rewrite Hdec.
  assert (Hsize : header_size hdr = size) by (by apply header_size_client).
  assert (Hcm : header_cmd hdr = cmd) by (by apply header_cmd_client). rewrite Hsize, Hcm.
  destruct (_ || _).
  - cbn. unfold s1, set_in, set_crypt, s2. cbn. rewrite Hin. reflexivity.
  - change (0 =? -1) with false. cbv iota.
    change (set_in (fun _ => mkIn hdr (Some (u16 cmd, size - 4)) [] (size - 4))
              (set_crypt (fun _ => (DecryptRecv w (m_Crypt s)).2) s2))
      with (set_in (fun _ => mkIn hdr (Some (u16 cmd, size - 4)) [] (size - 4)) s1).
    by destruct (recv_payload env rest _) as [[[? ?] ?] ?].
Qed.
End framing.

(** C31: a packet of any payload up to 10236 bytes, sent with its header encrypted,
    is handed to [ProcessIncoming] once, with its own command (cut to 16 bits) and
    payload, whatever follows it in the stream; the bytes after it are the next
    packet's.  A header that announces less than 4 or more than 10240 bytes closes
    the connection, and nothing is processed. *)
Theorem packet_delivered `{OpenSSL, EvpLaws} env (s : WorldSocket) (size cmd : Z) (payload rest : list Z) :
  incoming s = no_input -> in_u 16 size -> in_u 32 cmd ->
  (Z.of_nat (length payload) = size - 4 -> size <= 10240 ->
   recv_all env (wire_header s size cmd ++ payload ++ rest) s =
     deliver env (packets s) cmd payload rest (packet_there s cmd payload)) /\
  (size < 4 \/ 10240 < size ->
   run_value (recv_all env (wire_header s size cmd ++ payload)) s = false /\
   run_log (recv_all env (wire_header s size cmd ++ payload)) s = []).
Proof.
  intros Hin Hsz Hcmd. 
  assert (Hhead : forall b, exists x y, wire_header s size cmd ++ b = x :: y).
  { intros b. pose proof (length_client_encrypt (m_Crypt s) (client_header size cmd)) as Hl.
    rewrite length_client_header in Hl. fold (wire_header s size cmd) in Hl.
    destruct (wire_header s size cmd) as [|x y]; [discriminate|]. by exists x, (y ++ b). }
  assert (Hloop : forall b, recv_all env (wire_header s size cmd ++ b) s =
    let '(st, rest, s1, l) := recv_turn env (wire_header s size cmd ++ b) s in
    match st with
    | AllRead => let '(ok, s2, l') := as_alive (recv_loop env (length (wire_header s size cmd ++ b)) rest s1) in
                 (ok, s2, l ++ l')
    | _ => (alive st, s1, l)
    end).
  { intros b. unfold recv_all, recv_block, bind at 1. destruct (Hhead b) as (x & y & ->). rewrite recv_loop_cons.
    destruct (recv_turn env (x :: y) s) as [[[st rst] s1] l]. cbn [length].
    destruct (recv_loop env (S (length y)) rst s1) as [[? ?] ?]. destruct st; cbn; by rewrite ?app_nil_r. }
  split.
  - intros Hlen Hmax. rewrite Hloop. rewrite header_turn by assumption.
    rewrite (proj2 (orb_false_iff _ _)) by (split; apply Z.ltb_ge; lia).
    set (s1 := set_in _ _).
    assert (Hp : recv_payload env (payload ++ rest) s1 = finish env rest (packet_there s cmd payload)).
    { destruct (Z.lt_ge_cases 0 (size - 4)) as [Hpos|Hz].
      - rewrite recv_payload_full;
          [|by eexists | unfold m_RecvPct_space, s1; cbn; rewrite length_app; lia].
        assert (Hn : Z.to_nat (m_RecvPct_space (incoming s1)) = length payload).
        { unfold m_RecvPct_space, s1. cbn. lia. }
        rewrite Hn, take_app_length, drop_app_length. f_equal.
        unfold packet_there, s1, push_payload. cbn. rewrite Hlen. by replace (size - 4 + 4) with size by lia.
      - destruct payload; [|simpl in Hlen; lia]. cbn [app].
        rewrite recv_payload_zero; [|by eexists | unfold m_RecvPct_space, s1; cbn; lia].
        f_equal. unfold packet_there, s1. cbn. cbn in Hlen. by replace size with 4 by lia. }
    rewrite Hp, finish_deliver. unfold deliver, bind, modify.
    destruct (ProcessIncoming (env (packets s)) (u16 cmd) payload (packet_there s cmd payload)) as [[r s2] l].
    cbn [fst snd app]. destruct (r =? -1); cbn; [by rewrite app_nil_r|].
    unfold recv_all, recv_block, bind. set (s3 := set_in _ _).
    rewrite (recv_loop_fuel env _ (S (length rest)) rest s3);
      [| left; by apply mid_header_fresh | rewrite !length_app; lia | lia].
    destruct (recv_loop env (S (length rest)) rest s3) as [[? ?] ?]. cbn. by rewrite app_nil_r.
  - intros Hbad. unfold run_value, run_log. rewrite Hloop, header_turn by assumption.
    rewrite (proj2 (orb_true_iff _ _)) by (rewrite !Z.ltb_lt; lia). split; reflexivity.
Qed.

(** ** Logging in to the world *)

Section login.
Context `{OpenSSL, EvpLaws} (e : WorldEnv).

Lemma read_pos n r w st :
  0 <= r -> 0 <= n -> r + n <= Z.of_nat (length st) < 2 ^ 64 ->
  exists bs, read n (mkBuf r w st) = (Ok bs, mkBuf (r + n) w st).
Proof.
  intros Hr Hn Hb. unfold read, read_at, bb_size. cbn [_rpos _wpos _storage]. rewrite uwrap_id by (unfold in_u; lia).
  rewrite !(proj2 (Z.ltb_ge _ _)) by lia. cbn [_rpos _wpos _storage]. eexists. rewrite uwrap_id by (unfold in_u; lia). reflexivity.
Qed.
Lemma skip_pos n r w st :
  0 <= r -> 0 <= n -> r + n <= Z.of_nat (length st) < 2 ^ 64 ->
  read_skip n (mkBuf r w st) = (Ok tt, mkBuf (r + n) w st).
Proof.
  intros Hr Hn Hb. unfold read_skip, bb_size. cbn [_rpos _wpos _storage]. rewrite uwrap_id by (unfold in_u; lia).
  by rewrite (proj2 (Z.ltb_ge _ _)) by lia.
Qed.

Lemma bbind_read {C} n r w st (k : list Z -> B C) out :
  0 <= r -> 0 <= n -> r + n <= Z.of_nat (length st) < 2 ^ 64 ->
  (forall bs, k bs (mkBuf (r + n) w st) = out) -> bbind (read n) k (mkBuf r w st) = out.
Proof.
  intros Hr Hn Hb Hk. destruct (read_pos n r w st Hr Hn Hb) as [bs E].
  rewrite (bbind_ok _ _ _ _ _ E). apply Hk.
Qed.
Lemma bbind_skip {C} n r w st (k : unit -> B C) out :
  0 <= r -> 0 <= n -> r + n <= Z.of_nat (length st) < 2 ^ 64 ->
  k tt (mkBuf (r + n) w st) = out -> bbind (read_skip n) k (mkBuf r w st) = out.
Proof. intros Hr Hn Hb Hk. by rewrite (bbind_ok _ _ _ _ _ (skip_pos n r w st Hr Hn Hb)). Qed.

(** The 52 bytes before the size of the add-on data are skipped, but for the
    client's seed and build. *)
Lemma read_auth_header_eq w st n rest :
  Z.of_nat (length st) < 2 ^ 64 -> in_u 32 n -> drop 52 st = le_encode 4 n ++ rest ->
  exists seed build, read_auth_header (mkBuf 0 w st) = (Ok (seed, build, n), mkBuf 56 w st).
Proof.
  intros Hl Hn Hd.
  assert (Hlen : Z.of_nat (length st) = 56 + Z.of_nat (length rest)).
  { pose proof (f_equal length Hd) as E. rewrite length_drop, length_app, length_le_encode in E. lia. }
  exists (le_decode (take 4 (drop 28 st))), (le_decode (take 2 (drop 42 st))).
  unfold read_auth_header.
  repeat first
    [ apply bbind_read; [lia..|]; intros _ | apply bbind_skip; [lia..|]
    | match goal with |- bbind (shr_uint ?k) _ (mkBuf ?r w st) = _ =>
        assert (E : shr_uint k (mkBuf r w st) = (Ok (le_decode (take k (drop (Z.to_nat r) st))), mkBuf (r + Z.of_nat k) w st));
        [unfold shr_uint, read, read_at, bb_size, bbind; cbn [_rpos _wpos _storage];
         rewrite uwrap_id by (unfold in_u; lia); rewrite !(proj2 (Z.ltb_ge _ _)) by lia; cbn [_rpos _wpos _storage];
         rewrite uwrap_id by (unfold in_u; lia); unfold bret; by rewrite Nat2Z.id
        |rewrite (bbind_ok _ _ _ _ _ E); clear E]
      end ].
  unfold bret. do 3 f_equal.
  match goal with |- le_decode (take 4 (drop ?k st)) = n => change k with 52%nat end.
  rewrite Hd, take_app_length' by (by rewrite length_le_encode). rewrite le_decode_encode. by apply uwrap_id.
Qed.

Lemma read_addon_bytes_eq bs b pa rest :
  bytes_ok bs -> ready b bs rest -> at_end pa -> room pa (length bs) ->
  read_addon_bytes (length bs) pa b = (Ok (extend bs pa), advance (length bs) b).
Proof.
  revert b pa. induction bs as [|c bs IH]; intros b pa Hb Hr He Hroom; cbn [read_addon_bytes length].
  { by rewrite extend_nil, advance_0. }
  apply Forall_cons in Hb as [Hc Hb]. change (c :: bs) with ([c] ++ bs) in Hr. apply ready_split in Hr.
  unfold room in Hroom. cbn [length] in Hroom.
  rewrite (bbind_ok _ _ _ _ _ (shr_byte_ready b c _ Hc Hr)).
  unfold append_T. rewrite le_encode_byte, uwrap_id by exact Hc.
  rewrite append_at_end by (try exact He; unfold room; cbn; lia).
  rewrite IH; [|exact Hb | exact (ready_advance b [c] _ Hr) | by apply at_end_extend |].
  - by rewrite extend_app, advance_advance.
  - unfold room. rewrite size_extend. cbn. lia.
Qed.

(** A CMSG_AUTH_SESSION: 52 bytes that hold the digest, the seeds and the build,
    the add-on data with its size, and the account name. *)
Definition auth_session_packet (pre addons name extra : list Z) : list Z :=
  pre ++ le_encode 4 (Z.of_nat (length addons)) ++ addons ++ name ++ [0] ++ extra.

Definition addons_buffer (addons : list Z) : ByteBuffer := extend addons new_buffer.

Lemma HandleAuthSession_reads pre addons name extra s :
  length pre = 52%nat -> bytes_ok addons -> Forall (fun c => 1 <= c < 256) name ->
  Z.of_nat (length (auth_session_packet pre addons name extra)) <= 10000000 ->
  exists seed build,
    HandleAuthSession e (mkBuf 0 (Z.of_nat (length (auth_session_packet pre addons name extra)))
                           (auth_session_packet pre addons name extra)) s =
    (emit (Allocate (Z.of_nat (length addons))) ;;
     login_session e (mkAuthSession seed build (addons_buffer addons) name)) s.
Proof.
  intros Hpre Hadd Hname Hlen. set (st := auth_session_packet pre addons name extra) in *.
  assert (Hle : Z.of_nat (length addons) + Z.of_nat (length name) <= Z.of_nat (length st)).
  { unfold st, auth_session_packet. rewrite !length_app. lia. }
  assert (Hdrop : drop 52 st = le_encode 4 (Z.of_nat (length addons)) ++ addons ++ name ++ [0] ++ extra).
  { unfold st, auth_session_packet. by rewrite drop_app_length' by done. }
  destruct (read_auth_header_eq (Z.of_nat (length st)) st (Z.of_nat (length addons)) _ ltac:(lia) ltac:(unfold in_u; lia) Hdrop)
    as (seed & build & E).
  exists seed, build. unfold HandleAuthSession. rewrite E.
  assert (Hrest : read_auth_rest seed build (Z.of_nat (length addons)) (mkBuf 56 (Z.of_nat (length st)) st) =
    (Ok (mkAuthSession seed build (addons_buffer addons) name),
     advance (S (length name)) (advance (length addons) (mkBuf 56 (Z.of_nat (length st)) st)))).
  { set (b := mkBuf 56 (Z.of_nat (length st)) st).
    assert (Hready : ready b (addons ++ (name ++ [0])) extra).
    { unfold ready, b, bb_size. cbn [_rpos _storage]. split; [lia|]. split; [lia|].
      change (Z.to_nat 56) with (52 + 4)%nat. rewrite <- drop_drop, Hdrop.
      rewrite drop_app_length' by (by rewrite length_le_encode). by rewrite <- !app_assoc. }
    apply ready_split in Hready. unfold read_auth_rest. rewrite Nat2Z.id.
    rewrite (bbind_ok _ _ _ _ _ (read_addon_bytes_eq addons b new_buffer _ Hadd Hready at_end_new
      ltac:(unfold room, bb_size; cbn; lia))).
    apply ready_advance in Hready. change ([] ++ ?x) with x in Hready.
    assert (Hready2 : ready (advance (length addons) b) (name ++ [0]) extra) by exact Hready.
    rewrite (bbind_ok _ _ _ _ _ (shr_string_ready _ name extra Hname Hready2)). reflexivity. }
  unfold bind. rewrite Hrest. reflexivity.
Qed.
End login.

(** The log-in to the game server does not check the session key.  For an
    account that exists, is neither banned nor locked to another address, and may
    enter the world, every CMSG_AUTH_SESSION with its name is accepted, whatever
    the digest and the seeds in it are and whatever key the login server stored:
    the connection gets the account's session with its security level. *)
Lemma world_login_without_key `{OpenSSL, EvpLaws} (e : WorldEnv) (s : WorldSocket)
    (pre addons name extra : list Z) (row : AccountInfo) :
  closing_ s = false -> m_Session s = None ->
  IsClosed e = false -> account_by_name e name = Some row -> ai_locked row <> 1 ->
  is_banned e (ai_id row) (m_Address s) = false -> GetPlayerSecurityLimit e = SEC_PLAYER ->
  (read_addons e (set_rpos 0 (addons_buffer addons))).2 = false ->
  length pre = 52%nat -> bytes_ok addons -> Forall (fun c => 1 <= c < 256) name ->
  Z.of_nat (length (auth_session_packet pre addons name extra)) <= 10236 ->
  let run := ProcessIncoming e CMSG_AUTH_SESSION (auth_session_packet pre addons name extra) s in
  run.1.1 = 0 /\ exists ses, m_Session run.1.2 = Some ses /\ AddSession ses ∈ run.2 /\ ses_account ses = ai_id row /\ ses_security ses = realm_security e (ai_id row).
Proof.
  intros Hcl Hses Hopen Hrow Hlock Hban Hlim Hadd Hpre Hb Hname Hlen run. unfold run, ProcessIncoming, with_state.
  rewrite Hcl. change (CMSG_AUTH_SESSION =? CMSG_PING) with false. change (CMSG_AUTH_SESSION =? CMSG_AUTH_SESSION) with true.
  cbv iota zeta. rewrite Hses. unfold bind. change (emit ?x s) with (tt, s, [x]). cbv beta iota.
  destruct (HandleAuthSession_reads e pre addons name extra s Hpre Hb Hname ltac:(lia)) as (seed & build & ->).
  assert (Hl : forall s2, exists l, save_addons e [] (read_addons e (set_rpos 0 (addons_buffer addons))).1 s2 = (tt, s2, l)).
  { generalize (@nil (list Z)). induction (read_addons e _).1 as [|a l IH]; intros known s2; [by exists []|].
    cbn [save_addons]. destruct (_ && _); [|apply IH]. unfold bind. destruct (IH (Addon_Name a :: known) s2) as [l' E].
    cbn. rewrite E. by eexists. }
  unfold login_session, ReadAddonsInfo, bind, with_state, emit, modify, ret, send.
  cbn [as_account as_addons]. rewrite Hopen, Hrow, (proj2 (Z.eqb_neq _ _) Hlock). cbn [andb]. rewrite Hban, Hlim.
  cbn [Z.ltb Z.compare SEC_PLAYER andb].
  destruct (read_addons e (set_rpos 0 (addons_buffer addons))) as [adds threw]. cbn in Hadd, Hl. subst threw.
  match goal with |- context [save_addons e [] adds ?st] => destruct (Hl st) as [l ->] end.
  cbn. split; [reflexivity|]. eexists. split; [reflexivity|]. split_and!; [|reflexivity|reflexivity].
  set_solver.
Qed.

(** ** Whole connections *)

Section connection.
Context `{OpenSSL, EvpLaws} (env : nat -> WorldEnv) (address : list Z).

(** The connections of a peer with this address. *)
Inductive ws_connection : WorldSocket -> list ws_event -> Prop :=
| ws_open seed k seed1 seed2 :
    let m := open address seed1 seed2 in
    ws_connection (run_state m (new_WorldSocket seed k)) (run_log m (new_WorldSocket seed k))
| ws_readable s log waiting :
    ws_connection s log ->
    ws_connection (run_state (on_readable env waiting) s) (log ++ run_log (on_readable env waiting) s)
| ws_output s log o :
    ws_connection s log -> ws_connection (run_state (run_out_op o) s) (log ++ run_log (run_out_op o) s)
| ws_close s log :
    ws_connection s log -> ws_connection (run_state CloseSocket s) (log ++ run_log CloseSocket s).

(** What [HandleAuthSession] reads from the payload of a log-in packet. *)
Definition names_account (payload : list Z) (p : AuthSession) : Prop :=
  exists seed build size b b',
    read_auth_header (mkBuf 0 (Z.of_nat (length payload)) payload) = (Ok (seed, build, size), b) /\
    read_auth_rest seed build size b = (Ok p, b').

(** This connection has received a log-in packet; the database knew the account
    it names and let it in from this address, with its level. *)
Definition vouched (log : list ws_event) (ses : WorldSession) : Prop :=
  exists payload p n row, let e := env n in
    OnPacketReceive CMSG_AUTH_SESSION payload ∈ log /\ names_account payload p /\
    account_by_name e (as_account p) = Some row /\ ses_account ses = ai_id row /\
    ses_security ses = realm_security e (ai_id row) /\ IsClosed e = false /\
    is_banned e (ai_id row) address = false /\
    (ai_locked row = 1 -> c_str (ai_last_ip row) = c_str address) /\
    (SEC_PLAYER < GetPlayerSecurityLimit e -> GetPlayerSecurityLimit e <= ses_security ses).

Lemma vouched_mono log log' ses : log ⊆ log' -> vouched log ses -> vouched log' ses.
Proof. intros Hl (payload & p & n & row & Hin & Hv). exists payload, p, n, row. split; [by apply Hl | exact Hv]. Qed.

Record sound (log : list ws_event) (s : WorldSocket) : Prop := {
  sound_address : m_Address s = address;
  sound_session : forall ses, m_Session s = Some ses -> vouched log ses;
  sound_queue : forall ses op body, QueuePacket ses op body ∈ log -> vouched log ses
}.

(** [vouches base m]: after the events of [base], [m] keeps the log and the state sound. *)
Definition vouches {A} (base : list ws_event) (m : WM A) : Prop := forall log s,
  base ⊆ log -> sound log s -> sound (log ++ run_log m s) (run_state m s).

Lemma vouches_ret {A} base (x : A) : vouches base (ret x).
Proof. intros log s _ Hs. cbn. by rewrite app_nil_r. Qed.
Lemma vouches_bind {A C} base (m : WM A) (k : A -> WM C) :
  vouches base m -> (forall x, vouches base (k x)) -> vouches base (bind m k).
Proof.
  intros Hm Hk log s Hb Hs. rewrite run_state_bind, run_log_bind, app_assoc.
  apply Hk; [set_solver | by apply Hm].
Qed.
Lemma vouches_state {A} base (k : WorldSocket -> WM A) :
  (forall log s, base ⊆ log -> sound log s -> vouches log (k s)) -> vouches base (with_state k).
Proof. intros Hk log s Hb Hs. by apply (Hk log s Hb Hs log s). Qed.
Lemma vouches_with_out {A} base (k : Outgoing -> WM A) : (forall o, vouches base (k o)) -> vouches base (with_out k).
Proof. intros Hk log s Hb Hs. by apply Hk. Qed.
Lemma vouches_modify base f :
  (forall s, m_Address (f s) = m_Address s) ->
  (forall s, m_Session (f s) = m_Session s \/ m_Session (f s) = None) -> vouches base (modify f).
Proof.
  intros Ha Hf log s _ [Q1 Q2 Q3].
  change (run_log (modify f) s) with (@nil ws_event). rewrite app_nil_r, rs_modify. split; [by rewrite Ha | | exact Q3].
  intros ses E. destruct (Hf s) as [E1|E1]; rewrite E1 in E; [by apply Q2 | discriminate].
Qed.
Lemma vouches_event base x :
  (forall ses op body, x = QueuePacket ses op body -> vouched base ses) -> vouches base (emit x).
Proof.
  intros Hx log s Hb [Q1 Q2 Q3]. change (run_log (emit x) s) with [x]. change (run_state (emit x) s) with s.
  assert (Hl : log ⊆ log ++ [x]) by set_solver. split; [exact Q1 | intros ses E; eapply vouched_mono, Q2; eauto|].
  intros ses op body Hin. apply elem_of_app in Hin as [Hin|Hin]; [eapply vouched_mono; eauto|].
  apply list_elem_of_singleton in Hin. apply (vouched_mono base); [set_solver | by apply (Hx _ op body)].
Qed.
Lemma vouches_after {A} base x (m : WM A) :
  (forall ses op body, x <> QueuePacket ses op body) -> vouches (x :: base) m -> vouches base (emit x ;; m).
Proof.
  intros Hx Hm log s Hb Hs. rewrite run_state_bind, run_log_bind, app_assoc.
  change (run_log (emit x) s) with [x]. change (run_state (emit x) s) with s.
  apply Hm; [set_solver|]. apply (vouches_event log x); [|set_solver | exact Hs].
  intros ses op body E. by elim (Hx ses op body).
Qed.
Lemma vouches_when base b m : vouches base m -> vouches base (when b m).
Proof. intros Hm. destruct b; [exact Hm | apply vouches_ret]. Qed.

Ltac vouch := repeat lazymatch goal with
  | |- vouches _ (bind _ _) => apply vouches_bind; [|intros ?]
  | |- vouches _ (with_state _) => apply vouches_state; intros ? ? ? ?
  | |- vouches _ (with_out _) => apply vouches_with_out; intros ?
  | |- vouches _ (modify _) => apply vouches_modify; [done | intros ?; (by left) || (by right)]
  | |- vouches _ (when _ _) => apply vouches_when
  | |- vouches _ (emit _) => apply vouches_event; discriminate
  | |- vouches _ (ret _) => apply vouches_ret
  | |- vouches _ (if ?b then _ else _) => destruct b
  | |- vouches _ (match ?x with _ => _ end) => destruct x
  | |- vouches _ (let '(_, _) := ?x in _) => destruct x
  | |- vouches _ (put_buffer _) => unfold put_buffer
  | |- vouches _ (put_queue _) => unfold put_queue
  | |- vouches _ (put_active _) => unfold put_active
  | |- vouches _ (enqueue_head _) => unfold enqueue_head
  | |- vouches _ (enqueue_tail _) => unfold enqueue_tail
  | |- vouches _ (ACE_ASSERT _) => unfold ACE_ASSERT
  | |- vouches _ cancel_wakeup_output => unfold cancel_wakeup_output
  | |- vouches _ schedule_wakeup_output => unfold schedule_wakeup_output
  | |- vouches _ (peer_send _) => unfold peer_send
  | |- vouches _ (let x := _ in _) => cbv zeta
  | |- _ => progress eauto
  end.

Lemma vouches_SendPacket base opcode pct : vouches base (SendPacket opcode pct).
Proof. unfold SendPacket. vouch. Qed.
Lemma vouches_handle_output base : vouches base handle_output.
Proof. unfold handle_output, handle_output_queue. vouch. Qed.
Lemma vouches_Update base : vouches base Update.
Proof.
  assert (Hl : forall fuel base, vouches base (Update_loop fuel)).
  { induction fuel as [|fuel IH]; intros b; cbn [Update_loop]; vouch. apply vouches_handle_output. }
  unfold Update. vouch.
Qed.
Lemma vouches_close base : vouches base CloseSocket /\ vouches base handle_close.
Proof. unfold CloseSocket, handle_close. split; vouch. Qed.
Lemma vouches_out_op base o : vouches base (run_out_op o).
Proof.
  destruct o; cbn [run_out_op]; [apply vouches_SendPacket | | apply vouches_handle_output].
  apply vouches_bind; [apply vouches_Update | intros ?; apply vouches_ret].
Qed.

Lemma vouches_save_addons base e known addons : vouches base (save_addons e known addons).
Proof. revert known. induction addons as [|a l IH]; intros known; cbn [save_addons]; vouch. Qed.

Lemma vouches_set_session base ses : vouched base ses -> vouches base (modify (set_session (Some ses))).
Proof.
  intros Hv log s Hb [Q1 _ Q3]. cbn. rewrite app_nil_r. split; [exact Q1 | | exact Q3].
  intros ses' [= <-]. by eapply vouched_mono.
Qed.

Lemma vouches_ReadAddonsInfo base e data : vouches base (ReadAddonsInfo e data).
Proof.
  unfold ReadAddonsInfo. apply vouches_state. intros log s0 _ Hs0. destruct (read_addons e data) as [addons threw].
  apply vouches_bind; [apply vouches_save_addons|]. intros _. destruct (m_Session s0) as [ses|] eqn:Es; [|vouch].
  apply vouches_bind; [|intros _; vouch]. apply vouches_set_session.
  destruct (sound_session _ _ Hs0 ses Es) as (payload & p & n & row & Hv). by exists payload, p, n, row.
Qed.

Lemma vouches_login base n payload p :
  OnPacketReceive CMSG_AUTH_SESSION payload ∈ base -> names_account payload p ->
  vouches base (login_session (env n) p).
Proof.
  intros Hin Hp. unfold login_session. apply vouches_state. intros log s0 Hb Hs0.
  pose proof (sound_address _ _ Hs0) as Ha. rewrite !Ha.
  destruct (IsClosed (env n)) eqn:Hopen; [vouch; apply vouches_SendPacket|].
  destruct (account_by_name (env n) (as_account p)) as [row|] eqn:Erow; [|vouch; apply vouches_SendPacket]. cbv zeta.
  destruct ((ai_locked row =? 1) && _) eqn:Hlock; [vouch; apply vouches_SendPacket|].
  destruct (is_banned _ _ _) eqn:Hban; [vouch; apply vouches_SendPacket|].
  destruct ((SEC_PLAYER <? _) && _) eqn:Hlim; [vouch; apply vouches_SendPacket|].
  apply vouches_bind; [vouch|]. intros _. apply vouches_bind; [apply vouches_set_session|].
  - exists payload, p, n, row. cbn. split_and!; try done; [set_solver | |].
    + intros Hl1. rewrite Hl1 in Hlock. apply andb_false_iff in Hlock as [Hlock|Hlock]; [discriminate|].
      apply negb_false_iff, bool_decide_eq_true in Hlock. exact Hlock.
    + intros Hsec. rewrite (proj2 (Z.ltb_lt _ _) Hsec) in Hlim. cbn in Hlim. by apply Z.ltb_ge in Hlim.
  - intros _. vouch; apply vouches_ReadAddonsInfo.
Qed.

Lemma vouches_auth_session base n payload :
  OnPacketReceive CMSG_AUTH_SESSION payload ∈ base ->
  vouches base (HandleAuthSession (env n) (mkBuf 0 (Z.of_nat (length payload)) payload)).
Proof.
  intros Hin. unfold HandleAuthSession. destruct (read_auth_header _) as [[[[seed build] size]|f] b] eqn:Eh; [|vouch].
  apply vouches_bind; [vouch|]. intros _. destruct (read_auth_rest _ _ _ _) as [[p|f] b'] eqn:Er; [|vouch].
  apply (vouches_login base n payload p Hin). by exists seed, build, size, b, b'.
Qed.

Lemma vouches_ProcessIncoming base n opcode payload : vouches base (ProcessIncoming (env n) opcode payload).
Proof.
  unfold ProcessIncoming. apply vouches_state. intros log s _ Hs. destruct (closing_ s); [vouch|]. cbv zeta.
  apply vouches_bind; [|intros ?; vouch]. destruct (_ =? CMSG_PING).
  { unfold HandlePing. vouch; apply vouches_SendPacket. }
  destruct (Z.eqb_spec opcode CMSG_AUTH_SESSION) as [->|].
  { destruct (m_Session s); [vouch|]. apply vouches_after; [discriminate|]. apply vouches_auth_session. left. }
  destruct (_ =? CMSG_KEEP_ALIVE); [vouch|]. destruct (m_Session s) as [ses|] eqn:Es; [|vouch].
  apply vouches_bind; [|intros ?; vouch]. apply vouches_event. intros ses' op body [= -> _ _].
  by apply (sound_session _ _ Hs).
Qed.

Lemma vouches_recv_turn base block : vouches base (recv_turn env block).
Proof.
  unfold recv_turn, recv_payload, handle_input_payload, handle_input_header.
  vouch; apply vouches_ProcessIncoming.
Qed.

Lemma vouches_on_readable base waiting : vouches base (on_readable env waiting).
Proof.
  assert (Hl : forall fuel base block, vouches base (recv_loop env fuel block)).
  { induction fuel as [|fuel IH]; intros b [|x block]; cbn [recv_loop]; vouch. apply vouches_recv_turn. }
  pose proof (fun b => proj2 (vouches_close b)) as Hclose. pose proof vouches_Update as Hupdate.
  unfold on_readable, handle_input, handle_input_missing_data, recv_block. vouch.
Qed.

(** Opening a connection stores the address. *)
Lemma open_sound seed k seed1 seed2 (m := open address seed1 seed2) :
  sound (run_log m (new_WorldSocket seed k)) (run_state m (new_WorldSocket seed k)).
Proof.
  unfold m, open. rewrite rs_with_state, rl_with_state. cbn [bool_decide decide_rel]. rewrite bool_decide_true by done.
  unfold put_active, put_buffer. rewrite !run_state_bind, !run_log_bind, !rs_modify. cbn [app].
  change (run_log (modify ?f) ?s) with (@nil ws_event). cbn [app].
  set (s1 := set_address address _).
  assert (Hs1 : sound [] s1).
  { split; [reflexivity | discriminate|]. intros ses op body Hin. by apply not_elem_of_nil in Hin. }
  set (packet := SendPacket _ _). pose proof (vouches_SendPacket [] _ _ [] s1 (list_subseteq_nil _) Hs1 : sound ([] ++ run_log packet s1) _) as Hp.
  cbn [app] in Hp. destruct (_ =? -1); cbn; by rewrite app_nil_r.
Qed.
End connection.

(** C13: the only packets that reach a session are those of a connection whose
    client named an account the database knows.  For every packet that is queued,
    and for the session a connection has, the connection has received a log-in
    packet whose account was found, not banned, nor the peer's address, not locked
    to another address than the peer's, and of the level the realm asks for; the
    session is of this account and this level. *)
Theorem queued_packets_vouched `{OpenSSL, EvpLaws} env address (s : WorldSocket) (log : list ws_event) :
  ws_connection env address s log ->
  (forall ses opcode body, QueuePacket ses opcode body ∈ log -> vouched env address log ses) /\
  (forall ses, m_Session s = Some ses -> vouched env address log ses).
Proof.
  intros Hc. enough (Hs : sound env address log s) by (split; [apply (sound_queue _ _ _ _ Hs) | apply (sound_session _ _ _ _ Hs)]).
  induction Hc as [seed k s1 s2 m|s log waiting Hc IH|s log o Hc IH|s log Hc IH].
  - apply open_sound.
  - by apply (vouches_on_readable env address []); [set_solver|].
  - by apply (vouches_out_op env address []); [set_solver|].
  - by apply (vouches_close env address []); [set_solver|].
Qed.

(** ** Pings *)

Section pings.
Context `{OpenSSL, EvpLaws}.

Definition ping (latency sequence : Z) : list Z := ser [FU 4 latency; FU 4 sequence].

Lemma ping_reads latency sequence :
  in_u 32 latency -> in_u 32 sequence ->
  (let? l := shr_uint 4 in let? q := shr_uint 4 in bret (l, q)) (mkBuf 0 8 (ping latency sequence)) =
  (Ok (latency, sequence), mkBuf 8 8 (ping latency sequence)).
Proof.
  intros Hl Hs. set (b := mkBuf 0 8 (ping latency sequence)).
  assert (Hr : ready b (le_encode 4 latency) (le_encode 4 sequence)).
  { unfold ready, b, bb_size. cbn [_rpos _storage]. unfold ping, ser. cbn [fmap list_fmap concat field_bytes].
    rewrite length_app, length_app, !length_le_encode, app_nil_r. split; [lia|]. split; [cbn; lia | reflexivity]. }
  rewrite (bbind_ok _ _ _ _ _ (shr_uint_ready b 4 latency _ ltac:(lia) Hl Hr)).
  apply ready_advance in Hr. rewrite length_le_encode in Hr.
  assert (Hr2 : ready (advance 4 b) (le_encode 4 sequence) []).
  { apply ready_split with (bs1 := []) in Hr || idtac. unfold ready in *. cbn [app] in *. by rewrite app_nil_r. }
  by rewrite (bbind_ok _ _ _ _ _ (shr_uint_ready _ 4 sequence _ ltac:(lia) Hs Hr2)).
Qed.

Lemma length_ping l q : Z.of_nat (length (ping l q)) = 8.
Proof. unfold ping, ser. cbn [fmap list_fmap concat field_bytes]. by rewrite !length_app, !length_le_encode. Qed.

Lemma ProcessIncoming_ping e s latency sequence :
  closing_ s = false -> in_u 32 latency -> in_u 32 sequence ->
  ProcessIncoming e CMSG_PING (ping latency sequence) s =
  (let! r :=
     modify (set_ping (gettimeofday e) (ping_count e s)) ;;
     if ping_flood e s then ret (Some (-1))
     else match m_Session s with
          | Some ses => emit (SetLatency (ses_account ses) latency) ;;
                        let! r := send (Pkt SMSG_PONG [FU 4 sequence]) in ret (Some r)
          | None => emit NullDereference ;; ret (Some (-1))
          end in ret (default (-1) r)) s.
Proof.
  intros Hcl Hl Hs. unfold ProcessIncoming, with_state. rewrite Hcl.
  change (CMSG_PING =? CMSG_PING) with true. cbv iota zeta. rewrite length_ping.
  unfold HandlePing. rewrite (ping_reads latency sequence Hl Hs). reflexivity.
Qed.

(** The connection after [n] pings in a row. *)
Fixpoint after_pings (e : nat -> WorldEnv) (bytes : list Z) (n : nat) (s : WorldSocket) : WorldSocket :=
  match n with
  | O => s
  | S n' => run_state (ProcessIncoming (e n') CMSG_PING bytes) (after_pings e bytes n' s)
  end.

(** [SendPacket] leaves alone what the pings look at. *)
Lemma SendPacket_keeps opcode pct s :
  closing_ (run_state (SendPacket opcode pct) s) = closing_ s /\
  m_LastPingTime (run_state (SendPacket opcode pct) s) = m_LastPingTime s /\
  m_OverSpeedPings (run_state (SendPacket opcode pct) s) = m_OverSpeedPings s /\
  m_Session (run_state (SendPacket opcode pct) s) = m_Session s.
Proof.
  unfold SendPacket. rewrite rs_with_state. destruct (closing_ s) eqn:Hc; [by split_and!|].
  destruct (_ <? _); [by split_and!|]. cbv zeta. destruct (EncryptSend _ _) as [h c]. rewrite rs_put.
  destruct (m_OutBuffer _); [|by split_and!]. destruct (_ && _); [by rewrite !run_state_bind|].
  rewrite run_state_bind. unfold enqueue_tail, with_out. rewrite rs_with_state, rv_with_state.
  destruct (is_full _); by rewrite ?run_state_bind.
Qed.

(** A ping on a connection with a session. *)
Lemma ping_step e s ses latency sequence :
  closing_ s = false -> m_Session s = Some ses -> in_u 32 latency -> in_u 32 sequence ->
  let m := ProcessIncoming e CMSG_PING (ping latency sequence) in
  let s2 := set_ping (gettimeofday e) (ping_count e s) s in
  run_state m s = (if ping_flood e s then s2 else run_state (SendPacket SMSG_PONG (ser [FU 4 sequence])) s2) /\
  (ping_flood e s = true -> run_value m s = -1 /\ run_log m s = []).
Proof.
  intros Hcl Hses Hl Hs m s2. unfold m, run_state at 1, run_value, run_log.
  rewrite ProcessIncoming_ping, Hses by assumption. unfold bind, modify, ret, emit, send. fold s2.
  destruct (ping_flood e s); [by split|]. split; [|discriminate].
  cbn [pkt_opcode pkt_body]. unfold run_state. by destruct (SendPacket _ _ s2) as [[r s3] l].
Qed.
End pings.

(** A ping before the log-in makes the server read through a null pointer:
    the branch for a connection without a session asks that session for its
    player.  Nothing but the eight bytes of the ping is needed. *)
Lemma ping_before_login `{OpenSSL, EvpLaws} (e : WorldEnv) (s : WorldSocket) (latency sequence : Z) :
  closing_ s = false -> m_Session s = None -> in_u 32 latency -> in_u 32 sequence ->
  NullDereference ∈ run_log (ProcessIncoming e CMSG_PING (ping latency sequence)) s.
Proof.
  intros Hcl Hses Hl Hs. unfold run_log. rewrite ProcessIncoming_ping by assumption.
  assert (Hf : ping_flood e s = false) by (unfold ping_flood; rewrite Hses; apply andb_false_r).
  rewrite Hf, Hses. cbn. left.
Qed.

(** The ping limit.  On the connection of a player, where [max] over-speed
    pings are tolerated, the first ping and [max] pings that follow each other in
    less than 27 seconds are answered; the next one ends the connection, without
    an answer. *)
Lemma ping_limit `{OpenSSL, EvpLaws} (e : nat -> WorldEnv) (s : WorldSocket) (ses : WorldSession)
    (latency sequence : Z) (max : nat) :
  closing_ s = false -> m_Session s = Some ses -> ses_security ses = SEC_PLAYER ->
  m_LastPingTime s = 0 -> m_OverSpeedPings s = 0 -> in_u 32 latency -> in_u 32 sequence ->
  (0 < max)%nat -> Z.of_nat max < 2 ^ 32 - 1 -> (forall n, CONFIG_MAX_OVERSPEED_PINGS (e n) = Z.of_nat max) ->
  (forall n, 0 < gettimeofday (e n) /\ gettimeofday (e (S n)) - gettimeofday (e n) < 27 * 1000000) ->
  let bytes := ping latency sequence in
  (forall n, (n <= max)%nat -> ping_flood (e n) (after_pings e bytes n s) = false) /\
  run_value (ProcessIncoming (e (S max)) CMSG_PING bytes) (after_pings e bytes (S max) s) = -1 /\
  run_log (ProcessIncoming (e (S max)) CMSG_PING bytes) (after_pings e bytes (S max) s) = [].
Proof.
  intros Hcl Hses Hsec H0t H0c Hl Hs Hmax Hmax32 Hcfg Htime bytes.
  assert (Hcount : forall n s1, (n <= S max)%nat ->
    match n with
    | O => m_LastPingTime s1 = 0 /\ m_OverSpeedPings s1 = 0
    | S n' => m_LastPingTime s1 = gettimeofday (e n') /\ m_OverSpeedPings s1 = Z.of_nat n'
    end -> ping_count (e n) s1 = Z.of_nat n).
  { intros n s1 Hn. unfold ping_count, over_speed. destruct n as [|n]; intros [Q1 Q2].
    - rewrite Q1. exact Q2.
    - rewrite Q1, Q2. destruct (Htime n) as [T1 T2].
      rewrite (proj2 (Z.eqb_neq _ _)) by lia. rewrite (proj2 (Z.ltb_lt _ _)) by lia. cbn [negb andb].
      rewrite uwrap_id by (unfold in_u; lia). lia. }
  assert (Hinv : forall n, (n <= S max)%nat ->
    let s' := after_pings e bytes n s in
    closing_ s' = false /\ m_Session s' = Some ses /\
    match n with
    | O => m_LastPingTime s' = 0 /\ m_OverSpeedPings s' = 0
    | S n' => m_LastPingTime s' = gettimeofday (e n') /\ m_OverSpeedPings s' = Z.of_nat n'
    end).
  { induction n as [|n IH]; intros Hn; [cbn; by split_and!|]. destruct (IH ltac:(lia)) as (P1 & P2 & P3). clear IH.
    cbn [after_pings]. set (s1 := after_pings e bytes n s) in *.
    destruct (ping_step (e n) s1 ses latency sequence P1 P2 Hl Hs) as [E _]. fold bytes in E. rewrite E. clear E.
    rewrite (Hcount n s1 ltac:(lia) P3). set (s2 := set_ping _ _ s1). destruct (ping_flood (e n) s1); [by split_and!|].
    destruct (SendPacket_keeps SMSG_PONG (ser [FU 4 sequence]) s2) as (-> & -> & -> & ->). by split_and!. }
  split.
  - intros n Hn. destruct (Hinv n ltac:(lia)) as (P1 & P2 & P3). unfold ping_flood.
    rewrite (Hcount n _ ltac:(lia) P3), Hcfg. rewrite (proj2 (Z.ltb_ge (Z.of_nat max) _)) by lia.
    by rewrite andb_false_r.
  - destruct (Hinv (S max) ltac:(lia)) as (P1 & P2 & P3). set (s1 := after_pings e bytes (S max) s) in *.
    assert (Hflood : ping_flood (e (S max)) s1 = true).
    { unfold ping_flood. rewrite (Hcount (S max) s1 ltac:(lia) P3), Hcfg, P2, Hsec.
      rewrite (proj2 (Z.eqb_neq (Z.of_nat max) 0)) by lia. rewrite (proj2 (Z.ltb_lt _ _)) by lia.
      destruct P3 as [Q1 _]. unfold over_speed. rewrite Q1. destruct (Htime max) as [T1 T2].
      rewrite (proj2 (Z.eqb_neq _ _)) by lia. by rewrite (proj2 (Z.ltb_lt _ _)) by lia. }
    destruct (ping_step (e (S max)) s1 ses latency sequence P1 P2 Hl Hs) as [_ Hend]. by apply Hend.
Qed.

(** ** The header of the packets the server sends *)

(** How a client reads it. *)
Definition read_server_header (h : list Z) : Z * Z * nat :=
  match h with
  | b0 :: b1 :: b2 :: b3 :: rest =>
      if has_flag b0 0x80 then
        ((Z.land b0 0x7F * 256 + b1) * 256 + b2, b3 + 256 * default 0 (head rest), 5%nat)
      else (b0 * 256 + b1, b2 + 256 * b3, 4%nat)
  | _ => (0, 0, 0%nat)
  end.

Lemma land_ff v : Z.land 255 v = v mod 256.
Proof. rewrite Z.land_comm. change 255 with (Z.ones 8). by rewrite Z.land_ones by lia. Qed.

Lemma shiftr_mod v a b : 0 <= a -> 0 <= b -> Z.shiftr v a mod 2 ^ b = (v mod 2 ^ (a + b)) / 2 ^ a.
Proof.
  intros Ha Hb. rewrite Z.shiftr_div_pow2 by exact Ha. rewrite Z.pow_add_r by assumption.
  pose proof (Z.pow_pos_nonneg 2 a). pose proof (Z.pow_pos_nonneg 2 b).
  rewrite Z.rem_mul_r by lia. rewrite Z.add_comm, Z.mul_comm, Z.div_add_l by lia.
  rewrite (Z.div_small (v mod 2 ^ a)) by (apply Z.mod_pos_bound; lia). lia.
Qed.

(** The header of an outgoing packet tells its size and opcode.  Up to 32767
    bytes it takes four bytes, above five, and a client that tests the top bit
    reads back the same size (below 8 MB) and the 16-bit opcode. *)
Lemma server_header_roundtrip (size cmd : Z) :
  0 <= size < 2 ^ 23 -> in_u 16 cmd ->
  read_server_header (ServerPktHeader size cmd) =
    (size, cmd, length (ServerPktHeader size cmd)) /\
  Z.of_nat (length (ServerPktHeader size cmd)) = getHeaderLength size /\
  bytes_ok (ServerPktHeader size cmd).
Proof.
  intros Hs Hc. unfold in_u in Hc.
  assert (Hcmd : cmd mod 256 + 256 * (Z.shiftr cmd 8 mod 256) = cmd).
  { rewrite Z.shiftr_div_pow2 by lia. change (2 ^ 8) with 256. rewrite (Z.mod_small (cmd / 256)).
    - pose proof (Z.div_mod cmd 256). lia.
    - split; [apply Z.div_pos; lia|]. apply Z.div_lt_upper_bound; lia. }
  assert (Hlow : (Z.shiftr size 8 mod 256) * 256 + size mod 256 = size mod 2 ^ 16).
  { change 256 with (2 ^ 8) at 1. rewrite shiftr_mod by lia.
    assert (E : size mod 256 = (size mod 2 ^ 16) mod 256).
    { symmetry. change (2 ^ 16) with (256 * 256). rewrite Z.rem_mul_r by lia.
      rewrite Z.mul_comm, Z.mod_add, Z.mod_mod by lia. reflexivity. }
    rewrite E. change (2 ^ (8 + 8)) with (2 ^ 16). change (2 ^ 8) with 256.
    pose proof (Z.div_mod (size mod 2 ^ 16) 256 ltac:(lia)). lia. }
  unfold ServerPktHeader, getHeaderLength, read_server_header, isLargePacket.
  rewrite !land_ff.
  destruct (Z.ltb_spec 0x7FFF size) as [Hl|Hl]; cbn [app length].
  - set (hi := Z.shiftr size 16 mod 256).
    assert (Hhi : hi = size / 2 ^ 16 /\ 0 <= hi < 128).
    { unfold hi. rewrite Z.shiftr_div_pow2 by lia.
      assert (0 <= size / 2 ^ 16 < 128) by (split; [apply Z.div_pos; lia | apply Z.div_lt_upper_bound; lia]).
      rewrite Z.mod_small by lia. lia. }
    destruct Hhi as [Ehi Rhi].
    assert (Hor : Z.lor 128 hi = hi + 128).
    { rewrite Z.lor_comm. change 128 with (Z.shiftl 1 7) at 1. rewrite lor_shift_add by lia. lia. }
    assert (Hflag : has_flag (Z.lor 128 hi) 128 = true) by (rewrite Z.lor_comm; by apply has_flag_lor_same).
    assert (Hland : Z.land (Z.lor 128 hi) 127 = hi).
    { rewrite Hor. change 127 with (Z.ones 7). rewrite Z.land_ones by lia. change (2 ^ 7) with 128.
      rewrite <- (Z.mul_1_l 128) at 1. rewrite Z.mod_add by lia. by apply Z.mod_small. }
    rewrite Hflag, Hland. unfold default. cbn [head from_option]. unfold id. split_and!.
    + rewrite Hcmd. do 2 f_equal. pose proof (Z.div_mod size (2 ^ 16)). lia.
    + reflexivity.
    + rewrite Hor. repeat constructor; unfold is_byte; try (apply Z.mod_pos_bound; lia); lia.
  - assert (Hb0 : 0 <= Z.shiftr size 8 mod 256 < 128).
    { rewrite Z.shiftr_div_pow2 by lia. change (2 ^ 8) with 256.
      assert (0 <= size / 256 < 128) by (split; [apply Z.div_pos; lia | apply Z.div_lt_upper_bound; lia]).
      rewrite Z.mod_small by lia. lia. }
    assert (Hflag : has_flag (Z.shiftr size 8 mod 256) 128 = false).
    { unfold has_flag. apply negb_false_iff, Z.eqb_eq. change 128 with (2 ^ 7).
      apply Z.bits_inj'. intros i Hi. rewrite Z.land_spec, Z.bits_0, Z.pow2_bits_eqb by lia.
      destruct (Z.eqb_spec 7 i) as [<-|]; [|apply andb_false_r].
      rewrite andb_true_r. apply Z.testbit_false; [lia|]. change (2 ^ 7) with 128. by rewrite Z.div_small by lia. }
    rewrite Hflag. unfold default. cbn [head from_option]. unfold id. split_and!.
    + rewrite Hcmd, Hlow. do 2 f_equal. apply Z.mod_small. lia.
    + reflexivity.
    + repeat constructor; unfold is_byte; apply Z.mod_pos_bound; lia.
Qed.

(** ** Assertions *)

Section assertions.
Context `{OpenSSL, EvpLaws} (env : nat -> WorldEnv).

Definition clean (log : list ws_event) : Prop := AssertionFailed ∉ log.
Lemma clean_app l1 l2 : clean (l1 ++ l2) <-> clean l1 /\ clean l2.
Proof. unfold clean. rewrite elem_of_app. tauto. Qed.
Lemma clean_nil : clean [].
Proof. apply not_elem_of_nil. Qed.

(** [apart m]: a run of [m] asserts nothing and leaves the incoming packet and
    the state of the connection alone. *)
Definition apart {A} (m : WM A) : Prop := forall s,
  clean (run_log m s) /\ incoming (run_state m s) = incoming s /\ closing_ (run_state m s) = closing_ s.

Lemma apart_ret {A} (x : A) : apart (ret x).
Proof. intros s. split_and!; [apply clean_nil | reflexivity | reflexivity]. Qed.
Lemma apart_bind {A C} (m : WM A) (k : A -> WM C) : apart m -> (forall x, apart (k x)) -> apart (bind m k).
Proof.
  intros Hm Hk s. destruct (Hm s) as (Q1 & Q2 & Q3). destruct (Hk (run_value m s) (run_state m s)) as (Q4 & Q5 & Q6).
  rewrite run_state_bind, run_log_bind, clean_app. split_and!; congruence.
Qed.
Lemma apart_with_state {A} (k : WorldSocket -> WM A) : (forall s, apart (k s)) -> apart (with_state k).
Proof. intros Hk s. apply Hk. Qed.
Lemma apart_modify f :
  (forall s, incoming (f s) = incoming s /\ closing_ (f s) = closing_ s) -> apart (modify f).
Proof. intros Hf s. split; [apply clean_nil|]. rewrite rs_modify. apply Hf. Qed.
Lemma apart_emit x : x <> AssertionFailed -> apart (emit x).
Proof. intros Hx s. split; [|done]. intros Hin. apply list_elem_of_singleton in Hin. by elim Hx. Qed.

Ltac stay_apart := repeat lazymatch goal with
  | |- apart (bind _ _) => apply apart_bind; [|intros ?]
  | |- apart (with_state _) => apply apart_with_state; intros ?
  | |- apart (with_out _) => apply apart_with_state; intros ?
  | |- apart (modify _) => apply apart_modify; intros ?; by split
  | |- apart (emit _) => apply apart_emit; discriminate
  | |- apart (ret _) => apply apart_ret
  | |- apart (if ?b then _ else _) => destruct b
  | |- apart (match ?x with _ => _ end) => destruct x
  | |- apart (put_buffer _) => unfold put_buffer
  | |- apart (put_queue _) => unfold put_queue
  | |- apart (enqueue_head _) => unfold enqueue_head
  | |- apart (enqueue_tail _) => unfold enqueue_tail
  | |- apart (put_active _) => unfold put_active
  | |- apart (when _ _) => unfold when
  | |- apart cancel_wakeup_output => unfold cancel_wakeup_output
  | |- apart schedule_wakeup_output => unfold schedule_wakeup_output
  | |- apart (peer_send _) => unfold peer_send
  | |- apart (let x := _ in _) => cbv zeta
  | |- _ => progress eauto
  end.

Lemma apart_SendPacket opcode pct : apart (SendPacket opcode pct).
Proof. unfold SendPacket. stay_apart. Qed.
Lemma apart_handle_output : apart handle_output.
Proof. unfold handle_output, handle_output_queue. stay_apart. Qed.
Lemma apart_Update : apart Update.
Proof.
  assert (Hl : forall fuel, apart (Update_loop fuel)).
  { induction fuel as [|fuel IH]; cbn [Update_loop]; stay_apart. apply apart_handle_output. }
  unfold Update. stay_apart.
Qed.
Lemma apart_save_addons e known addons : apart (save_addons e known addons).
Proof. revert known. induction addons as [|a l IH]; intros known; cbn [save_addons]; stay_apart. Qed.
Lemma apart_ProcessIncoming e opcode payload : apart (ProcessIncoming e opcode payload).
Proof.
  pose proof apart_SendPacket as Hsend. pose proof apart_save_addons as Hsave.
  unfold ProcessIncoming, HandlePing, HandleAuthSession, login_session, ReadAddonsInfo, send. stay_apart.
Qed.

(** A packet whose payload is complete. *)
Lemma finish_clean rest s :
  length (m_Header (incoming s)) = sizeof_ClientPktHeader -> is_Some (m_RecvWPct (incoming s)) ->
  m_RecvPct_space (incoming s) = 0 -> clean (finish env rest s).2.
Proof.
  intros Hh [[op sz] Ep] Hsp. unfold finish, handle_input_payload, ACE_ASSERT.
  assert (E2 : m_Header_space (incoming s) = 0%nat) by (unfold m_Header_space; lia).
  change (clean (run_log (bind (with_state (fun s => ACE_ASSERT (m_RecvPct_space (incoming s) =? 0) ;;
    ACE_ASSERT (bool_decide (m_Header_space (incoming s) = 0%nat)) ;;
    match m_RecvWPct (incoming s) with
    | None => emit AssertionFailed ;; ret (-1)
    | Some (opcode, _) =>
      let! r := ProcessIncoming (env (packets s)) opcode (m_RecvPct (incoming s)) in
      modify count_packet ;; modify (set_in (fun _ => no_input)) ;; ret r
    end)) (fun r => ret (if r =? -1 then Failed else AllRead, rest))) s)).
  rewrite run_log_bind, rl_with_state. unfold ACE_ASSERT. rewrite Hsp, E2, Ep, bool_decide_true by reflexivity.
  cbn [Z.eqb negb when]. rewrite !run_log_bind. cbn [run_log ret modify snd]. rewrite !app_nil_l, ?app_nil_r.
  apply apart_ProcessIncoming.
Qed.

Lemma payload_clean block s :
  length (m_Header (incoming s)) = sizeof_ClientPktHeader -> is_Some (m_RecvWPct (incoming s)) ->
  0 <= m_RecvPct_space (incoming s) -> clean (recv_payload env block s).2.
Proof.
  intros Hh Hp Hsp. destruct (Z.eq_dec (m_RecvPct_space (incoming s)) 0) as [E|E].
  { rewrite recv_payload_zero by (assumption || lia). by apply finish_clean. }
  destruct (Z.lt_ge_cases (Z.of_nat (length block)) (m_RecvPct_space (incoming s))).
  - rewrite recv_payload_short by assumption. apply clean_nil.
  - rewrite recv_payload_full by (try assumption; lia). apply finish_clean; [exact Hh | exact Hp|].
    unfold m_RecvPct_space in *. cbn. rewrite length_app, length_take. lia.
Qed.

Lemma turn_clean block s : in_ok s -> clean (recv_turn env block s).2.
Proof.
  intros [Hmid|Hmid].
  2: { rewrite mid_payload_turn by exact Hmid. destruct Hmid as (P1 & P2 & P3). apply payload_clean; [done | done | lia]. }
  pose proof Hmid as (P1 & P2 & P3 & P4). set (n := m_Header_space (incoming s)).
  destruct (decide (length block < n)%nat) as [Hl|Hl]; [rewrite recv_turn_short by exact Hl; apply clean_nil|].
  assert (Hn : (0 < n)%nat) by (unfold n, m_Header_space; lia).
  rewrite recv_turn_full by (fold n; lia). fold n. set (s1 := set_in _ s).
  assert (Hs1 : header_there s1) by (apply in_ok_header; [by left | exact Hn | rewrite length_take; lia]).
  unfold after_header, bind. rewrite handle_input_header_eq by exact Hs1. cbv zeta.
  pose proof (header_there_length s1 Hs1) as Hlen. cbv zeta in Hlen.
  destruct (_ || _) eqn:Hc; [apply clean_nil|]. change (0 =? -1) with false. cbv iota. set (s2 := set_in _ _).
  apply orb_false_iff in Hc as [Hc _]. apply Z.ltb_ge in Hc.
  pose proof (payload_clean (drop n block) s2 Hlen ltac:(by eexists)
                ltac:(unfold m_RecvPct_space, s2; cbn [incoming set_in m_RecvPct_size m_RecvPct length]; lia)) as Hk.
  by destruct (recv_payload env (drop n block) s2) as [[[? ?] ?] ?].
Qed.

Lemma loop_clean fuel block s :
  in_ok s -> (length block <= fuel)%nat ->
  let '(st, s1, l) := recv_loop env fuel block s in
  clean l /\ st <> NoFuel /\ (alive st = true -> in_ok s1).
Proof.
  revert block s. induction fuel as [|fuel IH]; intros [|x block] s Hok Hl; try (by split_and!; [apply clean_nil|..]).
  { simpl in Hl. lia. }
  rewrite recv_loop_cons. pose proof (turn_clean (x :: block) s Hok) as Hc.
  pose proof (recv_turn_ok env (x :: block) s Hok ltac:(discriminate)) as Ht.
  destruct (recv_turn env (x :: block) s) as [[[st rest] s1] l]. cbn in Hc. destruct st; try done.
  - destruct Ht as [Hok1 Hlt]. simpl in Hlt, Hl. specialize (IH rest s1 Hok1 ltac:(lia)).
    destruct (recv_loop env fuel rest s1) as [[st' s2] l']. rewrite clean_app. tauto.
  - destruct Ht as [Hok1 _]. by split_and!.
Qed.

Lemma missing_data_clean data s : in_ok s ->
  let '(r, s1, l) := handle_input_missing_data env data s in
  clean l /\ match r with Read st _ => alive st = true -> in_ok s1 | PeerError _ => in_ok s1 | PeerClosed => True end.
Proof.
  intros Hok. unfold handle_input_missing_data. destruct data as [wb|data]; [by split; [apply clean_nil|]|].
  destruct (take recv_size data) as [|x got]; [by split; [apply clean_nil|]|].
  pose proof (loop_clean (S (length (x :: got))) (x :: got) s Hok ltac:(lia)) as Hl.
  unfold recv_block, bind, ret. destruct (recv_loop env _ (x :: got) s) as [[st s1] l].
  rewrite app_nil_r. tauto.
Qed.

Lemma handle_input_clean data s : closing_ s = false -> in_ok s ->
  clean (run_log (handle_input env data) s) /\
  (run_value (handle_input env data) s <> -1 -> in_ok (run_state (handle_input env data) s)).
Proof.
  intros Hcl Hok. unfold handle_input. rewrite rl_with_state, rv_with_state, rs_with_state, Hcl.
  rewrite run_log_bind, run_value_bind, run_state_bind, clean_app.
  pose proof (missing_data_clean data s Hok) as Hm. 
  change (run_log (handle_input_missing_data env data) s) with (handle_input_missing_data env data s).2.
  change (run_value (handle_input_missing_data env data) s) with (handle_input_missing_data env data s).1.1.
  change (run_state (handle_input_missing_data env data) s) with (handle_input_missing_data env data s).1.2.
  destruct (handle_input_missing_data env data s) as [[r s1] l]. destruct Hm as [Q1 Q2]. cbn [fst snd].
  assert (Hup : clean (run_log (let! u := Update in ret (default (-1) u)) s1) /\
                (in_ok s1 -> in_ok (run_state (let! u := Update in ret (default (-1) u)) s1))).
  { rewrite run_log_bind, run_state_bind, rs_ret, rl_ret, app_nil_r. destruct (apart_Update s1) as (P1 & P2 & P3).
    split; [exact P1|]. unfold in_ok, mid_header, mid_payload. by rewrite P2. }
  destruct r as [[]| |st full];
    [split; [split; [exact Q1 | apply Hup]|]; intros _; by apply Hup | by split; [split; [exact Q1 | apply clean_nil]|].. |].
  destruct st; [destruct full| | |]; try (by split; [split; [exact Q1 | apply clean_nil]|]).
  - split; [split; [exact Q1 | apply clean_nil]|]. intros _. by apply Q2.
  - split; [split; [exact Q1 | apply Hup]|]. intros _. by apply Hup, Q2.
  - split; [split; [exact Q1 | apply Hup]|]. intros _. by apply Hup, Q2.
Qed.
End assertions.

(** C38: whatever bytes a client sends, none of the socket's assertions fails, and
    reading a block comes to an end. *)
Theorem input_never_asserts `{OpenSSL, EvpLaws} env address (s : WorldSocket) (log : list ws_event) :
  ws_connection env address s log ->
  (AssertionFailed ∉ log) /\
  (closing_ s = false -> forall block, run_value (recv_block env block) s <> NoFuel).
Proof.
  intros Hc. enough (Hinv : clean log /\ (closing_ s = false -> in_ok s)).
  { destruct Hinv as [Q1 Q2]. split; [exact Q1|]. intros Hcl block.
    pose proof (loop_clean env (S (length block)) block s (Q2 Hcl) ltac:(lia)) as Hl.
    unfold run_value, recv_block. destruct (recv_loop _ _ _ _) as [[st s1] l]. apply Hl. }
  assert (Hpure : forall (A : Type) (m : WM A) s log, apart m -> clean log /\ (closing_ s = false -> in_ok s) ->
    clean (log ++ run_log m s) /\ (closing_ (run_state m s) = false -> in_ok (run_state m s))).
  { intros A m s0 l Hm [Q1 Q2]. destruct (Hm s0) as (Q3 & Q4 & Q5). rewrite clean_app. split; [by split|].
    rewrite Q5. intros Hcl. specialize (Q2 Hcl). unfold in_ok, mid_header, mid_payload in *. by rewrite Q4. }
  induction Hc as [seed k s1 s2 m|s log data Hc IH|s log o Hc IH|s log Hc IH].
  - apply (Hpure _ m (new_WorldSocket seed k) []).
    + unfold m, open. apply apart_with_state. intros s0. destruct (bool_decide _); [|apply apart_ret].
      repeat (apply apart_bind; [apply apart_modify; by split|]; intros _).
      apply apart_bind; [apply apart_SendPacket|]. intros r. destruct (r =? -1); apply apart_ret.
    + split; [apply clean_nil|]. intros _. left. by apply mid_header_fresh.
  - destruct (closing_ s) eqn:Hcl.
    + assert (E : on_readable env data s = (-1, set_session None (set_closing s), [CloseWriter])).
      { unfold on_readable, handle_input, bind, with_state. by rewrite Hcl. }
      unfold run_log, run_state. rewrite E. cbn. rewrite clean_app. split; [|discriminate].
      split; [apply IH|]. intros Hin. apply list_elem_of_singleton in Hin. discriminate.
    + destruct IH as [Q1 Q2]. destruct (handle_input_clean env data s Hcl (Q2 eq_refl)) as [Q3 Q4].
      unfold on_readable. rewrite run_log_bind, run_state_bind, !clean_app.
      destruct (Z.eqb_spec (run_value (handle_input env data) s) (-1)) as [E|E].
      * rewrite !run_log_bind, !run_state_bind. split; [|discriminate]. split; [exact Q1|]. split; [exact Q3|].
        cbn. intros Hin. apply list_elem_of_singleton in Hin. discriminate.
      * split; [|intros _; by apply Q4]. split; [exact Q1|]. split; [exact Q3 | apply clean_nil].
  - apply Hpure; [|exact IH]. destruct o; cbn [run_out_op];
      [apply apart_SendPacket | apply apart_bind; [apply apart_Update | intros ?; apply apart_ret] | apply apart_handle_output].
  - unfold CloseSocket. rewrite rl_with_state, rs_with_state. destruct (closing_ s) eqn:Hcl.
    + cbn. rewrite app_nil_r, Hcl. split; [apply IH | discriminate].
    + rewrite !run_log_bind, !run_state_bind. cbn. rewrite clean_app. split; [|discriminate].
      split; [apply IH|]. intros Hin. apply list_elem_of_singleton in Hin. discriminate.
Qed.

(** ** Witnesses

    Concrete connections over [toy_ssl] and [toy_evp]. *)

#[local] Existing Instance toy_ssl.
#[local] Existing Instance toy_evp.
#[local] Existing Instance toy_evp_laws.

Definition ex_row : AccountInfo := mkAccountInfo 7 (text "11FF") [] 0 3 0 2 0.
Definition ex_world (n : nat) : WorldEnv :=
  mkWorldEnv false (fun name => if bool_decide (name = text "BOB") then Some ex_row else None)
    (fun _ => None) (fun _ _ => false) SEC_PLAYER 3 2 (fun _ => None) (fun _ _ => None)
    (1000000 * (Z.of_nat n + 1)).

(** An open connection whose socket takes what it is given. *)
Definition ex_open (k : list send_result) : WorldSocket :=
  run_state (open (text "10.0.0.9") 5 6) (new_WorldSocket 77 k).
Definition ex_log (k : list send_result) : list ws_event :=
  run_log (open (text "10.0.0.9") 5 6) (new_WorldSocket 77 k).

Lemma ex_open_connection k : ws_connection ex_world (text "10.0.0.9") (ex_open k) (ex_log k).
Proof. apply (ws_open ex_world (text "10.0.0.9") 77 k 5 6). Qed.

Lemma output_fifo_witness :
  let s := ex_open [SendAccept 3; SendAccept 100] in
  let ops := [OpSend 0x1234 [1; 2; 3]; OpWritable; OpWritable] in
  run_value (run_out_ops ops) s = true /\
  pending s ++ accepted (run_log (run_out_ops ops) s) =
    transmitted (run_log (run_out_ops ops) s) ++ pending (run_state (run_out_ops ops) s).
Proof.
  intros s ops.
  assert (Hs : out_ok s) by (split; [eexists; split; [reflexivity | vm_compute; discriminate] | constructor]).
  assert (Hr : run_value (run_out_ops ops) s = true) by (vm_compute; reflexivity). split; [exact Hr|].
  destruct (proj2 (output_fifo ops s Hs) Hr) as (_ & _ & Hall & Hkept).
  apply Hall, Hkept. vm_compute. reflexivity.
Defined.

(** A log-in packet with a digest of zeros, as one block and in pieces. *)
Definition ex_auth_payload : list Z := auth_session_packet (replicate 52 0) [] (text "BOB") [].
Definition ex_auth_packet : list Z :=
  wire_header (ex_open []) (Z.of_nat (length ex_auth_payload) + 4) CMSG_AUTH_SESSION ++ ex_auth_payload.

Lemma ex_open_in_ok k : in_ok (ex_open k).
Proof. left. by apply mid_header_fresh. Qed.

Lemma stream_cut_anywhere_witness :
  let blocks := [take 3 ex_auth_packet; take 10 (drop 3 ex_auth_packet); drop 13 ex_auth_packet] in
  run_value (read_blocks ex_world blocks) (ex_open []) = true /\
  read_blocks ex_world blocks (ex_open []) = recv_all ex_world (concat blocks) (ex_open []).
Proof.
  intros blocks. split; [vm_compute; reflexivity|].
  apply (stream_cut_anywhere ex_world blocks (ex_open [])); [apply ex_open_in_ok|].
  repeat (constructor; [split; apply Nat.leb_le; vm_compute; reflexivity|]). constructor.
Defined.

Lemma packet_delivered_witness :
  recv_all ex_world (wire_header (ex_open []) 5 CMSG_KEEP_ALIVE ++ [9] ++ []) (ex_open []) =
    deliver ex_world 0 CMSG_KEEP_ALIVE [9] [] (packet_there (ex_open []) CMSG_KEEP_ALIVE [9]) /\
  run_value (recv_all ex_world (wire_header (ex_open []) 5 CMSG_KEEP_ALIVE ++ [9] ++ [])) (ex_open []) = true.
Proof.
  split; [|vm_compute; reflexivity].
  apply (packet_delivered ex_world (ex_open []) 5 CMSG_KEEP_ALIVE [9] []); [reflexivity | split; vm_compute; congruence.. | reflexivity | lia].
Defined.

Lemma world_login_without_key_witness :
  exists ses, m_Session (ProcessIncoming (ex_world 0) CMSG_AUTH_SESSION ex_auth_payload (ex_open [])).1.2 = Some ses /\
    ses_account ses = 7.
Proof.
  destruct (world_login_without_key (ex_world 0) (ex_open []) (replicate 52 0) [] (text "BOB") [] ex_row)
    as (_ & ses & E1 & _ & E2 & _); try reflexivity.
  - discriminate.
  - constructor.
  - change (text "BOB") with [66; 79; 66]. repeat (constructor; [lia|]). constructor.
  - vm_compute. discriminate.
  - exists ses. split; [exact E1 | exact E2].
Defined.

(** The connection after the log-in and a packet for the session. *)
Definition ex_session : WorldSocket := run_state (on_readable ex_world (RecvBytes ex_auth_packet)) (ex_open []).
Definition ex_session_log : list ws_event := ex_log [] ++ run_log (on_readable ex_world (RecvBytes ex_auth_packet)) (ex_open []).
Definition ex_say : list Z := wire_header ex_session 6 0x4444 ++ [1; 2].

Lemma ex_session_connection : ws_connection ex_world (text "10.0.0.9") ex_session ex_session_log.
Proof. apply ws_readable, ex_open_connection. Qed.

Definition ex_said : list ws_event := ex_session_log ++ run_log (on_readable ex_world (RecvBytes ex_say)) ex_session.

Lemma queued_packets_vouched_witness :
  exists ses, QueuePacket ses 0x4444 [1; 2] ∈ ex_said /\ vouched ex_world (text "10.0.0.9") ex_said ses.
Proof.
  assert (Hin : exists ses, QueuePacket ses 0x4444 [1; 2] ∈ run_log (on_readable ex_world (RecvBytes ex_say)) ex_session).
  { eexists. vm_compute. left. }
  destruct Hin as [ses Hin]. exists ses.
  assert (Hin' : QueuePacket ses 0x4444 [1; 2] ∈ ex_said) by (apply elem_of_app; by right). split; [exact Hin'|].
  destruct (queued_packets_vouched ex_world (text "10.0.0.9") _ ex_said
              (ws_readable ex_world _ _ _ (RecvBytes ex_say) ex_session_connection)) as [Hq _].
  by apply (Hq ses 0x4444 [1; 2]).
Defined.

Lemma ping_limit_witness :
  run_value (ProcessIncoming (ex_world 3) CMSG_PING (ping 30 1)) (after_pings ex_world (ping 30 1) 3 ex_session) = -1.
Proof.
  assert (Hses : exists ses, m_Session ex_session = Some ses /\ ses_security ses = SEC_PLAYER).
  { eexists. split; vm_compute; reflexivity. }
  destruct Hses as (ses & Hses & Hsec).
  refine (proj1 (proj2 (ping_limit ex_world ex_session ses 30 1 2 _ Hses Hsec _ _ _ _ _ _ _ _))).
  - vm_compute. reflexivity.
  - vm_compute. reflexivity.
  - vm_compute. reflexivity.
  - unfold in_u. lia.
  - unfold in_u. lia.
  - lia.
  - reflexivity.
  - intros n. reflexivity.
  - intros n. cbn [gettimeofday ex_world]. lia.
Defined.

Lemma input_never_asserts_witness :
  (AssertionFailed ∉ ex_session_log) /\ (closing_ ex_session = false).
Proof.
  split; [|vm_compute; reflexivity]. apply (input_never_asserts ex_world (text "10.0.0.9") ex_session), ex_session_connection.
Defined.

Lemma server_header_roundtrip_witness :
  read_server_header (ServerPktHeader 70000 0x1EE7) = (70000, 0x1EE7, 5%nat).
Proof. apply (server_header_roundtrip 70000 0x1EE7); [lia | unfold in_u; lia]. Defined.
