(* ===== verification/Rolls.v ===== *)
(** * Loot rolls

    The loot system of [Group] (src/src/server/game/Groups/Group.cpp): the rolls
    for items above the threshold, the votes of the members and the award.  A
    [Loot*] is a key of the store of loots; the [LootValidatorRef] of a roll is
    such a key while the loot holds items for it, and nothing once the loot was
    cleared.

    What the code asks of players, items and the world enters as a [RollView];
    [urand] gives the number drawn for the vote of a player (one per count). *)
From S2P Require Import Prelude ByteBuffer.

(** ** Data *)

Inductive RollVote := PASS | NEED | GREED | DISENCHANT | NOT_EMITED_YET | NOT_VALID.

Definition vote_value (v : RollVote) : Z :=
  match v with
  | PASS => 0 | NEED => 1 | GREED => 2 | DISENCHANT => 3 | NOT_EMITED_YET => 4 | NOT_VALID => 5
  end.
#[export] Instance RollVote_eq_dec : EqDecision RollVote.
Proof. solve_decision. Defined.

(** [RollType] and [RollMask]. *)
Definition ROLL_PASS : Z := 0.
Definition ROLL_NEED : Z := 1.
Definition ROLL_GREED : Z := 2.
Definition ROLL_DISENCHANT : Z := 3.
Definition MAX_ROLL_TYPE : Z := 4.
Definition ROLL_FLAG_TYPE_NEED : Z := 0x02.
Definition ROLL_FLAG_TYPE_DISENCHANT : Z := 0x08.
Definition ROLL_ALL_TYPE_NO_DISENCHANT : Z := 0x07.
Definition ITEM_FLAGS_EXTRA_NEED_ROLL_DISABLED : Z := 0x100.

Record LootItem := mkLootItem {
  li_itemid : Z;
  li_randomSuffix : Z;
  li_randomPropertyId : Z;
  allowedGUIDs : gset Z;
  li_count : Z;
  is_looted : bool;
  is_blocked : bool;
  freeforall : bool;
  is_underthreshold : bool
}.
Definition set_looted (i : LootItem) : LootItem :=
  mkLootItem (li_itemid i) (li_randomSuffix i) (li_randomPropertyId i) (allowedGUIDs i) (li_count i)
    true (is_blocked i) (freeforall i) (is_underthreshold i).
Definition set_blocked (b : bool) (i : LootItem) : LootItem :=
  mkLootItem (li_itemid i) (li_randomSuffix i) (li_randomPropertyId i) (allowedGUIDs i) (li_count i)
    (is_looted i) b (freeforall i) (is_underthreshold i).
Definition set_underthreshold (i : LootItem) : LootItem :=
  mkLootItem (li_itemid i) (li_randomSuffix i) (li_randomPropertyId i) (allowedGUIDs i) (li_count i)
    (is_looted i) (is_blocked i) (freeforall i) true.

Record Loot := mkLoot {
  items : list LootItem;
  unlootedCount : Z;
  PlayersLooting : gset Z
}.

Record Roll := mkRoll {
  itemGUID : Z;
  itemid : Z;
  itemRandomPropId : Z;
  itemRandomSuffix : Z;
  itemCount : Z;
  playerVote : gmap Z RollVote;
  totalPlayersRolling : Z;
  totalNeed : Z;
  totalGreed : Z;
  totalPass : Z;
  itemSlot : Z;
  rollVoteMask : Z;
  getLoot : option Z
}.

Definition new_Roll (guid : Z) (li : LootItem) : Roll :=
  mkRoll guid (li_itemid li) (li_randomPropertyId li) (li_randomSuffix li) (li_count li) ∅
    0 0 0 0 0 ROLL_ALL_TYPE_NO_DISENCHANT None.
(** [isValid] of the reference. *)
Definition roll_isValid (r : Roll) : bool := bool_decide (is_Some (getLoot r)).

Definition set_votes (vs : gmap Z RollVote) (rolling need greed pass : Z) (r : Roll) : Roll :=
  mkRoll (itemGUID r) (itemid r) (itemRandomPropId r) (itemRandomSuffix r) (itemCount r) vs
    rolling need greed pass (itemSlot r) (rollVoteMask r) (getLoot r).
Definition set_loot (l : option Z) (r : Roll) : Roll :=
  mkRoll (itemGUID r) (itemid r) (itemRandomPropId r) (itemRandomSuffix r) (itemCount r) (playerVote r)
    (totalPlayersRolling r) (totalNeed r) (totalGreed r) (totalPass r) (itemSlot r) (rollVoteMask r) l.
Definition set_slot_mask (slot mask : Z) (r : Roll) : Roll :=
  mkRoll (itemGUID r) (itemid r) (itemRandomPropId r) (itemRandomSuffix r) (itemCount r) (playerVote r)
    (totalPlayersRolling r) (totalNeed r) (totalGreed r) (totalPass r) slot mask (getLoot r).

(** The rolls of a group, the loots, and the counter of item GUIDs. *)
Record LootState := mkLootState {
  RollId : list Roll;
  loots : gmap Z Loot;
  m_hiItemGuid : Z
}.
Definition set_rolls (f : list Roll -> list Roll) (s : LootState) : LootState :=
  mkLootState (f (RollId s)) (loots s) (m_hiItemGuid s).
Definition set_loots (f : gmap Z Loot -> gmap Z Loot) (s : LootState) : LootState :=
  mkLootState (RollId s) (f (loots s)) (m_hiItemGuid s).

Inductive roll_event :=
| RollPacket (to : Z) (data : packet)
| UpdateAchievementCriteria (guid criteria itemid result : Z)
| SendNotifyLootItemRemoved (guid slot : Z)
| StoreNewItem (guid itemid randomPropertyId : Z) (looters : option (gset Z))
| SendEquipError (guid msg itemid : Z)
| AutoStoreLoot (guid disenchantId : Z)
| SetGroupLootTimer (time : Z)
| StopNow
| RollUndefined.

Abbreviation RM := (M LootState roll_event).

Record ItemPrototype := mkProto {
  Quality : Z;
  Flags2 : Z;
  DisenchantID : Z;
  RequiredDisenchantSkill : Z
}.

Inductive LootedObject := LootedCreature | LootedGameObject | LootedOther.

Record RollView := mkRollView {
  (** [sObjectMgr->GetPlayer] finds the player, and he has a session. *)
  InWorld : Z -> bool;
  (** A player linked to the group has a session. *)
  HasSession : Z -> bool;
  GetItemPrototype : Z -> option ItemPrototype;
  urand : Z -> Z;
  CanStoreNewItem : Z -> Z -> Z -> Z;
  AllowedForPlayer : LootItem -> Z -> bool;
  CanUseItem : Z -> Z -> bool;
  (** [IsWithinDistInMap] of the looted object. *)
  IsWithinDist : Z -> bool;
  GetPassOnGroupLoot : Z -> bool;
  looted_kind : LootedObject;
  looted_map : Z
}.

Definition HIGHGUID_ITEM : Z := 0x4000.

Definition SMSG_LOOT_ALL_PASSED : Z := 0x06AC4.
Definition SMSG_LOOT_ROLL_WON : Z := 0x06280.
Definition SMSG_LOOT_START_ROLL : Z := 0x0EB84.
Definition SMSG_LOOT_ROLL : Z := 0x066A8.
Definition SMSG_LOOT_MASTER_LIST : Z := 0x0ECC4.
Definition SMSG_LOOT_LIST : Z := 0x0F684.
Definition ACHIEVEMENT_CRITERIA_TYPE_ROLL_NEED_ON_LOOT : Z := 50.
Definition ACHIEVEMENT_CRITERIA_TYPE_ROLL_GREED_ON_LOOT : Z := 51.
Definition EQUIP_ERR_OK : Z := 0.

Section rolls.
Context (w : RollView).

(** ** Packets *)

(** The loop at the end of the [SendLoot...] functions. *)
Definition send_voters (r : Roll) (to : RollVote -> bool) (data : packet) : RM unit :=
  for_each (omap_list (playerVote r)) (fun '(g, v) =>
    when (InWorld w g && to v) (emit (RollPacket g data))).

Definition not_invalid (v : RollVote) : bool := bool_decide (v <> NOT_VALID).

Definition SendLootStartRoll (CountDown mapid : Z) (r : Roll) : RM unit :=
  send_voters r (fun v => bool_decide (v = NOT_EMITED_YET))
    (Pkt SMSG_LOOT_START_ROLL
       [FU 8 (itemGUID r); FU 4 mapid; FU 4 (totalPlayersRolling r); FU 4 (itemid r);
        FU 4 (itemRandomSuffix r); FU 4 (u32 (itemRandomPropId r)); FU 4 (itemCount r);
        FU 4 CountDown; FU 1 (rollVoteMask r)]).

Definition SendLootRoll (SourceGuid TargetGuid RollNumber RollType : Z) (r : Roll) : RM unit :=
  send_voters r not_invalid
    (Pkt SMSG_LOOT_ROLL
       [FU 8 SourceGuid; FU 4 0; FU 8 TargetGuid; FU 4 (itemid r); FU 4 (itemRandomSuffix r);
        FU 4 (u32 (itemRandomPropId r)); FU 1 RollNumber; FU 1 RollType; FU 1 0]).

Definition SendLootRollWon (SourceGuid TargetGuid RollNumber RollType : Z) (r : Roll) : RM unit :=
  send_voters r not_invalid
    (Pkt SMSG_LOOT_ROLL_WON
       [FU 8 SourceGuid; FU 4 0; FU 4 (itemid r); FU 4 (itemRandomSuffix r);
        FU 4 (u32 (itemRandomPropId r)); FU 8 TargetGuid; FU 1 RollNumber; FU 1 RollType]).

Definition SendLootAllPassed (NumberOfPlayers : Z) (r : Roll) : RM unit :=
  send_voters r not_invalid
    (Pkt SMSG_LOOT_ALL_PASSED
       [FU 8 (itemGUID r); FU 4 NumberOfPlayers; FU 4 (itemid r);
        FU 4 (u32 (itemRandomPropId r)); FU 4 (itemRandomSuffix r)]).

(** ** The award *)

Definition set_loot_items (p : Z) (f : list LootItem -> list LootItem) : RM unit :=
  modify (set_loots (fun m => match m !! p with
    | Some l => <[p := mkLoot (f (items l)) (unlootedCount l) (PlayersLooting l)]> m
    | None => m end)).

(** [Loot::NotifyItemRemoved]: players who are gone are taken off the list. *)
Definition NotifyItemRemoved (p lootIndex : Z) : RM unit := with_state (fun s =>
  match loots s !! p with
  | None => emit RollUndefined
  | Some l =>
      for_each (oset_list (PlayersLooting l)) (fun g =>
        when (InWorld w g) (emit (SendNotifyLootItemRemoved g lootIndex))) ;;
      modify (set_loots (<[p := mkLoot (items l) (unlootedCount l)
                                  (filter (fun g => InWorld w g = true) (PlayersLooting l))]>))
  end).

Definition dec_unlooted (p : Z) : RM unit :=
  modify (set_loots (fun m => match m !! p with
    | Some l => <[p := mkLoot (items l) (u8 (unlootedCount l - 1)) (PlayersLooting l)]> m
    | None => m end)).

(** [item = &loot->items[itemSlot]]. *)
Definition with_item (r : Roll) (k : Z -> nat -> LootItem -> RM unit) : RM unit := with_state (fun s =>
  match getLoot r ≫= fun p => (loots s !! p) with
  | Some l =>
      match items l !! Z.to_nat (itemSlot r) with
      | Some item => k (default 0 (getLoot r)) (Z.to_nat (itemSlot r)) item
      | None => emit RollUndefined
      end
  | None => emit RollUndefined
  end).

Definition take_item (r : Roll) (p : Z) (i : nat) : RM unit :=
  set_loot_items p (alter set_looted i) ;;
  NotifyItemRemoved p (itemSlot r) ;;
  dec_unlooted p.

(** The winner gets the item, if it fits into his bags. *)
Definition store_won_item (r : Roll) (guid : Z) : RM unit :=
  with_item r (fun p i item =>
    let msg := CanStoreNewItem w guid (itemid r) (li_count item) in
    if msg =? EQUIP_ERR_OK then
      take_item r p i ;;
      emit (StoreNewItem guid (itemid r) (li_randomPropertyId item)
              (if (1 <? size (allowedGUIDs item))%nat then Some (allowedGUIDs item) else None))
    else
      set_loot_items p (alter (set_blocked false) i) ;;
      emit (SendEquipError guid msg (itemid r))).

(** The loop over the votes: every vote that takes part is drawn a number and
    announced; the first highest number wins. *)
Definition best_step (best : Z * Z * RollVote) (g : Z) (v : RollVote) : Z * Z * RollVote :=
  let '(maxguid, maxresul, rollvote) := best in
  if maxresul <? urand w g then (g, urand w g, v) else best.

Fixpoint roll_loop (r : Roll) (part : RollVote -> bool) (votes : list (Z * RollVote))
    (best : Z * Z * RollVote) : RM (Z * Z * RollVote) :=
  match votes with
  | [] => ret best
  | (g, v) :: rest =>
      if part v then
        SendLootRoll 0 g (urand w g) (vote_value v) r ;;
        roll_loop r part rest (best_step best g v)
      else roll_loop r part rest best
  end.

Definition erase_roll (i : nat) : RM unit := modify (set_rolls (delete i)).

Definition is_need (v : RollVote) : bool := bool_decide (v = NEED).
Definition is_greed (v : RollVote) : bool := bool_decide (v = GREED) || bool_decide (v = DISENCHANT).

Definition award_need (r : Roll) : RM unit :=
  match omap_list (playerVote r) with
  | [] => ret tt
  | ((first, _) :: _) as votes =>
      let! best := roll_loop r is_need votes (first, 0, NEED) in
      let '(maxguid, maxresul, _) := best in
      SendLootRollWon 0 maxguid maxresul ROLL_NEED r ;;
      when (InWorld w maxguid) (
        emit (UpdateAchievementCriteria maxguid ACHIEVEMENT_CRITERIA_TYPE_ROLL_NEED_ON_LOOT (itemid r) maxresul) ;;
        store_won_item r maxguid)
  end.

Definition award_greed (r : Roll) : RM unit :=
  match omap_list (playerVote r) with
  | [] => ret tt
  | ((first, _) :: _) as votes =>
      let! best := roll_loop r is_greed votes (first, 0, NOT_VALID) in
      let '(maxguid, maxresul, rollvote) := best in
      SendLootRollWon 0 maxguid maxresul (vote_value rollvote) r ;;
      when (InWorld w maxguid) (
        emit (UpdateAchievementCriteria maxguid ACHIEVEMENT_CRITERIA_TYPE_ROLL_GREED_ON_LOOT (itemid r) maxresul) ;;
        match rollvote with
        | GREED => store_won_item r maxguid
        | DISENCHANT =>
            with_item r (fun p i _ =>
              take_item r p i ;;
              match GetItemPrototype w (itemid r) with
              | Some pProto => emit (AutoStoreLoot maxguid (DisenchantID pProto))
              | None => emit RollUndefined
              end)
        | _ => with_item r (fun _ _ _ => ret tt)
        end)
  end.

Definition all_passed (NumberOfPlayers : Z) (r : Roll) : RM unit :=
  SendLootAllPassed NumberOfPlayers r ;;
  with_item r (fun p i _ => set_loot_items p (alter (set_blocked false) i)).

Definition CountTheRoll (i : nat) (NumberOfPlayers : Z) : RM unit := with_state (fun s =>
  match RollId s !! i with
  | None => emit RollUndefined
  | Some roll =>
      if negb (roll_isValid roll) then erase_roll i
      else
        (if 0 <? totalNeed roll then award_need roll
         else if 0 <? totalGreed roll then award_greed roll
         else all_passed NumberOfPlayers roll) ;;
        erase_roll i
  end).

(** ** Votes *)

(** [GetRoll]: the first valid roll for the item. *)
Definition roll_for (Guid : Z) (r : Roll) : bool := (itemGUID r =? Guid) && roll_isValid r.
Definition GetRoll (Guid : Z) (s : LootState) : option nat :=
  fst <$> list_find (fun r => roll_for Guid r = true) (RollId s).

Definition cast_vote (g Choice : Z) (r : Roll) : Roll :=
  let set v need greed pass :=
    set_votes (<[g := v]> (playerVote r)) (totalPlayersRolling r)
      (u8 (totalNeed r + need)) (u8 (totalGreed r + greed)) (u8 (totalPass r + pass)) r in
  if Choice =? ROLL_PASS then set PASS 0 0 1
  else if Choice =? ROLL_NEED then set NEED 1 0 0
  else if Choice =? ROLL_GREED then set GREED 0 1 0
  else if Choice =? ROLL_DISENCHANT then set DISENCHANT 0 1 0
  else r.

(** The announcement of a vote: the number and the type. *)
Definition vote_notice (Choice : Z) : option (Z * Z) :=
  if Choice =? ROLL_PASS then Some (128, ROLL_PASS)
  else if Choice =? ROLL_NEED then Some (0, 0)
  else if Choice =? ROLL_GREED then Some (128, ROLL_GREED)
  else if Choice =? ROLL_DISENCHANT then Some (128, ROLL_DISENCHANT)
  else None.

Definition all_voted (r : Roll) : bool :=
  totalPlayersRolling r <=? totalPass r + totalNeed r + totalGreed r.

Definition loot_items_empty (s : LootState) (r : Roll) : bool :=
  match getLoot r ≫= fun p => (loots s !! p) with
  | Some l => bool_decide (items l = [])
  | None => false
  end.

Definition CountRollVote (playerGUID Guid NumberOfPlayers Choice : Z) : RM unit := with_state (fun s =>
  match GetRoll Guid s with
  | None => ret tt
  | Some i =>
      match RollId s !! i with
      | None => emit RollUndefined
      | Some roll =>
          match playerVote roll !! playerGUID with
          | None => ret tt
          | Some _ =>
              if loot_items_empty s roll then ret tt
              else
                match vote_notice Choice with
                | Some (n, t) => SendLootRoll 0 playerGUID n t roll
                | None => ret tt
                end ;;
                modify (set_rolls (<[i := cast_vote playerGUID Choice roll]>)) ;;
                when (all_voted (cast_vote playerGUID Choice roll)) (CountTheRoll i NumberOfPlayers)
          end
      end
  end).

(** The roll timer: [true] when the loop ended before the fuel did. *)
Fixpoint EndRoll_loop (fuel : nat) (pLoot : Z) (members : Z) (itr : nat) : RM bool :=
  match fuel with
  | O => ret false
  | S fuel' => with_state (fun s =>
      match RollId s !! itr with
      | None => ret true
      | Some r =>
          if bool_decide (getLoot r = Some pLoot) then
            CountTheRoll itr members ;; EndRoll_loop fuel' pLoot members 0
          else EndRoll_loop fuel' pLoot members (S itr)
      end)
  end.
Definition EndRoll (pLoot members : Z) : RM bool := with_state (fun s =>
  EndRoll_loop (S (length (RollId s)) * S (length (RollId s))) pLoot members 0).

(** [_removeRolls]: the iterator is not valid any more once a roll is erased
    behind it. *)
Definition drop_vote (guid : Z) (v : RollVote) (r : Roll) : Roll :=
  set_votes (delete guid (playerVote r))
    (if bool_decide (v = NOT_VALID) then totalPlayersRolling r else u8 (totalPlayersRolling r - 1))
    (if bool_decide (v = NEED) then u8 (totalNeed r - 1) else totalNeed r)
    (if is_greed v then u8 (totalGreed r - 1) else totalGreed r)
    (if bool_decide (v = PASS) then u8 (totalPass r - 1) else totalPass r) r.

Fixpoint removeRolls_loop (fuel : nat) (guid members : Z) (it : nat) : RM unit :=
  match fuel with
  | O => ret tt
  | S fuel' => with_state (fun s =>
      match RollId s !! it with
      | None => ret tt
      | Some roll =>
          match playerVote roll !! guid with
          | None => removeRolls_loop fuel' guid members (S it)
          | Some v =>
              modify (set_rolls (<[it := drop_vote guid v roll]>)) ;;
              CountRollVote guid (itemGUID roll) (u32 (members - 1)) MAX_ROLL_TYPE ;;
              with_state (fun s' =>
                if (length (RollId s') <? length (RollId s))%nat then emit RollUndefined
                else removeRolls_loop fuel' guid members (S it))
          end
      end)
  end.
Definition _removeRolls (guid members : Z) : RM unit := with_state (fun s =>
  removeRolls_loop (length (RollId s)) guid members 0).

(** ** Opening the rolls *)

(** One member of the loop that fills [playerVote]. *)
Definition gather_vote (allowed : Z -> bool) (r : Roll) (g : Z) : Roll :=
  if HasSession w g && allowed g && IsWithinDist w g then
    if GetPassOnGroupLoot w g then
      set_votes (<[g := PASS]> (playerVote r)) (u8 (totalPlayersRolling r + 1))
        (totalNeed r) (totalGreed r) (u8 (totalPass r + 1)) r
    else
      set_votes (<[g := NOT_EMITED_YET]> (playerVote r)) (u8 (totalPlayersRolling r + 1))
        (totalNeed r) (totalGreed r) (totalPass r) r
  else r.

(** [GenerateLowGuid(HIGHGUID_ITEM)] and the GUID made of it. *)
Definition new_item_guid : RM Z := with_state (fun s =>
  when (0xFFFFFFFE <=? m_hiItemGuid s) (emit StopNow) ;;
  modify (fun s => mkLootState (RollId s) (loots s) (u32 (m_hiItemGuid s + 1))) ;;
  ret (MAKE_NEW_GUID (m_hiItemGuid s) 0 HIGHGUID_ITEM)).

Definition broadcast_passes (r : Roll) : RM unit :=
  when (negb (totalPass r =? 0)) (
    for_each (omap_list (playerVote r)) (fun '(g, v) =>
      when (InWorld w g && bool_decide (v = PASS)) (SendLootRoll (itemGUID r) g 128 ROLL_PASS r))).

Definition disenchant_mask (m_maxEnchantingLevel : Z) (item : ItemPrototype) (mask : Z) : Z :=
  if negb (DisenchantID item =? 0) && (u32 (RequiredDisenchantSkill item) <=? m_maxEnchantingLevel)
  then Z.lor mask ROLL_FLAG_TYPE_DISENCHANT else mask.
Definition need_mask (item : ItemPrototype) (mask : Z) : Z :=
  if has_flag (Flags2 item) ITEM_FLAGS_EXTRA_NEED_ROLL_DISABLED
  then Z.land mask (Z.lnot ROLL_FLAG_TYPE_NEED) else mask.

(** What both methods do with a roll that somebody takes part in. *)
Definition start_roll (loot : Z) (i : nat) (mask : Z) (timer : bool) (r : Roll) : RM unit :=
  let r := set_slot_mask (u8 (Z.of_nat i)) mask (set_loot (Some loot) r) in
  set_loot_items loot (alter (set_blocked true) i) ;;
  broadcast_passes r ;;
  SendLootStartRoll 60000 (looted_map w) r ;;
  modify (set_rolls (fun l => l ++ [r])) ;;
  when timer (emit (SetGroupLootTimer 60000)).

Definition loot_item_at (s : LootState) (loot : Z) (i : nat) : option LootItem :=
  loots s !! loot ≫= fun l => items l !! i.

Definition GroupLoot_item (m_lootThreshold m_maxEnchantingLevel : Z) (members : list Z) (loot : Z) (i : nat)
  : RM unit := with_state (fun s =>
  match loot_item_at s loot i with
  | None => emit RollUndefined
  | Some li =>
      if freeforall li then ret tt
      else
        match GetItemPrototype w (li_itemid li) with
        | None => ret tt
        | Some item =>
            if u32 m_lootThreshold <=? Quality item then
              let! newitemGUID := new_item_guid in
              let r := foldl (gather_vote (AllowedForPlayer w li)) (new_Roll newitemGUID li) members in
              when (0 <? totalPlayersRolling r)
                (start_roll loot i (disenchant_mask m_maxEnchantingLevel item (rollVoteMask r))
                   match looted_kind w with LootedOther => false | _ => true end r)
            else set_loot_items loot (alter set_underthreshold i)
        end
  end).

Definition GroupLoot (m_lootThreshold m_maxEnchantingLevel : Z) (members : list Z) (loot : Z) : RM unit :=
  with_state (fun s =>
    match loots s !! loot with
    | None => emit RollUndefined
    | Some l => for_each (seq 0 (length (items l)))
                  (GroupLoot_item m_lootThreshold m_maxEnchantingLevel members loot)
    end).

(** The prototype is not tested here, and only a creature gets the timer. *)
Definition NeedBeforeGreed_item (m_lootThreshold m_maxEnchantingLevel : Z) (members : list Z) (loot : Z) (i : nat)
  : RM unit := with_state (fun s =>
  match loot_item_at s loot i with
  | None => emit RollUndefined
  | Some li =>
      if freeforall li then ret tt
      else
        match GetItemPrototype w (li_itemid li) with
        | None => emit RollUndefined
        | Some item =>
            if u32 m_lootThreshold <=? Quality item then
              let! newitemGUID := new_item_guid in
              let allowed g := CanUseItem w g (li_itemid li) && AllowedForPlayer w li g in
              let r := foldl (gather_vote allowed) (new_Roll newitemGUID li) members in
              when (0 <? totalPlayersRolling r)
                (start_roll loot i (need_mask item (disenchant_mask m_maxEnchantingLevel item (rollVoteMask r)))
                   match looted_kind w with LootedCreature => true | _ => false end r)
            else set_loot_items loot (alter set_underthreshold i)
        end
  end).

Definition NeedBeforeGreed (m_lootThreshold m_maxEnchantingLevel : Z) (members : list Z) (loot : Z) : RM unit :=
  with_state (fun s =>
    match loots s !! loot with
    | None => emit RollUndefined
    | Some l => for_each (seq 0 (length (items l)))
                  (NeedBeforeGreed_item m_lootThreshold m_maxEnchantingLevel members loot)
    end).

(** [MasterLoot]: the members near the object, with the count put back. *)
Definition MasterLoot (members : list Z) : RM unit :=
  let near := filter (fun g => InWorld w g && IsWithinDist w g = true) members in
  let data := Pkt SMSG_LOOT_MASTER_LIST (FU 1 (u8 (Z.of_nat (length near))) :: (FU 8 <$> near)) in
  for_each members (fun g => when (IsWithinDist w g) (emit (RollPacket g data))).

(** [Loot::clear]: the rolls for the loot lose their reference. *)
Definition loot_clear (loot : Z) : RM unit :=
  modify (set_loots (fun m => if bool_decide (is_Some (m !! loot)) then <[loot := mkLoot [] 0 ∅]> m else m)) ;;
  modify (set_rolls (fmap (fun r => if bool_decide (getLoot r = Some loot) then set_loot None r else r))).
End rolls.

(** ** Tallies

    The counters of a roll against the votes in its map. *)

Definition count_votes (P : RollVote -> bool) (m : gmap Z RollVote) : Z :=
  Z.of_nat (size (filter (fun kv => P kv.2 = true) m)).

Lemma count_insert_new P m g v :
  m !! g = None -> count_votes P (<[g := v]> m) = count_votes P m + (if P v then 1 else 0).
Proof.
  intros Hg. unfold count_votes. destruct (P v) eqn:E.
  - rewrite map_filter_insert_True by done. rewrite map_size_insert_None; [lia|].
    apply map_lookup_filter_None. by left.
  - rewrite map_filter_insert_False, delete_id by (simpl; congruence || done). lia.
Qed.

Lemma count_delete P m g v :
  m !! g = Some v -> count_votes P (delete g m) = count_votes P m - (if P v then 1 else 0).
Proof.
  intros Hg. rewrite <- (insert_delete_id m g v Hg) at 2.
  rewrite count_insert_new by apply lookup_delete_eq. lia.
Qed.

Lemma count_insert P m g u v :
  m !! g = Some u ->
  count_votes P (<[g := v]> m) = count_votes P m - (if P u then 1 else 0) + (if P v then 1 else 0).
Proof.
  intros Hg. rewrite <- insert_delete_eq, count_insert_new by apply lookup_delete_eq.
  by rewrite (count_delete P m g u Hg).
Qed.

Lemma count_empty P : count_votes P ∅ = 0.
Proof. unfold count_votes. by rewrite map_filter_empty. Qed.

Lemma count_bounds P m : 0 <= count_votes P m <= Z.of_nat (size m).
Proof.
  unfold count_votes. split; [lia|]. apply Nat2Z.inj_le, map_subseteq_size, map_filter_subseteq.
Qed.

(** ** Programs that touch nothing but the loots

    [shape] is what a roll needs of the loots: that its loot is there, with an
    item in its slot. *)

Definition shape (ls : gmap Z Loot) : gmap Z nat := (fun l => length (items l)) <$> ls.

Lemma shape_lookup ls p n : shape ls !! p = Some n -> exists l, ls !! p = Some l /\ length (items l) = n.
Proof. unfold shape. rewrite lookup_fmap. destruct (ls !! p) as [l|]; [|done]. intros [= <-]. eauto. Qed.

Lemma shape_insert ls p l l' :
  ls !! p = Some l -> length (items l') = length (items l) -> shape (<[p := l']> ls) = shape ls.
Proof.
  intros Hp Hl. unfold shape. rewrite fmap_insert, Hl. apply insert_id. by rewrite lookup_fmap, Hp.
Qed.

Section loot_only.
Context (sh : gmap Z nat).

Record loot_run {A} (m : RM A) (s : LootState) : Prop := mkLootRun {
  lr_shape : shape (loots (run_state m s)) = sh;
  lr_rolls : RollId (run_state m s) = RollId s;
  lr_guid : m_hiItemGuid (run_state m s) = m_hiItemGuid s;
  lr_clean : RollUndefined ∉ run_log m s
}.
Definition loot_only {A} (m : RM A) : Prop := forall s, shape (loots s) = sh -> loot_run m s.

Lemma loot_only_ret {A} (a : A) : loot_only (ret a).
Proof. intros s Hs. split; [done..|]. apply not_elem_of_nil. Qed.
Lemma loot_only_emit e : e <> RollUndefined -> loot_only (emit e).
Proof.
  intros He s Hs. split; [done..|]. apply not_elem_of_cons. split; [congruence | apply not_elem_of_nil].
Qed.
Lemma loot_only_bind {A B} (m : RM A) (k : A -> RM B) :
  loot_only m -> (forall a, loot_only (k a)) -> loot_only (bind m k).
Proof.
  intros Hm Hk s Hs. destruct (Hm s Hs) as [H1 H2 H3 H4].
  destruct (Hk (run_value m s) (run_state m s) H1) as [K1 K2 K3 K4].
  split; rewrite ?run_state_bind, ?run_log_bind; [exact K1 | congruence | congruence |].
  rewrite not_elem_of_app. auto.
Qed.
Lemma loot_only_when b (m : RM unit) : (b = true -> loot_only m) -> loot_only (when b m).
Proof. destruct b; [auto|]. intros _. apply loot_only_ret. Qed.
Lemma loot_only_for_each {A} (l : list A) (f : A -> RM unit) :
  (forall x, loot_only (f x)) -> loot_only (for_each l f).
Proof. intros Hf. induction l as [|x l IH]; [apply loot_only_ret | apply loot_only_bind; auto]. Qed.
Lemma loot_only_with_state {A} (k : LootState -> RM A) :
  (forall s, shape (loots s) = sh -> loot_only (k s)) -> loot_only (with_state k).
Proof. intros Hk s Hs. destruct (Hk s Hs s Hs). by split. Qed.
Lemma loot_only_set_loots f :
  (forall ls, shape ls = sh -> shape (f ls) = sh) -> loot_only (modify (set_loots f)).
Proof. intros Hf s Hs. split; [by apply Hf | done | done |]. apply not_elem_of_nil. Qed.
End loot_only.

#[export] Hint Resolve loot_only_ret loot_only_bind loot_only_for_each : dc.
#[export] Hint Extern 1 (loot_only _ (emit _)) => apply loot_only_emit; discriminate : dc.
#[export] Hint Extern 1 (loot_only _ (when _ _)) => apply loot_only_when; intros _ : dc.

Section award_lemmas.
Context (w : RollView) (sh : gmap Z nat).

Lemma loot_only_send_voters r to data : loot_only sh (send_voters w r to data).
Proof. apply loot_only_for_each. intros [g v]. auto with dc. Qed.
#[local] Hint Resolve loot_only_send_voters : dc.

Lemma loot_only_set_items p f :
  (forall l : list LootItem, length (f l) = length l) -> loot_only sh (set_loot_items p f).
Proof.
  intros Hf. apply loot_only_set_loots. intros ls Hs. destruct (ls !! p) as [l|] eqn:E; [|done].
  rewrite (shape_insert ls p l); [done | done | apply Hf].
Qed.
#[local] Hint Extern 1 (loot_only _ (set_loot_items _ (alter _ _))) =>
  apply loot_only_set_items; intros; apply length_alter : dc.

(** The item of a roll whose slot is in its loot. *)
Definition slot_ok (r : Roll) : Prop :=
  exists p n, getLoot r = Some p /\ sh !! p = Some n /\ (Z.to_nat (itemSlot r) < n)%nat.

Lemma loot_only_with_item r k :
  slot_ok r -> (forall p i item, sh !! p <> None -> loot_only sh (k p i item)) -> loot_only sh (with_item r k).
Proof.
  intros (p & n & Hp & Hn & Hlt) Hk. apply loot_only_with_state. intros s Hs.
  rewrite <- Hs in Hn. destruct (shape_lookup _ _ _ Hn) as (l & Hl & <-). rewrite Hp. cbn. rewrite Hl.
  destruct (lookup_lt_is_Some_2 (items l) _ Hlt) as [item ->]. apply Hk. rewrite <- Hs. congruence.
Qed.

Lemma loot_only_take_item r p i : sh !! p <> None -> loot_only sh (take_item w r p i).
Proof.
  intros Hp. unfold take_item. repeat (apply loot_only_bind; [|intros _]); [auto with dc| |].
  - apply loot_only_with_state. intros s Hs. destruct (loots s !! p) as [l|] eqn:E.
    + apply loot_only_bind; [auto with dc|]. intros _. intros s' Hs'.
      unfold shape in Hs, Hs'. assert (Hn : sh !! p = Some (length (items l))) by (by rewrite <- Hs, lookup_fmap, E).
      split; [|done|done|apply not_elem_of_nil]. cbn.
      unfold shape. rewrite fmap_insert. cbn. rewrite Hs'. by apply insert_id.
    + exfalso. apply Hp. by rewrite <- Hs; unfold shape; rewrite lookup_fmap, E.
  - apply loot_only_set_loots. intros ls Hs. destruct (ls !! p) as [l|] eqn:E; [|done].
    by rewrite (shape_insert ls p l).
Qed.
#[local] Hint Resolve loot_only_take_item : dc.

Lemma loot_only_store r g : slot_ok r -> loot_only sh (store_won_item w r g).
Proof.
  intros Hr. apply loot_only_with_item; [done|]. intros p i item Hp. cbv zeta.
  destruct (_ =? _); auto with dc.
Qed.
#[local] Hint Resolve loot_only_store : dc.

Lemma loot_only_roll_loop r part votes best : loot_only sh (roll_loop w r part votes best).
Proof.
  revert best. induction votes as [|[g v] votes IH]; intros best; cbn; [apply loot_only_ret|].
  destruct (part v); [|apply IH]. apply loot_only_bind; [apply loot_only_send_voters|]. intros _. apply IH.
Qed.
#[local] Hint Resolve loot_only_roll_loop : dc.

(** A won disenchanting looks the prototype of the item up. *)
Definition proto_ok (r : Roll) : Prop := GetItemPrototype w (itemid r) <> None.

Lemma loot_only_award_need r : slot_ok r -> loot_only sh (award_need w r).
Proof.
  intros Hr. unfold award_need. destruct (omap_list _) as [|[first v] votes]; [apply loot_only_ret|].
  apply loot_only_bind; [auto with dc|]. intros [[g n] ?]. apply loot_only_bind; [apply loot_only_send_voters|].
  intros _. auto 7 with dc.
Qed.

Lemma loot_only_award_greed r : slot_ok r -> proto_ok r -> loot_only sh (award_greed w r).
Proof.
  intros Hr Hpr. unfold award_greed. destruct (omap_list _) as [|[first v] votes]; [apply loot_only_ret|].
  apply loot_only_bind; [auto with dc|]. intros [[g n] u]. apply loot_only_bind; [apply loot_only_send_voters|].
  intros _. apply loot_only_when. intros _. apply loot_only_bind; [auto with dc|]. intros _.
  destruct u; try (apply loot_only_with_item; [done|]; intros; apply loot_only_ret); [auto with dc|].
  apply loot_only_with_item; [done|]. intros p i item Hp. apply loot_only_bind; [auto with dc|]. intros _.
  destruct (GetItemPrototype w (itemid r)) eqn:E; [auto with dc | by destruct Hpr].
Qed.

Lemma loot_only_all_passed n r : slot_ok r -> loot_only sh (all_passed w n r).
Proof.
  intros Hr. unfold all_passed. apply loot_only_bind; [apply loot_only_send_voters|]. intros _.
  apply loot_only_with_item; [done|]. auto with dc.
Qed.
End award_lemmas.

(** ** The invariant *)

Definition is_pass (v : RollVote) : bool := bool_decide (v = PASS).

Record tally_ok (r : Roll) : Prop := mkTally {
  tally_need : totalNeed r = count_votes is_need (playerVote r);
  tally_greed : totalGreed r = count_votes is_greed (playerVote r);
  tally_pass : totalPass r = count_votes is_pass (playerVote r);
  tally_rolling : totalPlayersRolling r = Z.of_nat (size (playerVote r));
  tally_size : (size (playerVote r) <= 40)%nat;
  tally_valid : map_Forall (fun _ v => v <> NOT_VALID) (playerVote r)
}.

Definition roll_ok (sh : gmap Z nat) (r : Roll) : Prop :=
  tally_ok r /\ (roll_isValid r = true -> slot_ok sh r).

(** The GUID of a roll comes from the counter. *)
Definition guid_below (hi : Z) (r : Roll) : Prop :=
  exists k, 0 <= k < hi /\ itemGUID r = MAKE_NEW_GUID k 0 HIGHGUID_ITEM.

Record rolls_ok (s : LootState) : Prop := mkRollsOk {
  ro_rolls : Forall (roll_ok (shape (loots s))) (RollId s);
  ro_items : map_Forall (fun _ n => (n <= 255)%nat) (shape (loots s));
  ro_guids : NoDup (itemGUID <$> RollId s);
  ro_below : Forall (guid_below (m_hiItemGuid s)) (RollId s)
}.

Lemma rolls_ok_same s s' :
  shape (loots s') = shape (loots s) -> m_hiItemGuid s' = m_hiItemGuid s ->
  Forall (roll_ok (shape (loots s))) (RollId s') -> itemGUID <$> RollId s' = itemGUID <$> RollId s ->
  rolls_ok s -> rolls_ok s'.
Proof.
  intros H1 H2 H3 H4 [K1 K2 K3 K4]. split; rewrite ?H1, ?H2, ?H4; try assumption.
  apply Forall_forall. intros r Hr. apply (list_elem_of_fmap_2 itemGUID) in Hr. rewrite H4 in Hr.
  apply list_elem_of_fmap in Hr as (r' & E & Hr'). rewrite Forall_forall in K4.
  destruct (K4 r' Hr') as (k & Hk & E'). exists k. split; [done | congruence].
Qed.

(** What one count does to the rolls. *)
Record counted (i : nat) {A} (m : RM A) (s : LootState) : Prop := mkCounted {
  cn_rolls : RollId (run_state m s) = delete i (RollId s);
  cn_shape : shape (loots (run_state m s)) = shape (loots s);
  cn_guid : m_hiItemGuid (run_state m s) = m_hiItemGuid s;
  cn_clean : RollUndefined ∉ run_log m s
}.

Lemma counted_with_state i {A} (k : LootState -> RM A) s : counted i (k s) s -> counted i (with_state k) s.
Proof. intros []. by split. Qed.

Lemma CountTheRoll_counted w i n s r :
  RollId s !! i = Some r -> (roll_isValid r = true -> slot_ok (shape (loots s)) r) -> proto_ok w r ->
  counted i (CountTheRoll w i n) s.
Proof.
  intros Hi Hslot Hpr. apply counted_with_state. rewrite Hi.
  set (m := if negb _ then _ else _).
  assert (Hm : m = erase_roll i \/ exists a : RM unit, m = (a ;; erase_roll i) /\ loot_only (shape (loots s)) a).
  { unfold m. destruct (roll_isValid r) eqn:Hv; cbn [negb]; [right|by left]. specialize (Hslot eq_refl).
    eexists. split; [reflexivity|].
    destruct (0 <? totalNeed r); [by apply loot_only_award_need|].
    destruct (0 <? totalGreed r); [by apply loot_only_award_greed | by apply loot_only_all_passed]. }
  clearbody m. destruct Hm as [->|(a & -> & Ha)].
  - split; try done. apply not_elem_of_nil.
  - destruct (Ha s eq_refl) as [H1 H2 H3 H4].
    split; rewrite ?run_state_bind, ?run_log_bind; cbn; rewrite ?H2; auto.
    unfold erase_roll. cbn. rewrite app_nil_r. exact H4.
Qed.

Lemma rolls_ok_counted i {A} (m : RM A) s : counted i m s -> rolls_ok s -> rolls_ok (run_state m s).
Proof.
  intros [H1 H2 H3 _] [K1 K2 K3 K4]. split; rewrite ?H1, ?H2, ?H3; [by apply Forall_delete | done | | by apply Forall_delete].
  rewrite list_fmap_delete. eapply sublist_NoDup; [exact K3 | apply sublist_delete].
Qed.

(** *** Votes *)

Lemma size_insert_old {A} (m : gmap Z A) g u v : m !! g = Some u -> size (<[g := v]> m) = size m.
Proof. intros H. apply map_size_insert_Some. eauto. Qed.

Lemma cast_vote_tally g c r :
  tally_ok r -> playerVote r !! g = Some NOT_EMITED_YET -> tally_ok (cast_vote g c r).
Proof.
  intros Ht Hg. unfold cast_vote.
  pose proof (count_bounds is_need (playerVote r)). pose proof (count_bounds is_greed (playerVote r)).
  pose proof (count_bounds is_pass (playerVote r)).
  destruct Ht as [T1 T2 T3 T4 T5 T6].
  assert (Hset : forall v need greed pass, v <> NOT_VALID ->
    need = (if is_need v then 1 else 0) -> greed = (if is_greed v then 1 else 0) -> pass = (if is_pass v then 1 else 0) ->
    tally_ok (set_votes (<[g := v]> (playerVote r)) (totalPlayersRolling r)
      (u8 (totalNeed r + need)) (u8 (totalGreed r + greed)) (u8 (totalPass r + pass)) r)).
  { intros v need greed pass Hv -> -> ->.
    split; cbn [set_votes totalNeed totalGreed totalPass totalPlayersRolling playerVote].
    - rewrite (count_insert _ _ _ _ v Hg), u8_small by (destruct (is_need v); lia). change (if is_need NOT_EMITED_YET then 1 else 0) with 0. lia.
    - rewrite (count_insert _ _ _ _ v Hg), u8_small by (destruct (is_greed v); lia). change (if is_greed NOT_EMITED_YET then 1 else 0) with 0. lia.
    - rewrite (count_insert _ _ _ _ v Hg), u8_small by (destruct (is_pass v); lia). change (if is_pass NOT_EMITED_YET then 1 else 0) with 0. lia.
    - by rewrite (size_insert_old _ _ _ v Hg).
    - by rewrite (size_insert_old _ _ _ v Hg).
    - by apply map_Forall_insert_2. }
  destruct (c =? ROLL_PASS); [by apply Hset|]. destruct (c =? ROLL_NEED); [by apply Hset|].
  destruct (c =? ROLL_GREED); [by apply Hset|]. destruct (c =? ROLL_DISENCHANT); [by apply Hset|].
  by split.
Qed.

Lemma set_votes_roll_ok sh r vs a b c d :
  tally_ok (set_votes vs a b c d r) -> roll_ok sh r -> roll_ok sh (set_votes vs a b c d r).
Proof. intros Ht [_ Hs]. split; [done|]. exact Hs. Qed.

Lemma cast_vote_roll_ok sh g c r :
  roll_ok sh r -> playerVote r !! g = Some NOT_EMITED_YET -> roll_ok sh (cast_vote g c r).
Proof.
  intros Hr Hg. pose proof (cast_vote_tally g c r (proj1 Hr) Hg) as Ht. unfold cast_vote in *.
  repeat case_match; first [done | by apply set_votes_roll_ok].
Qed.

Lemma cast_vote_proto w g c r : proto_ok w (cast_vote g c r) <-> proto_ok w r.
Proof. unfold cast_vote, proto_ok. by repeat case_match. Qed.

(** The players who are given the item of a roll. *)
Definition given (log : list roll_event) : list Z :=
  omap (fun e => match e with StoreNewItem g _ _ _ => Some g | AutoStoreLoot g _ => Some g | _ => None end) log.

Lemma given_app l1 l2 : given (l1 ++ l2) = given l1 ++ given l2.
Proof. apply omap_app. Qed.

Definition silent {A} (m : RM A) : Prop := forall s, run_state m s = s /\ given (run_log m s) = [].

Lemma silent_send_voters w r to data : silent (send_voters w r to data).
Proof.
  intros s. split; [apply pure_for_each; intros [g v]; auto with dc|].
  unfold send_voters. rewrite run_log_for_each_pure by (intros [g v]; auto with dc).
  induction (omap_list _) as [|[g v] l IH]; [done|]. cbn [fmap list_fmap concat]. rewrite given_app, IH.
  by destruct (_ && _).
Qed.

Lemma clean_send_voters w r to data s : RollUndefined ∉ run_log (send_voters w r to data) s.
Proof.
  unfold send_voters. rewrite run_log_for_each_pure by (intros [g v]; auto with dc).
  intros (l & Hl & Hin)%list_elem_of_In%in_concat.
  apply list_elem_of_In, list_elem_of_fmap in Hl as ([g v] & -> & _).
  apply list_elem_of_In in Hin. destruct (_ && _) in Hin; cbn in Hin;
    [by apply list_elem_of_singleton in Hin | by apply elem_of_nil in Hin].
Qed.

Lemma GetRoll_spec Guid s i :
  GetRoll Guid s = Some i -> exists r, RollId s !! i = Some r /\ itemGUID r = Guid /\ roll_isValid r = true.
Proof.
  unfold GetRoll. destruct (list_find _ _) as [[j r]|] eqn:E; [|done]. intros [= <-].
  apply list_find_Some in E as (Hi & Hr & _). unfold roll_for in Hr.
  apply andb_true_iff in Hr as [H1%Z.eqb_eq H2]. eauto.
Qed.

(** The roll at [i] after a vote, and the vote's count if it was the last one. *)
Record voted (w : RollView) (g Guid c : Z) (n : Z) (i : nat) (r : Roll) (s : LootState) : Prop := mkVoted {
  vt_open : all_voted (cast_vote g c r) = false ->
    run_state (CountRollVote w g Guid n c) s = set_rolls (<[i := cast_vote g c r]>) s /\
    (RollUndefined ∉ run_log (CountRollVote w g Guid n c) s) /\
    given (run_log (CountRollVote w g Guid n c) s) = [];
  vt_last : all_voted (cast_vote g c r) = true ->
    run_state (CountRollVote w g Guid n c) s =
      run_state (CountTheRoll w i n) (set_rolls (<[i := cast_vote g c r]>) s) /\
    exists log, (RollUndefined ∉ log) /\ given log = [] /\
      run_log (CountRollVote w g Guid n c) s =
        log ++ run_log (CountTheRoll w i n) (set_rolls (<[i := cast_vote g c r]>) s)
}.

Lemma CountRollVote_voted w g Guid c n i r s :
  GetRoll Guid s = Some i -> RollId s !! i = Some r -> is_Some (playerVote r !! g) ->
  loot_items_empty s r = false -> voted w g Guid c n i r s.
Proof.
  intros Hi Hr [u Hu] He. set (m := match vote_notice c with
    | Some (n, t) => SendLootRoll w 0 g n t r | None => ret tt end).
  assert (Hm : run_state m s = s /\ (RollUndefined ∉ run_log m s) /\ given (run_log m s) = []).
  { unfold m. destruct (vote_notice c) as [[a b]|]; [|split_and!; [done | apply not_elem_of_nil | done]].
    destruct (silent_send_voters w r not_invalid (Pkt SMSG_LOOT_ROLL
       [FU 8 0; FU 4 0; FU 8 g; FU 4 (itemid r); FU 4 (itemRandomSuffix r);
        FU 4 (u32 (itemRandomPropId r)); FU 1 a; FU 1 b; FU 1 0]) s) as [H1 H2].
    split_and!; [exact H1 | apply clean_send_voters | exact H2]. }
  destruct Hm as (M1 & M2 & M3).
  set (prog := m ;; modify (set_rolls (<[i := cast_vote g c r]>)) ;;
               when (all_voted (cast_vote g c r)) (CountTheRoll w i n)).
  assert (E : CountRollVote w g Guid n c s = prog s).
  { unfold CountRollVote, with_state. by rewrite Hi, Hr, Hu, He. }
  assert (Es : run_state (CountRollVote w g Guid n c) s = run_state prog s) by (unfold run_state; by rewrite E).
  assert (El : run_log (CountRollVote w g Guid n c) s = run_log prog s) by (unfold run_log; by rewrite E).
  unfold prog in Es, El. rewrite !run_state_bind, M1 in Es. rewrite !run_log_bind, M1, rl_modify in El.
  split; intros Hv; rewrite Hv in Es, El; rewrite Es, El; cbn [when].
  - split; [done|]. rewrite rl_ret, !app_nil_r. done.
  - split; [done|]. exists (run_log m s). split_and!; done.
Qed.

(** *** New rolls *)

Lemma gather_vote_keeps w allowed r g :
  let r' := gather_vote w allowed r g in
  getLoot r' = getLoot r /\ itemid r' = itemid r /\ itemGUID r' = itemGUID r.
Proof. unfold gather_vote. by repeat case_match. Qed.

Lemma gather_vote_tally w allowed r g :
  tally_ok r -> playerVote r !! g = None -> (size (playerVote r) < 40)%nat ->
  tally_ok (gather_vote w allowed r g) /\
  (playerVote (gather_vote w allowed r g) = playerVote r \/
   exists v, playerVote (gather_vote w allowed r g) = <[g := v]> (playerVote r)).
Proof.
  intros [T1 T2 T3 T4 T5 T6] Hg Hn. unfold gather_vote. destruct (_ && _); [|split; [by split | by left]].
  pose proof (count_bounds is_pass (playerVote r)).
  assert (Hs : forall v, size (<[g := v]> (playerVote r)) = S (size (playerVote r))).
  { intros v. by rewrite map_size_insert_None. }
  destruct (GetPassOnGroupLoot w g); (split; [|right; eauto]);
    split; cbn [set_votes totalNeed totalGreed totalPass totalPlayersRolling playerVote];
    rewrite ?(count_insert_new _ _ _ _ Hg), ?Hs.
  all: try (apply map_Forall_insert_2; done).
  all: rewrite ?u8_small by lia.
  all: try match goal with |- context [if ?P ?v then 1 else 0] =>
         first [change (if P v then 1 else 0) with 0 | change (if P v then 1 else 0) with 1] end.
  all: lia.
Qed.

Lemma gather_tally w allowed members r :
  NoDup members -> (forall g, g ∈ members -> playerVote r !! g = None) ->
  (size (playerVote r) + length members <= 40)%nat -> tally_ok r ->
  tally_ok (foldl (gather_vote w allowed) r members).
Proof.
  revert r. induction members as [|g members IH]; intros r Hnd Hout Hn Hr; [done|].
  apply NoDup_cons in Hnd as [Hg Hnd]. cbn in Hn. cbn [foldl].
  destruct (gather_vote_tally w allowed r g Hr ltac:(apply Hout; left) ltac:(lia)) as [Ht Hv].
  apply IH; [done | | | done].
  - intros g' Hg'. destruct Hv as [->|[v ->]]; [apply Hout; by right|].
    rewrite lookup_insert_ne by (intros ->; done). apply Hout. by right.
  - destruct Hv as [->|[v ->]]; [lia|].
    rewrite map_size_insert_None by (apply Hout; left). lia.
Qed.

Lemma new_Roll_tally guid li : tally_ok (new_Roll guid li).
Proof.
  split; cbn [new_Roll totalNeed totalGreed totalPass totalPlayersRolling playerVote]; rewrite ?count_empty; try done.
  all: rewrite map_size_empty; lia.
Qed.

Lemma gather_keeps w allowed members r :
  itemGUID (foldl (gather_vote w allowed) r members) = itemGUID r /\
  itemid (foldl (gather_vote w allowed) r members) = itemid r.
Proof.
  revert r. induction members as [|g members IH]; intros r; [done|]. cbn [foldl].
  destruct (IH (gather_vote w allowed r g)) as [-> ->].
  by destruct (gather_vote_keeps w allowed r g) as (_ & -> & ->).
Qed.

(** Programs that may open up to [k] rolls. *)
Record opened (k : Z) {A} (m : RM A) (s : LootState) : Prop := mkOpened {
  op_ok : rolls_ok (run_state m s);
  op_shape : shape (loots (run_state m s)) = shape (loots s);
  op_guid : m_hiItemGuid s <= m_hiItemGuid (run_state m s) <= m_hiItemGuid s + k;
  op_clean : RollUndefined ∉ run_log m s
}.

Lemma opened_with_state k {A} (f : LootState -> RM A) s : opened k (f s) s -> opened k (with_state f) s.
Proof. intros []. by split. Qed.
Lemma opened_ret k {A} (a : A) s : 0 <= k -> rolls_ok s -> opened k (ret a) s.
Proof. intros. split; [done..| cbn; lia |]. apply not_elem_of_nil. Qed.
Lemma opened_bind k1 k2 {A B} (m : RM A) (f : A -> RM B) s :
  opened k1 m s ->
  (rolls_ok (run_state m s) -> shape (loots (run_state m s)) = shape (loots s) ->
   m_hiItemGuid (run_state m s) <= m_hiItemGuid s + k1 -> opened k2 (f (run_value m s)) (run_state m s)) ->
  opened (k1 + k2) (bind m f) s.
Proof.
  intros [H1 H2 H3 H4] Hk. destruct (Hk H1 H2 (proj2 H3)) as [K1 K2 K3 K4].
  split; rewrite ?run_state_bind, ?run_log_bind; [done | congruence | lia |]. rewrite not_elem_of_app. auto.
Qed.
Lemma opened_loot_only {A} (m : RM A) s : loot_only (shape (loots s)) m -> rolls_ok s -> opened 0 m s.
Proof.
  intros Hm Hs. destruct (Hm s eq_refl) as [H1 H2 H3 H4]. split; [|done|lia|done].
  apply (rolls_ok_same s); rewrite ?H2; [done | done | apply Hs | done | done].
Qed.
Lemma opened_more k k' {A} (m : RM A) s : opened k m s -> k <= k' -> opened k' m s.
Proof. intros []. split; [done..|lia|done]. Qed.
Lemma opened_when k b (m : RM unit) s : 0 <= k -> rolls_ok s -> (b = true -> opened k m s) -> opened k (when b m) s.
Proof. intros Hk Hs Hm. destruct b; [auto | by apply opened_ret]. Qed.
(** A prefix that only touches the loots. *)
Lemma opened_after k {A B} sh (m : RM A) (f : A -> RM B) s :
  shape (loots s) = sh -> rolls_ok s -> loot_only sh m ->
  (forall a s', shape (loots s') = sh -> RollId s' = RollId s -> m_hiItemGuid s' = m_hiItemGuid s ->
     rolls_ok s' -> opened k (f a) s') -> opened k (bind m f) s.
Proof.
  intros <- Hs Hm Hk. replace k with (0 + k) by lia. apply opened_bind; [by apply opened_loot_only|].
  intros H1 _ _. destruct (Hm s eq_refl). by apply Hk.
Qed.

(** *** Fresh GUIDs *)

Lemma make_guid_inj j k : 0 <= j < 2 ^ 48 -> 0 <= k < 2 ^ 48 ->
  MAKE_NEW_GUID j 0 HIGHGUID_ITEM = MAKE_NEW_GUID k 0 HIGHGUID_ITEM -> j = k.
Proof.
  assert (Hlow : forall i, 0 <= i < 2 ^ 48 -> MAKE_NEW_GUID i 0 HIGHGUID_ITEM mod 2 ^ 48 = i).
  { intros i Hi. unfold MAKE_NEW_GUID, uwrap. rewrite Z.shiftl_0_l, Z.lor_0_r.
    rewrite <- !Z.land_ones by lia. rewrite <- Z.land_assoc.
    replace (Z.land (Z.ones 64) (Z.ones 48)) with (Z.ones 48) by reflexivity.
    rewrite Z.land_lor_distr_l. replace (Z.land (Z.shiftl HIGHGUID_ITEM 48) (Z.ones 48)) with 0 by reflexivity.
    rewrite Z.lor_0_r, Z.land_ones, Z.mod_small by lia. done. }
  intros Hj Hk E. rewrite <- (Hlow j Hj), <- (Hlow k Hk). by rewrite E.
Qed.

Definition fresh_guid (s : LootState) (guid : Z) : Prop :=
  exists k, 0 <= k < m_hiItemGuid s /\ guid = MAKE_NEW_GUID k 0 HIGHGUID_ITEM /\ guid ∉ (itemGUID <$> RollId s).

Lemma opened_new_guid s :
  rolls_ok s -> 0 <= m_hiItemGuid s < 0xFFFFFFFE ->
  opened 1 new_item_guid s /\ fresh_guid (run_state new_item_guid s) (run_value new_item_guid s).
Proof.
  intros Hs Hhi.
  assert (E : new_item_guid s = (MAKE_NEW_GUID (m_hiItemGuid s) 0 HIGHGUID_ITEM,
    mkLootState (RollId s) (loots s) (m_hiItemGuid s + 1), [])).
  { unfold new_item_guid, with_state. rewrite (proj2 (Z.leb_gt _ _)) by lia. cbn -[uwrap].
    assert (E1 : u32 (m_hiItemGuid s + 1) = m_hiItemGuid s + 1) by (apply Z.mod_small; lia). by rewrite E1. }
  split.
  - split; unfold run_state, run_log; rewrite E; cbn; [|done|lia|apply not_elem_of_nil].
    destruct Hs as [H1 H2 H3 H4]. split; cbn; [done..|]. eapply Forall_impl; [exact H4|].
    intros r (k & Hk & Er). exists k. split; [lia | done].
  - unfold run_state, run_value. rewrite E. cbn. exists (m_hiItemGuid s). split_and!; [cbn; lia.. | done |].
    cbn. intros (r & Er & Hr)%list_elem_of_fmap. pose proof (ro_below s Hs) as Hb. rewrite Forall_forall in Hb.
    destruct (Hb r Hr) as (k & Hk & E2). rewrite E2 in Er. apply make_guid_inj in Er; lia.
Qed.

Lemma loot_only_broadcast w sh r : loot_only sh (broadcast_passes w r).
Proof.
  unfold broadcast_passes. apply loot_only_when. intros _. apply loot_only_for_each. intros [g v].
  apply loot_only_when. intros _. apply loot_only_send_voters.
Qed.

Lemma opened_start_roll w loot i mask timer r s n :
  rolls_ok s -> shape (loots s) !! loot = Some n -> (i < n)%nat -> tally_ok r -> fresh_guid s (itemGUID r) ->
  opened 0 (start_roll w loot i mask timer r) s.
Proof.
  intros Hs Hn Hi Hr (k & Hk & Eg & Hg). unfold start_roll. set (r' := set_slot_mask _ _ _).
  assert (Hr' : roll_ok (shape (loots s)) r').
  { split; [by destruct Hr; split|]. intros _. exists loot, n. split_and!; [done..|].
    assert (n <= 255)%nat by exact (ro_items s Hs loot n Hn).
    unfold r'. cbn [set_slot_mask itemSlot]. rewrite u8_small by lia. lia. }
  apply (opened_after 0 (shape (loots s))); [done..| apply loot_only_set_items; intros; apply length_alter |].
  intros _ s1 E1 L1 G1 H1. apply (opened_after 0 (shape (loots s))); [done..| apply loot_only_broadcast |].
  intros _ s2 E2 L2 G2 H2. apply (opened_after 0 (shape (loots s))); [done..| apply loot_only_send_voters |].
  intros _ s3 E3 L3 G3 H3. change 0 with (0 + 0). apply opened_bind.
  - split; [|done|cbn; lia|apply not_elem_of_nil]. destruct H3 as [K1 K2 K3 K4].
    split; rewrite rs_modify; cbn [set_rolls RollId loots m_hiItemGuid].
    + apply Forall_app. split; [done | constructor; [by rewrite E3 | constructor]].
    + done.
    + rewrite fmap_app. apply NoDup_app. split_and!; [done | | apply NoDup_singleton].
      intros g Hin ->%list_elem_of_singleton. apply Hg. by rewrite L3, L2, L1 in Hin.
    + apply Forall_app. split; [done|]. repeat constructor. exists k. split; [congruence | done].
  - intros H4 _ _. apply opened_when; [lia | done |]. intros _. apply opened_loot_only; [auto with dc | done].
Qed.

Section opening.
Context (w : RollView) (th ench : Z) (members : list Z) (loot : Z).
Context (Hmem : NoDup members) (Hlen : (length members <= 40)%nat).

(** Both methods open the rolls of an item the same way. *)
Lemma opened_item allowed li i mask timer s n :
  rolls_ok s -> 0 <= m_hiItemGuid s < 0xFFFFFFFE -> shape (loots s) !! loot = Some n -> (i < n)%nat ->
  opened 1 (let! newitemGUID := new_item_guid in
            let r := foldl (gather_vote w allowed) (new_Roll newitemGUID li) members in
            when (0 <? totalPlayersRolling r) (start_roll w loot i (mask r) timer r)) s.
Proof.
  intros Hs Hhi Hn Hi. destruct (opened_new_guid s Hs Hhi) as [Ho Hf]. change 1 with (1 + 0).
  apply opened_bind; [done|]. intros H1 E _. apply opened_when; [lia | done |]. intros _.
  apply (opened_start_roll w loot i _ _ _ _ n); [done | by rewrite E | done | |].
  - apply gather_tally; [done | done | cbn [new_Roll playerVote]; rewrite map_size_empty; lia | apply new_Roll_tally].
  - rewrite (proj1 (gather_keeps w allowed members _)). exact Hf.
Qed.

Lemma loot_item_at_ok s i n :
  shape (loots s) !! loot = Some n -> (i < n)%nat -> exists li, loot_item_at s loot i = Some li.
Proof.
  intros (l & Hl & <-)%shape_lookup Hi. unfold loot_item_at. rewrite Hl. cbn.
  by apply lookup_lt_is_Some_2.
Qed.

Lemma opened_underthreshold i s : rolls_ok s -> opened 1 (set_loot_items loot (alter set_underthreshold i)) s.
Proof.
  intros Hs. apply (opened_more 0); [|lia]. apply opened_loot_only; [|done].
  apply loot_only_set_items. intros; apply length_alter.
Qed.

Lemma opened_GroupLoot_item i s n :
  rolls_ok s -> 0 <= m_hiItemGuid s < 0xFFFFFFFE -> shape (loots s) !! loot = Some n -> (i < n)%nat ->
  opened 1 (GroupLoot_item w th ench members loot i) s.
Proof.
  intros Hs Hhi Hn Hi. apply opened_with_state. destruct (loot_item_at_ok s i n Hn Hi) as [li ->].
  destruct (freeforall li); [by apply opened_ret|].
  destruct (GetItemPrototype w (li_itemid li)) as [item|]; [|by apply opened_ret].
  destruct (_ <=? _); [|by apply opened_underthreshold].
  by apply (opened_item _ li i (fun r => disenchant_mask ench item (rollVoteMask r)) _ s n).
Qed.

Lemma opened_NeedBeforeGreed_item i s n :
  (forall k, GetItemPrototype w k <> None) ->
  rolls_ok s -> 0 <= m_hiItemGuid s < 0xFFFFFFFE -> shape (loots s) !! loot = Some n -> (i < n)%nat ->
  opened 1 (NeedBeforeGreed_item w th ench members loot i) s.
Proof.
  intros Hpr Hs Hhi Hn Hi. apply opened_with_state. destruct (loot_item_at_ok s i n Hn Hi) as [li ->].
  destruct (freeforall li); [by apply opened_ret|].
  destruct (GetItemPrototype w (li_itemid li)) as [item|] eqn:E; [|by destruct (Hpr (li_itemid li))].
  destruct (_ <=? _); [|by apply opened_underthreshold].
  by apply (opened_item _ li i (fun r => need_mask item (disenchant_mask ench item (rollVoteMask r))) _ s n).
Qed.

Lemma opened_items (f : nat -> RM unit) l s n :
  (forall i s, rolls_ok s -> 0 <= m_hiItemGuid s < 0xFFFFFFFE -> shape (loots s) !! loot = Some n ->
     (i < n)%nat -> opened 1 (f i) s) ->
  Forall (fun i => (i < n)%nat) l -> rolls_ok s -> shape (loots s) !! loot = Some n ->
  0 <= m_hiItemGuid s -> m_hiItemGuid s + Z.of_nat (length l) < 0xFFFFFFFF ->
  opened (Z.of_nat (length l)) (for_each l f) s.
Proof.
  intros Hf Hl. revert s. induction Hl as [|i l Hi Hl IH]; intros s Hs Hn H0 Hmax; [by apply opened_ret|].
  cbn [length] in *. cbn [for_each]. pose proof (Hf i s Hs ltac:(lia) Hn Hi) as Ho.
  replace (Z.of_nat (S (length l))) with (1 + Z.of_nat (length l)) by lia.
  apply opened_bind; [done|]. intros H1 E Hle. destruct (op_guid _ _ _ Ho).
  apply IH; [done | by rewrite E | lia | lia].
Qed.

Lemma opened_loop (f : nat -> RM unit) s l :
  (forall i s, rolls_ok s -> 0 <= m_hiItemGuid s < 0xFFFFFFFE -> shape (loots s) !! loot = Some (length (items l)) ->
     (i < length (items l))%nat -> opened 1 (f i) s) ->
  rolls_ok s -> loots s !! loot = Some l -> 0 <= m_hiItemGuid s < 0xFFFFFF00 ->
  opened 255 (for_each (seq 0 (length (items l))) f) s.
Proof.
  intros Hf Hs Hl Hhi.
  assert (Hn : shape (loots s) !! loot = Some (length (items l))) by (by unfold shape; rewrite lookup_fmap, Hl).
  assert (length (items l) <= 255)%nat by exact (ro_items s Hs loot _ Hn).
  apply (opened_more (Z.of_nat (length (seq 0 (length (items l)))))); [|rewrite length_seq; lia].
  apply (opened_items _ _ s (length (items l))); [done | apply Forall_seq; lia | done | done | lia |].
  rewrite length_seq. lia.
Qed.

Lemma opened_GroupLoot s :
  rolls_ok s -> 0 <= m_hiItemGuid s < 0xFFFFFF00 -> is_Some (loots s !! loot) ->
  opened 255 (GroupLoot w th ench members loot) s.
Proof.
  intros Hs Hhi [l Hl]. apply opened_with_state. rewrite Hl. apply opened_loop; [|done..].
  intros i s' Hs' Hhi' Hn Hi. by apply (opened_GroupLoot_item i s' (length (items l))).
Qed.

Lemma opened_NeedBeforeGreed s :
  (forall k, GetItemPrototype w k <> None) ->
  rolls_ok s -> 0 <= m_hiItemGuid s < 0xFFFFFF00 -> is_Some (loots s !! loot) ->
  opened 255 (NeedBeforeGreed w th ench members loot) s.
Proof.
  intros Hpr Hs Hhi [l Hl]. apply opened_with_state. rewrite Hl. apply opened_loop; [|done..].
  intros i s' Hs' Hhi' Hn Hi. by apply (opened_NeedBeforeGreed_item i s' (length (items l))).
Qed.
End opening.

(** *** The end of the rolls for a loot *)

Lemma EndRoll_loop_ends w p n fuel itr s :
  Forall (proto_ok w) (RollId s) -> Forall (fun r => roll_isValid r = true -> slot_ok (shape (loots s)) r) (RollId s) ->
  Forall (fun r => getLoot r <> Some p) (take itr (RollId s)) ->
  (length (RollId s) * S (length (RollId s)) + (length (RollId s) - itr) < fuel)%nat ->
  run_value (EndRoll_loop w fuel p n itr) s = true /\
  RollId (run_state (EndRoll_loop w fuel p n itr) s) = filter (fun r => getLoot r <> Some p) (RollId s) /\
  shape (loots (run_state (EndRoll_loop w fuel p n itr) s)) = shape (loots s) /\
  m_hiItemGuid (run_state (EndRoll_loop w fuel p n itr) s) = m_hiItemGuid s /\
  RollUndefined ∉ run_log (EndRoll_loop w fuel p n itr) s.
Proof.
  revert itr s. induction fuel as [|fuel IH]; intros itr s Hpr Hsl Hdone Hfuel; [lia|].
  cbn [EndRoll_loop]. rewrite rs_with_state, rv_with_state, rl_with_state.
  destruct (RollId s !! itr) as [r|] eqn:Hr.
  - case_bool_decide as Hp.
    + assert (Hi : (itr < length (RollId s))%nat) by (eapply lookup_lt_Some, Hr).
      destruct (CountTheRoll_counted w itr n s r Hr (Forall_lookup_1 _ _ _ _ Hsl Hr) (Forall_lookup_1 _ _ _ _ Hpr Hr))
        as [C1 C2 C3 C4].
      rewrite run_state_bind, run_value_bind, run_log_bind. set (s1 := run_state (CountTheRoll _ _ _) s) in *.
      assert (Hlen : length (RollId s1) = (length (RollId s) - 1)%nat) by (rewrite C1; apply length_delete; eauto).
      destruct (IH 0%nat s1) as (D1 & D2 & D3 & D4 & D5).
      * rewrite C1. by apply Forall_delete.
      * rewrite C1, C2. by apply Forall_delete.
      * apply Forall_nil_2.
      * rewrite Hlen. clear -Hi Hfuel. destruct (length (RollId s)) as [|L]; [lia|]. replace (S L - 1)%nat with L by lia. nia.
      * split_and!; [done | | congruence | congruence | rewrite not_elem_of_app; auto].
        rewrite D2, C1, (delete_take_drop (RollId s) itr), filter_app.
        rewrite <- (take_drop_middle (RollId s) itr r Hr) at 3.
        rewrite filter_app, filter_cons_False by tauto. done.
    + assert (Hi : (itr < length (RollId s))%nat) by (eapply lookup_lt_Some, Hr).
      apply IH; [done | done | | lia]. rewrite (take_S_r _ _ _ Hr). apply Forall_app. by repeat constructor.
  - apply lookup_ge_None in Hr. rewrite take_ge in Hdone by done. split_and!; try done; [|apply not_elem_of_nil].
    cbn. symmetry. clear -Hdone. induction Hdone as [|r l Hr Hl IH]; [done|].
    rewrite filter_cons_True by done. by rewrite IH.
Qed.

(** *** Members who leave *)

Lemma drop_vote_tally g v r : tally_ok r -> playerVote r !! g = Some v -> tally_ok (drop_vote g v r).
Proof.
  intros [T1 T2 T3 T4 T5 T6] Hg.
  assert (Hv : v <> NOT_VALID) by exact (T6 g v Hg).
  assert (Hc : forall P, count_votes P (playerVote r) = count_votes P (delete g (playerVote r)) + (if P v then 1 else 0)).
  { intros P. rewrite (count_delete P _ _ _ Hg). lia. }
  pose proof (Hc is_need) as N1. pose proof (Hc is_greed) as N2. pose proof (Hc is_pass) as N3.
  pose proof (count_bounds is_need (delete g (playerVote r))).
  pose proof (count_bounds is_greed (delete g (playerVote r))).
  pose proof (count_bounds is_pass (delete g (playerVote r))).
  assert (Hs : size (playerVote r) = S (size (delete g (playerVote r)))).
  { rewrite map_size_delete, Hg. assert (size (playerVote r) <> 0)%nat; [|cbn; lia].
    intros E%map_size_empty_inv. rewrite E, lookup_empty in Hg. done. }
  split; cbn [drop_vote set_votes totalNeed totalGreed totalPass totalPlayersRolling playerVote].
  - change (bool_decide (v = NEED)) with (is_need v). destruct (is_need v); rewrite ?u8_small; lia.
  - destruct (is_greed v); rewrite ?u8_small; lia.
  - change (bool_decide (v = PASS)) with (is_pass v). destruct (is_pass v); rewrite ?u8_small; lia.
  - rewrite bool_decide_false by done. rewrite u8_small; lia.
  - lia.
  - by apply map_Forall_delete.
Qed.

(** The vote of a member who is not in the roll any more is not counted. *)
Lemma CountRollVote_absent w g Guid n c s i r :
  GetRoll Guid s = Some i -> RollId s !! i = Some r -> playerVote r !! g = None ->
  CountRollVote w g Guid n c s = (tt, s, []).
Proof. intros Hi Hr Hg. unfold CountRollVote, with_state. by rewrite Hi, Hr, Hg. Qed.

Lemma CountRollVote_no_roll w g Guid n c s : GetRoll Guid s = None -> CountRollVote w g Guid n c s = (tt, s, []).
Proof. intros Hi. unfold CountRollVote, with_state. by rewrite Hi. Qed.

Definition forget_vote (g : Z) (r : Roll) : Roll :=
  match playerVote r !! g with Some v => drop_vote g v r | None => r end.

Lemma forget_vote_guid g r : itemGUID (forget_vote g r) = itemGUID r.
Proof. unfold forget_vote. by case_match. Qed.

Lemma GetRoll_unique Guid s i :
  NoDup (itemGUID <$> RollId s) -> GetRoll Guid s = Some i ->
  forall j r, RollId s !! j = Some r -> itemGUID r = Guid -> i = j.
Proof.
  intros Hnd (r & Hr & Eg & _)%GetRoll_spec j r' Hr' Eg'.
  eapply (NoDup_lookup _ _ _ Guid Hnd); rewrite list_lookup_fmap; [by rewrite Hr, <- Eg | by rewrite Hr', <- Eg'].
Qed.

(** The loop has seen the rolls before [it]. *)
Lemma removeRolls_loop_run w g members fuel it s :
  NoDup (itemGUID <$> RollId s) -> (length (RollId s) <= it + fuel)%nat ->
  removeRolls_loop w fuel g members it s =
    (tt, set_rolls (fun l => take it l ++ (forget_vote g <$> drop it l)) s, []).
Proof.
  revert it s. induction fuel as [|fuel IH]; intros it s Hnd Hlen.
  { cbn [removeRolls_loop]. rewrite <- (take_drop it (RollId s)) in Hlen. rewrite length_app, length_take, length_drop in Hlen.
    unfold set_rolls. destruct s as [l ls hi]. cbn in *. rewrite drop_ge, take_ge by lia. cbn. by rewrite app_nil_r. }
  cbn [removeRolls_loop]. unfold with_state at 1. destruct (RollId s !! it) as [roll|] eqn:Hr.
  - assert (Hgoal : forall s', RollId s' = <[it := forget_vote g roll]> (RollId s) -> loots s' = loots s ->
        m_hiItemGuid s' = m_hiItemGuid s ->
        removeRolls_loop w fuel g members (S it) s' =
          (tt, set_rolls (fun l => take it l ++ (forget_vote g <$> drop it l)) s, [])).
    { intros s' E1 E2 E3. rewrite IH.
      - do 2 f_equal. unfold set_rolls. rewrite E1, E2, E3. f_equal.
        assert (Hl : (it < length (RollId s))%nat) by (eapply lookup_lt_Some, Hr).
        rewrite insert_take_drop by done. rewrite (drop_S _ _ _ Hr). cbn [fmap list_fmap].
        replace (S it) with (it + 1)%nat by lia. rewrite take_app_add', drop_app_add' by (rewrite length_take; lia).
        cbn [take drop app]. by rewrite <- app_assoc.
      - rewrite E1, list_fmap_insert, forget_vote_guid. rewrite list_insert_id; [done|].
        by rewrite list_lookup_fmap, Hr.
      - rewrite E1, length_insert. lia. }
    destruct (playerVote roll !! g) as [v|] eqn:Hg.
    + assert (Ef : forget_vote g roll = drop_vote g v roll) by (unfold forget_vote; by rewrite Hg).
      set (s1 := set_rolls (<[it := drop_vote g v roll]>) s).
      assert (Hr1 : RollId s1 !! it = Some (drop_vote g v roll))
        by (apply list_lookup_insert_eq; by eapply lookup_lt_Some).
      assert (Hnd1 : NoDup (itemGUID <$> RollId s1)).
      { unfold s1. cbn. rewrite list_fmap_insert. change (itemGUID (drop_vote g v roll)) with (itemGUID roll).
        rewrite list_insert_id; [done|]. by rewrite list_lookup_fmap, Hr. }
      assert (E : CountRollVote w g (itemGUID roll) (u32 (members - 1)) MAX_ROLL_TYPE s1 = (tt, s1, [])).
      { destruct (GetRoll (itemGUID roll) s1) as [j|] eqn:Hj; [|by apply CountRollVote_no_roll].
        assert (j = it) as -> by exact (GetRoll_unique _ _ _ Hnd1 Hj _ _ Hr1 eq_refl).
        apply (CountRollVote_absent _ _ _ _ _ _ it (drop_vote g v roll)); [done..|]. apply lookup_delete_eq. }
      rewrite (bind_silent _ _ _ tt s1 eq_refl), (bind_silent _ _ _ tt s1 E). unfold with_state.
      rewrite (proj2 (Nat.ltb_ge _ _)) by (unfold s1; cbn; rewrite length_insert; lia).
      rewrite (Hgoal s1) by (done || by rewrite Ef). done.
    + rewrite (Hgoal s); [done | | done | done]. unfold forget_vote. rewrite Hg. by rewrite list_insert_id.
  - apply lookup_ge_None in Hr. unfold set_rolls. destruct s as [l ls hi]. cbn in *.
    rewrite drop_ge, take_ge by lia. cbn. by rewrite app_nil_r.
Qed.

Lemma removeRolls_run w g members s :
  NoDup (itemGUID <$> RollId s) ->
  _removeRolls w g members s = (tt, set_rolls (fmap (forget_vote g)) s, []).
Proof. intros Hnd. unfold _removeRolls, with_state. rewrite removeRolls_loop_run by (done || lia). done. Qed.

Lemma forget_vote_ok sh g r : roll_ok sh r -> roll_ok sh (forget_vote g r).
Proof.
  intros [Ht Hs]. unfold forget_vote. destruct (playerVote r !! g) as [v|] eqn:E; [|by split].
  split; [by apply drop_vote_tally | exact Hs].
Qed.

(** ** Steps of the loot system *)

Inductive roll_op :=
| OpFill (loot : Z) (its : list LootItem) (unlooted : Z) (looting : gset Z)
| OpGroupLoot (threshold enchanting : Z) (members : list Z) (loot : Z)
| OpNeedBeforeGreed (threshold enchanting : Z) (members : list Z) (loot : Z)
| OpVote (playerGUID Guid NumberOfPlayers Choice : Z)
| OpEndRoll (loot members : Z)
| OpLeave (guid members : Z)
| OpClear (loot : Z).

Definition run_roll_op (w : RollView) (op : roll_op) : RM unit :=
  match op with
  | OpFill loot its unlooted looting => modify (set_loots (<[loot := mkLoot its unlooted looting]>))
  | OpGroupLoot th ench members loot => GroupLoot w th ench members loot
  | OpNeedBeforeGreed th ench members loot => NeedBeforeGreed w th ench members loot
  | OpVote g Guid n c => CountRollVote w g Guid n c
  | OpEndRoll loot members => let! _ := EndRoll w loot members in ret tt
  | OpLeave g members => _removeRolls w g members
  | OpClear loot => loot_clear loot
  end.

Definition protos_known (w : RollView) (s : LootState) : Prop := forall r, r ∈ RollId s -> proto_ok w r.

(** What the server's other parts guarantee of a step: a loot is filled when it
    is empty, a raid has at most forty members, the item counter has not run out;
    and a client votes once on an item. *)
Definition roll_allowed (w : RollView) (op : roll_op) (s : LootState) : Prop :=
  match op with
  | OpFill loot its _ _ =>
      (forall l, loots s !! loot = Some l -> items l = []) /\ (length its <= 255)%nat
  | OpGroupLoot _ _ members loot =>
      NoDup members /\ (length members <= 40)%nat /\ 0 <= m_hiItemGuid s < 0xFFFFFF00 /\ is_Some (loots s !! loot)
  | OpNeedBeforeGreed _ _ members loot =>
      NoDup members /\ (length members <= 40)%nat /\ 0 <= m_hiItemGuid s < 0xFFFFFF00 /\
      is_Some (loots s !! loot) /\ forall k, GetItemPrototype w k <> None
  | OpVote g Guid _ _ =>
      protos_known w s /\
      forall i r v, GetRoll Guid s = Some i -> RollId s !! i = Some r -> playerVote r !! g = Some v ->
        v = NOT_EMITED_YET
  | OpEndRoll _ _ => protos_known w s
  | OpLeave _ _ | OpClear _ => True
  end.

Inductive rolls_reachable : LootState -> Prop :=
| rolls_init hi : rolls_reachable (mkLootState [] ∅ hi)
| rolls_step w op s : rolls_reachable s -> roll_allowed w op s -> rolls_reachable (run_state (run_roll_op w op) s).

Lemma rolls_ok_init hi : rolls_ok (mkLootState [] ∅ hi).
Proof.
  split; cbn [RollId loots m_hiItemGuid]; [constructor | | constructor | constructor].
  unfold shape. rewrite fmap_empty. apply map_Forall_empty.
Qed.

Lemma slot_ok_items s r : slot_ok (shape (loots s)) r -> loot_items_empty s r = false.
Proof.
  intros (p & n & Hp & (l & Hl & <-)%shape_lookup & Hlt). unfold loot_items_empty. rewrite Hp. cbn. rewrite Hl.
  apply bool_decide_eq_false. intros E. rewrite E in Hlt. cbn in Hlt. lia.
Qed.

Lemma rolls_ok_insert s i r r' :
  rolls_ok s -> RollId s !! i = Some r -> roll_ok (shape (loots s)) r' -> itemGUID r' = itemGUID r ->
  rolls_ok (set_rolls (<[i := r']>) s).
Proof.
  intros Hs Hr Hr' Eg. apply (rolls_ok_same s); [done | done | | | done]; cbn.
  - apply Forall_insert; [apply Hs | done].
  - rewrite list_fmap_insert, Eg. apply list_insert_id. by rewrite list_lookup_fmap, Hr.
Qed.

Lemma cast_vote_guid g c r : itemGUID (cast_vote g c r) = itemGUID r.
Proof. unfold cast_vote. by repeat case_match. Qed.

Definition good_step (m : RM unit) (s : LootState) : Prop :=
  rolls_ok (run_state m s) /\ RollUndefined ∉ run_log m s.

Lemma good_vote w g Guid n c s : rolls_ok s -> roll_allowed w (OpVote g Guid n c) s -> good_step (CountRollVote w g Guid n c) s.
Proof.
  intros Hs [Hpr Hfirst]. destruct (GetRoll Guid s) as [i|] eqn:Hi.
  2: { unfold good_step, run_state, run_log. rewrite CountRollVote_no_roll by done. split; [done | apply not_elem_of_nil]. }
  destruct (GetRoll_spec _ _ _ Hi) as (r & Hr & Eg & Hv).
  destruct (playerVote r !! g) as [v|] eqn:Hg.
  2: { unfold good_step, run_state, run_log. rewrite (CountRollVote_absent _ _ _ _ _ _ i r) by done.
       split; [done | apply not_elem_of_nil]. }
  rewrite (Hfirst i r v eq_refl Hr Hg) in Hg.
  assert (Hro : roll_ok (shape (loots s)) r) by (eapply Forall_lookup_1; [apply Hs | exact Hr]).
  assert (Hro' := cast_vote_roll_ok _ g c r Hro Hg).
  assert (Hs' := rolls_ok_insert s i r _ Hs Hr Hro' (cast_vote_guid g c r)).
  destruct (CountRollVote_voted w g Guid c n i r s Hi Hr ltac:(eauto) (slot_ok_items _ _ (proj2 Hro Hv))) as [Vo Vl].
  destruct (all_voted (cast_vote g c r)).
  - destruct (Vl eq_refl) as (E & log & Hlog & _ & El).
    assert (Hc : counted i (CountTheRoll w i n) (set_rolls (<[i := cast_vote g c r]>) s)).
    { apply (CountTheRoll_counted w i n _ (cast_vote g c r)).
      - apply list_lookup_insert_eq. by eapply lookup_lt_Some.
      - apply Hro'.
      - apply cast_vote_proto, Hpr. by eapply list_elem_of_lookup_2. }
    split; [rewrite E; by apply (rolls_ok_counted i) |]. rewrite El, not_elem_of_app. split; [done | apply Hc].
  - destruct (Vo eq_refl) as (E & El & _). split; [by rewrite E | done].
Qed.

Lemma EndRoll_run w p n s :
  rolls_ok s -> protos_known w s ->
  run_value (EndRoll w p n) s = true /\
  RollId (run_state (EndRoll w p n) s) = filter (fun r => getLoot r <> Some p) (RollId s) /\
  shape (loots (run_state (EndRoll w p n) s)) = shape (loots s) /\
  m_hiItemGuid (run_state (EndRoll w p n) s) = m_hiItemGuid s /\
  RollUndefined ∉ run_log (EndRoll w p n) s.
Proof.
  intros Hs Hpr. unfold EndRoll. rewrite rs_with_state, rv_with_state, rl_with_state.
  apply EndRoll_loop_ends; [by apply Forall_forall | | apply Forall_nil_2 | nia].
  eapply Forall_impl; [apply Hs | intros r [_ H]; exact H].
Qed.

Lemma good_end w p n s : rolls_ok s -> protos_known w s -> good_step (run_roll_op w (OpEndRoll p n)) s.
Proof.
  intros Hs Hpr. destruct (EndRoll_run w p n s Hs Hpr) as (_ & E2 & E3 & E4 & E5).
  unfold good_step. cbn [run_roll_op]. rewrite run_state_bind, run_log_bind. split.
  - rewrite rs_ret. destruct Hs as [H1 H2 H3 H4]. split; rewrite ?E2, ?E3, ?E4; [by apply Forall_filter_keep | done | | by apply Forall_filter_keep].
    eapply sublist_NoDup; [exact H3 | apply fmap_sublist, sublist_filter].
  - rewrite rl_ret, app_nil_r. exact E5.
Qed.

Lemma good_clear p s : rolls_ok s -> good_step (loot_clear p) s.
Proof.
  intros [H1 H2 H3 H4]. split; [|apply not_elem_of_nil].
  unfold loot_clear. rewrite run_state_bind, !rs_modify. cbn [set_rolls set_loots RollId loots m_hiItemGuid].
  set (f := fun r => if bool_decide (getLoot r = Some p) then set_loot None r else r).
  assert (Eg : forall r, itemGUID (f r) = itemGUID r) by (intros r; unfold f; by case_match).
  split; cbn [set_rolls set_loots RollId loots m_hiItemGuid].
  - apply Forall_fmap. eapply Forall_impl; [exact H1|]. intros r [Ht Hs]. unfold compose.
    destruct (decide (getLoot r = Some p)) as [E|E];
      [replace (f r) with (set_loot None r) by (unfold f; by rewrite bool_decide_true)
      |replace (f r) with r by (unfold f; by rewrite bool_decide_false)].
    { split; [by destruct Ht; split|]. intros Hv. by apply bool_decide_eq_true in Hv as [? ?]. }
    split; [done|]. intros Hv.
    destruct (Hs Hv) as (q & n & Hq & Hn & Hlt). exists q, n. split_and!; [done | | done].
    case_bool_decide; [|done]. unfold shape. rewrite fmap_insert, lookup_insert_ne by congruence. exact Hn.
  - case_bool_decide; [|done]. unfold shape. rewrite fmap_insert. apply map_Forall_insert_2; [cbn; lia | done].
  - rewrite <- list_fmap_compose. erewrite list_fmap_ext; [exact H3|]. intros. apply Eg.
  - apply Forall_fmap. eapply Forall_impl; [exact H4|]. intros r (k & Hk & E). exists k. by rewrite Eg.
Qed.

Lemma good_fill p its u lk s :
  rolls_ok s -> (forall l, loots s !! p = Some l -> items l = []) -> (length its <= 255)%nat ->
  good_step (modify (set_loots (<[p := mkLoot its u lk]>))) s.
Proof.
  intros [H1 H2 H3 H4] He Hlen. split; [|apply not_elem_of_nil]. rewrite rs_modify.
  split; cbn [set_loots RollId loots m_hiItemGuid]; [| | done | done]; unfold shape; rewrite fmap_insert; cbn.
  - eapply Forall_impl; [exact H1|]. intros r [Ht Hs]. split; [done|]. intros Hv.
    destruct (Hs Hv) as (q & n & Hq & Hn & Hlt). exists q, n. split_and!; [done | | done].
    destruct (decide (q = p)) as [->|]; [|by rewrite lookup_insert_ne].
    apply shape_lookup in Hn as (l & Hl & <-). rewrite (He l Hl) in Hlt. cbn in Hlt. lia.
  - by apply map_Forall_insert_2.
Qed.

Lemma good_leave w g n s : rolls_ok s -> good_step (_removeRolls w g n) s.
Proof.
  intros Hs. unfold good_step, run_state, run_log. rewrite removeRolls_run by apply Hs.
  split; [|apply not_elem_of_nil]. cbn. apply (rolls_ok_same s); [done | done | | | done]; cbn.
  - apply Forall_fmap. eapply Forall_impl; [apply Hs|]. intros r. apply forget_vote_ok.
  - rewrite <- list_fmap_compose. apply list_fmap_ext. intros. apply forget_vote_guid.
Qed.

Lemma good_roll_step w op s : rolls_ok s -> roll_allowed w op s -> good_step (run_roll_op w op) s.
Proof.
  intros Hs. destruct op; cbn [roll_allowed run_roll_op].
  - intros []. by apply good_fill.
  - intros (? & ? & ? & ?). by destruct (opened_GroupLoot w threshold enchanting members loot ltac:(done) ltac:(done) s).
  - intros (? & ? & ? & ? & ?).
    by destruct (opened_NeedBeforeGreed w threshold enchanting members loot ltac:(done) ltac:(done) s).
  - by apply good_vote.
  - by apply good_end.
  - intros _. by apply good_leave.
  - intros _. by apply good_clear.
Qed.

Lemma rolls_reachable_ok s : rolls_reachable s -> rolls_ok s.
Proof. induction 1 as [hi|w op s _ IH Ha]; [apply rolls_ok_init | by apply good_roll_step]. Qed.

(** ** Who gets the item *)

(** The best roll among the votes that take part; the smaller GUID wins a tie. *)
Definition top (w : RollView) (r : Roll) (part : RollVote -> bool) (g : Z) (v : RollVote) : Prop :=
  playerVote r !! g = Some v /\ part v = true /\
  forall g' v', playerVote r !! g' = Some v' -> part v' = true ->
    urand w g' < urand w g \/ (urand w g' = urand w g /\ g <= g').

(** What the counters make of a roll: a roll on need, on greed and disenchanting, or
    none.  The same from the votes. *)
Inductive Ballot := OnNeed | OnGreed | AllPassed.
Definition ballot (r : Roll) : Ballot :=
  if 0 <? totalNeed r then OnNeed else if 0 <? totalGreed r then OnGreed else AllPassed.
Definition ballot_of (votes : gmap Z RollVote) : Ballot :=
  if 0 <? count_votes is_need votes then OnNeed
  else if 0 <? count_votes is_greed votes then OnGreed else AllPassed.
Definition takes_part (b : Ballot) : RollVote -> bool :=
  match b with OnNeed => is_need | OnGreed => is_greed | AllPassed => fun _ => false end.

(** A vote of need goes before greed and disenchanting. *)
Definition wins (w : RollView) (r : Roll) (g : Z) (v : RollVote) : Prop :=
  if 0 <? count_votes is_need (playerVote r) then top w r is_need g v else top w r is_greed g v.

Lemma top_unique w r part g v g' v' : top w r part g v -> top w r part g' v' -> g = g' /\ v = v'.
Proof.
  intros (H1 & H2 & H3) (K1 & K2 & K3). destruct (H3 g' v' K1 K2), (K3 g v H1 H2); try lia.
  assert (g = g') as -> by lia. split; congruence.
Qed.

Section award_spec.
Context (w : RollView) (Hrand : forall g, 1 <= urand w g <= 100).

(** *** The loop over the votes *)

Definition best_of (part : RollVote -> bool) (votes : list (Z * RollVote)) (best : Z * Z * RollVote) :=
  foldl (fun b gv => best_step w b gv.1 gv.2) best (filter (fun gv => part gv.2 = true) votes).

Lemma roll_loop_run r part votes best s :
  run_value (roll_loop w r part votes best) s = best_of part votes best /\
  run_state (roll_loop w r part votes best) s = s /\ given (run_log (roll_loop w r part votes best) s) = [].
Proof.
  revert best. induction votes as [|[g v] votes IH]; intros best; [done|].
  cbn [roll_loop]. unfold best_of. destruct (part v) eqn:E.
  - rewrite filter_cons_True by done. cbn [foldl fst snd].
    rewrite run_value_bind, run_state_bind, run_log_bind, given_app.
    destruct (silent_send_voters w r not_invalid (Pkt SMSG_LOOT_ROLL
       [FU 8 0; FU 4 0; FU 8 g; FU 4 (itemid r); FU 4 (itemRandomSuffix r);
        FU 4 (u32 (itemRandomPropId r)); FU 1 (urand w g); FU 1 (vote_value v); FU 1 0]) s) as [H1 H2].
    change (send_voters _ _ _ _) with (SendLootRoll w 0 g (urand w g) (vote_value v) r) in H1, H2.
    rewrite H1, H2. apply IH.
  - rewrite filter_cons_False by (cbn; congruence). apply IH.
Qed.

(** The invariant of the loop over the votes seen so far. *)
Definition leads (seen : list (Z * RollVote)) (best : Z * Z * RollVote) : Prop :=
  let '(g, n, v) := best in
  (g, v) ∈ seen /\ n = urand w g /\
  forall g' v', (g', v') ∈ seen -> urand w g' < urand w g \/ (urand w g' = urand w g /\ g <= g').

Lemma best_of_leads votes seen best :
  leads seen best -> Sorted key_le (seen ++ votes) ->
  leads (seen ++ votes) (foldl (fun b gv => best_step w b gv.1 gv.2) best votes).
Proof.
  revert seen best. induction votes as [|[g v] votes IH]; intros seen best Hb Hs; [by rewrite app_nil_r|].
  cbn [foldl fst snd]. rewrite cons_middle, app_assoc in Hs |- *. apply IH; [|done].
  destruct best as [[g0 n0] v0]. destruct Hb as (H1 & -> & H3). unfold best_step.
  assert (Hle : g0 <= g).
  { apply Sorted_StronglySorted in Hs; [|apply _]. apply StronglySorted_app in Hs as (_ & Hs & _).
    apply StronglySorted_app in Hs as (Hx & _). apply (Hx (g0, v0) (g, v)); [done | by left]. }
  destruct (Z.ltb_spec (urand w g0) (urand w g)).
  - split_and!; [rewrite elem_of_app; right; by left | done |].
    intros g' v' [Hin|Hin]%elem_of_app; [destruct (H3 g' v' Hin); lia|].
    apply list_elem_of_singleton in Hin. injection Hin as -> ->. lia.
  - split_and!; [rewrite elem_of_app; by left | done |].
    intros g' v' [Hin|Hin]%elem_of_app; [by apply (H3 g' v')|].
    apply list_elem_of_singleton in Hin. injection Hin as -> ->. lia.
Qed.

Lemma StronglySorted_filter {A} (R : relation A) (P : A -> Prop) `{!forall x, Decision (P x)} l :
  StronglySorted R l -> StronglySorted R (filter P l).
Proof.
  induction 1 as [|x l Hl IH Hx]; [constructor|]. rewrite filter_cons. case_decide; [|done].
  constructor; [done|]. by apply Forall_filter_keep.
Qed.

Lemma best_of_top r part first u :
  (exists g v, playerVote r !! g = Some v /\ part v = true) ->
  exists g v, top w r part g v /\ best_of part (omap_list (playerVote r)) (first, 0, u) = (g, urand w g, v).
Proof.
  intros (g0 & v0 & Hg0 & Hv0). unfold best_of.
  set (P := fun gv : Z * RollVote => part gv.2 = true).
  assert (Hin : forall g v, (g, v) ∈ filter P (omap_list (playerVote r)) <-> playerVote r !! g = Some v /\ part v = true).
  { intros g v. rewrite list_elem_of_filter, elem_of_omap_list. unfold P. cbn. tauto. }
  assert (Hs : Sorted key_le (filter P (omap_list (playerVote r)))).
  { apply StronglySorted_Sorted, StronglySorted_filter, Sorted_StronglySorted, omap_list_sorted. apply _. }
  destruct (filter P (omap_list (playerVote r))) as [|[g1 v1] rest].
  { exfalso. apply (not_elem_of_nil (g0, v0)), Hin. done. }
  cbn [foldl fst snd]. unfold best_step at 2. rewrite (proj2 (Z.ltb_lt _ _)) by (specialize (Hrand g1); lia).
  pose proof (best_of_leads rest [(g1, v1)] (g1, urand w g1, v1)) as Hl.
  destruct (foldl _ _ rest) as [[g n] v]. destruct Hl as (H1 & -> & H3); [|done|].
  { split_and!; [by left | done |]. intros g' v' E%list_elem_of_singleton. injection E as -> ->. lia. }
  exists g, v. split; [|done]. apply Hin in H1 as [E1 E2]. split_and!; [done..|].
  intros g' v' K1 K2. by apply (H3 g' v'), Hin.
Qed.

(** *** The award *)

Definition with_loot (p : Z) (l : Loot) (s : LootState) : LootState := set_loots (<[p := l]>) s.
Definition change_item (f : LootItem -> LootItem) (i : nat) (l : Loot) : Loot :=
  mkLoot (alter f i (items l)) (unlootedCount l) (PlayersLooting l).

Lemma set_loot_items_run p f l s :
  loots s !! p = Some l ->
  set_loot_items p f s = (tt, with_loot p (mkLoot (f (items l)) (unlootedCount l) (PlayersLooting l)) s, []).
Proof. intros Hl. unfold set_loot_items, modify, with_loot, set_loots. by rewrite Hl. Qed.

Lemma with_loot_twice p l l' s : with_loot p l (with_loot p l' s) = with_loot p l s.
Proof. unfold with_loot, set_loots. cbn. by rewrite insert_insert_eq. Qed.

Lemma loots_with_loot p l s : loots (with_loot p l s) !! p = Some l.
Proof. apply lookup_insert_eq. Qed.

Lemma NotifyItemRemoved_run p k l s :
  loots s !! p = Some l ->
  run_state (NotifyItemRemoved w p k) s =
    with_loot p (mkLoot (items l) (unlootedCount l) (filter (fun g => InWorld w g = true) (PlayersLooting l))) s /\
  given (run_log (NotifyItemRemoved w p k) s) = [].
Proof.
  intros Hl. unfold NotifyItemRemoved. rewrite rs_with_state, rl_with_state, Hl.
  rewrite run_state_bind, run_log_bind, rs_modify, rl_modify, app_nil_r. split.
  - f_equal. apply pure_for_each. auto with dc.
  - rewrite run_log_for_each_pure by auto with dc.
    induction (oset_list _) as [|g gs IH]; [done|]. cbn [fmap list_fmap concat]. rewrite given_app, IH.
    by destruct (InWorld w g).
Qed.

(** The loot after its item was taken. *)
Definition looted (i : nat) (l : Loot) : Loot :=
  mkLoot (alter set_looted i (items l)) (u8 (unlootedCount l - 1))
    (filter (fun g => InWorld w g = true) (PlayersLooting l)).

Lemma take_item_run r p i l s :
  loots s !! p = Some l ->
  run_state (take_item w r p i) s = with_loot p (looted i l) s /\ given (run_log (take_item w r p i) s) = [].
Proof.
  intros Hl. unfold take_item.
  rewrite !run_state_bind, !run_log_bind. unfold run_state at 3 4 6, run_log at 1.
  rewrite (set_loot_items_run p _ l s Hl). cbn [fst snd].
  destruct (NotifyItemRemoved_run p (itemSlot r) _ _ (loots_with_loot p
    (mkLoot (alter set_looted i (items l)) (unlootedCount l) (PlayersLooting l)) s)) as [E1 E2].
  rewrite E1, with_loot_twice. unfold dec_unlooted. rewrite rs_modify, rl_modify, !given_app, E2. split; [|done].
  unfold set_loots at 1. rewrite loots_with_loot. unfold with_loot, set_loots. cbn. by rewrite insert_insert_eq.
Qed.
End award_spec.

Section award.
Context (w : RollView) (Hrand : forall g, 1 <= urand w g <= 100).
Context (r : Roll) (p : Z) (l : Loot) (item : LootItem).
Context (Hp : getLoot r = Some p) (Hitem : items l !! Z.to_nat (itemSlot r) = Some item).
#[local] Abbreviation slot := (Z.to_nat (itemSlot r)).

(** What a program does to the loots, and whom it gives the item. *)
Definition gives (l' : Loot) (to : list Z) (m : RM unit) : Prop :=
  forall s, loots s !! p = Some l -> run_state m s = with_loot p l' s /\ given (run_log m s) = to.

Lemma with_loot_same s : loots s !! p = Some l -> with_loot p l s = s.
Proof. intros Hl. unfold with_loot, set_loots. rewrite insert_id by done. by destruct s. Qed.

Lemma gives_after {A} (m : RM A) (k : A -> RM unit) l' to :
  silent m -> (forall a, gives l' to (k a)) -> gives l' to (bind m k).
Proof.
  intros Hm Hk s Hl. rewrite run_state_bind, run_log_bind, given_app. destruct (Hm s) as [E1 E2].
  rewrite E1, E2. by apply Hk.
Qed.

Lemma gives_with_item k l' to :
  (gives l' to (k p slot item)) -> gives l' to (with_item r k).
Proof.
  intros Hk s Hl. unfold with_item. rewrite rs_with_state, rl_with_state, Hp. cbn. rewrite Hl. cbn.
  rewrite Hitem. cbn. by apply Hk.
Qed.

Lemma silent_emit e : given [e] = [] -> silent (emit e).
Proof. intros He s. split; [done | exact He]. Qed.

Lemma gives_unblock (k : RM unit) :
  silent k -> gives (change_item (set_blocked false) slot l) [] (set_loot_items p (alter (set_blocked false) slot) ;; k).
Proof.
  intros Hk s Hl. rewrite run_state_bind, run_log_bind. unfold run_state at 2 3, run_log at 1.
  rewrite (set_loot_items_run p _ l s Hl). cbn [fst snd]. destruct (Hk (with_loot p (change_item (set_blocked false) slot l) s)) as [E1 E2].
  rewrite given_app. split; [exact E1 | exact E2].
Qed.

Lemma gives_take g (k : RM unit) :
  (forall s, run_state k s = s /\ given (run_log k s) = [g]) ->
  gives (looted w slot l) [g] (take_item w r p slot ;; k).
Proof.
  intros Hk s Hl. rewrite run_state_bind, run_log_bind, given_app.
  destruct (take_item_run w r p slot l s Hl) as [-> ->]. apply Hk.
Qed.

Definition fits (g : Z) : bool := CanStoreNewItem w g (itemid r) (li_count item) =? EQUIP_ERR_OK.

Lemma gives_store g :
  gives (if fits g then looted w slot l else change_item (set_blocked false) slot l)
        (if fits g then [g] else []) (store_won_item w r g).
Proof.
  apply gives_with_item. cbv zeta. unfold fits. destruct (_ =? _).
  - apply gives_take. intros s. done.
  - apply gives_unblock. by apply silent_emit.
Qed.

(** The loot and the receiver after the roll was won with a vote [v]. *)
Definition after_win (g : Z) (v : RollVote) : Loot :=
  if InWorld w g then
    if bool_decide (v = DISENCHANT) || fits g then looted w slot l else change_item (set_blocked false) slot l
  else l.
Definition receiver (g : Z) (v : RollVote) : list Z :=
  if InWorld w g && (bool_decide (v = DISENCHANT) || fits g) then [g] else [].

Lemma gives_nothing : gives l [] (ret tt).
Proof. intros s Hl. rewrite with_loot_same by done. done. Qed.

Lemma silent_roll_loop part votes best : silent (roll_loop w r part votes best).
Proof. intros s. destruct (roll_loop_run w r part votes best s) as (_ & E1 & E2). done. Qed.

(** The common end of both awards. *)
Lemma gives_award (m : RM (Z * Z * RollVote)) (k : Z * Z * RollVote -> RM unit) best l' to :
  silent m -> (forall s, run_value m s = best) -> gives l' to (k best) -> gives l' to (bind m k).
Proof.
  intros Hm Hv Hk s Hl. rewrite run_state_bind, run_log_bind, given_app, Hv. destruct (Hm s) as [E1 E2].
  rewrite E1, E2. by apply Hk.
Qed.

Lemma omap_list_first (m : gmap Z RollVote) :
  m = ∅ \/ exists first v rest, omap_list m = (first, v) :: rest.
Proof.
  destruct (omap_list m) as [|[first v] rest] eqn:E; [left; by apply omap_list_nil | right; eauto].
Qed.

Lemma gives_award_need g v :
  top w r is_need g v -> gives (after_win g v) (receiver g v) (award_need w r).
Proof.
  intros Ht. unfold award_need. destruct (omap_list_first (playerVote r)) as [E|(first & v1 & rest & E)].
  { exfalso. destruct Ht as [Hg _]. by rewrite E, lookup_empty in Hg. }
  rewrite E. rewrite <- E.
  destruct (best_of_top w Hrand r is_need first NEED) as (g' & v' & Ht' & Eb); [exists g, v; split; apply Ht|].
  destruct (top_unique _ _ _ _ _ _ _ Ht Ht') as [<- <-].
  eapply gives_award; [apply silent_roll_loop | intros s; rewrite (proj1 (roll_loop_run w r _ _ _ s)); exact Eb |].
  cbn beta iota. apply gives_after; [apply silent_send_voters|]. intros _.
  assert (v = NEED) as -> by (destruct Ht as (_ & Hn & _); by apply bool_decide_eq_true in Hn).
  unfold after_win, receiver. destruct (InWorld w g); cbn [andb when]; [|apply gives_nothing].
  apply gives_after; [by apply silent_emit|]. intros _. apply gives_store.
Qed.

Lemma gives_award_greed g v :
  GetItemPrototype w (itemid r) <> None ->
  top w r is_greed g v -> gives (after_win g v) (receiver g v) (award_greed w r).
Proof.
  intros Hpr Ht.
  unfold award_greed. destruct (omap_list_first (playerVote r)) as [E|(first & v1 & rest & E)].
  { exfalso. destruct Ht as [Hg _]. by rewrite E, lookup_empty in Hg. }
  rewrite E. rewrite <- E.
  destruct (best_of_top w Hrand r is_greed first NOT_VALID) as (g' & v' & Ht' & Eb); [exists g, v; split; apply Ht|].
  destruct (top_unique _ _ _ _ _ _ _ Ht Ht') as [<- <-].
  eapply gives_award; [apply silent_roll_loop | intros s; rewrite (proj1 (roll_loop_run w r _ _ _ s)); exact Eb |].
  cbn beta iota. apply gives_after; [apply silent_send_voters|]. intros _.
  unfold after_win, receiver. destruct (InWorld w g); cbn [andb when]; [|apply gives_nothing].
  apply gives_after; [by apply silent_emit|]. intros _.
  destruct Ht as (_ & Hn & _). destruct v; try discriminate Hn.
  - apply gives_store.
  - apply gives_with_item. apply gives_take. intros s.
    destruct (GetItemPrototype w (itemid r)); [done | by destruct Hpr].
Qed.

(** When none of the votes that were counted is left, the loop keeps what it starts
    with: the first participant.  On need he is given the item; on greed nobody is,
    and the item stays as it is. *)
Lemma best_of_none part votes best :
  (forall g v, (g, v) ∈ votes -> part v = false) -> best_of w part votes best = best.
Proof.
  intros Hno. unfold best_of. assert (E : filter (fun gv : Z * RollVote => part gv.2 = true) votes = []); [|by rewrite E].
  induction votes as [|[g v] votes IH]; [done|]. rewrite filter_cons_False.
  - apply IH. intros g' v' Hin. apply (Hno g'). by right.
  - cbn. rewrite (Hno g v) by left. discriminate.
Qed.
Definition first_voter : option Z := fst <$> head (omap_list (playerVote r)).

Lemma gives_no_need :
  (forall g v, playerVote r !! g = Some v -> is_need v = false) ->
  match first_voter with
  | Some g => gives (after_win g NEED) (receiver g NEED) (award_need w r)
  | None => gives l [] (award_need w r)
  end.
Proof.
  intros Hno. unfold first_voter, award_need. destruct (omap_list (playerVote r)) as [|[first v1] rest] eqn:E; [apply gives_nothing|].
  cbn [fmap option_fmap option_map head fst]. rewrite <- E.
  eapply gives_award; [apply silent_roll_loop | intros s; rewrite (proj1 (roll_loop_run w r _ _ _ s)); apply best_of_none |].
  { intros g v Hin. apply elem_of_omap_list in Hin. by apply (Hno g). }
  cbn beta iota. apply gives_after; [apply silent_send_voters|]. intros _.
  unfold after_win, receiver. destruct (InWorld w first); cbn [andb when]; [|apply gives_nothing].
  apply gives_after; [by apply silent_emit|]. intros _. apply gives_store.
Qed.

Lemma gives_no_greed :
  (forall g v, playerVote r !! g = Some v -> is_greed v = false) -> gives l [] (award_greed w r).
Proof.
  intros Hno. unfold award_greed. destruct (omap_list (playerVote r)) as [|[first v1] rest] eqn:E; [apply gives_nothing|].
  rewrite <- E.
  eapply gives_award; [apply silent_roll_loop | intros s; rewrite (proj1 (roll_loop_run w r _ _ _ s)); apply best_of_none |].
  { intros g v Hin. apply elem_of_omap_list in Hin. by apply (Hno g). }
  cbn beta iota. apply gives_after; [apply silent_send_voters|]. intros _.
  destruct (InWorld w first); cbn [when]; [|apply gives_nothing].
  apply gives_after; [by apply silent_emit|]. intros _. apply gives_with_item, gives_nothing.
Qed.

Lemma gives_all_passed n : gives (change_item (set_blocked false) slot l) [] (all_passed w n r).
Proof.
  apply gives_after; [apply silent_send_voters|]. intros _. apply gives_with_item.
  intros s Hl. unfold run_state, run_log. by rewrite (set_loot_items_run p _ l s Hl).
Qed.

(** A count with the tally of the votes gives the item to the winner, if any. *)
Lemma CountTheRoll_gives i n s l' to m :
  RollId s !! i = Some r -> loots s !! p = Some l ->
  (if 0 <? totalNeed r then award_need w r else if 0 <? totalGreed r then award_greed w r else all_passed w n r) = m ->
  gives l' to m ->
  run_state (CountTheRoll w i n) s = set_rolls (delete i) (with_loot p l' s) /\
  given (run_log (CountTheRoll w i n) s) = to.
Proof.
  intros Hi Hl Em Hm. unfold CountTheRoll. rewrite rs_with_state, rl_with_state, Hi.
  unfold roll_isValid. rewrite Hp, bool_decide_true by eauto. cbn [negb]. rewrite Em.
  rewrite run_state_bind, run_log_bind, given_app. destruct (Hm s Hl) as [-> ->].
  split; [done | by rewrite app_nil_r].
Qed.
End award.

Lemma count_positive P m : 0 < count_votes P m <-> exists g v, m !! g = Some v /\ P v = true.
Proof.
  unfold count_votes. split.
  - intros H. assert (Hne : filter (fun kv : Z * RollVote => P kv.2 = true) m <> ∅).
    { intros E. rewrite E, map_size_empty in H. lia. }
    apply map_choose in Hne as (g & v & Hgv). apply map_lookup_filter_Some in Hgv as [H1 H2]. eauto.
  - intros (g & v & Hg & Hv).
    assert (Hgv : filter (fun kv : Z * RollVote => P kv.2 = true) m !! g = Some v)
      by (apply map_lookup_filter_Some; done).
    destruct (size (filter (fun kv : Z * RollVote => P kv.2 = true) m)) eqn:E; [|lia].
    apply map_size_empty_inv in E. by rewrite E, lookup_empty in Hgv.
Qed.

(** ** Properties *)

(** C23: The counters of every roll agree with the votes in its map, whatever rolls are
    opened, voted on, timed out and left, as long as nobody votes twice on an
    item; and no step reads a roll, an item or a loot that is not there. *)
Theorem rolls_tallied (s : LootState) :
  rolls_reachable s ->
  (forall r, r ∈ RollId s -> tally_ok r) /\
  (forall w op, roll_allowed w op s -> RollUndefined ∉ run_log (run_roll_op w op) s).
Proof.
  intros Hs%rolls_reachable_ok. split.
  - intros r Hr. pose proof (ro_rolls s Hs) as Hf. rewrite Forall_forall in Hf. by apply Hf.
  - intros w op Ha. by apply good_roll_step.
Qed.

(** C18: The end of a roll.  The counters decide whether it is a roll on need, on greed
    and disenchanting, or whether all passed; if nobody has voted twice they do it as
    the votes do, need before greed ([ballot_of]).  The highest number among the votes
    that take part wins; ties go to the smaller GUID.  The winner, and nobody else,
    is given the item if he is online and it fits (a disenchanted item always
    does); if it does not fit the item is unblocked for everybody; if the winner is
    offline the item stays blocked.  If all passed it is unblocked.  If the votes
    that were counted have been changed since, a roll on need is won by the first
    participant, whatever he voted, and a roll on greed by nobody, with the item left
    blocked.  In every case the roll is gone. *)
Theorem roll_award (w : RollView) (s : LootState) (i : nat) (r : Roll) (p : Z) (l : Loot) (item : LootItem) (n : Z) :
  (forall g, 1 <= urand w g <= 100) ->
  RollId s !! i = Some r -> getLoot r = Some p -> loots s !! p = Some l ->
  items l !! Z.to_nat (itemSlot r) = Some item -> GetItemPrototype w (itemid r) <> None ->
  let s' := run_state (CountTheRoll w i n) s in
  let log := run_log (CountTheRoll w i n) s in
  let part := takes_part (ballot r) in
  let ends l' to := loots s' !! p = Some l' /\ given log = to in
  RollId s' = delete i (RollId s) /\
  (tally_ok r -> ballot r = ballot_of (playerVote r)) /\
  (forall g v, top w r part g v -> ends (after_win w r l item g v) (receiver w r item g v)) /\
  ((exists g v, playerVote r !! g = Some v /\ part v = true) -> exists g v, top w r part g v) /\
  ((forall g v, playerVote r !! g = Some v -> part v = false) ->
     match ballot r, first_voter r with
     | AllPassed, _ => ends (change_item (set_blocked false) (Z.to_nat (itemSlot r)) l) []
     | OnNeed, Some g => ends (after_win w r l item g NEED) (receiver w r item g NEED)
     | _, _ => ends l []
     end).
Proof.
  intros Hrand Hi Hp Hl Hitem Hpr. cbv zeta.
  assert (Hends : forall l' to,
    gives p l l' to (match ballot r with OnNeed => award_need w r | OnGreed => award_greed w r | AllPassed => all_passed w n r end) ->
    loots (run_state (CountTheRoll w i n) s) !! p = Some l' /\ given (run_log (CountTheRoll w i n) s) = to).
  { intros l' to Hg. destruct (CountTheRoll_gives w r p l Hp i n s l' to _ Hi Hl eq_refl) as [-> ->];
      [|split; [apply loots_with_loot | done]].
    revert Hg. unfold ballot. by destruct (0 <? totalNeed r), (0 <? totalGreed r). }
  split_and!.
  - destruct (CountTheRoll_counted w i n s r Hi) as [E _ _ _]; [|done|exact E].
    intros _. exists p, (length (items l)). split_and!; [done | | by eapply lookup_lt_Some].
    unfold shape. by rewrite lookup_fmap, Hl.
  - intros Ht. unfold ballot, ballot_of. by rewrite (tally_need r Ht), (tally_greed r Ht).
  - intros g v Hw. apply Hends. revert Hw. destruct (ballot r); cbn [takes_part].
    + by apply gives_award_need.
    + by apply gives_award_greed.
    + by intros (_ & Hn & _).
  - intros Hv. destruct (best_of_top w Hrand r _ 0 NEED Hv) as (g & v & Ht & _). eauto.
  - destruct (ballot r); cbn [takes_part]; intros Hno.
    + pose proof (gives_no_need w r p l item Hp Hitem Hno) as Hg. by destruct (first_voter r); apply Hends.
    + apply Hends. by apply (gives_no_greed w r p l item Hp Hitem).
    + apply Hends. by apply (gives_all_passed w r p l item).
Qed.

(** A member who leaves is taken out of every roll, with his vote; no roll ends by
    it, nothing is sent and nobody is given anything: the vote that [_removeRolls]
    asks to be counted is never found, so a roll stays open although everybody who
    is left has voted. *)
Lemma remove_rolls_spec (w : RollView) (s : LootState) (g members : Z) :
  rolls_reachable s ->
  let s' := run_state (_removeRolls w g members) s in
  RollId s' = forget_vote g <$> RollId s /\ loots s' = loots s /\
  run_log (_removeRolls w g members) s = [] /\
  (forall r, r ∈ RollId s' -> playerVote r !! g = None /\ tally_ok r).
Proof.
  intros Hs%rolls_reachable_ok. cbv zeta. unfold run_state, run_log.
  rewrite removeRolls_run by apply Hs. cbn. split_and!; [done..|].
  intros r (r0 & -> & Hr0)%list_elem_of_fmap. pose proof (ro_rolls s Hs) as Hf. rewrite Forall_forall in Hf.
  split; [|apply (forget_vote_ok _ g r0 (Hf r0 Hr0))].
  unfold forget_vote. destruct (playerVote r0 !! g) eqn:E; [apply lookup_delete_eq | done].
Qed.

(** When the timer of a loot runs out, the loop over the rolls ends, every roll
    for the loot has been decided and taken off the list, and the others are left
    as they were, in their order. *)
Lemma end_roll_spec (w : RollView) (s : LootState) (p members : Z) :
  rolls_reachable s -> protos_known w s ->
  run_value (EndRoll w p members) s = true /\
  RollId (run_state (EndRoll w p members) s) = filter (fun r => getLoot r <> Some p) (RollId s) /\
  RollUndefined ∉ run_log (EndRoll w p members) s.
Proof. intros Hs%rolls_reachable_ok Hpr. destruct (EndRoll_run w p members s Hs Hpr) as (? & ? & _ & _ & ?). done. Qed.

(** *** Repeated votes *)

Lemma delete_insert_same {A} (l : list A) i x : delete i (<[i := x]> l) = delete i l.
Proof. revert i. induction l as [|y l IH]; intros [|i]; cbn; [done..|]. by f_equal. Qed.

Section spam.
Context (w : RollView) (Hrand : forall g, 1 <= urand w g <= 100).
Context (s : LootState) (i : nat) (r : Roll) (p : Z) (l : Loot) (item : LootItem) (g Guid n : Z).
Context (Hi : GetRoll Guid s = Some i) (Hr : RollId s !! i = Some r).
Context (Hp : getLoot r = Some p) (Hl : loots s !! p = Some l) (Hitem : items l !! Z.to_nat (itemSlot r) = Some item).
Context (Hfresh : map_Forall (fun _ v => v = NOT_EMITED_YET) (playerVote r)) (Hg : is_Some (playerVote r !! g)).
Context (Htot : 0 < totalPlayersRolling r <= 40).
Context (Hzero : totalNeed r = 0 /\ totalGreed r = 0 /\ totalPass r = 0).

(** The roll after [j] votes of need by the same player. *)
Definition spammed (j : nat) : Roll :=
  match j with
  | O => r
  | _ => set_votes (<[g := NEED]> (playerVote r)) (totalPlayersRolling r) (Z.of_nat j) 0 0 r
  end.
Definition spam_state (j : nat) : LootState := set_rolls (<[i := spammed j]>) s.

Lemma spammed_keeps j :
  getLoot (spammed j) = Some p /\ itemSlot (spammed j) = itemSlot r /\ itemGUID (spammed j) = itemGUID r /\
  itemid (spammed j) = itemid r /\ totalPlayersRolling (spammed j) = totalPlayersRolling r /\
  totalNeed (spammed j) = Z.of_nat j /\ totalGreed (spammed j) = 0 /\ totalPass (spammed j) = 0 /\
  is_Some (playerVote (spammed j) !! g).
Proof. destruct Hzero as (? & ? & ?). destruct j; cbn; split_and!; try done. rewrite lookup_insert_eq. eauto. Qed.

Lemma spam_lookup j : RollId (spam_state j) !! i = Some (spammed j).
Proof. apply list_lookup_insert_eq. by eapply lookup_lt_Some. Qed.

Lemma spam_GetRoll j : GetRoll Guid (spam_state j) = Some i.
Proof.
  unfold GetRoll in *. destruct (list_find _ (RollId s)) as [[i' r']|] eqn:E; [|done]. injection Hi as ->.
  apply list_find_Some in E as (Hr' & HP & Hmin). rewrite Hr in Hr'. injection Hr' as <-.
  rewrite (proj2 (list_find_Some _ _ i (spammed j))); [done|]. split_and!; [apply spam_lookup | |].
  - destruct (spammed_keeps j) as (E1 & _ & E3 & _). unfold roll_for, roll_isValid in *. by rewrite E3, E1, <- Hp.
  - intros k y Hk Hlt. cbn in Hk. rewrite list_lookup_insert_ne in Hk by lia. by apply (Hmin k y).
Qed.

Lemma spam_cast j : (j < 255)%nat -> cast_vote g ROLL_NEED (spammed j) = spammed (S j).
Proof.
  intros Hj. unfold cast_vote. cbn [Z.eqb ROLL_NEED ROLL_PASS]. destruct (spammed_keeps j) as (_ & _ & _ & _ & E5 & E6 & E7 & E8 & _).
  change (ROLL_NEED =? ROLL_PASS) with false. change (ROLL_NEED =? ROLL_NEED) with true. cbn iota.
  rewrite E5, E6, E7, E8, !Z.add_0_r. rewrite !u8_small by lia. destruct j; cbn; unfold set_votes; cbn.
  - done.
  - rewrite insert_insert_eq. f_equal. lia.
Qed.

Lemma spam_vote j :
  voted w g Guid ROLL_NEED n i (spammed j) (spam_state j).
Proof.
  destruct (spammed_keeps j) as (E1 & E2 & _ & _ & _ & _ & _ & _ & E9).
  apply CountRollVote_voted; [apply spam_GetRoll | apply spam_lookup | done |].
  unfold loot_items_empty. rewrite E1. cbn. rewrite Hl. apply bool_decide_eq_false. intros E.
  by rewrite E in Hitem.
Qed.

Lemma spam_again j : set_rolls (<[i := spammed (S j)]>) (spam_state j) = spam_state (S j).
Proof. unfold spam_state, set_rolls. cbn. by rewrite list_insert_insert_eq. Qed.

Definition need_votes (k : nat) : RM unit := for_each (seq 0 k) (fun _ => CountRollVote w g Guid n ROLL_NEED).

Lemma need_votes_open j k :
  (Z.of_nat (j + k) < totalPlayersRolling r) ->
  forall a, run_state (for_each (seq a k) (fun _ => CountRollVote w g Guid n ROLL_NEED)) (spam_state j) = spam_state (j + k) /\
  given (run_log (for_each (seq a k) (fun _ => CountRollVote w g Guid n ROLL_NEED)) (spam_state j)) = [].
Proof.
  revert j. induction k as [|k IH]; intros j Hlt a; [by rewrite Nat.add_0_r|].
  cbn [seq for_each]. rewrite run_state_bind, run_log_bind, given_app.
  destruct (spam_vote j) as [Vo _]. rewrite spam_cast in Vo by lia.
  assert (Ha : all_voted (spammed (S j)) = false).
  { destruct (spammed_keeps (S j)) as (_ & _ & _ & _ & E5 & E6 & E7 & E8 & _). unfold all_voted.
    rewrite E5, E6, E7, E8. apply Z.leb_gt. lia. }
  destruct (Vo Ha) as (E & _ & El). rewrite E, El, spam_again. destruct (IH (S j) ltac:(lia) (S a)) as [-> ->].
  by rewrite Nat.add_succ_r.
Qed.

Lemma spam_wins j : wins w (spammed (S j)) g NEED.
Proof.
  assert (Hv : playerVote (spammed (S j)) = <[g := NEED]> (playerVote r)) by done.
  unfold wins. rewrite (proj2 (Z.ltb_lt _ _)).
  - split_and!; [rewrite Hv; apply lookup_insert_eq | done |].
    intros g' v' Hg' Hn. right. assert (g' = g) as ->; [|split; [done | reflexivity]].
    rewrite Hv in Hg'. destruct (decide (g' = g)); [done|]. rewrite lookup_insert_ne in Hg' by done.
    rewrite (Hfresh g' v' Hg') in Hn. discriminate Hn.
  - apply count_positive. exists g, NEED. split; [rewrite Hv; apply lookup_insert_eq | done].
Qed.

Lemma spam_end k :
  Z.of_nat (S k) = totalPlayersRolling r ->
  RollId (run_state (need_votes (S k)) s) = delete i (RollId s) /\
  given (run_log (need_votes (S k)) s) = receiver w r item g NEED.
Proof.
  intros Hk. unfold need_votes.
  assert (E0 : spam_state 0 = s). { unfold spam_state, set_rolls. cbn. rewrite list_insert_id by done. by destruct s. }
  rewrite seq_S, Nat.add_0_l. rewrite <- E0 at 1 3.
  assert (Hsplit : forall (f : nat -> RM unit) l1 x s0, run_state (for_each (l1 ++ [x]) f) s0 = run_state (f x) (run_state (for_each l1 f) s0) /\
    run_log (for_each (l1 ++ [x]) f) s0 = run_log (for_each l1 f) s0 ++ run_log (f x) (run_state (for_each l1 f) s0)).
  { intros f l1 x. induction l1 as [|y l1 IH]; intros s0; cbn [app for_each].
    - rewrite run_state_bind, run_log_bind, rs_ret, rl_ret, app_nil_r. done.
    - rewrite !run_state_bind, !run_log_bind. destruct (IH (run_state (f y) s0)) as [-> ->]. by rewrite app_assoc. }
  destruct (Hsplit (fun _ => CountRollVote w g Guid n ROLL_NEED) (seq 0 k) k (spam_state 0)) as [-> ->].
  destruct (need_votes_open 0 k ltac:(lia) 0) as [E1 E2]. rewrite E1, given_app, E2, Nat.add_0_l.
  destruct (spam_vote k) as [_ Vl]. rewrite spam_cast in Vl by lia.
  assert (Ha : all_voted (spammed (S k)) = true).
  { destruct (spammed_keeps (S k)) as (_ & _ & _ & _ & E5 & E6 & E7 & E8 & _). unfold all_voted.
    rewrite E5, E6, E7, E8. apply Z.leb_le. lia. }
  destruct (Vl Ha) as (Es & log & _ & Elog & El). rewrite Es, El, spam_again, given_app, Elog.
  destruct (spammed_keeps (S k)) as (K1 & K2 & _ & K4 & _ & K6 & _).
  destruct (CountTheRoll_gives w (spammed (S k)) p l K1 i n (spam_state (S k)) (after_win w (spammed (S k)) l item g NEED)
    (receiver w (spammed (S k)) item g NEED) _ (spam_lookup (S k)) Hl eq_refl) as [-> ->].
  - apply gives_award_need; [done | done | by rewrite K2 |].
    pose proof (spam_wins k) as Hw. unfold wins in Hw. rewrite (proj2 (Z.ltb_lt _ _)) in Hw; [done|].
    apply count_positive. exists g, NEED. split; [apply lookup_insert_eq | done].
  - cbn [app]. split; [|done]. cbn. apply delete_insert_same.
Qed.
End spam.

(** One vote per player is not enforced.  In a fresh roll with [n] participants,
    one of them who sends "need" [n] times ends the roll at once and is given the
    item, if he is online and it fits, whatever the others would have voted. *)
Lemma need_spam_wins (w : RollView) (s : LootState) (i : nat) (r : Roll) (p : Z) (l : Loot) (item : LootItem)
    (g Guid n : Z) (k : nat) :
  (forall g, 1 <= urand w g <= 100) ->
  GetRoll Guid s = Some i -> RollId s !! i = Some r -> getLoot r = Some p -> loots s !! p = Some l ->
  items l !! Z.to_nat (itemSlot r) = Some item ->
  map_Forall (fun _ v => v = NOT_EMITED_YET) (playerVote r) -> is_Some (playerVote r !! g) -> tally_ok r ->
  Z.of_nat k = totalPlayersRolling r ->
  RollId (run_state (need_votes w g Guid n k) s) = delete i (RollId s) /\
  given (run_log (need_votes w g Guid n k) s) = if InWorld w g && fits w r item g then [g] else [].
Proof.
  intros Hrand Hi Hr Hp Hl Hitem Hfresh Hg Ht Hk.
  assert (Hz : forall P, P NOT_EMITED_YET = false -> count_votes P (playerVote r) = 0).
  { intros P HP. destruct (Z.le_gt_cases (count_votes P (playerVote r)) 0) as [|Hgt].
    - pose proof (count_bounds P (playerVote r)). lia.
    - apply count_positive in Hgt as (g' & v & Hg' & Hv). rewrite (Hfresh g' v Hg') in Hv. congruence. }
  assert (Hsz : (0 < size (playerVote r))%nat).
  { destruct (size (playerVote r)) eqn:E; [|lia]. apply map_size_empty_inv in E. destruct Hg as [v Hv].
    by rewrite E, lookup_empty in Hv. }
  pose proof (tally_rolling r Ht) as Hroll. pose proof (tally_size r Ht). destruct k as [|k]; [lia|].
  destruct (spam_end w Hrand s i r p l item g Guid n Hi Hr Hp Hl Hitem Hfresh Hg ltac:(lia)) with (k := k) as [E1 E2].
  - by rewrite (tally_need r Ht), (tally_greed r Ht), (tally_pass r Ht), !Hz.
  - exact Hk.
  - split; [exact E1|]. rewrite E2. unfold receiver. by rewrite bool_decide_false by done.
Qed.

(** ** Witnesses

    A creature with one item of quality 3, two members near it, a threshold of 2. *)

Definition ex_item : LootItem := mkLootItem 100 0 0 ∅ 1 false false false false.
Definition ex_rolls : RollView := {|
  InWorld := fun _ => true;
  HasSession := fun _ => true;
  GetItemPrototype := fun _ => Some (mkProto 3 0 0 0);
  urand := fun g => 1 + g mod 100;
  CanStoreNewItem := fun _ _ _ => EQUIP_ERR_OK;
  AllowedForPlayer := fun _ _ => true;
  CanUseItem := fun _ _ => true;
  IsWithinDist := fun _ => true;
  GetPassOnGroupLoot := fun _ => false;
  looted_kind := LootedCreature;
  looted_map := 0
|}.
Definition ex_fill : roll_op := OpFill 1 [ex_item] 1 ∅.
Definition ex_open_rolls : roll_op := OpGroupLoot 2 0 [20; 10] 1.
Definition ex_guid : Z := MAKE_NEW_GUID 7 0 HIGHGUID_ITEM.
Definition ex_need : roll_op := OpVote 10 ex_guid 2 ROLL_NEED.

Definition ex_opened : LootState :=
  run_state (run_roll_op ex_rolls ex_open_rolls) (run_state (run_roll_op ex_rolls ex_fill) (mkLootState [] ∅ 7)).
Definition ex_voted : LootState := run_state (run_roll_op ex_rolls ex_need) ex_opened.
Definition ex_roll (s : LootState) : Roll := default (new_Roll 0 ex_item) (RollId s !! 0%nat).

Lemma ex_rand g : 1 <= urand ex_rolls g <= 100.
Proof. cbn. pose proof (Z.mod_pos_bound g 100). lia. Qed.
Lemma ex_protos s : protos_known ex_rolls s.
Proof. intros r _. unfold proto_ok. cbn. discriminate. Qed.

Lemma ex_opened_reachable : rolls_reachable ex_opened.
Proof.
  apply (rolls_step ex_rolls ex_open_rolls); [apply (rolls_step ex_rolls ex_fill); [apply rolls_init|] |].
  - split; [|cbn; lia]. intros l. cbn. by rewrite lookup_empty.
  - split_and!; [apply (bool_decide_eq_true_1 (NoDup [20; 10])); vm_compute; reflexivity | cbn; lia | vm_compute; discriminate | vm_compute; reflexivity | vm_compute; eauto].
Qed.

Lemma ex_need_allowed : roll_allowed ex_rolls ex_need ex_opened.
Proof.
  split; [apply ex_protos|]. intros i r v (r' & Hr & _ & _)%GetRoll_spec Hi Hv.
  rewrite Hi in Hr. injection Hr as <-. destruct i as [|[|i]]; [| discriminate Hi..].
  injection Hi as <-. vm_compute in Hv. by injection Hv as <-.
Qed.

Lemma ex_voted_reachable : rolls_reachable ex_voted.
Proof. apply (rolls_step ex_rolls ex_need); [apply ex_opened_reachable | apply ex_need_allowed]. Qed.

Lemma ex_voted_tally : tally_ok (ex_roll ex_voted).
Proof.
  pose proof (ro_rolls _ (rolls_reachable_ok _ ex_voted_reachable)) as H. rewrite Forall_forall in H.
  apply (H (ex_roll ex_voted)). apply (list_elem_of_lookup_2 _ 0%nat). reflexivity.
Qed.
Lemma ex_opened_tally : tally_ok (ex_roll ex_opened).
Proof.
  pose proof (ro_rolls _ (rolls_reachable_ok _ ex_opened_reachable)) as H. rewrite Forall_forall in H.
  apply (H (ex_roll ex_opened)). apply (list_elem_of_lookup_2 _ 0%nat). reflexivity.
Qed.

Lemma rolls_tallied_witness :
  length (RollId ex_voted) = 1%nat /\ (forall r, r ∈ RollId ex_voted -> tally_ok r) /\
  RollUndefined ∉ run_log (run_roll_op ex_rolls (OpEndRoll 1 2)) ex_voted.
Proof.
  split; [vm_compute; reflexivity|].
  split; [apply (rolls_tallied ex_voted), ex_voted_reachable|].
  apply (rolls_tallied ex_voted ex_voted_reachable). apply ex_protos.
Defined.

(** Player 10 voted need, player 20 has not voted: the timer gives 10 the item. *)
Lemma roll_award_witness :
  given (run_log (CountTheRoll ex_rolls 0 2) ex_voted) = [10].
Proof.
  destruct (roll_award ex_rolls ex_voted 0 (ex_roll ex_voted) 1 (default (mkLoot [] 0 ∅) (loots ex_voted !! 1))
    (set_blocked true ex_item) 2 ex_rand) as (_ & Hb & Hw & _ & _).
  - vm_compute. reflexivity.
  - vm_compute. reflexivity.
  - vm_compute. reflexivity.
  - vm_compute. reflexivity.
  - cbn. discriminate.
  - specialize (Hb ex_voted_tally). destruct (Hw 10 NEED) as [_ E]; [|exact E]. rewrite Hb.
    replace (ballot_of (playerVote (ex_roll ex_voted))) with OnNeed by (vm_compute; reflexivity).
    split_and!; [vm_compute; reflexivity | reflexivity |]. intros g v Hg Hv. right.
    assert (g = 10) as ->; [|split; reflexivity].
    assert (Hm : playerVote (ex_roll ex_voted) = <[10 := NEED]> (<[20 := NOT_EMITED_YET]> ∅)) by (vm_compute; reflexivity).
    rewrite Hm in Hg. destruct (decide (g = 10)); [done|]. rewrite lookup_insert_ne in Hg by done.
    destruct (decide (g = 20)) as [->|]; [rewrite lookup_insert_eq in Hg; injection Hg as <-; discriminate Hv|].
    by rewrite lookup_insert_ne, lookup_empty in Hg by done.
Defined.

(** Player 20 leaves: everybody who is left has voted, the roll stays. *)
Lemma remove_rolls_spec_witness :
  let s' := run_state (_removeRolls ex_rolls 20 2) ex_voted in
  all_voted (ex_roll s') = true /\ length (RollId s') = 1%nat /\ run_log (_removeRolls ex_rolls 20 2) ex_voted = [].
Proof.
  cbv zeta. destruct (remove_rolls_spec ex_rolls ex_voted 20 2 ex_voted_reachable) as (E & _ & El & _).
  unfold ex_roll. rewrite E. split_and!; [vm_compute; reflexivity.. | exact El].
Defined.

Lemma end_roll_spec_witness :
  RollId (run_state (EndRoll ex_rolls 1 2) ex_voted) = [].
Proof.
  destruct (end_roll_spec ex_rolls ex_voted 1 2 ex_voted_reachable (ex_protos _)) as (_ & E & _).
  rewrite E. vm_compute. reflexivity.
Defined.

(** Player 10 votes need twice, player 20 is never asked. *)
Lemma need_spam_wins_witness :
  RollId (run_state (need_votes ex_rolls 10 ex_guid 2 2) ex_opened) = [] /\
  given (run_log (need_votes ex_rolls 10 ex_guid 2 2) ex_opened) = [10].
Proof.
  destruct (need_spam_wins ex_rolls ex_opened 0 (ex_roll ex_opened) 1 (default (mkLoot [] 0 ∅) (loots ex_opened !! 1))
    (set_blocked true ex_item) 10 ex_guid 2 2 ex_rand) as [E1 E2].
  - vm_compute. reflexivity.
  - vm_compute. reflexivity.
  - vm_compute. reflexivity.
  - vm_compute. reflexivity.
  - vm_compute. reflexivity.
  - assert (Hm : playerVote (ex_roll ex_opened) = <[10 := NOT_EMITED_YET]> (<[20 := NOT_EMITED_YET]> ∅)) by (vm_compute; reflexivity).
    rewrite Hm. repeat apply map_Forall_insert_2; done || apply map_Forall_empty.
  - vm_compute. eauto.
  - apply ex_opened_tally.
  - vm_compute. reflexivity.
  - rewrite E1, E2. split; vm_compute; reflexivity.
Defined.

(** A player who votes need and then passes has the item given to the participant
    with the smallest GUID, who has not voted at all. *)
Example need_then_pass :
  given (run_log (CountRollVote ex_rolls 20 ex_guid 2 ROLL_NEED ;; CountRollVote ex_rolls 20 ex_guid 2 ROLL_PASS) ex_opened) = [10].
Proof. vm_compute. reflexivity. Qed.
