(* ===== verification/Group.v ===== *)
(** * Groups and raids

    [Group] of src/src/server/game/Groups/Group.cpp: the roster, the invitations,
    the subgroups of a raid, the leader, the flags, the target icons and the
    looter, with the links between groups and players (GroupReference.cpp,
    shared/Dynamic/LinkedReference).

    The state is a store: [groups] by address, [players] by GUID.  A [Player] that
    logs out and in again is a new object, so a [Player*] that is kept is the GUID
    with the number of the login ([p_serial]); following one that is gone, or a
    [Group*] that was deleted, is the event [UseAfterFree].  A player of the store
    has a session; [sObjectMgr->GetPlayer] finds him while he is in the world.
    The loot rolls of a group are the component [Rolls], run on the group's rolls
    and the loots of the server; the rows of the table group_member follow the
    statements at once.  The saved binds of instances and what the calls change
    elsewhere in a player are events. *)
From S2P Require Import Prelude ByteBuffer Rolls.

(** ** Data *)

Record MemberSlot := mkSlot {
  ms_guid : Z;
  ms_name : list Z;
  ms_group : Z;
  ms_flags : Z;
  ms_roles : Z
}.
Definition set_ms_group (v : Z) (m : MemberSlot) : MemberSlot :=
  mkSlot (ms_guid m) (ms_name m) v (ms_flags m) (ms_roles m).
Definition set_ms_flags (f : Z -> Z) (m : MemberSlot) : MemberSlot :=
  mkSlot (ms_guid m) (ms_name m) (ms_group m) (f (ms_flags m)) (ms_roles m).
Definition set_ms_roles (v : Z) (m : MemberSlot) : MemberSlot :=
  mkSlot (ms_guid m) (ms_name m) (ms_group m) (ms_flags m) v.

Definition MAXGROUPSIZE : Z := 5.
Definition MAXRAIDSIZE : Z := 40.
Definition MAX_RAID_SUBGROUPS : nat := 8.
Definition TARGETICONCOUNT : nat := 8.
Definition MEMBER_FLAG_ASSISTANT : Z := 0x01.
Definition MEMBER_FLAG_MAINTANK : Z := 0x02.
Definition MEMBER_FLAG_MAINASSIST : Z := 0x04.
Definition MEMBER_STATUS_OFFLINE : Z := 0x0000.
Definition MEMBER_STATUS_ONLINE : Z := 0x0001.
Definition MEMBER_STATUS_PVP : Z := 0x0002.
Definition GROUPTYPE_NORMAL : Z := 0x00.
Definition GROUPTYPE_RAID : Z := 0x02.
Definition GROUPTYPE_BGRAID : Z := 0x03.
Definition GROUPTYPE_UNK1 : Z := 0x04.
Definition GROUPTYPE_LFG : Z := 0x08.
Definition GROUP_UPDATE_FULL : Z := 0x0007FFFF.
Definition FREE_FOR_ALL : Z := 0.
Definition MASTER_LOOT : Z := 2.
Definition GROUP_LOOT : Z := 3.
Definition NEED_BEFORE_GREED : Z := 4.
Definition ITEM_QUALITY_UNCOMMON : Z := 2.
Definition LEVELREQUIREMENT_HEROIC : Z := 70.
Definition LFG_STATE_BOOT : Z := 4.
Definition LFG_STATE_FINISHED_DUNGEON : Z := 6.
Definition HIGHGUID_GROUP : Z := 0x1F50.

Inductive RemoveMethod := GROUP_REMOVEMETHOD_DEFAULT | GROUP_REMOVEMETHOD_KICK | GROUP_REMOVEMETHOD_LEAVE.
#[export] Instance RemoveMethod_eq_dec : EqDecision RemoveMethod.
Proof. solve_decision. Defined.

Definition SMSG_GROUP_INVITE : Z := 0x0A8A8.
Definition SMSG_GROUP_DECLINE : Z := 0x0ABAC.
Definition SMSG_GROUP_UNINVITE : Z := 0x03ACC.
Definition SMSG_GROUP_SET_LEADER : Z := 0x0E88C.
Definition SMSG_GROUP_DESTROYED : Z := 0x022CC.
Definition SMSG_GROUP_LIST : Z := 0x06D8C.
Definition SMSG_PARTY_COMMAND_RESULT : Z := 0x026E0.
Definition MSG_MINIMAP_PING : Z := 0x0C475.
Definition MSG_RANDOM_ROLL : Z := 0x0B7A4.
Definition MSG_RAID_TARGET_UPDATE : Z := 0x0A5AC.
Definition MSG_RAID_READY_CHECK : Z := 0x0FDC0.
Definition MSG_RAID_READY_CHECK_CONFIRM : Z := 0x0A2AC.

(** [m_memberMgr] holds the linked references, newest first: the player, and
    whether the reference is his [m_originalGroup] or his [m_group]. *)
Record Group := mkGroup {
  m_memberSlots : list MemberSlot;
  m_memberMgr : list (Z * bool);
  m_invitees : gset (Z * Z);
  m_leaderGuid : Z;
  m_leaderName : list Z;
  m_groupType : Z;
  m_dungeonDifficulty : Z;
  m_raidDifficulty : Z;
  m_bgGroup : option Z;
  m_targetIcons : list Z;
  m_lootMethod : Z;
  m_looterGuid : Z;
  m_lootThreshold : Z;
  g_rolls : list Roll;
  m_subGroupsCounts : option (list Z);
  m_guid : Z;
  m_counter : Z;
  m_maxEnchantingLevel : Z
}.

Definition set_memberSlots (v : list MemberSlot) (x : Group) : Group :=
  mkGroup v (m_memberMgr x) (m_invitees x) (m_leaderGuid x) (m_leaderName x) (m_groupType x)
    (m_dungeonDifficulty x) (m_raidDifficulty x) (m_bgGroup x) (m_targetIcons x)
    (m_lootMethod x) (m_looterGuid x) (m_lootThreshold x) (g_rolls x) (m_subGroupsCounts x)
    (m_guid x) (m_counter x) (m_maxEnchantingLevel x).
Definition set_memberMgr (v : list (Z * bool)) (x : Group) : Group :=
  mkGroup (m_memberSlots x) v (m_invitees x) (m_leaderGuid x) (m_leaderName x) (m_groupType x)
    (m_dungeonDifficulty x) (m_raidDifficulty x) (m_bgGroup x) (m_targetIcons x)
    (m_lootMethod x) (m_looterGuid x) (m_lootThreshold x) (g_rolls x) (m_subGroupsCounts x)
    (m_guid x) (m_counter x) (m_maxEnchantingLevel x).
Definition set_invitees (v : gset (Z * Z)) (x : Group) : Group :=
  mkGroup (m_memberSlots x) (m_memberMgr x) v (m_leaderGuid x) (m_leaderName x) (m_groupType x)
    (m_dungeonDifficulty x) (m_raidDifficulty x) (m_bgGroup x) (m_targetIcons x)
    (m_lootMethod x) (m_looterGuid x) (m_lootThreshold x) (g_rolls x) (m_subGroupsCounts x)
    (m_guid x) (m_counter x) (m_maxEnchantingLevel x).
Definition set_groupType (v : Z) (x : Group) : Group :=
  mkGroup (m_memberSlots x) (m_memberMgr x) (m_invitees x) (m_leaderGuid x) (m_leaderName x) v
    (m_dungeonDifficulty x) (m_raidDifficulty x) (m_bgGroup x) (m_targetIcons x)
    (m_lootMethod x) (m_looterGuid x) (m_lootThreshold x) (g_rolls x) (m_subGroupsCounts x)
    (m_guid x) (m_counter x) (m_maxEnchantingLevel x).
Definition set_bgGroup (v : option Z) (x : Group) : Group :=
  mkGroup (m_memberSlots x) (m_memberMgr x) (m_invitees x) (m_leaderGuid x) (m_leaderName x)
    (m_groupType x) (m_dungeonDifficulty x) (m_raidDifficulty x) v (m_targetIcons x)
    (m_lootMethod x) (m_looterGuid x) (m_lootThreshold x) (g_rolls x) (m_subGroupsCounts x)
    (m_guid x) (m_counter x) (m_maxEnchantingLevel x).
Definition set_targetIcons (v : list Z) (x : Group) : Group :=
  mkGroup (m_memberSlots x) (m_memberMgr x) (m_invitees x) (m_leaderGuid x) (m_leaderName x)
    (m_groupType x) (m_dungeonDifficulty x) (m_raidDifficulty x) (m_bgGroup x) v
    (m_lootMethod x) (m_looterGuid x) (m_lootThreshold x) (g_rolls x) (m_subGroupsCounts x)
    (m_guid x) (m_counter x) (m_maxEnchantingLevel x).
Definition set_g_rolls (v : list Roll) (x : Group) : Group :=
  mkGroup (m_memberSlots x) (m_memberMgr x) (m_invitees x) (m_leaderGuid x) (m_leaderName x)
    (m_groupType x) (m_dungeonDifficulty x) (m_raidDifficulty x) (m_bgGroup x)
    (m_targetIcons x) (m_lootMethod x) (m_looterGuid x) (m_lootThreshold x) v
    (m_subGroupsCounts x) (m_guid x) (m_counter x) (m_maxEnchantingLevel x).
Definition set_subGroupsCounts (v : option (list Z)) (x : Group) : Group :=
  mkGroup (m_memberSlots x) (m_memberMgr x) (m_invitees x) (m_leaderGuid x) (m_leaderName x)
    (m_groupType x) (m_dungeonDifficulty x) (m_raidDifficulty x) (m_bgGroup x)
    (m_targetIcons x) (m_lootMethod x) (m_looterGuid x) (m_lootThreshold x) (g_rolls x) v
    (m_guid x) (m_counter x) (m_maxEnchantingLevel x).
Definition set_guid (v : Z) (x : Group) : Group :=
  mkGroup (m_memberSlots x) (m_memberMgr x) (m_invitees x) (m_leaderGuid x) (m_leaderName x)
    (m_groupType x) (m_dungeonDifficulty x) (m_raidDifficulty x) (m_bgGroup x)
    (m_targetIcons x) (m_lootMethod x) (m_looterGuid x) (m_lootThreshold x) (g_rolls x)
    (m_subGroupsCounts x) v (m_counter x) (m_maxEnchantingLevel x).
Definition set_counter (v : Z) (x : Group) : Group :=
  mkGroup (m_memberSlots x) (m_memberMgr x) (m_invitees x) (m_leaderGuid x) (m_leaderName x)
    (m_groupType x) (m_dungeonDifficulty x) (m_raidDifficulty x) (m_bgGroup x)
    (m_targetIcons x) (m_lootMethod x) (m_looterGuid x) (m_lootThreshold x) (g_rolls x)
    (m_subGroupsCounts x) (m_guid x) v (m_maxEnchantingLevel x).
Definition set_maxEnchanting (v : Z) (x : Group) : Group :=
  mkGroup (m_memberSlots x) (m_memberMgr x) (m_invitees x) (m_leaderGuid x) (m_leaderName x)
    (m_groupType x) (m_dungeonDifficulty x) (m_raidDifficulty x) (m_bgGroup x)
    (m_targetIcons x) (m_lootMethod x) (m_looterGuid x) (m_lootThreshold x) (g_rolls x)
    (m_subGroupsCounts x) (m_guid x) (m_counter x) v.
Definition set_leader (guid : Z) (name : list Z) (x : Group) : Group :=
  mkGroup (m_memberSlots x) (m_memberMgr x) (m_invitees x) guid name (m_groupType x)
    (m_dungeonDifficulty x) (m_raidDifficulty x) (m_bgGroup x) (m_targetIcons x)
    (m_lootMethod x) (m_looterGuid x) (m_lootThreshold x) (g_rolls x) (m_subGroupsCounts x)
    (m_guid x) (m_counter x) (m_maxEnchantingLevel x).
Definition set_difficulties (d r : Z) (x : Group) : Group :=
  mkGroup (m_memberSlots x) (m_memberMgr x) (m_invitees x) (m_leaderGuid x) (m_leaderName x)
    (m_groupType x) d r (m_bgGroup x) (m_targetIcons x) (m_lootMethod x) (m_looterGuid x)
    (m_lootThreshold x) (g_rolls x) (m_subGroupsCounts x) (m_guid x) (m_counter x)
    (m_maxEnchantingLevel x).
Definition set_looting (method looter threshold : Z) (x : Group) : Group :=
  mkGroup (m_memberSlots x) (m_memberMgr x) (m_invitees x) (m_leaderGuid x) (m_leaderName x)
    (m_groupType x) (m_dungeonDifficulty x) (m_raidDifficulty x) (m_bgGroup x)
    (m_targetIcons x) method looter threshold (g_rolls x) (m_subGroupsCounts x) (m_guid x)
    (m_counter x) (m_maxEnchantingLevel x).

(** The constructor. *)
Definition new_Group : Group :=
  mkGroup [] [] ∅ 0 [] GROUPTYPE_NORMAL 0 0 None (replicate TARGETICONCOUNT 0)
    FREE_FOR_ALL 0 ITEM_QUALITY_UNCOMMON [] None 0 0 0.

Record GroupReference := mkRef { iRefTo : option Z; iSubGroup : Z }.

Record Player := mkPlayer {
  p_serial : Z;
  p_name : list Z;
  p_inWorld : bool;
  p_group : GroupReference;
  p_originalGroup : GroupReference;
  p_groupInvite : option Z
}.
Definition set_inWorld (b : bool) (p : Player) : Player :=
  mkPlayer (p_serial p) (p_name p) b (p_group p) (p_originalGroup p) (p_groupInvite p).
Definition set_groupInvite (g : option Z) (p : Player) : Player :=
  mkPlayer (p_serial p) (p_name p) (p_inWorld p) (p_group p) (p_originalGroup p) g.
(** [m_group] or [m_originalGroup]. *)
Definition the_ref (original : bool) (p : Player) : GroupReference :=
  if original then p_originalGroup p else p_group p.
Definition set_ref (original : bool) (r : GroupReference) (p : Player) : Player :=
  if original then mkPlayer (p_serial p) (p_name p) (p_inWorld p) (p_group p) r (p_groupInvite p)
  else mkPlayer (p_serial p) (p_name p) (p_inWorld p) r (p_originalGroup p) (p_groupInvite p).
Definition GetGroup (p : Player) : option Z := iRefTo (p_group p).
Definition GetOriginalGroup (p : Player) : option Z := iRefTo (p_originalGroup p).
Definition GetSubGroup (p : Player) : Z := iSubGroup (p_group p).
Definition GetOriginalSubGroup (p : Player) : Z := iSubGroup (p_originalGroup p).

Record World := mkWorld {
  groups : gmap Z Group;
  players : gmap Z Player;
  mGroupSet : gset Z;
  m_BgRaids : gmap (Z * bool) Z;
  group_member : gmap Z Z;
  next_group : Z;
  m_hiGroupGuid : Z;
  next_serial : Z;
  all_loots : gmap Z Loot;
  hi_item : Z
}.
Definition on_groups (f : gmap Z Group -> gmap Z Group) (s : World) : World :=
  mkWorld (f (groups s)) (players s) (mGroupSet s) (m_BgRaids s) (group_member s) (next_group s)
    (m_hiGroupGuid s) (next_serial s) (all_loots s) (hi_item s).
Definition on_players (f : gmap Z Player -> gmap Z Player) (s : World) : World :=
  mkWorld (groups s) (f (players s)) (mGroupSet s) (m_BgRaids s) (group_member s) (next_group s)
    (m_hiGroupGuid s) (next_serial s) (all_loots s) (hi_item s).
Definition on_group_set (f : gset Z -> gset Z) (s : World) : World :=
  mkWorld (groups s) (players s) (f (mGroupSet s)) (m_BgRaids s) (group_member s) (next_group s)
    (m_hiGroupGuid s) (next_serial s) (all_loots s) (hi_item s).
Definition on_bg_raids (f : gmap (Z * bool) Z -> gmap (Z * bool) Z) (s : World) : World :=
  mkWorld (groups s) (players s) (mGroupSet s) (f (m_BgRaids s)) (group_member s) (next_group s)
    (m_hiGroupGuid s) (next_serial s) (all_loots s) (hi_item s).
Definition on_group_member (f : gmap Z Z -> gmap Z Z) (s : World) : World :=
  mkWorld (groups s) (players s) (mGroupSet s) (m_BgRaids s) (f (group_member s)) (next_group s)
    (m_hiGroupGuid s) (next_serial s) (all_loots s) (hi_item s).
Definition took_low_guid (s : World) : World :=
  mkWorld (groups s) (players s) (mGroupSet s) (m_BgRaids s) (group_member s) (next_group s)
    (u32 (m_hiGroupGuid s + 1)) (next_serial s) (all_loots s) (hi_item s).
Definition set_loot_state (g : Z) (l : LootState) (s : World) : World :=
  mkWorld (alter (set_g_rolls (RollId l)) g (groups s)) (players s) (mGroupSet s) (m_BgRaids s)
    (group_member s) (next_group s) (m_hiGroupGuid s) (next_serial s) (loots l) (m_hiItemGuid l).
Definition store_group (g : Z) (x : Group) (s : World) : World :=
  mkWorld (<[g := x]> (groups s)) (players s) (mGroupSet s) (m_BgRaids s) (group_member s) (g + 1)
    (m_hiGroupGuid s) (next_serial s) (all_loots s) (hi_item s).
Definition store_player (u : Z) (name : list Z) (s : World) : World :=
  mkWorld (groups s)
    (<[u := mkPlayer (next_serial s) name true (mkRef None 0) (mkRef None 0) None]> (players s))
    (mGroupSet s) (m_BgRaids s) (group_member s) (next_group s) (m_hiGroupGuid s) (next_serial s + 1)
    (all_loots s) (hi_item s).

Inductive group_statement :=
| InsertMember (guid memberGuid memberFlags subgroup roles : Z)
| DeleteMember (memberGuid : Z)
| DeleteMembersOf (guid memberGuid : Z)
| InsertGroup (guid leaderGuid lootMethod looterGuid lootThreshold : Z) (icons : list Z)
    (groupType difficulty raiddifficulty : Z)
| DeleteGroup (guid : Z)
| DeleteGroupMembers (guid : Z)
| DeleteGroupInstances (guid leader : Z)
| UpdateLeader (leaderGuid guid : Z)
| UpdateGroupType (groupType guid : Z)
| UpdateSubgroup (subgroup memberGuid : Z)
| UpdateMemberFlags (memberFlags memberGuid : Z)
| UpdateDifficulty (difficulty guid : Z)
| UpdateRaidDifficulty (raiddifficulty guid : Z).

Inductive group_hook :=
| OnGroupInviteMember (guid : Z)
| OnGroupAddMember (guid : Z)
| OnGroupRemoveMember (guid : Z) (method : RemoveMethod) (kicker : Z) (reason : option (list Z))
| OnGroupChangeLeader (old new : Z)
| OnGroupDisband.

Inductive player_call :=
| UpdateObjectVisibility
| UpdateForQuestWorldObjects
| ResetPlayerInstances (isRaid : bool)
| SetDungeonDifficulty (difficulty : Z)
| SetRaidDifficulty (difficulty : Z)
| SetGroupUpdateFlag (flags : Z)
| SetInstanceValid (valid : bool)
| ForceGroupValues
| SetPassOnGroupLoot (pass : bool)
| UpdateAchievement (criteria : Z).

Inductive object_kind := AGroup (g : Z) | APlayer (u serial : Z).

Inductive group_event :=
| GroupPacket (to : Z) (data : packet)
| DB (stmt : group_statement)
| Script (g : Z) (hook : group_hook)
| PlayerCall (guid : Z) (call : player_call)
| ConvertInstancesToGroup (g leader : Z)
| ResetGroupInstances (g : Z) (isRaid : bool)
| UpdateRoleCheck (gguid guid roles : Z)
| LootRolls (e : roll_event)
| GuidOverflow
| UseAfterFree (what : object_kind)
| OutOfBounds (subgroup : Z)
| GroupAssertionFailed.

Abbreviation GM := (M World group_event).

(** What the code reads of the rest of the server. *)
Record GroupView := mkGroupView {
  CONFIG_ALLOW_GM_GROUP : bool;
  CONFIG_ALLOW_TWO_SIDE_INTERACTION_GROUP : bool;
  isGameMaster : Z -> bool;
  GetTeam : Z -> Z;
  GetInstanceId : Z -> Z;
  GetMapId : Z -> Z;
  MapIsDungeon : Z -> bool;
  player_DungeonDifficulty : Z -> Z;
  player_RaidDifficulty : Z -> Z;
  getLevel : Z -> Z;
  GetEnchanting : Z -> Z;
  InBattleground : Z -> bool;
  isInCombat : Z -> bool;
  (** [HasIgnore] of the first player's social list. *)
  HasIgnore : Z -> Z -> bool;
  (** The group is bound to the instance the player is in. *)
  BoundHere : Z -> Z -> bool;
  (** The player is within the sight range of the other. *)
  InSight : Z -> Z -> bool;
  (** [IsWithinDistInMap] of the looted object. *)
  NearLoot : Z -> bool;
  (** [BuildPartyMemberStatsChangedPacket]. *)
  party_stats : Z -> packet;
  (** [GetPlayerGUIDByName]: the characters of the database. *)
  GetPlayerGUIDByName : list Z -> Z;
  lfg_GetState : Z -> Z;
  lfg_GetDungeon : Z -> Z;
  lfg_GetKicksLeft : Z -> Z;
  lfg_GetVotesNeeded : Z -> Z;
  group_urand : Z -> Z -> Z;
  rolls_view : RollView
}.

(** ** The store *)

Definition with_group {A} (d : A) (g : Z) (k : Group -> GM A) : GM A := with_state (fun s =>
  match groups s !! g with
  | Some x => k x
  | None => emit (UseAfterFree (AGroup g)) ;; ret d
  end).
Definition upd_group (g : Z) (f : Group -> Group) : GM unit :=
  with_group tt g (fun x => modify (on_groups (<[g := f x]>))).

Definition upd_player (u : Z) (f : Player -> Player) : GM unit := modify (on_players (alter f u)).

(** Following a [Player*] that was kept. *)
Definition upd_player_ptr (ptr : Z * Z) (f : Player -> Player) : GM unit := with_state (fun s =>
  match players s !! ptr.1 with
  | Some p => if p_serial p =? ptr.2 then upd_player ptr.1 f else emit (UseAfterFree (APlayer ptr.1 ptr.2))
  | None => emit (UseAfterFree (APlayer ptr.1 ptr.2))
  end).

(** The player of a session. *)
Definition with_player (u : Z) (k : Player -> GM unit) : GM unit := with_state (fun s =>
  match players s !! u with Some p => k p | None => ret tt end).

(** The source of a linked reference, which the list of the group points to. *)
Definition with_source (u : Z) (k : Player -> GM unit) : GM unit := with_state (fun s =>
  match players s !! u with Some p => k p | None => emit (UseAfterFree (APlayer u 0)) end).

(** [sObjectMgr->GetPlayer], by GUID and by name. *)
Definition GetPlayer (s : World) (u : Z) : option Player :=
  match players s !! u with Some p => if p_inWorld p then Some p else None | None => None end.
Definition if_in_world (u : Z) (k : Player -> GM unit) : GM unit := with_state (fun s =>
  match GetPlayer s u with Some p => k p | None => ret tt end).
Definition GetPlayerByName (s : World) (name : list Z) : option Z :=
  fst <$> head (filter (fun '(u, p) => p_inWorld p = true /\ p_name p = name) (omap_list (players s))).

Definition execute_on (st : group_statement) (t : gmap Z Z) : gmap Z Z :=
  match st with
  | InsertMember guid m _ _ _ => match t !! m with None => <[m := guid]> t | Some _ => t end
  | DeleteMember m => delete m t
  | DeleteMembersOf guid m => filter (fun '(k, l) => ~ (l = guid \/ k = m)) t
  | DeleteGroupMembers guid => filter (fun '(_, l) => l <> guid) t
  | _ => t
  end.
Definition PExecute (st : group_statement) : GM unit :=
  modify (on_group_member (execute_on st)) ;; emit (DB st).

(** The loot system of group [g] runs on its rolls and the loots of the server;
    it finds the players the store has. *)
Definition rolls_view_in (v : GroupView) (s : World) : RollView :=
  let w := rolls_view v in
  mkRollView (fun u => bool_decide (is_Some (GetPlayer s u))) (fun u => bool_decide (is_Some (GetPlayer s u)))
    (GetItemPrototype w) (urand w) (CanStoreNewItem w) (AllowedForPlayer w) (CanUseItem w) (IsWithinDist w)
    (GetPassOnGroupLoot w) (looted_kind w) (looted_map w).
Definition run_rolls (v : GroupView) (g : Z) (m : RollView -> RM unit) : GM unit := with_group tt g (fun x =>
  with_state (fun s =>
    let l := mkLootState (g_rolls x) (all_loots s) (hi_item s) in
    modify (set_loot_state g (run_state (m (rolls_view_in v s)) l)) ;;
    for_each (run_log (m (rolls_view_in v s)) l) (fun e => emit (LootRolls e)))).

(** ** The links of players (GroupReference) *)

Definition set_ref_to (original : bool) (g : option Z) (p : Player) : Player :=
  set_ref original (mkRef g (iSubGroup (the_ref original p))) p.
Definition setSubGroup (original : bool) (sub : Z) (p : Player) : Player :=
  set_ref original (mkRef (iRefTo (the_ref original p)) (u8 sub)) p.

Definition unlink (u : Z) (original : bool) : GM unit := with_player u (fun p =>
  match iRefTo (the_ref original p) with
  | Some g => upd_group g (fun x => set_memberMgr (filter (fun r => r <> (u, original)) (m_memberMgr x)) x)
  | None => ret tt
  end ;;
  upd_player u (set_ref_to original None)).

Definition link (u : Z) (original : bool) (g : Z) : GM unit :=
  unlink u original ;;
  upd_player u (set_ref_to original (Some g)) ;;
  upd_group g (fun x => set_memberMgr ((u, original) :: m_memberMgr x) x).

Definition SetOriginalGroup (u : Z) (group : option Z) (subgroup : Z) : GM unit :=
  match group with
  | None => unlink u true
  | Some g =>
      if s8 subgroup <? 0 then emit GroupAssertionFailed
      else link u true g ;; upd_player u (setSubGroup true subgroup)
  end.

Definition SetGroup (u : Z) (group : option Z) (subgroup : Z) : GM unit :=
  match group with
  | None => unlink u false ;; emit (PlayerCall u UpdateObjectVisibility)
  | Some g =>
      if s8 subgroup <? 0 then emit GroupAssertionFailed
      else
        link u false g ;; upd_player u (setSubGroup false subgroup) ;;
        emit (PlayerCall u UpdateObjectVisibility)
  end.

Definition SetBattlegroundRaid (u : Z) (group : Z) (subgroup : Z) : GM unit := with_player u (fun p =>
  SetOriginalGroup u (GetGroup p) (GetSubGroup p) ;;
  unlink u false ;;
  link u false group ;;
  upd_player u (setSubGroup false subgroup)).

Definition RemoveFromBattlegroundRaid (u : Z) : GM unit := with_player u (fun p =>
  unlink u false ;;
  match GetOriginalGroup p with
  | Some g => link u false g ;; upd_player u (setSubGroup false (GetOriginalSubGroup p))
  | None => ret tt
  end ;;
  SetOriginalGroup u None 0).

(** ** Properties of a group *)

Definition isLFGGroup (x : Group) : bool := has_flag (m_groupType x) GROUPTYPE_LFG.
Definition isRaidGroup (x : Group) : bool := has_flag (m_groupType x) GROUPTYPE_RAID.
Definition isBGGroup (x : Group) : bool := bool_decide (is_Some (m_bgGroup x)).
Definition GetMembersCount (x : Group) : Z := Z.of_nat (length (m_memberSlots x)).
Definition IsFull (x : Group) : bool :=
  if isRaidGroup x then MAXRAIDSIZE <=? GetMembersCount x else MAXGROUPSIZE <=? GetMembersCount x.
Definition IsCreated (x : Group) : bool := 0 <? GetMembersCount x.
Definition IsLeader (x : Group) (guid : Z) : bool := m_leaderGuid x =? guid.
Definition GetLowGUID (x : Group) : Z := GUID_LOPART (m_guid x).

Definition _getMemberSlot (guid : Z) (slots : list MemberSlot) : option MemberSlot :=
  head (filter (fun m => ms_guid m = guid) slots).
(** Writing through the iterator [_getMemberWSlot] returns, and [erase]. *)
Fixpoint update_slot (guid : Z) (f : MemberSlot -> MemberSlot) (slots : list MemberSlot) : list MemberSlot :=
  match slots with
  | [] => []
  | m :: slots' => if ms_guid m =? guid then f m :: slots' else m :: update_slot guid f slots'
  end.
Fixpoint erase_slot (guid : Z) (slots : list MemberSlot) : list MemberSlot :=
  match slots with
  | [] => []
  | m :: slots' => if ms_guid m =? guid then slots' else m :: erase_slot guid slots'
  end.

Definition IsMember (x : Group) (guid : Z) : bool :=
  bool_decide (is_Some (_getMemberSlot guid (m_memberSlots x))).
Definition GetMemberGUID (x : Group) (name : list Z) : Z :=
  match head (filter (fun m => ms_name m = name) (m_memberSlots x)) with Some m => ms_guid m | None => 0 end.
Definition IsAssistant (x : Group) (guid : Z) : bool :=
  match _getMemberSlot guid (m_memberSlots x) with
  | Some m => has_flag (ms_flags m) MEMBER_FLAG_ASSISTANT
  | None => false
  end.
Definition GetMemberGroup (x : Group) (guid : Z) : Z :=
  match _getMemberSlot guid (m_memberSlots x) with
  | Some m => ms_group m
  | None => Z.of_nat MAX_RAID_SUBGROUPS + 1
  end.
Definition GetRoles (x : Group) (guid : Z) : Z :=
  match _getMemberSlot guid (m_memberSlots x) with Some m => ms_roles m | None => 0 end.
Definition HasFreeSlotSubGroup (x : Group) (subgroup : Z) : bool :=
  match m_subGroupsCounts x with
  | Some counts => match counts !! Z.to_nat subgroup with Some c => c <? MAXGROUPSIZE | None => false end
  | None => false
  end.
Definition SameSubGroup (x : Group) (guid1 guid2 : Z) : bool :=
  match _getMemberSlot guid2 (m_memberSlots x), _getMemberSlot guid1 (m_memberSlots x) with
  | Some m2, Some m1 => ms_group m1 =? ms_group m2
  | _, _ => false
  end.

(** ** Subgroup counters *)

Definition count_at (f : Z -> Z) (subgroup : Z) (x : Group) : option (list Z) :=
  alter (fun c => u8 (f c)) (Z.to_nat subgroup) <$> m_subGroupsCounts x.
Definition bump_counter (d : Z) (g subgroup : Z) : GM unit := with_group tt g (fun x =>
  match m_subGroupsCounts x with
  | None => ret tt
  | Some counts =>
      match counts !! Z.to_nat subgroup with
      | None => emit (OutOfBounds subgroup)
      | Some _ => upd_group g (set_subGroupsCounts (count_at (Z.add d) subgroup x))
      end
  end).
Definition SubGroupCounterIncrease (g subgroup : Z) : GM unit := bump_counter 1 g subgroup.
Definition SubGroupCounterDecrease (g subgroup : Z) : GM unit := bump_counter (-1) g subgroup.

Definition _initRaidSubGroupsCounter (g : Z) : GM unit := with_group tt g (fun x =>
  upd_group g (set_subGroupsCounts (Some (replicate MAX_RAID_SUBGROUPS 0))) ;;
  for_each (m_memberSlots x) (fun m => SubGroupCounterIncrease g (ms_group m))).

Definition RemoveUniqueGroupMemberFlag (flag : Z) (slots : list MemberSlot) : list MemberSlot :=
  (fun m => if has_flag (ms_flags m) flag then set_ms_flags (fun fl => Z.ldiff fl flag) m else m) <$> slots.
Definition ToggleGroupMemberFlag (flag : Z) (apply : bool) (m : MemberSlot) : MemberSlot :=
  set_ms_flags (fun fl => if apply then Z.lor fl flag else Z.ldiff fl flag) m.

Section group.
Context (v : GroupView).

(** ** Sending *)

(** The packet of [SendUpdate] for one member. *)
Definition group_list_packet (s : World) (x : Group) (m : MemberSlot) : packet :=
  let others := filter (fun m2 => ms_guid m2 <> ms_guid m) (m_memberSlots x) in
  let state (m2 : MemberSlot) :=
    Z.lor (if bool_decide (is_Some (GetPlayer s (ms_guid m2))) then MEMBER_STATUS_ONLINE else MEMBER_STATUS_OFFLINE)
          (if isBGGroup x then MEMBER_STATUS_PVP else 0) in
  Pkt SMSG_GROUP_LIST
    ([FU 1 (u8 (m_groupType x)); FU 1 (ms_group m); FU 1 (ms_flags m); FU 1 (ms_roles m)] ++
     (if isLFGGroup x then
        [FU 1 (if lfg_GetState v (m_guid x) =? LFG_STATE_FINISHED_DUNGEON then 2 else 0);
         FU 4 (lfg_GetDungeon v (m_guid x))]
      else []) ++
     [FU 8 (m_guid x); FU 4 (m_counter x); FU 4 (u32 (GetMembersCount x - 1))] ++
     concat ((fun m2 => [FStr (ms_name m2); FU 8 (ms_guid m2); FU 1 (state m2);
                         FU 1 (ms_group m2); FU 1 (ms_flags m2); FU 1 (ms_roles m2)]) <$> others) ++
     [FU 8 (m_leaderGuid x)] ++
     (if GetMembersCount x - 1 =? 0 then []
      else [FU 1 (u8 (m_lootMethod x)); FU 8 (m_looterGuid x); FU 1 (u8 (m_lootThreshold x));
            FU 1 (u8 (m_dungeonDifficulty x)); FU 1 (u8 (m_raidDifficulty x))])).

(** [player->GetGroup() == this]. *)
Definition in_group (g : Z) (p : Player) : bool := bool_decide (GetGroup p = Some g).

Definition SendUpdate (g : Z) : GM unit := with_group tt g (fun x =>
  for_each (m_memberSlots x) (fun m =>
    if_in_world (ms_guid m) (fun p =>
      when (in_group g p)
        (with_group tt g (fun y =>
           upd_group g (set_counter (u32 (m_counter y + 1))) ;;
           with_state (fun s => emit (GroupPacket (ms_guid m) (group_list_packet s y m)))))))).

(** The packet of a member who is in no group any more. *)
Definition send_no_group (g u : Z) : GM unit := with_group tt g (fun x =>
  emit (GroupPacket u (Pkt SMSG_GROUP_LIST
    [FU 1 0x10; FU 1 0; FU 1 0; FU 1 0; FU 8 (m_guid x); FU 4 (m_counter x); FU 4 0; FU 8 0]))).

Definition UpdatePlayerOutOfRange (g u : Z) : GM unit := if_in_world u (fun _ =>
  with_group tt g (fun x =>
    for_each (m_memberMgr x) (fun '(src, _) =>
      with_source src (fun _ =>
        when (negb (InSight v src u)) (emit (GroupPacket src (party_stats v u))))))).

Definition BroadcastPacket (g : Z) (data : packet) (ignorePlayersInBGRaid : bool) (group : option Z)
    (ignore : Z) : GM unit := with_group tt g (fun x =>
  for_each (m_memberMgr x) (fun '(src, original) =>
    with_source src (fun pl =>
      when (negb (negb (ignore =? 0) && (src =? ignore)) && negb (ignorePlayersInBGRaid && negb (in_group g pl)) &&
            match group with None => true | Some sub => iSubGroup (the_ref original pl) =? sub end)
        (emit (GroupPacket src data))))).

Definition BroadcastReadyCheck (g : Z) (data : packet) : GM unit := with_group tt g (fun x =>
  for_each (m_memberMgr x) (fun '(src, _) =>
    with_source src (fun _ =>
      when (IsLeader x src || IsAssistant x src) (emit (GroupPacket src data))))).

Definition ready_check_confirm (guid state : Z) : packet :=
  Pkt MSG_RAID_READY_CHECK_CONFIRM [FU 8 guid; FU 1 state].
Definition OfflineReadyCheck (g : Z) : GM unit := with_group tt g (fun x =>
  for_each (m_memberSlots x) (fun m => with_state (fun s =>
    match GetPlayer s (ms_guid m) with
    | Some _ => ret tt
    | None => BroadcastReadyCheck g (ready_check_confirm (ms_guid m) 0)
    end))).

Definition BroadcastGroupUpdate (g : Z) : GM unit := with_group tt g (fun x =>
  for_each (m_memberSlots x) (fun m =>
    if_in_world (ms_guid m) (fun _ => emit (PlayerCall (ms_guid m) ForceGroupValues)))).

Definition SendTargetIconList (g u : Z) : GM unit := with_group tt g (fun x =>
  emit (GroupPacket u (Pkt MSG_RAID_TARGET_UPDATE
    (FU 1 1 :: concat (imap (fun i icon => if icon =? 0 then [] else [FU 1 (Z.of_nat i); FU 8 icon])
                            (m_targetIcons x)))))).

(** One call of [SetTargetIcon] without the loop that cleans other icons; the
    loop calls it with 0, for which the loop is skipped. *)
Definition put_icon (g id who target : Z) : GM unit :=
  upd_group g (fun x => set_targetIcons (<[Z.to_nat id := target]> (m_targetIcons x)) x) ;;
  BroadcastPacket g (Pkt MSG_RAID_TARGET_UPDATE [FU 1 0; FU 8 who; FU 1 id; FU 8 target]) true None 0.
Definition SetTargetIcon (g id whoGuid targetGuid : Z) : GM unit :=
  if Z.of_nat TARGETICONCOUNT <=? id then ret tt
  else
    when (negb (targetGuid =? 0))
      (for_each (seq 0 TARGETICONCOUNT) (fun i => with_group tt g (fun x =>
         when (bool_decide (m_targetIcons x !! i = Some targetGuid)) (put_icon g (Z.of_nat i) 0 0)))) ;;
    put_icon g id whoGuid targetGuid.

(** ** Invitations *)

Definition RemoveInvite (g u : Z) : GM unit := with_player u (fun p =>
  upd_group g (fun x => set_invitees (m_invitees x ∖ {[ (u, p_serial p) ]}) x) ;;
  upd_player u (set_groupInvite None)).

(** The normal group of a player: in a battleground it is the original one. *)
Definition home_group (s : World) (p : Player) : option Z :=
  match GetGroup p with
  | Some g => match groups s !! g with
              | Some x => if isBGGroup x then GetOriginalGroup p else Some g
              | None => Some g
              end
  | None => None
  end.
Definition check_group (o : option Z) : GM unit :=
  match o with Some g => with_group tt g (fun _ => ret tt) | None => ret tt end.

Definition AddInvite (g u : Z) : GM bool := with_state (fun s =>
  match players s !! u with
  | None => ret false
  | Some p =>
      if bool_decide (is_Some (p_groupInvite p)) then ret false
      else
        check_group (GetGroup p) ;;
        if bool_decide (is_Some (home_group s p)) then ret false
        else
          RemoveInvite g u ;;
          upd_group g (fun x => set_invitees ({[ (u, p_serial p) ]} ∪ m_invitees x) x) ;;
          upd_player u (set_groupInvite (Some g)) ;;
          emit (Script g (OnGroupInviteMember u)) ;;
          ret true
  end).

Definition player_name (s : World) (u : Z) : list Z :=
  match players s !! u with Some p => p_name p | None => [] end.

Definition AddLeaderInvite (g u : Z) : GM bool :=
  let! ok := AddInvite g u in
  if ok then
    with_state (fun s => upd_group g (set_leader u (player_name s u))) ;; ret true
  else ret false.

Definition RemoveAllInvites (g : Z) : GM unit := with_group tt g (fun x =>
  for_each (elements (m_invitees x)) (fun ptr => upd_player_ptr ptr (set_groupInvite None)) ;;
  upd_group g (set_invitees ∅)).

(** [GetInvited] follows the [Player*] of the list in turn. *)
Fixpoint find_invited (test : Z -> Player -> bool) (l : list (Z * Z)) : GM (option (Z * Z)) :=
  match l with
  | [] => ret None
  | ptr :: l' => with_state (fun s =>
      match players s !! ptr.1 with
      | Some p =>
          if p_serial p =? ptr.2 then
            if test ptr.1 p then ret (Some ptr) else find_invited test l'
          else emit (UseAfterFree (APlayer ptr.1 ptr.2)) ;; ret None
      | None => emit (UseAfterFree (APlayer ptr.1 ptr.2)) ;; ret None
      end)
  end.
Definition GetInvited (g guid : Z) : GM (option (Z * Z)) := with_group None g (fun x =>
  find_invited (fun u _ => u =? guid) (elements (m_invitees x))).
Definition GetInvitedByName (g : Z) (name : list Z) : GM (option (Z * Z)) := with_group None g (fun x =>
  find_invited (fun _ p => bool_decide (p_name p = name)) (elements (m_invitees x))).

(** ** Members *)

Definition reset_icons (x : Group) : Group :=
  if isRaidGroup x then x else set_targetIcons (replicate TARGETICONCOUNT 0) x.

Definition _addMember_at (g guid : Z) (name : list Z) (group : Z) : GM bool := with_group false g (fun x =>
  if IsFull x then ret false
  else if guid =? 0 then ret false
  else
    upd_group g (fun y => set_memberSlots (m_memberSlots y ++ [mkSlot guid name group 0 0]) y) ;;
    SubGroupCounterIncrease g group ;;
    if_in_world guid (fun _ =>
      upd_player guid (set_groupInvite None) ;;
      with_player guid (fun p =>
        if bool_decide (is_Some (GetGroup p)) && isBGGroup x then SetBattlegroundRaid guid g group
        else if bool_decide (is_Some (GetGroup p)) then SetOriginalGroup guid (Some g) group
        else SetGroup guid (Some g) group) ;;
      when (BoundHere v g guid) (emit (PlayerCall guid (SetInstanceValid true)))) ;;
    upd_group g reset_icons ;;
    when (negb (isBGGroup x))
      (PExecute (InsertMember (GetLowGUID x) (GUID_LOPART guid) 0 group 0)) ;;
    ret true).

(** The first subgroup that is not full; 0 if there are no counters. *)
Definition free_subgroup (x : Group) : option Z :=
  match m_subGroupsCounts x with
  | None => Some 0
  | Some counts => (fun p => Z.of_nat p.1) <$> list_find (fun c => c < MAXGROUPSIZE) counts
  end.
Definition _addMember (g guid : Z) (name : list Z) : GM bool := with_group false g (fun x =>
  match free_subgroup x with
  | None => ret false
  | Some groupid => _addMember_at g guid name groupid
  end).

Definition raise_enchanting (g u : Z) : GM unit :=
  upd_group g (fun x => if m_maxEnchantingLevel x <? GetEnchanting v u then set_maxEnchanting (GetEnchanting v u) x else x).

Definition AddMember (g guid : Z) (name : list Z) : GM bool :=
  let! ok := _addMember g guid name in
  if negb ok then ret false
  else
    SendUpdate g ;;
    emit (Script g (OnGroupAddMember guid)) ;;
    if_in_world guid (fun _ =>
      with_group tt g (fun x =>
        when (negb (IsLeader x guid) && negb (isBGGroup x))
          (emit (PlayerCall guid (ResetPlayerInstances false)) ;;
           emit (PlayerCall guid (ResetPlayerInstances true)) ;;
           when (LEVELREQUIREMENT_HEROIC <=? getLevel v guid)
             (when (negb (player_DungeonDifficulty v guid =? m_dungeonDifficulty x))
                (emit (PlayerCall guid (SetDungeonDifficulty (m_dungeonDifficulty x)))) ;;
              when (negb (player_RaidDifficulty v guid =? m_raidDifficulty x))
                (emit (PlayerCall guid (SetRaidDifficulty (m_raidDifficulty x)))))) ;;
        emit (PlayerCall guid (SetGroupUpdateFlag GROUP_UPDATE_FULL)) ;;
        UpdatePlayerOutOfRange g guid ;;
        when (isRaidGroup x) (emit (PlayerCall guid UpdateForQuestWorldObjects)) ;;
        raise_enchanting g guid)) ;;
    ret true.

Definition ResetMaxEnchantingLevel (g : Z) : GM unit := with_group tt g (fun x =>
  upd_group g (set_maxEnchanting 0) ;;
  for_each (m_memberSlots x) (fun m => if_in_world (ms_guid m) (fun _ => raise_enchanting g (ms_guid m)))).

Definition _homebindIfInstance (u : Z) : GM unit :=
  when (negb (isGameMaster v u) && MapIsDungeon v u) (emit (PlayerCall u (SetInstanceValid false))).

(** The reference by which a player is in the group is cut. *)
Definition leave_links (g : Z) (bg : bool) (u : Z) : GM unit := with_player u (fun p =>
  if bg then RemoveFromBattlegroundRaid u
  else if bool_decide (GetOriginalGroup p = Some g) then SetOriginalGroup u None 0
  else SetGroup u None 0).

Definition _setLeader (g guid : Z) : GM unit := with_group tt g (fun x =>
  match _getMemberSlot guid (m_memberSlots x) with
  | None => ret tt
  | Some slot =>
      emit (Script g (OnGroupChangeLeader (m_leaderGuid x) guid)) ;;
      when (negb (isBGGroup x))
        (PExecute (DeleteGroupInstances (GUID_LOPART (m_guid x)) (GUID_LOPART (ms_guid slot))) ;;
         emit (ConvertInstancesToGroup g (ms_guid slot)) ;;
         PExecute (UpdateLeader (GUID_LOPART (ms_guid slot)) (GUID_LOPART (m_guid x)))) ;;
      upd_group g (set_leader (ms_guid slot) (ms_name slot)) ;;
      upd_group g (fun y => set_memberSlots
        (update_slot guid (ToggleGroupMemberFlag MEMBER_FLAG_ASSISTANT false) (m_memberSlots y)) y)
  end).

Definition _removeMember (g guid : Z) : GM bool := with_group false g (fun x =>
  if_in_world guid (fun _ => leave_links g (isBGGroup x) guid) ;;
  run_rolls v g (fun w => _removeRolls w guid (GetMembersCount x)) ;;
  with_group tt g (fun y =>
    match _getMemberSlot guid (m_memberSlots y) with
    | None => ret tt
    | Some slot =>
        SubGroupCounterDecrease g (ms_group slot) ;;
        upd_group g (fun z => set_memberSlots (erase_slot guid (m_memberSlots z)) z)
    end) ;;
  when (negb (isBGGroup x)) (PExecute (DeleteMember (GUID_LOPART guid))) ;;
  with_group false g (fun y =>
    if m_leaderGuid y =? guid then
      match m_memberSlots y with
      | first :: _ => _setLeader g (ms_guid first)
      | [] => ret tt
      end ;;
      ret true
    else ret false)).

(** What [Disband] and [RemoveMember] tell a player who is out: the update of the
    group he is in now, or that he is in none. *)
Definition tell_out (g u : Z) : GM unit := with_player u (fun p =>
  match GetGroup p with
  | Some h => SendUpdate h
  | None => send_no_group g u
  end).

Definition Disband (g : Z) (hideDestroy : bool) : GM unit := with_group tt g (fun x =>
  emit (Script g OnGroupDisband) ;;
  for_each (m_memberSlots x) (fun m =>
    let u := ms_guid m in
    if_in_world u (fun _ =>
      leave_links g (isBGGroup x) u ;;
      when (isRaidGroup x) (emit (PlayerCall u UpdateForQuestWorldObjects)) ;;
      when (negb hideDestroy) (emit (GroupPacket u (Pkt SMSG_GROUP_DESTROYED []))) ;;
      tell_out g u ;;
      _homebindIfInstance u)) ;;
  upd_group g (fun y => set_memberSlots [] (set_g_rolls [] y)) ;;
  RemoveAllInvites g ;;
  when (negb (isBGGroup x))
    (PExecute (DeleteGroup (GUID_LOPART (m_guid x))) ;;
     PExecute (DeleteGroupMembers (GUID_LOPART (m_guid x))) ;;
     emit (ResetGroupInstances g false) ;;
     emit (ResetGroupInstances g true)) ;;
  upd_group g (fun y => set_leader 0 [] (set_guid 0 y))).

Definition set_leader_packet (name : list Z) : packet := Pkt SMSG_GROUP_SET_LEADER [FStr name].

Definition RemoveMember (g guid : Z) (method : RemoveMethod) (kicker : Z) (reason : option (list Z)) : GM Z :=
  BroadcastGroupUpdate g ;;
  emit (Script g (OnGroupRemoveMember guid method kicker reason)) ;;
  with_group 0 g (fun x =>
    if isLFGGroup x && bool_decide (method = GROUP_REMOVEMETHOD_KICK) then ret (GetMembersCount x)
    else
      (if (if isBGGroup x then 1 else 2) <? GetMembersCount x then
         let! leaderChanged := _removeMember g guid in
         if_in_world guid (fun _ =>
           when (isRaidGroup x) (emit (PlayerCall guid UpdateForQuestWorldObjects)) ;;
           when (bool_decide (method = GROUP_REMOVEMETHOD_KICK))
             (emit (GroupPacket guid (Pkt SMSG_GROUP_UNINVITE []))) ;;
           tell_out g guid ;;
           _homebindIfInstance guid) ;;
         when leaderChanged
           (with_group tt g (fun y =>
              match m_memberSlots y with
              | first :: _ => BroadcastPacket g (set_leader_packet (ms_name first)) true None 0
              | [] => ret tt
              end)) ;;
         SendUpdate g ;;
         ResetMaxEnchantingLevel g
       else Disband g false) ;;
      with_group 0 g (fun y => ret (GetMembersCount y))).

Definition ChangeLeader (g guid : Z) : GM unit := with_group tt g (fun x =>
  match _getMemberSlot guid (m_memberSlots x) with
  | None => ret tt
  | Some slot =>
      _setLeader g guid ;;
      BroadcastPacket g (set_leader_packet (ms_name slot)) true None 0 ;;
      SendUpdate g
  end).

(** ** Creation and destruction *)

Definition insert_group_statement (x : Group) : group_statement :=
  InsertGroup (GetLowGUID x) (GUID_LOPART (m_leaderGuid x)) (m_lootMethod x) (GUID_LOPART (m_looterGuid x))
    (m_lootThreshold x) (m_targetIcons x) (u8 (m_groupType x)) (m_dungeonDifficulty x) (m_raidDifficulty x).

Definition Create (g guid : Z) (name : list Z) : GM bool :=
  with_state (fun s => when (0xFFFFFFFE <=? m_hiGroupGuid s) (emit GuidOverflow)) ;;
  with_state (fun s =>
    let lowguid := m_hiGroupGuid s in
    modify took_low_guid ;;
    upd_group g (fun x =>
      set_looting GROUP_LOOT guid ITEM_QUALITY_UNCOMMON
        (set_groupType (if isBGGroup x then GROUPTYPE_BGRAID else GROUPTYPE_NORMAL)
           (set_leader guid name (set_guid (MAKE_NEW_GUID lowguid 0 HIGHGUID_GROUP) x)))) ;;
    with_group false g (fun x =>
      when (isRaidGroup x) (_initRaidSubGroupsCounter g) ;;
      upd_group g (set_difficulties 0 0) ;;
      if isBGGroup x then AddMember g guid name
      else
        if_in_world guid (fun _ =>
          upd_group g (set_difficulties (player_DungeonDifficulty v guid) (player_RaidDifficulty v guid))) ;;
        emit (ConvertInstancesToGroup g guid) ;;
        let! ok := AddMember g guid name in
        if negb ok then ret false
        else
          PExecute (DeleteGroup lowguid) ;;
          PExecute (DeleteMembersOf lowguid (GUID_LOPART guid)) ;;
          PExecute (InsertMember lowguid (GUID_LOPART guid) 0 0 0) ;;
          with_group true g (fun y => PExecute (insert_group_statement y) ;; ret true))).

(** [new Group]: the address is one no group has had. *)
Definition new_group : GM Z := with_state (fun s =>
  modify (store_group (next_group s) new_Group) ;; ret (next_group s)).

(** [Battleground::SetBgRaid] for the battleground and one of its two teams. *)
Definition SetBgRaid (k : Z * bool) (raid : option Z) : GM unit :=
  with_state (fun s => match m_BgRaids s !! k with
    | Some old => upd_group old (set_bgGroup None)
    | None => ret tt
    end) ;;
  match raid with
  | Some g => upd_group g (set_bgGroup (Some k.1)) ;; modify (on_bg_raids (<[k := g]>))
  | None => modify (on_bg_raids (delete k))
  end.

(** [delete group]: the destructor takes the group off its battleground; the
    destructor of [m_memberMgr] invalidates the references of the players. *)
Definition delete_group (g : Z) : GM unit := with_group tt g (fun x =>
  match m_bgGroup x with
  | Some bg => with_state (fun s =>
      if bool_decide (m_BgRaids s !! (bg, true) = Some g) then SetBgRaid (bg, true) None
      else if bool_decide (m_BgRaids s !! (bg, false) = Some g) then SetBgRaid (bg, false) None
      else ret tt)
  | None => ret tt
  end ;;
  for_each (m_memberMgr x) (fun '(u, original) =>
    with_source u (fun _ => upd_player u (set_ref_to original None))) ;;
  modify (on_groups (delete g))).

(** ** Conversions *)

Definition update_type (g : Z) (x : Group) : GM unit :=
  when (negb (isBGGroup x)) (PExecute (UpdateGroupType (u8 (m_groupType x)) (GUID_LOPART (m_guid x)))).
Definition update_quest_objects (x : Group) : GM unit :=
  for_each (m_memberSlots x) (fun m =>
    if_in_world (ms_guid m) (fun _ => emit (PlayerCall (ms_guid m) UpdateForQuestWorldObjects))).

Definition ConvertToLFG (g : Z) : GM unit :=
  upd_group g (fun x =>
    set_looting NEED_BEFORE_GREED (m_looterGuid x) (m_lootThreshold x)
      (set_groupType (Z.lor (m_groupType x) (Z.lor GROUPTYPE_LFG GROUPTYPE_UNK1)) x)) ;;
  with_group tt g (update_type g) ;;
  SendUpdate g.

Definition ConvertToRaid (g : Z) : GM unit :=
  upd_group g (fun x => set_groupType (Z.lor (m_groupType x) GROUPTYPE_RAID) x) ;;
  _initRaidSubGroupsCounter g ;;
  with_group tt g (update_type g) ;;
  SendUpdate g ;;
  with_group tt g update_quest_objects.

Definition ConvertToGroup (g : Z) : GM unit := with_group tt g (fun x =>
  if 5 <? GetMembersCount x then ret tt
  else
    upd_group g (fun y => set_subGroupsCounts None (set_groupType GROUPTYPE_NORMAL y)) ;;
    with_group tt g (update_type g) ;;
    SendUpdate g ;;
    with_group tt g update_quest_objects).

(** ** Subgroups, flags and roles *)

Definition _setMembersGroup (g guid group : Z) : GM bool := with_group false g (fun x =>
  match _getMemberSlot guid (m_memberSlots x) with
  | None => ret false
  | Some _ =>
      upd_group g (fun y => set_memberSlots (update_slot guid (set_ms_group group) (m_memberSlots y)) y) ;;
      SubGroupCounterIncrease g group ;;
      when (negb (isBGGroup x)) (PExecute (UpdateSubgroup group (GUID_LOPART guid))) ;;
      ret true
  end).

(** [ChangeMembersGroup] for a player the server has found. *)
Definition ChangeMembersGroup_online (g u group : Z) : GM unit := with_group tt g (fun x =>
  if negb (isRaidGroup x) then ret tt
  else
    with_player u (fun player =>
      if GetSubGroup player =? group then ret tt
      else
        let! ok := _setMembersGroup g u group in
        when ok
          ((if in_group g player then
              upd_player u (setSubGroup false group) ;; SubGroupCounterDecrease g (GetSubGroup player)
            else
              upd_player u (setSubGroup true group) ;; SubGroupCounterDecrease g (GetOriginalSubGroup player)) ;;
           SendUpdate g))).

Definition ChangeMembersGroup (g guid group : Z) : GM unit := with_group tt g (fun x =>
  if negb (isRaidGroup x) then ret tt
  else with_state (fun s =>
    match GetPlayer s guid with
    | Some _ => ChangeMembersGroup_online g guid group
    | None =>
        if GetMemberGroup x guid =? group then ret tt
        else
          let! ok := _setMembersGroup g guid group in
          when ok (SubGroupCounterDecrease g (GetMemberGroup x guid) ;; SendUpdate g)
    end)).

(** [_setAssistantFlag], [_setMainTank] and [_setMainAssistant]: the flags of the
    others are changed by [clean] first. *)
Definition set_member_flag (g guid flag : Z) (clean : list MemberSlot -> list MemberSlot) (apply : bool) : GM bool :=
  with_group false g (fun x =>
    match _getMemberSlot guid (m_memberSlots x) with
    | None => ret false
    | Some _ =>
        let slots := update_slot guid (ToggleGroupMemberFlag flag apply) (clean (m_memberSlots x)) in
        upd_group g (set_memberSlots slots) ;;
        when (negb (isBGGroup x))
          (PExecute (UpdateMemberFlags
             (match _getMemberSlot guid slots with Some m => ms_flags m | None => 0 end) (GUID_LOPART guid))) ;;
        ret true
    end).
Definition _setAssistantFlag (g guid : Z) (apply : bool) : GM bool :=
  set_member_flag g guid MEMBER_FLAG_ASSISTANT (fun slots => slots) apply.
Definition _setMainTank (g guid : Z) (apply : bool) : GM bool :=
  set_member_flag g guid MEMBER_FLAG_MAINTANK (RemoveUniqueGroupMemberFlag MEMBER_FLAG_MAINTANK) apply.
Definition _setMainAssistant (g guid : Z) (apply : bool) : GM bool :=
  set_member_flag g guid MEMBER_FLAG_MAINASSIST (RemoveUniqueGroupMemberFlag MEMBER_FLAG_MAINASSIST) apply.

Definition raid_flag (g : Z) (m : GM bool) : GM unit := with_group tt g (fun x =>
  if negb (isRaidGroup x) then ret tt
  else let! ok := m in when ok (SendUpdate g)).
Definition SetAssistant (g guid : Z) (apply : bool) : GM unit := raid_flag g (_setAssistantFlag g guid apply).
Definition SetMainTank (g guid : Z) (apply : bool) : GM unit := raid_flag g (_setMainTank g guid apply).
Definition SetMainAssistant (g guid : Z) (apply : bool) : GM unit := raid_flag g (_setMainAssistant g guid apply).

Definition SetRoles (g guid roles : Z) : GM unit := with_group tt g (fun x =>
  match _getMemberSlot guid (m_memberSlots x) with
  | None => ret tt
  | Some _ =>
      upd_group g (fun y => set_memberSlots (update_slot guid (set_ms_roles (u8 roles)) (m_memberSlots y)) y) ;;
      SendUpdate g
  end).

(** ** Difficulty *)

Definition for_linked (g : Z) (call : Z -> GM unit) : GM unit := with_group tt g (fun x =>
  for_each (m_memberMgr x) (fun '(u, _) =>
    with_source u (fun _ => when (LEVELREQUIREMENT_HEROIC <=? getLevel v u) (call u)))).
Definition SetDungeonDifficulty_group (g difficulty : Z) : GM unit :=
  upd_group g (fun x => set_difficulties difficulty (m_raidDifficulty x) x) ;;
  with_group tt g (fun x =>
    when (negb (isBGGroup x)) (PExecute (UpdateDifficulty difficulty (GUID_LOPART (m_guid x))))) ;;
  for_linked g (fun u => emit (PlayerCall u (SetDungeonDifficulty difficulty))).
Definition SetRaidDifficulty_group (g difficulty : Z) : GM unit :=
  upd_group g (fun x => set_difficulties (m_dungeonDifficulty x) difficulty x) ;;
  with_group tt g (fun x =>
    when (negb (isBGGroup x)) (PExecute (UpdateRaidDifficulty difficulty (GUID_LOPART (m_guid x))))) ;;
  for_linked g (fun u => emit (PlayerCall u (SetRaidDifficulty difficulty))).

(** ** The round robin of the looter *)

(** [FindPlayer] finds the member and he is near the looted object. *)
Definition near_loot (s : World) (m : MemberSlot) : bool :=
  match GetPlayer s (ms_guid m) with Some _ => NearLoot v (ms_guid m) | None => false end.

(** The first near member from the one after [guid_itr], then from the start. *)
Definition first_near (near : MemberSlot -> bool) (l : list MemberSlot) : option MemberSlot :=
  head (filter (fun m => near m = true) l).
Definition next_looter (near : MemberSlot -> bool) (slots : list MemberSlot) (start : nat) : option MemberSlot :=
  match first_near near (drop start slots) with
  | Some m => Some m
  | None => first_near near (take start slots)
  end.

Definition set_looter (g : Z) (guid : Z) : GM unit :=
  upd_group g (fun x => set_looting (m_lootMethod x) guid (m_lootThreshold x) x) ;;
  SendUpdate g.

Definition UpdateLooterGuid (g : Z) (ifneed : bool) : GM unit := with_group tt g (fun x =>
  if (m_lootMethod x =? MASTER_LOOT) || (m_lootMethod x =? FREE_FOR_ALL) then ret tt
  else with_state (fun s =>
    let old := m_looterGuid x in
    let go (start : nat) : GM unit :=
      match next_looter (near_loot s) (m_memberSlots x) start with
      | Some m => when (negb (old =? ms_guid m)) (set_looter g (ms_guid m))
      | None => set_looter g 0
      end in
    match list_find (fun m => ms_guid m = old) (m_memberSlots x) with
    | Some (i, m) => if ifneed && near_loot s m then ret tt else go (S i)
    | None => go (length (m_memberSlots x))
    end)).

End group.
