(* ===== verification/Party.v ===== *)
(** * Party commands

    The group part of [Player] (src/src/server/game/Entities/Player/Player.cpp),
    of [WorldSession::LogoutPlayer] and of [Battleground], the opcode handlers of
    Server/Protocol/Handlers/GroupHandler.cpp, and the steps of a server made of
    them.  The programs act on the store of [Group]. *)
From S2P Require Import Prelude Text ByteBuffer Rolls Group.

Definition PARTY_OP_INVITE : Z := 0.
Definition PARTY_OP_UNINVITE : Z := 1.
Definition PARTY_OP_LEAVE : Z := 2.
Definition ERR_PARTY_RESULT_OK : Z := 0.
Definition ERR_BAD_PLAYER_NAME_S : Z := 1.
Definition ERR_TARGET_NOT_IN_GROUP_S : Z := 2.
Definition ERR_TARGET_NOT_IN_INSTANCE_S : Z := 3.
Definition ERR_GROUP_FULL : Z := 4.
Definition ERR_ALREADY_IN_GROUP_S : Z := 5.
Definition ERR_NOT_IN_GROUP : Z := 6.
Definition ERR_NOT_LEADER : Z := 7.
Definition ERR_PLAYER_WRONG_FACTION : Z := 8.
Definition ERR_IGNORING_YOU_S : Z := 9.
Definition ERR_INVITE_RESTRICTED : Z := 13.
Definition ERR_PARTY_LFG_BOOT_LIMIT : Z := 20.
Definition ERR_PARTY_LFG_BOOT_IN_PROGRESS : Z := 22.
Definition ERR_PARTY_LFG_BOOT_TOO_FEW_PLAYERS : Z := 23.
Definition ERR_PARTY_LFG_BOOT_DUNGEON_COMPLETE : Z := 28.
Definition ERR_PARTY_LFG_BOOT_LOOT_ROLLS : Z := 29.
Definition ACHIEVEMENT_CRITERIA_TYPE_ROLL_NEED : Z := 93.
Definition ACHIEVEMENT_CRITERIA_TYPE_ROLL_GREED : Z := 94.

Section party.
Context `{!Utf8Lib} (v : GroupView).

(** ** Player *)

Definition UninviteFromGroup (u : Z) : GM unit := with_player u (fun p =>
  match p_groupInvite p with
  | None => ret tt
  | Some g =>
      RemoveInvite g u ;;
      with_group tt g (fun x =>
        if GetMembersCount x <=? 1 then
          (if IsCreated x then
             Disband v g true ;; modify (on_group_set (fun l => l ∖ {[ g ]}))
           else RemoveAllInvites g) ;;
          delete_group g
        else ret tt)
  end).

Definition RemoveFromGroup (group : option Z) (guid : Z) (method : RemoveMethod) (kicker : Z)
    (reason : option (list Z)) : GM unit :=
  match group with
  | None => ret tt
  | Some g =>
      let! remaining := RemoveMember v g guid method kicker reason in
      when (remaining <=? 1)
        (modify (on_group_set (fun l => l ∖ {[ g ]})) ;; delete_group g)
  end.

(** [GetGroupByGUID] looks through the groups of the server. *)
Fixpoint find_group (guid : Z) (l : list Z) : GM (option Z) :=
  match l with
  | [] => ret None
  | g :: l' => with_group None g (fun x => if GetLowGUID x =? guid then ret (Some g) else find_group guid l')
  end.
Definition GetGroupByGUID (guid : Z) : GM (option Z) := with_state (fun s =>
  find_group guid (elements (mGroupSet s))).

Definition _LoadGroup (u : Z) : GM unit := with_state (fun s =>
  match group_member s !! GUID_LOPART u with
  | None => ret tt
  | Some lowguid =>
      let! o := GetGroupByGUID lowguid in
      match o with
      | None => ret tt
      | Some g => with_group tt g (fun x =>
          SetGroup u (Some g) (GetMemberGroup x u) ;;
          when (LEVELREQUIREMENT_HEROIC <=? getLevel v u)
            (emit (PlayerCall u (SetDungeonDifficulty (m_dungeonDifficulty x))) ;;
             emit (PlayerCall u (SetRaidDifficulty (m_raidDifficulty x)))))
      end
  end).

Definition CanUninviteFromGroup (u : Z) (x : Group) : Z :=
  if isLFGGroup x then
    let gguid := m_guid x in
    if lfg_GetKicksLeft v gguid =? 0 then ERR_PARTY_LFG_BOOT_LIMIT
    else if lfg_GetState v gguid =? LFG_STATE_BOOT then ERR_PARTY_LFG_BOOT_IN_PROGRESS
    else if GetMembersCount x <=? lfg_GetVotesNeeded v gguid then ERR_PARTY_LFG_BOOT_TOO_FEW_PLAYERS
    else if lfg_GetState v gguid =? LFG_STATE_FINISHED_DUNGEON then ERR_PARTY_LFG_BOOT_DUNGEON_COMPLETE
    else if negb (bool_decide (g_rolls x = [])) then ERR_PARTY_LFG_BOOT_LOOT_ROLLS
    else ERR_PARTY_RESULT_OK
  else if negb (IsLeader x u) && negb (IsAssistant x u) then ERR_NOT_LEADER
  else if InBattleground v u then ERR_INVITE_RESTRICTED
  else ERR_PARTY_RESULT_OK.

(** The group of a player's [m_group]. *)
Definition with_own_group (u : Z) (k : Z -> Group -> GM unit) : GM unit := with_player u (fun p =>
  match GetGroup p with None => ret tt | Some g => with_group tt g (k g) end).

(** ** Opcode handlers *)

Definition with_recv {A} (parse : B A) (recv_data : ByteBuffer) (k : A -> GM unit) : GM unit :=
  match (parse recv_data).1 with Ok a => k a | Err _ => ret tt end.

Definition SendPartyResult (u operation : Z) (member : list Z) (res : Z) : GM unit :=
  emit (GroupPacket u (Pkt SMSG_PARTY_COMMAND_RESULT
    [FU 4 operation; FStr member; FU 4 res; FU 4 0; FU 8 0])).

Definition invite_packet (flag : Z) (name : list Z) : packet :=
  Pkt SMSG_GROUP_INVITE [FU 1 flag; FStr name; FU 4 0; FU 1 0; FU 4 0].

(** The checks of [HandleGroupInviteOpcode] that do not look at groups: the
    result to send, nothing for a GM who may not be invited. *)
Definition invite_refused (u target : Z) : option (option Z) :=
  if negb (CONFIG_ALLOW_GM_GROUP v) && negb (isGameMaster v u) && isGameMaster v target then Some None
  else if negb (CONFIG_ALLOW_TWO_SIDE_INTERACTION_GROUP v) && negb (GetTeam v u =? GetTeam v target) then
    Some (Some ERR_PLAYER_WRONG_FACTION)
  else if negb (GetInstanceId v u =? 0) && negb (GetInstanceId v target =? 0) &&
          negb (GetInstanceId v u =? GetInstanceId v target) && (GetMapId v u =? GetMapId v target) then
    Some (Some ERR_TARGET_NOT_IN_INSTANCE_S)
  else if negb (GetInstanceId v target =? 0) &&
          negb (player_DungeonDifficulty v target =? player_DungeonDifficulty v u) then
    Some (Some ERR_IGNORING_YOU_S)
  else if HasIgnore v target u then Some (Some ERR_IGNORING_YOU_S)
  else None.

(** "ok, but group not exist, start a new group". *)
Definition start_group (u target : Z) : GM bool :=
  let! g := new_group in
  let! ok := AddLeaderInvite g u in
  if negb ok then delete_group g ;; ret false
  else
    let! ok := AddInvite g target in
    if negb ok then delete_group g ;; ret false else ret true.

(** The player is invited into the group of [u], or into a new one. *)
Definition invite_into (u target : Z) (group : option Z) (membername : list Z) : GM unit :=
  let! ok := match group with
             | Some g => AddInvite g target
             | None => start_group u target
             end in
  when ok (with_state (fun s =>
    emit (GroupPacket target (invite_packet 1 (player_name s u))) ;;
    SendPartyResult u PARTY_OP_INVITE membername ERR_PARTY_RESULT_OK)).

(** The checks that look at the groups of the two. *)
Definition invite_player (u target : Z) (membername : list Z) : GM unit := with_state (fun s =>
  match players s !! u, players s !! target with
  | Some me, Some player =>
      check_group (GetGroup me) ;;
      check_group (GetGroup player) ;;
      if bool_decide (is_Some (home_group s player)) || bool_decide (is_Some (p_groupInvite player)) then
        SendPartyResult u PARTY_OP_INVITE membername ERR_ALREADY_IN_GROUP_S ;;
        when (bool_decide (is_Some (home_group s player)))
          (emit (GroupPacket target (invite_packet 0 (p_name me))))
      else
        match home_group s me with
        | None => invite_into u target None membername
        | Some g => with_group tt g (fun x =>
            if negb (IsLeader x u) && negb (IsAssistant x u) then
              SendPartyResult u PARTY_OP_INVITE [] ERR_NOT_LEADER
            else if IsFull x then SendPartyResult u PARTY_OP_INVITE [] ERR_GROUP_FULL
            else invite_into u target (Some g) membername)
        end
  | _, _ => ret tt
  end).

Definition parse_invite : B (list Z) :=
  let? membername := shr_string in let? unk := shr_uint 4 in bret membername.

Definition HandleGroupInviteOpcode (u : Z) (recv_data : ByteBuffer) : GM unit :=
  with_recv parse_invite recv_data (fun name =>
    match normalizePlayerName name with
    | Conv membername => with_state (fun s =>
        match GetPlayerByName s (c_str membername) with
        | None => SendPartyResult u PARTY_OP_INVITE membername ERR_BAD_PLAYER_NAME_S
        | Some target =>
            match invite_refused u target with
            | Some None => ret tt
            | Some (Some res) => SendPartyResult u PARTY_OP_INVITE membername res
            | None => invite_player u target membername
            end
        end)
    | _ => SendPartyResult u PARTY_OP_INVITE name ERR_BAD_PLAYER_NAME_S
    end).

(** The group whose invitation is accepted. *)
Definition accept_invite (u g : Z) : GM unit := with_group tt g (fun x =>
  if IsLeader x u then ret tt
  else
    RemoveInvite g u ;;
    if IsFull x then SendPartyResult u PARTY_OP_INVITE [] ERR_GROUP_FULL
    else
      (if IsCreated x then ret tt
       else
         if_in_world (m_leaderGuid x) (fun _ => RemoveInvite g (m_leaderGuid x)) ;;
         let! _ := Create v g (m_leaderGuid x) (m_leaderName x) in
         modify (on_group_set (fun l => l ∪ {[ g ]}))) ;;
      with_state (fun s =>
        let! ok := AddMember v g u (player_name s u) in
        when ok (BroadcastGroupUpdate g))).

Definition HandleGroupAcceptOpcode (u : Z) (recv_data : ByteBuffer) : GM unit :=
  with_recv (shr_uint 4) recv_data (fun _ => with_player u (fun p =>
    match p_groupInvite p with None => ret tt | Some g => accept_invite u g end)).

Definition HandleGroupDeclineOpcode (u : Z) (recv_data : ByteBuffer) : GM unit := with_player u (fun p =>
  match p_groupInvite p with
  | None => ret tt
  | Some g => with_group tt g (fun x => with_state (fun s =>
      UninviteFromGroup u ;;
      match GetPlayer s (m_leaderGuid x) with
      | Some _ => emit (GroupPacket (m_leaderGuid x) (Pkt SMSG_GROUP_DECLINE [FStr (p_name p)]))
      | None => ret tt
      end))
  end).

(** The invited player found by one of the two uninvite handlers. *)
Definition uninvite_invited (u : Z) (found : option (Z * Z)) (name : list Z) : GM unit :=
  match found with
  | Some plr => UninviteFromGroup plr.1
  | None => SendPartyResult u PARTY_OP_UNINVITE name ERR_TARGET_NOT_IN_GROUP_S
  end.

(** The common start of the uninvite handlers. *)
Definition uninvite_checked (u : Z) (k : Z -> Group -> GM unit) : GM unit := with_player u (fun p =>
  match GetGroup p with
  | None => SendPartyResult u PARTY_OP_UNINVITE [] ERR_NOT_IN_GROUP
  | Some grp => with_group tt grp (fun x =>
      let res := CanUninviteFromGroup u x in
      if negb (res =? ERR_PARTY_RESULT_OK) then SendPartyResult u PARTY_OP_UNINVITE [] res
      else k grp x)
  end).

Definition parse_uninvite_guid : B (Z * list Z) :=
  let? guid := shr_uint 8 in let? reason := shr_string in bret (guid, reason).

Definition HandleGroupUninviteGuidOpcode (u : Z) (recv_data : ByteBuffer) : GM unit :=
  with_recv parse_uninvite_guid recv_data (fun '(guid, reason) =>
    if guid =? u then ret tt
    else uninvite_checked u (fun grp x =>
      if IsLeader x guid then SendPartyResult u PARTY_OP_UNINVITE [] ERR_NOT_LEADER
      else if IsMember x guid then RemoveFromGroup (Some grp) guid GROUP_REMOVEMETHOD_KICK u (Some reason)
      else
        let! found := GetInvited grp guid in
        uninvite_invited u found [])).

Definition HandleGroupUninviteOpcode (u : Z) (recv_data : ByteBuffer) : GM unit :=
  with_recv shr_string recv_data (fun name =>
    match normalizePlayerName name with
    | Conv membername => with_state (fun s =>
        if bool_decide (player_name s u = membername) then ret tt
        else uninvite_checked u (fun grp x =>
          let guid := GetMemberGUID x membername in
          if negb (guid =? 0) then RemoveFromGroup (Some grp) guid GROUP_REMOVEMETHOD_KICK u None
          else
            let! found := GetInvitedByName grp membername in
            uninvite_invited u found membername))
    | _ => ret tt
    end).

Definition HandleGroupSetLeaderOpcode (u : Z) (recv_data : ByteBuffer) : GM unit :=
  with_own_group u (fun group x =>
    with_recv (shr_uint 8) recv_data (fun guid =>
      if_in_world guid (fun player =>
        when (IsLeader x u && in_group group player) (ChangeLeader v group guid)))).

Definition HandleGroupDisbandOpcode (u : Z) (recv_data : ByteBuffer) : GM unit := with_player u (fun p =>
  match GetGroup p with
  | None => ret tt
  | Some _ =>
      if InBattleground v u then SendPartyResult u PARTY_OP_INVITE [] ERR_INVITE_RESTRICTED
      else
        SendPartyResult u PARTY_OP_LEAVE (p_name p) ERR_PARTY_RESULT_OK ;;
        RemoveFromGroup (GetGroup p) u GROUP_REMOVEMETHOD_LEAVE 0 None
  end).

Definition parse_loot_method : B (Z * Z * Z) :=
  let? method := shr_uint 4 in let? master := shr_uint 8 in let? threshold := shr_uint 4 in
  bret (method, master, threshold).
Definition HandleLootMethodOpcode (u : Z) (recv_data : ByteBuffer) : GM unit :=
  with_own_group u (fun group x =>
    with_recv parse_loot_method recv_data (fun '(method, master, threshold) =>
      when (IsLeader x u)
        (upd_group group (set_looting method master threshold) ;; SendUpdate v group))).

Definition parse_loot_roll : B (Z * Z * Z) :=
  let? guid := shr_uint 8 in let? n := shr_uint 4 in let? rollType := shr_uint 1 in
  bret (guid, n, rollType).
Definition HandleLootRoll (u : Z) (recv_data : ByteBuffer) : GM unit :=
  with_own_group u (fun group _ =>
    with_recv parse_loot_roll recv_data (fun '(Guid, NumberOfPlayers, rollType) =>
      run_rolls v group (fun w => CountRollVote w u Guid NumberOfPlayers rollType) ;;
      if rollType =? ROLL_NEED then emit (PlayerCall u (UpdateAchievement ACHIEVEMENT_CRITERIA_TYPE_ROLL_NEED))
      else if rollType =? ROLL_GREED then
        emit (PlayerCall u (UpdateAchievement ACHIEVEMENT_CRITERIA_TYPE_ROLL_GREED))
      else ret tt)).

(** The coordinates are passed on unread: the bits of two floats. *)
Definition parse_pair : B (Z * Z) := let? x := shr_uint 4 in let? y := shr_uint 4 in bret (x, y).
Definition HandleMinimapPingOpcode (u : Z) (recv_data : ByteBuffer) : GM unit :=
  with_own_group u (fun group _ =>
    with_recv parse_pair recv_data (fun '(x, y) =>
      BroadcastPacket group (Pkt MSG_MINIMAP_PING [FU 8 u; FU 4 x; FU 4 y]) true None u)).

Definition HandleRandomRollOpcode (u : Z) (recv_data : ByteBuffer) : GM unit :=
  with_recv parse_pair recv_data (fun '(minimum, maximum) =>
    if (maximum <? minimum) || (10000 <? maximum) then ret tt
    else
      let data := Pkt MSG_RANDOM_ROLL
        [FU 4 minimum; FU 4 maximum; FU 4 (group_urand v minimum maximum); FU 8 u] in
      with_player u (fun p =>
        match GetGroup p with
        | Some g => BroadcastPacket g data false None 0
        | None => emit (GroupPacket u data)
        end)).

(** A request for the icons (0xFF) or an icon and its target. *)
Definition parse_target : B (Z * Z) :=
  let? x := shr_uint 1 in
  if x =? 0xFF then bret (x, 0) else let? guid := shr_uint 8 in bret (x, guid).
Definition HandleRaidTargetUpdateOpcode (u : Z) (recv_data : ByteBuffer) : GM unit :=
  with_own_group u (fun group g =>
    with_recv parse_target recv_data (fun '(x, guid) =>
      if x =? 0xFF then SendTargetIconList group u
      else if isRaidGroup g && negb (IsLeader g u) && negb (IsAssistant g u) then ret tt
      else SetTargetIcon group x u guid)).

Definition HandleGroupRaidConvertOpcode (u : Z) (recv_data : ByteBuffer) : GM unit :=
  with_own_group u (fun group x =>
    if InBattleground v u then ret tt
    else if negb (IsLeader x u) || (GetMembersCount x <? 2) then ret tt
    else with_recv shr_bool recv_data (fun toRaid =>
      SendPartyResult u PARTY_OP_INVITE [] ERR_PARTY_RESULT_OK ;;
      if toRaid then ConvertToRaid v group else ConvertToGroup v group)).

Definition parse_subgroup : B (list Z * Z) :=
  let? name := shr_string in let? groupNr := shr_uint 1 in bret (name, groupNr).
Definition HandleGroupChangeSubGroupOpcode (u : Z) (recv_data : ByteBuffer) : GM unit :=
  with_own_group u (fun group x =>
    with_recv parse_subgroup recv_data (fun '(name, groupNr) =>
      if Z.of_nat MAX_RAID_SUBGROUPS <=? groupNr then ret tt
      else if negb (IsLeader x u) && negb (IsAssistant x u) then ret tt
      else if negb (HasFreeSlotSubGroup x groupNr) then ret tt
      else with_state (fun s =>
        match GetPlayerByName s name with
        | Some moved => if isInCombat v moved then ret tt else ChangeMembersGroup_online v group moved groupNr
        | None => ChangeMembersGroup v group (GetPlayerGUIDByName v name) groupNr
        end))).

Definition parse_assistant : B (Z * Z) := let? guid := shr_uint 8 in let? flag := shr_uint 1 in bret (guid, flag).
Definition HandleGroupAssistantLeaderOpcode (u : Z) (recv_data : ByteBuffer) : GM unit :=
  with_own_group u (fun group x =>
    with_recv parse_assistant recv_data (fun '(guid, flag) =>
      when (IsLeader x u) (SetAssistant v group guid (negb (flag =? 0))))).

Definition parse_assignment : B (Z * Z * Z) :=
  let? flag := shr_uint 1 in let? apply := shr_uint 1 in let? guid := shr_uint 8 in
  bret (flag, apply, guid).
Definition HandlePartyAssignmentOpcode (u : Z) (recv_data : ByteBuffer) : GM unit :=
  with_own_group u (fun group x =>
    with_recv parse_assignment recv_data (fun '(flag, apply, guid) =>
      if negb (IsLeader x u) && negb (IsAssistant x u) then ret tt
      else if flag =? 0 then SetMainTank v group guid (negb (apply =? 0))
      else if flag =? 1 then SetMainAssistant v group guid (negb (apply =? 0))
      else ret tt)).

Definition HandleRaidReadyCheckOpcode (u : Z) (recv_data : ByteBuffer) : GM unit :=
  with_own_group u (fun group x =>
    if bb_empty recv_data then
      when (IsLeader x u || IsAssistant x u)
        (BroadcastPacket group (Pkt MSG_RAID_READY_CHECK [FU 8 u]) false None 0 ;;
         OfflineReadyCheck group)
    else with_recv (shr_uint 1) recv_data (fun state =>
      BroadcastReadyCheck group (ready_check_confirm u state))).

Definition parse_roles : B (Z * Z) := let? roles := shr_uint 4 in let? guid := shr_uint 8 in bret (roles, guid).
Definition HandleGroupSetRoles (u : Z) (recv_data : ByteBuffer) : GM unit :=
  with_recv parse_roles recv_data (fun '(roles, guid) =>
    if_in_world guid (fun plr => with_player u (fun me =>
      match GetGroup plr with
      | None => ret tt
      | Some grp =>
          if negb (in_group grp me) then ret tt
          else
            SetRoles v grp guid (u8 roles) ;;
            with_group tt grp (fun x =>
              when (isLFGGroup x) (emit (UpdateRoleCheck (m_guid x) guid (u8 roles))))
      end))).

Definition HandleOptOutOfLootOpcode (u : Z) (recv_data : ByteBuffer) : GM unit :=
  with_recv (shr_uint 4) recv_data (fun passOnLoot =>
    with_player u (fun _ => emit (PlayerCall u (SetPassOnGroupLoot (negb (passOnLoot =? 0)))))).

(** ** Battlegrounds *)

Definition AddOrSetPlayerToCorrectBgGroup (u : Z) (k : Z * bool) : GM unit := with_state (fun s =>
  match m_BgRaids s !! k with
  | None =>
      let! g := new_group in
      SetBgRaid k (Some g) ;;
      let! _ := Create v g u (player_name s u) in ret tt
  | Some group => with_group tt group (fun x =>
      if IsMember x u then SetBattlegroundRaid u group (GetMemberGroup x u)
      else
        let! _ := AddMember v group u (player_name s u) in
        with_player u (fun p =>
          match GetOriginalGroup p with
          | Some originalGroup => with_group tt originalGroup (fun y =>
              when (IsLeader y u) (ChangeLeader v group u ;; SendUpdate v group))
          | None => ret tt
          end))
  end).

(** "remove from raid group if player is member" of [RemovePlayerAtLeave]. *)
Definition RemoveFromBgRaid (u : Z) (k : Z * bool) : GM unit := with_state (fun s =>
  match m_BgRaids s !! k with
  | None => ret tt
  | Some group =>
      let! remaining := RemoveMember v group u GROUP_REMOVEMETHOD_DEFAULT 0 None in
      when (remaining =? 0) (SetBgRaid k None)
  end).

(** ** Sessions *)

(** The group part of [LogoutPlayer]; [socket]: the client is still connected.
    The player is taken off the battleground he is in, leaves his party, and is
    deleted: his references unlink. *)
Definition LogoutPlayer (u : Z) (bg : option (Z * bool)) (socket : bool) : GM unit :=
  match bg with Some k => RemoveFromBgRaid u k | None => ret tt end ;;
  UninviteFromGroup u ;;
  with_own_group u (fun g x =>
    when (negb (isRaidGroup x) && socket)
      (RemoveFromGroup (Some g) u GROUP_REMOVEMETHOD_DEFAULT 0 None)) ;;
  with_own_group u (fun g _ => SendUpdate v g ;; ResetMaxEnchantingLevel v g) ;;
  upd_player u (set_inWorld false) ;;
  unlink u false ;;
  unlink u true ;;
  modify (on_players (delete u)).

Definition LoginPlayer (u : Z) (name : list Z) : GM unit := with_state (fun s =>
  match players s !! u with
  | Some _ => ret tt
  | None => modify (store_player u name) ;; _LoadGroup u
  end).

End party.

(** ** Steps of the server *)

Inductive party_opcode :=
| CMSG_GROUP_INVITE | CMSG_GROUP_ACCEPT | CMSG_GROUP_DECLINE | CMSG_GROUP_UNINVITE_GUID
| CMSG_GROUP_UNINVITE | CMSG_GROUP_SET_LEADER | CMSG_GROUP_DISBAND | CMSG_LOOT_METHOD
| CMSG_LOOT_ROLL | OP_MINIMAP_PING | OP_RANDOM_ROLL | OP_RAID_TARGET_UPDATE
| CMSG_GROUP_RAID_CONVERT | CMSG_GROUP_CHANGE_SUB_GROUP | CMSG_GROUP_ASSISTANT_LEADER
| OP_PARTY_ASSIGNMENT | OP_RAID_READY_CHECK | CMSG_GROUP_SET_ROLES | CMSG_OPT_OUT_OF_LOOT.

Inductive party_step :=
| Packet (u : Z) (op : party_opcode) (data : ByteBuffer)
| Login (u : Z) (name : list Z)
| Logout (u : Z) (bg : option (Z * bool)) (socket : bool)
| Travel (u : Z) (arrived : bool)
| EnterBg (u : Z) (k : Z * bool)
| LeaveBg (u : Z) (k : Z * bool)
| LootOpened (u : Z) (ifneed : bool)
| JoinLfg (u : Z).

Section steps.
Context `{!Utf8Lib} (v : GroupView).

Definition handle (op : party_opcode) : Z -> ByteBuffer -> GM unit :=
  match op with
  | CMSG_GROUP_INVITE => HandleGroupInviteOpcode v
  | CMSG_GROUP_ACCEPT => HandleGroupAcceptOpcode v
  | CMSG_GROUP_DECLINE => HandleGroupDeclineOpcode v
  | CMSG_GROUP_UNINVITE_GUID => HandleGroupUninviteGuidOpcode v
  | CMSG_GROUP_UNINVITE => HandleGroupUninviteOpcode v
  | CMSG_GROUP_SET_LEADER => HandleGroupSetLeaderOpcode v
  | CMSG_GROUP_DISBAND => HandleGroupDisbandOpcode v
  | CMSG_LOOT_METHOD => HandleLootMethodOpcode v
  | CMSG_LOOT_ROLL => HandleLootRoll v
  | OP_MINIMAP_PING => HandleMinimapPingOpcode
  | OP_RANDOM_ROLL => HandleRandomRollOpcode v
  | OP_RAID_TARGET_UPDATE => HandleRaidTargetUpdateOpcode
  | CMSG_GROUP_RAID_CONVERT => HandleGroupRaidConvertOpcode v
  | CMSG_GROUP_CHANGE_SUB_GROUP => HandleGroupChangeSubGroupOpcode v
  | CMSG_GROUP_ASSISTANT_LEADER => HandleGroupAssistantLeaderOpcode v
  | OP_PARTY_ASSIGNMENT => HandlePartyAssignmentOpcode v
  | OP_RAID_READY_CHECK => HandleRaidReadyCheckOpcode
  | CMSG_GROUP_SET_ROLES => HandleGroupSetRoles v
  | CMSG_OPT_OUT_OF_LOOT => HandleOptOutOfLootOpcode
  end.

(** A packet is handled while its player is in the world ([STATUS_LOGGEDIN]). *)
Definition run_party_step (st : party_step) : GM unit :=
  match st with
  | Packet u op data => if_in_world u (fun _ => handle op u data)
  | Login u name => LoginPlayer v u name
  | Logout u bg socket => LogoutPlayer v u bg socket
  | Travel u arrived => upd_player u (set_inWorld arrived)
  | EnterBg u k => if_in_world u (fun _ => AddOrSetPlayerToCorrectBgGroup v u k)
  | LeaveBg u k => RemoveFromBgRaid v u k
  | LootOpened u ifneed => with_own_group u (fun g _ => UpdateLooterGuid v g ifneed)
  | JoinLfg u => with_own_group u (fun g _ => ConvertToLFG v g)
  end.

End steps.

Definition empty_world : World := mkWorld ∅ ∅ ∅ ∅ ∅ 1 1 1 ∅ 1.

