(* ===== verification/PartySample.v ===== *)
(** * A server for the examples of parties

    A small configuration of what the party code reads of the rest of the server,
    and the packets and runs the examples use. *)
From S2P Require Import Prelude Text ByteBuffer Rolls Group Party.

Definition sample_view : GroupView := {|
  CONFIG_ALLOW_GM_GROUP := true;
  CONFIG_ALLOW_TWO_SIDE_INTERACTION_GROUP := true;
  isGameMaster _ := false;
  GetTeam _ := 469;
  GetInstanceId _ := 0;
  GetMapId _ := 0;
  MapIsDungeon _ := false;
  player_DungeonDifficulty _ := 0;
  player_RaidDifficulty _ := 0;
  getLevel _ := 80;
  GetEnchanting _ := 0;
  InBattleground _ := false;
  isInCombat _ := false;
  HasIgnore _ _ := false;
  BoundHere _ _ := false;
  InSight _ _ := true;
  NearLoot _ := true;
  party_stats _ := Pkt 0 [];
  GetPlayerGUIDByName _ := 0;
  lfg_GetState _ := 0;
  lfg_GetDungeon _ := 0;
  lfg_GetKicksLeft _ := 0;
  lfg_GetVotesNeeded _ := 0;
  group_urand low _ := low;
  rolls_view := {|
    InWorld _ := true;
    HasSession _ := true;
    GetItemPrototype _ := None;
    urand _ := 1;
    CanStoreNewItem _ _ _ := 0;
    AllowedForPlayer _ _ := true;
    CanUseItem _ _ := true;
    IsWithinDist _ := true;
    GetPassOnGroupLoot _ := false;
    looted_kind := LootedCreature;
    looted_map := 0
  |}
|}.

Definition packet_of (l : list Z) : ByteBuffer := mkBuf 0 (Z.of_nat (length l)) l.
Definition invite (name : list Z) : ByteBuffer := packet_of (name ++ [0; 0; 0; 0; 0]).
Definition word (n : Z) : ByteBuffer := packet_of (le_encode 4 n).

Definition run_steps `{!Utf8Lib} (v : GroupView) (l : list party_step) (s : World) : World :=
  foldl (fun s st => run_state (run_party_step v st) s) s l.
(** The events of the last step. *)
Definition log_after `{!Utf8Lib} (v : GroupView) (l : list party_step) (st : party_step) (s : World) : list group_event :=
  run_log (run_party_step v st) (run_steps v l s).

Definition three_online : list party_step :=
  [Login 1 (text "Arthas"); Login 2 (text "Jaina"); Login 3 (text "Thrall")].
Definition party_of_two : list party_step :=
  three_online ++ [Packet 1 CMSG_GROUP_INVITE (invite (text "jaina")); Packet 2 CMSG_GROUP_ACCEPT (word 0)].
Definition party_of_three : list party_step :=
  party_of_two ++ [Packet 1 CMSG_GROUP_INVITE (invite (text "thrall")); Packet 3 CMSG_GROUP_ACCEPT (word 0)].
Definition raid_of_three : list party_step :=
  party_of_three ++ [Packet 1 CMSG_GROUP_RAID_CONVERT (packet_of [1])].
