(* ===== verification/PartyRuns.v ===== *)
(** * What parties and raids do to the store

    The programs of [Group] and [Party] as transitions of the store.  [core] forgets what the roster does not depend on (counters of
    packets, icons, loot, difficulties); most of the code leaves it alone
    ([framed]), the rest changes it by one of a few transitions. *)
From S2P Require Import Prelude Text ByteBuffer Rolls Group Party.

Create HintDb framed.
Create Rewrite HintDb core.

(** ** The core of the state *)

Definition core_group (x : Group) : Group :=
  mkGroup (m_memberSlots x) (m_memberMgr x) (m_invitees x) (m_leaderGuid x) (m_leaderName x) (m_groupType x)
    0 0 (m_bgGroup x) [] 0 0 0 [] (m_subGroupsCounts x) (m_guid x) 0 0.
Definition core (s : World) : World :=
  mkWorld (core_group <$> groups s) (players s) (mGroupSet s) (m_BgRaids s) (group_member s) (next_group s)
    (m_hiGroupGuid s) (next_serial s) ∅ 0.

Lemma core_group_idem x : core_group (core_group x) = core_group x.
Proof. reflexivity. Qed.
Lemma core_idem s : core (core s) = core s.
Proof. unfold core. cbn [groups]. by rewrite <- map_fmap_compose. Qed.

Lemma core_lookup s g y :
  groups (core s) !! g = Some y <-> exists x, groups s !! g = Some x /\ core_group x = y.
Proof. unfold core. cbn [groups]. rewrite lookup_fmap_Some. split; intros (x & ? & ?); eauto. Qed.
Lemma core_lookup_none s g : groups (core s) !! g = None <-> groups s !! g = None.
Proof. unfold core. cbn [groups]. rewrite lookup_fmap. apply fmap_None. Qed.

(** Changing one group or one player. *)
Definition w_group (g : Z) (f : Group -> Group) (s : World) : World := on_groups (alter f g) s.
Definition w_player (u : Z) (f : Player -> Player) (s : World) : World := on_players (alter f u) s.

Definition respects (f : Group -> Group) : Prop := forall x, core_group (f x) = core_group (f (core_group x)).
Definition ignores (f : Group -> Group) : Prop := forall x, core_group (f x) = core_group x.

Lemma core_w_group g f s : respects f -> core (w_group g f s) = w_group g (core_group ∘ f) (core s).
Proof.
  intros Hf. unfold w_group, core, on_groups. cbn. f_equal. apply map_eq. intros h.
  rewrite lookup_fmap. destruct (decide (g = h)) as [<-|Hne].
  - rewrite !lookup_alter_eq, lookup_fmap. destruct (groups s !! g) as [x|]; [exact (f_equal Some (Hf x)) | done].
  - by rewrite !lookup_alter_ne, lookup_fmap.
Qed.
Lemma core_w_group_ignored g f s : ignores f -> core (w_group g f s) = core s.
Proof.
  intros Hf. unfold w_group, core, on_groups. cbn. f_equal. apply map_eq. intros h.
  rewrite !lookup_fmap. destruct (decide (g = h)) as [<-|Hne].
  - rewrite lookup_alter_eq. destruct (groups s !! g) as [x|]; [exact (f_equal Some (Hf x)) | done].
  - by rewrite lookup_alter_ne.
Qed.
Lemma core_w_player u f s : core (w_player u f s) = w_player u f (core s).
Proof. reflexivity. Qed.
Lemma core_player s u : players (core s) !! u = players s !! u.
Proof. reflexivity. Qed.

(** ** Runs of the primitives *)

Lemma rs_with_group {A} (d : A) g k s x :
  groups s !! g = Some x -> run_state (with_group d g k) s = run_state (k x) s.
Proof. intros Hx. unfold with_group. rewrite rs_with_state, Hx. reflexivity. Qed.
Lemma rv_with_group {A} (d : A) g k s x :
  groups s !! g = Some x -> run_value (with_group d g k) s = run_value (k x) s.
Proof. intros Hx. unfold with_group. rewrite rv_with_state, Hx. reflexivity. Qed.
Lemma rs_upd_group g f s : run_state (upd_group g f) s = w_group g f s.
Proof.
  unfold upd_group, with_group. rewrite rs_with_state. unfold w_group, on_groups.
  destruct (groups s !! g) as [x|] eqn:Hx.
  - rewrite rs_modify. unfold on_groups. f_equal. apply map_eq. intros h. destruct (decide (g = h)) as [<-|Hne].
    + by rewrite lookup_insert_eq, lookup_alter_eq, Hx.
    + by rewrite lookup_insert_ne, lookup_alter_ne.
  - rewrite run_state_bind, rs_emit, rs_ret. destruct s; cbn in *. f_equal. symmetry.
    apply map_eq. intros h. destruct (decide (g = h)) as [<-|Hne]; [by rewrite lookup_alter_eq, Hx | by rewrite lookup_alter_ne].
Qed.
Lemma rs_upd_player u f s : run_state (upd_player u f) s = w_player u f s.
Proof. reflexivity. Qed.
Lemma rs_with_player u k s :
  run_state (with_player u k) s = match players s !! u with Some p => run_state (k p) s | None => s end.
Proof. unfold with_player. rewrite rs_with_state. by destruct (players s !! u). Qed.
Lemma rs_if_in_world u k s :
  run_state (if_in_world u k) s = match GetPlayer s u with Some p => run_state (k p) s | None => s end.
Proof. unfold if_in_world. rewrite rs_with_state. by destruct (GetPlayer s u). Qed.
Lemma rs_PExecute st s : run_state (PExecute st) s = on_group_member (execute_on st) s.
Proof. reflexivity. Qed.

(** ** Programs that leave the core alone *)

Definition framed {A} (m : GM A) : Prop := forall s, core (run_state m s) = core s.

Lemma framed_ret {A} (a : A) : framed (ret a).
Proof. intros s. reflexivity. Qed.
Lemma framed_emit e : framed (emit e).
Proof. intros s. reflexivity. Qed.
Lemma framed_bind {A C} (m : GM A) (k : A -> GM C) : framed m -> (forall a, framed (k a)) -> framed (bind m k).
Proof. intros Hm Hk s. rewrite run_state_bind, Hk. apply Hm. Qed.
Lemma framed_when b m : framed m -> framed (when b m).
Proof. intros Hm. destruct b; [exact Hm | apply framed_ret]. Qed.
Lemma framed_for_each {A} (l : list A) (f : A -> GM unit) : (forall x, framed (f x)) -> framed (for_each l f).
Proof. intros Hf. induction l as [|x l IH]; [apply framed_ret | apply framed_bind; auto]. Qed.
Lemma framed_with_state {A} (k : World -> GM A) : (forall s, framed (k s)) -> framed (with_state k).
Proof. intros Hk s. apply Hk. Qed.
Lemma framed_with_group {A} (d : A) g k : (forall x, framed (k x)) -> framed (with_group d g k).
Proof. intros Hk. apply framed_with_state. intros s. destruct (groups s !! g); [apply Hk|]. by intros t. Qed.
Lemma framed_upd_group g f : ignores f -> framed (upd_group g f).
Proof. intros Hf s. rewrite rs_upd_group. by apply core_w_group_ignored. Qed.
Lemma framed_with_player u k : (forall p, framed (k p)) -> framed (with_player u k).
Proof. intros Hk. apply framed_with_state. intros s. destruct (players s !! u); [apply Hk | apply framed_ret]. Qed.
Lemma framed_with_source u k : (forall p, framed (k p)) -> framed (with_source u k).
Proof. intros Hk. apply framed_with_state. intros s. destruct (players s !! u); [apply Hk | apply framed_emit]. Qed.
Lemma framed_if_in_world u k : (forall p, framed (k p)) -> framed (if_in_world u k).
Proof. intros Hk. apply framed_with_state. intros s. destruct (GetPlayer s u); [apply Hk | apply framed_ret]. Qed.
Lemma framed_execute st : (forall t, execute_on st t = t) -> framed (PExecute st).
Proof.
  intros Hst s. rewrite rs_PExecute. unfold core, on_group_member. cbn. by rewrite Hst.
Qed.
#[export] Hint Resolve framed_ret framed_emit framed_bind framed_when framed_for_each framed_with_state
  framed_with_group framed_upd_group framed_with_player framed_with_source framed_if_in_world : framed.
#[export] Hint Extern 1 (ignores _) => (intros ?; reflexivity) : framed.
#[export] Hint Extern 1 (framed (PExecute _)) => (apply framed_execute; reflexivity) : framed.
#[export] Hint Extern 2 (framed (if ?b then _ else _)) => destruct b : framed.
#[export] Hint Extern 2 (framed (match ?x with _ => _ end)) => destruct x : framed.

Lemma framed_bind_l {A C} (m : GM A) (k : A -> GM C) s :
  (forall a, framed (k a)) -> core (run_state (bind m k) s) = core (run_state m s).
Proof. intros Hk. by rewrite run_state_bind, Hk. Qed.

Section framed.
Context (v : GroupView).
Lemma framed_SendUpdate g : framed (SendUpdate v g).
Proof. unfold SendUpdate. auto 20 with framed. Qed.
Lemma framed_send_no_group g u : framed (send_no_group g u).
Proof. unfold send_no_group. auto with framed. Qed.
Lemma framed_BroadcastPacket g data b gr ig : framed (BroadcastPacket g data b gr ig).
Proof. unfold BroadcastPacket. auto 20 with framed. Qed.
Lemma framed_BroadcastReadyCheck g data : framed (BroadcastReadyCheck g data).
Proof. unfold BroadcastReadyCheck. auto 20 with framed. Qed.
Lemma framed_UpdatePlayerOutOfRange g u : framed (UpdatePlayerOutOfRange v g u).
Proof. unfold UpdatePlayerOutOfRange. auto 20 with framed. Qed.
Lemma framed_BroadcastGroupUpdate g : framed (BroadcastGroupUpdate g).
Proof. unfold BroadcastGroupUpdate. auto 20 with framed. Qed.
Lemma framed_raise_enchanting g u : framed (raise_enchanting v g u).
Proof. apply framed_upd_group. intros x. by case_match. Qed.
End framed.
#[export] Hint Resolve framed_SendUpdate framed_send_no_group framed_BroadcastPacket framed_BroadcastReadyCheck
  framed_UpdatePlayerOutOfRange framed_BroadcastGroupUpdate framed_raise_enchanting : framed.

Section framed2.
Context (v : GroupView).
Lemma framed_OfflineReadyCheck g : framed (OfflineReadyCheck g).
Proof. unfold OfflineReadyCheck. auto 20 with framed. Qed.
Lemma framed_SendTargetIconList g u : framed (SendTargetIconList g u).
Proof. unfold SendTargetIconList. auto with framed. Qed.
Lemma framed_put_icon g id who target : framed (put_icon g id who target).
Proof. unfold put_icon. auto with framed. Qed.
Lemma framed_SetTargetIcon g id who target : framed (SetTargetIcon g id who target).
Proof.
  unfold SetTargetIcon. case_match; [auto with framed|].
  apply framed_bind; [|intros _; apply framed_put_icon].
  apply framed_when, framed_for_each. intros i. apply framed_with_group. intros x.
  apply framed_when, framed_put_icon.
Qed.
Lemma framed_ResetMaxEnchantingLevel g : framed (ResetMaxEnchantingLevel v g).
Proof. unfold ResetMaxEnchantingLevel. auto 20 with framed. Qed.
Lemma framed_homebind u : framed (_homebindIfInstance v u).
Proof. unfold _homebindIfInstance. auto with framed. Qed.
Lemma framed_tell_out g u : framed (tell_out v g u).
Proof. unfold tell_out. auto with framed. Qed.
Lemma framed_check_group o : framed (check_group o).
Proof. unfold check_group. auto with framed. Qed.
Lemma framed_run_rolls g m : framed (run_rolls v g m).
Proof.
  unfold run_rolls. apply framed_with_group. intros x. apply framed_with_state. intros s.
  apply framed_bind; [|auto with framed]. intros t. rewrite rs_modify. unfold set_loot_state.
  set (l := RollId _). exact (core_w_group_ignored g (set_g_rolls l) t (fun _ => eq_refl)).
Qed.
Lemma framed_update_type g x : framed (update_type g x).
Proof. unfold update_type. auto with framed. Qed.
Lemma framed_update_quest x : framed (update_quest_objects x).
Proof. unfold update_quest_objects. auto 20 with framed. Qed.
Lemma framed_UpdateLooterGuid g b : framed (UpdateLooterGuid v g b).
Proof. unfold UpdateLooterGuid, set_looter. auto 20 with framed. Qed.
Lemma framed_for_linked g call : (forall u, framed (call u)) -> framed (for_linked v g call).
Proof. unfold for_linked. auto 20 with framed. Qed.
Lemma framed_find_invited test l : framed (find_invited test l).
Proof. induction l as [|ptr l IH]; cbn [find_invited]; auto 20 with framed. Qed.
End framed2.
#[export] Hint Resolve framed_OfflineReadyCheck framed_SendTargetIconList framed_SetTargetIcon
  framed_ResetMaxEnchantingLevel framed_homebind framed_tell_out framed_check_group framed_run_rolls
  framed_update_type framed_update_quest framed_UpdateLooterGuid framed_for_linked framed_find_invited : framed.

(** ** Runs on the core

    [execs m c a c']: from every state with core [c], [m] returns [a] and ends in
    a state with core [c']. *)

Definition execs {A} (m : GM A) (c : World) (a : A) (c' : World) : Prop :=
  forall s, core s = c -> run_value m s = a /\ core (run_state m s) = c'.

Lemma execs_ret {A} (a : A) c : execs (ret a) c a c.
Proof. intros s Hs. split; [reflexivity | exact Hs]. Qed.
Lemma execs_bind {A B} (m : GM A) (k : A -> GM B) c a c1 b c2 :
  execs m c a c1 -> execs (k a) c1 b c2 -> execs (bind m k) c b c2.
Proof.
  intros Hm Hk s Hs. destruct (Hm s Hs) as [Ha H1]. rewrite run_value_bind, run_state_bind, Ha.
  by apply Hk.
Qed.
Lemma execs_framed (m : GM unit) c : framed m -> execs m c tt c.
Proof. intros Hm s Hs. split; [by destruct (run_value m s) | by rewrite Hm]. Qed.
(** A step that leaves the core alone, first or last. *)
Lemma execs_skip {B} (m : GM unit) (k : unit -> GM B) c b c2 :
  framed m -> execs (k tt) c b c2 -> execs (bind m k) c b c2.
Proof. intros Hm. apply execs_bind, execs_framed, Hm. Qed.
Lemma execs_then (m k : GM unit) c c2 : framed k -> execs m c tt c2 -> execs (m ;; k) c tt c2.
Proof. intros Hk Hm. eapply execs_bind; [exact Hm | by apply execs_framed]. Qed.
Lemma execs_with_state {A} (k : World -> GM A) c a c' :
  (forall s, core s = c -> execs (k s) c a c') -> execs (with_state k) c a c'.
Proof. intros Hk s Hs. exact (Hk s Hs s Hs). Qed.
Lemma execs_with_group {A} (d : A) g k c x a c' :
  groups c !! g = Some x -> (forall y, core_group y = x -> execs (k y) c a c') -> execs (with_group d g k) c a c'.
Proof.
  intros Hx Hk. apply execs_with_state. intros s <-. apply core_lookup in Hx as (y & Hy & Hc).
  rewrite Hy. by apply Hk.
Qed.
Lemma execs_upd_group g f f' c :
  (forall x, core_group (f x) = f' (core_group x)) -> execs (upd_group g f) c tt (w_group g f' c).
Proof.
  intros Hf s <-. split; [by destruct (run_value _ _)|]. rewrite rs_upd_group, core_w_group.
  - unfold w_group, on_groups. f_equal. apply map_eq. intros h. destruct (decide (g = h)) as [<-|Hne].
    + rewrite !lookup_alter_eq. unfold core. cbn [groups]. rewrite lookup_fmap.
      destruct (groups s !! g) as [x|]; [|done]. apply (f_equal Some). exact (Hf (core_group x)).
    + by rewrite !lookup_alter_ne.
  - intros x. by rewrite !Hf.
Qed.
Lemma execs_upd_same g f c :
  (forall x, core_group (f x) = f (core_group x)) -> execs (upd_group g f) c tt (w_group g f c).
Proof. apply execs_upd_group. Qed.
Lemma execs_upd_player u f c : execs (upd_player u f) c tt (w_player u f c).
Proof. intros s <-. split; reflexivity. Qed.
Lemma execs_with_player u k c p c' :
  players c !! u = Some p -> execs (k p) c tt c' -> execs (with_player u k) c tt c'.
Proof. intros Hp Hk. apply execs_with_state. intros s <-. rewrite core_player in Hp. by rewrite Hp. Qed.
Lemma execs_if_in_world u k c p c' :
  players c !! u = Some p -> p_inWorld p = true -> execs (k p) c tt c' -> execs (if_in_world u k) c tt c'.
Proof.
  intros Hp Hw Hk. apply execs_with_state. intros s <-. rewrite core_player in Hp.
  unfold GetPlayer. by rewrite Hp, Hw.
Qed.
Lemma execs_not_in_world u k c : players c !! u = None -> execs (if_in_world u k) c tt c.
Proof.
  intros Hp. apply execs_with_state. intros s <-. rewrite core_player in Hp.
  unfold GetPlayer. rewrite Hp. apply execs_ret.
Qed.
Lemma execs_PExecute st c : execs (PExecute st) c tt (on_group_member (execute_on st) c).
Proof. intros s <-. split; reflexivity. Qed.
Lemma execs_group_set f c : execs (modify (on_group_set f)) c tt (on_group_set f c).
Proof. intros s <-. split; reflexivity. Qed.
Lemma execs_modify f c : (forall s, core (f s) = f (core s)) -> execs (modify f) c tt (f c).
Proof. intros Hf s <-. split; [reflexivity | apply Hf]. Qed.
Lemma execs_eq {A} (m : GM A) c a a' c1 c2 : execs m c a c1 -> a = a' -> c1 = c2 -> execs m c a' c2.
Proof. by intros ? <- <-. Qed.

(** ** Worlds built by transitions *)

Lemma w_groups_same g f c : groups (w_group g f c) !! g = f <$> groups c !! g.
Proof. apply lookup_alter_eq. Qed.
Lemma w_groups_other g h f c : g <> h -> groups (w_group g f c) !! h = groups c !! h.
Proof. apply lookup_alter_ne. Qed.
Lemma w_players_same u f c : players (w_player u f c) !! u = f <$> players c !! u.
Proof. apply lookup_alter_eq. Qed.
Lemma w_players_other u w f c : u <> w -> players (w_player u f c) !! w = players c !! w.
Proof. apply lookup_alter_ne. Qed.
Lemma w_group_fuse g f f' c : w_group g f (w_group g f' c) = w_group g (f ∘ f') c.
Proof. unfold w_group, on_groups. cbn. by rewrite alter_twice. Qed.
Lemma w_player_fuse u f f' c : w_player u f (w_player u f' c) = w_player u (f ∘ f') c.
Proof. unfold w_player, on_players. cbn. by rewrite alter_twice. Qed.
Lemma w_player_group u g f f' c : w_player u f (w_group g f' c) = w_group g f' (w_player u f c).
Proof. reflexivity. Qed.
Lemma w_group_player_comm u g f f' c : w_group g f (w_player u f' c) = w_player u f' (w_group g f c).
Proof. reflexivity. Qed.
Lemma w_group_member g f f' c : on_group_member f (w_group g f' c) = w_group g f' (on_group_member f c).
Proof. reflexivity. Qed.
Lemma w_group_ext g f f' c :
  (forall x, groups c !! g = Some x -> f x = f' x) -> w_group g f c = w_group g f' c.
Proof.
  intros Hf. unfold w_group, on_groups. f_equal. apply map_eq. intros h. destruct (decide (g = h)) as [<-|Hne].
  - rewrite !lookup_alter_eq. destruct (groups c !! g) as [x|] eqn:Hx; [|done]. cbn. by rewrite Hf.
  - by rewrite !lookup_alter_ne.
Qed.
Lemma w_player_ext u f f' c :
  (forall p, players c !! u = Some p -> f p = f' p) -> w_player u f c = w_player u f' c.
Proof.
  intros Hf. unfold w_player, on_players. f_equal. apply map_eq. intros h. destruct (decide (u = h)) as [<-|Hne].
  - rewrite !lookup_alter_eq. destruct (players c !! u) as [x|] eqn:Hx; [|done]. cbn. by rewrite Hf.
  - by rewrite !lookup_alter_ne.
Qed.
Lemma w_player_id u f c : (forall p, players c !! u = Some p -> f p = p) -> w_player u f c = c.
Proof.
  intros Hf. rewrite (w_player_ext u f id) by done. unfold w_player, on_players.
  replace (alter id u (players c)) with (players c); [by destruct c|].
  apply map_eq. intros h. destruct (decide (u = h)) as [<-|Hne].
  - rewrite lookup_alter_eq. by destruct (players c !! u).
  - by rewrite lookup_alter_ne.
Qed.
#[export] Hint Rewrite w_groups_same w_players_same : core.

(** ** Transitions: links and members *)

Definition add_link (u : Z) (x : Group) : Group := set_memberMgr ((u, false) :: m_memberMgr x) x.
Definition drop_link (u : Z) (x : Group) : Group :=
  set_memberMgr (filter (fun r => r <> (u, false)) (m_memberMgr x)) x.
Definition joined (g sub : Z) (p : Player) : Player := set_ref false (mkRef (Some g) sub) p.
Definition unjoined (p : Player) : Player := set_ref_to false None p.
Definition count_in (d sub : Z) (x : Group) : Group := set_subGroupsCounts (count_at (Z.add d) sub x) x.
Definition push_member (u : Z) (name : list Z) (sub : Z) (x : Group) : Group :=
  set_memberSlots (m_memberSlots x ++ [mkSlot u name sub 0 0]) x.
Definition drop_member (u : Z) (x : Group) : Group := set_memberSlots (erase_slot u (m_memberSlots x)) x.

(** A party player: in the world, outside battlegrounds. *)
Definition party_player (p : Player) : Prop := p_inWorld p = true /\ GetOriginalGroup p = None.

Definition has_counter (sub : Z) (x : Group) : Prop :=
  match m_subGroupsCounts x with Some counts => is_Some (counts !! Z.to_nat sub) | None => True end.

Ltac core_facts :=
  cbn [core_group m_memberSlots m_memberMgr m_invitees m_leaderGuid m_leaderName m_groupType m_bgGroup
       m_subGroupsCounts m_guid] in *.

Lemma execs_unlink_none u o c p :
  players c !! u = Some p -> iRefTo (the_ref o p) = None -> execs (unlink u o) c tt c.
Proof.
  intros Hp Hn. eapply execs_with_player; [exact Hp|]. rewrite Hn.
  eapply execs_bind; [apply execs_ret|].
  eapply execs_eq; [apply execs_upd_player | reflexivity|]. apply w_player_id. intros q Hq.
  rewrite Hp in Hq. injection Hq as <-. unfold set_ref_to.
  destruct o, p as [? ? ? [] [] ?]; cbn in *; by rewrite Hn.
Qed.

Lemma execs_unlink u c p g :
  players c !! u = Some p -> GetGroup p = Some g ->
  execs (unlink u false) c tt (w_player u unjoined (w_group g (drop_link u) c)).
Proof.
  intros Hp Hg. eapply execs_with_player; [exact Hp|]. cbn [the_ref]. unfold GetGroup in Hg. rewrite Hg.
  eapply execs_bind; [apply (execs_upd_group g _ (drop_link u)); reflexivity | apply execs_upd_player].
Qed.

Lemma execs_SetGroup_leave u c p g :
  players c !! u = Some p -> GetGroup p = Some g ->
  execs (SetGroup u None 0) c tt (w_player u unjoined (w_group g (drop_link u) c)).
Proof. intros Hp Hg. apply execs_then; [auto with framed|]. by eapply execs_unlink. Qed.

Lemma s8_small sub : 0 <= sub < 128 -> s8 sub = sub.
Proof. intros H. apply swrap_id; [lia|]. unfold in_s. lia. Qed.

Lemma execs_SetGroup_join u c p g sub :
  players c !! u = Some p -> GetGroup p = None -> 0 <= sub < 128 ->
  execs (SetGroup u (Some g) sub) c tt (w_group g (add_link u) (w_player u (joined g sub) c)).
Proof.
  intros Hp Hg Hs. unfold SetGroup. rewrite s8_small by done.
  replace (sub <? 0) with false by (symmetry; apply Z.ltb_ge; lia).
  eapply execs_bind.
  { eapply execs_bind; [by eapply execs_unlink_none|].
    eapply execs_bind; [apply execs_upd_player | apply (execs_upd_group g _ (add_link u)); reflexivity]. }
  apply execs_then; [auto with framed|].
  eapply execs_eq; [apply execs_upd_player | reflexivity |].
  rewrite w_player_group. f_equal. rewrite w_player_fuse. apply w_player_ext. intros q _.
  unfold joined, setSubGroup, set_ref_to. cbn. by rewrite u8_small by lia.
Qed.

Lemma execs_bump d g sub c x :
  groups c !! g = Some x -> has_counter sub x -> execs (bump_counter d g sub) c tt (w_group g (count_in d sub) c).
Proof.
  intros Hx Hc. eapply execs_with_group; [exact Hx|]. intros y <-. core_facts. unfold has_counter in Hc. cbn in Hc.
  assert (Hext : forall o, o = count_at (Z.add d) sub y ->
      w_group g (set_subGroupsCounts o) c = w_group g (count_in d sub) c).
  { intros o ->. apply w_group_ext. intros z Hz. rewrite Hx in Hz. by injection Hz as <-. }
  destruct (m_subGroupsCounts y) as [counts|] eqn:E.
  - destruct Hc as [n Hn]. rewrite Hn.
    eapply execs_eq; [apply execs_upd_same; reflexivity | reflexivity | by apply Hext].
  - eapply execs_eq; [apply execs_ret | reflexivity|]. rewrite <- (Hext None) by (unfold count_at; by rewrite E).
    symmetry. replace c with (w_group g id c) at 2.
    + apply w_group_ext. intros z Hz. rewrite Hx in Hz. injection Hz as <-. unfold set_subGroupsCounts, core_group.
      cbn. by rewrite E.
    + unfold w_group, on_groups. replace (alter id g (groups c)) with (groups c); [by destruct c|].
      apply map_eq. intros h. destruct (decide (g = h)) as [<-|Hne];
        [rewrite lookup_alter_eq; by destruct (groups c !! g) | by rewrite lookup_alter_ne].
Qed.

(** A new member: the slot, the counter, the link and the row. *)
Definition insert_row (low u : Z) (t : gmap Z Z) : gmap Z Z := execute_on (InsertMember low (GUID_LOPART u) 0 0 0) t.
Definition add_member (u : Z) (name : list Z) (sub : Z) (x : Group) : Group :=
  add_link u (count_in 1 sub (push_member u name sub x)).
Definition entered (g sub : Z) (p : Player) : Player := joined g sub (set_groupInvite None p).
Definition t_add (low g u : Z) (name : list Z) (sub : Z) (c : World) : World :=
  on_group_member (insert_row low u)
    (w_group g (add_member u name sub) (w_player u (entered g sub) c)).

Lemma ignores_reset_icons : ignores reset_icons.
Proof. intros x. unfold reset_icons. by destruct (isRaidGroup x). Qed.
#[local] Hint Resolve ignores_reset_icons : framed.

Section members.
Context (v : GroupView).

Lemma execs_addMember_at g u name sub c x p :
  groups c !! g = Some x -> m_bgGroup x = None -> IsFull x = false -> has_counter sub x ->
  u <> 0 -> 0 <= sub < 8 -> players c !! u = Some p -> party_player p -> GetGroup p = None ->
  execs (_addMember_at v g u name sub) c true (t_add (GetLowGUID x) g u name sub c).
Proof.
  intros Hx Hbg Hfull Hc Hu Hsub Hp [Hw Ho] Hg.
  eapply execs_with_group; [exact Hx|]. intros y <-. core_facts.
  change (IsFull (core_group y)) with (IsFull y) in Hfull. rewrite Hfull, (proj2 (Z.eqb_neq _ _) Hu).
  eapply execs_bind; [apply (execs_upd_same g (push_member u name sub)); reflexivity|].
  eapply execs_bind.
  { eapply execs_bump; [by rewrite w_groups_same, Hx | exact Hc]. }
  eapply execs_bind.
  { eapply execs_if_in_world; [exact Hp | exact Hw|].
    eapply execs_bind; [apply execs_upd_player|].
    apply execs_then; [auto with framed|].
    eapply execs_with_player; [rewrite w_players_same; cbn [players w_group on_groups]; by rewrite Hp|].
    change (GetGroup (set_groupInvite None p)) with (GetGroup p). rewrite Hg. cbn [bool_decide].
    rewrite bool_decide_eq_false_2 by (by intros []). cbn [andb].
    eapply execs_SetGroup_join; [rewrite w_players_same; cbn [players w_group on_groups]; by rewrite Hp | exact Hg | lia]. }
  apply execs_skip; [auto with framed|].
  unfold isBGGroup. rewrite Hbg, bool_decide_eq_false_2 by (by intros []). cbn [negb when].
  eapply execs_bind; [apply execs_PExecute|].
  eapply execs_eq; [apply execs_ret | reflexivity|].
  unfold t_add. f_equal. rewrite !w_player_group. rewrite !w_group_fuse, w_player_fuse. reflexivity.
Qed.

Definition good_counts (x : Group) : Prop :=
  match m_subGroupsCounts x with Some counts => length counts = MAX_RAID_SUBGROUPS | None => True end.

Lemma free_subgroup_ok x sub :
  good_counts x -> free_subgroup x = Some sub -> 0 <= sub < 8 /\ has_counter sub x.
Proof.
  unfold good_counts, free_subgroup, has_counter. intros Hlen.
  destruct (m_subGroupsCounts x) as [counts|]; [|intros [= <-]; by split; [lia|]].
  intros ([i n] & (Hi & _ & _)%list_find_Some & ->)%fmap_Some. cbn [fst].
  apply lookup_lt_Some in Hi as Hlt. rewrite Hlen in Hlt. unfold MAX_RAID_SUBGROUPS in Hlt.
  rewrite Nat2Z.id. split; [lia | by exists n].
Qed.

(** Who may be added, and what [AddMember] does then. *)
Definition addable (c : World) (g u : Z) (x : Group) (sub : Z) : Prop :=
  groups c !! g = Some x /\ m_bgGroup x = None /\ IsFull x = false /\ good_counts x /\
  free_subgroup x = Some sub /\ u <> 0 /\
  exists p, players c !! u = Some p /\ party_player p /\ GetGroup p = None.

Lemma execs_addMember g u name sub c x :
  addable c g u x sub -> execs (_addMember v g u name) c true (t_add (GetLowGUID x) g u name sub c).
Proof.
  intros (Hx & Hbg & Hfull & Hc & Hs & Hu & p & Hp & Hpp & Hg).
  eapply execs_with_group; [exact Hx|]. intros y <-.
  change (free_subgroup (core_group y)) with (free_subgroup y) in Hs. rewrite Hs.
  destruct (free_subgroup_ok _ _ Hc Hs) as [Hr Hhc].
  by eapply execs_addMember_at.
Qed.

Lemma framed_new_member g u :
  framed (if_in_world u (fun _ =>
    with_group tt g (fun x =>
      when (negb (IsLeader x u) && negb (isBGGroup x))
        (emit (PlayerCall u (ResetPlayerInstances false)) ;;
         emit (PlayerCall u (ResetPlayerInstances true)) ;;
         when (LEVELREQUIREMENT_HEROIC <=? getLevel v u)
           (when (negb (player_DungeonDifficulty v u =? m_dungeonDifficulty x))
              (emit (PlayerCall u (SetDungeonDifficulty (m_dungeonDifficulty x)))) ;;
            when (negb (player_RaidDifficulty v u =? m_raidDifficulty x))
              (emit (PlayerCall u (SetRaidDifficulty (m_raidDifficulty x)))))) ;;
      emit (PlayerCall u (SetGroupUpdateFlag GROUP_UPDATE_FULL)) ;;
      UpdatePlayerOutOfRange v g u ;;
      when (isRaidGroup x) (emit (PlayerCall u UpdateForQuestWorldObjects)) ;;
      raise_enchanting v g u))).
Proof. auto 20 with framed. Qed.

Lemma execs_AddMember g u name sub c x :
  addable c g u x sub -> execs (AddMember v g u name) c true (t_add (GetLowGUID x) g u name sub c).
Proof.
  intros Ha. eapply execs_bind; [by eapply execs_addMember|]. cbn [negb].
  apply execs_skip; [auto with framed|]. apply execs_skip; [auto with framed|].
  apply execs_skip; [apply framed_new_member|]. apply execs_ret.
Qed.

(** A raid without a free subgroup turns the player away. *)
Lemma execs_AddMember_full g u name c x :
  groups c !! g = Some x -> free_subgroup x = None -> execs (AddMember v g u name) c false c.
Proof.
  intros Hx Hf. apply (execs_bind _ _ _ false c); [|apply execs_ret].
  eapply execs_with_group; [exact Hx|]. intros y <-.
  change (free_subgroup (core_group y)) with (free_subgroup y) in Hf. rewrite Hf. apply execs_ret.
Qed.

End members.
(** ** Transitions: leaving *)

(** The member of the slot [m] becomes the leader; he is no assistant any more. *)
Definition led_by (m : MemberSlot) (x : Group) : Group :=
  set_memberSlots (update_slot (ms_guid m) (ToggleGroupMemberFlag MEMBER_FLAG_ASSISTANT false) (m_memberSlots x))
    (set_leader (ms_guid m) (ms_name m) x).
Definition led_by_first (x : Group) : Group :=
  match m_memberSlots x with first :: _ => led_by first x | [] => x end.
Definition take_out (u sub : Z) (x : Group) : Group :=
  let y := drop_member u (count_in (-1) sub x) in
  if m_leaderGuid x =? u then led_by_first y else y.

(** The reference of an online member is cut. *)
Definition leave_one (g u : Z) (c : World) : World :=
  match players c !! u with
  | Some _ => w_player u unjoined (w_group g (drop_link u) c)
  | None => c
  end.
Definition t_remove (g u sub : Z) (c : World) : World :=
  on_group_member (delete (GUID_LOPART u)) (w_group g (take_out u sub) (leave_one g u c)).

(** A member of [g], online or not: his reference leads to the group. *)
Definition linked_to (c : World) (g u : Z) : Prop :=
  forall p, players c !! u = Some p -> party_player p /\ GetGroup p = Some g.

Lemma update_slot_ext u f f' slots :
  (forall m, f m = f' m) -> update_slot u f slots = update_slot u f' slots.
Proof. intros Hf. induction slots as [|m slots IH]; cbn; [done|]. by rewrite IH, Hf. Qed.

Section leaving.
Context (v : GroupView).

Lemma execs_leave_links g u c p :
  players c !! u = Some p -> party_player p -> GetGroup p = Some g ->
  execs (leave_links g false u) c tt (leave_one g u c).
Proof.
  intros Hp [Hw Ho] Hg. eapply execs_with_player; [exact Hp|]. rewrite Ho, bool_decide_eq_false_2 by done.
  unfold leave_one. rewrite Hp. by eapply execs_SetGroup_leave.
Qed.

Lemma execs_if_online g u c (k : Player -> GM unit) :
  linked_to c g u ->
  (forall p, players c !! u = Some p -> party_player p -> GetGroup p = Some g -> execs (k p) c tt (leave_one g u c)) ->
  execs (if_in_world u k) c tt (leave_one g u c).
Proof.
  intros Hl Hk. destruct (players c !! u) as [p|] eqn:Hp.
  - destruct (Hl p Hp) as [Hpp Hg]. eapply execs_if_in_world; [exact Hp | apply Hpp | by apply Hk].
  - unfold leave_one. rewrite Hp. by apply execs_not_in_world.
Qed.

Lemma execs_setLeader g u c x m :
  groups c !! g = Some x -> m_bgGroup x = None -> _getMemberSlot u (m_memberSlots x) = Some m -> ms_guid m = u ->
  execs (_setLeader g u) c tt (w_group g (led_by m) c).
Proof.
  intros Hx Hbg Hs <-. eapply execs_with_group; [exact Hx|]. intros y <-. core_facts. rewrite Hs.
  unfold isBGGroup. rewrite Hbg, bool_decide_eq_false_2 by (by intros []). cbn [negb when].
  apply execs_skip; [auto with framed|]. apply execs_skip; [auto with framed|].
  eapply execs_bind; [apply execs_upd_same; reflexivity|].
  eapply execs_eq; [apply execs_upd_same; reflexivity | reflexivity|].
  rewrite w_group_fuse. by apply w_group_ext.
Qed.
Lemma execs_setLeader_first g c x first rest :
  groups c !! g = Some x -> m_bgGroup x = None -> m_memberSlots x = first :: rest ->
  execs (_setLeader g (ms_guid first)) c tt (w_group g led_by_first c).
Proof.
  intros Hx Hbg Hs. eapply execs_eq; [eapply (execs_setLeader g (ms_guid first) c x first); try done | done|].
  - unfold _getMemberSlot. by rewrite Hs, filter_cons_True.
  - apply w_group_ext. intros z Hz. rewrite Hx in Hz. injection Hz as <-. unfold led_by_first. by rewrite Hs.
Qed.

Definition reads_sub (u sub : Z) (x : Group) : Prop :=
  exists m, _getMemberSlot u (m_memberSlots x) = Some m /\ ms_group m = sub.

Lemma groups_leave_one g u c x :
  groups c !! g = Some x -> exists mgr, groups (leave_one g u c) !! g = Some (set_memberMgr mgr x).
Proof.
  intros Hx. unfold leave_one. destruct (players c !! u).
  - eexists. cbn [w_player on_players groups]. rewrite w_groups_same, Hx. reflexivity.
  - exists (m_memberMgr x). rewrite Hx. by destruct x.
Qed.

Lemma has_counter_mgr sub mgr x : has_counter sub (set_memberMgr mgr x) = has_counter sub x.
Proof. reflexivity. Qed.

Lemma execs_removeMember g u sub c x :
  groups c !! g = Some x -> m_bgGroup x = None -> linked_to c g u -> reads_sub u sub x -> has_counter sub x ->
  (2 <= length (m_memberSlots x))%nat ->
  execs (_removeMember v g u) c (m_leaderGuid x =? u) (t_remove g u sub c).
Proof.
  intros Hx Hbg Hl (m & Hm & Hms) Hc Hlen. eapply execs_with_group; [exact Hx|]. intros y <-.
  destruct (groups_leave_one g u c _ Hx) as [mgr H1].
  replace (isBGGroup y) with false
    by (unfold isBGGroup; core_facts; rewrite Hbg, bool_decide_eq_false_2; [done | by intros []]).
  core_facts.
  eapply execs_bind.
  { apply execs_if_online; [exact Hl|]. intros p. apply execs_leave_links. }
  apply execs_skip; [auto with framed|].
  eapply execs_bind.
  { eapply execs_with_group; [exact H1|]. intros z Hz.
    assert (Hzs : m_memberSlots z = m_memberSlots y) by apply (f_equal m_memberSlots Hz).
    rewrite Hzs, Hm, Hms.
    eapply execs_bind; [eapply execs_bump; [exact H1 | exact Hc]|].
    apply (execs_upd_same g (drop_member u)). reflexivity. }
  cbn [negb when].
  eapply execs_bind; [apply execs_PExecute|].
  set (c1 := on_group_member _ _).
  assert (H2 : groups c1 !! g = Some (drop_member u (count_in (-1) sub (set_memberMgr mgr (core_group y))))).
  { unfold c1. cbn [on_group_member groups]. by rewrite w_groups_same, w_groups_same, H1. }
  eapply execs_with_group; [exact H2|]. intros z Hz.
  assert (Hzl : m_leaderGuid z = m_leaderGuid y) by apply (f_equal m_leaderGuid Hz).
  assert (Hzs : m_memberSlots z = erase_slot u (m_memberSlots y)) by apply (f_equal m_memberSlots Hz).
  rewrite Hzl, Hzs. unfold t_remove, take_out.
  destruct (m_leaderGuid y =? u) eqn:El.
  - destruct (erase_slot u (m_memberSlots y)) as [|first rest] eqn:Ee.
    { exfalso. clear -Ee Hlen. destruct (m_memberSlots y) as [|a [|b l]]; cbn in Hlen; [lia..|].
      cbn in Ee. repeat case_match; discriminate. }
    eapply execs_bind; [eapply execs_setLeader_first; [exact H2 | exact Hbg | exact Ee]|].
    eapply execs_eq; [apply execs_ret | reflexivity|]. unfold c1.
    rewrite <- !w_group_member, !w_group_fuse. unfold execute_on. f_equal. apply w_group_ext.
    intros w Hw. rewrite H1 in Hw. injection Hw as <-. unfold compose.
    change (m_leaderGuid (set_memberMgr mgr (core_group y))) with (m_leaderGuid y). by rewrite El.
  - eapply execs_eq; [apply execs_ret | reflexivity|]. unfold c1.
    rewrite !w_group_fuse. unfold execute_on. f_equal. apply w_group_ext.
    intros w Hw. rewrite H1 in Hw. injection Hw as <-. unfold compose.
    change (m_leaderGuid (set_memberMgr mgr (core_group y))) with (m_leaderGuid y). by rewrite El.
Qed.

End leaving.
Lemma length_erase_slot u slots :
  u ∈ (ms_guid <$> slots) -> length slots = S (length (erase_slot u slots)).
Proof.
  induction slots as [|m slots IH]; cbn; [by intros ?%elem_of_nil|]. intros [E|Hin]%elem_of_cons.
  - by rewrite <- E, Z.eqb_refl.
  - case_match; [done|]. cbn. by rewrite <- IH.
Qed.
Lemma length_update_slot u f slots : length (update_slot u f slots) = length slots.
Proof. induction slots as [|m slots IH]; cbn; [done|]. case_match; cbn; by rewrite ?IH. Qed.

Lemma getMemberSlot_elem u slots m : _getMemberSlot u slots = Some m -> m ∈ slots /\ ms_guid m = u.
Proof.
  unfold _getMemberSlot. intros Hm. assert (Hin : m ∈ filter (fun m => ms_guid m = u) slots).
  { destruct (filter _ slots); [done|]. injection Hm as ->. left. }
  apply list_elem_of_filter in Hin as [? ?]. done.
Qed.
Lemma getMemberSlot_none u slots : _getMemberSlot u slots = None <-> u ∉ (ms_guid <$> slots).
Proof.
  unfold _getMemberSlot. split.
  - intros Hn (m & -> & Hin)%list_elem_of_fmap. destruct (filter _ slots) eqn:E; [|done].
    assert (Hm : m ∈ filter (fun m' => ms_guid m' = ms_guid m) slots) by (apply list_elem_of_filter; done).
    rewrite E in Hm. by apply elem_of_nil in Hm.
  - intros Hn. destruct (filter _ slots) as [|m l] eqn:E; [done|]. exfalso. apply Hn.
    assert (Hm : m ∈ filter (fun m' => ms_guid m' = u) slots) by (rewrite E; left).
    apply list_elem_of_filter in Hm as [<- Hm]. by apply list_elem_of_fmap_2.
Qed.
Lemma getMemberSlot_some u slots :
  u ∈ (ms_guid <$> slots) -> exists m, _getMemberSlot u slots = Some m.
Proof.
  intros Hin. destruct (_getMemberSlot u slots) as [m|] eqn:E; [by exists m|]. by apply getMemberSlot_none in E.
Qed.

Lemma length_take_out u sub x :
  u ∈ (ms_guid <$> m_memberSlots x) ->
  length (m_memberSlots x) = S (length (m_memberSlots (take_out u sub x))).
Proof.
  intros Hin. rewrite (length_erase_slot u) by done. f_equal. unfold take_out, led_by_first, led_by.
  destruct (m_leaderGuid x =? u); [|done].
  change (erase_slot u (m_memberSlots x)) with (m_memberSlots (drop_member u (count_in (-1) sub x))).
  destruct (m_memberSlots (drop_member u (count_in (-1) sub x))) as [|first rest] eqn:E; [by rewrite E|].
  cbn [m_memberSlots set_memberSlots]. by rewrite length_update_slot.
Qed.

Section removing.
Context (v : GroupView).

Lemma execs_RemoveMember_kick_lfg g u kicker reason c x :
  groups c !! g = Some x -> isLFGGroup x = true ->
  execs (RemoveMember v g u GROUP_REMOVEMETHOD_KICK kicker reason) c (GetMembersCount x) c.
Proof.
  intros Hx Hl. apply execs_skip; [auto with framed|]. apply execs_skip; [auto with framed|].
  eapply execs_with_group; [exact Hx|]. intros y <-. change (isLFGGroup (core_group y)) with (isLFGGroup y) in Hl.
  rewrite Hl. apply execs_ret.
Qed.

Lemma execs_RemoveMember g u sub method kicker reason c x :
  groups c !! g = Some x -> m_bgGroup x = None -> linked_to c g u -> reads_sub u sub x -> has_counter sub x ->
  isLFGGroup x && bool_decide (method = GROUP_REMOVEMETHOD_KICK) = false -> (3 <= length (m_memberSlots x))%nat ->
  execs (RemoveMember v g u method kicker reason) c (GetMembersCount x - 1) (t_remove g u sub c).
Proof.
  intros Hx Hbg Hl Hs Hc Hk Hlen. apply execs_skip; [auto with framed|]. apply execs_skip; [auto with framed|].
  eapply execs_with_group; [exact Hx|]. intros y Hy. subst x.
  change (isLFGGroup (core_group y)) with (isLFGGroup y) in Hk. rewrite Hk.
  replace (isBGGroup y) with false
    by (unfold isBGGroup; core_facts; rewrite Hbg, bool_decide_eq_false_2; [done | by intros []]).
  rewrite (proj2 (Z.ltb_lt 2 (GetMembersCount y))) by (unfold GetMembersCount; core_facts; lia).
  eapply execs_bind.
  { eapply execs_bind; [eapply execs_removeMember; try done; core_facts; lia|].
    apply execs_skip; [auto 20 with framed|]. apply execs_skip; [auto 20 with framed|].
    apply execs_skip; [auto with framed|]. apply execs_framed. auto with framed. }
  destruct (groups_leave_one g u c _ Hx) as [mgr H1].
  assert (Hin : u ∈ (ms_guid <$> m_memberSlots y)).
  { destruct Hs as (m & [Hm <-]%getMemberSlot_elem & _). by apply list_elem_of_fmap_2. }
  eapply execs_with_group.
  { unfold t_remove. cbn [groups on_group_member]. by rewrite w_groups_same, H1. }
  intros z Hz. eapply execs_eq; [apply execs_ret | | reflexivity]. unfold GetMembersCount. core_facts.
  pose proof (length_take_out u sub (set_memberMgr mgr (core_group y)) Hin) as Hlt.
  apply (f_equal m_memberSlots) in Hz. cbn [fmap option_fmap option_map] in Hz.
  change (m_memberSlots (core_group z)) with (m_memberSlots z) in Hz.
  change (m_memberSlots (set_memberMgr mgr (core_group y))) with (m_memberSlots y) in Hlt.
  rewrite Hz. lia.
Qed.

End removing.
(** ** Transitions: the end of a group *)

Definition uninvited (g : Z) (p : Player) : Player :=
  if bool_decide (p_groupInvite p = Some g) then set_groupInvite None p else p.
Definition released (g : Z) (p : Player) : Player :=
  if bool_decide (GetGroup p = Some g) then unjoined (uninvited g p) else uninvited g p.
(** The group is gone, and nobody is in it or invited to it. *)
Definition t_release (g : Z) (c : World) : World :=
  on_group_set (fun l => l ∖ {[ g ]}) (on_groups (delete g) (on_players (fmap (released g)) c)).

(** The players a group knows are those that know it. *)
Record knows (c : World) (g : Z) (x : Group) : Prop := mkKnows {
  kn_invited u k : (u, k) ∈ m_invitees x -> exists p, players c !! u = Some p /\ p_serial p = k /\ p_groupInvite p = Some g;
  kn_invites u p : players c !! u = Some p -> p_groupInvite p = Some g -> (u, p_serial p) ∈ m_invitees x;
  kn_linked u o : (u, o) ∈ m_memberMgr x -> o = false /\ exists p, players c !! u = Some p /\ GetGroup p = Some g;
  kn_member u p : players c !! u = Some p -> (GetGroup p = Some g <-> u ∈ (ms_guid <$> m_memberSlots x));
  kn_party u p : players c !! u = Some p -> party_player p
}.

Lemma execs_for_each {A} (f : A -> GM unit) (t : World -> A -> World) (I : World -> Prop) l c :
  I c -> (forall x d, x ∈ l -> I d -> execs (f x) d tt (t d x) /\ I (t d x)) ->
  execs (for_each l f) c tt (foldl t c l) /\ I (foldl t c l).
Proof.
  revert c. induction l as [|x l IH]; intros c Hc Hf; [split; [apply execs_ret | exact Hc]|].
  destruct (Hf x c) as [Hx Hi]; [left | exact Hc|].
  destruct (IH (t c x) Hi) as [Hl Hil]; [intros y d Hy; apply Hf; by right|].
  split; [|exact Hil]. cbn [for_each foldl]. eapply execs_bind; [exact Hx | exact Hl].
Qed.

Definition clear_invite (c : World) (ptr : Z * Z) : World := w_player ptr.1 (set_groupInvite None) c.

Lemma clear_invites_player l c w :
  players (foldl clear_invite c l) !! w =
  if decide (w ∈ l.*1) then set_groupInvite None <$> players c !! w else players c !! w.
Proof.
  revert c. induction l as [|[u k] l IH]; intros c; cbn [foldl fmap list_fmap]; [done|].
  rewrite IH. unfold clear_invite. cbn [fst]. destruct (decide (u = w)) as [<-|Hne].
  - rewrite w_players_same. rewrite (decide_True (P := u ∈ u :: l.*1)) by left.
    destruct (decide (u ∈ l.*1)); [|done]. by destruct (players c !! u).
  - rewrite w_players_other by done.
    destruct (decide (w ∈ l.*1)) as [Hw|Hw].
    + rewrite (decide_True (P := w ∈ u :: l.*1)) by by right. done.
    + rewrite decide_False; [done|]. intros [->|?]%elem_of_cons; done.
Qed.
Lemma clear_invites_rest l c : exists ps, foldl clear_invite c l = on_players (fun _ => ps) c.
Proof.
  revert c. induction l as [|ptr l IH]; intros c; [exists (players c); by destruct c|].
  cbn [foldl]. destruct (IH (clear_invite c ptr)) as [ps ->]. by exists ps.
Qed.

Lemma execs_RemoveAllInvites g c x :
  groups c !! g = Some x -> knows c g x ->
  execs (RemoveAllInvites g) c tt (w_group g (set_invitees ∅) (on_players (fmap (uninvited g)) c)).
Proof.
  intros Hx [Hd Hs _ _ _]. eapply execs_with_group; [exact Hx|]. intros y <-. core_facts.
  set (valid := fun d : World => forall u k, (u, k) ∈ m_invitees y ->
                  exists p, players d !! u = Some p /\ p_serial p = k).
  assert (Hl : execs (for_each (elements (m_invitees y)) (fun ptr => upd_player_ptr ptr (set_groupInvite None)))
                 c tt (foldl clear_invite c (elements (m_invitees y)))).
  { apply (execs_for_each _ _ valid).
    - intros u k Hin. destruct (Hd u k Hin) as (p & ? & ? & _). eauto.
    - intros [u k] d Hin%elem_of_elements Hv. destruct (Hv u k Hin) as (p & Hp & Hk). split.
      + apply execs_with_state. intros s <-. cbn [fst snd]. rewrite core_player in Hp.
        rewrite Hp, Hk, Z.eqb_refl. apply execs_upd_player.
      + intros w k' Hin'. destruct (Hv w k' Hin') as (q & Hq & Hqk). unfold clear_invite. cbn [fst].
        destruct (decide (u = w)) as [<-|Hne].
        * rewrite w_players_same, Hq. by exists (set_groupInvite None q).
        * rewrite w_players_other by done. eauto. }
  eapply execs_eq; [eapply execs_bind; [exact Hl | apply execs_upd_same; reflexivity] | reflexivity|].
  f_equal. destruct (clear_invites_rest (elements (m_invitees y)) c) as [ps Hps].
  assert (Hpl : players (foldl clear_invite c (elements (m_invitees y))) = uninvited g <$> players c).
  { apply map_eq. intros w. rewrite clear_invites_player, lookup_fmap.
    destruct (players c !! w) as [p|] eqn:Hp; [|by case_match].
    unfold uninvited. cbn [fmap option_fmap option_map]. case_match; case_bool_decide as Hi; try done.
    - exfalso. destruct (list_elem_of_fmap_1 _ _ _ e) as ([u k] & -> & Hin%elem_of_elements).
      destruct (Hd u k Hin) as (q & Hq & _ & Hqi). cbn in Hp. congruence.
    - exfalso. apply n. apply list_elem_of_fmap. exists (w, p_serial p). split; [done|].
      apply elem_of_elements. by apply Hs. }
  rewrite Hps in Hpl |- *. cbn [players on_players] in Hpl. unfold on_players. by rewrite Hpl.
Qed.

Lemma execs_delete_group g c x :
  groups c !! g = Some x -> m_bgGroup x = None -> m_memberMgr x = [] ->
  execs (delete_group g) c tt (on_groups (delete g) c).
Proof.
  intros Hx Hbg Hm. eapply execs_with_group; [exact Hx|]. intros y <-. core_facts. rewrite Hbg, Hm.
  eapply execs_bind; [apply execs_ret|]. eapply execs_bind; [apply execs_ret|].
  intros s <-. split; [reflexivity|]. rewrite rs_modify. unfold core, on_groups. cbn. by rewrite fmap_delete.
Qed.
Definition leave_all (g : Z) (us : list Z) (c : World) : World := foldl (fun d u => leave_one g u d) c us.

Lemma leave_one_other g u w c : u <> w -> players (leave_one g u c) !! w = players c !! w.
Proof. intros Hne. unfold leave_one. destruct (players c !! u); [|done]. by rewrite w_players_other. Qed.
Lemma leave_one_same g u c : players (leave_one g u c) !! u = unjoined <$> players c !! u.
Proof.
  unfold leave_one. destruct (players c !! u) as [p|] eqn:Hp; [|by rewrite Hp].
  rewrite w_players_same. cbn [players w_group on_groups]. by rewrite Hp.
Qed.

Lemma leave_all_player g us c w :
  NoDup us -> players (leave_all g us c) !! w =
  if decide (w ∈ us) then unjoined <$> players c !! w else players c !! w.
Proof.
  intros Hnd. revert c. induction Hnd as [|u us Hu _ IH]; intros c; cbn [leave_all foldl]; [done|].
  change (players (leave_all g us (leave_one g u c)) !! w = if decide (w ∈ u :: us)
    then unjoined <$> players c !! w else players c !! w).
  rewrite IH. destruct (decide (u = w)) as [<-|Hne].
  - rewrite decide_False by done. rewrite (decide_True (P := u ∈ u :: us)) by left. apply leave_one_same.
  - rewrite leave_one_other by done. destruct (decide (w ∈ us)) as [Hw|Hw].
    + by rewrite (decide_True (P := w ∈ u :: us)) by by right.
    + rewrite decide_False; [done|]. intros [->|?]%elem_of_cons; done.
Qed.

Lemma leave_all_rest g us c :
  exists mgr ps, leave_all g us c = w_group g (fun x => set_memberMgr (mgr x) x) (on_players (fun _ => ps) c) /\
  (NoDup us -> forall x u, (u, false) ∈ mgr x -> (u, false) ∈ m_memberMgr x /\
     (u ∈ us -> players c !! u = None)) /\
  (forall x r, r ∈ mgr x -> r ∈ m_memberMgr x).
Proof.
  revert c. induction us as [|u us IH]; intros c.
  - exists m_memberMgr, (players c). split; [|split; [intros _ x w Hw; split; [done | by intros ?%elem_of_nil] | done]].
    unfold leave_all. cbn [foldl]. rewrite (w_group_ext g _ id) by (intros x _; by destruct x).
    unfold w_group, on_groups, on_players. cbn. replace (alter id g (groups c)) with (groups c); [by destruct c|].
    apply map_eq. intros h. destruct (decide (g = h)) as [<-|Hne];
      [rewrite lookup_alter_eq; by destruct (groups c !! g) | by rewrite lookup_alter_ne].
  - destruct (IH (leave_one g u c)) as (mgr & ps & He & Hm & Hsub).
    unfold leave_all in *. cbn [foldl]. rewrite He. unfold leave_one in *.
    destruct (players c !! u) as [p|] eqn:Hp.
    + exists (fun x => mgr (drop_link u x)), ps. split; [|split].
      * rewrite w_player_group. unfold on_players at 1. cbn [groups players w_group on_groups].
        change (w_group g (fun x => set_memberMgr (mgr x) x) (w_group g (drop_link u) (on_players (fun _ => ps) c)) =
                w_group g (fun x => set_memberMgr (mgr (drop_link u x)) x) (on_players (fun _ => ps) c)).
        rewrite w_group_fuse. by apply w_group_ext.
      * intros Hnd x w Hw. apply NoDup_cons in Hnd as [Hu Hnd].
        destruct (Hm Hnd _ _ Hw) as [Hin Hoff]. cbn [drop_link m_memberMgr set_memberMgr] in Hin.
        apply list_elem_of_filter in Hin as [Hne Hin]. split; [done|].
        intros [->|Hwu]%elem_of_cons; [done|]. specialize (Hoff Hwu).
        rewrite w_players_other in Hoff by (intros ->; done). exact Hoff.
      * intros x r Hr. apply Hsub in Hr. cbn in Hr. by apply list_elem_of_filter in Hr as [_ Hr].
    + exists mgr, ps. split; [done|split; [|done]]. intros Hnd x w Hw. apply NoDup_cons in Hnd as [Hu Hnd].
      destruct (Hm Hnd _ _ Hw) as [Hin Hoff]. split; [done|]. intros [->|Hwu]%elem_of_cons; auto.
Qed.

Lemma execs_leave_all g body slots c :
  NoDup (ms_guid <$> slots) -> (forall u, u ∈ (ms_guid <$> slots) -> linked_to c g u) ->
  (forall m d, m ∈ slots -> linked_to d g (ms_guid m) -> execs (body m) d tt (leave_one g (ms_guid m) d)) ->
  execs (for_each slots body) c tt (leave_all g (ms_guid <$> slots) c).
Proof.
  revert c. induction slots as [|m slots IH]; intros c Hnd Hl Hb; [apply execs_ret|].
  cbn [fmap list_fmap] in Hnd, Hl. apply NoDup_cons in Hnd as [Hu Hnd]. cbn [for_each].
  eapply execs_bind; [apply Hb; [left | apply Hl; left]|].
  apply IH; [exact Hnd | | intros m' d Hm'; apply Hb; by right].
  intros u Hin p Hp. rewrite leave_one_other in Hp by (intros <-; done).
  apply (Hl u); [by right | exact Hp].
Qed.

Definition disbanded (x : Group) : Group :=
  set_leader 0 [] (set_guid 0 (set_invitees ∅ (set_memberSlots [] (set_memberMgr [] x)))).
Definition drop_rows (low : Z) (t : gmap Z Z) : gmap Z Z := filter (fun '(_, l) => l <> low) t.

Section disband.
Context (v : GroupView).

Lemma execs_Disband g hide c x :
  groups c !! g = Some x -> m_bgGroup x = None -> NoDup (ms_guid <$> m_memberSlots x) -> knows c g x ->
  execs (Disband v g hide) c tt
    (on_group_member (drop_rows (GetLowGUID x))
       (w_group g disbanded (on_players (fmap (released g)) c))).
Proof.
  intros Hx Hbg Hnd Hk. eapply execs_with_group; [exact Hx|]. intros y Hy. subst x.
  apply execs_skip; [auto with framed|].
  replace (isBGGroup y) with false
    by (unfold isBGGroup; core_facts; rewrite Hbg, bool_decide_eq_false_2; [done | by intros []]).
  change (m_memberSlots (core_group y)) with (m_memberSlots y) in *.
  assert (Hlk : forall u, u ∈ (ms_guid <$> m_memberSlots y) -> linked_to c g u).
  { intros u Hu p Hp. split; [by apply (kn_party c g _ Hk u) | by apply (kn_member c g _ Hk u)]. }
  eapply execs_bind.
  { apply (execs_leave_all g); [exact Hnd | exact Hlk|].
    intros m d _ Hl. apply execs_if_online; [exact Hl|]. intros p Hp Hpp Hg.
    apply execs_then; [auto 20 with framed|]. by eapply execs_leave_links. }
  set (us := ms_guid <$> m_memberSlots y) in *.
  destruct (leave_all_rest g us c) as (mgr & ps & He & Hm & Hsub).
  eapply execs_bind; [apply (execs_upd_group g _ (set_memberSlots [])); reflexivity|].
  set (c1 := w_group g (set_memberSlots []) (leave_all g us c)).
  assert (Hmgr : mgr (core_group y) = []).
  { destruct (mgr (core_group y)) as [|[u o] l] eqn:E; [done|]. exfalso.
    assert (Hin : (u, o) ∈ mgr (core_group y)) by (rewrite E; left).
    destruct (kn_linked c g _ Hk u o (Hsub _ _ Hin)) as (-> & p & Hp & Hpg).
    destruct (Hm Hnd _ _ Hin) as [_ Hoff]. apply (kn_member c g _ Hk u p Hp) in Hpg.
    rewrite (Hoff Hpg) in Hp. discriminate. }
  assert (H1 : groups c1 !! g = Some (set_memberSlots [] (set_memberMgr [] (core_group y)))).
  { unfold c1. rewrite w_groups_same, He, w_groups_same. cbn [groups on_players]. rewrite Hx.
    cbn [fmap option_fmap option_map]. by rewrite Hmgr. }
  assert (Hps : forall w, players c1 !! w = if decide (w ∈ us) then unjoined <$> players c !! w else players c !! w).
  { intros w. unfold c1. cbn [players w_group on_groups]. by apply leave_all_player. }
  eapply execs_bind.
  { eapply execs_RemoveAllInvites; [exact H1|]. split; cbn [m_invitees m_memberMgr m_memberSlots set_memberSlots set_memberMgr core_group].
    - intros u k Hin. destruct (kn_invited c g _ Hk u k Hin) as (p & Hp & Hpk & Hpi).
      rewrite Hps, Hp. case_match; cbn; eexists; split; [reflexivity | done | reflexivity | done].
    - intros u p. rewrite Hps. destruct (players c !! u) as [q|] eqn:Hq; [|by case_match].
      case_match; intros [= <-] Hi; exact (kn_invites c g _ Hk u q Hq Hi).
    - intros u o Hin. by apply elem_of_nil in Hin.
    - intros u p. rewrite Hps. destruct (players c !! u) as [q|] eqn:Hq; [|by case_match].
      case_match; intros [= <-]; (split; [|by intros ?%elem_of_nil]); [done|].
      intros Hg. exfalso. apply n. by apply (kn_member c g _ Hk u q Hq).
    - intros u p. rewrite Hps. destruct (players c !! u) as [q|] eqn:Hq; [|by case_match].
      pose proof (kn_party c g _ Hk u q Hq). case_match; by intros [= <-]. }
  cbn [negb when]. eapply execs_bind.
  { apply execs_skip; [auto with framed|]. eapply execs_bind; [apply execs_PExecute|].
    apply execs_skip; [auto with framed|]. apply execs_framed. auto with framed. }
  eapply execs_eq; [apply (execs_upd_same g (fun z => set_leader 0 [] (set_guid 0 z))); reflexivity | reflexivity|].
  unfold c1. rewrite <- w_group_member. unfold execute_on, drop_rows.
  change (GUID_LOPART (m_guid y)) with (GetLowGUID (core_group y)). f_equal.
  rewrite He. unfold w_group, on_groups, on_players. cbn [groups players mGroupSet m_BgRaids group_member
    next_group m_hiGroupGuid next_serial all_loots hi_item]. f_equal.
  - rewrite !alter_twice. apply map_eq. intros h. destruct (decide (g = h)) as [<-|Hne].
    + rewrite !lookup_alter_eq, Hx. cbn [fmap option_fmap option_map]. unfold compose. by rewrite Hmgr.
    + by rewrite !lookup_alter_ne.
  - apply map_eq. intros w. rewrite !lookup_fmap. unfold c1 in Hps. specialize (Hps w). rewrite He in Hps.
    cbn [players w_group on_groups on_players] in Hps. rewrite Hps.
    destruct (players c !! w) as [p|] eqn:Hp; [|by case_match]. unfold released. cbn [fmap option_fmap option_map].
    case_match.
    + rewrite bool_decide_eq_true_2 by by apply (kn_member c g _ Hk w p Hp).
      unfold uninvited. cbn. f_equal. by case_bool_decide.
    + rewrite bool_decide_eq_false_2; [done|]. intros Hg. by apply n, (kn_member c g _ Hk w p Hp).
Qed.

End disband.
Lemma delete_w_group g f c : on_groups (delete g) (w_group g f c) = on_groups (delete g) c.
Proof.
  unfold w_group, on_groups. cbn. f_equal. apply map_eq. intros h. destruct (decide (g = h)) as [<-|Hne].
  - by rewrite !lookup_delete_eq.
  - by rewrite !lookup_delete_ne, lookup_alter_ne.
Qed.

Definition drop_invite (u k : Z) (x : Group) : Group := set_invitees (m_invitees x ∖ {[ (u, k) ]}) x.
Definition t_uninvite (g u k : Z) (c : World) : World :=
  w_group g (drop_invite u k) (w_player u (set_groupInvite None) c).

Lemma execs_RemoveInvite g u c p :
  players c !! u = Some p -> execs (RemoveInvite g u) c tt (t_uninvite g u (p_serial p) c).
Proof.
  intros Hp. eapply execs_with_player; [exact Hp|].
  eapply execs_bind; [apply (execs_upd_same g (drop_invite u (p_serial p))); reflexivity | apply execs_upd_player].
Qed.

(** A withdrawn invitation is forgotten on both sides. *)
Lemma knows_uninvite c g x u p :
  groups c !! g = Some x -> knows c g x -> players c !! u = Some p ->
  knows (t_uninvite g u (p_serial p) c) g (drop_invite u (p_serial p) x).
Proof.
  intros Hx [Hd Hs Hl Hm Hp] Hu.
  assert (Hps : forall w, players (t_uninvite g u (p_serial p) c) !! w =
            if decide (u = w) then set_groupInvite None <$> players c !! w else players c !! w).
  { intros w. unfold t_uninvite. cbn [players w_group on_groups].
    case_match; [subst w; by rewrite w_players_same | by rewrite w_players_other]. }
  split; cbn [drop_invite m_invitees m_memberMgr m_memberSlots set_invitees].
  - intros w k [Hin Hn]%elem_of_difference. destruct (Hd w k Hin) as (q & Hq & Hqk & Hqi).
    rewrite Hps. rewrite decide_False; [eauto|]. intros <-. apply Hn, elem_of_singleton. congruence.
  - intros w q. rewrite Hps. case_match.
    + destruct (players c !! w); [|done]. by intros [= <-].
    + intros Hq Hi. apply elem_of_difference. split; [by apply Hs|]. intros [= ? ?]%elem_of_singleton. by subst.
  - intros w o Hin. destruct (Hl w o Hin) as (Ho & q & Hq & Hqg). split; [done|]. rewrite Hps, Hq.
    case_match; eexists; (split; [reflexivity | done]).
  - intros w q. rewrite Hps. case_match; [|apply Hm]. destruct (players c !! w) as [q'|] eqn:E; [|done].
    intros [= <-]. exact (Hm w q' E).
  - intros w q. rewrite Hps. case_match; [|apply Hp]. destruct (players c !! w) as [q'|] eqn:E; [|done].
    intros [= <-]. exact (Hp w q' E).
Qed.

Lemma uninvited_idem g p : uninvited g (uninvited g p) = uninvited g p.
Proof. unfold uninvited. by repeat case_bool_decide. Qed.

Section ends.
Context (v : GroupView).

(** A group that only waits for its first member is given up. *)
Lemma execs_Uninvite_pending g u c x p :
  groups c !! g = Some x -> m_bgGroup x = None -> m_memberSlots x = [] -> m_memberMgr x = [] -> knows c g x ->
  g ∉ mGroupSet c -> players c !! u = Some p -> p_groupInvite p = Some g ->
  execs (UninviteFromGroup v u) c tt (t_release g c).
Proof.
  intros Hx Hbg Hs Hm Hk Hset Hp Hi. eapply execs_with_player; [exact Hp|]. rewrite Hi.
  eapply execs_bind; [by apply execs_RemoveInvite|].
  pose proof (knows_uninvite c g x u p Hx Hk Hp) as Hk'. set (c1 := t_uninvite g u (p_serial p) c) in *.
  assert (H1 : groups c1 !! g = Some (drop_invite u (p_serial p) x)).
  { unfold c1, t_uninvite. rewrite w_groups_same. cbn [groups w_player on_players]. by rewrite Hx. }
  eapply execs_with_group; [exact H1|]. intros y Hy.
  assert (Hys : m_memberSlots y = []) by (rewrite <- Hs; exact (f_equal m_memberSlots Hy)).
  unfold GetMembersCount, IsCreated, GetMembersCount. rewrite Hys. cbn [length Z.of_nat Z.leb Z.compare Z.ltb].
  eapply execs_bind; [by eapply execs_RemoveAllInvites|].
  eapply execs_eq.
  - eapply execs_delete_group; [rewrite w_groups_same; cbn [groups on_players]; by rewrite H1 | exact Hbg | exact Hm].
  - reflexivity.
  - rewrite delete_w_group. unfold c1, t_uninvite, t_release.
    unfold w_group, w_player, on_groups, on_players, on_group_set. cbn. f_equal; [|apply map_eq; intros w|].
    + apply map_eq. intros h. destruct (decide (g = h)) as [<-|Hne];
        [by rewrite !lookup_delete_eq | by rewrite !lookup_delete_ne, lookup_alter_ne].
    + rewrite !lookup_fmap. assert (Hng : forall q, players c !! w = Some q -> GetGroup q <> Some g).
      { intros q Hq Hg. apply (kn_member c g _ Hk w q Hq) in Hg. rewrite Hs in Hg. by apply elem_of_nil in Hg. }
      destruct (decide (u = w)) as [<-|Hne].
      * rewrite lookup_alter_eq, Hp. cbn. f_equal. unfold released, uninvited.
        rewrite (bool_decide_eq_false_2 (GetGroup p = Some g)) by by apply Hng.
        rewrite (bool_decide_eq_true_2 (p_groupInvite p = Some g)) by done. by case_bool_decide.
      * rewrite lookup_alter_ne by done. destruct (players c !! w) as [q|]; [|done]. cbn. f_equal. unfold released.
        rewrite (bool_decide_eq_false_2 (GetGroup q = Some g)) by by apply Hng. done.
    + symmetry. apply difference_disjoint_L. set_solver.
Qed.

(** An invitation into a group that exists is withdrawn. *)
Lemma execs_Uninvite_member g u c x p :
  groups c !! g = Some x -> (2 <= length (m_memberSlots x))%nat ->
  players c !! u = Some p -> p_groupInvite p = Some g ->
  execs (UninviteFromGroup v u) c tt (t_uninvite g u (p_serial p) c).
Proof.
  intros Hx Hs Hp Hi. eapply execs_with_player; [exact Hp|]. rewrite Hi.
  eapply execs_bind; [by apply execs_RemoveInvite|]. eapply execs_with_group.
  { unfold t_uninvite. rewrite w_groups_same. cbn [groups w_player on_players]. by rewrite Hx. }
  intros y Hy. assert (Hys : m_memberSlots y = m_memberSlots x) by exact (f_equal m_memberSlots Hy).
  unfold GetMembersCount. rewrite Hys, (proj2 (Z.leb_gt _ _)) by lia. apply execs_ret.
Qed.

Lemma execs_Uninvite_none u c p :
  players c !! u = Some p -> p_groupInvite p = None -> execs (UninviteFromGroup v u) c tt c.
Proof. intros Hp Hi. eapply execs_with_player; [exact Hp|]. rewrite Hi. apply execs_ret. Qed.

(** With two members left the group is dissolved. *)
Lemma execs_RemoveFromGroup_last g u method kicker reason c x :
  groups c !! g = Some x -> m_bgGroup x = None -> NoDup (ms_guid <$> m_memberSlots x) -> knows c g x ->
  isLFGGroup x && bool_decide (method = GROUP_REMOVEMETHOD_KICK) = false -> (length (m_memberSlots x) <= 2)%nat ->
  execs (RemoveFromGroup v (Some g) u method kicker reason) c tt
    (t_release g (on_group_member (drop_rows (GetLowGUID x)) c)).
Proof.
  intros Hx Hbg Hnd Hk Hm Hlen.
  eapply (execs_bind _ _ _ 0 (on_group_member (drop_rows (GetLowGUID x)) (w_group g disbanded (on_players (fmap (released g)) c)))).
  { apply execs_skip; [auto with framed|]. apply execs_skip; [auto with framed|].
    eapply execs_with_group; [exact Hx|]. intros y Hy. subst x.
    change (isLFGGroup (core_group y)) with (isLFGGroup y) in Hm. rewrite Hm.
    replace (isBGGroup y) with false
      by (unfold isBGGroup; core_facts; rewrite Hbg, bool_decide_eq_false_2; [done | by intros []]).
    rewrite (proj2 (Z.ltb_ge 2 (GetMembersCount y))) by (unfold GetMembersCount; core_facts; lia).
    eapply execs_bind; [by eapply execs_Disband|].
    eapply execs_with_group; [cbn [groups on_group_member]; rewrite w_groups_same; cbn [groups on_players]; by rewrite Hx|].
    intros z Hz. eapply execs_eq; [apply execs_ret | | reflexivity]. unfold GetMembersCount.
    change (m_memberSlots z) with (m_memberSlots (core_group z)). by rewrite Hz. }
  cbn [when Z.leb Z.compare].
  eapply execs_bind; [apply execs_group_set|].
  eapply execs_eq.
  - apply (execs_delete_group g _ (disbanded x)); [|exact Hbg | reflexivity].
    cbn [groups on_group_set on_group_member]. rewrite w_groups_same. cbn [groups on_players]. by rewrite Hx.
  - reflexivity.
  - unfold t_release. change (on_groups (delete g) (on_group_set (fun l => l ∖ {[g]})
      (on_group_member (drop_rows (GetLowGUID x)) (w_group g disbanded (on_players (fmap (released g)) c)))))
      with (on_group_set (fun l => l ∖ {[g]}) (on_group_member (drop_rows (GetLowGUID x))
        (on_groups (delete g) (w_group g disbanded (on_players (fmap (released g)) c))))).
    by rewrite delete_w_group.
Qed.

(** With more the member leaves. *)
Lemma execs_RemoveFromGroup_more g u sub method kicker reason c x :
  groups c !! g = Some x -> m_bgGroup x = None -> linked_to c g u -> reads_sub u sub x -> has_counter sub x ->
  isLFGGroup x && bool_decide (method = GROUP_REMOVEMETHOD_KICK) = false -> (3 <= length (m_memberSlots x))%nat ->
  execs (RemoveFromGroup v (Some g) u method kicker reason) c tt (t_remove g u sub c).
Proof.
  intros Hx Hbg Hl Hs Hc Hk Hlen. eapply execs_bind; [by eapply execs_RemoveMember|].
  unfold GetMembersCount. rewrite (proj2 (Z.leb_gt _ _)) by lia. apply execs_ret.
Qed.

(** A kick from a dungeon-finder group is left to the vote. *)
Lemma execs_RemoveFromGroup_vote g u kicker reason c x :
  groups c !! g = Some x -> isLFGGroup x = true -> (2 <= length (m_memberSlots x))%nat ->
  execs (RemoveFromGroup v (Some g) u GROUP_REMOVEMETHOD_KICK kicker reason) c tt c.
Proof.
  intros Hx Hl Hlen. eapply execs_bind; [by eapply execs_RemoveMember_kick_lfg|].
  unfold GetMembersCount. rewrite (proj2 (Z.leb_gt _ _)) by lia. apply execs_ret.
Qed.

End ends.
(** ** Transitions: the beginning of a group *)

Lemma low_of_make l : 0 <= l < 2 ^ 32 -> GUID_LOPART (MAKE_NEW_GUID l 0 HIGHGUID_GROUP) = l.
Proof.
  intros Hl. unfold GUID_LOPART, MAKE_NEW_GUID, HIGHGUID_GROUP, uwrap.
  rewrite Z.shiftl_0_l, Z.lor_0_r. change 0xFFFFFFFF with (Z.ones 32).
  apply Z.bits_inj'. intros n Hn. rewrite Z.land_spec.
  destruct (decide (n < 32)) as [Hlt|Hge].
  - rewrite Z.ones_spec_low, andb_true_r by lia. rewrite Z.mod_pow2_bits_low by lia.
    rewrite Z.lor_spec, Z.shiftl_spec_low, orb_false_r by lia. done.
  - rewrite Z.ones_spec_high, andb_false_r by lia. symmetry. apply Z.bits_above_log2; [lia|].
    destruct (decide (l = 0)) as [->|]; [cbn; lia|].
    apply Z.lt_le_trans with 32; [apply Z.log2_lt_pow2; lia | lia].
Qed.

Definition started (leader : Z) (name : list Z) (low : Z) (x : Group) : Group :=
  set_groupType GROUPTYPE_NORMAL (set_leader leader name (set_guid (MAKE_NEW_GUID low 0 HIGHGUID_GROUP) x)).
Definition create_rows (low u : Z) (t : gmap Z Z) : gmap Z Z :=
  insert_row low u (execute_on (DeleteMembersOf low (GUID_LOPART u)) (insert_row low u t)).
Definition t_create (g leader : Z) (name : list Z) (c : World) : World :=
  let low := m_hiGroupGuid c in
  on_group_member (create_rows low leader)
    (w_group g (add_member leader name 0 ∘ started leader name low)
      (w_player leader (entered g 0) (took_low_guid c))).

(** What is looked up in a core is a core. *)
Definition is_core (c : World) : Prop := forall g x, groups c !! g = Some x -> core_group x = x.

Section begins.
Context (v : GroupView).

Lemma execs_Create g leader name c x p :
  groups c !! g = Some x -> m_bgGroup x = None -> m_memberSlots x = [] -> m_subGroupsCounts x = None ->
  leader <> 0 -> players c !! leader = Some p -> party_player p -> GetGroup p = None ->
  0 <= m_hiGroupGuid c < 2 ^ 32 -> is_core c ->
  execs (Create v g leader name) c true (t_create g leader name c).
Proof.
  intros Hx Hbg Hs Hc Hl0 Hp Hpp Hg Hhi Hcore.
  apply execs_skip; [auto with framed|]. apply execs_with_state. intros s Hs0.
  assert (Hlow : m_hiGroupGuid s = m_hiGroupGuid c) by (by rewrite <- Hs0). rewrite Hlow. clear Hlow Hs0 s.
  set (low := m_hiGroupGuid c) in *.
  eapply execs_bind; [exact (execs_modify took_low_guid c (fun _ => eq_refl))|].
  set (c1 := took_low_guid c). set (start := fun y : Group => set_looting GROUP_LOOT leader ITEM_QUALITY_UNCOMMON _).
  assert (H1 : groups c1 !! g = Some x) by exact Hx.
  eapply execs_bind.
  { eapply execs_eq; [apply (execs_upd_group g start (fun y => core_group (start y))); reflexivity | reflexivity|].
    apply (w_group_ext g _ (core_group ∘ started leader name low)). intros y Hy. rewrite H1 in Hy. injection Hy as <-.
    unfold start, isBGGroup. rewrite Hbg, bool_decide_eq_false_2 by (by intros []). reflexivity. }
  clear start. pose proof (Hcore g x Hx) as Hcx.
  eapply execs_eq.
  { eapply execs_with_group; [by rewrite w_groups_same, H1|]. intros y Hy. unfold compose in Hy.
    assert (Hyb : isBGGroup y = false).
    { change (isBGGroup (core_group y) = false). rewrite Hy. unfold isBGGroup.
      by rewrite bool_decide_eq_false_2 by (cbn; rewrite Hbg; by intros []). }
    assert (Hyr : isRaidGroup y = false) by (change (isRaidGroup (core_group y) = false); by rewrite Hy).
    rewrite Hyb, Hyr. cbn [when]. eapply execs_bind; [apply execs_ret|].
    apply execs_skip; [auto with framed|]. apply execs_skip; [auto with framed|].
    apply execs_skip; [auto with framed|].
    eapply execs_bind.
    { apply execs_AddMember with (x := core_group (started leader name low x)) (sub := 0).
      split; [by rewrite w_groups_same, H1|]. split; [exact Hbg|].
      split; [unfold IsFull, GetMembersCount; cbn; by rewrite Hs|].
      split; [unfold good_counts; cbn; by rewrite Hc|]. split; [unfold free_subgroup; cbn; by rewrite Hc|].
      split; [exact Hl0 | exists p; by repeat split; try apply Hpp]. }
    cbn [negb]. apply execs_skip; [auto with framed|].
    eapply execs_bind; [apply execs_PExecute|]. eapply execs_bind; [apply execs_PExecute|].
    eapply execs_with_group; [cbn [groups on_group_member t_add]; rewrite w_groups_same; cbn [groups w_player on_players];
      rewrite w_groups_same, H1; reflexivity|].
    intros z _. apply execs_skip; [auto with framed|]. apply execs_ret. }
  - reflexivity.
  - unfold t_add, t_create. fold low c1. rewrite w_player_group, w_group_fuse.
    replace (GetLowGUID (core_group (started leader name low x))) with low by by (symmetry; apply low_of_make).
    unfold create_rows, on_group_member, on_groups, w_group. cbn. f_equal.
    apply map_eq. intros h. destruct (decide (g = h)) as [<-|Hne]; [|by rewrite !lookup_alter_ne].
    rewrite !lookup_alter_eq, Hx. apply (f_equal Some). unfold compose.
    change (core_group (started leader name low x)) with (started leader name low (core_group x)). by rewrite Hcx.
Qed.

End begins.
