(* ===== verification/PartyRoster.v ===== *)
(** * The invariant of parties and raids

    What holds of one group ([roster_ok]) and of the store of groups, players and
    rows ([world_ok]), and that the transitions of [PartyRuns] keep it. *)
From S2P Require Import Prelude ByteBuffer Rolls Group Party PartyRuns.

(** ** The invariant of one group *)

Definition guids (x : Group) : list Z := ms_guid <$> m_memberSlots x.
Definition members_in (i : Z) (slots : list MemberSlot) : nat := length (filter (fun m => ms_group m = i) slots).
Definition flag_unique (f : Z) (slots : list MemberSlot) : Prop :=
  forall m m', m ∈ slots -> m' ∈ slots -> has_flag (ms_flags m) f = true -> has_flag (ms_flags m') f = true ->
  ms_guid m = ms_guid m'.

Record roster_ok (x : Group) : Prop := mkRoster {
  ro_nodup : NoDup (guids x);
  ro_bg : m_bgGroup x = None;
  ro_sub : Forall (fun m => 0 <= ms_group m < 8) (m_memberSlots x);
  ro_counts : match m_subGroupsCounts x with
              | Some counts => isRaidGroup x = true /\ length counts = MAX_RAID_SUBGROUPS /\
                  forall i, (i < MAX_RAID_SUBGROUPS)%nat ->
                    counts !! i = Some (Z.of_nat (members_in (Z.of_nat i) (m_memberSlots x)))
              | None => isRaidGroup x = false
              end;
  ro_five : isRaidGroup x = true -> forall i, (members_in i (m_memberSlots x) <= 5)%nat;
  ro_size : isRaidGroup x = false -> (length (m_memberSlots x) <= 5)%nat;
  ro_leader : m_memberSlots x <> [] -> m_leaderGuid x ∈ guids x;
  ro_tank : flag_unique MEMBER_FLAG_MAINTANK (m_memberSlots x);
  ro_assist : flag_unique MEMBER_FLAG_MAINASSIST (m_memberSlots x)
}.

Lemma erase_slot_filter u slots :
  NoDup (ms_guid <$> slots) -> erase_slot u slots = filter (fun m => ms_guid m <> u) slots.
Proof.
  induction slots as [|m slots IH]; [done|]. cbn [fmap list_fmap erase_slot]. intros [Hm Hnd]%NoDup_cons.
  destruct (Z.eqb_spec (ms_guid m) u) as [E|E].
  - rewrite filter_cons_False by auto. symmetry. rewrite <- E. clear -Hm.
    induction slots as [|m' slots IH]; [done|]. cbn [fmap list_fmap] in Hm. apply not_elem_of_cons in Hm as [? ?].
    rewrite filter_cons_True by done. by rewrite IH.
  - rewrite filter_cons_True by done. by rewrite IH.
Qed.
Lemma update_slot_map u f slots :
  NoDup (ms_guid <$> slots) -> update_slot u f slots = (fun m => if ms_guid m =? u then f m else m) <$> slots.
Proof.
  induction slots as [|m slots IH]; [done|]. cbn [fmap list_fmap update_slot]. intros [Hm Hnd]%NoDup_cons.
  destruct (Z.eqb_spec (ms_guid m) u) as [E|E]; [|by rewrite IH]. f_equal. rewrite <- E. clear -Hm.
  induction slots as [|m' slots IH]; [done|]. cbn [fmap list_fmap] in *. apply not_elem_of_cons in Hm as [? ?].
  rewrite (proj2 (Z.eqb_neq _ _)) by done. by rewrite <- IH.
Qed.
Lemma guids_update u f slots :
  (forall m, ms_guid (f m) = ms_guid m) -> ms_guid <$> update_slot u f slots = ms_guid <$> slots.
Proof.
  intros Hf. induction slots as [|m slots IH]; cbn; [done|]. case_match; cbn; by rewrite ?Hf, ?IH.
Qed.
Lemma guids_erase u slots : NoDup (ms_guid <$> slots) -> NoDup (ms_guid <$> erase_slot u slots).
Proof.
  intros Hnd. rewrite erase_slot_filter by done. eapply sublist_NoDup; [exact Hnd|].
  apply fmap_sublist, sublist_filter.
Qed.

Lemma members_in_app i l l' : members_in i (l ++ l') = (members_in i l + members_in i l')%nat.
Proof. unfold members_in. by rewrite filter_app, length_app. Qed.
Lemma members_in_one i m : members_in i [m] = if decide (ms_group m = i) then 1%nat else 0%nat.
Proof. unfold members_in. rewrite filter_cons. by case_decide. Qed.

(** Taking one member away, or moving him. *)
Lemma members_in_erase i u slots m :
  _getMemberSlot u slots = Some m ->
  members_in i slots = (members_in i (erase_slot u slots) + members_in i [m])%nat.
Proof.
  unfold _getMemberSlot. induction slots as [|a slots IH]; [done|]. cbn [erase_slot].
  change (a :: slots) with ([a] ++ slots). rewrite members_in_app. destruct (Z.eqb_spec (ms_guid a) u) as [E|E].
  - rewrite filter_app, filter_cons_True by done. cbn. intros [= ->]. lia.
  - rewrite filter_app, filter_cons_False by done. cbn [app filter list_filter]. intros Hm.
    change (a :: erase_slot u slots) with ([a] ++ erase_slot u slots). rewrite members_in_app, (IH Hm). lia.
Qed.
Lemma members_in_update i u f slots m :
  _getMemberSlot u slots = Some m ->
  (members_in i (update_slot u f slots) + members_in i [m] = members_in i slots + members_in i [f m])%nat.
Proof.
  unfold _getMemberSlot. induction slots as [|a slots IH]; [done|]. cbn [update_slot].
  change (a :: slots) with ([a] ++ slots). rewrite members_in_app. destruct (Z.eqb_spec (ms_guid a) u) as [E|E].
  - rewrite filter_app, filter_cons_True by done. cbn [app head]. intros [= ->].
    change (f m :: slots) with ([f m] ++ slots). rewrite members_in_app. lia.
  - rewrite filter_app, filter_cons_False by done. cbn [app filter list_filter]. intros Hm.
    change (a :: update_slot u f slots) with ([a] ++ update_slot u f slots).
    rewrite members_in_app. specialize (IH Hm). lia.
Qed.

Lemma elem_of_update u f slots m' :
  m' ∈ update_slot u f slots -> m' ∈ slots \/ exists m, m ∈ slots /\ ms_guid m = u /\ m' = f m.
Proof.
  induction slots as [|a slots IH]; cbn; [by intros ?%elem_of_nil|].
  destruct (Z.eqb_spec (ms_guid a) u) as [E|E].
  - intros [->|Hin]%elem_of_cons; [right; exists a; repeat split; [left | done] | left; by right].
  - intros [->|Hin]%elem_of_cons; [left; left|]. destruct (IH Hin) as [|(m & ? & ? & ?)]; [left; by right|].
    right. exists m. split; [by right | done].
Qed.
Lemma elem_of_erase u slots m : m ∈ erase_slot u slots -> m ∈ slots.
Proof.
  induction slots as [|a slots IH]; cbn; [done|]. case_match; [by right|].
  intros [->|?]%elem_of_cons; [left | right; auto].
Qed.

Lemma counts_count d sub (counts : list Z) i n :
  counts !! i = Some n -> 0 <= n + (if decide (Z.to_nat sub = i) then d else 0) < 256 ->
  alter (fun c => u8 (d + c)) (Z.to_nat sub) counts !! i = Some (n + (if decide (Z.to_nat sub = i) then d else 0)).
Proof.
  intros Hi Hr. case_decide as E.
  - rewrite E, list_lookup_alter_eq, Hi. cbn. f_equal. rewrite Z.add_comm. by apply u8_small.
  - rewrite list_lookup_alter_ne, Hi by done. by rewrite Z.add_0_r.
Qed.

(** *** Joining *)

Lemma flag_unique_push f slots u name sub :
  flag_unique f slots -> flag_unique f (slots ++ [mkSlot u name sub 0 0]).
Proof.
  intros Hf m m' [Hm|Hm]%elem_of_app [Hm'|Hm']%elem_of_app H1 H2; [by apply Hf| | |];
    exfalso; repeat match goal with H : _ ∈ [_] |- _ => apply list_elem_of_singleton in H; subst end; discriminate.
Qed.

Lemma roster_add u name sub x :
  roster_ok x -> IsFull x = false -> free_subgroup x = Some sub -> u ∉ guids x ->
  (m_memberSlots x = [] -> m_leaderGuid x = u) ->
  roster_ok (add_member u name sub x).
Proof.
  intros [Hnd Hbg Hsub Hc H5 Hsz Hl Ht Ha] Hfull Hfree Hu Hlead.
  assert (Hsc : good_counts x) by (unfold good_counts; destruct (m_subGroupsCounts x); [apply Hc | done]).
  destruct (free_subgroup_ok _ _ Hsc Hfree) as [Hs8 _].
  assert (Hroom : isRaidGroup x = true -> (members_in sub (m_memberSlots x) < 5)%nat).
  { intros Hr. unfold free_subgroup in Hfree. destruct (m_subGroupsCounts x) as [counts|]; [|congruence].
    destruct Hc as (_ & Hlen & Hc). apply fmap_Some in Hfree as ([i n] & (Hi & Hn & _)%list_find_Some & ->).
    cbn [fst]. apply lookup_lt_Some in Hi as Hlt. rewrite Hlen in Hlt. rewrite (Hc i Hlt) in Hi.
    injection Hi as <-. unfold MAXGROUPSIZE in Hn. lia. }
  split; cbn [add_member add_link count_in push_member m_memberSlots m_memberMgr m_bgGroup m_subGroupsCounts
              m_leaderGuid set_memberMgr set_subGroupsCounts set_memberSlots];
    change (isRaidGroup (add_member u name sub x)) with (isRaidGroup x).
  - unfold guids. cbn. rewrite fmap_app. apply NoDup_app. split; [exact Hnd|]. split; [|apply NoDup_singleton].
    intros w Hw ->%list_elem_of_singleton. done.
  - exact Hbg.
  - apply Forall_app. split; [exact Hsub|]. apply Forall_singleton. exact Hs8.
  - unfold count_at. cbn. destruct (m_subGroupsCounts x) as [counts|]; [|exact Hc]. cbn.
    destruct Hc as (Hr & Hlen & Hc). split; [exact Hr|]. rewrite length_alter. split; [exact Hlen|].
    intros i Hi. rewrite members_in_app, members_in_one. cbn [ms_group].
    specialize (H5 Hr (Z.of_nat i)). rewrite (counts_count 1 sub counts i _ (Hc i Hi)).
    + f_equal. repeat case_decide; lia.
    + case_decide; lia.
  - intros Hr i. rewrite members_in_app, members_in_one. cbn [ms_group]. specialize (H5 Hr i).
    case_decide as E; [|lia]. subst i. specialize (Hroom Hr). lia.
  - intros Hr. rewrite length_app. cbn. unfold IsFull in Hfull. rewrite Hr in Hfull.
    apply Z.leb_gt in Hfull. unfold GetMembersCount, MAXGROUPSIZE in Hfull. lia.
  - intros _. unfold guids. cbn. rewrite fmap_app. apply elem_of_app.
    destruct (decide (m_memberSlots x = [])) as [E|E]; [right; rewrite Hlead by done; left | left; by apply Hl].
  - by apply flag_unique_push.
  - by apply flag_unique_push.
Qed.
(** *** Changes that keep the members and their subgroups *)

Lemma members_in_keep i f slots :
  (forall m, ms_group (f m) = ms_group m) -> members_in i (f <$> slots) = members_in i slots.
Proof.
  intros Hf. unfold members_in. induction slots as [|m slots IH]; [done|].
  cbn [fmap list_fmap]. rewrite !filter_cons, Hf. case_decide; cbn; by rewrite IH.
Qed.

(** [slots'] has the members of [slots] with their subgroups. *)
Definition same_places (slots slots' : list MemberSlot) : Prop :=
  exists f, slots' = f <$> slots /\ forall m, ms_guid (f m) = ms_guid m /\ ms_group (f m) = ms_group m.

Lemma same_places_update u f slots :
  NoDup (ms_guid <$> slots) -> (forall m, ms_guid (f m) = ms_guid m /\ ms_group (f m) = ms_group m) ->
  same_places slots (update_slot u f slots).
Proof.
  intros Hnd Hf. rewrite update_slot_map by done. eexists. split; [reflexivity|]. intros m. cbn. case_match; [apply Hf | done].
Qed.
Lemma same_places_trans a b c : same_places a b -> same_places b c -> same_places a c.
Proof.
  intros (f & -> & Hf) (f' & -> & Hf'). exists (f' ∘ f). split; [by rewrite list_fmap_compose|].
  intros m. destruct (Hf m), (Hf' (f m)). cbn. split; congruence.
Qed.
Lemma same_places_guids a b : same_places a b -> ms_guid <$> b = ms_guid <$> a.
Proof. intros (f & -> & Hf). rewrite <- list_fmap_compose. apply list_fmap_ext. intros i m _. apply Hf. Qed.
Lemma same_places_length a b : same_places a b -> length b = length a.
Proof. intros (f & -> & _). apply length_fmap. Qed.
Lemma same_places_in a b i : same_places a b -> members_in i b = members_in i a.
Proof. intros (f & -> & Hf). apply members_in_keep. apply Hf. Qed.

Lemma roster_slots slots x :
  roster_ok x -> same_places (m_memberSlots x) slots ->
  flag_unique MEMBER_FLAG_MAINTANK slots -> flag_unique MEMBER_FLAG_MAINASSIST slots ->
  roster_ok (set_memberSlots slots x).
Proof.
  intros [Hnd Hbg Hsub Hc H5 Hsz Hl _ _] Hp Ht Ha.
  pose proof (same_places_guids _ _ Hp) as Hg. pose proof (same_places_length _ _ Hp) as Hlen.
  pose proof (fun i => same_places_in _ _ i Hp) as Hin.
  split; cbn [m_memberSlots m_bgGroup m_subGroupsCounts m_leaderGuid set_memberSlots];
    change (isRaidGroup (set_memberSlots slots x)) with (isRaidGroup x); unfold guids in *; cbn [m_memberSlots set_memberSlots];
    rewrite ?Hg, ?Hlen; try done.
  - destruct Hp as (f & -> & Hf). apply Forall_fmap. eapply Forall_impl; [exact Hsub|]. intros m Hm. cbn.
    by rewrite (proj2 (Hf m)).
  - destruct (m_subGroupsCounts x) as [counts|]; [|done]. destruct Hc as (Hr & Hcl & Hc). split; [done|]. split; [done|].
    intros i Hi. rewrite Hin. auto.
  - intros Hr i. rewrite Hin. auto.
  - intros Hne. apply Hl. intros E. apply Hne. apply nil_length_inv. by rewrite Hlen, E.
Qed.

Lemma flag_unique_map f slots g :
  flag_unique f slots -> (forall m, ms_guid (g m) = ms_guid m) ->
  (forall m, has_flag (ms_flags (g m)) f = true -> has_flag (ms_flags m) f = true) ->
  flag_unique f (g <$> slots).
Proof.
  intros Hu Hg Hf m m' (a & -> & Ha)%list_elem_of_fmap (b & -> & Hb)%list_elem_of_fmap H1 H2.
  rewrite !Hg. apply Hu; auto.
Qed.

(** A flag given to one member, after it was taken from all. *)
Lemma clean_has_flag f m :
  has_flag (ms_flags (if has_flag (ms_flags m) f then set_ms_flags (fun fl => Z.ldiff fl f) m else m)) f = false.
Proof.
  destruct (has_flag (ms_flags m) f) eqn:E; [|exact E]. apply has_flag_ldiff_same.
Qed.
Lemma flag_unique_given u f b slots :
  NoDup (ms_guid <$> slots) ->
  flag_unique f (update_slot u (ToggleGroupMemberFlag f b) (RemoveUniqueGroupMemberFlag f slots)).
Proof.
  intros Hnd. assert (Hg : ms_guid <$> RemoveUniqueGroupMemberFlag f slots = ms_guid <$> slots).
  { unfold RemoveUniqueGroupMemberFlag. rewrite <- list_fmap_compose. apply list_fmap_ext. intros i m _. cbn.
    by case_match. }
  rewrite update_slot_map by by rewrite Hg.
  assert (Hall : forall m, m ∈ (fun m => if ms_guid m =? u then ToggleGroupMemberFlag f b m else m) <$>
            RemoveUniqueGroupMemberFlag f slots -> has_flag (ms_flags m) f = true -> ms_guid m = u).
  { intros m (a & -> & (a' & -> & _)%list_elem_of_fmap)%list_elem_of_fmap. case_match eqn:E.
    - intros _. apply Z.eqb_eq in E. exact E.
    - rewrite clean_has_flag. done. }
  intros m m' Hm Hm' H1 H2. by rewrite (Hall m), (Hall m').
Qed.
Lemma ldiff_has_flag fl f h : has_flag (Z.ldiff fl h) f = true -> has_flag fl f = true.
Proof.
  unfold has_flag. rewrite !negb_true_iff, !Z.eqb_neq. intros Hn E. apply Hn. apply Z.bits_inj'. intros n Hnn.
  apply (f_equal (fun z => Z.testbit z n)) in E. rewrite Z.bits_0, Z.land_spec in *.
  rewrite Z.ldiff_spec. destruct (Z.testbit fl n), (Z.testbit f n), (Z.testbit h n); done.
Qed.
Lemma flag_unique_other u f h b slots :
  NoDup (ms_guid <$> slots) -> Z.land h f = 0 -> flag_unique f slots ->
  flag_unique f (update_slot u (ToggleGroupMemberFlag h b) slots).
Proof.
  intros Hnd Hh Hu. rewrite update_slot_map by done. apply flag_unique_map; [done | intros m; cbn; by case_match|].
  intros m. cbn. case_match; [|done]. unfold ToggleGroupMemberFlag, set_ms_flags. cbn. destruct b.
  - by rewrite has_flag_lor_other.
  - apply ldiff_has_flag.
Qed.
Lemma flag_unique_clean f h slots :
  flag_unique f slots -> flag_unique f (RemoveUniqueGroupMemberFlag h slots).
Proof.
  intros Hu. apply flag_unique_map; [done | intros m; cbn; by case_match|]. intros m. cbn. case_match; [|done].
  apply ldiff_has_flag.
Qed.
Lemma flag_unique_erase f u slots : flag_unique f slots -> flag_unique f (erase_slot u slots).
Proof. intros Hu m m' Hm Hm'. apply Hu; by eapply elem_of_erase. Qed.

(** *** Leaving *)

Lemma members_in_bound x i : roster_ok x -> isRaidGroup x = true -> (members_in i (m_memberSlots x) <= 5)%nat.
Proof. intros Hr Hraid. by apply ro_five. Qed.

Lemma roster_drop u sub x :
  roster_ok x -> reads_sub u sub x -> m_leaderGuid x <> u ->
  roster_ok (drop_member u (count_in (-1) sub x)).
Proof.
  intros [Hnd Hbg Hsub Hc H5 Hsz Hl Ht Ha] (m & Hm & Hms) Hlu.
  pose proof (getMemberSlot_elem _ _ _ Hm) as [Hin Hmu].
  pose proof (members_in_erase) as Herase.
  split; cbn [drop_member count_in m_memberSlots m_bgGroup m_subGroupsCounts m_leaderGuid set_memberSlots set_subGroupsCounts];
    change (isRaidGroup (drop_member u (count_in (-1) sub x))) with (isRaidGroup x).
  - by apply guids_erase.
  - exact Hbg.
  - rewrite Forall_forall in Hsub |- *. intros a Ha'%elem_of_erase. auto.
  - unfold count_at. destruct (m_subGroupsCounts x) as [counts|]; [|exact Hc]. cbn [fmap option_fmap option_map].
    destruct Hc as (Hr & Hlen & Hc). split; [exact Hr|]. rewrite length_alter. split; [exact Hlen|].
    intros i Hi. specialize (H5 Hr (Z.of_nat i)). rewrite (Herase (Z.of_nat i) u _ m Hm), members_in_one in H5.
    rewrite Forall_forall in Hsub. pose proof (Hsub m Hin) as Hm8.
    rewrite (counts_count (-1) sub counts i _ (Hc i Hi)); rewrite (Herase (Z.of_nat i) u _ m Hm), members_in_one.
    + f_equal. repeat case_decide; lia.
    + repeat case_decide; lia.
  - intros Hr i. specialize (H5 Hr i). rewrite (Herase i u _ m Hm) in H5. lia.
  - intros Hr. specialize (Hsz Hr). rewrite (length_erase_slot u) in Hsz; [lia|].
    rewrite <- Hmu. by apply list_elem_of_fmap_2.
  - intros _. unfold guids. cbn. rewrite erase_slot_filter by done.
    assert (Hne : m_memberSlots x <> []) by (intros E; rewrite E in Hin; by apply elem_of_nil in Hin).
    specialize (Hl Hne). apply list_elem_of_fmap in Hl as (a & Ea & Hain). rewrite Ea.
    apply list_elem_of_fmap_2, list_elem_of_filter. split; [congruence | done].
  - by apply flag_unique_erase.
  - by apply flag_unique_erase.
Qed.

Lemma roster_lead l n x : roster_ok x -> l ∈ guids x -> roster_ok (set_leader l n x).
Proof. intros [Hnd Hbg Hsub Hc H5 Hsz Hl Ht Ha] Hin. by split. Qed.

Lemma roster_take_out u sub x :
  roster_ok x -> reads_sub u sub x -> (2 <= length (m_memberSlots x))%nat -> roster_ok (take_out u sub x).
Proof.
  intros Hr Hs Hlen. unfold take_out. destruct (Z.eqb_spec (m_leaderGuid x) u) as [E|E]; [|by apply roster_drop].
  pose proof (ro_nodup x Hr) as Hnd. unfold led_by_first, led_by.
  change (m_memberSlots (drop_member u (count_in (-1) sub x))) with (erase_slot u (m_memberSlots x)).
  destruct (erase_slot u (m_memberSlots x)) as [|first rest] eqn:Ee.
  { exfalso. destruct Hs as (m & [Hm <-]%getMemberSlot_elem & _).
    rewrite (length_erase_slot (ms_guid m)) in Hlen by by apply list_elem_of_fmap_2.
    rewrite Ee in Hlen. cbn in Hlen. lia. }
  assert (Hf : first ∈ m_memberSlots x /\ ms_guid first <> u).
  { assert (Hin : first ∈ erase_slot u (m_memberSlots x)) by (rewrite Ee; left).
    rewrite erase_slot_filter in Hin by done. by apply list_elem_of_filter in Hin as [? ?]. }
  destruct Hf as [Hf Hne].
  assert (Hled : roster_ok (drop_member u (count_in (-1) sub (set_leader (ms_guid first) (ms_name first) x)))).
  { apply roster_drop; [|exact Hs | exact Hne]. apply roster_lead; [done|]. by apply list_elem_of_fmap_2. }
  rewrite <- Ee.
  change (roster_ok (set_memberSlots (update_slot (ms_guid first) (ToggleGroupMemberFlag MEMBER_FLAG_ASSISTANT false)
    (erase_slot u (m_memberSlots x))) (drop_member u (count_in (-1) sub (set_leader (ms_guid first) (ms_name first) x))))).
  apply roster_slots; [exact Hled | | |].
  - by apply same_places_update; [apply guids_erase|].
  - apply flag_unique_other; [by apply guids_erase | reflexivity | apply flag_unique_erase, Hr].
  - apply flag_unique_other; [by apply guids_erase | reflexivity | apply flag_unique_erase, Hr].
Qed.

(** *** Conversions *)

Definition counts_of (slots : list MemberSlot) (counts : list Z) : list Z :=
  foldl (fun cs m => alter (fun c => u8 (1 + c)) (Z.to_nat (ms_group m)) cs) counts slots.
Lemma counts_of_length slots counts : length (counts_of slots counts) = length counts.
Proof. revert counts. induction slots as [|m slots IH]; intros counts; [done|].
  unfold counts_of in *. cbn [foldl]. rewrite IH. apply length_alter.
Qed.
Lemma counts_of_lookup slots counts i n :
  Forall (fun m => 0 <= ms_group m < 8) slots -> counts !! i = Some n -> 0 <= n ->
  n + Z.of_nat (length slots) < 256 ->
  counts_of slots counts !! i = Some (n + Z.of_nat (members_in (Z.of_nat i) slots)).
Proof.
  revert counts n. induction slots as [|m slots IH]; intros counts n Hs Hi Hn Hlen.
  { cbn. by rewrite Z.add_0_r. }
  apply Forall_cons in Hs as [Hm Hs]. cbn [counts_of foldl length] in *.
  change (m :: slots) with ([m] ++ slots). rewrite members_in_app, members_in_one.
  change (counts_of slots (alter (fun c => u8 (1 + c)) (Z.to_nat (ms_group m)) counts) !! i = Some
    (n + Z.of_nat ((if decide (ms_group m = Z.of_nat i) then 1%nat else 0%nat) + members_in (Z.of_nat i) slots))).
  rewrite (IH _ (n + (if decide (Z.to_nat (ms_group m) = i) then 1 else 0))); [| done | | |].
  - f_equal. repeat case_decide; lia.
  - apply counts_count; [done|]. case_decide; lia.
  - case_decide; lia.
  - case_decide; lia.
Qed.

Definition to_raid (x : Group) : Group :=
  set_subGroupsCounts (Some (counts_of (m_memberSlots x) (replicate MAX_RAID_SUBGROUPS 0)))
    (set_groupType (Z.lor (m_groupType x) GROUPTYPE_RAID) x).
Definition to_group (x : Group) : Group := set_subGroupsCounts None (set_groupType GROUPTYPE_NORMAL x).
Definition to_lfg (x : Group) : Group :=
  set_groupType (Z.lor (m_groupType x) (Z.lor GROUPTYPE_LFG GROUPTYPE_UNK1)) x.

Lemma members_in_le i slots : (members_in i slots <= length slots)%nat.
Proof. apply length_filter. Qed.

(** A raid has at most eight times five members. *)
Lemma length_by_subgroup slots n :
  (forall i, members_in i slots <= 5)%nat ->
  (length (filter (fun m => (0 <= ms_group m < Z.of_nat n)%Z) slots) <= 5 * n)%nat.
Proof.
  intros H5. induction n as [|n IH].
  - replace (filter _ slots) with (@nil MemberSlot); [done|].
    clear. induction slots as [|m slots IHs]; [done|]. rewrite filter_cons_False by lia. exact IHs.
  - specialize (H5 (Z.of_nat n)). cut
      (length (filter (fun m => (0 <= ms_group m < Z.of_nat (S n))%Z) slots) <=
       length (filter (fun m => (0 <= ms_group m < Z.of_nat n)%Z) slots) + members_in (Z.of_nat n) slots)%nat; [lia|].
    clear. induction slots as [|m slots IHs]; [cbn; lia|].
    change (m :: slots) with ([m] ++ slots). rewrite members_in_app, members_in_one, !filter_app, !length_app.
    cbn [app]. rewrite !filter_cons. repeat case_decide; cbn; lia.
Qed.

Lemma roster_at_most_40 x : roster_ok x -> (length (m_memberSlots x) <= 40)%nat.
Proof.
  intros Hr. destruct (isRaidGroup x) eqn:E.
  - pose proof (length_by_subgroup (m_memberSlots x) 8 (ro_five x Hr E)) as Hl.
    replace (filter _ (m_memberSlots x)) with (m_memberSlots x) in Hl; [exact Hl|].
    pose proof (ro_sub x Hr) as Hs. revert Hs. generalize (m_memberSlots x). clear.
    induction 1 as [|m l Hm _ IH]; [done|]. rewrite filter_cons_True by lia. by rewrite <- IH.
  - pose proof (ro_size x Hr E). lia.
Qed.

Lemma isRaid_set t x : isRaidGroup (set_groupType t x) = has_flag t GROUPTYPE_RAID.
Proof. reflexivity. Qed.

Lemma roster_to_raid x : roster_ok x -> roster_ok (to_raid x).
Proof.
  intros Hr. pose proof (roster_at_most_40 x Hr) as H40. destruct Hr as [Hnd Hbg Hsub Hc H5 Hsz Hl Ht Ha].
  assert (Hraid : isRaidGroup (to_raid x) = true) by by apply has_flag_lor_same.
  split; try rewrite Hraid; cbn [to_raid m_memberSlots m_bgGroup m_subGroupsCounts m_leaderGuid set_subGroupsCounts
    set_groupType]; try done.
  - split; [done|]. split; [by rewrite counts_of_length, length_replicate|]. intros i Hi.
    rewrite (counts_of_lookup _ _ _ 0); [done | done | by apply lookup_replicate_2 | lia | lia].
  - intros _ i. destruct (isRaidGroup x) eqn:E; [by apply H5|].
    pose proof (members_in_le i (m_memberSlots x)). specialize (Hsz eq_refl). lia.
Qed.
Lemma roster_to_group x : roster_ok x -> (length (m_memberSlots x) <= 5)%nat -> roster_ok (to_group x).
Proof. intros [Hnd Hbg Hsub Hc H5 Hsz Hl Ht Ha] H. by split. Qed.
Lemma roster_to_lfg x : roster_ok x -> roster_ok (to_lfg x).
Proof.
  intros [Hnd Hbg Hsub Hc H5 Hsz Hl Ht Ha].
  assert (E : isRaidGroup (to_lfg x) = isRaidGroup x) by by apply has_flag_lor_other.
  split; try rewrite E; done.
Qed.

(** *** Moving between subgroups *)

Definition move (u old new : Z) (x : Group) : Group :=
  count_in (-1) old (count_in 1 new
    (set_memberSlots (update_slot u (set_ms_group new) (m_memberSlots x)) x)).

Lemma roster_move u old new x :
  roster_ok x -> reads_sub u old x -> HasFreeSlotSubGroup x new = true -> 0 <= new < 8 -> old <> new ->
  roster_ok (move u old new x).
Proof.
  intros [Hnd Hbg Hsub Hc H5 Hsz Hl Ht Ha] (m & Hm & Hms) Hfree Hnew Hne.
  pose proof (getMemberSlot_elem _ _ _ Hm) as [Hin Hmu].
  assert (Hold : 0 <= old < 8) by (rewrite Forall_forall in Hsub; rewrite <- Hms; by apply Hsub).
  pose proof (fun i => members_in_update i u (set_ms_group new) _ m Hm) as Hup.
  assert (Hg : ms_guid <$> update_slot u (set_ms_group new) (m_memberSlots x) = guids x) by by apply guids_update.
  unfold HasFreeSlotSubGroup in Hfree. destruct (m_subGroupsCounts x) as [counts|] eqn:Ecs; [|done].
  destruct Hc as (Hr & Hlen & Hc). pose proof (Hc (Z.to_nat new) ltac:(unfold MAX_RAID_SUBGROUPS; lia)) as Hcn.
  rewrite Hcn, Z2Nat.id in Hfree by lia. apply Z.ltb_lt in Hfree. unfold MAXGROUPSIZE in Hfree.
  split; change (isRaidGroup (move u old new x)) with (isRaidGroup x);
    cbn [move count_in m_memberSlots m_bgGroup m_leaderGuid set_memberSlots set_subGroupsCounts]; try done.
  - unfold guids. cbn. by rewrite Hg.
  - rewrite Forall_forall in Hsub |- *. intros a [Ha'|(b & Hb & _ & ->)]%elem_of_update; [auto | exact Hnew].
  - unfold move, count_in, count_at. cbn [m_subGroupsCounts set_subGroupsCounts set_memberSlots]. rewrite Ecs.
    cbn [fmap option_fmap option_map]. split; [done|]. rewrite !length_alter. split; [done|].
    intros i Hi. specialize (Hup (Z.of_nat i)). rewrite !members_in_one, Hms in Hup. cbn [ms_group set_ms_group] in Hup.
    pose proof (H5 Hr (Z.of_nat i)) as H5i.
    erewrite counts_count; [|apply (counts_count 1 new counts i _ (Hc i Hi))|].
    + f_equal. repeat case_decide; lia.
    + repeat case_decide; lia.
    + repeat case_decide; lia.
  - intros _ i. specialize (Hup i). rewrite !members_in_one, Hms in Hup. cbn [ms_group set_ms_group] in Hup.
    pose proof (H5 Hr i) as H5i. repeat case_decide; subst; lia.
  - intros E. congruence.
  - intros Hne'. unfold guids. cbn. rewrite Hg. apply Hl. intros E. apply Hne'. by rewrite E.
  - rewrite update_slot_map by done. apply flag_unique_map; [done | intros a; cbn; by case_match|].
    intros a. cbn. by case_match.
  - rewrite update_slot_map by done. apply flag_unique_map; [done | intros a; cbn; by case_match|].
    intros a. cbn. by case_match.
Qed.
(** ** The invariant of the world

    For worlds without battleground raids.  [E] holds the groups that may miss
    the leader's invitation for a moment: while the first member is accepted. *)

Definition player_guid (u : Z) : Prop := 0 < u < 2 ^ 32.

Record group_inv (E : gset Z) (c : World) (g : Z) (x : Group) : Prop := mkGroupInv {
  gi_roster : roster_ok x;
  gi_invited u k : (u, k) ∈ m_invitees x <->
    exists p, players c !! u = Some p /\ p_serial p = k /\ p_groupInvite p = Some g;
  gi_link u p : players c !! u = Some p -> (GetGroup p = Some g <-> u ∈ guids x);
  gi_place m p : m ∈ m_memberSlots x -> players c !! ms_guid m = Some p -> GetSubGroup p = ms_group m;
  gi_mgr u o : (u, o) ∈ m_memberMgr x <-> o = false /\ exists p, players c !! u = Some p /\ GetGroup p = Some g;
  gi_row u : u ∈ guids x -> group_member c !! u = Some (GetLowGUID x);
  gi_guid u : u ∈ guids x -> player_guid u;
  gi_pending : g ∉ E -> m_memberSlots x = [] -> m_subGroupsCounts x = None /\
    exists p, players c !! m_leaderGuid x = Some p /\ p_groupInvite p = Some g;
  gi_low : m_memberSlots x <> [] -> 0 <= GetLowGUID x < m_hiGroupGuid c;
  gi_set : g ∈ mGroupSet c <-> m_memberSlots x <> [];
  gi_fresh : g < next_group c
}.

Record player_inv (c : World) (u : Z) (p : Player) : Prop := mkPlayerInv {
  pi_guid : player_guid u;
  pi_original : GetOriginalGroup p = None;
  pi_invite g : p_groupInvite p = Some g -> is_Some (groups c !! g) /\ GetGroup p = None;
  pi_group g : GetGroup p = Some g -> is_Some (groups c !! g)
}.

Record world_ok (E : gset Z) (c : World) : Prop := mkWorldOk {
  wo_group g x : groups c !! g = Some x -> group_inv E c g x;
  wo_player u p : players c !! u = Some p -> player_inv c u p;
  wo_row u l : group_member c !! u = Some l -> exists g x, groups c !! g = Some x /\ u ∈ guids x /\ GetLowGUID x = l;
  wo_set g : g ∈ mGroupSet c -> is_Some (groups c !! g);
  wo_low g h x y : groups c !! g = Some x -> groups c !! h = Some y -> m_memberSlots x <> [] ->
    m_memberSlots y <> [] -> GetLowGUID x = GetLowGUID y -> g = h;
  wo_hi : 0 <= m_hiGroupGuid c
}.

(** A created group has two members at least. *)
Definition sizes_ok (c : World) : Prop := forall g x, groups c !! g = Some x ->
  m_memberSlots x = [] \/ (2 <= length (m_memberSlots x))%nat.

(** *** The players as another group sees them *)

Definition same_for (h : Z) (p p' : Player) : Prop :=
  p_serial p' = p_serial p /\ (p_groupInvite p = Some h <-> p_groupInvite p' = Some h) /\
  (GetGroup p = Some h <-> GetGroup p' = Some h) /\ (GetGroup p = Some h -> GetSubGroup p' = GetSubGroup p).
Definition unrelated (h : Z) (p : Player) : Prop := p_groupInvite p <> Some h /\ GetGroup p <> Some h.
(** A player may come or go who has nothing to do with the group. *)
Inductive seen (h : Z) (c : World) (u : Z) : option Player -> option Player -> Prop :=
| seen_nobody : seen h c u None None
| seen_same p p' : same_for h p p' -> seen h c u (Some p) (Some p')
| seen_gone p : unrelated h p -> seen h c u (Some p) None
| seen_came p : unrelated h p -> (forall x, groups c !! h = Some x -> u ∉ guids x) -> seen h c u None (Some p).
Definition agree (h : Z) (c c' : World) : Prop := forall u, seen h c u (players c !! u) (players c' !! u).

Lemma same_for_refl h p : same_for h p p.
Proof. repeat split; auto. Qed.
Lemma seen_refl h c u o : seen h c u o o.
Proof. destruct o; constructor. apply same_for_refl. Qed.
Lemma agree_refl h c c' : players c' = players c -> agree h c c'.
Proof. intros E u. rewrite E. apply seen_refl. Qed.
Lemma agree_w_player h u f c :
  (forall p, players c !! u = Some p -> same_for h p (f p)) -> agree h c (w_player u f c).
Proof.
  intros Hf w. destruct (decide (u = w)) as [<-|Hne].
  - rewrite w_players_same. destruct (players c !! u) as [p|]; constructor. auto.
  - rewrite w_players_other by done. apply seen_refl.
Qed.
Lemma agree_players h c c' c'' : agree h c c' -> players c'' = players c' -> agree h c c''.
Proof. intros Ha E u. rewrite E. apply Ha. Qed.
(** A player who has to do with [g] only. *)
Lemma same_for_else g h p p' :
  g <> h -> p_serial p' = p_serial p ->
  (p_groupInvite p = None \/ p_groupInvite p = Some g) -> (p_groupInvite p' = None \/ p_groupInvite p' = Some g) ->
  (GetGroup p = None \/ GetGroup p = Some g) -> (GetGroup p' = None \/ GetGroup p' = Some g) -> same_for h p p'.
Proof.
  intros Hne Hs H1 H2 H3 H4. split; [done|].
  split; [split; intros; destruct H1, H2; congruence|].
  split; [split; intros; destruct H3, H4; congruence | intros; destruct H3; congruence].
Qed.

(** A player tied to the group is there before and after. *)
Lemma agree_some h c c' u p : agree h c c' -> players c !! u = Some p -> p_groupInvite p = Some h \/ GetGroup p = Some h ->
  exists p', players c' !! u = Some p' /\ same_for h p p'.
Proof.
  intros Ha Hp Ht. specialize (Ha u). rewrite Hp in Ha. inversion Ha as [|? p' ? E1 E2|? [] E1|]; subst; [eauto|].
  by destruct Ht.
Qed.
Lemma agree_some_inv h c c' u p' : agree h c c' -> players c' !! u = Some p' ->
  p_groupInvite p' = Some h \/ GetGroup p' = Some h -> exists p, players c !! u = Some p /\ same_for h p p'.
Proof.
  intros Ha Hp Ht. specialize (Ha u). rewrite Hp in Ha. inversion Ha as [|p ? ? E1 E2| |? [] ? E1]; subst; [eauto|].
  by destruct Ht.
Qed.
Lemma agree_link h c c' x u p' : agree h c c' -> groups c !! h = Some x -> players c' !! u = Some p' ->
  (exists p, players c !! u = Some p /\ same_for h p p') \/ ((u ∉ guids x) /\ GetGroup p' <> Some h).
Proof.
  intros Ha Hx Hp. specialize (Ha u). rewrite Hp in Ha. inversion Ha as [|p ? ? E1 E2| |? [] ? E1]; subst; eauto.
Qed.

Lemma group_inv_frame E E' c c' h x :
  groups c !! h = Some x -> group_inv E c h x -> agree h c c' ->
  (forall u, u ∈ guids x -> group_member c' !! u = group_member c !! u) ->
  m_hiGroupGuid c <= m_hiGroupGuid c' -> (h ∈ mGroupSet c <-> h ∈ mGroupSet c') -> next_group c <= next_group c' ->
  (h ∉ E' -> h ∉ E) ->
  group_inv E' c' h x.
Proof.
  intros Hx [Hr Hi Hl Hpl Hm Hrow Hg Hp Hlow Hset Hf] Ha Hrows Hhi Hs Hn HE. split; try done.
  - intros u k. rewrite Hi. split.
    + intros (p & Hp1 & <- & Hp2). destruct (agree_some _ _ _ _ _ Ha Hp1 (or_introl Hp2)) as (p' & Hp' & E1 & E2 & _).
      exists p'. split; [done|]. split; [done|]. by apply E2.
    + intros (p & Hp1 & <- & Hp2). destruct (agree_some_inv _ _ _ _ _ Ha Hp1 (or_introl Hp2)) as (p' & Hp' & E1 & E2 & _).
      exists p'. split; [done|]. split; [done|]. by apply E2.
  - intros u p Hp1. destruct (agree_link _ _ _ _ _ _ Ha Hx Hp1) as [(p' & Hp' & _ & _ & E3 & _)|[? ?]]; [|done].
    rewrite <- E3. by apply Hl.
  - intros m p Hin Hp1. destruct (agree_link _ _ _ _ _ _ Ha Hx Hp1) as [(p' & Hp' & _ & _ & _ & E4)|[Hn' _]].
    + rewrite E4; [by apply Hpl|]. apply (Hl _ _ Hp'). by apply list_elem_of_fmap_2.
    + exfalso. by apply Hn', list_elem_of_fmap_2.
  - intros u o. rewrite Hm. split.
    + intros (-> & p & Hp1 & Hp2). destruct (agree_some _ _ _ _ _ Ha Hp1 (or_intror Hp2)) as (p' & Hp' & _ & _ & E3 & _).
      split; [done|]. exists p'. split; [done|]. by apply E3.
    + intros (-> & p & Hp1 & Hp2). destruct (agree_some_inv _ _ _ _ _ Ha Hp1 (or_intror Hp2)) as (p' & Hp' & _ & _ & E3 & _).
      split; [done|]. exists p'. split; [done|]. by apply E3.
  - intros u Hu. rewrite Hrows by done. by apply Hrow.
  - intros HnE He. destruct (Hp (HE HnE) He) as (Hc & p & Hp1 & Hp2). split; [done|].
    destruct (agree_some _ _ _ _ _ Ha Hp1 (or_introl Hp2)) as (p' & Hp' & _ & E2 & _). exists p'. split; [done|]. by apply E2.
  - intros He. specialize (Hlow He). lia.
  - by rewrite <- Hs.
  - lia.
Qed.

(** *** What it gives the runs *)

Definition settled (c : World) : Prop := forall u p, players c !! u = Some p -> p_inWorld p = true.

Lemma world_knows E c g x : world_ok E c -> settled c -> groups c !! g = Some x -> knows c g x.
Proof.
  intros Hw Hs Hx. destruct (wo_group _ _ Hw g x Hx) as [Hr Hi Hl Hpl Hm Hrow Hg Hp Hlow Hset Hf]. split.
  - intros u k. apply Hi.
  - intros u p Hp1 Hp2. apply Hi. eauto.
  - intros u o. apply Hm.
  - intros u p Hp1. by apply Hl.
  - intros u p Hp1. split; [by eapply Hs | apply (wo_player _ _ Hw u p Hp1)].
Qed.
Lemma world_linked E c g x u : world_ok E c -> settled c -> groups c !! g = Some x -> u ∈ guids x -> linked_to c g u.
Proof.
  intros Hw Hs Hx Hu p Hp. pose proof (world_knows _ _ _ _ Hw Hs Hx) as Hk.
  split; [by eapply kn_party | by apply (kn_member _ _ _ Hk u p Hp)].
Qed.
Lemma reads_sub_ok x u : roster_ok x -> u ∈ guids x ->
  exists sub, reads_sub u sub x /\ 0 <= sub < 8 /\ has_counter sub x.
Proof.
  intros Hr Hu. destruct (getMemberSlot_some u _ Hu) as [m Hm]. exists (ms_group m).
  pose proof (getMemberSlot_elem _ _ _ Hm) as [Hin _].
  assert (Hs : 0 <= ms_group m < 8) by (pose proof (ro_sub x Hr) as Hs; rewrite Forall_forall in Hs; by apply Hs).
  split; [by exists m|]. split; [exact Hs|]. unfold has_counter. pose proof (ro_counts x Hr) as Hc.
  destruct (m_subGroupsCounts x); [|done]. destruct Hc as (_ & _ & Hc).
  eexists. apply Hc. unfold MAX_RAID_SUBGROUPS. lia.
Qed.
Lemma roster_counts_len x : roster_ok x -> good_counts x.
Proof. intros Hr. unfold good_counts. pose proof (ro_counts x Hr). destruct (m_subGroupsCounts x); [|done]. apply H. Qed.
(** *** One group changes *)

Lemma world_change E E' c c' g x' :
  world_ok E c -> groups c' = <[g := x']> (groups c) -> group_inv E' c' g x' ->
  (forall h, g <> h -> agree h c c') ->
  (forall u p, players c' !! u = Some p -> player_inv c' u p) ->
  (forall h y u, g <> h -> groups c !! h = Some y -> u ∈ guids y -> group_member c' !! u = group_member c !! u) ->
  (forall u l, group_member c' !! u = Some l ->
     (u ∈ guids x' /\ GetLowGUID x' = l) \/
     exists h y, g <> h /\ groups c !! h = Some y /\ u ∈ guids y /\ GetLowGUID y = l) ->
  (forall h y, g <> h -> groups c !! h = Some y -> m_memberSlots y <> [] -> m_memberSlots x' <> [] ->
     GetLowGUID x' <> GetLowGUID y) ->
  m_hiGroupGuid c <= m_hiGroupGuid c' -> next_group c <= next_group c' ->
  (forall h, g <> h -> (h ∈ mGroupSet c <-> h ∈ mGroupSet c')) ->
  (forall h, g <> h -> h ∉ E' -> h ∉ E) ->
  world_ok E' c'.
Proof.
  intros Hw Hgr Hg Ha Hp Hrow Hrow2 Hlow Hhi Hn Hset HE. split.
  - intros h y Hy. rewrite Hgr in Hy. destruct (decide (g = h)) as [<-|Hne].
    + rewrite lookup_insert_eq in Hy. by injection Hy as <-.
    + rewrite lookup_insert_ne in Hy by done. eapply group_inv_frame; [exact Hy | by apply (wo_group _ _ Hw) | | | | | |]; eauto.
  - exact Hp.
  - intros u l Hu. destruct (Hrow2 u l Hu) as [[? ?]|(h & y & Hne & Hy & ? & ?)].
    + exists g, x'. by rewrite Hgr, lookup_insert_eq.
    + exists h, y. by rewrite Hgr, lookup_insert_ne.
  - intros h Hh. rewrite Hgr. destruct (decide (g = h)) as [<-|Hne]; [rewrite lookup_insert_eq; eauto|].
    rewrite lookup_insert_ne by done. apply (wo_set _ _ Hw). by apply Hset.
  - intros h1 h2 y1 y2. rewrite Hgr. destruct (decide (g = h1)) as [<-|N1], (decide (g = h2)) as [<-|N2];
      rewrite ?lookup_insert_eq, ?lookup_insert_ne by done; [done | | |].
    + intros [= <-] Hy2 S1 S2 El. by destruct (Hlow h2 y2 N2 Hy2 S2 S1).
    + intros Hy1 [= <-] S1 S2 El. symmetry in El. by destruct (Hlow h1 y1 N1 Hy1 S1 S2).
    + apply (wo_low _ _ Hw).
  - pose proof (wo_hi _ _ Hw). lia.
Qed.

Lemma groups_w_group g f c x : groups c !! g = Some x -> groups (w_group g f c) = <[g := f x]> (groups c).
Proof.
  intros Hx. unfold w_group, on_groups. cbn. apply map_eq. intros h. destruct (decide (g = h)) as [<-|Hne].
  - by rewrite lookup_alter_eq, lookup_insert_eq, Hx.
  - by rewrite lookup_alter_ne, lookup_insert_ne.
Qed.

(** The rows and the low GUIDs of a world in which the members stay. *)
Lemma same_rows E c c' g x x' :
  world_ok E c -> groups c !! g = Some x -> guids x' = guids x -> GetLowGUID x' = GetLowGUID x ->
  group_member c' = group_member c ->
  forall u l, group_member c' !! u = Some l ->
     (u ∈ guids x' /\ GetLowGUID x' = l) \/
     exists h y, g <> h /\ groups c !! h = Some y /\ u ∈ guids y /\ GetLowGUID y = l.
Proof.
  intros Hw Hx Hgu Hl -> u l Hu. destruct (wo_row _ _ Hw u l Hu) as (h & y & Hy & Hin & Hly).
  destruct (decide (g = h)) as [<-|Hne]; [left | right; eauto 10].
  rewrite Hx in Hy. injection Hy as <-. by rewrite Hgu, Hl.
Qed.
Lemma same_low E c g x x' :
  world_ok E c -> groups c !! g = Some x -> GetLowGUID x' = GetLowGUID x ->
  (m_memberSlots x' <> [] -> m_memberSlots x <> []) ->
  forall h y, g <> h -> groups c !! h = Some y -> m_memberSlots y <> [] -> m_memberSlots x' <> [] ->
     GetLowGUID x' <> GetLowGUID y.
Proof.
  intros Hw Hx Hl Hs h y Hne Hy Hny Hnx E1. apply Hne.
  eapply (wo_low _ _ Hw); [exact Hx | exact Hy | by apply Hs | exact Hny | congruence].
Qed.
Lemma guids_nil x x' : guids x' = guids x -> (m_memberSlots x' = [] <-> m_memberSlots x = []).
Proof.
  unfold guids. intros Hg%(f_equal length). rewrite !length_fmap in Hg.
  split; intros E; apply nil_length_inv; rewrite E in Hg; cbn in Hg; lia.
Qed.

(** A change of a group that keeps its members and their places. *)
Record restyled (x x' : Group) : Prop := mkRestyled {
  rs_roster : roster_ok x';
  rs_invitees : m_invitees x' = m_invitees x;
  rs_mgr : m_memberMgr x' = m_memberMgr x;
  rs_guid : m_guid x' = m_guid x;
  rs_places : same_places (m_memberSlots x) (m_memberSlots x');
  rs_pending : m_memberSlots x <> []
}.

Lemma world_restyle E c g x f :
  world_ok E c -> groups c !! g = Some x -> restyled x (f x) -> world_ok E (w_group g f c).
Proof.
  intros Hw Hx [Hr Hi Hm Hg Hpl Hpe]. pose proof (wo_group _ _ Hw g x Hx) as [].
  assert (Hgu : guids (f x) = guids x) by apply (same_places_guids _ _ Hpl).
  assert (Hlow : GetLowGUID (f x) = GetLowGUID x) by (unfold GetLowGUID; by rewrite Hg).
  pose proof (guids_nil x (f x) Hgu) as Hnil.
  eapply (world_change E E c _ g (f x) Hw); [by apply groups_w_group | | | | done | | | cbn; lia | cbn; lia | done | done].
  - split; rewrite ?Hi, ?Hm, ?Hgu, ?Hlow; try done.
    + destruct Hpl as (k & Es & Hk). rewrite Es. intros m p (a & -> & Ha)%list_elem_of_fmap.
      destruct (Hk a) as [E1 E2]. rewrite E1, E2. by apply gi_place0.
    + intros _ E0. exfalso. by apply Hpe, Hnil.
    + intros Hne. apply gi_low0. intros E0. by apply Hne, Hnil.
    + cbn. rewrite gi_set0. by rewrite Hnil.
  - intros h _. by apply agree_refl.
  - intros u p Hp. destruct (wo_player _ _ Hw u p Hp) as [P1 P2 P3 P4]. split; [done | done | |].
    + intros h Hh. destruct (P3 h Hh) as [[y Hy] Hn]. split; [|done]. destruct (decide (g = h)) as [<-|Hne].
      * rewrite w_groups_same, Hx. by eexists.
      * rewrite w_groups_other by done. by eexists.
    + intros h Hh. destruct (P4 h Hh) as [y Hy]. destruct (decide (g = h)) as [<-|Hne].
      * rewrite w_groups_same, Hx. by eexists.
      * rewrite w_groups_other by done. by eexists.
  - eapply same_rows; eauto.
  - eapply same_low; eauto.
Qed.
(** *** Invitations *)

Lemma some_w_group g f c h : is_Some (groups (w_group g f c) !! h) <-> is_Some (groups c !! h).
Proof.
  destruct (decide (g = h)) as [<-|Hne].
  - rewrite w_groups_same. apply fmap_is_Some.
  - by rewrite w_groups_other.
Qed.

Lemma player_inv_frame c c' u p :
  player_inv c u p -> (forall h, is_Some (groups c !! h) -> is_Some (groups c' !! h)) -> player_inv c' u p.
Proof.
  intros [P1 P2 P3 P4] Hd. split; [done | done | |].
  - intros h Hh. destruct (P3 h Hh). auto.
  - intros h Hh. auto.
Qed.

(** What is needed of a change of one group and one player who has to do with
    no other group: [x'] and [p'] are what they become. *)
Definition only_g (g : Z) (p : Player) : Prop :=
  (p_groupInvite p = None \/ p_groupInvite p = Some g) /\ (GetGroup p = None \/ GetGroup p = Some g).

Lemma world_change_at E E' c g u x p f h :
  world_ok E c -> groups c !! g = Some x -> players c !! u = Some p ->
  only_g g p -> only_g g (h p) -> p_serial (h p) = p_serial p ->
  player_inv c u (h p) ->
  guids (f x) = guids x -> GetLowGUID (f x) = GetLowGUID x ->
  group_inv E' (w_group g f (w_player u h c)) g (f x) ->
  (forall k, g <> k -> k ∉ E' -> k ∉ E) ->
  world_ok E' (w_group g f (w_player u h c)).
Proof.
  intros Hw Hx Hp [Ho1 Ho2] [Ho3 Ho4] Hs Hpi Hgu Hlow Hg HE. pose proof (guids_nil x (f x) Hgu) as Hnil.
  eapply (world_change E E' c _ g (f x) Hw); [by apply (groups_w_group g f (w_player u h c)) | exact Hg | | | done | | | cbn; lia | cbn; lia | done | exact HE].
  - intros k Hne. eapply agree_players; [apply (agree_w_player k u h c)|reflexivity].
    intros q Hq. rewrite Hp in Hq. injection Hq as <-. by eapply same_for_else.
  - intros w q Hq. apply (player_inv_frame c); [|intros k; by rewrite some_w_group].
    cbn [players w_group on_groups] in Hq. destruct (decide (u = w)) as [<-|Hne].
    + rewrite w_players_same, Hp in Hq. by injection Hq as <-.
    + rewrite w_players_other in Hq by done. by apply (wo_player _ _ Hw).
  - eapply same_rows; eauto.
  - eapply same_low; eauto. by rewrite Hnil.
Qed.

Lemma players_after g u f h c w :
  players (w_group g f (w_player u h c)) !! w = if decide (u = w) then h <$> players c !! w else players c !! w.
Proof.
  cbn [players w_group on_groups]. case_decide as E; [subst; by rewrite w_players_same | by rewrite w_players_other].
Qed.

(** The invitation of one player changes: to [Some g] or to nothing. *)
Definition with_invite (o : option Z) : Player -> Player := set_groupInvite o.

Lemma group_inv_invite E E' c g u x p o inv :
  world_ok E c -> groups c !! g = Some x -> players c !! u = Some p ->
  (o = None \/ o = Some g) ->
  (forall w k, (w, k) ∈ inv <-> if decide (w = u) then k = p_serial p /\ o = Some g else (w, k) ∈ m_invitees x) ->
  (g ∈ E' \/ m_memberSlots x <> []) ->
  group_inv E' (w_group g (set_invitees inv) (w_player u (with_invite o) c)) g (set_invitees inv x).
Proof.
  intros Hw Hx Hp Ho Hinv HE. pose proof (wo_group _ _ Hw g x Hx) as [].
  split; try done.
  - destruct gi_roster0. by split.
  - intros w k. cbn [m_invitees set_invitees]. rewrite Hinv, players_after. case_decide as E1.
    + subst w. rewrite decide_True by done. rewrite Hp. cbn. split.
      * intros [-> ->]. by eexists.
      * intros (q & [= <-] & <- & Hq). by split.
    + rewrite decide_False by done. apply gi_invited0.
  - intros w q. rewrite players_after. case_decide as E1; [|apply gi_link0].
    destruct (players c !! w) as [q'|] eqn:Hq'; [|done]. intros [= <-]. by apply (gi_link0 w q').
  - intros m q Hm. rewrite players_after. case_decide as E1; [|by apply gi_place0].
    destruct (players c !! ms_guid m) as [q'|] eqn:Hq'; [|done]. intros [= <-]. by apply (gi_place0 m q').
  - intros w o'. cbn [m_memberMgr set_invitees]. rewrite gi_mgr0. split; intros (-> & q & Hq & Hg); split; try done.
    + rewrite players_after. case_decide as E1; [|eauto]. rewrite Hq. eexists. by split.
    + rewrite players_after in Hq. case_decide as E1; [|eauto].
      destruct (players c !! w) as [q'|] eqn:Hq'; [|done]. injection Hq as <-. eauto.
  - intros HnE Hs. by destruct HE.
Qed.

Lemma world_uninvite E E' c g u x p :
  world_ok E c -> groups c !! g = Some x -> players c !! u = Some p -> p_groupInvite p = Some g ->
  (g ∈ E' \/ m_memberSlots x <> []) -> (forall k, g <> k -> k ∉ E' -> k ∉ E) ->
  world_ok E' (t_uninvite g u (p_serial p) c).
Proof.
  intros Hw Hx Hp Hi Hpend HE. destruct (wo_player _ _ Hw u p Hp) as [P1 P2 P3 P4].
  destruct (P3 g Hi) as [_ Hn].
  unfold t_uninvite. rewrite (w_group_ext g _ (set_invitees (m_invitees x ∖ {[(u, p_serial p)]}))).
  2: { intros y Hy. cbn [groups w_player on_players] in Hy. rewrite Hx in Hy. by injection Hy as <-. }
  eapply (world_change_at E E' c g u x p); try done.
  - split; [by right | by left].
  - split; [by left | by left].
  - eapply (group_inv_invite E E' c g u x p None); eauto. intros w k. rewrite elem_of_difference, elem_of_singleton.
    pose proof (gi_invited _ _ _ _ (wo_group _ _ Hw g x Hx) w k) as Hiff. case_decide as E1.
    + subst w. split; [|by intros [_ [=]]]. intros [Hin Hne]. exfalso. apply Hne. apply Hiff in Hin as (q & Hq & <- & _).
      congruence.
    + split; [by intros [? _] | intros Hin; split; [done | congruence]].
Qed.

Definition t_invite (g u k : Z) (c : World) : World :=
  w_group g (fun x => set_invitees ({[ (u, k) ]} ∪ m_invitees x) x) (w_player u (with_invite (Some g)) c).

Lemma world_invite E E' c g u x p :
  world_ok E c -> groups c !! g = Some x -> players c !! u = Some p ->
  p_groupInvite p = None -> GetGroup p = None ->
  (g ∈ E' \/ m_memberSlots x <> []) -> (forall k, g <> k -> k ∉ E' -> k ∉ E) ->
  world_ok E' (t_invite g u (p_serial p) c).
Proof.
  intros Hw Hx Hp Hi Hn Hpend HE. destruct (wo_player _ _ Hw u p Hp) as [P1 P2 P3 P4].
  unfold t_invite. rewrite (w_group_ext g _ (set_invitees ({[(u, p_serial p)]} ∪ m_invitees x))).
  2: { intros y Hy. cbn [groups w_player on_players] in Hy. rewrite Hx in Hy. by injection Hy as <-. }
  eapply (world_change_at E E' c g u x p); try done.
  - split; by left.
  - split; [by right | by left].
  - split; [done | done | |].
    + intros h [= <-]. split; [by eexists | exact Hn].
    + intros h. apply P4.
  - eapply (group_inv_invite E E' c g u x p (Some g)); eauto. intros w k. rewrite elem_of_union, elem_of_singleton.
    pose proof (gi_invited _ _ _ _ (wo_group _ _ Hw g x Hx) w k) as Hiff. case_decide as E1.
    + subst w. split; [|intros [-> _]; by left]. intros [[= ->]|Hin]; [done|].
      apply Hiff in Hin as (q & Hq & <- & Hqi). congruence.
    + split; [intros [[= ? ?]|?]; [done | done] | by right].
Qed.
(** *** New members *)

Lemma lopart_player u : player_guid u -> GUID_LOPART u = u.
Proof.
  intros Hu. unfold GUID_LOPART. change 0xFFFFFFFF with (Z.ones 32). rewrite Z.land_ones by lia.
  apply Z.mod_small. unfold player_guid in Hu. lia.
Qed.

Lemma elem_of_guids_add u name sub x w : w ∈ guids (add_member u name sub x) <-> w ∈ guids x \/ w = u.
Proof. unfold guids. cbn. rewrite fmap_app, elem_of_app. cbn. by rewrite list_elem_of_singleton. Qed.

Lemma group_inv_add E E' c c' g x u name sub p :
  group_inv E c g x -> players c !! u = Some p -> player_guid u -> p_groupInvite p = None -> GetGroup p = None ->
  IsFull x = false -> free_subgroup x = Some sub -> (m_memberSlots x = [] -> m_leaderGuid x = u) ->
  players c' = players (w_player u (entered g sub) c) ->
  (forall w, w ∈ guids x -> group_member c' !! w = group_member c !! w) ->
  group_member c' !! u = Some (GetLowGUID x) -> 0 <= GetLowGUID x < m_hiGroupGuid c' ->
  g ∈ mGroupSet c' -> g < next_group c' ->
  group_inv E' c' g (add_member u name sub x).
Proof.
  intros [Hr Hi Hl Hpl Hm Hrow Hg _ _ _ _] Hp Hu Hpi Hpg Hfull Hfree Hlead Hps Hrows Hrowu Hlow Hset Hfr.
  assert (Hnu : u ∉ guids x) by (intros Hin; apply (Hl u p Hp) in Hin; congruence).
  assert (Hps' : forall w, players c' !! w = if decide (u = w) then entered g sub <$> players c !! w else players c !! w).
  { intros w. rewrite Hps. case_decide as Ew; [subst; by rewrite w_players_same | by rewrite w_players_other]. }
  assert (Hother : forall w q, w <> u -> players c' !! w = Some q <-> players c !! w = Some q).
  { intros w q Hw. rewrite Hps', decide_False by auto. done. }
  assert (Hself : players c' !! u = Some (entered g sub p)) by (rewrite Hps', decide_True, Hp; done).
  split; try done.
  - by apply roster_add.
  - intros w k. cbn [m_invitees add_member add_link count_in push_member set_memberMgr set_subGroupsCounts set_memberSlots].
    rewrite Hi. destruct (decide (w = u)) as [->|Hw].
    + split; intros (q & Hq & _ & Hqi); [rewrite Hp in Hq | rewrite Hself in Hq]; injection Hq as <-;
        [congruence | discriminate].
    + split; intros (q & Hq & ?); exists q; (split; [by apply (Hother w q Hw) | done]).
  - intros w q Hq. rewrite elem_of_guids_add. destruct (decide (w = u)) as [->|Hw].
    + rewrite Hself in Hq. injection Hq as <-. split; [by right | done].
    + apply (Hother w q Hw) in Hq. rewrite (Hl w q Hq). split; [by left | by intros [|]].
  - intros m q [Hin|Hin]%elem_of_app Hq.
    + apply (Hpl m q Hin). apply Hother; [|done]. intros E1. apply Hnu. rewrite <- E1. by apply list_elem_of_fmap_2.
    + apply list_elem_of_singleton in Hin as ->. cbn in Hq |- *. rewrite Hself in Hq. by injection Hq as <-.
  - intros w o. cbn [m_memberMgr add_member add_link set_memberMgr count_in push_member set_subGroupsCounts set_memberSlots].
    rewrite elem_of_cons, Hm. destruct (decide (w = u)) as [->|Hw].
    + split; [intros [[= ->]|(-> & q & Hq & Hqg)]; [split; [done|]; by eexists | rewrite Hp in Hq; congruence]|].
      intros (-> & _). by left.
    + split; [intros [[= ? ?]|(-> & q & Hq & Hqg)]; [done|]; split; [done|]; exists q; split; [by apply Hother | done]|].
      intros (-> & q & Hq & Hqg). right. split; [done|]. exists q. split; [by apply (Hother w q Hw) | done].
  - intros w [Hw| ->]%elem_of_guids_add; [rewrite Hrows by done; by apply Hrow | exact Hrowu].
  - intros w [Hw| ->]%elem_of_guids_add; [by apply Hg | done].
  - intros _ E0. exfalso. cbn in E0. by destruct (m_memberSlots x).
  - split; [|done]. intros _ E0. cbn in E0. by destruct (m_memberSlots x).
Qed.

(** A player in no group has no row. *)
Lemma no_row E c u p : world_ok E c -> players c !! u = Some p -> GetGroup p = None -> group_member c !! u = None.
Proof.
  intros Hw Hp Hg. destruct (group_member c !! u) as [l|] eqn:El; [|done]. exfalso.
  destruct (wo_row _ _ Hw u l El) as (g & x & Hx & Hin & _).
  apply (gi_link _ _ _ _ (wo_group _ _ Hw g x Hx) u p Hp) in Hin. congruence.
Qed.

Lemma same_for_entered g sub h p :
  g <> h -> p_groupInvite p = None \/ p_groupInvite p = Some g -> GetGroup p = None -> same_for h p (entered g sub p).
Proof. intros Hne Hi Hg. apply (same_for_else g h p (entered g sub p) Hne eq_refl Hi); [by left | by left | by right]. Qed.

Lemma world_add E c g u name sub x :
  world_ok E c -> addable c g u x sub -> roster_ok x -> m_memberSlots x <> [] ->
  (forall p, players c !! u = Some p -> p_groupInvite p = None) ->
  world_ok E (t_add (GetLowGUID x) g u name sub c).
Proof.
  intros Hw (Hx & _ & Hfull & _ & Hfree & _ & p & Hp & _ & Hg) Hr Hne Hinv. specialize (Hinv p Hp).
  destruct (wo_player _ _ Hw u p Hp) as [P1 P2 P3 P4]. pose proof (no_row _ _ _ _ Hw Hp Hg) as Hrow.
  pose proof (wo_group _ _ Hw g x Hx) as Hgi.
  assert (Hnu : u ∉ guids x) by (intros Hin; apply (gi_link _ _ _ _ Hgi u p Hp) in Hin; congruence).
  assert (Hmem : group_member (t_add (GetLowGUID x) g u name sub c) = <[u := GetLowGUID x]> (group_member c)).
  { unfold t_add, insert_row, execute_on. cbn [group_member on_group_member w_group on_groups w_player on_players].
    by rewrite (lopart_player u P1), Hrow. }
  eapply (world_change E E c _ g (add_member u name sub x) Hw);
    [by apply (groups_w_group g (add_member u name sub) (w_player u (entered g sub) c)) | | | | | | | cbn; lia | cbn; lia | done | done].
  - eapply group_inv_add; try done; rewrite ?Hmem.
    + intros w Hwin. rewrite lookup_insert_ne by (intros ->; done). done.
    + by rewrite lookup_insert_eq.
    + by apply (gi_low _ _ _ _ Hgi).
    + by apply (gi_set _ _ _ _ Hgi).
    + apply (gi_fresh _ _ _ _ Hgi).
  - intros h Hh. eapply agree_players; [apply (agree_w_player h u (entered g sub) c) | done].
    intros q Hq. rewrite Hp in Hq. injection Hq as <-. apply same_for_entered; auto.
  - intros w q Hq. apply (player_inv_frame c); [|intros k; cbn [groups t_add on_group_member]; by rewrite some_w_group].
    cbn [players t_add on_group_member w_group on_groups] in Hq. destruct (decide (u = w)) as [<-|Hne'].
    + rewrite w_players_same, Hp in Hq. injection Hq as <-. split; [done | done | done |].
      intros h [= <-]. by eexists.
    + rewrite w_players_other in Hq by done. by apply (wo_player _ _ Hw).
  - intros h y w Hh Hy Hin. rewrite Hmem, lookup_insert_ne; [done|]. intros <-.
    apply (gi_link _ _ _ _ (wo_group _ _ Hw h y Hy) u p Hp) in Hin. congruence.
  - intros w l. rewrite Hmem. destruct (decide (u = w)) as [<-|Hne'].
    + rewrite lookup_insert_eq. intros [= <-]. left. split; [|done]. apply elem_of_guids_add. by right.
    + rewrite lookup_insert_ne by done. intros Hl. destruct (wo_row _ _ Hw w l Hl) as (h & y & Hy & Hin & Hly).
      destruct (decide (g = h)) as [<-|Hgh]; [|right; eauto 10].
      left. rewrite Hx in Hy. injection Hy as <-. split; [|done]. apply elem_of_guids_add. by left.
  - intros h y Hh Hy Hny _. exact (same_low E c g x x Hw Hx eq_refl (fun H => H) h y Hh Hy Hny Hne).
Qed.
(** *** A group is founded *)

Lemma create_rows_lookup low u t :
  player_guid u -> t !! u = None -> (forall w, t !! w <> Some low) -> create_rows low u t = <[u := low]> t.
Proof.
  intros Hu Ht Hlow. unfold create_rows, insert_row, execute_on. rewrite (lopart_player u Hu), Ht.
  assert (E : filter (fun '(k, l) => ~ (l = low \/ k = u)) (<[u := low]> t) = t).
  { apply map_eq. intros w. destruct (decide (w = u)) as [->|Hne].
    - rewrite Ht. apply map_lookup_filter_None. right. intros l _ Hn. apply Hn. by right.
    - destruct (t !! w) as [l|] eqn:El.
      + apply map_lookup_filter_Some. rewrite lookup_insert_ne by done. split; [done|].
        intros [->|?]; [by apply (Hlow w) | done].
      + apply map_lookup_filter_None. left. by rewrite lookup_insert_ne. }
  by rewrite E, Ht.
Qed.

(** No row has the low GUID of the next group. *)
Lemma row_below E c u l : world_ok E c -> group_member c !! u = Some l -> l < m_hiGroupGuid c.
Proof.
  intros Hw Hl. destruct (wo_row _ _ Hw u l Hl) as (g & x & Hx & Hin & <-).
  apply (gi_low _ _ _ _ (wo_group _ _ Hw g x Hx)). intros E0. unfold guids in Hin. rewrite E0 in Hin.
  by apply elem_of_nil in Hin.
Qed.

Lemma roster_started leader name low x :
  roster_ok x -> m_memberSlots x = [] -> m_subGroupsCounts x = None -> roster_ok (started leader name low x).
Proof.
  intros [Hnd Hbg Hsub Hc H5 Hsz Hl Ht Ha] Hs Hcs.
  split; try done; cbn [started m_memberSlots m_subGroupsCounts set_groupType set_leader set_guid]; rewrite ?Hcs; try done.
  intros _. rewrite Hs. cbn. lia.
Qed.

Lemma world_create c g L name x p :
  world_ok {[ g ]} c -> groups c !! g = Some x -> m_memberSlots x = [] -> m_subGroupsCounts x = None ->
  players c !! L = Some p -> p_groupInvite p = None -> GetGroup p = None -> m_hiGroupGuid c < 2 ^ 32 - 1 ->
  world_ok ∅ (on_group_set (fun l => l ∪ {[ g ]}) (t_create g L name c)).
Proof.
  intros Hw Hx Hs Hc Hp Hpi Hpg Hhi. pose proof (wo_hi _ _ Hw) as Hhi0.
  destruct (wo_player _ _ Hw L p Hp) as [P1 P2 P3 P4]. pose proof (no_row _ _ _ _ Hw Hp Hpg) as Hrow.
  pose proof (wo_group _ _ Hw g x Hx) as Hgi. set (low := m_hiGroupGuid c) in *.
  set (c' := on_group_set _ _). set (x0 := started L name low x).
  assert (Hx0 : group_inv {[ g ]} c g x0).
  { destruct Hgi. split; try done.
    - by apply roster_started.
    - unfold guids. cbn. rewrite Hs. by intros u ?%elem_of_nil.
    - by intros ?%not_elem_of_singleton. }
  assert (Hmem : group_member c' = <[L := low]> (group_member c)).
  { apply create_rows_lookup; [done | done|]. intros w Hl. pose proof (row_below _ _ _ _ Hw Hl). unfold low in *. lia. }
  assert (Hlow : GetLowGUID x0 = low) by (apply low_of_make; lia).
  assert (Hhi' : m_hiGroupGuid c' = low + 1) by (apply uwrap_id; unfold in_u; fold low; lia).
  eapply (world_change {[ g ]} ∅ c c' g (add_member L name 0 x0) Hw);
    [by apply (groups_w_group g (add_member L name 0 ∘ started L name low) (w_player L (entered g 0) c))
    | | | | | | | rewrite Hhi'; lia | cbn; lia | |].
  - eapply (group_inv_add _ _ c c' g x0 L name 0 p Hx0); try done; rewrite ?Hmem, ?Hlow, ?Hhi'.
    + unfold IsFull, GetMembersCount. cbn. by rewrite Hs.
    + unfold free_subgroup. cbn. by rewrite Hc.
    + unfold guids. cbn. rewrite Hs. by intros w ?%elem_of_nil.
    + by rewrite lookup_insert_eq.
    + lia.
    + cbn. set_solver.
    + apply (gi_fresh _ _ _ _ Hgi).
  - intros h Hh. eapply agree_players; [apply (agree_w_player h L (entered g 0) c) | done].
    intros q Hq. rewrite Hp in Hq. injection Hq as <-. apply same_for_entered; auto.
  - intros w q Hq.
    assert (Hd : forall k, is_Some (groups c !! k) -> is_Some (groups c' !! k)).
    { intros k Hk. unfold c', t_create. cbn [groups on_group_set on_group_member]. by apply some_w_group. }
    apply (player_inv_frame c); [|exact Hd].
    unfold c', t_create in Hq. cbn [players on_group_set on_group_member w_group on_groups] in Hq.
    destruct (decide (L = w)) as [<-|Hne'].
    + rewrite w_players_same in Hq. cbn [players took_low_guid] in Hq. rewrite Hp in Hq. injection Hq as <-.
      split; [done | done | done |]. intros h [= <-]. by eexists.
    + rewrite w_players_other in Hq by done. by apply (wo_player _ _ Hw).
  - intros h y w Hh Hy Hin. rewrite Hmem, lookup_insert_ne; [done|]. intros <-.
    apply (gi_link _ _ _ _ (wo_group _ _ Hw h y Hy) L p Hp) in Hin. congruence.
  - intros w l. rewrite Hmem. destruct (decide (L = w)) as [<-|Hne'].
    + rewrite lookup_insert_eq. intros [= <-]. left. split; [|done]. apply elem_of_guids_add. by right.
    + rewrite lookup_insert_ne by done. intros Hl. destruct (wo_row _ _ Hw w l Hl) as (h & y & Hy & Hin & Hly).
      destruct (decide (g = h)) as [<-|Hgh]; [|right; eauto 10].
      exfalso. rewrite Hx in Hy. injection Hy as <-. unfold guids in Hin. rewrite Hs in Hin. by apply elem_of_nil in Hin.
  - intros h y Hh Hy Hny _. change (GetLowGUID (add_member L name 0 x0)) with (GetLowGUID x0). rewrite Hlow.
    pose proof (gi_low _ _ _ _ (wo_group _ _ Hw h y Hy) Hny). unfold low in *. lia.
  - intros h Hh. cbn. set_solver.
  - intros h Hh _. by apply not_elem_of_singleton.
Qed.
(** *** A member leaves *)

Lemma take_out_places u sub x :
  NoDup (guids x) -> exists slots, same_places slots (m_memberSlots (take_out u sub x)) /\
    slots = filter (fun m => ms_guid m <> u) (m_memberSlots x).
Proof.
  intros Hnd. eexists. split; [|reflexivity]. rewrite <- erase_slot_filter by done.
  unfold take_out, led_by_first, led_by.
  change (m_memberSlots (drop_member u (count_in (-1) sub x))) with (erase_slot u (m_memberSlots x)).
  assert (Hrefl : same_places (erase_slot u (m_memberSlots x)) (erase_slot u (m_memberSlots x))).
  { exists id. split; [by rewrite list_fmap_id | done]. }
  destruct (m_leaderGuid x =? u); [|exact Hrefl].
  destruct (erase_slot u (m_memberSlots x)) as [|first rest] eqn:E.
  - cbn. by rewrite E.
  - rewrite <- E. cbn [m_memberSlots set_memberSlots]. apply same_places_update; [by apply guids_erase | done].
Qed.
Lemma elem_of_guids_out u sub x w : NoDup (guids x) -> w ∈ guids (take_out u sub x) <-> w ∈ guids x /\ w <> u.
Proof.
  intros Hnd. destruct (take_out_places u sub x Hnd) as (slots & Hp & ->). unfold guids.
  rewrite (same_places_guids _ _ Hp), !list_elem_of_fmap. split.
  - intros (m & -> & [Hne Hin]%list_elem_of_filter). split; [by exists m | done].
  - intros [(m & -> & Hin) Hne]. exists m. split; [done|]. by apply list_elem_of_filter.
Qed.

(** What [take_out] leaves alone. *)
Lemma take_out_keeps u sub x :
  m_invitees (take_out u sub x) = m_invitees x /\ m_memberMgr (take_out u sub x) = m_memberMgr x /\
  m_guid (take_out u sub x) = m_guid x.
Proof.
  unfold take_out, led_by_first, led_by. case_match; [|done].
  by destruct (m_memberSlots (drop_member u (count_in (-1) sub x))).
Qed.

(** The group after the reference was cut. *)
Definition cut_link (c : World) (u : Z) (x : Group) : Group :=
  match players c !! u with Some _ => drop_link u x | None => x end.

Lemma t_remove_groups g u sub c x :
  groups c !! g = Some x -> groups (t_remove g u sub c) = <[g := take_out u sub (cut_link c u x)]> (groups c).
Proof.
  intros Hx. unfold t_remove, cut_link, leave_one. cbn [groups on_group_member].
  destruct (players c !! u) as [p|].
  - rewrite w_group_player_comm, w_group_fuse. by apply (groups_w_group g (take_out u sub ∘ drop_link u) (w_player u unjoined c)).
  - by apply groups_w_group.
Qed.
Lemma t_remove_players g u sub c w :
  players (t_remove g u sub c) !! w = if decide (u = w) then unjoined <$> players c !! w else players c !! w.
Proof.
  unfold t_remove. cbn [players on_group_member w_group on_groups]. case_decide as E.
  - subst. apply leave_one_same.
  - by apply leave_one_other.
Qed.

Lemma cut_link_mgr E c g u x w o :
  group_inv E c g x -> u ∈ guids x ->
  (w, o) ∈ m_memberMgr (cut_link c u x) <-> (w, o) ∈ m_memberMgr x /\ w <> u.
Proof.
  intros Hg Hu. unfold cut_link. destruct (players c !! u) as [p|] eqn:Hp.
  - cbn [drop_link m_memberMgr set_memberMgr]. rewrite list_elem_of_filter. split.
    + intros [Hne Hin]. split; [done|]. intros ->. apply (gi_mgr _ _ _ _ Hg) in Hin as [-> _]. done.
    + intros [Hin Hne]. split; [congruence | done].
  - split; [|by intros []]. intros Hin. split; [done|]. intros ->.
    apply (gi_mgr _ _ _ _ Hg) in Hin as (_ & q & Hq & _). congruence.
Qed.
Lemma roster_cut_link c u x : roster_ok x -> roster_ok (cut_link c u x).
Proof. intros Hr. unfold cut_link. destruct (players c !! u); [|done]. by destruct Hr; split. Qed.

Lemma group_inv_remove E c g u sub x :
  world_ok E c -> groups c !! g = Some x -> u ∈ guids x -> reads_sub u sub x -> (2 <= length (m_memberSlots x))%nat ->
  group_inv E (t_remove g u sub c) g (take_out u sub (cut_link c u x)).
Proof.
  intros Hw Hx Hu Hsub Hlen. pose proof (wo_group _ _ Hw g x Hx) as Hg. destruct Hg as [] eqn:HE. clear HE.
  pose proof (fun w o => cut_link_mgr E c g u x w o Hg Hu) as Hcut.
  assert (Hs : m_memberSlots (cut_link c u x) = m_memberSlots x) by (unfold cut_link; by case_match).
  assert (Hgx : guids (cut_link c u x) = guids x) by (unfold guids; by rewrite Hs).
  assert (Hnd : NoDup (guids (cut_link c u x))) by (rewrite Hgx; apply gi_roster0).
  destruct (take_out_keeps u sub (cut_link c u x)) as (K1 & K2 & K3).
  pose proof (elem_of_guids_out u sub (cut_link c u x)) as Hout.
  assert (Hlow : GetLowGUID (take_out u sub (cut_link c u x)) = GetLowGUID x)
    by (unfold GetLowGUID; rewrite K3; unfold cut_link; by case_match).
  assert (Hlen' : length (m_memberSlots x) = S (length (m_memberSlots (take_out u sub (cut_link c u x))))).
  { rewrite <- Hs. apply length_take_out. by rewrite Hs. }
  assert (Hp0 : player_guid u) by by apply gi_guid0.
  split.
  - apply roster_take_out; [by apply roster_cut_link | by unfold reads_sub; rewrite Hs | by rewrite Hs].
  - intros w k. rewrite K1. replace (m_invitees (cut_link c u x)) with (m_invitees x) by (unfold cut_link; by case_match).
    rewrite gi_invited0. rewrite t_remove_players. case_decide as Ew; [|done]. subst w.
    destruct (players c !! u) as [q|]; [|done]. cbn. split; intros (q' & [= <-] & ?); by eexists.
  - intros w q. rewrite t_remove_players, Hout, Hgx by done. case_decide as Ew.
    + subst w. destruct (players c !! u); [|done]. intros [= <-]. split; [done | by intros []].
    + intros Hq. rewrite (gi_link0 w q Hq). split; [by split; [|congruence] | by intros []].
  - destruct (take_out_places u sub _ Hnd) as (slots & Hpl & ->). destruct Hpl as (f & -> & Hf).
    intros m q (a & -> & [Hne Ha]%list_elem_of_filter)%list_elem_of_fmap. destruct (Hf a) as [-> ->].
    rewrite t_remove_players, decide_False by auto. rewrite Hs in Ha. by apply gi_place0.
  - intros w o. rewrite K2, Hcut, gi_mgr0. rewrite t_remove_players. split.
    + intros [(-> & q & Hq & Hqg) Hne]. split; [done|]. rewrite decide_False by auto. eauto.
    + intros (-> & q & Hq & Hqg). case_decide as Ew.
      * subst w. destruct (players c !! u); [|done]. by injection Hq as <-.
      * split; [split; [done | eauto] | congruence].
  - intros w [Hin Hne]%Hout; [|done]. rewrite Hlow. unfold t_remove, execute_on. cbn [group_member on_group_member].
    rewrite lopart_player, lookup_delete_ne by auto. rewrite Hgx in Hin.
    replace (group_member _) with (group_member c) by (unfold leave_one; by case_match). by apply gi_row0.
  - intros w [Hin Hne]%Hout; [|done]. rewrite Hgx in Hin. by apply gi_guid0.
  - intros _ E0. rewrite E0 in Hlen'. cbn in Hlen'. lia.
  - intros _. rewrite Hlow. replace (m_hiGroupGuid _) with (m_hiGroupGuid c) by (unfold t_remove, leave_one; by case_match).
    apply gi_low0. intros E0. rewrite E0 in Hlen. cbn in Hlen. lia.
  - replace (mGroupSet _) with (mGroupSet c) by (unfold t_remove, leave_one; by case_match). rewrite gi_set0.
    split; intros _ E0; rewrite E0 in *; cbn in *; lia.
  - replace (next_group _) with (next_group c) by (unfold t_remove, leave_one; by case_match). done.
Qed.

Lemma world_remove E c g u sub x :
  world_ok E c -> groups c !! g = Some x -> u ∈ guids x -> reads_sub u sub x -> (2 <= length (m_memberSlots x))%nat ->
  world_ok E (t_remove g u sub c).
Proof.
  intros Hw Hx Hu Hsub Hlen. pose proof (wo_group _ _ Hw g x Hx) as Hg.
  assert (Hmem : group_member (t_remove g u sub c) = delete u (group_member c)).
  { unfold t_remove, execute_on. cbn [group_member on_group_member].
    rewrite lopart_player by by apply (gi_guid _ _ _ _ Hg). unfold leave_one. by case_match. }
  assert (Hrest : m_hiGroupGuid (t_remove g u sub c) = m_hiGroupGuid c /\ next_group (t_remove g u sub c) = next_group c /\
                  mGroupSet (t_remove g u sub c) = mGroupSet c) by (unfold t_remove, leave_one; by case_match).
  destruct Hrest as (R1 & R2 & R3).
  assert (Hnd : NoDup (guids (cut_link c u x))).
  { replace (guids (cut_link c u x)) with (guids x) by (unfold cut_link; by case_match). apply (ro_nodup x), Hg. }
  assert (Hlow : GetLowGUID (take_out u sub (cut_link c u x)) = GetLowGUID x).
  { unfold GetLowGUID. rewrite (proj2 (proj2 (take_out_keeps u sub (cut_link c u x)))). unfold cut_link. by case_match. }
  eapply (world_change E E c _ g _ Hw); [by apply t_remove_groups | by apply group_inv_remove | | | | | | lia | lia | by rewrite R3 | done].
  - intros h Hh w. rewrite t_remove_players. case_decide as Ew; [|apply seen_refl]. subst w.
    destruct (players c !! u) as [p|] eqn:Hp; constructor.
    apply (gi_link _ _ _ _ Hg u p Hp) in Hu as Hpg. destruct (wo_player _ _ Hw u p Hp) as [_ _ P3 _].
    assert (Hpi : p_groupInvite p = None).
    { destruct (p_groupInvite p) as [k|] eqn:Ek; [|done]. destruct (P3 k eq_refl). congruence. }
    apply (same_for_else g h p (unjoined p) Hh eq_refl); [by left | by left | by right | by left].
  - intros w q Hq. rewrite t_remove_players in Hq.
    assert (Hd : forall k, is_Some (groups c !! k) -> is_Some (groups (t_remove g u sub c) !! k)).
    { intros k Hk. rewrite (t_remove_groups g u sub c x Hx). destruct (decide (g = k)) as [<-|];
        [rewrite lookup_insert_eq; eauto | by rewrite lookup_insert_ne]. }
    apply (player_inv_frame c); [|exact Hd]. case_decide as Ew; [|by apply (wo_player _ _ Hw)]. subst w.
    destruct (players c !! u) as [p|] eqn:Hp; [|done]. injection Hq as <-.
    destruct (wo_player _ _ Hw u p Hp) as [P1 P2 P3 P4]. split; [done | done | | by intros k].
    intros k Hk. split; [by apply (P3 k) | done].
  - intros h y w Hh Hy Hin. rewrite Hmem, lookup_delete_ne; [done|]. intros <-. apply Hh.
    pose proof (gi_row _ _ _ _ Hg u Hu) as E1. pose proof (gi_row _ _ _ _ (wo_group _ _ Hw h y Hy) u Hin) as E2.
    eapply (wo_low _ _ Hw); [exact Hx | exact Hy | | | congruence].
    + intros E0. unfold guids in Hu. rewrite E0 in Hu. by apply elem_of_nil in Hu.
    + intros E0. unfold guids in Hin. rewrite E0 in Hin. by apply elem_of_nil in Hin.
  - intros w l. rewrite Hmem. intros [Hne Hl]%lookup_delete_Some.
    destruct (wo_row _ _ Hw w l Hl) as (h & y & Hy & Hin & Hly).
    destruct (decide (g = h)) as [<-|Hgh]; [|right; eauto 10]. left. rewrite Hx in Hy. injection Hy as <-.
    split; [|by rewrite Hlow]. apply elem_of_guids_out; [done|]. split; [|congruence].
    unfold cut_link. by case_match.
  - intros h y Hh Hy Hny _. rewrite Hlow.
    refine (same_low E c g x x Hw Hx eq_refl (fun H => H) h y Hh Hy Hny _).
    intros E0. rewrite E0 in Hlen. cbn in Hlen. lia.
Qed.
(** *** A group is gone *)

Lemma same_for_released g h p : g <> h -> same_for h p (released g p).
Proof.
  intros Hne. unfold released, uninvited, same_for, GetGroup, GetSubGroup. repeat case_bool_decide; cbn; repeat split; intros; congruence.
Qed.
Lemma released_invite g p h : p_groupInvite (released g p) = Some h -> p_groupInvite p = Some h /\ g <> h.
Proof. unfold released, uninvited, GetGroup. repeat case_bool_decide; cbn; intros ?; split; congruence. Qed.
Lemma released_group g p h : GetGroup (released g p) = Some h -> GetGroup p = Some h /\ g <> h.
Proof. unfold released, uninvited, GetGroup. repeat case_bool_decide; cbn; intros ?; split; congruence. Qed.
Lemma released_no_group g p : GetGroup p = None -> GetGroup (released g p) = None.
Proof. unfold released, uninvited, GetGroup. intros Hp. repeat case_bool_decide; cbn; congruence. Qed.
Lemma released_original g p : GetOriginalGroup (released g p) = GetOriginalGroup p.
Proof. unfold released, uninvited. by repeat case_bool_decide. Qed.
Lemma released_inWorld g p : p_inWorld (released g p) = p_inWorld p.
Proof. unfold released, uninvited. by repeat case_bool_decide. Qed.

(** The members of two groups are different players. *)
Lemma members_apart E c g h x y u :
  world_ok E c -> groups c !! g = Some x -> groups c !! h = Some y -> u ∈ guids x -> u ∈ guids y -> g = h.
Proof.
  intros Hw Hx Hy Hu Hv.
  pose proof (gi_row _ _ _ _ (wo_group _ _ Hw g x Hx) u Hu) as E1.
  pose proof (gi_row _ _ _ _ (wo_group _ _ Hw h y Hy) u Hv) as E2.
  eapply (wo_low _ _ Hw); [exact Hx | exact Hy | | | congruence].
  - intros E0. unfold guids in Hu. rewrite E0 in Hu. by apply elem_of_nil in Hu.
  - intros E0. unfold guids in Hv. rewrite E0 in Hv. by apply elem_of_nil in Hv.
Qed.

Lemma world_release E c g x ms :
  world_ok E c -> groups c !! g = Some x ->
  (forall u l, ms !! u = Some l <-> group_member c !! u = Some l /\ u ∉ guids x) ->
  world_ok E (on_group_member (fun _ => ms) (t_release g c)).
Proof.
  intros Hw Hx Hms. set (c' := on_group_member _ _).
  assert (Hps : forall w, players c' !! w = released g <$> players c !! w) by (intros w; apply lookup_fmap).
  assert (Hgs : forall h, g <> h -> groups c' !! h = groups c !! h) by (intros h Hh; by apply lookup_delete_ne).
  assert (Hgg : groups c' !! g = None) by apply lookup_delete_eq.
  assert (Hset : forall h, h ∈ mGroupSet c' <-> h ∈ mGroupSet c /\ h <> g) by (intros h; cbn; set_solver).
  split.
  - intros h y Hy. destruct (decide (g = h)) as [<-|Hne]; [congruence|]. rewrite Hgs in Hy by done.
    apply (group_inv_frame E E c c'); [done | by apply (wo_group _ _ Hw) | | | cbn; lia | rewrite Hset; naive_solver | cbn; lia | done].
    + intros w. rewrite Hps. destruct (players c !! w); constructor. by apply same_for_released.
    + intros u Hu. change (group_member c') with ms.
      pose proof (gi_row _ _ _ _ (wo_group _ _ Hw h y Hy) u Hu) as Hrow. rewrite Hrow. apply Hms.
      split; [exact Hrow|]. intros Hin. apply Hne. by eapply members_apart.
  - intros u p Hp. rewrite Hps in Hp. destruct (players c !! u) as [q|] eqn:Hq; [|done]. injection Hp as <-.
    destruct (wo_player _ _ Hw u q Hq) as [P1 P2 P3 P4]. split; [done | by rewrite released_original | |].
    + intros h [Hh Hne]%released_invite. rewrite Hgs by done. destruct (P3 h Hh). split; [done | by apply released_no_group].
    + intros h [Hh Hne]%released_group. rewrite Hgs by done. by apply P4.
  - intros u l [Hl Hu]%Hms. destruct (wo_row _ _ Hw u l Hl) as (h & y & Hy & Hin & Hly).
    destruct (decide (g = h)) as [<-|Hne]; [exfalso; congruence|]. exists h, y. by rewrite Hgs.
  - intros h [Hh Hne]%Hset. rewrite Hgs by done. by apply (wo_set _ _ Hw).
  - intros h1 h2 y1 y2 Hy1 Hy2.
    destruct (decide (g = h1)) as [<-|N1]; [congruence|]. destruct (decide (g = h2)) as [<-|N2]; [congruence|].
    rewrite Hgs in Hy1, Hy2 by done. by apply (wo_low _ _ Hw).
  - apply (wo_hi _ _ Hw).
Qed.

(** A disbanded group takes its rows along, one without members has none. *)
Lemma world_dissolve E c g x :
  world_ok E c -> groups c !! g = Some x -> m_memberSlots x <> [] ->
  world_ok E (t_release g (on_group_member (drop_rows (GetLowGUID x)) c)).
Proof.
  intros Hw Hx Hne. pose proof (world_release E c g x (drop_rows (GetLowGUID x) (group_member c)) Hw Hx) as H.
  apply H. intros u l. unfold drop_rows. rewrite map_lookup_filter_Some. split.
  - intros [Hl Hlow]. split; [done|]. intros Hu. apply Hlow.
    rewrite (gi_row _ _ _ _ (wo_group _ _ Hw g x Hx) u Hu) in Hl. congruence.
  - intros [Hl Hu]. split; [done|]. intros ->. destruct (wo_row _ _ Hw u _ Hl) as (h & y & Hy & Hin & Hly).
    apply Hu. assert (g = h) as <-; [|congruence]. eapply (wo_low _ _ Hw); [exact Hx | exact Hy | exact Hne | | done].
    intros E0. unfold guids in Hin. rewrite E0 in Hin. by apply elem_of_nil in Hin.
Qed.
Lemma world_give_up E c g x :
  world_ok E c -> groups c !! g = Some x -> m_memberSlots x = [] -> world_ok E (t_release g c).
Proof.
  intros Hw Hx Hs. pose proof (world_release E c g x (group_member c) Hw Hx) as H.
  apply H. intros u l. unfold guids. rewrite Hs. split; [intros ?; split; [done | apply not_elem_of_nil] | by intros []].
Qed.

(** *** A new group *)

(** [new Group], the invitation of the leader and of his guest. *)
Definition t_new (u k : Z) (name : list Z) (c : World) : World :=
  let g := next_group c in
  w_group g (set_leader u name) (t_invite g u k (store_group g (core_group new_Group) c)).

Lemma group_inv_new E c c' :
  world_ok E c -> groups c' = <[next_group c := core_group new_Group]> (groups c) -> players c' = players c ->
  mGroupSet c' = mGroupSet c -> next_group c < next_group c' ->
  group_inv (E ∪ {[ next_group c ]}) c' (next_group c) (core_group new_Group).
Proof.
  intros Hw Hgr Hps Hset Hn.
  assert (Hnone : groups c !! next_group c = None).
  { destruct (groups c !! next_group c) as [x|] eqn:Hx; [|done].
    pose proof (gi_fresh _ _ _ _ (wo_group _ _ Hw _ x Hx)). lia. }
  assert (Hinv : forall u p, players c !! u = Some p -> p_groupInvite p <> Some (next_group c) /\ GetGroup p <> Some (next_group c)).
  { intros u p Hp. destruct (wo_player _ _ Hw u p Hp) as [_ _ P3 P4]. split; intros E0.
    - destruct (P3 _ E0) as [[? ?] _]. congruence.
    - destruct (P4 _ E0). congruence. }
  split; rewrite ?Hps; try done.
  - split; try done.
    + apply NoDup_nil_2.
    + intros _. cbn. lia.
    + by intros m m' ?%elem_of_nil.
    + by intros m m' ?%elem_of_nil.
  - intros u k. split; [by intros ?%elem_of_empty|]. intros (p & Hp & _ & Hi). by destruct (Hinv u p Hp).
  - intros u p Hp. split; [by destruct (Hinv u p Hp) | by intros ?%elem_of_nil].
  - intros m p ?%elem_of_nil. done.
  - intros u o. split; [by intros ?%elem_of_nil|]. intros (_ & p & Hp & Hg). by destruct (Hinv u p Hp).
  - by intros u ?%elem_of_nil.
  - by intros u ?%elem_of_nil.
  - intros Hne. set_solver.
  - rewrite Hset. split; [|done]. intros Hin. destruct (wo_set _ _ Hw _ Hin). congruence.
Qed.

Lemma world_new E c :
  world_ok E c ->
  world_ok (E ∪ {[ next_group c ]}) (store_group (next_group c) (core_group new_Group) c).
Proof.
  intros Hw. set (g := next_group c). set (c' := store_group _ _ _).
  eapply (world_change E (E ∪ {[ g ]}) c c' g (core_group new_Group) Hw); [done | | | | done | | done | cbn; lia | cbn; lia | done | set_solver].
  - apply group_inv_new; try done. cbn. lia.
  - intros h _. by apply agree_refl.
  - intros u p Hp. apply (player_inv_frame c); [by apply (wo_player _ _ Hw)|]. intros h Hh. cbn.
    destruct (decide (g = h)) as [<-|Hne]; [rewrite lookup_insert_eq; eauto | by rewrite lookup_insert_ne].
  - intros u l Hl. right. destruct (wo_row _ _ Hw u l Hl) as (h & y & Hy & Hin & Hly).
    exists h, y. split; [|done]. intros <-. pose proof (gi_fresh _ _ _ _ (wo_group _ _ Hw _ y Hy)). unfold g in *. lia.
Qed.
(** *** A member moves to another subgroup *)

Definition t_move (g u old new : Z) (c : World) : World :=
  w_group g (move u old new) (w_player u (setSubGroup false new) c).

Lemma restyle_mgr mgr x : guids (set_memberMgr mgr x) = guids x /\ GetLowGUID (set_memberMgr mgr x) = GetLowGUID x.
Proof. done. Qed.
Lemma roster_mgr mgr x : roster_ok x -> roster_ok (set_memberMgr mgr x).
Proof. intros []. by split. Qed.

Lemma groups_w_group_some g f c x h :
  groups c !! g = Some x -> is_Some (groups c !! h) -> is_Some (groups (w_group g f c) !! h).
Proof. intros _. by rewrite some_w_group. Qed.

Lemma world_move E c g u old new x :
  world_ok E c -> groups c !! g = Some x -> u ∈ guids x -> reads_sub u old x ->
  HasFreeSlotSubGroup x new = true -> 0 <= new < 8 -> old <> new ->
  world_ok E (t_move g u old new c).
Proof.
  intros Hw Hx Hu Hold Hfree Hnew Hne. pose proof (wo_group _ _ Hw g x Hx) as Hg. destruct Hg as [] eqn:HE. clear HE.
  assert (Hgu : guids (move u old new x) = guids x) by by apply guids_update.
  pose proof (guids_nil x _ Hgu) as Hnil.
  assert (Hps : forall w q, players (t_move g u old new c) !! w = Some q -> exists p, players c !! w = Some p /\
    p_serial q = p_serial p /\ p_groupInvite q = p_groupInvite p /\ GetGroup q = GetGroup p /\
    GetOriginalGroup q = GetOriginalGroup p /\ GetSubGroup q = if decide (u = w) then new else GetSubGroup p).
  { intros w q. unfold t_move. rewrite players_after. case_decide as Ew; [|intros ?; by exists q].
    destruct (players c !! w) as [p|]; [|done]. intros [= <-]. exists p. repeat split. apply u8_small. lia. }
  assert (Hps' : forall w p, players c !! w = Some p -> exists q, players (t_move g u old new c) !! w = Some q /\
    p_serial q = p_serial p /\ p_groupInvite q = p_groupInvite p /\ GetGroup q = GetGroup p).
  { intros w p Hp. unfold t_move. rewrite players_after, Hp. case_decide; [by eexists | by exists p]. }
  eapply (world_change E E c _ g _ Hw); [by apply (groups_w_group g _ (w_player u (setSubGroup false new) c))
    | | | | done | | | cbn; lia | cbn; lia | done | done].
  - split; rewrite ?Hgu; try done.
    + by apply roster_move.
    + intros w k. change (m_invitees (move u old new x)) with (m_invitees x). rewrite gi_invited0. split.
      * intros (p & Hp & <- & Hi). destruct (Hps' w p Hp) as (q & Hq & <- & E2 & _). exists q. by rewrite E2.
      * intros (q & Hq & <- & Hi). destruct (Hps w q Hq) as (p & Hp & E1 & E2 & _). exists p. by rewrite E1, <- E2.
    + intros w q Hq. destruct (Hps w q Hq) as (p & Hp & _ & _ & -> & _). by apply gi_link0.
    + intros m q Hm Hq. destruct (Hps _ q Hq) as (p & Hp & _ & _ & _ & _ & ->).
      unfold move in Hm. cbn [count_in m_memberSlots set_subGroupsCounts set_memberSlots] in Hm.
      rewrite update_slot_map in Hm by apply gi_roster0. apply list_elem_of_fmap in Hm as (a & -> & Ha).
      destruct (Z.eqb_spec (ms_guid a) u) as [Ea|Ea]; cbn [ms_guid set_ms_group ms_group] in *.
      * by rewrite decide_True.
      * rewrite decide_False by auto. by apply gi_place0.
    + intros w o. change (m_memberMgr (move u old new x)) with (m_memberMgr x). rewrite gi_mgr0. split.
      * intros (-> & p & Hp & Hpg). destruct (Hps' w p Hp) as (q & Hq & _ & _ & E3). split; [done|]. exists q. by rewrite E3.
      * intros (-> & q & Hq & Hqg). destruct (Hps w q Hq) as (p & Hp & _ & _ & E3 & _). split; [done|]. exists p. by rewrite <- E3.
    + intros _ E0. exfalso. apply Hnil in E0. unfold guids in Hu. rewrite E0 in Hu. by apply elem_of_nil in Hu.
    + intros Hn. apply gi_low0. by rewrite <- Hnil.
    + by rewrite Hnil.
  - intros h Hh. eapply agree_players; [apply (agree_w_player h u (setSubGroup false new) c) | done].
    intros p Hp. apply (gi_link0 u p Hp) in Hu. repeat split; try done; intros E0; exfalso; apply Hh; congruence.
  - intros w q Hq. apply (player_inv_frame c); [|intros k; unfold t_move; by rewrite some_w_group].
    destruct (Hps w q Hq) as (p & Hp & _ & E2 & E3 & E4 & _). destruct (wo_player _ _ Hw w p Hp) as [P1 P2 P3 P4].
    split; rewrite ?E2, ?E3, ?E4; done.
  - eapply same_rows; eauto.
  - eapply same_low; eauto. by rewrite Hnil.
Qed.

(** *** Sessions *)

(** The groups stay as they are. *)
Lemma world_frame E c c' :
  world_ok E c -> groups c' = groups c -> (forall h, agree h c c') ->
  (forall u p, players c' !! u = Some p -> player_inv c' u p) ->
  group_member c' = group_member c -> m_hiGroupGuid c' = m_hiGroupGuid c -> mGroupSet c' = mGroupSet c ->
  next_group c <= next_group c' -> world_ok E c'.
Proof.
  intros Hw Hgr Ha Hp Hrows Hhi Hset Hn. split; rewrite ?Hgr, ?Hrows, ?Hset, ?Hhi; try apply Hw.
  - intros g x Hx. apply (group_inv_frame E E c c'); [done | by apply (wo_group _ _ Hw) | done | | lia | | lia | done].
    + intros u _. by rewrite Hrows.
    + by rewrite Hset.
  - exact Hp.
Qed.

Lemma agree_change h u o c :
  seen h c u (players c !! u) o -> agree h c (on_players (fun m => partial_alter (fun _ => o) u m) c).
Proof.
  intros Hs w. cbn [players on_players]. destruct (decide (u = w)) as [<-|Hne].
  - by rewrite lookup_partial_alter_eq.
  - rewrite lookup_partial_alter_ne by done. apply seen_refl.
Qed.

Definition newcomer (name : list Z) (c : World) : Player :=
  mkPlayer (next_serial c) name true (mkRef None 0) (mkRef None 0) None.

Lemma world_come E c u name :
  world_ok E c -> players c !! u = None -> player_guid u -> group_member c !! u = None ->
  world_ok E (store_player u name c).
Proof.
  intros Hw Hp Hu Hrow. eapply (world_frame E c); try done.
  - intros h. eapply agree_players; [apply (agree_change h u (Some (newcomer name c))) | done].
    rewrite Hp. constructor; [done|]. intros x Hx Hin.
    rewrite (gi_row _ _ _ _ (wo_group _ _ Hw h x Hx) u Hin) in Hrow. done.
  - intros w q Hq. apply (player_inv_frame c); [|done]. cbn in Hq. destruct (decide (u = w)) as [<-|Hne].
    + rewrite lookup_insert_eq in Hq. injection Hq as <-. by split.
    + rewrite lookup_insert_ne in Hq by done. by apply (wo_player _ _ Hw).
Qed.

Lemma world_go E c u p :
  world_ok E c -> players c !! u = Some p -> p_groupInvite p = None -> GetGroup p = None ->
  world_ok E (on_players (delete u) c).
Proof.
  intros Hw Hp Hi Hg. eapply (world_frame E c); try done.
  - intros h. apply (agree_change h u None). rewrite Hp. constructor. split; congruence.
  - intros w q Hq. apply (player_inv_frame c); [|done]. apply (wo_player _ _ Hw).
    cbn in Hq. by apply lookup_delete_Some in Hq as [_ Hq].
Qed.
(** A member comes back: his slot and his row are still there. *)
Definition t_return (g u sub : Z) (name : list Z) (c : World) : World :=
  w_group g (add_link u) (w_player u (joined g sub) (store_player u name c)).

Lemma getMemberGroup_slot x u m : _getMemberSlot u (m_memberSlots x) = Some m -> GetMemberGroup x u = ms_group m.
Proof. unfold GetMemberGroup. by intros ->. Qed.
Lemma slot_unique x m m' : NoDup (guids x) -> m ∈ m_memberSlots x -> m' ∈ m_memberSlots x -> ms_guid m = ms_guid m' -> m = m'.
Proof.
  unfold guids. intros Hnd Hm Hm' He. apply list_elem_of_lookup in Hm as [i Hi], Hm' as [j Hj].
  assert (i = j) as <-; [|congruence].
  eapply NoDup_lookup; [exact Hnd | by rewrite list_lookup_fmap, Hi | rewrite list_lookup_fmap, Hj; cbn; by rewrite He].
Qed.

Lemma world_return E c g u name x :
  world_ok E c -> groups c !! g = Some x -> players c !! u = None -> player_guid u -> u ∈ guids x ->
  world_ok E (t_return g u (GetMemberGroup x u) name c).
Proof.
  intros Hw Hx Hp Hu Hin. set (sub := GetMemberGroup x u). pose proof (wo_group _ _ Hw g x Hx) as [].
  set (c' := t_return _ _ _ _ _).
  assert (Hps : forall w, players c' !! w = if decide (u = w) then Some (joined g sub (newcomer name c)) else players c !! w).
  { intros w. unfold c', t_return. cbn [players w_group on_groups w_player on_players store_player]. case_decide as Ew.
    - subst w. by rewrite lookup_alter_eq, lookup_insert_eq.
    - by rewrite lookup_alter_ne, lookup_insert_ne. }
  assert (Hother : forall (P : Player -> Prop) w, w <> u ->
    (exists p, players c !! w = Some p /\ P p) <-> (exists p, players c' !! w = Some p /\ P p)).
  { intros P w Hne. by rewrite Hps, decide_False. }
  eapply (world_change E E c c' g (add_link u x) Hw); [by apply (groups_w_group g _ (w_player u _ (store_player u name c)))
    | | | | done | | | cbn; lia | cbn; lia | done | done].
  - split; try done.
    + by apply roster_mgr.
    + intros w k. change (m_invitees (add_link u x)) with (m_invitees x). rewrite gi_invited0.
      destruct (decide (w = u)) as [->|Hne]; [|by apply (Hother (fun p => p_serial p = k /\ p_groupInvite p = Some g))].
      rewrite Hps, decide_True by done. split; intros (p & E1 & _ & E2); [congruence|]. by injection E1 as <-.
    + intros w q. rewrite Hps. case_decide as Ew; [|apply gi_link0]. subst w. by intros [= <-].
    + intros m q Hm. rewrite Hps. case_decide as Ew; [|by apply gi_place0]. intros [= <-].
      destruct (getMemberSlot_some u _ Hin) as [m' Hm']. pose proof (getMemberSlot_elem _ _ _ Hm') as [? ?].
      cbn. unfold sub. rewrite (getMemberGroup_slot _ _ _ Hm'). f_equal. apply (slot_unique x); [apply gi_roster0 | done | done | congruence].
    + intros w o. cbn [add_link m_memberMgr set_memberMgr]. rewrite elem_of_cons, gi_mgr0.
      destruct (decide (w = u)) as [->|Hne].
      * rewrite Hps, decide_True by done. split; [|intros [-> _]; by left].
        intros [[= ->]|(-> & p & E1 & _)]; [|congruence]. split; [done|]. by eexists.
      * rewrite (Hother (fun p => GetGroup p = Some g) w Hne). split; [intros [[= ? ?]|]; done | by right].
    + intros HE Hs. destruct (gi_pending0 HE Hs) as (Hc & p & Hpp & Hi). split; [done|].
      exists p. rewrite Hps, decide_False; [done|]. intros E0. cbn in E0. congruence.
  - intros h Hne w. rewrite Hps. case_decide as Ew; [|apply seen_refl]. subst w. rewrite Hp. constructor.
    + split; [done|]. cbn. congruence.
    + intros y Hy Hiy. by apply Hne, (members_apart E c g h x y u).
  - intros w q Hq. apply (player_inv_frame c); [|intros k; unfold c', t_return; by rewrite some_w_group].
    rewrite Hps in Hq. case_decide as Ew; [|by apply (wo_player _ _ Hw)]. subst w. injection Hq as <-.
    split; [done | done | done|]. intros h [= <-]. by eexists.
  - eapply same_rows; eauto.
  - eapply same_low; eauto.
Qed.

(** A member who stays in his group goes offline. *)
Definition t_offline (g u : Z) (c : World) : World := on_players (delete u) (w_group g (drop_link u) c).

Lemma world_offline E c g u x p :
  world_ok E c -> groups c !! g = Some x -> players c !! u = Some p -> p_groupInvite p = None -> u ∈ guids x ->
  world_ok E (t_offline g u c).
Proof.
  intros Hw Hx Hp Hi Hin. pose proof (wo_group _ _ Hw g x Hx) as []. set (c' := t_offline _ _ _).
  assert (Hps : forall w, players c' !! w = if decide (u = w) then None else players c !! w).
  { intros w. case_decide as Ew; [subst w; apply lookup_delete_eq | by apply lookup_delete_ne]. }
  assert (Hother : forall (P : Player -> Prop) w, w <> u ->
    (exists p, players c !! w = Some p /\ P p) <-> (exists p, players c' !! w = Some p /\ P p)).
  { intros P w Hne. by rewrite Hps, decide_False. }
  eapply (world_change E E c c' g (drop_link u x) Hw); [by apply groups_w_group
    | | | | done | | | cbn; lia | cbn; lia | done | done].
  - split; try done.
    + by apply roster_mgr.
    + intros w k. change (m_invitees (drop_link u x)) with (m_invitees x). rewrite gi_invited0.
      destruct (decide (w = u)) as [->|Hne]; [|by apply (Hother (fun p => p_serial p = k /\ p_groupInvite p = Some g))].
      rewrite Hps, decide_True by done. split; intros (q & E1 & _ & E2); [congruence | done].
    + intros w q. rewrite Hps. case_decide as Ew; [done | apply gi_link0].
    + intros m q Hm. rewrite Hps. case_decide as Ew; [done | by apply gi_place0].
    + intros w o. cbn [drop_link m_memberMgr set_memberMgr]. rewrite list_elem_of_filter, gi_mgr0.
      destruct (decide (w = u)) as [->|Hne].
      * rewrite Hps, decide_True by done. split; [intros (E0 & -> & _); done | by intros (_ & q & E1 & _)].
      * rewrite (Hother (fun p => GetGroup p = Some g) w Hne). split; [by intros [_ ?]|]. intros H. split; [congruence | done].
    + intros HE Hs. unfold guids in Hin. cbn in Hs. rewrite Hs in Hin. by apply elem_of_nil in Hin.
  - intros h Hne w. rewrite Hps. case_decide as Ew; [|apply seen_refl]. subst w. rewrite Hp. constructor.
    apply (gi_link0 u p Hp) in Hin. split; congruence.
  - intros w q Hq. apply (player_inv_frame c); [|intros k; unfold c', t_offline; cbn [groups on_players]; by rewrite some_w_group].
    rewrite Hps in Hq. case_decide as Ew; [done | by apply (wo_player _ _ Hw)].
  - eapply same_rows; eauto.
  - eapply same_low; eauto.
Qed.
(** A group that has its leader's invitation is complete. *)
Lemma world_lead E c g u name x p :
  world_ok E c -> groups c !! g = Some x -> m_memberSlots x = [] -> m_subGroupsCounts x = None ->
  players c !! u = Some p -> p_groupInvite p = Some g ->
  world_ok (E ∖ {[ g ]}) (w_group g (set_leader u name) c).
Proof.
  intros Hw Hx Hs Hc Hp Hi. pose proof (wo_group _ _ Hw g x Hx) as [].
  eapply (world_change E (E ∖ {[ g ]}) c _ g (set_leader u name x) Hw);
    [by apply groups_w_group | | | | done | | | cbn; lia | cbn; lia | done | set_solver].
  - split; try done.
    + destruct gi_roster0; split; done.
    + intros _ _. split; [done|]. by exists p.
  - intros h _. by apply agree_refl.
  - intros w q Hq. apply (player_inv_frame c); [by apply (wo_player _ _ Hw) | intros k; by rewrite some_w_group].
  - eapply same_rows; eauto.
  - eapply same_low; eauto.
Qed.

(** The number of the next group may grow. *)
Lemma world_more E c n : world_ok E c -> next_group c <= n ->
  world_ok E (mkWorld (groups c) (players c) (mGroupSet c) (m_BgRaids c) (group_member c) n (m_hiGroupGuid c)
                (next_serial c) (all_loots c) (hi_item c)).
Proof.
  intros Hw Hn. eapply (world_frame E c); try done.
  - intros h. by apply agree_refl.
  - intros u p Hp. apply (player_inv_frame c); [by apply (wo_player _ _ Hw) | done].
Qed.
