(* ===== verification/PartySteps.v ===== *)
(** * The server keeps the invariant of parties and raids

    Every opcode handler, login and logout, on the invariant of [PartyRoster]. *)
From S2P Require Import Prelude Text ByteBuffer Rolls Group Party PartySample PartyRuns PartyRoster.

(** ** Keeping the invariant *)

Definition good (c : World) : Prop := world_ok ∅ c /\ sizes_ok c.
Definition keeps {A} (m : GM A) (c : World) : Prop := forall s, core s = c -> good (core (run_state m s)).

Lemma is_core_core s : is_core (core s).
Proof. intros g x Hx. apply core_lookup in Hx as (y & _ & <-). apply core_group_idem. Qed.
Lemma keeps_core {A} (m : GM A) c : (is_core c -> keeps m c) -> keeps m c.
Proof. intros Hm s Hs. apply Hm; [|exact Hs]. rewrite <- Hs. apply is_core_core. Qed.
Lemma keeps_framed {A} (m : GM A) c : good c -> framed m -> keeps m c.
Proof. intros Hc Hm s Hs. by rewrite Hm, Hs. Qed.
Lemma keeps_runs {A} (m : GM A) c a c' : execs m c a c' -> good c' -> keeps m c.
Proof. intros Hm Hc s Hs. destruct (Hm s Hs) as [_ ->]. exact Hc. Qed.
Lemma keeps_seq {A B} (m : GM A) (k : A -> GM B) c a c1 : execs m c a c1 -> keeps (k a) c1 -> keeps (bind m k) c.
Proof. intros Hm Hk s Hs. destruct (Hm s Hs) as [Ha H1]. rewrite run_state_bind, Ha. by apply Hk. Qed.
Lemma keeps_skip {B} (m : GM unit) (k : unit -> GM B) c : framed m -> keeps (k tt) c -> keeps (bind m k) c.
Proof. intros Hm. apply keeps_seq, execs_framed, Hm. Qed.
Lemma keeps_after {A B} (m : GM A) (k : A -> GM B) c : keeps m c -> (forall a, framed (k a)) -> keeps (bind m k) c.
Proof. intros Hm Hk s Hs. rewrite framed_bind_l by exact Hk. by apply Hm. Qed.
Lemma keeps_read {A} (k : World -> GM A) c : (forall s, core s = c -> keeps (k s) c) -> keeps (with_state k) c.
Proof. intros Hk s Hs. exact (Hk s Hs s Hs). Qed.
Lemma keeps_with_player u k c : good c -> (forall p, players c !! u = Some p -> keeps (k p) c) -> keeps (with_player u k) c.
Proof.
  intros Hc Hk. apply keeps_read. intros s <-. rewrite <- (core_player s u).
  destruct (players (core s) !! u) as [p|]; [by apply Hk | by apply keeps_framed; [|apply framed_ret]].
Qed.
Lemma keeps_with_group {A} (d : A) g k c : good c ->
  (forall y, groups c !! g = Some (core_group y) -> keeps (k y) c) -> keeps (with_group d g k) c.
Proof.
  intros Hc Hk. apply keeps_read. intros s Hs. destruct (groups s !! g) as [y|] eqn:Hy.
  - apply Hk. rewrite <- Hs. apply core_lookup. by exists y.
  - apply keeps_framed; [done|]. intros t. reflexivity.
Qed.
Lemma keeps_if_in_world u k c : good c ->
  (forall p, players c !! u = Some p -> p_inWorld p = true -> keeps (k p) c) -> keeps (if_in_world u k) c.
Proof.
  intros Hc Hk. apply keeps_read. intros s <-. unfold GetPlayer. rewrite <- (core_player s u).
  destruct (players (core s) !! u) as [p|] eqn:Hp; [|by apply keeps_framed; [|apply framed_ret]].
  destruct (p_inWorld p) eqn:Hw; [by apply Hk | by apply keeps_framed; [|apply framed_ret]].
Qed.
Lemma keeps_if b m c : good c -> (b = true -> keeps m c) -> keeps (when b m) c.
Proof. intros Hc Hm. destruct b; [by apply Hm | by apply keeps_framed; [|apply framed_ret]]. Qed.
Lemma keeps_with_own_group u k c : good c ->
  (forall p g y, players c !! u = Some p -> GetGroup p = Some g -> groups c !! g = Some (core_group y) -> keeps (k g y) c) ->
  keeps (with_own_group u k) c.
Proof.
  intros Hc Hk. apply keeps_with_player; [done|]. intros p Hp. destruct (GetGroup p) as [g|] eqn:Hg.
  - apply keeps_with_group; [done|]. intros y. by apply Hk with p.
  - by apply keeps_framed; [|apply framed_ret].
Qed.

(** The branches that change nothing. *)
Ltac stays := by apply keeps_framed; [|unfold SendPartyResult; auto 20 with framed].

(** One group with new members. *)
Lemma sizes_change c c' g x :
  sizes_ok c -> groups c' = <[g := x]> (groups c) -> m_memberSlots x = [] \/ (2 <= length (m_memberSlots x))%nat ->
  sizes_ok c'.
Proof.
  intros Hc Hg Hx h y. rewrite Hg. destruct (decide (g = h)) as [<-|Hne].
  - rewrite lookup_insert_eq. by intros [= <-].
  - rewrite lookup_insert_ne by done. apply Hc.
Qed.
Lemma sizes_same c g f x :
  sizes_ok c -> groups c !! g = Some x -> length (m_memberSlots (f x)) = length (m_memberSlots x) ->
  sizes_ok (w_group g f c).
Proof.
  intros Hc Hx Hl. eapply sizes_change; [exact Hc | by apply groups_w_group|]. rewrite Hl.
  destruct (Hc g x Hx) as [E|]; [left | by right]. apply nil_length_inv. by rewrite Hl, E.
Qed.
Lemma sizes_same_or_more c g f x :
  sizes_ok c -> groups c !! g = Some x -> (2 <= length (m_memberSlots (f x)))%nat -> sizes_ok (w_group g f c).
Proof. intros Hc Hx Hl. eapply sizes_change; [exact Hc | by apply groups_w_group | by right]. Qed.
Lemma sizes_release c g : sizes_ok c -> sizes_ok (t_release g c).
Proof. intros Hc h y Hy. cbn in Hy. apply lookup_delete_Some in Hy as [_ Hy]. by apply (Hc h). Qed.

Lemma good_restyle c g x f :
  good c -> groups c !! g = Some x -> restyled x (f x) -> good (w_group g f c).
Proof.
  intros [Hw Hs] Hx Hr. split; [by eapply world_restyle|]. eapply sizes_same; [done | done|].
  apply (same_places_length _ _ (rs_places _ _ Hr)).
Qed.

(** A player of the world, his group and the group of his invitation. *)
Lemma own_group c u p g : good c -> players c !! u = Some p -> GetGroup p = Some g ->
  exists x, groups c !! g = Some x /\ u ∈ guids x /\ group_inv ∅ c g x.
Proof.
  intros [Hw _] Hp Hg. destruct (pi_group _ _ _ (wo_player _ _ Hw u p Hp) g Hg) as [x Hx]. exists x.
  pose proof (wo_group _ _ Hw g x Hx) as Hi. split; [done|]. split; [|done]. by apply (gi_link _ _ _ _ Hi u p Hp).
Qed.
Lemma member_size c g x u : good c -> groups c !! g = Some x -> u ∈ guids x ->
  m_memberSlots x <> [] /\ (2 <= length (m_memberSlots x))%nat.
Proof.
  intros [_ Hs] Hx Hu. assert (Hne : m_memberSlots x <> []).
  { intros E. unfold guids in Hu. rewrite E in Hu. by apply elem_of_nil in Hu. }
  split; [done|]. by destruct (Hs g x Hx).
Qed.
(** ** Invitations *)

Lemma home_group_good s u p : good (core s) -> players s !! u = Some p -> home_group s p = GetGroup p.
Proof.
  intros Hg Hp. unfold home_group. destruct (GetGroup p) as [g|] eqn:E; [|done].
  destruct (own_group _ u p g Hg Hp E) as (x & Hx & _ & Hi).
  apply core_lookup in Hx as (y & -> & <-). unfold isBGGroup.
  change (m_bgGroup y) with (m_bgGroup (core_group y)). rewrite (ro_bg _ (gi_roster _ _ _ _ Hi)).
  by rewrite bool_decide_eq_false_2 by (by intros []).
Qed.

Lemma execs_AddInvite g u c p :
  players c !! u = Some p -> p_groupInvite p = None -> GetGroup p = None ->
  execs (AddInvite g u) c true (t_invite g u (p_serial p) c).
Proof.
  intros Hp Hi Hg. apply execs_with_state. intros s Hs. assert (Hps : players s !! u = Some p) by (by rewrite <- Hp, <- Hs).
  rewrite Hps, Hi. unfold home_group. rewrite Hg. rewrite bool_decide_eq_false_2 by (by intros []).
  eapply execs_bind; [apply execs_ret|].
  eapply execs_bind; [by apply execs_RemoveInvite|].
  eapply execs_bind; [apply (execs_upd_same g (fun x => set_invitees ({[(u, p_serial p)]} ∪ m_invitees x) x)); reflexivity|].
  eapply execs_bind; [apply execs_upd_player|]. apply execs_skip; [auto with framed|].
  eapply execs_eq; [apply execs_ret | done|]. unfold t_uninvite, t_invite.
  rewrite !w_player_group, w_player_fuse, w_group_fuse. apply w_group_ext. intros x _.
  unfold compose, drop_invite, set_invitees. cbn. f_equal. apply set_eq. intros ptr.
  destruct (decide (ptr = (u, p_serial p))); set_solver.
Qed.
Lemma execs_AddInvite_refused g u c p :
  players c !! u = Some p -> p_groupInvite p <> None -> execs (AddInvite g u) c false c.
Proof.
  intros Hp Hi. apply execs_with_state. intros s Hs. assert (Hps : players s !! u = Some p) by (by rewrite <- Hp, <- Hs).
  rewrite Hps, bool_decide_eq_true_2; [apply execs_ret|]. destruct (p_groupInvite p); [by eexists | done].
Qed.

Lemma execs_new_group c : execs new_group c (next_group c) (store_group (next_group c) (core_group new_Group) c).
Proof.
  apply execs_with_state. intros s Hs. assert (Hn : next_group s = next_group c) by (by rewrite <- Hs).
  rewrite Hn. apply (execs_bind _ _ _ tt (store_group (next_group c) (core_group new_Group) c)); [|apply execs_ret]. intros t <-. split; [reflexivity|]. rewrite rs_modify.
  unfold core, store_group. cbn. by rewrite fmap_insert.
Qed.
Lemma execs_AddLeaderInvite g u c p :
  players c !! u = Some p -> p_groupInvite p = None -> GetGroup p = None ->
  execs (AddLeaderInvite g u) c true (w_group g (set_leader u (p_name p)) (t_invite g u (p_serial p) c)).
Proof.
  intros Hp Hi Hg. eapply execs_bind; [by apply execs_AddInvite|]. cbn [when].
  eapply execs_bind; [|apply execs_ret]. apply execs_with_state. intros s Hs.
  replace (player_name s u) with (p_name p); [by apply execs_upd_same|].
  unfold player_name. replace (players s !! u) with (Some (with_invite (Some g) p)); [done|].
  rewrite <- (core_player s u), Hs. unfold t_invite. rewrite players_after, decide_True, Hp by done. done.
Qed.
Lemma execs_AddLeaderInvite_refused g u c p :
  players c !! u = Some p -> p_groupInvite p <> None -> execs (AddLeaderInvite g u) c false c.
Proof. intros Hp Hi. eapply execs_bind; [by eapply execs_AddInvite_refused|]. apply execs_ret. Qed.

(** The group, the invitation of the leader and that of the guest. *)
Lemma good_start c u w p q :
  good c -> players c !! u = Some p -> p_groupInvite p = None -> GetGroup p = None ->
  players c !! w = Some q -> p_groupInvite q = None -> GetGroup q = None -> u <> w ->
  good (t_invite (next_group c) w (p_serial q) (t_new u (p_serial p) (p_name p) c)).
Proof.
  intros [Hw Hs] Hp Hpi Hpg Hq Hqi Hqg Hne. set (g := next_group c). unfold t_new. fold g.
  set (c1 := store_group g (core_group new_Group) c).
  assert (Hw1 : world_ok {[ g ]} c1) by (rewrite <- (union_empty_l_L {[ g ]}); by apply world_new).
  assert (H1 : groups c1 !! g = Some (core_group new_Group)) by apply lookup_insert_eq.
  set (c2 := t_invite g u (p_serial p) c1).
  assert (Hw2 : world_ok {[ g ]} c2) by (eapply (world_invite {[ g ]}); try done; [left; set_solver]).
  assert (H2 : exists i, groups c2 !! g = Some (set_invitees i (core_group new_Group))).
  { eexists. unfold c2, t_invite. rewrite w_groups_same. cbn [groups w_player on_players]. by rewrite H1. }
  destruct H2 as [i H2].
  assert (Hq2 : players c2 !! w = Some q) by (unfold c2, t_invite; rewrite players_after, decide_False; done).
  set (c3 := t_invite g w (p_serial q) c2).
  assert (Hw3 : world_ok {[ g ]} c3) by (eapply (world_invite {[ g ]}); try done; [left; set_solver]).
  replace (t_invite g w (p_serial q) (w_group g (set_leader u (p_name p)) c2)) with (w_group g (set_leader u (p_name p)) c3).
  2: { unfold c3, t_invite. rewrite w_player_group, !w_group_fuse. by apply w_group_ext. }
  assert (H3 : groups c3 !! g = Some (set_invitees ({[ (w, p_serial q) ]} ∪ i) (core_group new_Group))).
  { unfold c3, t_invite. rewrite w_groups_same. cbn [groups w_player on_players]. by rewrite H2. }
  split.
  - rewrite <- (difference_diag_L {[ g ]}).
    eapply (world_lead {[ g ]} c3 g u _ _ (with_invite (Some g) p) Hw3 H3); try done.
    unfold c3, t_invite. rewrite players_after, decide_False by done.
    unfold c2, t_invite. rewrite players_after, decide_True by done. cbn [players c1 store_group]. by rewrite Hp.
  - eapply sizes_same; [|exact H3 | done]. eapply sizes_same; [| |done].
    + eapply sizes_same; [| |done].
      * eapply (sizes_change c c1 g); [done | done | by left].
      * exact H1.
    + cbn [groups w_player on_players]. exact H2.
Qed.

Lemma good_invite c g u x p :
  good c -> groups c !! g = Some x -> m_memberSlots x <> [] -> players c !! u = Some p ->
  p_groupInvite p = None -> GetGroup p = None -> good (t_invite g u (p_serial p) c).
Proof.
  intros [Hw Hs] Hx Hne Hp Hi Hg. split; [eapply (world_invite ∅ ∅); eauto|].
  eapply (sizes_same (w_player u _ c)); [done | exact Hx | done].
Qed.
Lemma fresh_none E c : world_ok E c -> groups c !! next_group c = None.
Proof.
  intros Hw. destruct (groups c !! next_group c) as [x|] eqn:Hx; [|done].
  pose proof (gi_fresh _ _ _ _ (wo_group _ _ Hw _ x Hx)). lia.
Qed.

Section invite.
Context (v : GroupView).

Lemma execs_start_group c u w p q :
  players c !! u = Some p -> p_groupInvite p = None -> GetGroup p = None ->
  players c !! w = Some q -> p_groupInvite q = None -> GetGroup q = None -> u <> w ->
  execs (start_group u w) c true (t_invite (next_group c) w (p_serial q) (t_new u (p_serial p) (p_name p) c)).
Proof.
  intros Hp Hpi Hpg Hq Hqi Hqg Hne. eapply execs_bind; [apply execs_new_group|].
  eapply execs_bind; [by apply execs_AddLeaderInvite|]. cbn [negb].
  eapply (execs_bind _ _ _ true); [|apply execs_ret]. apply (execs_AddInvite _ _ _ q); [|done..].
  cbn [players w_group on_groups]. unfold t_invite. by rewrite players_after, decide_False.
Qed.
(** A player who is invited elsewhere starts no group. *)
Lemma execs_start_group_refused c u w p :
  groups c !! next_group c = None -> players c !! u = Some p -> p_groupInvite p <> None ->
  execs (start_group u w) c false
    (mkWorld (groups c) (players c) (mGroupSet c) (m_BgRaids c) (group_member c) (next_group c + 1) (m_hiGroupGuid c)
       (next_serial c) (all_loots c) (hi_item c)).
Proof.
  intros Hf Hp Hpi. eapply execs_bind; [apply execs_new_group|].
  eapply execs_bind; [by eapply execs_AddLeaderInvite_refused|]. cbn [negb].
  eapply (execs_bind _ _ _ tt); [|apply execs_ret].
  eapply execs_eq; [by apply (execs_delete_group _ _ (core_group new_Group)); [apply lookup_insert_eq|..] | done|].
  unfold on_groups, store_group. cbn. by rewrite delete_insert_id.
Qed.

Lemma keeps_start_group c u w p q :
  good c -> players c !! u = Some p -> GetGroup p = None ->
  players c !! w = Some q -> p_groupInvite q = None -> GetGroup q = None -> u <> w ->
  keeps (start_group u w) c.
Proof.
  intros Hg Hp Hpg Hq Hqi Hqg Hne. destruct (p_groupInvite p) as [h|] eqn:Hpi.
  - eapply keeps_runs; [eapply execs_start_group_refused; [eapply fresh_none, Hg | exact Hp | congruence]|].
    destruct Hg as [Hw Hs]. split; [apply world_more; [done | lia] | exact Hs].
  - eapply keeps_runs; [by eapply execs_start_group|]. by apply good_start.
Qed.

Lemma keeps_AddInvite c g u x q :
  good c -> groups c !! g = Some x -> m_memberSlots x <> [] ->
  players c !! u = Some q -> p_groupInvite q = None -> GetGroup q = None -> keeps (AddInvite g u) c.
Proof. intros Hg Hx Hs Hq Hqi Hqg. eapply keeps_runs; [by eapply execs_AddInvite | by eapply good_invite]. Qed.

Lemma keeps_invite_player c u w name : good c -> u <> w -> keeps (invite_player u w name) c.
Proof.
  intros Hg Hne. apply keeps_read. intros s Hs.
  destruct (players s !! u) as [p|] eqn:Hp; [|stays].
  destruct (players s !! w) as [q|] eqn:Hq; [|stays].
  apply keeps_skip; [auto with framed|]. apply keeps_skip; [auto with framed|].
  rewrite (home_group_good s w q) by (by rewrite ?Hs). rewrite (home_group_good s u p) by (by rewrite ?Hs).
  rewrite <- core_player, Hs in Hp, Hq.
  destruct (GetGroup q) as [h|] eqn:Hqg.
  { rewrite bool_decide_eq_true_2 by (by eexists). cbn [orb].
    apply keeps_framed; [done|]. unfold SendPartyResult. auto with framed. }
  rewrite bool_decide_eq_false_2 by (by intros []). cbn [orb].
  destruct (p_groupInvite q) as [h|] eqn:Hqi.
  { rewrite bool_decide_eq_true_2 by (by eexists). apply keeps_framed; [done|]. unfold SendPartyResult. auto with framed. }
  rewrite bool_decide_eq_false_2 by (by intros []).
  assert (Hafter : forall b, framed (when b (with_state (fun s0 =>
    emit (GroupPacket w (invite_packet 1 (player_name s0 u))) ;; SendPartyResult u PARTY_OP_INVITE name ERR_PARTY_RESULT_OK))))
    by (intros b; unfold SendPartyResult; auto with framed).
  destruct (GetGroup p) as [g|] eqn:Hpg.
  - apply keeps_with_group; [done|]. intros y Hy. unfold SendPartyResult.
    case_match; [apply keeps_framed; auto with framed|]. case_match; [apply keeps_framed; auto with framed|].
    destruct (own_group c u p g Hg Hp Hpg) as (x & Hx & Hin & _). apply keeps_after; [|exact Hafter].
    eapply keeps_AddInvite; try done. by eapply (member_size c g x u).
  - apply keeps_after; [|exact Hafter]. by eapply keeps_start_group.
Qed.

Context `{!Utf8Lib}.

(** The player finds himself under the name he invites. *)
Definition self_invite (s : World) (u : Z) (recv_data : ByteBuffer) : Prop := exists name membername,
  (parse_invite recv_data).1 = Ok name /\ normalizePlayerName name = Conv membername /\
  GetPlayerByName s (c_str membername) = Some u.

Lemma GetPlayerByName_core s name : GetPlayerByName (core s) name = GetPlayerByName s name.
Proof. reflexivity. Qed.

Lemma keeps_Invite c u recv_data : good c -> ~ self_invite c u recv_data -> keeps (HandleGroupInviteOpcode v u recv_data) c.
Proof.
  intros Hg Hself. unfold HandleGroupInviteOpcode, with_recv.
  destruct (parse_invite recv_data).1 as [name|] eqn:Hn; [|stays].
  destruct (normalizePlayerName name) as [membername| |] eqn:Hm;
    [|apply keeps_framed; unfold SendPartyResult; auto with framed..].
  apply keeps_read. intros s Hs.
  destruct (GetPlayerByName s (c_str membername)) as [w|] eqn:Hw; [|apply keeps_framed; unfold SendPartyResult; auto with framed].
  destruct (invite_refused v u w) as [[res|]|]; [apply keeps_framed; unfold SendPartyResult; auto with framed..|].
  apply keeps_invite_player; [done|]. intros ->. apply Hself. exists name, membername.
  by rewrite <- Hs, GetPlayerByName_core.
Qed.

End invite.
(** ** Acceptance *)

Lemma add_member_slots u name sub x : m_memberSlots (add_member u name sub x) = m_memberSlots x ++ [mkSlot u name sub 0 0].
Proof. done. Qed.

Section accept.
Context (v : GroupView).

(** A guest joins a group that has members. *)
Lemma keeps_AddMember c g u name x p :
  good c -> groups c !! g = Some x -> m_memberSlots x <> [] -> IsFull x = false ->
  players c !! u = Some p -> party_player p -> p_groupInvite p = None -> GetGroup p = None ->
  keeps (AddMember v g u name) c.
Proof.
  intros [Hw Hs] Hx Hne Hfull Hp Hpp Hi Hg.
  pose proof (gi_roster _ _ _ _ (wo_group _ _ Hw g x Hx)) as Hr.
  destruct (wo_player _ _ Hw u p Hp) as [[P1 _] _ _ _].
  destruct (free_subgroup x) as [sub|] eqn:Hf.
  - assert (Ha : addable c g u x sub).
    { split_and!; try done; [apply (ro_bg x Hr) | by apply roster_counts_len | lia | by exists p]. }
    eapply keeps_runs; [by apply execs_AddMember|]. split; [apply (world_add ∅); try done; congruence|].
    eapply (sizes_same_or_more (w_player u _ c)); [exact Hs | exact Hx|].
    rewrite add_member_slots, length_app. cbn. destruct (m_memberSlots x); [done | cbn; lia].
  - eapply keeps_runs; [by apply (execs_AddMember_full v g u name c x) | by split].
Qed.

(** The group the first guest enters: its leader is the only member. *)
Definition founded (leader : Z) (name : list Z) (low : Z) (x : Group) : Group :=
  add_member leader name 0 (started leader name low x).

(** The acceptance of the first guest [u] of [g], after his invitation was taken back. *)
Definition accept_first (g u L : Z) (lname : list Z) : GM unit :=
  (if_in_world L (fun _ => RemoveInvite g L) ;;
   let! _ := Create v g L lname in modify (on_group_set (fun l => l ∪ {[ g ]}))) ;;
  with_state (fun s => let! ok := AddMember v g u (player_name s u) in when ok (BroadcastGroupUpdate g)).
Definition t_found (g L k : Z) (lname : list Z) (c : World) : World :=
  on_group_set (fun l => l ∪ {[ g ]}) (t_create g L lname (t_uninvite g L k c)).

Section first_guest.
Context (c : World) (g u L : Z) (lname : list Z) (x : Group) (p pl : Player)
  (Hcore : is_core c) (Hw : world_ok {[ g ]} c) (Hset : settled c) (Hhi : m_hiGroupGuid c < 2 ^ 32 - 1)
  (Hx : groups c !! g = Some x) (Hs : m_memberSlots x = []) (Hcs : m_subGroupsCounts x = None) (Hne : L <> u)
  (Hp : players c !! u = Some p) (Hi : p_groupInvite p = None) (Hpg : GetGroup p = None)
  (Hpl : players c !! L = Some pl) (Hpli : p_groupInvite pl = Some g).

Let x1 := drop_invite L (p_serial pl) x.
Let low := m_hiGroupGuid c.
Let c2 := t_found g L (p_serial pl) lname c.

Lemma uninvited_leader :
  let c1 := t_uninvite g L (p_serial pl) c in
  world_ok {[ g ]} c1 /\ groups c1 !! g = Some x1 /\ players c1 !! L = Some (set_groupInvite None pl) /\
  players c1 !! u = Some p /\ is_core c1.
Proof.
  split_and!.
  - eapply (world_uninvite {[ g ]}); try done; left; set_solver.
  - unfold t_uninvite. rewrite w_groups_same. cbn [groups w_player on_players]. by rewrite Hx.
  - unfold t_uninvite. by rewrite players_after, decide_True, Hpl.
  - unfold t_uninvite. by rewrite players_after, decide_False.
  - intros h y. unfold t_uninvite. destruct (decide (g = h)) as [<-|Hgh].
    + rewrite w_groups_same. cbn [groups w_player on_players]. rewrite Hx. intros [= <-].
      pose proof (Hcore g x Hx) as E. rewrite <- E. reflexivity.
    + rewrite w_groups_other by done. apply Hcore.
Qed.

Lemma world_founded :
  world_ok ∅ c2 /\ groups c2 !! g = Some (founded L lname low x1) /\ players c2 !! u = Some p.
Proof.
  destruct uninvited_leader as (Hw1 & H1 & Hpl1 & Hp1 & _).
  destruct (pi_invite _ _ _ (wo_player _ _ Hw L pl Hpl) g Hpli) as [_ Hplg].
  split_and!.
  - by eapply (world_create _ g L lname x1).
  - unfold c2, t_found, t_create. cbn [groups on_group_set on_group_member]. rewrite w_groups_same.
    cbn [groups w_player on_players took_low_guid]. by rewrite H1.
  - unfold c2, t_found, t_create. cbn [players on_group_set on_group_member w_group on_groups].
    by rewrite w_players_other.
Qed.

Lemma execs_found :
  execs (if_in_world L (fun _ => RemoveInvite g L) ;;
        let! _ := Create v g L lname in modify (on_group_set (fun l => l ∪ {[ g ]}))) c tt c2.
Proof.
  destruct uninvited_leader as (Hw1 & H1 & Hpl1 & Hp1 & Hcore1).
  destruct (wo_player _ _ Hw L pl Hpl) as [PL1 PL2 PL3 PL4]. destruct (PL3 g Hpli) as [_ Hplg].
  pose proof (wo_hi _ _ Hw) as Hhi0.
  eapply execs_bind.
  - eapply execs_if_in_world; [exact Hpl | by apply (Hset L) | by apply execs_RemoveInvite].
  - eapply execs_bind; [|apply (execs_group_set (fun l => l ∪ {[ g ]}))].
    apply (execs_Create v g L lname _ x1 (set_groupInvite None pl)); try done.
    + apply (ro_bg x1). eapply gi_roster. by apply (wo_group _ _ Hw1 g).
    + unfold player_guid in PL1. lia.
    + split; [exact (Hset L pl Hpl) | done].
    + change (0 <= m_hiGroupGuid c < 2 ^ 32). lia.
Qed.

Lemma addable_first : addable c2 g u (founded L lname low x1) 0.
Proof.
  destruct world_founded as (Hw2 & H2 & Hp2). destruct (wo_player _ _ Hw u p Hp) as [[P1 _] P2 _ _].
  split_and!; try done.
  - apply (ro_bg (founded L lname low x1)), (gi_roster _ _ _ _ (wo_group _ _ Hw2 g _ H2)).
  - unfold IsFull, GetMembersCount. unfold founded. rewrite add_member_slots. cbn. by rewrite Hs.
  - apply roster_counts_len, (gi_roster _ _ _ _ (wo_group _ _ Hw2 g _ H2)).
  - unfold founded, free_subgroup. cbn. by rewrite Hcs.
  - lia.
  - exists p. split; [done|]. split; [|done]. split; [exact (Hset u p Hp) | done].
Qed.

Lemma execs_accept_first :
  execs (accept_first g u L lname) c tt (t_add (GetLowGUID (founded L lname low x1)) g u (p_name p) 0 c2).
Proof.
  destruct world_founded as (Hw2 & H2 & Hp2).
  eapply execs_bind; [apply execs_found|]. apply execs_with_state. intros s Ht.
  assert (En : player_name s u = p_name p).
  { unfold player_name. by rewrite <- (core_player s u), Ht, Hp2. }
  rewrite En. eapply execs_bind; [apply execs_AddMember, addable_first|]. cbn [when]. apply execs_framed. auto with framed.
Qed.

Lemma good_accept_first : sizes_ok c -> good (t_add (GetLowGUID (founded L lname low x1)) g u (p_name p) 0 c2).
Proof.
  intros Hsz. destruct world_founded as (Hw2 & H2 & Hp2). split.
  - apply (world_add ∅); try done.
    + apply addable_first.
    + apply (gi_roster _ _ _ _ (wo_group _ _ Hw2 g _ H2)).
    + intros E. apply (f_equal length) in E. unfold founded in E. rewrite add_member_slots, length_app in E. cbn in E. lia.
    + intros q Hq. congruence.
  - intros h y Hy. unfold t_add in Hy. cbn [groups on_group_member] in Hy. destruct (decide (g = h)) as [<-|Hgh].
    + rewrite w_groups_same in Hy. cbn [groups w_player on_players] in Hy. rewrite H2 in Hy. injection Hy as <-. right.
      unfold founded. rewrite !add_member_slots, !length_app. cbn. lia.
    + rewrite w_groups_other in Hy by done. apply (Hsz h). unfold c2, t_found, t_create, t_uninvite in Hy.
      cbn [groups on_group_set on_group_member w_player on_players] in Hy.
      rewrite w_groups_other in Hy by done. cbn [groups w_player on_players took_low_guid] in Hy. by rewrite w_groups_other in Hy.
Qed.

End first_guest.

Lemma keeps_accept_invite c u g p :
  good c -> settled c -> m_hiGroupGuid c < 2 ^ 32 - 1 -> players c !! u = Some p -> p_groupInvite p = Some g ->
  keeps (accept_invite v u g) c.
Proof.
  intros Hg Hset Hhi Hp Hi. pose proof Hg as [Hw Hsz]. apply keeps_core. intros Hcore.
  apply keeps_with_group; [done|]. intros y Hy. pose proof (wo_group _ _ Hw g _ Hy) as Hgi.
  destruct (pi_invite _ _ _ (wo_player _ _ Hw u p Hp) g Hi) as [_ Hpg].
  destruct (IsLeader y u) eqn:Hl; [apply keeps_framed; auto with framed|].
  eapply keeps_seq; [by apply execs_RemoveInvite|].
  set (c1 := t_uninvite g u (p_serial p) c). set (x1 := drop_invite u (p_serial p) (core_group y)).
  assert (H1 : groups c1 !! g = Some x1).
  { unfold c1, t_uninvite. rewrite w_groups_same. cbn [groups w_player on_players]. by rewrite Hy. }
  assert (Hp1 : players c1 !! u = Some (set_groupInvite None p)).
  { unfold c1, t_uninvite. by rewrite players_after, decide_True, Hp. }
  assert (Hpp : party_player (set_groupInvite None p)).
  { split; [exact (Hset u p Hp) | apply (wo_player _ _ Hw u p Hp)]. }
  assert (Hsz1 : sizes_ok c1) by (by eapply (sizes_same (w_player u _ c))).
  destruct (decide (m_memberSlots y = [])) as [Hs|Hs].
  - assert (Hnf : IsFull y = false).
    { unfold IsFull, GetMembersCount. rewrite Hs. by case_match. }
    rewrite Hnf. unfold IsCreated, GetMembersCount. rewrite Hs. cbn [length Z.of_nat Z.ltb Z.compare].
    destruct (gi_pending _ _ _ _ Hgi) as (Hcs & pl & Hpl & Hpli); [set_solver | done|].
    assert (Hlu : m_leaderGuid y <> u) by (by apply Z.eqb_neq).
    assert (Hw1 : world_ok {[ g ]} c1) by (eapply (world_uninvite ∅); try done; set_solver).
    assert (Hcore1 : is_core c1).
    { intros h z. unfold c1, t_uninvite. destruct (decide (g = h)) as [<-|Hgh].
      - rewrite w_groups_same. cbn [groups w_player on_players]. rewrite Hy. by intros [= <-].
      - rewrite w_groups_other by done. apply Hcore. }
    assert (Hset1 : settled c1).
    { intros w q. unfold c1, t_uninvite. rewrite players_after. case_decide; [|apply (Hset w)].
      destruct (players c !! w) as [q'|] eqn:Hq; [|done]. intros [= <-]. exact (Hset w q' Hq). }
    assert (Hpl1 : players c1 !! m_leaderGuid y = Some pl) by (unfold c1, t_uninvite; by rewrite players_after, decide_False).
    eapply keeps_runs.
    + by apply (execs_accept_first c1 g u (m_leaderGuid y) (m_leaderName y) x1 (set_groupInvite None p) pl).
    + by apply (good_accept_first c1 g u (m_leaderGuid y) (m_leaderName y) x1 (set_groupInvite None p) pl).
  - assert (Hw1 : world_ok ∅ c1) by (eapply (world_uninvite ∅); try done; by right).
    destruct (IsFull y) eqn:Hf.
    { apply keeps_framed; [done|]. unfold SendPartyResult. auto with framed. }
    unfold IsCreated, GetMembersCount. rewrite (proj2 (Z.ltb_lt _ _)) by (destruct (m_memberSlots y); [done | cbn; lia]).
    apply keeps_skip; [auto with framed|]. apply keeps_read. intros s _.
    apply keeps_after; [|intros b; auto 20 with framed].
    by eapply (keeps_AddMember c1 g u _ x1).
Qed.

Lemma keeps_Accept c u recv_data : good c -> settled c -> m_hiGroupGuid c < 2 ^ 32 - 1 ->
  keeps (HandleGroupAcceptOpcode v u recv_data) c.
Proof.
  intros Hg Hset Hhi. unfold HandleGroupAcceptOpcode, with_recv.
  destruct (shr_uint 4 recv_data).1; [|stays].
  apply keeps_with_player; [done|]. intros p Hp. destruct (p_groupInvite p) as [g|] eqn:Hi.
  - by eapply keeps_accept_invite.
  - stays.
Qed.

End accept.
(** ** Leaving *)

Lemma keeps_bind_any {A B} (m : GM A) (k : A -> GM B) c :
  framed m -> (forall a, keeps (k a) c) -> keeps (bind m k) c.
Proof. intros Hm Hk s Hs. rewrite run_state_bind. apply Hk. by rewrite Hm. Qed.

Lemma settled_release g c : settled c -> settled (t_release g c).
Proof.
  intros Hs w q Hq. unfold t_release in Hq. cbn [players on_group_set on_groups on_players] in Hq.
  rewrite lookup_fmap in Hq. destruct (players c !! w) as [p|] eqn:Hp; [|done]. injection Hq as <-.
  rewrite released_inWorld. by apply (Hs w).
Qed.
Lemma settled_alter u f c : (forall p, p_inWorld (f p) = p_inWorld p) -> settled c -> settled (w_player u f c).
Proof.
  intros Hf Hs w q Hq. destruct (decide (u = w)) as [<-|Hne].
  - rewrite w_players_same in Hq. destruct (players c !! u) as [p|] eqn:Hp; [|done]. injection Hq as <-.
    rewrite Hf. by apply (Hs u).
  - rewrite w_players_other in Hq by done. by apply (Hs w).
Qed.
Lemma players_release g c w : players (t_release g c) !! w = released g <$> players c !! w.
Proof. apply lookup_fmap. Qed.

(** Nobody points into a group without members. *)
Lemma empty_mgr E c g x : group_inv E c g x -> m_memberSlots x = [] -> m_memberMgr x = [].
Proof.
  intros Hg Hs. destruct (m_memberMgr x) as [|[u o] l] eqn:E1; [done|]. exfalso.
  assert (Hin : (u, o) ∈ m_memberMgr x) by (rewrite E1; left).
  apply (gi_mgr _ _ _ _ Hg) in Hin as (_ & p & Hp & Hpg). apply (gi_link _ _ _ _ Hg u p Hp) in Hpg.
  unfold guids in Hpg. rewrite Hs in Hpg. by apply elem_of_nil in Hpg.
Qed.

Section leave.
Context (v : GroupView).

Lemma execs_uninvite c u p :
  good c -> settled c -> players c !! u = Some p ->
  exists c', execs (UninviteFromGroup v u) c tt c' /\ good c' /\ settled c' /\
    exists p', players c' !! u = Some p' /\ p_groupInvite p' = None /\ GetGroup p' = GetGroup p.
Proof.
  intros Hg Hset Hp. destruct (p_groupInvite p) as [g|] eqn:Hi; [|exists c; split; [by eapply execs_Uninvite_none | eauto 10]].
  pose proof Hg as [Hw Hsz]. destruct (pi_invite _ _ _ (wo_player _ _ Hw u p Hp) g Hi) as [[x Hx] Hpg].
  pose proof (wo_group _ _ Hw g x Hx) as Hgi. pose proof (ro_bg x (gi_roster _ _ _ _ Hgi)) as Hbg.
  pose proof (world_knows _ _ _ _ Hw Hset Hx) as Hk.
  destruct (decide (m_memberSlots x = [])) as [Hs|Hs].
  - exists (t_release g c). split; [|split; [split|split]].
    + eapply execs_Uninvite_pending; try done; [by eapply empty_mgr|]. rewrite (gi_set _ _ _ _ Hgi). naive_solver.
    + by eapply world_give_up.
    + by apply sizes_release.
    + by apply settled_release.
    + exists (released g p). split; [by rewrite players_release, Hp|]. rewrite released_no_group, Hpg by done.
      split; [|done]. destruct (p_groupInvite (released g p)) as [h|] eqn:E; [|done].
      apply released_invite in E as [E ?]. congruence.
  - exists (t_uninvite g u (p_serial p) c). split; [|split; [split|split]].
    + eapply execs_Uninvite_member; try done. by destruct (Hsz g x Hx).
    + eapply (world_uninvite ∅); try done. by right.
    + by eapply (sizes_same (w_player u _ c)).
    + by apply (settled_alter u (set_groupInvite None) c).
    + exists (set_groupInvite None p). split; [|done]. unfold t_uninvite. by rewrite players_after, decide_True, Hp.
Qed.
Lemma keeps_uninvite c u : good c -> settled c -> keeps (UninviteFromGroup v u) c.
Proof.
  intros Hg Hset. destruct (players c !! u) as [p|] eqn:Hp.
  - destruct (execs_uninvite c u p Hg Hset Hp) as (c' & Hr & Hc & _). by eapply keeps_runs.
  - apply keeps_with_player; [done|]. intros p Hp'. congruence.
Qed.

Lemma execs_remove c g u x method kicker reason :
  good c -> settled c -> groups c !! g = Some x -> u ∈ guids x ->
  exists c', execs (RemoveFromGroup v (Some g) u method kicker reason) c tt c' /\ good c' /\ settled c' /\
    (method <> GROUP_REMOVEMETHOD_KICK -> forall p, players c !! u = Some p ->
       exists p', players c' !! u = Some p' /\ p_groupInvite p' = p_groupInvite p /\ GetGroup p' = None).
Proof.
  intros Hg Hset Hx Hu. pose proof Hg as [Hw Hsz]. pose proof (wo_group _ _ Hw g x Hx) as Hgi.
  pose proof (gi_roster _ _ _ _ Hgi) as Hr. pose proof (ro_bg x Hr) as Hbg.
  destruct (member_size c g x u Hg Hx Hu) as [Hne Hlen]. pose proof (world_knows _ _ _ _ Hw Hset Hx) as Hk.
  destruct (isLFGGroup x && bool_decide (method = GROUP_REMOVEMETHOD_KICK)) eqn:Hm.
  { apply andb_true_iff in Hm as [Hlfg ->%bool_decide_eq_true]. exists c.
    split; [by eapply execs_RemoveFromGroup_vote|].
    split; [done|]. split; [done|]. intros Hn. by destruct Hn. }
  destruct (decide (length (m_memberSlots x) <= 2)%nat) as [Hle|Hgt].
  - exists (t_release g (on_group_member (drop_rows (GetLowGUID x)) c)). split; [|split; [split|split]].
    + eapply execs_RemoveFromGroup_last; try done. apply Hr.
    + by apply world_dissolve.
    + by apply sizes_release.
    + by apply settled_release.
    + intros _ p Hp. exists (released g p). split; [rewrite players_release; cbn [players on_group_member]; by rewrite Hp|].
      apply (gi_link _ _ _ _ Hgi u p Hp) in Hu. unfold released. rewrite bool_decide_eq_true_2 by done.
      split; [|done]. unfold uninvited. destruct (decide (p_groupInvite p = Some g)) as [Hi|Hi].
      * destruct (pi_invite _ _ _ (wo_player _ _ Hw u p Hp) g Hi). congruence.
      * by rewrite bool_decide_eq_false_2.
  - destruct (reads_sub_ok x u Hr Hu) as (sub & Hsub & _ & Hcnt).
    exists (t_remove g u sub c). split; [|split; [split|split]].
    + eapply execs_RemoveFromGroup_more; try done; [by eapply world_linked | lia].
    + by eapply world_remove.
    + eapply sizes_change; [exact Hsz | by apply t_remove_groups|]. right.
      assert (Hs : m_memberSlots (cut_link c u x) = m_memberSlots x) by (unfold cut_link; by case_match).
      pose proof (length_take_out u sub (cut_link c u x)) as Hl. rewrite Hs in Hl. specialize (Hl Hu). lia.
    + intros w q. rewrite t_remove_players. destruct (decide (u = w)) as [->|]; [|apply (Hset w)].
      destruct (players c !! w) as [p|] eqn:Hp; [|done]. intros [= <-]. exact (Hset w p Hp).
    + intros _ p Hp. exists (unjoined p). by rewrite t_remove_players, decide_True, Hp.
Qed.
Lemma keeps_remove c g u x method kicker reason :
  good c -> settled c -> groups c !! g = Some x -> u ∈ guids x ->
  keeps (RemoveFromGroup v (Some g) u method kicker reason) c.
Proof.
  intros Hg Hset Hx Hu. destruct (execs_remove c g u x method kicker reason Hg Hset Hx Hu) as (c' & Hr & Hc & _).
  by eapply keeps_runs.
Qed.

Lemma keeps_Decline c u recv_data : good c -> settled c -> keeps (HandleGroupDeclineOpcode v u recv_data) c.
Proof.
  intros Hg Hset. apply keeps_with_player; [done|]. intros p Hp. destruct (p_groupInvite p) as [g|] eqn:Hi.
  - apply keeps_with_group; [done|]. intros y _. apply keeps_read. intros s _.
    apply keeps_after; [by apply keeps_uninvite | intros _; auto with framed].
  - stays.
Qed.

Lemma keeps_party_result u op name res c : good c -> keeps (SendPartyResult u op name res) c.
Proof. intros Hg. by apply keeps_framed; [|unfold SendPartyResult; auto with framed]. Qed.

Lemma keeps_uninvite_checked c u k :
  good c -> (forall g y, groups c !! g = Some (core_group y) -> keeps (k g y) c) -> keeps (uninvite_checked v u k) c.
Proof.
  intros Hg Hk. apply keeps_with_player; [done|]. intros p Hp.
  destruct (GetGroup p) as [g|]; [|by apply keeps_party_result].
  apply keeps_with_group; [done|]. intros y Hy. cbv zeta. case_match; [by apply keeps_party_result | by apply Hk].
Qed.
Lemma keeps_uninvite_invited c u found name : good c -> settled c -> keeps (uninvite_invited v u found name) c.
Proof. intros Hg Hset. destruct found; [by apply keeps_uninvite | by apply keeps_party_result]. Qed.

Lemma IsMember_in x u : IsMember x u = true <-> u ∈ guids x.
Proof.
  unfold IsMember. rewrite bool_decide_eq_true. split.
  - intros [m [Hm <-]%getMemberSlot_elem]. by apply list_elem_of_fmap_2.
  - intros Hu. by apply getMemberSlot_some.
Qed.
Lemma GetMemberGUID_in x name : GetMemberGUID x name <> 0 -> GetMemberGUID x name ∈ guids x.
Proof.
  unfold GetMemberGUID. destruct (filter _ _) as [|m l] eqn:E; [done|]. intros _.
  assert (Hm : m ∈ filter (fun m => ms_name m = name) (m_memberSlots x)) by (rewrite E; left).
  apply list_elem_of_filter in Hm as [_ Hm]. by apply list_elem_of_fmap_2.
Qed.

Lemma keeps_UninviteGuid c u recv_data : good c -> settled c -> keeps (HandleGroupUninviteGuidOpcode v u recv_data) c.
Proof.
  intros Hg Hset. unfold HandleGroupUninviteGuidOpcode, with_recv.
  destruct (parse_uninvite_guid recv_data).1 as [[guid reason]|]; [|stays].
  case_match; [stays|].
  apply keeps_uninvite_checked; [done|]. intros g y Hy. case_match; [by apply keeps_party_result|].
  destruct (IsMember y guid) eqn:Hm; [eapply keeps_remove; try done; by apply IsMember_in|].
  apply keeps_bind_any; [|intros found; by apply keeps_uninvite_invited]. unfold GetInvited. auto with framed.
Qed.

Context `{!Utf8Lib}.

Lemma keeps_Uninvite c u recv_data : good c -> settled c -> keeps (HandleGroupUninviteOpcode v u recv_data) c.
Proof.
  intros Hg Hset. unfold HandleGroupUninviteOpcode, with_recv.
  destruct (shr_string recv_data).1 as [name|]; [|stays].
  destruct (normalizePlayerName name) as [membername| |]; [|stays..].
  apply keeps_read. intros s _. case_match; [stays|].
  apply keeps_uninvite_checked; [done|]. intros g y Hy.
  destruct (Z.eqb_spec (GetMemberGUID y membername) 0) as [E|E]; cbn [negb].
  - apply keeps_bind_any; [|intros found; by apply keeps_uninvite_invited]. unfold GetInvitedByName. auto with framed.
  - eapply keeps_remove; try done. exact (GetMemberGUID_in (core_group y) membername E).
Qed.

Lemma keeps_Disband c u recv_data : good c -> settled c -> keeps (HandleGroupDisbandOpcode v u recv_data) c.
Proof.
  intros Hg Hset. apply keeps_with_player; [done|]. intros p Hp.
  destruct (GetGroup p) as [g|] eqn:Hpg; [|stays].
  case_match; [by apply keeps_party_result|]. apply keeps_skip; [unfold SendPartyResult; auto with framed|].
  destruct (own_group c u p g Hg Hp Hpg) as (x & Hx & Hin & _). by eapply keeps_remove.
Qed.

End leave.
(** ** Changes of a group that keep its members *)

Lemma same_places_refl slots : same_places slots slots.
Proof. exists id. split; [by rewrite list_fmap_id | done]. Qed.
Lemma restyled_slots x slots :
  roster_ok x -> m_memberSlots x <> [] -> same_places (m_memberSlots x) slots ->
  flag_unique MEMBER_FLAG_MAINTANK slots -> flag_unique MEMBER_FLAG_MAINASSIST slots ->
  restyled x (set_memberSlots slots x).
Proof. intros Hr Hne Hp Ht Ha. split; try done. by apply roster_slots. Qed.
Lemma restyled_type x x' :
  roster_ok x' -> m_memberSlots x <> [] -> m_memberSlots x' = m_memberSlots x -> m_invitees x' = m_invitees x ->
  m_memberMgr x' = m_memberMgr x -> m_guid x' = m_guid x -> restyled x x'.
Proof. intros Hr Hne Hs Hi Hm Hg. split; try done. rewrite Hs. apply same_places_refl. Qed.

Lemma restyled_led_by x m :
  roster_ok x -> m ∈ m_memberSlots x -> restyled x (led_by m x).
Proof.
  intros Hr Hm. assert (Hl : roster_ok (set_leader (ms_guid m) (ms_name m) x))
    by (apply roster_lead; [done | by apply list_elem_of_fmap_2]).
  assert (Hp : same_places (m_memberSlots x) (update_slot (ms_guid m) (ToggleGroupMemberFlag MEMBER_FLAG_ASSISTANT false) (m_memberSlots x)))
    by (by apply same_places_update; [apply Hr|]).
  split; try done.
  - apply (roster_slots _ (set_leader (ms_guid m) (ms_name m) x)); [done | done | |];
      apply flag_unique_other; try done; apply Hr.
  - intros E. rewrite E in Hm. by apply elem_of_nil in Hm.
Qed.

Lemma keeps_restyle {A} (m : GM A) c g x f a :
  good c -> groups c !! g = Some x -> restyled x (f x) -> execs m c a (w_group g f c) -> keeps m c.
Proof. intros Hg Hx Hr Hm. eapply keeps_runs; [exact Hm | by eapply good_restyle]. Qed.

(** The counters of a raid that begins. *)
Lemma execs_count_members g slots c x counts :
  groups c !! g = Some x -> m_subGroupsCounts x = Some counts -> length counts = MAX_RAID_SUBGROUPS ->
  Forall (fun m => 0 <= ms_group m < 8) slots ->
  execs (for_each slots (fun m => SubGroupCounterIncrease g (ms_group m))) c tt
    (w_group g (fun y => set_subGroupsCounts (counts_of slots <$> m_subGroupsCounts y) y) c).
Proof.
  revert c x counts. induction slots as [|m slots IH]; intros c x counts Hx Hc Hl Hs; cbn [for_each].
  - eapply execs_eq; [apply execs_ret | done|]. rewrite (w_group_ext g _ id).
    + unfold w_group, on_groups. replace (alter id g (groups c)) with (groups c); [by destruct c|].
      symmetry. apply map_eq. intros h. destruct (decide (g = h)) as [<-|Hne];
        [rewrite lookup_alter_eq; by destruct (groups c !! g) | by rewrite lookup_alter_ne].
    + intros y Hy. rewrite Hx in Hy. injection Hy as <-. rewrite Hc. cbn. by destruct x; cbn in Hc; subst.
  - apply Forall_cons in Hs as [Hm Hs].
    eapply execs_bind.
    { eapply execs_bump; [exact Hx|]. unfold has_counter. rewrite Hc. apply lookup_lt_is_Some. rewrite Hl.
      unfold MAX_RAID_SUBGROUPS. lia. }
    eapply execs_eq; [eapply (IH (w_group g (count_in 1 (ms_group m)) c) (count_in 1 (ms_group m) x)) | done|].
    + by rewrite w_groups_same, Hx.
    + unfold count_in, count_at. cbn [m_subGroupsCounts set_subGroupsCounts]. rewrite Hc. done.
    + by rewrite length_alter.
    + done.
    + rewrite w_group_fuse. apply w_group_ext. intros y Hy. rewrite Hx in Hy. injection Hy as <-.
      unfold compose, count_in, count_at. cbn [m_subGroupsCounts set_subGroupsCounts]. by rewrite Hc.
Qed.

Section restyle.
Context (v : GroupView).

Lemma execs_ConvertToRaid g c x :
  groups c !! g = Some x -> m_bgGroup x = None -> Forall (fun m => 0 <= ms_group m < 8) (m_memberSlots x) ->
  execs (ConvertToRaid v g) c tt (w_group g to_raid c).
Proof.
  intros Hx Hbg Hs. eapply execs_bind; [apply execs_upd_same; reflexivity|].
  set (raid := fun y : Group => set_groupType _ y). set (c1 := w_group g raid c).
  assert (H1 : groups c1 !! g = Some (raid x)) by (unfold c1; by rewrite w_groups_same, Hx).
  eapply execs_bind.
  { eapply execs_with_group; [exact H1|]. intros y Hy.
    eapply execs_bind; [apply execs_upd_same; reflexivity|].
    assert (Hys : m_memberSlots y = m_memberSlots x) by exact (f_equal m_memberSlots Hy). rewrite Hys.
    eapply execs_count_members; [by rewrite w_groups_same, H1 | done | by rewrite length_replicate | exact Hs]. }
  apply execs_skip; [auto with framed|]. apply execs_skip; [auto with framed|].
  eapply execs_eq; [apply execs_framed; auto with framed | done|].
  unfold c1. rewrite !w_group_fuse. apply w_group_ext. intros y Hy. rewrite Hx in Hy. by injection Hy as <-.
Qed.

Lemma execs_ConvertToGroup g c x :
  groups c !! g = Some x -> (length (m_memberSlots x) <= 5)%nat -> execs (ConvertToGroup v g) c tt (w_group g to_group c).
Proof.
  intros Hx Hl. eapply execs_with_group; [exact Hx|]. intros y Hy. subst x.
  rewrite (proj2 (Z.ltb_ge _ _)) by (unfold GetMembersCount; core_facts; lia).
  eapply execs_bind; [apply (execs_upd_same g to_group); reflexivity|].
  apply execs_skip; [auto with framed|]. apply execs_skip; [auto with framed|]. apply execs_framed. auto with framed.
Qed.
Lemma execs_ConvertToLFG g c : execs (ConvertToLFG v g) c tt (w_group g to_lfg c).
Proof.
  eapply execs_bind; [apply (execs_upd_group g _ to_lfg); reflexivity|].
  apply execs_skip; [auto with framed|]. apply execs_framed. auto with framed.
Qed.

Lemma keeps_RaidConvert c u recv_data : good c -> keeps (HandleGroupRaidConvertOpcode v u recv_data) c.
Proof.
  intros Hg. apply keeps_with_own_group; [done|]. intros p g y Hp Hpg Hy.
  destruct (own_group c u p g Hg Hp Hpg) as (x & Hx & Hu & Hgi). rewrite Hy in Hx. injection Hx as <-.
  pose proof (gi_roster _ _ _ _ Hgi) as Hr. destruct (member_size c g _ u Hg Hy Hu) as [Hne _].
  case_match; [stays|].
  case_match; [stays|].
  unfold with_recv. destruct (shr_bool recv_data).1 as [toRaid|]; [|stays].
  apply keeps_skip; [unfold SendPartyResult; auto with framed|]. destruct toRaid.
  - eapply keeps_restyle; [done | exact Hy | | eapply execs_ConvertToRaid; [exact Hy | apply (ro_bg _ Hr) | apply (ro_sub _ Hr)]].
    apply restyled_type; try done. by apply roster_to_raid.
  - destruct (decide (length (m_memberSlots y) <= 5)%nat) as [Hl|Hl].
    + eapply keeps_restyle; [done | exact Hy | | by eapply execs_ConvertToGroup].
      apply restyled_type; try done. by apply roster_to_group.
    + apply keeps_with_group; [done|]. intros z Hz. rewrite Hy in Hz. apply (inj Some) in Hz.
      assert (Hzs : m_memberSlots z = m_memberSlots y) by exact (eq_sym (f_equal m_memberSlots Hz)).
      unfold GetMembersCount. rewrite Hzs, (proj2 (Z.ltb_lt _ _)) by lia. stays.
Qed.

Lemma keeps_JoinLfg c u : good c -> keeps (with_own_group u (fun g _ => ConvertToLFG v g)) c.
Proof.
  intros Hg. apply keeps_with_own_group; [done|]. intros p g y Hp Hpg Hy.
  destruct (own_group c u p g Hg Hp Hpg) as (x & Hx & Hu & Hgi). rewrite Hy in Hx. injection Hx as <-.
  eapply keeps_restyle; [done | exact Hy | | apply execs_ConvertToLFG].
  apply restyled_type; try done; [by apply roster_to_lfg, Hgi | by eapply (member_size c g _ u)].
Qed.

Lemma keeps_SetLeader c u recv_data : good c -> keeps (HandleGroupSetLeaderOpcode v u recv_data) c.
Proof.
  intros Hg. apply keeps_with_own_group; [done|]. intros p g y Hp Hpg Hy.
  destruct (own_group c u p g Hg Hp Hpg) as (x & Hx & Hu & Hgi). rewrite Hy in Hx. injection Hx as <-.
  pose proof (gi_roster _ _ _ _ Hgi) as Hr. unfold with_recv.
  destruct (shr_uint 8 recv_data).1 as [guid|]; [|stays].
  apply keeps_if_in_world; [done|]. intros q Hq _. apply keeps_if; [done|]. intros _.
  apply keeps_with_group; [done|]. intros z Hz. rewrite Hy in Hz. apply (inj Some) in Hz.
  assert (Hzs : m_memberSlots z = m_memberSlots (core_group y)) by exact (eq_sym (f_equal m_memberSlots Hz)). rewrite Hzs.
  destruct (_getMemberSlot guid (m_memberSlots (core_group y))) as [m|] eqn:Hm; [|stays].
  pose proof (getMemberSlot_elem _ _ _ Hm) as [Hin Hmg].
  eapply (keeps_restyle _ c g _ (led_by m)); [done | exact Hy | by apply restyled_led_by|].
  eapply execs_bind; [eapply (execs_setLeader g guid c _ m); [exact Hy | apply (ro_bg _ Hr) | done | done]|].
  apply execs_skip; [auto with framed|]. apply execs_framed. auto with framed.
Qed.

End restyle.
(** ** Flags and roles *)

Lemma same_places_clean f slots : same_places slots (RemoveUniqueGroupMemberFlag f slots).
Proof. eexists. split; [reflexivity|]. intros m. cbn. by case_match. Qed.
Lemma guids_clean f slots : ms_guid <$> RemoveUniqueGroupMemberFlag f slots = ms_guid <$> slots.
Proof. apply same_places_guids, same_places_clean. Qed.

(** A flag only one member may have is taken from all before it is given. *)
Lemma restyled_unique x u f f' b :
  roster_ok x -> m_memberSlots x <> [] ->
  (f = MEMBER_FLAG_MAINTANK /\ f' = MEMBER_FLAG_MAINASSIST \/ f = MEMBER_FLAG_MAINASSIST /\ f' = MEMBER_FLAG_MAINTANK) ->
  restyled x (set_memberSlots (update_slot u (ToggleGroupMemberFlag f b) (RemoveUniqueGroupMemberFlag f (m_memberSlots x))) x).
Proof.
  intros Hr Hne Hf. pose proof (ro_nodup x Hr) as Hnd.
  assert (Hnd' : NoDup (ms_guid <$> RemoveUniqueGroupMemberFlag f (m_memberSlots x))) by (by rewrite guids_clean).
  assert (Hg : flag_unique f (update_slot u (ToggleGroupMemberFlag f b) (RemoveUniqueGroupMemberFlag f (m_memberSlots x))))
    by by apply flag_unique_given.
  apply restyled_slots; [done | done | | |].
  - eapply same_places_trans; [apply same_places_clean | by apply same_places_update].
  - destruct Hf as [[-> ->]|[-> ->]]; [exact Hg|].
    apply flag_unique_other; [done | done | apply flag_unique_clean, Hr].
  - destruct Hf as [[-> ->]|[-> ->]]; [|exact Hg].
    apply flag_unique_other; [done | done | apply flag_unique_clean, Hr].
Qed.
Lemma restyled_assistant x u b :
  roster_ok x -> m_memberSlots x <> [] ->
  restyled x (set_memberSlots (update_slot u (ToggleGroupMemberFlag MEMBER_FLAG_ASSISTANT b) (m_memberSlots x)) x).
Proof.
  intros Hr Hne. pose proof (ro_nodup x Hr) as Hnd. apply restyled_slots; [done | done | | |].
  - by apply same_places_update.
  - apply flag_unique_other; [done | done | apply Hr].
  - apply flag_unique_other; [done | done | apply Hr].
Qed.
Lemma restyled_roles x u r :
  roster_ok x -> m_memberSlots x <> [] -> restyled x (set_memberSlots (update_slot u (set_ms_roles r) (m_memberSlots x)) x).
Proof.
  intros Hr Hne. pose proof (ro_nodup x Hr) as Hnd.
  assert (Hf : forall f, flag_unique f (m_memberSlots x) -> flag_unique f (update_slot u (set_ms_roles r) (m_memberSlots x))).
  { intros f Hf. rewrite update_slot_map by done.
    apply flag_unique_map; [done | intros m; by case_match | intros m; by case_match]. }
  apply restyled_slots; [done | done | by apply same_places_update | apply Hf, Hr | apply Hf, Hr].
Qed.

Section flags.
Context (v : GroupView).

Lemma keeps_member_flag c g u flag clean b x :
  good c -> groups c !! g = Some x ->
  restyled x (set_memberSlots (update_slot u (ToggleGroupMemberFlag flag b) (clean (m_memberSlots x))) x) ->
  keeps (set_member_flag g u flag clean b) c.
Proof.
  intros Hg Hx Hr. apply keeps_with_group; [done|]. intros y Hy. rewrite Hx in Hy. injection Hy as ->.
  case_match; [|stays].
  eapply (keeps_restyle _ c g _ (set_memberSlots (update_slot u (ToggleGroupMemberFlag flag b) (clean (m_memberSlots y)))) true);
    [done | exact Hx | exact Hr|].
  eapply execs_bind; [apply execs_upd_same; reflexivity|]. apply execs_skip; [auto with framed|]. apply execs_ret.
Qed.

Lemma keeps_raid_flag c g m : good c -> keeps m c -> keeps (raid_flag v g m) c.
Proof.
  intros Hg Hm. apply keeps_with_group; [done|]. intros y _.
  case_match; [stays|].
  apply keeps_after; [done | auto with framed].
Qed.

Lemma keeps_AssistantLeader c u recv_data : good c -> keeps (HandleGroupAssistantLeaderOpcode v u recv_data) c.
Proof.
  intros Hg. apply keeps_with_own_group; [done|]. intros p g y Hp Hpg Hy.
  destruct (own_group c u p g Hg Hp Hpg) as (x & Hx & Hu & Hgi). rewrite Hy in Hx. injection Hx as <-.
  destruct (member_size c g _ u Hg Hy Hu) as [Hne _].
  unfold with_recv. destruct (parse_assistant recv_data).1 as [[guid flag]|]; [|stays].
  apply keeps_if; [done|]. intros _. apply keeps_raid_flag; [done|].
  eapply keeps_member_flag; [done | exact Hy|]. apply restyled_assistant; [apply Hgi | done].
Qed.

Lemma keeps_PartyAssignment c u recv_data : good c -> keeps (HandlePartyAssignmentOpcode v u recv_data) c.
Proof.
  intros Hg. apply keeps_with_own_group; [done|]. intros p g y Hp Hpg Hy.
  destruct (own_group c u p g Hg Hp Hpg) as (x & Hx & Hu & Hgi). rewrite Hy in Hx. injection Hx as <-.
  destruct (member_size c g _ u Hg Hy Hu) as [Hne _].
  unfold with_recv. destruct (parse_assignment recv_data).1 as [[[flag b] guid]|]; [|stays].
  case_match; [stays|].
  case_match; [|case_match; [|stays]]; apply keeps_raid_flag; try done;
    (eapply keeps_member_flag; [done | exact Hy|]).
  - eapply restyled_unique; [apply Hgi | done | by left].
  - eapply restyled_unique; [apply Hgi | done | by right].
Qed.

Lemma keeps_SetRoles c u recv_data : good c -> keeps (HandleGroupSetRoles v u recv_data) c.
Proof.
  intros Hg. unfold HandleGroupSetRoles, with_recv.
  destruct (parse_roles recv_data).1 as [[roles guid]|]; [|stays].
  apply keeps_if_in_world; [done|]. intros q Hq _. apply keeps_with_player; [done|]. intros p Hp.
  destruct (GetGroup q) as [g|] eqn:Hqg; [|stays].
  case_match; [stays|].
  apply keeps_after; [|intros _; auto with framed].
  destruct (own_group c guid q g Hg Hq Hqg) as (x & Hx & Hu & Hgi).
  destruct (member_size c g _ guid Hg Hx Hu) as [Hne _].
  apply keeps_with_group; [done|]. intros y Hy. rewrite Hx in Hy. injection Hy as ->.
  case_match; [|stays].
  eapply keeps_restyle; [done | exact Hx | by eapply restyled_roles; [apply Hgi|]|].
  apply execs_then; [auto with framed|].
  eapply execs_eq; [apply (execs_upd_same g (fun y => set_memberSlots (update_slot guid _ (m_memberSlots y)) y)); reflexivity | done|].
  apply w_group_ext. intros z Hz. rewrite Hx in Hz. by injection Hz as <-.
Qed.

End flags.
(** ** Subgroups *)

(** What the socket delivers: bytes, and a read position inside. *)
Definition packet_ok (b : ByteBuffer) : Prop := parsable b /\ bytes_ok (_storage b).

Lemma shr_uint_nonneg n b c b' : bytes_ok (_storage b) -> shr_uint n b = (Ok c, b') -> 0 <= c.
Proof.
  intros Hb. unfold shr_uint, bbind, read, read_at. repeat case_match; try done; unfold bret; intros [= <- _];
    repeat match goal with H : (_, _) = (_, _) |- _ => injection H as <- _ || discriminate H end; try done.
  apply le_decode_range. by apply Forall_take, Forall_drop.
Qed.
Lemma parse_subgroup_nonneg b name n : packet_ok b -> (parse_subgroup b).1 = Ok (name, n) -> 0 <= n.
Proof.
  intros [Hp Hb]. unfold parse_subgroup, bbind. pose proof (safe_shr_string b Hp) as Hs.
  destruct (shr_string b) as [[s|] b1]; [|done]. destruct Hs as (_ & Hs & _).
  destruct (shr_uint 1 b1) as [[c|] b2] eqn:E; [|done]. cbn. intros [= <- <-].
  eapply shr_uint_nonneg; [|exact E]. by rewrite Hs.
Qed.

Section subgroups.
Context (v : GroupView).

Lemma execs_setMembersGroup g u new c x m :
  groups c !! g = Some x -> _getMemberSlot u (m_memberSlots x) = Some m -> has_counter new x ->
  execs (_setMembersGroup g u new) c true
    (w_group g (count_in 1 new ∘ fun y => set_memberSlots (update_slot u (set_ms_group new) (m_memberSlots y)) y) c).
Proof.
  intros Hx Hm Hc. eapply execs_with_group; [exact Hx|]. intros y <-. core_facts. rewrite Hm.
  eapply execs_bind; [apply (execs_upd_same g (fun y => set_memberSlots (update_slot u (set_ms_group new) (m_memberSlots y)) y)); reflexivity|].
  eapply execs_bind; [eapply execs_bump; [by rewrite w_groups_same, Hx | exact Hc]|].
  apply execs_skip; [auto with framed|]. eapply execs_eq; [apply execs_ret | done|]. by rewrite w_group_fuse.
Qed.

(** The counters after the slot was changed. *)
Lemma has_counter_moved sub u new x :
  has_counter sub x -> has_counter sub (count_in 1 new (set_memberSlots (update_slot u (set_ms_group new) (m_memberSlots x)) x)).
Proof.
  unfold has_counter, count_in, count_at. cbn [m_subGroupsCounts set_subGroupsCounts set_memberSlots].
  destruct (m_subGroupsCounts x) as [counts|]; [|done]. cbn. intros Hc.
  apply lookup_lt_is_Some. rewrite length_alter. by apply lookup_lt_is_Some.
Qed.

Lemma has_free_counter new x : HasFreeSlotSubGroup x new = true -> has_counter new x.
Proof.
  unfold HasFreeSlotSubGroup, has_counter. destruct (m_subGroupsCounts x) as [l|]; [|done].
  destruct (l !! Z.to_nat new); [by eexists | done].
Qed.

(** A player moves: the slot, both counters and his own reference. *)
Lemma keeps_move_online c g u new x m :
  good c -> settled c -> groups c !! g = Some x -> _getMemberSlot u (m_memberSlots x) = Some m -> 0 <= new < 8 ->
  HasFreeSlotSubGroup x new = true -> keeps (ChangeMembersGroup_online v g u new) c.
Proof.
  intros Hg Hset Hx Hm Hnew Hfree. pose proof Hg as [Hw Hsz]. pose proof (wo_group _ _ Hw g x Hx) as Hgi.
  pose proof (gi_roster _ _ _ _ Hgi) as Hr. pose proof (getMemberSlot_elem _ _ _ Hm) as [Hin Hmu].
  assert (Hu : u ∈ guids x) by (rewrite <- Hmu; by apply list_elem_of_fmap_2).
  apply keeps_with_group; [done|]. intros y Hy. rewrite Hx in Hy. injection Hy as ->.
  case_match; [stays|].
  apply keeps_with_player; [done|]. intros p Hp. pose proof (gi_place _ _ _ _ Hgi m p Hin) as Hpl.
  rewrite Hmu in Hpl. specialize (Hpl Hp). rewrite Hpl.
  destruct (Z.eqb_spec (ms_group m) new) as [E|E]; [stays|].
  destruct (reads_sub_ok _ u Hr Hu) as (old & Hsub & Hold & Hcold).
  assert (Eo : old = ms_group m) by (destruct Hsub as (m' & Hm' & <-); congruence).
  pose proof (has_free_counter _ _ Hfree) as Hcnew.
  eapply (keeps_runs _ _ tt (t_move g u old new c)).
  - eapply execs_bind; [by eapply execs_setMembersGroup|]. cbn [when].
    assert (Hpg : GetGroup p = Some g) by by apply (gi_link _ _ _ _ Hgi u p Hp).
    unfold in_group. rewrite bool_decide_eq_true_2 by done.
    apply execs_then; [auto with framed|].
    eapply execs_bind; [apply execs_upd_player|]. rewrite <- Eo.
    eapply execs_eq; [eapply execs_bump | done|].
    + cbn [groups w_player on_players]. by rewrite w_groups_same, Hx.
    + by apply has_counter_moved.
    + unfold t_move. rewrite w_player_group, w_group_fuse. by apply w_group_ext.
  - split; [eapply world_move; try done; congruence|].
    eapply (sizes_same (w_player u _ c)); [exact Hsz | exact Hx|]. apply length_update_slot.
Qed.
(** A player of another group, or of none, is left alone. *)
Lemma keeps_move_stranger c g u new x :
  good c -> groups c !! g = Some x -> _getMemberSlot u (m_memberSlots x) = None ->
  keeps (ChangeMembersGroup_online v g u new) c.
Proof.
  intros Hg Hx Hm. apply keeps_with_group; [done|]. intros y Hy. rewrite Hx in Hy. injection Hy as ->.
  case_match; [stays|].
  apply keeps_with_player; [done|]. intros p Hp. case_match; [stays|].
  apply (keeps_seq _ _ _ false c); [|stays].
  eapply execs_with_group; [exact Hx|]. intros z Hz.
  assert (Hzs : m_memberSlots z = m_memberSlots (core_group y)) by exact (f_equal m_memberSlots Hz).
  rewrite Hzs, Hm. apply execs_ret.
Qed.
Lemma keeps_move_found c g u new x :
  good c -> settled c -> groups c !! g = Some x -> 0 <= new < 8 -> HasFreeSlotSubGroup x new = true ->
  keeps (ChangeMembersGroup_online v g u new) c.
Proof.
  intros Hg Hset Hx Hnew Hfree. destruct (_getMemberSlot u (m_memberSlots x)) as [m|] eqn:Hm;
    [by eapply keeps_move_online | by eapply keeps_move_stranger].
Qed.

Lemma w_player_absent u f c : players c !! u = None -> w_player u f c = c.
Proof. intros Hp. apply w_player_id. intros p Hq. congruence. Qed.

(** A member the server does not find in the world: the slot and both counters. *)
Lemma execs_move_absent c g u old new x :
  groups c !! g = Some x -> isRaidGroup x = true -> roster_ok x -> reads_sub u old x ->
  HasFreeSlotSubGroup x new = true -> old <> new -> GetPlayer c u = None ->
  execs (ChangeMembersGroup v g u new) c tt (w_group g (move u old new) c).
Proof.
  intros Hx Hraid Hr (m & Hm & Hms) Hfree Hne Habs. eapply execs_with_group; [exact Hx|]. intros y Hy.
  replace (isRaidGroup y) with (isRaidGroup x) by (by rewrite <- Hy). rewrite Hraid. cbn [negb].
  apply execs_with_state. intros s Hs. assert (Hgp : GetPlayer s u = None) by (by rewrite <- Habs, <- Hs). rewrite Hgp.
  assert (Hmy : GetMemberGroup y u = old).
  { rewrite (getMemberGroup_slot y u m); [done|]. by rewrite <- Hm, <- Hy. }
  rewrite Hmy, (proj2 (Z.eqb_neq _ _) Hne).
  pose proof (getMemberSlot_elem _ _ _ Hm) as [Hin <-].
  destruct (reads_sub_ok x (ms_guid m) Hr) as (old' & (m' & Hm' & Eo) & _ & Hcold); [by apply list_elem_of_fmap_2|].
  assert (old' = old) as -> by congruence.
  eapply execs_bind; [by eapply execs_setMembersGroup; [exact Hx | exact Hm | apply has_free_counter]|]. cbn [when].
  apply execs_then; [auto with framed|].
  eapply execs_eq; [eapply execs_bump; [by rewrite w_groups_same, Hx | by apply has_counter_moved] | done|].
  rewrite w_group_fuse. by apply w_group_ext.
Qed.
(** A GUID that is nobody's in the group. *)
Lemma execs_move_nobody c g u new x :
  groups c !! g = Some x -> _getMemberSlot u (m_memberSlots x) = None -> GetPlayer c u = None ->
  execs (ChangeMembersGroup v g u new) c tt c.
Proof.
  intros Hx Hm Habs. eapply execs_with_group; [exact Hx|]. intros y Hy.
  case_match; [apply execs_ret|]. apply execs_with_state. intros s Hs.
  assert (Hgp : GetPlayer s u = None) by (by rewrite <- Habs, <- Hs). rewrite Hgp. case_match; [apply execs_ret|].
  apply (execs_bind _ _ _ false c); [|apply execs_ret]. eapply execs_with_group; [exact Hx|]. intros z Hz.
  assert (Hzs : m_memberSlots z = m_memberSlots x) by exact (f_equal m_memberSlots Hz). rewrite Hzs, Hm. apply execs_ret.
Qed.

Lemma keeps_move_offline c g u new x :
  good c -> settled c -> groups c !! g = Some x -> 0 <= new < 8 -> HasFreeSlotSubGroup x new = true ->
  keeps (ChangeMembersGroup v g u new) c.
Proof.
  intros Hg Hset Hx Hnew Hfree. destruct (players c !! u) as [p|] eqn:Hp.
  { apply keeps_with_group; [done|]. intros y Hy. case_match; [stays|].
    apply keeps_read. intros s <-. rewrite core_player in Hp. unfold GetPlayer.
    rewrite Hp, (Hset u p Hp). by apply (keeps_move_found _ g u new x). }
  assert (Habs : GetPlayer c u = None) by (unfold GetPlayer; by rewrite Hp).
  pose proof Hg as [Hw Hsz]. pose proof (gi_roster _ _ _ _ (wo_group _ _ Hw g _ Hx)) as Hr.
  destruct (_getMemberSlot u (m_memberSlots x)) as [m|] eqn:Hm; [|eapply keeps_runs; [by eapply execs_move_nobody | done]].
  destruct (isRaidGroup x) eqn:Hraid.
  2: { apply keeps_with_group; [done|]. intros y Hy. rewrite Hx in Hy. injection Hy as ->.
       change (isRaidGroup y = false) in Hraid. rewrite Hraid. stays. }
  destruct (Z.eqb_spec (ms_group m) new) as [E|E].
  - apply keeps_with_group; [done|]. intros y Hy. rewrite Hx in Hy. injection Hy as ->. case_match; [stays|].
    apply keeps_read. intros s Hs. assert (Hgp : GetPlayer s u = None) by (by rewrite <- Habs, <- Hs). rewrite Hgp.
    rewrite (getMemberGroup_slot y u m Hm), (proj2 (Z.eqb_eq _ _) E). stays.
  - pose proof (getMemberSlot_elem _ _ _ Hm) as [Hin Hmu].
    eapply keeps_runs; [eapply (execs_move_absent c g u (ms_group m) new x); try done; by exists m|].
    rewrite <- (w_player_absent u (setSubGroup false new) c Hp). split.
    + eapply (world_move ∅); try done; [rewrite <- Hmu; by apply list_elem_of_fmap_2 | by exists m].
    + eapply (sizes_same (w_player u _ c)); [exact Hsz | exact Hx|]. apply length_update_slot.
Qed.

Lemma keeps_ChangeSubGroup c u recv_data :
  good c -> settled c -> packet_ok recv_data -> keeps (HandleGroupChangeSubGroupOpcode v u recv_data) c.
Proof.
  intros Hg Hset Hdata. apply keeps_with_own_group; [done|]. intros p g y Hp Hpg Hy.
  unfold with_recv. destruct (parse_subgroup recv_data).1 as [[name groupNr]|] eqn:Hn; [|stays].
  apply (parse_subgroup_nonneg _ _ _ Hdata) in Hn.
  destruct (Z.leb_spec (Z.of_nat MAX_RAID_SUBGROUPS) groupNr) as [|Hlt]; [stays|].
  unfold MAX_RAID_SUBGROUPS in Hlt. case_match; [stays|].
  destruct (HasFreeSlotSubGroup y groupNr) eqn:Hfree; [|stays]. cbn [negb].
  apply keeps_read. intros s _. destruct (GetPlayerByName s name) as [w|].
  - case_match; [stays|]. eapply keeps_move_found; [done | done | exact Hy | lia | exact Hfree].
  - eapply keeps_move_offline; [done | done | exact Hy | lia | exact Hfree].
Qed.

End subgroups.
(** ** Handlers that concern no roster *)

Section others.
Context (v : GroupView).

Lemma framed_own_group u k : (forall g x, framed (k g x)) -> framed (with_own_group u k).
Proof. intros Hk. unfold with_own_group. auto 20 with framed. Qed.
Lemma framed_recv {A} (parse : B A) recv_data k : (forall a, framed (k a)) -> framed (with_recv parse recv_data k).
Proof. intros Hk. unfold with_recv. auto with framed. Qed.
#[local] Hint Resolve framed_own_group framed_recv : framed.

Lemma framed_LootMethod u recv_data : framed (HandleLootMethodOpcode v u recv_data).
Proof. unfold HandleLootMethodOpcode. auto 20 with framed. Qed.
Lemma framed_LootRoll u recv_data : framed (HandleLootRoll v u recv_data).
Proof. unfold HandleLootRoll. auto 20 with framed. Qed.
Lemma framed_MinimapPing u recv_data : framed (HandleMinimapPingOpcode u recv_data).
Proof. unfold HandleMinimapPingOpcode. auto 20 with framed. Qed.
Lemma framed_RandomRoll u recv_data : framed (HandleRandomRollOpcode v u recv_data).
Proof. unfold HandleRandomRollOpcode. auto 20 with framed. Qed.
Lemma framed_RaidTarget u recv_data : framed (HandleRaidTargetUpdateOpcode u recv_data).
Proof. unfold HandleRaidTargetUpdateOpcode. auto 20 with framed. Qed.
Lemma framed_ReadyCheck u recv_data : framed (HandleRaidReadyCheckOpcode u recv_data).
Proof. unfold HandleRaidReadyCheckOpcode. auto 20 with framed. Qed.
Lemma framed_OptOut u recv_data : framed (HandleOptOutOfLootOpcode u recv_data).
Proof. unfold HandleOptOutOfLootOpcode. auto 20 with framed. Qed.
Lemma framed_LootOpened u ifneed : framed (with_own_group u (fun g _ => UpdateLooterGuid v g ifneed)).
Proof. auto 20 with framed. Qed.

(** ** Sessions *)

Lemma execs_nobody u k c : players c !! u = None -> execs (with_player u k) c tt c.
Proof. intros Hp. apply execs_with_state. intros s <-. rewrite core_player in Hp. rewrite Hp. apply execs_ret. Qed.
Lemma execs_no_group u k c p : players c !! u = Some p -> GetGroup p = None -> execs (with_own_group u k) c tt c.
Proof. intros Hp Hg. eapply execs_with_player; [exact Hp|]. rewrite Hg. apply execs_ret. Qed.

(** The end of [LogoutPlayer]. *)
Definition leave_world (u : Z) : GM unit :=
  upd_player u (set_inWorld false) ;; unlink u false ;; unlink u true ;; modify (on_players (delete u)).

Lemma delete_w_player u f c : on_players (delete u) (w_player u f c) = on_players (delete u) c.
Proof.
  unfold w_player, on_players. cbn. f_equal. apply map_eq. intros h. destruct (decide (u = h)) as [<-|Hne].
  - by rewrite !lookup_delete_eq.
  - by rewrite !lookup_delete_ne, lookup_alter_ne.
Qed.
Lemma execs_delete_player u c : execs (modify (on_players (delete u))) c tt (on_players (delete u) c).
Proof. by apply (execs_modify (on_players (delete u))). Qed.

Lemma execs_leave_world_alone u c p :
  players c !! u = Some p -> GetGroup p = None -> GetOriginalGroup p = None ->
  execs (leave_world u) c tt (on_players (delete u) c).
Proof.
  intros Hp Hg Ho. eapply execs_bind; [apply execs_upd_player|].
  assert (H1 : players (w_player u (set_inWorld false) c) !! u = Some (set_inWorld false p)) by (by rewrite w_players_same, Hp).
  eapply execs_bind; [by eapply execs_unlink_none|]. eapply execs_bind; [by eapply execs_unlink_none|].
  eapply execs_eq; [apply execs_delete_player | done | apply delete_w_player].
Qed.
Lemma execs_leave_world_member u c p g :
  players c !! u = Some p -> GetGroup p = Some g -> GetOriginalGroup p = None ->
  execs (leave_world u) c tt (t_offline g u c).
Proof.
  intros Hp Hg Ho. eapply execs_bind; [apply execs_upd_player|].
  assert (H1 : players (w_player u (set_inWorld false) c) !! u = Some (set_inWorld false p)) by (by rewrite w_players_same, Hp).
  eapply execs_bind; [by eapply execs_unlink|].
  eapply execs_bind.
  { eapply (execs_unlink_none _ true); [rewrite w_players_same; cbn [players w_group on_groups]; by rewrite H1 | exact Ho]. }
  eapply execs_eq; [apply execs_delete_player | done|]. rewrite delete_w_player.
  unfold t_offline. rewrite w_group_player_comm. by rewrite delete_w_player.
Qed.

Lemma good_go c u p : good c -> players c !! u = Some p -> p_groupInvite p = None -> GetGroup p = None ->
  good (on_players (delete u) c).
Proof. intros [Hw Hs] Hp Hi Hg. split; [by eapply world_go | exact Hs]. Qed.

(** A member of a raid, or one whose connection broke, keeps his place. *)
Definition part_ways (u : Z) (socket : bool) : GM unit :=
  with_own_group u (fun g x =>
    when (negb (isRaidGroup x) && socket) (RemoveFromGroup v (Some g) u GROUP_REMOVEMETHOD_DEFAULT 0 None)) ;;
  with_own_group u (fun g _ => SendUpdate v g ;; ResetMaxEnchantingLevel v g) ;;
  leave_world u.
Lemma execs_part_ways_stays c u p g x socket :
  players c !! u = Some p -> GetGroup p = Some g -> GetOriginalGroup p = None -> groups c !! g = Some x ->
  negb (isRaidGroup x) && socket = false -> execs (part_ways u socket) c tt (t_offline g u c).
Proof.
  intros Hp Hpg Ho Hx Hstay. eapply (execs_bind _ _ _ tt c).
  { eapply execs_with_player; [exact Hp|]. rewrite Hpg. eapply execs_with_group; [exact Hx|]. intros y Hy.
    replace (isRaidGroup y) with (isRaidGroup x) by (by rewrite <- Hy). rewrite Hstay. apply execs_ret. }
  apply execs_skip; [auto 20 with framed|]. by eapply execs_leave_world_member.
Qed.

Lemma keeps_Logout c u socket : good c -> settled c -> keeps (LogoutPlayer v u None socket) c.
Proof.
  intros Hg Hset. destruct (players c !! u) as [p|] eqn:Hp.
  2: { eapply (keeps_runs _ _ tt c); [|done]. eapply execs_bind; [apply execs_ret|].
       eapply execs_bind; [by apply execs_nobody|]. eapply execs_bind; [by apply execs_nobody|].
       eapply execs_bind; [by apply execs_nobody|]. eapply execs_bind; [apply execs_upd_player|].
       rewrite (w_player_absent u) by done.
       eapply execs_bind; [by apply execs_nobody|]. eapply execs_bind; [by apply execs_nobody|].
       eapply execs_eq; [apply execs_delete_player | done|]. unfold on_players. rewrite delete_id by done. by destruct c. }
  destruct (execs_uninvite v c u p Hg Hset Hp) as (c1 & Hr1 & Hg1 & Hset1 & p1 & Hp1 & Hi1 & E1).
  apply keeps_skip; [auto with framed|]. eapply keeps_seq; [exact Hr1|]. clear E1.
  pose proof (pi_original _ _ _ (wo_player _ _ (proj1 Hg1) u p1 Hp1)) as Ho1.
  destruct (GetGroup p1) as [g|] eqn:Hpg.
  2: { eapply keeps_runs; [|by eapply good_go].
       eapply execs_bind; [by eapply execs_no_group|]. eapply execs_bind; [by eapply execs_no_group|].
       by eapply execs_leave_world_alone. }
  destruct (own_group c1 u p1 g Hg1 Hp1 Hpg) as (x & Hx & Hu & Hgi).
  destruct (negb (isRaidGroup x) && socket) eqn:Hleave.
  - destruct (execs_remove v c1 g u x GROUP_REMOVEMETHOD_DEFAULT 0 None Hg1 Hset1 Hx Hu) as (c2 & Hr2 & Hg2 & Hset2 & Hp2).
    destruct (Hp2 ltac:(done) p1 Hp1) as (p2 & Hq2 & Hi2 & Hn2). rewrite Hi1 in Hi2.
    pose proof (pi_original _ _ _ (wo_player _ _ (proj1 Hg2) u p2 Hq2)) as Ho2.
    eapply keeps_runs; [|by eapply good_go].
    eapply (execs_bind _ _ _ tt c2).
    { eapply execs_with_player; [exact Hp1|]. rewrite Hpg. eapply execs_with_group; [exact Hx|]. intros y Hy.
      replace (isRaidGroup y) with (isRaidGroup x) by (by rewrite <- Hy). by rewrite Hleave. }
    eapply execs_bind; [by eapply execs_no_group|]. by eapply execs_leave_world_alone.
  - eapply (keeps_runs _ _ tt (t_offline g u c1)); [by eapply execs_part_ways_stays|].
    split; [eapply world_offline; try done; apply Hg1|].
    eapply (sizes_same c1 g (drop_link u)); [apply Hg1 | done | done].
Qed.

(** [GetGroupByGUID] among groups that are there. *)
Lemma execs_find_group low l c :
  (forall h, h ∈ l -> is_Some (groups c !! h)) ->
  exists o, execs (find_group low l) c o c /\
    match o with
    | Some g => g ∈ l /\ exists x, groups c !! g = Some x /\ GetLowGUID x = low
    | None => forall g x, g ∈ l -> groups c !! g = Some x -> GetLowGUID x <> low
    end.
Proof.
  induction l as [|h l IH]; intros Hl; [exists None; split; [apply execs_ret | by intros g x ?%elem_of_nil]|].
  destruct (Hl h) as [x Hx]; [left|]. destruct (Z.eqb_spec (GetLowGUID x) low) as [E|E].
  - exists (Some h). split; [|split; [left | by exists x]].
    eapply execs_with_group; [exact Hx|]. intros y <-. change (GetLowGUID y) with (GetLowGUID (core_group y)).
    rewrite (proj2 (Z.eqb_eq _ _) E). apply execs_ret.
  - destruct IH as (o & Hr & Ho); [intros k Hk; apply Hl; by right|]. exists o. split.
    + eapply execs_with_group; [exact Hx|]. intros y <-. change (GetLowGUID y) with (GetLowGUID (core_group y)).
      rewrite (proj2 (Z.eqb_neq _ _) E). exact Hr.
    + destruct o as [g|]; [destruct Ho; split; [by right | done]|].
      intros g z [->|Hg]%elem_of_cons Hz; [congruence | by eapply Ho].
Qed.

(** A member comes back to the place his row and his slot have kept. *)
Lemma execs_Login_member c u name g x :
  good c -> players c !! u = None -> player_guid u -> groups c !! g = Some x -> u ∈ guids x ->
  execs (LoginPlayer v u name) c tt (t_return g u (GetMemberGroup x u) name c).
Proof.
  intros Hg Hp Hu Hx Hin. pose proof Hg as [Hw Hsz]. apply execs_with_state. intros s Hs.
  assert (Hps : players s !! u = None) by (by rewrite <- core_player, Hs). rewrite Hps.
  eapply execs_bind; [exact (execs_modify (store_player u name) c (fun _ => eq_refl))|].
  set (c1 := store_player u name c). apply execs_with_state. intros t Ht.
  assert (Et : group_member t = group_member c) by exact (f_equal group_member Ht). rewrite Et.
  pose proof (wo_group _ _ Hw g x Hx) as Hgi. rewrite lopart_player, (gi_row _ _ _ _ Hgi u Hin) by done.
  destruct (member_size c g x u Hg Hx Hin) as [Hne _].
  destruct (execs_find_group (GetLowGUID x) (elements (mGroupSet c)) c1) as (o & Hr & Ho).
  { intros h Hh%elem_of_elements. by apply (wo_set _ _ Hw). }
  assert (o = Some g) as ->.
  { destruct o as [h|].
    - destruct Ho as (Hh%elem_of_elements & y & Hy & Hyl). f_equal.
      eapply (wo_low _ _ Hw); [exact Hy | exact Hx | | exact Hne | congruence].
      by apply (gi_set _ _ _ _ (wo_group _ _ Hw h y Hy)).
    - exfalso. apply (Ho g x); [|done|done]. by apply elem_of_elements, (gi_set _ _ _ _ Hgi). }
  eapply execs_bind.
  { apply execs_with_state. intros t' Ht'.
    assert (Es : mGroupSet t' = mGroupSet c) by exact (f_equal mGroupSet Ht'). rewrite Es. exact Hr. }
  eapply execs_with_group; [exact Hx|]. intros y Hy.
  replace (GetMemberGroup y u) with (GetMemberGroup x u) by (by rewrite <- Hy).
  apply execs_then; [auto with framed|].
  apply (execs_SetGroup_join u c1 (newcomer name c)); [apply lookup_insert_eq | done|].
  destruct (getMemberSlot_some u _ Hin) as [m Hm]. rewrite (getMemberGroup_slot _ _ _ Hm).
  pose proof (getMemberSlot_elem _ _ _ Hm) as [Hmin _].
  pose proof (ro_sub x (gi_roster _ _ _ _ Hgi)) as Hsub. rewrite Forall_forall in Hsub. specialize (Hsub m Hmin). lia.
Qed.

Lemma keeps_Login c u name : good c -> player_guid u -> keeps (LoginPlayer v u name) c.
Proof.
  intros Hg Hu. pose proof Hg as [Hw Hsz]. destruct (players c !! u) as [p|] eqn:Hp.
  { apply keeps_read. intros s <-. rewrite core_player in Hp. rewrite Hp. stays. }
  destruct (group_member c !! u) as [l|] eqn:Hrow.
  - destruct (wo_row _ _ Hw u l Hrow) as (g & x & Hx & Hin & Hlow).
    eapply keeps_runs; [by eapply execs_Login_member|]. split; [by apply world_return|].
    eapply (sizes_same (w_player u _ (store_player u name c)) g (add_link u)); [exact Hsz | exact Hx | done].
  - apply keeps_read. intros s Hs. assert (Hps : players s !! u = None) by (by rewrite <- core_player, Hs).
    rewrite Hps. eapply keeps_seq; [exact (execs_modify (store_player u name) c (fun _ => eq_refl))|].
    apply keeps_read. intros t Ht.
    assert (Et : group_member t = group_member c) by exact (f_equal group_member Ht).
    rewrite Et, lopart_player, Hrow by done.
    eapply keeps_runs; [apply execs_ret|]. split; [by apply world_come | exact Hsz].
Qed.

(** A player leaves for another map, or arrives. *)
Lemma keeps_Travel c u b : good c -> keeps (upd_player u (set_inWorld b)) c.
Proof.
  intros [Hw Hs]. eapply keeps_runs; [apply execs_upd_player|]. split; [|exact Hs].
  eapply (world_frame ∅ c); try done.
  - intros h. by apply agree_w_player.
  - intros w q Hq. apply (player_inv_frame c); [|done]. destruct (decide (u = w)) as [<-|Hne].
    + rewrite w_players_same in Hq. destruct (players c !! u) as [p|] eqn:Hp; [|done]. injection Hq as <-.
      destruct (wo_player _ _ Hw u p Hp). by split.
    + rewrite w_players_other in Hq by done. by apply (wo_player _ _ Hw).
Qed.

End others.
(** ** The steps of the server *)

(** The opcodes that look for the players of a group: a member on his way to
    another map would be taken for one who is offline. *)
Definition looks_for_members (op : party_opcode) : bool :=
  match op with
  | CMSG_GROUP_ACCEPT | CMSG_GROUP_DECLINE | CMSG_GROUP_UNINVITE_GUID | CMSG_GROUP_UNINVITE
  | CMSG_GROUP_DISBAND | CMSG_GROUP_CHANGE_SUB_GROUP => true
  | _ => false
  end.

(** What the invariant needs of a step. *)
Definition allowed `{!Utf8Lib} (s : World) (st : party_step) : Prop :=
  match st with
  | Packet u op data =>
      packet_ok data /\ (looks_for_members op = true -> settled s) /\
      (op = CMSG_GROUP_INVITE -> ~ self_invite s u data) /\
      (op = CMSG_GROUP_ACCEPT -> m_hiGroupGuid s < 2 ^ 32 - 1)
  | Login u _ => player_guid u
  | Logout _ bg _ => bg = None /\ settled s
  | EnterBg _ _ | LeaveBg _ _ => False
  | Travel _ _ | LootOpened _ _ | JoinLfg _ => True
  end.

(** The same as a test, for runs that are given. *)
Definition settled_b (s : World) : bool := forallb (fun '(_, p) => p_inWorld p) (map_to_list (players s)).
Definition packet_ok_b (b : ByteBuffer) : bool :=
  (0 <=? _rpos b) && (_rpos b <=? bb_size b) && (bb_size b <? 2 ^ 62) &&
  forallb (fun c => (0 <=? c) && (c <? 256)) (_storage b).
Definition self_invite_b `{!Utf8Lib} (s : World) (u : Z) (recv_data : ByteBuffer) : bool :=
  match (parse_invite recv_data).1 with
  | Ok name => match normalizePlayerName name with
               | Conv membername => bool_decide (GetPlayerByName s (c_str membername) = Some u)
               | _ => false
               end
  | Err _ => false
  end.
Definition allowed_b `{!Utf8Lib} (s : World) (st : party_step) : bool :=
  match st with
  | Packet u op data =>
      packet_ok_b data && (negb (looks_for_members op) || settled_b s) &&
      match op with
      | CMSG_GROUP_INVITE => negb (self_invite_b s u data)
      | CMSG_GROUP_ACCEPT => m_hiGroupGuid s <? 2 ^ 32 - 1
      | _ => true
      end
  | Login u _ => (0 <? u) && (u <? 2 ^ 32)
  | Logout _ bg _ => match bg with None => settled_b s | Some _ => false end
  | EnterBg _ _ | LeaveBg _ _ => false
  | Travel _ _ | LootOpened _ _ | JoinLfg _ => true
  end.

Lemma settled_b_true s : settled_b s = true -> settled s.
Proof.
  unfold settled_b. rewrite forallb_forall. intros Hs u p Hp. apply elem_of_map_to_list in Hp.
  apply list_elem_of_In in Hp. by apply (Hs (u, p)).
Qed.
Lemma packet_ok_b_true b : packet_ok_b b = true -> packet_ok b.
Proof.
  unfold packet_ok_b. rewrite !andb_true_iff, !Z.leb_le, Z.ltb_lt, forallb_forall. intros [[[? ?] ?] Hb].
  split; [done|]. apply Forall_forall. intros c Hc%list_elem_of_In%Hb.
  apply andb_true_iff in Hc as [?%Z.leb_le ?%Z.ltb_lt]. done.
Qed.
Lemma allowed_b_true `{!Utf8Lib} s st : allowed_b s st = true -> allowed s st.
Proof.
  destruct st as [u op data|u name|u bg socket|u b|u k|u k|u ifneed|u]; cbn [allowed_b allowed]; try done.
  - rewrite !andb_true_iff. intros [[Hd Hset] Hop]. split; [by apply packet_ok_b_true|]. split; [|split].
    + intros Hl. rewrite Hl in Hset. by apply settled_b_true.
    + intros -> (name & membername & Hn & Hm & Hp). unfold self_invite_b in Hop.
      by rewrite Hn, Hm, bool_decide_eq_true_2 in Hop.
    + intros ->. by apply Z.ltb_lt.
  - rewrite andb_true_iff, !Z.ltb_lt. done.
  - destruct bg; [done|]. intros Hs. split; [done | by apply settled_b_true].
Qed.

Section server.
Context `{!Utf8Lib} (v : GroupView).

Lemma keeps_handle c u op data :
  good c -> packet_ok data -> (looks_for_members op = true -> settled c) ->
  (op = CMSG_GROUP_INVITE -> ~ self_invite c u data) -> (op = CMSG_GROUP_ACCEPT -> m_hiGroupGuid c < 2 ^ 32 - 1) ->
  keeps (handle v op u data) c.
Proof.
  intros Hg Hd Hset Hself Hhi. destruct op; cbn [handle looks_for_members] in *.
  - apply keeps_Invite; auto.
  - apply keeps_Accept; auto.
  - apply keeps_Decline; auto.
  - apply keeps_UninviteGuid; auto.
  - apply keeps_Uninvite; auto.
  - by apply keeps_SetLeader.
  - apply keeps_Disband; auto.
  - apply keeps_framed; [done | apply framed_LootMethod].
  - apply keeps_framed; [done | apply framed_LootRoll].
  - apply keeps_framed; [done | apply framed_MinimapPing].
  - apply keeps_framed; [done | apply framed_RandomRoll].
  - apply keeps_framed; [done | apply framed_RaidTarget].
  - by apply keeps_RaidConvert.
  - apply keeps_ChangeSubGroup; auto.
  - by apply keeps_AssistantLeader.
  - by apply keeps_PartyAssignment.
  - apply keeps_framed; [done | apply framed_ReadyCheck].
  - by apply keeps_SetRoles.
  - apply keeps_framed; [done | apply framed_OptOut].
Qed.

Lemma allowed_core s st : allowed s st -> allowed (core s) st.
Proof. destruct st; exact (fun H => H). Qed.

Lemma keeps_step c st : good c -> allowed c st -> keeps (run_party_step v st) c.
Proof.
  intros Hg Ha. destruct st as [u op data|u name|u bg socket|u b|u k|u k|u ifneed|u]; cbn [run_party_step allowed] in *.
  - destruct Ha as (Hd & Hset & Hself & Hhi). apply keeps_if_in_world; [done|]. intros _ _ _. by apply keeps_handle.
  - by apply keeps_Login.
  - destruct Ha as [-> Hset]. by apply keeps_Logout.
  - by apply keeps_Travel.
  - done.
  - done.
  - apply keeps_framed; [done | apply framed_LootOpened].
  - by apply keeps_JoinLfg.
Qed.

(** The states of a server whose steps are allowed. *)
Inductive reached : World -> Prop :=
| reached_start : reached empty_world
| reached_step s st : reached s -> allowed s st -> reached (run_state (run_party_step v st) s).

Fixpoint allowed_run (l : list party_step) (s : World) : bool :=
  match l with
  | [] => true
  | st :: l' => allowed_b s st && allowed_run l' (run_state (run_party_step v st) s)
  end.
Lemma reached_run l s : reached s -> allowed_run l s = true -> reached (run_steps v l s).
Proof.
  revert s. induction l as [|st l IH]; intros s Hs; [done|]. cbn [allowed_run]. intros [Ha Hl]%andb_true_iff.
  apply (IH (run_state (run_party_step v st) s)); [|exact Hl]. apply reached_step; [done | by apply allowed_b_true].
Qed.

Lemma good_empty : good (core empty_world).
Proof.
  split; [by split | by intros g x Hx].
Qed.
Lemma reached_good s : reached s -> good (core s).
Proof.
  induction 1 as [|s st Hs IH Ha]; [exact good_empty|].
  exact (keeps_step (core s) st IH (allowed_core s st Ha) s eq_refl).
Qed.

(** *** From the core back to the state *)

Lemma roster_core x : roster_ok (core_group x) -> roster_ok x.
Proof. intros []. by split. Qed.
Lemma player_inv_core s u p : player_inv (core s) u p -> player_inv s u p.
Proof.
  intros [P1 P2 P3 P4].
  assert (Hd : forall g, is_Some (groups (core s) !! g) -> is_Some (groups s !! g)).
  { intros g [y Hy]. apply core_lookup in Hy as (x & Hx & _). by exists x. }
  split; [done | done | |].
  - intros g Hi. destruct (P3 g Hi). auto.
  - intros g Hi. auto.
Qed.
Lemma group_inv_core E s g x : group_inv E (core s) g (core_group x) -> group_inv E s g x.
Proof. intros [Hr Hi Hl Hpl Hm Hrow Hg Hp Hlow Hset Hf]. split; try done. by apply roster_core. Qed.

Lemma good_core s : good (core s) -> good s.
Proof.
  intros [[Hg Hp Hr Hs Hl Hh] Hz].
  assert (Hc : forall g x, groups s !! g = Some x -> groups (core s) !! g = Some (core_group x)).
  { intros g x Hx. apply core_lookup. by exists x. }
  split; [split|].
  - intros g x Hx. apply group_inv_core, Hg. auto.
  - intros u p Hu. apply player_inv_core, Hp. exact Hu.
  - intros u l Hu. destruct (Hr u l Hu) as (g & y & Hy & Hin & Hlow). apply core_lookup in Hy as (x & Hx & <-).
    by exists g, x.
  - intros g Hin. destruct (Hs g Hin) as [y Hy]. apply core_lookup in Hy as (x & Hx & _). by exists x.
  - intros g h x y Hx Hy. exact (Hl g h _ _ (Hc g x Hx) (Hc h y Hy)).
  - exact Hh.
  - intros g x Hx. exact (Hz g _ (Hc g x Hx)).
Qed.

(** C3: In every state the server reaches by steps that are allowed, the rosters
    are in order: no player is twice in a group or in two groups, the counters of
    a raid are the sizes of its subgroups, a subgroup or a party has at most five
    members and a raid forty, a created group has two members at least and is led
    by one of them, at most one member is main tank and one main assistant; the
    links of the players and of the groups agree both ways with the slots, the
    invitations likewise, the rows of the database are those of the members, and
    no player points to a group that is gone. *)
Theorem party_rosters s : reached s -> world_ok ∅ s /\ sizes_ok s.
Proof. intros Hs. apply good_core. by apply reached_good. Qed.

End server.

Definition sample_raid : World :=
  run_steps sample_view (raid_of_three ++ [Logout 2 None true; Login 2 (text "Jaina")]) empty_world.
Lemma sample_raid_reached : reached sample_view sample_raid.
Proof. apply reached_run; [apply reached_start | by vm_compute]. Qed.
Lemma party_rosters_witness :
  (world_ok ∅ sample_raid /\ sizes_ok sample_raid) /\ guids <$> groups sample_raid !! 1 = Some [1; 2; 3].
Proof. split; [exact (party_rosters sample_view sample_raid sample_raid_reached) | by vm_compute]. Defined.
