(* ===== verification/PartySpec.v ===== *)
(** * What parties promise

    The theorems on parties and raids a player would state: who is in a group
    after a guest accepts, after a member leaves, after a logout and a login;
    whose turn it is to loot; and the steps that break the rosters. *)
From S2P Require Import Prelude Text ByteBuffer Rolls Group Party PartySample PartyRuns PartyRoster PartySteps.

(** ** From a run on the core to the state *)

Lemma group_of_core s g y : groups (core s) !! g = Some y -> exists x, groups s !! g = Some x /\ core_group x = y.
Proof. apply core_lookup. Qed.
Lemma core_of_group s g x : groups s !! g = Some x -> groups (core s) !! g = Some (core_group x).
Proof. intros Hx. apply core_lookup. by exists x. Qed.
Lemma core_row s u : group_member (core s) !! u = group_member s !! u.
Proof. reflexivity. Qed.
Lemma guids_filter u (slots : list MemberSlot) :
  ms_guid <$> filter (fun m => ms_guid m <> u) slots = filter (fun w => w <> u) (ms_guid <$> slots).
Proof.
  induction slots as [|m slots IH]; [done|]. cbn [fmap list_fmap]. rewrite !filter_cons.
  case_decide; cbn [fmap list_fmap]; by rewrite <- IH.
Qed.
(** Who leads when a member was taken out. *)
Lemma take_out_leader u sub x :
  (0 < length (erase_slot u (m_memberSlots x)))%nat ->
  m_leaderGuid (take_out u sub x) = if m_leaderGuid x =? u then hd 0 (guids (take_out u sub x)) else m_leaderGuid x.
Proof.
  intros Hl. unfold take_out, led_by_first, led_by. destruct (m_leaderGuid x =? u); [|done].
  change (m_memberSlots (drop_member u (count_in (-1) sub x))) with (erase_slot u (m_memberSlots x)).
  destruct (erase_slot u (m_memberSlots x)) as [|first rest] eqn:E; [cbn in Hl; lia|].
  unfold guids. cbn [m_memberSlots set_memberSlots m_leaderGuid set_leader]. cbn [update_slot].
  by rewrite Z.eqb_refl.
Qed.
Lemma run_core {A} (m : GM A) s a c' : execs m (core s) a c' -> core (run_state m s) = c'.
Proof. intros Hm. by apply Hm. Qed.

Section founding.
Context `{!Utf8Lib} (v : GroupView).

(** What the state is like when a guest is about to accept the first invitation
    of a group. *)
Record first_guest (s : World) (u g : Z) (x : Group) (p pl : Player) : Prop := mkFirstGuest {
  fg_reached : reached v s;
  fg_settled : settled s;
  fg_room : m_hiGroupGuid s < 2 ^ 32 - 1;
  fg_player : players s !! u = Some p;
  fg_invited : p_groupInvite p = Some g;
  fg_group : groups s !! g = Some x;
  fg_pending : m_memberSlots x = [];
  fg_guest : m_leaderGuid x <> u;
  fg_leader : players s !! m_leaderGuid x = Some pl
}.

Lemma execs_first_guest s u g x p pl data n :
  first_guest s u g x p pl -> (shr_uint 4 data).1 = Ok n ->
  let L := m_leaderGuid x in
  let c1 := t_uninvite g u (p_serial p) (core s) in
  let x0 := founded L (m_leaderName x) (m_hiGroupGuid s)
              (drop_invite L (p_serial pl) (drop_invite u (p_serial p) (core_group x))) in
  execs (HandleGroupAcceptOpcode v u data) (core s) tt
    (t_add (GetLowGUID x0) g u (p_name p) 0 (t_found g L (p_serial pl) (m_leaderName x) c1)).
Proof.
  intros [Hr Hset Hhi Hp Hi Hx Hs Hne Hpl] Hn L c1 x0. destruct (reached_good v s Hr) as [Hw _].
  pose proof (core_of_group _ _ _ Hx) as Hcx. pose proof (wo_group _ _ Hw g _ Hcx) as Hgi.
  destruct (pi_invite _ _ _ (wo_player _ _ Hw u p Hp) g Hi) as [_ Hpg].
  destruct (gi_pending _ _ _ _ Hgi) as (Hcs & pl' & Hpl' & Hpli); [set_solver | done|].
  assert (pl' = pl) as -> by (cbn in Hpl'; congruence).
  assert (H1 : groups c1 !! g = Some (drop_invite u (p_serial p) (core_group x))).
  { unfold c1, t_uninvite. rewrite w_groups_same. cbn [groups w_player on_players]. by rewrite Hcx. }
  unfold HandleGroupAcceptOpcode, with_recv. rewrite Hn. eapply execs_with_player; [exact Hp|]. rewrite Hi.
  eapply execs_with_group; [exact Hcx|]. intros y Hy.
  assert (Hys : m_memberSlots y = []) by (rewrite <- Hs; exact (f_equal m_memberSlots Hy)).
  assert (Hyl : m_leaderGuid y = L) by exact (f_equal m_leaderGuid Hy).
  assert (Hyn : m_leaderName y = m_leaderName x) by exact (f_equal m_leaderName Hy).
  unfold IsLeader. rewrite Hyl, (proj2 (Z.eqb_neq L u) Hne).
  eapply execs_bind; [apply execs_RemoveInvite; exact Hp|]. fold c1.
  replace (IsFull y) with false by (unfold IsFull, GetMembersCount; rewrite Hys; by case_match).
  unfold IsCreated, GetMembersCount. rewrite Hys, Hyn. cbn [length Z.of_nat Z.ltb Z.compare].
  eapply (execs_accept_first v c1 g u L (m_leaderName x) _ (set_groupInvite None p) pl); try done.
  - intros h z. unfold c1, t_uninvite. destruct (decide (g = h)) as [<-|Hgh].
    + rewrite w_groups_same. cbn [groups w_player on_players]. rewrite Hcx. by intros [= <-].
    + rewrite w_groups_other by done. apply is_core_core.
  - eapply (world_uninvite ∅); try done; set_solver.
  - intros w q. unfold c1, t_uninvite. rewrite players_after. case_decide; [|apply (Hset w)].
    destruct (players (core s) !! w) as [q'|] eqn:Hq; [|done]. intros [= <-]. exact (Hset w q' Hq).
  - unfold c1, t_uninvite. by rewrite players_after, decide_True, core_player, Hp.
  - unfold c1, t_uninvite. by rewrite players_after, decide_False.
Qed.

Lemma players_t_add low g u name sub c w :
  players (t_add low g u name sub c) !! w = if decide (u = w) then entered g sub <$> players c !! w else players c !! w.
Proof.
  unfold t_add. cbn [players on_group_member w_group on_groups]. case_decide as E;
    [subst; by rewrite w_players_same | by rewrite w_players_other].
Qed.
Lemma players_t_found g L k name c w :
  players (t_found g L k name c) !! w =
  if decide (L = w) then (entered g 0 ∘ set_groupInvite None) <$> players c !! w else players c !! w.
Proof.
  unfold t_found, t_create, t_uninvite. cbn [players on_group_set on_group_member w_group on_groups took_low_guid].
  case_decide as E.
  - subst. rewrite w_players_same. cbn [players took_low_guid w_group on_groups]. rewrite w_players_same. by destruct (players c !! w).
  - rewrite w_players_other by done. cbn [players took_low_guid w_group on_groups]. by rewrite w_players_other.
Qed.

(** C24: The first guest who accepts founds the group: it gets the next low GUID and
    has two members, the leader and the guest, both in subgroup 0, linked to it,
    invited nowhere and stored under its low GUID; it is among the groups of the
    server and holds its other invitations. *)
Theorem first_guest_founds s u g x p pl data n :
  first_guest s u g x p pl -> (shr_uint 4 data).1 = Ok n ->
  let s' := run_state (HandleGroupAcceptOpcode v u data) s in
  exists y, groups s' !! g = Some y /\
    m_memberSlots y = [mkSlot (m_leaderGuid x) (m_leaderName x) 0 0 0; mkSlot u (p_name p) 0 0 0] /\
    m_leaderGuid y = m_leaderGuid x /\ GetLowGUID y = m_hiGroupGuid s /\ m_hiGroupGuid s' = m_hiGroupGuid s + 1 /\
    m_invitees y = m_invitees x ∖ {[ (u, p_serial p) ]} ∖ {[ (m_leaderGuid x, p_serial pl) ]} /\
    g ∈ mGroupSet s' /\
    (forall w, w = u \/ w = m_leaderGuid x ->
       group_member s' !! w = Some (m_hiGroupGuid s) /\
       exists q, players s' !! w = Some q /\ GetGroup q = Some g /\ GetSubGroup q = 0 /\ p_groupInvite q = None) /\
    (forall w, w <> u -> w <> m_leaderGuid x -> players s' !! w = players s !! w).
Proof.
  intros Hf Hn s'. pose proof Hf as [Hr Hset Hhi Hp Hi Hx Hs Hne Hpl].
  pose proof (run_core _ _ _ _ (execs_first_guest s u g x p pl data n Hf Hn)) as Hs'. fold s' in Hs'.
  pose proof (wo_hi _ _ (proj1 (reached_good v s Hr))) as Hhi0. cbn in Hhi0.
  assert (Hgood : good (core s')).
  { refine (keeps_Accept v (core s) u data (reached_good v s Hr) Hset Hhi s eq_refl). }
  set (c' := t_add _ _ _ _ _ _) in Hs'. rewrite Hs' in Hgood.
  assert (Hps : forall w, players s' !! w = players c' !! w) by (intros w; by rewrite <- core_player, Hs').
  set (x0 := founded (m_leaderGuid x) (m_leaderName x) (m_hiGroupGuid s) (drop_invite (m_leaderGuid x) (p_serial pl)
                 (drop_invite u (p_serial p) (core_group x)))) in *.
  assert (Hy : groups c' !! g = Some (add_member u (p_name p) 0 x0)).
  { unfold c', t_add. cbn [groups on_group_member]. rewrite w_groups_same. cbn [groups w_player on_players].
    unfold t_found, t_create, t_uninvite. cbn [groups on_group_set on_group_member]. rewrite w_groups_same.
    cbn [groups w_player on_players took_low_guid]. rewrite w_groups_same. cbn [groups w_player on_players].
    rewrite w_groups_same. cbn [groups w_player on_players]. by rewrite (core_of_group _ _ _ Hx). }
  assert (Hlow : GetLowGUID x0 = m_hiGroupGuid s) by (apply low_of_make; lia).
  pose proof (wo_group _ _ (proj1 Hgood) g _ Hy) as Hgi.
  rewrite <- Hs' in Hy. apply group_of_core in Hy as (y & Hy & Ey).
  assert (Hslots : m_memberSlots y = [mkSlot (m_leaderGuid x) (m_leaderName x) 0 0 0; mkSlot u (p_name p) 0 0 0]).
  { change (m_memberSlots (core_group y) = [mkSlot (m_leaderGuid x) (m_leaderName x) 0 0 0; mkSlot u (p_name p) 0 0 0]).
    rewrite Ey, add_member_slots. unfold x0, founded. rewrite add_member_slots. cbn. by rewrite Hs. }
  exists y. split_and!; try done.
  - exact (f_equal m_leaderGuid Ey).
  - rewrite <- Hlow. exact (f_equal GetLowGUID Ey).
  - change (m_hiGroupGuid (core s') = m_hiGroupGuid s + 1). rewrite Hs'. apply uwrap_id. unfold in_u. lia.
  - exact (f_equal m_invitees Ey).
  - change (g ∈ mGroupSet (core s')). rewrite Hs'. cbn. set_solver.
  - intros w Hw.
    assert (Hin : w ∈ guids (add_member u (p_name p) 0 x0)).
    { rewrite <- Ey. unfold guids. cbn [core_group m_memberSlots]. rewrite Hslots. cbn. set_solver. }
    split.
    + change (group_member (core s') !! w = Some (m_hiGroupGuid s)). rewrite Hs', (gi_row _ _ _ _ Hgi w Hin). f_equal. exact Hlow.
    + rewrite Hps. unfold c'. rewrite players_t_add, players_t_found. unfold t_uninvite.
      rewrite !players_after, core_player. destruct Hw as [-> | ->].
      * rewrite decide_True, decide_False, decide_True, Hp by done. by eexists.
      * rewrite !(decide_False (P := u = _)), decide_True, Hpl by auto. by eexists.
  - intros w Hwu Hwl. rewrite Hps. unfold c'. rewrite players_t_add, players_t_found. unfold t_uninvite.
    rewrite players_after, core_player, !decide_False by done. done.
Qed.

End founding.
(** ** Leaving and coming back *)

Section leaving_and_back.
Context `{!Utf8Lib} (v : GroupView).

(** A player in a group. *)
Record member_of (s : World) (u g : Z) (x : Group) (p : Player) : Prop := mkMemberOf {
  mo_reached : reached v s;
  mo_settled : settled s;
  mo_player : players s !! u = Some p;
  mo_in : GetGroup p = Some g;
  mo_group : groups s !! g = Some x
}.

Lemma member_core s u g x p :
  member_of s u g x p ->
  good (core s) /\ groups (core s) !! g = Some (core_group x) /\ group_inv ∅ (core s) g (core_group x) /\ u ∈ guids x /\
  p_groupInvite p = None /\ GetOriginalGroup p = None.
Proof.
  intros [Hr Hset Hp Hpg Hx]. pose proof (reached_good v s Hr) as Hg. pose proof (core_of_group _ _ _ Hx) as Hcx.
  pose proof (wo_group _ _ (proj1 Hg) g _ Hcx) as Hgi. pose proof (wo_player _ _ (proj1 Hg) u p Hp) as [_ P2 P3 _].
  split_and!; try done.
  - by apply (gi_link _ _ _ _ Hgi u p Hp).
  - destruct (p_groupInvite p) as [h|] eqn:E; [|done]. destruct (P3 h eq_refl). congruence.
Qed.

(** What is left after the two ways to leave. *)
Lemma after_release s s' g x :
  groups (core s) !! g = Some x -> group_inv ∅ (core s) g x ->
  core s' = t_release g (on_group_member (drop_rows (GetLowGUID x)) (core s)) ->
  groups s' !! g = None /\ (g ∉ mGroupSet s') /\ (forall w, w ∈ guids x -> group_member s' !! w = None) /\
  (forall w q, players s' !! w = Some q -> GetGroup q <> Some g /\ p_groupInvite q <> Some g).
Proof.
  intros Hx Hgi Hs'.
  assert (Hps : forall w, players s' !! w = released g <$> players s !! w).
  { intros w. rewrite <- core_player, Hs', players_release. done. }
  split_and!.
  - apply core_lookup_none. rewrite Hs'. apply lookup_delete_eq.
  - change (g ∉ mGroupSet (core s')). rewrite Hs'. cbn. set_solver.
  - intros w Hw. change (group_member (core s') !! w = None). rewrite Hs'. apply map_lookup_filter_None. right.
    intros l Hl Hne. pose proof (gi_row _ _ _ _ Hgi w Hw) as El. rewrite core_row in El, Hl. congruence.
  - intros w q. rewrite Hps. destruct (players s !! w) as [q'|]; [|done]. intros [= <-]. split.
    + intros [_ ?]%released_group. done.
    + intros [_ ?]%released_invite. done.
Qed.
Lemma after_remove s s' g u sub x p :
  groups (core s) !! g = Some x -> group_inv ∅ (core s) g x -> players s !! u = Some p -> u ∈ guids x ->
  (3 <= length (m_memberSlots x))%nat -> core s' = t_remove g u sub (core s) ->
  exists y, groups s' !! g = Some y /\ guids y = filter (fun w => w <> u) (guids x) /\
    m_leaderGuid y = (if m_leaderGuid x =? u then hd 0 (guids y) else m_leaderGuid x).
Proof.
  intros Hx Hgi Hp Hu Hlen Hs'. pose proof (ro_nodup _ (gi_roster _ _ _ _ Hgi)) as Hnd.
  pose proof (t_remove_groups g u sub (core s) _ Hx) as Hgr. rewrite <- Hs' in Hgr.
  assert (Hcut : cut_link (core s) u x = drop_link u x) by (unfold cut_link; by rewrite core_player, Hp).
  rewrite Hcut in Hgr.
  destruct (group_of_core s' g (take_out u sub (drop_link u x))) as (y & Hy & Ey); [by rewrite Hgr, lookup_insert_eq|].
  exists y. split; [done|]. change (guids y) with (guids (core_group y)).
  change (m_leaderGuid y) with (m_leaderGuid (core_group y)). rewrite Ey. split.
  - destruct (take_out_places u sub (drop_link u x) Hnd) as (slots & Hpl & ->).
    unfold guids. rewrite (same_places_guids _ _ Hpl). cbn [drop_link m_memberSlots set_memberMgr]. apply guids_filter.
  - apply (take_out_leader u sub (drop_link u x)). cbn. rewrite (length_erase_slot u) in Hlen by done. lia.
Qed.

(** C25: A player who leaves a group of three or more is out of it: his slot is gone
    and the others keep their order, his row is deleted, and if he led the group
    the first of the others leads it now.  A group of two is dissolved: it is
    deleted, nobody is in it or invited to it, and no row is left of it. *)
Theorem leave_party s u g x p data :
  member_of s u g x p -> InBattleground v u = false ->
  let s' := run_state (HandleGroupDisbandOpcode v u data) s in
  group_member s' !! u = None /\ (exists q, players s' !! u = Some q /\ GetGroup q = None) /\
  if decide (length (m_memberSlots x) <= 2)%nat then
    groups s' !! g = None /\ (g ∉ mGroupSet s') /\ (forall w, w ∈ guids x -> group_member s' !! w = None) /\
    (forall w q, players s' !! w = Some q -> GetGroup q <> Some g /\ p_groupInvite q <> Some g)
  else exists y, groups s' !! g = Some y /\ guids y = filter (fun w => w <> u) (guids x) /\
    m_leaderGuid y = (if m_leaderGuid x =? u then hd 0 (guids y) else m_leaderGuid x).
Proof.
  intros Hm Hbg s'. destruct (member_core s u g x p Hm) as (Hg & Hcx & Hgi & Hu & _ & _).
  destruct Hm as [Hr Hset Hp Hpg Hx]. pose proof (gi_roster _ _ _ _ Hgi) as Hro.
  pose proof (gi_guid _ _ _ _ Hgi u Hu) as Hgu.
  assert (Hrun : forall c', execs (RemoveFromGroup v (Some g) u GROUP_REMOVEMETHOD_LEAVE 0 None) (core s) tt c' -> core s' = c').
  { intros c' Hc. apply (run_core _ _ tt). eapply execs_with_player; [exact Hp|]. rewrite Hpg, Hbg.
    apply execs_skip; [unfold SendPartyResult; auto with framed | exact Hc]. }
  assert (Hlfg : isLFGGroup (core_group x) && bool_decide (GROUP_REMOVEMETHOD_LEAVE = GROUP_REMOVEMETHOD_KICK) = false)
    by apply andb_false_r.
  destruct (decide (length (m_memberSlots x) <= 2)%nat) as [Hlen|Hlen].
  - assert (Hs' : core s' = t_release g (on_group_member (drop_rows (GetLowGUID (core_group x))) (core s))).
    { apply Hrun. eapply execs_RemoveFromGroup_last; [exact Hcx | apply (ro_bg _ Hro) | apply Hro
        | eapply world_knows; [apply Hg | done | done] | exact Hlfg | exact Hlen]. }
    destruct (after_release s s' g _ Hcx Hgi Hs') as (R1 & R2 & R3 & R4). split_and!; try done; [by apply R3|].
    exists (released g p). rewrite <- core_player, Hs', players_release. cbn [players on_group_member].
    rewrite core_player, Hp. split; [done|]. unfold released. by rewrite bool_decide_eq_true_2.
  - destruct (reads_sub_ok _ u Hro Hu) as (sub & Hsub & _ & Hcnt).
    assert (Hs' : core s' = t_remove g u sub (core s)).
    { apply Hrun. eapply execs_RemoveFromGroup_more; try done; [apply (ro_bg _ Hro) | eapply world_linked; [apply Hg | done..] | cbn; lia]. }
    split_and!.
    + change (group_member (core s') !! u = None). rewrite Hs'. cbn. rewrite lopart_player by done. apply lookup_delete_eq.
    + exists (unjoined p). split; [|done]. rewrite <- core_player, Hs', t_remove_players, decide_True by done.
      by rewrite core_player, Hp.
    + eapply (after_remove s s' g u sub (core_group x)); try done. cbn. lia.
Qed.

(** C30: A raid keeps the place of a member who logs out: when he comes back he is in
    the same subgroup of the same raid, whose slots, leader and counters have not
    changed, and nobody else has noticed. *)
Theorem raid_relogin s u g x p socket name :
  member_of s u g x p -> isRaidGroup x = true ->
  let s1 := run_state (LogoutPlayer v u None socket) s in
  let s2 := run_state (LoginPlayer v u name) s1 in
  players s1 !! u = None /\
  (exists q, players s2 !! u = Some q /\ GetGroup q = Some g /\ GetSubGroup q = GetSubGroup p /\ p_name q = name) /\
  (exists y, groups s2 !! g = Some y /\ m_memberSlots y = m_memberSlots x /\ m_leaderGuid y = m_leaderGuid x /\
     m_subGroupsCounts y = m_subGroupsCounts x /\ m_invitees y = m_invitees x) /\
  group_member s2 = group_member s /\ (forall w, w <> u -> players s2 !! w = players s !! w).
Proof.
  intros Hm Hraid s1 s2. destruct (member_core s u g x p Hm) as (Hg & Hcx & Hgi & Hu & Hi & Ho).
  destruct Hm as [Hr Hset Hp Hpg Hx].
  assert (H1 : core s1 = t_offline g u (core s)).
  { apply (run_core _ _ tt). apply execs_skip; [auto with framed|].
    eapply execs_bind; [by eapply execs_Uninvite_none|]. apply (execs_part_ways_stays v _ u p g (core_group x)); try done.
    change (isRaidGroup (core_group x)) with (isRaidGroup x). by rewrite Hraid. }
  assert (Hg1 : good (core s1)).
  { split; rewrite H1; [by eapply world_offline; [apply Hg|..] |].
    eapply (sizes_same (core s) g (drop_link u)); [apply Hg | done | done]. }
  assert (Hx1 : groups (core s1) !! g = Some (drop_link u (core_group x))).
  { rewrite H1. unfold t_offline. cbn [groups on_players]. by rewrite w_groups_same, Hcx. }
  assert (Hp1 : players (core s1) !! u = None) by (rewrite H1; apply lookup_delete_eq).
  assert (H2 : core s2 = t_return g u (GetMemberGroup x u) name (core s1)).
  { apply (run_core _ _ tt). apply (execs_Login_member v (core s1) u name g (drop_link u (core_group x)) Hg1 Hp1);
      [by apply (gi_guid _ _ _ _ Hgi) | exact Hx1 | done]. }
  assert (Hps : forall w, players s2 !! w =
            if decide (u = w) then Some (joined g (GetMemberGroup x u) (newcomer name (core s1))) else players s !! w).
  { intros w. rewrite <- core_player, H2. unfold t_return. cbn [players w_group on_groups w_player on_players store_player].
    case_decide as Ew; [subst w; by rewrite lookup_alter_eq, lookup_insert_eq|].
    rewrite lookup_alter_ne, lookup_insert_ne, H1 by done. by apply lookup_delete_ne. }
  split_and!.
  - exact Hp1.
  - eexists. rewrite Hps, decide_True by done. split_and!; try done. cbn.
    destruct (getMemberSlot_some u _ Hu) as [m Hm]. rewrite (getMemberGroup_slot _ _ _ Hm).
    pose proof (getMemberSlot_elem _ _ _ Hm) as [Hin <-]. symmetry. by apply (gi_place _ _ _ _ Hgi m p Hin).
  - assert (Hy : groups (core s2) !! g = Some (add_link u (drop_link u (core_group x)))).
    { rewrite H2. unfold t_return. rewrite w_groups_same. cbn [groups w_player on_players store_player]. by rewrite Hx1. }
    apply group_of_core in Hy as (y & Hy & Ey). exists y. split; [done|].
    split; [exact (f_equal m_memberSlots Ey)|]. split; [exact (f_equal m_leaderGuid Ey)|].
    split; [exact (f_equal m_subGroupsCounts Ey) | exact (f_equal m_invitees Ey)].
  - change (group_member (core s2) = group_member s). rewrite H2. change (group_member (core s1) = group_member s). by rewrite H1.
  - intros w Hw. rewrite Hps. by rewrite decide_False by auto.
Qed.

End leaving_and_back.
(** ** The round robin of the looter *)

Section round_robin.
Context (v : GroupView).

(** What the round robin depends on; [SendUpdate] does not touch it. *)
Definition loot_part (x : Group) : list MemberSlot * Z * Z := (m_memberSlots x, m_lootMethod x, m_looterGuid x).
Definition loot_view (s : World) : gmap Z (list MemberSlot * Z * Z) * gmap Z Player := (loot_part <$> groups s, players s).

Lemma loot_view_group s g f : (forall x, loot_part (f x) = loot_part x) -> loot_view (w_group g f s) = loot_view s.
Proof.
  intros Hf. unfold loot_view, w_group, on_groups. cbn [groups players]. f_equal. apply map_eq. intros h.
  rewrite !lookup_fmap. destruct (decide (g = h)) as [<-|Hne].
  - rewrite lookup_alter_eq. destruct (groups s !! g) as [x|]; [exact (f_equal Some (Hf x)) | done].
  - by rewrite lookup_alter_ne.
Qed.
Lemma loot_view_for_each {A} (l : list A) (f : A -> GM unit) s :
  (forall x t, loot_view (run_state (f x) t) = loot_view t) -> loot_view (run_state (for_each l f) s) = loot_view s.
Proof.
  intros Hf. revert s. induction l as [|x l IH]; intros s; [done|]. cbn [for_each].
  rewrite run_state_bind, IH. apply Hf.
Qed.
Lemma loot_view_SendUpdate g s : loot_view (run_state (SendUpdate v g) s) = loot_view s.
Proof.
  unfold SendUpdate, with_group. rewrite rs_with_state. destruct (groups s !! g) as [x|]; [|done].
  apply loot_view_for_each. intros m t. rewrite rs_if_in_world. destruct (GetPlayer t (ms_guid m)) as [p|]; [|done].
  destruct (in_group g p); [|done]. cbn [when]. rewrite rs_with_state. destruct (groups t !! g) as [y|]; [|done].
  rewrite run_state_bind, rs_upd_group. rewrite <- (loot_view_group t g (set_counter (u32 (m_counter y + 1)))) by done.
  done.
Qed.
Lemma loot_view_at s s' g x :
  loot_view s' = loot_view s -> groups s !! g = Some x ->
  players s' = players s /\ exists y, groups s' !! g = Some y /\ loot_part y = loot_part x.
Proof.
  intros Hv Hx. split; [exact (f_equal snd Hv)|]. apply (f_equal fst) in Hv. cbn in Hv.
  apply (f_equal (fun t => t !! g)) in Hv. rewrite !lookup_fmap, Hx in Hv. cbn in Hv.
  destruct (groups s' !! g) as [y|]; [|done]. exists y. split; [done|]. by apply (inj Some) in Hv.
Qed.

(** The member the next turn falls to. *)
Definition turn (near : MemberSlot -> bool) (slots : list MemberSlot) (old : Z) : Z :=
  let start := match list_find (fun m => ms_guid m = old) slots with Some (i, _) => S i | None => length slots end in
  match next_looter near slots start with Some m => ms_guid m | None => 0 end.

Definition takes_turns (x : Group) : Prop := m_lootMethod x <> MASTER_LOOT /\ m_lootMethod x <> FREE_FOR_ALL.

Lemma looter_step g s x :
  groups s !! g = Some x -> takes_turns x ->
  let s' := run_state (UpdateLooterGuid v g false) s in
  players s' = players s /\ exists y, groups s' !! g = Some y /\
    loot_part y = (m_memberSlots x, m_lootMethod x, turn (near_loot v s) (m_memberSlots x) (m_looterGuid x)).
Proof.
  intros Hx [Hmaster Hffa] s'. unfold s', UpdateLooterGuid. erewrite rs_with_group by exact Hx.
  rewrite (proj2 (Z.eqb_neq _ _) Hmaster), (proj2 (Z.eqb_neq _ _) Hffa). cbn [orb]. rewrite rs_with_state.
  assert (Hset : forall guid, let t := run_state (set_looter v g guid) s in
            players t = players s /\ exists y, groups t !! g = Some y /\ loot_part y = (m_memberSlots x, m_lootMethod x, guid)).
  { intros guid t. unfold t, set_looter. rewrite run_state_bind, rs_upd_group.
    set (s1 := w_group g _ s). pose proof (loot_view_SendUpdate g s1) as Hv.
    assert (H1 : groups s1 !! g = Some (set_looting (m_lootMethod x) guid (m_lootThreshold x) x))
      by (unfold s1; by rewrite w_groups_same, Hx).
    by destruct (loot_view_at s1 _ g _ Hv H1). }
  assert (Hgo : forall start, next_looter (near_loot v s) (m_memberSlots x) start = next_looter (near_loot v s) (m_memberSlots x) start ->
    let t := run_state (match next_looter (near_loot v s) (m_memberSlots x) start with
               | Some m => when (negb (m_looterGuid x =? ms_guid m)) (set_looter v g (ms_guid m))
               | None => set_looter v g 0 end) s in
    players t = players s /\ exists y, groups t !! g = Some y /\
      loot_part y = (m_memberSlots x, m_lootMethod x,
        match next_looter (near_loot v s) (m_memberSlots x) start with Some m => ms_guid m | None => 0 end)).
  { intros start _. destruct (next_looter (near_loot v s) (m_memberSlots x) start) as [m|]; [|apply Hset].
    destruct (Z.eqb_spec (m_looterGuid x) (ms_guid m)) as [E|E]; [|apply Hset]. cbn [negb when].
    split; [done|]. exists x. split; [done|]. unfold loot_part. by rewrite E. }
  unfold turn. destruct (list_find _ (m_memberSlots x)) as [[i m]|]; cbn [andb]; by apply Hgo.
Qed.

Lemma first_near_some near l a :
  first_near near l = Some a -> exists k, l !! k = Some a /\ near a = true /\ forall i b, (i < k)%nat -> l !! i = Some b -> near b = false.
Proof.
  unfold first_near. induction l as [|b l IH]; [done|]. rewrite filter_cons. case_decide as Hb.
  - intros [= ->]. exists 0%nat. split; [done|]. split; [done|]. lia.
  - intros Ha. destruct (IH Ha) as (k & Hk & Hn & Hlt). exists (S k). split; [done|]. split; [done|].
    intros [|i] c Hi Hc; [|by apply (Hlt i); [lia|]]. cbn in Hc. injection Hc as <-. by destruct (near b).
Qed.
Lemma first_near_none near l i b : first_near near l = None -> l !! i = Some b -> near b = false.
Proof.
  unfold first_near. intros Hn Hi. destruct (near b) eqn:E; [|done]. exfalso.
  assert (Hin : b ∈ filter (fun m => near m = true) l).
  { apply list_elem_of_filter. split; [done|]. by eapply list_elem_of_lookup_2. }
  destruct (filter _ l); [by apply elem_of_nil in Hin | done].
Qed.

Section distance.
Context (near : MemberSlot -> bool) (slots : list MemberSlot) (Hnd : NoDup (ms_guid <$> slots)).
Context (i : nat) (m : MemberSlot) (Hi : slots !! i = Some m) (Hnear : near m = true).

Lemma find_guid k a : slots !! k = Some a -> list_find (fun b => ms_guid b = ms_guid a) slots = Some (k, a).
Proof.
  intros Hk. apply list_find_Some. split; [done|]. split; [done|]. intros j b Hj Hlt E.
  assert (j = k); [|lia]. eapply NoDup_lookup; [exact Hnd | by rewrite list_lookup_fmap, Hj|].
  rewrite list_lookup_fmap, Hk. cbn. by rewrite E.
Qed.

(** How many turns the looter is away from the member at [i]. *)
Definition turns_to (old : Z) : nat :=
  match list_find (fun b => ms_guid b = old) slots with
  | Some (j, _) => if decide (j < i)%nat then i - j else length slots - j + i
  | None => S i
  end.
Lemma turns_to_bound old : old <> ms_guid m -> (turns_to old <= length slots)%nat.
Proof.
  intros Hne. apply lookup_lt_Some in Hi as Hl. unfold turns_to.
  destruct (list_find _ slots) as [[j b]|] eqn:E; [|lia].
  apply list_find_Some in E as (Hj & Hb & _). case_decide; [lia|].
  assert (j <> i); [|apply lookup_lt_Some in Hj; lia]. intros ->. congruence.
Qed.

Lemma turn_nearer old : turn near slots old = ms_guid m \/ (turns_to (turn near slots old) < turns_to old)%nat.
Proof.
  apply lookup_lt_Some in Hi as Hl.
  assert (Hat : forall k a, slots !! k = Some a -> (k <= i)%nat -> (ms_guid a = ms_guid m \/ turns_to (ms_guid a) = i - k)%nat).
  { intros k a Hk Hle. destruct (decide (k = i)) as [->|Hne]; [left; congruence|]. right.
    unfold turns_to. rewrite (find_guid k a Hk). rewrite decide_True by lia. done. }
  assert (Hfrom0 : forall n a, (i < n)%nat -> first_near near (take n slots) = Some a ->
            ms_guid a = ms_guid m \/ (turns_to (ms_guid a) <= i)%nat).
  { intros n a Hn Ha. apply first_near_some in Ha as (k & Hk & _ & Hlt).
    assert (Hki : (k <= i)%nat).
    { destruct (decide (k <= i)%nat); [done|]. specialize (Hlt i m ltac:(lia)).
      rewrite lookup_take_lt in Hlt by lia. specialize (Hlt Hi). congruence. }
    rewrite lookup_take_lt in Hk by lia. destruct (Hat k a Hk Hki) as [|E]; [by left | right; lia]. }
  assert (Htake : forall n, (i < n)%nat -> first_near near (take n slots) <> None).
  { intros n Hn E. eapply (first_near_none near _ i m) in E; [congruence|]. by rewrite lookup_take_lt. }
  unfold turn. unfold turns_to at 2. destruct (list_find _ slots) as [[j b]|] eqn:E.
  - apply list_find_Some in E as (Hj & _ & _). apply lookup_lt_Some in Hj as Hjl. unfold next_looter.
    destruct (first_near near (drop (S j) slots)) as [a|] eqn:Ea.
    + apply first_near_some in Ea as (k & Hk & _ & Hlt). rewrite lookup_drop in Hk.
      destruct (decide (j < i)%nat) as [Hji|Hji].
      * assert (Hki : (S j + k <= i)%nat).
        { destruct (decide (S j + k <= i)%nat); [done|]. specialize (Hlt (i - S j)%nat m ltac:(lia)).
          rewrite lookup_drop in Hlt. replace (S j + (i - S j))%nat with i in Hlt by lia. specialize (Hlt Hi). congruence. }
        destruct (Hat _ a Hk Hki) as [|E]; [by left | right; lia].
      * right. unfold turns_to. rewrite (find_guid _ a Hk). apply lookup_lt_Some in Hk. rewrite decide_False by lia. lia.
    + destruct (decide (j < i)%nat) as [Hji|Hji].
      * exfalso. eapply (first_near_none near _ (i - S j)%nat m) in Ea; [congruence|].
        rewrite lookup_drop. by replace (S j + (i - S j))%nat with i by lia.
      * destruct (first_near near (take (S j) slots)) as [a|] eqn:Et; [|by destruct (Htake (S j) ltac:(lia))].
        destruct (Hfrom0 (S j) a ltac:(lia) Et); [by left | right; lia].
  - unfold next_looter. rewrite drop_all. cbn [first_near filter list_filter head].
    destruct (first_near near (take (length slots) slots)) as [a|] eqn:Et; [|by destruct (Htake (length slots))].
    destruct (Hfrom0 (length slots) a Hl Et); [by left | right; lia].
Qed.

End distance.

(** Looting again and again. *)
Definition looted (g : Z) (n : nat) (s : World) : World := Nat.iter n (run_state (UpdateLooterGuid v g false)) s.

Lemma near_loot_players s s' m : players s' = players s -> near_loot v s' m = near_loot v s m.
Proof. intros E. unfold near_loot, GetPlayer. by rewrite E. Qed.
(** C33: Nobody near is passed over: whoever the looter is, each member who is near
    the loot gets his turn after at most as many turns as the group has members,
    and the turns change neither the members nor the loot method. *)
Theorem looter_rotation g s x m :
  groups s !! g = Some x -> NoDup (guids x) -> takes_turns x -> m ∈ m_memberSlots x -> near_loot v s m = true ->
  exists n, (n <= length (m_memberSlots x))%nat /\ exists y, groups (looted g n s) !! g = Some y /\
    m_looterGuid y = ms_guid m /\ m_memberSlots y = m_memberSlots x /\ m_lootMethod y = m_lootMethod x.
Proof.
  intros Hx Hnd Ht Hm Hnear. apply list_elem_of_lookup in Hm as [i Hi].
  destruct (decide (m_looterGuid x = ms_guid m)) as [E|E].
  { exists 0%nat. split; [lia|]. by exists x. }
  cut (exists n, (n <= turns_to (m_memberSlots x) i (m_looterGuid x))%nat /\ exists y, groups (looted g n s) !! g = Some y /\
    m_looterGuid y = ms_guid m /\ m_memberSlots y = m_memberSlots x /\ m_lootMethod y = m_lootMethod x).
  { intros (n & Hn & H). exists n. split; [|exact H].
    pose proof (turns_to_bound (m_memberSlots x) i m Hi _ E). lia. }
  remember (turns_to (m_memberSlots x) i (m_looterGuid x)) as d eqn:Hd. revert s x Hx Hnd Ht Hi Hnear E Hd.
  induction d as [d IH] using lt_wf_ind. intros s x Hx Hnd Ht Hi Hnear E Hd.
  destruct (looter_step g s x Hx Ht) as (Hp & y & Hy & Ey). set (s' := run_state (UpdateLooterGuid v g false) s) in *.
  assert (Ey1 : m_memberSlots y = m_memberSlots x) by exact (f_equal (fun t => t.1.1) Ey).
  assert (Ey2 : m_lootMethod y = m_lootMethod x) by exact (f_equal (fun t => t.1.2) Ey).
  assert (Ey3 : m_looterGuid y = turn (near_loot v s) (m_memberSlots x) (m_looterGuid x)) by exact (f_equal snd Ey).
  assert (Hpos : (1 <= d)%nat).
  { rewrite Hd. unfold turns_to. destruct (list_find _ _) as [[j b]|] eqn:Ef; [|lia].
    apply list_find_Some in Ef as (Hj & _ & _). apply lookup_lt_Some in Hj. case_decide; lia. }
  assert (Hiter : forall n, looted g (S n) s = looted g n s').
  { intros n. unfold looted. by rewrite Nat.iter_succ_r. }
  destruct (decide (m_looterGuid y = ms_guid m)) as [E'|E'].
  { exists 1%nat. split; [lia|]. exists y. by rewrite Hiter. }
  destruct (turn_nearer (near_loot v s) (m_memberSlots x) Hnd i m Hi Hnear (m_looterGuid x)) as [Hturn|Hlt]; [congruence|].
  rewrite <- Ey3 in Hlt.
  destruct (IH (turns_to (m_memberSlots x) i (m_looterGuid y)) ltac:(lia) s' y) as (n & Hn & z & Hz & Hz1 & Hz2 & Hz3); try done.
  - unfold guids. by rewrite Ey1.
  - unfold takes_turns. by rewrite Ey2.
  - by rewrite Ey1.
  - by rewrite (near_loot_players s).
  - by rewrite Ey1.
  - exists (S n). split; [lia|]. exists z. rewrite Hiter, Hz2, Hz3. done.
Qed.

End round_robin.
(** ** Steps that break the rosters *)

Lemma slot_after_update u f (slots : list MemberSlot) m :
  (forall a, ms_guid (f a) = ms_guid a) ->
  _getMemberSlot u slots = Some m -> _getMemberSlot u (update_slot u f slots) = Some (f m).
Proof.
  intros Hf. unfold _getMemberSlot. induction slots as [|a slots IH]; [done|]. cbn [update_slot].
  destruct (Z.eqb_spec (ms_guid a) u) as [E|E].
  - rewrite !filter_cons_True by (rewrite ?Hf; done). by intros [= ->].
  - rewrite !filter_cons_False by done. exact IH.
Qed.

Section breaking.
Context `{!Utf8Lib} (v : GroupView).

(** A subgroup change that reaches a member on his way to another map leaves his
    own reference behind: his slot and the counters show the new subgroup, he
    himself the old one, and when he has arrived the server refuses to move him back. *)
Lemma moved_in_transit s u g x p new :
  reached v s -> players s !! u = Some p -> p_inWorld p = false -> GetGroup p = Some g -> groups s !! g = Some x ->
  HasFreeSlotSubGroup x new = true -> new <> GetSubGroup p ->
  let s1 := run_state (ChangeMembersGroup v g u new) s in
  let s2 := run_state (run_party_step v (Travel u true)) s1 in
  let s3 := run_state (ChangeMembersGroup_online v g u (GetSubGroup p)) s2 in
  (exists y, groups s1 !! g = Some y /\ GetMemberGroup y u = new) /\
  players s1 !! u = Some p /\ s3 = s2.
Proof.
  intros Hr Hp Hw Hpg Hx Hfree Hne s1 s2 s3.
  pose proof (reached_good v s Hr) as Hg. pose proof (core_of_group _ _ _ Hx) as Hcx.
  pose proof (wo_group _ _ (proj1 Hg) g _ Hcx) as Hgi. pose proof (gi_roster _ _ _ _ Hgi) as Hro.
  assert (Hu : u ∈ guids x) by by apply (gi_link _ _ _ _ Hgi u p Hp).
  destruct (getMemberSlot_some u _ Hu) as [m Hm]. pose proof (getMemberSlot_elem _ _ _ Hm) as [Hin Hmu].
  assert (Hsub : GetSubGroup p = ms_group m) by (apply (gi_place _ _ _ _ Hgi m p Hin); by rewrite Hmu).
  assert (Hraid : isRaidGroup x = true).
  { pose proof (ro_counts _ Hro) as Hc. unfold HasFreeSlotSubGroup in Hfree. cbn in Hc.
    destruct (m_subGroupsCounts x); [apply Hc | done]. }
  assert (H1 : core s1 = w_group g (move u (ms_group m) new) (core s)).
  { apply (run_core _ _ tt). eapply (execs_move_absent v _ g u (ms_group m) new (core_group x)); try done; [by exists m | congruence|].
    unfold GetPlayer. by rewrite core_player, Hp, Hw. }
  destruct (group_of_core s1 g (move u (ms_group m) new (core_group x))) as (y & Hy & Ey).
  { by rewrite H1, w_groups_same, Hcx. }
  assert (Hp1 : players s1 !! u = Some p) by (by rewrite <- core_player, H1, <- Hp).
  split; [|split; [done|]].
  - exists y. split; [done|]. change (GetMemberGroup (core_group y) u = new). rewrite Ey. unfold GetMemberGroup.
    replace (_getMemberSlot u _) with (Some (set_ms_group new m)); [done|]. symmetry. by apply slot_after_update.
  - assert (Hp2 : players s2 !! u = Some (set_inWorld true p)).
    { unfold s2. cbn [run_party_step]. rewrite rs_upd_player, w_players_same, Hp1. done. }
    assert (Hy2 : groups s2 !! g = Some y) by exact Hy.
    unfold s3, ChangeMembersGroup_online. erewrite rs_with_group by exact Hy2.
    destruct (negb (isRaidGroup y)); [done|]. rewrite rs_with_player, Hp2.
    change (GetSubGroup (set_inWorld true p)) with (GetSubGroup p). by rewrite Z.eqb_refl.
Qed.

(** A player who invites himself is left with an invitation into a group that
    has been deleted: the group is started, his invitation as its leader is
    accepted, the second one is refused, and the group is thrown away without
    taking the first one back.  Whatever he answers, the server follows the
    pointer. *)
Lemma self_invite_dangles s u p data data' n :
  players s !! u = Some p -> p_groupInvite p = None -> GetGroup p = None -> groups s !! next_group s = None ->
  self_invite s u data -> invite_refused v u u = None -> (shr_uint 4 data').1 = Ok n ->
  let s' := run_state (HandleGroupInviteOpcode v u data) s in
  (exists q, players s' !! u = Some q /\ p_groupInvite q = Some (next_group s)) /\ groups s' !! next_group s = None /\
  run_log (HandleGroupDeclineOpcode v u data') s' = [UseAfterFree (AGroup (next_group s))] /\
  run_log (HandleGroupAcceptOpcode v u data') s' = [UseAfterFree (AGroup (next_group s))].
Proof.
  intros Hp Hi Hpg Hfresh (name & membername & Hn & Hm & Hself) Hok Hn' s'.
  set (g := next_group s). set (c1 := store_group g (core_group new_Group) (core s)).
  set (c2 := w_group g (set_leader u (p_name p)) (t_invite g u (p_serial p) c1)).
  assert (Hp2 : players c2 !! u = Some (with_invite (Some g) p)).
  { change (players (t_invite g u (p_serial p) c1) !! u = Some (with_invite (Some g) p)).
    unfold t_invite. rewrite players_after, decide_True by done. cbn. by rewrite Hp. }
  assert (Hrun : execs (start_group u u) (core s) false (on_groups (delete g) c2)).
  { eapply execs_bind; [apply execs_new_group|]. fold g c1. change (next_group (core s)) with g. fold c1.
    eapply execs_bind; [by apply (execs_AddLeaderInvite g u c1 p)|]. cbn [negb]. fold c2.
    eapply (execs_bind _ _ _ false c2); [by eapply execs_AddInvite_refused|]. cbn [negb].
    eapply (execs_bind _ _ _ tt); [|apply execs_ret].
    apply (execs_delete_group g c2 (set_leader u (p_name p) (set_invitees ({[ (u, p_serial p) ]} ∪ ∅) (core_group new_Group))));
      [|done|done].
    unfold c2, t_invite. rewrite !w_groups_same. cbn [groups w_player on_players c1 store_group].
    by rewrite lookup_insert_eq. }
  assert (Hs' : core s' = on_groups (delete g) c2).
  { unfold s', HandleGroupInviteOpcode, with_recv. rewrite Hn, Hm. rewrite rs_with_state, Hself, Hok.
    unfold invite_player. rewrite rs_with_state, Hp, Hpg. cbn [check_group].
    rewrite run_state_bind, rs_ret, run_state_bind, rs_ret. unfold home_group. rewrite Hpg, Hi.
    change (bool_decide (is_Some (@None Z))) with false. cbn [orb]. unfold invite_into.
    destruct (Hrun s eq_refl) as [Hv Hc]. by rewrite run_state_bind, Hv. }
  assert (Hq : players s' !! u = Some (with_invite (Some g) p)) by (by rewrite <- core_player, Hs').
  assert (Hg : groups s' !! g = None) by (apply core_lookup_none; rewrite Hs'; apply lookup_delete_eq).
  split_and!; [by eexists | done | |].
  - unfold HandleGroupDeclineOpcode, with_player. rewrite rl_with_state, Hq. cbn [p_groupInvite with_invite set_groupInvite].
    unfold with_group. by rewrite rl_with_state, Hg.
  - unfold HandleGroupAcceptOpcode, with_recv, with_player. rewrite Hn', rl_with_state, Hq.
    cbn [p_groupInvite with_invite set_groupInvite]. unfold accept_invite, with_group. by rewrite rl_with_state, Hg.
Qed.

End breaking.
(** ** Instances *)

Definition sample (l : list party_step) : World := run_steps sample_view l empty_world.
Definition group_at (s : World) (g : Z) : Group := default new_Group (groups s !! g).
Definition player_at (s : World) (u : Z) : Player := default (newcomer [] s) (players s !! u).
Lemma sample_reached l : allowed_run sample_view l empty_world = true -> reached sample_view (sample l).
Proof. apply reached_run, reached_start. Qed.

Definition invited_two : World := sample (three_online ++ [Packet 1 CMSG_GROUP_INVITE (invite (text "jaina"))]).
Lemma first_guest_founds_witness :
  exists y, groups (run_state (HandleGroupAcceptOpcode sample_view 2 (word 0)) invited_two) !! 1 = Some y /\
    guids y = [1; 2] /\ m_leaderGuid y = 1 /\ GetLowGUID y = 1.
Proof.
  destruct (first_guest_founds sample_view invited_two 2 1 (group_at invited_two 1) (player_at invited_two 2)
    (player_at invited_two 1) (word 0) 0) as (y & Hy & Hs & Hl & Hlow & _); [|by vm_compute|].
  - split; [apply sample_reached; by vm_compute | apply settled_b_true; by vm_compute | by vm_compute..].
  - exists y. unfold guids. rewrite Hs. split; [exact Hy|]. split; [by vm_compute|].
    split; [rewrite Hl | rewrite Hlow]; by vm_compute.
Defined.

Definition three : World := sample party_of_three.
Definition raid : World := sample raid_of_three.
Lemma sample_member l u g :
  allowed_run sample_view l empty_world = true -> settled_b (sample l) = true ->
  players (sample l) !! u = Some (player_at (sample l) u) -> GetGroup (player_at (sample l) u) = Some g ->
  groups (sample l) !! g = Some (group_at (sample l) g) ->
  member_of sample_view (sample l) u g (group_at (sample l) g) (player_at (sample l) u).
Proof. intros Ha Hs Hp Hg Hx. split; try done; [by apply sample_reached | by apply settled_b_true]. Qed.

Lemma leave_party_witness :
  exists y, groups (run_state (HandleGroupDisbandOpcode sample_view 1 (word 0)) three) !! 1 = Some y /\
    guids y = [2; 3] /\ m_leaderGuid y = 2.
Proof.
  assert (Hm : member_of sample_view three 1 1 (group_at three 1) (player_at three 1))
    by (apply sample_member; by vm_compute).
  destruct (leave_party sample_view three 1 1 (group_at three 1) (player_at three 1) (word 0) Hm eq_refl) as (_ & _ & H).
  replace (length (m_memberSlots (group_at three 1))) with 3%nat in H by by vm_compute.
  rewrite decide_False in H by lia. destruct H as (y & Hy & Hg & Hl). exists y. split; [exact Hy|].
  replace (guids (group_at three 1)) with [1; 2; 3] in Hg by by vm_compute.
  replace (m_leaderGuid (group_at three 1)) with 1 in Hl by by vm_compute.
  rewrite Hl, Hg. split; reflexivity.
Defined.

Lemma raid_relogin_witness :
  exists q, players (run_state (LoginPlayer sample_view 2 (text "Jaina"))
                       (run_state (LogoutPlayer sample_view 2 None true) raid)) !! 2 = Some q /\
    GetGroup q = Some 1 /\ GetSubGroup q = GetSubGroup (player_at raid 2).
Proof.
  assert (Hm : member_of sample_view raid 2 1 (group_at raid 1) (player_at raid 2))
    by (apply sample_member; by vm_compute).
  destruct (raid_relogin sample_view raid 2 1 (group_at raid 1) (player_at raid 2) true (text "Jaina") Hm)
    as (_ & (q & Hq & Hg & Hs & _) & _); [vm_compute; reflexivity|].
  exists q. split; [exact Hq|]. split; [exact Hg | exact Hs].
Defined.

Lemma looter_rotation_witness :
  exists n, (n <= 3)%nat /\ exists y, groups (looted sample_view 1 n three) !! 1 = Some y /\ m_looterGuid y = 3.
Proof.
  pose (m := mkSlot 3 (text "Thrall") 0 0 0).
  destruct (looter_rotation sample_view 1 three (group_at three 1) m) as (n & Hn & y & Hy & Hl & _);
    [by vm_compute | apply (bool_decide_unpack _); by vm_compute | split; by vm_compute
    | apply (list_elem_of_lookup_2 _ 2); by vm_compute | by vm_compute |].
  - exists n. split; [exact Hn|]. exists y. split; [exact Hy | exact Hl].
Defined.

Definition on_the_way : World := sample (raid_of_three ++ [Travel 2 false]).
Lemma moved_in_transit_witness :
  let s1 := run_state (ChangeMembersGroup sample_view 1 2 4) on_the_way in
  (exists y, groups s1 !! 1 = Some y /\ GetMemberGroup y 2 = 4) /\ players s1 !! 2 = Some (player_at on_the_way 2) /\
  GetSubGroup (player_at on_the_way 2) = 0.
Proof.
  destruct (moved_in_transit sample_view on_the_way 2 1 (group_at on_the_way 1) (player_at on_the_way 2) 4)
    as (H1 & H2 & _); [apply sample_reached; by vm_compute | by vm_compute.. |].
  - split; [exact H1|]. split; [exact H2 | by vm_compute].
Defined.

Definition online : World := sample three_online.
Lemma self_invite_dangles_witness :
  let s' := run_state (HandleGroupInviteOpcode sample_view 1 (invite (text "arthas"))) online in
  groups s' !! 1 = None /\ run_log (HandleGroupDeclineOpcode sample_view 1 (word 0)) s' = [UseAfterFree (AGroup 1)].
Proof.
  destruct (self_invite_dangles sample_view online 1 (player_at online 1) (invite (text "arthas")) (word 0) 0)
    as (_ & H1 & H2 & _); [by vm_compute.. | | by vm_compute | by vm_compute |].
  - exists (text "arthas"), (text "Arthas"). split_and!; by vm_compute.
  - split; [exact H1 | exact H2].
Defined.
