(* ===== verification/Market.v ===== *)
(** * Gold, mails and auctions: the state

    What game/Mails, game/AuctionHouse and the mail and money part of
    game/Entities/Player/Player.cpp keep, under src/src/server: the gold of the
    characters, the mails of the database and those the players who are online have
    loaded, the items that are carried, mailed or auctioned, the three auction houses.

    An item is its low GUID; which player carries it is known, its bag and slot
    belong to the inventory, which is not modelled.  The tables of the database
    follow the statements at once, in the order they are appended.  Floating-point
    numbers are IEEE singles, computed with the Standard Library's [SpecFloat]. *)
From Stdlib Require Import SpecFloat.
From S2P Require Import Prelude Text ByteBuffer.

(** ** Single-precision arithmetic *)

Abbreviation f32_mul := (SFmul 24 128).
Abbreviation f32_div := (SFdiv 24 128).
Definition f32 (z : Z) : spec_float := binary_normalize 24 128 z 0 false.
(** The conversion to an integer drops the fraction; [None] where it is undefined. *)
Definition trunc_f32 (x : spec_float) : option Z :=
  match x with
  | S754_zero _ => Some 0
  | S754_finite s m e =>
      let n := Z.pos m * 2 ^ Z.max e 0 / 2 ^ Z.max (- e) 0 in Some (if s then - n else n)
  | _ => None
  end.
(** Conversions that do not fit are undefined in the language; the instruction
    CVTTSS2SI gives the lowest integer of its width. *)
Definition f32_to_int (w : Z) (x : spec_float) : Z :=
  match trunc_f32 x with
  | Some n => if (- 2 ^ (w - 1) <=? n) && (n <? 2 ^ (w - 1)) then n else - 2 ^ (w - 1)
  | None => - 2 ^ (w - 1)
  end.
Definition bits_f32 (x : spec_float) : Z :=
  match x with
  | S754_zero s => if s then 2 ^ 31 else 0
  | S754_infinity s => (if s then 2 ^ 31 else 0) + 0xFF * 2 ^ 23
  | S754_nan => 0x7FC00000
  | S754_finite s m e =>
      (if s then 2 ^ 31 else 0) + (if Z.pos m <? 2 ^ 23 then Z.pos m else (e + 150) * 2 ^ 23 + (Z.pos m - 2 ^ 23))
  end.

(** [CalculatePctN] and [CalculatePctU] of Util.h before the conversion to their type. *)
Definition CalculatePct (base : spec_float) (pct : Z) : spec_float := f32_div (f32_mul base (f32 pct)) (f32 100).

(** ** Data *)

Definition MAX_MONEY_AMOUNT : Z := 0x7FFFFFFF - 1.
Definition MAX_MAIL_ITEMS : Z := 12.
Definition MAIL_BODY_ITEM_TEMPLATE : Z := 8383.
Definition MAX_INSPECTED_ENCHANTMENT_SLOT : nat := 7.

Definition MAIL_NORMAL : Z := 0.
Definition MAIL_AUCTION : Z := 2.
Definition MAIL_CREATURE : Z := 3.
Definition MAIL_GAMEOBJECT : Z := 4.
Definition MAIL_ITEM : Z := 5.

Definition MAIL_CHECK_MASK_READ : Z := 0x01.
Definition MAIL_CHECK_MASK_RETURNED : Z := 0x02.
Definition MAIL_CHECK_MASK_COPIED : Z := 0x04.
Definition MAIL_CHECK_MASK_COD_PAYMENT : Z := 0x08.
Definition MAIL_CHECK_MASK_HAS_BODY : Z := 0x10.

Definition MAIL_STATIONERY_DEFAULT : Z := 41.
Definition MAIL_STATIONERY_GM : Z := 61.
Definition MAIL_STATIONERY_AUCTION : Z := 62.

Inductive MailState := MAIL_STATE_UNCHANGED | MAIL_STATE_CHANGED | MAIL_STATE_DELETED.
#[export] Instance MailState_eq_dec : EqDecision MailState.
Proof. solve_decision. Defined.

Record Mail := mkMail {
  messageID : Z;
  messageType : Z;
  stationery : Z;
  mailTemplateId : Z;
  m_sender : Z;
  m_receiver : Z;
  m_subject : list Z;
  m_body : list Z;
  items : list (Z * Z);            (* GUID and template *)
  removedItems : list Z;
  m_expire_time : Z;
  m_deliver_time : Z;
  m_money : Z;
  m_COD : Z;
  m_checked : Z;
  m_state : MailState
}.
Definition set_state (st : MailState) (m : Mail) : Mail :=
  mkMail (messageID m) (messageType m) (stationery m) (mailTemplateId m) (m_sender m) (m_receiver m)
    (m_subject m) (m_body m) (items m) (removedItems m) (m_expire_time m) (m_deliver_time m) (m_money m)
    (m_COD m) (m_checked m) st.
Definition check_mail (mask : Z) (m : Mail) : Mail :=
  mkMail (messageID m) (messageType m) (stationery m) (mailTemplateId m) (m_sender m) (m_receiver m)
    (m_subject m) (m_body m) (items m) (removedItems m) (m_expire_time m) (m_deliver_time m) (m_money m)
    (m_COD m) (Z.lor (m_checked m) mask) MAIL_STATE_CHANGED.
Definition set_money_COD (money COD : Z) (m : Mail) : Mail :=
  mkMail (messageID m) (messageType m) (stationery m) (mailTemplateId m) (m_sender m) (m_receiver m)
    (m_subject m) (m_body m) (items m) (removedItems m) (m_expire_time m) (m_deliver_time m) money
    COD (m_checked m) MAIL_STATE_CHANGED.
Definition set_items (its : list (Z * Z)) (removed : list Z) (m : Mail) : Mail :=
  mkMail (messageID m) (messageType m) (stationery m) (mailTemplateId m) (m_sender m) (m_receiver m)
    (m_subject m) (m_body m) its removed (m_expire_time m) (m_deliver_time m) (m_money m)
    (m_COD m) (m_checked m) (m_state m).
Definition HasItems (m : Mail) : bool := negb (bool_decide (items m = [])).
(** [Mail::RemoveItem] takes the first entry with the GUID out. *)
Fixpoint RemoveItem (guid : Z) (its : list (Z * Z)) : list (Z * Z) :=
  match its with
  | [] => []
  | it :: its' => if it.1 =? guid then its' else it :: RemoveItem guid its'
  end.

(** A row of the table mail. *)
Record MailRow := mkMailRow {
  r_messageType : Z;
  r_stationery : Z;
  r_mailTemplateId : Z;
  r_sender : Z;
  r_receiver : Z;
  r_subject : list Z;
  r_body : list Z;
  r_has_items : bool;
  r_expire_time : Z;
  r_deliver_time : Z;
  r_money : Z;
  r_cod : Z;
  r_checked : Z
}.

(** What a [Player] who is online keeps of his mails. *)
Record Trader := mkTrader {
  t_inWorld : bool;
  m_mail : list Mail;
  m_mailsLoaded : bool;
  m_mailsUpdated : bool;
  unReadMails : Z;
  m_nextMailDelivereTime : Z;
  mMitems : gset Z
}.
Definition set_mails (f : list Mail -> list Mail) (t : Trader) : Trader :=
  mkTrader (t_inWorld t) (f (m_mail t)) (m_mailsLoaded t) (m_mailsUpdated t) (unReadMails t)
    (m_nextMailDelivereTime t) (mMitems t).
Definition set_mails_loaded (t : Trader) : Trader :=
  mkTrader (t_inWorld t) (m_mail t) true (m_mailsUpdated t) (unReadMails t) (m_nextMailDelivereTime t) (mMitems t).
Definition set_mails_updated (b : bool) (t : Trader) : Trader :=
  mkTrader (t_inWorld t) (m_mail t) (m_mailsLoaded t) b (unReadMails t) (m_nextMailDelivereTime t) (mMitems t).
Definition set_unread (n next : Z) (t : Trader) : Trader :=
  mkTrader (t_inWorld t) (m_mail t) (m_mailsLoaded t) (m_mailsUpdated t) n next (mMitems t).
Definition set_mitems (f : gset Z -> gset Z) (t : Trader) : Trader :=
  mkTrader (t_inWorld t) (m_mail t) (m_mailsLoaded t) (m_mailsUpdated t) (unReadMails t)
    (m_nextMailDelivereTime t) (f (mMitems t)).
Definition set_trader_inWorld (b : bool) (t : Trader) : Trader :=
  mkTrader b (m_mail t) (m_mailsLoaded t) (m_mailsUpdated t) (unReadMails t) (m_nextMailDelivereTime t) (mMitems t).

Record AuctionHouseEntry := mkHouseEntry {
  houseId : Z;
  house_faction : Z;
  depositPercent : Z;
  cutPercent : Z
}.

Record AuctionEntry := mkAuction {
  a_Id : Z;
  a_auctioneer : Z;
  item_guidlow : Z;
  item_template : Z;
  a_owner : Z;
  startbid : Z;
  a_bid : Z;
  a_buyout : Z;
  a_expire_time : Z;
  a_bidder : Z;
  a_deposit : Z;
  auctionHouseEntry : AuctionHouseEntry
}.
Definition set_bid (bidder bid : Z) (a : AuctionEntry) : AuctionEntry :=
  mkAuction (a_Id a) (a_auctioneer a) (item_guidlow a) (item_template a) (a_owner a) (startbid a) bid
    (a_buyout a) (a_expire_time a) bidder (a_deposit a) (auctionHouseEntry a).

(** A row of the table auctionhouse. *)
Record AuctionRow := mkAuctionRow {
  w_auctioneer : Z;
  w_itemguid : Z;
  w_owner : Z;
  w_buyout : Z;
  w_time : Z;
  w_buyguid : Z;
  w_lastbid : Z;
  w_startbid : Z;
  w_deposit : Z
}.
Definition set_row_bid (buyguid lastbid : Z) (r : AuctionRow) : AuctionRow :=
  mkAuctionRow (w_auctioneer r) (w_itemguid r) (w_owner r) (w_buyout r) (w_time r) buyguid lastbid
    (w_startbid r) (w_deposit r).

Inductive house := Horde | Alliance | Neutral.
#[export] Instance house_eq_dec : EqDecision house.
Proof. solve_decision. Defined.

Record Market := mkMarket {
  gold : gmap Z Z;
  online : gmap Z Trader;
  inventory : gmap Z Z;
  mail : gmap Z MailRow;
  mail_items : gset (Z * Z);
  item_instance : gset Z;
  m_mailid : Z;
  mHordeAuctions : gmap Z AuctionEntry;
  mAllianceAuctions : gmap Z AuctionEntry;
  mNeutralAuctions : gmap Z AuctionEntry;
  mAitems : gset Z;
  auctionhouse : gmap Z AuctionRow;
  m_auctionid : Z
}.
Definition on_gold f (s : Market) : Market :=
  mkMarket (f (gold s)) (online s) (inventory s) (mail s) (mail_items s) (item_instance s) (m_mailid s)
    (mHordeAuctions s) (mAllianceAuctions s) (mNeutralAuctions s) (mAitems s) (auctionhouse s) (m_auctionid s).
Definition on_online f (s : Market) : Market :=
  mkMarket (gold s) (f (online s)) (inventory s) (mail s) (mail_items s) (item_instance s) (m_mailid s)
    (mHordeAuctions s) (mAllianceAuctions s) (mNeutralAuctions s) (mAitems s) (auctionhouse s) (m_auctionid s).
Definition on_inventory f (s : Market) : Market :=
  mkMarket (gold s) (online s) (f (inventory s)) (mail s) (mail_items s) (item_instance s) (m_mailid s)
    (mHordeAuctions s) (mAllianceAuctions s) (mNeutralAuctions s) (mAitems s) (auctionhouse s) (m_auctionid s).
Definition on_mail f (s : Market) : Market :=
  mkMarket (gold s) (online s) (inventory s) (f (mail s)) (mail_items s) (item_instance s) (m_mailid s)
    (mHordeAuctions s) (mAllianceAuctions s) (mNeutralAuctions s) (mAitems s) (auctionhouse s) (m_auctionid s).
Definition on_mail_items f (s : Market) : Market :=
  mkMarket (gold s) (online s) (inventory s) (mail s) (f (mail_items s)) (item_instance s) (m_mailid s)
    (mHordeAuctions s) (mAllianceAuctions s) (mNeutralAuctions s) (mAitems s) (auctionhouse s) (m_auctionid s).
Definition on_item_instance f (s : Market) : Market :=
  mkMarket (gold s) (online s) (inventory s) (mail s) (mail_items s) (f (item_instance s)) (m_mailid s)
    (mHordeAuctions s) (mAllianceAuctions s) (mNeutralAuctions s) (mAitems s) (auctionhouse s) (m_auctionid s).
Definition next_mailid (s : Market) : Market :=
  mkMarket (gold s) (online s) (inventory s) (mail s) (mail_items s) (item_instance s) (u32 (m_mailid s + 1))
    (mHordeAuctions s) (mAllianceAuctions s) (mNeutralAuctions s) (mAitems s) (auctionhouse s) (m_auctionid s).
Definition on_house (h : house) f (s : Market) : Market :=
  mkMarket (gold s) (online s) (inventory s) (mail s) (mail_items s) (item_instance s) (m_mailid s)
    (match h with Horde => f (mHordeAuctions s) | _ => mHordeAuctions s end)
    (match h with Alliance => f (mAllianceAuctions s) | _ => mAllianceAuctions s end)
    (match h with Neutral => f (mNeutralAuctions s) | _ => mNeutralAuctions s end)
    (mAitems s) (auctionhouse s) (m_auctionid s).
Definition on_Aitems f (s : Market) : Market :=
  mkMarket (gold s) (online s) (inventory s) (mail s) (mail_items s) (item_instance s) (m_mailid s)
    (mHordeAuctions s) (mAllianceAuctions s) (mNeutralAuctions s) (f (mAitems s)) (auctionhouse s) (m_auctionid s).
Definition on_auctionhouse f (s : Market) : Market :=
  mkMarket (gold s) (online s) (inventory s) (mail s) (mail_items s) (item_instance s) (m_mailid s)
    (mHordeAuctions s) (mAllianceAuctions s) (mNeutralAuctions s) (mAitems s) (f (auctionhouse s)) (m_auctionid s).
Definition next_auctionid (s : Market) : Market :=
  mkMarket (gold s) (online s) (inventory s) (mail s) (mail_items s) (item_instance s) (m_mailid s)
    (mHordeAuctions s) (mAllianceAuctions s) (mNeutralAuctions s) (mAitems s) (auctionhouse s) (u32 (m_auctionid s + 1)).
Definition house_map (s : Market) (h : house) : gmap Z AuctionEntry :=
  match h with Horde => mHordeAuctions s | Alliance => mAllianceAuctions s | Neutral => mNeutralAuctions s end.

(** The statements sent to the database. *)
Inductive market_statement :=
| InsertMail (id : Z) (row : MailRow)
| InsertMailItem (id item receiver : Z)
| UpdateMail (id : Z) (has_items : bool) (expire_time deliver_time money cod checked : Z)
| SetMailReturned (id sender receiver expire_time deliver_time checked : Z)
| DeleteMail (id : Z)
| DeleteItemsOfMail (id : Z)
| DeleteMailItem (item : Z)
| DeleteEmptyExpired (basetime : Z)
| SetMailItemReceiver (receiver item : Z)
| SetItemOwner (owner item : Z)
| SaveItem (item : Z)
| DeleteItemInstance (item : Z)
| DeleteFromInventory (item : Z)
| SaveInventory (guid : Z)
| SaveGold (guid money : Z)
| InsertAuction (id : Z) (row : AuctionRow)
| UpdateBid (id buyguid lastbid : Z)
| DeleteAuction (id : Z).

Inductive auction_hook := OnAuctionAdd | OnAuctionRemove | OnAuctionSuccessful | OnAuctionExpire.

Inductive market_event :=
| MarketPacket (to : Z) (data : packet)
| Query (stmt : market_statement)
| OnPlayerMoneyChanged (guid d : Z)
| MoneyNotify (guid d : Z)           (* the share of the guild and SendPlayerMoneyNotify *)
| TooMuchGold (guid : Z)             (* SendEquipError *)
| MarketNotification (guid level : Z)
| MarketAchievement (guid criteria value : Z)
| RemoveFeignDeath (guid : Z)
| AuctionHook (h : house) (id : Z) (hook : auction_hook)
| ItemsFreed (guids : list Z)        (* the objects are deleted, not their rows *)
| IdOverflow
| ConversionOverflow                 (* a write past the end of a converted string *)
| AuctionUseAfterFree (id : Z)
| MarketAssertFailed.

Abbreviation KM := (M Market market_event).

(** What the code reads of the rest of the server. *)
Record MarketView := mkMarketView {
  now : Z;
  CONFIG_MAIL_DELIVERY_DELAY : Z;
  CONFIG_MAIL_LEVEL_REQ : Z;
  CONFIG_AUCTION_LEVEL_REQ : Z;
  CONFIG_ALLOW_TWO_SIDE_INTERACTION_MAIL : bool;
  CONFIG_ALLOW_TWO_SIDE_INTERACTION_AUCTION : bool;
  CONFIG_GM_LOG_TRADE : bool;
  RATE_AUCTION_CUT : spec_float;
  RATE_AUCTION_TIME : spec_float;
  (** [GetPlayerAccountIdByGUID], [GetTeam], [getLevel]; 0 for no character. *)
  account_of : Z -> Z;
  team_of : Z -> Z;
  level_of : Z -> Z;
  GetSecurity : Z -> Z;
  is_gm : Z -> bool;
  guid_by_name : list Z -> Z;
  has_UNIT_STAT_DIED : Z -> bool;
  (** The unit flags of a creature hold [UNIT_NPC_FLAG_BATTLEMASTER]. *)
  is_battlemaster : Z -> bool;
  (** [GetGameObjectIfCanInteractWith] a mailbox; [GetNPCIfCanInteractWith] an
      auctioneer, with his faction. *)
  mailbox_near : Z -> Z -> bool;
  auctioneer_near : Z -> Z -> option Z;
  mail_template : Z -> option (list Z);
  (** [FACTION_MASK_*] of a faction template. *)
  faction_mask : Z -> option Z;
  AuctionHouseStore : Z -> option AuctionHouseEntry;
  (** The faction of the creature spawned with the GUID. *)
  spawn_faction : Z -> option Z;
  secsToTimeBitFields : Z -> Z;
  (** Items. *)
  GetEntry : Z -> Z;
  GetCount : Z -> Z;
  CanBeTraded : Z -> bool -> bool;
  conjured_or_timed : Z -> bool;
  is_filled_bag : Z -> bool;
  is_wrapped : Z -> bool;
  BIND_TO_ACCOUNT : Z -> bool;
  bound_account_wide : Z -> bool;
  item_has_proto : Z -> bool;
  item_loads : Z -> bool;
  _CanStoreItem : Z -> Z -> Z;
  (** Storing merges the item into a stack, which deletes it. *)
  StoreItem_merges : Z -> Z -> bool;
  GetEnchantment : Z -> nat -> Z * Z * Z;
  GetItemRandomPropertyId : Z -> Z;
  GetItemSuffixFactor : Z -> Z;
  GetSpellCharges : Z -> Z;
  item_durability : Z -> Z * Z;
  SellPrice : Z -> Z;
  proto_class : Z -> Z * Z * Z * Z;      (* class, subclass, inventory type, quality *)
  RequiredLevel : Z -> Z;
  CanUseItem : Z -> Z -> bool;
  Name1 : Z -> list Z;
  locale_name : Z -> Z -> option (list Z);
  random_suffix : Z -> option (list Z);
  new_item : Z;
  (** What a column of unsigned integers stores of a number out of its range. *)
  out_of_range : Z -> Z
}.

(** ** The store *)

(** [sObjectMgr->GetPlayer]. *)
Definition GetPlayer (s : Market) (u : Z) : option Trader :=
  match online s !! u with Some t => if t_inWorld t then Some t else None | None => None end.
Definition upd_trader (u : Z) (f : Trader -> Trader) : KM unit := modify (on_online (alter f u)).
(** The player of a session. *)
Definition with_trader (u : Z) (k : Trader -> KM unit) : KM unit := with_state (fun s =>
  match online s !! u with Some t => k t | None => ret tt end).

Definition execute_on (st : market_statement) (s : Market) : Market :=
  match st with
  | InsertMail id r => on_mail (fun t => match t !! id with None => <[id := r]> t | Some _ => t end) s
  | InsertMailItem id item _ => on_mail_items (fun t => {[ (id, item) ]} ∪ t) s
  | UpdateMail id has_items expire_time deliver_time money cod checked =>
      on_mail (alter (fun r => mkMailRow (r_messageType r) (r_stationery r) (r_mailTemplateId r) (r_sender r)
        (r_receiver r) (r_subject r) (r_body r) has_items expire_time deliver_time money cod checked) id) s
  | SetMailReturned id sender receiver expire_time deliver_time checked =>
      on_mail (alter (fun r => mkMailRow (r_messageType r) (r_stationery r) (r_mailTemplateId r) sender
        receiver (r_subject r) (r_body r) (r_has_items r) expire_time deliver_time (r_money r) 0 checked) id) s
  | DeleteMail id => on_mail (delete id) s
  | DeleteItemsOfMail id => on_mail_items (filter (fun p => p.1 <> id)) s
  | DeleteMailItem item => on_mail_items (filter (fun p => p.2 <> item)) s
  | DeleteEmptyExpired basetime => on_mail (filter (fun p =>
      ~ (r_expire_time p.2 < basetime /\ r_has_items p.2 = false /\ r_body p.2 = []))) s
  | SaveItem item => on_item_instance (fun t => {[ item ]} ∪ t) s
  | DeleteItemInstance item => on_item_instance (fun t => t ∖ {[ item ]}) s
  | InsertAuction id r => on_auctionhouse (fun t => match t !! id with None => <[id := r]> t | Some _ => t end) s
  | UpdateBid id buyguid lastbid => on_auctionhouse (alter (set_row_bid buyguid lastbid) id) s
  | DeleteAuction id => on_auctionhouse (delete id) s
  | SetMailItemReceiver _ _ | SetItemOwner _ _ | DeleteFromInventory _ | SaveInventory _ | SaveGold _ _ => s
  end.
Definition Append (st : market_statement) : KM unit := modify (execute_on st) ;; emit (Query st).

(** ** Gold *)

Definition GetMoney (s : Market) (u : Z) : Z := default 0 (gold s !! u).
Definition HasEnoughMoney (s : Market) (u amount : Z) : bool := amount <=? GetMoney s u.
Definition SetMoney (u value : Z) : KM unit := modify (on_gold (insert u (u32 value))).

Definition ModifyMoney (u d : Z) : KM unit :=
  emit (OnPlayerMoneyChanged u d) ;;
  with_state (fun s =>
    let money := GetMoney s u in
    if d <? 0 then SetMoney u (if u64 (s32 (- d)) <? money then u32 (money + d) else 0)
    else if money <? u32 (MAX_MONEY_AMOUNT - d) then
      emit (MoneyNotify u d) ;; SetMoney u (u32 (money + d))
    else
      when (negb (d =? 0)) (emit (TooMuchGold u)) ;;
      SetMoney u MAX_MONEY_AMOUNT).
(** [-int32(amount)]. *)
Definition minus_int32 (amount : Z) : Z := s32 (- s32 amount).

Definition SaveGoldToDB (u : Z) : KM unit := with_state (fun s => Append (SaveGold u (GetMoney s u))).
Definition SaveInventoryAndGoldToDB (u : Z) : KM unit := Append (SaveInventory u) ;; SaveGoldToDB u.
