(* ===== verification/Mail.v ===== *)
(** * Mails

    game/Mails/Mail.cpp, the opcode handlers of
    game/Server/Protocol/Handlers/MailHandler.cpp, the mail part of
    game/Entities/Player/Player.cpp and the return of old mails of
    game/Globals/ObjectMgr.cpp, under src/src/server.  A mail is a row of the table;
    a player who is online and has opened a mailbox also has it in memory.  Mails
    with generated items (quests, battlegrounds) are not modelled. *)
From Stdlib Require Import SpecFloat.
From S2P Require Import Prelude Text ByteBuffer Market.

Definition SMSG_SEND_MAIL_RESULT : Z := 0x0E5C0.
Definition SMSG_RECEIVED_MAIL : Z := 0x075E4.
Definition SMSG_MAIL_LIST_RESULT : Z := 0x0F1C8.
Definition MSG_QUERY_NEXT_MAIL_TIME : Z := 0x025C8.

Definition MAIL_SEND : Z := 0.
Definition MAIL_MONEY_TAKEN : Z := 1.
Definition MAIL_ITEM_TAKEN : Z := 2.
Definition MAIL_RETURNED_TO_SENDER : Z := 3.
Definition MAIL_DELETED : Z := 4.
Definition MAIL_MADE_PERMANENT : Z := 5.

Definition MAIL_OK : Z := 0.
Definition MAIL_ERR_EQUIP_ERROR : Z := 1.
Definition MAIL_ERR_CANNOT_SEND_TO_SELF : Z := 2.
Definition MAIL_ERR_NOT_ENOUGH_MONEY : Z := 3.
Definition MAIL_ERR_RECIPIENT_NOT_FOUND : Z := 4.
Definition MAIL_ERR_NOT_YOUR_TEAM : Z := 5.
Definition MAIL_ERR_INTERNAL_ERROR : Z := 6.
Definition MAIL_ERR_RECIPIENT_CAP_REACHED : Z := 15.
Definition MAIL_ERR_CANT_SEND_WRAPPED_COD : Z := 16.
Definition MAIL_ERR_TOO_MANY_ATTACHMENTS : Z := 18.
Definition MAIL_ERR_MAIL_ATTACHMENT_INVALID : Z := 19.

Definition EQUIP_ERR_OK : Z := 0.
Definition EQUIP_ERR_ITEM_NOT_FOUND : Z := 23.
Definition EQUIP_ERR_CAN_ONLY_DO_WITH_EMPTY_BAGS : Z := 31.
Definition EQUIP_ERR_MAIL_BOUND_ITEM : Z := 72.
Definition EQUIP_ERR_ARTEFACTS_ONLY_FOR_OWN_CHARACTERS : Z := 82.

Definition SEC_PLAYER : Z := 0.
Definition HIGHGUID_ITEM : Z := 0x4000.
Definition ACHIEVEMENT_CRITERIA_TYPE_GOLD_SPENT_FOR_MAIL : Z := 66.

Record MailSender := mkSender { s_messageType : Z; s_senderId : Z; s_stationery : Z }.
(** The constructors for an auction, a player, and a plain identifier. *)
Definition auction_sender (a : AuctionEntry) : MailSender :=
  mkSender MAIL_AUCTION (houseId (auctionHouseEntry a)) MAIL_STATIONERY_AUCTION.
Definition player_sender (v : MarketView) (u : Z) : MailSender :=
  mkSender MAIL_NORMAL u (if is_gm v u then MAIL_STATIONERY_GM else MAIL_STATIONERY_DEFAULT).
Definition plain_sender (messageType id : Z) : MailSender := mkSender messageType id MAIL_STATIONERY_DEFAULT.

(** The receiver: the player the server found, and his low GUID. *)
Record MailReceiver := mkReceiver { r_player : option Z; r_lowguid : Z }.
Definition online_ptr (s : Market) (u : Z) : option Z :=
  match GetPlayer s u with Some _ => Some u | None => None end.
Definition receiver_of (s : Market) (low : Z) : MailReceiver := mkReceiver (online_ptr s low) (u32 low).

Record MailDraft := mkDraft {
  d_template : Z;
  d_subject : list Z;
  d_body : list Z;
  d_items : gset Z;
  d_money : Z;
  d_COD : Z
}.
Definition new_draft (subject body : list Z) : MailDraft := mkDraft 0 subject body ∅ 0 0.
Definition template_draft (id : Z) : MailDraft := mkDraft id [] [] ∅ 0 0.
Definition AddItem (item : Z) (d : MailDraft) : MailDraft :=
  mkDraft (d_template d) (d_subject d) (d_body d) ({[ item ]} ∪ d_items d) (d_money d) (d_COD d).
Definition AddMoney (money : Z) (d : MailDraft) : MailDraft :=
  mkDraft (d_template d) (d_subject d) (d_body d) (d_items d) money (d_COD d).
Definition AddCOD (COD : Z) (d : MailDraft) : MailDraft :=
  mkDraft (d_template d) (d_subject d) (d_body d) (d_items d) (d_money d) COD.
Definition draft_empty (d : MailDraft) : bool := bool_decide (d_items d = ∅).

Section mail.
Context `{!Utf8Lib} (v : MarketView).

(** ** The mails of a player (Player.cpp) *)

Definition find_mail (id : Z) (l : list Mail) : option Mail := head (filter (fun m => messageID m = id) l).
Definition GetMail (id : Z) (t : Trader) : option Mail := find_mail id (m_mail t).
(** Writing through the pointer [GetMail] returned. *)
Fixpoint update_first (id : Z) (f : Mail -> Mail) (l : list Mail) : list Mail :=
  match l with
  | [] => []
  | m :: l' => if messageID m =? id then f m :: l' else m :: update_first id f l'
  end.
Definition upd_mail (u id : Z) (f : Mail -> Mail) : KM unit := upd_trader u (set_mails (update_first id f)).
Fixpoint erase_mail (id : Z) (l : list Mail) : list Mail :=
  match l with
  | [] => []
  | m :: l' => if messageID m =? id then l' else m :: erase_mail id l'
  end.
Definition RemoveMail (u id : Z) : KM unit := upd_trader u (set_mails (erase_mail id)).
Definition AddMail (u : Z) (m : Mail) : KM unit := upd_trader u (set_mails (cons m)).
Definition AddMItem (u item : Z) : KM unit := upd_trader u (set_mitems (union {[ item ]})).
Definition RemoveMItem (u item : Z) : KM unit := upd_trader u (set_mitems (fun t => t ∖ {[ item ]})).
Definition GetMItem (item : Z) (t : Trader) : bool := bool_decide (item ∈ mMitems t).
Definition GetMailSize (t : Trader) : Z := Z.of_nat (length (m_mail t)).

Definition SendMailResult (u mailId mailAction mailError equipError item_guid item_count : Z) : KM unit :=
  emit (MarketPacket u (Pkt SMSG_SEND_MAIL_RESULT
    ([FU 4 mailId; FU 4 mailAction; FU 4 mailError] ++
     (if mailError =? MAIL_ERR_EQUIP_ERROR then [FU 4 equipError]
      else if mailAction =? MAIL_ITEM_TAKEN then [FU 4 item_guid; FU 4 item_count]
      else [])))).
Definition SendNewMail (u : Z) : KM unit := emit (MarketPacket u (Pkt SMSG_RECEIVED_MAIL [FU 4 0])).

Definition is_unread (m : Mail) : bool := Z.land (m_checked m) MAIL_CHECK_MASK_READ =? 0.
(** One turn of the loop: the next delivery and the mails not read. *)
Definition count_mail (acc : Z * Z) (m : Mail) : Z * Z :=
  let '(next, unread) := acc in
  if now v <? m_deliver_time m then
    (if (next =? 0) || (m_deliver_time m <? next) then m_deliver_time m else next, unread)
  else (next, if is_unread m then u8 (unread + 1) else unread).
Definition UpdateNextMailTimeAndUnreads (u : Z) : KM unit := with_trader u (fun t =>
  let '(next, unread) := foldl count_mail (0, 0) (m_mail t) in
  upd_trader u (set_unread unread next)).

Definition AddNewMailDeliverTime (u deliver_time : Z) : KM unit := with_trader u (fun t =>
  if deliver_time <=? now v then
    upd_trader u (set_unread (u8 (unReadMails t + 1)) (m_nextMailDelivereTime t)) ;;
    SendNewMail u
  else
    when ((m_nextMailDelivereTime t =? 0) || (deliver_time <? m_nextMailDelivereTime t))
      (upd_trader u (set_unread (unReadMails t) deliver_time))).

(** The start of [Player::Update]. *)
Definition Update_mail (u : Z) : KM unit := with_trader u (fun t =>
  when (t_inWorld t && negb (m_nextMailDelivereTime t =? 0) && (m_nextMailDelivereTime t <=? now v))
    (SendNewMail u ;; upd_trader u (set_unread (u8 (unReadMails t + 1)) 0))).

(** The rows the query of the unread mails finds for a player who logs in. *)
Definition unread_rows (u : Z) (s : Market) : list MailRow :=
  filter (fun r => r_receiver r = u /\ Z.land (r_checked r) MAIL_CHECK_MASK_READ = 0) (snd <$> omap_list (mail s)).
Definition _LoadMailInit (u : Z) : KM unit := with_state (fun s =>
  let rows := unread_rows u s in
  let delivered := filter (fun r => r_deliver_time r <= now v) rows in
  upd_trader u (set_unread (u8 (Z.of_nat (length delivered)))
    (match r_deliver_time <$> rows with [] => 0 | x :: l => foldl Z.min x l end))).

(** [_LoadMailedItems]: the rows of mail_items that have an item. *)
Definition load_item (u item : Z) : KM unit :=
  if negb (item_has_proto v (GetEntry v item)) then
    Append (DeleteMailItem item) ;; Append (DeleteItemInstance item)
  else if negb (item_loads v item) then
    Append (DeleteMailItem item) ;; Append (DeleteItemInstance item)
  else AddMItem u item.
Definition mail_item_rows (id : Z) (s : Market) : list Z :=
  filter (fun item => (id, item) ∈ mail_items s) (oset_list (item_instance s)).
Definition _LoadMailedItems (u id : Z) : KM (list (Z * Z)) := with_state (fun s =>
  let its := mail_item_rows id s in
  for_each its (load_item u) ;;
  ret ((fun item => (item, GetEntry v item)) <$> its)).

Definition load_mail (u : Z) (p : Z * MailRow) : KM unit :=
  let '(id, r) := p in
  let! its := if r_has_items r then _LoadMailedItems u id else ret [] in
  let template := match mail_template v (r_mailTemplateId r) with Some _ => r_mailTemplateId r | None => 0 end in
  upd_trader u (set_mails (fun l => l ++ [mkMail id (r_messageType r) (r_stationery r) template (r_sender r)
    (r_receiver r) (r_subject r) (r_body r) its [] (u32 (r_expire_time r)) (u32 (r_deliver_time r)) (r_money r) (r_cod r)
    (r_checked r) MAIL_STATE_UNCHANGED])).
Definition _LoadMail (u : Z) : KM unit :=
  upd_trader u (set_mails (fun _ => [])) ;;
  with_state (fun s =>
    for_each (rev (filter (fun p => r_receiver p.2 = u) (omap_list (mail s)))) (load_mail u)) ;;
  upd_trader u set_mails_loaded.

(** [_SaveMail]: the statements for one mail. *)
Definition save_mail (m : Mail) : KM unit :=
  match m_state m with
  | MAIL_STATE_CHANGED =>
      Append (UpdateMail (messageID m) (HasItems m) (m_expire_time m) (m_deliver_time m) (u32 (m_money m))
        (u32 (m_COD m)) (m_checked m)) ;;
      for_each (removedItems m) (fun item => Append (DeleteMailItem item))
  | MAIL_STATE_DELETED =>
      for_each (items m) (fun it => Append (DeleteItemInstance it.1)) ;;
      Append (DeleteMail (messageID m)) ;;
      Append (DeleteItemsOfMail (messageID m))
  | MAIL_STATE_UNCHANGED => ret tt
  end.
Definition saved_mail (m : Mail) : Mail :=
  if bool_decide (m_state m = MAIL_STATE_CHANGED) then set_state MAIL_STATE_UNCHANGED (set_items (items m) [] m)
  else m.
Definition _SaveMail (u : Z) : KM unit := with_trader u (fun t =>
  when (m_mailsLoaded t)
    (for_each (m_mail t) save_mail ;;
     upd_trader u (set_mails (fun l => filter (fun m => m_state m <> MAIL_STATE_DELETED) (saved_mail <$> l))) ;;
     upd_trader u (set_mails_updated false))).

(** ** Sending (Mail.cpp) *)

Definition GenerateMailID : KM Z := with_state (fun s =>
  when (0xFFFFFFFE <=? m_mailid s) (emit IdOverflow) ;;
  modify next_mailid ;;
  ret (m_mailid s)).

Definition expire_delay (sender : MailSender) (d : MailDraft) : Z :=
  if (s_messageType sender =? MAIL_AUCTION) && draft_empty d && (d_money d =? 0) then CONFIG_MAIL_DELIVERY_DELAY v
  else if (s_messageType sender =? MAIL_CREATURE) && is_battlemaster v (s_senderId sender) then DAY
  else if 0 <? d_COD d then 3 * DAY else 30 * DAY.

Definition mail_row (receiver : MailReceiver) (sender : MailSender) (checked deliver_time expire_time : Z)
    (d : MailDraft) : MailRow :=
  mkMailRow (u8 (s_messageType sender)) (s8 (s_stationery sender)) (u16 (d_template d)) (s_senderId sender)
    (r_lowguid receiver) (d_subject d) (d_body d) (negb (draft_empty d)) expire_time deliver_time
    (u32 (d_money d)) (u32 (d_COD d)) (u8 checked).
(** The mail given to a player who has his mails loaded. *)
Definition new_mail (id : Z) (receiver : MailReceiver) (sender : MailSender) (checked deliver_time expire_time : Z)
    (d : MailDraft) : Mail :=
  mkMail id (u8 (s_messageType sender)) (u8 (s_stationery sender)) (d_template d) (s_senderId sender)
    (r_lowguid receiver) (d_subject d) (d_body d) ((fun i => (i, GetEntry v i)) <$> oset_list (d_items d)) []
    expire_time deliver_time (d_money d) (d_COD d) checked MAIL_STATE_UNCHANGED.

(** [deleteIncludedItems]. *)
Definition deleteIncludedItems (d : MailDraft) (inDB : bool) : KM unit :=
  when inDB (for_each (oset_list (d_items d)) (fun i => Append (DeleteItemInstance i))) ;;
  emit (ItemsFreed (oset_list (d_items d))).

Definition SendMailTo (receiver : MailReceiver) (sender : MailSender) (checked deliver_delay : Z) (d : MailDraft) : KM unit :=
  let! mailId := GenerateMailID in
  let deliver_time := now v + deliver_delay in
  let expire_time := deliver_time + expire_delay sender d in
  Append (InsertMail mailId (mail_row receiver sender checked deliver_time expire_time d)) ;;
  for_each (oset_list (d_items d)) (fun i => Append (InsertMailItem mailId i (r_lowguid receiver))) ;;
  match r_player receiver with
  | Some p => with_trader p (fun t =>
      AddNewMailDeliverTime p deliver_time ;;
      if m_mailsLoaded t then
        AddMail p (new_mail mailId receiver sender checked deliver_time expire_time d) ;;
        for_each (oset_list (d_items d)) (AddMItem p)
      else when (negb (draft_empty d)) (deleteIncludedItems d false))
  | None => when (negb (draft_empty d)) (deleteIncludedItems d false)
  end.

(** A character exists: he is found online or has an account. *)
Definition character_exists (s : Market) (u : Z) : bool :=
  bool_decide (is_Some (GetPlayer s u)) || negb (account_of v u =? 0).

Definition SendReturnToSender (sender_acc sender_guid receiver_guid : Z) (d : MailDraft) : KM unit := with_state (fun s =>
  if negb (character_exists s receiver_guid) then deleteIncludedItems d true
  else
    let rc_account := match GetPlayer s receiver_guid with Some _ => 0 | None => account_of v receiver_guid end in
    let needItemDelay := negb (draft_empty d) && negb (sender_acc =? rc_account) in
    for_each (oset_list (d_items d)) (fun i => Append (SaveItem i) ;; Append (SetItemOwner receiver_guid i)) ;;
    SendMailTo (receiver_of s receiver_guid) (plain_sender MAIL_NORMAL sender_guid) MAIL_CHECK_MASK_RETURNED
      (if needItemDelay then CONFIG_MAIL_DELIVERY_DELAY v else 0) d).

(** ** Items *)

(** [GetItemByGuid] of a player: the items he carries. *)
Definition GetItemByGuid (s : Market) (u guid : Z) : option Z :=
  let low := GUID_LOPART guid in
  if (MAKE_NEW_GUID low 0 HIGHGUID_ITEM =? guid) && bool_decide (inventory s !! low = Some u) then Some low else None.
Definition MoveItemFromInventory (item : Z) : KM unit := modify (on_inventory (delete item)).
Definition CanStoreItem (u : Z) (item : option Z) : Z :=
  match item with Some i => _CanStoreItem v u i | None => EQUIP_ERR_ITEM_NOT_FOUND end.
Definition StoreItem (u item : Z) : KM unit :=
  if StoreItem_merges v u item then modify (execute_on (DeleteItemInstance item))
  else modify (on_inventory (insert item u)).
Definition MoveItemToInventory (u item : Z) : KM unit := StoreItem u item.

(** ** Opcode handlers (MailHandler.cpp) *)

Definition with_packet {A} (parse : B A) (recv_data : ByteBuffer) (k : A -> KM unit) : KM unit :=
  match (parse recv_data).1 with Ok a => k a | Err _ => ret tt end.

Record SentMail := mkSentMail {
  sm_mailbox : Z;
  sm_receiver : list Z;
  sm_subject : list Z;
  sm_body : list Z;
  sm_items : list Z;
  sm_money : Z;
  sm_COD : Z
}.
Fixpoint parse_item_guids (n : nat) : B (list Z) :=
  match n with
  | O => bret []
  | S n' =>
      let? _ := read_skip 1 in let? guid := shr_uint 8 in
      let? guids := parse_item_guids n' in bret (guid :: guids)
  end.
(** [None]: more items than a mail may have. *)
Definition parse_sent_mail : B (option SentMail) :=
  let? mailbox := shr_uint 8 in
  let? receiver := shr_string in
  let? subject := shr_string in
  let? body := shr_string in
  let? _ := shr_uint 4 in
  let? _ := shr_uint 4 in
  let? items_count := shr_uint 1 in
  if MAX_MAIL_ITEMS <? items_count then bret None
  else
    let? guids := parse_item_guids (Z.to_nat items_count) in
    let? money := shr_uint 8 in
    let? COD := shr_uint 8 in
    let? _ := shr_uint 8 in
    let? _ := shr_uint 1 in
    bret (Some (mkSentMail mailbox receiver subject body guids money COD)).

Definition mail_error (u action error : Z) : KM unit := SendMailResult u 0 action error 0 0 0.
Definition mail_equip_error (u error : Z) : KM unit := SendMailResult u 0 MAIL_SEND MAIL_ERR_EQUIP_ERROR error 0 0.

(** The loop that finds out whether all attached items are bound to the account. *)
Definition all_account_bound (s : Market) (u : Z) (guids : list Z) : bool :=
  negb (bool_decide (guids = [])) &&
  forallb (fun guid => match GetItemByGuid s u guid with Some i => BIND_TO_ACCOUNT v i | None => true end) guids.

(** What an attachment is refused with: an error of its own or one of the inventory. *)
Definition refuse_attachment (s : Market) (u COD rc_account guid : Z) : option (KM unit) :=
  if guid =? 0 then Some (mail_error u MAIL_SEND MAIL_ERR_MAIL_ATTACHMENT_INVALID)
  else match GetItemByGuid s u guid with
  | None => Some (mail_error u MAIL_SEND MAIL_ERR_MAIL_ATTACHMENT_INVALID)
  | Some i =>
      if negb (CanBeTraded v i true) then Some (mail_equip_error u EQUIP_ERR_MAIL_BOUND_ITEM)
      else if bound_account_wide v i && negb (account_of v u =? rc_account) then
        Some (mail_equip_error u EQUIP_ERR_ARTEFACTS_ONLY_FOR_OWN_CHARACTERS)
      else if conjured_or_timed v i then Some (mail_equip_error u EQUIP_ERR_MAIL_BOUND_ITEM)
      else if negb (COD =? 0) && is_wrapped v i then Some (mail_error u MAIL_SEND MAIL_ERR_CANT_SEND_WRAPPED_COD)
      else if is_filled_bag v i then Some (mail_equip_error u EQUIP_ERR_CAN_ONLY_DO_WITH_EMPTY_BAGS)
      else None
  end.
(** The items, or the answer to the first that is refused. *)
Fixpoint collect_items (s : Market) (u COD rc_account : Z) (guids : list Z) : KM unit + list Z :=
  match guids with
  | [] => inr []
  | guid :: guids' =>
      match refuse_attachment s u COD rc_account guid with
      | Some answer => inl answer
      | None =>
          match collect_items s u COD rc_account guids' with
          | inl answer => inl answer
          | inr l => inr (GUID_LOPART guid :: l)
          end
      end
  end.

(** An item leaves the inventory for the mail. *)
Definition attach_item (rc item : Z) : KM unit :=
  MoveItemFromInventory item ;;
  Append (DeleteFromInventory item) ;;
  Append (SaveItem item) ;;
  Append (SetItemOwner (GUID_LOPART rc) item).

(** Everything has been checked: pay, collect and send. *)
Definition post_mail (u rc rc_account reqmoney cost : Z) (its : list Z) (m : SentMail) : KM unit :=
  mail_error u MAIL_SEND MAIL_OK ;;
  ModifyMoney u (minus_int32 reqmoney) ;;
  emit (MarketAchievement u ACHIEVEMENT_CRITERIA_TYPE_GOLD_SPENT_FOR_MAIL cost) ;;
  for_each its (attach_item rc) ;;
  let needItemDelay := negb (bool_decide (its = [])) && negb (account_of v u =? rc_account) in
  with_state (fun s =>
    SendMailTo (mkReceiver (online_ptr s rc) (GUID_LOPART rc)) (player_sender v u)
      (if bool_decide (sm_body m = []) then MAIL_CHECK_MASK_COPIED else MAIL_CHECK_MASK_HAS_BODY)
      (if needItemDelay then CONFIG_MAIL_DELIVERY_DELAY v else 0)
      (AddCOD (sm_COD m) (AddMoney (sm_money m)
        (foldr AddItem (new_draft (sm_subject m) (sm_body m)) its)))) ;;
  SaveInventoryAndGoldToDB u.

(** The number of mails of the receiver: of those in memory, or of his rows. *)
Definition mails_count (s : Market) (rc : Z) : Z :=
  match GetPlayer s rc with
  | Some t => u8 (GetMailSize t)
  | None => u8 (Z.of_nat (size (filter (fun p => r_receiver p.2 = GUID_LOPART rc) (mail s))))
  end.

Definition mail_cost (items_count : Z) : Z := if items_count =? 0 then 30 else 30 * items_count.

Definition HandleSendMail (u : Z) (recv_data : ByteBuffer) : KM unit :=
  with_packet parse_sent_mail recv_data (fun parsed =>
    match parsed with
    | None => mail_error u MAIL_SEND MAIL_ERR_TOO_MANY_ATTACHMENTS
    | Some m =>
        if negb (mailbox_near v u (sm_mailbox m)) then ret tt
        else if bool_decide (sm_receiver m = []) then ret tt
        else if level_of v u <? CONFIG_MAIL_LEVEL_REQ v then
          emit (MarketNotification u (CONFIG_MAIL_LEVEL_REQ v))
        else
          let rc := match normalizePlayerName (sm_receiver m) with Conv name => guid_by_name v name | _ => 0 end in
          if rc =? 0 then mail_error u MAIL_SEND MAIL_ERR_RECIPIENT_NOT_FOUND
          else if u =? rc then mail_error u MAIL_SEND MAIL_ERR_CANNOT_SEND_TO_SELF
          else
            let cost := mail_cost (Z.of_nat (length (sm_items m))) in
            let reqmoney := u64 (cost + sm_money m) in
            with_state (fun s =>
              if negb (HasEnoughMoney s u (u32 reqmoney)) then mail_error u MAIL_SEND MAIL_ERR_NOT_ENOUGH_MONEY
              else if 100 <? mails_count s rc then mail_error u MAIL_SEND MAIL_ERR_RECIPIENT_CAP_REACHED
              else if negb (all_account_bound s u (sm_items m)) &&
                      negb (CONFIG_ALLOW_TWO_SIDE_INTERACTION_MAIL v) &&
                      negb (team_of v u =? team_of v rc) && (GetSecurity v u =? SEC_PLAYER) then
                mail_error u MAIL_SEND MAIL_ERR_NOT_YOUR_TEAM
              else if u8 (level_of v rc) <? CONFIG_MAIL_LEVEL_REQ v then
                emit (MarketNotification u (CONFIG_MAIL_LEVEL_REQ v))
              else
                match collect_items s u (sm_COD m) (account_of v rc) (sm_items m) with
                | inl answer => answer
                | inr its => post_mail u rc (account_of v rc) reqmoney cost its m
                end)
    end).

(** A mailbox and the identifier of a mail. *)
Definition parse_mail_id : B (Z * Z) := let? mailbox := shr_uint 8 in let? mailId := shr_uint 4 in bret (mailbox, mailId).
Definition at_mailbox {A} (parse : B (Z * A)) (u : Z) (recv_data : ByteBuffer) (k : A -> Trader -> KM unit) : KM unit :=
  with_packet parse recv_data (fun '(mailbox, a) =>
    if negb (mailbox_near v u mailbox) then ret tt else with_trader u (k a)).

Definition HandleMailMarkAsRead (u : Z) (recv_data : ByteBuffer) : KM unit :=
  at_mailbox parse_mail_id u recv_data (fun mailId t =>
    match GetMail mailId t with
    | None => ret tt
    | Some _ =>
        when (negb (unReadMails t =? 0))
          (upd_trader u (set_unread (unReadMails t - 1) (m_nextMailDelivereTime t))) ;;
        upd_mail u mailId (check_mail MAIL_CHECK_MASK_READ) ;;
        upd_trader u (set_mails_updated true)
    end).

Definition parse_mail_and (n : nat) : B (Z * Z) :=
  let? mailbox := shr_uint 8 in let? mailId := shr_uint 4 in let? _ := read_skip (Z.of_nat n) in bret (mailbox, mailId).

Definition HandleMailDelete (u : Z) (recv_data : ByteBuffer) : KM unit :=
  at_mailbox (parse_mail_and 4) u recv_data (fun mailId t =>
    upd_trader u (set_mails_updated true) ;;
    match GetMail mailId t with
    | Some m =>
        if negb (m_COD m =? 0) then SendMailResult u mailId MAIL_DELETED MAIL_ERR_INTERNAL_ERROR 0 0 0
        else
          upd_mail u mailId (set_state MAIL_STATE_DELETED) ;;
          SendMailResult u mailId MAIL_DELETED MAIL_OK 0 0 0
    | None => SendMailResult u mailId MAIL_DELETED MAIL_OK 0 0 0
    end).

(** The mail that may be opened: there, not deleted and delivered. *)
Definition open_mail (mailId : Z) (t : Trader) : option Mail :=
  match GetMail mailId t with
  | Some m =>
      if bool_decide (m_state m = MAIL_STATE_DELETED) || (now v <? m_deliver_time m) then None else Some m
  | None => None
  end.

Definition HandleMailReturnToSender (u : Z) (recv_data : ByteBuffer) : KM unit :=
  at_mailbox (parse_mail_and 8) u recv_data (fun mailId t =>
    match open_mail mailId t with
    | None => SendMailResult u mailId MAIL_RETURNED_TO_SENDER MAIL_ERR_INTERNAL_ERROR 0 0 0
    | Some m =>
        Append (DeleteMail mailId) ;;
        Append (DeleteItemsOfMail mailId) ;;
        RemoveMail u mailId ;;
        when ((messageType m =? MAIL_NORMAL) && negb (m_sender m =? 0))
          (let draft := if negb (mailTemplateId m =? 0) then template_draft (mailTemplateId m)
                        else new_draft (m_subject m) (m_body m) in
           let its := filter (fun i => i ∈ mMitems t) (fst <$> items m) in
           for_each (fst <$> items m) (RemoveMItem u) ;;
           SendReturnToSender (account_of v u) (m_receiver m) (m_sender m)
             (AddMoney (m_money m) (foldr AddItem draft its))) ;;
        SendMailResult u mailId MAIL_RETURNED_TO_SENDER MAIL_OK 0 0 0
    end).

Definition parse_mail_item : B (Z * (Z * Z)) :=
  let? mailbox := shr_uint 8 in let? mailId := shr_uint 4 in let? itemId := shr_uint 4 in bret (mailbox, (mailId, itemId)).

(** The payment of a COD mail goes to its sender. *)
Definition pay_COD (u : Z) (m : Mail) : KM unit := with_state (fun s =>
  when (character_exists s (m_sender m))
    (SendMailTo (receiver_of s (m_sender m)) (plain_sender MAIL_NORMAL (m_receiver m)) MAIL_CHECK_MASK_COD_PAYMENT 0
      (AddMoney (m_COD m) (new_draft (m_subject m) []))) ;;
  ModifyMoney u (minus_int32 (m_COD m))).

Definition HandleMailTakeItem (u : Z) (recv_data : ByteBuffer) : KM unit :=
  at_mailbox parse_mail_item u recv_data (fun '(mailId, itemId) t =>
    match open_mail mailId t with
    | None => SendMailResult u mailId MAIL_ITEM_TAKEN MAIL_ERR_INTERNAL_ERROR 0 0 0
    | Some m => with_state (fun s =>
        if negb (HasEnoughMoney s u (u32 (m_COD m))) then
          SendMailResult u mailId MAIL_ITEM_TAKEN MAIL_ERR_NOT_ENOUGH_MONEY 0 0 0
        else
          let msg := CanStoreItem u (if GetMItem itemId t then Some itemId else None) in
          if msg =? EQUIP_ERR_OK then
            upd_mail u mailId (fun m => set_items (RemoveItem itemId (items m)) (removedItems m ++ [itemId]) m) ;;
            when (0 <? m_COD m) (pay_COD u m) ;;
            upd_mail u mailId (fun m => set_money_COD (m_money m) 0 m) ;;
            upd_trader u (set_mails_updated true) ;;
            RemoveMItem u itemId ;;
            MoveItemToInventory u itemId ;;
            SaveInventoryAndGoldToDB u ;;
            _SaveMail u ;;
            SendMailResult u mailId MAIL_ITEM_TAKEN MAIL_OK 0 itemId (GetCount v itemId)
          else SendMailResult u mailId MAIL_ITEM_TAKEN MAIL_ERR_EQUIP_ERROR msg 0 0)
    end).

Definition HandleMailTakeMoney (u : Z) (recv_data : ByteBuffer) : KM unit :=
  at_mailbox (parse_mail_and 8) u recv_data (fun mailId t =>
    match open_mail mailId t with
    | None => SendMailResult u mailId MAIL_MONEY_TAKEN MAIL_ERR_INTERNAL_ERROR 0 0 0
    | Some m =>
        SendMailResult u mailId MAIL_MONEY_TAKEN MAIL_OK 0 0 0 ;;
        ModifyMoney u (s32 (m_money m)) ;;
        upd_mail u mailId (fun m => set_money_COD 0 (m_COD m) m) ;;
        upd_trader u (set_mails_updated true) ;;
        SaveGoldToDB u ;;
        _SaveMail u
    end).

(** *** The list of mails *)

Definition maxPacketSize : Z := 32767.
Definition mail_item_fields (t : Trader) (i : Z) (item : Z) : list field :=
  let has := GetMItem item t in
  let val (x : Z) := if has then u32 x else 0 in
  [FU 1 i; FU 4 (val item); FU 4 (val (GetEntry v item))] ++
  concat ((fun j => let '(id, duration, charges) := GetEnchantment v item j in
                    [FU 4 (val id); FU 4 (val duration); FU 4 (val charges)]) <$> seq 0 MAX_INSPECTED_ENCHANTMENT_SLOT) ++
  replicate 6 (FU 4 0) ++
  [FU 4 (val (GetItemRandomPropertyId v item)); FU 4 (val (GetItemSuffixFactor v item)); FU 4 (val (GetCount v item));
   FU 4 (val (GetSpellCharges v item)); FU 4 (val (item_durability v item).1); FU 4 (val (item_durability v item).2); FU 1 0].
Definition next_mail_size (m : Mail) : Z :=
  2 + 4 + 1 + (if messageType m =? MAIL_NORMAL then 8 else 4) + 4 * 8 + (Z.of_nat (length (m_subject m)) + 1) +
  (Z.of_nat (length (m_body m)) + 1) + 1 +
  u8 (Z.of_nat (length (items m))) * (1 + 4 + 4 + 7 * 3 * 4 + 4 + 4 + 4 + 4 + 4 + 4 + 1).
Definition mail_sender_fields (m : Mail) : list field :=
  if messageType m =? MAIL_NORMAL then [FU 8 (MAKE_NEW_GUID (m_sender m) 0 0)]
  else if (messageType m =? MAIL_CREATURE) || (messageType m =? MAIL_GAMEOBJECT) || (messageType m =? MAIL_AUCTION) then
    [FU 4 (m_sender m)]
  else if messageType m =? MAIL_ITEM then [FU 4 0]
  else [].
Definition mail_fields (t : Trader) (m : Mail) : list field :=
  let item_count := u8 (Z.of_nat (length (items m))) in
  [FU 2 (u16 (next_mail_size m)); FU 4 (messageID m); FU 1 (messageType m)] ++ mail_sender_fields m ++
  [FU 8 (m_COD m); FU 4 0; FU 4 (stationery m); FU 8 (m_money m); FU 4 (m_checked m);
   FU 4 (bits_f32 (f32 (Z.quot (m_expire_time m - now v) DAY))); FU 4 (mailTemplateId m);
   FStr (m_subject m); FStr (m_body m); FU 1 item_count] ++
  concat (imap (fun i it => mail_item_fields t (Z.of_nat i) it.1) (take (Z.to_nat item_count) (items m))).
(** One turn of the loop over the mails: the counts and what is written. *)
Definition list_mail (t : Trader) (acc : Z * Z * list field) (m : Mail) : Z * Z * list field :=
  let '(mailsCount, realCount, data) := acc in
  if 254 <=? mailsCount then (mailsCount, u32 (realCount + 1), data)
  else if bool_decide (m_state m = MAIL_STATE_DELETED) || (now v <? m_deliver_time m) then acc
  else if maxPacketSize <? 5 + Z.of_nat (length (ser data)) + next_mail_size m then (mailsCount, u32 (realCount + 1), data)
  else (mailsCount + 1, u32 (realCount + 1), data ++ mail_fields t m).

Definition HandleGetMailList (u : Z) (recv_data : ByteBuffer) : KM unit :=
  with_packet (shr_uint 8) recv_data (fun mailbox =>
    if negb (mailbox_near v u mailbox) then ret tt
    else with_trader u (fun t0 =>
      when (negb (m_mailsLoaded t0)) (_LoadMail u) ;;
      with_trader u (fun t =>
        let '(mailsCount, realCount, data) := foldl (list_mail t) (0, 0, []) (m_mail t) in
        emit (MarketPacket u (Pkt SMSG_MAIL_LIST_RESULT ([FU 4 realCount; FU 1 (u8 mailsCount)] ++ data))) ;;
        UpdateNextMailTimeAndUnreads u))).

(** The text of a mail becomes an item. *)
Definition HandleMailCreateTextItem (u : Z) (recv_data : ByteBuffer) : KM unit :=
  at_mailbox parse_mail_id u recv_data (fun mailId t =>
    match open_mail mailId t with
    | None => SendMailResult u mailId MAIL_MADE_PERMANENT MAIL_ERR_INTERNAL_ERROR 0 0 0
    | Some m =>
        if bool_decide (m_body m = []) && (mailTemplateId m =? 0) then
          SendMailResult u mailId MAIL_MADE_PERMANENT MAIL_ERR_INTERNAL_ERROR 0 0 0
        else if negb (item_has_proto v MAIL_BODY_ITEM_TEMPLATE) then ret tt
        else if negb (mailTemplateId m =? 0) && negb (bool_decide (is_Some (mail_template v (mailTemplateId m)))) then
          SendMailResult u mailId MAIL_MADE_PERMANENT MAIL_ERR_INTERNAL_ERROR 0 0 0
        else
          let msg := CanStoreItem u (Some (new_item v)) in
          if msg =? EQUIP_ERR_OK then
            upd_mail u mailId (check_mail MAIL_CHECK_MASK_COPIED) ;;
            upd_trader u (set_mails_updated true) ;;
            StoreItem u (new_item v) ;;
            SendMailResult u mailId MAIL_MADE_PERMANENT MAIL_OK 0 0 0
          else SendMailResult u mailId MAIL_MADE_PERMANENT MAIL_ERR_EQUIP_ERROR msg 0 0
    end).

(** The first two mails that are delivered and not read. *)
Definition next_mail_fields (m : Mail) : list field :=
  (if negb (messageType m =? 0) then [FU 8 (m_sender m)] else [FU 4 (m_sender m)]) ++
  (if messageType m =? MAIL_AUCTION then [FU 4 2; FU 4 2; FU 4 (stationery m)]
   else [FU 4 0; FU 4 0; FU 4 (stationery m)]) ++
  [FU 4 0xC6000000].
Definition HandleQueryNextMailTime (u : Z) : KM unit := with_trader u (fun t0 =>
  when (negb (m_mailsLoaded t0)) (_LoadMail u) ;;
  with_trader u (fun t =>
    if 0 <? unReadMails t then
      let shown := take 2 (filter (fun m => is_unread m = true /\ m_deliver_time m <= now v) (m_mail t)) in
      emit (MarketPacket u (Pkt MSG_QUERY_NEXT_MAIL_TIME
        ([FU 4 0; FU 4 (Z.of_nat (length shown))] ++ concat (next_mail_fields <$> shown))))
    else emit (MarketPacket u (Pkt MSG_QUERY_NEXT_MAIL_TIME [FU 4 0xC7A8C000; FU 4 0])))).

(** ** Old mails (ObjectMgr.cpp) *)

(** A mail that is returned keeps its row. *)
Definition return_row (id : Z) (r : MailRow) (its : list Z) : KM unit :=
  Append (SetMailReturned id (r_receiver r) (r_sender r) (now v + 30 * DAY) (now v) MAIL_CHECK_MASK_RETURNED) ;;
  for_each its (fun i => Append (SetMailItemReceiver (r_sender r) i) ;; Append (SetItemOwner (r_sender r) i)).

Definition expire_mail (serverUp : bool) (p : Z * MailRow) : KM unit := with_state (fun s =>
  let '(id, r) := p in
  let in_use := serverUp && match GetPlayer s (r_receiver r) with Some t => m_mailsLoaded t | None => false end in
  if in_use then ret tt
  else
    let its := mail_item_rows id s in
    if r_has_items r then
      if negb (r_messageType r =? MAIL_NORMAL) ||
         negb (Z.land (r_checked r) (Z.lor MAIL_CHECK_MASK_COD_PAYMENT MAIL_CHECK_MASK_RETURNED) =? 0) then
        for_each its (fun i => Append (DeleteItemInstance i)) ;; Append (DeleteMail id)
      else return_row id r its
    else Append (DeleteMail id)).
Definition ReturnOrDeleteOldMails (serverUp : bool) : KM unit :=
  when (negb serverUp) (Append (DeleteEmptyExpired (now v))) ;;
  with_state (fun s =>
    for_each (filter (fun p => r_expire_time p.2 < now v) (omap_list (mail s))) (expire_mail serverUp)).

(** ** Sessions *)

(** A player logs in: a new [Player] without mails, told of what waits for him. *)
Definition LoginTrader (u : Z) : KM unit := with_state (fun s =>
  match online s !! u with
  | Some _ => ret tt
  | None =>
      modify (on_online (insert u (mkTrader true [] false false 0 0 ∅))) ;;
      _LoadMailInit u
  end).
(** [SaveToDB] when he logs out. *)
Definition LogoutTrader (u : Z) : KM unit := with_trader u (fun t =>
  when (m_mailsUpdated t) (_SaveMail u) ;;
  Append (SaveInventory u) ;;
  SaveGoldToDB u ;;
  modify (on_online (delete u))).
Definition TravelTrader (u : Z) (arrives : bool) : KM unit := upd_trader u (set_trader_inWorld arrives).

End mail.
