(* ===== verification/Auction.v ===== *)
(** * Auctions

    game/AuctionHouse/AuctionHouseMgr.cpp and the opcode handlers of
    game/Server/Protocol/Handlers/AuctionHouseHandler.cpp, under src/src/server.
    The three houses are the maps of [Market]; [AuctionEntry] has the members of the
    structure but the faction template, which is only set when auctions are loaded. *)
From Stdlib Require Import SpecFloat.
From S2P Require Import Prelude Text ByteBuffer Market Mail.

Definition MSG_AUCTION_HELLO : Z := 0x0B3A0.
Definition SMSG_AUCTION_COMMAND_RESULT : Z := 0x0AAE0.
Definition SMSG_AUCTION_LIST_RESULT : Z := 0x0E5A8.
Definition SMSG_AUCTION_OWNER_LIST_RESULT : Z := 0x03CA8.
Definition SMSG_AUCTION_BIDDER_NOTIFICATION : Z := 0x0ACEC.
Definition SMSG_AUCTION_OWNER_NOTIFICATION : Z := 0x06C80.
Definition SMSG_AUCTION_BIDDER_LIST_RESULT : Z := 0x0A1A8.
Definition SMSG_AUCTION_REMOVED_NOTIFICATION : Z := 0x0B1EC.
Definition SMSG_AUCTION_LIST_PENDING_SALES : Z := 0x0BAC4.

Definition AH_MINIMUM_DEPOSIT : Z := 100.
Definition MIN_AUCTION_TIME : Z := 12 * HOUR.

Definition AUCTION_OK : Z := 0.
Definition AUCTION_INTERNAL_ERROR : Z := 2.
Definition AUCTION_NOT_ENOUGHT_MONEY : Z := 3.
Definition AUCTION_ITEM_NOT_FOUND : Z := 4.
Definition CANNOT_BID_YOUR_AUCTION_ERROR : Z := 10.

Definition AUCTION_SELL_ITEM : Z := 0.
Definition AUCTION_CANCEL : Z := 1.
Definition AUCTION_PLACE_BID : Z := 2.

Definition AUCTION_OUTBIDDED : Z := 0.
Definition AUCTION_WON : Z := 1.
Definition AUCTION_SUCCESSFUL : Z := 2.
Definition AUCTION_EXPIRED : Z := 3.
Definition AUCTION_CANCELLED_TO_BIDDER : Z := 4.
Definition AUCTION_CANCELED : Z := 5.
Definition AUCTION_SALE_PENDING : Z := 6.

Definition FACTION_MASK_ALLIANCE : Z := 2.
Definition FACTION_MASK_HORDE : Z := 4.

Definition ACHIEVEMENT_CRITERIA_TYPE_GOLD_EARNED_BY_AUCTIONS : Z := 80.
Definition ACHIEVEMENT_CRITERIA_TYPE_CREATE_AUCTION : Z := 82.
Definition ACHIEVEMENT_CRITERIA_TYPE_HIGHEST_AUCTION_BID : Z := 83.
Definition ACHIEVEMENT_CRITERIA_TYPE_WON_AUCTIONS : Z := 84.
Definition ACHIEVEMENT_CRITERIA_TYPE_HIGHEST_AUCTION_SOLD : Z := 85.

(** The numbers of a mail's text: hexadecimal, at least sixteen wide. *)
Fixpoint hex_digits (fuel : nat) (n : Z) (acc : list Z) : list Z :=
  match fuel with
  | O => acc
  | S f =>
      let d := n mod 16 in
      let acc' := (if d <? 10 then 48 + d else 87 + d) :: acc in
      if n / 16 =? 0 then acc' else hex_digits f (n / 16) acc'
  end.
Definition hex16 (n : Z) : list Z :=
  let digits := hex_digits 16 n [] in replicate (16 - length digits) SPACE ++ digits.
Definition colon : list Z := text ":".

Section auction.
Context `{!Utf8Lib} (v : MarketView).

(** ** Houses, deposits and bids *)

Definition has_mask (mask flag : Z) : bool := negb (Z.land mask flag =? 0).
Definition GetAuctionsMap (factionTemplateId : Z) : house :=
  if CONFIG_ALLOW_TWO_SIDE_INTERACTION_AUCTION v then Neutral
  else match faction_mask v factionTemplateId with
  | None => Neutral
  | Some m =>
      if has_mask m FACTION_MASK_ALLIANCE then Alliance
      else if has_mask m FACTION_MASK_HORDE then Horde
      else Neutral
  end.

Definition city_houses : list (Z * Z) :=
  [(12, 1); (29, 6); (55, 2); (68, 4); (80, 3); (104, 5); (120, 7); (474, 7); (855, 7); (1604, 6)].
Definition house_by_mask (factionTemplateId : Z) : Z :=
  match faction_mask v factionTemplateId with
  | None => 7
  | Some m =>
      if has_mask m FACTION_MASK_ALLIANCE then 1 else if has_mask m FACTION_MASK_HORDE then 6 else 7
  end.
Definition GetAuctionHouseEntry (factionTemplateId : Z) : option AuctionHouseEntry :=
  AuctionHouseStore v
    (if CONFIG_ALLOW_TWO_SIDE_INTERACTION_AUCTION v then 7
     else match head (filter (fun p => p.1 = factionTemplateId) city_houses) with
          | Some (_, houseid) => houseid
          | None => house_by_mask factionTemplateId
          end).

Definition GetAuctionDeposit (entry : AuctionHouseEntry) (time item count : Z) : Z :=
  let MSV := SellPrice v item in
  if MSV <=? 0 then AH_MINIMUM_DEPOSIT
  else
    let multiplier := CalculatePct (f32 (depositPercent entry)) 3 in
    let timeHr := time / 60 / 60 / 12 in
    let share := f32_div (f32_mul (f32_mul multiplier (f32 MSV)) (f32 count)) (f32 3) in
    let deposit := u32 (u32 (f32_to_int 64 share) * timeHr * 3) in
    if deposit <? AH_MINIMUM_DEPOSIT then AH_MINIMUM_DEPOSIT else deposit.

Definition GetAuctionCut (a : AuctionEntry) : Z :=
  let cut := s32 (f32_to_int 32 (CalculatePct (RATE_AUCTION_CUT v) (cutPercent (auctionHouseEntry a))) * a_bid a) in
  Z.max cut 0.

Definition GetAuctionOutBid (a : AuctionEntry) : Z :=
  let outbid := u64 (f32_to_int 64 (CalculatePct (f32 (a_bid a)) 5)) in
  if outbid =? 0 then 1 else outbid.

Definition GetAuction (s : Market) (h : house) (id : Z) : option AuctionEntry := house_map s h !! id.
Definition GetAItem (s : Market) (id : Z) : bool := bool_decide (id ∈ mAitems s).
Definition AddAItem (item : Z) : KM unit := with_state (fun s =>
  if GetAItem s item then emit MarketAssertFailed else modify (on_Aitems (union {[ item ]}))).
Definition RemoveAItem (item : Z) : KM unit := modify (on_Aitems (fun t => t ∖ {[ item ]})).
Definition AddAuction (h : house) (a : AuctionEntry) : KM unit :=
  modify (on_house h (insert (a_Id a) a)) ;; emit (AuctionHook h (a_Id a) OnAuctionAdd).
Definition RemoveAuction (h : house) (a : AuctionEntry) : KM unit :=
  modify (on_house h (delete (a_Id a))) ;; emit (AuctionHook h (a_Id a) OnAuctionRemove).

Definition GenerateAuctionID : KM Z := with_state (fun s =>
  when (0xFFFFFFFE <=? m_auctionid s) (emit IdOverflow) ;;
  modify next_auctionid ;;
  ret (m_auctionid s)).

(** [SaveToDB]: some columns are written as signed numbers, the time as one of 64 bits;
    each column holds 32 bits without a sign. *)
Definition int32_column (n : Z) : Z := if s32 n <? 0 then out_of_range v (s32 n) else s32 n.
Definition time_column (t : Z) : Z := if u64 t <? 2 ^ 32 then u64 t else out_of_range v (u64 t).
Definition row_of (a : AuctionEntry) : AuctionRow :=
  mkAuctionRow (a_auctioneer a) (item_guidlow a) (u32 (a_owner a)) (int32_column (a_buyout a)) (time_column (a_expire_time a))
    (u32 (a_bidder a)) (int32_column (a_bid a)) (int32_column (startbid a)) (int32_column (a_deposit a)).
Definition SaveToDB (a : AuctionEntry) : KM unit := Append (InsertAuction (a_Id a) (row_of a)).
Definition DeleteFromDB (a : AuctionEntry) : KM unit := Append (DeleteAuction (a_Id a)).

(** ** Packets *)

Definition SendAuctionCommandResult (u auctionId Action ErrorCode bidError : Z) : KM unit :=
  emit (MarketPacket u (Pkt SMSG_AUCTION_COMMAND_RESULT
    ([FU 4 auctionId; FU 4 Action; FU 4 ErrorCode] ++
     (if (ErrorCode =? 0) && negb (Action =? 0) then [FU 8 bidError] else [])))).
Definition SendAuctionBidderNotification (u location auctionId bidder bidSum diff template : Z) : KM unit :=
  emit (MarketPacket u (Pkt SMSG_AUCTION_BIDDER_NOTIFICATION
    [FU 4 location; FU 4 auctionId; FU 8 bidder; FU 4 (u32 bidSum); FU 4 (u32 diff); FU 4 template; FU 4 0])).
Definition SendAuctionOwnerNotification (u : Z) (a : AuctionEntry) : KM unit :=
  emit (MarketPacket u (Pkt SMSG_AUCTION_OWNER_NOTIFICATION
    [FU 4 (a_Id a); FU 8 (a_bid a); FU 4 0; FU 8 0; FU 4 (item_template a); FU 4 0; FU 4 0])).
Definition SendAuctionRemovedNotification (u : Z) (a : AuctionEntry) : KM unit :=
  emit (MarketPacket u (Pkt SMSG_AUCTION_REMOVED_NOTIFICATION [FU 4 (a_Id a); FU 4 (item_template a); FU 4 0])).

(** ** The mails of an auction *)

Definition subject_of (a : AuctionEntry) (answer : Z) (tail : list Z) : list Z :=
  dec_string (item_template a) ++ text ":0:" ++ dec_string answer ++ tail.
Definition amounts (a : AuctionEntry) : list Z :=
  colon ++ dec_string (a_bid a) ++ colon ++ dec_string (a_buyout a).
(** [SendMailTo] for the auction [a]. *)
Definition auction_mail (receiver : MailReceiver) (a : AuctionEntry) (delay : Z) (d : MailDraft) : KM unit :=
  SendMailTo v receiver (auction_sender a) MAIL_CHECK_MASK_COPIED delay d.
Definition to_player (s : Market) (u : Z) (k : Z -> KM unit) : KM unit :=
  match GetPlayer s u with Some _ => k u | None => ret tt end.

(** The account of the winner is only looked up for the log of game masters. *)
Definition SendAuctionWonMail (a : AuctionEntry) : KM unit := with_state (fun s =>
  if negb (GetAItem s (item_guidlow a)) then ret tt
  else
    let bidder := GetPlayer s (a_bidder a) in
    let bidder_accId := if CONFIG_GM_LOG_TRADE v then account_of v (a_bidder a) else 0 in
    when (bool_decide (is_Some bidder) || negb (bidder_accId =? 0))
      (Append (SetItemOwner (u32 (a_bidder a)) (item_guidlow a)) ;;
       to_player s (a_bidder a) (fun u =>
         SendAuctionBidderNotification u (houseId (auctionHouseEntry a)) (a_Id a) u 0 0 (item_template a) ;;
         emit (MarketAchievement u ACHIEVEMENT_CRITERIA_TYPE_WON_AUCTIONS 1)) ;;
       auction_mail (receiver_of s (a_bidder a)) a 0
         (AddItem (item_guidlow a)
           (new_draft (subject_of a AUCTION_WON []) (hex16 (a_owner a) ++ amounts a))))).

Definition SendAuctionSalePendingMail (a : AuctionEntry) : KM unit := with_state (fun s =>
  when (character_exists v s (a_owner a))
    (auction_mail (receiver_of s (a_owner a)) a 0
      (new_draft (subject_of a AUCTION_SALE_PENDING [])
        (hex16 (a_bidder a) ++ amounts a ++ colon ++ dec_string (a_deposit a) ++ colon ++
         dec_string (GetAuctionCut a) ++ text ":0:" ++
         dec_string (secsToTimeBitFields v (now v + CONFIG_MAIL_DELIVERY_DELAY v)))))).

Definition SendAuctionSuccessfulMail (a : AuctionEntry) : KM unit := with_state (fun s =>
  when (character_exists v s (a_owner a))
    (let profit := u64 (a_bid a + a_deposit a - GetAuctionCut a) in
     to_player s (a_owner a) (fun u =>
       emit (MarketAchievement u ACHIEVEMENT_CRITERIA_TYPE_GOLD_EARNED_BY_AUCTIONS (u32 profit)) ;;
       emit (MarketAchievement u ACHIEVEMENT_CRITERIA_TYPE_HIGHEST_AUCTION_SOLD (u32 (a_bid a))) ;;
       SendAuctionOwnerNotification u a) ;;
     auction_mail (receiver_of s (a_owner a)) a (CONFIG_MAIL_DELIVERY_DELAY v)
       (AddMoney profit
         (new_draft (subject_of a AUCTION_SUCCESSFUL [])
           (hex16 (a_bidder a) ++ amounts a ++ colon ++ dec_string (a_deposit a) ++ colon ++
            dec_string (GetAuctionCut a)))))).

Definition SendAuctionExpiredMail (a : AuctionEntry) : KM unit := with_state (fun s =>
  when (GetAItem s (item_guidlow a) && character_exists v s (a_owner a))
    (to_player s (a_owner a) (fun u => SendAuctionOwnerNotification u a) ;;
     auction_mail (receiver_of s (a_owner a)) a 0
       (AddItem (item_guidlow a) (new_draft (subject_of a AUCTION_EXPIRED (text ":0:0")) [])))).

Definition SendAuctionRemovedMail (a : AuctionEntry) : KM unit := with_state (fun s =>
  to_player s (a_owner a) (fun u =>
    SendAuctionRemovedNotification u a ;;
    auction_mail (receiver_of s (a_owner a)) a 0 (new_draft (subject_of a AUCTION_CANCELED (text ":0:0")) []))).

Definition SendAuctionOutbiddedMail (a : AuctionEntry) (newPrice newBidder : Z) : KM unit := with_state (fun s =>
  when (character_exists v s (a_bidder a))
    (to_player s (a_bidder a) (fun u =>
       SendAuctionBidderNotification u (houseId (auctionHouseEntry a)) (a_Id a) newBidder newPrice
         (GetAuctionOutBid a) (item_template a)) ;;
     auction_mail (receiver_of s (a_bidder a)) a 0
       (AddMoney (a_bid a) (new_draft (subject_of a AUCTION_OUTBIDDED (text ":0:0")) [])))).

Definition SendAuctionCancelledToBidderMail (a : AuctionEntry) : KM unit := with_state (fun s =>
  when (character_exists v s (a_bidder a))
    (auction_mail (receiver_of s (a_bidder a)) a 0
      (AddMoney (a_bid a) (new_draft (subject_of a AUCTION_CANCELLED_TO_BIDDER (text ":0:0")) [])))).

(** ** Loading and expiry *)

(** The rows the query joins with their items. *)
Definition stored_auctions (s : Market) : list (Z * AuctionRow) :=
  filter (fun p => w_itemguid p.2 ∈ item_instance s) (omap_list (auctionhouse s)).
Definition load_auction_item (p : Z * AuctionRow) : KM unit :=
  let item := w_itemguid p.2 in
  when (item_has_proto v (GetEntry v item) && item_loads v item) (AddAItem item).
Definition LoadAuctionItems : KM unit := with_state (fun s => for_each (stored_auctions s) load_auction_item).

(** [LoadFromDB], with the faction template of the auctioneer. *)
Definition auction_of_row (s : Market) (id : Z) (r : AuctionRow) : option (Z * AuctionEntry) :=
  match spawn_faction v (w_auctioneer r) with
  | None => None
  | Some faction =>
      match GetAuctionHouseEntry faction with
      | None => None
      | Some entry =>
          if negb (GetAItem s (w_itemguid r)) then None
          else Some (faction, mkAuction id (w_auctioneer r) (w_itemguid r) (GetEntry v (w_itemguid r)) (w_owner r)
                 (w_startbid r) (w_lastbid r) (w_buyout r) (u32 (w_time r)) (w_buyguid r) (w_deposit r) entry)
      end
  end.
Definition load_auction (p : Z * AuctionRow) : KM unit := with_state (fun s =>
  match auction_of_row s p.1 p.2 with
  | None => Append (DeleteAuction p.1)
  | Some (faction, a) => AddAuction (GetAuctionsMap faction) a
  end).
Definition LoadAuctions : KM unit := with_state (fun s => for_each (stored_auctions s) load_auction).

(** The auctions that end within a minute, by their time. *)
Definition by_time (p q : Z * AuctionRow) : Prop := w_time p.2 <= w_time q.2.
#[export] Instance by_time_dec p q : Decision (by_time p q).
Proof. unfold by_time. apply _. Defined.
Definition ending (s : Market) : list Z :=
  fst <$> merge_sort by_time (filter (fun p => w_time p.2 <= u32 (u32 (now v) + 60)) (omap_list (auctionhouse s))).

(** The auction is deleted before its item is named again. *)
Definition end_auction (h : house) (id : Z) : KM unit := with_state (fun s =>
  match GetAuction s h id with
  | None => ret tt
  | Some a =>
      (if a_bidder a =? 0 then
         SendAuctionExpiredMail a ;;
         emit (AuctionHook h id OnAuctionExpire)
       else
         SendAuctionSuccessfulMail a ;;
         SendAuctionWonMail a ;;
         emit (AuctionHook h id OnAuctionSuccessful)) ;;
      DeleteFromDB a ;;
      RemoveAuction h a ;;
      emit (AuctionUseAfterFree id) ;;
      RemoveAItem (item_guidlow a)
  end).
Definition Update_house (h : house) : KM unit := with_state (fun s =>
  if bool_decide (house_map s h = ∅) then ret tt
  else for_each (ending s) (end_auction h)).
Definition Update_auctions : KM unit := Update_house Horde ;; Update_house Alliance ;; Update_house Neutral.

(** ** Listing *)

Definition IN_MILLISECONDS : Z := 1000.
Definition BuildAuctionInfo (s : Market) (a : AuctionEntry) : option (list field) :=
  let item := item_guidlow a in
  if negb (GetAItem s item) then None
  else Some (
    [FU 4 (a_Id a); FU 4 (GetEntry v item)] ++
    concat ((fun j => let '(id, duration, charges) := GetEnchantment v item j in
                      [FU 4 (u32 id); FU 4 (u32 duration); FU 4 (u32 charges)]) <$> seq 0 MAX_INSPECTED_ENCHANTMENT_SLOT) ++
    replicate 6 (FU 4 0) ++
    [FU 4 (u32 (GetItemRandomPropertyId v item)); FU 4 (u32 (GetItemSuffixFactor v item)); FU 4 (u32 (GetCount v item));
     FU 4 (u32 (GetSpellCharges v item)); FU 4 0; FU 8 (a_owner a); FU 8 (startbid a);
     FU 8 (if a_bid a =? 0 then 0 else GetAuctionOutBid a); FU 8 (a_buyout a);
     FU 4 (u32 ((a_expire_time a - now v) * IN_MILLISECONDS)); FU 8 (a_bidder a); FU 8 (a_bid a)]).

(** The lists count the auctions that are shown and all that match. *)
Definition Listing : Type := list field * Z * Z.
Definition list_auction (s : Market) (acc : Listing) (a : AuctionEntry) : Listing :=
  let '(data, count, totalcount) := acc in
  match BuildAuctionInfo s a with
  | Some info => (data ++ info, u32 (count + 1), u32 (totalcount + 1))
  | None => (data, count, u32 (totalcount + 1))
  end.
Definition BuildListOf (mine : AuctionEntry -> bool) (s : Market) (h : house) (acc : Listing) : Listing :=
  foldl (list_auction s) acc (filter (fun a => mine a = true) (snd <$> omap_list (house_map s h))).
Definition BuildListBidderItems (u : Z) := BuildListOf (fun a => a_bidder a =? u).
Definition BuildListOwnerItems (u : Z) := BuildListOf (fun a => a_owner a =? u).

Record Search := mkSearch {
  q_name : list Z;
  q_levelmin : Z;
  q_levelmax : Z;
  q_usable : Z;
  q_inventoryType : Z;
  q_itemClass : Z;
  q_itemSubClass : Z;
  q_quality : Z
}.
Definition any_or (wanted actual : Z) : bool := (wanted =? 0xffffffff) || (actual =? wanted).
Definition passes_filters (u : Z) (q : Search) (item : Z) : bool :=
  let '(class, subclass, inventory_type, quality) := proto_class v (GetEntry v item) in
  let level := RequiredLevel v (GetEntry v item) in
  any_or (q_itemClass q) class && any_or (q_itemSubClass q) subclass &&
  any_or (q_inventoryType q) inventory_type && any_or (q_quality q) quality &&
  ((q_levelmin q =? 0) ||
   negb ((level <? q_levelmin q) || (negb (q_levelmax q =? 0) && (q_levelmax q <? level)))) &&
  ((q_usable q =? 0) || CanUseItem v u item).
(** The name that is searched: the item's, in the locale of the session, with the
    suffix of its random property. *)
Definition searched_name (u item : Z) : list Z :=
  let entry := GetEntry v item in
  let name := match locale_name v u entry with Some l => l | None => Name1 v entry end in
  let prop := GetItemRandomPropertyId v item in
  if prop =? 0 then name
  else match random_suffix v prop with Some suffix => name ++ text " " ++ suffix | None => name end.
Definition matches_name (u : Z) (q : Search) (item : Z) : conv bool :=
  if bool_decide (q_name q = []) then Conv true
  else if bool_decide (Name1 v (GetEntry v item) = []) then Conv false
  else Utf8FitTo (searched_name u item) (q_name q).
(** One turn of the search; [None] after a write past a string. *)
Definition search_auction (s : Market) (u listfrom : Z) (q : Search) (acc : option Listing) (a : AuctionEntry) : option Listing :=
  match acc with
  | None => None
  | Some (data, count, totalcount) =>
      let item := item_guidlow a in
      if negb (GetAItem s item) || negb (passes_filters u q item) then acc
      else match matches_name u q item with
      | ConvOverflow => None
      | Conv true =>
          if (count <? 50) && (listfrom <=? totalcount) then
            Some (data ++ default [] (BuildAuctionInfo s a), u32 (count + 1), u32 (totalcount + 1))
          else Some (data, count, u32 (totalcount + 1))
      | _ => acc
      end
  end.
Definition BuildListAuctionItems (s : Market) (u listfrom : Z) (q : Search) (h : house) : option Listing :=
  foldl (search_auction s u listfrom q) (Some ([], 0, 0)) (snd <$> omap_list (house_map s h)).

Definition listing_packet (opcode : Z) (l : Listing) : packet :=
  let '(data, count, totalcount) := l in Pkt opcode ([FU 4 count] ++ data ++ [FU 4 totalcount; FU 4 300]).

(** ** Opcode handlers (AuctionHouseHandler.cpp) *)

(** The auctioneer is near; a player who feigns death gets up. *)
Definition at_auctioneer (u auctioneer : Z) (k : Z -> KM unit) : KM unit :=
  match auctioneer_near v u auctioneer with
  | None => ret tt
  | Some faction => when (has_UNIT_STAT_DIED v u) (emit (RemoveFeignDeath u)) ;; k faction
  end.

Definition SendAuctionHello (u guid faction : Z) : KM unit :=
  if level_of v u <? CONFIG_AUCTION_LEVEL_REQ v then emit (MarketNotification u (CONFIG_AUCTION_LEVEL_REQ v))
  else match GetAuctionHouseEntry faction with
  | None => ret tt
  | Some ahEntry => emit (MarketPacket u (Pkt MSG_AUCTION_HELLO [FU 8 guid; FU 4 (houseId ahEntry); FU 1 1]))
  end.
Definition HandleAuctionHelloOpcode (u : Z) (recv_data : ByteBuffer) : KM unit :=
  with_packet (shr_uint 8) recv_data (fun guid => at_auctioneer u guid (SendAuctionHello u guid)).

Record Sale := mkSale {
  sl_auctioneer : Z;
  sl_item : Z;
  sl_count : Z;
  sl_bid : Z;
  sl_buyout : Z;
  sl_etime : Z
}.
Definition parse_sale : B Sale :=
  let? auctioneer := shr_uint 8 in let? _ := shr_uint 4 in let? item := shr_uint 8 in
  let? count := shr_uint 4 in let? bid := shr_uint 8 in let? buyout := shr_uint 8 in
  let? etime := shr_uint 4 in
  bret (mkSale auctioneer item count bid buyout etime).

(** Why an item of the player may not be sold, with the answer; the item otherwise. *)
Definition sale_refused (s : Market) (u item : Z) : Z + Z :=
  if GetAItem s (GUID_LOPART item) then inl AUCTION_INTERNAL_ERROR
  else match GetItemByGuid s u item with
  | None => inl AUCTION_ITEM_NOT_FOUND
  | Some it =>
      if negb (CanBeTraded v it false) then inl AUCTION_INTERNAL_ERROR
      else if conjured_or_timed v it then inl AUCTION_INTERNAL_ERROR
      else if is_filled_bag v it then inl AUCTION_INTERNAL_ERROR
      else inr it
  end.

Definition new_auction (id u it deposit auction_time : Z) (entry : AuctionHouseEntry) (sale : Sale) : AuctionEntry :=
  mkAuction id
    (if CONFIG_ALLOW_TWO_SIDE_INTERACTION_AUCTION v then 23442 else GUID_LOPART (sl_auctioneer sale))
    (GUID_LOPART (sl_item sale)) (GetEntry v it) u (sl_bid sale) 0 (u32 (sl_buyout sale))
    (now v + auction_time) 0 deposit entry.

(** The deposit is taken and the item goes into the auction house. *)
Definition sell_item (u it deposit etime : Z) (entry : AuctionHouseEntry) (h : house) (sale : Sale) : KM unit :=
  ModifyMoney u (minus_int32 deposit) ;;
  let auction_time := u32 (f32_to_int 64 (f32_mul (f32 etime) (RATE_AUCTION_TIME v))) in
  let! id := GenerateAuctionID in
  let AH := new_auction id u it deposit auction_time entry sale in
  AddAItem it ;;
  AddAuction h AH ;;
  MoveItemFromInventory it ;;
  Append (DeleteFromInventory it) ;;
  Append (SaveItem it) ;;
  SaveToDB AH ;;
  SaveInventoryAndGoldToDB u ;;
  SendAuctionCommandResult u id AUCTION_SELL_ITEM AUCTION_OK 0 ;;
  emit (MarketAchievement u ACHIEVEMENT_CRITERIA_TYPE_CREATE_AUCTION 1).

Definition auction_times : list Z := [MIN_AUCTION_TIME; 2 * MIN_AUCTION_TIME; 4 * MIN_AUCTION_TIME].
Definition HandleAuctionSellItem (u : Z) (recv_data : ByteBuffer) : KM unit :=
  with_packet parse_sale recv_data (fun sale =>
    if (sl_item sale =? 0) || (sl_bid sale =? 0) || (sl_etime sale =? 0) then ret tt
    else match auctioneer_near v u (sl_auctioneer sale) with
    | None => ret tt
    | Some faction =>
        match GetAuctionHouseEntry faction with
        | None => ret tt
        | Some entry =>
            let etime := u32 (sl_etime sale * MINUTE) in
            if negb (bool_decide (etime ∈ auction_times)) then ret tt
            else
              when (has_UNIT_STAT_DIED v u) (emit (RemoveFeignDeath u)) ;;
              with_state (fun s =>
                match sale_refused s u (sl_item sale) with
                | inl error => SendAuctionCommandResult u 0 AUCTION_SELL_ITEM error 0
                | inr it =>
                    let deposit := GetAuctionDeposit entry etime it (sl_count sale) in
                    if negb (HasEnoughMoney s u deposit) then
                      SendAuctionCommandResult u 0 AUCTION_SELL_ITEM AUCTION_NOT_ENOUGHT_MONEY 0
                    else sell_item u it deposit etime entry (GetAuctionsMap faction) sale
                end)
        end
    end).

(** The bid becomes the highest of the auction. *)
Definition raise_bid (u price : Z) (h : house) (a : AuctionEntry) : KM unit :=
  (if negb (a_bidder a =? 0) then
     if a_bidder a =? u then ModifyMoney u (minus_int32 (u64 (price - a_bid a)))
     else
       SendAuctionOutbiddedMail a price u ;;
       ModifyMoney u (minus_int32 price)
   else ModifyMoney u (minus_int32 price)) ;;
  modify (on_house h (alter (set_bid u price) (a_Id a))) ;;
  emit (MarketAchievement u ACHIEVEMENT_CRITERIA_TYPE_HIGHEST_AUCTION_BID (u32 price)) ;;
  Append (UpdateBid (a_Id a) u (u32 price)) ;;
  SendAuctionCommandResult u (a_Id a) AUCTION_PLACE_BID AUCTION_OK 0.

(** The auction is bought out and ends. *)
Definition buy_out (u : Z) (h : house) (a : AuctionEntry) : KM unit :=
  (if u =? a_bidder a then ModifyMoney u (minus_int32 (u64 (a_buyout a - a_bid a)))
   else
     ModifyMoney u (minus_int32 (a_buyout a)) ;;
     when (negb (a_bidder a =? 0)) (SendAuctionOutbiddedMail a (a_buyout a) u)) ;;
  let won := set_bid u (a_buyout a) a in
  modify (on_house h (insert (a_Id a) won)) ;;
  emit (MarketAchievement u ACHIEVEMENT_CRITERIA_TYPE_HIGHEST_AUCTION_BID (a_buyout a)) ;;
  SendAuctionSalePendingMail won ;;
  SendAuctionSuccessfulMail won ;;
  SendAuctionWonMail won ;;
  SendAuctionCommandResult u (a_Id a) AUCTION_PLACE_BID AUCTION_OK 0 ;;
  DeleteFromDB won ;;
  RemoveAItem (item_guidlow a) ;;
  RemoveAuction h won.

Definition parse_bid : B (Z * Z * Z) :=
  let? auctioneer := shr_uint 8 in let? auctionId := shr_uint 4 in let? price := shr_uint 8 in
  bret (auctioneer, auctionId, price).

(** The auction may not be bid on by this player. *)
Definition own_auction (s : Market) (u : Z) (a : AuctionEntry) : bool :=
  (a_owner a =? u) ||
  (negb (bool_decide (is_Some (GetPlayer s (a_owner a)))) && (account_of v (a_owner a) =? account_of v u)).
Definition is_buyout (price : Z) (a : AuctionEntry) : bool := negb ((price <? a_buyout a) || (a_buyout a =? 0)).
Definition bid_too_low (price : Z) (a : AuctionEntry) : bool :=
  (price <=? a_bid a) || (price <? startbid a) ||
  (negb (is_buyout price a) && (price <? u64 (a_bid a + GetAuctionOutBid a))).

Definition HandleAuctionPlaceBid (u : Z) (recv_data : ByteBuffer) : KM unit :=
  with_packet parse_bid recv_data (fun '(auctioneer, auctionId, price) =>
    if (auctionId =? 0) || (price =? 0) then ret tt
    else at_auctioneer u auctioneer (fun faction => with_state (fun s =>
      let h := GetAuctionsMap faction in
      match GetAuction s h auctionId with
      | None => SendAuctionCommandResult u 0 AUCTION_PLACE_BID CANNOT_BID_YOUR_AUCTION_ERROR 0
      | Some a =>
          if own_auction s u a then SendAuctionCommandResult u 0 AUCTION_PLACE_BID CANNOT_BID_YOUR_AUCTION_ERROR 0
          else if bid_too_low price a then ret tt
          else if negb (HasEnoughMoney s u (u32 price)) then ret tt
          else
            (if is_buyout price a then buy_out u h a else raise_bid u price h a) ;;
            SaveInventoryAndGoldToDB u
      end))).

(** The owner takes his item back: the bidder gets his money, the house its cut. *)
Definition cancel_auction (u : Z) (h : house) (a : AuctionEntry) : KM unit :=
  when (negb (a_bidder a =? 0))
    (SendAuctionCancelledToBidderMail a ;;
     ModifyMoney u (minus_int32 (GetAuctionCut a))) ;;
  auction_mail (mkReceiver (Some u) u) a 0
    (AddItem (item_guidlow a) (new_draft (subject_of a AUCTION_CANCELED (text ":0:0")) [])) ;;
  SendAuctionCommandResult u (a_Id a) AUCTION_CANCEL AUCTION_OK 0 ;;
  SaveInventoryAndGoldToDB u ;;
  DeleteFromDB a ;;
  RemoveAItem (item_guidlow a) ;;
  RemoveAuction h a.

Definition parse_auction : B (Z * Z) :=
  let? auctioneer := shr_uint 8 in let? auctionId := shr_uint 4 in bret (auctioneer, auctionId).
Definition HandleAuctionRemoveItem (u : Z) (recv_data : ByteBuffer) : KM unit :=
  with_packet parse_auction recv_data (fun '(auctioneer, auctionId) =>
    at_auctioneer u auctioneer (fun faction => with_state (fun s =>
      let h := GetAuctionsMap faction in
      match GetAuction s h auctionId with
      | Some a =>
          if negb (a_owner a =? u) then SendAuctionCommandResult u 0 AUCTION_CANCEL AUCTION_INTERNAL_ERROR 0
          else if negb (GetAItem s (item_guidlow a)) then
            SendAuctionCommandResult u 0 AUCTION_CANCEL AUCTION_INTERNAL_ERROR 0
          else if negb (a_bidder a =? 0) && negb (HasEnoughMoney s u (GetAuctionCut a)) then ret tt
          else cancel_auction u h a
      | None => SendAuctionCommandResult u 0 AUCTION_CANCEL AUCTION_INTERNAL_ERROR 0
      end))).

(** *** Lists *)

Fixpoint parse_ids (n : nat) : B (list Z) :=
  match n with
  | O => bret []
  | S n' => let? id := shr_uint 4 in let? ids := parse_ids n' in bret (id :: ids)
  end.
(** The auctions the client asks for are listed if they exist and have an item. *)
Definition list_known (s : Market) (h : house) (acc : Listing) (id : Z) : Listing :=
  match GetAuction s h id with
  | Some a => match BuildAuctionInfo s a with Some _ => list_auction s acc a | None => acc end
  | None => acc
  end.
Definition HandleAuctionListBidderItems (u : Z) (recv_data : ByteBuffer) : KM unit :=
  let header := let? guid := shr_uint 8 in let? _ := shr_uint 4 in let? n := shr_uint 4 in bret (guid, n) in
  match header recv_data with
  | (Ok (guid, n), rest) =>
      let outbiddedCount := if bb_size recv_data =? u32 (16 + n * 4) then n else 0 in
      at_auctioneer u guid (fun faction =>
        match (parse_ids (Z.to_nat outbiddedCount) rest).1 with
        | Err _ => ret tt
        | Ok ids => with_state (fun s =>
            let h := GetAuctionsMap faction in
            emit (MarketPacket u (listing_packet SMSG_AUCTION_BIDDER_LIST_RESULT
              (BuildListBidderItems u s h (foldl (list_known s h) ([], 0, 0) ids)))))
        end)
  | (Err _, _) => ret tt
  end.

Definition HandleAuctionListOwnerItems (u : Z) (recv_data : ByteBuffer) : KM unit :=
  with_packet parse_auction recv_data (fun '(guid, _) => at_auctioneer u guid (fun faction => with_state (fun s =>
    emit (MarketPacket u (listing_packet SMSG_AUCTION_OWNER_LIST_RESULT
      (BuildListOwnerItems u s (GetAuctionsMap faction) ([], 0, 0))))))).

Fixpoint skip_pairs (n : nat) : B unit :=
  match n with O => bret tt | S n' => let? _ := read_skip 1 in let? _ := read_skip 1 in skip_pairs n' end.
Definition parse_search : B (Z * Z * Search) :=
  let? guid := shr_uint 8 in let? listfrom := shr_uint 4 in let? searchedname := shr_string in
  let? levelmin := shr_uint 1 in let? levelmax := shr_uint 1 in
  let? auctionSlotID := shr_uint 4 in let? auctionMainCategory := shr_uint 4 in let? auctionSubCategory := shr_uint 4 in
  let? quality := shr_uint 4 in let? usable := shr_uint 1 in
  let? _ := read_skip 1 in
  let? unkCnt := shr_uint 1 in
  let? _ := skip_pairs (Z.to_nat unkCnt) in
  bret (guid, listfrom,
    mkSearch searchedname levelmin levelmax usable auctionSlotID auctionMainCategory auctionSubCategory quality).
Definition lower_name (w : list Z) (q : Search) : Search :=
  mkSearch (wstrToLower w) (q_levelmin q) (q_levelmax q) (q_usable q) (q_inventoryType q) (q_itemClass q)
    (q_itemSubClass q) (q_quality q).
Definition HandleAuctionListItems (u : Z) (recv_data : ByteBuffer) : KM unit :=
  with_packet parse_search recv_data (fun '(guid, listfrom, q) => at_auctioneer u guid (fun faction =>
    match Utf8toWStr (q_name q) with
    | ConvFailed => ret tt
    | ConvOverflow => emit ConversionOverflow
    | Conv w => with_state (fun s =>
        match BuildListAuctionItems s u listfrom (lower_name w q) (GetAuctionsMap faction) with
        | None => emit ConversionOverflow
        | Some l => emit (MarketPacket u (listing_packet SMSG_AUCTION_LIST_RESULT l))
        end)
    end)).

Definition HandleAuctionListPendingSales (u : Z) (recv_data : ByteBuffer) : KM unit :=
  with_packet (read_skip 8) recv_data (fun _ =>
    emit (MarketPacket u (Pkt SMSG_AUCTION_LIST_PENDING_SALES [FU 4 0]))).

(** ** The steps of the server *)

Inductive market_opcode :=
| CMSG_SEND_MAIL
| CMSG_GET_MAIL_LIST
| CMSG_MAIL_TAKE_MONEY
| CMSG_MAIL_TAKE_ITEM
| CMSG_MAIL_MARK_AS_READ
| CMSG_MAIL_RETURN_TO_SENDER
| CMSG_MAIL_DELETE
| CMSG_MAIL_CREATE_TEXT_ITEM
| CMSG_QUERY_NEXT_MAIL_TIME
| CMSG_AUCTION_HELLO
| CMSG_AUCTION_SELL_ITEM
| CMSG_AUCTION_REMOVE_ITEM
| CMSG_AUCTION_LIST_ITEMS
| CMSG_AUCTION_LIST_OWNER_ITEMS
| CMSG_AUCTION_LIST_BIDDER_ITEMS
| CMSG_AUCTION_PLACE_BID
| CMSG_AUCTION_LIST_PENDING_SALES.

Definition handle_market (u : Z) (op : market_opcode) (data : ByteBuffer) : KM unit :=
  match op with
  | CMSG_SEND_MAIL => HandleSendMail v u data
  | CMSG_GET_MAIL_LIST => HandleGetMailList v u data
  | CMSG_MAIL_TAKE_MONEY => HandleMailTakeMoney v u data
  | CMSG_MAIL_TAKE_ITEM => HandleMailTakeItem v u data
  | CMSG_MAIL_MARK_AS_READ => HandleMailMarkAsRead v u data
  | CMSG_MAIL_RETURN_TO_SENDER => HandleMailReturnToSender v u data
  | CMSG_MAIL_DELETE => HandleMailDelete v u data
  | CMSG_MAIL_CREATE_TEXT_ITEM => HandleMailCreateTextItem v u data
  | CMSG_QUERY_NEXT_MAIL_TIME => HandleQueryNextMailTime v u
  | CMSG_AUCTION_HELLO => HandleAuctionHelloOpcode u data
  | CMSG_AUCTION_SELL_ITEM => HandleAuctionSellItem u data
  | CMSG_AUCTION_REMOVE_ITEM => HandleAuctionRemoveItem u data
  | CMSG_AUCTION_LIST_ITEMS => HandleAuctionListItems u data
  | CMSG_AUCTION_LIST_OWNER_ITEMS => HandleAuctionListOwnerItems u data
  | CMSG_AUCTION_LIST_BIDDER_ITEMS => HandleAuctionListBidderItems u data
  | CMSG_AUCTION_PLACE_BID => HandleAuctionPlaceBid u data
  | CMSG_AUCTION_LIST_PENDING_SALES => HandleAuctionListPendingSales u data
  end.

Inductive market_step :=
| MarketPacketIn (u : Z) (op : market_opcode) (data : ByteBuffer)
| MarketLogin (u : Z)
| MarketLogout (u : Z)
| MarketTravel (u : Z) (arrives : bool)
| MarketTick (u : Z)
| AuctionTick
| MailCleanup.

(** Packets are handled while the player is in the world. *)
Definition run_market_step (st : market_step) : KM unit :=
  match st with
  | MarketPacketIn u op data => with_state (fun s =>
      match GetPlayer s u with Some _ => handle_market u op data | None => ret tt end)
  | MarketLogin u => LoginTrader v u
  | MarketLogout u => LogoutTrader u
  | MarketTravel u arrives => TravelTrader u arrives
  | MarketTick u => Update_mail v u
  | AuctionTick => Update_auctions
  | MailCleanup => ReturnOrDeleteOldMails v true
  end.

(** The server starts: the auctions and what is left of old mails. *)
Definition StartMarket : KM unit :=
  LoadAuctionItems ;; LoadAuctions ;; ReturnOrDeleteOldMails v false.

End auction.
