(* ===== verification/MarketGold.v ===== *)
(** * Where the gold is

    Every copper of the server is in a purse, in a mail or staked in an auction.
    This file counts it: what the rows of mail and the mails in memory have to do
    with each other ([mail_ok]), what holds of the auctions ([houses_ok]) and of the
    purses ([gold_ok]), and what the programs of [Mail] and [Auction] do to the
    three sums. *)
From Stdlib Require Import SpecFloat.
From S2P Require Import Prelude Text ByteBuffer Market Mail Auction.

(** ** The three sums *)

Definition stake (a : AuctionEntry) : Z := a_bid a + a_deposit a.
Definition purses (s : Market) : Z := msum id (gold s).
Definition mailed (s : Market) : Z := msum r_money (mail s).
Definition staked (s : Market) : Z :=
  msum stake (mHordeAuctions s) + msum stake (mAllianceAuctions s) + msum stake (mNeutralAuctions s).
Definition wealth (s : Market) : Z := purses s + mailed s + staked s.

Definition same_houses (s s' : Market) : Prop :=
  mHordeAuctions s' = mHordeAuctions s /\ mAllianceAuctions s' = mAllianceAuctions s /\
  mNeutralAuctions s' = mNeutralAuctions s.
Lemma same_houses_refl s : same_houses s s.
Proof. done. Qed.
Lemma same_houses_trans s1 s2 s3 : same_houses s1 s2 -> same_houses s2 s3 -> same_houses s1 s3.
Proof. unfold same_houses. intros (H1 & H2 & H3) (-> & -> & ->). done. Qed.
Lemma same_houses_staked s s' : same_houses s s' -> staked s' = staked s.
Proof. unfold staked. by intros (-> & -> & ->). Qed.
Lemma same_houses_map s s' h : same_houses s s' -> house_map s' h = house_map s h.
Proof. intros (H1 & H2 & H3). destruct h; done. Qed.

Lemma house_map_on s h f h' : house_map (on_house h f s) h' = if decide (h = h') then f (house_map s h) else house_map s h'.
Proof. destruct h, h'; reflexivity. Qed.
Lemma staked_on s h f :
  staked (on_house h f s) = staked s - msum stake (house_map s h) + msum stake (f (house_map s h)).
Proof. unfold staked. destruct h; cbn; lia. Qed.

(** ** What holds of purses, auctions and mails *)

Definition gold_ok (s : Market) : Prop := forall u g, gold s !! u = Some g -> 0 <= g <= MAX_MONEY_AMOUNT.

Record auction_ok (id : Z) (a : AuctionEntry) : Prop := {
  ao_id : a_Id a = id;
  ao_bid : 0 <= a_bid a;
  ao_deposit : 0 <= a_deposit a;
  ao_stake : stake a <= MAX_MONEY_AMOUNT;
  ao_buyout : 0 <= a_buyout a < 2 ^ 32;
  ao_below : a_bid a <= a_buyout a \/ a_buyout a = 0
}.
Definition houses_ok (s : Market) : Prop := forall h id a, house_map s h !! id = Some a -> auction_ok id a.

(** The row behind a mail in memory: it is the player's, and holds at least as much. *)
Definition in_sync (rows : gmap Z MailRow) (u : Z) (m : Mail) : Prop :=
  exists r, rows !! messageID m = Some r /\ r_receiver r = u /\ 0 <= m_money m <= r_money r /\ 0 <= m_COD m < 2 ^ 32.
Record desk_ok (rows : gmap Z MailRow) (u : Z) (t : Trader) : Prop := {
  do_guid : 0 < u < 2 ^ 32;
  do_unloaded : m_mailsLoaded t = false -> m_mail t = [];
  do_nodup : NoDup (messageID <$> m_mail t);
  do_sync : forall m, m ∈ m_mail t -> in_sync rows u m
}.
Record row_ok (next id : Z) (r : MailRow) : Prop := {
  ro_id : 0 <= id < next;
  ro_money : 0 <= r_money r < 2 ^ 31 - 1;
  ro_cod : 0 <= r_cod r < 2 ^ 32
}.
Record mail_ok (s : Market) : Prop := {
  mo_next : 0 <= m_mailid s < 2 ^ 32;
  mo_row : forall id r, mail s !! id = Some r -> row_ok (m_mailid s) id r;
  mo_desk : forall u t, online s !! u = Some t -> desk_ok (mail s) u t
}.
Record market_ok (s : Market) : Prop := {
  mk_gold : gold_ok s;
  mk_houses : houses_ok s;
  mk_mail : mail_ok s
}.

Lemma money_nonneg s : mail_ok s -> all_nonneg r_money (mail s).
Proof. intros Hs id r Hr. pose proof (ro_money _ _ _ (mo_row s Hs id r Hr)). lia. Qed.

Lemma desk_ok_ext rows u t t' : m_mailsLoaded t' = m_mailsLoaded t -> m_mail t' = m_mail t -> desk_ok rows u t -> desk_ok rows u t'.
Proof. intros E1 E2 [H1 H2 H3 H4]. split; rewrite ?E1, ?E2; done. Qed.

(** ** Programs and the books

    [calm]: a run that does not exhaust the counter of mails or auctions, which
    stops the server. *)
Definition calm {A} (m : KM A) (s : Market) : Prop := IdOverflow ∉ run_log m s.

Lemma calm_bind {A B} (m : KM A) (k : A -> KM B) s :
  calm (bind m k) s -> calm m s /\ calm (k (run_value m s)) (run_state m s).
Proof. unfold calm. rewrite run_log_bind, not_elem_of_app. done. Qed.

Definition desk (t : Trader) : bool * list Mail := (m_mailsLoaded t, m_mail t).

(** The books agree: nothing the sums or their invariants depend on has changed. *)
Record same_books (s s' : Market) : Prop := {
  sb_gold : gold s' = gold s;
  sb_houses : same_houses s s';
  sb_mail : mail s' = mail s;
  sb_next : m_mailid s' = m_mailid s;
  sb_desk : forall u, desk <$> online s' !! u = desk <$> online s !! u
}.
Definition quiet {A} (m : KM A) : Prop := forall s, same_books s (run_state m s).

Lemma same_books_refl s : same_books s s.
Proof. by split. Qed.
Lemma same_books_trans s1 s2 s3 : same_books s1 s2 -> same_books s2 s3 -> same_books s1 s3.
Proof.
  intros [G1 H1 M1 N1 D1] [G2 H2 M2 N2 D2]. split; [congruence | by eapply same_houses_trans | congruence..|].
  intros u. by rewrite D2.
Qed.
Lemma same_books_desk s s' u t : same_books s s' -> online s' !! u = Some t ->
  exists t0, online s !! u = Some t0 /\ m_mailsLoaded t = m_mailsLoaded t0 /\ m_mail t = m_mail t0.
Proof.
  intros Hs Ht. pose proof (sb_desk _ _ Hs u) as Hd. rewrite Ht in Hd. destruct (online s !! u) as [t0|]; [|done].
  exists t0. by injection Hd as -> ->.
Qed.
Lemma same_books_desk_back s s' u t0 : same_books s s' -> online s !! u = Some t0 ->
  exists t, online s' !! u = Some t /\ m_mailsLoaded t = m_mailsLoaded t0 /\ m_mail t = m_mail t0.
Proof.
  intros Hs Ht. pose proof (sb_desk _ _ Hs u) as Hd. rewrite Ht in Hd. destruct (online s' !! u) as [t|]; [|done].
  exists t. by injection Hd as -> ->.
Qed.
Lemma mail_ok_books s s' : same_books s s' -> mail_ok s -> mail_ok s'.
Proof.
  intros Hs [Hn Hr Hd]. split; rewrite ?(sb_mail _ _ Hs), ?(sb_next _ _ Hs); [done..|].
  intros u t Ht. destruct (same_books_desk _ _ _ _ Hs Ht) as (t0 & Ht0 & El & Em).
  apply (desk_ok_ext _ _ t0); [done | done | by apply Hd].
Qed.
Lemma market_ok_books s s' : same_books s s' -> market_ok s -> market_ok s'.
Proof.
  intros Hs [Hg Hh Hm]. split.
  - intros u g. rewrite (sb_gold _ _ Hs). apply Hg.
  - intros h id a. rewrite (same_houses_map _ _ h (sb_houses _ _ Hs)). apply Hh.
  - by eapply mail_ok_books.
Qed.
Lemma wealth_books s s' : same_books s s' -> wealth s' = wealth s.
Proof.
  intros Hs. unfold wealth, purses, mailed. rewrite (same_houses_staked _ _ (sb_houses _ _ Hs)).
  by rewrite (sb_gold _ _ Hs), (sb_mail _ _ Hs).
Qed.

(** *** Programs that leave the books alone *)

Create HintDb quiet.

Lemma still_ret {A} (a : A) : quiet (ret a).
Proof. intros s. apply same_books_refl. Qed.
Lemma quiet_emit e : quiet (emit e).
Proof. intros s. apply same_books_refl. Qed.
Lemma still_bind {A B} (m : KM A) (k : A -> KM B) : quiet m -> (forall a, quiet (k a)) -> quiet (bind m k).
Proof. intros Hm Hk s. rewrite run_state_bind. exact (same_books_trans _ _ _ (Hm s) (Hk _ _)). Qed.
Lemma still_when b m : quiet m -> quiet (when b m).
Proof. destruct b; [done | intros _; apply still_ret]. Qed.
Lemma still_with_state {A} (k : Market -> KM A) : (forall s, quiet (k s)) -> quiet (with_state k).
Proof. intros Hk s. apply Hk. Qed.
Lemma still_for_each {A} (l : list A) (f : A -> KM unit) : (forall x, quiet (f x)) -> quiet (for_each l f).
Proof. intros Hf. induction l as [|x l IH]; [apply still_ret | by apply still_bind]. Qed.
Lemma quiet_with_trader u k : (forall t, quiet (k t)) -> quiet (with_trader u k).
Proof. intros Hk s. unfold with_trader. apply still_with_state. intros s'. destruct (online s' !! u); [apply Hk | apply still_ret]. Qed.
Lemma quiet_upd_trader u f : (forall t, desk (f t) = desk t) -> quiet (upd_trader u f).
Proof.
  intros Hf s. split; try done. intros w. cbn. destruct (decide (u = w)) as [<-|Hw].
  - rewrite lookup_alter_eq. destruct (online s !! u) as [t|]; [|done]. cbn. by rewrite Hf.
  - by rewrite lookup_alter_ne.
Qed.

(** The statements that do not touch the table mail. *)
Definition off_mail (st : market_statement) : bool :=
  match st with
  | InsertMail _ _ | UpdateMail _ _ _ _ _ _ _ | SetMailReturned _ _ _ _ _ _ | DeleteMail _ | DeleteEmptyExpired _ => false
  | _ => true
  end.
Lemma books_execute st s : off_mail st = true -> same_books s (execute_on st s).
Proof. destruct st; try done; intros _; by split. Qed.
Lemma rs_Append st s : run_state (Append st) s = execute_on st s.
Proof. reflexivity. Qed.
Lemma quiet_Append st : off_mail st = true -> quiet (Append st).
Proof. intros Hst s. rewrite rs_Append. by apply books_execute. Qed.
Lemma quiet_MoveItemFromInventory i : quiet (MoveItemFromInventory i).
Proof. intros s. by split. Qed.
Lemma quiet_AddItem_auction i : quiet (RemoveAItem i).
Proof. intros s. by split. Qed.
Lemma quiet_AddAItem i : quiet (AddAItem i).
Proof. apply still_with_state. intros s0. destruct (GetAItem s0 i); [apply quiet_emit | intros s; by split]. Qed.
Lemma quiet_StoreItem v u i : quiet (StoreItem v u i).
Proof. intros s. unfold StoreItem. destruct (StoreItem_merges v u i); split; done. Qed.
Lemma quiet_SaveGold u : quiet (SaveGoldToDB u).
Proof. apply still_with_state. intros s. by apply quiet_Append. Qed.

#[export] Hint Resolve still_ret quiet_emit still_bind still_when still_with_state still_for_each quiet_with_trader
  quiet_MoveItemFromInventory quiet_AddItem_auction quiet_AddAItem quiet_StoreItem quiet_SaveGold : quiet.
#[export] Hint Extern 3 (quiet (upd_trader _ _)) => (apply quiet_upd_trader; reflexivity) : quiet.
#[export] Hint Extern 3 (quiet (Append _)) => (apply quiet_Append; reflexivity) : quiet.

Section quiet_programs.
Context (v : MarketView).

Lemma quiet_SaveInventoryAndGold u : quiet (SaveInventoryAndGoldToDB u).
Proof. unfold SaveInventoryAndGoldToDB. auto with quiet. Qed.
Lemma quiet_SendMailResult u a b c d e f : quiet (SendMailResult u a b c d e f).
Proof. apply quiet_emit. Qed.
Lemma quiet_UpdateNextMailTime u : quiet (UpdateNextMailTimeAndUnreads v u).
Proof. apply quiet_with_trader. intros t. destruct (foldl _ _ _). auto with quiet. Qed.
Lemma quiet_AddNewMailDeliverTime u d : quiet (AddNewMailDeliverTime v u d).
Proof. apply quiet_with_trader. intros t. destruct (_ <=? _); unfold SendNewMail; auto 6 with quiet. Qed.
Lemma quiet_Update_mail u : quiet (Update_mail v u).
Proof. apply quiet_with_trader. intros t. unfold SendNewMail. auto 6 with quiet. Qed.
Lemma quiet_AddMItem u i : quiet (AddMItem u i).
Proof. unfold AddMItem. auto with quiet. Qed.
Lemma quiet_RemoveMItem u i : quiet (RemoveMItem u i).
Proof. unfold RemoveMItem. auto with quiet. Qed.
Lemma quiet_load_item u i : quiet (load_item v u i).
Proof. unfold load_item. repeat destruct (negb _); auto using quiet_AddMItem with quiet. Qed.
Lemma quiet_LoadMailedItems u id : quiet (_LoadMailedItems v u id).
Proof. apply still_with_state. intros s. auto using quiet_load_item with quiet. Qed.
Lemma quiet_LoadMailInit u : quiet (_LoadMailInit v u).
Proof. apply still_with_state. intros s. by apply quiet_upd_trader. Qed.
Lemma quiet_deleteIncludedItems d b : quiet (deleteIncludedItems d b).
Proof. unfold deleteIncludedItems. auto with quiet. Qed.
Lemma quiet_attach_item rc i : quiet (attach_item rc i).
Proof. unfold attach_item. auto 6 with quiet. Qed.
End quiet_programs.
#[export] Hint Resolve quiet_SaveInventoryAndGold quiet_SendMailResult quiet_UpdateNextMailTime quiet_AddNewMailDeliverTime
  quiet_Update_mail quiet_AddMItem quiet_RemoveMItem quiet_LoadMailedItems quiet_LoadMailInit
  quiet_deleteIncludedItems quiet_attach_item : quiet.

(** ** Programs that work on the mails

    [posts d m s]: from [s] the program keeps purses and houses as they are, keeps
    [mail_ok], and puts at most [d] copper into the mails. *)
Record post (d : Z) (s s' : Market) : Prop := {
  po_gold : gold s' = gold s;
  po_houses : same_houses s s';
  po_mail : mail_ok s';
  po_sum : mailed s' <= mailed s + d
}.
Definition posts {A} (d : Z) (m : KM A) (s : Market) : Prop := mail_ok s -> calm m s -> post d s (run_state m s).

Lemma post_books s s' : same_books s s' -> mail_ok s -> post 0 s s'.
Proof.
  intros Hs Hm. split; [apply Hs | apply Hs | by eapply mail_ok_books |].
  unfold mailed. rewrite (sb_mail _ _ Hs). lia.
Qed.
Lemma post_trans d1 d2 d s1 s2 s3 : post d1 s1 s2 -> post d2 s2 s3 -> d1 + d2 <= d -> post d s1 s3.
Proof.
  intros [G1 H1 M1 L1] [G2 H2 M2 L2] Hd. split; [congruence | by eapply same_houses_trans | done | lia].
Qed.
Lemma posts_quiet {A} (m : KM A) s : quiet m -> posts 0 m s.
Proof. intros Hm Hs _. by apply post_books. Qed.
Lemma posts_seq {A B} d1 d2 d (m : KM A) (k : A -> KM B) s :
  posts d1 m s -> (post d1 s (run_state m s) -> posts d2 (k (run_value m s)) (run_state m s)) -> d1 + d2 <= d -> posts d (bind m k) s.
Proof.
  intros Hm Hk Hd Hs [C1 C2]%calm_bind. rewrite run_state_bind. pose proof (Hm Hs C1) as H1.
  eapply post_trans; [exact H1 | apply Hk; [done | apply H1 | done] | done].
Qed.
Lemma posts_skip {A B} d (m : KM A) (k : A -> KM B) s :
  quiet m -> (forall a s', same_books s s' -> posts d (k a) s') -> posts d (bind m k) s.
Proof. intros Hm Hk. eapply posts_seq; [by apply posts_quiet | intros _; by apply Hk | lia]. Qed.
Lemma posts_then {A B} d (m : KM A) (k : A -> KM B) s : posts d m s -> (forall a, quiet (k a)) -> posts d (bind m k) s.
Proof. intros Hm Hk. eapply posts_seq; [done | intros _; by apply posts_quiet | lia]. Qed.
Lemma posts_le {A} d d' (m : KM A) s : posts d m s -> d <= d' -> posts d' m s.
Proof. intros Hm Hd Hs C. destruct (Hm Hs C). split; try done. lia. Qed.
Lemma posts_with_state {A} d (k : Market -> KM A) s : posts d (k s) s -> posts d (with_state k) s.
Proof. exact (fun H => H). Qed.
Lemma posts_with_trader d u k s : 0 <= d -> (forall t, online s !! u = Some t -> posts d (k t) s) -> posts d (with_trader u k) s.
Proof.
  intros Hd Hk. apply posts_with_state. destruct (online s !! u) as [t|]; [by apply Hk|].
  eapply posts_le; [apply posts_quiet, still_ret | done].
Qed.
Lemma posts_when d b m s : 0 <= d -> (b = true -> posts d m s) -> posts d (when b m) s.
Proof. intros Hd Hm. destruct b; [by apply Hm | eapply posts_le; [apply posts_quiet, still_ret | done]]. Qed.
Lemma posts_for_each {A} (l : list A) (f : A -> KM unit) s :
  (forall x s', x ∈ l -> posts 0 (f x) s') -> posts 0 (for_each l f) s.
Proof.
  revert s. induction l as [|x l IH]; intros s Hf; [apply posts_quiet, still_ret|]. cbn.
  eapply posts_seq; [apply Hf; left | intros _; apply IH; intros y s' Hy; apply Hf; by right | lia].
Qed.

(** *** Rows and desks *)

Lemma post_shrink s s' :
  mail_ok s -> gold s' = gold s -> same_houses s s' -> m_mailid s' = m_mailid s ->
  (forall id r, mail s' !! id = Some r -> exists r0, mail s !! id = Some r0 /\ 0 <= r_money r <= r_money r0 /\ 0 <= r_cod r < 2 ^ 32) ->
  (forall u t, online s' !! u = Some t -> desk_ok (mail s') u t) -> mailed s' <= mailed s ->
  post 0 s s'.
Proof.
  intros Hm G H N Hr Hd Ht. split; [done | done | | lia].
  split; rewrite ?N; [apply Hm | | done].
  intros id r Hid. destruct (Hr id r Hid) as (r0 & Hr0 & Hmo & Hc). destruct (mo_row s Hm id r0 Hr0). split; lia || done.
Qed.
Lemma rows_same s id r : mail_ok s -> mail s !! id = Some r ->
  exists r0, mail s !! id = Some r0 /\ 0 <= r_money r <= r_money r0 /\ 0 <= r_cod r < 2 ^ 32.
Proof. intros Hm Hr. exists r. destruct (mo_row s Hm id r Hr). split; [done | lia]. Qed.

(** Only one desk changes. *)
Lemma post_desk u f s :
  mail_ok s -> (forall t, online s !! u = Some t -> desk_ok (mail s) u t -> desk_ok (mail s) u (f t)) ->
  post 0 s (on_online (alter f u) s).
Proof.
  intros Hm Hf. apply post_shrink; try done.
  - intros id r Hr. by apply rows_same.
  - intros w t Hw. cbn in Hw. destruct (decide (u = w)) as [<-|Hne].
    + rewrite lookup_alter_eq in Hw. destruct (online s !! u) as [t0|] eqn:Ht; [|done]. injection Hw as <-.
      apply Hf; [done..|]. by apply (mo_desk s Hm).
    + rewrite lookup_alter_ne in Hw by done. by apply (mo_desk s Hm).
Qed.
Lemma posts_given {A} d (m : KM A) s : (mail_ok s -> posts d m s) -> posts d m s.
Proof. intros H Hs. by apply H. Qed.
Lemma posts_desk u f s :
  (forall t, online s !! u = Some t -> desk_ok (mail s) u t -> desk_ok (mail s) u (f t)) -> posts 0 (upd_trader u f) s.
Proof. intros Hf Hm _. by apply post_desk. Qed.

Lemma posts_AddMail u m s :
  in_sync (mail s) u m ->
  (forall t, online s !! u = Some t -> m_mailsLoaded t = true /\ messageID m ∉ messageID <$> m_mail t) ->
  posts 0 (AddMail u m) s.
Proof.
  intros Hsync Hdesk. apply posts_desk. intros t Ht [H1 H2 H3 H4]. destruct (Hdesk t Ht) as [Hl Hni].
  split; [done | intros E; cbn in E; congruence | cbn; by apply NoDup_cons |].
  intros m' Hin. cbn in Hin. apply elem_of_cons in Hin as [->|Hin]; [done | by apply H4].
Qed.

(** *** Sending a mail *)


Record draft_ok (d : MailDraft) : Prop := {
  dr_money : 0 <= d_money d < 2 ^ 31 - 1;
  dr_COD : 0 <= d_COD d < 2 ^ 32
}.
Definition receiver_ok (r : MailReceiver) : Prop := forall p, r_player r = Some p -> r_lowguid r = p.

Lemma GetPlayer_online s u t : GetPlayer s u = Some t -> online s !! u = Some t.
Proof. unfold GetPlayer. destruct (online s !! u) as [t0|]; [|done]. by destruct (t_inWorld t0). Qed.
Lemma online_ptr_some s u p : online_ptr s u = Some p -> p = u /\ is_Some (online s !! u).
Proof.
  unfold online_ptr. destruct (GetPlayer s u) as [t|] eqn:E; [|done]. intros [= <-]. apply GetPlayer_online in E. eauto.
Qed.
Lemma receiver_of_ok s u : mail_ok s -> receiver_ok (receiver_of s u).
Proof.
  intros Hm p Hp. apply online_ptr_some in Hp as [-> [t Ht]]. cbn. apply u32_small.
  pose proof (do_guid _ _ _ (mo_desk s Hm u t Ht)). lia.
Qed.

(** The part of [SendMailTo] after the row has been written. *)
Lemma posts_deliver v (receiver : MailReceiver) (d : MailDraft) deliver_time (m : Mail) s :
  (forall p, r_player receiver = Some p ->
     in_sync (mail s) p m /\ forall t, online s !! p = Some t -> messageID m ∉ messageID <$> m_mail t) ->
  posts 0 match r_player receiver with
    | Some p => with_trader p (fun t =>
        AddNewMailDeliverTime v p deliver_time ;;
        if m_mailsLoaded t then AddMail p m ;; for_each (oset_list (d_items d)) (AddMItem p)
        else when (negb (draft_empty d)) (deleteIncludedItems d false))
    | None => when (negb (draft_empty d)) (deleteIncludedItems d false)
    end s.
Proof.
  intros Hm. destruct (r_player receiver) as [p|]; [|apply posts_quiet; auto with quiet].
  destruct (Hm p eq_refl) as [Hsync Hfresh]. apply posts_with_trader; [lia|]. intros t Ht.
  apply posts_skip; [auto with quiet|]. intros _ s' Hs.
  destruct (m_mailsLoaded t) eqn:Hl; [|apply posts_quiet; auto with quiet].
  apply posts_then; [|auto with quiet]. apply posts_AddMail; [by rewrite (sb_mail _ _ Hs)|].
  intros t' Ht'. destruct (same_books_desk _ _ _ _ Hs Ht') as (t0 & Ht0 & -> & ->).
  rewrite Ht in Ht0. injection Ht0 as <-. split; [done | by apply Hfresh].
Qed.

(** Writing the row under a fresh identifier. *)
Lemma fresh_mailid s : mail_ok s -> mail s !! m_mailid s = None.
Proof.
  intros Hm. destruct (mail s !! m_mailid s) as [r|] eqn:E; [|done]. destruct (mo_row s Hm _ _ E). lia.
Qed.
Definition wrote_mail (r : MailRow) (s : Market) : Market := execute_on (InsertMail (m_mailid s) r) (next_mailid s).
Lemma mail_wrote r s : mail_ok s -> mail (wrote_mail r s) = <[m_mailid s := r]> (mail s).
Proof. intros Hm. cbn. by rewrite fresh_mailid. Qed.
Lemma post_new_row s r :
  mail_ok s -> m_mailid s < 2 ^ 32 - 1 -> 0 <= r_money r < 2 ^ 31 - 1 -> 0 <= r_cod r < 2 ^ 32 ->
  post (r_money r) s (wrote_mail r s).
Proof.
  intros Hm Hn Hmo Hc. pose proof (fresh_mailid s Hm) as Hnew. pose proof (mo_next s Hm) as Hnext.
  assert (Hu : u32 (m_mailid s + 1) = m_mailid s + 1) by (apply u32_small; lia).
  split; [done | done | | unfold mailed; rewrite mail_wrote, msum_insert_new by done; lia].
  split; rewrite ?mail_wrote by done; cbn; rewrite ?Hu; [lia | |].
  - intros id r' Hr. apply lookup_insert_Some in Hr as [[<- <-]|[Hne Hr]]; [split; lia|].
    destruct (mo_row s Hm id r' Hr). split; lia.
  - intros u t Ht. destruct (mo_desk s Hm u t Ht) as [H1 H2 H3 H4]. split; [done..|].
    intros m Hin. destruct (H4 m Hin) as (r' & Hr & Hrest). exists r'. split; [|done].
    rewrite lookup_insert_ne; [done | congruence].
Qed.

Lemma calm_id {A} (k : Z -> KM A) s : calm (bind GenerateMailID k) s -> m_mailid s < 0xFFFFFFFE /\ calm (k (m_mailid s)) (next_mailid s).
Proof.
  intros [Hc Hk]%calm_bind. destruct (Z.leb_spec 0xFFFFFFFE (m_mailid s)) as [H|H].
  - exfalso. apply Hc. unfold GenerateMailID, with_state, run_log, bind, when. apply Z.leb_le in H. rewrite H. left.
  - split; [done|]. unfold GenerateMailID, with_state, run_value, run_state, bind, when in Hk.
    apply Z.leb_gt in H. rewrite H in Hk. exact Hk.
Qed.
Lemma rs_id {A} (k : Z -> KM A) s : m_mailid s < 0xFFFFFFFE ->
  run_state (bind GenerateMailID k) s = run_state (k (m_mailid s)) (next_mailid s).
Proof.
  intros H. rewrite run_state_bind. unfold GenerateMailID, with_state, run_value, run_state, bind, when.
  apply Z.leb_gt in H. by rewrite H.
Qed.

(** A program that is understood from its first step on. *)
Lemma posts_from {A} d1 d2 d (m : KM A) s s1 (k : KM A) :
  (calm m s -> post d1 s s1 /\ calm k s1 /\ run_state m s = run_state k s1) ->
  (post d1 s s1 -> posts d2 k s1) -> d1 + d2 <= d -> posts d m s.
Proof.
  intros Hm Hk Hd Hs C. destruct (Hm C) as (H1 & C1 & ->).
  eapply post_trans; [exact H1 | apply Hk; [done | apply H1 | done] | done].
Qed.

Lemma posts_SendMailTo v receiver sender checked delay d s :
  draft_ok d -> receiver_ok receiver -> posts (d_money d) (SendMailTo v receiver sender checked delay d) s.
Proof.
  intros [Hd Hc] Hr. apply posts_given. intros Hm. unfold SendMailTo.
  set (row := mail_row receiver sender checked (now v + delay) (now v + delay + expire_delay v sender d) d).
  assert (Erow : r_money row = d_money d) by (cbn; apply u32_small; lia).
  eapply (posts_from (d_money d) 0 (d_money d) _ s (wrote_mail row s)); [| |lia].
  - intros C. apply calm_id in C as [Hid C]. rewrite rs_id by done.
    apply calm_bind in C as [_ C]. rewrite run_state_bind, rs_Append in *.
    split; [|split; [exact C | done]]. rewrite <- Erow. apply post_new_row; [done | lia | lia |]. cbn. rewrite u32_small; lia.
  - intros Hp. cbv beta. apply posts_skip; [auto with quiet|]. intros _ s2 Hs2. apply posts_deliver.
    intros p Hrp. rewrite (sb_mail _ _ Hs2), mail_wrote by done. split.
    + exists row. rewrite lookup_insert_eq. split; [done|]. split; [by apply Hr|]. rewrite Erow. cbn. lia.
    + intros t Ht. destruct (same_books_desk _ _ _ _ Hs2 Ht) as (t0 & Ht0 & _ & ->). cbn.
      intros (m & E & Hin)%list_elem_of_fmap.
      pose proof (do_sync _ _ _ (mo_desk s Hm p t0 Ht0) m Hin) as (r & Hr0 & _).
      rewrite <- E, fresh_mailid in Hr0; done.
Qed.

(** *** Saving *)

Definition save_row (rows : gmap Z MailRow) (m : Mail) : gmap Z MailRow :=
  match m_state m with
  | MAIL_STATE_CHANGED =>
      alter (fun r => mkMailRow (r_messageType r) (r_stationery r) (r_mailTemplateId r) (r_sender r) (r_receiver r)
        (r_subject r) (r_body r) (HasItems m) (m_expire_time m) (m_deliver_time m) (u32 (m_money m)) (u32 (m_COD m))
        (m_checked m)) (messageID m) rows
  | MAIL_STATE_DELETED => delete (messageID m) rows
  | MAIL_STATE_UNCHANGED => rows
  end.
(** What a row loses when its mail is saved. *)
Definition loss (rows : gmap Z MailRow) (m : Mail) : Z :=
  match m_state m, rows !! messageID m with
  | MAIL_STATE_CHANGED, Some r => r_money r - m_money m
  | MAIL_STATE_DELETED, Some r => r_money r
  | _, _ => 0
  end.

Lemma save_row_other rows m id : id <> messageID m -> save_row rows m !! id = rows !! id.
Proof.
  intros Hid. unfold save_row. destruct (m_state m); [done | by rewrite lookup_alter_ne | by rewrite lookup_delete_ne].
Qed.
Lemma in_sync_ext rows rows' u m : rows' !! messageID m = rows !! messageID m -> in_sync rows u m -> in_sync rows' u m.
Proof. intros E (r & Hr & H). exists r. by rewrite E. Qed.

Definition in_order (u : Z) (rows : gmap Z MailRow) (l : list Mail) : Prop :=
  NoDup (messageID <$> l) /\ forall m, m ∈ l -> in_sync rows u m /\ forall r, rows !! messageID m = Some r -> r_money r < 2 ^ 32.
Lemma in_order_tail u rows m l : in_order u rows (m :: l) -> in_order u (save_row rows m) l.
Proof.
  intros [[Hni Hnd]%NoDup_cons Hs]. split; [done|]. intros m' Hm'.
  assert (E : save_row rows m !! messageID m' = rows !! messageID m').
  { apply save_row_other. intros E. apply Hni. apply list_elem_of_fmap. eauto. }
  destruct (Hs m') as [H1 H2]; [by right|]. split; [by eapply in_sync_ext | by rewrite E].
Qed.

Lemma saved_other rows l id : id ∉ messageID <$> l -> foldl save_row rows l !! id = rows !! id.
Proof.
  revert rows. induction l as [|m l IH]; intros rows Hid; [done|]. cbn in *. apply not_elem_of_cons in Hid as [H1 H2].
  rewrite IH by done. by apply save_row_other.
Qed.
Lemma saved_at u rows l m : in_order u rows l -> m ∈ l -> foldl save_row rows l !! messageID m = save_row rows m !! messageID m.
Proof.
  revert rows. induction l as [|m' l IH]; intros rows Ho Hm; [by apply elem_of_nil in Hm|]. cbn.
  apply elem_of_cons in Hm as [->|Hm].
  - apply saved_other. destruct Ho as [[Hni _]%NoDup_cons _]. done.
  - rewrite IH by (try done; by eapply in_order_tail).
    assert (Hne : messageID m <> messageID m').
    { intros E. destruct Ho as [[Hni _]%NoDup_cons _]. apply Hni, list_elem_of_fmap. eauto. }
    pose proof (save_row_other rows m' (messageID m) Hne) as E. unfold save_row at 1 3.
    destruct (m_state m); [done | by rewrite !lookup_alter_eq, E | by rewrite !lookup_delete_eq].
Qed.

Lemma loss_range u rows m : in_sync rows u m -> 0 <= loss rows m.
Proof. intros (r & Hr & _ & Hm & _). unfold loss. rewrite Hr. destruct (m_state m); lia. Qed.
Lemma total_save_row u rows m : in_sync rows u m -> (forall r, rows !! messageID m = Some r -> r_money r < 2 ^ 32) ->
  msum r_money (save_row rows m) = msum r_money rows - loss rows m.
Proof.
  intros (r & Hr & _ & Hm & _) Hb. specialize (Hb r Hr). unfold save_row, loss. rewrite Hr. destruct (m_state m).
  - lia.
  - rewrite (msum_alter _ _ _ r) by done. cbn. rewrite u32_small by lia. lia.
  - by rewrite (msum_delete _ _ _ r).
Qed.
Lemma total_saved u rows l : in_order u rows l -> msum r_money (foldl save_row rows l) <= msum r_money rows.
Proof.
  revert rows. induction l as [|m l IH]; intros rows Ho; [done|]. cbn.
  pose proof (IH _ (in_order_tail _ _ _ _ Ho)). destruct Ho as [_ Hs]. destruct (Hs m) as [H1 H2]; [left|].
  rewrite (total_save_row u) in H by done. pose proof (loss_range _ _ _ H1). lia.
Qed.
Lemma total_saved_loss u rows l m : in_order u rows l -> m ∈ l ->
  msum r_money (foldl save_row rows l) <= msum r_money rows - loss rows m.
Proof.
  revert rows. induction l as [|m' l IH]; intros rows Ho Hm; [by apply elem_of_nil in Hm|]. cbn.
  pose proof (in_order_tail _ _ _ _ Ho) as Ht. pose proof Ho as [[Hni _]%NoDup_cons Hs].
  destruct (Hs m') as [H1 H2]; [left|]. pose proof (total_save_row u _ _ H1 H2) as E. pose proof (loss_range _ _ _ H1).
  apply elem_of_cons in Hm as [->|Hm]; [pose proof (total_saved _ _ _ Ht); lia|].
  specialize (IH _ Ht Hm). replace (loss (save_row rows m') m) with (loss rows m) in IH; [lia|].
  unfold loss. rewrite save_row_other; [done|]. intros Ee. apply Hni, list_elem_of_fmap. eauto.
Qed.

Lemma in_order_desk s u t : mail_ok s -> online s !! u = Some t -> in_order u (mail s) (m_mail t).
Proof.
  intros Hm Ht. destruct (mo_desk s Hm u t Ht) as [_ _ Hnd Hs]. split; [done|]. intros m Hin. split; [by apply Hs|].
  intros r Hr. destruct (mo_row s Hm _ _ Hr). lia.
Qed.

Lemma same_books_on_mail f s s' : same_books s s' -> same_books (on_mail f s) (on_mail f s').
Proof. intros [G H M N D]. split; cbn; [done.. | by rewrite M | done | done]. Qed.
Lemma books_save_mail m s : same_books (on_mail (fun rows => save_row rows m) s) (run_state (save_mail m) s).
Proof.
  unfold save_mail, save_row. destruct (m_state m); [by split| |].
  - rewrite run_state_bind, rs_Append. eapply same_books_trans; [|apply still_for_each; auto with quiet]. by split.
  - rewrite !run_state_bind. set (s1 := run_state (for_each _ _) s).
    assert (H1 : same_books s s1) by (apply still_for_each; auto with quiet).
    eapply same_books_trans; [apply (same_books_on_mail _ _ _ H1)|].
    rewrite !rs_Append. eapply same_books_trans; [|by apply books_execute]. by split.
Qed.
Lemma books_save_mails l s : same_books (on_mail (fun rows => foldl save_row rows l) s) (run_state (for_each l save_mail) s).
Proof.
  revert s. induction l as [|m l IH]; intros s; [by split|].
  change (for_each (m :: l) save_mail) with (save_mail m ;; for_each l save_mail). rewrite run_state_bind.
  eapply same_books_trans; [|apply IH].
  exact (same_books_on_mail (fun rows => foldl save_row rows l) _ _ (books_save_mail m s)).
Qed.

Lemma saved_mail_id m : messageID (saved_mail m) = messageID m.
Proof. unfold saved_mail. by case_bool_decide. Qed.
Lemma saved_mail_state m : m_state (saved_mail m) = MAIL_STATE_DELETED <-> m_state m = MAIL_STATE_DELETED.
Proof. unfold saved_mail. case_bool_decide as H; [|done]. cbn. rewrite H. done. Qed.
Lemma saved_mail_money m : m_money (saved_mail m) = m_money m /\ m_COD (saved_mail m) = m_COD m.
Proof. unfold saved_mail. by case_bool_decide. Qed.
Definition kept_mails (l : list Mail) : list Mail := filter (fun m => m_state m <> MAIL_STATE_DELETED) (saved_mail <$> l).
Lemma kept_mails_elem l m : m ∈ kept_mails l -> exists m0, m0 ∈ l /\ m = saved_mail m0 /\ m_state m0 <> MAIL_STATE_DELETED.
Proof.
  intros [Hst (m0 & -> & Hin)%list_elem_of_fmap]%list_elem_of_filter. exists m0. by rewrite saved_mail_state in Hst.
Qed.
Lemma kept_mails_nodup l : NoDup (messageID <$> l) -> NoDup (messageID <$> kept_mails l).
Proof.
  assert (Hsub : forall l', messageID <$> kept_mails l' ⊆ messageID <$> l').
  { intros l' id (m & -> & (m0 & Hm0 & -> & _)%kept_mails_elem)%list_elem_of_fmap. rewrite saved_mail_id.
    apply list_elem_of_fmap. eauto. }
  induction l as [|m l IH]; [done|]. intros [Hni Hnd]%NoDup_cons. specialize (IH Hnd).
  unfold kept_mails. cbn [fmap list_fmap]. rewrite filter_cons. case_decide; [|done].
  cbn. apply NoDup_cons. split; [|done]. rewrite saved_mail_id. intros E. by apply Hni, (Hsub l).
Qed.

Lemma post_saved u t d s :
  mail_ok s -> online s !! u = Some t -> msum r_money (foldl save_row (mail s) (m_mail t)) <= mailed s + d ->
  post d s (on_online (alter (set_mails kept_mails) u) (on_mail (fun rows => foldl save_row rows (m_mail t)) s)).
Proof.
  intros Hm Ht Hsum. pose proof (in_order_desk _ _ _ Hm Ht) as Ho. split; [done | done | | exact Hsum].
  assert (Hrows : forall m, m ∈ m_mail t -> exists r0, mail s !! messageID m = Some r0 /\ r_receiver r0 = u /\
     0 <= m_money m <= r_money r0 /\ r_money r0 < 2 ^ 32 /\ 0 <= m_COD m < 2 ^ 32).
  { intros m Hin. destruct (proj2 Ho m Hin) as [(r0 & E & ? & ? & ?) Hb]. exists r0. specialize (Hb _ E). repeat split; try done; lia. }
  split; cbn; [apply Hm | |].
  - intros id r Hr. destruct (decide (id ∈ messageID <$> m_mail t)) as [Hin|Hni].
    + apply list_elem_of_fmap in Hin as (m & -> & Hin). rewrite (saved_at u) in Hr by done.
      destruct (Hrows m Hin) as (r0 & E & _ & H1 & H2 & H3). pose proof (mo_row s Hm _ _ E) as [G1 G2 G3].
      unfold save_row in Hr. destruct (m_state m).
      * rewrite E in Hr. by injection Hr as <-.
      * rewrite lookup_alter_eq, E in Hr. injection Hr as <-. split; cbn; rewrite ?u32_small by lia; lia.
      * by rewrite lookup_delete_eq in Hr.
    + rewrite saved_other in Hr by done. by apply (mo_row s Hm).
  - intros w t' Hw. destruct (decide (u = w)) as [<-|Hne].
    + rewrite lookup_alter_eq, Ht in Hw. injection Hw as <-. destruct (mo_desk s Hm u t Ht) as [D1 D2 D3 D4].
      split; cbn; [done | intros E; by rewrite (D2 E) | by apply kept_mails_nodup |].
      intros m (m0 & Hin & -> & Hst)%kept_mails_elem. destruct (Hrows m0 Hin) as (r0 & E & Hrc & H1 & H2 & H3).
      unfold in_sync. rewrite saved_mail_id, (saved_at u) by done. destruct (saved_mail_money m0) as [-> ->].
      unfold save_row. destruct (m_state m0); [exists r0; repeat split; try done; lia | | done].
      rewrite lookup_alter_eq, E. eexists. split; [reflexivity|]. cbn. rewrite u32_small by lia. repeat split; try done; lia.
    + rewrite lookup_alter_ne in Hw by done. destruct (mo_desk s Hm w t' Hw) as [D1 D2 D3 D4]. split; [done..|].
      intros m Hin. destruct (D4 m Hin) as (r & Hr & Hrc & H). exists r. split; [|done].
      rewrite saved_other; [done|]. intros (m' & Em & Hin')%list_elem_of_fmap.
      destruct (Hrows m' Hin') as (r0 & E & Hu & _). rewrite Em, E in Hr. congruence.
Qed.

Lemma rs_with_trader u k s t : online s !! u = Some t -> run_state (with_trader u k) s = run_state (k t) s.
Proof. intros Ht. unfold with_trader, with_state, run_state. by rewrite Ht. Qed.
Lemma rs_no_trader u k s : online s !! u = None -> run_state (with_trader u k) s = s.
Proof. intros Ht. unfold with_trader, with_state, run_state. by rewrite Ht. Qed.

(** [_SaveMail] of a player puts away what his mails have lost. *)
Lemma rs_SaveMail u t s : online s !! u = Some t -> m_mailsLoaded t = true ->
  same_books (on_online (alter (set_mails kept_mails) u) (on_mail (fun rows => foldl save_row rows (m_mail t)) s))
    (run_state (_SaveMail u) s).
Proof.
  intros Ht Hl. unfold _SaveMail. rewrite (rs_with_trader _ _ _ t), Hl by done. unfold when. rewrite !run_state_bind. eapply same_books_trans; [|by apply quiet_upd_trader].
  pose proof (books_save_mails (m_mail t) s) as [G H M N D]. split; try done.
  intros w. cbn. destruct (decide (u = w)) as [<-|Hne].
  - specialize (D u). cbn in D. rewrite !lookup_alter_eq. rewrite Ht in *. cbn in *.
    destruct (online (run_state (for_each (m_mail t) save_mail) s) !! u) as [t'|]; [|done].
    cbn in *. injection D as D1 D2. unfold desk. cbn. by rewrite D1, D2.
  - rewrite !lookup_alter_ne by done. exact (D w).
Qed.
Lemma posts_SaveMail_sum u d s : 0 <= d \/ (exists t m, online s !! u = Some t /\ m_mailsLoaded t = true /\ m ∈ m_mail t /\ d = - loss (mail s) m) ->
  posts d (_SaveMail u) s.
Proof.
  intros Hd Hm C. assert (Hq : forall t, online s !! u = Some t -> m_mailsLoaded t = true ->
    msum r_money (foldl save_row (mail s) (m_mail t)) <= mailed s + d).
  { intros t Ht Hl. pose proof (in_order_desk _ _ _ Hm Ht) as Ho. destruct Hd as [Hd|(t' & m & Ht' & _ & Hin & ->)].
    - pose proof (total_saved u _ _ Ho). unfold mailed. lia.
    - rewrite Ht in Ht'. injection Ht' as <-. pose proof (total_saved_loss u _ _ m Ho Hin). unfold mailed. lia. }
  destruct (online s !! u) as [t|] eqn:Ht; [destruct (m_mailsLoaded t) eqn:Hl|].
  - eapply (post_trans d 0); [apply (post_saved u t d); auto | | lia].
    apply post_books; [by apply rs_SaveMail | by eapply po_mail, post_saved; auto].
  - assert (E : run_state (_SaveMail u) s = s) by (unfold _SaveMail; by rewrite (rs_with_trader _ _ _ t), Hl by done).
    rewrite E. destruct Hd as [Hd|(t' & m & Ht' & Hl' & _)]; [|congruence]. split; try done. lia.
  - destruct Hd as [Hd|(t' & m & Ht' & Hl' & _)]; [|congruence].
    unfold _SaveMail. rewrite rs_no_trader by done. split; try done. lia.
Qed.
Lemma posts_SaveMail u s : posts 0 (_SaveMail u) s.
Proof. apply posts_SaveMail_sum. left. lia. Qed.
