(* ===== verification/MarketMails.v ===== *)
(** * Mails and gold

    What the mail programs of [Mail] do to the books of [MarketGold]: they keep the
    mails in memory and the rows of the database together and put no more copper
    into the mails than is paid for them. *)
From Stdlib Require Import SpecFloat.
From S2P Require Import Prelude Text ByteBuffer Market Mail Auction MarketGold.

(** ** Loading *)

(** The mail a row of the table is loaded as. *)
Definition loaded_as (p : Z * MailRow) (m : Mail) : Prop :=
  messageID m = p.1 /\ m_money m = r_money p.2 /\ m_COD m = r_cod p.2.

Section mails.
Context (v : MarketView).

Lemma books_set_mails f g u s s' :
  same_books (on_online (alter (set_mails f) u) s) s' ->
  same_books (on_online (alter (set_mails (fun l => g (f l))) u) s) (on_online (alter (set_mails g) u) s').
Proof.
  intros [G H M N D]. split; try done. intros w. specialize (D w). cbn in *.
  destruct (decide (u = w)) as [<-|Hne].
  - rewrite !lookup_alter_eq in *. destruct (online s' !! u) as [t'|], (online s !! u) as [t|]; try done.
    cbn in *. unfold desk in *. cbn in *. congruence.
  - rewrite !lookup_alter_ne in * by done. done.
Qed.
Lemma books_on_online u f s s' : (forall t t', desk t = desk t' -> desk (f t) = desk (f t')) ->
  same_books s s' -> same_books (on_online (alter f u) s) (on_online (alter f u) s').
Proof.
  intros Hf [G H M N D]. split; try done. intros w. specialize (D w). cbn. destruct (decide (u = w)) as [<-|Hne].
  - rewrite !lookup_alter_eq. destruct (online s' !! u) as [t'|], (online s !! u) as [t|]; try done.
    cbn in *. injection D as D1 D2. f_equal. apply Hf. unfold desk. congruence.
  - by rewrite !lookup_alter_ne by done.
Qed.

Lemma books_set_ext f g u s : (forall l, f l = g l) ->
  same_books (on_online (alter (set_mails f) u) s) (on_online (alter (set_mails g) u) s).
Proof.
  intros Hfg. split; try done. intros w. cbn. destruct (decide (u = w)) as [<-|Hne].
  - rewrite !lookup_alter_eq. destruct (online s !! u) as [t|]; [|done]. unfold desk. cbn. by rewrite Hfg.
  - by rewrite !lookup_alter_ne.
Qed.

Lemma books_load_mail u p s : exists m, loaded_as p m /\
  same_books (on_online (alter (set_mails (fun l => l ++ [m])) u) s) (run_state (load_mail v u p) s).
Proof.
  destruct p as [id r]. unfold load_mail. rewrite run_state_bind. eexists. split; cycle 1.
  - apply books_on_online; [intros t t' [= E1 E2]; unfold desk; cbn; congruence|].
    destruct (r_has_items r); [apply quiet_LoadMailedItems | apply same_books_refl].
  - done.
Qed.
Lemma books_load_mails u l s : exists ms, Forall2 loaded_as l ms /\
  same_books (on_online (alter (set_mails (fun l0 => l0 ++ ms)) u) s) (run_state (for_each l (load_mail v u)) s).
Proof.
  revert s. induction l as [|p l IH]; intros s.
  - exists []. split; [constructor|]. split; try done. intros w. cbn. destruct (decide (u = w)) as [<-|Hne].
    + rewrite lookup_alter_eq. destruct (online s !! u) as [t|]; [|done]. unfold desk. cbn. by rewrite app_nil_r.
    + by rewrite lookup_alter_ne.
  - change (for_each (p :: l) (load_mail v u)) with (load_mail v u p ;; for_each l (load_mail v u)).
    rewrite run_state_bind. destruct (books_load_mail u p s) as (m & Hm & Hs1).
    destruct (IH (run_state (load_mail v u p) s)) as (ms & Hms & Hs2). exists (m :: ms). split; [by constructor|].
    eapply same_books_trans; [|exact Hs2].
    eapply same_books_trans; [|by apply (books_set_mails (fun l0 => l0 ++ [m]) (fun l0 => l0 ++ ms))].
    apply books_set_ext. intros l0. by rewrite <- app_assoc.
Qed.

(** What is in memory after loading is what is in the table. *)
Lemma loaded_in_sync u s ms :
  mail_ok s -> Forall2 loaded_as (rev (filter (fun p => r_receiver p.2 = u) (omap_list (mail s)))) ms ->
  NoDup (messageID <$> ms) /\ forall m, m ∈ ms -> in_sync (mail s) u m.
Proof.
  intros Hm Hms. set (l := rev _) in Hms.
  assert (Hids : messageID <$> ms = l.*1).
  { clearbody l. induction Hms as [|p m l' ms' [E _] _ IH]; [done|]. cbn. by rewrite E, IH. }
  split.
  - rewrite Hids. unfold l. rewrite <- Permutation_rev.
    apply (sublist_NoDup _ ((omap_list (mail s)).*1)); [apply omap_list_NoDup|].
    apply fmap_sublist, sublist_filter.
  - intros m (i & Hi)%list_elem_of_lookup. destruct (Forall2_lookup_r _ _ _ _ _ Hms Hi) as ([id r] & Hp & E1 & E2 & E3).
    apply list_elem_of_lookup_2 in Hp. unfold l in Hp. rewrite <- Permutation_rev in Hp.
    apply list_elem_of_filter in Hp as [Hr Hp]. apply elem_of_omap_list in Hp. cbn in *.
    exists r. rewrite E1. pose proof (mo_row s Hm id r Hp) as [_ Hmo Hc]. repeat split; try done; lia.
Qed.

Lemma desk_loaded t t' : desk t = desk t' -> desk (set_mails_loaded t) = desk (set_mails_loaded t').
Proof. intros [= E1 E2]. unfold desk. cbn. congruence. Qed.
Lemma posts_LoadMail u s : posts 0 (_LoadMail v u) s.
Proof.
  intros Hm _. set (l := rev (filter (fun p => r_receiver p.2 = u) (omap_list (mail s)))).
  set (s1 := on_online (alter (set_mails (fun _ => [])) u) s).
  destruct (books_load_mails u l s1) as (ms & Hms & Hs1).
  destruct (loaded_in_sync u s ms Hm Hms) as [Hnd Hsync].
  assert (Hp : post 0 s (on_online (alter (fun t => set_mails_loaded (set_mails (fun _ => ms) t)) u) s)).
  { apply post_desk; [done|]. intros t Ht [H1 H2 H3 H4]. by split. }
  eapply (post_trans 0 0); [exact Hp | apply post_books; [|apply Hp] | lia].
  unfold _LoadMail. rewrite !run_state_bind.
  change (run_state (with_state _) ?s') with (run_state (for_each (rev (filter (fun p => r_receiver p.2 = u) (omap_list (mail s')))) (load_mail v u)) s').
  change (run_state (upd_trader u (set_mails (fun _ => []))) s) with s1. change (mail s1) with (mail s). fold l.
  change (run_state (upd_trader u set_mails_loaded) ?s') with (on_online (alter set_mails_loaded u) s').
  eapply same_books_trans; [|apply (books_on_online u set_mails_loaded _ _ (fun t t' => desk_loaded t t') Hs1)].
  split; try done. intros w. cbn. destruct (decide (u = w)) as [<-|Hne]; [|by rewrite !lookup_alter_ne].
  rewrite !lookup_alter_eq. by destruct (online s !! u).
Qed.

(** ** Programs that change one mail *)

(** A change that keeps the identifier and takes money and payment down at most. *)
Definition shrinks (f : Mail -> Mail) : Prop := forall m,
  messageID (f m) = messageID m /\
  (0 <= m_money m -> 0 <= m_money (f m) <= m_money m) /\
  (0 <= m_COD m < 2 ^ 32 -> 0 <= m_COD (f m) < 2 ^ 32).
Lemma in_sync_shrinks rows u f m : shrinks f -> in_sync rows u m -> in_sync rows u (f m).
Proof.
  intros Hf (r & Hr & Hu & Hmo & Hc). destruct (Hf m) as (E & H1 & H2). exists r. rewrite E.
  split; [done|]. split; [done|]. split; [|by apply H2]. assert (0 <= m_money m) as H by lia. specialize (H1 H). lia.
Qed.
Lemma update_first_ids id f l : shrinks f -> messageID <$> update_first id f l = messageID <$> l.
Proof.
  intros Hf. induction l as [|m l IH]; [done|]. cbn. destruct (messageID m =? id); cbn; [by rewrite (proj1 (Hf m)) | by rewrite IH].
Qed.
Lemma update_first_elem id f l m : m ∈ update_first id f l -> m ∈ l \/ exists m0, m0 ∈ l /\ m = f m0.
Proof.
  induction l as [|m1 l IH]; [by left|]. cbn. destruct (messageID m1 =? id); intros [->|H]%elem_of_cons.
  - right. exists m1. split; [left | done].
  - left. by right.
  - left. left.
  - destruct (IH H) as [H1|(m0 & H0 & ->)]; [left; by right | right; exists m0; split; [by right | done]].
Qed.
Lemma erase_mail_sublist id l : erase_mail id l `sublist_of` l.
Proof. induction l as [|m l IH]; [done|]. cbn. destruct (_ =? _); [by constructor | by constructor]. Qed.

Lemma posts_upd_mail u id f s : shrinks f -> posts 0 (upd_mail u id f) s.
Proof.
  intros Hf. apply posts_desk. intros t Ht [H1 H2 H3 H4]. split; cbn; [done | | by rewrite update_first_ids |].
  - intros E. by rewrite (H2 E).
  - intros m [Hin|(m0 & Hin & ->)]%update_first_elem; [by apply H4 | by apply in_sync_shrinks, H4].
Qed.
Lemma shrinks_check mask : shrinks (check_mail mask).
Proof. intros m. cbn. repeat split; lia. Qed.
Lemma shrinks_state st : shrinks (set_state st).
Proof. intros m. cbn. repeat split; lia. Qed.
Lemma shrinks_items its removed : shrinks (fun m => set_items (its m) (removed m) m).
Proof. intros m. cbn. repeat split; lia. Qed.
Lemma shrinks_money : shrinks (fun m => set_money_COD 0 (m_COD m) m).
Proof. intros m. cbn. repeat split; lia. Qed.
Lemma shrinks_COD : shrinks (fun m => set_money_COD (m_money m) 0 m).
Proof. intros m. cbn. repeat split; lia. Qed.

(** ** The handlers that move no copper *)

Lemma posts_0_quiet {A} d (m : KM A) s : 0 <= d -> quiet m -> posts d m s.
Proof. intros Hd Hm. eapply posts_le; [by apply posts_quiet | done]. Qed.
Lemma posts_at_mailbox {A} d (parse : B (Z * A)) u data (k : A -> Trader -> KM unit) s :
  0 <= d -> (forall b a t, (parse data).1 = Ok (b, a) -> online s !! u = Some t -> posts d (k a t) s) ->
  posts d (at_mailbox v parse u data k) s.
Proof.
  intros Hd Hk. unfold at_mailbox, with_packet. destruct ((parse data).1) as [[b a]|] eqn:Ep; [|by apply posts_0_quiet, still_ret].
  destruct (negb _); [by apply posts_0_quiet, still_ret|]. apply posts_with_trader; [done|]. intros t Ht. by eapply Hk.
Qed.
Lemma posts_next {A B} d (m : KM A) (k : A -> KM B) s :
  posts 0 m s -> (forall a s', posts d (k a) s') -> posts d (bind m k) s.
Proof. intros Hm Hk. eapply posts_seq; [exact Hm | intros _; apply Hk | lia]. Qed.

Lemma posts_MarkAsRead u data s : posts 0 (HandleMailMarkAsRead v u data) s.
Proof.
  apply posts_at_mailbox; [lia|]. intros b id t _ Ht. destruct (GetMail id t); [|apply posts_quiet, still_ret].
  apply posts_skip; [auto with quiet|]. intros _ s' _.
  apply posts_then; [apply posts_upd_mail, shrinks_check | auto with quiet].
Qed.
Lemma posts_Delete u data s : posts 0 (HandleMailDelete v u data) s.
Proof.
  apply posts_at_mailbox; [lia|]. intros b id t _ Ht.
  apply posts_skip; [auto with quiet|]. intros _ s' _. destruct (GetMail id t); [|apply posts_quiet; auto with quiet].
  destruct (negb _); [apply posts_quiet; auto with quiet|].
  apply posts_then; [apply posts_upd_mail, shrinks_state | auto with quiet].
Qed.
Lemma posts_CreateTextItem u data s : posts 0 (HandleMailCreateTextItem v u data) s.
Proof.
  apply posts_at_mailbox; [lia|]. intros b id t _ Ht. destruct (open_mail v id t) as [m|]; [|apply posts_quiet; auto with quiet].
  destruct (_ && _); [apply posts_quiet; auto with quiet|]. destruct (negb _); [apply posts_quiet; auto with quiet|].
  destruct (_ && _); [apply posts_quiet; auto with quiet|]. cbv zeta. destruct (_ =? _); [|apply posts_quiet; auto with quiet].
  apply posts_then; [apply posts_upd_mail, shrinks_check | auto 6 with quiet].
Qed.
Lemma posts_load_if_needed u (t0 : Trader) (k : Trader -> KM unit) s :
  (forall t, quiet (k t)) -> posts 0 (when (negb (m_mailsLoaded t0)) (_LoadMail v u) ;; with_trader u k) s.
Proof.
  intros Hk. apply posts_next; [apply posts_when; [lia | intros _; apply posts_LoadMail]|].
  intros _ s'. apply posts_quiet. auto with quiet.
Qed.
Lemma posts_GetMailList u data s : posts 0 (HandleGetMailList v u data) s.
Proof.
  unfold HandleGetMailList, with_packet. destruct ((shr_uint 8 data).1) as [b|]; [|apply posts_quiet, still_ret].
  destruct (negb _); [apply posts_quiet, still_ret|]. apply posts_with_trader; [lia|]. intros t0 _.
  apply posts_load_if_needed. intros t. destruct (foldl _ _ _) as [[a c] d]. auto with quiet.
Qed.
Lemma posts_QueryNextMailTime u s : posts 0 (HandleQueryNextMailTime v u) s.
Proof.
  apply posts_with_trader; [lia|]. intros t0 _. apply posts_load_if_needed. intros t. destruct (_ <? _); auto with quiet.
Qed.

(** ** Sessions *)

Lemma posts_Login u s : 0 < u < 2 ^ 32 -> posts 0 (LoginTrader v u) s.
Proof.
  intros Hu. unfold LoginTrader. apply posts_with_state. destruct (online s !! u) as [t|] eqn:Hon; [apply posts_quiet, still_ret|].
  apply posts_then; [|intros _; apply quiet_LoadMailInit]. intros Hm _.
  rewrite rs_modify. apply post_shrink; try done; [intros id r Hr; by apply rows_same|].
  intros w t Hw. cbn in Hw. apply lookup_insert_Some in Hw as [[<- <-]|[_ Hw]]; [|by apply (mo_desk s Hm)].
  split; cbn; [done | done | constructor | intros m Hin; by apply elem_of_nil in Hin].
Qed.
Lemma posts_Logout u s : posts 0 (LogoutTrader u) s.
Proof.
  unfold LogoutTrader. apply posts_with_trader; [lia|]. intros t _.
  apply posts_next; [apply posts_when; [lia | intros _; apply posts_SaveMail]|].
  intros _ s1. apply posts_skip; [auto with quiet|]. intros _ s2 _. apply posts_skip; [auto with quiet|]. intros _ s3 _.
  intros Hm _. rewrite rs_modify. apply post_shrink; try done; [intros id r Hr; by apply rows_same|].
  intros w t' Hw. cbn in Hw. apply lookup_delete_Some in Hw as [_ Hw]. by apply (mo_desk s3 Hm).
Qed.
Lemma quiet_Travel u b : quiet (TravelTrader u b).
Proof. by apply quiet_upd_trader. Qed.

(** ** Returning a mail *)

Lemma posts_SendReturnToSender acc sender receiver d s :
  draft_ok d -> posts (d_money d) (SendReturnToSender v acc sender receiver d) s.
Proof.
  intros Hd. apply posts_given. intros Hm. unfold SendReturnToSender. apply posts_with_state.
  destruct (negb _); [apply posts_0_quiet; [apply Hd | auto with quiet]|].
  apply posts_skip; [auto 6 with quiet|]. intros _ s' _. apply posts_SendMailTo; [done | by apply receiver_of_ok].
Qed.

Lemma head_filter_elem {A} (P : A -> Prop) `{!forall x, Decision (P x)} (l : list A) x : head (filter P l) = Some x -> P x /\ x ∈ l.
Proof.
  induction l as [|y l IH]; [done|]. rewrite filter_cons. case_decide as Hy.
  - intros [= ->]. split; [done | left].
  - intros Hx. destruct (IH Hx). split; [done | by right].
Qed.
Lemma GetMail_elem id t m : GetMail id t = Some m -> m ∈ m_mail t /\ messageID m = id.
Proof. intros H. apply head_filter_elem in H as [H1 H2]. done. Qed.
Lemma open_mail_elem id t m : open_mail v id t = Some m -> m ∈ m_mail t /\ messageID m = id.
Proof.
  unfold open_mail. destruct (GetMail id t) as [m'|] eqn:E; [|done]. destruct (_ || _); [done|]. intros [= <-].
  by apply GetMail_elem.
Qed.

Lemma erase_mail_elem id l m : NoDup (messageID <$> l) -> m ∈ erase_mail id l -> m ∈ l /\ messageID m <> id.
Proof.
  induction l as [|m1 l IH]; [intros _ H; by apply elem_of_nil in H|]. intros [Hni Hnd]%NoDup_cons. cbn.
  destruct (Z.eqb_spec (messageID m1) id) as [<-|Hne].
  - intros Hin. split; [by right|]. intros E. apply Hni, list_elem_of_fmap. exists m. by rewrite E.
  - intros [->|Hin]%elem_of_cons; [split; [left | done]|]. destruct (IH Hnd Hin). split; [by right | done].
Qed.

(** The mail leaves the table and the player's memory together. *)
Lemma post_removed u t id r s :
  mail_ok s -> online s !! u = Some t -> mail s !! id = Some r -> r_receiver r = u ->
  post (- r_money r) s (on_online (alter (set_mails (erase_mail id)) u) (on_mail (delete id) s)).
Proof.
  intros Hm Ht Hr Hu. split; [done | done | | unfold mailed; cbn; rewrite (msum_delete _ _ _ r) by done; lia].
  split; cbn; [apply Hm | intros i r' Hi; apply lookup_delete_Some in Hi as [_ Hi]; by apply (mo_row s Hm) |].
  intros w t' Hw. destruct (decide (u = w)) as [<-|Hne].
  - rewrite lookup_alter_eq, Ht in Hw. injection Hw as <-. destruct (mo_desk s Hm u t Ht) as [D1 D2 D3 D4].
    split; cbn; [done | intros E; by rewrite (D2 E) | |].
    + apply (sublist_NoDup _ (messageID <$> m_mail t)); [done|]. apply fmap_sublist, erase_mail_sublist.
    + intros m [Hin Hid]%erase_mail_elem; [|done]. eapply in_sync_ext; [|by apply D4]. by rewrite lookup_delete_ne.
  - rewrite lookup_alter_ne in Hw by done. destruct (mo_desk s Hm w t' Hw) as [D1 D2 D3 D4]. split; [done..|].
    intros m Hin. destruct (D4 m Hin) as (r' & Hr' & Hw' & H). exists r'. split; [|done].
    rewrite lookup_delete_ne; [done|]. intros E. rewrite <- E in Hr'. congruence.
Qed.

Lemma in_sync_row s u t m : mail_ok s -> online s !! u = Some t -> m ∈ m_mail t ->
  exists r, mail s !! messageID m = Some r /\ r_receiver r = u /\ 0 <= m_money m <= r_money r /\ r_money r < 2 ^ 31 - 1 /\ 0 <= m_COD m < 2 ^ 32.
Proof.
  intros Hm Ht Hin. destruct (do_sync _ _ _ (mo_desk s Hm u t Ht) m Hin) as (r & Hr & Hu & H1 & H2).
  pose proof (ro_money _ _ _ (mo_row s Hm _ _ Hr)). exists r. repeat split; try done; lia.
Qed.

Lemma posts_ReturnToSender u data s : posts 0 (HandleMailReturnToSender v u data) s.
Proof.
  apply posts_at_mailbox; [lia|]. intros b id t _ Ht. destruct (open_mail v id t) as [m|] eqn:Eo; [|apply posts_quiet; auto with quiet].
  apply open_mail_elem in Eo as [Hin Eid]. apply posts_given. intros Hm.
  destruct (in_sync_row s u t m Hm Ht Hin) as (r & Hr & Hu & H1 & H2 & _). rewrite Eid in Hr.
  match goal with |- posts _ (bind _ (fun _ => bind _ (fun _ => bind _ (fun _ => ?k)))) _ =>
    apply (posts_from (- r_money r) (m_money m) 0 _ s
      (run_state (RemoveMail u id) (execute_on (DeleteItemsOfMail id) (execute_on (DeleteMail id) s))) k); [|intros Hp|lia] end.
  - intros [_ [_ [_ C]%calm_bind]%calm_bind]%calm_bind. rewrite !run_state_bind, !rs_Append in *.
    split; [|split; [exact C | done]].
    eapply (post_trans (- r_money r) 0); [by apply (post_removed u t id r) | | lia].
    apply post_books; [by split | by eapply po_mail, post_removed].
  - apply posts_then; [|auto with quiet]. apply posts_when; [lia|]. intros _.
    apply posts_skip; [apply still_for_each; auto with quiet|]. intros _ s' _.
    apply posts_SendReturnToSender. split; cbn; [lia|].
    assert (Hcod : forall its d, d_COD (foldr AddItem d its) = d_COD d) by (intros its d; induction its; done).
    rewrite Hcod. by destruct (negb _).
Qed.

(** ** Old mails *)

(** A mail that a player has in memory is left alone while he is in the world. *)
Definition all_in_world (s : Market) : Prop := forall u t, online s !! u = Some t -> t_inWorld t = true.

Lemma off_online st s : online (execute_on st s) = online s.
Proof. by destruct st. Qed.
Lemma run_return_row id r its s :
  same_books (execute_on (SetMailReturned id (r_receiver r) (r_sender r) (now v + 30 * DAY) (now v) MAIL_CHECK_MASK_RETURNED) s)
    (run_state (return_row v id r its) s).
Proof. unfold return_row. rewrite run_state_bind, rs_Append. apply still_for_each. auto with quiet. Qed.

Lemma online_for_each {A} (l : list A) (f : A -> KM unit) s :
  (forall x s', online (run_state (f x) s') = online s') -> online (run_state (for_each l f) s) = online s.
Proof.
  intros Hf. revert s. induction l as [|x l IH]; intros s; [done|].
  change (for_each (x :: l) f) with (f x ;; for_each l f). by rewrite run_state_bind, IH.
Qed.

(** One old mail touches its row only. *)
Record on_row (id : Z) (s s' : Market) : Prop := {
  or_post : post 0 s s';
  or_other : forall i, i <> id -> mail s' !! i = mail s !! i;
  or_online : online s' = online s
}.
Lemma on_row_books id s s1 s' : on_row id s s1 -> same_books s1 s' -> online s' = online s1 -> on_row id s s'.
Proof.
  intros [[G1 H1 M1 L1] O1 N1] Hs E. split; [|by rewrite (sb_mail _ _ Hs) | congruence].
  eapply (post_trans 0 0); [by split | by apply post_books | lia].
Qed.
(** No mail of a player in memory stands on the row. *)
Definition nobody_reads (id : Z) (s : Market) : Prop := forall u t m, online s !! u = Some t -> m ∈ m_mail t -> messageID m <> id.
Lemma on_row_alter id f s : mail_ok s -> nobody_reads id s ->
  (forall r, mail s !! id = Some r -> r_money (f r) = r_money r /\ 0 <= r_cod (f r) < 2 ^ 32) -> on_row id s (on_mail (alter f id) s).
Proof.
  intros Hm Hn Hf. split; [|intros i Hi; cbn; by rewrite lookup_alter_ne | done].
  apply post_shrink; try done.
  - intros i r Hr. cbn in Hr. destruct (decide (i = id)) as [->|Hne].
    + rewrite lookup_alter_eq in Hr. destruct (mail s !! id) as [r0|] eqn:E; [|done]. injection Hr as <-.
      destruct (Hf r0 eq_refl) as [-> Hc]. exists r0. pose proof (ro_money _ _ _ (mo_row s Hm _ _ E)). split; [done|lia].
    + rewrite lookup_alter_ne in Hr by done. by apply rows_same.
  - intros u t Ht. destruct (mo_desk s Hm u t Ht) as [D1 D2 D3 D4]. split; [done..|]. intros m Hin.
    eapply in_sync_ext; [|by apply D4]. cbn. rewrite lookup_alter_ne; [done|]. intros E. by apply (Hn u t m Ht Hin).
  - unfold mailed. cbn. destruct (mail s !! id) as [r0|] eqn:E.
    + rewrite (msum_alter _ _ _ r0) by done. destruct (Hf r0 eq_refl) as [-> _]. lia.
    + rewrite alter_id; [done|]. congruence.
Qed.
Lemma on_row_delete id s : mail_ok s -> nobody_reads id s -> on_row id s (on_mail (delete id) s).
Proof.
  intros Hm Hn. split; [|intros i Hi; cbn; by rewrite lookup_delete_ne | done].
  apply post_shrink; try done.
  - intros i r Hr. cbn in Hr. apply lookup_delete_Some in Hr as [_ Hr]. by apply rows_same.
  - intros u t Ht. destruct (mo_desk s Hm u t Ht) as [D1 D2 D3 D4]. split; [done..|]. intros m Hin.
    eapply in_sync_ext; [|by apply D4]. cbn. rewrite lookup_delete_ne; [done|]. intros E. by apply (Hn u t m Ht Hin).
  - by apply msum_delete_le, money_nonneg.
Qed.

Lemma on_row_expire id r s : mail_ok s -> all_in_world s -> mail s !! id = Some r ->
  on_row id s (run_state (expire_mail v true (id, r)) s).
Proof.
  intros Hm Hw Hr. assert (Hrefl : on_row id s s) by (split; [by apply post_books | done | done]).
  unfold expire_mail. change (run_state (with_state ?k) s) with (run_state (k s) s).
  cbv beta iota zeta delta [andb].
  match goal with |- context [if ?b then ret tt else _] => destruct b eqn:Huse; [exact Hrefl|] end.
  assert (Hn : nobody_reads id s).
  { intros u t m Ht Hin <-. destruct (in_sync_row s u t m Hm Ht Hin) as (r' & Hr' & Hu & _).
    rewrite Hr in Hr'. injection Hr' as <-. unfold GetPlayer in Huse. rewrite Hu, Ht, (Hw u t Ht) in Huse. cbn in Huse.
    by rewrite (do_unloaded _ _ _ (mo_desk s Hm u t Ht) Huse) in Hin; apply elem_of_nil in Hin. }
  destruct (r_has_items r); [destruct (_ || _)|].
  - rewrite run_state_bind. set (s1 := run_state (for_each _ _) s).
    assert (Hs1 : same_books s s1) by (apply still_for_each; auto with quiet).
    assert (Eo : online s1 = online s) by (apply online_for_each; intros; by rewrite rs_Append, off_online).
    rewrite rs_Append. apply (on_row_books id s (on_mail (delete id) s)); [by apply on_row_delete | | exact Eo].
    by apply (same_books_on_mail (delete id)).
  - eapply on_row_books; [|apply run_return_row|].
    + apply on_row_alter; [done..|]. intros r0 _. cbn. lia.
    + unfold return_row. rewrite run_state_bind, rs_Append. apply online_for_each. intros x s'.
      by rewrite run_state_bind, !rs_Append, !off_online.
  - rewrite rs_Append. by apply on_row_delete.
Qed.
Lemma post_expire_all l s : mail_ok s -> all_in_world s -> NoDup l.*1 -> (forall id r, (id, r) ∈ l -> mail s !! id = Some r) ->
  post 0 s (run_state (for_each l (expire_mail v true)) s).
Proof.
  revert s. induction l as [|[id r] l IH]; intros s Hm Hw Hnd Hl; [by apply post_books|].
  change (for_each ((id, r) :: l) (expire_mail v true)) with (expire_mail v true (id, r) ;; for_each l (expire_mail v true)).
  rewrite run_state_bind. apply NoDup_cons in Hnd as [Hni Hnd].
  pose proof (on_row_expire id r s Hm Hw (Hl id r ltac:(left))) as [Hp Ho Hon].
  eapply (post_trans 0 0); [exact Hp | apply IH; [apply Hp | | done |] | lia].
  - intros u t. rewrite Hon. apply Hw.
  - intros i r' Hin. rewrite Ho; [apply Hl; by right|]. intros ->. apply Hni, list_elem_of_fmap. exists (id, r'). done.
Qed.
Lemma posts_cleanup s : all_in_world s -> posts 0 (ReturnOrDeleteOldMails v true) s.
Proof.
  intros Hw Hm C. unfold ReturnOrDeleteOldMails. rewrite run_state_bind. change (run_state (when (negb true) _) s) with s.
  change (run_state (with_state ?k) s) with (run_state (k s) s).
  apply post_expire_all; [done | done | |].
  - apply (sublist_NoDup _ ((omap_list (mail s)).*1)); [apply omap_list_NoDup | apply fmap_sublist, sublist_filter].
  - intros id r [_ Hin]%list_elem_of_filter. by apply elem_of_omap_list.
Qed.
End mails.
