(* ===== verification/MarketSpec.v ===== *)
(** * Gold moves and is not minted

    What the handlers of mails and auctions do to the wealth of the server.  [moves]
    is for programs that move copper between purses and mails, [deals] for those that
    change the auctions too; both bound what a program adds to the wealth.  A step
    that is [allowed] adds nothing. *)
From Stdlib Require Import SpecFloat.
From S2P Require Import Prelude Text ByteBuffer Market Mail Auction MarketGold MarketMails.

(** ** Purses *)

Definition paid (u x : Z) (s : Market) : Market := on_gold (insert u (GetMoney s u - x)) s.

Lemma GetMoney_range s u : gold_ok s -> 0 <= GetMoney s u <= MAX_MONEY_AMOUNT.
Proof.
  intros Hg. unfold GetMoney. destruct (gold s !! u) as [g|] eqn:E; [by apply (Hg u)|]. cbn. unfold MAX_MONEY_AMOUNT. lia.
Qed.
Lemma insert_purse s u g : purses (on_gold (insert u g) s) = purses s - GetMoney s u + g.
Proof.
  unfold purses, GetMoney. cbn. destruct (gold s !! u) as [g0|] eqn:E.
  - rewrite (msum_insert _ _ _ g0) by done. cbn. unfold id. lia.
  - rewrite msum_insert_new by done. unfold id. cbn. lia.
Qed.
Lemma gold_ok_insert s u g : gold_ok s -> 0 <= g <= MAX_MONEY_AMOUNT -> gold_ok (on_gold (insert u g) s).
Proof. intros Hs Hg w g' Hw. cbn in Hw. apply lookup_insert_Some in Hw as [[<- <-]|[_ Hw]]; [done | by apply (Hs w)]. Qed.
Lemma mail_ok_gold f s : mail_ok s -> mail_ok (on_gold f s).
Proof. intros [H1 H2 H3]. by split. Qed.

Lemma minus_int32_small x : 0 <= x < 2 ^ 31 -> minus_int32 x = - x.
Proof. intros Hx. unfold minus_int32. rewrite (s32_small x) by lia. apply swrap_id; [lia | unfold in_s; lia]. Qed.

Lemma rs_ModifyMoney u d s : exists g, run_state (ModifyMoney u d) s = on_gold (insert u g) s /\
  g = if d <? 0 then (if u64 (s32 (- d)) <? GetMoney s u then u32 (u32 (GetMoney s u + d)) else u32 0)
      else if GetMoney s u <? u32 (MAX_MONEY_AMOUNT - d) then u32 (u32 (GetMoney s u + d)) else u32 MAX_MONEY_AMOUNT.
Proof.
  unfold ModifyMoney. rewrite run_state_bind. change (run_state (with_state ?k) ?s') with (run_state (k s') s'). cbv zeta.
  change (run_state (emit _) s) with s. destruct (d <? 0); [eexists; split; [reflexivity|]; by destruct (_ <? _)|].
  destruct (_ <? _).
  - rewrite run_state_bind. eexists. by split.
  - rewrite run_state_bind. eexists. split; [|reflexivity]. by destruct (negb _).
Qed.
Lemma rs_pay u x s : gold_ok s -> 0 <= x <= GetMoney s u -> run_state (ModifyMoney u (minus_int32 x)) s = paid u x s.
Proof.
  intros Hg Hx. pose proof (GetMoney_range s u Hg) as Hr. unfold MAX_MONEY_AMOUNT in Hr.
  destruct (rs_ModifyMoney u (minus_int32 x) s) as (g & -> & ->). rewrite minus_int32_small by lia. unfold paid. f_equal. f_equal.
  destruct (Z.ltb_spec (- x) 0).
  - rewrite Z.opp_involutive, s32_small, u64_small by lia. destruct (Z.ltb_spec x (GetMoney s u)).
    + rewrite (u32_small (_ + _)), u32_small by lia. lia.
    + rewrite u32_small by lia. lia.
  - assert (x = 0) as -> by lia. rewrite Z.add_0_r, Z.sub_0_r, Z.sub_0_r. unfold MAX_MONEY_AMOUNT. rewrite (u32_small (0x7FFFFFFF - 1)) by lia.
    destruct (Z.ltb_spec (GetMoney s u) (0x7FFFFFFF - 1)).
    + by rewrite !(u32_small (GetMoney s u)) by lia.
    + lia.
Qed.
(** What is paid in is at most credited. *)
Lemma rs_earn u x s : gold_ok s -> 0 <= x < 2 ^ 31 - 1 ->
  exists g, run_state (ModifyMoney u (s32 x)) s = on_gold (insert u g) s /\ 0 <= g <= MAX_MONEY_AMOUNT /\ g <= GetMoney s u + x.
Proof.
  intros Hg Hx. pose proof (GetMoney_range s u Hg) as Hr. unfold MAX_MONEY_AMOUNT in *.
  destruct (rs_ModifyMoney u (s32 x) s) as (g & -> & ->). eexists. split; [reflexivity|]. rewrite s32_small by lia.
  unfold MAX_MONEY_AMOUNT. destruct (Z.ltb_spec x 0); [lia|]. rewrite (u32_small (_ - x)) by lia.
  destruct (Z.ltb_spec (GetMoney s u) (0x7FFFFFFF - 1 - x)); [rewrite (u32_small (_ + _)) by lia|]; rewrite u32_small by lia; lia.
Qed.

(** ** Programs that move copper between purses and mails *)

Record moved (d : Z) (s s' : Market) : Prop := {
  mv_gold : gold_ok s';
  mv_houses : same_houses s s';
  mv_mail : mail_ok s';
  mv_sum : purses s' + mailed s' <= purses s + mailed s + d
}.
Definition moves {A} (d : Z) (m : KM A) (s : Market) : Prop :=
  gold_ok s -> mail_ok s -> calm m s -> moved d s (run_state m s).

Lemma post_moved d s s' : gold_ok s -> post d s s' -> moved d s s'.
Proof.
  intros Hg [G H M L]. split; [by intros u g; rewrite G; apply Hg | done | done | unfold purses; rewrite G; lia].
Qed.
Lemma moved_trans d1 d2 d s1 s2 s3 : moved d1 s1 s2 -> moved d2 s2 s3 -> d1 + d2 <= d -> moved d s1 s3.
Proof. intros [G1 H1 M1 L1] [G2 H2 M2 L2] Hd. split; [done | by eapply same_houses_trans | done | lia]. Qed.
Lemma moves_posts {A} d (m : KM A) s : posts d m s -> moves d m s.
Proof. intros Hm Hg Hs C. apply post_moved; auto. Qed.
Lemma moves_then_posts {A B} d1 d2 d (m : KM A) (k : A -> KM B) s :
  moves d1 m s -> (moved d1 s (run_state m s) -> posts d2 (k (run_value m s)) (run_state m s)) -> d1 + d2 <= d ->
  moves d (bind m k) s.
Proof.
  intros Hm Hk Hd Hg Hs [C1 C2]%calm_bind. rewrite run_state_bind. pose proof (Hm Hg Hs C1) as H1.
  eapply moved_trans; [exact H1 | apply post_moved; [apply H1 | apply Hk; [done | apply H1 | done]] | done].
Qed.
Lemma moves_after_posts {A B} d1 d2 d (m : KM A) (k : A -> KM B) s :
  posts d1 m s -> (post d1 s (run_state m s) -> moves d2 (k (run_value m s)) (run_state m s)) -> d1 + d2 <= d ->
  moves d (bind m k) s.
Proof.
  intros Hm Hk Hd Hg Hs [C1 C2]%calm_bind. rewrite run_state_bind. pose proof (Hm Hs C1) as H1.
  pose proof (post_moved _ _ _ Hg H1) as H1'.
  eapply moved_trans; [exact H1' | apply Hk; [done | apply H1' | apply H1' | done] | done].
Qed.
Lemma moves_le {A} d d' (m : KM A) s : moves d m s -> d <= d' -> moves d' m s.
Proof. intros Hm Hd Hg Hs C. destruct (Hm Hg Hs C). split; try done. lia. Qed.
Lemma moves_given {A} d (m : KM A) s : (gold_ok s -> mail_ok s -> moves d m s) -> moves d m s.
Proof. intros H Hg Hs. by apply H. Qed.

Lemma moved_purse s u g d : gold_ok s -> mail_ok s -> 0 <= g <= MAX_MONEY_AMOUNT -> g <= GetMoney s u + d -> moved d s (on_gold (insert u g) s).
Proof.
  intros Hg Hm Hr Hd. split; [by apply gold_ok_insert | done | by apply mail_ok_gold |].
  rewrite insert_purse. unfold mailed. cbn. lia.
Qed.
Lemma moves_pay u x s : 0 <= x <= GetMoney s u -> moves (- x) (ModifyMoney u (minus_int32 x)) s.
Proof.
  intros Hx Hg Hm _. rewrite rs_pay by done. pose proof (GetMoney_range s u Hg).
  apply moved_purse; [done | done | lia | lia].
Qed.

Section moving.
Context {U : Utf8Lib} (v : MarketView).

Lemma GetMoney_post d s s' u : post d s s' -> GetMoney s' u = GetMoney s u.
Proof. intros Hp. unfold GetMoney. by rewrite (po_gold _ _ _ Hp). Qed.
Lemma GetMoney_books s s' u : same_books s s' -> GetMoney s' u = GetMoney s u.
Proof. intros Hp. unfold GetMoney. by rewrite (sb_gold _ _ Hp). Qed.
Lemma moves_quiet {A} d (m : KM A) s : 0 <= d -> quiet m -> moves d m s.
Proof. intros Hd Hm. apply moves_posts. by apply posts_0_quiet. Qed.
Lemma moves_skip {A B} d (m : KM A) (k : A -> KM B) s :
  quiet m -> (forall a s', same_books s s' -> moves d (k a) s') -> moves d (bind m k) s.
Proof.
  intros Hm Hk Hg Hs [C1 C2]%calm_bind. rewrite run_state_bind. pose proof (Hm s) as Hb.
  pose proof (post_moved 0 _ _ Hg (post_books _ _ Hb Hs)) as H1.
  eapply moved_trans; [exact H1 | apply Hk; [done | apply H1 | apply H1 | done] | lia].
Qed.
Lemma moves_at_mailbox {A} (parse : B (Z * A)) u data (k : A -> Trader -> KM unit) s :
  (forall a t, online s !! u = Some t -> moves 0 (k a t) s) -> moves 0 (at_mailbox v parse u data k) s.
Proof.
  intros Hk. unfold at_mailbox, with_packet. destruct ((parse data).1) as [[b a]|]; [|by apply moves_quiet; [|apply still_ret]].
  destruct (negb _); [by apply moves_quiet; [|apply still_ret]|]. intros Hg Hm. unfold calm, with_trader, with_state, run_state, run_log.
  destruct (online s !! u) as [t|] eqn:Ht; intros C; [by apply (Hk a t eq_refl) | by apply post_moved, post_books].
Qed.

(** *** The money of a mail *)

Lemma update_first_in id f l m : find_mail id l = Some m -> f m ∈ update_first id f l.
Proof.
  unfold find_mail. induction l as [|m1 l IH]; [done|]. rewrite filter_cons. cbn. destruct (Z.eqb_spec (messageID m1) id) as [E|E].
  - rewrite decide_True by done. cbn. intros [= ->]. left.
  - rewrite decide_False by done. intros Hl. right. by apply IH.
Qed.
Lemma open_mail_GetMail id t m : open_mail v id t = Some m -> GetMail id t = Some m.
Proof. unfold open_mail. destruct (GetMail id t); [|done]. by destruct (_ || _). Qed.

Lemma posts_emptied u t id m s :
  online s !! u = Some t -> GetMail id t = Some m ->
  posts (- m_money m) (upd_mail u id (fun m => set_money_COD 0 (m_COD m) m) ;; upd_trader u (set_mails_updated true) ;;
    SaveGoldToDB u ;; _SaveMail u) s.
Proof.
  intros Ht Hget. apply posts_given. intros Hm. set (f := fun m => set_money_COD 0 (m_COD m) m).
  pose proof (GetMail_elem _ _ _ Hget) as [Hin Hid]. destruct (in_sync_row s u t m Hm Ht Hin) as (r & Hr & Hu & Hmo & _).
  assert (Hl : m_mailsLoaded t = true).
  { destruct (m_mailsLoaded t) eqn:E; [done|]. rewrite (do_unloaded _ _ _ (mo_desk s Hm u t Ht) E) in Hin. by apply elem_of_nil in Hin. }
  eapply (posts_seq 0 (- m_money m)); [apply posts_upd_mail, shrinks_money | | lia]. intros _.
  apply posts_skip; [auto with quiet|]. intros _ s2 H2. apply posts_skip; [auto with quiet|]. intros _ s3 H3.
  pose proof (same_books_trans _ _ _ H2 H3) as Hs. clear H2 H3 s2.
  destruct (same_books_desk_back _ _ u (set_mails (update_first id f) t) Hs) as (t3 & Ht3 & El & Em).
  { cbn. by rewrite lookup_alter_eq, Ht. }
  eapply (posts_le (- loss (mail s3) (f m))).
  - apply posts_SaveMail_sum. right. exists t3, (f m). rewrite El, Em. cbn. repeat split; try done. by apply update_first_in.
  - unfold loss. rewrite (sb_mail _ _ Hs). cbn. rewrite Hr. lia.
Qed.
Lemma moves_TakeMoney u data s : moves 0 (HandleMailTakeMoney v u data) s.
Proof.
  apply moves_at_mailbox. intros id t Ht. destruct (open_mail v id t) as [m|] eqn:Eo; [|apply moves_quiet; [lia | auto with quiet]].
  apply open_mail_GetMail in Eo. apply moves_skip; [auto with quiet|]. intros _ s1 Hs1. apply moves_given. intros Hg Hm.
  destruct (same_books_desk_back _ _ _ _ Hs1 Ht) as (t1 & Ht1 & _ & Em1).
  assert (Eo1 : GetMail id t1 = Some m) by (unfold GetMail; by rewrite Em1).
  destruct (in_sync_row s1 u t1 m Hm Ht1 (proj1 (GetMail_elem _ _ _ Eo1))) as (r & _ & _ & Hmo & Hb & _).
  destruct (rs_earn u (m_money m) s1 Hg) as (g & E & Hg1 & Hg2); [lia|].
  eapply (moves_then_posts (m_money m) (- m_money m)); [| |lia].
  - intros _ _ _. rewrite E. by apply moved_purse.
  - intros _. rewrite E. by apply (posts_emptied u t1).
Qed.

(** *** Paying for a mail and its items *)

Lemma moves_pay_COD u m s : 0 <= m_COD m <= GetMoney s u -> moves 0 (pay_COD v u m) s.
Proof.
  intros Hc. apply moves_given. intros Hg Hm. pose proof (GetMoney_range s u Hg) as Hr. unfold MAX_MONEY_AMOUNT in Hr.
  unfold pay_COD. change (moves 0 (with_state ?k) s) with (moves 0 (k s) s).
  eapply (moves_after_posts (m_COD m) (- m_COD m)); [| |lia].
  - apply posts_when; [lia|]. intros _.
    apply (posts_SendMailTo v _ _ _ _ (AddMoney (m_COD m) (new_draft (m_subject m) []))); [split; cbn; lia | by apply receiver_of_ok].
  - intros Hp. apply moves_pay. by rewrite (GetMoney_post _ _ _ u Hp).
Qed.
Lemma moves_TakeItem u data s : moves 0 (HandleMailTakeItem v u data) s.
Proof.
  apply moves_at_mailbox. intros [id item] t Ht. destruct (open_mail v id t) as [m|] eqn:Eo; [|apply moves_quiet; [lia | auto with quiet]].
  change (moves 0 (with_state ?k) s) with (moves 0 (k s) s). apply moves_given. intros Hg Hm.
  pose proof (open_mail_elem v _ _ _ Eo) as [Hin _]. destruct (in_sync_row s u t m Hm Ht Hin) as (_ & _ & _ & _ & _ & Hc).
  destruct (negb (HasEnoughMoney s u (u32 (m_COD m)))) eqn:Hen; [apply moves_quiet; [lia | auto with quiet]|].
  apply negb_false_iff in Hen. unfold HasEnoughMoney in Hen. rewrite u32_small in Hen by lia. apply Z.leb_le in Hen.
  cbv zeta. destruct (_ =? EQUIP_ERR_OK); [|apply moves_quiet; [lia | auto with quiet]].
  eapply (moves_after_posts 0 0); [apply posts_upd_mail, shrinks_items | | lia]. intros Hp1.
  eapply (moves_then_posts 0 0); [| |lia].
  - destruct (0 <? m_COD m); [|apply moves_quiet; [lia | apply still_ret]]. apply moves_pay_COD. rewrite (GetMoney_post _ _ _ u Hp1). lia.
  - intros _. apply posts_next; [apply posts_upd_mail, shrinks_COD|]. intros _ s2.
    apply posts_skip; [auto with quiet|]. intros _ s3 _. apply posts_skip; [auto with quiet|]. intros _ s4 _.
    apply posts_skip; [unfold MoveItemToInventory; auto with quiet|]. intros _ s5 _.
    apply posts_skip; [auto with quiet|]. intros _ s6 _. apply posts_then; [apply posts_SaveMail | auto with quiet].
Qed.

(** *** What a packet is read as *)

Definition yields {A} (P : A -> Prop) (m : B A) : Prop := forall b a b',
  bytes_ok (_storage b) -> m b = (Ok a, b') -> P a /\ _storage b' = _storage b.
Lemma yields_ret {A} (P : A -> Prop) a : P a -> yields P (bret a).
Proof. intros Ha b a' b' _ [= <- <-]. done. Qed.
Lemma yields_bind {A C} (Q : A -> Prop) (P : C -> Prop) (m : B A) (k : A -> B C) :
  yields Q m -> (forall a, Q a -> yields P (k a)) -> yields P (bbind m k).
Proof.
  intros Hm Hk b c b' Hb. unfold bbind. destruct (m b) as [[a|f] b1] eqn:E; [|done]. intros E2.
  destruct (Hm b a b1 Hb E) as [Ha Es]. rewrite <- Es in Hb. destruct (Hk a Ha b1 c b' Hb E2) as [Hc Es2]. split; [done|]. congruence.
Qed.
Lemma yields_uint n : yields (fun x => 0 <= x) (shr_uint n).
Proof.
  intros b a b' Hb. unfold shr_uint, bbind, read, read_at. cbv zeta. destruct (_ <? u64 _); [done|].
  destruct (_ <? _); [done|]. intros [= <- <-]. split; [|done].
  apply le_decode_range. by apply Forall_take, Forall_drop.
Qed.
Lemma yields_skip n : yields (fun _ => True) (read_skip n).
Proof. intros b a b' _. unfold read_skip. case_match; [done|]. by intros [= <- <-]. Qed.
Lemma yields_string : yields (fun _ => True) shr_string.
Proof.
  intros b0. unfold shr_string. generalize (S (Z.to_nat (bb_size b0 - _rpos b0))) as fuel, (@nil Z) as value. intros fuel.
  revert b0. induction fuel as [|fuel IH]; intros b0 value a b' Hb; [done|]. cbn [shr_string_loop]. destruct (_ <? _); [|by intros [= <- <-]].
  apply (yields_bind (fun x => 0 <= x) (fun _ => True)); [apply yields_uint | | done].
  intros c _. destruct (c =? 0); [by apply yields_ret|]. intros b1 a1 b1' Hb1. by apply IH.
Qed.
Lemma yields_item_guids n : yields (fun _ => True) (parse_item_guids n).
Proof.
  induction n as [|n IH]; [by apply yields_ret|]. cbn.
  apply (yields_bind (fun _ => True)); [apply yields_skip|]. intros _ _.
  apply (yields_bind (fun x => 0 <= x)); [apply yields_uint|]. intros guid _.
  apply (yields_bind (fun _ => True)); [exact IH|]. intros guids _. by apply yields_ret.
Qed.
Lemma yields_sent_mail :
  yields (fun r => match r with Some m => 0 <= sm_money m /\ 0 <= sm_COD m | None => True end) parse_sent_mail.
Proof.
  unfold parse_sent_mail.
  repeat first [ apply (yields_bind (fun x => 0 <= x)); [apply yields_uint|]; intros ? ?
               | apply (yields_bind (fun _ => True)); [apply yields_string|]; intros ? _ ].
  destruct (_ <? _); [by apply yields_ret|].
  apply (yields_bind (fun _ => True)); [apply yields_item_guids|]. intros guids _.
  repeat (apply (yields_bind (fun x => 0 <= x)); [apply yields_uint|]; intros ? ?).
  by apply yields_ret.
Qed.
Lemma yields_parse_bid : yields (fun '(_, _, price) => 0 <= price) parse_bid.
Proof.
  unfold parse_bid. repeat (apply (yields_bind (fun x => 0 <= x)); [apply yields_uint|]; intros ? ?). by apply yields_ret.
Qed.
Lemma yields_parsed {A} (P : A -> Prop) m b a : yields P m -> bytes_ok (_storage b) -> (m b).1 = Ok a -> P a.
Proof. intros Hm Hb. destruct (m b) as [r b'] eqn:E. cbn. intros ->. by apply (Hm b a b'). Qed.

(** *** Sending *)

Lemma quiet_refused s u COD rc guid answer : refuse_attachment v s u COD rc guid = Some answer -> quiet answer.
Proof.
  unfold refuse_attachment, mail_error, mail_equip_error. intros H0. repeat case_match; simplify_eq; auto with quiet.
Qed.
Lemma quiet_collect s u COD rc guids answer : collect_items v s u COD rc guids = inl answer -> quiet answer.
Proof.
  induction guids as [|guid guids IH]; [done|]. cbn. destruct (refuse_attachment v s u COD rc guid) eqn:E.
  - intros [= <-]. by eapply quiet_refused.
  - destruct (collect_items v s u COD rc guids); [|done]. intros [= <-]. by apply IH.
Qed.
Lemma receiver_ok_ptr s rc : mail_ok s -> receiver_ok (mkReceiver (online_ptr s rc) (GUID_LOPART rc)).
Proof.
  intros Hm p Hp. cbn in *. apply online_ptr_some in Hp as [-> [t Ht]].
  pose proof (do_guid _ _ _ (mo_desk s Hm rc t Ht)). unfold GUID_LOPART.
  change 0xFFFFFFFF with (Z.ones 32). rewrite Z.land_ones by lia. apply Z.mod_small. lia.
Qed.
Lemma moves_post_mail u rc rc_account cost its m s :
  0 <= cost -> 0 <= sm_money m -> 0 <= sm_COD m < 2 ^ 32 -> cost + sm_money m <= GetMoney s u ->
  moves (- cost) (post_mail v u rc rc_account (cost + sm_money m) cost its m) s.
Proof.
  intros Hcost Hmoney Hcod Hen. apply moves_given. intros Hg _. pose proof (GetMoney_range s u Hg) as Hr. unfold MAX_MONEY_AMOUNT in Hr.
  unfold post_mail, mail_error. apply moves_skip; [auto with quiet|]. intros _ s1 Hs1. rewrite <- (GetMoney_books _ _ u Hs1) in Hen, Hr.
  eapply (moves_then_posts (- (cost + sm_money m)) (sm_money m)); [apply moves_pay; lia | intros Hp | lia].
  apply posts_skip; [auto with quiet|]. intros _ s2 _. apply posts_skip; [auto with quiet|]. intros _ s3 _.
  apply posts_then; [|auto with quiet]. apply posts_with_state, posts_given. intros Hm3.
  match goal with |- posts _ (SendMailTo _ ?r ?f ?c ?dl ?d) _ => replace (sm_money m) with (d_money d) by done; apply posts_SendMailTo end;
    [split; cbn; lia | by apply receiver_ok_ptr].
Qed.

Definition fits_purse (data : ByteBuffer) : Prop := forall m, (parse_sent_mail data).1 = Ok (Some m) ->
  mail_cost (Z.of_nat (length (sm_items m))) + sm_money m < 2 ^ 32 /\ sm_COD m < 2 ^ 32.
Lemma mail_cost_range n : 0 <= n -> 0 <= mail_cost n.
Proof. unfold mail_cost. destruct (_ =? _); lia. Qed.
Lemma moves_SendMail u data s : bytes_ok (_storage data) -> fits_purse data -> moves 0 (HandleSendMail v u data) s.
Proof.
  intros Hb Hfit. unfold HandleSendMail, with_packet, mail_error. destruct ((parse_sent_mail data).1) as [[m|]|] eqn:Ep;
    [|apply moves_quiet; [lia | auto with quiet]..].
  destruct (yields_parsed _ _ _ _ yields_sent_mail Hb Ep) as [Hm0 Hc0]. destruct (Hfit m Ep) as [Hm1 Hc1].
  pose proof (mail_cost_range (Z.of_nat (length (sm_items m))) ltac:(lia)) as Hcost.
  destruct (negb (mailbox_near v u (sm_mailbox m))); [apply moves_quiet; [lia | auto with quiet]|].
  destruct (bool_decide _); [apply moves_quiet; [lia | auto with quiet]|].
  destruct (_ <? CONFIG_MAIL_LEVEL_REQ v); [apply moves_quiet; [lia | auto with quiet]|]. cbv zeta.
  set (rc := match normalizePlayerName _ with Conv name => _ | _ => _ end).
  destruct (rc =? 0); [apply moves_quiet; [lia | auto with quiet]|].
  destruct (u =? rc); [apply moves_quiet; [lia | auto with quiet]|].
  rewrite (u64_small (_ + _)), (u32_small (_ + _)) by lia.
  change (moves 0 (with_state ?k) s) with (moves 0 (k s) s). cbv beta.
  destruct (negb (HasEnoughMoney _ _ _)) eqn:Hen; [apply moves_quiet; [lia | auto with quiet]|].
  apply negb_false_iff, Z.leb_le in Hen.
  destruct (100 <? _); [apply moves_quiet; [lia | auto with quiet]|].
  destruct (_ && _); [apply moves_quiet; [lia | auto with quiet]|].
  destruct (_ <? _); [apply moves_quiet; [lia | auto with quiet]|].
  destruct (collect_items v s u (sm_COD m) (account_of v rc) (sm_items m)) as [answer|its] eqn:Ec.
  - apply moves_quiet; [lia | by eapply quiet_collect].
  - eapply moves_le; [apply moves_post_mail; lia | lia].
Qed.

(** ** Deals: programs that change the auctions too *)

Record deal (d : Z) (s s' : Market) : Prop := {
  dl_ok : market_ok s';
  dl_wealth : wealth s' <= wealth s + d
}.
Definition deals {A} (d : Z) (m : KM A) (s : Market) : Prop := market_ok s -> calm m s -> deal d s (run_state m s).

Lemma houses_ok_same s s' : same_houses s s' -> houses_ok s -> houses_ok s'.
Proof. intros Hs Hh h id a. rewrite (same_houses_map _ _ h Hs). apply Hh. Qed.
Lemma moved_deal d s s' : market_ok s -> moved d s s' -> deal d s s'.
Proof.
  intros [_ Hh _] [G H M L]. split; [split; [done | by eapply houses_ok_same | done]|].
  unfold wealth. rewrite (same_houses_staked _ _ H). lia.
Qed.
Lemma deals_moves {A} d (m : KM A) s : moves d m s -> deals d m s.
Proof. intros Hm Hs C. apply moved_deal; [done|]. by apply Hm; [apply Hs | apply Hs |]. Qed.
Lemma deals_posts {A} d (m : KM A) s : posts d m s -> deals d m s.
Proof. intros Hm. by apply deals_moves, moves_posts. Qed.
Lemma deals_quiet {A} d (m : KM A) s : 0 <= d -> quiet m -> deals d m s.
Proof. intros Hd Hm. by apply deals_moves, moves_quiet. Qed.
Lemma deal_trans d1 d2 d s1 s2 s3 : deal d1 s1 s2 -> deal d2 s2 s3 -> d1 + d2 <= d -> deal d s1 s3.
Proof. intros [O1 W1] [O2 W2] Hd. split; [done | lia]. Qed.
Lemma deals_seq {A B} d1 d2 d (m : KM A) (k : A -> KM B) s :
  deals d1 m s -> (market_ok (run_state m s) -> deals d2 (k (run_value m s)) (run_state m s)) -> d1 + d2 <= d -> deals d (bind m k) s.
Proof.
  intros Hm Hk Hd Hs [C1 C2]%calm_bind. rewrite run_state_bind. pose proof (Hm Hs C1) as H1.
  eapply deal_trans; [exact H1 | apply Hk; [apply H1 | apply H1 | done] | done].
Qed.
Lemma deals_after_moves {A B} d1 d2 d (m : KM A) (k : A -> KM B) s :
  moves d1 m s -> (moved d1 s (run_state m s) -> deals d2 (k (run_value m s)) (run_state m s)) -> d1 + d2 <= d ->
  deals d (bind m k) s.
Proof.
  intros Hm Hk Hd Hs [C1 C2]%calm_bind. rewrite run_state_bind. pose proof (Hm (mk_gold s Hs) (mk_mail s Hs) C1) as H1.
  pose proof (moved_deal _ _ _ Hs H1) as D1. eapply deal_trans; [exact D1 | apply Hk; [done | apply D1 | done] | done].
Qed.
Lemma deals_skip {A B} d (m : KM A) (k : A -> KM B) s :
  quiet m -> (forall a s', same_books s s' -> deals d (k a) s') -> deals d (bind m k) s.
Proof.
  intros Hm Hk Hs [C1 C2]%calm_bind. rewrite run_state_bind. pose proof (Hm s) as Hb.
  destruct (Hk (run_value m s) _ Hb (market_ok_books _ _ Hb Hs) C2) as [O W]. split; [done|]. by rewrite (wealth_books _ _ Hb) in W.
Qed.
Lemma deals_then {A B} d (m : KM A) (k : A -> KM B) s : deals d m s -> (forall a, quiet (k a)) -> deals d (bind m k) s.
Proof. intros Hm Hk. eapply (deals_seq d 0); [done | intros _; by apply deals_quiet | lia]. Qed.
Lemma deals_le {A} d d' (m : KM A) s : deals d m s -> d <= d' -> deals d' m s.
Proof. intros Hm Hd Hs C. destruct (Hm Hs C). split; [done|lia]. Qed.
Lemma deals_given {A} d (m : KM A) s : (market_ok s -> deals d m s) -> deals d m s.
Proof. intros H Hs. by apply H. Qed.

(** *** The maps of auctions *)

Lemma stakes_nonneg s h : houses_ok s -> all_nonneg stake (house_map s h).
Proof. intros Hs id a Ha. destruct (Hs h id a Ha). unfold stake. lia. Qed.
Lemma deals_house h f d s :
  (houses_ok s -> forall id a, f (house_map s h) !! id = Some a -> auction_ok id a) ->
  (houses_ok s -> msum stake (f (house_map s h)) <= msum stake (house_map s h) + d) -> deals d (modify (on_house h f)) s.
Proof.
  intros Hok Hsum [Hg Hh Hm] _. rewrite rs_modify. split.
  - split; [done | | by destruct Hm; split]. intros h' id a Ha. rewrite house_map_on in Ha.
    case_decide as E; [subst h'; by apply Hok | by apply (Hh h')].
  - unfold wealth. rewrite staked_on. specialize (Hsum Hh). unfold purses, mailed. cbn. lia.
Qed.
Lemma deals_replace h id a a' s : house_map s h !! id = Some a -> auction_ok id a' ->
  deals (stake a' - stake a) (modify (on_house h (insert id a'))) s.
Proof.
  intros Ha Hok. apply deals_house; intros Hh.
  - intros i b [[<- <-]|[_ Hb]]%lookup_insert_Some; [done | by apply (Hh h)].
  - rewrite (msum_insert _ _ _ a) by done. lia.
Qed.
Lemma deals_alter h id a f s : house_map s h !! id = Some a -> (houses_ok s -> auction_ok id (f a)) ->
  deals (stake (f a) - stake a) (modify (on_house h (alter f id))) s.
Proof.
  intros Ha Hok. apply deals_house; intros Hh.
  - intros i b Hb. destruct (decide (id = i)) as [<-|Hne].
    + rewrite lookup_alter_eq, Ha in Hb. injection Hb as <-. by apply Hok.
    + rewrite lookup_alter_ne in Hb by done. by apply (Hh h).
  - rewrite (msum_alter _ _ _ a) by done. lia.
Qed.
Lemma deals_RemoveAuction h a b s : house_map s h !! a_Id a = Some b -> deals (- stake b) (RemoveAuction h a) s.
Proof.
  intros Ha. unfold RemoveAuction. apply deals_then; [|intros; auto with quiet]. apply deals_house; intros Hh.
  - intros i b' [_ Hb]%lookup_delete_Some. by apply (Hh h).
  - rewrite (msum_delete _ _ _ b) by done. lia.
Qed.
Lemma deals_AddAuction h a s : auction_ok (a_Id a) a -> deals (stake a) (AddAuction h a) s.
Proof.
  intros Hok. unfold AddAuction. apply deals_then; [|intros; auto with quiet]. apply deals_house; intros Hh.
  - intros i b [[<- <-]|[_ Hb]]%lookup_insert_Some; [done | by apply (Hh h)].
  - destruct (house_map s h !! a_Id a) as [b|] eqn:E.
    + rewrite (msum_insert _ _ _ b) by done. pose proof (stakes_nonneg s h Hh _ _ E). lia.
    + rewrite msum_insert_new by done. lia.
Qed.

(** *** The mails of auctions *)

(** The part of the bid the house keeps; a rate of 1 and a cut of 5% give 0. *)
Definition cut_factor (e : AuctionHouseEntry) : Z := f32_to_int 32 (CalculatePct (RATE_AUCTION_CUT v) (cutPercent e)).
Definition fair_cut (a : AuctionEntry) : Prop := 0 <= cut_factor (auctionHouseEntry a) <= 1.
Lemma GetAuctionCut_range a : fair_cut a -> 0 <= a_bid a <= MAX_MONEY_AMOUNT -> 0 <= GetAuctionCut v a <= a_bid a.
Proof.
  unfold fair_cut, GetAuctionCut. fold (cut_factor (auctionHouseEntry a)). unfold MAX_MONEY_AMOUNT. intros Hf Hb.
  assert (cut_factor (auctionHouseEntry a) = 0 \/ cut_factor (auctionHouseEntry a) = 1) as [-> | ->] by lia.
  - rewrite Z.mul_0_l, s32_small by lia. lia.
  - rewrite Z.mul_1_l, s32_small by lia. lia.
Qed.

Lemma quiet_to_player s u k : (forall w, quiet (k w)) -> quiet (to_player s u k).
Proof. intros Hk. unfold to_player. destruct (GetPlayer s u); auto with quiet. Qed.
Lemma posts_auction_mail s receiver a delay d :
  receiver_ok receiver -> draft_ok d -> posts (d_money d) (auction_mail v receiver a delay d) s.
Proof. intros Hr Hd. by apply posts_SendMailTo. Qed.
Lemma posts_when_exists d b m s : 0 <= d -> posts d m s -> posts d (when b m) s.
Proof. intros Hd Hm. by apply posts_when. Qed.
Lemma draft_ok_text subject body : draft_ok (new_draft subject body).
Proof. split; cbn; lia. Qed.
Lemma draft_ok_item subject body item : draft_ok (AddItem item (new_draft subject body)).
Proof. split; cbn; lia. Qed.
Lemma draft_ok_money money subject body : 0 <= money < 2 ^ 31 - 1 -> draft_ok (AddMoney money (new_draft subject body)).
Proof. split; cbn; lia. Qed.

Ltac auction_notice := apply posts_skip; [first [apply quiet_to_player; intros; unfold SendAuctionBidderNotification, SendAuctionOwnerNotification,
  SendAuctionRemovedNotification; auto with quiet | auto with quiet]|]; intros ? ? ?.

Lemma posts_WonMail a s : posts 0 (SendAuctionWonMail v a) s.
Proof.
  apply posts_with_state, posts_given. intros Hm. destruct (negb _); [apply posts_quiet, still_ret|].
  apply posts_when_exists; [lia|]. do 2 auction_notice.
  apply (posts_auction_mail _ _ a 0 (AddItem _ (new_draft _ _))); [by apply receiver_of_ok | apply draft_ok_item].
Qed.
Lemma posts_SalePendingMail a s : posts 0 (SendAuctionSalePendingMail v a) s.
Proof.
  apply posts_with_state, posts_given. intros Hm. apply posts_when_exists; [lia|].
  apply (posts_auction_mail _ _ a 0 (new_draft _ _)); [by apply receiver_of_ok | apply draft_ok_text].
Qed.
Lemma posts_SuccessfulMail a s : fair_cut a -> auction_ok (a_Id a) a -> posts (stake a) (SendAuctionSuccessfulMail v a) s.
Proof.
  intros Hf [_ Hb Hd Hs _ _]. unfold stake, MAX_MONEY_AMOUNT in Hs.
  pose proof (GetAuctionCut_range a Hf ltac:(unfold MAX_MONEY_AMOUNT; lia)) as Hcut.
  apply posts_with_state, posts_given. intros Hm. apply posts_when_exists; [unfold stake; lia|]. cbv zeta. rewrite u64_small by lia.
  assert (Hp : 0 <= a_bid a + a_deposit a - GetAuctionCut v a < 2 ^ 31 - 1 /\ a_bid a + a_deposit a - GetAuctionCut v a <= stake a)
    by (unfold stake; lia).
  revert Hp. generalize (a_bid a + a_deposit a - GetAuctionCut v a) as profit. intros profit [Hp1 Hp2].
  auction_notice. eapply posts_le; [|exact Hp2].
  apply (posts_auction_mail _ _ a _ (AddMoney profit (new_draft _ _))); [by apply receiver_of_ok | by apply draft_ok_money].
Qed.
Lemma posts_ExpiredMail a s : posts 0 (SendAuctionExpiredMail v a) s.
Proof.
  apply posts_with_state, posts_given. intros Hm. apply posts_when_exists; [lia|]. auction_notice.
  apply (posts_auction_mail _ _ a 0 (AddItem _ (new_draft _ _))); [by apply receiver_of_ok | apply draft_ok_item].
Qed.
Lemma posts_bid_back a money subject body s0 s : mail_ok s0 -> 0 <= money < 2 ^ 31 - 1 ->
  posts money (auction_mail v (receiver_of s0 (a_bidder a)) a 0 (AddMoney money (new_draft subject body))) s.
Proof.
  intros Hm Hmoney. apply (posts_auction_mail _ _ a 0 (AddMoney money (new_draft subject body))); [by apply receiver_of_ok | by apply draft_ok_money].
Qed.
Lemma posts_OutbiddedMail a price u s : auction_ok (a_Id a) a -> posts (a_bid a) (SendAuctionOutbiddedMail v a price u) s.
Proof.
  intros [_ Hb Hd Hs _ _]. unfold stake, MAX_MONEY_AMOUNT in Hs. apply posts_with_state, posts_given. intros Hm.
  apply posts_when_exists; [lia|]. auction_notice. apply posts_bid_back; [done | lia].
Qed.
Lemma posts_CancelledMail a s : auction_ok (a_Id a) a -> posts (a_bid a) (SendAuctionCancelledToBidderMail v a) s.
Proof.
  intros [_ Hb Hd Hs _ _]. unfold stake, MAX_MONEY_AMOUNT in Hs. apply posts_with_state, posts_given. intros Hm.
  apply posts_when_exists; [lia|]. apply posts_bid_back; [done | lia].
Qed.

(** *** Selling *)

Lemma quiet_GenerateAuctionID : quiet GenerateAuctionID.
Proof.
  apply still_with_state. intros s0. apply still_bind; [auto with quiet | intros _].
  apply still_bind; [intros s; by split | intros _; apply still_ret]. Qed.
Lemma GetAuctionDeposit_nonneg entry time item count : 0 <= GetAuctionDeposit v entry time item count.
Proof.
  unfold GetAuctionDeposit. unfold AH_MINIMUM_DEPOSIT. destruct (_ <=? _); [lia|]. cbv zeta. destruct (Z.ltb_spec (u32 (u32 (f32_to_int 64
    (f32_div (f32_mul (f32_mul (CalculatePct (f32 (depositPercent entry)) 3) (f32 (SellPrice v item))) (f32 count)) (f32 3))) *
    (time / 60 / 60 / 12) * 3)) 100); lia.
Qed.
Lemma deals_sell_item u it deposit etime entry h sale s :
  0 <= deposit <= GetMoney s u -> deals 0 (sell_item v u it deposit etime entry h sale) s.
Proof.
  intros Hd. apply deals_given. intros Hs. pose proof (GetMoney_range s u (mk_gold s Hs)) as Hr.
  eapply (deals_after_moves (- deposit) deposit); [by apply moves_pay | intros _ | lia]. cbv zeta.
  apply deals_skip; [apply quiet_GenerateAuctionID|]. intros id s1 _. set (AH := new_auction v id u it deposit _ entry sale).
  apply deals_skip; [apply quiet_AddAItem|]. intros _ s2 _.
  apply deals_then; [|intros; unfold SaveToDB, SendAuctionCommandResult; auto 12 with quiet].
  eapply deals_le; [apply (deals_AddAuction h AH)|].
  - split; cbn; [done | lia | lia | unfold stake; cbn; lia | apply Z.mod_pos_bound; lia |].
    pose proof (Z.mod_pos_bound (sl_buyout sale) (2 ^ 32) ltac:(lia)). unfold u32, uwrap. lia.
  - unfold stake. cbn. lia.
Qed.

(** *** Bidding *)

Lemma same_auction s s' h id a : same_houses s s' -> house_map s h !! id = Some a -> house_map s' h !! id = Some a.
Proof. intros Hs. by rewrite (same_houses_map _ _ h Hs). Qed.

Lemma deals_raise_bid u price h a s :
  house_map s h !! a_Id a = Some a -> a_bid a < price <= GetMoney s u -> price + a_deposit a <= MAX_MONEY_AMOUNT ->
  price < a_buyout a \/ a_buyout a = 0 -> deals 0 (raise_bid v u price h a) s.
Proof.
  intros Ha Hp Hmax Hbelow. apply deals_given. intros Hs. pose proof (mk_houses s Hs h _ _ Ha) as Hok.
  pose proof Hok as [_ Hb Hd Hst Hbo _]. unfold MAX_MONEY_AMOUNT in *.
  eapply (deals_after_moves (a_bid a - price) (price - a_bid a)); [| |lia].
  - destruct (negb (a_bidder a =? 0)) eqn:Eb; [destruct (a_bidder a =? u)|].
    + rewrite u64_small by lia. eapply moves_le; [apply moves_pay; lia | lia].
    + eapply (moves_after_posts (a_bid a) (- price)); [by apply posts_OutbiddedMail | | lia].
      intros Hpost. apply moves_pay. rewrite (GetMoney_post _ _ _ u Hpost). lia.
    + eapply moves_le; [apply moves_pay; lia | lia].
  - intros Hm. apply deals_then; [|intros; unfold SendAuctionCommandResult; auto with quiet].
    eapply deals_le; [apply (deals_alter h (a_Id a) a); [by eapply same_auction; [apply Hm|] |]|].
    + intros _. split; cbn; try done; [lia | unfold stake, MAX_MONEY_AMOUNT; cbn; lia].
    + unfold stake. cbn. lia.
Qed.

(** The auction [a] is settled with its winner and removed. *)
Lemma deals_settle u h a s :
  fair_cut a -> auction_ok (a_Id a) a -> house_map s h !! a_Id a = Some a ->
  deals 0 (SendAuctionSalePendingMail v a ;; SendAuctionSuccessfulMail v a ;; SendAuctionWonMail v a ;;
    SendAuctionCommandResult u (a_Id a) AUCTION_PLACE_BID AUCTION_OK 0 ;; DeleteFromDB a ;;
    RemoveAItem (item_guidlow a) ;; RemoveAuction h a) s.
Proof.
  intros Hf Hok Ha. eapply (deals_after_moves 0 0); [apply moves_posts, posts_SalePendingMail | intros H1 | lia].
  eapply (deals_after_moves (stake a) (- stake a)); [by apply moves_posts, posts_SuccessfulMail | intros H2 | lia].
  eapply (deals_after_moves 0 (- stake a)); [apply moves_posts, posts_WonMail | intros H3 | lia].
  unfold SendAuctionCommandResult, DeleteFromDB. apply deals_skip; [auto with quiet|]. intros _ s1 Hs1.
  apply deals_skip; [auto with quiet|]. intros _ s2 Hs2. apply deals_skip; [auto with quiet|]. intros _ s3 Hs3.
  apply (deals_RemoveAuction h a a).
  do 3 (eapply same_auction; [eapply sb_houses; eassumption|]). do 3 (eapply same_auction; [eapply mv_houses; eassumption|]). done.
Qed.
Lemma deals_buy_out u h a s :
  fair_cut a -> house_map s h !! a_Id a = Some a -> 0 < a_buyout a <= GetMoney s u -> a_buyout a + a_deposit a <= MAX_MONEY_AMOUNT ->
  deals 0 (buy_out v u h a) s.
Proof.
  intros Hf Ha Hp Hmax. apply deals_given. intros Hs. pose proof (mk_houses s Hs h _ _ Ha) as Hok.
  pose proof Hok as [_ Hb Hd Hst Hbo Hbelow]. unfold MAX_MONEY_AMOUNT in *.
  eapply (deals_after_moves (a_bid a - a_buyout a) (a_buyout a - a_bid a)); [| |lia].
  - destruct (u =? a_bidder a).
    + rewrite u64_small by lia. eapply moves_le; [apply moves_pay; lia | lia].
    + eapply (moves_then_posts (- a_buyout a) (a_bid a)); [apply moves_pay; lia | intros _ | lia].
      apply posts_when; [lia|]. intros _. by apply posts_OutbiddedMail.
  - intros Hm. cbv zeta. set (won := set_bid u (a_buyout a) a).
    assert (Hwon : auction_ok (a_Id a) won).
    { split; cbn; try done; unfold stake, MAX_MONEY_AMOUNT; cbn; lia. }
    eapply (deals_seq (stake won - stake a) 0); [apply deals_replace; [by eapply same_auction; [apply Hm|] | exact Hwon] | | unfold stake; cbn; lia].
    intros _. apply deals_skip; [auto with quiet|]. intros _ s2 Hs2.
    apply (deals_settle u h won); [exact Hf | exact Hwon |]. eapply same_auction; [apply Hs2|].
    rewrite rs_modify, house_map_on, decide_True by done. apply lookup_insert_eq.
Qed.

(** *** Cancelling and expiring *)

Lemma deals_cancel u h a s :
  fair_cut a -> 0 < u < 2 ^ 32 -> house_map s h !! a_Id a = Some a -> (a_bidder a <> 0 -> GetAuctionCut v a <= GetMoney s u) ->
  deals 0 (cancel_auction v u h a) s.
Proof.
  intros Hf Hu Ha Hcut. apply deals_given. intros Hs. pose proof (mk_houses s Hs h _ _ Ha) as Hok.
  pose proof Hok as [_ Hb Hd Hst Hbo _]. unfold stake, MAX_MONEY_AMOUNT in Hst.
  pose proof (GetAuctionCut_range a Hf ltac:(unfold MAX_MONEY_AMOUNT; lia)) as Hc.
  eapply (deals_after_moves (a_bid a) (- stake a)); [| |unfold stake; lia].
  - destruct (Z.eqb_spec (a_bidder a) 0) as [E|E]; [by apply moves_quiet, still_ret|]. cbn [negb].
    eapply (moves_after_posts (a_bid a) (- GetAuctionCut v a)); [by apply posts_CancelledMail | | lia].
    intros Hp. apply moves_pay. rewrite (GetMoney_post _ _ _ u Hp). auto with lia.
  - intros H1. eapply (deals_after_moves 0 (- stake a)); [| |lia].
    + apply moves_posts. apply (posts_auction_mail _ _ a 0 (AddItem _ (new_draft _ _))); [|apply draft_ok_item]. by intros p [= <-].
    + intros H2. unfold SendAuctionCommandResult, DeleteFromDB. do 4 (apply deals_skip; [auto with quiet|]; intros ? ? ?).
      apply (deals_RemoveAuction h a a).
      do 4 (eapply same_auction; [eapply sb_houses; eassumption|]). do 2 (eapply same_auction; [eapply mv_houses; eassumption|]). done.
Qed.

Lemma deals_end_auction h id s :
  (forall a, house_map s h !! id = Some a -> fair_cut a) -> deals 0 (end_auction v h id) s.
Proof.
  intros Hf. apply deals_given. intros Hs. unfold end_auction. change (deals 0 (with_state ?k) s) with (deals 0 (k s) s). cbv beta. unfold GetAuction.
  destruct (house_map s h !! id) as [a|] eqn:Ha; [|by apply deals_quiet, still_ret].
  specialize (Hf a eq_refl). pose proof (mk_houses s Hs h _ _ Ha) as Hok. pose proof (ao_id _ _ Hok) as Eid. rewrite <- Eid in Ha, Hok.
  assert (0 <= stake a) as Hst by (destruct Hok; unfold stake; lia).
  eapply (deals_after_moves (stake a) (- stake a)); [| |lia].
  - apply moves_posts. destruct (a_bidder a =? 0).
    + eapply posts_le; [apply posts_then; [apply posts_ExpiredMail | intros; auto with quiet] | lia].
    + eapply (posts_seq (stake a) 0); [by apply posts_SuccessfulMail | intros _ | lia].
      apply posts_then; [apply posts_WonMail | intros; auto with quiet].
  - intros H1. apply deals_skip; [unfold DeleteFromDB; auto with quiet|]. intros ? s2 Hs2.
    apply deals_then; [|intros; auto 6 with quiet]. apply (deals_RemoveAuction h a a).
    eapply same_auction; [apply Hs2|]. eapply same_auction; [apply H1|]. done.
Qed.

(** *** The clock of the auctions *)

Definition keeps_houses {A} (m : KM A) : Prop := forall s, same_houses s (run_state m s).
Lemma keeps_houses_quiet {A} (m : KM A) : quiet m -> keeps_houses m.
Proof. intros Hm s. apply Hm. Qed.
Lemma keeps_houses_bind {A B} (m : KM A) (k : A -> KM B) : keeps_houses m -> (forall a, keeps_houses (k a)) -> keeps_houses (bind m k).
Proof. intros Hm Hk s. rewrite run_state_bind. eapply same_houses_trans; [apply Hm | apply Hk]. Qed.
Lemma keeps_houses_with_state {A} (k : Market -> KM A) : (forall s, keeps_houses (k s)) -> keeps_houses (with_state k).
Proof. intros Hk s. apply Hk. Qed.
Lemma keeps_houses_when b m : keeps_houses m -> keeps_houses (when b m).
Proof. by destruct b. Qed.
Lemma keeps_houses_Append st : keeps_houses (Append st).
Proof. intros s. rewrite rs_Append. by destruct st. Qed.
Lemma keeps_houses_upd u f : keeps_houses (upd_trader u f).
Proof. by intros s. Qed.
Lemma keeps_houses_id : keeps_houses GenerateMailID.
Proof.
  apply keeps_houses_with_state. intros s0. apply keeps_houses_bind; [apply keeps_houses_quiet; auto with quiet | intros _].
  apply keeps_houses_bind; [by intros s | intros _; by intros s].
Qed.
Lemma keeps_houses_SendMailTo receiver sender checked delay d : keeps_houses (SendMailTo v receiver sender checked delay d).
Proof.
  unfold SendMailTo. apply keeps_houses_bind; [apply keeps_houses_id | intros id]. cbv zeta.
  apply keeps_houses_bind; [apply keeps_houses_Append | intros _].
  apply keeps_houses_bind; [apply keeps_houses_quiet; auto with quiet | intros _].
  destruct (r_player receiver) as [p|]; [|apply keeps_houses_quiet; auto with quiet].
  apply keeps_houses_with_state. intros s. destruct (online s !! p) as [t|]; [|apply keeps_houses_quiet, still_ret].
  apply keeps_houses_bind; [apply keeps_houses_quiet; auto with quiet | intros _].
  destruct (m_mailsLoaded t); [|apply keeps_houses_quiet; auto with quiet].
  apply keeps_houses_bind; [apply keeps_houses_upd | intros _; apply keeps_houses_quiet; auto with quiet].
Qed.

(** Ending an auction starts none. *)
Definition fewer (s s' : Market) : Prop := forall h id a, house_map s' h !! id = Some a -> house_map s h !! id = Some a.
Lemma fewer_same s s' : same_houses s s' -> fewer s s'.
Proof. intros Hs h id a. by rewrite (same_houses_map _ _ h Hs). Qed.
Lemma fewer_trans s1 s2 s3 : fewer s1 s2 -> fewer s2 s3 -> fewer s1 s3.
Proof. intros H1 H2 h id a Ha. by apply H1, H2. Qed.
Lemma keeps_houses_end a h id :
  keeps_houses (if a_bidder a =? 0 then SendAuctionExpiredMail v a ;; emit (AuctionHook h id OnAuctionExpire)
                else SendAuctionSuccessfulMail v a ;; SendAuctionWonMail v a ;; emit (AuctionHook h id OnAuctionSuccessful)).
Proof.
  assert (Hmail : forall r a' d l, keeps_houses (auction_mail v r a' d l)) by (intros; apply keeps_houses_SendMailTo).
  assert (Hq : forall s w k, (forall z, quiet (k z)) -> keeps_houses (to_player s w k)) by (intros; by apply keeps_houses_quiet, quiet_to_player).
  unfold SendAuctionExpiredMail, SendAuctionSuccessfulMail, SendAuctionWonMail.
  destruct (_ =? 0); repeat match goal with
    | |- keeps_houses (auction_mail _ _ _ _ _) => apply Hmail
    | |- keeps_houses (to_player _ _ _) => apply Hq; intros; unfold SendAuctionOwnerNotification, SendAuctionBidderNotification; auto with quiet
    | |- keeps_houses (bind _ _) => apply keeps_houses_bind; [|intros]
    | |- keeps_houses (with_state _) => apply keeps_houses_with_state; intros
    | |- keeps_houses (when _ _) => apply keeps_houses_when
    | |- keeps_houses (if ?b then _ else _) => destruct b
    | |- keeps_houses (let x := ?e in _) => cbv zeta
    | |- keeps_houses _ => apply keeps_houses_quiet; by auto with quiet
    end.
Qed.
Lemma fewer_end_auction h id s : houses_ok s -> fewer s (run_state (end_auction v h id) s).
Proof.
  intros Hh. unfold end_auction. change (run_state (with_state ?k) s) with (run_state (k s) s). cbv beta.
  destruct (GetAuction s h id) as [a|] eqn:Ha; [|by apply fewer_same].
  rewrite run_state_bind. eapply fewer_trans; [apply fewer_same, (keeps_houses_end a h id)|].
  generalize (run_state (if a_bidder a =? 0 then SendAuctionExpiredMail v a ;; emit (AuctionHook h id OnAuctionExpire)
    else SendAuctionSuccessfulMail v a ;; SendAuctionWonMail v a ;; emit (AuctionHook h id OnAuctionSuccessful)) s) as s1. intros s1.
  unfold DeleteFromDB, RemoveAuction, RemoveAItem. rewrite !run_state_bind, !rs_modify, !rs_emit, rs_Append.
  intros h' i b. change (house_map (on_Aitems ?f ?s2) h') with (house_map s2 h'). rewrite house_map_on. case_decide as E.
  - subst h'. intros Hb. assert (Hb' : delete (a_Id a) (house_map s1 h) !! i = Some b) by (destruct h; exact Hb).
    by apply lookup_delete_Some in Hb' as [_ Hb'].
  - destruct h'; exact (fun Hb => Hb).
Qed.

Definition fair_cuts (s : Market) : Prop := forall h id a, house_map s h !! id = Some a -> fair_cut a.
Lemma deals_end_all h ids s : fair_cuts s -> 
  deals 0 (for_each ids (end_auction v h)) s /\ (market_ok s -> calm (for_each ids (end_auction v h)) s -> fewer s (run_state (for_each ids (end_auction v h)) s)).
Proof.
  revert s. induction ids as [|id ids IH]; intros s Hf; [split; [by apply deals_quiet, still_ret | by intros; apply fewer_same]|].
  change (for_each (id :: ids) (end_auction v h)) with (end_auction v h id ;; for_each ids (end_auction v h)).
  assert (Hf1 : market_ok s -> fair_cuts (run_state (end_auction v h id) s)).
  { intros Hs h' i a Ha. by apply (Hf h' i), (fewer_end_auction h id s (mk_houses s Hs)). }
  assert (He : deals 0 (end_auction v h id) s) by (apply deals_end_auction; intros a; apply Hf).
  split.
  - apply deals_given. intros Hs. eapply (deals_seq 0 0); [exact He | intros _; by apply IH, Hf1 | lia].
  - intros Hs [C1 C2]%calm_bind. rewrite run_state_bind. eapply fewer_trans; [apply fewer_end_auction, Hs|].
    apply IH; [by apply Hf1 | by apply (He Hs C1) | done].
Qed.
Lemma deals_Update_house h s : fair_cuts s ->
  deals 0 (Update_house v h) s /\ (market_ok s -> calm (Update_house v h) s -> fewer s (run_state (Update_house v h) s)).
Proof.
  intros Hf. unfold Update_house. change (deals 0 (with_state ?k) s) with (deals 0 (k s) s).
  change (run_state (with_state ?k) s) with (run_state (k s) s). change (calm (with_state ?k) s) with (calm (k s) s). cbv beta.
  destruct (bool_decide _); [split; [by apply deals_quiet, still_ret | by intros; apply fewer_same] | by apply deals_end_all].
Qed.
Lemma deals_Update_auctions s : fair_cuts s -> deals 0 (Update_auctions v) s.
Proof.
  intros Hf Hs [C1 [C2 C3]%calm_bind]%calm_bind. unfold Update_auctions. rewrite !run_state_bind.
  destruct (deals_Update_house Horde s Hf) as [D1 F1]. specialize (D1 Hs C1). specialize (F1 Hs C1).
  set (s1 := run_state (Update_house v Horde) s) in *. assert (Hf1 : fair_cuts s1) by (intros h i a Ha; by apply (Hf h i), F1).
  destruct (deals_Update_house Alliance s1 Hf1) as [D2 F2]. specialize (D2 (dl_ok _ _ _ D1) C2). specialize (F2 (dl_ok _ _ _ D1) C2).
  set (s2 := run_state (Update_house v Alliance) s1) in *. assert (Hf2 : fair_cuts s2) by (intros h i a Ha; by apply (Hf1 h i), F2).
  destruct (deals_Update_house Neutral s2 Hf2) as [D3 _]. specialize (D3 (dl_ok _ _ _ D2) C3).
  eapply (deal_trans 0 0); [exact D1 | eapply (deal_trans 0 0); [exact D2 | exact D3 | lia] | lia].
Qed.

(** *** The auction handlers *)

Lemma deals_with_packet {A} (parse : B A) data (k : A -> KM unit) s :
  (forall a, (parse data).1 = Ok a -> deals 0 (k a) s) -> deals 0 (with_packet parse data k) s.
Proof.
  intros Hk. unfold with_packet. destruct ((parse data).1) as [a|]; [by apply Hk | by apply deals_quiet, still_ret].
Qed.
Lemma deals_at_auctioneer u g (k : Z -> KM unit) s :
  (forall faction s', same_books s s' -> deals 0 (k faction) s') -> deals 0 (at_auctioneer v u g k) s.
Proof.
  intros Hk. unfold at_auctioneer. destruct (auctioneer_near v u g) as [faction|]; [|by apply deals_quiet, still_ret].
  apply deals_skip; [auto with quiet|]. intros _. apply Hk.
Qed.
Lemma quiet_answer u a b c d : quiet (SendAuctionCommandResult u a b c d).
Proof. apply quiet_emit. Qed.

Lemma deals_SellItem u data s : deals 0 (HandleAuctionSellItem v u data) s.
Proof.
  apply deals_with_packet. intros sale _. destruct (_ || _); [by apply deals_quiet, still_ret|].
  destruct (auctioneer_near v u (sl_auctioneer sale)) as [faction|]; [|by apply deals_quiet, still_ret].
  destruct (GetAuctionHouseEntry v faction) as [entry|]; [|by apply deals_quiet, still_ret]. cbv zeta.
  destruct (negb _); [by apply deals_quiet, still_ret|]. apply deals_skip; [auto with quiet|]. intros _ s1 _.
  change (deals 0 (with_state ?k) s1) with (deals 0 (k s1) s1). cbv beta.
  destruct (sale_refused v s1 u (sl_item sale)) as [e|it]; [by apply deals_quiet, quiet_answer|].
  destruct (negb (HasEnoughMoney _ _ _)) eqn:Hen; [by apply deals_quiet, quiet_answer|]. apply negb_false_iff, Z.leb_le in Hen.
  apply deals_sell_item. split; [apply GetAuctionDeposit_nonneg | done].
Qed.

Definition fits_bid (data : ByteBuffer) (s : Market) : Prop := forall auctioneer id price,
  (parse_bid data).1 = Ok (auctioneer, id, price) ->
  forall h a, house_map s h !! id = Some a -> price + a_deposit a <= MAX_MONEY_AMOUNT.

Lemma deals_PlaceBid u data s :
  bytes_ok (_storage data) -> fits_bid data s -> fair_cuts s -> deals 0 (HandleAuctionPlaceBid v u data) s.
Proof.
  intros Hb Hfit Hfair. apply deals_with_packet. intros [[auctioneer id] price] Ep.
  pose proof (yields_parsed _ _ _ _ yields_parse_bid Hb Ep) as Hp0. cbn in Hp0.
  destruct (_ || _); [by apply deals_quiet, still_ret|]. apply deals_at_auctioneer. intros faction s1 Hs1.
  change (deals 0 (with_state ?k) s1) with (deals 0 (k s1) s1). apply deals_given. intros Hs. cbv beta zeta. unfold GetAuction.
  destruct (house_map s1 (GetAuctionsMap v faction) !! id) as [a|] eqn:Ha; [|by apply deals_quiet, quiet_answer].
  pose proof (mk_houses s1 Hs _ _ _ Ha) as [Eid Hb0 Hd Hst Hbo Hbelow].
  assert (Ha0 : house_map s (GetAuctionsMap v faction) !! id = Some a) by (by rewrite <- (same_houses_map _ _ _ (sb_houses _ _ Hs1))).
  pose proof (Hfit _ _ _ Ep _ _ Ha0) as Hmax. pose proof (Hfair _ _ _ Ha0) as Hcut. rewrite <- Eid in Ha. unfold MAX_MONEY_AMOUNT in Hmax.
  destruct (own_auction _ _ _ _); [by apply deals_quiet, quiet_answer|].
  destruct (bid_too_low price a) eqn:Hlow; [by apply deals_quiet, still_ret|].
  destruct (negb (HasEnoughMoney _ _ _)) eqn:Hen; [by apply deals_quiet, still_ret|].
  apply negb_false_iff, Z.leb_le in Hen. rewrite u32_small in Hen by lia.
  unfold bid_too_low in Hlow. apply orb_false_iff in Hlow as [[Hlow _]%orb_false_iff _]. apply Z.leb_gt in Hlow.
  apply deals_then; [|intros; auto with quiet]. unfold is_buyout. destruct (Z.ltb_spec price (a_buyout a)), (Z.eqb_spec (a_buyout a) 0); cbn.
  1-3: apply deals_raise_bid; [done | lia | unfold MAX_MONEY_AMOUNT; lia | lia].
  apply deals_buy_out; [done | done | lia | unfold MAX_MONEY_AMOUNT; lia].
Qed.

Lemma deals_RemoveItem u data s : 0 < u < 2 ^ 32 -> fair_cuts s -> deals 0 (HandleAuctionRemoveItem v u data) s.
Proof.
  intros Hu Hfair. apply deals_with_packet. intros [auctioneer id] _. apply deals_at_auctioneer. intros faction s1 Hs1.
  change (deals 0 (with_state ?k) s1) with (deals 0 (k s1) s1). apply deals_given. intros Hs. cbv beta zeta. unfold GetAuction.
  destruct (house_map s1 (GetAuctionsMap v faction) !! id) as [a|] eqn:Ha; [|by apply deals_quiet, quiet_answer].
  pose proof (ao_id _ _ (mk_houses s1 Hs _ _ _ Ha)) as Eid.
  assert (Ha0 : house_map s (GetAuctionsMap v faction) !! id = Some a) by (by rewrite <- (same_houses_map _ _ _ (sb_houses _ _ Hs1))).
  pose proof (Hfair _ _ _ Ha0) as Hcut. rewrite <- Eid in Ha.
  destruct (negb (a_owner a =? u)); [by apply deals_quiet, quiet_answer|].
  destruct (negb (GetAItem _ _)); [by apply deals_quiet, quiet_answer|].
  destruct (negb (a_bidder a =? 0) && negb (HasEnoughMoney s1 u (GetAuctionCut v a))) eqn:Hen; [by apply deals_quiet, still_ret|].
  apply deals_cancel; [done..|]. intros Hne. apply Z.eqb_neq in Hne. rewrite Hne in Hen. cbn in Hen.
  by apply negb_false_iff, Z.leb_le in Hen.
Qed.

Lemma quiet_Hello u data : quiet (HandleAuctionHelloOpcode v u data).
Proof.
  unfold HandleAuctionHelloOpcode, with_packet, at_auctioneer, SendAuctionHello. repeat case_match; auto with quiet.
Qed.
Lemma quiet_at_auctioneer u g k : (forall faction, quiet (k faction)) -> quiet (at_auctioneer v u g k).
Proof. intros Hk. unfold at_auctioneer. destruct (auctioneer_near v u g); auto with quiet. Qed.
Lemma quiet_lists u data :
  quiet (HandleAuctionListItems v u data) /\ quiet (HandleAuctionListOwnerItems v u data) /\
  quiet (HandleAuctionListBidderItems v u data) /\ quiet (HandleAuctionListPendingSales u data).
Proof.
  split_and!.
  - unfold HandleAuctionListItems, with_packet. destruct ((parse_search data).1) as [[[guid from] q]|]; [|auto with quiet].
    apply quiet_at_auctioneer. intros faction. destruct (Utf8toWStr _); [|auto with quiet..].
    apply still_with_state. intros s. destruct (BuildListAuctionItems _ _ _ _ _ _); auto with quiet.
  - unfold HandleAuctionListOwnerItems, with_packet. destruct ((parse_auction data).1) as [[guid from]|]; [|auto with quiet].
    apply quiet_at_auctioneer. auto with quiet.
  - unfold HandleAuctionListBidderItems. destruct (bbind _ _ data) as [[[guid n]|] rest]; [|auto with quiet].
    apply quiet_at_auctioneer. intros faction. destruct ((parse_ids _ rest).1); auto with quiet.
  - unfold HandleAuctionListPendingSales, with_packet. destruct ((read_skip 8 data).1); auto with quiet.
Qed.

(** ** Steps *)

Definition packet_ok (s : Market) (op : market_opcode) (data : ByteBuffer) : Prop :=
  bytes_ok (_storage data) /\
  match op with CMSG_SEND_MAIL => fits_purse data | CMSG_AUCTION_PLACE_BID => fits_bid data s | _ => True end.
(** The steps that stay off the corners: see the examples below. *)
Definition allowed (s : Market) (st : market_step) : Prop :=
  fair_cuts s /\
  match st with
  | MarketPacketIn _ op data => packet_ok s op data
  | MarketLogin u => 0 < u < 2 ^ 32
  | MailCleanup => all_in_world s
  | _ => True
  end.

Lemma deals_handle u op data s : 0 < u < 2 ^ 32 -> fair_cuts s -> packet_ok s op data -> deals 0 (handle_market v u op data) s.
Proof.
  intros Hu Hfair [Hb Hop]. pose proof (quiet_lists u data) as (L1 & L2 & L3 & L4). destruct op; cbn.
  - by apply deals_moves, moves_SendMail.
  - apply deals_posts, posts_GetMailList.
  - apply deals_moves, moves_TakeMoney.
  - apply deals_moves, moves_TakeItem.
  - apply deals_posts, posts_MarkAsRead.
  - apply deals_posts, posts_ReturnToSender.
  - apply deals_posts, posts_Delete.
  - apply deals_posts, posts_CreateTextItem.
  - apply deals_posts, posts_QueryNextMailTime.
  - by apply deals_quiet, quiet_Hello.
  - apply deals_SellItem.
  - by apply deals_RemoveItem.
  - by apply deals_quiet.
  - by apply deals_quiet.
  - by apply deals_quiet.
  - by apply deals_PlaceBid.
  - by apply deals_quiet.
Qed.
Lemma deals_step st s : allowed s st -> deals 0 (run_market_step v st) s.
Proof.
  intros [Hfair Hst]. apply deals_given. intros Hs. destruct st as [u op data|u|u|u b|u| |]; cbn in *.
  - change (deals 0 (with_state ?k) s) with (deals 0 (k s) s). cbv beta. destruct (GetPlayer s u) as [t|] eqn:Ht; [|by apply deals_quiet, still_ret].
    apply deals_handle; [|done..]. apply GetPlayer_online in Ht. apply (do_guid _ _ _ (mo_desk s (mk_mail s Hs) u t Ht)).
  - by apply deals_posts, posts_Login.
  - apply deals_posts, posts_Logout.
  - apply deals_quiet, quiet_Travel. lia.
  - apply deals_quiet, quiet_Update_mail. lia.
  - by apply deals_Update_auctions.
  - by apply deals_posts, posts_cleanup.
Qed.
End moving.
