(* ===== verification/MarketRuns.v ===== *)
(** * Runs of the market

    The wealth of the server, what is in purses, mails and auctions together, never
    grows in a run of allowed steps, and the mails in memory stay in step with their
    rows.  Then what single operations do, exactly: what a bid pays and refunds, what
    the end of an auction pays, what sending a mail costs, what taking its money
    credits, what a restart of the server reads back; and the corners at which gold
    is minted or an item is lost. *)
From Stdlib Require Import SpecFloat.
From S2P Require Import Prelude Text ByteBuffer Market Mail Auction MarketGold MarketMails MarketSpec.

(** ** Runs *)

Section runs.
Context {U : Utf8Lib}.

(** The configuration may change between steps. *)
Fixpoint run_market (l : list (MarketView * market_step)) (s : Market) : Market :=
  match l with
  | [] => s
  | (v, st) :: l' => run_market l' (run_state (run_market_step v st) s)
  end.
Fixpoint all_allowed (l : list (MarketView * market_step)) (s : Market) : Prop :=
  match l with
  | [] => True
  | (v, st) :: l' =>
      allowed v s st /\ IdOverflow ∉ run_log (run_market_step v st) s /\
      all_allowed l' (run_state (run_market_step v st) s)
  end.

Lemma run_market_deal l s : market_ok s -> all_allowed l s -> deal 0 s (run_market l s).
Proof.
  revert s. induction l as [|[v st] l IH]; intros s Hs; [split; cbn; [done|lia]|]. intros (Ha & Hc & Hl).
  pose proof (deals_step v st s Ha Hs Hc) as H1. eapply (deal_trans 0 0); [exact H1 | apply IH; [apply H1 | exact Hl] | lia].
Qed.

(** C4: no gold is minted: over any sequence of allowed steps (packets of players,
    logins and logouts, travelling, the clock, the end of auctions and the return of
    old mails) the copper in purses, mails and auctions together does not grow, and
    no purse exceeds the limit. *)
Theorem no_gold_minted l s : market_ok s -> all_allowed l s ->
  wealth (run_market l s) <= wealth s /\
  forall u g, gold (run_market l s) !! u = Some g -> 0 <= g <= MAX_MONEY_AMOUNT.
Proof.
  intros Hs Hl. destruct (run_market_deal l s Hs Hl) as [[Hg _ _] Hw]. split; [lia | exact Hg].
Qed.

(** C10: memory and table agree: after any sequence of allowed steps every mail that a
    player has in memory has a row of the table addressed to him with at least as
    much money, no mail is twice in his list, no two players hold the same mail, and
    every row carries an identifier that has been given out. *)
Theorem mails_in_step l s : market_ok s -> all_allowed l s ->
  let s' := run_market l s in
  (forall u t m, online s' !! u = Some t -> m ∈ m_mail t ->
     exists r, mail s' !! messageID m = Some r /\ r_receiver r = u /\ 0 <= m_money m <= r_money r) /\
  (forall u t, online s' !! u = Some t -> NoDup (messageID <$> m_mail t)) /\
  (forall u w t t' m m', online s' !! u = Some t -> online s' !! w = Some t' -> m ∈ m_mail t -> m' ∈ m_mail t' ->
     messageID m = messageID m' -> u = w) /\
  (forall id r, mail s' !! id = Some r -> 0 <= id < m_mailid s').
Proof.
  intros Hs Hl s'. destruct (run_market_deal l s Hs Hl) as [[_ _ [_ Hrow Hdesk]] _]. fold s' in Hrow, Hdesk.
  split_and!.
  - intros u t m Ht Hin. destruct (do_sync _ _ _ (Hdesk u t Ht) m Hin) as (r & ? & ? & ? & _). eauto.
  - intros u t Ht. apply (Hdesk u t Ht).
  - intros u w t t' m m' Ht Ht' Hin Hin' E. destruct (do_sync _ _ _ (Hdesk u t Ht) m Hin) as (r & Hr & <- & _).
    destruct (do_sync _ _ _ (Hdesk w t' Ht') m' Hin') as (r' & Hr' & <- & _). rewrite E in Hr. congruence.
  - intros id r Hr. apply (Hrow id r Hr).
Qed.

End runs.

(** ** What single operations do *)

(** Programs that change nothing but the mails that players have in memory. *)
Definition same_world (o o' : gmap Z Trader) : Prop := forall u, t_inWorld <$> o' !! u = t_inWorld <$> o !! u.
Definition desk_only {A} (m : KM A) : Prop := forall s, exists o, run_state m s = on_online (fun _ => o) s /\ same_world (online s) o.
Create HintDb desk_only.

Lemma same_world_refl o : same_world o o.
Proof. done. Qed.
Lemma desk_only_same {A} (m : KM A) : (forall s, run_state m s = s) -> desk_only m.
Proof. intros Hm s. exists (online s). rewrite Hm. by destruct s. Qed.
Lemma desk_only_ret {A} (a : A) : desk_only (ret a).
Proof. by apply desk_only_same. Qed.
Lemma desk_only_emit e : desk_only (emit e).
Proof. by apply desk_only_same. Qed.
Lemma desk_only_bind {A B} (m : KM A) (k : A -> KM B) : desk_only m -> (forall a, desk_only (k a)) -> desk_only (bind m k).
Proof.
  intros Hm Hk s. rewrite run_state_bind. destruct (Hm s) as (o1 & -> & H1).
  destruct (Hk (run_value m s) (on_online (fun _ => o1) s)) as (o2 & -> & H2). exists o2. split; [done|].
  intros u. by rewrite <- H1.
Qed.
Lemma desk_only_when b m : desk_only m -> desk_only (when b m).
Proof. destruct b; [done | intros _; apply desk_only_ret]. Qed.
Lemma desk_only_with_state {A} (k : Market -> KM A) : (forall s, desk_only (k s)) -> desk_only (with_state k).
Proof. intros Hk s. apply Hk. Qed.
Lemma desk_only_for_each {A} (l : list A) (f : A -> KM unit) : (forall x, desk_only (f x)) -> desk_only (for_each l f).
Proof. intros Hf. induction l as [|x l IH]; [apply desk_only_ret | by apply desk_only_bind]. Qed.
Lemma desk_only_with_trader u k : (forall t, desk_only (k t)) -> desk_only (with_trader u k).
Proof. intros Hk. apply desk_only_with_state. intros s. destruct (online s !! u); [apply Hk | apply desk_only_ret]. Qed.
Lemma desk_only_upd u f : (forall t, t_inWorld (f t) = t_inWorld t) -> desk_only (upd_trader u f).
Proof.
  intros Hf s. exists (alter f u (online s)). split; [done|]. intros w. destruct (decide (u = w)) as [<-|Hne].
  - rewrite lookup_alter_eq. destruct (online s !! u) as [t|]; [|done]. cbn. by rewrite Hf.
  - by rewrite lookup_alter_ne.
Qed.
#[local] Hint Resolve desk_only_ret desk_only_emit desk_only_bind desk_only_when desk_only_with_state desk_only_for_each
  desk_only_with_trader : desk_only.
#[local] Hint Extern 3 (desk_only (upd_trader _ _)) => (apply desk_only_upd; reflexivity) : desk_only.
Lemma same_world_GetPlayer s s' u : same_world (online s) (online s') -> is_Some (GetPlayer s' u) <-> is_Some (GetPlayer s u).
Proof.
  intros Hw. specialize (Hw u). unfold GetPlayer. destruct (online s' !! u) as [t'|], (online s !! u) as [t|]; try done.
  cbn in Hw. injection Hw as ->. destruct (t_inWorld t); split; intros [? E]; eauto; done.
Qed.

Lemma desk_only_freed d : desk_only (deleteIncludedItems d false).
Proof. unfold deleteIncludedItems. cbn. auto with desk_only. Qed.
Lemma desk_only_AddNewMailDeliverTime v u t : desk_only (AddNewMailDeliverTime v u t).
Proof. apply desk_only_with_trader. intros t0. unfold SendNewMail. destruct (_ <=? _); auto with desk_only. Qed.
Lemma desk_only_add (b : bool) u m items d :
  desk_only (if b then AddMail u m ;; for_each items (AddMItem u) else when (negb (draft_empty d)) (deleteIncludedItems d false)).
Proof. unfold AddMail, AddMItem. destruct b; [auto with desk_only | apply desk_only_when, desk_only_freed]. Qed.
#[local] Hint Resolve desk_only_freed desk_only_AddNewMailDeliverTime desk_only_add : desk_only.

Lemma insert_items id items r s :
  run_state (for_each items (fun i => Append (InsertMailItem id i r))) s =
  on_mail_items (fun t => list_to_set (pair id <$> items) ∪ t) s.
Proof.
  revert s. induction items as [|i items IH]; intros s.
  - destruct s. unfold on_mail_items. cbn. f_equal. set_solver.
  - change (for_each (i :: items) ?f) with (f i ;; for_each items f). rewrite run_state_bind, rs_Append, IH.
    destruct s. unfold on_mail_items, execute_on. cbn. f_equal. set_solver.
Qed.

(** Sending a mail writes its row and the rows of its items, under the next identifier. *)
Definition mail_sent (row : MailRow) (items : list Z) (s : Market) : Market :=
  on_mail_items (fun t => list_to_set (pair (m_mailid s) <$> items) ∪ t) (wrote_mail row s).
Definition draft_row (v : MarketView) (receiver : MailReceiver) (sender : MailSender) (checked delay : Z) (d : MailDraft) : MailRow :=
  mail_row receiver sender checked (now v + delay) (now v + delay + expire_delay v sender d) d.
Lemma rs_SendMailTo v receiver sender checked delay d s : m_mailid s < 0xFFFFFFFE ->
  exists o, same_world (online s) o /\ run_state (SendMailTo v receiver sender checked delay d) s =
    on_online (fun _ => o) (mail_sent (draft_row v receiver sender checked delay d) (oset_list (d_items d)) s).
Proof.
  intros Hid. unfold SendMailTo. rewrite rs_id by done. cbv zeta. rewrite !run_state_bind, rs_Append, insert_items.
  fold (draft_row v receiver sender checked delay d). change (on_mail_items _ _) with (mail_sent (draft_row v receiver sender checked delay d) (oset_list (d_items d)) s).
  match goal with |- exists o, _ /\ run_state ?m ?s0 = _ => enough (Hd : desk_only m) by (destruct (Hd s0) as (o & Ho & Hw); by exists o) end.
  destruct (r_player receiver); auto 8 with desk_only.
Qed.

Section operations.
Context {U : Utf8Lib} (v : MarketView).

Lemma rs_with_packet {A} (parse : B A) data (k : A -> KM unit) a s :
  (parse data).1 = Ok a -> run_state (with_packet parse data k) s = run_state (k a) s.
Proof. unfold with_packet. by intros ->. Qed.
Lemma rs_at_auctioneer u g (k : Z -> KM unit) faction s :
  auctioneer_near v u g = Some faction -> run_state (at_auctioneer v u g k) s = run_state (k faction) s.
Proof. unfold at_auctioneer. intros ->. rewrite run_state_bind. by destruct (has_UNIT_STAT_DIED v u). Qed.
Lemma rs_to_player s0 u k s : (forall w s', run_state (k w) s' = s') -> run_state (to_player s0 u k) s = s.
Proof. intros Hk. unfold to_player. by destruct (GetPlayer s0 u). Qed.
Lemma rs_SaveInventoryAndGold u s : run_state (SaveInventoryAndGoldToDB u) s = s.
Proof. reflexivity. Qed.
Lemma sent_mail row items s : mail_ok s -> mail (mail_sent row items s) = <[m_mailid s := row]> (mail s).
Proof. intros Hm. unfold mail_sent. cbn [on_mail_items mail]. by apply mail_wrote. Qed.
(** A mail that is sent when [b] holds, and what it leaves alone. *)
Definition sent_if (b : bool) (row : MailRow) (items : list Z) (s : Market) : Market :=
  if b then mail_sent row items s else s.
Lemma sent_if_spec b row i s : mail s !! m_mailid s = None -> 0 <= m_mailid s < 0xFFFFFFFE ->
  mail (sent_if b row (option_list i) s) = (if b then <[m_mailid s := row]> (mail s) else mail s) /\
  mail_items (sent_if b row (option_list i) s) =
    (if b then list_to_set (pair (m_mailid s) <$> option_list i) ∪ mail_items s else mail_items s) /\
  m_mailid (sent_if b row (option_list i) s) = (if b then m_mailid s + 1 else m_mailid s).
Proof.
  intros Hnew Hid. unfold sent_if. destruct b; [|done]. unfold mail_sent. cbn. rewrite Hnew. by rewrite u32_small by lia.
Qed.

(** The refund of a bid, or of a cancelled auction's. *)
Definition refund_row (s : Market) (a : AuctionEntry) (answer : Z) : MailRow :=
  draft_row v (receiver_of s (a_bidder a)) (auction_sender a) MAIL_CHECK_MASK_COPIED 0
    (AddMoney (a_bid a) (new_draft (subject_of a answer (text ":0:0")) [])).
Lemma rs_OutbiddedMail a price u s : m_mailid s < 0xFFFFFFFE -> exists o, run_state (SendAuctionOutbiddedMail v a price u) s =
  if character_exists v s (a_bidder a) then on_online (fun _ => o) (mail_sent (refund_row s a AUCTION_OUTBIDDED) [] s) else s.
Proof.
  intros Hid. unfold SendAuctionOutbiddedMail. rewrite rs_with_state. destruct (character_exists _ _ _); [|by exists (online s)].
  unfold when. rewrite run_state_bind, rs_to_player by done. unfold auction_mail, refund_row.
  destruct (rs_SendMailTo v (receiver_of s (a_bidder a)) (auction_sender a) MAIL_CHECK_MASK_COPIED 0
    (AddMoney (a_bid a) (new_draft (subject_of a AUCTION_OUTBIDDED (text ":0:0")) [])) s Hid) as (o & _ & Ho). by exists o.
Qed.

(** C19: a bid below the buyout price: the player pays it, or the difference if the last
    bid was his, it becomes the bid of the auction in memory and in the table, and
    the player who is outbid gets exactly his bid back in a mail that is delivered at
    once; no other purse, auction or mail changes. *)
Theorem place_bid_raises u data s g id price faction a :
  market_ok s -> m_mailid s < 0xFFFFFFFE ->
  (parse_bid data).1 = Ok (g, id, price) -> id <> 0 -> auctioneer_near v u g = Some faction ->
  let h := GetAuctionsMap v faction in
  GetAuction s h id = Some a -> own_auction v s u a = false -> bid_too_low price a = false -> is_buyout price a = false ->
  0 < price <= GetMoney s u ->
  let s' := run_state (HandleAuctionPlaceBid v u data) s in
  let again := negb (a_bidder a =? 0) && (a_bidder a =? u) in
  let outbid := negb (a_bidder a =? 0) && negb (a_bidder a =? u) && character_exists v s (a_bidder a) in
  gold s' = <[u := GetMoney s u - (if again then price - a_bid a else price)]> (gold s) /\
  (forall h', house_map s' h' = if decide (h = h') then alter (set_bid u price) id (house_map s h) else house_map s h') /\
  auctionhouse s' = alter (set_row_bid u price) id (auctionhouse s) /\
  exists refund, r_receiver refund = u32 (a_bidder a) /\ r_money refund = a_bid a /\ r_deliver_time refund = now v /\
    mail s' = if outbid then <[m_mailid s := refund]> (mail s) else mail s.
Proof.
  intros Hs Hid Hparse Hid0 Hnear h Ha Hown Hlow Hbuy Hp s' again outbid.
  pose proof (GetMoney_range s u (mk_gold s Hs)) as Hr. unfold MAX_MONEY_AMOUNT in Hr.
  pose proof (mk_houses s Hs _ _ _ Ha) as [Eid Hb Hd Hst _ _]. unfold stake, MAX_MONEY_AMOUNT in Hst.
  assert (Hlt : a_bid a < price).
  { unfold bid_too_low in Hlow. apply orb_false_iff in Hlow as [[Hl _]%orb_false_iff _]. by apply Z.leb_gt in Hl. }
  assert (E : s' = run_state (raise_bid v u price h a) s).
  { subst s'. unfold HandleAuctionPlaceBid. rewrite (rs_with_packet _ _ _ _ _ Hparse).
    destruct (Z.eqb_spec id 0), (Z.eqb_spec price 0); try lia. cbn [orb].
    rewrite (rs_at_auctioneer _ _ _ faction) by done. rewrite rs_with_state. fold h. cbv zeta. rewrite Ha, Hown, Hlow, Hbuy.
    unfold HasEnoughMoney. rewrite u32_small by lia. destruct (Z.leb_spec price (GetMoney s u)); [|lia]. cbn [negb].
    by rewrite run_state_bind, rs_SaveInventoryAndGold. }
  assert (Hfirst : exists o, run_state (if negb (a_bidder a =? 0) then if a_bidder a =? u then ModifyMoney u (minus_int32 (u64 (price - a_bid a)))
        else SendAuctionOutbiddedMail v a price u ;; ModifyMoney u (minus_int32 price) else ModifyMoney u (minus_int32 price)) s =
      on_gold (insert u (GetMoney s u - (if again then price - a_bid a else price)))
        (if outbid then on_online (fun _ => o) (mail_sent (refund_row s a AUCTION_OUTBIDDED) [] s) else s)).
  { subst again outbid. destruct (negb (a_bidder a =? 0)); [destruct (a_bidder a =? u)|]; cbn [andb negb].
    - exists ∅. rewrite u64_small by lia. rewrite rs_pay; [done | apply Hs | lia].
    - destruct (rs_OutbiddedMail a price u s Hid) as [o Ho]. exists o. rewrite run_state_bind, Ho.
      destruct (character_exists v s (a_bidder a)); (rewrite rs_pay; [done | exact (mk_gold s Hs) | split; [lia | exact (proj2 Hp)]]).
    - exists ∅. rewrite rs_pay; [done | apply Hs | lia]. }
  destruct Hfirst as [o Hfirst]. rewrite E. unfold raise_bid. rewrite run_state_bind, Hfirst, !run_state_bind, rs_modify, rs_emit, rs_Append.
  unfold SendAuctionCommandResult. rewrite rs_emit, u32_small, Eid by lia.
  assert (Hrow : r_money (refund_row s a AUCTION_OUTBIDDED) = a_bid a) by (cbn; apply u32_small; lia).
  split_and!.
  - by destruct outbid.
  - intros h'. transitivity (house_map (on_house h (alter (set_bid u price) id) s) h'); [|apply house_map_on].
    by destruct outbid, h'.
  - by destruct outbid.
  - exists (refund_row s a AUCTION_OUTBIDDED). split_and!; [done | exact Hrow | cbn; lia |].
    destruct outbid; [|done]. exact (sent_mail _ _ s (mk_mail s Hs)).
Qed.

(** *** The end of an auction *)

Definition profit_row (s : Market) (a : AuctionEntry) : MailRow :=
  draft_row v (receiver_of s (a_owner a)) (auction_sender a) MAIL_CHECK_MASK_COPIED (CONFIG_MAIL_DELIVERY_DELAY v)
    (AddMoney (u64 (a_bid a + a_deposit a - GetAuctionCut v a))
      (new_draft (subject_of a AUCTION_SUCCESSFUL [])
        (hex16 (a_bidder a) ++ amounts a ++ colon ++ dec_string (a_deposit a) ++ colon ++ dec_string (GetAuctionCut v a)))).
Lemma on_online_same s : on_online (fun _ => online s) s = s.
Proof. by destruct s. Qed.
Lemma rs_SuccessfulMail a s : m_mailid s < 0xFFFFFFFE ->
  exists o, same_world (online s) o /\
    run_state (SendAuctionSuccessfulMail v a) s =
    on_online (fun _ => o) (sent_if (character_exists v s (a_owner a)) (profit_row s a) (option_list None) s).
Proof.
  intros Hid. unfold SendAuctionSuccessfulMail, sent_if. rewrite rs_with_state. destruct (character_exists _ _ _).
  - unfold when. cbv zeta. rewrite run_state_bind, rs_to_player by done. by apply rs_SendMailTo.
  - exists (online s). split; [apply same_world_refl|]. by rewrite on_online_same.
Qed.

Definition won_row (s : Market) (a : AuctionEntry) : MailRow :=
  draft_row v (receiver_of s (a_bidder a)) (auction_sender a) MAIL_CHECK_MASK_COPIED 0
    (AddItem (item_guidlow a) (new_draft (subject_of a AUCTION_WON []) (hex16 (a_owner a) ++ amounts a))).
(** The winner is known: he is online, or trades are logged and he has an account. *)
Definition winner_known (s : Market) (u : Z) : bool :=
  bool_decide (is_Some (GetPlayer s u)) || negb ((if CONFIG_GM_LOG_TRADE v then account_of v u else 0) =? 0).
Lemma oset_list_singleton x : oset_list {[ x ]} = [x].
Proof. unfold oset_list. by rewrite elements_singleton. Qed.
Lemma rs_WonMail a s : m_mailid s < 0xFFFFFFFE ->
  exists o, run_state (SendAuctionWonMail v a) s =
    on_online (fun _ => o) (sent_if (GetAItem s (item_guidlow a) && winner_known s (a_bidder a)) (won_row s a)
      (option_list (Some (item_guidlow a))) s).
Proof.
  intros Hid. unfold SendAuctionWonMail, sent_if. rewrite rs_with_state.
  destruct (GetAItem s (item_guidlow a)); cbn [negb andb]; [|exists (online s); by rewrite on_online_same].
  cbv zeta. fold (winner_known s (a_bidder a)).
  destruct (winner_known s (a_bidder a)); [|exists (online s); by rewrite on_online_same].
  unfold when. rewrite !run_state_bind, rs_to_player by done. rewrite rs_Append. cbn [execute_on].
  destruct (rs_SendMailTo v (receiver_of s (a_bidder a)) (auction_sender a) MAIL_CHECK_MASK_COPIED 0
    (AddItem (item_guidlow a) (new_draft (subject_of a AUCTION_WON []) (hex16 (a_owner a) ++ amounts a))) s Hid) as (o & _ & Ho).
  exists o. unfold auction_mail. rewrite Ho. change (d_items _) with ({[ item_guidlow a ]} ∪ (∅ : gset Z)).
  by rewrite (right_id_L ∅ (∪)), oset_list_singleton.
Qed.

Definition expired_row (s : Market) (a : AuctionEntry) : MailRow :=
  draft_row v (receiver_of s (a_owner a)) (auction_sender a) MAIL_CHECK_MASK_COPIED 0
    (AddItem (item_guidlow a) (new_draft (subject_of a AUCTION_EXPIRED (text ":0:0")) [])).
Lemma rs_ExpiredMail a s : m_mailid s < 0xFFFFFFFE ->
  exists o, run_state (SendAuctionExpiredMail v a) s =
    on_online (fun _ => o) (sent_if (GetAItem s (item_guidlow a) && character_exists v s (a_owner a)) (expired_row s a)
      (option_list (Some (item_guidlow a))) s).
Proof.
  intros Hid. unfold SendAuctionExpiredMail, sent_if. rewrite rs_with_state.
  destruct (_ && _); [|exists (online s); by rewrite on_online_same].
  unfold when. rewrite run_state_bind, rs_to_player by done.
  destruct (rs_SendMailTo v (receiver_of s (a_owner a)) (auction_sender a) MAIL_CHECK_MASK_COPIED 0
    (AddItem (item_guidlow a) (new_draft (subject_of a AUCTION_EXPIRED (text ":0:0")) [])) s Hid) as (o & _ & Ho).
  exists o. unfold auction_mail. rewrite Ho. change (d_items _) with ({[ item_guidlow a ]} ∪ (∅ : gset Z)).
  by rewrite (right_id_L ∅ (∪)), oset_list_singleton.
Qed.

Lemma rs_end_auction h id a s : GetAuction s h id = Some a ->
  run_state (end_auction v h id) s =
  on_Aitems (fun t => t ∖ {[ item_guidlow a ]}) (on_house h (delete (a_Id a)) (on_auctionhouse (delete (a_Id a))
    (if a_bidder a =? 0 then run_state (SendAuctionExpiredMail v a) s
     else run_state (SendAuctionWonMail v a) (run_state (SendAuctionSuccessfulMail v a) s)))).
Proof.
  intros Ha. unfold end_auction. rewrite rs_with_state, Ha. unfold DeleteFromDB, RemoveAuction, RemoveAItem.
  by destruct (Z.eqb_spec (a_bidder a) 0); rewrite !run_state_bind.
Qed.

(** What ends: the auction, its row and the house's hold on the item. *)
Record auction_over (h : house) (a : AuctionEntry) (s s' : Market) : Prop := {
  ov_gold : gold s' = gold s;
  ov_houses : forall h', house_map s' h' = if decide (h = h') then delete (a_Id a) (house_map s h) else house_map s h';
  ov_table : auctionhouse s' = delete (a_Id a) (auctionhouse s);
  ov_item : mAitems s' = mAitems s ∖ {[ item_guidlow a ]}
}.
Lemma auction_over_from h a s s1 : gold s1 = gold s -> (forall h', house_map s1 h' = house_map s h') ->
  auctionhouse s1 = auctionhouse s -> mAitems s1 = mAitems s ->
  auction_over h a s (on_Aitems (fun t => t ∖ {[ item_guidlow a ]})
    (on_house h (delete (a_Id a)) (on_auctionhouse (delete (a_Id a)) s1))).
Proof.
  intros E1 E2 E3 E4. split; [by destruct h | | destruct h; cbn; by rewrite E3 | destruct h; cbn; by rewrite E4].
  intros h'. transitivity (if decide (h = h') then delete (a_Id a) (house_map s1 h) else house_map s1 h'); [by destruct h, h'|].
  by rewrite !E2.
Qed.

(** The mails of an auction that ends, in the order they are sent: the identifiers and the
    items are those the tables get. *)
Definition last_mails (a : AuctionEntry) (s : Market) (s' : Market) : Prop :=
  let item := GetAItem s (item_guidlow a) in
  let seller := character_exists v s (a_owner a) in
  let winner := winner_known s (a_bidder a) in
  let returned := item && seller in
  let bought := item && winner in
  let n := if seller then m_mailid s + 1 else m_mailid s in
  let paid := if seller then <[m_mailid s := profit_row s a]> (mail s) else mail s in
  if a_bidder a =? 0 then
    mail s' = (if returned then <[m_mailid s := expired_row s a]> (mail s) else mail s) /\
    mail_items s' = (if returned then {[ (m_mailid s, item_guidlow a) ]} ∪ mail_items s else mail_items s)
  else exists won, (exists s1, won = won_row s1 a) /\
    mail s' = (if bought then <[n := won]> paid else paid) /\
    mail_items s' = (if bought then {[ (n, item_guidlow a) ]} ∪ mail_items s else mail_items s).

Lemma end_auction_over h id a s :
  mail_ok s -> m_mailid s + 1 < 0xFFFFFFFE -> GetAuction s h id = Some a ->
  let s' := run_state (end_auction v h id) s in auction_over h a s s' /\ last_mails a s s'.
Proof.
  intros Hm Hid Ha s'. subst s'. rewrite (rs_end_auction h id a) by done. pose proof (mo_next s Hm) as Hn.
  pose proof (fresh_mailid s Hm) as Hnew. unfold last_mails. destruct (a_bidder a =? 0).
  - destruct (rs_ExpiredMail a s) as [o ->]; [lia|]. set (b := _ && _).
    destruct (sent_if_spec b (expired_row s a) (Some (item_guidlow a)) s Hnew ltac:(lia)) as (E1 & E2 & _).
    split; [apply auction_over_from; unfold sent_if; by destruct b|].
    split; [destruct h; cbn; exact E1|].
    transitivity (mail_items (sent_if b (expired_row s a) (option_list (Some (item_guidlow a))) s)); [by destruct h|].
    rewrite E2. destruct b; [|done]. cbn. by rewrite (right_id_L ∅ (∪) {[ _ ]}).
  - destruct (rs_SuccessfulMail a s) as (o1 & Hw & ->); [lia|]. set (b := character_exists v s (a_owner a)).
    destruct (sent_if_spec b (profit_row s a) None s Hnew ltac:(lia)) as (E1 & E2 & E3).
    set (s1 := on_online (fun _ => o1) _).
    assert (Hid1 : m_mailid s1 = if b then m_mailid s + 1 else m_mailid s) by exact E3.
    assert (Hm1 : mail s1 = if b then <[m_mailid s := profit_row s a]> (mail s) else mail s) by exact E1.
    assert (Hi1 : mail_items s1 = mail_items s).
    { transitivity (mail_items (sent_if b (profit_row s a) (option_list None) s)); [done|]. rewrite E2.
      destruct b; [|done]. cbn. by rewrite (left_id_L ∅ (∪)). }
    assert (Hnew1 : mail s1 !! m_mailid s1 = None).
    { rewrite Hm1, Hid1. destruct b; [|done]. rewrite lookup_insert_ne by lia.
      destruct (mail s !! (m_mailid s + 1)) as [r|] eqn:Er; [|done]. pose proof (ro_id _ _ _ (mo_row s Hm _ _ Er)). lia. }
    assert (Hg : GetAItem s1 (item_guidlow a) = GetAItem s (item_guidlow a)) by (subst s1; unfold sent_if; by destruct b).
    assert (Hk : winner_known s1 (a_bidder a) = winner_known s (a_bidder a)).
    { unfold winner_known. f_equal. apply bool_decide_ext. apply same_world_GetPlayer. subst s1. unfold sent_if. by destruct b. }
    destruct (rs_WonMail a s1) as [o2 ->]; [rewrite Hid1; destruct b; lia|]. rewrite Hg, Hk. set (c := _ && _).
    destruct (sent_if_spec c (won_row s1 a) (Some (item_guidlow a)) s1 Hnew1) as (F1 & F2 & _); [rewrite Hid1; destruct b; lia|].
    assert (Hsame : forall c, gold (sent_if c (won_row s1 a) [item_guidlow a] s1) = gold s /\
      (forall h', house_map (sent_if c (won_row s1 a) [item_guidlow a] s1) h' = house_map s h') /\
      auctionhouse (sent_if c (won_row s1 a) [item_guidlow a] s1) = auctionhouse s /\
      mAitems (sent_if c (won_row s1 a) [item_guidlow a] s1) = mAitems s).
    { intros []; subst s1; unfold sent_if; by destruct b. }
    destruct (Hsame c) as (G1 & G2 & G3 & G4). split; [by apply auction_over_from|].
    exists (won_row s1 a). split; [by exists s1|]. rewrite <- Hm1, <- Hid1, <- Hi1. split; [destruct h; cbn; exact F1|].
    transitivity (mail_items (sent_if c (won_row s1 a) (option_list (Some (item_guidlow a))) s1)); [by destruct h|].
    rewrite F2. destruct c; [|done]. cbn. by rewrite (right_id_L ∅ (∪) {[ _ ]}).
Qed.

(** Whom a mail goes to, what it holds, and when it is delivered. *)
Record mail_for (receiver money : Z) (subject : list Z) (with_item : bool) (time : Z) (row : MailRow) : Prop := {
  for_receiver : r_receiver row = u32 receiver;
  for_money : r_money row = u32 money;
  for_subject : r_subject row = subject;
  for_item : r_has_items row = with_item;
  for_time : r_deliver_time row = time
}.

(** C20: an auction that ends leaves its house, its table and the hold on its item, and no
    purse changes.  Without a bid the item goes back to the seller, at once.  With a
    bid the seller is sent the bid and his deposit less the cut, after the delay of a
    delivery, and the winner is sent the item, at once.  The mails to the seller are
    sent only if his character exists, those with the item only if the house still
    holds it, and the winner's only if he is online or trades are logged and he has
    an account; otherwise nothing is sent instead. *)
Theorem auction_settled h id a s :
  market_ok s -> m_mailid s + 1 < 0xFFFFFFFE -> GetAuction s h id = Some a ->
  let s' := run_state (end_auction v h id) s in
  let item := GetAItem s (item_guidlow a) in
  let seller := character_exists v s (a_owner a) in
  let n := m_mailid s in
  auction_over h a s s' /\
  if a_bidder a =? 0 then
    if item && seller then
      exists back, mail_for (a_owner a) 0 (subject_of a AUCTION_EXPIRED (text ":0:0")) true (now v) back /\
        mail s' = <[n := back]> (mail s) /\ mail_items s' = {[ (n, item_guidlow a) ]} ∪ mail_items s
    else mail s' = mail s /\ mail_items s' = mail_items s
  else
    let income := a_bid a + a_deposit a - GetAuctionCut v a in
    (fair_cut v a -> 0 <= income < 2 ^ 32) /\
    exists profit, mail_for (a_owner a) income (subject_of a AUCTION_SUCCESSFUL []) false
                     (now v + CONFIG_MAIL_DELIVERY_DELAY v) profit /\
    let '(n', paid) := if seller then (n + 1, <[n := profit]> (mail s)) else (n, mail s) in
    if item && winner_known s (a_bidder a) then
      exists won, mail_for (a_bidder a) 0 (subject_of a AUCTION_WON []) true (now v) won /\
        mail s' = <[n' := won]> paid /\ mail_items s' = {[ (n', item_guidlow a) ]} ∪ mail_items s
    else mail s' = paid /\ mail_items s' = mail_items s.
Proof.
  intros Hs Hid Ha s' item seller n. destruct (end_auction_over h id a s (mk_mail s Hs) Hid Ha) as [Hover Hmails].
  split; [exact Hover|]. unfold last_mails in Hmails. fold item seller n s' in Hmails.
  assert (Hbox : forall t, draft_empty (AddItem (item_guidlow a) t) = false).
  { intros t. unfold draft_empty. cbn. case_bool_decide as E; [set_solver | done]. }
  destruct (a_bidder a =? 0).
  - destruct Hmails as [E1 E2]. destruct (item && seller); [|done]. exists (expired_row s a). split; [|done].
    split; [done | done | done | cbn; by rewrite Hbox | cbn; lia].
  - destruct Hmails as (won & (s1 & ->) & E1 & E2). split.
    { intros Hf. pose proof (mk_houses s Hs _ _ _ Ha) as [_ H1 H2 H3 _ _]. unfold stake, MAX_MONEY_AMOUNT in H3.
      pose proof (GetAuctionCut_range v a Hf ltac:(unfold MAX_MONEY_AMOUNT; lia)) as Hc. lia. }
    exists (profit_row s a). split; [split; [done | apply uwrap_uwrap; lia | done | done | done]|].
    destruct seller; cbn [fst snd]; (destruct (item && winner_known s (a_bidder a)); [exists (won_row s1 a); split; [|by split] | by split]);
      (split; [done | done | done | cbn; by rewrite Hbox | cbn; lia]).
Qed.

(** The winner of an auction that ends while he is offline gets neither the item nor
    his bid back: his account is only looked up for the log of trades.  The seller is
    paid, the auction is gone, and no mail holds the item. *)
Lemma offline_winner_gets_nothing h id a s :
  mail_ok s -> m_mailid s + 1 < 0xFFFFFFFE -> GetAuction s h id = Some a -> a_bidder a <> 0 ->
  GetAItem s (item_guidlow a) = true -> character_exists v s (a_owner a) = true ->
  CONFIG_GM_LOG_TRADE v = false -> GetPlayer s (a_bidder a) = None ->
  let s' := run_state (end_auction v h id) s in
  auction_over h a s s' /\ mail s' = <[m_mailid s := profit_row s a]> (mail s) /\ mail_items s' = mail_items s.
Proof.
  intros Hm Hid Ha Hb Hi He Hlog Hoff s'. destruct (end_auction_over h id a s Hm Hid Ha) as [Hover Hmails].
  assert (Hk : winner_known s (a_bidder a) = false).
  { unfold winner_known. rewrite Hlog, Hoff. by rewrite bool_decide_eq_false_2 by (intros [? E]; done). }
  unfold last_mails in Hmails. fold s' in Hmails. apply Z.eqb_neq in Hb. rewrite Hb, Hi, He, Hk in Hmails.
  destruct Hmails as (won & _ & E1 & E2). by split_and!.
Qed.

(** *** Sending a mail *)

Lemma rs_attach_items rc its s : let s' := run_state (for_each its (attach_item rc)) s in
  mail_items s' = mail_items s /\ forall i, inventory s' !! i = if decide (i ∈ its) then None else inventory s !! i.
Proof.
  revert s. induction its as [|x its IH]; intros s; [done|].
  change (for_each (x :: its) ?f) with (f x ;; for_each its f). cbv zeta. rewrite run_state_bind.
  destruct (IH (run_state (attach_item rc x) s)) as [E1 E2]. split; [by rewrite E1|]. intros i. rewrite E2.
  assert (E : inventory (run_state (attach_item rc x) s) = delete x (inventory s)) by done. rewrite E.
  destruct (decide (i = x)) as [->|Hne].
  - rewrite lookup_delete_eq. rewrite (decide_True (P := x ∈ x :: its)) by left. by destruct (decide _).
  - rewrite lookup_delete_ne by done. destruct (decide (i ∈ its)), (decide (i ∈ x :: its)) as [Hin|Hni]; try done.
    + exfalso. apply Hni. by right.
    + by apply elem_of_cons in Hin as [|].
Qed.
Lemma items_of_draft d its : d_items (foldr AddItem d its) = list_to_set its ∪ d_items d.
Proof. induction its as [|i its IH]; cbn; [set_solver | rewrite IH; set_solver]. Qed.
Lemma text_of_draft d its : d_subject (foldr AddItem d its) = d_subject d /\ d_body (foldr AddItem d its) = d_body d.
Proof. by induction its. Qed.

(** C22: a mail is posted: the sender pays the postage and the money he sends, the row
    carries the money, the payment asked for and the text to the receiver under a
    fresh identifier, every item leaves the sender's inventory for the mail, and the
    wealth of the server falls by the postage and nothing else. *)
Theorem mail_posted u rc rc_account cost its m s :
  market_ok s -> m_mailid s < 0xFFFFFFFE -> 0 <= cost -> 0 <= sm_money m -> 0 <= sm_COD m < 2 ^ 32 ->
  cost + sm_money m <= GetMoney s u ->
  let s' := run_state (post_mail v u rc rc_account (cost + sm_money m) cost its m) s in
  gold s' = <[u := GetMoney s u - (cost + sm_money m)]> (gold s) /\
  wealth s' = wealth s - cost /\
  (exists row, mail s !! m_mailid s = None /\ mail s' = <[m_mailid s := row]> (mail s) /\
     r_sender row = u /\ r_receiver row = GUID_LOPART rc /\ r_money row = sm_money m /\ r_cod row = sm_COD m /\
     r_subject row = sm_subject m /\ r_body row = sm_body m) /\
  forall i, i ∈ its -> (m_mailid s, i) ∈ mail_items s' /\ inventory s' !! i = None.
Proof.
  intros Hs Hid Hcost Hmoney Hcod Hen s'. pose proof (GetMoney_range s u (mk_gold s Hs)) as Hr. unfold MAX_MONEY_AMOUNT in Hr.
  set (s1 := paid u (cost + sm_money m) s). set (s2 := run_state (for_each its (attach_item rc)) s1).
  assert (Hq : same_books s1 s2) by (apply still_for_each; auto with quiet).
  assert (Hs1 : mail_ok s1) by (by apply mail_ok_gold, Hs).
  assert (E : exists o receiver sender checked delay, r_lowguid receiver = GUID_LOPART rc /\ s_senderId sender = u /\
    s' = on_online (fun _ => o) (mail_sent (draft_row v receiver sender checked delay
      (AddCOD (sm_COD m) (AddMoney (sm_money m) (foldr AddItem (new_draft (sm_subject m) (sm_body m)) its))))
      (oset_list (list_to_set its)) s2)).
  { subst s'. unfold post_mail, mail_error, SendMailResult. rewrite run_state_bind, rs_emit, run_state_bind, rs_pay; [|apply Hs|lia].
    fold s1. rewrite run_state_bind, rs_emit, run_state_bind. fold s2. cbv zeta. rewrite run_state_bind, rs_with_state, rs_SaveInventoryAndGold.
    match goal with |- context [SendMailTo v ?r ?f ?c ?dl ?d] => destruct (rs_SendMailTo v r f c dl d s2) as (o & _ & Ho);
      [by rewrite (sb_next _ _ Hq) | exists o, r, f, c, dl] end.
    split_and!; [done | done |]. rewrite Ho. cbn [AddCOD AddMoney d_items]. rewrite items_of_draft.
    change (d_items (new_draft _ _)) with (∅ : gset Z). by rewrite (right_id_L ∅ (∪)). }
  destruct E as (o & receiver & sender & checked & delay & Er & Es & E).
  set (d := AddCOD _ _) in E. set (row := draft_row v receiver sender checked delay d) in E.
  assert (Hm2 : mail_ok s2) by (by eapply mail_ok_books).
  assert (Eid : m_mailid s2 = m_mailid s) by (by rewrite (sb_next _ _ Hq)).
  assert (Email : mail s' = <[m_mailid s := row]> (mail s)).
  { rewrite E. transitivity (mail (mail_sent row (oset_list (list_to_set its)) s2)); [done|].
    by rewrite sent_mail, Eid, (sb_mail _ _ Hq). }
  assert (Egold : gold s' = <[u := GetMoney s u - (cost + sm_money m)]> (gold s)).
  { rewrite E. transitivity (gold s2); [done|]. by rewrite (sb_gold _ _ Hq). }
  assert (Emoney : r_money row = sm_money m) by (cbn; apply u32_small; lia).
  pose proof (fresh_mailid s (mk_mail s Hs)) as Hfresh. split_and!; [exact Egold | | |].
  - unfold wealth. assert (Hh : same_houses s s') by (rewrite E; apply (sb_houses _ _ Hq)). rewrite (same_houses_staked _ _ Hh).
    pose proof (insert_purse s u (GetMoney s u - (cost + sm_money m))) as Hp. unfold purses in *. cbn in Hp. rewrite Egold, Hp.
    unfold mailed. rewrite Email, msum_insert_new by done. lia.
  - exists row. assert (r_cod row = sm_COD m) by (cbn; by apply u32_small).
    destruct (text_of_draft (new_draft (sm_subject m) (sm_body m)) its) as [E1 E2].
    split_and!; [exact Hfresh | exact Email | exact Es | exact Er | exact Emoney | done | exact E1 | exact E2].
  - intros i Hi. destruct (rs_attach_items rc its s1) as [Eit Einv]. fold s2 in Eit, Einv. split.
    + assert (Emi : mail_items s' = list_to_set (pair (m_mailid s2) <$> oset_list (list_to_set its)) ∪ mail_items s2) by (by rewrite E).
      rewrite Emi, Eid. apply elem_of_union_l, elem_of_list_to_set, list_elem_of_fmap.
      exists i. split; [done|]. by apply elem_of_oset_list, elem_of_list_to_set.
    + rewrite E. transitivity (inventory s2 !! i); [done|]. by rewrite Einv, decide_True.
Qed.

(** *** Taking the money of a mail *)

(** C21: the money of a mail is credited once: the purse rises by it up to the limit
    (what is above is lost), the mail in memory and its row are left with no money,
    and no other purse changes. *)
Theorem money_taken u data s b id t m :
  market_ok s -> (parse_mail_and 8 data).1 = Ok (b, id) -> mailbox_near v u b = true -> online s !! u = Some t ->
  open_mail v id t = Some m ->
  let s' := run_state (HandleMailTakeMoney v u data) s in
  gold s' = <[u := if GetMoney s u + m_money m <? MAX_MONEY_AMOUNT then GetMoney s u + m_money m else MAX_MONEY_AMOUNT]> (gold s) /\
  (exists r, mail s' !! id = Some r /\ r_money r = 0) /\
  exists t', online s' !! u = Some t' /\ forall m', m' ∈ m_mail t' -> messageID m' = id -> m_money m' = 0.
Proof.
  intros Hs Hp Hnear Ht Ho s'. pose proof (open_mail_GetMail v _ _ _ Ho) as Hget. pose proof (GetMail_elem _ _ _ Hget) as [Hin Hid].
  destruct (in_sync_row s u t m (mk_mail s Hs) Ht Hin) as (r & Hr & Hu & Hmo & Hb & Hc).
  pose proof (GetMoney_range s u (mk_gold s Hs)) as Hg. unfold MAX_MONEY_AMOUNT in *.
  set (f := fun m => set_money_COD 0 (m_COD m) m). set (g := if _ <? _ then _ else _).
  assert (Hgold : run_state (ModifyMoney u (s32 (m_money m))) s = on_gold (insert u g) s).
  { destruct (rs_ModifyMoney u (s32 (m_money m)) s) as (g' & -> & ->). f_equal. f_equal. subst g. rewrite s32_small by lia.
    destruct (Z.ltb_spec (m_money m) 0); [lia|]. unfold MAX_MONEY_AMOUNT. rewrite (u32_small (_ - _)) by lia.
    destruct (Z.ltb_spec (GetMoney s u) (0x7FFFFFFF - 1 - m_money m)), (Z.ltb_spec (GetMoney s u + m_money m) (0x7FFFFFFF - 1)); try lia.
    - by rewrite !(u32_small (GetMoney s u + m_money m)) by lia.
    - by rewrite u32_small by lia. }
  set (s2 := on_online (alter (set_mails_updated true) u) (on_online (alter (set_mails (update_first id f)) u) (on_gold (insert u g) s))).
  set (t2 := set_mails_updated true (set_mails (update_first id f) t)).
  assert (Ht2 : online s2 !! u = Some t2) by (cbn; by rewrite !lookup_alter_eq, Ht).
  assert (E : s' = run_state (_SaveMail u) s2).
  { subst s'. unfold HandleMailTakeMoney, at_mailbox. rewrite (rs_with_packet _ _ _ _ _ Hp). cbv beta iota. rewrite Hnear. cbn [negb].
    rewrite (rs_with_trader _ _ _ t), Ho by done. unfold SendMailResult. rewrite run_state_bind, rs_emit, run_state_bind, Hgold.
    by rewrite !run_state_bind. }
  assert (Hl : m_mailsLoaded t = true).
  { destruct (m_mailsLoaded t) eqn:El; [done|]. rewrite (do_unloaded _ _ _ (mo_desk s (mk_mail s Hs) u t Ht) El) in Hin. by apply elem_of_nil in Hin. }
  pose proof (rs_SaveMail u t2 s2 Ht2 Hl) as Hsave. rewrite <- E in Hsave.
  assert (Hm2 : mail_ok s2).
  { assert (Hm1 : mail_ok (on_gold (insert u g) s)) by (by apply mail_ok_gold, Hs).
    pose proof (posts_upd_mail u id f (on_gold (insert u g) s) shrinks_money Hm1) as P1.
    assert (C : calm (upd_mail u id f) (on_gold (insert u g) s)) by (intros E0; by apply elem_of_nil in E0).
    eapply mail_ok_books; [|apply (P1 C)]. by apply (quiet_upd_trader u (set_mails_updated true)). }
  assert (Hf2 : f m ∈ m_mail t2) by (by apply update_first_in).
  pose proof (in_order_desk _ _ _ Hm2 Ht2) as Hord.
  split_and!.
  - by rewrite (sb_gold _ _ Hsave).
  - rewrite (sb_mail _ _ Hsave). cbn [on_online on_mail mail].
    assert (Eid : messageID (f m) = id) by done. rewrite <- Eid, (saved_at u) by done. unfold save_row. cbn [f set_money_COD m_state messageID m_money].
    rewrite lookup_alter_eq. change (mail s2) with (mail s). rewrite Hr. eexists. split; [reflexivity|]. reflexivity.
  - destruct (same_books_desk_back _ _ u (set_mails kept_mails t2) Hsave) as (t' & Ht' & _ & Em).
    { cbn. cbn in Ht2. by rewrite lookup_alter_eq, Ht2. }
    exists t'. split; [done|]. intros m' Hm' Eid. rewrite Em in Hm'. cbn [set_mails m_mail] in Hm'.
    apply kept_mails_elem in Hm' as (m0 & Hm0 & -> & _). rewrite saved_mail_id in Eid. destruct (saved_mail_money m0) as [-> _].
    destruct Hord as [Hnd _]. cut (m0 = f m); [by intros -> |].
    apply list_elem_of_lookup in Hm0 as [i Hi]. apply list_elem_of_lookup in Hf2 as [j Hj].
    assert (i = j) as ->; [|congruence]. eapply (NoDup_lookup _ _ _ id Hnd); rewrite list_lookup_fmap; [rewrite Hi | rewrite Hj]; cbn; congruence.
Qed.

(** *** The clock and the table of auctions *)

Lemma houses_end_auction h id s h' : houses_ok s ->
  house_map (run_state (end_auction v h id) s) h' = if decide (h = h') then delete id (house_map s h) else house_map s h'.
Proof.
  intros Hh. unfold end_auction. rewrite rs_with_state. destruct (GetAuction s h id) as [a|] eqn:Ha.
  - rewrite run_state_bind. pose proof (ao_id _ _ (Hh h id a Ha)) as Eid.
    set (s1 := run_state _ s). assert (Hs1 : same_houses s s1) by apply keeps_houses_end.
    unfold DeleteFromDB, RemoveAuction, RemoveAItem. rewrite !run_state_bind, !rs_modify, !rs_emit, rs_Append, Eid.
    transitivity (house_map (on_house h (delete id) s1) h'); [by destruct h'|].
    by rewrite house_map_on, !(same_houses_map _ _ _ Hs1).
  - case_decide; [|done]. subst h'. unfold GetAuction in Ha. by rewrite rs_ret, delete_id.
Qed.
Lemma houses_end_all h ids s : houses_ok s ->
  houses_ok (run_state (for_each ids (end_auction v h)) s) /\
  forall h' id, house_map (run_state (for_each ids (end_auction v h)) s) h' !! id =
    if decide (h = h' /\ id ∈ ids) then None else house_map s h' !! id.
Proof.
  revert s. induction ids as [|x ids IH]; intros s Hh.
  { split; [done|]. intros h' id. rewrite decide_False; [done|]. intros [_ Hin]. by apply elem_of_nil in Hin. }
  change (for_each (x :: ids) ?f) with (f x ;; for_each ids f). rewrite run_state_bind.
  destruct (IH (run_state (end_auction v h x) s)) as [H1 H2].
  - intros h' id a. rewrite houses_end_auction by done. case_decide; [subst h'|apply Hh].
    intros [_ Ha]%lookup_delete_Some. by apply (Hh h).
  - split; [done|]. intros h' id. rewrite H2, houses_end_auction by done. destruct (decide (h = h')) as [<-|Hne].
    + destruct (decide (id ∈ ids)) as [Hin|Hni].
      * rewrite !decide_True; [done | split; [done | by right] | done].
      * rewrite decide_False by (by intros [_ ?]). destruct (decide (id = x)) as [->|Hx].
        -- rewrite decide_True by (split; [done | left]). apply lookup_delete_eq.
        -- rewrite decide_False; [by rewrite lookup_delete_ne|]. by intros [_ [?|?]%elem_of_cons].
    + by rewrite !decide_False by (by intros [? _]).
Qed.
Lemma elem_of_ending s id : id ∈ ending v s <-> exists r, auctionhouse s !! id = Some r /\ w_time r <= u32 (u32 (now v) + 60).
Proof.
  unfold ending. rewrite list_elem_of_fmap. split.
  - intros ([i r] & -> & Hin). rewrite merge_sort_Permutation in Hin. apply list_elem_of_filter in Hin as [Ht Hin].
    apply elem_of_omap_list in Hin. eauto.
  - intros (r & Hr & Ht). exists (id, r). split; [done|]. rewrite merge_sort_Permutation. apply list_elem_of_filter.
    split; [done|]. by apply elem_of_omap_list.
Qed.

(** C29: when the clock of a house ticks, exactly the auctions end whose row says they
    are over within a minute: they leave the house; the others, and the other houses,
    keep theirs. *)
Theorem due_auctions_end h s : houses_ok s -> let s' := run_state (Update_house v h) s in
  (forall id r, auctionhouse s !! id = Some r -> w_time r <= u32 (u32 (now v) + 60) -> house_map s' h !! id = None) /\
  (forall id, (forall r, auctionhouse s !! id = Some r -> u32 (u32 (now v) + 60) < w_time r) -> house_map s' h !! id = house_map s h !! id) /\
  (forall h', h' <> h -> house_map s' h' = house_map s h').
Proof.
  intros Hh s'. unfold Update_house in s'. subst s'. rewrite rs_with_state. case_bool_decide as Hempty.
  { rewrite rs_ret. split_and!; try done. intros id r _ _. by rewrite Hempty. }
  destruct (houses_end_all h (ending v s) s Hh) as [_ He]. split_and!.
  - intros id r Hr Ht. rewrite He, decide_True; [done|]. split; [done|]. apply elem_of_ending. eauto.
  - intros id Hlate. rewrite He, decide_False; [done|]. intros [_ (r & Hr & Ht)%elem_of_ending]. specialize (Hlate r Hr). lia.
  - intros h' Hne. apply map_eq. intros id. rewrite He, decide_False; [done|]. intros [E _]. congruence.
Qed.

(** An auction that is as the code makes them, of an auctioneer of the house, with
    amounts below 2^31, an end before 2^32 and an item the server can load. *)
Record auction_stored (s : Market) (id : Z) (h : house) (a : AuctionEntry) : Prop := {
  as_id : a_Id a = id;
  as_owner : 0 <= a_owner a < 2 ^ 32;
  as_bidder : 0 <= a_bidder a < 2 ^ 32;
  as_amounts : 0 <= a_bid a < 2 ^ 31 /\ 0 <= a_buyout a < 2 ^ 31 /\ 0 <= startbid a < 2 ^ 31 /\ 0 <= a_deposit a < 2 ^ 31;
  as_time : 0 <= a_expire_time a < 2 ^ 32;
  as_house : exists faction, spawn_faction v (a_auctioneer a) = Some faction /\
    GetAuctionHouseEntry v faction = Some (auctionHouseEntry a) /\ GetAuctionsMap v faction = h;
  as_template : GetEntry v (item_guidlow a) = item_template a;
  as_item : item_guidlow a ∈ item_instance s /\ item_has_proto v (item_template a) = true /\ item_loads v (item_guidlow a) = true
}.
Lemma auction_of_row_of s0 s id h a : auction_stored s0 id h a -> GetAItem s (item_guidlow a) = true ->
  exists faction, auction_of_row v s id (row_of v a) = Some (faction, a) /\ GetAuctionsMap v faction = h.
Proof.
  intros [Eid Ho Hb (H1 & H2 & H3 & H4) Htime (faction & Ef & Ee & Eh) Et _] Hi. exists faction. split; [|done].
  assert (Hcol : forall n, 0 <= n < 2 ^ 31 -> int32_column v n = n).
  { intros n Hn. unfold int32_column. rewrite s32_small by done. destruct (Z.ltb_spec n 0); [lia|done]. }
  assert (Hend : u32 (time_column v (a_expire_time a)) = a_expire_time a).
  { unfold time_column. rewrite u64_small by lia. destruct (Z.ltb_spec (a_expire_time a) (2 ^ 32)); [by apply u32_small | lia]. }
  unfold auction_of_row, row_of. cbn -[time_column]. rewrite Ef, Ee, Hi. cbn -[time_column]. rewrite !Hcol, Et, Hend, !u32_small by done. rewrite <- Eid. by destruct a.
Qed.

Lemma rs_load_items l s : exists t, run_state (for_each l (load_auction_item v)) s = on_Aitems (fun _ => t) s /\ mAitems s ⊆ t /\
  forall p, p ∈ l -> item_has_proto v (GetEntry v (w_itemguid p.2)) && item_loads v (w_itemguid p.2) = true -> w_itemguid p.2 ∈ t.
Proof.
  revert s. induction l as [|p l IH]; intros s.
  { exists (mAitems s). split; [by destruct s|]. split; [done|]. intros p Hp. by apply elem_of_nil in Hp. }
  change (for_each (p :: l) ?f) with (f p ;; for_each l f). rewrite run_state_bind.
  assert (Hone : exists t, run_state (load_auction_item v p) s = on_Aitems (fun _ => t) s /\ mAitems s ⊆ t /\
    (item_has_proto v (GetEntry v (w_itemguid p.2)) && item_loads v (w_itemguid p.2) = true -> w_itemguid p.2 ∈ t)).
  { unfold load_auction_item. destruct (_ && _); [|by exists (mAitems s); destruct s].
    unfold when, AddAItem. rewrite rs_with_state. unfold GetAItem. case_bool_decide.
    - exists (mAitems s). by destruct s.
    - exists ({[ w_itemguid p.2 ]} ∪ mAitems s). split; [by destruct s|]. set_solver. }
  destruct Hone as (t1 & -> & Hsub1 & Hp1). destruct (IH (on_Aitems (fun _ => t1) s)) as (t2 & -> & Hsub2 & Hp2).
  cbn in Hsub2. exists t2. split; [by destruct s|]. split; [set_solver|].
  intros q [->|Hq]%elem_of_cons Hl; [by apply Hsub2, Hp1 | by apply Hp2].
Qed.

Lemma rs_load_auctions (A : gmap Z AuctionEntry) (house_of : Z -> house) s0 l s :
  (forall id r, (id, r) ∈ l -> exists a, A !! id = Some a /\ r = row_of v a /\ auction_stored s0 id (house_of id) a /\ GetAItem s (item_guidlow a) = true) ->
  NoDup l.*1 -> let s' := run_state (for_each l (load_auction v)) s in
  auctionhouse s' = auctionhouse s /\
  forall h id, house_map s' h !! id = if decide (id ∈ l.*1 /\ house_of id = h) then A !! id else house_map s h !! id.
Proof.
  revert s. induction l as [|[i r] l IH]; intros s Hl Hnd; cbv zeta.
  { split; [done|]. intros h id. rewrite decide_False; [done|]. intros [Hin _]. by apply elem_of_nil in Hin. }
  change (for_each ((i, r) :: l) ?f) with (f (i, r) ;; for_each l f). rewrite run_state_bind.
  apply NoDup_cons in Hnd as [Hni Hnd]. destruct (Hl i r ltac:(left)) as (a & Ha & -> & Hst & Hit).
  destruct (auction_of_row_of s0 s i (house_of i) a Hst Hit) as (faction & Erow & Eh).
  assert (E : run_state (load_auction v (i, row_of v a)) s = on_house (house_of i) (insert i a) s).
  { unfold load_auction. rewrite rs_with_state. cbn [fst snd]. rewrite Erow, Eh. unfold AddAuction. rewrite run_state_bind, rs_emit, rs_modify.
    by rewrite (as_id _ _ _ _ Hst). }
  rewrite E. destruct (IH (on_house (house_of i) (insert i a) s)) as [E1 E2].
  { intros id r' Hin. apply (Hl id r'). by right. } { done. }
  split; [by rewrite E1|]. intros h id. rewrite E2, house_map_on. destruct (decide (id = i)) as [->|Hne].
  - rewrite (decide_False (P := i ∈ l.*1 /\ _)) by (by intros [? _]). destruct (decide (house_of i = h)) as [<-|Hh].
    + rewrite decide_True by (split; [left | done]). by rewrite Ha, lookup_insert_eq.
    + rewrite decide_False; [done|]. by intros [_ ?].
  - destruct (decide (id ∈ l.*1 /\ house_of id = h)) as [[Hin Hh]|Hno].
    + rewrite decide_True; [done|]. split; [by right | done].
    + rewrite (decide_False (P := id ∈ _ /\ _)); [|intros [[Ei|Hin]%elem_of_cons Hh]; [by apply Hne | by apply Hno]].
      case_decide as Hh; [|done]. subst h. by rewrite lookup_insert_ne by done.
Qed.

(** C28: a restart keeps the auctions: if the table holds the rows [SaveToDB] wrote for
    the auctions [A], loading it puts exactly those auctions into the houses of their
    auctioneers, every member as it was, and deletes no row.  For that the auctions
    must be as [auction_stored] says: owner and bidder of 32 bits, amounts below 2^31
    (the columns are written as signed numbers), an end before 2^32 (it is read as a
    number of 32 bits), an auctioneer that is spawned and has a house, and an item that
    is in its table, has a template and loads. *)
Theorem auctions_reload (A : gmap Z AuctionEntry) (house_of : Z -> house) s :
  (forall id a, A !! id = Some a -> auction_stored s id (house_of id) a) ->
  auctionhouse s = row_of v <$> A -> (forall h, house_map s h = ∅) ->
  let s' := run_state (LoadAuctionItems v ;; LoadAuctions v) s in
  auctionhouse s' = auctionhouse s /\
  forall h id, house_map s' h !! id = if decide (house_of id = h) then A !! id else None.
Proof.
  intros HA Htable Hempty s'. subst s'. rewrite run_state_bind. unfold LoadAuctionItems. rewrite rs_with_state.
  destruct (rs_load_items (stored_auctions s) s) as (t & -> & _ & Ht). unfold LoadAuctions. rewrite rs_with_state.
  assert (Hstored : forall id r, (id, r) ∈ stored_auctions s <-> exists a, A !! id = Some a /\ r = row_of v a).
  { intros id r. unfold stored_auctions. rewrite list_elem_of_filter, elem_of_omap_list, Htable, lookup_fmap. split.
    - intros [_ Hr]. destruct (A !! id) as [a|]; [|done]. injection Hr as <-. eauto.
    - intros (a & Ha & ->). rewrite Ha. split; [|done]. apply (as_item _ _ _ _ (HA id a Ha)). }
  assert (Hnd : NoDup (stored_auctions s).*1).
  { apply (sublist_NoDup _ ((omap_list (auctionhouse s)).*1)); [apply omap_list_NoDup | apply fmap_sublist, sublist_filter]. }
  destruct (rs_load_auctions A house_of s (stored_auctions s) (on_Aitems (fun _ => t) s)) as [E1 E2]; [|exact Hnd|].
  - intros id r Hin. apply Hstored in Hin as Hin'. destruct Hin' as (a & Ha & ->). exists a. split_and!; [done | done | by apply HA |].
    apply bool_decide_eq_true_2. cbn. pose proof (as_item _ _ _ _ (HA id a Ha)) as (_ & H1 & H2).
    apply (Ht (id, row_of v a) Hin). cbn. rewrite (as_template _ _ _ _ (HA id a Ha)), H1, H2. done.
  - split; [exact E1|]. intros h id. etransitivity; [apply E2|]. assert (Ee : house_map (on_Aitems (fun _ => t) s) h = ∅) by (rewrite <- (Hempty h); by destruct h).
    rewrite Ee, lookup_empty. destruct (decide (house_of id = h)) as [Hh|Hh].
    + case_decide as Hin; [done|]. destruct (A !! id) as [a|] eqn:Ha; [|done]. exfalso. apply Hin. split; [|done].
      apply list_elem_of_fmap. exists (id, row_of v a). split; [done|]. apply Hstored. eauto.
    + rewrite decide_False; [done|]. by intros [_ ?].
Qed.

(** *** Taking an item *)

Definition off_bags {A} (m : KM A) : Prop := forall s,
  gold (run_state m s) = gold s /\ inventory (run_state m s) = inventory s /\ m_mailid (run_state m s) = m_mailid s.
Lemma off_bags_bind {A B} (m : KM A) (k : A -> KM B) : off_bags m -> (forall a, off_bags (k a)) -> off_bags (bind m k).
Proof.
  intros Hm Hk s. rewrite run_state_bind. destruct (Hm s) as (E1 & E2 & E3), (Hk (run_value m s) (run_state m s)) as (F1 & F2 & F3).
  by rewrite F1, F2, F3.
Qed.
Lemma off_bags_for_each {A} (l : list A) (f : A -> KM unit) : (forall x, off_bags (f x)) -> off_bags (for_each l f).
Proof. intros Hf. induction l as [|x l IH]; [done | by apply off_bags_bind]. Qed.
Lemma off_bags_Append st : off_bags (Append st).
Proof. intros s. rewrite rs_Append. by destruct st. Qed.
Lemma off_bags_upd u f : off_bags (upd_trader u f).
Proof. done. Qed.
Lemma off_bags_SaveMail u : off_bags (_SaveMail u).
Proof.
  unfold _SaveMail. intros s. unfold with_trader. rewrite rs_with_state. destruct (online s !! u) as [t|]; [|done].
  revert s. destruct (m_mailsLoaded t); [|done]. apply off_bags_bind; [|intros _; by apply off_bags_bind].
  apply off_bags_for_each. intros m. unfold save_mail. destruct (m_state m); [done| |].
  - apply off_bags_bind; [apply off_bags_Append|]. intros _. apply off_bags_for_each. intros x. apply off_bags_Append.
  - apply off_bags_bind; [apply off_bags_for_each; intros x; apply off_bags_Append|]. intros _.
    apply off_bags_bind; [apply off_bags_Append|]. intros _. apply off_bags_Append.
Qed.

(** Any item a player has in any of his mails can be taken through any other mail
    that asks for no payment: he gets the item, pays nothing, and no mail with the
    payment is sent; the handler does not look whether the item belongs to the mail. *)
Lemma item_without_payment u data s b id item t m m' template :
  market_ok s -> (parse_mail_item data).1 = Ok (b, (id, item)) -> mailbox_near v u b = true -> online s !! u = Some t ->
  open_mail v id t = Some m -> m_COD m = 0 ->
  m' ∈ m_mail t -> (item, template) ∈ items m' -> 0 < m_COD m' -> item ∈ mMitems t ->
  _CanStoreItem v u item = EQUIP_ERR_OK -> StoreItem_merges v u item = false ->
  let s' := run_state (HandleMailTakeItem v u data) s in
  inventory s' !! item = Some u /\ gold s' = gold s /\ m_mailid s' = m_mailid s.
Proof.
  intros Hs Hp Hnear Ht Ho Hcod _ _ _ Hitem Hstore Hmerge s'. pose proof (GetMoney_range s u (mk_gold s Hs)) as Hr.
  assert (E : exists o, gold s' = gold (run_state (_SaveMail u) (on_inventory (insert item u) (on_online o s))) /\
    inventory s' = inventory (run_state (_SaveMail u) (on_inventory (insert item u) (on_online o s))) /\
    m_mailid s' = m_mailid (run_state (_SaveMail u) (on_inventory (insert item u) (on_online o s)))).
  { subst s'. unfold HandleMailTakeItem, at_mailbox. rewrite (rs_with_packet _ _ _ _ _ Hp). cbv beta iota. rewrite Hnear. cbn [negb].
    rewrite (rs_with_trader _ _ _ t), Ho by done. rewrite rs_with_state, Hcod. unfold HasEnoughMoney. rewrite u32_small by lia.
    destruct (Z.leb_spec 0 (GetMoney s u)); [|lia]. unfold GetMItem. rewrite bool_decide_eq_true_2 by done. cbn [negb CanStoreItem].
    cbv zeta. rewrite Hstore, Z.eqb_refl. unfold MoveItemToInventory, StoreItem. rewrite Hmerge. rewrite !run_state_bind, rs_modify.
    eexists (fun _ => _). split_and!; reflexivity. }
  destruct E as (o & -> & -> & ->).
  destruct (off_bags_SaveMail u (on_inventory (insert item u) (on_online o s))) as (-> & -> & ->). split_and!; [apply lookup_insert_eq | done | done].
Qed.

(** *** The list of mails *)

Definition width (fs : list field) : Z := Z.of_nat (length (ser fs)).
Lemma width_app l l' : width (l ++ l') = width l + width l'.
Proof. unfold width. rewrite ser_app, length_app. lia. Qed.
Lemma width_int n x l : width (FU n x :: l) = Z.of_nat n + width l.
Proof. unfold width. rewrite ser_cons, length_app. cbn [field_bytes]. rewrite length_le_encode. lia. Qed.
Lemma width_str s l : width (FStr s :: l) = Z.of_nat (length s) + 1 + width l.
Proof. unfold width. rewrite ser_cons, length_app. cbn [field_bytes]. rewrite length_app. cbn. lia. Qed.
Lemma width_nil : width [] = 0.
Proof. reflexivity. Qed.
Lemma width_concat {A} (f : A -> list field) n l : (forall x, width (f x) = n) -> width (concat (f <$> l)) = n * Z.of_nat (length l).
Proof.
  intros Hf. induction l as [|x l IH]; [by rewrite Z.mul_0_r|].
  cbn [fmap list_fmap concat length]. rewrite width_app, Hf, IH. lia.
Qed.
#[local] Hint Rewrite width_app width_int width_str width_nil : width.

Lemma width_mail_item t i item : width (mail_item_fields v t i item) = 142.
Proof.
  unfold mail_item_fields. autorewrite with width.
  rewrite (width_concat _ 12); [|intros j; destruct (GetEnchantment v item j) as [[a b] c]; autorewrite with width; lia].
  change (replicate 6 (FU 4 0)) with [FU 4 0; FU 4 0; FU 4 0; FU 4 0; FU 4 0; FU 4 0]. rewrite length_seq. autorewrite with width.
  unfold MAX_INSPECTED_ENCHANTMENT_SLOT. lia.
Qed.
Lemma width_items t (l : list (Z * Z)) k : width (concat (imap (fun i (it : Z * Z) => mail_item_fields v t (Z.of_nat (k + i)) it.1) l)) = 142 * Z.of_nat (length l).
Proof.
  revert k. induction l as [|it l IH]; intros k; [done|]. cbn [imap concat length]. rewrite width_app, width_mail_item.
  erewrite (imap_ext _ (fun i (it : Z * Z) => mail_item_fields v t (Z.of_nat (S k + i)) it.1)); [rewrite IH; lia|].
  intros i x _. cbn. do 2 f_equal. lia.
Qed.
(** The size a mail declares leaves out 4 bytes, and 24 for each item. *)
Lemma width_mail t m : messageType m = MAIL_NORMAL \/ messageType m = MAIL_AUCTION \/ messageType m = MAIL_CREATURE \/
    messageType m = MAIL_GAMEOBJECT \/ messageType m = MAIL_ITEM -> (length (items m) <= 12)%nat ->
  width (mail_fields v t m) = next_mail_size m + 4 + 24 * Z.of_nat (length (items m)).
Proof.
  intros Hty Hn. unfold mail_fields. cbv zeta.
  assert (Hu8 : u8 (Z.of_nat (length (items m))) = Z.of_nat (length (items m))) by (apply Z.mod_small; lia).
  rewrite Hu8, Nat2Z.id, take_ge by lia. pose proof (width_items t (items m) 0) as Hitems.
  cbn [Nat.add] in Hitems. autorewrite with width. rewrite Hitems.
  unfold next_mail_size. rewrite Hu8.
  assert (Hs : width (mail_sender_fields m) = if messageType m =? MAIL_NORMAL then 8 else 4).
  { unfold mail_sender_fields, MAIL_NORMAL, MAIL_AUCTION, MAIL_CREATURE, MAIL_GAMEOBJECT, MAIL_ITEM in *.
    destruct Hty as [E|[E|[E|[E|E]]]]; rewrite E; reflexivity. }
  rewrite Hs. destruct (messageType m =? MAIL_NORMAL); lia.
Qed.

Definition mail_listable (m : Mail) : Prop :=
  (messageType m = MAIL_NORMAL \/ messageType m = MAIL_AUCTION \/ messageType m = MAIL_CREATURE \/
   messageType m = MAIL_GAMEOBJECT \/ messageType m = MAIL_ITEM) /\ (length (items m) <= 12)%nat.

(** C37: the list of mails sent to a client holds at most 254 mails, but not at most
    [maxPacketSize] bytes: the size the code reckons with leaves out 4 bytes of each
    mail and 24 of each item, so the list may exceed the limit, by 292 bytes at most. *)
Theorem mail_list_bounded t l : Forall mail_listable l ->
  let '(mailsCount, realCount, data) := foldl (list_mail v t) (0, 0, []) l in
  0 <= mailsCount <= 254 /\ 5 + width data <= maxPacketSize + 4 + 24 * 12.
Proof.
  intros Hl. cut (forall n real data, 0 <= n <= 254 -> 5 + width data <= maxPacketSize + 4 + 24 * 12 ->
    let '(mailsCount, realCount, data) := foldl (list_mail v t) (n, real, data) l in
    0 <= mailsCount <= 254 /\ 5 + width data <= maxPacketSize + 4 + 24 * 12).
  { intros H. apply H; [lia|]. rewrite width_nil. unfold maxPacketSize. lia. }
  induction l as [|m l IH]; intros n real data Hn Hw; [done|]. apply Forall_cons in Hl as [[Hty Hit] Hl]. cbn [foldl].
  unfold list_mail at 2. destruct (Z.leb_spec 254 n); [by apply IH|]. destruct (_ || _); [by apply IH|].
  fold (width data). destruct (Z.ltb_spec maxPacketSize (5 + width data + next_mail_size m)); [by apply IH|].
  apply IH; [done | lia |]. rewrite width_app, width_mail by done. lia.
Qed.
End operations.

(** ** A server for the examples *)

Definition sample_house : AuctionHouseEntry := mkHouseEntry 1 12 5 5.
Definition sample_market_view (t : Z) : MarketView := {|
  now := t;
  CONFIG_MAIL_DELIVERY_DELAY := 3600;
  CONFIG_MAIL_LEVEL_REQ := 1;
  CONFIG_AUCTION_LEVEL_REQ := 1;
  CONFIG_ALLOW_TWO_SIDE_INTERACTION_MAIL := true;
  CONFIG_ALLOW_TWO_SIDE_INTERACTION_AUCTION := false;
  CONFIG_GM_LOG_TRADE := false;
  RATE_AUCTION_CUT := f32 1;
  RATE_AUCTION_TIME := f32 1;
  account_of u := u + 100;
  team_of _ := 469;
  level_of _ := 80;
  GetSecurity _ := 0;
  is_gm _ := false;
  guid_by_name name := if bool_decide (name = text "Bob") then 2 else if bool_decide (name = text "Eve") then 3 else 0;
  has_UNIT_STAT_DIED _ := false;
  is_battlemaster _ := false;
  mailbox_near _ _ := true;
  auctioneer_near _ _ := Some 12;
  mail_template _ := None;
  faction_mask f := if f =? 12 then Some 2 else None;
  AuctionHouseStore id := if id =? 1 then Some sample_house else None;
  spawn_faction _ := Some 12;
  secsToTimeBitFields t := t;
  GetEntry item := item + 1000;
  GetCount _ := 1;
  CanBeTraded _ _ := true;
  conjured_or_timed _ := false;
  is_filled_bag _ := false;
  is_wrapped _ := false;
  BIND_TO_ACCOUNT _ := false;
  bound_account_wide _ := false;
  item_has_proto _ := true;
  item_loads _ := true;
  _CanStoreItem _ _ := 0;
  StoreItem_merges _ _ := false;
  GetEnchantment _ _ := (0, 0, 0);
  GetItemRandomPropertyId _ := 0;
  GetItemSuffixFactor _ := 0;
  GetSpellCharges _ := 0;
  item_durability _ := (0, 0);
  SellPrice _ := 20;
  proto_class _ := (2, 7, 13, 1);
  RequiredLevel _ := 10;
  CanUseItem _ _ := true;
  Name1 _ := text "Sword";
  locale_name _ _ := None;
  random_suffix _ := None;
  new_item := 900;
  out_of_range n := n + 2 ^ 32
|}.
(** Ann (1), who carries the items 7 and 8, Bob (2) and Eve (3). *)
Definition sample_market : Market :=
  mkMarket {[ 1 := 10000; 2 := 5000000; 3 := 6000000 ]} ∅ {[ 7 := 1; 8 := 1 ]} ∅ ∅ {[ 7; 8 ]} 1 ∅ ∅ ∅ ∅ ∅ 1.

Definition packet_of (fs : list field) : ByteBuffer := mkBuf 0 (Z.of_nat (length (ser fs))) (ser fs).
Definition item_guid (low : Z) : Z := MAKE_NEW_GUID low 0 HIGHGUID_ITEM.
Definition sell_packet (item bid buyout : Z) : ByteBuffer :=
  packet_of [FU 8 500; FU 4 1; FU 8 (item_guid item); FU 4 1; FU 8 bid; FU 8 buyout; FU 4 720].
Definition bid_packet (id price : Z) : ByteBuffer := packet_of [FU 8 500; FU 4 id; FU 8 price].
Definition auction_packet (id : Z) : ByteBuffer := packet_of [FU 8 500; FU 4 id].
Definition mail_packet (name : list Z) (guids : list Z) (money COD : Z) : ByteBuffer :=
  packet_of ([FU 8 600; FStr name; FStr (text "Hi"); FStr (text "there"); FU 4 0; FU 4 0; FU 1 (Z.of_nat (length guids))] ++
    concat (imap (fun i g => [FU 1 (Z.of_nat i); FU 8 g]) guids) ++ [FU 8 money; FU 8 COD; FU 8 0; FU 1 0]).
Definition mail_id_packet (id : Z) (skip : nat) : ByteBuffer := packet_of ([FU 8 600; FU 4 id] ++ replicate skip (FU 1 0)).
Definition take_item_packet (id item : Z) : ByteBuffer := packet_of [FU 8 600; FU 4 id; FU 4 item].

(** ** Deciding what is allowed *)

Definition in_houses (P : Z -> AuctionEntry -> bool) (s : Market) : bool :=
  forallb (fun h => forallb (fun p => P p.1 p.2) (map_to_list (house_map s h))) [Horde; Alliance; Neutral].
Lemma in_houses_spec P s : in_houses P s = true -> forall h id a, house_map s h !! id = Some a -> P id a = true.
Proof.
  unfold in_houses. rewrite forallb_forall. intros H h id a Ha. specialize (H h ltac:(destruct h; cbn; auto)).
  rewrite forallb_forall in H. apply (H (id, a)). apply list_elem_of_In, elem_of_map_to_list. exact Ha.
Qed.
Definition calm_log (l : list market_event) : bool := forallb (fun e => match e with IdOverflow => false | _ => true end) l.
Lemma calm_log_spec l : calm_log l = true -> IdOverflow ∉ l.
Proof. unfold calm_log. rewrite forallb_forall. intros H Hin%list_elem_of_In. by specialize (H _ Hin). Qed.
Definition is_byteb (b : Z) : bool := (0 <=? b) && (b <? 256).
Lemma bytes_okb l : forallb is_byteb l = true -> bytes_ok l.
Proof.
  rewrite forallb_forall. intros H. apply Forall_forall. intros b Hb%list_elem_of_In. specialize (H b Hb).
  unfold is_byteb in H. unfold is_byte. lia.
Qed.
Definition fits_purseb (data : ByteBuffer) : bool :=
  match (parse_sent_mail data).1 with
  | Ok (Some m) => (mail_cost (Z.of_nat (length (sm_items m))) + sm_money m <? 2 ^ 32) && (sm_COD m <? 2 ^ 32)
  | _ => true
  end.
Definition fits_bidb (data : ByteBuffer) (s : Market) : bool :=
  match (parse_bid data).1 with
  | Ok (_, id, price) => in_houses (fun i a => negb (i =? id) || (price + a_deposit a <=? MAX_MONEY_AMOUNT)) s
  | _ => true
  end.
Definition allowedb (v : MarketView) (s : Market) (st : market_step) : bool :=
  in_houses (fun _ a => (0 <=? cut_factor v (auctionHouseEntry a)) && (cut_factor v (auctionHouseEntry a) <=? 1)) s &&
  match st with
  | MarketPacketIn _ op data =>
      forallb is_byteb (_storage data) &&
      match op with CMSG_SEND_MAIL => fits_purseb data | CMSG_AUCTION_PLACE_BID => fits_bidb data s | _ => true end
  | MarketLogin u => (0 <? u) && (u <? 2 ^ 32)
  | MailCleanup => forallb (fun p => t_inWorld p.2) (map_to_list (online s))
  | _ => true
  end.
Lemma allowedb_spec v s st : allowedb v s st = true -> allowed v s st.
Proof.
  intros [Hc Hst]%andb_true_iff. split.
  - intros h id a Ha. apply (in_houses_spec _ _ Hc h id) in Ha. unfold fair_cut. lia.
  - destruct st as [u op data|u|u|u b|u| |]; try done; [|unfold allowedb in Hst; lia|].
    + apply andb_true_iff in Hst as [Hb%bytes_okb Hop]. split; [exact Hb|]. destruct op; try done.
      * intros m Em. unfold fits_purseb in Hop. rewrite Em in Hop. lia.
      * intros g id price Ep h a Ha. unfold fits_bidb in Hop. rewrite Ep in Hop. apply (in_houses_spec _ _ Hop h id) in Ha. lia.
    + rewrite forallb_forall in Hst. intros u t Ht. apply (Hst (u, t)). apply list_elem_of_In. by apply elem_of_map_to_list.
Qed.
Fixpoint all_allowedb `{!Utf8Lib} (l : list (MarketView * market_step)) (s : Market) : bool :=
  match l with
  | [] => true
  | (v, st) :: l' => allowedb v s st && calm_log (run_log (run_market_step v st) s) && all_allowedb l' (run_state (run_market_step v st) s)
  end.
Lemma all_allowedb_spec `{!Utf8Lib} l s : all_allowedb l s = true -> all_allowed l s.
Proof.
  revert s. induction l as [|[v st] l IH]; intros s; [done|]. cbn. intros [[H1 H2]%andb_true_iff H3]%andb_true_iff.
  split_and!; [by apply allowedb_spec | by apply calm_log_spec | by apply IH].
Qed.

(** ** Runs of the example *)

Definition at_time (t : Z) (st : market_step) : MarketView * market_step := (sample_market_view t, st).
Definition three_players : list (MarketView * market_step) :=
  [at_time 0 (MarketLogin 1); at_time 0 (MarketLogin 2); at_time 0 (MarketLogin 3)].
(** Ann auctions her sword, Bob bids, Eve outbids him. *)
Definition two_bids : list (MarketView * market_step) :=
  three_players ++
  [at_time 10 (MarketPacketIn 1 CMSG_AUCTION_SELL_ITEM (sell_packet 7 100 5000));
   at_time 20 (MarketPacketIn 2 CMSG_AUCTION_PLACE_BID (bid_packet 1 200));
   at_time 20 (MarketPacketIn 3 CMSG_AUCTION_PLACE_BID (bid_packet 1 300))].
(** Ann sends Bob an item and money; he takes both, and the bid he got back. *)
Definition mails_taken : list (MarketView * market_step) :=
  two_bids ++
  [at_time 30 (MarketPacketIn 1 CMSG_SEND_MAIL (mail_packet (text "bob") [item_guid 8] 500 0));
   at_time 4000 (MarketPacketIn 2 CMSG_GET_MAIL_LIST (packet_of [FU 8 600]));
   at_time 4000 (MarketPacketIn 2 CMSG_MAIL_TAKE_MONEY (mail_id_packet 1 8));
   at_time 4000 (MarketPacketIn 2 CMSG_MAIL_TAKE_MONEY (mail_id_packet 2 8));
   at_time 4000 (MarketPacketIn 2 CMSG_MAIL_TAKE_ITEM (take_item_packet 2 8))].
(** The auction ends, Eve takes the sword and logs out, old mails are cleaned up. *)
Definition full_run : list (MarketView * market_step) :=
  mails_taken ++
  [at_time 50000 AuctionTick;
   at_time 50000 (MarketPacketIn 3 CMSG_GET_MAIL_LIST (packet_of [FU 8 600]));
   at_time 50000 (MarketPacketIn 3 CMSG_MAIL_TAKE_ITEM (take_item_packet 4 7));
   at_time 60000 (MarketLogout 3);
   at_time 6000000 MailCleanup].

Lemma sample_market_ok : market_ok sample_market.
Proof.
  split.
  - assert (H : map_Forall (fun _ g => 0 <= g <= MAX_MONEY_AMOUNT) (gold sample_market)) by (apply (bool_decide_unpack _); vm_compute; exact I).
    intros u g Hg. exact (H u g Hg).
  - intros [| |] id a Ha; cbn in Ha; by rewrite lookup_empty in Ha.
  - split; [cbn; lia | intros id r Hr; cbn in Hr; by rewrite lookup_empty in Hr | intros u t Ht; cbn in Ht; by rewrite lookup_empty in Ht].
Qed.
Lemma sample_run_ok l : all_allowedb l sample_market = true -> market_ok (run_market l sample_market).
Proof. intros Hl%all_allowedb_spec. apply (run_market_deal l sample_market sample_market_ok Hl). Qed.

Lemma no_gold_minted_witness :
  wealth (run_market full_run sample_market) <= 11010000 /\ gold (run_market full_run sample_market) !! 2 = Some 5000500.
Proof.
  assert (Hl : all_allowed full_run sample_market) by (apply all_allowedb_spec; vm_compute; reflexivity).
  assert (E : wealth sample_market = 11010000) by (vm_compute; reflexivity). rewrite <- E.
  split; [exact (proj1 (no_gold_minted full_run sample_market sample_market_ok Hl)) | vm_compute; reflexivity].
Defined.
Lemma mails_in_step_witness : exists r, mail (run_market mails_taken sample_market) !! 2 = Some r /\ r_receiver r = 2.
Proof.
  destruct (mails_in_step mails_taken sample_market sample_market_ok) as (H & _); [apply all_allowedb_spec; vm_compute; reflexivity|].
  set (t := online (run_market mails_taken sample_market) !! 2) in *.
  assert (Ht : exists t2 m, t = Some t2 /\ m ∈ m_mail t2 /\ messageID m = 2).
  { vm_compute in t. subst t. eexists _, _. split; [reflexivity|]. split; [left | reflexivity]. }
  destruct Ht as (t2 & m & Ht & Hin & Hid). destruct (H 2 t2 m Ht Hin) as (r & Hr & Hu & _). rewrite Hid in Hr. eauto.
Defined.

Definition one_bid : list (MarketView * market_step) := take 5 two_bids.
Definition sample_auction (bidder bid : Z) : AuctionEntry := mkAuction 1 500 7 1007 1 100 bid 5000 43210 bidder 100 sample_house.

Lemma place_bid_raises_witness :
  let s' := run_state (HandleAuctionPlaceBid (sample_market_view 20) 3 (bid_packet 1 300)) (run_market one_bid sample_market) in
  gold s' !! 3 = Some 5999700 /\ exists refund, r_receiver refund = 2 /\ r_money refund = 200 /\ mail s' !! 1 = Some refund.
Proof.
  intros s'. set (s := run_market one_bid sample_market).
  destruct (place_bid_raises (sample_market_view 20) 3 (bid_packet 1 300) s 500 1 300 12 (sample_auction 2 200)) as (Hg & _ & _ & refund & H1 & H2 & _ & Hm);
    [apply sample_run_ok; vm_compute; reflexivity | vm_compute; reflexivity | vm_compute; reflexivity | lia | vm_compute; reflexivity
    | vm_compute; reflexivity | vm_compute; reflexivity | vm_compute; reflexivity | vm_compute; reflexivity
    | split; [lia | apply Z.leb_le; vm_compute; reflexivity] |].
  split; [etransitivity; [exact (f_equal (fun g => g !! 3) Hg) | vm_compute; reflexivity]|]. exists refund. split_and!; [exact H1 | exact H2 |].
  match type of Hm with _ = (if ?b then _ else _) => assert (Hb : b = true) by (vm_compute; reflexivity); rewrite Hb in Hm end.
  etransitivity; [exact (f_equal (fun g => g !! 1) Hm)|]. apply lookup_insert_Some. left. split; [vm_compute; reflexivity | reflexivity].
Defined.

Lemma auction_settled_witness :
  let s := run_market two_bids sample_market in
  let s' := run_state (end_auction (sample_market_view 50000) Alliance 1) s in
  exists profit won, mail s' = <[3 := won]> (<[2 := profit]> (mail s)) /\ mail_items s' = {[ (3, 7) ]} ∪ mail_items s /\
    r_receiver profit = 1 /\ r_money profit = 400 /\ r_receiver won = 3 /\ r_has_items won = true.
Proof.
  intros s s'.
  destruct (auction_settled (sample_market_view 50000) Alliance 1 (sample_auction 3 300) s)
    as [_ [_ (profit & [H1 H2 _ _ _] & H)]];
    [apply sample_run_ok; vm_compute; reflexivity | vm_compute; reflexivity | vm_compute; reflexivity |].
  assert (E1 : m_mailid s = 2) by (vm_compute; reflexivity).
  assert (E2 : character_exists (sample_market_view 50000) s (a_owner (sample_auction 3 300)) = true) by (vm_compute; reflexivity).
  assert (E3 : GetAItem s (item_guidlow (sample_auction 3 300)) && winner_known (sample_market_view 50000) s (a_bidder (sample_auction 3 300)) = true)
    by (vm_compute; reflexivity).
  rewrite E2, E3, E1 in H.
  destruct H as (won & [G1 _ _ G4 _] & Hm & Hi). exists profit, won.
  split_and!; [exact Hm | exact Hi | rewrite H1; vm_compute; reflexivity | rewrite H2; vm_compute; reflexivity
    | rewrite G1; vm_compute; reflexivity | exact G4].
Defined.

(** Eve, the highest bidder, is offline when the auction ends. *)
Definition winner_left : list (MarketView * market_step) := two_bids ++ [at_time 30 (MarketLogout 3)].
Lemma offline_winner_gets_nothing_witness :
  let s' := run_state (end_auction (sample_market_view 50000) Alliance 1) (run_market winner_left sample_market) in
  mail_items s' = ∅ /\ house_map s' Alliance = ∅.
Proof.
  intros s'.
  destruct (offline_winner_gets_nothing (sample_market_view 50000) Alliance 1 (sample_auction 3 300) (run_market winner_left sample_market)) as (Hover & _ & Hi);
    [apply sample_run_ok; vm_compute; reflexivity | vm_compute; reflexivity | vm_compute; reflexivity
    | vm_compute; discriminate | vm_compute; reflexivity | vm_compute; reflexivity | vm_compute; reflexivity | vm_compute; reflexivity |].
  split; [etransitivity; [exact Hi | vm_compute; reflexivity] |].
  etransitivity; [exact (ov_houses _ _ _ _ Hover Alliance) | vm_compute; reflexivity].
Defined.

Definition sample_letter : SentMail := mkSentMail 600 (text "bob") (text "Hi") (text "there") [item_guid 8] 500 0.
Lemma mail_posted_witness :
  let s' := run_state (post_mail (sample_market_view 30) 1 2 102 (30 + 500) 30 [8] sample_letter) (run_market three_players sample_market) in
  gold s' !! 1 = Some 9470 /\ wealth s' = 11009970 /\ (1, 8) ∈ mail_items s'.
Proof.
  intros s'. set (s := run_market three_players sample_market).
  destruct (mail_posted (sample_market_view 30) 1 2 102 30 [8] sample_letter s) as (Hg & Hw & _ & Hi);
    [apply sample_run_ok; vm_compute; reflexivity | vm_compute; reflexivity | lia | cbn; lia | cbn; lia | vm_compute; discriminate |].
  split_and!; [etransitivity; [exact (f_equal (fun g => g !! 1) Hg) | vm_compute; reflexivity]
              | etransitivity; [exact Hw | vm_compute; reflexivity] | apply (Hi 8); left].
Defined.

Definition mails_listed : list (MarketView * market_step) := take 8 mails_taken.
Definition bobs_mail : Mail :=
  mkMail 2 0 41 0 1 2 (text "Hi") (text "there") [(8, 1008)] [] 2595630 3630 500 0 16 MAIL_STATE_UNCHANGED.
Lemma money_taken_witness :
  gold (run_state (HandleMailTakeMoney (sample_market_view 4000) 2 (mail_id_packet 2 8)) (run_market mails_listed sample_market)) !! 2 = Some 5000300.
Proof.
  set (s := run_market mails_listed sample_market).
  assert (Ht : exists t, online s !! 2 = Some t /\ open_mail (sample_market_view 4000) 2 t = Some bobs_mail)
    by (eexists; split; vm_compute; reflexivity).
  destruct Ht as (t & Ht & Ho).
  destruct (money_taken (sample_market_view 4000) 2 (mail_id_packet 2 8) s 600 2 t bobs_mail) as [Hg _];
    [apply sample_run_ok; vm_compute; reflexivity | vm_compute; reflexivity | vm_compute; reflexivity | exact Ht | exact Ho |].
  etransitivity; [exact (f_equal (fun g => g !! 2) Hg) | vm_compute; reflexivity].
Defined.

Lemma due_auctions_end_witness :
  house_map (run_state (Update_house (sample_market_view 50000) Alliance) (run_market two_bids sample_market)) Alliance !! 1 = None.
Proof.
  destruct (due_auctions_end (sample_market_view 50000) Alliance (run_market two_bids sample_market)) as [H _];
    [apply sample_run_ok; vm_compute; reflexivity|].
  assert (Hr : exists r, auctionhouse (run_market two_bids sample_market) !! 1 = Some r /\ w_time r = 43210)
    by (eexists; split; vm_compute; reflexivity).
  destruct Hr as (r & Hr & Ht). apply (H 1 r Hr). rewrite Ht. vm_compute. discriminate.
Defined.

(** The server after a restart: the table is there, the houses are empty. *)
Definition restarted : Market :=
  mkMarket ∅ ∅ ∅ ∅ ∅ {[ 7 ]} 1 ∅ ∅ ∅ ∅ {[ 1 := row_of (sample_market_view 0) (sample_auction 3 300) ]} 2.
Lemma auctions_reload_witness :
  house_map (run_state (LoadAuctionItems (sample_market_view 0) ;; LoadAuctions (sample_market_view 0)) restarted) Alliance !! 1 =
  Some (sample_auction 3 300).
Proof.
  destruct (auctions_reload (sample_market_view 0) {[ 1 := sample_auction 3 300 ]} (fun _ => Alliance) restarted) as [_ H];
    [ | vm_compute; reflexivity | by intros [| |] | etransitivity; [apply (H Alliance 1) | vm_compute; reflexivity]].
  intros id a Ha. apply lookup_singleton_Some in Ha as [<- <-].
  split; [done | cbn; lia | cbn; lia | cbn; lia | cbn; lia | by exists 12 | done | ].
  split; [apply (bool_decide_unpack _); vm_compute; exact I | done].
Defined.

(** Ann asks Bob for 1000 for her sword; Eve's mail to him is empty. *)
Definition sword_for_money : list (MarketView * market_step) :=
  three_players ++
  [at_time 10 (MarketPacketIn 1 CMSG_SEND_MAIL (mail_packet (text "bob") [item_guid 7] 0 1000));
   at_time 11 (MarketPacketIn 3 CMSG_SEND_MAIL (mail_packet (text "bob") [] 0 0));
   at_time 4000 (MarketPacketIn 2 CMSG_GET_MAIL_LIST (packet_of [FU 8 600]))].
Lemma item_without_payment_witness :
  inventory (run_state (HandleMailTakeItem (sample_market_view 4000) 2 (take_item_packet 2 7)) (run_market sword_for_money sample_market)) !! 7 = Some 2.
Proof.
  set (s := run_market sword_for_money sample_market).
  assert (Ht : exists t m m', online s !! 2 = Some t /\ open_mail (sample_market_view 4000) 2 t = Some m /\ m_COD m = 0 /\
    m_mail t = [m; m'] /\ items m' = [(7, 1007)] /\ m_COD m' = 1000 /\ mMitems t = {[ 7 ]})
    by (eexists _, _, _; split_and!; vm_compute; reflexivity).
  destruct Ht as (t & m & m' & Ht & Ho & Hc & Hl & Hi & Hc' & Hmi).
  apply (item_without_payment (sample_market_view 4000) 2 (take_item_packet 2 7) s 600 2 7 t m m' 1007);
    [apply sample_run_ok; vm_compute; reflexivity | vm_compute; reflexivity | done | exact Ht | exact Ho | exact Hc
    | rewrite Hl; right; left | rewrite Hi; left | rewrite Hc'; lia | rewrite Hmi; set_solver | done | done].
Defined.

Lemma mail_list_bounded_witness :
  let '(mailsCount, realCount, data) :=
    foldl (list_mail (sample_market_view 4000) (mkTrader true [bobs_mail] true false 0 0 {[ 8 ]})) (0, 0, []) [bobs_mail] in
  0 <= mailsCount <= 254 /\ 5 + width data <= 33059.
Proof.
  apply (mail_list_bounded (sample_market_view 4000) (mkTrader true [bobs_mail] true false 0 0 {[ 8 ]}) [bobs_mail]).
  constructor; [|constructor]. split; [by left | cbn; lia].
Defined.

(** *** The corners *)

(** Bob, who has 5000000, buys out for 9000000 with a price of 2^32. *)
Definition free_buyout : list (MarketView * market_step) :=
  three_players ++
  [at_time 10 (MarketPacketIn 1 CMSG_AUCTION_SELL_ITEM (sell_packet 7 100 9000000));
   at_time 20 (MarketPacketIn 2 CMSG_AUCTION_PLACE_BID (bid_packet 1 (2 ^ 32)))].
(** Bob has Ann's mail open while he changes the map; it is returned, Ann takes the
    money back, and Bob takes it too. *)
Definition returned_in_transit : list (MarketView * market_step) :=
  three_players ++
  [at_time 10 (MarketPacketIn 1 CMSG_SEND_MAIL (mail_packet (text "bob") [item_guid 7] 5000 0));
   at_time 4000 (MarketPacketIn 2 CMSG_GET_MAIL_LIST (packet_of [FU 8 600]));
   at_time 4030 (MarketTravel 2 false);
   at_time 3456000 MailCleanup;
   at_time 3456001 (MarketTravel 2 true);
   at_time 3456002 (MarketPacketIn 1 CMSG_GET_MAIL_LIST (packet_of [FU 8 600]));
   at_time 3456003 (MarketPacketIn 1 CMSG_MAIL_TAKE_MONEY (mail_id_packet 1 8));
   at_time 3456004 (MarketPacketIn 2 CMSG_MAIL_TAKE_MONEY (mail_id_packet 1 8))].

(** Two of the conditions of [no_gold_minted] are needed: a buyout with a price of
    2^32 passes the test of the purse and pays the seller in full, and an old mail
    returned while its reader is between two maps pays out twice.  The postage of 30
    apart, the wealth of the server grows by 4000000 and by 5000. *)
Lemma corners_mint_gold :
  wealth (run_market free_buyout sample_market) = wealth sample_market + 4000000 /\
  gold (run_market free_buyout sample_market) !! 2 = Some 0 /\
  wealth (run_market returned_in_transit sample_market) = wealth sample_market - 30 + 5000.
Proof. split_and!; vm_compute; reflexivity. Qed.
