(* ===== verification/Guild.v ===== *)
(** * Guilds: data, ranks, logs and members

    game/Guilds/Guild.cpp, Guild.h and GuildMgr.cpp of src/src/server without the
    bank, which is [GuildBank]: ranks and their rights, the event logs, the roster,
    joining, leaving and leading a guild, experience, and the checks after loading.

    The state is a store: the guilds by identifier (GuildStore), the players who are
    online with the guild part of [Player], the gold and mails of [Market], the items
    in bank slots and bags, and the rows that are read again.  The tables follow the
    statements at once.  [m_members] is a hash table: the order its elements are
    visited in is a parameter. *)
From Stdlib Require Import SpecFloat.
From S2P Require Import Prelude Text ByteBuffer Market.

(** ** Constants *)

Definition GUILD_BANK_MAX_TABS : Z := 8.
Definition GUILD_BANK_MAX_SLOTS : Z := 98.
Definition GUILD_BANK_MONEY_LOGS_TAB : Z := 100.
Definition GUILD_RANKS_MIN_COUNT : Z := 3.
Definition GUILD_RANKS_MAX_COUNT : Z := 10.
Definition GUILD_RANK_NONE : Z := 0xFF.
Definition GUILD_WITHDRAW_MONEY_UNLIMITED : Z := 0xFFFFFFFF.
Definition GUILD_WITHDRAW_SLOT_UNLIMITED : Z := 0xFFFFFFFF.
Definition GUILD_EVENT_LOG_GUID_UNDEFINED : Z := 0xFFFFFFFF.
Definition GUILD_MEMBER_FLAG_OFFLINE : Z := 0x00.
Definition GUILD_MEMBER_FLAG_ONLINE : Z := 0x01.
Definition GR_GUILDMASTER : Z := 0.
Definition GR_OFFICER : Z := 1.

Definition GR_RIGHT_EMPTY : Z := 0x00000040.
Definition GR_RIGHT_GCHATLISTEN : Z := Z.lor GR_RIGHT_EMPTY 0x00000001.
Definition GR_RIGHT_GCHATSPEAK : Z := Z.lor GR_RIGHT_EMPTY 0x00000002.
Definition GR_RIGHT_OFFCHATLISTEN : Z := Z.lor GR_RIGHT_EMPTY 0x00000004.
Definition GR_RIGHT_OFFCHATSPEAK : Z := Z.lor GR_RIGHT_EMPTY 0x00000008.
Definition GR_RIGHT_INVITE : Z := Z.lor GR_RIGHT_EMPTY 0x00000010.
Definition GR_RIGHT_REMOVE : Z := Z.lor GR_RIGHT_EMPTY 0x00000020.
Definition GR_RIGHT_PROMOTE : Z := Z.lor GR_RIGHT_EMPTY 0x00000080.
Definition GR_RIGHT_DEMOTE : Z := Z.lor GR_RIGHT_EMPTY 0x00000100.
Definition GR_RIGHT_SETMOTD : Z := Z.lor GR_RIGHT_EMPTY 0x00001000.
Definition GR_RIGHT_EPNOTE : Z := Z.lor GR_RIGHT_EMPTY 0x00002000.
Definition GR_RIGHT_EOFFNOTE : Z := Z.lor GR_RIGHT_EMPTY 0x00008000.
Definition GR_RIGHT_MODIFY_GUILD_INFO : Z := Z.lor GR_RIGHT_EMPTY 0x00010000.
Definition GR_RIGHT_WITHDRAW_REPAIR : Z := 0x00040000.
Definition GR_RIGHT_WITHDRAW_GOLD : Z := 0x00080000.
Definition GR_RIGHT_ALL : Z := 0x001FFFBF.

Definition GUILD_CREATE_S : Z := 0x00.
Definition GUILD_INVITE_S : Z := 0x01.
Definition GUILD_QUIT_S : Z := 0x03.
Definition GUILD_UNK1 : Z := 0x13.
Definition ERR_PLAYER_NO_MORE_IN_GUILD : Z := 0x00.
Definition ERR_ALREADY_IN_GUILD_S : Z := 0x03.
Definition ERR_ALREADY_INVITED_TO_GUILD_S : Z := 0x05.
Definition ERR_GUILD_NAME_INVALID : Z := 0x06.
Definition ERR_GUILD_LEADER_LEAVE : Z := 0x08.
Definition ERR_GUILD_PERMISSIONS : Z := 0x08.
Definition ERR_GUILD_PLAYER_NOT_IN_GUILD : Z := 0x09.
Definition ERR_GUILD_PLAYER_NOT_IN_GUILD_S : Z := 0x0A.
Definition ERR_GUILD_PLAYER_NOT_FOUND_S : Z := 0x0B.
Definition ERR_GUILD_NOT_ALLIED : Z := 0x0C.
Definition ERR_GUILD_RANK_TOO_HIGH_S : Z := 0x0D.
Definition ERR_GUILD_RANK_TOO_LOW_S : Z := 0x0E.

Definition GE_PROMOTION : Z := 0x01.
Definition GE_DEMOTION : Z := 0x02.
Definition GE_MOTD : Z := 0x03.
Definition GE_JOINED : Z := 0x04.
Definition GE_LEFT : Z := 0x05.
Definition GE_REMOVED : Z := 0x06.
Definition GE_LEADER_CHANGED : Z := 0x08.
Definition GE_DISBANDED : Z := 0x09.
Definition GE_UPDATE_ROSTER : Z := 0x0C.
Definition GE_SIGNED_ON : Z := 0x10.
Definition GE_SIGNED_OFF : Z := 0x11.

Definition GUILD_BANK_RIGHT_VIEW_TAB : Z := 0x01.
Definition GUILD_BANK_RIGHT_PUT_ITEM : Z := 0x02.
Definition GUILD_BANK_RIGHT_DEPOSIT_ITEM : Z := Z.lor GUILD_BANK_RIGHT_VIEW_TAB GUILD_BANK_RIGHT_PUT_ITEM.
Definition GUILD_BANK_RIGHT_FULL : Z := 0xFF.

Definition GUILD_BANK_LOG_DEPOSIT_ITEM : Z := 1.
Definition GUILD_BANK_LOG_WITHDRAW_ITEM : Z := 2.
Definition GUILD_BANK_LOG_MOVE_ITEM : Z := 3.
Definition GUILD_BANK_LOG_DEPOSIT_MONEY : Z := 4.
Definition GUILD_BANK_LOG_WITHDRAW_MONEY : Z := 5.
Definition GUILD_BANK_LOG_REPAIR_MONEY : Z := 6.
Definition GUILD_BANK_LOG_MOVE_ITEM2 : Z := 7.

Definition GUILD_EVENT_LOG_INVITE_PLAYER : Z := 1.
Definition GUILD_EVENT_LOG_JOIN_GUILD : Z := 2.
Definition GUILD_EVENT_LOG_PROMOTE_PLAYER : Z := 3.
Definition GUILD_EVENT_LOG_DEMOTE_PLAYER : Z := 4.
Definition GUILD_EVENT_LOG_UNINVITE_PLAYER : Z := 5.
Definition GUILD_EVENT_LOG_LEAVE_GUILD : Z := 6.

Definition GUILD_NEWS_GUILD_LEVEL_REACHED : Z := 6.
Definition CLASS_WARRIOR : Z := 1.
Definition MAX_CLASSES : Z := 12.
Definition HIGHGUID_GUILD : Z := 0x1FF6.

Definition SMSG_GUILD_COMMAND_RESULT : Z := 0x023C0.
Definition SMSG_GUILD_ROSTER : Z := 0x04D5C.
Definition SMSG_GUILD_RANK : Z := 0x0411E.
Definition SMSG_GUILD_QUERY_RESPONSE : Z := 0x03F80.
Definition SMSG_GUILD_EVENT : Z := 0x0B7C4.
Definition SMSG_GUILD_INVITE : Z := 0x0010C.
Definition SMSG_GUILD_INFO : Z := 0x020A8.
Definition SMSG_GUILD_XP_UPDATE : Z := 0x0440E.
Definition SMSG_GUILD_NEWS_UPDATE : Z := 0x0485E.
Definition MSG_GUILD_EVENT_LOG_QUERY : Z := 0x069EC.
Definition MSG_GUILD_PERMISSIONS : Z := 0x0F4C4.

(** ** Data *)

(** [GuildBankRightsAndSlots]. *)
Record RightsAndSlots := mkRights { gb_rights : Z; gb_slots : Z }.
#[export] Instance RightsAndSlots_eq_dec : EqDecision RightsAndSlots.
Proof. solve_decision. Defined.
Definition SetGuildMasterValues : RightsAndSlots := mkRights GUILD_BANK_RIGHT_FULL GUILD_WITHDRAW_SLOT_UNLIMITED.

Record RankInfo := mkRank {
  m_rankId : Z;
  rk_name : list Z;
  m_rights : Z;
  m_bankMoneyPerDay : Z;
  m_bankTabRightsAndSlots : list RightsAndSlots      (* GUILD_BANK_MAX_TABS of them *)
}.
Definition new_rank (rankId : Z) (name : list Z) (rights money : Z) : RankInfo :=
  mkRank rankId name rights money (replicate (Z.to_nat GUILD_BANK_MAX_TABS) (mkRights 0 0)).
Definition set_rank_name (name : list Z) (r : RankInfo) : RankInfo :=
  mkRank (m_rankId r) name (m_rights r) (m_bankMoneyPerDay r) (m_bankTabRightsAndSlots r).
Definition set_rank_rights (rights : Z) (r : RankInfo) : RankInfo :=
  mkRank (m_rankId r) (rk_name r) rights (m_bankMoneyPerDay r) (m_bankTabRightsAndSlots r).
Definition set_rank_money (money : Z) (r : RankInfo) : RankInfo :=
  mkRank (m_rankId r) (rk_name r) (m_rights r) money (m_bankTabRightsAndSlots r).
Definition set_rank_tab (tabId : Z) (x : RightsAndSlots) (r : RankInfo) : RankInfo :=
  mkRank (m_rankId r) (rk_name r) (m_rights r) (m_bankMoneyPerDay r)
    (<[Z.to_nat tabId := x]> (m_bankTabRightsAndSlots r)).
Definition GetBankMoneyPerDay (r : RankInfo) : Z :=
  if m_rankId r =? GR_GUILDMASTER then GUILD_WITHDRAW_MONEY_UNLIMITED else m_bankMoneyPerDay r.
Definition tab_entry (tabId : Z) (r : RankInfo) : RightsAndSlots :=
  nth (Z.to_nat tabId) (m_bankTabRightsAndSlots r) (mkRights 0 0).
Definition GetBankTabRights (tabId : Z) (r : RankInfo) : Z :=
  if tabId <? GUILD_BANK_MAX_TABS then gb_rights (tab_entry tabId r) else 0.
Definition GetBankTabSlotsPerDay (tabId : Z) (r : RankInfo) : Z :=
  if tabId <? GUILD_BANK_MAX_TABS then
    if m_rankId r =? GR_GUILDMASTER then GUILD_WITHDRAW_SLOT_UNLIMITED else gb_slots (tab_entry tabId r)
  else 0.

(** [RemainingValue]: what is left for today, and the minute of the last reset. *)
Record RemainingValue := mkRemaining { rv_value : Z; rv_resetTime : Z }.
Record Profession := mkProfession { pf_skillID : Z; pf_rank : Z; pf_level : Z }.
Definition no_profession : Profession := mkProfession 0 0 0.

Record Member := mkMember {
  mb_guid : Z;
  mb_name : list Z;
  m_zoneId : Z;
  mb_level : Z;
  m_class : Z;
  m_flags : Z;
  m_logoutTime : Z;
  m_accountId : Z;
  mb_rankId : Z;
  m_publicNote : list Z;
  m_officerNote : list Z;
  m_bankRemaining : list RemainingValue;             (* the tabs, then the money *)
  m_achievementPoints : Z;
  professions : list Profession                      (* two *)
}.
Definition set_stats (name : list Z) (zone level class account points : Z) (ps : list Profession) (m : Member) : Member :=
  mkMember (mb_guid m) name zone level class (m_flags m) (m_logoutTime m) account (mb_rankId m)
    (m_publicNote m) (m_officerNote m) (m_bankRemaining m) points ps.
Definition on_flags (f : Z -> Z) (m : Member) : Member :=
  mkMember (mb_guid m) (mb_name m) (m_zoneId m) (mb_level m) (m_class m) (f (m_flags m)) (m_logoutTime m)
    (m_accountId m) (mb_rankId m) (m_publicNote m) (m_officerNote m) (m_bankRemaining m) (m_achievementPoints m)
    (professions m).
Definition set_logoutTime (t : Z) (m : Member) : Member :=
  mkMember (mb_guid m) (mb_name m) (m_zoneId m) (mb_level m) (m_class m) (m_flags m) t
    (m_accountId m) (mb_rankId m) (m_publicNote m) (m_officerNote m) (m_bankRemaining m) (m_achievementPoints m)
    (professions m).
Definition set_member_rank (r : Z) (m : Member) : Member :=
  mkMember (mb_guid m) (mb_name m) (m_zoneId m) (mb_level m) (m_class m) (m_flags m) (m_logoutTime m)
    (m_accountId m) r (m_publicNote m) (m_officerNote m) (m_bankRemaining m) (m_achievementPoints m) (professions m).
Definition set_notes (pnote offnote : list Z) (m : Member) : Member :=
  mkMember (mb_guid m) (mb_name m) (m_zoneId m) (mb_level m) (m_class m) (m_flags m) (m_logoutTime m)
    (m_accountId m) (mb_rankId m) pnote offnote (m_bankRemaining m) (m_achievementPoints m) (professions m).
Definition on_remaining (f : list RemainingValue -> list RemainingValue) (m : Member) : Member :=
  mkMember (mb_guid m) (mb_name m) (m_zoneId m) (mb_level m) (m_class m) (m_flags m) (m_logoutTime m)
    (m_accountId m) (mb_rankId m) (m_publicNote m) (m_officerNote m) (f (m_bankRemaining m)) (m_achievementPoints m)
    (professions m).
Definition AddFlag (var : Z) : Member -> Member := on_flags (fun f => u8 (Z.lor f var)).
Definition RemFlag (var : Z) : Member -> Member := on_flags (fun f => u8 (Z.ldiff f var)).
Definition ResetFlags : Member -> Member := on_flags (fun _ => GUILD_MEMBER_FLAG_OFFLINE).
Definition IsOnline (m : Member) : bool := has_flag (m_flags m) GUILD_MEMBER_FLAG_ONLINE.
Definition IsRank (rankId : Z) (m : Member) : bool := mb_rankId m =? rankId.
Definition IsRankNotLower (rankId : Z) (m : Member) : bool := mb_rankId m <=? rankId.
(** The remaining value of a tab; index GUILD_BANK_MAX_TABS is the money. *)
Definition remaining (tabId : Z) (m : Member) : RemainingValue := nth (Z.to_nat tabId) (m_bankRemaining m) (mkRemaining 0 0).
Definition set_remaining (tabId : Z) (x : RemainingValue) : Member -> Member := on_remaining (insert (Z.to_nat tabId) x).
Definition clear_reset (rv : RemainingValue) : RemainingValue := mkRemaining (rv_value rv) 0.
Definition ResetTabTimes : Member -> Member :=
  on_remaining (fun l => (clear_reset <$> take (Z.to_nat GUILD_BANK_MAX_TABS) l) ++ drop (Z.to_nat GUILD_BANK_MAX_TABS) l).
Definition ResetMoneyTime : Member -> Member := on_remaining (alter clear_reset (Z.to_nat GUILD_BANK_MAX_TABS)).

(** The two kinds of log entries. *)
Record EventLogEntry := mkEventEntry {
  e_guid : Z;
  e_timestamp : Z;
  e_eventType : Z;
  e_playerGuid1 : Z;
  e_playerGuid2 : Z;
  e_newRank : Z
}.
Record BankEventLogEntry := mkBankEntry {
  be_guid : Z;
  be_timestamp : Z;
  be_bankTabId : Z;
  be_eventType : Z;
  be_playerGuid : Z;
  be_itemOrMoney : Z;
  be_itemStackCount : Z;
  be_destTabId : Z
}.
Definition IsMoneyEvent (eventType : Z) : bool :=
  (eventType =? GUILD_BANK_LOG_DEPOSIT_MONEY) || (eventType =? GUILD_BANK_LOG_WITHDRAW_MONEY) ||
  (eventType =? GUILD_BANK_LOG_REPAIR_MONEY).

(** [LogHolder], for entries of either kind. *)
Record LogHolder (A : Type) := mkHolder { m_log : list A; m_maxRecords : Z; m_nextGUID : Z }.
Arguments mkHolder {A}.
Arguments m_log {A}.
Arguments m_maxRecords {A}.
Arguments m_nextGUID {A}.
Definition new_holder {A} (maxRecords : Z) : LogHolder A := mkHolder [] maxRecords GUILD_EVENT_LOG_GUID_UNDEFINED.

(** The name, icon and text of a tab; its items are in [slots] of the store. *)
Record BankTab := mkTab { tb_name : list Z; tb_icon : list Z; tb_text : list Z }.
Record EmblemInfo := mkEmblem {
  m_style : Z; m_color : Z; m_borderStyle : Z; m_borderColor : Z; m_backgroundColor : Z
}.
Record GuildNews := mkNews { n_type : Z; n_timestamp : Z; n_value1 : Z; n_value2 : Z; n_source_guid : Z; n_flags : Z }.

Record Guild := mkGuild {
  m_id : Z;
  m_name : list Z;
  m_leaderGuid : Z;
  m_motd : list Z;
  m_info : list Z;
  m_createdDate : Z;
  m_level : Z;
  m_xp : Z;
  m_nextLevelXP : Z;
  m_today_xp : Z;
  m_xp_cap : Z;
  m_emblemInfo : EmblemInfo;
  m_accountsNumber : Z;
  m_bankMoney : Z;
  m_ranks : list RankInfo;
  m_members : gmap Z Member;
  m_bankTabs : list BankTab;
  m_guild_news : list GuildNews;
  m_lastXPSave : Z;
  m_eventLog : LogHolder EventLogEntry;
  m_bankEventLog : list (LogHolder BankEventLogEntry)
}.
Definition set_leaderGuid (v : Z) (x : Guild) : Guild :=
  mkGuild (m_id x) (m_name x) v (m_motd x) (m_info x) (m_createdDate x) (m_level x) (m_xp x)
    (m_nextLevelXP x) (m_today_xp x) (m_xp_cap x) (m_emblemInfo x) (m_accountsNumber x) (m_bankMoney x)
    (m_ranks x) (m_members x) (m_bankTabs x) (m_guild_news x) (m_lastXPSave x) (m_eventLog x)
    (m_bankEventLog x).
Definition set_motd (v : list Z) (x : Guild) : Guild :=
  mkGuild (m_id x) (m_name x) (m_leaderGuid x) v (m_info x) (m_createdDate x) (m_level x) (m_xp x)
    (m_nextLevelXP x) (m_today_xp x) (m_xp_cap x) (m_emblemInfo x) (m_accountsNumber x) (m_bankMoney x)
    (m_ranks x) (m_members x) (m_bankTabs x) (m_guild_news x) (m_lastXPSave x) (m_eventLog x)
    (m_bankEventLog x).
Definition set_info (v : list Z) (x : Guild) : Guild :=
  mkGuild (m_id x) (m_name x) (m_leaderGuid x) (m_motd x) v (m_createdDate x) (m_level x) (m_xp x)
    (m_nextLevelXP x) (m_today_xp x) (m_xp_cap x) (m_emblemInfo x) (m_accountsNumber x) (m_bankMoney x)
    (m_ranks x) (m_members x) (m_bankTabs x) (m_guild_news x) (m_lastXPSave x) (m_eventLog x)
    (m_bankEventLog x).
Definition set_level (level next : Z) (x : Guild) : Guild :=
  mkGuild (m_id x) (m_name x) (m_leaderGuid x) (m_motd x) (m_info x) (m_createdDate x) level (m_xp x) next
    (m_today_xp x) (m_xp_cap x) (m_emblemInfo x) (m_accountsNumber x) (m_bankMoney x) (m_ranks x)
    (m_members x) (m_bankTabs x) (m_guild_news x) (m_lastXPSave x) (m_eventLog x) (m_bankEventLog x).
Definition set_xp (xp today : Z) (x : Guild) : Guild :=
  mkGuild (m_id x) (m_name x) (m_leaderGuid x) (m_motd x) (m_info x) (m_createdDate x) (m_level x) xp
    (m_nextLevelXP x) today (m_xp_cap x) (m_emblemInfo x) (m_accountsNumber x) (m_bankMoney x) (m_ranks x)
    (m_members x) (m_bankTabs x) (m_guild_news x) (m_lastXPSave x) (m_eventLog x) (m_bankEventLog x).
Definition set_emblem (v : EmblemInfo) (x : Guild) : Guild :=
  mkGuild (m_id x) (m_name x) (m_leaderGuid x) (m_motd x) (m_info x) (m_createdDate x) (m_level x) (m_xp x)
    (m_nextLevelXP x) (m_today_xp x) (m_xp_cap x) v (m_accountsNumber x) (m_bankMoney x) (m_ranks x)
    (m_members x) (m_bankTabs x) (m_guild_news x) (m_lastXPSave x) (m_eventLog x) (m_bankEventLog x).
Definition set_accountsNumber (v : Z) (x : Guild) : Guild :=
  mkGuild (m_id x) (m_name x) (m_leaderGuid x) (m_motd x) (m_info x) (m_createdDate x) (m_level x) (m_xp x)
    (m_nextLevelXP x) (m_today_xp x) (m_xp_cap x) (m_emblemInfo x) v (m_bankMoney x) (m_ranks x)
    (m_members x) (m_bankTabs x) (m_guild_news x) (m_lastXPSave x) (m_eventLog x) (m_bankEventLog x).
Definition on_bankMoney (f : Z -> Z) (x : Guild) : Guild :=
  mkGuild (m_id x) (m_name x) (m_leaderGuid x) (m_motd x) (m_info x) (m_createdDate x) (m_level x) (m_xp x)
    (m_nextLevelXP x) (m_today_xp x) (m_xp_cap x) (m_emblemInfo x) (m_accountsNumber x) (f (m_bankMoney x))
    (m_ranks x) (m_members x) (m_bankTabs x) (m_guild_news x) (m_lastXPSave x) (m_eventLog x)
    (m_bankEventLog x).
Definition on_ranks (f : list RankInfo -> list RankInfo) (x : Guild) : Guild :=
  mkGuild (m_id x) (m_name x) (m_leaderGuid x) (m_motd x) (m_info x) (m_createdDate x) (m_level x) (m_xp x)
    (m_nextLevelXP x) (m_today_xp x) (m_xp_cap x) (m_emblemInfo x) (m_accountsNumber x) (m_bankMoney x)
    (f (m_ranks x)) (m_members x) (m_bankTabs x) (m_guild_news x) (m_lastXPSave x) (m_eventLog x)
    (m_bankEventLog x).
Definition on_members (f : gmap Z Member -> gmap Z Member) (x : Guild) : Guild :=
  mkGuild (m_id x) (m_name x) (m_leaderGuid x) (m_motd x) (m_info x) (m_createdDate x) (m_level x) (m_xp x)
    (m_nextLevelXP x) (m_today_xp x) (m_xp_cap x) (m_emblemInfo x) (m_accountsNumber x) (m_bankMoney x)
    (m_ranks x) (f (m_members x)) (m_bankTabs x) (m_guild_news x) (m_lastXPSave x) (m_eventLog x)
    (m_bankEventLog x).
Definition on_bankTabs (f : list BankTab -> list BankTab) (x : Guild) : Guild :=
  mkGuild (m_id x) (m_name x) (m_leaderGuid x) (m_motd x) (m_info x) (m_createdDate x) (m_level x) (m_xp x)
    (m_nextLevelXP x) (m_today_xp x) (m_xp_cap x) (m_emblemInfo x) (m_accountsNumber x) (m_bankMoney x)
    (m_ranks x) (m_members x) (f (m_bankTabs x)) (m_guild_news x) (m_lastXPSave x) (m_eventLog x)
    (m_bankEventLog x).
Definition on_news (f : list GuildNews -> list GuildNews) (x : Guild) : Guild :=
  mkGuild (m_id x) (m_name x) (m_leaderGuid x) (m_motd x) (m_info x) (m_createdDate x) (m_level x) (m_xp x)
    (m_nextLevelXP x) (m_today_xp x) (m_xp_cap x) (m_emblemInfo x) (m_accountsNumber x) (m_bankMoney x)
    (m_ranks x) (m_members x) (m_bankTabs x) (f (m_guild_news x)) (m_lastXPSave x) (m_eventLog x)
    (m_bankEventLog x).
Definition set_lastXPSave (v : Z) (x : Guild) : Guild :=
  mkGuild (m_id x) (m_name x) (m_leaderGuid x) (m_motd x) (m_info x) (m_createdDate x) (m_level x) (m_xp x)
    (m_nextLevelXP x) (m_today_xp x) (m_xp_cap x) (m_emblemInfo x) (m_accountsNumber x) (m_bankMoney x)
    (m_ranks x) (m_members x) (m_bankTabs x) (m_guild_news x) v (m_eventLog x) (m_bankEventLog x).
Definition on_eventLog (f : LogHolder EventLogEntry -> LogHolder EventLogEntry) (x : Guild) : Guild :=
  mkGuild (m_id x) (m_name x) (m_leaderGuid x) (m_motd x) (m_info x) (m_createdDate x) (m_level x) (m_xp x)
    (m_nextLevelXP x) (m_today_xp x) (m_xp_cap x) (m_emblemInfo x) (m_accountsNumber x) (m_bankMoney x)
    (m_ranks x) (m_members x) (m_bankTabs x) (m_guild_news x) (m_lastXPSave x) (f (m_eventLog x))
    (m_bankEventLog x).
Definition on_bankEventLog (f : list (LogHolder BankEventLogEntry) -> list (LogHolder BankEventLogEntry)) (x : Guild) : Guild :=
  mkGuild (m_id x) (m_name x) (m_leaderGuid x) (m_motd x) (m_info x) (m_createdDate x) (m_level x) (m_xp x)
    (m_nextLevelXP x) (m_today_xp x) (m_xp_cap x) (m_emblemInfo x) (m_accountsNumber x) (m_bankMoney x)
    (m_ranks x) (m_members x) (m_bankTabs x) (m_guild_news x) (m_lastXPSave x) (m_eventLog x)
    (f (m_bankEventLog x)).

(** What a [Player] who is online keeps of his guild. *)
Record GuildPlayer := mkGuildPlayer {
  gp_inWorld : bool;
  gp_guildId : Z;
  gp_rank : Z;
  gp_guildIdInvited : Z
}.
Definition set_gp_inWorld (b : bool) (p : GuildPlayer) : GuildPlayer :=
  mkGuildPlayer b (gp_guildId p) (gp_rank p) (gp_guildIdInvited p).
Definition set_gp_guildId (g : Z) (p : GuildPlayer) : GuildPlayer :=
  mkGuildPlayer (gp_inWorld p) g (gp_rank p) (gp_guildIdInvited p).
Definition set_gp_rank (r : Z) (p : GuildPlayer) : GuildPlayer :=
  mkGuildPlayer (gp_inWorld p) (gp_guildId p) r (gp_guildIdInvited p).
Definition set_gp_invited (g : Z) (p : GuildPlayer) : GuildPlayer :=
  mkGuildPlayer (gp_inWorld p) (gp_guildId p) (gp_rank p) g.

(** An [Item] object, by its GUID; what the bank shows of it. *)
Record Item := mkItem {
  it_entry : Z;
  it_count : Z;
  it_flags : Z;
  it_randomProperty : Z;
  it_suffixFactor : Z;
  it_charges : Z;
  it_enchantments : list (Z * Z)                     (* slot and identifier, those not 0 *)
}.
Definition set_count (n : Z) (i : Item) : Item :=
  mkItem (it_entry i) n (it_flags i) (it_randomProperty i) (it_suffixFactor i) (it_charges i) (it_enchantments i).
Definition on_item_flags (f : Z -> Z) (i : Item) : Item :=
  mkItem (it_entry i) (it_count i) (f (it_flags i)) (it_randomProperty i) (it_suffixFactor i) (it_charges i)
    (it_enchantments i).

(** Where an [Item*] is kept: a slot of a bank tab, or a position in the bags of a
    player ([bag << 8 | slot]). *)
Inductive place := InBank (guild tab slot : Z) | InBags (u pos : Z).
#[export] Instance place_eq_dec : EqDecision place.
Proof. solve_decision. Defined.
#[export] Instance place_countable : Countable place.
Proof.
  refine (inj_countable'
    (fun p => match p with InBank g t s => inl (g, t, s) | InBags u p => inr (u, p) end)
    (fun x => match x with inl (g, t, s) => InBank g t s | inr (u, p) => InBags u p end) _).
  intros []; reflexivity.
Defined.

(** Rows of the tables guild, guild_rank and guild_member. *)
Record GuildRow := mkGuildRow { gr_leader : Z; gr_money : Z }.
Record RankRow := mkRankRow { rr_name : list Z; rr_rights : Z; rr_money : Z }.
Record MemberRow := mkMemberRow { mr_guild : Z; mr_rank : Z }.

Record GuildWorld := mkWorld {
  market : Market;
  GuildStore : gmap Z Guild;
  NextGuildId : Z;
  players : gmap Z GuildPlayer;
  item_store : gmap Z Item;
  slots : gmap place Z;
  next_item : Z;
  t_guild : gmap Z GuildRow;
  t_guild_rank : gmap (Z * Z) RankRow;
  t_guild_member : gmap Z MemberRow;
  t_guild_bank_item : gmap (Z * Z * Z) Z;
  t_item_instance : gmap Z Item;
  t_guild_eventlog : gmap (Z * Z) EventLogEntry;
  t_guild_bank_eventlog : gmap (Z * Z * Z) BankEventLogEntry
}.
Definition set_market (m : Market) (s : GuildWorld) : GuildWorld :=
  mkWorld m (GuildStore s) (NextGuildId s) (players s) (item_store s) (slots s) (next_item s) (t_guild s)
    (t_guild_rank s) (t_guild_member s) (t_guild_bank_item s) (t_item_instance s) (t_guild_eventlog s)
    (t_guild_bank_eventlog s).
Definition on_GuildStore f (s : GuildWorld) : GuildWorld :=
  mkWorld (market s) (f (GuildStore s)) (NextGuildId s) (players s) (item_store s) (slots s) (next_item s)
    (t_guild s) (t_guild_rank s) (t_guild_member s) (t_guild_bank_item s) (t_item_instance s)
    (t_guild_eventlog s) (t_guild_bank_eventlog s).
Definition on_NextGuildId f (s : GuildWorld) : GuildWorld :=
  mkWorld (market s) (GuildStore s) (f (NextGuildId s)) (players s) (item_store s) (slots s) (next_item s)
    (t_guild s) (t_guild_rank s) (t_guild_member s) (t_guild_bank_item s) (t_item_instance s)
    (t_guild_eventlog s) (t_guild_bank_eventlog s).
Definition on_players f (s : GuildWorld) : GuildWorld :=
  mkWorld (market s) (GuildStore s) (NextGuildId s) (f (players s)) (item_store s) (slots s) (next_item s)
    (t_guild s) (t_guild_rank s) (t_guild_member s) (t_guild_bank_item s) (t_item_instance s)
    (t_guild_eventlog s) (t_guild_bank_eventlog s).
Definition on_item_store f (s : GuildWorld) : GuildWorld :=
  mkWorld (market s) (GuildStore s) (NextGuildId s) (players s) (f (item_store s)) (slots s) (next_item s)
    (t_guild s) (t_guild_rank s) (t_guild_member s) (t_guild_bank_item s) (t_item_instance s)
    (t_guild_eventlog s) (t_guild_bank_eventlog s).
Definition on_slots f (s : GuildWorld) : GuildWorld :=
  mkWorld (market s) (GuildStore s) (NextGuildId s) (players s) (item_store s) (f (slots s)) (next_item s)
    (t_guild s) (t_guild_rank s) (t_guild_member s) (t_guild_bank_item s) (t_item_instance s)
    (t_guild_eventlog s) (t_guild_bank_eventlog s).
Definition on_next_item f (s : GuildWorld) : GuildWorld :=
  mkWorld (market s) (GuildStore s) (NextGuildId s) (players s) (item_store s) (slots s) (f (next_item s))
    (t_guild s) (t_guild_rank s) (t_guild_member s) (t_guild_bank_item s) (t_item_instance s)
    (t_guild_eventlog s) (t_guild_bank_eventlog s).
Definition on_t_guild f (s : GuildWorld) : GuildWorld :=
  mkWorld (market s) (GuildStore s) (NextGuildId s) (players s) (item_store s) (slots s) (next_item s)
    (f (t_guild s)) (t_guild_rank s) (t_guild_member s) (t_guild_bank_item s) (t_item_instance s)
    (t_guild_eventlog s) (t_guild_bank_eventlog s).
Definition on_t_guild_rank f (s : GuildWorld) : GuildWorld :=
  mkWorld (market s) (GuildStore s) (NextGuildId s) (players s) (item_store s) (slots s) (next_item s)
    (t_guild s) (f (t_guild_rank s)) (t_guild_member s) (t_guild_bank_item s) (t_item_instance s)
    (t_guild_eventlog s) (t_guild_bank_eventlog s).
Definition on_t_guild_member f (s : GuildWorld) : GuildWorld :=
  mkWorld (market s) (GuildStore s) (NextGuildId s) (players s) (item_store s) (slots s) (next_item s)
    (t_guild s) (t_guild_rank s) (f (t_guild_member s)) (t_guild_bank_item s) (t_item_instance s)
    (t_guild_eventlog s) (t_guild_bank_eventlog s).
Definition on_t_guild_bank_item f (s : GuildWorld) : GuildWorld :=
  mkWorld (market s) (GuildStore s) (NextGuildId s) (players s) (item_store s) (slots s) (next_item s)
    (t_guild s) (t_guild_rank s) (t_guild_member s) (f (t_guild_bank_item s)) (t_item_instance s)
    (t_guild_eventlog s) (t_guild_bank_eventlog s).
Definition on_t_item_instance f (s : GuildWorld) : GuildWorld :=
  mkWorld (market s) (GuildStore s) (NextGuildId s) (players s) (item_store s) (slots s) (next_item s)
    (t_guild s) (t_guild_rank s) (t_guild_member s) (t_guild_bank_item s) (f (t_item_instance s))
    (t_guild_eventlog s) (t_guild_bank_eventlog s).
Definition on_t_guild_eventlog f (s : GuildWorld) : GuildWorld :=
  mkWorld (market s) (GuildStore s) (NextGuildId s) (players s) (item_store s) (slots s) (next_item s)
    (t_guild s) (t_guild_rank s) (t_guild_member s) (t_guild_bank_item s) (t_item_instance s)
    (f (t_guild_eventlog s)) (t_guild_bank_eventlog s).
Definition on_t_guild_bank_eventlog f (s : GuildWorld) : GuildWorld :=
  mkWorld (market s) (GuildStore s) (NextGuildId s) (players s) (item_store s) (slots s) (next_item s)
    (t_guild s) (t_guild_rank s) (t_guild_member s) (t_guild_bank_item s) (t_item_instance s)
    (t_guild_eventlog s) (f (t_guild_bank_eventlog s)).

(** The statements sent to the database; each names its guild where its row does. *)
Inductive guild_statement :=
| InsertGuild (g leader money : Z) (name info motd : list Z) (createdate xp today cap level : Z)
| DeleteGuild (g : Z)
| SetGuildLeader (g leader : Z)
| SetGuildBankMoney (g money : Z)
| SetGuildText (g : Z) (motd : bool) (text : list Z)          (* motd or info *)
| SetGuildEmblem (g : Z) (e : EmblemInfo)
| SaveGuildXP (g xp today cap level : Z)
| InsertNews (g type date value1 value2 source flags : Z)
| InsertRank (g rid : Z) (name : list Z) (rights : Z)
| SetRankName (g rid : Z) (name : list Z)
| SetRankRights (g rid rights : Z)
| SetRankMoney (g rid money : Z)
| DeleteRanks (g : Z)
| DeleteLowestRank (g rid : Z)
| UpdateRankId (g rid rid' : Z)
| UpdateBankRightRank (g rid rid' : Z)
| InsertBankRight (g tab rid : Z) (x : option RightsAndSlots)  (* None: the default values *)
| DeleteBankRight (g tab rid : Z)
| DeleteBankRights (g : Z)
| DeleteBankRightsForRank (g rid : Z)
| InsertMember (g guid rank : Z) (pnote offnote : list Z) (ps : list Profession)
| DeleteMemberRow (guid : Z)
| DeleteMembers (g : Z)
| SetMemberRank (guid rank : Z)
| SetMemberNote (guid : Z) (officer : bool) (note : list Z)
| SetRemaining (g guid tab value : Z)
| SetRemainingTime (g guid tab time value : Z)
| ResetRankTime (g rid tab : Z)
| InsertBankTab (g tab : Z)
| DeleteBankTab (g tab : Z)
| DeleteBankTabs (g : Z)
| SetBankTabInfo (g tab : Z) (name icon : list Z)
| SetBankTabTextRow (g tab : Z) (text : list Z)
| InsertBankItem (g tab slot item : Z)
| DeleteBankItem (g tab slot : Z)
| DeleteBankItems (g : Z)
| SaveItemRow (item : Z) (x : Item)
| DeleteItemRow (item : Z)
| InsertEventLog (g : Z) (e : EventLogEntry)
| DeleteEventLog (g guid : Z)
| DeleteEventLogs (g : Z)
| InsertBankEventLog (g : Z) (e : BankEventLogEntry)
| DeleteBankEventLog (g guid tab : Z)
| DeleteBankEventLogs (g : Z).

(** The hooks of the script manager. *)
Inductive guild_hook :=
| OnGuildCreate | OnGuildDisband | OnGuildAddMember (u rank : Z) | OnGuildRemoveMember (u : Z) (disbanding kicked : bool)
| OnGuildMOTDChanged | OnGuildInfoChanged | OnGuildMemberDepositMoney (u amount : Z)
| OnGuildMemberWitdrawMoney (u amount : Z) (repair : bool)
| OnGuildItemMove (u item : Z) | OnGuildEvent (e : EventLogEntry) | OnGuildBankEvent (e : BankEventLogEntry).

Inductive guild_event :=
| GuildPacket (to : Z) (data : packet)
| GuildQuery (stmt : guild_statement)
| GuildHook (g : Z) (hook : guild_hook)
| InMarket (e : market_event)
| GuildReputation (u amount : Z)
| RemovePetitionsAndSigns (u : Z)
| LearnSpell (u spell : Z)
| RemoveSpell (u spell : Z)
| PlayerGuildLevel (u level : Z)
| GuildEquipError (u error : Z) (item : option Z)
| GuildOnItem (u item : Z)              (* achievements and quests of a stored item *)
| GuildChat (to from : Z) (officer : bool) (msg : list Z) (language : Z)
| GuildRemoveFeignDeath (u : Z)
| GuildOnPlayerChat (u g : Z) (officer : bool) (msg : list Z) (lang : Z)
| GuildLevelEnabled (u : Z)             (* PLAYER_FLAGS_GLEVEL_ENABLED *)
| GuildIdOverflow
| GuildConversionOverflow
| GuildUndefined                        (* past the end of a vector, an empty list *)
| GuildHangs                            (* a loop that does not end *)
| GuildAssertFailed.

Abbreviation GM := (M GuildWorld guild_event).

(** What the code reads of the rest of the server. *)
Record GuildView := mkGuildView {
  mv : MarketView;
  getMSTime : Z;
  CONFIG_GUILD_EVENT_LOG_COUNT : Z;
  CONFIG_GUILD_BANK_EVENT_LOG_COUNT : Z;
  CONFIG_ALLOW_TWO_SIDE_INTERACTION_GUILD : bool;
  CONFIG_GUILD_ADVANCEMENT_ENABLED : bool;
  CONFIG_GUILD_ADVANCEMENT_MAX_LEVEL : Z;
  Guild_AllowMultipleGuildMaster : bool;
  (** Players. *)
  GetName : Z -> list Z;
  getClass : Z -> Z;
  GetZoneId : Z -> Z;
  GetAchievementPoints : Z -> Z;
  GetSkillValue : Z -> Z -> Z;
  GetSessionDbLocaleIndex : Z -> Z;
  HasIgnore : Z -> Z -> bool;
  HasAura : Z -> Z -> bool;
  GetLootGUID : Z -> Z;
  FindPlayerByName : list Z -> option Z;
  (** The spells of primary professions a player knows, each with the value of its
      first skill effect. *)
  profession_spells : Z -> list (Z * option Z);
  GetSpellRank : Z -> Z;
  (** The row of a character: name, level, class, zone, account. *)
  character_row : Z -> option (list Z * Z * Z * Z * Z);
  GetPlayerTeamByGUID : Z -> Z;
  GetZoneIdFromDB : Z -> Z;
  (** The client's and the server's tables. *)
  mGuildXPperLevel : list Z;
  GuildPerksStore : list (option Z);
  GuildRewards : list (Z * Z * Z * Z);               (* price, achievement, standing, item *)
  GetDarkCoreString : Z -> Z -> list Z;
  (** [GetGameObjectIfCanInteractWith] a guild bank; [GetNPCIfCanInteractWith] a
      tabard designer. *)
  guild_bank_near : Z -> Z -> bool;
  tabard_designer_near : Z -> Z -> bool;
  (** Items: the prototype of an entry, and of one item. *)
  GetMaxStackSize : Z -> Z;
  proto_SpellCharges : Z -> Z;
  binds_when_stored : Z -> Z -> bool;
  bag_is_filled : Z -> bool;
  CanBeTradedNow : Z -> bool;
  (** What a random property makes of an entry: its seed and enchantments. *)
  random_properties : Z -> Z -> Z * list (Z * Z);
  (** [Player::CanStoreItem]: for a player, a bag and slot, an item and whether it is
      swapped, the answer and the positions with their counts. *)
  CanStoreItem_at : GuildWorld -> Z -> Z -> Z -> Z -> bool -> Z * list (Z * Z)
}.

(** The order in which a hash table is visited: some order of its elements. *)
Class HashOrder := { hash_list : forall A : Type, gmap Z A -> list (Z * A) }.
Arguments hash_list {_ A}.
Class HashOrderLaws `{HashOrder} : Prop := {
  hash_list_perm : forall A (m : gmap Z A), hash_list m ≡ₚ map_to_list m
}.

(** ** The store *)

Definition with_guild {A} (d : A) (g : Z) (k : Guild -> GM A) : GM A := with_state (fun s =>
  match GuildStore s !! g with Some x => k x | None => ret d end).
Definition upd_guild (g : Z) (f : Guild -> Guild) : GM unit := modify (on_GuildStore (alter f g)).
Definition upd_member (g low : Z) (f : Member -> Member) : GM unit := upd_guild g (on_members (alter f low)).
Definition upd_player (u : Z) (f : GuildPlayer -> GuildPlayer) : GM unit := modify (on_players (alter f u)).
(** The player of a session. *)
Definition with_player (u : Z) (k : GuildPlayer -> GM unit) : GM unit := with_state (fun s =>
  match players s !! u with Some p => k p | None => ret tt end).
(** [sObjectMgr->GetPlayer]. *)
Definition FindPlayer (s : GuildWorld) (u : Z) : option GuildPlayer :=
  match players s !! u with Some p => if gp_inWorld p then Some p else None | None => None end.

(** A program of [Market], run on the market of the server. *)
Definition in_market {A} (m : KM A) : GM A := fun s =>
  let '(a, k, log) := m (market s) in (a, set_market k s, InMarket <$> log).

Definition guild_execute (st : guild_statement) (s : GuildWorld) : GuildWorld :=
  match st with
  | InsertGuild g leader money _ _ _ _ _ _ _ _ =>
      on_t_guild (fun t => match t !! g with None => <[g := mkGuildRow leader money]> t | Some _ => t end) s
  | DeleteGuild g => on_t_guild (delete g) s
  | SetGuildLeader g leader => on_t_guild (alter (fun r => mkGuildRow leader (gr_money r)) g) s
  | SetGuildBankMoney g money => on_t_guild (alter (fun r => mkGuildRow (gr_leader r) money) g) s
  | InsertRank g rid name rights => on_t_guild_rank (fun t =>
      match t !! (g, rid) with None => <[(g, rid) := mkRankRow name rights 0]> t | Some _ => t end) s
  | SetRankName g rid name => on_t_guild_rank (alter (fun r => mkRankRow name (rr_rights r) (rr_money r)) (g, rid)) s
  | SetRankRights g rid rights => on_t_guild_rank (alter (fun r => mkRankRow (rr_name r) rights (rr_money r)) (g, rid)) s
  | SetRankMoney g rid money => on_t_guild_rank (alter (fun r => mkRankRow (rr_name r) (rr_rights r) money) (g, rid)) s
  | DeleteRanks g => on_t_guild_rank (filter (fun p => p.1.1 <> g)) s
  | DeleteLowestRank g rid => on_t_guild_rank (filter (fun p => ~ (p.1.1 = g /\ rid <= p.1.2))) s
  | UpdateRankId g rid rid' => on_t_guild_rank (fun t =>
      match t !! (g, rid), t !! (g, rid') with
      | Some r, None => <[(g, rid') := r]> (delete (g, rid) t)
      | _, _ => t
      end) s
  | InsertMember g guid rank _ _ _ => on_t_guild_member (fun t =>
      match t !! guid with None => <[guid := mkMemberRow g rank]> t | Some _ => t end) s
  | DeleteMemberRow guid => on_t_guild_member (delete guid) s
  | DeleteMembers g => on_t_guild_member (filter (fun p => mr_guild p.2 <> g)) s
  | SetMemberRank guid rank => on_t_guild_member (alter (fun r => mkMemberRow (mr_guild r) rank) guid) s
  | InsertBankItem g tab slot item => on_t_guild_bank_item (fun t =>
      match t !! (g, tab, slot) with None => <[(g, tab, slot) := item]> t | Some _ => t end) s
  | DeleteBankItem g tab slot => on_t_guild_bank_item (delete (g, tab, slot)) s
  | DeleteBankItems g => on_t_guild_bank_item (filter (fun p => p.1.1.1 <> g)) s
  | SaveItemRow item x => on_t_item_instance (insert item x) s
  | DeleteItemRow item => on_t_item_instance (delete item) s
  | InsertEventLog g e => on_t_guild_eventlog (fun t =>
      match t !! (g, e_guid e) with None => <[(g, e_guid e) := e]> t | Some _ => t end) s
  | DeleteEventLog g guid => on_t_guild_eventlog (delete (g, guid)) s
  | DeleteEventLogs g => on_t_guild_eventlog (filter (fun p => p.1.1 <> g)) s
  | InsertBankEventLog g e => on_t_guild_bank_eventlog (fun t =>
      let k := (g, be_guid e, be_bankTabId e) in
      match t !! k with None => <[k := e]> t | Some _ => t end) s
  | DeleteBankEventLog g guid tab => on_t_guild_bank_eventlog (delete (g, guid, tab)) s
  | DeleteBankEventLogs g => on_t_guild_bank_eventlog (filter (fun p => p.1.1.1 <> g)) s
  | SetGuildText _ _ _ | SetGuildEmblem _ _ | SaveGuildXP _ _ _ _ _ | InsertNews _ _ _ _ _ _ _
  | UpdateBankRightRank _ _ _ | InsertBankRight _ _ _ _ | DeleteBankRight _ _ _ | DeleteBankRights _
  | DeleteBankRightsForRank _ _ | SetMemberNote _ _ _ | SetRemaining _ _ _ _ | SetRemainingTime _ _ _ _ _
  | ResetRankTime _ _ _ | InsertBankTab _ _ | DeleteBankTab _ _ | DeleteBankTabs _ | SetBankTabInfo _ _ _ _
  | SetBankTabTextRow _ _ _ => s
  end.
Definition Execute (st : guild_statement) : GM unit := modify (guild_execute st) ;; emit (GuildQuery st).

Section guild.
Context `{!HashOrder} (v : GuildView).

(** ** Answers to the client *)

Definition SendCommandResult (u type errCode : Z) (param : list Z) : GM unit :=
  emit (GuildPacket u (Pkt SMSG_GUILD_COMMAND_RESULT [FU 4 type; FStr param; FU 4 errCode])).

(** ** Logs *)

Definition LoadEvent {A} (GetGUID : A -> Z) (entry : A) (h : LogHolder A) : LogHolder A :=
  mkHolder (entry :: m_log h) (m_maxRecords h)
    (if m_nextGUID h =? GUILD_EVENT_LOG_GUID_UNDEFINED then GetGUID entry else m_nextGUID h).
Definition CanInsert {A} (h : LogHolder A) : bool := Z.of_nat (length (m_log h)) <? m_maxRecords h.
(** The holder after [GetNextGUID]; the identifier is its [m_nextGUID]. *)
Definition GetNextGUID {A} (h : LogHolder A) : LogHolder A :=
  mkHolder (m_log h) (m_maxRecords h)
    (if m_nextGUID h =? GUILD_EVENT_LOG_GUID_UNDEFINED then 0 else u32 (m_nextGUID h + 1) mod m_maxRecords h).
Definition AddEvent {A} (entry : A) (h : LogHolder A) : LogHolder A :=
  mkHolder ((if CanInsert h then m_log h else tail (m_log h)) ++ [entry]) (m_maxRecords h) (m_nextGUID h).

Definition event_save (g : Z) (e : EventLogEntry) : GM unit :=
  Execute (DeleteEventLog g (e_guid e)) ;; Execute (InsertEventLog g e).
Definition bank_event_save (g : Z) (e : BankEventLogEntry) : GM unit :=
  Execute (DeleteBankEventLog g (be_guid e) (be_bankTabId e)) ;; Execute (InsertBankEventLog g e).

(** With room for no record at all the code takes a remainder by 0 or the front of
    an empty list. *)
Definition _LogEvent (g eventType playerGuid1 playerGuid2 newRank : Z) : GM unit := with_guild tt g (fun x =>
  let h := GetNextGUID (m_eventLog x) in
  let e := mkEventEntry (m_nextGUID h) (now (mv v)) eventType playerGuid1 playerGuid2 newRank in
  when (m_maxRecords h =? 0) (emit GuildUndefined) ;;
  upd_guild g (on_eventLog (fun _ => AddEvent e h)) ;;
  event_save g e ;;
  emit (GuildHook g (OnGuildEvent e))).

Definition _LogBankEvent (g eventType tabId lowguid itemOrMoney itemStackCount destTabId : Z) : GM unit :=
  if GUILD_BANK_MAX_TABS <? tabId then ret tt
  else with_guild tt g (fun x =>
    let money := IsMoneyEvent eventType in
    let tab := if money then GUILD_BANK_MAX_TABS else tabId in
    let dbTab := if money then GUILD_BANK_MONEY_LOGS_TAB else tabId in
    let h := GetNextGUID (nth (Z.to_nat tab) (m_bankEventLog x) (new_holder 0)) in
    let e := mkBankEntry (m_nextGUID h) (now (mv v)) dbTab eventType lowguid itemOrMoney itemStackCount destTabId in
    when (m_maxRecords h =? 0) (emit GuildUndefined) ;;
    upd_guild g (on_bankEventLog (insert (Z.to_nat tab) (AddEvent e h))) ;;
    bank_event_save g e ;;
    emit (GuildHook g (OnGuildBankEvent e))).

Definition event_fields (e : EventLogEntry) : list field :=
  [FU 1 (e_eventType e); FU 8 (e_playerGuid1 e)] ++
  (if (e_eventType e =? GUILD_EVENT_LOG_JOIN_GUILD) || (e_eventType e =? GUILD_EVENT_LOG_LEAVE_GUILD) then []
   else [FU 8 (e_playerGuid2 e)]) ++
  (if (e_eventType e =? GUILD_EVENT_LOG_PROMOTE_PLAYER) || (e_eventType e =? GUILD_EVENT_LOG_DEMOTE_PLAYER)
   then [FU 1 (e_newRank e)] else []) ++
  [FU 4 (u32 (now (mv v) - e_timestamp e))].
Definition bank_event_fields (e : BankEventLogEntry) : list field :=
  [FU 1 (be_eventType e); FU 8 (be_playerGuid e)] ++
  (if be_eventType e <? GUILD_BANK_LOG_DEPOSIT_MONEY then
     [FU 4 (be_itemOrMoney e); FU 4 (be_itemStackCount e)] ++
     (if (be_eventType e =? GUILD_BANK_LOG_MOVE_ITEM) || (be_eventType e =? GUILD_BANK_LOG_MOVE_ITEM2)
      then [FU 1 (be_destTabId e)] else [])
   else [FU 8 (be_itemOrMoney e)]) ++
  [FU 4 (u32 (now (mv v) - be_timestamp e))].
Definition log_fields {A} (entry_fields : A -> list field) (h : LogHolder A) : list field :=
  FU 1 (u8 (Z.of_nat (length (m_log h)))) :: concat (entry_fields <$> m_log h).
Definition SendEventLog (u g : Z) : GM unit := with_guild tt g (fun x =>
  emit (GuildPacket u (Pkt MSG_GUILD_EVENT_LOG_QUERY (log_fields event_fields (m_eventLog x))))).

(** ** Ranks *)

Definition _GetRanksSize (x : Guild) : Z := u8 (Z.of_nat (length (m_ranks x))).
Definition _GetLowestRankId (x : Guild) : Z := u8 (Z.of_nat (length (m_ranks x)) - 1).
Definition GetRankInfo (rankId : Z) (x : Guild) : option RankInfo :=
  if rankId <? _GetRanksSize x then m_ranks x !! Z.to_nat rankId else None.
Definition _GetPurchasedTabsSize (x : Guild) : Z := u8 (Z.of_nat (length (m_bankTabs x))).
Definition rank_field {A} (d : A) (f : RankInfo -> A) (rankId : Z) (x : Guild) : A :=
  match GetRankInfo rankId x with Some r => f r | None => d end.
Definition _GetRankName : Z -> Guild -> list Z := rank_field (text "<unknown>") rk_name.
Definition _GetRankRights : Z -> Guild -> Z := rank_field 0 m_rights.
Definition _GetRankBankMoneyPerDay : Z -> Guild -> Z := rank_field 0 GetBankMoneyPerDay.
Definition _GetRankBankTabSlotsPerDay (rankId tabId : Z) (x : Guild) : Z :=
  if tabId <? _GetPurchasedTabsSize x then rank_field 0 (GetBankTabSlotsPerDay tabId) rankId x else 0.
Definition _GetRankBankTabRights (rankId tabId : Z) : Guild -> Z := rank_field 0 (GetBankTabRights tabId) rankId.
(** "has the right": the bits of the right that the rank has are not exactly
    GR_RIGHT_EMPTY. *)
Definition _HasRankRight (x : Guild) (rank right : Z) : bool :=
  negb (Z.land (_GetRankRights rank x) right =? GR_RIGHT_EMPTY).

Definition upd_rank (g rankId : Z) (f : RankInfo -> RankInfo) : GM unit := upd_guild g (on_ranks (alter f (Z.to_nat rankId))).
Definition with_rank (g rankId : Z) (k : RankInfo -> GM unit) : GM unit := with_guild tt g (fun x =>
  match GetRankInfo rankId x with Some r => k r | None => ret tt end).

Definition SetName (g rankId : Z) (name : list Z) : GM unit := with_rank g rankId (fun r =>
  when (negb (bool_decide (rk_name r = name)))
    (upd_rank g rankId (set_rank_name name) ;; Execute (SetRankName g (m_rankId r) name))).
Definition SetRights (g rankId rights0 : Z) : GM unit := with_rank g rankId (fun r =>
  let rights := if m_rankId r =? GR_GUILDMASTER then GR_RIGHT_ALL else rights0 in
  when (negb (m_rights r =? rights))
    (upd_rank g rankId (set_rank_rights rights) ;; Execute (SetRankRights g (m_rankId r) rights))).
Definition SetBankMoneyPerDay (g rankId money0 : Z) : GM unit := with_rank g rankId (fun r =>
  let money := if m_rankId r =? GR_GUILDMASTER then GUILD_WITHDRAW_MONEY_UNLIMITED else money0 in
  when (negb (m_bankMoneyPerDay r =? money))
    (upd_rank g rankId (set_rank_money money) ;;
     Execute (SetRankMoney g (m_rankId r) money) ;;
     Execute (ResetRankTime g (m_rankId r) GUILD_BANK_MAX_TABS))).
Definition SetBankTabSlotsAndRights (g rankId tabId : Z) (x0 : RightsAndSlots) (saveToDB : bool) : GM unit :=
  with_rank g rankId (fun r =>
    let x := if m_rankId r =? GR_GUILDMASTER then SetGuildMasterValues else x0 in
    when (negb (bool_decide (tab_entry tabId r = x)))
      (upd_rank g rankId (set_rank_tab tabId x) ;;
       when saveToDB
         (Execute (DeleteBankRight g tabId (m_rankId r)) ;;
          Execute (InsertBankRight g tabId (m_rankId r) (Some x)) ;;
          Execute (ResetRankTime g (m_rankId r) tabId)))).

Definition on_rank_members (rankId : Z) (f : Member -> Member) : gmap Z Member -> gmap Z Member :=
  fmap (fun m => if IsRank rankId m then f m else m).
Definition _SetRankBankMoneyPerDay (g rankId moneyPerDay : Z) : GM unit := with_rank g rankId (fun _ =>
  upd_guild g (on_members (on_rank_members rankId ResetMoneyTime)) ;;
  SetBankMoneyPerDay g rankId moneyPerDay).
Definition _SetRankBankTabRightsAndSlots (g rankId tabId : Z) (x : RightsAndSlots) (saveToDB : bool) : GM unit :=
  with_guild tt g (fun y =>
    if _GetPurchasedTabsSize y <=? tabId then ret tt
    else with_rank g rankId (fun _ =>
      upd_guild g (on_members (on_rank_members rankId ResetTabTimes)) ;;
      SetBankTabSlotsAndRights g rankId tabId x saveToDB)).

Definition _CreateRank (g : Z) (name : list Z) (rights : Z) : GM unit := with_guild tt g (fun x =>
  if GUILD_RANKS_MAX_COUNT <=? _GetRanksSize x then ret tt
  else
    let newRankId := _GetRanksSize x in
    upd_guild g (on_ranks (fun l => l ++ [new_rank newRankId name rights 0])) ;;
    for_each (seqZ 0 (_GetPurchasedTabsSize x)) (fun i => Execute (InsertBankRight g i newRankId None)) ;;
    Execute (InsertRank g newRankId name rights)).
Definition LANG_GUILD_MASTER : Z := 811.
Definition LANG_GUILD_OFFICER : Z := 812.
Definition LANG_GUILD_VETERAN : Z := 813.
Definition LANG_GUILD_MEMBER : Z := 814.
Definition LANG_GUILD_INITIATE : Z := 815.
Definition _CreateDefaultGuildRanks (g loc : Z) : GM unit :=
  let chat := Z.lor GR_RIGHT_GCHATLISTEN GR_RIGHT_GCHATSPEAK in
  Execute (DeleteRanks g) ;;
  Execute (DeleteBankRights g) ;;
  _CreateRank g (GetDarkCoreString v LANG_GUILD_MASTER loc) GR_RIGHT_ALL ;;
  _CreateRank g (GetDarkCoreString v LANG_GUILD_OFFICER loc) GR_RIGHT_ALL ;;
  _CreateRank g (GetDarkCoreString v LANG_GUILD_VETERAN loc) chat ;;
  _CreateRank g (GetDarkCoreString v LANG_GUILD_MEMBER loc) chat ;;
  _CreateRank g (GetDarkCoreString v LANG_GUILD_INITIATE loc) chat.

(** [SwitchRank] takes 32-bit identifiers and does not look at the number of ranks. *)
Definition SwitchRank (g oldID newID : Z) : GM unit :=
  if (oldID =? GR_GUILDMASTER) || (newID =? GR_GUILDMASTER) then ret tt
  else if oldID =? newID then ret tt
  else if (GUILD_RANKS_MIN_COUNT <? oldID) || (GUILD_RANKS_MIN_COUNT <? newID) then ret tt
  else with_guild tt g (fun x =>
    match m_ranks x !! Z.to_nat oldID, m_ranks x !! Z.to_nat newID with
    | Some old, Some new =>
        upd_guild g (on_ranks (fun l => <[Z.to_nat newID := old]> (<[Z.to_nat oldID := new]> l))) ;;
        Execute (UpdateRankId g oldID 11) ;;
        Execute (UpdateRankId g newID oldID) ;;
        Execute (UpdateRankId g 11 newID) ;;
        Execute (UpdateBankRightRank g oldID 11) ;;
        Execute (UpdateBankRightRank g newID oldID) ;;
        Execute (UpdateBankRightRank g 11 newID)
    | _, _ => emit GuildUndefined
    end).

(** ** Broadcasts *)

Definition GetMember (guid : Z) (x : Guild) : option Member := m_members x !! GUID_LOPART guid.
Definition member_list (x : Guild) : list Member := snd <$> hash_list (m_members x).
(** One packet to every member who is in the world and passes the test. *)
Definition send_members (x : Guild) (test : Member -> bool) (data : packet) : GM unit :=
  for_each (member_list x) (fun m => with_state (fun s =>
    when (test m && bool_decide (is_Some (FindPlayer s (mb_guid m)))) (emit (GuildPacket (mb_guid m) data)))).
Definition BroadcastPacket (g : Z) (data : packet) : GM unit := with_guild tt g (fun x => send_members x (fun _ => true) data).
Definition BroadcastPacketToRank (g rankId : Z) (data : packet) : GM unit :=
  with_guild tt g (fun x => send_members x (IsRank rankId) data).

Definition event_packet (guildEvent guid : Z) (params : list (list Z)) : packet :=
  Pkt SMSG_GUILD_EVENT
    ([FU 1 guildEvent; FU 1 (Z.of_nat (length params))] ++ (FStr <$> params) ++
     (if guid =? 0 then [] else [FU 8 guid])).
Definition _BroadcastEvent (g guildEvent guid : Z) (params : list (list Z)) : GM unit :=
  BroadcastPacket g (event_packet guildEvent guid params).

Definition rank_packet_fields (r : RankInfo) : list field :=
  [FStr (rk_name r); FU 4 (m_rights r)] ++
  ((fun t => FU 4 (gb_rights t)) <$> m_bankTabRightsAndSlots r) ++
  ((fun t => FU 4 (gb_slots t)) <$> m_bankTabRightsAndSlots r) ++
  [FU 4 (m_bankMoneyPerDay r)].
(** To one session, or to everybody. *)
Definition send_to (session : option Z) (g : Z) (data : packet) : GM unit :=
  match session with Some u => emit (GuildPacket u data) | None => BroadcastPacket g data end.
Definition SendGuildRankInfo (session : option Z) (g : Z) : GM unit := with_guild tt g (fun x =>
  send_to session g (Pkt SMSG_GUILD_RANK
    (FU 4 (_GetRanksSize x) ::
     concat (imap (fun i r => [FU 4 (Z.of_nat i); FU 4 (Z.of_nat i)] ++ rank_packet_fields r)
       (take (Z.to_nat (_GetRanksSize x)) (m_ranks x)))))).
Definition SendUpdateRoster (session : option Z) (g : Z) : GM unit :=
  send_to session g (event_packet GE_UPDATE_ROSTER 0 []).

Definition roster_time (m : Member) : Z :=
  if IsOnline m then bits_f32 (f32 0)
  else bits_f32 (f32_div (f32 (u64 (now (mv v) - m_logoutTime m))) (f32 DAY)).
Definition profession_fields (p : Profession) : list field := [FU 4 (pf_level p); FU 4 (pf_skillID p); FU 4 (pf_rank p)].
Definition roster_packet (x : Guild) : packet :=
  let ms := member_list x in
  let n := length ms in
  Pkt SMSG_GUILD_ROSTER
    ([FStr (m_motd x); FU 4 (u32 (Z.of_nat n))] ++
     replicate (n / 8 + 1) (FU 1 0) ++
     ((fun m => FStr (m_publicNote m)) <$> ms) ++
     replicate n (FU 8 0) ++
     [FStr (m_info x)] ++
     ((fun m => FU 1 (m_flags m)) <$> ms) ++
     ((fun m => FU 4 (m_zoneId m)) <$> ms) ++
     replicate n (FU 4 0) ++
     ((fun m => FStr (m_officerNote m)) <$> ms) ++
     replicate n (FU 8 0) ++
     replicate n (FU 1 0) ++
     ((fun m => FU 8 (mb_guid m)) <$> ms) ++
     ((fun m => FU 1 (m_class m)) <$> ms) ++
     ((fun m => FStr (mb_name m)) <$> ms) ++
     replicate n (FU 4 0) ++
     ((fun m => FU 4 (mb_rankId m)) <$> ms) ++
     replicate n (FU 4 0) ++
     ((fun m => FU 1 (mb_level m)) <$> ms) ++
     concat ((fun m => concat (profession_fields <$> professions m)) <$> ms) ++
     replicate n (FU 4 0) ++
     ((fun m => FU 4 (roster_time m)) <$> ms)).
Definition HandleRoster (session : option Z) (g : Z) : GM unit := with_guild tt g (fun x =>
  send_to session g (roster_packet x) ;;
  SendGuildRankInfo session g ;;
  SendUpdateRoster session g).

Definition emblem_fields (e : EmblemInfo) : list field :=
  [FU 4 (m_style e); FU 4 (m_color e); FU 4 (m_borderStyle e); FU 4 (m_borderColor e); FU 4 (m_backgroundColor e)].
Definition HandleQuery (u g : Z) : GM unit := with_guild tt g (fun x =>
  let n := Z.to_nat (_GetRanksSize x) in
  let ids := ((fun i => FU 4 (if (i <? n)%nat then Z.of_nat i else 0)) <$> seq 0 (Z.to_nat GUILD_RANKS_MAX_COUNT)) in
  emit (GuildPacket u (Pkt SMSG_GUILD_QUERY_RESPONSE
    ([FU 8 (MAKE_NEW_GUID (m_id x) 0 HIGHGUID_GUILD); FStr (m_name x)] ++
     ((fun i => match (if (i <? n)%nat then m_ranks x !! i else None) with
                | Some r => FStr (rk_name r)
                | None => FU 1 0
                end) <$> seq 0 (Z.to_nat GUILD_RANKS_MAX_COUNT)) ++
     ids ++ ids ++ emblem_fields (m_emblemInfo x) ++ [FU 4 7])))).
Definition SendInfo (u g : Z) : GM unit := with_guild tt g (fun x =>
  emit (GuildPacket u (Pkt SMSG_GUILD_INFO
    [FStr (m_name x); FU 4 (secsToTimeBitFields (mv v) (m_createdDate x)); FU 4 (u32 (Z.of_nat (size (m_members x))));
     FU 4 (m_accountsNumber x)]))).
Definition news_fields (l : list GuildNews) : list field :=
  [FU 4 (Z.of_nat (length l))] ++ replicate (length l) (FU 4 0) ++
  ((fun n => FU 4 (u32 (getMSTime v - n_timestamp n))) <$> l) ++
  ((fun n => FU 8 (u64 (n_source_guid n))) <$> l) ++
  concat ((fun n => [FU 4 (n_value1 n); FU 4 (n_value2 n)]) <$> l) ++
  ((fun n => FU 4 (n_type n)) <$> l) ++ ((fun n => FU 4 (n_flags n)) <$> l) ++ replicate (length l) (FU 4 0).

(** Guild chat: the members who are in the world, may listen and do not ignore the speaker. *)
Definition BroadcastToGuild (u g : Z) (officerOnly : bool) (msg : list Z) (language : Z) : GM unit :=
  with_player u (fun p => with_guild tt g (fun x =>
    when (_HasRankRight x (gp_rank p) (if officerOnly then GR_RIGHT_OFFCHATSPEAK else GR_RIGHT_GCHATSPEAK))
      (for_each (member_list x) (fun m => with_state (fun s =>
        match FindPlayer s (mb_guid m) with
        | Some q => when (_HasRankRight x (gp_rank q) (if officerOnly then GR_RIGHT_OFFCHATLISTEN else GR_RIGHT_GCHATLISTEN) &&
                          negb (HasIgnore v (mb_guid m) u))
                      (emit (GuildChat (mb_guid m) u officerOnly msg language))
        | None => ret tt
        end))))).

(** ** Members *)

Definition stats_professions (u : Z) (skill_of : option Z -> Z) : list Profession :=
  let known := (fun p => mkProfession (skill_of p.2) (GetSpellRank v p.1) (GetSkillValue v u (skill_of p.2)))
                 <$> take 2 (profession_spells v u) in
  known ++ replicate (2 - length known) no_profession.
(** [SetStats(Player* )]: the [skill] found in the loop is a variable of its own, the
    one that is stored stays 0. *)
Definition SetStats (u : Z) (m : Member) : Member :=
  set_stats (GetName v u) (GetZoneId v u) (u8 (level_of (mv v) u)) (getClass v u) (account_of (mv v) u)
    (GetAchievementPoints v u) (stats_professions u (fun _ => 0)) m.
Definition SetStats_row (name : list Z) (level class zone account : Z) (m : Member) : Member :=
  set_stats name zone level class account (m_achievementPoints m) [no_profession; no_profession] m.
Definition CheckStats (m : Member) : bool :=
  (1 <=? mb_level m) && (CLASS_WARRIOR <=? m_class m) && (m_class m <? MAX_CLASSES).
Definition new_member (guid rankId : Z) : Member :=
  mkMember guid [] 0 0 0 GUILD_MEMBER_FLAG_OFFLINE (now (mv v)) 0 rankId [] []
    (replicate (Z.to_nat (GUILD_BANK_MAX_TABS + 1)) (mkRemaining 0 0)) 0 [no_profession; no_profession].

Definition ChangeRank (g low newRank : Z) : GM unit := with_guild tt g (fun x =>
  match m_members x !! low with
  | None => ret tt
  | Some m =>
      upd_member g low (set_member_rank newRank) ;;
      with_state (fun s => when (bool_decide (is_Some (FindPlayer s (mb_guid m)))) (upd_player (mb_guid m) (set_gp_rank newRank))) ;;
      Execute (SetMemberRank (GUID_LOPART (mb_guid m)) newRank)
  end).

Definition accounts (x : Guild) : gset Z := list_to_set (m_accountId <$> member_list x).
Definition _UpdateAccountsNumber (g : Z) : GM unit := with_guild tt g (fun x =>
  upd_guild g (set_accountsNumber (u32 (Z.of_nat (size (accounts x)))))).
Definition _IsLeader (x : Guild) (u : Z) : bool :=
  (u =? m_leaderGuid x) || match GetMember u x with Some m => IsRank GR_GUILDMASTER m | None => false end.
(** [_SetLeaderGUID] of the member under the key [low]. *)
Definition _SetLeaderGUID (g low : Z) : GM unit := with_guild tt g (fun x =>
  match m_members x !! low with
  | None => ret tt
  | Some m =>
      upd_guild g (set_leaderGuid (mb_guid m)) ;;
      ChangeRank g low GR_GUILDMASTER ;;
      Execute (SetGuildLeader g (GUID_LOPART (mb_guid m)))
  end).
(** [GetMember] by name: the key of the first member who has it. *)
Definition find_member (name : list Z) (x : Guild) : option Z :=
  fst <$> head (filter (fun p => mb_name p.2 = name) (hash_list (m_members x))).

Definition member_professions : Member -> list Profession := professions.
Definition insert_member_row (g : Z) (m : Member) : GM unit :=
  Execute (InsertMember g (GUID_LOPART (mb_guid m)) (mb_rankId m) (m_publicNote m) (m_officerNote m) (member_professions m)).

Definition SetInGuild (u guildId : Z) : GM unit := upd_player u (set_gp_guildId guildId).
Definition learn_perks (u level : Z) : GM unit :=
  for_each (omap id (take (Z.to_nat level) (GuildPerksStore v))) (fun spell => emit (LearnSpell u spell)).
Definition remove_perks (u : Z) : GM unit :=
  for_each (omap id (GuildPerksStore v)) (fun spell => emit (RemoveSpell u spell)).

Definition GetGuildIdFromDB (s : GuildWorld) (guid : Z) : Z :=
  match t_guild_member s !! GUID_LOPART guid with Some r => mr_guild r | None => 0 end.
(** The new member with what is known of him; [None] if there is no such character. *)
Definition joining_member (online : bool) (guid rankId : Z) : option Member :=
  if online then Some (SetStats guid (AddFlag GUILD_MEMBER_FLAG_ONLINE (new_member guid rankId)))
  else match character_row v (GUID_LOPART guid) with
       | Some (name, level, class, zone, account) =>
           let m := SetStats_row name level class zone account (ResetFlags (new_member guid rankId)) in
           if CheckStats m then Some m else None
       | None => None
       end.
Definition AddMember (g guid rankId0 : Z) : GM bool := with_guild false g (fun x => with_state (fun s =>
  let player := FindPlayer s guid in
  let guildId := match player with Some p => gp_guildId p | None => GetGuildIdFromDB s guid end in
  if negb (guildId =? 0) then ret false
  else
    let low := GUID_LOPART guid in
    let rankId := if rankId0 =? GUILD_RANK_NONE then _GetLowestRankId x else rankId0 in
    let online := bool_decide (is_Some player) in
    emit (RemovePetitionsAndSigns guid) ;;
    match joining_member online guid rankId with
    | None => ret false
    | Some m =>
        when online (learn_perks guid (m_level x)) ;;
        upd_guild g (on_members (insert low m)) ;;
        with_guild tt g (fun x1 => when (1 <? Z.of_nat (size (m_members x1))) (HandleRoster None g)) ;;
        insert_member_row g m ;;
        when online
          (SetInGuild guid g ;; upd_player guid (set_gp_rank rankId) ;; upd_player guid (set_gp_invited 0)) ;;
        _UpdateAccountsNumber g ;;
        emit (GuildHook g (OnGuildAddMember guid rankId)) ;;
        ret true
    end)).

(** ** Leaving *)

(** The part of [DeleteMember] that takes the member out. *)
Definition remove_member (g guid : Z) (isDisbanding isKicked : bool) : GM unit := with_state (fun s =>
  let low := GUID_LOPART guid in
  let player := bool_decide (is_Some (FindPlayer s guid)) in
  emit (GuildHook g (OnGuildRemoveMember guid isDisbanding isKicked)) ;;
  upd_guild g (on_members (delete low)) ;;
  with_guild tt g (fun x => when (negb (bool_decide (m_members x = ∅))) (HandleRoster None g)) ;;
  when player (SetInGuild guid 0 ;; upd_player guid (set_gp_rank 0) ;; remove_perks guid) ;;
  Execute (DeleteMemberRow low) ;;
  when (negb isDisbanding) (_UpdateAccountsNumber g)).

(** The loop of [Disband]: the first member is deleted until none is left. *)
Fixpoint delete_all (fuel : nat) (g : Z) : GM unit := with_guild tt g (fun x =>
  match hash_list (m_members x), fuel with
  | [], _ => ret tt
  | _, O => emit GuildHangs
  | p :: _, S fuel' => remove_member g (mb_guid p.2) true false ;; delete_all fuel' g
  end).

Definition tab_slots : list Z := seqZ 0 GUILD_BANK_MAX_SLOTS.
Definition delete_slot (g tab : Z) (removeItemsFromDB : bool) (slot : Z) : GM unit := with_state (fun s =>
  match slots s !! InBank g tab slot with
  | None => ret tt
  | Some i =>
      when removeItemsFromDB (Execute (DeleteItemRow i)) ;;
      modify (on_item_store (delete i)) ;;
      modify (on_slots (delete (InBank g tab slot)))
  end).
(** The tabs are deleted with their items. *)
Definition _DeleteBankItems (g : Z) (removeItemsFromDB : bool) : GM unit := with_guild tt g (fun x =>
  for_each (seqZ 0 (_GetPurchasedTabsSize x)) (fun tab => for_each tab_slots (delete_slot g tab removeItemsFromDB)) ;;
  upd_guild g (on_bankTabs (fun _ => []))).

Definition Disband (g : Z) : GM unit := with_guild tt g (fun x =>
  emit (GuildHook g OnGuildDisband) ;;
  _BroadcastEvent g GE_DISBANDED 0 [] ;;
  delete_all (size (m_members x)) g ;;
  Execute (DeleteGuild g) ;;
  Execute (DeleteRanks g) ;;
  Execute (DeleteBankTabs g) ;;
  _DeleteBankItems g true ;;
  Execute (DeleteBankItems g) ;;
  Execute (DeleteBankRights g) ;;
  Execute (DeleteBankEventLogs g) ;;
  Execute (DeleteEventLogs g) ;;
  modify (on_GuildStore (delete g))).

(** The member who takes over: the first with the lowest rank identifier. *)
Fixpoint heir (low : Z) (l : list (Z * Member)) (best : option (Z * Member)) : option (Z * Member) :=
  match l with
  | [] => best
  | p :: l' =>
      heir low l'
        (if p.1 =? low then best
         else match best with
              | Some b => if mb_rankId p.2 <? mb_rankId b.2 then Some p else best
              | None => Some p
              end)
  end.
Definition DeleteMember (g guid : Z) (isDisbanding isKicked : bool) : GM unit := with_guild tt g (fun x =>
  if (m_leaderGuid x =? guid) && negb isDisbanding then
    match heir (GUID_LOPART guid) (hash_list (m_members x)) None with
    | None => Disband g
    | Some (low, m) =>
        _SetLeaderGUID g low ;;
        with_state (fun s => when (bool_decide (is_Some (FindPlayer s (mb_guid m)))) (upd_player (mb_guid m) (set_gp_rank GR_GUILDMASTER))) ;;
        match m_members x !! GUID_LOPART guid with
        | Some old =>
            _BroadcastEvent g GE_LEADER_CHANGED 0 [mb_name old; mb_name m] ;;
            _BroadcastEvent g GE_LEFT guid [mb_name old]
        | None => ret tt
        end ;;
        remove_member g guid isDisbanding isKicked
    end
  else remove_member g guid isDisbanding isKicked).

Definition ChangeMemberRank (g guid newRank : Z) : GM bool := with_guild false g (fun x =>
  if newRank <=? _GetLowestRankId x then
    match GetMember guid x with
    | Some _ => ChangeRank g (GUID_LOPART guid) newRank ;; ret true
    | None => ret false
    end
  else ret false).

(** ** Founding *)

(** [toupper] of the C locale. *)
Definition ascii_upper (s : list Z) : list Z := (fun c => if (97 <=? c) && (c <=? 122) then c - 32 else c) <$> s.
Definition GetGuildByName (guildName : list Z) (s : GuildWorld) : option Z :=
  fst <$> head (filter (fun p => ascii_upper (m_name p.2) = ascii_upper guildName) (hash_list (GuildStore s))).
Definition GetGuildByLeader (guid : Z) (s : GuildWorld) : option Z :=
  fst <$> head (filter (fun p => m_leaderGuid p.2 = guid) (hash_list (GuildStore s))).
(** A server whose identifiers run out is stopped. *)
Definition GenerateGuildId : GM Z := with_state (fun s =>
  when (0xFFFFFFFE <=? NextGuildId s) (emit GuildIdOverflow) ;;
  modify (on_NextGuildId (fun n => u32 (n + 1))) ;;
  ret (NextGuildId s)).

Definition GetXPForGuildLevel (level : Z) : Z := nth (Z.to_nat level) (mGuildXPperLevel v) 0.
Definition xp_cap (level xp : Z) : Z :=
  let baseXP := GetXPForGuildLevel level in
  let diff := u64 (baseXP * 15) / 100 in
  if diff <? baseXP then u64 (diff + xp) else baseXP.
Definition no_emblem : EmblemInfo := mkEmblem 0 0 0 0 0.
Definition new_guild (id leader : Z) (name : list Z) : Guild :=
  mkGuild id name leader (text "No message set.") [] (now (mv v)) 1 0 (GetXPForGuildLevel 1) 0 (xp_cap 1 0) no_emblem
    0 0 [] ∅ [] [] 0 (new_holder (CONFIG_GUILD_EVENT_LOG_COUNT v))
    (replicate (Z.to_nat (GUILD_BANK_MAX_TABS + 1)) (new_holder (CONFIG_GUILD_BANK_EVENT_LOG_COUNT v))).
(** [Create] and [AddGuild]: the number of the guild, if it could be founded.  The
    object is in the store from the start, and taken out again otherwise; nothing looks
    for it in between. *)
Definition CreateGuild (u : Z) (name : list Z) : GM (option Z) := with_state (fun s =>
  match GetGuildByName name s with
  | Some _ => ret None
  | None =>
      let! g := GenerateGuildId in
      let x := new_guild g u name in
      modify (on_GuildStore (insert g x)) ;;
      Execute (DeleteMembers g) ;;
      Execute (InsertGuild g (GUID_LOPART u) 0 name (m_info x) (m_motd x) (m_createdDate x) 0 0 (m_xp_cap x) 1) ;;
      emit (GuildReputation u 1) ;;
      _CreateDefaultGuildRanks g (GetSessionDbLocaleIndex v u) ;;
      let! ok := AddMember g u GR_GUILDMASTER in
      if ok then emit (GuildHook g OnGuildCreate) ;; ret (Some g)
      else modify (on_GuildStore (delete g)) ;; ret None
  end).

(** ** Experience *)

Definition xp_packet (x : Guild) : packet :=
  Pkt SMSG_GUILD_XP_UPDATE
    [FU 8 (m_xp_cap x); FU 8 (m_nextLevelXP x); FU 8 (m_xp_cap x); FU 8 (m_xp x); FU 8 (m_today_xp x)].
Definition LevelUp (g : Z) : GM unit := with_guild tt g (fun x =>
  when (CONFIG_GUILD_ADVANCEMENT_ENABLED v)
    (let level := u8 (m_level x + 1) in
     upd_guild g (set_level level (GetXPForGuildLevel level)) ;;
     with_guild tt g (fun x1 =>
       let spell := match nth_error (GuildPerksStore v) (Z.to_nat (level - 1)) with Some (Some sp) => sp | _ => 0 end in
       for_each (member_list x1) (fun m => with_state (fun s =>
         match FindPlayer s (mb_guid m) with
         | Some _ =>
             emit (PlayerGuildLevel (mb_guid m) level) ;;
             emit (GuildPacket (mb_guid m) (xp_packet x1)) ;;
             when (negb (spell =? 0)) (emit (LearnSpell (mb_guid m) spell))
         | None => ret tt
         end))))).

Definition SaveXP (g : Z) : GM unit := with_guild tt g (fun x =>
  when (60000 <=? u32 (getMSTime v - m_lastXPSave x))
    (upd_guild g (set_lastXPSave (getMSTime v)) ;;
     Execute (SaveGuildXP g (m_xp x) (m_today_xp x) (m_xp_cap x) (m_level x)))).

Definition AddGuildNews (g type source_guild value1 value2 flags : Z) : GM unit := with_guild tt g (fun x =>
  Execute (InsertNews g type (u8 (getMSTime v)) value1 value2 (u8 source_guild) (u64 flags)) ;;
  send_members x (fun _ => true) (Pkt SMSG_GUILD_NEWS_UPDATE
    [FU 4 1; FU 4 0; FU 4 0; FU 8 source_guild; FU 4 value1; FU 4 value2; FU 4 type; FU 4 0; FU 4 0]) ;;
  upd_guild g (on_news (fun l => l ++ [mkNews type (getMSTime v) value1 value2 source_guild flags]))).

(** The loop of [GainXP]: the experience and the level that are left. *)
Fixpoint gain_loop (fuel : nat) (g level new_xp : Z) : GM (Z * Z) := with_guild (new_xp, level) g (fun x =>
  if (m_nextLevelXP x <=? new_xp) && (level <? CONFIG_GUILD_ADVANCEMENT_MAX_LEVEL v) then
    match fuel with
    | O => emit GuildHangs ;; ret (new_xp, level)
    | S fuel' => LevelUp g ;; gain_loop fuel' g (u8 (level + 1)) (u64 (new_xp - m_nextLevelXP x))
    end
  else ret (new_xp, level)).
Definition GainXP (g xp : Z) : GM unit := with_guild tt g (fun x =>
  if xp =? 0 then ret tt
  else if negb (CONFIG_GUILD_ADVANCEMENT_ENABLED v) then ret tt
  else if CONFIG_GUILD_ADVANCEMENT_MAX_LEVEL v <=? m_level x then ret tt
  else if m_xp_cap x <? u64 (m_xp x + xp) then ret tt
  else
    let! (new_xp, level) := gain_loop 256 g (m_level x) (u64 (m_xp x + xp)) in
    upd_guild g (fun y => set_xp new_xp (u64 (m_today_xp y + xp)) y) ;;
    SaveXP g ;;
    with_guild tt g (fun y =>
      AddGuildNews g GUILD_NEWS_GUILD_LEVEL_REACHED 0 level 0 0 ;;
      send_members y (fun _ => true) (xp_packet y))).

(** ** Commands of the members *)

Definition denied (u type : Z) : GM unit := SendCommandResult u type ERR_GUILD_PERMISSIONS [].

Definition HandleSetMOTD (u g : Z) (motd : list Z) : GM unit := with_player u (fun p => with_guild tt g (fun x =>
  if bool_decide (m_motd x = motd) then ret tt
  else if negb (_HasRankRight x (gp_rank p) GR_RIGHT_SETMOTD) then denied u GUILD_INVITE_S
  else
    upd_guild g (set_motd motd) ;;
    emit (GuildHook g OnGuildMOTDChanged) ;;
    Execute (SetGuildText g true motd) ;;
    _BroadcastEvent g GE_MOTD 0 [motd])).
Definition HandleSetInfo (u g : Z) (info : list Z) : GM unit := with_player u (fun p => with_guild tt g (fun x =>
  if bool_decide (m_info x = info) then ret tt
  else if negb (_HasRankRight x (gp_rank p) GR_RIGHT_MODIFY_GUILD_INFO) then denied u GUILD_CREATE_S
  else
    upd_guild g (set_info info) ;;
    emit (GuildHook g OnGuildInfoChanged) ;;
    Execute (SetGuildText g false info))).

Definition HandleSetLeader (u g : Z) (name : list Z) : GM unit := with_guild tt g (fun x =>
  if negb (_IsLeader x u) then denied u GUILD_INVITE_S
  else match GetMember u x with
  | None => denied u GUILD_INVITE_S
  | Some _ =>
      match find_member name x with
      | None => SendCommandResult u GUILD_INVITE_S ERR_GUILD_PLAYER_NOT_IN_GUILD_S name
      | Some low =>
          _SetLeaderGUID g low ;;
          ChangeRank g (GUID_LOPART u) GR_OFFICER ;;
          _BroadcastEvent g GE_LEADER_CHANGED 0 [GetName v u; name]
      end
  end).

Definition set_note (g guid : Z) (officer : bool) (note : list Z) (m : Member) : GM unit :=
  if bool_decide ((if officer then m_officerNote m else m_publicNote m) = note) then ret tt
  else
    upd_member g (GUID_LOPART guid) (if officer then set_notes (m_publicNote m) note else set_notes note (m_officerNote m)) ;;
    Execute (SetMemberNote (GUID_LOPART (mb_guid m)) officer note).
Definition HandleSetMemberNote (u g guid : Z) (note : list Z) (officer : bool) : GM unit :=
  with_player u (fun p => with_guild tt g (fun x =>
    if negb (_HasRankRight x (gp_rank p) (if officer then GR_RIGHT_EOFFNOTE else GR_RIGHT_EPNOTE)) then denied u GUILD_INVITE_S
    else match GetMember guid x with
         | None => ret tt
         | Some m => set_note g guid officer note m ;; HandleRoster (Some u) g
         end)).

Definition invite_guild_packet (u invitee : Z) (x : Guild) : packet :=
  Pkt SMSG_GUILD_INVITE
    [FU 4 0; FU 4 0; FU 4 0; FU 4 0; FU 8 u; FStr (GetName v invitee); FStr (GetName v u); FU 4 0; FU 4 0;
     FU 8 (MAKE_NEW_GUID (m_id x) 0 HIGHGUID_GUILD); FStr (m_name x)].
Definition HandleInviteMember (u g : Z) (name : list Z) : GM unit := with_player u (fun p => with_guild tt g (fun x => with_state (fun s =>
  let err e param := SendCommandResult u GUILD_INVITE_S e param in
  match FindPlayerByName v name with
  | None => err ERR_GUILD_PLAYER_NOT_FOUND_S name
  | Some invitee =>
      match players s !! invitee with
      | None => err ERR_GUILD_PLAYER_NOT_FOUND_S name
      | Some q =>
          if HasIgnore v invitee u then ret tt
          else if negb (CONFIG_ALLOW_TWO_SIDE_INTERACTION_GUILD v) && negb (team_of (mv v) invitee =? team_of (mv v) u) then
            err ERR_GUILD_NOT_ALLIED name
          else if negb (gp_guildId q =? 0) then err ERR_ALREADY_IN_GUILD_S name
          else if negb (gp_guildIdInvited q =? 0) then err ERR_ALREADY_INVITED_TO_GUILD_S name
          else if negb (_HasRankRight x (gp_rank p) GR_RIGHT_INVITE) then denied u GUILD_INVITE_S
          else
            upd_player invitee (set_gp_invited (m_id x)) ;;
            _LogEvent g GUILD_EVENT_LOG_INVITE_PLAYER (GUID_LOPART u) (GUID_LOPART invitee) 0 ;;
            emit (GuildPacket invitee (invite_guild_packet u invitee x))
      end
  end))).

Definition HandleAcceptMember (u g : Z) : GM unit := with_guild tt g (fun x =>
  if negb (CONFIG_ALLOW_TWO_SIDE_INTERACTION_GUILD v) &&
     negb (team_of (mv v) u =? GetPlayerTeamByGUID v (m_leaderGuid x)) then ret tt
  else
    let! ok := AddMember g u GUILD_RANK_NONE in
    when ok
      (_LogEvent g GUILD_EVENT_LOG_JOIN_GUILD (GUID_LOPART u) 0 0 ;;
       _BroadcastEvent g GE_JOINED u [GetName v u] ;;
       emit (GuildReputation u 1))).

Definition HandleLeaveMember (u g : Z) : GM unit := with_guild tt g (fun x =>
  if _IsLeader x u then
    if 1 <? Z.of_nat (size (m_members x)) then SendCommandResult u GUILD_QUIT_S ERR_GUILD_LEADER_LEAVE []
    else Disband g
  else
    DeleteMember g u false false ;;
    _LogEvent g GUILD_EVENT_LOG_LEAVE_GUILD (GUID_LOPART u) 0 0 ;;
    _BroadcastEvent g GE_LEFT u [GetName v u] ;;
    emit (GuildReputation u (-1)) ;;
    SendCommandResult u GUILD_QUIT_S ERR_PLAYER_NO_MORE_IN_GUILD (m_name x)).

Definition HandleRemoveMember (u g guid : Z) : GM unit := with_player u (fun p => with_guild tt g (fun x =>
  if negb (_HasRankRight x (gp_rank p) GR_RIGHT_REMOVE) then denied u GUILD_INVITE_S
  else match GetMember guid x with
  | None => ret tt
  | Some m =>
      if IsRank GR_GUILDMASTER m then SendCommandResult u GUILD_QUIT_S ERR_GUILD_LEADER_LEAVE []
      else if IsRankNotLower (gp_rank p) m then SendCommandResult u GUILD_QUIT_S ERR_GUILD_RANK_TOO_HIGH_S (mb_name m)
      else
        DeleteMember g guid false true ;;
        _LogEvent g GUILD_EVENT_LOG_UNINVITE_PLAYER (GUID_LOPART u) (GUID_LOPART guid) 0 ;;
        _BroadcastEvent g GE_REMOVED 0 [mb_name m; GetName v u] ;;
        emit (GuildReputation u (-1))
  end)).

(** The refusal of a promotion or demotion. *)
Definition rank_refused (u : Z) (p : GuildPlayer) (x : Guild) (m : Member) (demote : bool) : option (Z * list Z) :=
  if mb_guid m =? u then Some (ERR_GUILD_NAME_INVALID, [])
  else if demote then
    if IsRankNotLower (gp_rank p) m then Some (ERR_GUILD_RANK_TOO_HIGH_S, mb_name m)
    else if _GetLowestRankId x <=? mb_rankId m then Some (ERR_GUILD_RANK_TOO_LOW_S, mb_name m)
    else None
  else if IsRankNotLower (u8 (gp_rank p + 1)) m then Some (ERR_GUILD_RANK_TOO_HIGH_S, mb_name m)
  else None.
Definition HandleUpdateMemberRank (u g guid : Z) (demote : bool) : GM unit := with_player u (fun p => with_guild tt g (fun x =>
  if negb (_HasRankRight x (gp_rank p) (if demote then GR_RIGHT_DEMOTE else GR_RIGHT_PROMOTE)) then denied u GUILD_INVITE_S
  else match GetMember guid x with
  | None => ret tt
  | Some m =>
      match rank_refused u p x m demote with
      | Some (error, param) => SendCommandResult u GUILD_INVITE_S error param
      | None =>
          let newRankId := u8 (mb_rankId m + (if demote then 1 else -1)) in
          ChangeRank g (GUID_LOPART guid) newRankId ;;
          _LogEvent g (if demote then GUILD_EVENT_LOG_DEMOTE_PLAYER else GUILD_EVENT_LOG_PROMOTE_PLAYER)
            (GUID_LOPART u) (GUID_LOPART (mb_guid m)) newRankId ;;
          _BroadcastEvent g (if demote then GE_DEMOTION else GE_PROMOTION) 0
            [GetName v u; mb_name m; _GetRankName newRankId x] ;;
          HandleRoster None g
      end
  end)).

Definition HandleAddNewRank (u g : Z) (name : list Z) : GM unit := with_guild tt g (fun x =>
  if GUILD_RANKS_MAX_COUNT <=? _GetRanksSize x then ret tt
  else if negb (_IsLeader x u) then denied u GUILD_INVITE_S
  else
    _CreateRank g name (Z.lor GR_RIGHT_GCHATLISTEN GR_RIGHT_GCHATSPEAK) ;;
    HandleQuery u g ;;
    HandleRoster None g).
Definition HandleRemoveRank (u g rankId : Z) : GM unit := with_guild tt g (fun x =>
  if (_GetRanksSize x <=? GUILD_RANKS_MIN_COUNT) || (_GetRanksSize x <=? rankId) then ret tt
  else if negb (_IsLeader x u) then denied u GUILD_INVITE_S
  else
    Execute (DeleteBankRightsForRank g rankId) ;;
    Execute (DeleteLowestRank g rankId) ;;
    upd_guild g (on_ranks (delete (Z.to_nat rankId))) ;;
    HandleQuery u g ;;
    HandleRoster None g).

Definition HandleDisband (u g : Z) : GM unit := with_guild tt g (fun x =>
  if negb (_IsLeader x u) then denied u GUILD_INVITE_S else Disband g).

Definition HandleMemberLogout (u g : Z) : GM unit := with_guild tt g (fun x =>
  match GetMember u x with
  | Some _ => upd_member g (GUID_LOPART u) (fun m => ResetFlags (set_logoutTime (now (mv v)) (SetStats u m)))
  | None => ret tt
  end ;;
  _BroadcastEvent g GE_SIGNED_OFF u [GetName v u]).

(** [UpdateMemberData]: the zone, the points, the level or the professions. *)
Definition GUILD_MEMBER_DATA_ZONEID : Z := 0.
Definition GUILD_MEMBER_DATA_ACHIEVEMENT_POINTS : Z := 1.
Definition GUILD_MEMBER_DATA_LEVEL : Z := 2.
Definition GUILD_MEMBER_DATA_PROFESSIONS : Z := 3.
Definition member_data (u dataid value : Z) (m : Member) : Member :=
  let stats zone level points ps := set_stats (mb_name m) zone level (m_class m) (m_accountId m) points ps m in
  if dataid =? GUILD_MEMBER_DATA_ZONEID then stats value (mb_level m) (m_achievementPoints m) (professions m)
  else if dataid =? GUILD_MEMBER_DATA_ACHIEVEMENT_POINTS then stats (m_zoneId m) (mb_level m) value (professions m)
  else if dataid =? GUILD_MEMBER_DATA_LEVEL then stats (m_zoneId m) (u8 value) (m_achievementPoints m) (professions m)
  else if dataid =? GUILD_MEMBER_DATA_PROFESSIONS then
    stats (m_zoneId m) (mb_level m) (m_achievementPoints m) (stats_professions u (default 0))
  else m.
Definition UpdateMemberData (u g dataid value : Z) : GM unit := upd_member g (GUID_LOPART u) (member_data u dataid value).
Definition OnPlayerStatusChange (u g flag : Z) (state : bool) : GM unit :=
  upd_member g (GUID_LOPART u) (if state then AddFlag (u8 flag) else RemFlag (u8 flag)).

(** ** After loading *)

Definition LoadEventLogFromDB (e : EventLogEntry) (h : LogHolder EventLogEntry) : LogHolder EventLogEntry :=
  if CanInsert h then LoadEvent e_guid e h else h.

Definition ranks_broken (x : Guild) : bool :=
  (_GetRanksSize x <? GUILD_RANKS_MIN_COUNT) || (GUILD_RANKS_MAX_COUNT <? _GetRanksSize x) ||
  negb (forallb (fun p => m_rankId p.2 =? Z.of_nat p.1) (imap pair (m_ranks x))).
(** One member at a time, in the order of the table. *)
Definition for_members (g : Z) (f : Z -> Member -> GM unit) : GM unit := with_guild tt g (fun x =>
  for_each (hash_list (m_members x)) (fun p => with_guild tt g (fun y =>
    match m_members y !! p.1 with Some m => f p.1 m | None => ret tt end))).
(** A guild without its leader and without members is disbanded twice by the code;
    the second time changes nothing. *)
Definition Validate (g : Z) : GM bool := with_guild false g (fun x =>
  when (ranks_broken x)
    (upd_guild g (on_ranks (fun _ => [])) ;; _CreateDefaultGuildRanks g 0) ;;
  for_members g (fun low m => with_guild tt g (fun y =>
    when (_GetRanksSize y <? mb_rankId m) (ChangeRank g low (_GetLowestRankId y)))) ;;
  let! alive := with_guild true g (fun y =>
    match GetMember (m_leaderGuid y) y with
    | None =>
        DeleteMember g (m_leaderGuid y) false false ;;
        with_guild false g (fun z =>
          if bool_decide (m_members z = ∅) then Disband g ;; ret false else ret true)
    | Some m =>
        when (negb (IsRank GR_GUILDMASTER m)) (_SetLeaderGUID g (GUID_LOPART (m_leaderGuid y))) ;; ret true
    end) in
  if alive : bool then
    when (negb (Guild_AllowMultipleGuildMaster v))
      (for_members g (fun low m => with_guild tt g (fun y =>
        when (IsRank GR_GUILDMASTER m && negb (mb_guid m =? m_leaderGuid y)) (ChangeRank g low GR_OFFICER)))) ;;
    _UpdateAccountsNumber g ;;
    ret true
  else ret false).
End guild.
