(* ===== verification/GuildBank.v ===== *)
(** * Guilds: the bank

    The bank of game/Guilds/Guild.cpp: the money with the limits of the ranks, the
    tabs, the rights to them, and the moves of items between tabs and bags, with the
    part of Player.cpp that stores an item in the bags.  Which positions of the bags
    can take an item ([Player::CanStoreItem]) is asked of the view. *)
From Stdlib Require Import SpecFloat.
From S2P Require Import Prelude Text ByteBuffer Market Guild.

Definition MSG_SAVE_GUILD_EMBLEM : Z := 0x031AC.
Definition SMSG_GUILD_BANK_LIST : Z := 0x0A6A8.
Definition MSG_GUILD_BANK_LOG_QUERY : Z := 0x0F584.
Definition MSG_GUILD_BANK_MONEY_WITHDRAWN : Z := 0x06CE4.
Definition MSG_QUERY_GUILD_BANK_TEXT : Z := 0x0A2C4.
Definition ERR_GUILDEMBLEM_SUCCESS : Z := 0.
Definition ERR_GUILDEMBLEM_NOGUILD : Z := 2.
Definition ERR_GUILDEMBLEM_NOTGUILDMASTER : Z := 3.
Definition ERR_GUILDEMBLEM_NOTENOUGHMONEY : Z := 4.
Definition ERR_GUILDEMBLEM_INVALIDVENDOR : Z := 5.

Definition GOLD : Z := 10000.
Definition EMBLEM_PRICE : Z := 10 * GOLD.
Definition MAX_GUILD_BANK_TAB_TEXT_LEN : Z := 500.
Definition _GetGuildBankTabPrice (tabId : Z) : Z :=
  if tabId =? 0 then 100 else if tabId =? 1 then 250 else if tabId =? 2 then 500 else if tabId =? 3 then 1000
  else if tabId =? 4 then 2500 else if tabId =? 5 then 5000 else 0.

Definition EQUIP_ERR_OK : Z := 0.
Definition NULL_BAG : Z := 0.
Definition NULL_SLOT : Z := 255.
Definition ITEM_FLAG_SOULBOUND : Z := 0x00000001.

Section bank.
Context `{!Utf8Lib} `{!HashOrder} (v : GuildView).

Definition SendSaveEmblemResult (u errCode : Z) : GM unit := emit (GuildPacket u (Pkt MSG_SAVE_GUILD_EMBLEM [FU 4 errCode])).

(** ** Money *)

(** The share of a guild in the money a member finds ([SetGuildMoney] within
    [Player::ModifyMoney]): 10, 15 or 25 per cent by the perks, 1 if he has only the
    higher of the two, and at least 1 copper. *)
Definition GuildMoneyModifier (u : Z) : Z :=
  if HasAura v u 83940 then if HasAura v u 83941 then 25 else 15
  else if HasAura v u 83941 then 1 else 10.
Definition hundredth : spec_float := S754_finite false 5764607523034235 (-59).
Definition f64 (z : Z) : spec_float := binary_normalize 53 1024 z 0 false.
Definition guild_share (u d : Z) : Z :=
  match trunc_f32 (SFmul 53 1024 (f64 d) (SFmul 53 1024 (f64 (GuildMoneyModifier u)) hundredth)) with
  | Some n => Z.max 1 (u64 n)
  | None => 1
  end.
Definition share_found_money (u d : Z) : GM unit := with_player u (fun p =>
  when (negb (GetLootGUID v u =? 0))
    (upd_guild (gp_guildId p) (on_bankMoney (fun m => u64 (m + guild_share u d))))).
(** [Player::ModifyMoney] with the part that concerns the guild. *)
Definition ModifyMoney_guild (u d : Z) : GM unit := with_state (fun s =>
  when ((0 <=? d) && (GetMoney (market s) u <? u32 (MAX_MONEY_AMOUNT - d))) (share_found_money u d) ;;
  in_market (ModifyMoney u d)).
Definition HasEnough (s : GuildWorld) (u amount : Z) : bool := HasEnoughMoney (market s) u amount.

Definition _ModifyBankMoney (g amount : Z) (add : bool) : GM bool := with_guild false g (fun x =>
  if negb add && (m_bankMoney x <? amount) then ret false
  else
    upd_guild g (on_bankMoney (fun m => u64 (if add then m + amount else m - amount))) ;;
    with_guild false g (fun y => Execute (SetGuildBankMoney g (m_bankMoney y)) ;; ret true)).

(** [GetBankRemainingValue] of the member under a key; it resets the value when the
    last reset is more than a day ago. *)
Definition GetBankRemainingValue (g low tabId : Z) : GM Z := with_guild 0 g (fun x =>
  match m_members x !! low with
  | None => ret 0
  | Some m =>
      if IsRank GR_GUILDMASTER m then
        ret (if tabId =? GUILD_BANK_MAX_TABS then GUILD_WITHDRAW_MONEY_UNLIMITED else GUILD_WITHDRAW_SLOT_UNLIMITED)
      else if negb (tabId =? GUILD_BANK_MAX_TABS) &&
              negb (Z.land (_GetRankBankTabRights (mb_rankId m) tabId x) GUILD_BANK_RIGHT_VIEW_TAB =? GUILD_BANK_RIGHT_VIEW_TAB)
      then ret 0
      else
        let curTime := u32 (now (mv v) / MINUTE) in
        if u32 (rv_resetTime (remaining tabId m) + 24 * HOUR / MINUTE) <? curTime then
          let value := if tabId =? GUILD_BANK_MAX_TABS then _GetRankBankMoneyPerDay (mb_rankId m) x
                       else _GetRankBankTabSlotsPerDay (mb_rankId m) tabId x in
          upd_member g low (set_remaining tabId (mkRemaining value curTime)) ;;
          Execute (SetRemainingTime g (GUID_LOPART (mb_guid m)) tabId curTime value) ;;
          ret value
        else ret (rv_value (remaining tabId m))
  end).
Definition _GetMemberRemainingSlots (g guid tabId : Z) : GM Z := GetBankRemainingValue g (GUID_LOPART guid) tabId.
Definition _GetMemberRemainingMoney (g guid : Z) : GM Z := GetBankRemainingValue g (GUID_LOPART guid) GUILD_BANK_MAX_TABS.
Definition DecreaseBankRemainingValue (g low tabId amount : Z) : GM unit := with_guild tt g (fun x =>
  match m_members x !! low with
  | None => ret tt
  | Some m =>
      let value := u32 (rv_value (remaining tabId m) - amount) in
      upd_member g low (fun m => set_remaining tabId (mkRemaining value (rv_resetTime (remaining tabId m))) m) ;;
      Execute (SetRemaining g (GUID_LOPART (mb_guid m)) tabId value)
  end).
Definition _DecreaseMemberRemainingSlots (g guid tabId : Z) : GM unit :=
  let! remainingSlots := _GetMemberRemainingSlots g guid tabId in
  when (negb (remainingSlots =? 0) && (remainingSlots <? GUILD_WITHDRAW_SLOT_UNLIMITED))
    (DecreaseBankRemainingValue g (GUID_LOPART guid) tabId 1).
Definition _MemberHasTabRights (x : Guild) (guid tabId rights : Z) : bool :=
  match GetMember guid x with
  | None => false
  | Some m =>
      IsRank GR_GUILDMASTER m || (m_leaderGuid x =? guid) ||
      (Z.land (_GetRankBankTabRights (mb_rankId m) tabId x) rights =? rights)
  end.

(** ** What the bank shows *)

Definition bank_item (s : GuildWorld) (g tab slot : Z) : option Z := slots s !! InBank g tab slot.
Definition slot_fields (s : GuildWorld) (g tab slot : Z) : list field :=
  match bank_item s g tab slot ≫= fun i => item_store s !! i with
  | None => [FU 1 slot; FU 4 0]
  | Some it =>
      if it_entry it =? 0 then [FU 1 slot; FU 4 0]
      else
        [FU 1 slot; FU 4 (it_entry it); FU 4 0; FU 4 (u32 (it_randomProperty it))] ++
        (if it_randomProperty it =? 0 then [] else [FU 4 (it_suffixFactor it)]) ++
        [FU 4 (it_count it); FU 4 0; FU 1 (u8 (Z.abs (it_charges it))); FU 4 0; FU 4 0;
         FU 1 (u8 (Z.of_nat (length (it_enchantments it))))] ++
        concat ((fun e => [FU 1 e.1; FU 4 e.2]) <$> it_enchantments it)
  end.
Definition tab_fields (s : GuildWorld) (g tab : Z) : list field :=
  FU 1 GUILD_BANK_MAX_SLOTS :: concat (slot_fields s g tab <$> tab_slots).

(** [SendBankTabsInfo]; the call for the remaining slots of tab 0 may reset them. *)
Definition SendBankTabsInfo (u g : Z) : GM unit := with_guild tt g (fun x =>
  let! slots_left := _GetMemberRemainingSlots g u 0 in
  emit (GuildPacket u (Pkt SMSG_GUILD_BANK_LIST
    ([FU 8 (m_bankMoney x); FU 1 0; FU 4 slots_left; FU 1 1; FU 1 (_GetPurchasedTabsSize x)] ++
     concat ((fun t => [FStr (tb_name t); FStr (tb_icon t)]) <$> m_bankTabs x) ++ [FU 1 0])))).
Definition _SendBankContent (u g tab : Z) : GM unit := with_guild tt g (fun x =>
  when (_MemberHasTabRights x u tab GUILD_BANK_RIGHT_VIEW_TAB && (tab <? _GetPurchasedTabsSize x))
    (let! slots_left := _GetMemberRemainingSlots g u tab in
     with_state (fun s => emit (GuildPacket u (Pkt SMSG_GUILD_BANK_LIST
       ([FU 8 (m_bankMoney x); FU 1 tab; FU 4 slots_left; FU 1 0] ++ tab_fields s g tab)))))).
Definition _SendBankMoneyUpdate (u g : Z) : GM unit := with_guild tt g (fun x =>
  let! slots_left := _GetMemberRemainingSlots g u 0 in
  BroadcastPacket g (Pkt SMSG_GUILD_BANK_LIST [FU 8 (m_bankMoney x); FU 1 0; FU 4 slots_left; FU 1 0; FU 1 0])).
Definition SendMoneyInfo (u g : Z) : GM unit :=
  let! money := _GetMemberRemainingMoney g u in
  emit (GuildPacket u (Pkt MSG_GUILD_BANK_MONEY_WITHDRAWN [FU 8 money])).
Definition SendBankTabData (u g tabId : Z) : GM unit := with_guild tt g (fun x =>
  when (tabId <? _GetPurchasedTabsSize x) (SendMoneyInfo u g ;; _SendBankContent u g tabId)).
Definition SendBankLog (u g tabId : Z) : GM unit := with_guild tt g (fun x =>
  when ((tabId <? _GetPurchasedTabsSize x) || (tabId =? GUILD_BANK_MAX_TABS))
    (emit (GuildPacket u (Pkt MSG_GUILD_BANK_LOG_QUERY
      (FU 1 tabId :: log_fields (bank_event_fields v) (nth (Z.to_nat tabId) (m_bankEventLog x) (new_holder 0))))))).
(** The text of a tab, to one session or to everybody. *)
Definition SendText (session : option Z) (g tabId : Z) : GM unit := with_guild tt g (fun x =>
  match m_bankTabs x !! Z.to_nat tabId with
  | Some t => send_to session g (Pkt MSG_QUERY_GUILD_BANK_TEXT [FU 1 tabId; FStr (tb_text t)])
  | None => ret tt
  end).
(** The rights and the slots left of each tab; the money comes first. *)
Fixpoint tab_permissions (u g rankId : Z) (tabs : list Z) : GM (list field) :=
  match tabs with
  | [] => ret []
  | tab :: tabs' => with_guild [] g (fun x =>
      let! slots_left := _GetMemberRemainingSlots g u tab in
      let! rest := tab_permissions u g rankId tabs' in
      ret ([FU 4 (_GetRankBankTabRights rankId tab x); FU 4 slots_left] ++ rest))
  end.
Definition SendPermissions (u g : Z) : GM unit := with_player u (fun p => with_guild tt g (fun x =>
  let! money := _GetMemberRemainingMoney g u in
  let! tabs := tab_permissions u g (gp_rank p) (seqZ 0 GUILD_BANK_MAX_TABS) in
  emit (GuildPacket u (Pkt MSG_GUILD_PERMISSIONS
    ([FU 4 (gp_rank p); FU 4 (_GetRankRights (gp_rank p) x); FU 4 money; FU 1 (_GetPurchasedTabsSize x)] ++ tabs))) ;;
  SendGuildRankInfo (Some u) g)).

(** ** Deposits and withdrawals *)

Definition HandleMemberDepositMoney (u g amount : Z) : GM unit := with_guild tt g (fun x =>
  if _GetPurchasedTabsSize x =? 0 then ret tt
  else
    emit (GuildHook g (OnGuildMemberDepositMoney u amount)) ;;
    _ModifyBankMoney g amount true ;;
    ModifyMoney_guild u (minus_int32 amount) ;;
    in_market (SaveGoldToDB u) ;;
    _LogBankEvent v g GUILD_BANK_LOG_DEPOSIT_MONEY 0 (GUID_LOPART u) amount 0 0 ;;
    SendBankTabsInfo u g ;;
    _SendBankContent u g 0 ;;
    _SendBankMoneyUpdate u g).

Definition HandleMemberWithdrawMoney (u g amount : Z) (repair : bool) : GM bool := with_state (fun s =>
  match players s !! u with None => ret false | Some p => with_guild false g (fun x =>
  if _GetPurchasedTabsSize x =? 0 then ret false
  else if m_bankMoney x <? amount then ret false
  else if negb (_HasRankRight x (gp_rank p) (if repair then GR_RIGHT_WITHDRAW_REPAIR else GR_RIGHT_WITHDRAW_GOLD)) then ret false
  else
    let! remainingMoney := _GetMemberRemainingMoney g u in
    if (remainingMoney =? 0) || (remainingMoney <? amount) then ret false
    else
      emit (GuildHook g (OnGuildMemberWitdrawMoney u amount repair)) ;;
      when (remainingMoney <? GUILD_WITHDRAW_MONEY_UNLIMITED)
        (DecreaseBankRemainingValue g (GUID_LOPART u) GUILD_BANK_MAX_TABS amount) ;;
      _ModifyBankMoney g amount false ;;
      when (negb repair) (ModifyMoney_guild u (s32 amount) ;; in_market (SaveGoldToDB u)) ;;
      _LogBankEvent v g (if repair then GUILD_BANK_LOG_REPAIR_MONEY else GUILD_BANK_LOG_WITHDRAW_MONEY) 0
        (GUID_LOPART u) amount 0 0 ;;
      SendMoneyInfo u g ;;
      when (negb repair) (SendBankTabsInfo u g ;; _SendBankContent u g 0 ;; _SendBankMoneyUpdate u g) ;;
      ret true) end).

(** ** Emblem, ranks and tabs *)

Definition HandleSetEmblem (u g : Z) (e : EmblemInfo) : GM unit := with_guild tt g (fun x => with_state (fun s =>
  if negb (_IsLeader x u) then SendSaveEmblemResult u ERR_GUILDEMBLEM_NOTGUILDMASTER
  else if negb (HasEnough s u EMBLEM_PRICE) then SendSaveEmblemResult u ERR_GUILDEMBLEM_NOTENOUGHMONEY
  else
    ModifyMoney_guild u (minus_int32 EMBLEM_PRICE) ;;
    upd_guild g (set_emblem e) ;;
    Execute (SetGuildEmblem g e) ;;
    SendSaveEmblemResult u ERR_GUILDEMBLEM_SUCCESS ;;
    HandleQuery u g)).

Definition HandleSetRankInfo (u g rankId : Z) (name : list Z) (rights moneyPerDay : Z)
    (rightsAndSlots : list RightsAndSlots) : GM unit := with_guild tt g (fun x =>
  if negb (_IsLeader x u) then denied u GUILD_INVITE_S
  else match GetRankInfo rankId x with
  | None => ret tt
  | Some _ =>
      SetName g rankId name ;;
      SetRights g rankId rights ;;
      _SetRankBankMoneyPerDay g rankId moneyPerDay ;;
      for_each (imap pair rightsAndSlots) (fun p => _SetRankBankTabRightsAndSlots g rankId (Z.of_nat p.1) p.2 true) ;;
      HandleQuery u g ;;
      HandleRoster v None g
  end).

Definition _CreateNewBankTab (g : Z) : GM bool := with_guild false g (fun x =>
  if GUILD_BANK_MAX_TABS <=? _GetPurchasedTabsSize x then ret false
  else
    upd_guild g (on_bankTabs (fun l => l ++ [mkTab [] [] []])) ;;
    Execute (DeleteBankTab g (_GetPurchasedTabsSize x)) ;;
    Execute (InsertBankTab g (_GetPurchasedTabsSize x)) ;;
    ret true).
Definition HandleBuyBankTab (u g tabId : Z) : GM unit := with_player u (fun p => with_guild tt g (fun x => with_state (fun s =>
  let tabCost := u32 (_GetGuildBankTabPrice tabId * GOLD) in
  if negb (tabId =? _GetPurchasedTabsSize x) then ret tt
  else if tabCost =? 0 then ret tt
  else if negb (HasEnough s u tabCost) then ret tt
  else
    let! ok := _CreateNewBankTab g in
    when ok
      (ModifyMoney_guild u (minus_int32 tabCost) ;;
       _SetRankBankMoneyPerDay g (gp_rank p) GUILD_WITHDRAW_MONEY_UNLIMITED ;;
       _SetRankBankTabRightsAndSlots g (gp_rank p) tabId (mkRights GUILD_BANK_RIGHT_FULL GUILD_WITHDRAW_SLOT_UNLIMITED) true ;;
       HandleRoster v None g ;;
       SendBankTabsInfo u g)))).

(** No right is asked for. *)
Definition HandleSetBankTabInfo (u g tabId : Z) (name icon : list Z) : GM unit := with_guild tt g (fun x =>
  if tabId <? Z.of_nat (length (m_bankTabs x)) then
    match m_bankTabs x !! Z.to_nat tabId with
    | Some t =>
        when (negb (bool_decide (tb_name t = name) && bool_decide (tb_icon t = icon)))
          (upd_guild g (on_bankTabs (insert (Z.to_nat tabId) (mkTab name icon (tb_text t)))) ;;
           Execute (SetBankTabInfo g tabId name icon)) ;;
        SendBankTabsInfo u g ;;
        _SendBankContent u g tabId
    | None => ret tt
    end
  else ret tt).
Definition SetBankTabText (g tabId : Z) (txt : list Z) : GM unit := with_guild tt g (fun x =>
  if tabId <? Z.of_nat (length (m_bankTabs x)) then
    match m_bankTabs x !! Z.to_nat tabId with
    | Some t =>
        (if bool_decide (tb_text t = txt) then ret tt
         else match utf8truncate txt MAX_GUILD_BANK_TAB_TEXT_LEN with
              | Conv cut =>
                  upd_guild g (on_bankTabs (insert (Z.to_nat tabId) (mkTab (tb_name t) (tb_icon t) cut))) ;;
                  Execute (SetBankTabTextRow g tabId cut)
              | _ => emit GuildConversionOverflow
              end) ;;
        SendText None g tabId
    | None => ret tt
    end
  else ret tt).

(** ** Logging in *)

Definition SendLoginInfo (u g : Z) : GM unit := with_guild tt g (fun x =>
  emit (GuildPacket u (Pkt SMSG_GUILD_EVENT [FU 1 GE_MOTD; FU 1 2; FStr (m_motd x); FU 1 0])) ;;
  SendBankTabsInfo u g ;;
  _BroadcastEvent g GE_SIGNED_ON u [GetName v u] ;;
  match GetMember u x with
  | Some _ => upd_member g (GUID_LOPART u) (fun m => AddFlag GUILD_MEMBER_FLAG_ONLINE (SetStats v u m))
  | None => ret tt
  end).

(** ** Moving items

    A [MoveItemData] is one end of a move: a bank tab or the bags of the player, the
    slot asked for, the item found there, the clone that is split off, and the
    positions that were reserved ([m_vec]): a slot, or [bag << 8 | slot], with a count. *)

Definition EQUIP_ERR_ITEM_DOESNT_GO_INTO_BAG : Z := 15.
Definition EQUIP_ERR_ITEM_CANT_STACK : Z := 19.
Definition EQUIP_ERR_ITEMS_CANT_BE_SWAPPED : Z := 21.
Definition EQUIP_ERR_ITEM_NOT_FOUND : Z := 23.
Definition EQUIP_ERR_CANT_DROP_SOULBOUND : Z := 24.
Definition EQUIP_ERR_CAN_ONLY_DO_WITH_EMPTY_BAGS : Z := 31.
Definition EQUIP_ERR_BANK_FULL : Z := 51.

Record MoveItemData := mkMove {
  IsBank : bool;
  m_container : Z;
  m_slotId : Z;
  m_pItem : option Z;
  m_pClonedItem : option Z;
  m_vec : list (Z * Z)
}.
Definition new_move (bank : bool) (container slot : Z) : MoveItemData := mkMove bank container slot None None [].
Definition set_pItem (i : option Z) (d : MoveItemData) : MoveItemData :=
  mkMove (IsBank d) (m_container d) (m_slotId d) i (m_pClonedItem d) (m_vec d).
Definition set_cloned (i : Z) (d : MoveItemData) : MoveItemData :=
  mkMove (IsBank d) (m_container d) (m_slotId d) (m_pItem d) (Some i) (m_vec d).
Definition set_vec (vec : list (Z * Z)) (d : MoveItemData) : MoveItemData :=
  mkMove (IsBank d) (m_container d) (m_slotId d) (m_pItem d) (m_pClonedItem d) vec.

Definition get_item (s : GuildWorld) (i : Z) : option Item := item_store s !! i.
Definition item_count (s : GuildWorld) (i : Z) : Z := match get_item s i with Some it => it_count it | None => 0 end.
Definition item_entry (s : GuildWorld) (i : Z) : Z := match get_item s i with Some it => it_entry it | None => 0 end.
Definition SetCount (i n : Z) : GM unit := modify (on_item_store (alter (set_count (u32 n)) i)).
Definition save_item (i : Z) : GM unit := with_state (fun s =>
  match get_item s i with Some it => Execute (SaveItemRow i it) | None => ret tt end).

(** [Guild::_GetItem]: no tab or no such slot, no item. *)
Definition _GetItem (s : GuildWorld) (g tab slot : Z) : option Z :=
  match GuildStore s !! g with
  | Some x => if (tab <? Z.of_nat (length (m_bankTabs x))) && (slot <? GUILD_BANK_MAX_SLOTS) then bank_item s g tab slot else None
  | None => None
  end.

(** The bags (Player.cpp). *)
Definition INVENTORY_SLOT_BAG_0 : Z := 255.
Definition INVENTORY_SLOT_BAG_START : Z := 19.
Definition INVENTORY_SLOT_BAG_END : Z := 23.
Definition INVENTORY_SLOT_ITEM_START : Z := 23.
Definition INVENTORY_SLOT_ITEM_END : Z := 39.
Definition BANK_SLOT_BAG_START : Z := 67.
Definition BANK_SLOT_BAG_END : Z := 74.
Definition KEYRING_SLOT_START : Z := 86.
Definition CURRENCYTOKEN_SLOT_END : Z := 150.
Definition within (lo hi x : Z) : bool := (lo <=? x) && (x <? hi).
Definition bag_pos (bag slot : Z) : Z := Z.lor (Z.shiftl bag 8) slot.
Definition GetItemByPos (s : GuildWorld) (u bag slot : Z) : option Z :=
  let at_pos b sl := slots s !! InBags u (bag_pos b sl) in
  if bag =? INVENTORY_SLOT_BAG_0 then
    if (slot <? BANK_SLOT_BAG_END) || within KEYRING_SLOT_START CURRENCYTOKEN_SLOT_END slot then at_pos bag slot else None
  else if within INVENTORY_SLOT_BAG_START INVENTORY_SLOT_BAG_END bag || within BANK_SLOT_BAG_START BANK_SLOT_BAG_END bag then
    match at_pos INVENTORY_SLOT_BAG_0 bag with Some _ => at_pos bag slot | None => None end
  else None.
Definition IsInventoryPos (bag slot : Z) : bool :=
  ((bag =? INVENTORY_SLOT_BAG_0) && (slot =? NULL_SLOT)) ||
  ((bag =? INVENTORY_SLOT_BAG_0) && within INVENTORY_SLOT_ITEM_START INVENTORY_SLOT_ITEM_END slot) ||
  within INVENTORY_SLOT_BAG_START INVENTORY_SLOT_BAG_END bag ||
  ((bag =? INVENTORY_SLOT_BAG_0) && within KEYRING_SLOT_START CURRENCYTOKEN_SLOT_END slot).

(** [Item::CloneItem]: a new item of the same entry; only a clone made for a player
    keeps the random property. *)
Definition CloneItem (i count : Z) (for_player : bool) : GM (option Z) := with_state (fun s =>
  match get_item s i with
  | None => ret None
  | Some it =>
      if count <? 1 then ret None
      else
        let n := Z.min count (GetMaxStackSize v (it_entry it)) in
        let '(seed, enchs) := if for_player then random_properties v (it_entry it) (it_randomProperty it) else (0, []) in
        let c := mkItem (it_entry it) n (it_flags it) (if for_player then it_randomProperty it else 0) seed
                   (proto_SpellCharges v (it_entry it)) enchs in
        let j := next_item s in
        when (0xFFFFFFFE <=? j) (emit GuildIdOverflow) ;;
        modify (on_next_item (fun n => u32 (n + 1))) ;;
        modify (on_item_store (insert j c)) ;;
        ret (Some j)
  end).

Definition equip_error (u error : Z) (i : option Z) : GM unit := emit (GuildEquipError u error i).

Definition InitItem (g u : Z) (d : MoveItemData) : GM MoveItemData := with_state (fun s =>
  if IsBank d then ret (set_pItem (_GetItem s g (m_container d) (m_slotId d)) d)
  else match GetItemByPos s u (m_container d) (m_slotId d) with
  | None => ret (set_pItem None d)
  | Some i =>
      if bag_is_filled v i then equip_error u EQUIP_ERR_CAN_ONLY_DO_WITH_EMPTY_BAGS (Some i) ;; ret (set_pItem None d)
      else if negb (CanBeTradedNow v i) then equip_error u EQUIP_ERR_ITEMS_CANT_BE_SWAPPED (Some i) ;; ret (set_pItem None d)
      else ret (set_pItem (Some i) d)
  end).

(** The amount to split off, 0 for the whole stack; [None] for too much. *)
Definition CheckItem (count splitedAmount : Z) : option Z :=
  if count <? splitedAmount then None else Some (if splitedAmount =? count then 0 else splitedAmount).

Definition same_tab (d other : MoveItemData) : bool := IsBank other && (m_container other =? m_container d).
Definition HasStoreRights (g u : Z) (d other : MoveItemData) : GM bool := with_guild false g (fun x =>
  ret (negb (IsBank d) || same_tab d other ||
       _MemberHasTabRights x u (m_container d) GUILD_BANK_RIGHT_DEPOSIT_ITEM)).
Definition HasWithdrawRights (g u : Z) (d other : MoveItemData) : GM bool :=
  if negb (IsBank d) || same_tab d other then ret true
  else let! slots_left := _GetMemberRemainingSlots g u (m_container d) in ret (negb (slots_left =? 0)).

(** [_ReserveSpace] for an item of [entry] in a slot: the positions and what is left
    of the count; [None] when the item in the slot is another or full. *)
Definition _ReserveSpace (entry slot : Z) (dest : option Item) (acc : list (Z * Z) * Z) : option (list (Z * Z) * Z) :=
  let '(vec, count) := acc in
  let max := GetMaxStackSize v entry in
  let fits := match dest with Some it => (it_entry it =? entry) && (it_count it <? max) | None => true end in
  if negb fits then None
  else
    let required := Z.min (match dest with Some it => max - it_count it | None => max end) count in
    if bool_decide (slot ∈ vec.*1) then Some (vec, count) else Some (vec ++ [(slot, required)], count - required).
(** What is in a slot, unless it is the item that moves. *)
Definition dest_item (s : GuildWorld) (g tab slot i : Z) : option Item :=
  match _GetItem s g tab slot with
  | Some j => if j =? i then None else get_item s j
  | None => None
  end.
Definition store_step (s : GuildWorld) (g tab i entry skip : Z) (merge : bool) (acc : list (Z * Z) * Z) (slot : Z) : list (Z * Z) * Z :=
  if acc.2 <=? 0 then acc
  else if slot =? skip then acc
  else
    let dest := dest_item s g tab slot i in
    if negb (Bool.eqb (bool_decide (is_Some dest)) merge) then acc
    else default acc (_ReserveSpace entry slot dest acc).
Definition _CanStoreItemInTab (s : GuildWorld) (g tab i entry skip : Z) (merge : bool) (acc : list (Z * Z) * Z) : list (Z * Z) * Z :=
  foldl (store_step s g tab i entry skip merge) acc tab_slots.

Definition bank_CanStore (s : GuildWorld) (g tab slot i : Z) (swap : bool) : Z * list (Z * Z) :=
  match get_item s i, GuildStore s !! g with
  | Some it, Some x =>
      let entry := it_entry it in
      if has_flag (it_flags it) ITEM_FLAG_SOULBOUND then (EQUIP_ERR_CANT_DROP_SOULBOUND, [])
      else if _GetPurchasedTabsSize x <=? tab then (EQUIP_ERR_ITEM_DOESNT_GO_INTO_BAG, [])
      else
        let first := if slot =? NULL_SLOT then Some ([], it_count it)
                     else _ReserveSpace entry slot (if swap then None else dest_item s g tab slot i) ([], it_count it) in
        match first with
        | None => (EQUIP_ERR_ITEM_CANT_STACK, [])
        | Some acc =>
            if acc.2 =? 0 then (EQUIP_ERR_OK, acc.1)
            else
              let acc1 := if 1 <? GetMaxStackSize v entry then _CanStoreItemInTab s g tab i entry slot true acc else acc in
              if acc1.2 =? 0 then (EQUIP_ERR_OK, acc1.1)
              else
                let acc2 := _CanStoreItemInTab s g tab i entry slot false acc1 in
                (if acc2.2 =? 0 then EQUIP_ERR_OK else EQUIP_ERR_BANK_FULL, acc2.1)
        end
  | _, _ => (EQUIP_ERR_ITEM_NOT_FOUND, [])
  end.
Definition CanStore (g u : Z) (d : MoveItemData) (i : Z) (swap sendError : bool) : GM (bool * MoveItemData) := with_state (fun s =>
  let '(msg, vec) := if IsBank d then bank_CanStore s g (m_container d) (m_slotId d) i swap
                     else CanStoreItem_at v s u (m_container d) (m_slotId d) i swap in
  when (sendError && negb (msg =? EQUIP_ERR_OK)) (equip_error u msg (Some i)) ;;
  ret (msg =? EQUIP_ERR_OK, set_vec vec d)).
Definition clone_item (u : Z) (d : MoveItemData) (count : Z) : GM (option MoveItemData) :=
  match m_pItem d with
  | None => emit GuildAssertFailed ;; ret None
  | Some i =>
      let! c := CloneItem i count false in
      match c with
      | Some j => ret (Some (set_cloned j d))
      | None => equip_error u EQUIP_ERR_ITEM_NOT_FOUND (Some i) ;; ret None
      end
  end.

(** [BankTab::SetItem], with an item or with none. *)
Definition SetItem (g tab slot : Z) (i : option Z) : GM bool :=
  if GUILD_BANK_MAX_SLOTS <=? slot then ret false
  else
    modify (on_slots (partial_alter (fun _ => i) (InBank g tab slot))) ;;
    Execute (DeleteBankItem g tab slot) ;;
    match i with
    | Some j => Execute (InsertBankItem g tab slot j) ;; save_item j
    | None => ret tt
    end ;;
    ret true.

(** An item that was merged into another stack is deleted. *)
Definition delete_item (i : Z) : GM unit := Execute (DeleteItemRow i) ;; modify (on_item_store (delete i)).
(** The last position of the list is stored with the item itself, the others with
    clones of it. *)
Definition bank_store_at (g tab i : Z) (clone : bool) (pos : Z * Z) : GM (option Z) := with_state (fun s =>
  let '(slot, count) := pos in
  match bank_item s g tab (u8 slot) with
  | Some j =>
      SetCount j (item_count s j + count) ;;
      save_item j ;;
      when (negb clone) (delete_item i) ;;
      ret (Some j)
  | None =>
      let! o := (if clone then CloneItem i count false else SetCount i count ;; ret (Some i)) in
      match o with
      | None => ret None
      | Some j => let! ok := SetItem g tab (u8 slot) (Some j) in ret (if ok then Some j else None)
      end
  end).
(** [Player::_StoreItem]; what the item is bound to and the bag it lies in are flags. *)
Definition bind_item (i pos : Z) : GM unit := with_state (fun s =>
  when (binds_when_stored v (item_entry s i) pos)
    (modify (on_item_store (alter (on_item_flags (fun f => Z.lor f ITEM_FLAG_SOULBOUND)) i)))).
Definition bags_store_at (u i : Z) (clone : bool) (p : Z * Z) : GM (option Z) := with_state (fun s =>
  let '(pos, count) := p in
  let bag := Z.shiftr pos 8 in
  let slot := Z.land pos 255 in
  match GetItemByPos s u bag slot with
  | Some j =>
      bind_item j pos ;;
      SetCount j (item_count s j + count) ;;
      save_item j ;;
      when (negb clone) (delete_item i) ;;
      ret (Some j)
  | None =>
      let! o := (if clone then CloneItem i count true else SetCount i count ;; ret (Some i)) in
      match o with
      | None => ret None
      | Some j =>
          bind_item j pos ;;
          when ((bag =? INVENTORY_SLOT_BAG_0) || bool_decide (is_Some (GetItemByPos s u INVENTORY_SLOT_BAG_0 bag)))
            (modify (on_slots (insert (InBags u pos) j)) ;;
             in_market (modify (on_inventory (insert j u)))) ;;
          save_item j ;;
          ret (Some j)
      end
  end).
(** The loop over the positions. *)
Fixpoint store_all (store_at : bool -> Z * Z -> GM (option Z)) (vec : list (Z * Z)) : GM unit :=
  match vec with
  | [] => ret tt
  | [p] => store_at false p ;; ret tt
  | p :: vec' => store_at true p ;; store_all store_at vec'
  end.
Definition StoreItem (g u : Z) (d : MoveItemData) (i : Z) : GM unit :=
  if IsBank d then with_guild tt g (fun x =>
    when (m_container d <? Z.of_nat (length (m_bankTabs x))) (store_all (bank_store_at g (m_container d) i) (m_vec d)))
  else
    emit (GuildOnItem u i) ;;
    store_all (bags_store_at u i) (m_vec d) ;;
    in_market (SaveInventoryAndGoldToDB u).

(** [RemoveItem]: part of the stack, or the item. *)
Definition RemoveItem (g u : Z) (d other : MoveItemData) (splitedAmount : Z) : GM MoveItemData := with_state (fun s =>
  match m_pItem d with
  | None => emit GuildAssertFailed ;; ret d
  | Some i =>
      if IsBank d then
        (if splitedAmount =? 0 then SetItem g (m_container d) (m_slotId d) None ;; ret tt
         else SetCount i (item_count s i - splitedAmount) ;; save_item i) ;;
        when (negb (same_tab d other)) (_DecreaseMemberRemainingSlots g u (m_container d)) ;;
        ret (if splitedAmount =? 0 then set_pItem None d else d)
      else if splitedAmount =? 0 then
        modify (on_slots (delete (InBags u (bag_pos (m_container d) (m_slotId d))))) ;;
        in_market (modify (on_inventory (delete i)) ;; Append (DeleteFromInventory i)) ;;
        ret (set_pItem None d)
      else
        SetCount i (item_count s i - splitedAmount) ;; save_item i ;;
        in_market (SaveInventoryAndGoldToDB u) ;; ret d
  end).

(** The entry in the log of the bank for what comes from [from] into [d]. *)
Definition LogBankEvent (g u : Z) (d from : MoveItemData) (entry count : Z) : GM unit :=
  let low := GUID_LOPART u in
  if negb (IsBank d) then _LogBankEvent v g GUILD_BANK_LOG_WITHDRAW_ITEM (m_container from) low entry (u16 count) 0
  else if IsBank from then
    _LogBankEvent v g GUILD_BANK_LOG_MOVE_ITEM (m_container from) low entry (u16 count) (m_container d)
  else _LogBankEvent v g GUILD_BANK_LOG_DEPOSIT_ITEM (m_container d) low entry (u16 count) 0.
Definition LogAction (g u : Z) (from : MoveItemData) : GM unit :=
  match m_pItem from with Some i => emit (GuildHook g (OnGuildItemMove u i)) | None => emit GuildAssertFailed end.

Definition _DoItemsMove (g u : Z) (pSrc pDest : MoveItemData) (sendError : bool) (splitedAmount : Z) :
    GM (bool * MoveItemData * MoveItemData) :=
  match (if splitedAmount =? 0 then m_pItem pSrc else m_pClonedItem pSrc) with
  | None => emit GuildAssertFailed ;; ret (false, pSrc, pDest)
  | Some src =>
      let swap := bool_decide (is_Some (m_pItem pDest)) in
      let! (ok, pDest) := CanStore g u pDest src swap sendError in
      if negb ok then ret (false, pSrc, pDest)
      else
        let! (ok, pSrc) := match m_pItem pDest with
                           | Some dst => CanStore g u pSrc dst true true
                           | None => ret (true, pSrc)
                           end in
        if negb ok then ret (false, pSrc, pDest)
        else with_state (fun s =>
          let entry_of d := match m_pItem d with Some i => item_entry s i | None => 0 end in
          LogAction g u pSrc ;;
          when swap (LogAction g u pDest) ;;
          LogBankEvent g u pDest pSrc (entry_of pSrc) (item_count s src) ;;
          match m_pItem pDest with
          | Some dst => LogBankEvent g u pSrc pDest (entry_of pDest) (item_count s dst)
          | None => ret tt
          end ;;
          let! pSrc' := RemoveItem g u pSrc pDest splitedAmount in
          let! pDest' := (if swap then RemoveItem g u pDest pSrc 0 else ret pDest) in
          StoreItem g u pDest src ;;
          match m_pItem pDest with Some dst => StoreItem g u pSrc dst | None => ret tt end ;;
          ret (true, pSrc', pDest'))
  end.

(** The slots of a tab that changed, to every member who may see it. *)
Definition content_fields (s : GuildWorld) (g tab : Z) (changed : gset Z) (money slots_left : Z) : list field :=
  [FU 8 money; FU 1 tab; FU 4 slots_left; FU 1 0; FU 1 (u8 (Z.of_nat (size changed)))] ++
  concat (slot_fields s g tab <$> filter (fun slot => slot ∈ changed) tab_slots).
Definition send_content (g tab : Z) (changed : gset Z) : GM unit := with_guild tt g (fun x =>
  when (tab <? Z.of_nat (length (m_bankTabs x)))
    (for_each (member_list x) (fun m => with_state (fun s =>
      when (_MemberHasTabRights x (mb_guid m) tab GUILD_BANK_RIGHT_VIEW_TAB &&
            bool_decide (is_Some (FindPlayer s (mb_guid m))))
        (let! slots_left := _GetMemberRemainingSlots g (mb_guid m) tab in
         emit (GuildPacket (mb_guid m) (Pkt SMSG_GUILD_BANK_LIST
           (content_fields s g tab changed (m_bankMoney x) slots_left)))))))).
Definition CopySlots (d : MoveItemData) : gset Z := list_to_set (u8 <$> (m_vec d).*1).
Definition _SendBankContentUpdate (g : Z) (pSrc pDest : MoveItemData) : GM unit :=
  if IsBank pSrc then
    let own := {[ m_slotId pSrc ]} in
    if IsBank pDest then
      if m_container pDest =? m_container pSrc then send_content g (m_container pSrc) (own ∪ CopySlots pDest)
      else send_content g (m_container pDest) (CopySlots pDest) ;; send_content g (m_container pSrc) own
    else send_content g (m_container pSrc) own
  else if IsBank pDest then send_content g (m_container pDest) (CopySlots pDest)
  else emit GuildAssertFailed.

(** The swap of step 6.2: the item of the destination is looked up, and both ends are
    checked in the other direction. *)
Definition try_swap (g u : Z) (pSrc pDest : MoveItemData) : GM (option (MoveItemData * MoveItemData)) :=
  let! pDest := InitItem g u pDest in
  match m_pItem pDest with
  | None => ret None
  | Some _ =>
      let! store := HasStoreRights g u pSrc pDest in
      if negb store then ret None
      else
        let! withdraw := HasWithdrawRights g u pDest pSrc in
        if negb withdraw then ret None
        else let! (_, pSrc, pDest) := _DoItemsMove g u pSrc pDest true 0 in ret (Some (pSrc, pDest))
  end.
Definition _MoveItems (g u : Z) (pSrc pDest : MoveItemData) (splitedAmount0 : Z) : GM unit :=
  let! pSrc := InitItem g u pSrc in
  match m_pItem pSrc with
  | None => ret tt
  | Some i => with_state (fun s =>
      match CheckItem (item_count s i) splitedAmount0 with
      | None => ret tt
      | Some splitedAmount =>
          let! store := HasStoreRights g u pDest pSrc in
          if negb store then ret tt
          else
            let! withdraw := HasWithdrawRights g u pSrc pDest in
            if negb withdraw then ret tt
            else if negb (splitedAmount =? 0) then
              let! cloned := clone_item u pSrc splitedAmount in
              match cloned with
              | None => ret tt
              | Some pSrc =>
                  let! (_, pSrc, pDest) := _DoItemsMove g u pSrc pDest true splitedAmount in
                  _SendBankContentUpdate g pSrc pDest
              end
            else
              let! (moved, pSrc, pDest) := _DoItemsMove g u pSrc pDest false 0 in
              if moved : bool then _SendBankContentUpdate g pSrc pDest
              else
                let! swapped := try_swap g u pSrc pDest in
                match swapped with
                | Some (pSrc, pDest) => _SendBankContentUpdate g pSrc pDest
                | None => ret tt
                end
      end)
  end.

Definition SwapItems (g u tabId slotId destTabId destSlotId splitedAmount : Z) : GM unit := with_guild tt g (fun x =>
  let tabs := _GetPurchasedTabsSize x in
  if (tabs <=? tabId) || (GUILD_BANK_MAX_SLOTS <=? slotId) || (tabs <=? destTabId) || (GUILD_BANK_MAX_SLOTS <=? destSlotId) then ret tt
  else if (tabId =? destTabId) && (slotId =? destSlotId) then ret tt
  else _MoveItems g u (new_move true tabId slotId) (new_move true destTabId destSlotId) splitedAmount).
Definition SwapItemsWithInventory (g u : Z) (toChar : bool) (tabId slotId playerBag playerSlotId splitedAmount : Z) : GM unit :=
  with_guild tt g (fun x =>
    if ((GUILD_BANK_MAX_SLOTS <=? slotId) && negb (slotId =? NULL_SLOT)) || (_GetPurchasedTabsSize x <=? tabId) then ret tt
    else
      let bankData := new_move true tabId slotId in
      let charData := new_move false playerBag playerSlotId in
      if toChar then _MoveItems g u bankData charData splitedAmount
      else _MoveItems g u charData bankData splitedAmount).
End bank.
