(* ===== verification/GuildHandler.v ===== *)
(** * Guild commands

    The opcode handlers of game/Server/Protocol/Handlers/GuildHandler.cpp, the guild
    part of the login (CharacterHandler.cpp) and logout (WorldSession.cpp), and the
    calls into a guild from Player.cpp and ChatHandler.cpp, as the steps of a server.
    They act on the store of [Guild]. *)
From Stdlib Require Import SpecFloat.
From S2P Require Import Prelude Text ByteBuffer Market Guild GuildBank.

Definition SMSG_GUILD_MAX_DAILY_XP : Z := 0x0441C.
Definition SMSG_GUILD_REWARDS_LIST : Z := 0x00C4C.
Definition EQUIP_ERR_NONE : Z := 59.

Section handlers.
Context `{!Utf8Lib} `{!HashOrder} (v : GuildView).

Definition with_recv {A} (parse : B A) (recv_data : ByteBuffer) (k : A -> GM unit) : GM unit :=
  match (parse recv_data).1 with Ok a => k a | Err _ => ret tt end.
(** The guild of the session's player. *)
Definition _GetPlayerGuild (u : Z) (sendError : bool) (k : Z -> GM unit) : GM unit := with_player u (fun p => with_state (fun s =>
  match (if gp_guildId p =? 0 then None else GuildStore s !! gp_guildId p) with
  | Some _ => k (gp_guildId p)
  | None => when sendError (SendCommandResult u GUILD_CREATE_S ERR_GUILD_PLAYER_NOT_IN_GUILD [])
  end)).
(** A name the client sent, normalised. *)
Definition with_name (name : list Z) (k : list Z -> GM unit) : GM unit :=
  match normalizePlayerName name with
  | Conv n => k n
  | ConvFailed => ret tt
  | ConvOverflow => emit GuildConversionOverflow
  end.

Definition HandleGuildQueryOpcode (u : Z) (recv_data : ByteBuffer) : GM unit :=
  with_recv (let? guildId := shr_uint 8 in let? _ := shr_uint 8 in bret guildId) recv_data (fun guildId => with_state (fun s =>
    match GuildStore s !! GUID_LOPART guildId with
    | Some _ => HandleQuery u (GUID_LOPART guildId)
    | None => SendCommandResult u GUILD_CREATE_S ERR_GUILD_PLAYER_NOT_IN_GUILD []
    end)).
Definition HandleGuildCreateOpcode (u : Z) (recv_data : ByteBuffer) : GM unit :=
  with_recv shr_string recv_data (fun name => with_player u (fun p =>
    when (gp_guildId p =? 0) (CreateGuild v u name ;; ret tt))).
Definition HandleGuildInviteOpcode (u : Z) (recv_data : ByteBuffer) : GM unit :=
  with_recv shr_string recv_data (fun invitedName =>
    with_name invitedName (fun name => _GetPlayerGuild u true (fun g => HandleInviteMember v u g name))).
(** A GUID, and another one that is not read. *)
Definition parse_target : B Z := let? guid := shr_uint 8 in let? _ := read_skip 8 in bret guid.
Definition HandleGuildRemoveOpcode (u : Z) (recv_data : ByteBuffer) : GM unit :=
  with_recv parse_target recv_data (fun guid => _GetPlayerGuild u true (fun g => HandleRemoveMember v u g guid)).
Definition HandleGuildAcceptOpcode (u : Z) (recv_data : ByteBuffer) : GM unit :=
  with_recv (read_skip 8) recv_data (fun _ => with_player u (fun p => with_state (fun s =>
    if gp_guildId p =? 0 then
      match GuildStore s !! gp_guildIdInvited p with
      | Some _ => HandleAcceptMember v u (gp_guildIdInvited p)
      | None => ret tt
      end
    else ret tt))).
Definition HandleGuildDeclineOpcode (u : Z) (recv_data : ByteBuffer) : GM unit :=
  with_recv (read_skip 8) recv_data (fun _ => upd_player u (set_gp_invited 0) ;; SetInGuild u 0).
Definition HandleGuildInfoOpcode (u : Z) : GM unit := _GetPlayerGuild u true (SendInfo v u).
Definition HandleGuildRosterOpcode (u : Z) : GM unit := _GetPlayerGuild u false (HandleRoster v (Some u)).
Definition HandleGuildPromoteOpcode (u : Z) (recv_data : ByteBuffer) : GM unit :=
  with_recv parse_target recv_data (fun guid => _GetPlayerGuild u true (fun g => HandleUpdateMemberRank v u g guid false)).
Definition HandleGuildDemoteOpcode (u : Z) (recv_data : ByteBuffer) : GM unit :=
  with_recv parse_target recv_data (fun guid => _GetPlayerGuild u true (fun g => HandleUpdateMemberRank v u g guid true)).
Definition HandleGuildLeaveOpcode (u : Z) : GM unit := _GetPlayerGuild u true (HandleLeaveMember v u).
Definition HandleGuildDisbandOpcode (u : Z) : GM unit := _GetPlayerGuild u true (HandleDisband v u).
(** Two GUIDs that are not read, and a text. *)
Definition parse_text : B (list Z) := let? _ := read_skip 8 in let? _ := read_skip 8 in shr_string.
Definition HandleGuildLeaderOpcode (u : Z) (recv_data : ByteBuffer) : GM unit :=
  with_recv parse_text recv_data (fun name =>
    with_name name (fun n => _GetPlayerGuild u true (fun g => HandleSetLeader v u g n))).
Definition HandleGuildChangeInfoTextOpcode (u : Z) (recv_data : ByteBuffer) : GM unit :=
  with_recv parse_text recv_data (fun info => _GetPlayerGuild u true (fun g => HandleSetInfo u g info)).
Definition HandleGuildMOTDOpcode (u : Z) (recv_data : ByteBuffer) : GM unit :=
  with_recv parse_text recv_data (fun motd => _GetPlayerGuild u true (fun g => HandleSetMOTD u g motd)).
(** The guild of the player, if it exists; no error is sent. *)
Definition own_guild (u : Z) (k : Z -> Guild -> GM unit) : GM unit := with_player u (fun p =>
  with_guild tt (gp_guildId p) (k (gp_guildId p))).
Definition HandleGuildExperienceOpcode (u : Z) (recv_data : ByteBuffer) : GM unit :=
  with_recv (read_skip 8) recv_data (fun _ => own_guild u (fun _ x => emit (GuildPacket u (xp_packet x)))).
Definition HandleGuildMaxExperienceOpcode (u : Z) (recv_data : ByteBuffer) : GM unit :=
  with_recv (read_skip 8) recv_data (fun _ => own_guild u (fun _ x =>
    emit (GuildPacket u (Pkt SMSG_GUILD_MAX_DAILY_XP [FU 8 (m_xp_cap x)])))).
Definition rewards_fields (guildId : Z) (l : list (Z * Z * Z * Z)) : list field :=
  [FU 4 guildId; FU 4 (Z.of_nat (length l))] ++ replicate (length l) (FU 4 0) ++ replicate (length l) (FU 4 0) ++
  ((fun r => FU 8 r.1.1.1) <$> l) ++ ((fun r => FU 4 r.1.1.2) <$> l) ++ ((fun r => FU 4 r.1.2) <$> l) ++
  ((fun r => FU 4 r.2) <$> l).
Definition HandleGuildRewardsOpcode (u : Z) (recv_data : ByteBuffer) : GM unit := with_player u (fun p =>
  if (gp_guildId p =? 0) || negb (CONFIG_GUILD_ADVANCEMENT_ENABLED v) then ret tt
  else with_recv (read_skip 8) recv_data (fun _ =>
    when (negb (bool_decide (GuildRewards v = [])))
      (emit (GuildPacket u (Pkt SMSG_GUILD_REWARDS_LIST (rewards_fields (gp_guildId p) (GuildRewards v))))))).
Definition parse_note : B (Z * Z * list Z) :=
  let? ispublic := shr_uint 1 in let? guid := shr_uint 8 in let? _ := read_skip 8 in let? _ := read_skip 8 in
  let? note := shr_string in bret (ispublic, guid, note).
Definition HandleGuildSetNoteOpcode (u : Z) (recv_data : ByteBuffer) : GM unit :=
  with_recv parse_note recv_data (fun '(ispublic, guid, note) =>
    _GetPlayerGuild u true (fun g => HandleSetMemberNote v u g guid note (ispublic =? 0))).

Record RankChange := mkRankChange {
  rc_stacks : list Z; rc_rights : Z; rc_newRank : Z; rc_oldRank : Z; rc_bankRights : list Z; rc_guild : Z;
  rc_money : Z; rc_player : Z; rc_name : list Z
}.
Fixpoint parse_uints (n : nat) : B (list Z) :=
  match n with
  | O => bret []
  | S n' => let? x := shr_uint 4 in let? l := parse_uints n' in bret (x :: l)
  end.
Definition parse_rank : B RankChange :=
  let? stacks := parse_uints (Z.to_nat GUILD_BANK_MAX_TABS) in
  let? rights := shr_uint 4 in let? newRank := shr_uint 4 in let? oldRank := shr_uint 4 in
  let? bankRights := parse_uints (Z.to_nat GUILD_BANK_MAX_TABS) in
  let? guildId := shr_uint 8 in let? _ := shr_uint 4 in let? money := shr_uint 4 in let? player := shr_uint 8 in
  let? name := shr_string in
  bret (mkRankChange stacks rights newRank oldRank bankRights guildId money player name).
Definition HandleGuildRankOpcode (u : Z) (recv_data : ByteBuffer) : GM unit :=
  with_recv parse_rank recv_data (fun r => with_player u (fun p =>
    let refuse := SendCommandResult u GUILD_CREATE_S ERR_GUILD_PLAYER_NOT_IN_GUILD [] in
    if negb (u =? rc_player r) then refuse
    else if negb (gp_guildId p =? GUID_LOPART (rc_guild r)) then refuse
    else _GetPlayerGuild u true (fun g =>
      when (negb (rc_oldRank r =? GR_GUILDMASTER))
        (HandleSetRankInfo v u g (u8 (rc_newRank r)) (rc_name r) (rc_rights r) (rc_money r)
           (zip_with (fun rights slots => mkRights (u8 rights) slots) (rc_bankRights r) (rc_stacks r))) ;;
      when (negb (rc_oldRank r =? rc_newRank r) && negb (rc_oldRank r =? GR_GUILDMASTER) && negb (rc_newRank r =? GR_GUILDMASTER))
        (SwitchRank g (rc_oldRank r) (rc_newRank r))))).
Definition HandleGuildAddRankOpcode (u : Z) : GM unit :=
  _GetPlayerGuild u true (fun g => HandleAddNewRank v u g (text "New Rank")).
Definition HandleGuildDelRankOpcode (u : Z) (recv_data : ByteBuffer) : GM unit :=
  with_recv (shr_uint 4) recv_data (fun rankid => _GetPlayerGuild u true (fun g => HandleRemoveRank v u g (u8 rankid))).

Definition parse_emblem : B (Z * EmblemInfo) :=
  let? vendor := shr_uint 8 in let? a := shr_uint 4 in let? b := shr_uint 4 in let? c := shr_uint 4 in
  let? d := shr_uint 4 in let? e := shr_uint 4 in bret (vendor, mkEmblem a b c d e).
Definition HandleSaveGuildEmblemOpcode (u : Z) (recv_data : ByteBuffer) : GM unit :=
  with_recv parse_emblem recv_data (fun '(vendor, e) =>
    if tabard_designer_near v u vendor then
      when (has_UNIT_STAT_DIED (mv v) u) (emit (GuildRemoveFeignDeath u)) ;;
      with_player u (fun p => with_state (fun s =>
        match (if gp_guildId p =? 0 then None else GuildStore s !! gp_guildId p) with
        | Some _ => HandleSetEmblem v u (gp_guildId p) e
        | None => SendSaveEmblemResult u ERR_GUILDEMBLEM_NOGUILD
        end))
    else SendSaveEmblemResult u ERR_GUILDEMBLEM_INVALIDVENDOR).
Definition HandleGuildEventLogQueryOpcode (u : Z) : GM unit := _GetPlayerGuild u false (SendEventLog v u).
Definition HandleGuildBankMoneyWithdrawn (u : Z) : GM unit := _GetPlayerGuild u false (SendMoneyInfo v u).
Definition HandleGuildPermissions (u : Z) : GM unit := _GetPlayerGuild u false (SendPermissions v u).

(** *** The bank *)

(** A guild bank that is near enough. *)
Definition at_bank (u GoGuid : Z) (k : GM unit) : GM unit := if guild_bank_near v u GoGuid then k else ret tt.

Definition HandleGuildBankerActivate (u : Z) (recv_data : ByteBuffer) : GM unit :=
  with_recv (let? GoGuid := shr_uint 8 in let? _ := shr_uint 1 in bret GoGuid) recv_data (fun GoGuid =>
    at_bank u GoGuid (with_player u (fun p => with_state (fun s =>
      match (if gp_guildId p =? 0 then None else GuildStore s !! gp_guildId p) with
      | Some _ => SendBankTabsInfo v u (gp_guildId p)
      | None => SendCommandResult u GUILD_UNK1 ERR_GUILD_PLAYER_NOT_IN_GUILD []
      end)))).
Definition HandleGuildBankQueryTab (u : Z) (recv_data : ByteBuffer) : GM unit :=
  with_recv (let? GoGuid := shr_uint 8 in let? tabId := shr_uint 1 in let? _ := shr_uint 1 in bret (GoGuid, tabId))
    recv_data (fun '(GoGuid, tabId) =>
      at_bank u GoGuid (_GetPlayerGuild u false (fun g => SendBankTabData v u g tabId))).
Definition parse_money : B (Z * Z) := let? GoGuid := shr_uint 8 in let? money := shr_uint 8 in bret (GoGuid, money).
(** The 64-bit amount is cut to 32 bits. *)
Definition HandleGuildBankDepositMoney (u : Z) (recv_data : ByteBuffer) : GM unit :=
  with_recv parse_money recv_data (fun '(GoGuid, money) => at_bank u GoGuid (with_state (fun s =>
    when (negb (money =? 0) && HasEnough s u (u32 money))
      (_GetPlayerGuild u false (fun g => HandleMemberDepositMoney v u g (u32 money)))))).
Definition HandleGuildBankWithdrawMoney (u : Z) (recv_data : ByteBuffer) : GM unit :=
  with_recv parse_money recv_data (fun '(GoGuid, money) =>
    when (negb (money =? 0)) (at_bank u GoGuid (_GetPlayerGuild u false (fun g =>
      HandleMemberWithdrawMoney v u g (u32 money) false ;; ret tt)))).

(** What CMSG_GUILD_BANK_SWAP_ITEMS asks for. *)
Inductive swap_request :=
| BankToBank (tabId slotId destTabId destSlotId splitedAmount : Z)
| BankAndBags (tabId slotId playerBag playerSlotId : Z) (toChar : bool) (splitedAmount : Z).
Definition parse_swap : B (Z * swap_request) :=
  let? GoGuid := shr_uint 8 in
  let? bankToBank := shr_uint 1 in
  if negb (bankToBank =? 0) then
    let? destTabId := shr_uint 1 in let? destSlotId := shr_uint 1 in let? _ := read_skip 4 in
    let? tabId := shr_uint 1 in let? slotId := shr_uint 1 in let? _ := shr_uint 4 in let? _ := read_skip 1 in
    let? splitedAmount := shr_uint 4 in
    bret (GoGuid, BankToBank tabId slotId destTabId destSlotId splitedAmount)
  else
    let? tabId := shr_uint 1 in let? slotId := shr_uint 1 in let? _ := shr_uint 4 in
    let? autoStore := shr_uint 1 in
    if negb (autoStore =? 0) then
      let? _ := read_skip 4 in let? _ := read_skip 1 in let? _ := read_skip 4 in
      bret (GoGuid, BankAndBags tabId slotId NULL_BAG NULL_SLOT true 0)
    else
      let? playerBag := shr_uint 1 in let? playerSlotId := shr_uint 1 in let? toChar := shr_uint 1 in
      let? splitedAmount := shr_uint 4 in
      bret (GoGuid, BankAndBags tabId slotId playerBag playerSlotId (negb (toChar =? 0)) splitedAmount).
Definition swap_items (u g : Z) (r : swap_request) : GM unit :=
  match r with
  | BankToBank tab slot dtab dslot n => SwapItems v g u tab slot dtab dslot n
  | BankAndBags tab slot bag pslot toChar n =>
      if negb (IsInventoryPos bag pslot) && negb ((bag =? NULL_BAG) && (pslot =? NULL_SLOT)) then equip_error u EQUIP_ERR_NONE None
      else SwapItemsWithInventory v g u toChar tab slot bag pslot n
  end.
Definition HandleGuildBankSwapItems (u : Z) (recv_data : ByteBuffer) : GM unit :=
  with_recv parse_swap recv_data (fun '(GoGuid, r) =>
    at_bank u GoGuid (_GetPlayerGuild u false (fun g => swap_items u g r))).
Definition HandleGuildBankBuyTab (u : Z) (recv_data : ByteBuffer) : GM unit :=
  with_recv (let? GoGuid := shr_uint 8 in let? tabId := shr_uint 1 in bret (GoGuid, tabId)) recv_data (fun '(GoGuid, tabId) =>
    at_bank u GoGuid (_GetPlayerGuild u false (fun g => HandleBuyBankTab v u g tabId))).
Definition HandleGuildBankUpdateTab (u : Z) (recv_data : ByteBuffer) : GM unit :=
  with_recv (let? GoGuid := shr_uint 8 in let? tabId := shr_uint 1 in let? name := shr_string in let? icon := shr_string in
             bret (GoGuid, tabId, name, icon)) recv_data (fun '(GoGuid, tabId, name, icon) =>
    when (negb (bool_decide (name = [])) && negb (bool_decide (icon = [])))
      (at_bank u GoGuid (_GetPlayerGuild u false (fun g => HandleSetBankTabInfo v u g tabId name icon)))).
Definition HandleGuildBankLogQuery (u : Z) (recv_data : ByteBuffer) : GM unit :=
  with_recv (shr_uint 1) recv_data (fun tabId => _GetPlayerGuild u false (fun g => SendBankLog v u g tabId)).
Definition HandleQueryGuildBankTabText (u : Z) (recv_data : ByteBuffer) : GM unit :=
  with_recv (shr_uint 1) recv_data (fun tabId => _GetPlayerGuild u false (fun g => SendText (Some u) g tabId)).
Definition HandleSetGuildBankTabText (u : Z) (recv_data : ByteBuffer) : GM unit :=
  with_recv (let? tabId := shr_uint 1 in let? txt := shr_string in bret (tabId, txt)) recv_data (fun '(tabId, txt) =>
    _GetPlayerGuild u false (fun g => SetBankTabText g tabId txt)).
Definition HandleGuildQueryNews (u : Z) : GM unit := _GetPlayerGuild u false (fun g => with_guild tt g (fun x =>
  emit (GuildPacket u (Pkt SMSG_GUILD_NEWS_UPDATE (news_fields v (m_guild_news x)))))).

(** ** The steps of the server *)

Inductive guild_opcode :=
| CMSG_GUILD_QUERY | CMSG_GUILD_CREATE | CMSG_GUILD_INVITE | CMSG_GUILD_REMOVE | CMSG_GUILD_ACCEPT | CMSG_GUILD_DECLINE
| CMSG_GUILD_INFO | CMSG_GUILD_ROSTER | CMSG_GUILD_PROMOTE | CMSG_GUILD_DEMOTE | CMSG_GUILD_LEAVE | CMSG_GUILD_DISBAND
| CMSG_GUILD_LEADER | CMSG_GUILD_INFO_TEXT | CMSG_GUILD_MOTD | CMSG_QUERY_GUILD_XP | CMSG_QUERY_GUILD_MAX_XP
| CMSG_QUERY_GUILD_REWARDS | CMSG_GUILD_SET_NOTE | CMSG_GUILD_RANK | CMSG_GUILD_ADD_RANK | CMSG_GUILD_DEL_RANK
| CMSG_SAVE_GUILD_EMBLEM | CMSG_GUILD_EVENT_LOG_QUERY | CMSG_GUILD_BANK_MONEY_WITHDRAWN | CMSG_GUILD_PERMISSIONS
| CMSG_GUILD_BANKER_ACTIVATE | CMSG_GUILD_BANK_QUERY_TAB | CMSG_GUILD_BANK_DEPOSIT_MONEY | CMSG_GUILD_BANK_WITHDRAW_MONEY
| CMSG_GUILD_BANK_SWAP_ITEMS | CMSG_GUILD_BANK_BUY_TAB | CMSG_GUILD_BANK_UPDATE_TAB | CMSG_GUILD_BANK_LOG_QUERY
| CMSG_QUERY_GUILD_BANK_TEXT | CMSG_SET_GUILD_BANK_TEXT | CMSG_GUILD_QUERY_NEWS.

Definition handle_guild (u : Z) (op : guild_opcode) (data : ByteBuffer) : GM unit :=
  match op with
  | CMSG_GUILD_QUERY => HandleGuildQueryOpcode u data
  | CMSG_GUILD_CREATE => HandleGuildCreateOpcode u data
  | CMSG_GUILD_INVITE => HandleGuildInviteOpcode u data
  | CMSG_GUILD_REMOVE => HandleGuildRemoveOpcode u data
  | CMSG_GUILD_ACCEPT => HandleGuildAcceptOpcode u data
  | CMSG_GUILD_DECLINE => HandleGuildDeclineOpcode u data
  | CMSG_GUILD_INFO => HandleGuildInfoOpcode u
  | CMSG_GUILD_ROSTER => HandleGuildRosterOpcode u
  | CMSG_GUILD_PROMOTE => HandleGuildPromoteOpcode u data
  | CMSG_GUILD_DEMOTE => HandleGuildDemoteOpcode u data
  | CMSG_GUILD_LEAVE => HandleGuildLeaveOpcode u
  | CMSG_GUILD_DISBAND => HandleGuildDisbandOpcode u
  | CMSG_GUILD_LEADER => HandleGuildLeaderOpcode u data
  | CMSG_GUILD_INFO_TEXT => HandleGuildChangeInfoTextOpcode u data
  | CMSG_GUILD_MOTD => HandleGuildMOTDOpcode u data
  | CMSG_QUERY_GUILD_XP => HandleGuildExperienceOpcode u data
  | CMSG_QUERY_GUILD_MAX_XP => HandleGuildMaxExperienceOpcode u data
  | CMSG_QUERY_GUILD_REWARDS => HandleGuildRewardsOpcode u data
  | CMSG_GUILD_SET_NOTE => HandleGuildSetNoteOpcode u data
  | CMSG_GUILD_RANK => HandleGuildRankOpcode u data
  | CMSG_GUILD_ADD_RANK => HandleGuildAddRankOpcode u
  | CMSG_GUILD_DEL_RANK => HandleGuildDelRankOpcode u data
  | CMSG_SAVE_GUILD_EMBLEM => HandleSaveGuildEmblemOpcode u data
  | CMSG_GUILD_EVENT_LOG_QUERY => HandleGuildEventLogQueryOpcode u
  | CMSG_GUILD_BANK_MONEY_WITHDRAWN => HandleGuildBankMoneyWithdrawn u
  | CMSG_GUILD_PERMISSIONS => HandleGuildPermissions u
  | CMSG_GUILD_BANKER_ACTIVATE => HandleGuildBankerActivate u data
  | CMSG_GUILD_BANK_QUERY_TAB => HandleGuildBankQueryTab u data
  | CMSG_GUILD_BANK_DEPOSIT_MONEY => HandleGuildBankDepositMoney u data
  | CMSG_GUILD_BANK_WITHDRAW_MONEY => HandleGuildBankWithdrawMoney u data
  | CMSG_GUILD_BANK_SWAP_ITEMS => HandleGuildBankSwapItems u data
  | CMSG_GUILD_BANK_BUY_TAB => HandleGuildBankBuyTab u data
  | CMSG_GUILD_BANK_UPDATE_TAB => HandleGuildBankUpdateTab u data
  | CMSG_GUILD_BANK_LOG_QUERY => HandleGuildBankLogQuery u data
  | CMSG_QUERY_GUILD_BANK_TEXT => HandleQueryGuildBankTabText u data
  | CMSG_SET_GUILD_BANK_TEXT => HandleSetGuildBankTabText u data
  | CMSG_GUILD_QUERY_NEWS => HandleGuildQueryNews u
  end.
(** The opcode that is handled for a session without a player in the world. *)
Definition status_authed (op : guild_opcode) : bool := match op with CMSG_GUILD_QUERY => true | _ => false end.

(** The guild part of [HandlePlayerLogin]: the player is not in the world yet. *)
Definition guild_row (s : GuildWorld) (u : Z) : Z * Z :=
  match t_guild_member s !! GUID_LOPART u with Some r => (mr_guild r, mr_rank r) | None => (0, 0) end.
Definition LoginGuild (u : Z) : GM unit := with_state (fun s =>
  match players s !! u with
  | Some _ => ret tt
  | None =>
      let '(g, rank) := guild_row s u in
      modify (on_players (insert u (mkGuildPlayer false g rank 0))) ;;
      if g =? 0 then ret tt
      else match GuildStore s !! g with
      | Some _ =>
          SendLoginInfo v u g ;;
          with_guild tt g (fun x =>
            emit (PlayerGuildLevel u (m_level x)) ;;
            when (CONFIG_GUILD_ADVANCEMENT_ENABLED v) (emit (GuildLevelEnabled u) ;; learn_perks v u (m_level x)))
      | None => SetInGuild u 0
      end
  end).
(** The guild part of [LogoutPlayer]; the [Player] is deleted. *)
Definition LogoutGuild (u : Z) : GM unit := with_player u (fun p =>
  HandleMemberLogout v u (gp_guildId p) ;; modify (on_players (delete u))).
(** The world is left and entered again. *)
Definition TravelGuild (u : Z) (arrives : bool) : GM unit := upd_player u (set_gp_inWorld arrives).

Definition LANG_UNIVERSAL : Z := 0.
Definition LANG_ADDON : Z := 0xFFFFFFFF.
Definition HandleGuildChat (u : Z) (officer : bool) (msg : list Z) (lang : Z) : GM unit := own_guild u (fun g _ =>
  emit (GuildOnPlayerChat u g officer msg lang) ;;
  BroadcastToGuild v u g officer msg (if lang =? LANG_ADDON then LANG_ADDON else LANG_UNIVERSAL)).
(** A repair the guild pays for: whether it does. *)
Definition RepairFromGuild (u costs : Z) : GM bool := with_state (fun s =>
  match players s !! u with
  | Some p => if gp_guildId p =? 0 then ret false else HandleMemberWithdrawMoney v u (gp_guildId p) costs true
  | None => ret false
  end).
(** A character is deleted, or changes to the other faction. *)
Definition DeleteFromGuild (guid : Z) : GM unit := with_state (fun s =>
  if GetGuildIdFromDB s guid =? 0 then ret tt
  else DeleteMember v (GetGuildIdFromDB s guid) (GUID_LOPART guid) false false).

Inductive guild_step :=
| GuildPacketIn (u : Z) (op : guild_opcode) (data : ByteBuffer)
| GuildLogin (u : Z)
| GuildLogout (u : Z)
| GuildTravel (u : Z) (arrives : bool)
| GuildSay (u : Z) (officer : bool) (msg : list Z) (lang : Z)
| GuildXP (u xp : Z)
| GuildRepair (u costs : Z)
| GuildData (u dataid value : Z)
| GuildStatus (u flag : Z) (state : bool)
| GuildCharDelete (guid : Z).

Definition run_guild_step (st : guild_step) : GM unit :=
  match st with
  | GuildPacketIn u op data => with_state (fun s =>
      if status_authed op || bool_decide (is_Some (FindPlayer s u)) then handle_guild u op data else ret tt)
  | GuildLogin u => LoginGuild u
  | GuildLogout u => LogoutGuild u
  | GuildTravel u arrives => TravelGuild u arrives
  | GuildSay u officer msg lang => HandleGuildChat u officer msg lang
  | GuildXP u xp => own_guild u (fun g _ => GainXP v g xp)
  | GuildRepair u costs => RepairFromGuild u costs ;; ret tt
  | GuildData u dataid value => own_guild u (fun g _ => UpdateMemberData v u g dataid value)
  | GuildStatus u flag state => own_guild u (fun g _ => OnPlayerStatusChange u g flag state)
  | GuildCharDelete guid => DeleteFromGuild guid
  end.
End handlers.
