(* ===== verification/GuildSample.v ===== *)
(** * A server for the examples of guilds

    A small configuration of what the guild code reads of the rest of the server, a
    store of three players, and the packets the examples use. *)
From Stdlib Require Import SpecFloat.
From S2P Require Import Prelude Text ByteBuffer Market MarketRuns Guild GuildBank GuildHandler.

(** Hash tables that are visited in the order of the identifiers, and backwards. *)
Definition key_order : HashOrder := {| hash_list A m := omap_list m |}.
Definition reverse_order : HashOrder := {| hash_list A m := rev (omap_list m) |}.
Lemma key_order_laws : @HashOrderLaws key_order.
Proof. constructor. intros A m. apply omap_list_perm. Qed.
Lemma reverse_order_laws : @HashOrderLaws reverse_order.
Proof.
  constructor. intros A m. cbn. rewrite <- (omap_list_perm m). symmetry. apply Permutation_rev.
Qed.

Definition sample_name (u : Z) : list Z :=
  if u =? 1 then text "Ann" else if u =? 2 then text "Bob" else if u =? 3 then text "Eve" else text "Zed".
(** A free position of the backpack. *)
Definition free_position (s : GuildWorld) (u : Z) : option Z :=
  head (filter (fun pos => slots s !! InBags u pos = None) (bag_pos INVENTORY_SLOT_BAG_0 <$> seqZ INVENTORY_SLOT_ITEM_START 16)).
Definition sample_can_store (s : GuildWorld) (u bag slot i : Z) (swap : bool) : Z * list (Z * Z) :=
  if swap then (EQUIP_ERR_OK, [(bag_pos bag slot, item_count s i)])
  else match free_position s u with
  | Some pos => (EQUIP_ERR_OK, [(pos, item_count s i)])
  | None => (EQUIP_ERR_BANK_FULL, [])
  end.
Definition sample_guild_view (t loot : Z) : GuildView := {|
  mv := sample_market_view t;
  getMSTime := 1000 * t;
  CONFIG_GUILD_EVENT_LOG_COUNT := 3;
  CONFIG_GUILD_BANK_EVENT_LOG_COUNT := 3;
  CONFIG_ALLOW_TWO_SIDE_INTERACTION_GUILD := true;
  CONFIG_GUILD_ADVANCEMENT_ENABLED := true;
  CONFIG_GUILD_ADVANCEMENT_MAX_LEVEL := 25;
  Guild_AllowMultipleGuildMaster := false;
  GetName := sample_name;
  getClass _ := 1;
  GetZoneId _ := 12;
  GetAchievementPoints _ := 0;
  GetSkillValue _ _ := 0;
  GetSessionDbLocaleIndex _ := 0;
  HasIgnore _ _ := false;
  HasAura _ _ := false;
  GetLootGUID _ := loot;
  FindPlayerByName name :=
    if bool_decide (name = text "Ann") then Some 1 else if bool_decide (name = text "Bob") then Some 2
    else if bool_decide (name = text "Eve") then Some 3 else None;
  profession_spells _ := [];
  GetSpellRank _ := 0;
  character_row u := Some (sample_name u, 80, 1, 12, u + 100);
  GetPlayerTeamByGUID _ := 469;
  GetZoneIdFromDB _ := 12;
  mGuildXPperLevel := seqZ 0 27;
  GuildPerksStore := [Some 78631; None];
  GuildRewards := [];
  GetDarkCoreString id _ := [id mod 256];
  guild_bank_near _ _ := true;
  tabard_designer_near _ _ := true;
  GetMaxStackSize _ := 20;
  proto_SpellCharges _ := 0;
  binds_when_stored _ _ := false;
  bag_is_filled _ := false;
  CanBeTradedNow _ := true;
  random_properties _ _ := (0, []);
  CanStoreItem_at := sample_can_store
|}.

(** Ann (1), Bob (2) and Eve (3); Ann carries ten and fifteen pieces of cloth. *)
Definition cloth (n : Z) : Item := mkItem 2589 n 0 0 0 0 [].
Definition sample_world : GuildWorld :=
  mkWorld (on_gold (fun _ => {[ 1 := 3000000; 2 := 5000000; 3 := 6000000 ]}) sample_market) ∅ 1 ∅ {[ 7 := cloth 10; 8 := cloth 15 ]}
    {[ InBags 1 (bag_pos 255 23) := 7; InBags 1 (bag_pos 255 24) := 8 ]} 20 ∅ ∅ ∅ ∅ {[ 7 := cloth 10; 8 := cloth 15 ]} ∅ ∅.

Definition in_packet (t u : Z) (op : guild_opcode) (fs : list field) : HashOrder * GuildView * guild_step :=
  (key_order, sample_guild_view t 0, GuildPacketIn u op (packet_of fs)).
Definition step_at (t : Z) (st : guild_step) : HashOrder * GuildView * guild_step := (key_order, sample_guild_view t 0, st).
Definition arrivals : list (HashOrder * GuildView * guild_step) :=
  concat ((fun u => [step_at 0 (GuildLogin u); step_at 0 (GuildTravel u true)]) <$> [1; 2; 3]).
(** Ann founds a guild and Bob joins it. *)
Definition founded : list (HashOrder * GuildView * guild_step) :=
  arrivals ++
  [in_packet 10 1 CMSG_GUILD_CREATE [FStr (text "Knights")];
   in_packet 20 1 CMSG_GUILD_INVITE [FStr (text "bob")];
   in_packet 20 2 CMSG_GUILD_ACCEPT [FU 8 0]].
(** She buys a bank tab for it, he brings it money and takes some back. *)
Definition bank_run : list (HashOrder * GuildView * guild_step) :=
  founded ++
  [in_packet 30 1 CMSG_GUILD_BANK_BUY_TAB [FU 8 700; FU 1 0];
   in_packet 40 2 CMSG_GUILD_BANK_DEPOSIT_MONEY [FU 8 700; FU 8 40000];
   in_packet 50 1 CMSG_GUILD_BANK_WITHDRAW_MONEY [FU 8 700; FU 8 15000];
   step_at 60 (GuildRepair 1 250); step_at 70 (GuildLogout 2); step_at 80 (GuildCharDelete 2)].
