(* ===== verification/GuildCore.v ===== *)
(** * What guild programs leave alone

    Most programs of a guild change texts, ranks, logs, statistics and daily limits,
    and send packets.  [core] is the rest of the state: the gold, the rosters, the
    players' guilds and the items, with their rows.  This file shows which programs
    keep it ([frames core]). *)
From Stdlib Require Import SpecFloat.
From S2P Require Import Prelude Text ByteBuffer Market.
From S2P Require Import Guild GuildBank GuildHandler.

(** ** The core of the state *)

Definition core_member (m : Member) : Z * Z := (mb_guid m, mb_rankId m).
Record CoreGuild := mkCoreGuild {
  cg_leader : Z;
  cg_money : Z;
  cg_tabs : nat;
  cg_ranks : nat;
  cg_members : gmap Z (Z * Z)
}.
Definition core_guild (x : Guild) : CoreGuild :=
  mkCoreGuild (m_leaderGuid x) (m_bankMoney x) (length (m_bankTabs x)) (length (m_ranks x)) (core_member <$> m_members x).
Definition core_player (p : GuildPlayer) : bool * Z * Z := (gp_inWorld p, gp_guildId p, gp_rank p).
Record Core := mkCore {
  c_gold : gmap Z Z;
  c_guilds : gmap Z CoreGuild;
  c_next : Z;
  c_players : gmap Z (bool * Z * Z);
  c_items : gmap Z Item * gmap place Z * Z;
  c_guild_rows : gmap Z GuildRow;
  c_member_rows : gmap Z MemberRow;
  c_item_rows : gmap (Z * Z * Z) Z * gmap Z Item
}.
Definition core (s : GuildWorld) : Core :=
  mkCore (gold (market s)) (core_guild <$> GuildStore s) (NextGuildId s) (core_player <$> players s)
    (item_store s, slots s, next_item s) (t_guild s) (t_guild_member s) (t_guild_bank_item s, t_item_instance s).

Abbreviation frames π := (runs (fun s s' => π s' = π s)).

Lemma fmap_alter_same {A B} (h : A -> B) (f : A -> A) (k : Z) (m : gmap Z A) :
  (forall a, h (f a) = h a) -> h <$> alter f k m = h <$> m.
Proof.
  intros Hf. apply map_eq. intros j. rewrite !lookup_fmap. destruct (decide (k = j)) as [<-|Hj].
  - rewrite lookup_alter_eq. destruct (m !! k); [cbn; by rewrite Hf | done].
  - by rewrite lookup_alter_ne.
Qed.

Section structure.
Context (R : GuildWorld -> GuildWorld -> Prop) `{!PreOrder R}.

Lemma runs_with_guild {A} (d : A) g k : (forall x, runs R (k x)) -> runs R (with_guild d g k).
Proof. intros Hk. apply runs_with_state. intros s. destruct (GuildStore s !! g); [apply Hk | by apply runs_ret]. Qed.
Lemma runs_with_player u k : (forall p, runs R (k p)) -> runs R (with_player u k).
Proof. intros Hk. apply runs_with_state. intros s. destruct (players s !! u); [apply Hk | by apply runs_ret]. Qed.
Lemma runs_with_rank g r k : (forall x, runs R (k x)) -> runs R (with_rank g r k).
Proof. intros Hk. apply runs_with_guild. intros x. destruct (GetRankInfo r x); [apply Hk | by apply runs_ret]. Qed.
Lemma runs_with_recv {A} (parse : B A) data k :
  (forall a, (parse data).1 = Ok a -> runs R (k a)) -> runs R (with_recv parse data k).
Proof. intros Hk. unfold with_recv. destruct (parse data).1; [by apply Hk | by apply runs_ret]. Qed.
Lemma runs_Execute st : (forall s, R s (guild_execute st s)) -> runs R (Execute st).
Proof. intros Hst. apply runs_bind; [done | by apply runs_modify | intros _; by apply runs_emit]. Qed.
End structure.

(** One step through a program; a leaf is looked up in the database [runs]. *)
Ltac runs_step :=
  cbn beta iota zeta;
  lazymatch goal with
  | |- forall _, _ => intros ?
  | |- runs _ (ret _) => apply runs_ret; exact _
  | |- runs _ (emit _) => apply runs_emit; exact _
  | |- runs _ (bind _ _) => first [solve [auto 2 with runs nocore] | apply runs_bind; [exact _ | | ]]
  | |- runs _ (when _ _) => apply runs_when; [exact _ |]
  | |- runs _ (with_state _) => apply runs_with_state
  | |- runs _ (with_guild _ _ _) => apply runs_with_guild; [exact _ |]
  | |- runs _ (with_player _ _) => apply runs_with_player; [exact _ |]
  | |- runs _ (with_rank _ _ _) => apply runs_with_rank; [exact _ |]
  | |- runs _ (with_recv _ _ _) => apply runs_with_recv; [exact _ |]
  | |- runs _ (for_each _ _) => apply runs_for_each; [exact _ |]
  | |- runs _ (match ?x with _ => _ end) => destruct x eqn:?
  | |- runs _ _ => solve [auto 3 with runs nocore]
  end.
Ltac runs_through := repeat runs_step.

Lemma frames_upd_guild g f : (forall x, core_guild (f x) = core_guild x) -> frames core (upd_guild g f).
Proof. intros Hf. apply runs_modify. intros s. unfold core. cbn. by rewrite fmap_alter_same. Qed.
Lemma frames_on_members g f : (forall ms, core_member <$> f ms = core_member <$> ms) -> frames core (upd_guild g (on_members f)).
Proof. intros Hf. apply frames_upd_guild. intros x. unfold core_guild. cbn. by rewrite Hf. Qed.
Lemma frames_upd_member g low f : (forall m, core_member (f m) = core_member m) -> frames core (upd_member g low f).
Proof. intros Hf. apply frames_on_members. intros ms. by apply fmap_alter_same. Qed.
Lemma frames_upd_player u f : (forall p, core_player (f p) = core_player p) -> frames core (upd_player u f).
Proof. intros Hf. apply runs_modify. intros s. unfold core. cbn. by rewrite fmap_alter_same. Qed.
Lemma frames_on_bankTabs g f : (forall l, length (f l) = length l) -> frames core (upd_guild g (on_bankTabs f)).
Proof. intros Hf. apply frames_upd_guild. intros x. unfold core_guild. cbn. by rewrite Hf. Qed.
Lemma frames_on_ranks g f : (forall l, length (f l) = length l) -> frames core (upd_guild g (on_ranks f)).
Proof. intros Hf. apply frames_upd_guild. intros x. unfold core_guild. cbn. by rewrite Hf. Qed.
Lemma core_rank_members r f ms : (forall m, core_member (f m) = core_member m) ->
  core_member <$> on_rank_members r f ms = core_member <$> ms.
Proof.
  intros Hf. unfold on_rank_members. rewrite <- map_fmap_compose. apply map_fmap_ext. intros k m _. cbn.
  destruct (IsRank r m); [apply Hf | done].
Qed.

#[export] Hint Extern 2 (runs _ (Execute _)) => (apply runs_Execute; [exact _ | intros ?; reflexivity]) : runs.
#[export] Hint Extern 3 (runs _ (upd_member _ _ _)) => (apply frames_upd_member; intros ?; reflexivity) : runs.
#[export] Hint Extern 3 (runs _ (upd_player _ _)) => (apply frames_upd_player; intros ?; reflexivity) : runs.
#[export] Hint Extern 3 (runs _ (upd_guild _ _)) =>
  first [ apply frames_upd_guild; intros ?; reflexivity
        | apply frames_on_members; intros ?; by apply core_rank_members
        | apply frames_on_bankTabs; intros ?; by rewrite length_insert
        | apply frames_on_ranks; intros ?; by rewrite ?length_insert, ?length_alter ] : runs.

Section core_programs.
Context `{!HashOrder} (v : GuildView).

Lemma core_SendCommandResult u t e p : frames core (SendCommandResult u t e p).
Proof. apply runs_emit; exact _. Qed.
Hint Resolve core_SendCommandResult : runs.
Lemma core_LogEvent g a b c d : frames core (_LogEvent v g a b c d).
Proof. unfold _LogEvent, event_save. runs_through. Qed.
Lemma core_LogBankEvent g a b c d e f : frames core (_LogBankEvent v g a b c d e f).
Proof. unfold _LogBankEvent, bank_event_save. runs_through. Qed.
Lemma core_send_members x t d : frames core (send_members x t d).
Proof. unfold send_members. runs_through. Qed.
Hint Resolve core_LogEvent core_LogBankEvent core_send_members : runs.
Lemma core_BroadcastPacket g d : frames core (BroadcastPacket g d).
Proof. unfold BroadcastPacket. runs_through. Qed.
Hint Resolve core_BroadcastPacket : runs.
Lemma core_BroadcastEvent g e u p : frames core (_BroadcastEvent g e u p).
Proof. apply core_BroadcastPacket. Qed.
Lemma core_send_to o g d : frames core (send_to o g d).
Proof. unfold send_to. runs_through. Qed.
Hint Resolve core_BroadcastEvent core_send_to : runs.
Lemma core_SendGuildRankInfo o g : frames core (SendGuildRankInfo o g).
Proof. unfold SendGuildRankInfo. runs_through. Qed.
Hint Resolve core_SendGuildRankInfo : runs.
Lemma core_HandleRoster o g : frames core (HandleRoster v o g).
Proof. unfold HandleRoster, SendUpdateRoster. runs_through. Qed.
Lemma core_HandleQuery u g : frames core (HandleQuery u g).
Proof. unfold HandleQuery. runs_through. Qed.
Hint Resolve core_HandleRoster core_HandleQuery : runs.

Lemma core_SetName g r n : frames core (SetName g r n).
Proof. unfold SetName, upd_rank. runs_through. Qed.
Lemma core_SetRights g r n : frames core (SetRights g r n).
Proof. unfold SetRights, upd_rank. runs_through. Qed.
Lemma core_SetRankMoney g r n : frames core (_SetRankBankMoneyPerDay g r n).
Proof. unfold _SetRankBankMoneyPerDay, SetBankMoneyPerDay, upd_rank. runs_through. Qed.
Lemma core_SetRankTab g r t x b : frames core (_SetRankBankTabRightsAndSlots g r t x b).
Proof. unfold _SetRankBankTabRightsAndSlots, SetBankTabSlotsAndRights, upd_rank. runs_through. Qed.
Hint Resolve core_SetName core_SetRights core_SetRankMoney core_SetRankTab : runs.
Lemma core_SwitchRank g a b : frames core (SwitchRank g a b).
Proof. unfold SwitchRank. runs_through. Qed.
Hint Resolve core_SwitchRank : runs.

Lemma core_UpdateAccountsNumber g : frames core (_UpdateAccountsNumber g).
Proof. unfold _UpdateAccountsNumber. runs_through. Qed.
Lemma core_learn_perks u l : frames core (learn_perks v u l).
Proof. unfold learn_perks. runs_through. Qed.
Lemma core_remove_perks u : frames core (remove_perks v u).
Proof. unfold remove_perks. runs_through. Qed.
Lemma core_LevelUp g : frames core (LevelUp v g).
Proof. unfold LevelUp. runs_through. Qed.
Hint Resolve core_UpdateAccountsNumber core_learn_perks core_remove_perks core_LevelUp : runs.
Lemma core_gain_loop n g l x : frames core (gain_loop v n g l x).
Proof. revert l x. induction n as [|n IH]; intros l x; cbn [gain_loop]; runs_through. Qed.
Lemma core_AddGuildNews g a b c d e : frames core (AddGuildNews v g a b c d e).
Proof. unfold AddGuildNews. runs_through. Qed.
Hint Resolve core_gain_loop core_AddGuildNews : runs.
Lemma core_GainXP g xp : frames core (GainXP v g xp).
Proof. unfold GainXP, SaveXP. runs_through. Qed.
End core_programs.
#[export] Hint Resolve core_SendCommandResult core_LogEvent core_LogBankEvent core_send_members core_BroadcastPacket
  core_BroadcastEvent core_send_to core_SendGuildRankInfo core_HandleRoster core_HandleQuery core_SetName core_SetRights
  core_SetRankMoney core_SetRankTab core_SwitchRank core_UpdateAccountsNumber
  core_learn_perks core_remove_perks core_AddGuildNews core_GainXP : runs.

Section member_programs.
Context `{!HashOrder} (v : GuildView).

Lemma core_denied u t : frames core (denied u t).
Proof. apply core_SendCommandResult. Qed.
Hint Resolve core_denied : runs.
Lemma core_BroadcastToGuild u g o m l : frames core (BroadcastToGuild v u g o m l).
Proof. unfold BroadcastToGuild. runs_through. Qed.
Lemma core_HandleSetMOTD u g t : frames core (HandleSetMOTD u g t).
Proof. unfold HandleSetMOTD. runs_through. Qed.
Lemma core_HandleSetInfo u g t : frames core (HandleSetInfo u g t).
Proof. unfold HandleSetInfo. runs_through. Qed.
Lemma core_HandleSetMemberNote u g w n o : frames core (HandleSetMemberNote v u g w n o).
Proof.
  unfold HandleSetMemberNote, set_note. runs_through.
  apply frames_upd_member. intros ?. by destruct o.
Qed.
Lemma core_HandleInviteMember u g n : frames core (HandleInviteMember v u g n).
Proof. unfold HandleInviteMember. runs_through. Qed.
Lemma core_HandleMemberLogout u g : frames core (HandleMemberLogout v u g).
Proof. unfold HandleMemberLogout. runs_through. Qed.
Lemma core_UpdateMemberData u g d x : frames core (UpdateMemberData v u g d x).
Proof.
  apply frames_upd_member. intros m. unfold member_data. repeat destruct (_ =? _); done.
Qed.
Lemma core_OnPlayerStatusChange u g f b : frames core (OnPlayerStatusChange u g f b).
Proof. apply frames_upd_member. intros m. by destruct b. Qed.
Lemma core_SendInfo u g : frames core (SendInfo v u g).
Proof. unfold SendInfo. runs_through. Qed.
Lemma core_SendEventLog u g : frames core (SendEventLog v u g).
Proof. unfold SendEventLog. runs_through. Qed.
End member_programs.
#[export] Hint Resolve core_denied core_BroadcastToGuild core_HandleSetMOTD core_HandleSetInfo core_HandleSetMemberNote
  core_HandleInviteMember core_HandleMemberLogout core_UpdateMemberData
  core_OnPlayerStatusChange core_SendInfo core_SendEventLog : runs.

Section bank_programs.
Context `{!Utf8Lib} `{!HashOrder} (v : GuildView).

Lemma core_Remaining g low t : frames core (GetBankRemainingValue v g low t).
Proof. unfold GetBankRemainingValue. runs_through. Qed.
Lemma core_MemberSlots g u t : frames core (_GetMemberRemainingSlots v g u t).
Proof. apply core_Remaining. Qed.
Lemma core_MemberMoney g u : frames core (_GetMemberRemainingMoney v g u).
Proof. apply core_Remaining. Qed.
Lemma core_DecreaseRemaining g low t n : frames core (DecreaseBankRemainingValue g low t n).
Proof. unfold DecreaseBankRemainingValue. runs_through. Qed.
Hint Resolve core_Remaining core_MemberSlots core_MemberMoney core_DecreaseRemaining : runs.
Lemma core_DecreaseSlots g u t : frames core (_DecreaseMemberRemainingSlots v g u t).
Proof. unfold _DecreaseMemberRemainingSlots. runs_through. Qed.
Lemma core_SendBankTabsInfo u g : frames core (SendBankTabsInfo v u g).
Proof. unfold SendBankTabsInfo. runs_through. Qed.
Lemma core_SendBankContent u g t : frames core (_SendBankContent v u g t).
Proof. unfold _SendBankContent. runs_through. Qed.
Lemma core_SendBankMoneyUpdate u g : frames core (_SendBankMoneyUpdate v u g).
Proof. unfold _SendBankMoneyUpdate. runs_through. Qed.
Lemma core_SendMoneyInfo u g : frames core (SendMoneyInfo v u g).
Proof. unfold SendMoneyInfo. runs_through. Qed.
Hint Resolve core_DecreaseSlots core_SendBankTabsInfo core_SendBankContent core_SendBankMoneyUpdate core_SendMoneyInfo : runs.
Lemma core_SendBankTabData u g t : frames core (SendBankTabData v u g t).
Proof. unfold SendBankTabData. runs_through. Qed.
Lemma core_SendBankLog u g t : frames core (SendBankLog v u g t).
Proof. unfold SendBankLog. runs_through. Qed.
Lemma core_SendText o g t : frames core (SendText o g t).
Proof. unfold SendText. runs_through. Qed.
Lemma core_tab_permissions u g r l : frames core (tab_permissions v u g r l).
Proof. induction l as [|t l IH]; cbn [tab_permissions]; runs_through. Qed.
Hint Resolve core_SendBankTabData core_SendBankLog core_SendText core_tab_permissions : runs.
Lemma core_SendPermissions u g : frames core (SendPermissions v u g).
Proof. unfold SendPermissions. runs_through. Qed.
Lemma core_HandleSetRankInfo u g r n i m l : frames core (HandleSetRankInfo v u g r n i m l).
Proof. unfold HandleSetRankInfo. runs_through. Qed.
Lemma core_HandleSetBankTabInfo u g t n i : frames core (HandleSetBankTabInfo v u g t n i).
Proof. unfold HandleSetBankTabInfo. runs_through. Qed.
Lemma core_SetBankTabText g t x : frames core (SetBankTabText g t x).
Proof. unfold SetBankTabText. runs_through. Qed.
Lemma core_SendLoginInfo u g : frames core (SendLoginInfo v u g).
Proof. unfold SendLoginInfo. runs_through. Qed.
Lemma core_equip_error u e i : frames core (equip_error u e i).
Proof. apply runs_emit; exact _. Qed.
Lemma core_send_content g t c : frames core (send_content v g t c).
Proof. unfold send_content. runs_through. Qed.
Hint Resolve core_equip_error core_send_content : runs.
Lemma core_InitItem g u d : frames core (InitItem v g u d).
Proof. unfold InitItem. runs_through. Qed.
Lemma core_HasStoreRights g u d e : frames core (HasStoreRights g u d e).
Proof. unfold HasStoreRights. runs_through. Qed.
Lemma core_HasWithdrawRights g u d e : frames core (HasWithdrawRights v g u d e).
Proof. unfold HasWithdrawRights. runs_through. Qed.
Lemma core_CanStore g u d i b c : frames core (CanStore v g u d i b c).
Proof. unfold CanStore. runs_through. Qed.
Lemma core_LogBankEvent_move g u d f e c : frames core (LogBankEvent v g u d f e c).
Proof. unfold LogBankEvent. runs_through. Qed.
Lemma core_LogAction g u f : frames core (LogAction g u f).
Proof. unfold LogAction. runs_through. Qed.
Lemma core_SendBankContentUpdate g d e : frames core (_SendBankContentUpdate v g d e).
Proof. unfold _SendBankContentUpdate. runs_through. Qed.
End bank_programs.
#[export] Hint Resolve core_Remaining core_MemberSlots core_MemberMoney core_DecreaseRemaining core_DecreaseSlots
  core_SendBankTabsInfo core_SendBankContent core_SendBankMoneyUpdate core_SendMoneyInfo core_SendBankTabData
  core_SendBankLog core_SendText core_SendPermissions core_HandleSetRankInfo core_HandleSetBankTabInfo core_SetBankTabText
  core_SendLoginInfo core_equip_error core_InitItem core_HasStoreRights core_HasWithdrawRights core_CanStore
  core_LogBankEvent_move core_LogAction core_SendBankContentUpdate : runs.

(** *** Programs run from states that satisfy a condition on the core *)

Definition runs_from (P : Core -> Prop) (R : GuildWorld -> GuildWorld -> Prop) {A} (m : GM A) : Prop :=
  forall s, P (core s) -> R s (run_state m s).
(** The preorders that ignore what is outside the core. *)
Class CoreOrder (R : GuildWorld -> GuildWorld -> Prop) := {
  co_preorder :: PreOrder R;
  co_core : forall s s', core s' = core s -> R s s'
}.

Section runs_from.
Context (R : GuildWorld -> GuildWorld -> Prop) `{!CoreOrder R}.

Lemma runs_core {A} (m : GM A) : frames core m -> runs R m.
Proof. apply runs_weaken. intros s s'. apply co_core. Qed.
Lemma runs_from_runs {A} P (m : GM A) : runs R m -> runs_from P R m.
Proof. intros Hm s _. apply Hm. Qed.
Lemma runs_from_frame {A B} P (m : GM A) (k : A -> GM B) :
  frames core m -> (forall a, runs_from P R (k a)) -> runs_from P R (bind m k).
Proof.
  intros Hm Hk s Hs. rewrite run_state_bind. etransitivity; [by apply co_core, Hm|].
  apply Hk. by rewrite Hm.
Qed.
Lemma runs_from_then {A B} P (m : GM A) (k : A -> GM B) :
  runs_from P R m -> (forall a, runs R (k a)) -> runs_from P R (bind m k).
Proof. intros Hm Hk s Hs. rewrite run_state_bind. etransitivity; [by apply Hm | apply Hk]. Qed.
Lemma runs_from_state {A} P (k : GuildWorld -> GM A) :
  (forall s0, runs_from (fun c => P c /\ c = core s0) R (k s0)) -> runs_from P R (with_state k).
Proof. intros Hk s Hs. apply Hk. done. Qed.
Lemma runs_from_when P (b : bool) (m : GM unit) : (b = true -> runs_from P R m) -> runs_from P R (when b m).
Proof. destruct b; [auto | intros _; apply runs_from_runs, runs_ret, _]. Qed.
Lemma runs_from_if {A} P (b : bool) (m n : GM A) :
  (b = true -> runs_from P R m) -> (b = false -> runs_from P R n) -> runs_from P R (if b then m else n).
Proof. destruct b; auto. Qed.
Lemma runs_from_weaken {A} (P Q : Core -> Prop) (m : GM A) : (forall c, P c -> Q c) -> runs_from Q R m -> runs_from P R m.
Proof. intros HPQ Hm s Hs. by apply Hm, HPQ. Qed.
Lemma runs_from_runs_all {A} (m : GM A) : runs_from (fun _ => True) R m -> runs R m.
Proof. intros Hm s. by apply Hm. Qed.
Lemma runs_from_with_guild {A} P (d : A) g (k : Guild -> GM A) :
  (forall x, runs_from (fun c => P c /\ c_guilds c !! g = Some (core_guild x)) R (k x)) -> runs_from P R (with_guild d g k).
Proof.
  intros Hk s Hs. change (run_state (with_guild d g k) s) with
    (run_state (match GuildStore s !! g with Some x => k x | None => ret d end) s).
  destruct (GuildStore s !! g) as [x|] eqn:Hx; [|reflexivity].
  apply Hk. split; [done|]. cbn. by rewrite lookup_fmap, Hx.
Qed.
Lemma runs_bind2 {A B C} (m : GM A) (n : GM B) (k : GM C) P :
  runs_from P R (m ;; n) -> runs R k -> runs_from P R (m ;; n ;; k).
Proof.
  intros Hm Hk s Hs. specialize (Hm s Hs). rewrite !run_state_bind in *. etransitivity; [apply Hm | apply Hk].
Qed.
End runs_from.

(** ** What moving items leaves alone

    The purses and the money of the banks, the rosters, and what players know of their
    guild: everything of the core but the tabs and the items. *)
Definition ledger_guild (x : Guild) : Z * Z * nat * gmap Z (Z * Z) :=
  (m_leaderGuid x, m_bankMoney x, length (m_ranks x), core_member <$> m_members x).
Definition ledger (s : GuildWorld) : gmap Z Z * gmap Z (Z * Z * nat * gmap Z (Z * Z)) * Z * gmap Z (bool * Z * Z) * gmap Z MemberRow :=
  (gold (market s), ledger_guild <$> GuildStore s, NextGuildId s, core_player <$> players s, t_guild_member s).
#[export] Instance ledger_order : CoreOrder (fun s s' => ledger s' = ledger s).
Proof.
  split; [exact _|]. intros s s' E. assert (H : forall c : gmap Z Guild, ledger_guild <$> c =
    (fun k => (cg_leader k, cg_money k, cg_ranks k, cg_members k)) <$> (core_guild <$> c)).
  { intros c. by rewrite <- map_fmap_compose. }
  pose proof (f_equal c_gold E) as E0. pose proof (f_equal c_guilds E) as E1. pose proof (f_equal c_next E) as E2.
  pose proof (f_equal c_players E) as E3. pose proof (f_equal c_member_rows E) as E4. cbn in E0, E1, E2, E3, E4.
  unfold ledger. by rewrite !H, E0, E1, E2, E3, E4.
Qed.
Lemma rs_in_market {A} (m : KM A) (s : GuildWorld) : run_state (in_market m) s = set_market (run_state m (market s)) s.
Proof. unfold in_market, run_state. by destruct (m (market s)) as [[a k] l]. Qed.
Lemma ledger_market {A} (m : KM A) : (forall k, gold (run_state m k) = gold k) -> frames ledger (in_market m).
Proof. intros Hm s. rewrite rs_in_market. unfold ledger. cbn. by rewrite Hm. Qed.
Lemma ledger_tabs g f : frames ledger (upd_guild g (on_bankTabs f)).
Proof. intros s. unfold ledger. cbn. by rewrite fmap_alter_same. Qed.
#[export] Hint Resolve ledger_tabs : runs.
#[export] Hint Extern 3 (runs (fun s s' => ledger s' = ledger s) (modify _)) => (intros ?; reflexivity) : runs.
#[export] Hint Extern 3 (runs (fun s s' => ledger s' = ledger s) (in_market _)) => (apply ledger_market; intros ?; reflexivity) : runs.
#[export] Hint Extern 6 (runs (fun s s' => ledger s' = ledger s) _) =>
  (apply (runs_core _); solve [auto 2 with runs nocore]) : runs.

Section item_programs.
Context `{!HashOrder} (v : GuildView).

Lemma ledger_SetCount i n : frames ledger (SetCount i n).
Proof. by intros s. Qed.
Lemma ledger_SetItem g t sl i : frames ledger (SetItem g t sl i).
Proof. unfold SetItem, save_item. runs_through. Qed.
Lemma ledger_CloneItem i n b : frames ledger (CloneItem v i n b).
Proof. unfold CloneItem. runs_through. Qed.
Lemma ledger_save_item i : frames ledger (save_item i).
Proof. unfold save_item. runs_through. Qed.
Lemma ledger_delete_item i : frames ledger (delete_item i).
Proof. unfold delete_item. runs_through. Qed.
Lemma ledger_bind_item i p : frames ledger (bind_item v i p).
Proof. unfold bind_item. runs_through. Qed.
Hint Resolve ledger_SetCount ledger_SetItem ledger_CloneItem ledger_save_item ledger_delete_item ledger_bind_item : runs.
Lemma ledger_bank_store_at g t i b p : frames ledger (bank_store_at v g t i b p).
Proof. unfold bank_store_at. runs_through. Qed.
Lemma ledger_bags_store_at u i b p : frames ledger (bags_store_at v u i b p).
Proof. unfold bags_store_at. runs_through. Qed.
Hint Resolve ledger_bank_store_at ledger_bags_store_at : runs.
Lemma ledger_store_all f l : (forall b p, frames ledger (f b p)) -> frames ledger (store_all f l).
Proof. intros Hf. induction l as [|p [|q l] IH]; cbn [store_all]; runs_through; apply Hf. Qed.
Lemma ledger_StoreItem g u d i : frames ledger (StoreItem v g u d i).
Proof. unfold StoreItem. runs_through; apply ledger_store_all; auto with runs. Qed.
Lemma ledger_RemoveItem g u d e n : frames ledger (RemoveItem v g u d e n).
Proof. unfold RemoveItem. runs_through. Qed.
Hint Resolve ledger_StoreItem ledger_RemoveItem : runs.
Lemma ledger_DeleteBankItems g b : frames ledger (_DeleteBankItems g b).
Proof. unfold _DeleteBankItems, delete_slot. runs_through. Qed.
Lemma ledger_CreateNewBankTab g : frames ledger (_CreateNewBankTab g).
Proof. unfold _CreateNewBankTab. runs_through. Qed.
End item_programs.
#[export] Hint Resolve ledger_StoreItem ledger_RemoveItem ledger_DeleteBankItems ledger_CreateNewBankTab ledger_CloneItem : runs.

Section move_programs.
Context `{!Utf8Lib} `{!HashOrder} (v : GuildView).
Lemma ledger_DoItemsMove g u d e b n : frames ledger (_DoItemsMove v g u d e b n).
Proof. unfold _DoItemsMove. runs_through. Qed.
Hint Resolve ledger_DoItemsMove : runs.
Lemma ledger_clone_item u d n : frames ledger (clone_item v u d n).
Proof. unfold clone_item. runs_through. Qed.
Lemma ledger_try_swap g u d e : frames ledger (try_swap v g u d e).
Proof. unfold try_swap. runs_through. Qed.
Hint Resolve ledger_clone_item ledger_try_swap : runs.
Lemma ledger_MoveItems g u d e n : frames ledger (_MoveItems v g u d e n).
Proof. unfold _MoveItems. runs_through. Qed.
Hint Resolve ledger_MoveItems : runs.
Lemma ledger_swap_items u g r : frames ledger (swap_items v u g r).
Proof. unfold swap_items, SwapItems, SwapItemsWithInventory. runs_through. Qed.
End move_programs.
#[export] Hint Resolve ledger_swap_items : runs.
