(* ===== verification/GuildGold.v ===== *)
(** * Guild gold

    The purses and the guild banks together: what [ModifyMoney] and the programs of
    a guild do to their sum ([no_gain]). *)
From Stdlib Require Import SpecFloat.
From S2P Require Import Prelude Text ByteBuffer Market Mail Auction MarketGold MarketSpec.
From S2P Require Import MarketRuns Guild GuildBank GuildHandler GuildSample GuildCore.

(** ** The gold of the server with its guilds *)

Definition bank_gold (s : GuildWorld) : Z := msum m_bankMoney (GuildStore s).
Definition guild_wealth (s : GuildWorld) : Z := purses (market s) + bank_gold s.
Definition LIMIT : Z := 2 ^ 64.
Record gold_books (s : GuildWorld) : Prop := {
  gb_purse : gold_ok (market s);
  gb_bank : forall g x, GuildStore s !! g = Some x -> 0 <= m_bankMoney x;
  gb_limit : guild_wealth s < LIMIT
}.
Definition no_gain (s s' : GuildWorld) : Prop := gold_books s -> gold_books s' /\ guild_wealth s' <= guild_wealth s.

#[export] Instance no_gain_preorder : PreOrder no_gain.
Proof.
  split; [intros s Hs; split; [done | lia]|]. intros s1 s2 s3 H12 H23 H1.
  destruct (H12 H1) as [H2 L12]. destruct (H23 H2) as [H3 L23]. split; [done | lia].
Qed.

Lemma bank_gold_map s : bank_gold s = msum (fun z : Z => z) (m_bankMoney <$> GuildStore s).
Proof. symmetry. apply (msum_fmap m_bankMoney (fun z : Z => z)). Qed.
Lemma books_of (s s' : GuildWorld) :
  gold (market s') = gold (market s) -> m_bankMoney <$> GuildStore s' = m_bankMoney <$> GuildStore s -> no_gain s s'.
Proof.
  intros Hg Hb [H1 H2 H3]. assert (E : guild_wealth s' = guild_wealth s).
  { unfold guild_wealth, purses. by rewrite Hg, !bank_gold_map, Hb. }
  split; [|by rewrite E]. split; [by unfold gold_ok in *; rewrite Hg | | by rewrite E].
  intros g x Hx. apply (f_equal (fun m => m !! g)) in Hb. rewrite !lookup_fmap, Hx in Hb.
  destruct (GuildStore s !! g) as [y|] eqn:Hy; [|done]. cbn in Hb. injection Hb as ->. by eapply H2.
Qed.
#[export] Instance no_gain_core : CoreOrder no_gain.
Proof.
  split; [exact _|]. intros s s' E. apply books_of; [by apply (f_equal c_gold) in E|].
  apply (f_equal (fun c => cg_money <$> c_guilds c)) in E. cbn in E. rewrite <- !map_fmap_compose in E. exact E.
Qed.

(** A guild that is put in, changed or taken out without more money in it. *)
Lemma wealth_alter g f s x : GuildStore s !! g = Some x ->
  guild_wealth (on_GuildStore (alter f g) s) = guild_wealth s - m_bankMoney x + m_bankMoney (f x).
Proof. intros Hx. unfold guild_wealth, bank_gold. cbn. rewrite (msum_alter _ _ _ x) by done. lia. Qed.
Lemma no_gain_upd_guild g f : (forall x, m_bankMoney (f x) = m_bankMoney x) -> runs no_gain (upd_guild g f).
Proof. intros Hf s. apply books_of; [done|]. cbn. by apply fmap_alter_same. Qed.
Lemma no_gain_insert g x s : m_bankMoney x = 0 -> no_gain s (on_GuildStore (insert g x) s).
Proof.
  intros Hx [H1 H2 H3]. assert (L : guild_wealth (on_GuildStore (insert g x) s) <= guild_wealth s).
  { unfold guild_wealth, bank_gold. cbn. destruct (GuildStore s !! g) as [y|] eqn:Hy.
    - rewrite (msum_insert _ _ _ y) by done. pose proof (H2 g y Hy). lia.
    - rewrite msum_insert_new by done. lia. }
  split; [|done]. split; [done | | lia]. intros g' y. cbn. intros [[<- <-]|[_ Hy]]%lookup_insert_Some; [lia | by eapply H2].
Qed.
Lemma no_gain_delete g s : no_gain s (on_GuildStore (delete g) s).
Proof.
  intros [H1 H2 H3]. assert (L : guild_wealth (on_GuildStore (delete g) s) <= guild_wealth s).
  { unfold guild_wealth, bank_gold. cbn. pose proof (msum_delete_le m_bankMoney (GuildStore s) g H2). lia. }
  split; [|done]. split; [done | | lia]. intros g' y. cbn. intros [_ Hy]%lookup_delete_Some. by eapply H2.
Qed.

(** *** Purses *)

Section gold_programs.
Context `{!Utf8Lib} `{!HashOrder} (v : GuildView) (Hloot : forall u, GetLootGUID v u = 0).

Lemma rs_ModifyMoney_guild u d s :
  run_state (ModifyMoney_guild v u d) s = set_market (run_state (ModifyMoney u d) (market s)) s.
Proof.
  unfold ModifyMoney_guild. rewrite rs_with_state, run_state_bind, rs_in_market.
  assert (E : run_state (when ((0 <=? d) && (GetMoney (market s) u <? u32 (MAX_MONEY_AMOUNT - d))) (share_found_money v u d)) s = s).
  { unfold when. destruct (_ && _); [|done]. unfold share_found_money, with_player. rewrite rs_with_state.
    destruct (players s !! u); [|done]. by rewrite Hloot. }
  by rewrite E.
Qed.
Lemma wealth_market m s : guild_wealth (set_market m s) = guild_wealth s - purses (market s) + purses m.
Proof. unfold guild_wealth. cbn. unfold bank_gold. cbn. lia. Qed.
Lemma no_gain_purse u g s : 0 <= g <= GetMoney (market s) u -> no_gain s (set_market (on_gold (insert u g) (market s)) s).
Proof.
  intros Hg [H1 H2 H3]. pose proof (GetMoney_range _ u H1). assert (L : guild_wealth (set_market (on_gold (insert u g) (market s)) s) <= guild_wealth s).
  { rewrite wealth_market, insert_purse. lia. }
  split; [|done]. split; [cbn; apply gold_ok_insert; [done | lia] | done | lia].
Qed.
Lemma no_gain_spend u d : - 2 ^ 31 <= d < 0 -> runs no_gain (ModifyMoney_guild v u d).
Proof.
  intros Hd s Hs. rewrite rs_ModifyMoney_guild. destruct (rs_ModifyMoney u d (market s)) as (g & -> & ->).
  pose proof (GetMoney_range _ u (gb_purse s Hs)) as Hr. unfold MAX_MONEY_AMOUNT in Hr.
  apply no_gain_purse; [|done]. destruct (Z.ltb_spec d 0) as [_|?]; [|lia].
  destruct (Z.ltb_spec (u64 (s32 (- d))) (GetMoney (market s) u)) as [Hlt|]; [|rewrite u32_small; lia].
  assert (d <> - 2 ^ 31) by (intros ->; assert (u64 (s32 (- - 2 ^ 31)) = 18446744071562067968) by reflexivity; lia).
  rewrite s32_small, u64_small in Hlt by lia. rewrite !u32_small by (rewrite ?u32_small; lia). lia.
Qed.

Lemma no_gain_market {A} (m : KM A) : (forall k, gold (run_state m k) = gold k) -> runs no_gain (in_market m).
Proof. intros Hm s. rewrite rs_in_market. apply books_of; [apply Hm | done]. Qed.
Lemma no_gain_SaveGold u : runs no_gain (in_market (SaveGoldToDB u)).
Proof. by apply no_gain_market. Qed.
Lemma no_gain_SaveInventory u : runs no_gain (in_market (SaveInventoryAndGoldToDB u)).
Proof. by apply no_gain_market. Qed.

Lemma bank_gold_nonneg s : gold_books s -> 0 <= bank_gold s.
Proof. intros Hs. apply msum_nonneg. intros g x. apply (gb_bank s Hs). Qed.
Lemma purse_le_wealth u s : gold_books s -> GetMoney (market s) u <= purses (market s).
Proof.
  intros Hs. assert (Hn : all_nonneg id (gold (market s))) by (intros w g Hw; apply (gb_purse s Hs w g Hw)).
  unfold GetMoney, purses. destruct (gold (market s) !! u) as [g|] eqn:E; [exact (msum_elem id _ u g Hn E)|].
  by apply msum_nonneg.
Qed.
Lemma bank_le_wealth g x s : gold_books s -> GuildStore s !! g = Some x -> m_bankMoney x <= bank_gold s.
Proof. intros Hs Hx. apply (msum_elem m_bankMoney _ g x); [|done]. intros g' y. apply (gb_bank s Hs). Qed.

(** A deposit: the purse pays for what the bank gets. *)
Definition has_gold (u a : Z) (c : Core) : Prop := a <= default 0 (c_gold c !! u).
Definition banked (g : Z) (f : Z -> Z) (s : GuildWorld) : GuildWorld := on_GuildStore (alter (on_bankMoney f) g) s.
Lemma rs_no_guild {A} (d : A) g k s : GuildStore s !! g = None -> run_state (with_guild d g k) s = s.
Proof. intros Hg. unfold with_guild. by rewrite rs_with_state, Hg. Qed.
Lemma rs_ModifyBankMoney g a add x s : GuildStore s !! g = Some x -> add || (a <=? m_bankMoney x) = true ->
  let f m := u64 (if add then m + a else m - a) in
  run_state (_ModifyBankMoney g a add) s =
  guild_execute (SetGuildBankMoney g (f (m_bankMoney x))) (banked g f s) /\
  run_value (_ModifyBankMoney g a add) s = true.
Proof.
  intros Hx Ha f. unfold _ModifyBankMoney, with_guild. rewrite rs_with_state, rv_with_state, Hx.
  assert (negb add && (m_bankMoney x <? a) = false) as -> by (destruct add; [done|]; cbn in *; lia).
  rewrite run_state_bind, run_value_bind. change (run_state (upd_guild g _) s) with (banked g f s).
  rewrite rs_with_state, rv_with_state. assert (E : GuildStore (banked g f s) !! g = Some (on_bankMoney f x)).
  { cbn. by rewrite lookup_alter_eq, Hx. }
  by rewrite E.
Qed.

Lemma no_gain_deposit g u a : 0 <= a -> runs_from (has_gold u a) no_gain (_ModifyBankMoney g a true ;; ModifyMoney_guild v u (minus_int32 a)).
Proof.
  intros Ha s Hgold Hs. pose proof Hs as [H1 H2 H3]. rewrite run_state_bind, rs_ModifyMoney_guild.
  assert (Hpay : 0 <= a <= GetMoney (market s) u) by (split; [done | exact Hgold]).
  assert (Hno : no_gain s (set_market (run_state (ModifyMoney u (minus_int32 a)) (market s)) s)).
  { rewrite rs_pay by done. apply no_gain_purse. lia. }
  set (s1 := run_state (_ModifyBankMoney g a true) s). destruct (GuildStore s !! g) as [x|] eqn:Hx; cycle 1.
  { assert (s1 = s) as -> by (by apply rs_no_guild). by apply Hno. }
  destruct (rs_ModifyBankMoney g a true x s Hx eq_refl) as [E _]. cbn zeta in E. fold s1 in E. rewrite E. clear s1 E.
  change (market (guild_execute _ _)) with (market s). change (set_market ?k (guild_execute ?st ?s2)) with (guild_execute st (set_market k s2)).
  pose proof (purse_le_wealth u s Hs) as Hp. pose proof (bank_le_wealth g x s Hs Hx) as Hb. pose proof (H2 g x Hx).
  unfold guild_wealth, LIMIT in H3. pose proof (bank_gold_nonneg s Hs).
  assert (Hu : u64 (m_bankMoney x + a) = m_bankMoney x + a) by (apply u64_small; lia).
  set (k := run_state (ModifyMoney u (minus_int32 a)) (market s)).
  assert (Ek : k = paid u a (market s)) by (apply rs_pay; done).
  assert (L : guild_wealth (set_market k (banked g (fun m => u64 (m + a)) s)) = guild_wealth s).
  { rewrite wealth_market. unfold banked. rewrite (wealth_alter _ _ _ x) by done. cbn. rewrite Hu.
    subst k. rewrite Ek. unfold paid. rewrite insert_purse. lia. }
  split; [|apply Z.eq_le_incl; exact L].
  split.
  - cbn. change (gold_ok k). rewrite Ek. apply gold_ok_insert; [done|]. pose proof (GetMoney_range _ u H1). lia.
  - intros g' y. cbn. destruct (decide (g = g')) as [<-|Hne].
    + rewrite lookup_alter_eq, Hx. intros [= <-]. cbn. rewrite Hu. lia.
    + rewrite lookup_alter_ne by done. apply H2.
  - change (guild_wealth (set_market k (banked g (fun m => u64 (m + a)) s)) < LIMIT). rewrite L. exact H3.
Qed.

(** A withdrawal: the bank pays for what the purse gets. *)
Definition in_bank (g a : Z) (c : Core) : Prop := exists x, c_guilds c !! g = Some (core_guild x) /\ a <= m_bankMoney x.
Lemma no_gain_earn u a s :
  0 <= a < 2 ^ 32 -> a <> 2 ^ 31 - 1 -> gold_ok (market s) ->
  exists k, run_state (ModifyMoney_guild v u (s32 a)) s = set_market k s /\ gold_ok k /\ purses k <= purses (market s) + a.
Proof.
  intros Ha Hne Hok. rewrite rs_ModifyMoney_guild. eexists. split; [reflexivity|].
  destruct (Z.lt_ge_cases a (2 ^ 31)) as [Hlt|Hge].
  - destruct (rs_earn u a (market s) Hok) as (n & -> & Hn & Hle); [lia|]. split; [by apply gold_ok_insert|].
    rewrite insert_purse. lia.
  - assert (Hd : s32 a = a - 2 ^ 32).
    { unfold swrap. change (2 ^ (32 - 1)) with (2 ^ 31). replace (a + 2 ^ 31) with ((a - 2 ^ 31) + 1 * 2 ^ 32) by lia.
      rewrite Z_mod_plus_full, Z.mod_small; lia. }
    pose proof (GetMoney_range _ u Hok) as Hr. unfold MAX_MONEY_AMOUNT in *.
    destruct (rs_ModifyMoney u (s32 a) (market s)) as (n & -> & En). rewrite Hd in En.
    destruct (Z.ltb_spec (a - 2 ^ 32) 0) as [_|?]; [|lia].
    assert (Hn : 0 <= n <= GetMoney (market s) u).
    { subst n. destruct (Z.ltb_spec (u64 (s32 (- (a - 2 ^ 32)))) (GetMoney (market s) u)) as [Hl|]; [|rewrite u32_small; lia].
      destruct (Z.eq_dec a (2 ^ 31)) as [->|].
      { assert (u64 (s32 (- (2 ^ 31 - 2 ^ 32))) = 18446744071562067968) by reflexivity. lia. }
      rewrite s32_small, u64_small in Hl by lia. rewrite !u32_small by (rewrite ?u32_small; lia). lia. }
    split; [apply gold_ok_insert; [done | unfold MAX_MONEY_AMOUNT; lia]|]. rewrite insert_purse. lia.
Qed.
Lemma no_gain_withdraw g u a repair : 0 <= a < 2 ^ 32 -> repair = true \/ a <> 2 ^ 31 - 1 ->
  runs_from (in_bank g a) no_gain
    (_ModifyBankMoney g a false ;; when (negb repair) (ModifyMoney_guild v u (s32 a) ;; in_market (SaveGoldToDB u))).
Proof.
  intros Ha Hne s (x0 & Hx0 & Hle) Hs. pose proof Hs as [H1 H2 H3]. rewrite run_state_bind.
  cbn in Hx0. rewrite lookup_fmap in Hx0. destruct (GuildStore s !! g) as [x|] eqn:Hx; [|done].
  assert (Em : m_bankMoney x = m_bankMoney x0) by (injection Hx0; congruence). rewrite <- Em in Hle.
  assert (Hb : false || (a <=? m_bankMoney x) = true) by (cbn; lia).
  destruct (rs_ModifyBankMoney g a false x s Hx Hb) as [-> _]. cbv zeta. set (f := fun m => u64 (m - a)).
  pose proof (bank_le_wealth g x s Hs Hx). pose proof (H2 g x Hx) as Hm. unfold LIMIT, guild_wealth in H3.
  assert (Hu : f (m_bankMoney x) = m_bankMoney x - a).
  { apply u64_small. assert (0 <= purses (market s)); [|lia]. apply msum_nonneg. intros w n Hw. apply (H1 w n Hw). }
  set (s1 := guild_execute _ _).
  assert (Hbank : forall g' y, GuildStore s1 !! g' = Some y -> 0 <= m_bankMoney y).
  { intros g' y. cbn. destruct (decide (g = g')) as [<-|Hg']; [|rewrite lookup_alter_ne by done; apply H2].
    rewrite lookup_alter_eq, Hx. intros [= <-]. cbn. lia. }
  assert (Hw1 : guild_wealth s1 = guild_wealth s - a).
  { change (guild_wealth s1) with (guild_wealth (banked g f s)). unfold banked. rewrite (wealth_alter _ _ _ x) by done. cbn. lia. }
  assert (Hmid : no_gain s s1).
  { intros _. split; [|lia]. split; [exact H1 | exact Hbank |]. rewrite Hw1. unfold guild_wealth, LIMIT in *. lia. }
  unfold when. destruct (negb repair) eqn:Er; [|by apply Hmid]. rewrite run_state_bind.
  destruct (no_gain_earn u a s1) as (k & -> & Hk & Hkp); [done | destruct Hne; [by subst repair | done] | exact H1 |].
  assert (L : guild_wealth (set_market k s1) <= guild_wealth s).
  { rewrite wealth_market, Hw1. change (market s1) with (market s) in *. lia. }
  destruct (no_gain_SaveGold u (set_market k s1)) as [Hb2 Hl2]; [|split; [done | lia]].
  split; [exact Hk | exact Hbank |]. unfold LIMIT, guild_wealth in *. lia.
Qed.

(** *** Programs that do not touch the gold *)

Lemma no_gain_frame {A} (m : GM A) : frames core m -> runs no_gain m.
Proof. by apply runs_core; exact _. Qed.
Lemma no_gain_ledger {A} (m : GM A) : frames ledger m -> runs no_gain m.
Proof.
  intros Hm s. specialize (Hm s). unfold ledger in Hm. injection Hm as E0 E1 _ _ _. apply books_of; [done|].
  apply (f_equal (fun c => (fun k => k.1.1.2) <$> c)) in E1. rewrite <- !map_fmap_compose in E1. exact E1.
Qed.
Lemma no_gain_Execute st : runs no_gain (Execute st).
Proof. apply runs_Execute; [exact _|]. intros s. apply books_of; by destruct st. Qed.
Lemma no_gain_upd_player u f : runs no_gain (upd_player u f).
Proof. intros s. by apply books_of. Qed.
Lemma no_gain_SetInGuild u g : runs no_gain (SetInGuild u g).
Proof. apply no_gain_upd_player. Qed.
End gold_programs.
#[export] Hint Resolve no_gain_SaveGold no_gain_SaveInventory no_gain_Execute no_gain_upd_player no_gain_SetInGuild : runs.
#[export] Hint Extern 3 (runs no_gain (upd_guild _ _)) => (apply no_gain_upd_guild; intros ?; reflexivity) : runs.
#[export] Hint Extern 3 (runs no_gain (upd_member _ _ _)) => (apply no_gain_upd_guild; intros ?; reflexivity) : runs.
#[export] Hint Extern 3 (runs no_gain (in_market _)) => (apply no_gain_market; intros ?; reflexivity) : runs.
#[export] Hint Extern 3 (runs no_gain (modify _)) =>
  first [ intros ?; apply books_of; reflexivity
        | intros ?; apply no_gain_delete
        | intros ?; apply no_gain_insert; reflexivity ] : runs.
#[export] Hint Extern 6 (runs no_gain _) => (apply no_gain_frame; solve [auto 2 with runs nocore]) : runs.
#[export] Hint Extern 7 (runs no_gain _) => (apply no_gain_ledger; solve [auto 2 with runs nocore]) : runs.

Section roster_gold.
Context `{!HashOrder} (v : GuildView).

Lemma gold_ChangeRank g low r : runs no_gain (ChangeRank g low r).
Proof. unfold ChangeRank. runs_through. Qed.
Hint Resolve gold_ChangeRank : runs.
Lemma gold_SetLeaderGUID g low : runs no_gain (_SetLeaderGUID g low).
Proof. unfold _SetLeaderGUID. runs_through. Qed.
Hint Resolve gold_SetLeaderGUID : runs.
Lemma gold_AddMember g u r : runs no_gain (AddMember v g u r).
Proof. unfold AddMember, insert_member_row. runs_through. Qed.
Lemma gold_remove_member g u d k : runs no_gain (remove_member v g u d k).
Proof. unfold remove_member. runs_through. Qed.
Hint Resolve gold_AddMember gold_remove_member : runs.
Lemma gold_delete_all n g : runs no_gain (delete_all v n g).
Proof. induction n as [|n IH]; cbn [delete_all]; runs_through. Qed.
Hint Resolve gold_delete_all : runs.
Lemma gold_Disband g : runs no_gain (Disband v g).
Proof. unfold Disband. runs_through. Qed.
Hint Resolve gold_Disband : runs.
Lemma gold_DeleteMember g u d k : runs no_gain (DeleteMember v g u d k).
Proof. unfold DeleteMember. runs_through. Qed.
Lemma gold_CreateRank g n r : runs no_gain (_CreateRank g n r).
Proof. unfold _CreateRank. runs_through. Qed.
Hint Resolve gold_CreateRank : runs.
Lemma gold_CreateDefaultGuildRanks g l : runs no_gain (_CreateDefaultGuildRanks v g l).
Proof. unfold _CreateDefaultGuildRanks. runs_through. Qed.
Hint Resolve gold_CreateDefaultGuildRanks : runs.
Lemma gold_HandleAddNewRank u g n : runs no_gain (HandleAddNewRank v u g n).
Proof. unfold HandleAddNewRank. runs_through. Qed.
Lemma gold_HandleRemoveRank u g r : runs no_gain (HandleRemoveRank v u g r).
Proof. unfold HandleRemoveRank. runs_through. Qed.
Lemma gold_CreateGuild u n : runs no_gain (CreateGuild v u n).
Proof. unfold CreateGuild, GenerateGuildId. runs_through. Qed.
Hint Resolve gold_DeleteMember gold_CreateGuild : runs.
Lemma gold_HandleSetLeader u g n : runs no_gain (HandleSetLeader v u g n).
Proof. unfold HandleSetLeader. runs_through. Qed.
Lemma gold_HandleAcceptMember u g : runs no_gain (HandleAcceptMember v u g).
Proof. unfold HandleAcceptMember. runs_through. Qed.
Lemma gold_HandleLeaveMember u g : runs no_gain (HandleLeaveMember v u g).
Proof. unfold HandleLeaveMember. runs_through. Qed.
Lemma gold_HandleRemoveMember u g w : runs no_gain (HandleRemoveMember v u g w).
Proof. unfold HandleRemoveMember. runs_through. Qed.
Lemma gold_HandleUpdateMemberRank u g w d : runs no_gain (HandleUpdateMemberRank v u g w d).
Proof. unfold HandleUpdateMemberRank. runs_through. Qed.
Lemma gold_HandleDisband u g : runs no_gain (HandleDisband v u g).
Proof. unfold HandleDisband. runs_through. Qed.
End roster_gold.
#[export] Hint Resolve gold_AddMember gold_CreateGuild gold_DeleteMember gold_HandleSetLeader gold_HandleAcceptMember
  gold_HandleLeaveMember gold_HandleRemoveMember gold_HandleUpdateMemberRank gold_HandleDisband gold_HandleAddNewRank
  gold_HandleRemoveRank : runs.

(** *** Prices, deposits and withdrawals *)

Section bank_gold.
Context `{!Utf8Lib} `{!HashOrder} (v : GuildView).

Context (Hloot : forall u, GetLootGUID v u = 0).

Lemma gold_price u p : 0 < p < 2 ^ 31 -> runs no_gain (ModifyMoney_guild v u (minus_int32 p)).
Proof. intros Hp. apply no_gain_spend; [done|]. rewrite minus_int32_small by lia. lia. Qed.
Lemma tab_price t : let p := u32 (_GetGuildBankTabPrice t * GOLD) in p <> 0 -> 0 < p < 2 ^ 31.
Proof. unfold _GetGuildBankTabPrice. cbv zeta. repeat destruct (_ =? _); vm_compute; intros Hp; split; first [done | by destruct Hp]. Qed.
Lemma gold_HandleBuyBankTab u g t : runs no_gain (HandleBuyBankTab v u g t).
Proof.
  unfold HandleBuyBankTab. runs_through.
  by apply gold_price, tab_price, Z.eqb_neq.
Qed.
Lemma gold_HandleSetEmblem u g e : runs no_gain (HandleSetEmblem v u g e).
Proof. unfold HandleSetEmblem, SendSaveEmblemResult. runs_through. by apply gold_price. Qed.

(** A purse in the core. *)
Lemma has_gold_core s u a : HasEnough s u a = true -> has_gold u a (core s).
Proof. unfold HasEnough, HasEnoughMoney. intros E%Z.leb_le. exact E. Qed.
Lemma gold_HandleMemberDepositMoney u g a : 0 <= a ->
  runs_from (has_gold u a) no_gain (HandleMemberDepositMoney v u g a).
Proof.
  intros Ha. apply runs_from_with_guild; [exact _|]. intros x.
  apply runs_from_if; intros _; [apply runs_from_runs, runs_ret, _|].
  apply runs_from_frame; [exact _ | runs_through |]. intros _.
  apply runs_bind2; [exact _ | | runs_through].
  eapply runs_from_weaken; [|by apply no_gain_deposit]. by intros c [Hc _].
Qed.
Lemma gold_HandleMemberWithdrawMoney u g a repair : 0 <= a < 2 ^ 32 -> repair = true \/ a <> 2 ^ 31 - 1 ->
  runs no_gain (HandleMemberWithdrawMoney v u g a repair).
Proof.
  intros Ha Hne. apply runs_with_state. intros s. destruct (players s !! u) as [p|]; [|apply runs_ret, _].
  apply runs_from_runs_all, runs_from_with_guild; [exact _|]. intros x.
  apply runs_from_if; intros _; [apply runs_from_runs, runs_ret, _|].
  apply runs_from_if; intros Hx; [apply runs_from_runs, runs_ret, _|].
  apply runs_from_if; intros _; [apply runs_from_runs, runs_ret, _|].
  apply runs_from_frame; [exact _ | auto with runs |]. intros money.
  apply runs_from_if; intros _; [apply runs_from_runs, runs_ret, _|].
  apply runs_from_frame; [exact _ | runs_through |]. intros _.
  apply runs_from_frame; [exact _ | runs_through |]. intros _.
  apply runs_bind2; [exact _ | | runs_through].
  eapply runs_from_weaken; [|by apply no_gain_withdraw].
  intros c [_ Hc]. exists x. split; [done | by apply Z.ltb_ge].
Qed.
End bank_gold.

(** ** Runs of the server *)

Section guild_runs.
Context `{!Utf8Lib}.

(** The order of the hash tables and the configuration may change between steps. *)
Fixpoint run_guilds (l : list (HashOrder * GuildView * guild_step)) (s : GuildWorld) : GuildWorld :=
  match l with
  | [] => s
  | (h, v, st) :: l' => run_guilds l' (run_state (@run_guild_step _ h v st) s)
  end.
(** No step is taken with a loot window open, the amount 2^31 - 1 is not withdrawn,
    and the costs of a repair fit into 32 bits. *)
Definition gold_fair (p : HashOrder * GuildView * guild_step) : Prop :=
  (forall u, GetLootGUID p.1.2 u = 0) /\
  match p.2 with
  | GuildPacketIn _ CMSG_GUILD_BANK_WITHDRAW_MONEY data =>
      match (parse_money data).1 with Ok (_, money) => u32 money <> 2 ^ 31 - 1 | Err _ => True end
  | GuildRepair _ costs => 0 <= costs < 2 ^ 32
  | _ => True
  end.
End guild_runs.

(** One step through an opcode handler. *)
Section handler_rules.
Context `{!Utf8Lib} `{!HashOrder} (v : GuildView) (R : GuildWorld -> GuildWorld -> Prop) `{!PreOrder R}.

Lemma runs_GetPlayerGuild u b k : (forall g, runs R (k g)) -> runs R (_GetPlayerGuild u b k).
Proof. intros Hk. unfold _GetPlayerGuild, SendCommandResult. runs_through; apply Hk. Qed.
Lemma runs_with_name n k : (forall x, runs R (k x)) -> runs R (with_name n k).
Proof. intros Hk. unfold with_name. runs_through; apply Hk. Qed.
Lemma runs_own_guild u k : (forall g x, runs R (k g x)) -> runs R (own_guild u k).
Proof. intros Hk. unfold own_guild. runs_through; apply Hk. Qed.
Lemma runs_at_bank u o k : runs R k -> runs R (at_bank v u o k).
Proof. intros Hk. unfold at_bank. destruct (guild_bank_near v u o); [done | by apply runs_ret]. Qed.
End handler_rules.
Ltac handler_through :=
  repeat first
    [ apply runs_GetPlayerGuild; [exact _ |] | apply runs_with_name; [exact _ |] | apply runs_own_guild; [exact _ |]
    | apply runs_at_bank; [exact _ |] | runs_step ].
Ltac unfold_handlers :=
  unfold HandleGuildQueryOpcode, HandleGuildCreateOpcode, HandleGuildInviteOpcode, HandleGuildRemoveOpcode,
    HandleGuildAcceptOpcode, HandleGuildDeclineOpcode, HandleGuildInfoOpcode, HandleGuildRosterOpcode,
    HandleGuildPromoteOpcode, HandleGuildDemoteOpcode, HandleGuildLeaveOpcode, HandleGuildDisbandOpcode,
    HandleGuildLeaderOpcode, HandleGuildChangeInfoTextOpcode, HandleGuildMOTDOpcode, HandleGuildExperienceOpcode,
    HandleGuildMaxExperienceOpcode, HandleGuildRewardsOpcode, HandleGuildSetNoteOpcode, HandleGuildRankOpcode,
    HandleGuildAddRankOpcode, HandleGuildDelRankOpcode, HandleSaveGuildEmblemOpcode, HandleGuildEventLogQueryOpcode,
    HandleGuildBankMoneyWithdrawn, HandleGuildPermissions, HandleGuildBankerActivate, HandleGuildBankQueryTab,
    HandleGuildBankWithdrawMoney, HandleGuildBankSwapItems, HandleGuildBankBuyTab, HandleGuildBankUpdateTab,
    HandleGuildBankLogQuery, HandleQueryGuildBankTabText, HandleSetGuildBankTabText, HandleGuildQueryNews,
    HandleGuildChat.

Section steps.
Context `{!Utf8Lib} `{!HashOrder} (v : GuildView) (Hloot : forall u, GetLootGUID v u = 0).

Lemma gold_Deposit u data : runs no_gain (HandleGuildBankDepositMoney v u data).
Proof.
  unfold HandleGuildBankDepositMoney. apply runs_with_recv; [exact _|]. intros [o money] _. apply runs_at_bank; [exact _|].
  apply (runs_from_runs_all no_gain), runs_from_state. intros s0. apply runs_from_when; [exact _|].
  intros [_ Hm]%andb_true_iff. unfold _GetPlayerGuild, with_player.
  apply runs_from_state. intros s1. destruct (players s1 !! u) as [p|]; [|apply runs_from_runs, runs_ret, _].
  apply runs_from_state. intros s2. destruct (if gp_guildId p =? 0 then _ else _).
  - eapply runs_from_weaken; [|apply gold_HandleMemberDepositMoney; [exact Hloot | apply uwrap_range; lia]].
    intros c [[[_ ->] E1] E2]. by apply has_gold_core.
  - apply runs_from_runs. unfold when, SendCommandResult. runs_through.
Qed.
Lemma gold_handle u op data : gold_fair (_, v, GuildPacketIn u op data) -> runs no_gain (handle_guild v u op data).
Proof.
  intros [_ Hop]. destruct op; cbn [handle_guild].
  all: unfold_handlers.
  all: handler_through.
  all: try apply runs_emit, no_gain_preorder; auto using gold_HandleSetEmblem, gold_Deposit, gold_HandleBuyBankTab.
  apply gold_HandleMemberWithdrawMoney; [exact Hloot | apply uwrap_range; lia |].
  right. match goal with E : (parse_money data).1 = _ |- _ => cbn in Hop; by rewrite E in Hop end.
Qed.

Lemma gold_step st : gold_fair (_, v, st) -> runs no_gain (run_guild_step v st).
Proof.
  intros Hst. destruct st; cbn [run_guild_step].
  - apply runs_with_state. intros s. apply runs_if; [by apply gold_handle | apply runs_ret, _].
  - unfold LoginGuild. handler_through.
  - unfold LogoutGuild. handler_through.
  - unfold TravelGuild. handler_through.
  - unfold HandleGuildChat. handler_through.
  - handler_through.
  - unfold RepairFromGuild. handler_through.
    apply gold_HandleMemberWithdrawMoney; [exact Hloot | apply Hst | by left].
  - handler_through.
  - handler_through.
  - unfold DeleteFromGuild. handler_through.
Qed.
End steps.

Section guild_gold.
Context `{!Utf8Lib}.

(** C6: guilds mint no gold: over any sequence of steps (packets of members and
    others, logins and logouts, repairs, experience, deleted characters) the copper in
    all purses and all guild banks together does not grow, provided no step is taken
    with a loot window open and the amount 2^31 - 1 is never withdrawn; no purse
    exceeds the limit and no guild owes money. *)
Theorem guild_gold l s : gold_books s -> Forall gold_fair l ->
  guild_wealth (run_guilds l s) <= guild_wealth s /\
  (forall u n, gold (market (run_guilds l s)) !! u = Some n -> 0 <= n <= MAX_MONEY_AMOUNT) /\
  (forall g x, GuildStore (run_guilds l s) !! g = Some x -> 0 <= m_bankMoney x).
Proof.
  intros Hs Hl. assert (H1 : gold_books (run_guilds l s) /\ guild_wealth (run_guilds l s) <= guild_wealth s).
  { revert s Hs. induction Hl as [|[[h v] st] l Hp Hl IH]; intros s Hs; [split; [done | cbn; lia]|]. cbn.
    destruct (@gold_step _ h v (proj1 Hp) st Hp s Hs) as [Hb Hw]. destruct (IH _ Hb) as [Hb' Hw']. split; [done | lia]. }
  destruct H1 as [[H2 H3 _] H1]. done.
Qed.
End guild_gold.

Lemma sample_books : gold_books sample_world.
Proof.
  split.
  - assert (H : map_Forall (fun _ g => 0 <= g <= MAX_MONEY_AMOUNT) (gold (market sample_world))) by (apply (bool_decide_unpack _); vm_compute; exact I).
    intros u g Hg. exact (H u g Hg).
  - intros g x Hx. cbn in Hx. by rewrite lookup_empty in Hx.
  - vm_compute. reflexivity.
Qed.
Lemma guild_gold_witness :
  guild_wealth (run_guilds bank_run sample_world) <= 14000000 /\ m_bankMoney <$> GuildStore (run_guilds bank_run sample_world) !! 1 = Some 24750.
Proof.
  assert (Hl : Forall gold_fair bank_run).
  { unfold bank_run, founded, arrivals. cbn [fmap list_fmap concat app]. repeat constructor; cbn [fst snd]; try (intros; vm_compute; reflexivity); done. }
  pose proof (guild_gold bank_run sample_world sample_books Hl) as [H1 _]. split; [|vm_compute; reflexivity].
  etransitivity; [exact H1 | vm_compute; discriminate].
Defined.
