(* ===== verification/GuildStock.v ===== *)
(** * The items of the banks

    Moves of items between bank tabs and bags keep what there is of every entry, keep
    stacks within their size, and keep the rows of the bank the same as its slots.
    A [Shelf] is the part of the state the items depend on, with the changes that the
    programs make to it. *)
From Stdlib Require Import SpecFloat.
From S2P Require Import Prelude Text ByteBuffer Market Mail Auction MarketGold MarketSpec.
From S2P Require Import MarketRuns Guild GuildBank GuildHandler GuildSample GuildCore GuildGold.

(** ** Shelves *)

Record Shelf := mkShelf {
  sh_items : gmap Z Item;
  sh_slots : gmap place Z;
  sh_next : Z;
  sh_bank : gmap (Z * Z * Z) Z;
  sh_rows : gmap Z Item
}.
Definition shelf (s : GuildWorld) : Shelf :=
  mkShelf (item_store s) (slots s) (next_item s) (t_guild_bank_item s) (t_item_instance s).
Lemma shelf_core s s' : core s' = core s -> shelf s' = shelf s.
Proof.
  intros E. pose proof (f_equal c_items E) as E1. pose proof (f_equal c_item_rows E) as E2.
  injection E1 as E3 E4 E5. injection E2 as E6 E7. unfold shelf. by rewrite E3, E4, E5, E6, E7.
Qed.

Definition entry_count (e : Z) (sh : Shelf) (i : Z) : Z :=
  match sh_items sh !! i with Some it => if it_entry it =? e then it_count it else 0 | None => 0 end.
(** How many of an entry lie in bags and banks. *)
Definition stock (e : Z) (sh : Shelf) : Z := msum (entry_count e sh) (sh_slots sh).
Definition loose (i : Z) (sh : Shelf) : Prop := forall P, sh_slots sh !! P <> Some i.

Definition bank_key (P : place) : option (Z * Z * Z) := match P with InBank g t sl => Some (g, t, sl) | InBags _ _ => None end.
(** Item [j], now [jt], lies at [P], and is saved. *)
Definition lay (P : place) (j : Z) (jt : Item) (sh : Shelf) : Shelf :=
  mkShelf (<[j := jt]> (sh_items sh)) (<[P := j]> (sh_slots sh)) (sh_next sh)
    (match bank_key P with Some k => <[k := j]> (sh_bank sh) | None => sh_bank sh end) (<[j := jt]> (sh_rows sh)).
Definition take_out (P : place) (sh : Shelf) : Shelf :=
  mkShelf (sh_items sh) (delete P (sh_slots sh)) (sh_next sh)
    (match bank_key P with Some k => delete k (sh_bank sh) | None => sh_bank sh end) (sh_rows sh).
Definition drop_item (i : Z) (sh : Shelf) : Shelf :=
  mkShelf (delete i (sh_items sh)) (sh_slots sh) (sh_next sh) (sh_bank sh) (delete i (sh_rows sh)).
(** A new item that lies nowhere yet. *)
Definition new_item_on (it : Item) (sh : Shelf) : Shelf :=
  mkShelf (<[sh_next sh := it]> (sh_items sh)) (sh_slots sh) (u32 (sh_next sh + 1)) (sh_bank sh) (sh_rows sh).

Section shelf.
Context (v : GuildView).

Definition stack_sizes : Prop := forall e, 1 <= GetMaxStackSize v e < 2 ^ 31.
Definition fits_stack (it : Item) : Prop := 1 <= it_count it <= GetMaxStackSize v (it_entry it).
(** Every slot holds an item that exists, in no other slot, of an allowed size; the
    rows of the banks are what is in their slots. *)
Record shelf_ok (sh : Shelf) : Prop := {
  so_item : forall P i, sh_slots sh !! P = Some i -> exists it, sh_items sh !! i = Some it /\ fits_stack it;
  so_inj : forall P Q i, sh_slots sh !! P = Some i -> sh_slots sh !! Q = Some i -> P = Q;
  so_fresh : forall i it, sh_items sh !! i = Some it -> i < sh_next sh;
  so_next : 0 <= sh_next sh;
  so_bank : forall g t sl, sh_bank sh !! (g, t, sl) = sh_slots sh !! InBank g t sl;
  so_saved : forall g t sl i, sh_slots sh !! InBank g t sl = Some i -> sh_rows sh !! i = sh_items sh !! i
}.

Definition amount (e : Z) (it : Item) : Z := if it_entry it =? e then it_count it else 0.
Definition amount_at (e : Z) (sh : Shelf) (P : place) : Z :=
  match sh_slots sh !! P with Some i => entry_count e sh i | None => 0 end.
Lemma stock_split e sh P : stock e sh = amount_at e sh P + msum (entry_count e sh) (delete P (sh_slots sh)).
Proof.
  unfold stock, amount_at. destruct (sh_slots sh !! P) as [i|] eqn:E.
  - rewrite (msum_delete _ _ P i) by done. lia.
  - by rewrite delete_id.
Qed.
(** What lies elsewhere is the same as before. *)
Lemma stock_elsewhere e sh sh' P :
  delete P (sh_slots sh') = delete P (sh_slots sh) ->
  (forall Q i, Q <> P -> sh_slots sh !! Q = Some i -> sh_items sh' !! i = sh_items sh !! i) ->
  stock e sh' = stock e sh - amount_at e sh P + amount_at e sh' P.
Proof.
  intros Hs Hi. rewrite (stock_split e sh P), (stock_split e sh' P), Hs.
  rewrite (msum_ext (entry_count e sh') (entry_count e sh)); [lia|].
  intros Q i [Hne HQ]%lookup_delete_Some. unfold entry_count. by rewrite (Hi Q).
Qed.

Lemma lay_ok P j jt sh : shelf_ok sh -> (forall Q, sh_slots sh !! Q = Some j -> Q = P) -> fits_stack jt -> j < sh_next sh ->
  shelf_ok (lay P j jt sh) /\ forall e, stock e (lay P j jt sh) = stock e sh - amount_at e sh P + amount e jt.
Proof.
  intros [H1 H2 H3 H4 H5 H6] Hj Hfit Hnext. split.
  - split; cbn; [| | | done | |].
    + intros Q i. destruct (decide (P = Q)) as [<-|Hne].
      * rewrite lookup_insert_eq. intros [= <-]. exists jt. by rewrite lookup_insert_eq.
      * rewrite lookup_insert_ne by done. intros Hi. destruct (decide (j = i)) as [<-|Hji]; [by apply Hj in Hi|].
        rewrite lookup_insert_ne by done. by apply (H1 Q).
    + intros Q Q' i [[<- <-]|[HQ E]]%lookup_insert_Some [[<- E']|[HQ' E']]%lookup_insert_Some; subst; try done.
      * symmetry. by apply Hj.
      * by apply Hj.
      * by eapply H2.
    + intros i it [[<- <-]|[_ E]]%lookup_insert_Some; [done | by eapply H3].
    + intros g t sl. destruct P as [g' t' sl'|u pos]; cbn.
      * destruct (decide ((g', t', sl') = (g, t, sl))) as [[= <- <- <-]|Hne]; [by rewrite !lookup_insert_eq|].
        rewrite !lookup_insert_ne by congruence. apply H5.
      * rewrite lookup_insert_ne by done. apply H5.
    + intros g t sl i [[_ <-]|[Hne E]]%lookup_insert_Some; [by rewrite !lookup_insert_eq|].
      destruct (decide (j = i)) as [<-|Hji]; [by rewrite !lookup_insert_eq|].
      rewrite !lookup_insert_ne by done. by eapply H6.
  - intros e. rewrite (stock_elsewhere e sh _ P).
    + unfold amount_at at 2, entry_count. cbn. by rewrite !lookup_insert_eq.
    + cbn. by rewrite delete_insert_eq.
    + intros Q i HQ E. cbn. rewrite lookup_insert_ne; [done|]. intros <-. by apply HQ, Hj.
Qed.
Lemma take_out_ok P i sh : shelf_ok sh -> sh_slots sh !! P = Some i ->
  shelf_ok (take_out P sh) /\ loose i (take_out P sh) /\
  forall e, stock e (take_out P sh) = stock e sh - entry_count e sh i.
Proof.
  intros [H1 H2 H3 H4 H5 H6] HP. split_and!.
  - split; cbn; [| | done | done | |].
    + intros Q k [_ E]%lookup_delete_Some. by eapply H1.
    + intros Q Q' k [_ E]%lookup_delete_Some [_ E']%lookup_delete_Some. by eapply H2.
    + intros g t sl. destruct P as [g' t' sl'|u pos]; cbn.
      * destruct (decide ((g', t', sl') = (g, t, sl))) as [[= <- <- <-]|Hne]; [by rewrite !lookup_delete_eq|].
        rewrite !lookup_delete_ne by congruence. apply H5.
      * rewrite lookup_delete_ne by done. apply H5.
    + intros g t sl k [_ E]%lookup_delete_Some. by eapply H6.
  - intros Q. cbn. intros [HQ E]%lookup_delete_Some. by apply HQ, (H2 P Q i).
  - intros e. rewrite (stock_elsewhere e sh _ P); [| by cbn; rewrite delete_delete_eq | done].
    unfold amount_at. cbn. rewrite HP, lookup_delete_eq. lia.
Qed.
Lemma drop_ok i sh : shelf_ok sh -> loose i sh ->
  shelf_ok (drop_item i sh) /\ forall e, stock e (drop_item i sh) = stock e sh.
Proof.
  intros [H1 H2 H3 H4 H5 H6] Hi.
  assert (Hne : forall P k, sh_slots sh !! P = Some k -> i <> k) by (intros P k E ->; by apply (Hi P)). split.
  - split; cbn; [| done | | done | done |].
    + intros P k E. rewrite lookup_delete_ne by (by eapply Hne). by eapply H1.
    + intros k it [_ E]%lookup_delete_Some. by eapply H3.
    + intros g t sl k E. rewrite !lookup_delete_ne by (by eapply Hne). by eapply H6.
  - intros e. unfold stock. cbn. apply msum_ext. intros P k E. unfold entry_count. cbn.
    by rewrite lookup_delete_ne by (by eapply Hne).
Qed.
Lemma new_item_ok it sh : shelf_ok sh -> sh_next sh + 1 < 2 ^ 32 ->
  shelf_ok (new_item_on it sh) /\ loose (sh_next sh) (new_item_on it sh) /\
  forall e, stock e (new_item_on it sh) = stock e sh.
Proof.
  intros [H1 H2 H3 H4 H5 H6] Hn. assert (Hu : u32 (sh_next sh + 1) = sh_next sh + 1) by (apply u32_small; lia).
  assert (Hne : forall P k, sh_slots sh !! P = Some k -> sh_next sh <> k).
  { intros P k E <-. destruct (H1 _ _ E) as (it' & Hit & _). apply H3 in Hit. lia. } split_and!.
  - split; cbn; [| done | | lia | done |].
    + intros P k E. rewrite lookup_insert_ne by (by eapply Hne). by eapply H1.
    + intros k it' [[<- _]|[_ E]]%lookup_insert_Some; [lia|]. apply H3 in E. lia.
    + intros g t sl k E. rewrite (H6 _ _ _ _ E), lookup_insert_ne by (by eapply Hne). done.
  - intros P E. by apply (Hne P (sh_next sh) E).
  - intros e. unfold stock. cbn. apply msum_ext. intros P k E. unfold entry_count. cbn.
    by rewrite lookup_insert_ne by (by eapply Hne).
Qed.


(** ** Storing along a plan *)

(** Room for [c] pieces of the entry [e] at [P]. *)
Definition room_for (e : Z) (sh : Shelf) (P : place) (c : Z) : Prop :=
  1 <= c /\
  match sh_slots sh !! P with
  | None => c <= GetMaxStackSize v e
  | Some j => exists jt, sh_items sh !! j = Some jt /\ it_entry jt = e /\ it_count jt + c <= GetMaxStackSize v e
  end.
(** What storing [c] pieces of the item [i] at [P] does to a shelf: they are added to
    the stack there, or lie there as the item itself or as a clone of it. *)
Definition stored_at (e i : Z) (clone : bool) (P : place) (c : Z) (sh sh' : Shelf) : Prop :=
  match sh_slots sh !! P with
  | Some j => exists jt jt', sh_items sh !! j = Some jt /\ it_entry jt' = it_entry jt /\ it_count jt' = u32 (it_count jt + c) /\
      sh' = if clone then lay P j jt' sh else drop_item i (lay P j jt' sh)
  | None => exists jt', it_entry jt' = e /\
      if clone then it_count jt' = Z.min c (GetMaxStackSize v e) /\ sh' = lay P (sh_next sh) jt' (new_item_on jt' sh)
      else it_count jt' = u32 c /\ sh' = lay P i jt' sh
  end.
Record stored_result (e i : Z) (clone : bool) (P : place) (c : Z) (sh sh' : Shelf) : Prop := {
  sr_ok : shelf_ok sh';
  sr_stock : forall e', stock e' sh' = stock e' sh + (if e =? e' then c else 0);
  sr_next : sh_next sh' <= sh_next sh + 1;
  sr_item : clone = true -> loose i sh' /\ sh_items sh' !! i = sh_items sh !! i;
  sr_room : clone = true -> forall Q d, Q <> P -> room_for e sh Q d -> room_for e sh' Q d;
  sr_slots : clone = true -> forall Q, is_Some (sh_slots sh !! Q) -> is_Some (sh_slots sh' !! Q)
}.

Lemma room_lay e P j jt sh Q d :
  (forall R, sh_slots sh !! R = Some j -> R = P) -> Q <> P -> room_for e sh Q d -> room_for e (lay P j jt sh) Q d.
Proof.
  intros Hj HQ [Hd Hm]. split; [done|]. cbn. rewrite lookup_insert_ne by done.
  destruct (sh_slots sh !! Q) as [k|] eqn:E; [|done]. rewrite lookup_insert_ne; [done|]. intros <-. by apply HQ, Hj.
Qed.
Lemma room_new e it sh Q d : shelf_ok sh -> room_for e sh Q d -> room_for e (new_item_on it sh) Q d.
Proof.
  intros Hs [Hd Hm]. split; [done|]. cbn. destruct (sh_slots sh !! Q) as [k|] eqn:E; [|done].
  destruct Hm as (jt & Hjt & Hrest). exists jt. rewrite lookup_insert_ne; [done|]. intros <-.
  apply (so_fresh _ Hs) in Hjt. lia.
Qed.
Lemma slots_lay P j jt sh Q : is_Some (sh_slots sh !! Q) -> is_Some (sh_slots (lay P j jt sh) !! Q).
Proof. cbn. destruct (decide (P = Q)) as [<-|Hne]; [by rewrite lookup_insert_eq | by rewrite lookup_insert_ne]. Qed.

Lemma stored_ok e i clone P c sh sh' it :
  stack_sizes -> shelf_ok sh -> loose i sh -> sh_items sh !! i = Some it -> it_entry it = e ->
  room_for e sh P c -> sh_next sh + 1 < 2 ^ 32 -> stored_at e i clone P c sh sh' -> stored_result e i clone P c sh sh'.
Proof.
  intros Hmax Hs Hi Hit He [Hc Hroom] Hn Hst. unfold stored_at in Hst. pose proof (Hmax e) as Hme.
  pose proof (so_next _ Hs) as Hn0. pose proof (so_fresh _ Hs i it Hit) as Hif.
  destruct (sh_slots sh !! P) as [j|] eqn:HP.
  - destruct Hst as (jt0 & jt' & Hjt0 & Ee & Ec & ->). destruct Hroom as (jt & Hjt & Ej & Hle).
    assert (jt0 = jt) as -> by congruence. destruct (so_item _ Hs P j HP) as (jt1 & E1 & [Hf _]).
    assert (jt1 = jt) as -> by congruence. rewrite u32_small in Ec by lia.
    assert (Hji : i <> j) by (intros ->; by apply (Hi P)).
    assert (Hj : forall R, sh_slots sh !! R = Some j -> R = P) by (intros R E; by eapply (so_inj _ Hs)).
    destruct (lay_ok P j jt' sh Hs Hj) as [Hok Hstock]; [split; rewrite ?Ee, ?Ej; lia | by eapply (so_fresh _ Hs)|].
    assert (Hstock' : forall e', stock e' (lay P j jt' sh) = stock e' sh + (if e =? e' then c else 0)).
    { intros e'. rewrite Hstock. unfold amount_at, entry_count, amount. rewrite HP, Hjt, Ee, Ec, Ej. destruct (e =? e'); lia. }
    assert (Hl : loose i (lay P j jt' sh)).
    { intros Q. cbn. intros [[_ E]|[_ E]]%lookup_insert_Some; [congruence | by apply (Hi Q)]. }
    destruct clone.
    + split; [done | done | cbn; lia | | |]; intros _; [split; [done|]; cbn; by rewrite lookup_insert_ne | |].
      * intros Q d HQ. by apply room_lay.
      * intros Q. apply slots_lay.
    + destruct (drop_ok i _ Hok Hl) as [Hok2 Hst2]. split; [done | | cbn; lia | done..]. intros e'. by rewrite Hst2.
  - destruct Hst as (jt' & Ee & Hst). destruct clone.
    + destruct Hst as [Ec ->]. destruct (new_item_ok jt' sh Hs Hn) as (Hok1 & Hl1 & Hst1).
      assert (Hj : forall R, sh_slots (new_item_on jt' sh) !! R = Some (sh_next sh) -> R = P) by (intros R E; by apply Hl1 in E).
      destruct (lay_ok P (sh_next sh) jt' _ Hok1 Hj) as [Hok Hstock]; [split; rewrite ?Ee; lia | cbn; rewrite u32_small; lia |].
      split; [done | | cbn; rewrite u32_small; lia | | |].
      * intros e'. rewrite Hstock, Hst1. unfold amount_at, amount. cbn. rewrite HP, Ee, Ec. destruct (e =? e'); lia.
      * intros _. split.
        -- intros Q. cbn. intros [[_ E]|[_ E]]%lookup_insert_Some; [lia | by apply (Hi Q)].
        -- cbn. rewrite !lookup_insert_ne by lia. done.
      * intros _ Q d HQ Hr. apply room_lay; [done | done | by apply room_new].
      * intros _ Q. apply (slots_lay P (sh_next sh) jt' (new_item_on jt' sh)).
    + destruct Hst as [Ec ->]. rewrite u32_small in Ec by lia.
      assert (Hj : forall R, sh_slots sh !! R = Some i -> R = P) by (intros R E; by apply Hi in E).
      destruct (lay_ok P i jt' sh Hs Hj) as [Hok Hstock]; [split; rewrite ?Ee; lia | done |].
      split; [done | | cbn; lia | done..]. intros e'. rewrite Hstock. unfold amount_at, amount. rewrite HP, Ee, Ec.
      destruct (e =? e'); lia.
Qed.

(** A plan: different positions, with room at each. *)
Definition plan (mk : Z -> place) (e : Z) (sh : Shelf) (vec : list (Z * Z)) : Prop :=
  NoDup vec.*1 /\ Forall (fun pc => room_for e sh (mk pc.1) pc.2) vec.
Definition planned (vec : list (Z * Z)) : Z := foldr (fun pc n => pc.2 + n) 0 vec.

Section store_all.
Context (mk : Z -> place) (Hmk : forall p q, mk p = mk q -> p = q) (V : Shelf -> Z -> Prop).
Context (HV : forall sh sh' p, (forall Q, is_Some (sh_slots sh !! Q) -> is_Some (sh_slots sh' !! Q)) -> V sh p -> V sh' p).
Context (e i : Z) (store_at : bool -> Z * Z -> GM (option Z)).
Context (Hstore : forall clone p c s, shelf_ok (shelf s) -> V (shelf s) p -> (exists it, sh_items (shelf s) !! i = Some it /\ it_entry it = e) ->
  room_for e (shelf s) (mk p) c -> stored_at e i clone (mk p) c (shelf s) (shelf (run_state (store_at clone (p, c)) s))).

Lemma plan_next clone p c vec sh sh' : plan mk e sh ((p, c) :: vec) -> clone = true ->
  stored_result e i clone (mk p) c sh sh' -> plan mk e sh' vec.
Proof.
  intros [[Hni Hnd]%NoDup_cons [_ Hr]%Forall_cons] Hcl Hres. split; [done|].
  apply Forall_forall. intros [q d] Hq. cbn. rewrite Forall_forall in Hr.
  apply (sr_room _ _ _ _ _ _ _ Hres Hcl); [|apply (Hr (q, d) Hq)].
  intros E%Hmk. apply Hni. apply list_elem_of_fmap. exists (q, d). split; [by rewrite E | done].
Qed.
Lemma store_all_ok vec s :
  stack_sizes -> shelf_ok (shelf s) -> loose i (shelf s) -> (exists it, sh_items (shelf s) !! i = Some it /\ it_entry it = e) ->
  plan mk e (shelf s) vec -> Forall (fun pc => V (shelf s) pc.1) vec ->
  sh_next (shelf s) + Z.of_nat (length vec) < 2 ^ 32 ->
  let sh' := shelf (run_state (store_all store_at vec) s) in
  shelf_ok sh' /\ (forall e', stock e' sh' = stock e' (shelf s) + (if e =? e' then planned vec else 0)) /\
  sh_next sh' <= sh_next (shelf s) + Z.of_nat (length vec).
Proof.
  intros Hmax. revert s. induction vec as [|[p c] vec IH]; intros s Hs Hl Hit Hp HVs Hn.
  { cbn. split; [done|]. split; [intros e'; destruct (e =? e'); lia | lia]. }
  pose proof Hit as (it & Hit1 & Hit2). pose proof Hp as [_ [Hroom _]%Forall_cons]. apply Forall_cons in HVs as [HV1 HVs].
  cbn [length] in Hn.
  assert (Hres : forall clone, stored_result e i clone (mk p) c (shelf s) (shelf (run_state (store_at clone (p, c)) s))).
  { intros clone. eapply stored_ok; [done.. | lia | by apply Hstore]. }
  destruct vec as [|q vec].
  - cbn [store_all]. rewrite run_state_bind. destruct (Hres false) as [R1 R2 R3 _ _ _]. cbn zeta.
    split; [done|]. split; [|cbn; cbn in R3; lia]. intros e'. rewrite rs_ret, R2. cbn. destruct (e =? e'); lia.
  - change (store_all store_at ((p, c) :: q :: vec)) with (store_at true (p, c) ;; store_all store_at (q :: vec)).
    rewrite run_state_bind. set (s1 := run_state (store_at true (p, c)) s) in *. specialize (Hres true). fold s1 in Hres.
    destruct (sr_item _ _ _ _ _ _ _ Hres eq_refl) as [Hl1 Hit'].
    destruct (IH s1) as (I1 & I2 & I3).
    + apply Hres.
    + done.
    + exists it. by rewrite Hit'.
    + by eapply plan_next.
    + eapply Forall_impl; [exact HVs|]. intros x. apply HV. by apply (sr_slots _ _ _ _ _ _ _ Hres).
    + pose proof (sr_next _ _ _ _ _ _ _ Hres). cbn [length] in *. lia.
    + split; [done|]. split; [|pose proof (sr_next _ _ _ _ _ _ _ Hres); cbn [length] in *; lia].
      intros e'. rewrite I2, (sr_stock _ _ _ _ _ _ _ Hres). cbn [planned foldr snd]. destruct (e =? e'); lia.
Qed.
End store_all.

(** ** What the code stores *)

Lemma alter_insert_same {A} (f : A -> A) (k : Z) (m : gmap Z A) a : m !! k = Some a -> alter f k m = <[k := f a]> m.
Proof.
  intros Hk. apply map_eq. intros j. destruct (decide (k = j)) as [<-|Hj].
  - by rewrite lookup_alter_eq, lookup_insert_eq, Hk.
  - by rewrite lookup_alter_ne, lookup_insert_ne.
Qed.
Lemma rs_save_item i it s : item_store s !! i = Some it -> run_state (save_item i) s = guild_execute (SaveItemRow i it) s.
Proof. intros Hi. unfold save_item, get_item. by rewrite rs_with_state, Hi. Qed.
Lemma shelf_save_item i it s : item_store s !! i = Some it ->
  shelf (run_state (save_item i) s) = mkShelf (item_store s) (slots s) (next_item s) (t_guild_bank_item s) (<[i := it]> (t_item_instance s)).
Proof. intros Hi. by rewrite (rs_save_item i it). Qed.

(** A clone is a new item of the same entry. *)
Lemma CloneItem_spec i it c fp s : item_store s !! i = Some it -> 1 <= c ->
  exists jt, it_entry jt = it_entry it /\ it_count jt = Z.min c (GetMaxStackSize v (it_entry it)) /\
    run_value (CloneItem v i c fp) s = Some (next_item s) /\
    run_state (CloneItem v i c fp) s = on_item_store (insert (next_item s) jt) (on_next_item (fun n => u32 (n + 1)) s).
Proof.
  intros Hi Hc. unfold CloneItem, get_item. rewrite rv_with_state, rs_with_state, Hi.
  destruct (Z.ltb_spec c 1) as [|_]; [lia|].
  destruct (if fp then _ else _) as [seed enchs].
  eexists. rewrite !run_value_bind, !run_state_bind. unfold when. destruct (0xFFFFFFFE <=? next_item s).
  all: split_and!; cycle 2; [reflexivity | reflexivity | reflexivity | reflexivity].
Qed.

(** Putting an item that is known into a slot of the bank. *)
Lemma SetItem_spec g tab p j jt s : 0 <= p < GUILD_BANK_MAX_SLOTS -> item_store s !! j = Some jt ->
  run_value (SetItem g tab p (Some j)) s = true /\
  shelf (run_state (SetItem g tab p (Some j)) s) =
  mkShelf (item_store s) (<[InBank g tab p := j]> (slots s)) (next_item s) (<[(g, tab, p) := j]> (t_guild_bank_item s))
    (<[j := jt]> (t_item_instance s)).
Proof.
  intros Hp Hj. unfold SetItem. assert ((GUILD_BANK_MAX_SLOTS <=? p) = false) as -> by lia.
  rewrite !run_value_bind. split; [reflexivity|]. rewrite !run_state_bind, rs_ret.
  rewrite (shelf_save_item j jt) by exact Hj. unfold shelf. cbn. rewrite lookup_delete_eq. f_equal. apply insert_delete_eq.
Qed.

(** The parts the two kinds of containers share: merging into a stack and placing a
    new item or the item itself. *)
Lemma put_merged P j jt sh : shelf_ok sh -> sh_slots sh !! P = Some j ->
  lay P j jt sh = mkShelf (<[j := jt]> (sh_items sh)) (sh_slots sh) (sh_next sh) (sh_bank sh) (<[j := jt]> (sh_rows sh)).
Proof.
  intros Hs HP. unfold lay. f_equal; [by apply insert_id|]. destruct P as [g t sl|u pos]; [|done]. cbn.
  apply insert_id. by rewrite (so_bank _ Hs).
Qed.
Lemma shelf_merged j jt n s : item_store s !! j = Some jt ->
  shelf (run_state (save_item j) (run_state (SetCount j n) s)) =
  mkShelf (<[j := set_count (u32 n) jt]> (item_store s)) (slots s) (next_item s) (t_guild_bank_item s)
    (<[j := set_count (u32 n) jt]> (t_item_instance s)).
Proof.
  intros Hj. rewrite (shelf_save_item j (set_count (u32 n) jt)).
  - cbn. by rewrite (alter_insert_same _ _ _ jt).
  - cbn. by rewrite lookup_alter_eq, Hj.
Qed.
Lemma shelf_delete_item i s : shelf (run_state (delete_item i) s) = drop_item i (shelf s).
Proof. reflexivity. Qed.

Lemma bank_stored g tab e i clone p c s :
  shelf_ok (shelf s) -> 0 <= p < GUILD_BANK_MAX_SLOTS -> (exists it, sh_items (shelf s) !! i = Some it /\ it_entry it = e) ->
  room_for e (shelf s) (InBank g tab p) c ->
  stored_at e i clone (InBank g tab p) c (shelf s) (shelf (run_state (bank_store_at v g tab i clone (p, c)) s)).
Proof.
  intros Hs Hp (it & Hit & He) [Hc Hroom]. unfold stored_at, bank_store_at. rewrite rs_with_state.
  unfold bank_item. rewrite (u8_small p) by (unfold GUILD_BANK_MAX_SLOTS in Hp; lia). cbn in Hit.
  change (sh_slots (shelf s) !! InBank g tab p) with (slots s !! InBank g tab p) in *.
  destruct (slots s !! InBank g tab p) as [j|] eqn:HP.
  - destruct Hroom as (jt & Hjt & Ej & _). cbn in Hjt. unfold item_count, get_item. rewrite Hjt.
    exists jt, (set_count (u32 (it_count jt + c)) jt). split_and!; [done..|]. rewrite !run_state_bind, rs_ret.
    rewrite (put_merged _ j) by done. destruct clone; [exact (shelf_merged j jt _ s Hjt)|].
    change (run_state (when (negb false) ?m) ?s1) with (run_state m s1). rewrite shelf_delete_item.
    by rewrite (shelf_merged j jt).
  - destruct clone.
    + destruct (CloneItem_spec i it c false s Hit Hc) as (jt & Ee & Ec & Ev & Est).
      exists jt. split; [congruence|]. split; [by rewrite Ec, He|]. rewrite run_state_bind, Ev, Est, run_state_bind, rs_ret.
      destruct (SetItem_spec g tab p (next_item s) jt (on_item_store (insert (next_item s) jt) (on_next_item (fun n => u32 (n + 1)) s))) as [_ ->];
        [done | cbn; by rewrite lookup_insert_eq |]. unfold lay, new_item_on. cbn. by rewrite insert_insert_eq.
    + exists (set_count (u32 c) it). split; [done|]. split; [done|]. rewrite !run_state_bind.
      change (run_value (SetCount i c ;; ret (Some i)) s) with (Some i). cbv beta iota. rewrite run_state_bind, !rs_ret.
      destruct (SetItem_spec g tab p i (set_count (u32 c) it) (run_state (SetCount i c) s)) as [_ ->];
        [done | cbn; by rewrite lookup_alter_eq, Hit |]. unfold lay. cbn. by rewrite (alter_insert_same _ _ _ it).
Qed.

(** *** The bags *)

Definition bag_of (pos : Z) : Z := Z.shiftr pos 8.
Definition slot_of (pos : Z) : Z := Z.land pos 255.
(** A position of the bags that the code reaches: one of the player's own slots that
    are kept, or a slot of a bag he wears. *)
Definition reachable (u : Z) (sh : Shelf) (pos : Z) : Prop :=
  0 <= pos < 2 ^ 16 /\
  if bag_of pos =? INVENTORY_SLOT_BAG_0 then
    (slot_of pos <? BANK_SLOT_BAG_END) || within KEYRING_SLOT_START CURRENCYTOKEN_SLOT_END (slot_of pos) = true
  else
    within INVENTORY_SLOT_BAG_START INVENTORY_SLOT_BAG_END (bag_of pos) || within BANK_SLOT_BAG_START BANK_SLOT_BAG_END (bag_of pos) = true /\
    is_Some (sh_slots sh !! InBags u (bag_pos INVENTORY_SLOT_BAG_0 (bag_of pos))).
Lemma reachable_more u sh sh' pos :
  (forall Q, is_Some (sh_slots sh !! Q) -> is_Some (sh_slots sh' !! Q)) -> reachable u sh pos -> reachable u sh' pos.
Proof. intros Hm [Hp Hr]. split; [done|]. destruct (_ =? _); [done|]. destruct Hr as [Hb Hi]. auto. Qed.
Lemma bag_pos_split pos : 0 <= pos < 2 ^ 16 -> bag_pos (bag_of pos) (slot_of pos) = pos.
Proof.
  intros Hp. unfold bag_pos, bag_of, slot_of. apply Z.bits_inj'. intros n Hn.
  rewrite Z.lor_spec, Z.land_spec. destruct (Z.lt_ge_cases n 8) as [Hlt|Hge].
  - rewrite Z.shiftl_spec_low by done. change 255 with (Z.ones 8). rewrite Z.ones_spec_low by lia. by rewrite andb_true_r.
  - rewrite Z.shiftl_spec, Z.shiftr_spec by lia. change 255 with (Z.ones 8). rewrite Z.ones_spec_high by lia.
    rewrite andb_false_r, orb_false_r. f_equal. lia.
Qed.
Lemma bag_not_worn pos : 0 <= pos < 2 ^ 16 -> bag_of pos <> INVENTORY_SLOT_BAG_0 ->
  within INVENTORY_SLOT_BAG_START INVENTORY_SLOT_BAG_END (bag_of pos) || within BANK_SLOT_BAG_START BANK_SLOT_BAG_END (bag_of pos) = true ->
  bag_of pos < BANK_SLOT_BAG_END.
Proof. unfold within, INVENTORY_SLOT_BAG_END, BANK_SLOT_BAG_END. lia. Qed.
Lemma worn_bag u s bag : bag < BANK_SLOT_BAG_END ->
  GetItemByPos s u INVENTORY_SLOT_BAG_0 bag = slots s !! InBags u (bag_pos INVENTORY_SLOT_BAG_0 bag).
Proof. intros Hb. unfold GetItemByPos. rewrite Z.eqb_refl. assert ((bag <? BANK_SLOT_BAG_END) = true) as -> by lia. done. Qed.
(** At such a position the code looks into the slot and may put an item there. *)
Lemma GetItemByPos_reachable u s pos : reachable u (shelf s) pos ->
  GetItemByPos s u (bag_of pos) (slot_of pos) = slots s !! InBags u pos /\
  (bag_of pos =? INVENTORY_SLOT_BAG_0) || bool_decide (is_Some (GetItemByPos s u INVENTORY_SLOT_BAG_0 (bag_of pos))) = true.
Proof.
  intros [Hp Hr]. unfold GetItemByPos at 1. rewrite bag_pos_split by done.
  destruct (Z.eqb_spec (bag_of pos) INVENTORY_SLOT_BAG_0) as [|Hne]; [by rewrite Hr|].
  destruct Hr as [Hb Hi]. rewrite Hb. cbn in Hi. destruct Hi as [b Hi]. rewrite Hi. split; [done|]. rewrite orb_false_l.
  rewrite worn_bag, Hi by (by eapply bag_not_worn). by apply bool_decide_eq_true_2.
Qed.

Lemma bind_item_spec j jt pos s : item_store s !! j = Some jt ->
  exists jt', it_entry jt' = it_entry jt /\ it_count jt' = it_count jt /\
    run_state (bind_item v j pos) s = on_item_store (alter (fun _ => jt') j) s.
Proof.
  intros Hj. unfold bind_item. rewrite rs_with_state. unfold when. destruct (binds_when_stored _ _ _).
  - exists (on_item_flags (fun f => Z.lor f ITEM_FLAG_SOULBOUND) jt). split; [done|]. split; [done|].
    rewrite rs_modify. destruct s. unfold on_item_store. cbn in *. f_equal. by rewrite !(alter_insert_same _ _ _ jt).
  - exists jt. split; [done|]. split; [done|]. rewrite rs_ret. destruct s. unfold on_item_store. cbn in *.
    f_equal. rewrite (alter_insert_same _ _ _ jt) by done. by rewrite insert_id.
Qed.
Lemma shelf_set_market m s : shelf (set_market m s) = shelf s.
Proof. done. Qed.

Lemma bags_stored u e i clone p c s :
  shelf_ok (shelf s) -> reachable u (shelf s) p -> (exists it, sh_items (shelf s) !! i = Some it /\ it_entry it = e) ->
  room_for e (shelf s) (InBags u p) c ->
  stored_at e i clone (InBags u p) c (shelf s) (shelf (run_state (bags_store_at v u i clone (p, c)) s)).
Proof.
  intros Hs Hp (it & Hit & He) [Hc Hroom]. unfold stored_at, bags_store_at. rewrite rs_with_state. cbn in Hit.
  destruct (GetItemByPos_reachable u s p Hp) as [Hg Hbag]. fold (bag_of p) (slot_of p). rewrite Hg.
  change (sh_slots (shelf s) !! InBags u p) with (slots s !! InBags u p) in *.
  destruct (slots s !! InBags u p) as [j|] eqn:HP.
  - destruct Hroom as (jt & Hjt & Ej & _). cbn in Hjt. unfold item_count, get_item. rewrite Hjt.
    destruct (bind_item_spec j jt p s Hjt) as (jb & Eb & Ecb & Hb).
    exists jt, (set_count (u32 (it_count jt + c)) jb). split_and!; [done | done | done |]. rewrite !run_state_bind, rs_ret, Hb.
    set (s1 := on_item_store _ s). assert (Hj1 : item_store s1 !! j = Some jb) by (cbn; by rewrite lookup_alter_eq, Hjt).
    assert (Hm : shelf (run_state (save_item j) (run_state (SetCount j (it_count jt + c)) s1)) =
                 lay (InBags u p) j (set_count (u32 (it_count jt + c)) jb) (shelf s)).
    { rewrite (shelf_merged j jb) by done. rewrite (put_merged _ j) by done. cbn.
      rewrite (alter_insert_same _ _ _ jt) by done. by rewrite insert_insert_eq. }
    destruct clone; [exact Hm|].
    change (run_state (when (negb false) ?m) ?s2) with (run_state m s2). by rewrite shelf_delete_item, Hm.
  - assert (Hplace : forall j jt sh1 s1, item_store s1 !! j = Some jt ->
      shelf s1 = sh1 -> (GetItemByPos s1 u INVENTORY_SLOT_BAG_0 (bag_of p) = GetItemByPos s u INVENTORY_SLOT_BAG_0 (bag_of p)) ->
      exists jt', it_entry jt' = it_entry jt /\ it_count jt' = it_count jt /\
        shelf (run_state (bind_item v j p ;;
          when ((bag_of p =? INVENTORY_SLOT_BAG_0) || bool_decide (is_Some (GetItemByPos s u INVENTORY_SLOT_BAG_0 (bag_of p))))
            (modify (on_slots (insert (InBags u p) j)) ;; in_market (modify (on_inventory (insert j u)))) ;;
          save_item j ;; ret (Some j)) s1) = lay (InBags u p) j jt' sh1).
    { intros j jt sh1 s1 Hj <- _. destruct (bind_item_spec j jt p s1 Hj) as (jb & Eb & Ecb & Hb).
      exists jb. split; [done|]. split; [done|]. rewrite !run_state_bind, rs_ret, Hb, Hbag. unfold when.
      rewrite run_state_bind. rewrite (shelf_save_item j jb); [|cbn; by rewrite lookup_alter_eq, Hj].
      unfold lay. cbn. by rewrite (alter_insert_same _ _ _ jt). }
    destruct clone.
    + destruct (CloneItem_spec i it c true s Hit Hc) as (jt & Ee & Ec & Ev & Est).
      rewrite run_state_bind, Ev, Est. set (s1 := on_item_store _ _).
      destruct (Hplace (next_item s) jt (new_item_on jt (shelf s)) s1) as (jt' & E1 & E2 & Hput); [cbn; by rewrite lookup_insert_eq | done..|].
      exists jt'. split; [congruence|]. split; [by rewrite E2, Ec, He|]. rewrite Hput. unfold lay, new_item_on. cbn.
      by rewrite !insert_insert_eq.
    + rewrite run_state_bind. change (run_value (SetCount i c ;; ret (Some i)) s) with (Some i). cbv beta iota.
      change (run_state (SetCount i c ;; ret (Some i)) s) with (run_state (SetCount i c) s).
      destruct (Hplace i (set_count (u32 c) it) (shelf (run_state (SetCount i c) s)) (run_state (SetCount i c) s)) as (jt' & E1 & E2 & Hput);
        [cbn; by rewrite lookup_alter_eq, Hit | done | done |].
      exists jt'. split; [by rewrite E1|]. split; [done|]. rewrite Hput. unfold lay. cbn.
      by rewrite (alter_insert_same _ _ _ it), insert_insert_eq.
Qed.

(** ** What a container answers *)

(** Room at a position once the item [i] has been taken out. *)
Definition room_without (e i : Z) (sh : Shelf) (P : place) (c : Z) : Prop :=
  1 <= c /\
  match sh_slots sh !! P with
  | None => c <= GetMaxStackSize v e
  | Some j => if j =? i then c <= GetMaxStackSize v e
              else exists jt, sh_items sh !! j = Some jt /\ it_entry jt = e /\ it_count jt + c <= GetMaxStackSize v e
  end.
Definition plan_without (mk : Z -> place) (e i : Z) (sh : Shelf) (vec : list (Z * Z)) : Prop :=
  NoDup vec.*1 /\ Forall (fun pc => room_without e i sh (mk pc.1) pc.2) vec.
(** A position of a bank tab. *)
Definition tab_slot (p : Z) : Prop := 0 <= p < GUILD_BANK_MAX_SLOTS.

Lemma planned_app l p c : planned (l ++ [(p, c)]) = planned l + c.
Proof. induction l as [|q l IH]; cbn; [lia|]. unfold planned in *. rewrite IH. lia. Qed.
Lemma plan_without_app mk e i sh l p c :
  plan_without mk e i sh l -> p ∉ l.*1 -> room_without e i sh (mk p) c -> plan_without mk e i sh (l ++ [(p, c)]).
Proof.
  intros [Hnd Hr] Hp Hc. split.
  - rewrite fmap_app. apply NoDup_app. split; [done|]. split; [|apply NoDup_singleton].
    intros q Hq Hq'%list_elem_of_singleton. cbn in Hq'. by subst.
  - apply Forall_app. by split; [|apply Forall_singleton].
Qed.

Section bank_answer.
Context (s : GuildWorld) (g tab i : Z) (it : Item) (x : Guild).
Context (Hmax : stack_sizes) (Hs : shelf_ok (shelf s)) (Hx : GuildStore s !! g = Some x) (Hi : item_store s !! i = Some it).
Context (Hfit : fits_stack it) (Htab : tab < Z.of_nat (length (m_bankTabs x))).

(** What the loops keep: a plan for a part of the items, and the rest. *)
Record reserved (acc : list (Z * Z) * Z) : Prop := {
  rv_plan : plan_without (InBank g tab) (it_entry it) i (shelf s) acc.1;
  rv_slots : Forall tab_slot acc.1.*1;
  rv_sum : planned acc.1 + acc.2 = it_count it;
  rv_rest : 0 <= acc.2
}.
Lemma dest_item_slot p : tab_slot p ->
  match dest_item s g tab p i with
  | Some jt => exists j, slots s !! InBank g tab p = Some j /\ j <> i /\ item_store s !! j = Some jt
  | None => slots s !! InBank g tab p = None \/ slots s !! InBank g tab p = Some i
  end.
Proof.
  intros Hp. unfold dest_item, _GetItem, bank_item. rewrite Hx. unfold tab_slot in Hp.
  assert ((tab <? Z.of_nat (length (m_bankTabs x))) && (p <? GUILD_BANK_MAX_SLOTS) = true) as -> by lia.
  destruct (slots s !! InBank g tab p) as [j|] eqn:E; [|by left]. destruct (Z.eqb_spec j i) as [->|Hji]; [by right|].
  destruct (so_item _ Hs _ _ E) as (jt & Hjt & _). cbn in Hjt. unfold get_item. rewrite Hjt. eauto.
Qed.
Lemma reserve_ok dest p acc acc' : tab_slot p -> 1 <= acc.2 -> reserved acc ->
  dest = dest_item s g tab p i -> _ReserveSpace v (it_entry it) p dest acc = Some acc' -> reserved acc'.
Proof.
  intros Hp Hn [R1 R2 R3 R4] -> Hr. destruct acc as [vec n]. cbn in *. pose proof (dest_item_slot p Hp) as Hd.
  pose proof (Hmax (it_entry it)) as Hm. unfold _ReserveSpace in Hr.
  destruct (negb _) eqn:Hfits in Hr; [done|]. apply negb_false_iff in Hfits.
  case_bool_decide as Hin; injection Hr as <-; [by split|].
  set (req := Z.min _ n). assert (Hroom : room_without (it_entry it) i (shelf s) (InBank g tab p) req /\ 1 <= req <= n).
  { unfold room_without. change (sh_slots (shelf s)) with (slots s). change (sh_items (shelf s)) with (item_store s).
    destruct (dest_item s g tab p i) as [jt|].
    - destruct Hd as (j & -> & Hji & Hjt). apply andb_true_iff in Hfits as [He%Z.eqb_eq Hlt%Z.ltb_lt].
      assert ((j =? i) = false) as -> by lia. split; [split; [lia|]|lia]. exists jt. split; [done|]. split; [done|]. lia.
    - destruct Hd as [->| ->]; rewrite ?Z.eqb_refl; lia. }
  destruct Hroom as [Hroom Hreq]. clearbody req. split; cbn [fst snd].
  - by apply plan_without_app.
  - rewrite fmap_app. apply Forall_app. split; [done|]. by apply Forall_singleton.
  - rewrite planned_app. unfold planned in *. lia.
  - lia.
Qed.
Lemma store_step_ok skip merge acc p : tab_slot p -> reserved acc ->
  reserved (store_step v s g tab i (it_entry it) skip merge acc p).
Proof.
  intros Hp Hr. unfold store_step. destruct (Z.leb_spec acc.2 0); [done|]. destruct (p =? skip); [done|].
  destruct (negb _); [done|]. destruct (_ReserveSpace v _ _ _ _) as [acc'|] eqn:E; [|done]. cbn.
  eapply (reserve_ok _ p acc); eauto. lia.
Qed.
Lemma scan_ok skip merge acc : reserved acc -> reserved (_CanStoreItemInTab v s g tab i (it_entry it) skip merge acc).
Proof.
  unfold _CanStoreItemInTab. assert (Hall : Forall tab_slot tab_slots).
  { apply Forall_forall. intros p Hp%elem_of_seqZ. unfold tab_slot. lia. }
  revert acc. induction Hall as [|p l Hp Hl IH]; intros acc Hr; [done|]. cbn. apply IH. by apply store_step_ok.
Qed.
End bank_answer.

(** Where the bank says yes, it has a plan for all of the item. *)
Lemma bank_CanStore_plan s g tab slot i it vec :
  stack_sizes -> shelf_ok (shelf s) -> item_store s !! i = Some it -> fits_stack it -> tab_slot slot \/ slot = NULL_SLOT ->
  bank_CanStore v s g tab slot i false = (EQUIP_ERR_OK, vec) ->
  plan_without (InBank g tab) (it_entry it) i (shelf s) vec /\ Forall tab_slot vec.*1 /\ planned vec = it_count it /\
  exists x, GuildStore s !! g = Some x /\ tab < Z.of_nat (length (m_bankTabs x)).
Proof.
  intros Hmax Hs Hi Hfit Hslot. unfold bank_CanStore, get_item. rewrite Hi.
  destruct (GuildStore s !! g) as [x|] eqn:Hx; [|done]. destruct (has_flag _ _); [done|].
  destruct (Z.leb_spec (_GetPurchasedTabsSize x) tab) as [|Htab0]; [done|].
  assert (Htab : tab < Z.of_nat (length (m_bankTabs x))).
  { unfold _GetPurchasedTabsSize in Htab0. pose proof (Z.mod_le (Z.of_nat (length (m_bankTabs x))) (2 ^ 8)). unfold uwrap in *. lia. }
  assert (Hdone : forall acc : list (Z * Z) * Z, reserved s g tab i it acc -> acc.2 = 0 -> acc.1 = vec ->
    plan_without (InBank g tab) (it_entry it) i (shelf s) vec /\ Forall tab_slot vec.*1 /\ planned vec = it_count it /\
    exists y, Some x = Some y /\ tab < Z.of_nat (length (m_bankTabs y))).
  { intros acc [R1 R2 R3 R4] H0 <-. split_and!; [done | done | lia | by exists x]. }
  assert (Hempty : reserved s g tab i it ([], it_count it)).
  { destruct Hfit. split; cbn; [split; constructor | constructor | done | lia]. }
  destruct (if slot =? NULL_SLOT then _ else _) as [acc|] eqn:Efirst; [|done].
  assert (Hacc : reserved s g tab i it acc).
  { destruct (Z.eqb_spec slot NULL_SLOT) as [_|Hne]; [by injection Efirst as <-|]. destruct Hslot as [Hslot|]; [|done].
    exact (reserve_ok s g tab i it x Hmax Hs Hx Htab _ slot ([], it_count it) acc Hslot (proj1 Hfit) Hempty eq_refl Efirst). }
  destruct (Z.eqb_spec acc.2 0) as [H0|_]; [intros [= Hv]; by apply (Hdone acc)|]. cbv zeta.
  set (acc1 := if 1 <? _ then _CanStoreItemInTab _ _ _ _ _ _ _ _ _ else acc). assert (Hacc1 : reserved s g tab i it acc1).
  { subst acc1. destruct (1 <? _); [by eapply scan_ok | done]. }
  clearbody acc1. destruct (Z.eqb_spec acc1.2 0) as [H0|_]; [intros [= Hv]; by apply (Hdone acc1)|].
  pose proof (scan_ok s g tab i it x Hmax Hs Hx Htab slot false acc1 Hacc1) as Hacc2.
  set (acc2 := _CanStoreItemInTab v s g tab i (it_entry it) slot false acc1) in *. clearbody acc2.
  destruct (Z.eqb_spec acc2.2 0) as [H0|_]; [|done].
  intros [= Hv]. by eapply Hdone.
Qed.
Lemma bank_CanStore_swap s g tab slot i it vec :
  stack_sizes -> item_store s !! i = Some it -> fits_stack it -> tab_slot slot ->
  bank_CanStore v s g tab slot i true = (EQUIP_ERR_OK, vec) ->
  vec = [(slot, it_count it)] /\ exists x, GuildStore s !! g = Some x /\ tab < Z.of_nat (length (m_bankTabs x)).
Proof.
  intros Hmax Hi Hfit Hslot. unfold bank_CanStore, get_item. rewrite Hi. destruct (GuildStore s !! g) as [x|]; [|done].
  destruct (has_flag _ _); [done|]. destruct (Z.leb_spec (_GetPurchasedTabsSize x) tab) as [|Htab0]; [done|].
  assert (Htab : tab < Z.of_nat (length (m_bankTabs x))).
  { unfold _GetPurchasedTabsSize in Htab0. pose proof (Z.mod_le (Z.of_nat (length (m_bankTabs x))) (2 ^ 8)). unfold uwrap in *. lia. }
  assert ((slot =? NULL_SLOT) = false) as -> by (unfold tab_slot, GUILD_BANK_MAX_SLOTS, NULL_SLOT in *; lia).
  unfold _ReserveSpace. cbn [negb andb]. rewrite bool_decide_eq_false_2 by (intros ?%elem_of_nil; done).
  destruct Hfit as [H1 H2]. rewrite Z.min_r by lia. cbn [snd app fst]. rewrite Z.sub_diag. cbn. intros [= <-].
  split; [done | by exists x].
Qed.

(** ** The two ends of a move *)

Lemma shelf_frame {A} (m : GM A) s : frames core m -> shelf (run_state m s) = shelf s.
Proof. intros Hm. apply shelf_core, Hm. Qed.

Abbreviation same_guilds := (fun s s' : GuildWorld => c_guilds (core s') = c_guilds (core s)).
#[local] Instance same_guilds_core : CoreOrder same_guilds.
Proof. split; [exact _|]. intros s s' E. by rewrite E. Qed.
Lemma guilds_modify f : (forall s, GuildStore (f s) = GuildStore s) -> runs same_guilds (modify f : GM unit).
Proof. intros Hf. apply runs_modify. intros s. unfold core. cbn. by rewrite Hf. Qed.
Lemma guilds_market {A} (m : KM A) : runs same_guilds (in_market m).
Proof. intros s. unfold in_market, run_state. by destruct (m (market s)) as [[a k] l]. Qed.
Hint Resolve guilds_market : runs.
Hint Extern 3 (runs same_guilds (modify _)) => (apply guilds_modify; intros ?; reflexivity) : runs.
Hint Extern 6 (runs same_guilds _) => (apply (runs_core same_guilds); solve [auto 2 with runs nocore]) : runs.

Section ends.
Context `{!HashOrder} (g u : Z).

Definition place_of (d : MoveItemData) : place :=
  if IsBank d then InBank g (m_container d) (m_slotId d) else InBags u (bag_pos (m_container d) (m_slotId d)).
Definition place_in (d : MoveItemData) : Z -> place := if IsBank d then InBank g (m_container d) else InBags u.
Definition position (d : MoveItemData) (sh : Shelf) (p : Z) : Prop := if IsBank d then tab_slot p else reachable u sh p.
Lemma place_in_inj d p q : place_in d p = place_in d q -> p = q.
Proof. unfold place_in. destruct (IsBank d); congruence. Qed.

Lemma guilds_RemoveItem d e n : runs same_guilds (RemoveItem v g u d e n).
Proof. unfold RemoveItem, SetItem, SetCount, save_item. runs_through. Qed.
Lemma guilds_store_at_bank t i b p : runs same_guilds (bank_store_at v g t i b p).
Proof. unfold bank_store_at, SetItem, SetCount, CloneItem, delete_item, save_item. runs_through. Qed.
Lemma guilds_store_at_bags i b p : runs same_guilds (bags_store_at v u i b p).
Proof. unfold bags_store_at, SetItem, SetCount, CloneItem, delete_item, save_item, bind_item. runs_through. Qed.
Lemma guilds_store_all f l : (forall b p, runs same_guilds (f b p)) -> runs same_guilds (store_all f l).
Proof. intros Hf. induction l as [|p [|q l] IH]; cbn [store_all]; runs_through; apply Hf. Qed.
Lemma guilds_StoreItem d i : runs same_guilds (StoreItem v g u d i).
Proof. unfold StoreItem. runs_through; apply guilds_store_all; auto using guilds_store_at_bank, guilds_store_at_bags. Qed.

Definition tab_exists (t : Z) (s : GuildWorld) : Prop :=
  exists x, GuildStore s !! g = Some x /\ t < Z.of_nat (length (m_bankTabs x)).
Lemma tab_exists_same t s s' : same_guilds s s' -> tab_exists t s -> tab_exists t s'.
Proof.
  intros E (x & Hx & Ht). apply (f_equal (fun m => m !! g)) in E. cbn in E. rewrite !lookup_fmap, Hx in E.
  destruct (GuildStore s' !! g) as [y|] eqn:Hy; [|done]. exists y. split; [done|].
  cbn in E. injection E as _ _ El _ _. lia.
Qed.

Lemma shelf_remove_whole d other i s : m_pItem d = Some i -> (IsBank d = true -> tab_slot (m_slotId d)) ->
  shelf (run_state (RemoveItem v g u d other 0) s) = take_out (place_of d) (shelf s).
Proof.
  intros Hi Hslot. unfold RemoveItem, place_of. rewrite rs_with_state, Hi. destruct (IsBank d).
  - rewrite Z.eqb_refl, !run_state_bind, rs_ret. rewrite shelf_frame by (unfold when; destruct (negb _); [auto with runs | apply runs_ret, _]).
    unfold SetItem. specialize (Hslot eq_refl). unfold tab_slot in Hslot.
    assert ((GUILD_BANK_MAX_SLOTS <=? m_slotId d) = false) as -> by lia. rewrite !run_state_bind. reflexivity.
  - cbv iota. rewrite Z.eqb_refl, !run_state_bind, rs_ret. unfold in_market. reflexivity.
Qed.
Lemma shelf_remove_part d other n i it s : n <> 0 -> m_pItem d = Some i -> item_store s !! i = Some it ->
  shelf_ok (shelf s) -> slots s !! place_of d = Some i ->
  shelf (run_state (RemoveItem v g u d other n) s) = lay (place_of d) i (set_count (u32 (it_count it - n)) it) (shelf s).
Proof.
  intros Hn Hi Hit Hs HP. unfold RemoveItem. rewrite rs_with_state, Hi.
  rewrite (proj2 (Z.eqb_neq n 0) Hn). unfold item_count, get_item. rewrite Hit, (put_merged _ i) by done.
  destruct (IsBank d).
  - rewrite !run_state_bind, rs_ret. rewrite shelf_frame by (unfold when; destruct (negb _); [auto with runs | apply runs_ret, _]).
    exact (shelf_merged i it _ s Hit).
  - rewrite !run_state_bind, rs_ret.
    assert (E : forall s1, shelf (run_state (in_market (SaveInventoryAndGoldToDB u)) s1) = shelf s1) by reflexivity.
    rewrite E. exact (shelf_merged i it _ s Hit).
Qed.

(** Storing what a container has a plan for. *)
Lemma StoreItem_ok d i e s :
  stack_sizes -> shelf_ok (shelf s) -> loose i (shelf s) -> (exists it, sh_items (shelf s) !! i = Some it /\ it_entry it = e) ->
  plan (place_in d) e (shelf s) (m_vec d) -> Forall (fun pc => position d (shelf s) pc.1) (m_vec d) ->
  (IsBank d = true -> tab_exists (m_container d) s) -> sh_next (shelf s) + Z.of_nat (length (m_vec d)) < 2 ^ 32 ->
  let sh' := shelf (run_state (StoreItem v g u d i) s) in
  shelf_ok sh' /\ (forall e', stock e' sh' = stock e' (shelf s) + (if e =? e' then planned (m_vec d) else 0)) /\
  sh_next sh' <= sh_next (shelf s) + Z.of_nat (length (m_vec d)).
Proof.
  intros Hmax Hs Hl Hit Hp Hpos Htab Hn. unfold StoreItem. pose proof (place_in_inj d) as Hinj. unfold place_in, position in *.
  destruct (IsBank d).
  - destruct (Htab eq_refl) as (x & Hx & Ht). unfold with_guild. rewrite rs_with_state, Hx. unfold when.
    assert ((m_container d <? Z.of_nat (length (m_bankTabs x))) = true) as -> by lia.
    apply (store_all_ok (InBank g (m_container d)) Hinj (fun _ => tab_slot) ltac:(auto) e i); try done.
    intros clone p c s' Hs' Hp' Hit' Hr. by apply bank_stored.
  - rewrite !run_state_bind, rs_emit.
    assert (E : forall s1, shelf (run_state (in_market (SaveInventoryAndGoldToDB u)) s1) = shelf s1) by reflexivity.
    rewrite E. apply (store_all_ok (InBags u) Hinj (reachable u) (reachable_more u) e i); try done.
    intros clone p c s' Hs' Hp' Hit' Hr. by apply bags_stored.
Qed.

(** *** From the answer to a plan that can be carried out *)

Lemma plan_taken mk e i P sh vec :
  shelf_ok sh -> sh_slots sh !! P = Some i -> plan_without mk e i sh vec -> plan mk e (take_out P sh) vec.
Proof.
  intros Hs HP [Hnd Hr]. split; [done|]. eapply Forall_impl; [exact Hr|]. intros [p c] [Hc Hm]. split; [done|]. cbn in *.
  destruct (decide (P = mk p)) as [E|Hne].
  - rewrite <- E in Hm |- *. rewrite lookup_delete_eq. by rewrite HP, Z.eqb_refl in Hm.
  - rewrite lookup_delete_ne by done. destruct (sh_slots sh !! mk p) as [j|] eqn:E; [|done].
    destruct (Z.eqb_spec j i) as [->|_]; [|done]. destruct Hne. by eapply (so_inj _ Hs).
Qed.
Lemma plan_part mk e i k kt n P sh vec :
  shelf_ok sh -> loose i sh -> sh_slots sh !! P = Some k -> sh_items sh !! k = Some kt -> n <= it_count kt ->
  plan_without mk e i sh vec -> plan mk e (lay P k (set_count n kt) sh) vec.
Proof.
  intros Hs Hl HP Hk Hn [Hnd Hr]. split; [done|]. eapply Forall_impl; [exact Hr|]. intros [p c] [Hc Hm]. split; [done|]. cbn in *.
  assert (Hpart : sh_slots sh !! mk p <> None -> exists j jt, sh_slots sh !! mk p = Some j /\ sh_items sh !! j = Some jt /\
     it_entry jt = e /\ it_count jt + c <= GetMaxStackSize v e).
  { destruct (sh_slots sh !! mk p) as [j|] eqn:E; [intros _|done]. destruct (Z.eqb_spec j i) as [->|_]; [by apply Hl in E|].
    destruct Hm as (jt & ? & ? & ?). eauto 6. }
  destruct (decide (P = mk p)) as [EP|Hne].
  - rewrite <- EP in Hpart |- *. rewrite lookup_insert_eq. destruct Hpart as (j & jt & E & Hjt & He & Hle); [by rewrite HP|].
    assert (j = k) as -> by congruence. assert (jt = kt) as -> by congruence.
    exists (set_count n kt). rewrite lookup_insert_eq. split; [done|]. split; [done|]. cbn. lia.
  - rewrite lookup_insert_ne by done. destruct (sh_slots sh !! mk p) as [j|] eqn:E; [|done].
    destruct Hpart as (j' & jt & [= <-] & Hjt & He & Hle); [done|]. exists jt.
    rewrite lookup_insert_ne; [done|]. intros <-. apply Hne. by eapply (so_inj _ Hs).
Qed.
Lemma nodup_bound (l : list Z) n : NoDup l -> Forall (fun x => 0 <= x < n) l -> Z.of_nat (length l) <= Z.max 0 n.
Proof.
  intros Hnd Hl. assert (Hsub : l ⊆+ seqZ 0 n).
  { apply NoDup_submseteq; [done|]. intros x Hx. apply elem_of_seqZ. rewrite Forall_forall in Hl. specialize (Hl x Hx). lia. }
  apply submseteq_length in Hsub. rewrite length_seqZ in Hsub. lia.
Qed.
Lemma position_range d sh p : position d sh p -> 0 <= p < 2 ^ 16.
Proof. unfold position, tab_slot, GUILD_BANK_MAX_SLOTS, reachable. destruct (IsBank d); lia. Qed.
Lemma plan_length d sh (vec : list (Z * Z)) : NoDup vec.*1 -> Forall (fun pc => position d sh pc.1) vec -> Z.of_nat (length vec) <= 2 ^ 16.
Proof.
  intros Hnd Hp. pose proof (nodup_bound vec.*1 (2 ^ 16) Hnd) as Hb. rewrite length_fmap in Hb.
  assert (Hall : Forall (fun x => 0 <= x < 2 ^ 16) vec.*1); [|specialize (Hb Hall); lia].
  apply Forall_fmap. eapply Forall_impl; [exact Hp|]. intros pc. apply position_range.
Qed.

(** What the bags promise ([Player::CanStoreItem]): a swap into a position takes the
    whole stack; otherwise the answer is a plan for all of the item. *)
Class BagsContract : Prop := {
  bags_swap : forall s w bag slot i vec,
    CanStoreItem_at v s w bag slot i true = (EQUIP_ERR_OK, vec) -> vec = [(bag_pos bag slot, item_count s i)];
  bags_plan : forall s w bag slot i it vec,
    shelf_ok (shelf s) -> item_store s !! i = Some it -> fits_stack it ->
    CanStoreItem_at v s w bag slot i false = (EQUIP_ERR_OK, vec) ->
    plan_without (InBags w) (it_entry it) i (shelf s) vec /\ Forall (fun pc => reachable w (shelf s) pc.1) vec /\
    planned vec = it_count it
}.
Context (Hmax : stack_sizes) `{!BagsContract}.

Definition end_ok (d : MoveItemData) : Prop := IsBank d = true -> tab_slot (m_slotId d) \/ m_slotId d = NULL_SLOT.
Lemma rv_CanStore d i swap err s :
  run_value (CanStore v g u d i swap err) s =
  let r := if IsBank d then bank_CanStore v s g (m_container d) (m_slotId d) i swap
           else CanStoreItem_at v s u (m_container d) (m_slotId d) i swap in
  (r.1 =? EQUIP_ERR_OK, set_vec r.2 d).
Proof. unfold CanStore. rewrite rv_with_state. cbn zeta. destruct (if IsBank d then bank_CanStore _ _ _ _ _ _ _ else _) as [msg vec]. by rewrite run_value_bind. Qed.
Lemma answer_plan d i it err s :
  shelf_ok (shelf s) -> item_store s !! i = Some it -> fits_stack it -> end_ok d ->
  exists ok vec, run_value (CanStore v g u d i false err) s = (ok, set_vec vec d) /\
  (ok = true -> plan_without (place_in d) (it_entry it) i (shelf s) vec /\ Forall (fun pc => position d (shelf s) pc.1) vec /\
     planned vec = it_count it /\ (IsBank d = true -> tab_exists (m_container d) s)).
Proof.
  intros Hs Hi Hfit Hend. rewrite rv_CanStore. cbn zeta. set (r := if IsBank d then _ else _). exists (r.1 =? EQUIP_ERR_OK), r.2.
  split; [done|]. intros Hok%Z.eqb_eq. assert (Er : r = (EQUIP_ERR_OK, r.2)) by (rewrite <- Hok; by destruct r).
  subst r. unfold place_in, position in *. destruct (IsBank d) eqn:Eb.
  - destruct (bank_CanStore_plan _ _ _ _ _ _ _ Hmax Hs Hi Hfit (Hend Eb) Er) as (H1 & H2 & H3 & H4).
    split_and!; [done | by rewrite Forall_fmap in H2 | done | by intros _].
  - destruct (bags_plan _ _ _ _ _ _ _ Hs Hi Hfit Er) as (H1 & H2 & H3). by split_and!.
Qed.

Definition own_position (d : MoveItemData) : Z := if IsBank d then m_slotId d else bag_pos (m_container d) (m_slotId d).
Lemma place_own d : place_in d (own_position d) = place_of d.
Proof. unfold place_in, own_position, place_of. by destruct (IsBank d). Qed.
Definition located (d : MoveItemData) (i : Z) (s : GuildWorld) : Prop :=
  m_pItem d = Some i /\ slots s !! place_of d = Some i /\ position d (shelf s) (own_position d).
Lemma located_slot d i s : located d i s -> IsBank d = true -> tab_slot (m_slotId d).
Proof. intros (_ & _ & H3) Hb. unfold position, own_position in H3. by rewrite Hb in H3. Qed.
Lemma answer_swap d i it k err s :
  item_store s !! i = Some it -> fits_stack it -> located d k s ->
  exists ok vec, run_value (CanStore v g u d i true err) s = (ok, set_vec vec d) /\
  (ok = true -> vec = [(own_position d, it_count it)] /\ (IsBank d = true -> tab_exists (m_container d) s)).
Proof.
  intros Hi Hfit Hl. rewrite rv_CanStore. cbn zeta. set (r := if IsBank d then _ else _). exists (r.1 =? EQUIP_ERR_OK), r.2.
  split; [done|]. intros Hok%Z.eqb_eq. assert (Er : r = (EQUIP_ERR_OK, r.2)) by (rewrite <- Hok; by destruct r).
  pose proof (located_slot _ _ _ Hl) as Hslot. subst r. unfold own_position. destruct (IsBank d) eqn:Eb.
  - destruct (bank_CanStore_swap _ _ _ _ _ _ _ Hmax Hi Hfit (Hslot eq_refl) Er) as [H1 H2]. by split.
  - rewrite (bags_swap _ _ _ _ _ _ Er). unfold item_count, get_item. by rewrite Hi.
Qed.

(** *** Moves *)

Definition kept (s s' : GuildWorld) : Prop :=
  shelf_ok (shelf s') /\ forall e, stock e (shelf s') = stock e (shelf s).
(** Nothing the items or the guilds' tabs depend on has changed. *)
Definition still (s s' : GuildWorld) : Prop := shelf s' = shelf s /\ same_guilds s s'.
#[local] Instance still_core : CoreOrder still.
Proof.
  split.
  - split; [intros s; split; reflexivity|]. intros s1 s2 s3 [E1 G1] [E2 G2]. split; congruence.
  - intros s s' E. split; [by apply shelf_core | by rewrite E].
Qed.
Lemma still_frame {A} (m : GM A) s : frames core m -> still s (run_state m s).
Proof. intros Hm. apply co_core, Hm. Qed.

Lemma place_reachable d P sh : position d sh (own_position d) -> P = place_of d \/ (exists g' t sl, P = InBank g' t sl) ->
  position d (take_out P sh) (own_position d).
Proof.
  unfold position, own_position, place_of. destruct (IsBank d); [done|]. intros [Hp Hr] HP. split; [done|].
  set (pos := bag_pos _ _) in *. destruct (Z.eqb_spec (bag_of pos) INVENTORY_SLOT_BAG_0) as [|Hne]; [done|].
  destruct Hr as [Hb Hi]. split; [done|]. cbn. rewrite lookup_delete_ne; [done|]. intros E.
  destruct HP as [->|(g' & t & sl & ->)]; [|done]. injection E as E.
  apply Hne. rewrite E. unfold bag_of, bag_pos. apply Z.bits_inj'. intros n Hn.
  assert (Hbag : 0 <= bag_of pos < 256).
  { split; [apply Z.shiftr_nonneg; lia|]. unfold bag_of. rewrite Z.shiftr_div_pow2 by lia. apply Z.div_lt_upper_bound; lia. }
  rewrite Z.shiftr_spec, Z.lor_spec, Z.shiftl_spec by lia. replace (n + 8 - 8) with n by lia.
  destruct (Z.lt_ge_cases n 0); [lia|]. replace (Z.testbit (Z.shiftr pos 8) (n + 8)) with false; [by rewrite orb_false_r|].
  symmetry. apply Z.bits_above_log2; [apply Hbag|]. destruct (Z.eq_dec (Z.shiftr pos 8) 0) as [->|]; [cbn; lia|].
  apply Z.log2_lt_pow2; [unfold bag_of in Hbag; lia|]. apply (Z.lt_le_trans _ (2 ^ 8)); [exact (proj2 Hbag)|].
  apply Z.pow_le_mono_r; lia.
Qed.

(** Both kinds of bags at once do not occur. *)
Definition one_bank (d e : MoveItemData) : Prop := IsBank d = true \/ IsBank e = true.
Lemma position_taken d e P sh p : one_bank d e -> P = place_of e -> position d sh p -> position d (take_out P sh) p.
Proof.
  intros Hone -> Hp. unfold position in *. destruct (IsBank d) eqn:Ed; [done|]. destruct Hone as [|He]; [congruence|].
  destruct Hp as [Hr1 Hr2]. split; [done|]. destruct (_ =? _); [done|]. destruct Hr2 as [Hb Hi]. split; [done|].
  unfold place_of. rewrite He. cbn. by rewrite lookup_delete_ne.
Qed.
Lemma place_of_vec vec d : place_of (set_vec vec d) = place_of d.
Proof. done. Qed.

(** What is moved and where it comes from: a whole stack, or a clone for a part. *)
Definition moving (d : MoveItemData) (i n : Z) (s : GuildWorld) : Prop :=
  exists k kt, located d k s /\ item_store s !! k = Some kt /\
    ((n = 0 /\ i = k) \/
     (n <> 0 /\ loose i (shelf s) /\ 1 <= n < it_count kt /\
      exists it, item_store s !! i = Some it /\ it_entry it = it_entry kt /\ it_count it = n)).

Lemma fits_kept s i it d : shelf_ok (shelf s) -> located d i s -> item_store s !! i = Some it -> fits_stack it.
Proof. intros Hs (_ & HP & _) Hi. destruct (so_item _ Hs _ _ HP) as (it' & Hi' & Hf). cbn in Hi'. by rewrite Hi in Hi'; injection Hi' as <-. Qed.
Lemma moving_item d i n s : shelf_ok (shelf s) -> moving d i n s ->
  exists it, item_store s !! i = Some it /\ fits_stack it /\ match (if n =? 0 then m_pItem d else Some i) with Some j => j = i | None => False end.
Proof.
  intros Hs (k & kt & Hl & Hk & [[-> ->]|(Hn & Hloose & Hc & it & Hit & He & Hcount)]).
  - exists kt. split; [done|]. split; [by eapply fits_kept|]. cbn. by destruct Hl as (-> & _).
  - exists it. split; [done|]. split; [|by rewrite (proj2 (Z.eqb_neq n 0) Hn)].
    pose proof (fits_kept _ _ _ _ Hs Hl Hk) as [H1 H2]. split; rewrite ?He; lia.
Qed.

(** Taking the part or the whole out of its place leaves the rest in order, and the
    plan made before can be carried out. *)
Lemma removed_ok d e other i n it vec s :
  shelf_ok (shelf s) -> moving d i n s -> item_store s !! i = Some it ->
  one_bank e d -> plan_without (place_in e) (it_entry it) i (shelf s) vec -> Forall (fun pc => position e (shelf s) pc.1) vec ->
  let sh := shelf (run_state (RemoveItem v g u d other n) s) in
  shelf_ok sh /\ loose i sh /\ sh_items sh !! i = Some it /\ sh_next sh = sh_next (shelf s) /\
  (forall x, stock x sh = stock x (shelf s) - (if it_entry it =? x then it_count it else 0)) /\
  plan (place_in e) (it_entry it) sh vec /\ Forall (fun pc => position e sh pc.1) vec.
Proof.
  intros Hs (k & kt & Hl & Hk & Hcase) Hi Hone Hplan Hpos. cbv zeta. pose proof Hl as (Hitem & HP & _).
  destruct Hcase as [[-> ->]|(Hn & Hloose & Hc & it' & Hit & He & Hcount)].
  - rewrite (shelf_remove_whole d other k) by (done || by apply (located_slot _ _ _ Hl)).
    destruct (take_out_ok _ _ _ Hs HP) as (H1 & H2 & H3). split_and!; try done.
    + intros x. rewrite H3. unfold entry_count. cbn. by rewrite Hi.
    + by apply (plan_taken _ _ k).
    + eapply Forall_impl; [exact Hpos|]. intros pc. by apply (position_taken e d).
  - rewrite Hi in Hit. injection Hit as <-. rewrite (shelf_remove_part d other n k kt) by done.
    pose proof (fits_kept _ _ _ _ Hs Hl Hk) as [Hf1 Hf2]. pose proof (Hmax (it_entry kt)) as Hm.
    assert (Hu : u32 (it_count kt - n) = it_count kt - n) by (apply u32_small; lia).
    assert (Hki : k <> i) by (intros ->; by apply (Hloose (place_of d))).
    destruct (lay_ok (place_of d) k (set_count (u32 (it_count kt - n)) kt) (shelf s) Hs) as [H1 H2].
    { intros Q HQ. by eapply (so_inj _ Hs). } { split; cbn; lia. } { by eapply (so_fresh _ Hs). }
    split_and!; [done | | cbn; by rewrite lookup_insert_ne | done | | |].
    + intros Q. cbn. intros [[_ E]|[_ E]]%lookup_insert_Some; [done | by apply (Hloose Q)].
    + intros x. rewrite H2. unfold amount_at, entry_count, amount. cbn. rewrite HP, Hk, He, Hu, Hcount. destruct (_ =? x); lia.
    + eapply (plan_part _ _ _ _ _ _ _ _ _ Hs Hloose HP); [exact Hk | lia | exact Hplan].
    + eapply Forall_impl; [exact Hpos|]. intros pc. unfold position. destruct (IsBank e); [done|].
      apply reachable_more. intros Q. apply slots_lay.
Qed.

Lemma shelf_fields s s' : shelf s' = shelf s ->
  item_store s' = item_store s /\ slots s' = slots s /\ next_item s' = next_item s.
Proof. intros E. by injection E. Qed.
Lemma located_same d i s s' : shelf s' = shelf s -> located d i s -> located d i s'.
Proof. intros E (H1 & H2 & H3). destruct (shelf_fields _ _ E) as (_ & E2 & _). split_and!; [done | by rewrite E2 | by rewrite E]. Qed.
Lemma moving_same d i n s s' : shelf s' = shelf s -> moving d i n s -> moving d i n s'.
Proof.
  intros E (k & kt & Hl & Hk & Hc). destruct (shelf_fields _ _ E) as (E1 & _ & _).
  exists k, kt. rewrite E, E1. split; [by eapply located_same | done].
Qed.
Lemma kept_still s s' : shelf_ok (shelf s) -> still s s' -> kept s s'.
Proof. intros Hs [E _]. split; rewrite E; [done|]. done. Qed.
Lemma is_Some_None {A} : bool_decide (is_Some (@None A)) = false.
Proof. apply bool_decide_eq_false_2. by intros []. Qed.
Lemma is_Some_Some {A} (a : A) : bool_decide (is_Some (Some a)) = true.
Proof. apply bool_decide_eq_true_2. by exists a. Qed.

(** A move that is not a swap keeps everything; refused, it changes nothing. *)
Lemma do_move_ok d e i n err s :
  shelf_ok (shelf s) -> moving d i n s -> (if n =? 0 then m_pItem d else m_pClonedItem d) = Some i ->
  m_pItem e = None -> end_ok e -> one_bank e d -> sh_next (shelf s) + 2 ^ 16 < 2 ^ 32 ->
  let r := _DoItemsMove v g u d e err n in
  kept s (run_state r s) /\
  exists vec, (run_value r s).1.1 = false -> run_value r s = (false, d, set_vec vec e) /\ still s (run_state r s).
Proof.
  intros Hs Hmv Hsrc He Hend Hone Hroom. cbv zeta. destruct (moving_item _ _ _ _ Hs Hmv) as (it & Hi & Hfit & _).
  destruct (answer_plan e i it err s Hs Hi Hfit Hend) as (ok & vec & Ev & Hok).
  unfold _DoItemsMove. rewrite Hsrc, He, is_Some_None. rewrite run_state_bind, run_value_bind, Ev.
  set (s1 := run_state (CanStore v g u e i false err) s).
  assert (Hst1 : still s s1) by (apply still_frame; auto with runs). clearbody s1.
  destruct ok; cbn [negb]; cycle 1.
  { rewrite !rs_ret, rv_ret. split; [by apply kept_still|]. by exists vec. }
  change (m_pItem (set_vec vec e)) with (m_pItem e). rewrite He, !run_state_bind, !run_value_bind, !rs_ret, !rv_ret.
  cbn [negb]. rewrite !rs_with_state, !rv_with_state. split; cycle 1.
  { exists vec. rewrite !run_value_bind, !rv_ret. discriminate. }
  rewrite !run_state_bind, !rs_ret. match goal with |- context [run_state (RemoveItem v g u d ?o n) ?s0] =>
    set (s2 := s0); set (s3 := run_state (RemoveItem v g u d o n) s2) end.
  assert (Hst2 : still s s2).
  { transitivity s1; [done|]. subst s2. repeat (etransitivity; [|apply still_frame; runs_through]). reflexivity. }
  destruct Hst2 as [E2 G2]. destruct (Hok eq_refl) as (Hplan & Hpos & Hsum & Htab). destruct (shelf_fields _ _ E2) as (Ei & _ & _).
  destruct (removed_ok d e (set_vec vec e) i n it vec s2) as (R1 & R2 & R3 & R4 & R5 & R6 & R7);
    [by rewrite E2 | by eapply moving_same | by rewrite Ei | done | by rewrite E2 | by rewrite E2 |]. fold s3 in R1, R2, R3, R4, R5, R6, R7.
  destruct (StoreItem_ok (set_vec vec e) i (it_entry it) s3) as (S1 & S2 & S3); try done.
  - by exists it.
  - intros Hb. eapply tab_exists_same; [|by apply Htab]. transitivity (c_guilds (core s2)); [apply guilds_RemoveItem | exact G2].
  - pose proof (plan_length e _ vec (proj1 R6) R7). change (m_vec (set_vec vec e)) with vec. rewrite R4, E2. lia.
  - split; [exact S1|]. intros x. rewrite S2, R5, E2. change (m_vec (set_vec vec e)) with vec. rewrite Hsum. destruct (_ =? x); lia.
Qed.

(** Storing an item at one free position. *)
Lemma store_one d p c i it s :
  shelf_ok (shelf s) -> item_store s !! i = Some it -> m_vec d = [(p, c)] -> slots s !! place_in d p = None ->
  1 <= c <= GetMaxStackSize v (it_entry it) -> position d (shelf s) p -> (IsBank d = true -> tab_exists (m_container d) s) ->
  exists jt, it_entry jt = it_entry it /\ it_count jt = c /\
    shelf (run_state (StoreItem v g u d i) s) = lay (place_in d p) i jt (shelf s).
Proof.
  intros Hs Hi Hvec Hfree Hc Hpos Htab. unfold StoreItem. rewrite Hvec. unfold place_in, position in *.
  assert (Hit : exists jt, sh_items (shelf s) !! i = Some jt /\ it_entry jt = it_entry it) by (by exists it).
  pose proof (Hmax (it_entry it)) as Hm. assert (Hu : u32 c = c) by (apply u32_small; lia).
  destruct (IsBank d).
  - destruct (Htab eq_refl) as (x & Hx & Ht). unfold with_guild. rewrite rs_with_state, Hx. unfold when.
    assert ((m_container d <? Z.of_nat (length (m_bankTabs x))) = true) as -> by lia. cbn [store_all].
    rewrite run_state_bind, rs_ret.
    pose proof (bank_stored g (m_container d) (it_entry it) i false p c s Hs Hpos Hit) as Hst.
    unfold stored_at, room_for in Hst. change (sh_slots (shelf s)) with (slots s) in Hst. rewrite Hfree in Hst.
    destruct Hst as (jt & E1 & E2 & E3); [lia|]. exists jt. by rewrite E2.
  - rewrite !run_state_bind, rs_emit. cbn [store_all]. rewrite run_state_bind, rs_ret.
    assert (E : forall s1, shelf (run_state (in_market (SaveInventoryAndGoldToDB u)) s1) = shelf s1) by reflexivity. rewrite E.
    pose proof (bags_stored u (it_entry it) i false p c s Hs Hpos Hit) as Hst.
    unfold stored_at, room_for in Hst. change (sh_slots (shelf s)) with (slots s) in Hst. rewrite Hfree in Hst.
    destruct Hst as (jt & E1 & E2 & E3); [lia|]. exists jt. by rewrite E2.
Qed.

(** The shelf after a swap of the items at [P] and [Q]. *)
Lemma swapped_ok P Q i k it kt jt jt' sh :
  shelf_ok sh -> P <> Q -> sh_slots sh !! P = Some i -> sh_slots sh !! Q = Some k ->
  sh_items sh !! i = Some it -> sh_items sh !! k = Some kt -> fits_stack it -> fits_stack kt ->
  it_entry jt = it_entry it -> it_count jt = it_count it -> it_entry jt' = it_entry kt -> it_count jt' = it_count kt ->
  let sh' := lay P k jt' (lay Q i jt (take_out Q (take_out P sh))) in
  shelf_ok sh' /\ forall x, stock x sh' = stock x sh.
Proof.
  intros Hs HPQ HP HQ Hi Hk Hfi Hfk E1 E2 E3 E4. cbv zeta.
  assert (Hik : i <> k) by (intros <-; apply HPQ; by eapply (so_inj _ Hs)).
  destruct (take_out_ok P i sh Hs HP) as (H1 & L1 & S1). set (sh1 := take_out P sh) in *.
  assert (HQ1 : sh_slots sh1 !! Q = Some k) by (cbn; by rewrite lookup_delete_ne).
  destruct (take_out_ok Q k sh1 H1 HQ1) as (H2 & L2 & S2). set (sh2 := take_out Q sh1) in *.
  assert (L3 : loose i sh2) by (intros R E; change (delete Q (sh_slots sh1) !! R = Some i) in E; apply lookup_delete_Some in E as [_ E]; by apply (L1 R)).
  destruct (lay_ok Q i jt sh2 H2) as [H3 S3]; [intros R E; by apply L3 in E | split; rewrite ?E1, ?E2; apply Hfi | by apply (so_fresh _ Hs i it)|].
  set (sh3 := lay Q i jt sh2) in *.
  assert (L4 : loose k sh3) by (intros R E; change (<[Q := i]> (sh_slots sh2) !! R = Some k) in E; apply lookup_insert_Some in E as [[_ E]|[_ E]]; [done | by apply (L2 R)]).
  destruct (lay_ok P k jt' sh3 H3) as [H4 S4]; [intros R E; by apply L4 in E | split; rewrite ?E3, ?E4; apply Hfk | by apply (so_fresh _ Hs k kt)|].
  split; [done|]. intros x. rewrite S4, S3, S2, S1. unfold amount_at, entry_count, amount. cbn.
  rewrite lookup_insert_ne, !lookup_delete_eq, lookup_delete_ne, lookup_delete_eq by done. rewrite Hi, Hk, E1, E2, E3, E4. lia.
Qed.

Lemma shelf_take s P Q : forall s', shelf s' = take_out Q (take_out P (shelf s)) ->
  item_store s' = item_store s /\ slots s' = delete Q (delete P (slots s)).
Proof. intros s' E. by injection E. Qed.
Lemma do_swap_ok d e i k err s :
  shelf_ok (shelf s) -> located d i s -> located e k s -> place_of d <> place_of e -> one_bank d e ->
  kept s (run_state (_DoItemsMove v g u d e err 0) s).
Proof.
  intros Hs Hd He Hne Hone. pose proof Hd as (Hdi & HP & Hdp). pose proof He as (Hek & HQ & Hep).
  destruct (so_item _ Hs _ _ HP) as (it & Hi & Hfi). destruct (so_item _ Hs _ _ HQ) as (kt & Hk & Hfk).
  destruct (answer_swap e i it k err s Hi Hfi He) as (ok & vec & Ev & Hok).
  unfold _DoItemsMove. cbn [Z.eqb]. rewrite Hdi, Hek, is_Some_Some. rewrite run_state_bind, Ev.
  set (s1 := run_state (CanStore v g u e i true err) s).
  assert (Hst1 : still s s1) by (apply still_frame; auto with runs). clearbody s1.
  destruct ok; cbn [negb]; cycle 1.
  { rewrite !rs_ret. by apply kept_still. }
  change (m_pItem (set_vec vec e)) with (m_pItem e). rewrite Hek.
  destruct (shelf_fields _ _ (proj1 Hst1)) as (Ei1 & _ & _).
  destruct (answer_swap d k kt i true s1) as (ok' & vec' & Ev' & Hok');
    [by rewrite Ei1 | done | by apply (located_same _ _ s); [apply Hst1|] |].
  rewrite run_state_bind, Ev'. set (s2 := run_state (CanStore v g u d k true true) s1).
  assert (Hst2 : still s s2) by (transitivity s1; [done | apply still_frame; auto with runs]). clearbody s2.
  destruct ok'; cbn [negb]; cycle 1.
  { rewrite !rs_ret. by apply kept_still. }
  rewrite rs_with_state, !run_state_bind, !rs_ret.
  match goal with |- context [run_state (RemoveItem v g u ?o ?o' 0) ?s0] =>
    match s0 with context [RemoveItem] => fail 1 | _ => set (s3 := s0) end end.
  assert (Hst3 : still s s3).
  { transitivity s2; [done|]. subst s3. repeat (etransitivity; [|apply still_frame; runs_through]). reflexivity. }
  clearbody s3. destruct Hst3 as [E3 G3]. destruct (Hok eq_refl) as [-> Htab]. destruct (Hok' eq_refl) as [-> Htab'].
  set (s4 := run_state (RemoveItem v g u (set_vec _ d) _ 0) s3).
  assert (E4 : shelf s4 = take_out (place_of d) (shelf s)).
  { subst s4. rewrite (shelf_remove_whole _ _ i) by (done || by apply (located_slot _ _ _ Hd)). by rewrite E3. }
  set (s5 := run_state (RemoveItem v g u (set_vec _ e) _ 0) s4).
  assert (E5 : shelf s5 = take_out (place_of e) (take_out (place_of d) (shelf s))).
  { subst s5. rewrite (shelf_remove_whole _ _ k) by (done || by apply (located_slot _ _ _ He)). by rewrite E4. }
  assert (G5 : same_guilds s s5).
  { transitivity (c_guilds (core s4)); [apply guilds_RemoveItem|]. transitivity (c_guilds (core s3)); [apply guilds_RemoveItem | exact G3]. }
  assert (Htab1 : IsBank d = true -> tab_exists (m_container d) s).
  { intros Hb. eapply tab_exists_same; [|by apply Htab']. symmetry. apply Hst1. }
  clearbody s4 s5. destruct (take_out_ok _ _ _ Hs HP) as (T1 & _ & _).
  assert (HQ1 : sh_slots (take_out (place_of d) (shelf s)) !! place_of e = Some k) by (cbn; by rewrite lookup_delete_ne).
  destruct (take_out_ok _ _ _ T1 HQ1) as (T2 & _ & _). rewrite <- E5 in T2.
  destruct (shelf_take _ _ _ _ E5) as [Ei5 Es5].
  assert (Hpe : position e (shelf s5) (own_position e)).
  { rewrite E5. apply place_reachable; [|by left]. eapply (position_taken e d); [by destruct Hone; [right | left] | done | done]. }
  assert (Hpd : position d (shelf s5) (own_position d)).
  { rewrite E5. eapply (position_taken d e); [done | done |]. apply place_reachable; [done | by left]. }
  cbn in Ei5, Es5.
  destruct (store_one (set_vec [(own_position e, it_count it)] e) (own_position e) (it_count it) i it s5) as (jt & J1 & J2 & E6);
    [done | by rewrite Ei5 | done | | done | done | intros Hb; eapply tab_exists_same; [exact G5 | by apply Htab] |].
  { change (place_in (set_vec _ e)) with (place_in e). by rewrite place_own, Es5, lookup_delete_eq. }
  change (place_in (set_vec _ e)) with (place_in e) in E6. rewrite place_own in E6.
  set (s6 := run_state (StoreItem v g u (set_vec _ e) i) s5) in *.
  assert (G6 : same_guilds s s6) by (transitivity (c_guilds (core s5)); [apply guilds_StoreItem | exact G5]). clearbody s6.
  assert (Hok6 : shelf_ok (shelf s6)).
  { rewrite E6. apply lay_ok; [done | | split; rewrite ?J1, ?J2; apply Hfi | rewrite E5; by apply (so_fresh _ Hs i it)].
    intros R. change (sh_slots (shelf s5)) with (slots s5). rewrite Es5. intros [_ [H1 E]%lookup_delete_Some]%lookup_delete_Some.
    destruct H1. by eapply (so_inj _ Hs). }
  assert (Hki : i <> k) by (intros <-; apply Hne; by eapply (so_inj _ Hs)).
  destruct (store_one (set_vec [(own_position d, it_count kt)] d) (own_position d) (it_count kt) k kt s6) as (jt' & J3 & J4 & E7);
    [done | | done | | done | | intros Hb; eapply tab_exists_same; [exact G6 | by apply Htab1] |].
  { apply (f_equal sh_items) in E6. cbn in E6. by rewrite E6, lookup_insert_ne, Ei5. }
  { change (place_in (set_vec _ d)) with (place_in d). rewrite place_own. apply (f_equal sh_slots) in E6. cbn in E6.
    by rewrite E6, lookup_insert_ne, Es5, lookup_delete_ne, lookup_delete_eq. }
  { change (position d (shelf s6) (own_position d)). rewrite E6. unfold position in *. destruct (IsBank d); [done|].
    eapply reachable_more; [|exact Hpd]. intros R. apply slots_lay. }
  change (place_in (set_vec _ d)) with (place_in d) in E7. rewrite place_own in E7. unfold kept. rewrite E7, E6, E5.
  by apply (swapped_ok _ _ i k it kt).
Qed.

(** *** A request *)

Lemma bag_pos_parts bag slot : 0 <= bag < 256 -> 0 <= slot < 256 ->
  0 <= bag_pos bag slot < 2 ^ 16 /\ bag_of (bag_pos bag slot) = bag /\ slot_of (bag_pos bag slot) = slot.
Proof.
  intros Hb Hs. assert (Hland : Z.land (Z.shiftl bag 8) slot = 0).
  { apply Z.bits_inj'. intros n Hn. rewrite Z.land_spec, Z.bits_0. destruct (Z.lt_ge_cases n 8).
    - by rewrite Z.shiftl_spec_low.
    - replace slot with (slot mod 2 ^ 8) by (apply Z.mod_small; lia). rewrite Z.mod_pow2_bits_high by lia. apply andb_false_r. }
  assert (E : bag_pos bag slot = bag * 256 + slot).
  { unfold bag_pos. rewrite <- Z.add_nocarry_lor by done. by rewrite Z.shiftl_mul_pow2. }
  rewrite E. split; [lia|]. split.
  - unfold bag_of. rewrite Z.shiftr_div_pow2 by lia. change (2 ^ 8) with 256. rewrite Z.div_add_l by lia. rewrite Z.div_small; lia.
  - unfold slot_of. change 255 with (Z.ones 8). rewrite Z.land_ones by lia. change (2 ^ 8) with 256.
    rewrite Z.add_comm, Z_mod_plus_full. apply Z.mod_small. lia.
Qed.

(** The numbers are those of a packet. *)
Definition in_range (d : MoveItemData) : Prop := 0 <= m_container d < 256 /\ 0 <= m_slotId d < 256.
Lemma rv_InitItem d s : in_range d ->
  exists o, run_value (InitItem v g u d) s = set_pItem o d /\ forall i, o = Some i -> located (set_pItem o d) i s.
Proof.
  intros [Hc Hsl]. unfold InitItem. rewrite rv_with_state. unfold located.
  change (place_of (set_pItem ?o d)) with (place_of d). change (own_position (set_pItem ?o d)) with (own_position d).
  change (position (set_pItem ?o d)) with (position d). unfold place_of, own_position, position.
  destruct (IsBank d) eqn:Eb.
  - exists (_GetItem s g (m_container d) (m_slotId d)). split; [done|]. intros i Hi. split; [done|].
    unfold _GetItem, bank_item in Hi. destruct (GuildStore s !! g) as [x|]; [|done].
    destruct (_ && _) eqn:E; [|done]. split; [done|]. apply andb_true_iff in E as [_ E%Z.ltb_lt]. split; lia.
  - destruct (GetItemByPos s u (m_container d) (m_slotId d)) as [i|] eqn:Ei; [|by exists None].
    destruct (bag_is_filled v i); [exists None; by rewrite run_value_bind|].
    destruct (negb _); [exists None; by rewrite run_value_bind|].
    exists (Some i). split; [done|]. intros i' [= <-]. split; [done|].
    destruct (bag_pos_parts (m_container d) (m_slotId d) Hc Hsl) as (H1 & H2 & H3). unfold reachable. rewrite H2, H3.
    unfold GetItemByPos in Ei. destruct (Z.eqb_spec (m_container d) INVENTORY_SLOT_BAG_0) as [E|_].
    + destruct (_ || _) eqn:Eo in Ei; [|done]. by split.
    + destruct (_ || _) eqn:Eo in Ei; [|done]. destruct (slots s !! InBags u (bag_pos INVENTORY_SLOT_BAG_0 (m_container d))) as [b|] eqn:Eb'; [|done].
      split; [done|]. split; [done|]. split; [done|]. cbn. rewrite Eb'. by exists b.
Qed.

Lemma kept_then {A} (m : GM A) s s' : kept s s' -> frames core m -> kept s (run_state m s').
Proof. intros [H1 H2] Hm. destruct (still_frame m s' Hm) as [E _]. split; rewrite E; done. Qed.
Lemma kept_skip {A B} (m : GM A) (k : A -> GM B) s0 s :
  still s0 s -> frames core m -> (forall s', still s0 s' -> kept s0 (run_state (k (run_value m s)) s')) ->
  kept s0 (run_state (bind m k) s).
Proof. intros Hs Hm Hk. rewrite run_state_bind. apply Hk. etransitivity; [exact Hs | by apply still_frame]. Qed.
Lemma kept_from s0 s s' : still s0 s -> kept s s' -> kept s0 s'.
Proof. intros [E _] [H1 H2]. split; [done|]. intros e. by rewrite H2, E. Qed.

Lemma try_swap_ok d e i s :
  shelf_ok (shelf s) -> located d i s -> in_range e -> place_of d <> place_of e -> one_bank d e ->
  kept s (run_state (try_swap v g u d e) s).
Proof.
  intros Hs Hd He Hne Hone. unfold try_swap. destruct (rv_InitItem e s He) as (o & Ev & Ho).
  assert (Hrefl : still s s) by reflexivity.
  apply kept_skip; [done | auto with runs |]. intros s1 Hs1. rewrite Ev. change (m_pItem (set_pItem o e)) with o.
  destruct o as [k|]; [|rewrite rs_ret; by apply kept_still]. specialize (Ho k eq_refl).
  apply kept_skip; [done | auto with runs |]. intros s2 Hs2. destruct (negb _); [rewrite rs_ret; by apply kept_still|].
  apply kept_skip; [done | auto with runs |]. intros s3 Hs3. destruct (negb _); [rewrite rs_ret; by apply kept_still|].
  rewrite run_state_bind. set (s4 := run_state _ s3). assert (Hk : kept s s4).
  { apply (kept_from _ s3); [done|]. apply (do_swap_ok _ _ i k); [| | | done | done].
    - by rewrite (proj1 Hs3).
    - eapply located_same; [apply Hs3 | done].
    - eapply located_same; [apply Hs3 | done]. }
  by destruct (run_value (_DoItemsMove _ _ _ _ _ _ _) _) as [[moved pS] pD].
Qed.

Lemma split_amount count n n' : 0 <= n -> CheckItem count n = Some n' -> n' = 0 \/ (1 <= n' < count).
Proof.
  unfold CheckItem. intros Hn. destruct (Z.ltb_spec count n); [done|]. destruct (Z.eqb_spec n count); intros [= <-]; [by left|].
  destruct (Z.eq_dec n 0); [by left | right; lia].
Qed.

Lemma move_part_ok d e i n s :
  shelf_ok (shelf s) -> located d i s -> 1 <= n < item_count s i -> m_pItem e = None -> end_ok e -> one_bank e d ->
  sh_next (shelf s) + 2 ^ 16 + 1 < 2 ^ 32 ->
  kept s (run_state (let! cloned := clone_item v u d n in
                     match cloned with
                     | None => ret tt
                     | Some pSrc => let! (_, pSrc, pDest) := _DoItemsMove v g u pSrc e true n in _SendBankContentUpdate v g pSrc pDest
                     end) s).
Proof.
  intros Hs Hl Hn He Hend Hone Hroom. pose proof Hl as (Hd & HP & Hpos).
  destruct (so_item _ Hs _ _ HP) as (kt & Hk & Hfit). cbn in Hk. unfold item_count, get_item in Hn. rewrite Hk in Hn.
  destruct (CloneItem_spec i kt n false s Hk) as (jt & E1 & E2 & Ev & Est); [lia|].
  destruct Hfit as [Hf1 Hf2]. rewrite Z.min_l in E2 by lia.
  unfold clone_item. rewrite Hd, !run_state_bind, run_value_bind, Ev, Est, rv_ret, rs_ret.
  set (s1 := on_item_store _ _). assert (Esh : shelf s1 = new_item_on jt (shelf s)) by reflexivity.
  destruct (new_item_ok jt (shelf s) Hs) as (N1 & N2 & N3); [lia|]. rewrite <- Esh in N1, N2, N3.
  pose proof (so_fresh _ Hs i kt Hk) as Hfresh. cbn in Hfresh.
  rewrite run_state_bind.
  destruct (do_move_ok (set_cloned (next_item s) d) e (next_item s) n true s1) as [[K1 K2] _].
  - done.
  - exists i, kt. split; [exact Hl|]. split; [cbn; by rewrite lookup_insert_ne by lia|]. right.
    split; [lia|]. split; [exact N2|]. split; [done|]. exists jt. split; [cbn; by rewrite lookup_insert_eq | done].
  - by rewrite (proj2 (Z.eqb_neq n 0)) by lia.
  - done.
  - done.
  - done.
  - rewrite Esh. cbn [sh_next new_item_on]. pose proof (so_next _ Hs). rewrite u32_small; lia.
  - match goal with |- kept s (run_state _ ?s2) => assert (Hk2 : kept s s2) end.
    { split; [exact K1|]. intros x. by rewrite K2, N3. }
    destruct (run_value (_DoItemsMove _ _ _ _ _ _ _) _) as [[moved pS] pD]. apply kept_then; [exact Hk2 | auto with runs].
Qed.

Lemma move_items_ok d e n s :
  shelf_ok (shelf s) -> in_range d -> in_range e -> m_pItem e = None -> end_ok e -> place_of d <> place_of e ->
  one_bank d e -> 0 <= n -> sh_next (shelf s) + 2 ^ 16 + 1 < 2 ^ 32 ->
  kept s (run_state (_MoveItems v g u d e n) s).
Proof.
  intros Hs Hd He Hnone Hend Hne Hone Hn Hroom. unfold _MoveItems. destruct (rv_InitItem d s Hd) as (o & Ev & Ho).
  assert (Hrefl : still s s) by reflexivity.
  apply kept_skip; [done | auto with runs |]. intros s1 Hs1. rewrite Ev. change (m_pItem (set_pItem o d)) with o.
  destruct o as [i|]; [|rewrite rs_ret; by apply kept_still]. specialize (Ho i eq_refl). rewrite rs_with_state.
  destruct (CheckItem (item_count s1 i) n) as [n'|] eqn:Ec; [|rewrite rs_ret; by apply kept_still].
  apply split_amount in Ec; [|done].
  apply kept_skip; [done | auto with runs |]. intros s2 Hs2. destruct (negb _); [rewrite rs_ret; by apply kept_still|].
  apply kept_skip; [done | auto with runs |]. intros s3 Hs3. destruct (negb _); [rewrite rs_ret; by apply kept_still|].
  assert (Hl3 : located (set_pItem (Some i) d) i s3) by (eapply located_same; [apply Hs3 | done]).
  assert (Hone' : one_bank e d) by (destruct Hone; [by right | by left]).
  assert (Hok3 : shelf_ok (shelf s3)) by (by rewrite (proj1 Hs3)).
  apply (kept_from _ s3); [done|].
  destruct (Z.eqb_spec n' 0) as [->|Hn']; cbn [negb]; cycle 1.
  { apply (move_part_ok (set_pItem (Some i) d) e i n'); try done.
    - destruct Ec as [|Ec]; [done|]. unfold item_count, get_item in *.
      destruct (shelf_fields _ _ (proj1 Hs1)) as (E1 & _ & _). destruct (shelf_fields _ _ (proj1 Hs3)) as (E3 & _ & _).
      by rewrite E3, <- E1.
    - by rewrite (proj1 Hs3). }
  destruct (so_item _ Hok3 _ _ (proj1 (proj2 Hl3))) as (it & Hit & Hfit).
  rewrite run_state_bind. destruct (do_move_ok (set_pItem (Some i) d) e i 0 false s3) as [Hk (vec & Hv)];
    [done | exists i, it; split; [done|]; split; [done | by left] | done | done | done | done | rewrite (proj1 Hs3); lia |].
  destruct (run_value (_DoItemsMove v g u (set_pItem (Some i) d) e false 0) s3) as [[moved pS] pD].
  destruct moved; [apply kept_then; [exact Hk | auto with runs]|].
  destruct (Hv eq_refl) as [E Hstill]. pose proof (f_equal (fun p => p.1.2) E) as E1. pose proof (f_equal snd E) as E2.
  cbn [fst snd] in E1, E2. subst pS pD. set (s4 := run_state _ s3) in *. rewrite run_state_bind.
  assert (Hk5 : kept s3 (run_state (try_swap v g u (set_pItem (Some i) d) (set_vec vec e)) s4)).
  { apply (kept_from _ s4); [done|]. apply (try_swap_ok _ _ i); try done; [by rewrite (proj1 Hstill)|].
    eapply located_same; [apply Hstill | done]. }
  destruct (run_value (try_swap _ _ _ _ _) _) as [[pS pD]|]; [|done]. apply kept_then; [exact Hk5 | auto with runs].
Qed.

(** What a packet asks for. *)
Definition request_ok (r : swap_request) : Prop :=
  match r with
  | BankToBank tab slot dtab dslot n => (0 <= tab < 256 /\ 0 <= slot < 256) /\ (0 <= dtab < 256 /\ 0 <= dslot < 256) /\ 0 <= n
  | BankAndBags tab slot bag pslot _ n => (0 <= tab < 256 /\ 0 <= slot < 256) /\ (0 <= bag < 256 /\ 0 <= pslot < 256) /\ 0 <= n
  end.
Lemma swap_items_ok r s :
  shelf_ok (shelf s) -> request_ok r -> sh_next (shelf s) + 2 ^ 16 + 1 < 2 ^ 32 -> kept s (run_state (swap_items v u g r) s).
Proof.
  intros Hs Hr Hroom. assert (Hsame : kept s s) by (apply kept_still; done). destruct r as [tab slot dtab dslot n|tab slot bag pslot toChar n]; cbn [swap_items].
  - destruct Hr as (H1 & H2 & H3). unfold SwapItems, with_guild. rewrite rs_with_state. destruct (GuildStore s !! g) as [x|]; [|done].
    cbv zeta. destruct (_ || _) eqn:E; [done|]. destruct (_ && _) eqn:E2; [done|].
    apply move_items_ok; try done; [intros _; left; unfold tab_slot; cbn; lia | | by left].
    unfold place_of. cbn. intros [= -> ->]. lia.
  - destruct Hr as (H1 & H2 & H3). destruct (_ && _) eqn:E0; [done|].
    unfold SwapItemsWithInventory, with_guild. rewrite rs_with_state. destruct (GuildStore s !! g) as [x|]; [|done].
    destruct (_ || _) eqn:E; [done|]. cbv zeta. destruct toChar; apply move_items_ok; try done; [by left | | by right].
    intros _. cbn. unfold tab_slot. destruct (Z.eqb_spec slot NULL_SLOT); [by right | left; lia].
Qed.
End ends.
End shelf.

Lemma yields_uint_range n : yields (fun x => 0 <= x < 2 ^ (8 * Z.of_nat n)) (shr_uint n).
Proof.
  intros b a b' Hb. unfold shr_uint, bbind, read, read_at. cbv zeta. destruct (_ <? u64 _); [done|].
  destruct (_ <? _); [done|]. intros [= <- <-]. split; [|done].
  set (bs := take _ _). assert (Hbs : bytes_ok bs) by (by apply Forall_take, Forall_drop).
  pose proof (le_decode_range bs Hbs) as [H1 H2]. split; [done|]. eapply Z.lt_le_trans; [exact H2|].
  apply Z.pow_le_mono_r; [lia|]. subst bs. rewrite length_take. lia.
Qed.
Lemma yields_swap : yields (fun p => request_ok p.2) parse_swap.
Proof.
  unfold parse_swap. apply (yields_bind (fun x => 0 <= x)); [apply yields_uint|]. intros GoGuid _.
  apply (yields_bind (fun x => 0 <= x)); [apply yields_uint|]. intros b _. destruct (negb _).
  all: repeat first [ apply (yields_bind (fun x => 0 <= x < 2 ^ (8 * Z.of_nat 1))); [apply yields_uint_range|]; intros ? ?
                    | apply (yields_bind (fun x => 0 <= x)); [apply yields_uint|]; intros ? ?
                    | apply (yields_bind (fun _ => True)); [apply yields_skip|]; intros _ _
                    | match goal with |- yields _ (if ?c then _ else _) => destruct c end ].
  all: apply yields_ret; unfold NULL_BAG, NULL_SLOT; cbn in *; lia.
Qed.

(** C5: the bank neither loses nor makes items: a packet that moves items between bank
    tabs, or between a tab and the bags, whole stacks or parts of them, merged, spread
    over slots, swapped or refused, leaves of every entry as many pieces in bags and
    banks as there were; no stack grows beyond its size, no item lies in two slots, and
    the rows of the bank are what lies in its slots. *)
Theorem bank_items_kept `{!Utf8Lib} `{!HashOrder} v u data s :
  stack_sizes v -> BagsContract v -> shelf_ok v (shelf s) -> bytes_ok (_storage data) -> next_item s + 2 ^ 16 + 1 < 2 ^ 32 ->
  let s' := run_state (HandleGuildBankSwapItems v u data) s in
  shelf_ok v (shelf s') /\ forall e, stock e (shelf s') = stock e (shelf s).
Proof.
  intros Hmax Hbags Hs Hb Hroom. cbv zeta. assert (Hsame : kept v s s) by (by apply kept_still).
  unfold HandleGuildBankSwapItems, with_recv. destruct (parse_swap data).1 as [[GoGuid r]|] eqn:E; [|done].
  pose proof (yields_parsed _ _ _ _ yields_swap Hb E) as Hr. unfold at_bank. destruct (guild_bank_near v u GoGuid); [|done].
  unfold _GetPlayerGuild, with_player. rewrite rs_with_state. destruct (players s !! u) as [p|]; [|done]. rewrite rs_with_state.
  destruct (if gp_guildId p =? 0 then _ else _); [|done]. by apply swap_items_ok.
Qed.

(** ** The sample server keeps its promises *)

#[export] Instance item_eq_dec : EqDecision Item.
Proof. solve_decision. Defined.
Definition shelf_okb (v : GuildView) (sh : Shelf) : bool :=
  bool_decide (map_Forall (fun P i =>
    match sh_items sh !! i with Some it => (1 <=? it_count it) && (it_count it <=? GetMaxStackSize v (it_entry it)) | None => false end = true) (sh_slots sh)) &&
  bool_decide (map_Forall (fun P i => map_Forall (fun Q j => i <> j \/ P = Q) (sh_slots sh)) (sh_slots sh)) &&
  bool_decide (map_Forall (fun i _ => i < sh_next sh) (sh_items sh)) && (0 <=? sh_next sh) &&
  bool_decide (map_Forall (fun k i => sh_slots sh !! InBank k.1.1 k.1.2 k.2 = Some i) (sh_bank sh)) &&
  bool_decide (map_Forall (fun P i => match bank_key P with Some k => bool_decide (sh_bank sh !! k = Some i) | None => true end = true) (sh_slots sh)) &&
  bool_decide (map_Forall (fun P i => match bank_key P with Some _ => bool_decide (sh_rows sh !! i = sh_items sh !! i) | None => true end = true) (sh_slots sh)).
Lemma shelf_okb_spec v sh : shelf_okb v sh = true -> shelf_ok v sh.
Proof.
  unfold shelf_okb. rewrite !andb_true_iff, !bool_decide_eq_true, Z.leb_le. intros [[[[[[H1 H2] H3] H4] H5] H6] H7]. split.
  - intros P i E. specialize (H1 P i E). cbn in H1. destruct (sh_items sh !! i) as [it|]; [|done]. exists it. apply andb_true_iff in H1 as [?%Z.leb_le ?%Z.leb_le]. done.
  - intros P Q i E E'. by destruct (H2 P i E Q i E').
  - intros i it. apply H3.
  - done.
  - intros g t sl. destruct (sh_bank sh !! (g, t, sl)) as [i|] eqn:E; [exact (eq_sym (H5 _ _ E))|].
    destruct (sh_slots sh !! InBank g t sl) as [i|] eqn:E'; [|done]. specialize (H6 _ _ E'). cbn in H6. apply bool_decide_eq_true in H6. congruence.
  - intros g t sl i E. specialize (H7 _ _ E). by apply bool_decide_eq_true in H7.
Qed.
Lemma sample_stacks t loot : stack_sizes (sample_guild_view t loot).
Proof. intros e. cbn. lia. Qed.
Lemma sample_bags t loot : BagsContract (sample_guild_view t loot).
Proof.
  split; cbn [CanStoreItem_at sample_guild_view]; unfold sample_can_store.
  - by intros s w bag slot i vec [= <-].
  - intros s w bag slot i it vec Hs Hi [Hf1 Hf2]. destruct (free_position s w) as [pos|] eqn:E; [|done].
    assert (Hc : item_count s i = it_count it) by (unfold item_count, get_item; by rewrite Hi).
    intros [= <-]. rewrite Hc. apply head_Some_elem_of in E. apply list_elem_of_filter in E as [E1 E2].
    apply list_elem_of_fmap in E2 as (y & -> & Hy%elem_of_seqZ). unfold INVENTORY_SLOT_ITEM_START in Hy.
    assert (Hp : bag_of (bag_pos INVENTORY_SLOT_BAG_0 y) = 255 /\ slot_of (bag_pos INVENTORY_SLOT_BAG_0 y) = y /\
      0 <= bag_pos INVENTORY_SLOT_BAG_0 y < 2 ^ 16).
    { assert (Hall : Forall (fun y => bag_of (bag_pos INVENTORY_SLOT_BAG_0 y) = 255 /\ slot_of (bag_pos INVENTORY_SLOT_BAG_0 y) = y /\
        0 <= bag_pos INVENTORY_SLOT_BAG_0 y /\ bag_pos INVENTORY_SLOT_BAG_0 y < 2 ^ 16) (seqZ 23 16)) by (apply (bool_decide_unpack _); vm_compute; exact I).
      rewrite Forall_forall in Hall. destruct (Hall y) as (? & ? & ? & ?); [apply elem_of_seqZ; lia | done]. }
    destruct Hp as (Hb & Hsl & Hr). split_and!.
    + split; [apply NoDup_singleton|]. apply Forall_singleton. split; cbn; [lia|]. unfold shelf. cbn. by rewrite E1.
    + apply Forall_singleton. split; [done|]. cbn. rewrite Hb, Hsl. cbn. unfold BANK_SLOT_BAG_END.
      rewrite (proj2 (Z.ltb_lt y _)); [done | lia].
    + cbn. lia.
Qed.
(** Four of the ten pieces that Ann carries go to slot 3 of the first tab of her bank. *)
Definition four_pieces : ByteBuffer :=
  packet_of [FU 8 700; FU 1 0; FU 1 0; FU 1 3; FU 4 2589; FU 1 0; FU 1 255; FU 1 23; FU 1 0; FU 4 4].
Lemma bank_items_kept_witness :
  let s := run_guilds bank_run sample_world in
  let s' := run_state (@HandleGuildBankSwapItems key_order (sample_guild_view 90 0) 1 four_pieces) s in
  shelf_ok (sample_guild_view 90 0) (shelf s') /\ stock 2589 (shelf s') = 25 /\
  (slots s' !! InBank 1 0 3 ≫= fun i => it_count <$> item_store s' !! i) = Some 4.
Proof.
  intros s s'. destruct (@bank_items_kept _ key_order (sample_guild_view 90 0) 1 four_pieces s) as [H1 H2].
  - apply sample_stacks.
  - apply sample_bags.
  - apply shelf_okb_spec. vm_compute. reflexivity.
  - apply (bool_decide_unpack _). vm_compute. exact I.
  - vm_compute. reflexivity.
  - split; [exact H1|]. split; [|vm_compute; reflexivity]. etransitivity; [exact (H2 2589) | vm_compute; reflexivity].
Defined.
