(* ===== verification/GuildRoster.v ===== *)
(** * Guild rosters

    The members a guild has in memory, the guild each player believes to be in, and
    the rows of guild_member agree; a player is in one guild, and a guild is led by
    its only member of rank 0.  A [Roster] is the part of the state this depends on.
    The programs that change it are described as functions on it: a member is placed in
    a guild with a rank, or out of it ([enrol]), and a guild itself changes ([on_guild]). *)
From Stdlib Require Import SpecFloat.
From S2P Require Import Prelude Text ByteBuffer Market Mail Auction MarketGold MarketSpec.
From S2P Require Import MarketRuns Guild GuildBank GuildHandler GuildSample GuildCore GuildGold GuildStock.

(** ** Rosters *)

Record RosterGuild := mkRosterGuild { rg_leader : Z; rg_ranks : nat; rg_members : gmap Z (Z * Z) }.
Record Roster := mkRoster {
  ro_guilds : gmap Z RosterGuild;
  ro_next : Z;
  ro_players : gmap Z (bool * Z * Z);
  ro_rows : gmap Z MemberRow
}.
Definition roster_guild (x : Guild) : RosterGuild :=
  mkRosterGuild (m_leaderGuid x) (length (m_ranks x)) (core_member <$> m_members x).
Definition roster (s : GuildWorld) : Roster :=
  mkRoster (roster_guild <$> GuildStore s) (NextGuildId s) (core_player <$> players s) (t_guild_member s).
Lemma rosters_core s s' : core s' = core s -> roster s' = roster s.
Proof.
  intros E. assert (H : forall c : gmap Z Guild, roster_guild <$> c =
    (fun k => mkRosterGuild (cg_leader k) (cg_ranks k) (cg_members k)) <$> (core_guild <$> c)).
  { intros c. by rewrite <- map_fmap_compose. }
  pose proof (f_equal c_guilds E) as E1. pose proof (f_equal c_next E) as E2.
  pose proof (f_equal c_players E) as E3. pose proof (f_equal c_member_rows E) as E4. cbn in E1, E2, E3, E4.
  unfold roster. by rewrite !H, E1, E2, E3, E4.
Qed.

(** What a guild is promised: it is led by a member, the only one of rank 0, and has
    between three and ten ranks. *)
Record led (x : RosterGuild) : Prop := {
  led_in : rg_members x !! rg_leader x = Some (rg_leader x, 0);
  led_only : forall low w, rg_members x !! low = Some (w, 0) -> low = rg_leader x;
  led_ranks : (3 <= rg_ranks x <= 10)%nat
}.
(** Members are kept under their identifiers; the rows are the members; a player who
    is online knows his guild and rank. *)
Record books (ro : Roster) : Prop := {
  bk_guild : forall g x, ro_guilds ro !! g = Some x -> 0 < g < ro_next ro;
  bk_member : forall g x low p, ro_guilds ro !! g = Some x -> rg_members x !! low = Some p ->
    p.1 = low /\ 0 < low < 2 ^ 32 /\ 0 <= p.2 < 10;
  bk_row : forall low g r, ro_rows ro !! low = Some (mkMemberRow g r) <->
    exists x, ro_guilds ro !! g = Some x /\ rg_members x !! low = Some (low, r);
  bk_player : forall u p, ro_players ro !! u = Some p -> 0 < u < 2 ^ 32 /\
    match ro_rows ro !! u with Some row => p.1.2 = mr_guild row /\ p.2 = mr_rank row | None => p.1.2 = 0 end;
  bk_next : 0 < ro_next ro
}.
(** In order, but for what guild [g] is promised. *)
Definition ordered_but (g : Z) (ro : Roster) : Prop :=
  books ro /\ forall g' x, ro_guilds ro !! g' = Some x -> g' <> g -> led x.
Definition ordered (ro : Roster) : Prop := books ro /\ forall g x, ro_guilds ro !! g = Some x -> led x.
(** Nobody is between two maps. *)
Definition settled (ro : Roster) : Prop := forall u p, ro_players ro !! u = Some p -> p.1.1 = true.

Lemma ordered_but_any g ro : ordered ro -> ordered_but g ro.
Proof. intros [H1 H2]. split; [done|]. eauto. Qed.
Lemma ordered_again g ro : ordered_but g ro -> (forall x, ro_guilds ro !! g = Some x -> led x) -> ordered ro.
Proof. intros [H1 H2] H3. split; [done|]. intros g' x Hx. destruct (decide (g' = g)) as [->|]; eauto. Qed.

(** ** What happens to a roster *)

Definition on_guild (g : Z) (f : RosterGuild -> RosterGuild) (ro : Roster) : Roster :=
  mkRoster (alter f g (ro_guilds ro)) (ro_next ro) (ro_players ro) (ro_rows ro).
Definition with_members (f : gmap Z (Z * Z) -> gmap Z (Z * Z)) (x : RosterGuild) : RosterGuild :=
  mkRosterGuild (rg_leader x) (rg_ranks x) (f (rg_members x)).
(** [low] gets a rank in guild [g], or none: among its members, in his row, and in what
    he knows himself. *)
Definition enrol (g low : Z) (o : option Z) (ro : Roster) : Roster :=
  mkRoster (alter (with_members (partial_alter (fun _ => pair low <$> o) low)) g (ro_guilds ro)) (ro_next ro)
    (alter (fun p => (p.1.1, if o is Some _ then g else 0, default 0 o)) low (ro_players ro))
    (partial_alter (fun _ => mkMemberRow g <$> o) low (ro_rows ro)).
Definition set_leader (low : Z) (x : RosterGuild) : RosterGuild := mkRosterGuild low (rg_ranks x) (rg_members x).
Definition set_ranks (n : nat) (x : RosterGuild) : RosterGuild := mkRosterGuild (rg_leader x) n (rg_members x).
Definition drop_guild (g : Z) (ro : Roster) : Roster :=
  mkRoster (delete g (ro_guilds ro)) (ro_next ro) (ro_players ro) (ro_rows ro).

Section transitions.
Implicit Types ro : Roster.

Lemma alter_split {A} (f : A -> A) g g' (m : gmap Z A) y :
  alter f g m !! g' = Some y <-> (g' <> g /\ m !! g' = Some y) \/ (g' = g /\ exists x, m !! g = Some x /\ y = f x).
Proof.
  rewrite lookup_alter_Some. split.
  - intros [(-> & x & Hx & ->)|[Hne Hx]]; [right; eauto | left; split; congruence].
  - intros [[Hne Hx]|(-> & x & Hx & ->)]; [right; split; congruence | left; eauto].
Qed.

(** The row of somebody who is not in another guild. *)
Definition free_for (g low : Z) ro : Prop := forall row, ro_rows ro !! low = Some row -> mr_guild row = g.
Lemma member_free ro g x low p : books ro -> ro_guilds ro !! g = Some x -> rg_members x !! low = Some p -> free_for g low ro.
Proof.
  intros Hb Hx Hp [g' r] Hr. cbn. destruct (bk_member ro Hb g x low p Hx Hp) as (E & _). destruct p as [l r']. cbn in E. subst l.
  assert (H : ro_rows ro !! low = Some (mkMemberRow g r')) by (apply (bk_row ro Hb); eauto). congruence.
Qed.
(** Nobody is a member of two guilds. *)
Lemma one_guild ro g x g' x' low p p' : books ro ->
  ro_guilds ro !! g = Some x -> rg_members x !! low = Some p ->
  ro_guilds ro !! g' = Some x' -> rg_members x' !! low = Some p' -> g = g'.
Proof.
  intros Hb Hx Hp Hx' Hp'. destruct (bk_member ro Hb g' x' low p' Hx' Hp') as (E & _). destruct p' as [l r']. cbn in E. subst l.
  assert (H : ro_rows ro !! low = Some (mkMemberRow g' r')) by (apply (bk_row ro Hb); eauto).
  symmetry. exact (member_free ro g x low p Hb Hx Hp _ H).
Qed.

Lemma enrol_row g low o ro x low' g' r : books ro -> ro_guilds ro !! g = Some x -> free_for g low ro ->
  ro_rows (enrol g low o ro) !! low' = Some (mkMemberRow g' r) <->
  exists y, ro_guilds (enrol g low o ro) !! g' = Some y /\ rg_members y !! low' = Some (low', r).
Proof.
  intros Hb Hx Hfree. cbn. destruct (decide (low' = low)) as [->|Hne].
  - rewrite lookup_partial_alter_eq. split.
    + destruct o as [r0|]; [|done]. intros [= <- <-]. eexists. split; [by rewrite lookup_alter_eq, Hx|].
      cbn. by rewrite lookup_partial_alter_eq.
    + intros (y & Hy & Hm). apply alter_split in Hy as [[Hg Hy]|(-> & z & Hz & ->)].
      * destruct Hg. assert (H : ro_rows ro !! low = Some (mkMemberRow g' r)) by (apply (bk_row ro Hb); eauto).
        exact (Hfree _ H).
      * cbn in Hm. rewrite lookup_partial_alter_eq in Hm. destruct o as [r0|]; cbn in *; congruence.
  - rewrite lookup_partial_alter_ne by done. rewrite (bk_row ro Hb). split.
    + intros (y & Hy & Hm). destruct (decide (g' = g)) as [->|Hg].
      * eexists. split; [by rewrite lookup_alter_eq, Hy|]. cbn. by rewrite lookup_partial_alter_ne.
      * exists y. split; [by rewrite lookup_alter_ne by congruence | done].
    + intros (y & Hy & Hm). apply alter_split in Hy as [[Hg Hy]|(-> & z & Hz & ->)]; [eauto|].
      cbn in Hm. rewrite lookup_partial_alter_ne in Hm by done. eauto.
Qed.
Lemma books_enrol g low o ro x : books ro -> ro_guilds ro !! g = Some x -> 0 < low < 2 ^ 32 -> free_for g low ro ->
  (forall r, o = Some r -> 0 <= r < 10) -> books (enrol g low o ro).
Proof.
  intros Hb Hx Hlow Hfree Ho. split.
  - intros g' y Hy. cbn in Hy. apply alter_split in Hy as [[_ Hy]|(-> & z & Hz & ->)]; eapply (bk_guild ro Hb); eauto.
  - intros g' y low' p Hy Hp. cbn in Hy. apply alter_split in Hy as [[_ Hy]|(-> & z & Hz & ->)]; [by eapply (bk_member ro Hb)|].
    cbn in Hp. destruct (decide (low' = low)) as [->|Hne].
    + rewrite lookup_partial_alter_eq in Hp. destruct o as [r|]; [|done]. injection Hp as <-. cbn. auto.
    + rewrite lookup_partial_alter_ne in Hp by done. by eapply (bk_member ro Hb).
  - intros low' g' r. by eapply enrol_row.
  - intros u p Hp. cbn in Hp |- *. apply alter_split in Hp as [[Hne Hp]|(-> & q & Hq & ->)].
    + rewrite lookup_partial_alter_ne by done. by apply (bk_player ro Hb).
    + split; [exact (proj1 (bk_player ro Hb low q Hq))|]. rewrite lookup_partial_alter_eq. by destruct o.
  - apply (bk_next ro Hb).
Qed.
Lemma books_on_guild g f ro : books ro -> (forall x, rg_members (f x) = rg_members x) -> books (on_guild g f ro).
Proof.
  intros Hb Hf. split; cbn.
  - intros g' y Hy. apply alter_split in Hy as [[_ Hy]|(-> & z & Hz & ->)]; eapply (bk_guild ro Hb); eauto.
  - intros g' y low p Hy. apply alter_split in Hy as [[_ Hy]|(-> & z & Hz & ->)]; rewrite ?Hf; by eapply (bk_member ro Hb).
  - intros low g' r. rewrite (bk_row ro Hb). split.
    + intros (y & Hy & Hm). destruct (decide (g' = g)) as [->|Hg].
      * eexists. split; [by rewrite lookup_alter_eq, Hy|]. by rewrite Hf.
      * exists y. split; [by rewrite lookup_alter_ne by congruence | done].
    + intros (y & Hy & Hm). apply alter_split in Hy as [[_ Hy]|(-> & z & Hz & ->)]; [|rewrite Hf in Hm]; eauto.
  - apply (bk_player ro Hb).
  - apply (bk_next ro Hb).
Qed.
(** A guild without members goes. *)
Lemma books_drop g x ro : books ro -> ro_guilds ro !! g = Some x -> rg_members x = ∅ -> books (drop_guild g ro).
Proof.
  intros Hb Hx Hm. split; cbn.
  - intros g' y [_ Hy]%lookup_delete_Some. by eapply (bk_guild ro Hb).
  - intros g' y low p [_ Hy]%lookup_delete_Some. by eapply (bk_member ro Hb).
  - intros low g' r. rewrite (bk_row ro Hb). split.
    + intros (y & Hy & Hp). exists y. split; [|done]. apply lookup_delete_Some. split; [|done].
      intros <-. assert (y = x) as -> by congruence. by rewrite Hm in Hp.
    + intros (y & [_ Hy]%lookup_delete_Some & Hp). eauto.
  - apply (bk_player ro Hb).
  - apply (bk_next ro Hb).
Qed.

Lemma enrol_others g low o ro g' : g' <> g -> ro_guilds (enrol g low o ro) !! g' = ro_guilds ro !! g'.
Proof. intros Hne. cbn. by rewrite lookup_alter_ne by congruence. Qed.
Lemma enrol_here g low o ro x : ro_guilds ro !! g = Some x ->
  ro_guilds (enrol g low o ro) !! g = Some (with_members (partial_alter (fun _ => pair low <$> o) low) x).
Proof. intros Hx. cbn. by rewrite lookup_alter_eq, Hx. Qed.
Lemma ordered_but_enrol g low o ro x : ordered_but g ro -> ro_guilds ro !! g = Some x -> 0 < low < 2 ^ 32 -> free_for g low ro ->
  (forall r, o = Some r -> 0 <= r < 10) -> ordered_but g (enrol g low o ro).
Proof.
  intros [Hb Hl] Hx Hlow Hfree Ho. split; [by eapply books_enrol|].
  intros g' y Hy Hne. rewrite enrol_others in Hy by done. by eapply Hl.
Qed.
Lemma ordered_but_guild g f ro : ordered_but g ro -> (forall x, rg_members (f x) = rg_members x) -> ordered_but g (on_guild g f ro).
Proof.
  intros [Hb Hl] Hf. split; [by apply books_on_guild|]. intros g' y Hy Hne. cbn in Hy.
  rewrite lookup_alter_ne in Hy by congruence. by eapply Hl.
Qed.
Lemma settled_enrol g low o ro : settled ro -> settled (enrol g low o ro).
Proof. intros Hs u p Hp. cbn in Hp. apply alter_split in Hp as [[_ Hp]|(-> & q & Hq & ->)]; [by eapply Hs | cbn; by eapply Hs]. Qed.
Lemma settled_on_guild g f ro : settled ro -> settled (on_guild g f ro).
Proof. intros Hs u p Hp. by eapply Hs. Qed.
End transitions.

(** ** What programs do to a roster *)

#[export] Instance roster_order : CoreOrder (fun s s' => roster s' = roster s).
Proof. split; [exact _|]. apply rosters_core. Qed.
Lemma roster_frame {A} (m : GM A) s : frames core m -> roster (run_state m s) = roster s.
Proof. intros Hm. apply rosters_core, Hm. Qed.
Lemma lopart u : 0 <= u < 2 ^ 32 -> GUID_LOPART u = u.
Proof. intros Hu. unfold GUID_LOPART. change 0xFFFFFFFF with (Z.ones 32). by rewrite Z.land_ones, Z.mod_small by lia. Qed.
Lemma lopart_range u : 0 <= GUID_LOPART u < 2 ^ 32.
Proof. unfold GUID_LOPART. change 0xFFFFFFFF with (Z.ones 32). rewrite Z.land_ones by lia. apply Z.mod_pos_bound. lia. Qed.

Definition know (u : Z) (f : bool * Z * Z -> bool * Z * Z) (ro : Roster) : Roster :=
  mkRoster (ro_guilds ro) (ro_next ro) (alter f u (ro_players ro)) (ro_rows ro).
Definition on_rows (f : gmap Z MemberRow -> gmap Z MemberRow) (ro : Roster) : Roster :=
  mkRoster (ro_guilds ro) (ro_next ro) (ro_players ro) (f (ro_rows ro)).

Section acts.
Implicit Types s : GuildWorld.

Lemma fmap_alter_to {A B} (h : A -> B) (f : A -> A) (f' : B -> B) (k : Z) (m : gmap Z A) :
  (forall a, m !! k = Some a -> h (f a) = f' (h a)) -> h <$> alter f k m = alter f' k (h <$> m).
Proof.
  intros Hf. apply map_eq. intros j. rewrite lookup_fmap. destruct (decide (k = j)) as [<-|Hj].
  - rewrite !lookup_alter_eq, lookup_fmap. destruct (m !! k) as [a|] eqn:E; [|done]. cbn. by rewrite Hf.
  - by rewrite !lookup_alter_ne, lookup_fmap.
Qed.
Lemma act_guild g f f' s : (forall x, roster_guild (f x) = f' (roster_guild x)) ->
  roster (run_state (upd_guild g f) s) = on_guild g f' (roster s).
Proof. intros Hf. unfold roster, on_guild. cbn. f_equal. by apply fmap_alter_to. Qed.
Lemma act_members g f f' s : (forall ms, core_member <$> f ms = f' (core_member <$> ms)) ->
  roster (run_state (upd_guild g (on_members f)) s) = on_guild g (with_members f') (roster s).
Proof. intros Hf. apply act_guild. intros x. unfold roster_guild, with_members. cbn. by rewrite Hf. Qed.
Lemma act_member_rank g low r s : roster (run_state (upd_member g low (set_member_rank r)) s) =
  on_guild g (with_members (alter (fun p => (p.1, r)) low)) (roster s).
Proof. apply act_members. intros ms. by apply fmap_alter_to. Qed.
Lemma act_member_in g low m s : roster (run_state (upd_guild g (on_members (insert low m))) s) =
  on_guild g (with_members (insert low (core_member m))) (roster s).
Proof. apply act_members. intros ms. apply fmap_insert. Qed.
Lemma act_member_out g low s : roster (run_state (upd_guild g (on_members (delete low))) s) =
  on_guild g (with_members (delete low)) (roster s).
Proof. apply act_members. intros ms. apply fmap_delete. Qed.
Lemma act_leader g low s : roster (run_state (upd_guild g (set_leaderGuid low)) s) = on_guild g (set_leader low) (roster s).
Proof. by apply act_guild. Qed.
Lemma act_player u f f' s : (forall p, core_player (f p) = f' (core_player p)) -> roster (run_state (upd_player u f) s) = know u f' (roster s).
Proof. intros Hf. unfold roster, know. cbn. f_equal. by apply fmap_alter_to. Qed.
Lemma act_gp_rank u r s : roster (run_state (upd_player u (set_gp_rank r)) s) = know u (fun p => (p.1, r)) (roster s).
Proof. by apply act_player. Qed.
Lemma act_SetInGuild u g s : roster (run_state (SetInGuild u g) s) = know u (fun p => (p.1.1, g, p.2)) (roster s).
Proof. by apply act_player. Qed.
Lemma act_rows st f s : (forall s, roster (guild_execute st s) = on_rows f (roster s)) ->
  roster (run_state (Execute st) s) = on_rows f (roster s).
Proof. intros Hst. unfold Execute. rewrite run_state_bind, rs_modify. apply Hst. Qed.
Lemma act_SetMemberRank low r s : roster (run_state (Execute (SetMemberRank low r)) s) =
  on_rows (alter (fun row => mkMemberRow (mr_guild row) r) low) (roster s).
Proof. by apply act_rows. Qed.
Lemma act_DeleteMemberRow low s : roster (run_state (Execute (DeleteMemberRow low)) s) = on_rows (delete low) (roster s).
Proof. by apply act_rows. Qed.
Lemma act_InsertMember g low r a b ps s : roster (run_state (Execute (InsertMember g low r a b ps)) s) =
  on_rows (fun t => match t !! low with None => <[low := mkMemberRow g r]> t | Some _ => t end) (roster s).
Proof. by apply act_rows. Qed.

Lemma roster_lookup s g x : ro_guilds (roster s) !! g = Some x <-> exists y, GuildStore s !! g = Some y /\ x = roster_guild y.
Proof.
  cbn. rewrite lookup_fmap, fmap_Some. done.
Qed.
Lemma member_lookup x low p : rg_members (roster_guild x) !! low = Some p <-> exists m, m_members x !! low = Some m /\ p = core_member m.
Proof. cbn. by rewrite lookup_fmap, fmap_Some. Qed.
Lemma player_lookup s u p : ro_players (roster s) !! u = Some p <-> exists q, players s !! u = Some q /\ p = core_player q.
Proof. cbn. by rewrite lookup_fmap, fmap_Some. Qed.
Lemma settled_FindPlayer s u : settled (roster s) -> FindPlayer s u = players s !! u.
Proof.
  intros Hs. unfold FindPlayer. destruct (players s !! u) as [q|] eqn:E; [|done].
  specialize (Hs u (core_player q)). cbn in Hs. rewrite lookup_fmap, E in Hs. by rewrite Hs.
Qed.
Lemma know_absent u f ro : ro_players ro !! u = None -> know u f ro = ro.
Proof.
  intros Hu. destruct ro as [a b ps c]. unfold know. cbn in *. f_equal. apply map_eq. intros j.
  destruct (decide (u = j)) as [<-|Hj]; [by rewrite lookup_alter_eq, Hu | by rewrite lookup_alter_ne].
Qed.
Lemma alter_ext_at {A} (f f' : A -> A) k (m : gmap Z A) : (forall a, m !! k = Some a -> f a = f' a) -> alter f k m = alter f' k m.
Proof.
  intros Hf. apply map_eq. intros j. destruct (decide (k = j)) as [<-|Hj]; [|by rewrite !lookup_alter_ne].
  rewrite !lookup_alter_eq. destruct (m !! k) as [a|] eqn:E; [cbn; by rewrite Hf | done].
Qed.
Lemma alter_is_set {A} (f : A -> A) (k : Z) (m : gmap Z A) a : m !! k = Some a -> alter f k m = partial_alter (fun _ => Some (f a)) k m.
Proof.
  intros Hk. apply map_eq. intros j. destruct (decide (k = j)) as [<-|Hj].
  - by rewrite lookup_alter_eq, lookup_partial_alter_eq, Hk.
  - by rewrite lookup_alter_ne, lookup_partial_alter_ne.
Qed.
End acts.

(** *** A member gets a rank, joins or leaves *)

Section members.
Implicit Types s : GuildWorld.
Implicit Types ro : Roster.

Lemma player_absent s u : players s !! u = None -> ro_players (roster s) !! u = None.
Proof. intros Hu. cbn. by rewrite lookup_fmap, Hu. Qed.
Lemma lookup_known ro u p : books ro -> ro_players ro !! u = Some p ->
  forall row, ro_rows ro !! u = Some row -> p.1.2 = mr_guild row /\ p.2 = mr_rank row.
Proof. intros Hb Hp row Hr. destruct (bk_player ro Hb u p Hp) as [_ H]. by rewrite Hr in H. Qed.
Lemma member_row ro g x low w r : books ro -> ro_guilds ro !! g = Some x -> rg_members x !! low = Some (w, r) ->
  w = low /\ ro_rows ro !! low = Some (mkMemberRow g r).
Proof.
  intros Hb Hx Hm. destruct (bk_member ro Hb g x low _ Hx Hm) as (E & _). cbn in E. subst w.
  split; [done|]. apply (bk_row ro Hb). eauto.
Qed.

(** A member's rank, changed in the three places it is kept. *)
Lemma enrol_rank g low r ro x p : books ro -> ro_guilds ro !! g = Some x -> rg_members x !! low = Some p ->
  on_rows (alter (fun row => mkMemberRow (mr_guild row) r) low)
    (know low (fun p => (p.1, r)) (on_guild g (with_members (alter (fun p => (p.1, r)) low)) ro)) = enrol g low (Some r) ro.
Proof.
  intros Hb Hx Hp. destruct p as [w r']. destruct (member_row ro g x low w r' Hb Hx Hp) as [-> Hr].
  unfold on_rows, know, on_guild, enrol. cbn. f_equal.
  - apply alter_ext_at. intros y Hy. assert (y = x) as -> by congruence. unfold with_members. f_equal.
    by rewrite (alter_is_set _ _ _ _ Hp).
  - apply alter_ext_at. intros q Hq. destruct (lookup_known ro low q Hb Hq _ Hr) as [E _]. cbn in E.
    destruct q as [[b g'] r'']. cbn in *. by subst g'.
  - by rewrite (alter_is_set _ _ _ _ Hr).
Qed.
Lemma roster_ChangeRank g low r s x p : books (roster s) -> settled (roster s) ->
  ro_guilds (roster s) !! g = Some x -> rg_members x !! low = Some p ->
  roster (run_state (ChangeRank g low r) s) = enrol g low (Some r) (roster s).
Proof.
  intros Hb Hs Hx Hp. rewrite <- (enrol_rank g low r _ x p Hb Hx Hp).
  pose proof Hx as Hy. apply roster_lookup in Hy as (y & Hy & ->). pose proof Hp as Hm. apply member_lookup in Hm as (m & Hm & ->).
  destruct (bk_member _ Hb g _ low _ Hx Hp) as (E & Hlow & _). cbn in E.
  unfold ChangeRank, with_guild. rewrite rs_with_state, Hy, Hm, !run_state_bind, E, lopart by lia.
  rewrite act_SetMemberRank. f_equal. rewrite rs_with_state.
  set (s1 := run_state (upd_member g low (set_member_rank r)) s).
  assert (E1 : roster s1 = on_guild g (with_members (alter (fun p => (p.1, r)) low)) (roster s)) by apply act_member_rank.
  rewrite <- E1. assert (Hs1 : settled (roster s1)) by (rewrite E1; by apply settled_on_guild).
  rewrite (settled_FindPlayer s1 low Hs1). destruct (players s1 !! low) as [q|] eqn:Hq.
  - apply act_gp_rank.
  - symmetry. by apply know_absent, player_absent.
Qed.

(** Taken out. *)
Lemma enrol_out g low ro :
  on_rows (delete low) (know low (fun p => (p.1, 0)) (know low (fun p => (p.1.1, 0, p.2)) (on_guild g (with_members (delete low)) ro)))
  = enrol g low None ro.
Proof. unfold on_rows, know, on_guild, enrol. cbn. f_equal. by rewrite alter_alter_eq. Qed.
Section programs.
Context `{!HashOrder} (v : GuildView).
Lemma roster_remove_member g guid d k s : settled (roster s) -> 0 <= guid < 2 ^ 32 ->
  roster (run_state (remove_member v g guid d k) s) = enrol g guid None (roster s).
Proof.
  intros Hs Hg. rewrite <- enrol_out. unfold remove_member. rewrite rs_with_state, !run_state_bind, lopart by done.
  rewrite (roster_frame (when (negb d) _)) by runs_through.
  rewrite act_DeleteMemberRow. f_equal. rewrite rs_emit, <- (act_member_out g guid s).
  set (s1 := run_state (upd_guild g (on_members (delete guid))) s).
  set (s2 := run_state (with_guild tt g _) s1).
  assert (E2 : roster s2 = roster s1) by (apply roster_frame; runs_through). rewrite <- E2.
  rewrite (settled_FindPlayer s guid Hs). destruct (players s !! guid) as [q|] eqn:Hq; cbn [bool_decide].
  - rewrite bool_decide_true by done. unfold when. rewrite !run_state_bind.
    rewrite (roster_frame (remove_perks v guid)) by auto with runs. by rewrite act_gp_rank, act_SetInGuild.
  - rewrite bool_decide_false by (by intros [? [=]]). unfold when. rewrite rs_ret.
    assert (Ha : ro_players (roster s2) !! guid = None).
    { rewrite E2. unfold s1. rewrite act_member_out. by apply player_absent. }
    rewrite (know_absent guid _ (roster s2) Ha). by rewrite know_absent.
Qed.
End programs.
End members.

(** *** Joining, being crowned *)

Section joining.
Implicit Types s : GuildWorld.
Implicit Types ro : Roster.

Lemma no_own_row ro u p : books ro -> ro_players ro !! u = Some p -> p.1.2 = 0 -> ro_rows ro !! u = None.
Proof.
  intros Hb Hp H0. destruct (ro_rows ro !! u) as [[g r]|] eqn:Hr; [exfalso|done].
  destruct (lookup_known ro u p Hb Hp _ Hr) as [E _]. cbn in E. apply (bk_row ro Hb) in Hr as (x & Hx & _).
  pose proof (bk_guild ro Hb g x Hx). lia.
Qed.
(** The other way round: no guild, no row. *)
Lemma known_guild ro u p : books ro -> ro_players ro !! u = Some p -> p.1.2 <> 0 ->
  exists x, ro_guilds ro !! p.1.2 = Some x /\ rg_members x !! u = Some (u, p.2) /\ ro_rows ro !! u = Some (mkMemberRow p.1.2 p.2).
Proof.
  intros Hb Hp H0. destruct (bk_player ro Hb u p Hp) as [_ H]. destruct (ro_rows ro !! u) as [[g r]|] eqn:Hr; [|done].
  cbn in H. destruct H as [-> ->]. pose proof Hr as (x & Hx & Hm)%(bk_row ro Hb). eauto.
Qed.

(** Somebody who is online joins. *)
Lemma enrol_new g u r ro : ro_rows ro !! u = None ->
  know u (fun p => (p.1, r)) (know u (fun p => (p.1.1, g, p.2))
    (on_rows (fun t => match t !! u with None => <[u := mkMemberRow g r]> t | Some _ => t end)
      (on_guild g (with_members (insert u (u, r))) ro))) = enrol g u (Some r) ro.
Proof. intros Hr. unfold on_rows, know, on_guild, enrol. cbn. rewrite Hr. f_equal. by rewrite alter_alter_eq. Qed.

Context `{!HashOrder} (v : GuildView).

Definition joins_as (r : Z) (x : Guild) : Z := if r =? GUILD_RANK_NONE then _GetLowestRankId x else r.
Lemma value_AddMember g u r0 s x q : settled (roster s) -> GuildStore s !! g = Some x -> players s !! u = Some q ->
  run_value (AddMember v g u r0) s = (gp_guildId q =? 0).
Proof.
  intros Hs Hx Hq. unfold AddMember, with_guild. rewrite rv_with_state, Hx, rv_with_state.
  rewrite (settled_FindPlayer s u Hs), Hq. destruct (Z.eqb_spec (gp_guildId q) 0); cbn [negb]; [|done].
  rewrite run_value_bind, bool_decide_true by done. cbn [joining_member]. by rewrite !run_value_bind.
Qed.
Lemma roster_AddMember g u r0 s x q : books (roster s) -> settled (roster s) ->
  GuildStore s !! g = Some x -> players s !! u = Some q -> gp_guildId q = 0 ->
  roster (run_state (AddMember v g u r0) s) = enrol g u (Some (joins_as r0 x)) (roster s).
Proof.
  intros Hb Hs Hx Hq H0. assert (Hp : ro_players (roster s) !! u = Some (core_player q)) by (apply player_lookup; eauto).
  assert (Hr : ro_rows (roster s) !! u = None) by (eapply no_own_row; [done | exact Hp | done]).
  destruct (bk_player _ Hb u _ Hp) as [Hu _]. rewrite <- enrol_new by done.
  unfold AddMember, with_guild. rewrite rs_with_state, Hx, rs_with_state, (settled_FindPlayer s u Hs), Hq, H0.
  change (negb (0 =? 0)) with false. cbn iota. rewrite lopart, bool_decide_true by (lia || done). cbn [joining_member].
  set (m := SetStats v u _). change (if r0 =? GUILD_RANK_NONE then _ else r0) with (joins_as r0 x) in *. set (r := joins_as r0 x) in *.
  rewrite run_state_bind, rs_emit, !run_state_bind, rs_ret, rs_emit.
  rewrite (roster_frame (_UpdateAccountsNumber g)) by auto with runs.
  unfold when at 1. rewrite !run_state_bind. rewrite (roster_frame (upd_player u (set_gp_invited 0))) by auto with runs.
  rewrite act_gp_rank, act_SetInGuild. do 2 f_equal.
  unfold insert_member_row. change (mb_guid m) with u. change (mb_rankId m) with r.
  rewrite lopart, act_InsertMember by lia. f_equal.
  rewrite (roster_frame (with_state _)) by runs_through.
  rewrite act_member_in. unfold when. rewrite (roster_frame (learn_perks v u _)) by auto with runs. done.
Qed.
End joining.

(** *** Guilds end, leaders change *)

Lemma roster_of_core {A} (m : GM A) : frames core m -> frames roster m.
Proof. apply runs_core, roster_order. Qed.
Lemma roster_of_ledger {A} (m : GM A) : frames ledger m -> frames roster m.
Proof.
  intros Hm s. specialize (Hm s). unfold ledger in Hm. injection Hm as _ E1 E2 E3 E4. unfold roster. rewrite E2, E3, E4.
  f_equal. apply (f_equal (fun c => (fun k => mkRosterGuild k.1.1.1 k.1.2 k.2) <$> c)) in E1. rewrite <- !map_fmap_compose in E1. exact E1.
Qed.
#[export] Hint Extern 7 (runs (fun s s' => roster s' = roster s) _) => (apply roster_of_ledger; solve [auto 2 with runs nocore]) : runs.
#[export] Hint Extern 6 (runs (fun s s' => roster s' = roster s) _) => (apply roster_of_core; solve [auto 2 with runs nocore]) : runs.
#[export] Hint Extern 3 (runs (fun s s' => roster s' = roster s) (modify _)) => (intros ?; reflexivity) : runs.
#[export] Hint Extern 3 (runs (fun s s' => roster s' = roster s) (in_market _)) => (intros ?; by rewrite rs_in_market) : runs.
#[export] Hint Extern 3 (runs (fun s s' => roster s' = roster s) (upd_guild _ _)) => (intros ?; unfold roster; cbn; by rewrite fmap_alter_same) : runs.

Lemma roster_then {A B} (m : GM A) (k : A -> GM B) s f : frames roster m ->
  (forall a s', roster s' = roster s -> roster (run_state (k a) s') = f (roster s')) -> roster (run_state (bind m k) s) = f (roster s).
Proof. intros Hm Hk. rewrite run_state_bind, <- (Hm s). apply Hk, Hm. Qed.

Section endings.
Context `{!HashOrder} `{!HashOrderLaws} (v : GuildView).
Implicit Types s : GuildWorld.
Implicit Types ro : Roster.

Lemma in_hash_order {A} (m : gmap Z A) p : p ∈ hash_list m -> m !! p.1 = Some p.2.
Proof. rewrite hash_list_perm. destruct p as [k a]. apply elem_of_map_to_list. Qed.

Lemma disbanded n g s x : ordered_but g (roster s) -> settled (roster s) ->
  ro_guilds (roster s) !! g = Some x -> (size (rg_members x) <= n)%nat ->
  let ro := roster (run_state (delete_all v n g) s) in
  ordered_but g ro /\ settled ro /\ exists x', ro_guilds ro !! g = Some x' /\ rg_members x' = ∅.
Proof.
  revert s x. induction n as [|n IH]; intros s x Ho Hs Hx Hn; cbn [delete_all].
  all: pose proof Hx as (y & Hy & ->)%roster_lookup; unfold with_guild; rewrite rs_with_state, Hy.
  all: pose proof (hash_list_perm _ (m_members y)) as Hp.
  all: destruct (hash_list (m_members y)) as [|[low m] l] eqn:El.
  1, 3: split_and!; [done..|]; eexists; split; [exact Hx|]; cbn; apply fmap_empty_iff, map_to_list_empty_iff; by apply Permutation_nil_r.
  - exfalso. apply Permutation_length in Hp. cbn in Hn, Hp. rewrite map_size_fmap in Hn. rewrite length_map_to_list in Hp. lia.
  - assert (Hm : m_members y !! low = Some m) by (apply (in_hash_order _ (low, m)); rewrite El; left).
    assert (Hc : rg_members (roster_guild y) !! low = Some (core_member m)) by (apply member_lookup; eauto).
    destruct Ho as [Hb Hl]. destruct (bk_member _ Hb g _ low _ Hx Hc) as (E & Hlow & _). cbn in E.
    rewrite run_state_bind. cbn [snd]. rewrite E.
    assert (Er := roster_remove_member v g low true false s Hs ltac:(lia)).
    set (s1 := run_state (remove_member v g low true false) s) in *.
    eapply (IH s1 (with_members (delete low) (roster_guild y))); rewrite ?Er.
    + eapply ordered_but_enrol; [by split | exact Hx | done | by eapply member_free | done].
    + by apply settled_enrol.
    + exact (enrol_here g low None _ _ Hx).
    + cbn [with_members rg_members]. rewrite map_size_delete_Some by eauto. lia.
Qed.
Lemma ordered_drop g ro x : ordered_but g ro -> ro_guilds ro !! g = Some x -> rg_members x = ∅ -> ordered (drop_guild g ro).
Proof.
  intros [Hb Hl] Hx Hm. split; [by eapply books_drop|]. intros g' y Hy.
  cbn in Hy. apply lookup_delete_Some in Hy as [Hne Hy]. by apply (Hl g').
Qed.
Lemma ordered_Disband g s : ordered (roster s) -> settled (roster s) ->
  ordered (roster (run_state (Disband v g) s)) /\ settled (roster (run_state (Disband v g) s)).
Proof.
  intros Ho Hs. unfold Disband, with_guild. rewrite rs_with_state. destruct (GuildStore s !! g) as [x|] eqn:Hx; [|done].
  assert (Hr : ro_guilds (roster s) !! g = Some (roster_guild x)) by (apply roster_lookup; eauto).
  rewrite run_state_bind, rs_emit, run_state_bind. set (s0 := run_state (_BroadcastEvent _ _ _ _) s).
  assert (E0 : roster s0 = roster s) by (apply roster_frame; auto with runs).
  rewrite run_state_bind. rewrite <- E0 in Ho, Hs, Hr.
  destruct (disbanded (size (m_members x)) g s0 (roster_guild x)) as (H1 & H2 & x' & Hx' & Hm');
    [by apply ordered_but_any | done | done | cbn; by rewrite map_size_fmap |].
  set (s1 := run_state (delete_all v _ g) s0) in *.
  match goal with |- ordered (roster (run_state ?m s1)) /\ _ => assert (E : roster (run_state m s1) = drop_guild g (roster s1)) end.
  { do 8 (apply roster_then; [auto with runs | intros _ ? _]).
    unfold roster, drop_guild. cbn. by rewrite fmap_delete. }
  rewrite E. split; [by eapply ordered_drop | exact H2].
Qed.
End endings.

(** *** Who leads *)

Section leading.
Implicit Types s : GuildWorld.
Implicit Types ro : Roster.

Lemma members_enrolled low o low' (ms : gmap Z (Z * Z)) w r :
  partial_alter (fun _ => pair low <$> o) low ms !! low' = Some (w, r) <->
  (low' = low /\ w = low /\ o = Some r) \/ (low' <> low /\ ms !! low' = Some (w, r)).
Proof.
  destruct (decide (low' = low)) as [->|Hne].
  - rewrite lookup_partial_alter_eq. destruct o as [r'|]; cbn; split; first [intros [= <- <-]; by left | naive_solver].
  - rewrite lookup_partial_alter_ne by done. naive_solver.
Qed.
(** Somebody else than the leader gets a rank other than 0, or leaves. *)
Lemma led_enrol low o x : led x -> low <> rg_leader x -> (forall r, o = Some r -> 1 <= r) ->
  led (with_members (partial_alter (fun _ => pair low <$> o) low) x).
Proof.
  intros [H1 H2 H3] Hlow Ho. split; cbn [rg_members rg_leader rg_ranks with_members]; [| | done].
  - apply members_enrolled. by right.
  - intros low' w [(-> & _ & E)|[_ Hm]]%members_enrolled; [apply Ho in E; lia | by eapply H2].
Qed.
Lemma ordered_enrol g low o ro x : ordered ro -> ro_guilds ro !! g = Some x -> 0 < low < 2 ^ 32 -> free_for g low ro ->
  low <> rg_leader x -> (forall r, o = Some r -> 1 <= r < 10) -> ordered (enrol g low o ro).
Proof.
  intros Ho Hx Hlow Hfree Hl Hr. apply (ordered_again g).
  - eapply ordered_but_enrol; [by apply ordered_but_any | done | done | done |]. intros r E. specialize (Hr r E). lia.
  - intros y Hy. rewrite (enrol_here _ _ _ _ _ Hx) in Hy. injection Hy as <-.
    apply led_enrol; [by eapply (proj2 Ho) | done |]. intros r E. specialize (Hr r E). lia.
Qed.
(** A member takes over from the leader, who gets another rank or leaves. *)
Definition crown (g low : Z) ro : Roster := enrol g low (Some 0) (on_guild g (set_leader low) ro).
Lemma crowned_guild g low ro x : ro_guilds ro !! g = Some x ->
  ro_guilds (crown g low ro) !! g = Some (with_members (partial_alter (fun _ => Some (low, 0)) low) (set_leader low x)).
Proof. intros Hx. apply (enrol_here g low (Some 0)). cbn. by rewrite lookup_alter_eq, Hx. Qed.
Lemma ordered_but_crown g low p ro x : ordered ro -> ro_guilds ro !! g = Some x -> rg_members x !! low = Some p ->
  ordered_but g (crown g low ro).
Proof.
  intros Ho Hx Hp. destruct (bk_member _ (proj1 Ho) g x low p Hx Hp) as (_ & Hlow & _).
  assert (Hx1 : ro_guilds (on_guild g (set_leader low) ro) !! g = Some (set_leader low x)) by (cbn; by rewrite lookup_alter_eq, Hx).
  eapply ordered_but_enrol; [| exact Hx1 | done | | by intros r [= <-]].
  - apply ordered_but_guild; [by apply ordered_but_any | done].
  - exact (member_free ro g x low p (proj1 Ho) Hx Hp).
Qed.
Lemma ordered_succession g low p o ro x : ordered ro -> ro_guilds ro !! g = Some x -> rg_members x !! low = Some p ->
  low <> rg_leader x -> (forall r, o = Some r -> 1 <= r < 10) -> ordered (enrol g (rg_leader x) o (crown g low ro)).
Proof.
  intros Ho Hx Hp Hne Hr. pose proof (ordered_but_crown g low p ro x Ho Hx Hp) as Hc. pose proof (crowned_guild g low ro x Hx) as Hx1.
  pose proof (proj2 Ho g x Hx) as [L1 L2 L3]. destruct (bk_member _ (proj1 Ho) g x _ _ Hx L1) as (_ & Hld & _).
  apply (ordered_again g).
  - eapply ordered_but_enrol; [exact Hc | exact Hx1 | done | |]; [|intros r E; specialize (Hr r E); lia].
    eapply member_free; [exact (proj1 Hc) | exact Hx1 |]. cbn. by rewrite lookup_partial_alter_ne.
  - intros y Hy. rewrite (enrol_here _ _ _ _ _ Hx1) in Hy. injection Hy as <-.
    split; cbn [rg_members rg_leader rg_ranks with_members set_leader]; [| | done].
    + rewrite lookup_partial_alter_ne by done. by rewrite lookup_partial_alter_eq.
    + intros low' w [(-> & _ & E)|[Hn Hm]]%members_enrolled; [apply Hr in E; lia|].
      apply (members_enrolled low (Some 0)) in Hm as [(-> & _)|[_ Hm]]; [done|]. by apply L2 in Hm.
Qed.
Lemma settled_crown g low ro : settled ro -> settled (crown g low ro).
Proof. intros Hs. by apply settled_enrol. Qed.

Lemma roster_SetLeaderGUID g low s x p : books (roster s) -> settled (roster s) ->
  ro_guilds (roster s) !! g = Some x -> rg_members x !! low = Some p ->
  roster (run_state (_SetLeaderGUID g low) s) = crown g low (roster s).
Proof.
  intros Hb Hs Hx Hp. pose proof Hx as (y & Hy & ->)%roster_lookup. pose proof Hp as (m & Hm & ->)%member_lookup.
  destruct (bk_member _ Hb g _ low _ Hx Hp) as (E & _). cbn in E.
  unfold _SetLeaderGUID, with_guild. rewrite rs_with_state, Hy, Hm, !run_state_bind, E.
  change (run_state (Execute (SetGuildLeader _ _)) ?s2) with (guild_execute (SetGuildLeader g (GUID_LOPART low)) s2).
  change (roster (guild_execute (SetGuildLeader _ _) ?s2)) with (roster s2).
  set (s1 := run_state (upd_guild g (set_leaderGuid low)) s).
  assert (E1 : roster s1 = on_guild g (set_leader low) (roster s)) by apply act_leader.
  unfold crown. rewrite <- E1. eapply roster_ChangeRank.
  - rewrite E1. by apply books_on_guild.
  - rewrite E1. by apply settled_on_guild.
  - rewrite E1. cbn [ro_guilds on_guild]. by rewrite lookup_alter_eq, Hx.
  - exact Hp.
Qed.
End leading.

(** ** Programs that keep the rosters in order *)

Definition good (ro : Roster) : Prop := ordered ro /\ settled ro.
Definition holds {A} (m : GM A) (s : GuildWorld) : Prop := good (roster s) -> good (roster (run_state m s)).

Section keeping.
Context `{HO : !HashOrder} `{HL : !HashOrderLaws} (v : GuildView).
Implicit Types s : GuildWorld.

Lemma holds_same {A} (m : GM A) s : frames roster m -> holds m s.
Proof. intros Hm. unfold holds. by rewrite Hm. Qed.
Lemma holds_then {A B} (m : GM A) (k : A -> GM B) s : holds m s -> (forall a, frames roster (k a)) -> holds (bind m k) s.
Proof. intros Hm Hk Hg. rewrite run_state_bind, Hk. by apply Hm. Qed.
Lemma holds_if {A} (b : bool) (m n : GM A) s : (b = true -> holds m s) -> (b = false -> holds n s) -> holds (if b then m else n) s.
Proof. destruct b; auto. Qed.
Lemma holds_with_guild {A} (d : A) g k s : (forall x, GuildStore s !! g = Some x -> holds (k x) s) -> holds (with_guild d g k) s.
Proof.
  intros Hk Hg. unfold with_guild. rewrite rs_with_state. destruct (GuildStore s !! g) as [x|] eqn:Hx; [by apply Hk | done].
Qed.
Lemma holds_with_player u k s : (forall p, players s !! u = Some p -> holds (k p) s) -> holds (with_player u k) s.
Proof. intros Hk Hg. unfold with_player. rewrite rs_with_state. destruct (players s !! u) as [p|] eqn:Hp; [by apply Hk | done]. Qed.
Lemma holds_with_state {A} (k : GuildWorld -> GM A) s : holds (k s) s -> holds (with_state k) s.
Proof. done. Qed.

Lemma stored_guild s g x : GuildStore s !! g = Some x -> ro_guilds (roster s) !! g = Some (roster_guild x).
Proof. intros Hx. apply roster_lookup. eauto. Qed.
Lemma stored_member x low m : m_members x !! low = Some m -> rg_members (roster_guild x) !! low = Some (core_member m).
Proof. intros Hm. apply member_lookup. eauto. Qed.
(** A player in a guild: he is one of its members. *)
Lemma own_membership s u p x : books (roster s) -> players s !! u = Some p -> gp_guildId p <> 0 ->
  GuildStore s !! gp_guildId p = Some x ->
  0 < u < 2 ^ 32 /\ 0 <= gp_rank p < 10 /\ exists m, m_members x !! u = Some m /\ core_member m = (u, gp_rank p).
Proof.
  intros Hb Hp H0 Hx. assert (Hr : ro_players (roster s) !! u = Some (core_player p)) by (apply player_lookup; eauto).
  destruct (known_guild _ u _ Hb Hr H0) as (x' & Hx' & Hm & _). cbn in Hx', Hm.
  rewrite lookup_fmap, Hx in Hx'. injection Hx' as <-. destruct (bk_member _ Hb _ _ u _ (stored_guild s _ _ Hx) Hm) as (_ & Hu & Hrk).
  cbn in Hrk. split_and!; [lia..|]. apply member_lookup in Hm as (m & Hm & E). by eauto.
Qed.

Lemma holds_Disband g s : holds (Disband v g) s.
Proof. intros [Ho Hs]. by apply ordered_Disband. Qed.
Lemma heir_in low l b p : heir low l b = Some p -> b = Some p \/ (p ∈ l /\ p.1 <> low).
Proof.
  revert b. induction l as [|q l IH]; intros b Hp; [by left|]. cbn [heir] in Hp. apply IH in Hp as [E | [H1 H2]].
  - destruct (Z.eqb_spec q.1 low); [by left|].
    assert (E' : b = Some p \/ p = q) by (destruct b as [c|]; [destruct (_ <? _)|]; naive_solver).
    destruct E' as [E'| ->]; [by left|]. right. split; [left | done].
  - right. split; [by right | done].
Qed.
Lemma holds_remove_member g guid d k s x p : GuildStore s !! g = Some x -> m_members x !! guid = Some p -> m_leaderGuid x <> guid ->
  holds (remove_member v g guid d k) s.
Proof.
  intros Hx Hp Hne [Ho Hs]. destruct (bk_member _ (proj1 Ho) g _ guid _ (stored_guild s g x Hx) (stored_member x guid p Hp)) as (_ & Hg & _).
  rewrite roster_remove_member by (done || lia). split; [|by apply settled_enrol].
  eapply ordered_enrol; [done | by apply stored_guild | done | | cbn; congruence | done].
  eapply member_free; [apply Ho | by apply stored_guild | by apply stored_member].
Qed.
Lemma know_rank_same g low r o ro x : ro_guilds ro !! g = Some x -> o = Some r ->
  know low (fun p => (p.1, r)) (enrol g low o ro) = enrol g low o ro.
Proof.
  intros Hx ->. unfold know, enrol. cbn. f_equal. by rewrite alter_alter_eq.
Qed.
Lemma holds_DeleteMember g guid k s x p : GuildStore s !! g = Some x -> m_members x !! guid = Some p ->
  holds (DeleteMember v g guid false k) s.
Proof.
  intros Hx Hp. unfold DeleteMember. apply holds_with_guild. intros x' Hx'. assert (x' = x) as -> by congruence.
  apply holds_if; intros Hl; rewrite andb_true_r in Hl; [|apply Z.eqb_neq in Hl; by eapply holds_remove_member].
  apply Z.eqb_eq in Hl. destruct (heir _ _ _) as [[low m]|] eqn:Hh; [|apply holds_Disband].
  intros [Ho Hs]. pose proof (stored_guild s g x Hx) as Hx1.
  destruct (bk_member _ (proj1 Ho) g _ guid _ Hx1 (stored_member x guid p Hp)) as (_ & Hg & _).
  rewrite lopart in Hh by lia. apply heir_in in Hh as [Ho0|[Hin Hne]]; [done|]. cbn in Hne. apply in_hash_order in Hin. cbn in Hin.
  pose proof (stored_member x low m Hin) as Hm. destruct (bk_member _ (proj1 Ho) g _ low _ Hx1 Hm) as (E & _). cbn in E.
  rewrite run_state_bind. set (s1 := run_state (_SetLeaderGUID g low) s).
  assert (E1 : roster s1 = crown g low (roster s)) by (eapply roster_SetLeaderGUID; [apply Ho | done..]).
  assert (Hs1 : settled (roster s1)) by (rewrite E1; by apply settled_crown).
  rewrite run_state_bind. set (s2 := run_state (with_state _) s1).
  assert (E2 : roster s2 = roster s1).
  { unfold s2. rewrite rs_with_state, rs_when, E. destruct (bool_decide _); [|done].
    rewrite act_gp_rank, E1. eapply know_rank_same; [|done]. cbn. by rewrite lookup_alter_eq, lookup_fmap, Hx. }
  rewrite run_state_bind. set (s3 := run_state (match _ with Some _ => _ | None => _ end) s2).
  assert (E3 : roster s3 = roster s2) by (apply roster_frame; runs_through).
  rewrite roster_remove_member, E3, E2, E1 by (by rewrite ?E3, ?E2 || lia). subst guid.
  split; [|by apply settled_enrol, settled_crown]. change (m_leaderGuid x) with (rg_leader (roster_guild x)).
  by eapply ordered_succession.
Qed.
End keeping.

(** *** The commands of members *)

Section member_commands.
Context `{HO : !HashOrder} `{HL : !HashOrderLaws} (v : GuildView).
Implicit Types s : GuildWorld.

Lemma stored_led s g x : good (roster s) -> GuildStore s !! g = Some x -> led (roster_guild x).
Proof. intros [Ho _] Hx. by eapply (proj2 Ho), stored_guild. Qed.
(** Who passes for a leader is the leader. *)
Lemma is_leader x u : led (roster_guild x) -> 0 <= u < 2 ^ 32 -> _IsLeader x u = true -> u = m_leaderGuid x.
Proof.
  intros [_ L _] Hu [H1|H1]%orb_true_iff; [lia|]. unfold GetMember in H1. rewrite lopart in H1 by done.
  destruct (m_members x !! u) as [m|] eqn:Hm; [|done]. apply Z.eqb_eq in H1.
  apply stored_member in Hm. unfold core_member in Hm. rewrite H1 in Hm. exact (L u _ Hm).
Qed.
Lemma ranks_size x : led (roster_guild x) -> _GetRanksSize x = Z.of_nat (length (m_ranks x)) /\ 3 <= Z.of_nat (length (m_ranks x)) <= 10.
Proof. intros [_ _ L]. cbn in L. unfold _GetRanksSize. rewrite u8_small; lia. Qed.
Lemma lowest_rank x : led (roster_guild x) -> 2 <= _GetLowestRankId x < 10.
Proof. intros [_ _ L]. cbn in L. unfold _GetLowestRankId. rewrite u8_small; lia. Qed.

Lemma holds_ChangeRank g low r s x m : GuildStore s !! g = Some x -> m_members x !! low = Some m -> low <> m_leaderGuid x ->
  1 <= r < 10 -> holds (ChangeRank g low r) s.
Proof.
  intros Hx Hm Hne Hr [Ho Hs]. pose proof (stored_guild s g x Hx) as Hx1. pose proof (stored_member x low m Hm) as Hm1.
  destruct (bk_member _ (proj1 Ho) g _ low _ Hx1 Hm1) as (_ & Hlow & _).
  erewrite roster_ChangeRank; [|apply Ho | done | exact Hx1 | exact Hm1]. split; [|by apply settled_enrol].
  eapply ordered_enrol; [done | exact Hx1 | done | | done | by intros r' [= <-]].
  eapply member_free; [apply Ho | exact Hx1 | exact Hm1].
Qed.
Lemma find_member_in name x low : find_member name x = Some low -> exists m, m_members x !! low = Some m.
Proof.
  unfold find_member. destruct (head _) as [[k m]|] eqn:E; [|done]. intros [= <-]. apply head_Some_elem_of in E.
  apply list_elem_of_filter in E as [_ E]. apply in_hash_order in E. by eauto.
Qed.

Section own.
Context (s : GuildWorld) (u : Z) (p : GuildPlayer) (Hp : players s !! u = Some p) (H0 : gp_guildId p <> 0).
#[local] Abbreviation g := (gp_guildId p).

Lemma holds_HandleSetLeader name : (forall x, GuildStore s !! g = Some x -> find_member name x <> Some u) ->
  holds (HandleSetLeader v u g name) s.
Proof.
  intros Hself. unfold HandleSetLeader. apply holds_with_guild. intros x Hx. specialize (Hself x Hx).
  apply holds_if; intros Hl; [apply holds_same; runs_through|]. apply negb_false_iff in Hl.
  destruct (GetMember u x) as [mo|]; [|apply holds_same; runs_through].
  destruct (find_member name x) as [low|] eqn:Hf; [|apply holds_same; runs_through].
  apply find_member_in in Hf as [m Hm]. intros Hg. pose proof Hg as [Ho Hs].
  destruct (own_membership s u p x (proj1 Ho) Hp H0 Hx) as (Hu & _ & mu & Hmu & _).
  pose proof (stored_guild s g x Hx) as Hx1. pose proof (stored_member x low m Hm) as Hm1.
  apply is_leader in Hl; [|by eapply stored_led | lia].
  rewrite run_state_bind. set (s1 := run_state (_SetLeaderGUID g low) s).
  assert (E1 : roster s1 = crown g low (roster s)) by (eapply roster_SetLeaderGUID; [apply Ho | done..]).
  rewrite run_state_bind, (roster_frame (_BroadcastEvent _ _ _ _)), lopart by (auto with runs || lia).
  pose proof (crowned_guild g low _ _ Hx1) as Hx2. pose proof (ordered_but_crown g low _ _ _ Ho Hx1 Hm1) as Hc.
  erewrite roster_ChangeRank; rewrite ?E1;
    [|apply Hc | by apply settled_crown | exact Hx2 | cbn; rewrite lookup_partial_alter_ne by congruence; rewrite lookup_fmap, Hmu; done].
  split; [|by apply settled_enrol, settled_crown]. rewrite Hl. change (m_leaderGuid x) with (rg_leader (roster_guild x)).
  eapply ordered_succession; [exact Ho | exact Hx1 | exact Hm1 | cbn; congruence |]. by intros r [= <-].
Qed.
Lemma holds_HandleLeaveMember : holds (HandleLeaveMember v u g) s.
Proof.
  intros Hg. revert Hg. unfold HandleLeaveMember. apply holds_with_guild. intros x Hx.
  apply holds_if; intros _; [apply holds_if; intros _; [apply holds_same; runs_through | apply holds_Disband]|].
  apply holds_then; [|intros _; runs_through]. intros Hg.
  destruct (own_membership s u p x (proj1 (proj1 Hg)) Hp H0 Hx) as (_ & _ & m & Hm & _). revert Hg.
  by eapply holds_DeleteMember.
Qed.
Lemma holds_HandleRemoveMember guid : 0 <= guid < 2 ^ 32 -> holds (HandleRemoveMember v u g guid) s.
Proof.
  intros Hguid. unfold HandleRemoveMember. apply holds_with_player. intros p' _. apply holds_with_guild. intros x Hx.
  apply holds_if; intros _; [apply holds_same; runs_through|].
  destruct (GetMember guid x) as [m|] eqn:Hm; [|apply holds_same; runs_through]. unfold GetMember in Hm. rewrite lopart in Hm by done.
  apply holds_if; intros _; [apply holds_same; runs_through|]. apply holds_if; intros _; [apply holds_same; runs_through|].
  apply holds_then; [by eapply holds_DeleteMember | intros _; runs_through].
Qed.
Lemma holds_HandleUpdateMemberRank guid demote : holds (HandleUpdateMemberRank v u g guid demote) s.
Proof.
  unfold HandleUpdateMemberRank. apply holds_with_player. intros p' Hp'. assert (p' = p) as -> by congruence. apply holds_with_guild. intros x Hx.
  apply holds_if; intros _; [apply holds_same; runs_through|].
  destruct (GetMember guid x) as [m|] eqn:Hm; [|apply holds_same; runs_through]. unfold GetMember in Hm.
  destruct (rank_refused u p x m demote) as [[e t]|] eqn:Hr; [apply holds_same; runs_through|].
  apply holds_then; [|intros _; runs_through].
  intros Hg. pose proof (stored_led s g x Hg Hx) as Hl. pose proof (lowest_rank x Hl) as Hlow.
  destruct (own_membership s u p x (proj1 (proj1 Hg)) Hp H0 Hx) as (_ & Hrk & _).
  destruct (bk_member _ (proj1 (proj1 Hg)) g _ _ _ (stored_guild s g x Hx) (stored_member x _ m Hm)) as (_ & _ & Hrm). cbn in Hrm.
  unfold rank_refused, IsRankNotLower in Hr. rewrite u8_small in Hr by lia.
  assert (Hn : 1 <= mb_rankId m + (if demote then 1 else -1) < 10 /\ mb_rankId m <> 0).
  { destruct (mb_guid m =? u); [done|]. destruct demote.
    - destruct (Z.leb_spec (mb_rankId m) (gp_rank p)); [done|]. destruct (Z.leb_spec (_GetLowestRankId x) (mb_rankId m)); [done|]. lia.
    - destruct (Z.leb_spec (mb_rankId m) (gp_rank p + 1)); [done|]. lia. }
  rewrite u8_small by lia. eapply holds_ChangeRank; [done | done | | apply Hn | exact Hg].
  intros Hld. destruct Hl as [L1 _ _]. cbn [roster_guild rg_members rg_leader] in L1. rewrite <- Hld, lookup_fmap, Hm in L1.
  cbn in L1. unfold core_member in L1. injection L1. lia.
Qed.
End own.
End member_commands.

(** *** Ranks, joining and founding *)

Section founding.
Context `{HO : !HashOrder} `{HL : !HashOrderLaws} (v : GuildView).
Implicit Types s : GuildWorld.
Implicit Types ro : Roster.

Lemma ordered_on_guild g f ro : ordered ro -> (forall x, rg_members (f x) = rg_members x) ->
  (forall x, ro_guilds ro !! g = Some x -> led x -> led (f x)) -> ordered (on_guild g f ro).
Proof.
  intros [Hb Hl] Hm Hf. split; [by apply books_on_guild|]. intros g' y Hy. cbn in Hy.
  apply alter_split in Hy as [[_ Hy]|(-> & x & Hx & ->)]; [by eapply Hl|]. eauto.
Qed.
Lemma holds_ranks g f s x : GuildStore s !! g = Some x -> (3 <= length (f (m_ranks x)) <= 10)%nat -> holds (upd_guild g (on_ranks f)) s.
Proof.
  intros Hx Hf [Ho Hs]. set (n := length (f (m_ranks x))) in *.
  assert (E : roster (run_state (upd_guild g (on_ranks f)) s) = on_guild g (set_ranks n) (roster s)).
  { unfold roster, on_guild. cbn. f_equal. apply fmap_alter_to. intros y Hy. by assert (y = x) as -> by congruence. }
  rewrite E. split; [|done]. apply ordered_on_guild; [done..|]. by intros y _ [L1 L2 L3].
Qed.
Lemma holds_HandleAddNewRank u g name s : holds (HandleAddNewRank v u g name) s.
Proof.
  unfold HandleAddNewRank. apply holds_with_guild. intros x Hx. apply holds_if; intros Hn; [apply holds_same; runs_through|].
  apply holds_if; intros _; [apply holds_same; runs_through|]. apply holds_then; [|intros _; runs_through].
  unfold _CreateRank. apply holds_with_guild. intros x' Hx'. assert (x' = x) as -> by congruence. rewrite Hn. intros Hg.
  destruct (ranks_size x (stored_led s g x Hg Hx)) as [E L]. unfold GUILD_RANKS_MAX_COUNT in Hn. revert Hg.
  apply holds_then; [|intros _; runs_through]. eapply holds_ranks; [exact Hx|]. rewrite length_app. cbn. lia.
Qed.
Lemma holds_HandleRemoveRank u g r s : 0 <= r -> holds (HandleRemoveRank v u g r) s.
Proof.
  intros Hr. unfold HandleRemoveRank. apply holds_with_guild. intros x Hx. apply holds_if; intros Hn; [apply holds_same; runs_through|].
  apply holds_if; intros _; [apply holds_same; runs_through|]. intros Hg.
  destruct (ranks_size x (stored_led s g x Hg Hx)) as [E L]. rewrite E in Hn. unfold GUILD_RANKS_MIN_COUNT in Hn.
  rewrite !run_state_bind. set (s1 := run_state (Execute (DeleteLowestRank g r)) _).
  assert (E1 : roster s1 = roster s) by done. assert (Hx1 : GuildStore s1 !! g = Some x) by exact Hx.
  rewrite (roster_frame (HandleRoster v None g)), (roster_frame (HandleQuery u g)) by auto with runs.
  eapply (holds_ranks g (delete (Z.to_nat r)) s1); [exact Hx1 | | by rewrite E1].
  rewrite length_delete by (apply lookup_lt_is_Some; lia). lia.
Qed.
Lemma holds_HandleDisband u g s : holds (HandleDisband v u g) s.
Proof.
  unfold HandleDisband. apply holds_with_guild. intros x _. apply holds_if; intros _; [apply holds_same; runs_through | apply holds_Disband].
Qed.

Lemma holds_HandleAcceptMember u g s p : players s !! u = Some p -> gp_guildId p = 0 -> holds (HandleAcceptMember v u g) s.
Proof.
  intros Hp H0. unfold HandleAcceptMember. apply holds_with_guild. intros x Hx. apply holds_if; intros _; [apply holds_same; runs_through|].
  apply holds_then; [|intros ok; runs_through]. intros Hg. pose proof (lowest_rank x (stored_led s g x Hg Hx)) as Hlow. pose proof Hg as [Ho Hs].
  erewrite roster_AddMember; [|apply Ho | done | exact Hx | exact Hp | done]. split; [|by apply settled_enrol].
  assert (Hq : ro_players (roster s) !! u = Some (core_player p)) by (apply player_lookup; eauto).
  assert (Hr : ro_rows (roster s) !! u = None) by (eapply no_own_row; [apply Ho | exact Hq | done]).
  eapply ordered_enrol; [done | by apply stored_guild | by destruct (bk_player _ (proj1 Ho) u _ Hq) | | |].
  - intros row Hrow. congruence.
  - intros ->. destruct (proj2 Ho g _ (stored_guild s g x Hx)) as [L1 _ _].
    destruct (member_row _ g _ _ _ _ (proj1 Ho) (stored_guild s g x Hx) L1) as [_ Hrow]. congruence.
  - intros r [= <-]. unfold joins_as. rewrite Z.eqb_refl. lia.
Qed.

Lemma roster_CreateRank g name r n ro x s : ro_guilds ro !! g = Some x -> (n < 10)%nat ->
  roster s = on_guild g (set_ranks n) ro -> roster (run_state (_CreateRank g name r) s) = on_guild g (set_ranks (S n)) ro.
Proof.
  intros Hx Hn Er. assert (Hy : ro_guilds (roster s) !! g = Some (set_ranks n x)) by (rewrite Er; cbn; by rewrite lookup_alter_eq, Hx).
  apply roster_lookup in Hy as (y & Hy & E). assert (Hl : length (m_ranks y) = n) by (by injection E).
  unfold _CreateRank, with_guild. rewrite rs_with_state, Hy. unfold _GetRanksSize, GUILD_RANKS_MAX_COUNT. rewrite u8_small by lia.
  destruct (Z.leb_spec 10 (Z.of_nat (length (m_ranks y)))) as [?|_]; [lia|].
  rewrite run_state_bind. set (s1 := run_state (upd_guild g _) s).
  assert (E1 : roster s1 = on_guild g (set_ranks (S n)) ro).
  { unfold s1, roster, on_guild. cbn. rewrite (fmap_alter_to _ _ (set_ranks (S n))).
    - apply (f_equal ro_guilds) in Er as Eg. cbn in Eg. rewrite Eg, alter_alter_eq. change (set_ranks (S n) ∘ set_ranks n) with (set_ranks (S n)).
      f_equal; [exact (f_equal ro_next Er) | exact (f_equal ro_players Er) | exact (f_equal ro_rows Er)].
    - intros z Hz. assert (z = y) as -> by congruence. unfold roster_guild, set_ranks. cbn. by rewrite length_app, Hl, Nat.add_1_r. }
  rewrite <- E1. generalize s1. clear. intros s1. apply (roster_then _ _ _ id); [runs_through|]. intros _ s2 _. done.
Qed.
Lemma roster_DefaultRanks g loc ro x s : ro_guilds ro !! g = Some x -> roster s = on_guild g (set_ranks 0) ro ->
  roster (run_state (_CreateDefaultGuildRanks v g loc) s) = on_guild g (set_ranks 5) ro.
Proof.
  intros Hx Er. unfold _CreateDefaultGuildRanks. rewrite !run_state_bind.
  do 5 (eapply roster_CreateRank; [exact Hx | lia |]). exact Er.
Qed.

(** A new guild of one's own. *)
Definition found (u : Z) ro : Roster :=
  mkRoster (<[ro_next ro := mkRosterGuild u 5 {[u := (u, 0)]}]> (ro_guilds ro)) (ro_next ro + 1)
    (alter (fun p => (p.1.1, ro_next ro, 0)) u (ro_players ro)) (<[u := mkMemberRow (ro_next ro) 0]> (ro_rows ro)).
Definition empty_guild (u : Z) ro : Roster :=
  mkRoster (<[ro_next ro := mkRosterGuild u 5 ∅]> (ro_guilds ro)) (ro_next ro + 1) (ro_players ro) (ro_rows ro).
Lemma no_guild_yet ro : books ro -> ro_guilds ro !! ro_next ro = None.
Proof.
  intros Hb. destruct (ro_guilds ro !! ro_next ro) as [x|] eqn:Hx; [|done]. pose proof (bk_guild ro Hb _ x Hx). lia.
Qed.
Lemma books_empty_guild u ro : books ro -> books (empty_guild u ro).
Proof.
  intros Hb. pose proof (no_guild_yet ro Hb) as Hno. pose proof (bk_next ro Hb) as Hn. split; cbn.
  - intros g x [[<- _]|[_ Hx]]%lookup_insert_Some; [lia|]. pose proof (bk_guild ro Hb g x Hx). lia.
  - intros g x low p [[<- <-]|[_ Hx]]%lookup_insert_Some Hp; [done|]. by eapply (bk_member ro Hb).
  - intros low g r. rewrite (bk_row ro Hb). split.
    + intros (x & Hx & Hm). exists x. split; [|done]. apply lookup_insert_Some. right. split; [congruence | done].
    + intros (x & [[<- <-]|[_ Hx]]%lookup_insert_Some & Hm); [done | eauto].
  - apply (bk_player ro Hb).
  - lia.
Qed.
Lemma enrol_founder u ro : enrol (ro_next ro) u (Some 0) (empty_guild u ro) = found u ro.
Proof. unfold enrol, empty_guild, found. cbn. f_equal. by rewrite alter_insert_eq. Qed.
Lemma ordered_found u p ro : ordered ro -> ro_players ro !! u = Some p -> p.1.2 = 0 -> ordered (found u ro).
Proof.
  intros [Hb Hl] Hp H0. rewrite <- enrol_founder. destruct (bk_player ro Hb u p Hp) as [Hu _]. pose proof (no_own_row ro u p Hb Hp H0) as Hr.
  assert (Hx : ro_guilds (empty_guild u ro) !! ro_next ro = Some (mkRosterGuild u 5 ∅)) by apply lookup_insert_eq.
  split.
  - eapply books_enrol; [by apply books_empty_guild | exact Hx | done | | by intros r [= <-]]. intros row Hrow. cbn in Hrow. congruence.
  - intros g x Hg. destruct (decide (g = ro_next ro)) as [->|Hne].
    + rewrite (enrol_here _ _ _ _ _ Hx) in Hg. injection Hg as <-. split; cbn; [by rewrite lookup_partial_alter_eq | | lia].
      by intros low w [(-> & _)|[_ ?]]%(members_enrolled u (Some 0)).
    + rewrite enrol_others in Hg by done. cbn in Hg. rewrite lookup_insert_ne in Hg by congruence. by eapply Hl.
Qed.
End founding.

Section creating.
Context `{HO : !HashOrder} `{HL : !HashOrderLaws} (v : GuildView).
Implicit Types s : GuildWorld.

Lemma GenerateGuildId_runs s :
  run_value GenerateGuildId s = NextGuildId s /\ run_state GenerateGuildId s = on_NextGuildId (fun n => u32 (n + 1)) s.
Proof.
  unfold GenerateGuildId. rewrite rv_with_state, rs_with_state, run_value_bind, run_state_bind. unfold when. by destruct (_ <=? _).
Qed.
Lemma no_rows_of s g : books (roster s) -> ro_guilds (roster s) !! g = None -> filter (fun p => mr_guild p.2 <> g) (t_guild_member s) = t_guild_member s.
Proof.
  intros Hb Hg. apply map_filter_id. intros low [g' r] Hr. cbn. intros ->.
  apply (bk_row _ Hb) in Hr as (x & Hx & _). congruence.
Qed.
(** The new guild is in the store, and there is no row of its number. *)
Lemma roster_entered u name s : books (roster s) -> NextGuildId s + 1 < 2 ^ 32 ->
  roster (run_state (Execute (DeleteMembers (NextGuildId s)))
    (run_state (modify (on_GuildStore (insert (NextGuildId s) (new_guild v (NextGuildId s) u name))) : GM unit)
      (on_NextGuildId (fun n => u32 (n + 1)) s))) = on_guild (NextGuildId s) (set_ranks 0) (empty_guild u (roster s)).
Proof.
  intros Hb Hnext. assert (Hn : 0 < NextGuildId s) by exact (bk_next _ Hb). pose proof (no_guild_yet _ Hb) as Hno.
  unfold Execute. rewrite run_state_bind, !rs_modify, rs_emit. unfold roster, empty_guild, on_guild. cbn.
  rewrite fmap_insert, alter_insert_eq. f_equal; [apply u32_small; lia | by apply no_rows_of].
Qed.
Lemma CreateGuild_founds u name s p : books (roster s) -> settled (roster s) -> players s !! u = Some p -> gp_guildId p = 0 ->
  NextGuildId s + 1 < 2 ^ 32 -> GetGuildByName name s = None ->
  roster (run_state (CreateGuild v u name) s) = found u (roster s) /\ run_value (CreateGuild v u name) s = Some (NextGuildId s).
Proof.
  intros Hb Hs Hp H0 Hnext Hname.
  assert (Hq : ro_players (roster s) !! u = Some (core_player p)) by (apply player_lookup; eauto).
  unfold CreateGuild. rewrite rs_with_state, rv_with_state, Hname.
  destruct (GenerateGuildId_runs s) as [Eg E0]. rewrite run_state_bind, run_value_bind, Eg, E0, 2!run_state_bind, 2!run_value_bind.
  set (s2 := run_state (Execute (DeleteMembers _)) _). pose proof (roster_entered u name s Hb Hnext : roster s2 = _) as E2.
  clearbody s2. set (g := NextGuildId s) in *. change g with (ro_next (roster s)) in *. clear g E0.
  assert (Hx : ro_guilds (empty_guild u (roster s)) !! ro_next (roster s) = Some (mkRosterGuild u 5 ∅)) by apply lookup_insert_eq.
  rewrite run_state_bind, run_value_bind. set (s3 := run_state (Execute (InsertGuild _ _ _ _ _ _ _ _ _ _ _)) s2).
  assert (E3 : roster s3 = roster s2) by done.
  rewrite run_state_bind, run_value_bind, rs_emit, run_state_bind, run_value_bind. clearbody s3.
  set (s4 := run_state (_CreateDefaultGuildRanks v _ _) s3).
  assert (E4 : roster s4 = empty_guild u (roster s)).
  { unfold s4. erewrite roster_DefaultRanks; [|exact Hx | by rewrite E3]. unfold on_guild, empty_guild. cbn. by rewrite alter_insert_eq. }
  clearbody s4. rewrite <- E4 in Hx. apply roster_lookup in Hx as (x & Hx & Ex).
  assert (Hq4 : exists q, players s4 !! u = Some q /\ core_player p = core_player q) by (apply player_lookup; by rewrite E4).
  destruct Hq4 as (q & Hq4 & Eq). assert (Hq0 : gp_guildId q = 0) by (injection Eq; congruence).
  assert (Hok : run_value (AddMember v (ro_next (roster s)) u GR_GUILDMASTER) s4 = true).
  { erewrite value_AddMember; [|by rewrite E4 | exact Hx | exact Hq4]. by rewrite Hq0. }
  rewrite run_state_bind, run_value_bind, Hok, run_state_bind, run_value_bind, rs_emit, rs_ret. split; [|done].
  erewrite roster_AddMember; [|rewrite E4; by apply books_empty_guild | by rewrite E4 | exact Hx | exact Hq4 | done].
  rewrite E4. change (joins_as GR_GUILDMASTER x) with 0. apply enrol_founder.
Qed.
Lemma settled_found u ro : settled ro -> settled (found u ro).
Proof. intros Hs. rewrite <- enrol_founder. by apply settled_enrol. Qed.
Lemma holds_CreateGuild u name s p : players s !! u = Some p -> gp_guildId p = 0 -> NextGuildId s + 1 < 2 ^ 32 ->
  holds (CreateGuild v u name) s.
Proof.
  intros Hp H0 Hnext [Ho Hs]. destruct (GetGuildByName name s) eqn:Hn; [unfold CreateGuild; by rewrite rs_with_state, Hn|].
  destruct (CreateGuild_founds u name s p (proj1 Ho) Hs Hp H0 Hnext Hn) as [-> _]. split; [|by apply settled_found].
  apply (ordered_found u (core_player p)); [done | | exact H0]. cbn. by rewrite lookup_fmap, Hp.
Qed.
End creating.

(** *** The bank *)

Section bank_rosters.
Context `{!Utf8Lib} `{!HashOrder} (v : GuildView).

Lemma roster_ModifyMoney_guild u d : frames roster (ModifyMoney_guild v u d).
Proof. unfold ModifyMoney_guild, share_found_money, _ModifyBankMoney. runs_through. Qed.
Lemma roster_ModifyBankMoney g a b : frames roster (_ModifyBankMoney g a b).
Proof. unfold _ModifyBankMoney. runs_through. Qed.
Hint Resolve roster_ModifyMoney_guild roster_ModifyBankMoney : runs.
Lemma roster_Deposit u g a : frames roster (HandleMemberDepositMoney v u g a).
Proof. unfold HandleMemberDepositMoney. runs_through. Qed.
Lemma roster_Withdraw u g a b : frames roster (HandleMemberWithdrawMoney v u g a b).
Proof. unfold HandleMemberWithdrawMoney. runs_through. Qed.
Lemma roster_HandleBuyBankTab u g t : frames roster (HandleBuyBankTab v u g t).
Proof. unfold HandleBuyBankTab. runs_through. Qed.
Lemma roster_HandleSetEmblem u g e : frames roster (HandleSetEmblem v u g e).
Proof. unfold HandleSetEmblem, SendSaveEmblemResult. runs_through. Qed.
End bank_rosters.
#[export] Hint Resolve roster_Deposit roster_Withdraw roster_HandleBuyBankTab roster_HandleSetEmblem : runs.

(** ** Steps of the server *)

Section fairness.
Context `{!Utf8Lib}.

Definition settledb (s : GuildWorld) : bool := forallb (fun p => gp_inWorld p.2) (map_to_list (players s)).
Definition guildless (s : GuildWorld) (u : Z) : bool :=
  match players s !! u with Some p => gp_guildId p =? 0 | None => true end.
(** A leader who passes the guild on to himself. *)
Definition names_himself `{!HashOrder} (u : Z) (data : ByteBuffer) (s : GuildWorld) : bool :=
  match (parse_text data).1, players s !! u with
  | Ok name, Some p =>
      match normalizePlayerName name, GuildStore s !! gp_guildId p with
      | Conv n, Some x => bool_decide (find_member n x = Some u)
      | _, _ => false
      end
  | _, _ => false
  end.
(** Packets, and deleted characters, when nobody is between two maps; what the steps
    of a guild take for granted of a packet is spelled out for four of them. *)
Definition fair_step (p : HashOrder * GuildView * guild_step) (s : GuildWorld) : bool :=
  match p.2 with
  | GuildPacketIn u op data => settledb s &&
      match op with
      | CMSG_GUILD_CREATE => NextGuildId s + 1 <? 2 ^ 32
      | CMSG_GUILD_DECLINE => guildless s u
      | CMSG_GUILD_REMOVE => match (parse_target data).1 with Ok guid => GUID_LOPART guid =? guid | Err _ => true end
      | CMSG_GUILD_LEADER => negb (@names_himself p.1.1 u data s)
      | _ => true
      end
  | GuildLogin u => (0 <? u) && (u <? 2 ^ 32)
  | GuildCharDelete _ => settledb s
  | _ => true
  end.
Fixpoint fair_run (l : list (HashOrder * GuildView * guild_step)) (s : GuildWorld) : bool :=
  match l with
  | [] => true
  | p :: l' => fair_step p s && fair_run l' (run_guilds [p] s)
  end.
Lemma settledb_spec s : settledb s = true -> settled (roster s).
Proof.
  intros Hs u p Hp. apply player_lookup in Hp as (q & Hq & ->). unfold settledb in Hs. rewrite forallb_forall in Hs.
  apply (Hs (u, q)). apply list_elem_of_In. by apply elem_of_map_to_list.
Qed.
End fairness.

Section roster_steps.
Context `{!Utf8Lib} `{HO : !HashOrder} `{HL : !HashOrderLaws} (v : GuildView).
Implicit Types s : GuildWorld.

Lemma holds_with_recv {A} (parse : B A) data k s : (forall a, (parse data).1 = Ok a -> holds (k a) s) -> holds (with_recv parse data k) s.
Proof. intros Hk. unfold with_recv. destruct (parse data).1 as [a|]; [by apply Hk | by apply holds_same, runs_ret, _]. Qed.
Lemma holds_with_name n k s : (forall x, normalizePlayerName n = Conv x -> holds (k x) s) -> holds (with_name n k) s.
Proof. intros Hk. unfold with_name. destruct (normalizePlayerName n); [by apply Hk | apply holds_same; runs_through..]. Qed.
Lemma holds_GetPlayerGuild u b k s :
  (forall p, players s !! u = Some p -> gp_guildId p <> 0 -> holds (k (gp_guildId p)) s) -> holds (_GetPlayerGuild u b k) s.
Proof.
  intros Hk. unfold _GetPlayerGuild. apply holds_with_player. intros p Hp. apply holds_with_state.
  destruct (Z.eqb_spec (gp_guildId p) 0) as [E|Hne]; [apply holds_same; runs_through|].
  destruct (GuildStore s !! gp_guildId p); [by apply Hk | apply holds_same; runs_through].
Qed.
Lemma holds_Decline u data s : guildless s u = true -> holds (HandleGuildDeclineOpcode u data) s.
Proof.
  intros Hu. unfold HandleGuildDeclineOpcode. apply holds_with_recv. intros _ _ Hg.
  rewrite run_state_bind, act_SetInGuild, (roster_frame (upd_player u _)) by auto with runs.
  assert (E : know u (fun p => (p.1.1, 0, p.2)) (roster s) = roster s); [|by rewrite E].
  unfold know, roster. cbn. f_equal. apply alter_id. intros p Hp. rewrite lookup_fmap in Hp. unfold guildless in Hu.
  destruct (players s !! u) as [q|]; [|done]. injection Hp as <-. apply Z.eqb_eq in Hu. unfold core_player. by rewrite Hu.
Qed.
Lemma holds_handle u op data s : fair_step (HO, v, GuildPacketIn u op data) s = true -> holds (handle_guild v u op data) s.
Proof.
  intros [_ Hf]%andb_true_iff. destruct op; cbn [handle_guild] in *.
  all: try (apply holds_same; unfold_handlers; unfold HandleGuildBankDepositMoney; handler_through; done).
  - apply holds_with_recv. intros name _. apply holds_with_player. intros p Hp. unfold when.
    apply holds_if; [|intros _; by apply holds_same, runs_ret, _]. intros H0%Z.eqb_eq. apply holds_then; [|intros o; apply runs_ret, _].
    eapply holds_CreateGuild; [exact Hp | done | lia].
  - apply holds_with_recv. intros guid Hd. apply holds_GetPlayerGuild. intros p Hp H0. cbn [snd fst] in Hf. rewrite Hd in Hf.
    apply Z.eqb_eq in Hf. apply holds_HandleRemoveMember. rewrite <- Hf. apply lopart_range.
  - apply holds_with_recv. intros _ _. apply holds_with_player. intros p Hp. apply holds_with_state.
    apply holds_if; [|intros _; by apply holds_same, runs_ret, _]. intros H0%Z.eqb_eq.
    destruct (GuildStore s !! gp_guildIdInvited p); [by eapply holds_HandleAcceptMember | by apply holds_same, runs_ret, _].
  - by apply holds_Decline.
  - apply holds_with_recv. intros guid _. apply holds_GetPlayerGuild. intros p Hp H0. by apply holds_HandleUpdateMemberRank.
  - apply holds_with_recv. intros guid _. apply holds_GetPlayerGuild. intros p Hp H0. by apply holds_HandleUpdateMemberRank.
  - apply holds_GetPlayerGuild. intros p Hp H0. by apply holds_HandleLeaveMember.
  - apply holds_GetPlayerGuild. intros p Hp H0. apply holds_HandleDisband.
  - apply holds_with_recv. intros name Hd. apply holds_with_name. intros n Hn. apply holds_GetPlayerGuild. intros p Hp H0.
    apply holds_HandleSetLeader; [done..|]. intros x Hx Hself. cbn [fst snd] in Hf. unfold names_himself in Hf.
    by rewrite Hd, Hp, Hn, Hx, bool_decide_true in Hf.
  - apply holds_GetPlayerGuild. intros p Hp H0. apply holds_HandleAddNewRank.
  - apply holds_with_recv. intros r _. apply holds_GetPlayerGuild. intros p Hp H0. apply holds_HandleRemoveRank.
    apply uwrap_range. lia.
Qed.
End roster_steps.

Section roster_runs.
Context `{!Utf8Lib} `{HO : !HashOrder} `{HL : !HashOrderLaws} (v : GuildView).
Implicit Types s : GuildWorld.
Implicit Types ro : Roster.

Definition arrive (u : Z) (p : bool * Z * Z) ro : Roster :=
  mkRoster (ro_guilds ro) (ro_next ro) (<[u := p]> (ro_players ro)) (ro_rows ro).
Lemma ordered_arrive u p ro : ordered ro -> 0 < u < 2 ^ 32 ->
  match ro_rows ro !! u with Some row => p.1.2 = mr_guild row /\ p.2 = mr_rank row | None => p.1.2 = 0 end ->
  ordered (arrive u p ro).
Proof.
  intros [[B1 B2 B3 B4 B5] Hl] Hu Hp. split; [|done]. split; try done. cbn. intros w q.
  intros [[<- <-]|[_ Hq]]%lookup_insert_Some; [done | by apply B4].
Qed.
Lemma ordered_players ro ps : ordered ro -> (forall u p, ps !! u = Some p -> exists q, ro_players ro !! u = Some q /\ q.1.2 = p.1.2 /\ q.2 = p.2) ->
  ordered (mkRoster (ro_guilds ro) (ro_next ro) ps (ro_rows ro)).
Proof.
  intros [[B1 B2 B3 B4 B5] Hl] Hps. split; [|done]. split; try done. cbn. intros w q Hq.
  destruct (Hps w q Hq) as (q' & Hq' & <- & <-). by apply B4.
Qed.
Lemma ordered_LoginGuild u s : 0 < u < 2 ^ 32 -> ordered (roster s) -> ordered (roster (run_state (LoginGuild v u) s)).
Proof.
  intros Hu Ho. unfold LoginGuild. rewrite rs_with_state. destruct (players s !! u); [done|].
  unfold guild_row. rewrite lopart by lia. set (row := t_guild_member s !! u).
  assert (Ha : forall g r, (g, r) = match row with Some x => (mr_guild x, mr_rank x) | None => (0, 0) end ->
    ordered (roster (on_players (insert u (mkGuildPlayer false g r 0)) s)) /\ (g = 0 \/ exists x, GuildStore s !! g = Some x)).
  { intros g r E. split.
    - assert (En : roster (on_players (insert u (mkGuildPlayer false g r 0)) s) = arrive u (false, g, r) (roster s)).
      { unfold roster, arrive. cbn. by rewrite fmap_insert. }
      rewrite En. apply ordered_arrive; [done..|]. cbn. fold row. by destruct row; injection E as -> ->.
    - destruct row as [[g' r']|] eqn:Hr; injection E as -> ->; [right|by left].
      apply (bk_row _ (proj1 Ho)) in Hr as (x & Hx & _). apply roster_lookup in Hx as (y & Hy & _). by eauto. }
  destruct (match row with Some x => _ | None => _ end) as [g r]. destruct (Ha g r eq_refl) as [Hn Hg]. clear Ha.
  rewrite run_state_bind, rs_modify. set (s1 := on_players _ s) in *. destruct (Z.eqb_spec g 0); [done|].
  destruct Hg as [|(x & Hx)]; [done|]. rewrite Hx. by rewrite roster_frame by runs_through.
Qed.
Lemma ordered_LogoutGuild u s : ordered (roster s) -> ordered (roster (run_state (LogoutGuild v u) s)).
Proof.
  intros Ho. unfold LogoutGuild, with_player. rewrite rs_with_state. destruct (players s !! u); [|done].
  rewrite run_state_bind, rs_modify. set (s1 := run_state (HandleMemberLogout v u _) s).
  assert (E : roster s1 = roster s) by (apply roster_frame; auto with runs). rewrite <- E in Ho. clearbody s1. clear E.
  assert (En : roster (on_players (delete u) s1) = mkRoster (ro_guilds (roster s1)) (ro_next (roster s1)) (delete u (ro_players (roster s1))) (ro_rows (roster s1))).
  { unfold roster. cbn. by rewrite fmap_delete. }
  rewrite En. apply ordered_players; [done|]. intros w p [_ Hp]%lookup_delete_Some. by eauto.
Qed.
Lemma ordered_TravelGuild u b s : ordered (roster s) -> ordered (roster (run_state (TravelGuild u b) s)).
Proof.
  intros Ho. unfold TravelGuild. rewrite (act_player u _ (fun p => (b, p.1.2, p.2))) by done.
  apply ordered_players; [done|]. intros w p [[_ Hp]|(-> & q & Hq & ->)]%alter_split; eauto.
Qed.
Lemma holds_DeleteFromGuild guid s : holds (DeleteFromGuild v guid) s.
Proof.
  unfold DeleteFromGuild. apply holds_with_state. apply holds_if; [intros _; by apply holds_same, runs_ret, _|]. intros Hg. unfold GetGuildIdFromDB in *.
  destruct (t_guild_member s !! GUID_LOPART guid) as [[g r]|] eqn:Hr; [|done]. cbn [mr_guild] in *. intros Hgd.
  pose proof Hr as (x & Hx & Hm)%(bk_row _ (proj1 (proj1 Hgd))). apply roster_lookup in Hx as (y & Hy & ->). apply member_lookup in Hm as (m & Hm & _).
  revert Hgd. by eapply holds_DeleteMember.
Qed.
Lemma ordered_step st s : fair_step (HO, v, st) s = true -> ordered (roster s) -> ordered (roster (run_state (run_guild_step v st) s)).
Proof.
  intros Hf Ho. assert (Hsame : frames roster (run_guild_step v st) -> ordered (roster (run_state (run_guild_step v st) s))).
  { intros Hm. by rewrite Hm. }
  destruct st; cbn [run_guild_step] in *; cbn [fair_step snd] in Hf.
  all: try (apply Hsame; unfold RepairFromGuild, HandleGuildChat; handler_through; done).
  - pose proof Hf as [Hs _]%andb_true_iff. apply settledb_spec in Hs. rewrite rs_with_state.
    destruct (_ || _); [|done]. by apply holds_handle.
  - apply ordered_LoginGuild; [lia | done].
  - by apply ordered_LogoutGuild.
  - by apply ordered_TravelGuild.
  - apply holds_DeleteFromGuild. split; [done | by apply settledb_spec].
Qed.
End roster_runs.

Section guild_rosters.
Context `{!Utf8Lib}.

(** C7: guild rosters stay in order over any fair sequence of steps of the server,
    packets of members and others, logins and logouts, repairs, experience and deleted
    characters.  Every guild has from 3 to 10 ranks and is led by a member, its only
    one of rank 0; members are kept under their own identifiers with ranks below 10;
    the rows of guild_member are exactly the members of the guilds in memory, so nobody
    is in two guilds; and every player who is online believes to be in the guild, and
    to have the rank, that his row says, or in none if he has no row. *)
Theorem guild_rosters l s : ordered (roster s) -> Forall (fun p => @HashOrderLaws p.1.1) l -> fair_run l s = true ->
  ordered (roster (run_guilds l s)).
Proof.
  intros Ho Hl. revert s Ho. induction Hl as [|[[h v] st] l Hp Hl IH]; intros s Ho Hf; [done|].
  cbn [fair_run run_guilds] in *. apply andb_true_iff in Hf as [Hst Hf]. apply IH; [|done].
  by apply (@ordered_step _ h Hp).
Qed.
End guild_rosters.

Lemma ordered_sample : ordered (roster sample_world).
Proof.
  split; [|by intros g x]. split; try by intros.
  intros low g r. split; [done|]. by intros (x & Hx & _).
Qed.
(** Ann and Bob are in the guild she leads, until his character is deleted. *)
Lemma guild_rosters_witness :
  ordered (roster (run_guilds bank_run sample_world)) /\
  rg_members <$> ro_guilds (roster (run_guilds founded sample_world)) !! 1 = Some {[1 := (1, 0); 2 := (2, 4)]} /\
  rg_members <$> ro_guilds (roster (run_guilds bank_run sample_world)) !! 1 = Some {[1 := (1, 0)]}.
Proof.
  split; [|split; vm_compute; reflexivity]. apply guild_rosters.
  - exact ordered_sample.
  - unfold bank_run, founded, arrivals. cbn [fmap list_fmap concat app]. 
    repeat first [apply List.Forall_cons; [exact key_order_laws|] | apply List.Forall_nil].
  - vm_compute. reflexivity.
Defined.

(** ** What a fair run leaves out

    Four things a server does to its rosters otherwise; each starts from the guild Ann
    founded and Bob joined. *)
Definition guild_and_rank (s : GuildWorld) (u : Z) : option (Z * Z) := (fun p => (gp_guildId p, gp_rank p)) <$> players s !! u.
(** Bob declines an invitation: he believes to be in no guild, and is still a member. *)
Example decline_forgets_guild :
  let s := run_guilds (founded ++ [in_packet 30 2 CMSG_GUILD_DECLINE [FU 8 0]]) sample_world in
  guild_and_rank s 2 = Some (0, 4) /\ t_guild_member s !! 2 = Some (mkMemberRow 1 4).
Proof. split; vm_compute; reflexivity. Qed.
(** Ann names herself leader: nobody has rank 0 any more. *)
Example self_crowned_officer :
  let s := run_guilds (founded ++ [in_packet 30 1 CMSG_GUILD_LEADER [FU 8 0; FU 8 0; FStr (text "ann")]]) sample_world in
  (fun x => (m_leaderGuid x, core_member <$> m_members x)) <$> GuildStore s !! 1 = Some (1, {[1 := (1, 1); 2 := (2, 4)]}).
Proof. vm_compute. reflexivity. Qed.
(** A GUID with more than its low part: Bob is out, and does not know it. *)
Example kicked_by_high_guid :
  let s := run_guilds (founded ++ [in_packet 30 1 CMSG_GUILD_REMOVE [FU 8 (2 + 2 ^ 32); FU 8 0]]) sample_world in
  guild_and_rank s 2 = Some (1, 4) /\ t_guild_member s !! 2 = None.
Proof. split; vm_compute; reflexivity. Qed.
(** Neither does he if he is between two maps. *)
Example kicked_between_maps :
  let s := run_guilds (founded ++ [step_at 30 (GuildTravel 2 false); in_packet 30 1 CMSG_GUILD_REMOVE [FU 8 2; FU 8 0];
                                   step_at 40 (GuildTravel 2 true)]) sample_world in
  guild_and_rank s 2 = Some (1, 4) /\ t_guild_member s !! 2 = None.
Proof. split; vm_compute; reflexivity. Qed.

(** ** Ranks that are gone *)

Section removed_ranks.
Context `{!HashOrder} (v : GuildView).

Lemma store_HandleQuery u g : frames GuildStore (HandleQuery u g).
Proof. unfold HandleQuery. runs_through. Qed.
Lemma store_send_members x test d : frames GuildStore (send_members x test d).
Proof. unfold send_members. runs_through. Qed.
Hint Resolve store_HandleQuery store_send_members : runs.
Lemma store_HandleRoster o g : frames GuildStore (HandleRoster v o g).
Proof. unfold HandleRoster, SendGuildRankInfo, SendUpdateRoster, send_to, BroadcastPacket. runs_through. Qed.
(** A rank a guild does not have passes every test of its rights: none of the bits asked
    for are set, which is not the value [GR_RIGHT_EMPTY] the test compares with. *)
Lemma no_rank_all_rights x r right : _GetRanksSize x <= r -> _HasRankRight x r right = true.
Proof.
  intros Hr. unfold _HasRankRight, _GetRankRights, rank_field, GetRankInfo.
  destruct (Z.ltb_spec r (_GetRanksSize x)); [lia|]. by rewrite Z.land_0_l.
Qed.

(** C36: removing a rank promotes its members: when the leader of a guild with more than
    three ranks removes the lowest one, the members who had it keep its number, and
    after the removal pass the test of every right, to invite, remove, promote or speak
    for the officers, whatever the rank allowed (a rank that is added later takes the
    number and its own rights count again). *)
Theorem removed_rank_rights u g s x : GuildStore s !! g = Some x -> _IsLeader x u = true -> 3 < Z.of_nat (length (m_ranks x)) <= 10 ->
  let lowest := _GetLowestRankId x in
  exists x', GuildStore (run_state (HandleRemoveRank v u g lowest) s) !! g = Some x' /\
    forall low m, m_members x !! low = Some m -> mb_rankId m = lowest ->
      m_members x' !! low = Some m /\ forall right, _HasRankRight x' (mb_rankId m) right = true.
Proof.
  intros Hx Hl Hn lowest. assert (Es : _GetRanksSize x = Z.of_nat (length (m_ranks x))) by (apply u8_small; lia).
  assert (El : lowest = Z.of_nat (length (m_ranks x)) - 1) by (apply u8_small; lia).
  exists (on_ranks (delete (Z.to_nat lowest)) x). split.
  - unfold HandleRemoveRank, with_guild. rewrite rs_with_state, Hx, Es, Hl. unfold GUILD_RANKS_MIN_COUNT.
    destruct (Z.leb_spec (Z.of_nat (length (m_ranks x))) 3), (Z.leb_spec (Z.of_nat (length (m_ranks x))) lowest); try lia.
    cbn [orb negb]. rewrite !run_state_bind. rewrite (store_HandleRoster None g), (store_HandleQuery u g).
    cbn. by rewrite lookup_alter_eq, Hx.
  - intros low m Hm Hr. split; [exact Hm|]. intros right. apply no_rank_all_rights. rewrite Hr, El. unfold _GetRanksSize. cbn.
    rewrite length_delete by (apply lookup_lt_is_Some; lia). rewrite u8_small by lia. lia.
Qed.
End removed_ranks.

(** Bob joined with the lowest of five ranks; Ann removes it and he may do everything. *)
Definition joined_world : GuildWorld := run_guilds founded sample_world.
Definition joined_guild : Guild := default (new_guild (sample_guild_view 0 0) 0 0 []) (GuildStore joined_world !! 1).
Definition joined_member : Member := default (new_member (sample_guild_view 0 0) 0 0) (m_members joined_guild !! 2).
Lemma removed_rank_rights_witness :
  exists x', GuildStore (run_state (@HandleRemoveRank key_order (sample_guild_view 0 0) 1 1 4) joined_world) !! 1 = Some x' /\
    _HasRankRight x' 4 GR_RIGHT_REMOVE = true /\ _HasRankRight joined_guild 4 GR_RIGHT_REMOVE = false.
Proof.
  destruct (@removed_rank_rights key_order (sample_guild_view 0 0) 1 1 joined_world joined_guild) as (x' & Hx' & Hm);
    [vm_compute; reflexivity | vm_compute; reflexivity | vm_compute; split; reflexivity || discriminate |].
  exists x'. split; [exact Hx'|]. split; [|vm_compute; reflexivity].
  destruct (Hm 2 joined_member) as [_ Hr]; [vm_compute; reflexivity | vm_compute; reflexivity | exact (Hr GR_RIGHT_REMOVE)].
Defined.
