(* ===== verification/Petition.v ===== *)
(** * Guild charters

    The opcode handlers of game/Server/Protocol/Handlers/PetitionsHandler.cpp and
    [Player::RemovePetitionsAndSigns]: a charter is bought, offered, signed, renamed and
    turned in for a guild.  The state is that of [Guild] with the tables petition (one
    row for an owner) and petition_sign (by charter and player).  Which positions can
    take a new item ([Player::CanStoreNewItem]) is asked of the view; an item that is
    destroyed leaves its row, which is deleted with the next save of the player. *)
From Stdlib Require Import SpecFloat.
From S2P Require Import Prelude Text ByteBuffer Mail Market Guild GuildBank GuildHandler GuildSample.

Definition GUILD_CHARTER : Z := 5863.
Definition GUILD_CHARTER_COST : Z := 1000.
Definition CHARTER_DISPLAY_ID : Z := 16161.
Definition GUILD_CHARTER_TYPE : Z := 9.
Definition MAX_CHARTER_NAME : Z := 24.
Definition PETITION_TURN_OK : Z := 0.
Definition PETITION_TURN_ALREADY_IN_GUILD : Z := 2.
Definition PETITION_TURN_NEED_MORE_SIGNATURES : Z := 4.
Definition PETITION_SIGN_OK : Z := 0.
Definition PETITION_SIGN_ALREADY_SIGNED : Z := 1.
Definition ERR_GUILD_NAME_EXISTS_S : Z := 0x07.
Definition BUY_ERR_CANT_FIND_ITEM : Z := 0.
Definition BUY_ERR_NOT_ENOUGHT_MONEY : Z := 2.
Definition EQUIPMENT_SLOT_START : Z := 0.
Definition MAX_BAG_SIZE : Z := 36.

Definition SMSG_PETITION_SHOWLIST : Z := 0x0FCC0.
Definition SMSG_PETITION_SHOW_SIGNATURES : Z := 0x0E2E0.
Definition SMSG_PETITION_SIGN_RESULTS : Z := 0x0A1A4.
Definition SMSG_TURN_IN_PETITION_RESULTS : Z := 0x035AC.
Definition SMSG_PETITION_QUERY_RESPONSE : Z := 0x0FB80.
Definition MSG_PETITION_DECLINE : Z := 0x032E0.
Definition MSG_PETITION_RENAME : Z := 0x070C0.
Definition SMSG_BUY_FAILED : Z := 0x06CE8.

(** ** Data *)

Record PetitionRow := mkPetitionRow { pt_guid : Z; pt_name : list Z }.
(** The column type is never written: it has its default 0. *)
Record SignRow := mkSignRow { sg_owner : Z; sg_account : Z; sg_type : Z }.
Record PetitionWorld := mkPetitionWorld {
  guilds : GuildWorld;
  t_petition : gmap Z PetitionRow;                   (* by owner *)
  t_petition_sign : gmap Z (gmap Z SignRow)          (* by charter, then by player *)
}.
Definition set_guilds (w : GuildWorld) (s : PetitionWorld) : PetitionWorld := mkPetitionWorld w (t_petition s) (t_petition_sign s).
Definition on_t_petition f (s : PetitionWorld) : PetitionWorld := mkPetitionWorld (guilds s) (f (t_petition s)) (t_petition_sign s).
Definition on_t_petition_sign f (s : PetitionWorld) : PetitionWorld := mkPetitionWorld (guilds s) (t_petition s) (f (t_petition_sign s)).

Inductive petition_statement :=
| DeletePetitions (guids : list Z)
| DeletePetitionsOf (owner : Z)
| InsertPetition (owner guid : Z) (name : list Z)
| SetPetitionName (guid : Z) (name : list Z)
| DeleteSigns (guids : list Z)
| DeleteSignsOf (owner : Z) (type : option Z)        (* None: of any type *)
| DeleteSignsBy (player : Z) (type : option Z)
| InsertSign (owner guid player account : Z).
Inductive petition_event :=
| PGuild (e : guild_event)
| PQuery (stmt : petition_statement)
| PNewItem (u item count : Z)                        (* SMSG_ITEM_PUSH_RESULT *)
| PItemAdded (u entry count : Z)                     (* quests and achievements *)
| PItemRemoved (u entry count : Z).
Abbreviation PM := (M PetitionWorld petition_event).

Record PetitionView := mkPetitionView {
  gvw : GuildView;
  CONFIG_MIN_PETITION_SIGNS : Z;
  CONFIG_MIN_CHARTER_NAME : Z;
  CONFIG_STRICT_CHARTER_NAMES : Z;
  REALM_ZONE : Z;
  ReservedNames : gset (list Z);
  (** [GetNPCIfCanInteractWith] a petitioner: whether he is a tabard designer. *)
  petitioner_near : Z -> Z -> option bool;
  (** The prototype of an entry: the number sold at once. *)
  proto_BuyCount : Z -> option Z;
  (** [Player::CanStoreNewItem]: the answer and the positions with their counts. *)
  CanStoreNewItem_at : GuildWorld -> Z -> Z -> Z -> Z * list (Z * Z)
}.

Definition of_type (type : option Z) (r : SignRow) : bool := match type with Some t => sg_type r =? t | None => true end.
Definition petition_execute (st : petition_statement) (s : PetitionWorld) : PetitionWorld :=
  match st with
  | DeletePetitions guids => on_t_petition (filter (fun p => pt_guid p.2 ∉ guids)) s
  | DeletePetitionsOf owner => on_t_petition (delete owner) s
  | InsertPetition owner guid name => on_t_petition (fun t =>
      match t !! owner with None => <[owner := mkPetitionRow guid name]> t | Some _ => t end) s
  | SetPetitionName guid name => on_t_petition (fmap (fun r => if pt_guid r =? guid then mkPetitionRow guid name else r)) s
  | DeleteSigns guids => on_t_petition_sign (filter (fun p => p.1 ∉ guids)) s
  | DeleteSignsOf owner type =>
      on_t_petition_sign (fmap (filter (fun p => ~ (sg_owner p.2 = owner /\ of_type type p.2 = true)))) s
  | DeleteSignsBy player type =>
      on_t_petition_sign (fmap (filter (fun p => ~ (p.1 = player /\ of_type type p.2 = true)))) s
  | InsertSign owner guid player account => on_t_petition_sign (fun t =>
      let l := default ∅ (t !! guid) in
      match l !! player with None => <[guid := <[player := mkSignRow owner account 0]> l]> t | Some _ => t end) s
  end.
Definition PExecute (st : petition_statement) : PM unit := modify (petition_execute st) ;; emit (PQuery st).
Definition signers (s : PetitionWorld) (guid : Z) : gmap Z SignRow := default ∅ (t_petition_sign s !! guid).
(** The count, which is read as 8 bits. *)
Definition sign_count (s : PetitionWorld) (guid : Z) : Z := u8 (Z.of_nat (size (signers s guid))).

Section petitions.
Context `{!Utf8Lib} `{!HashOrder} (v : PetitionView).
#[local] Abbreviation gv := (gvw v).

Definition petition_of (s : PetitionWorld) (guid : Z) : option (Z * PetitionRow) :=
  head (filter (fun p => pt_guid p.2 = guid) (hash_list (t_petition s))).
Definition sign_list (s : PetitionWorld) (guid : Z) : list Z := fst <$> hash_list (signers s guid).
Definition with_petition (guid : Z) (k : Z -> PetitionRow -> PM unit) : PM unit := with_state (fun s =>
  match petition_of s guid with Some (owner, r) => k owner r | None => ret tt end).
Definition guild_send (u : Z) (data : packet) : PM unit := emit (PGuild (GuildPacket u data)).
(** To the owner of a charter, if he is in the world. *)
Definition send_owner (owner : Z) (data : packet) : PM unit := with_state (fun s =>
  when (bool_decide (is_Some (FindPlayer (guilds s) owner))) (guild_send owner data)).
Definition with_gplayer (u : Z) (k : GuildPlayer -> PM unit) : PM unit := with_state (fun s =>
  match players (guilds s) !! u with Some p => k p | None => ret tt end).
Definition precv {A} (parse : B A) (recv_data : ByteBuffer) (k : A -> PM unit) : PM unit :=
  match (parse recv_data).1 with Ok a => k a | Err _ => ret tt end.

(** ** Joining a guild takes signatures along *)

Definition query_packet (guid owner : Z) (name : list Z) : packet :=
  Pkt SMSG_PETITION_QUERY_RESPONSE
    ([FU 4 (GUID_LOPART guid); FU 8 owner; FStr name; FU 1 0; FU 4 9; FU 4 9; FU 4 0; FU 4 0; FU 4 0; FU 4 0; FU 4 0; FU 2 0;
      FU 4 0; FU 4 0; FU 4 0] ++ replicate 10 (FU 1 0) ++ [FU 4 0; FU 4 0]).
Definition SendPetitionQueryOpcode (u guid : Z) : PM unit :=
  with_petition (GUID_LOPART guid) (fun owner r => guild_send u (query_packet guid owner (pt_name r))).

(** The signatures of a player, by charter. *)
Definition signs_by (s : PetitionWorld) (player : Z) (type : option Z) : list (Z * SignRow) :=
  omap (fun p => match p.2 !! player with
                 | Some r => if of_type type r then Some (p.1, r) else None
                 | None => None
                 end) (hash_list (t_petition_sign s)).
(** [type] is [None] for the number 10. *)
Definition RemovePetitionsAndSigns_of (guid : Z) (type : option Z) : PM unit := with_state (fun s =>
  let low := GUID_LOPART guid in
  let rows := signs_by s low type in
  for_each rows (fun p => with_state (fun s1 =>
    when (bool_decide (is_Some (FindPlayer (guilds s1) (sg_owner p.2))))
      (SendPetitionQueryOpcode (sg_owner p.2) (MAKE_NEW_GUID p.1 0 HIGHGUID_ITEM)))) ;;
  when (negb (bool_decide (rows = []))) (PExecute (DeleteSignsBy low type)) ;;
  PExecute (DeletePetitionsOf low) ;;
  PExecute (DeleteSignsOf low type)).

(** A program of a guild, with what joining does to charters and signatures. *)
Definition replay (e : guild_event) : PM unit :=
  match e with
  | RemovePetitionsAndSigns guid => RemovePetitionsAndSigns_of guid (Some GUILD_CHARTER_TYPE)
  | _ => emit (PGuild e)
  end.
Definition run_in_guilds {A} (m : GM A) : PM (A * list guild_event) := fun s =>
  let '(a, w, log) := m (guilds s) in ((a, log), set_guilds w s, []).
Definition in_guilds {A} (m : GM A) : PM A :=
  let! (a, log) := run_in_guilds m in for_each log replay ;; ret a.

(** ** The charter among the items *)

(** [Item::CreateItem]. *)
Definition CreateItem (entry count : Z) : GM (option Z) := with_state (fun s =>
  if count <? 1 then ret None
  else
    let j := next_item s in
    when (0xFFFFFFFE <=? j) (emit GuildIdOverflow) ;;
    modify (on_next_item (fun n => u32 (n + 1))) ;;
    modify (on_item_store (insert j
      (mkItem entry (Z.min count (GetMaxStackSize gv entry)) 0 0 0 (proto_SpellCharges gv entry) []))) ;;
    ret (Some j)).
(** [Player::StoreItem]: the item that was stored last. *)
Fixpoint store_last (u i : Z) (vec : list (Z * Z)) (last : option Z) : GM (option Z) :=
  match vec with
  | [] => ret last
  | [p] => bags_store_at gv u i false p
  | p :: vec' => let! o := bags_store_at gv u i true p in store_last u i vec' o
  end.
Definition StoreNewItem (u entry : Z) (dest : list (Z * Z)) : PM (option Z) :=
  let count := u32 (foldr (fun p n => p.2 + n) 0 dest) in
  let! o := in_guilds (CreateItem entry count) in
  match o with
  | None => ret None
  | Some i =>
      emit (PItemAdded u entry count) ;;
      let! last := in_guilds (store_last u i dest (Some i)) in
      when (negb (bool_decide (is_Some last))) (emit (PGuild GuildUndefined)) ;;
      ret last
  end.
Definition ITEM_FIELD_ENCHANTMENT_1_1 : Z := 0.
Definition set_enchantment (slot id : Z) (i : Item) : Item :=
  mkItem (it_entry i) (it_count i) (it_flags i) (it_randomProperty i) (it_suffixFactor i) (it_charges i)
    ((slot, id) :: filter (fun p => p.1 <> slot) (it_enchantments i)).

(** The positions [GetItemByGuid] looks at. *)
Definition item_positions : list (Z * Z) :=
  ((fun slot => (INVENTORY_SLOT_BAG_0, slot)) <$>
     (seqZ EQUIPMENT_SLOT_START INVENTORY_SLOT_ITEM_END ++ seqZ KEYRING_SLOT_START (CURRENCYTOKEN_SLOT_END - KEYRING_SLOT_START))) ++
  concat ((fun bag => (fun slot => (bag, slot)) <$> seqZ 0 MAX_BAG_SIZE) <$>
     (seqZ INVENTORY_SLOT_BAG_START (INVENTORY_SLOT_BAG_END - INVENTORY_SLOT_BAG_START) ++
      seqZ BANK_SLOT_BAG_START (BANK_SLOT_BAG_END - BANK_SLOT_BAG_START))).
(** The position and the item. *)
Definition GetItemByGuid (s : GuildWorld) (u guid : Z) : option (Z * Z * Z) :=
  head (omap (fun '(bag, slot) =>
    match GetItemByPos s u bag slot with
    | Some i => if MAKE_NEW_GUID i 0 HIGHGUID_ITEM =? guid then Some (bag, slot, i) else None
    | None => None
    end) item_positions).
(** [Player::DestroyItem]; a bag that is not empty goes with what is in it, and bags in
    bags are empty.  What a worn item did for its owner is not modelled. *)
Fixpoint DestroyItem (fuel : nat) (u bag slot : Z) : PM unit := with_state (fun s =>
  match GetItemByPos (guilds s) u bag slot with
  | None => ret tt
  | Some i =>
      when (bag_is_filled gv i)
        (match fuel with
         | O => emit (PGuild GuildHangs)
         | S fuel' => for_each (seqZ 0 MAX_BAG_SIZE) (DestroyItem fuel' u slot)
         end) ;;
      emit (PItemRemoved u (item_entry (guilds s) i) (item_count (guilds s) i)) ;;
      in_guilds (modify (on_slots (delete (InBags u (bag_pos bag slot)))) ;;
                 modify (on_item_store (delete i)) ;;
                 in_market (modify (on_inventory (delete i))))
  end).

(** ** The opcode handlers *)

(** A test of a name: what is not valid UTF-8 or too long for the buffer. *)
Definition name_test (c : conv bool) (k : bool -> PM unit) : PM unit :=
  match c with
  | Conv b => k b
  | ConvFailed => k false
  | ConvOverflow => emit (PGuild GuildConversionOverflow)
  end.
Definition IsValidCharterName (name : list Z) : conv bool :=
  match Utf8toWStr name with
  | ConvFailed => Conv false
  | ConvOverflow => ConvOverflow
  | Conv w =>
      let size := Z.of_nat (length w) in
      Conv (if MAX_CHARTER_NAME <? size then false
            else if size <? CONFIG_MIN_CHARTER_NAME v then false
            else isValidString (REALM_ZONE v) w (CONFIG_STRICT_CHARTER_NAMES v) true false)
  end.
(** The name of a charter, when it is bought or renamed. *)
Definition charter_name (u : Z) (name : list Z) (k : PM unit) : PM unit := with_state (fun s =>
  let refuse err := in_guilds (SendCommandResult u GUILD_CREATE_S err name) in
  match GetGuildByName name (guilds s) with
  | Some _ => refuse ERR_GUILD_NAME_EXISTS_S
  | None =>
      name_test (IsReservedName (ReservedNames v) name) (fun reserved =>
        if reserved then refuse ERR_GUILD_NAME_INVALID
        else name_test (IsValidCharterName name) (fun valid => if valid then k else refuse ERR_GUILD_NAME_INVALID))
  end).

Fixpoint skips (n : nat) {A} (m : B A) : B unit :=
  match n with
  | O => bret tt
  | S n' => let? _ := m in skips n' m
  end.
(** The petitioner and the name; the rest is not used. *)
Definition parse_buy : B (Z * list Z) :=
  let? guidNPC := shr_uint 8 in let? _ := read_skip 4 in let? _ := read_skip 8 in
  let? name := shr_string in let? _ := shr_string in
  let? _ := skips 7 (read_skip 4) in let? _ := read_skip 2 in let? _ := skips 3 (read_skip 4) in
  let? _ := skips 10 shr_string in let? _ := shr_uint 4 in let? _ := read_skip 4 in
  bret (guidNPC, name).
Definition SendBuyError (u msg creature entry : Z) : PM unit :=
  guild_send u (Pkt SMSG_BUY_FAILED [FU 8 creature; FU 4 entry; FU 1 msg]).
(** The charters a new one replaces: those of the owner, and one of its own number. *)
Definition invalid_petitions (s : PetitionWorld) (u charter : Z) : list Z :=
  (match t_petition s !! u with Some r => [pt_guid r] | None => [] end) ++ [charter].
(** The item is paid for and made, and the charter entered. *)
Definition buy_charter (u : Z) (name : list Z) (dest : list (Z * Z)) : PM unit :=
  in_guilds (ModifyMoney_guild gv u (minus_int32 GUILD_CHARTER_COST)) ;;
  let! o := StoreNewItem u GUILD_CHARTER dest in
  match o with
  | None => ret tt
  | Some charter =>
      in_guilds (modify (on_item_store (alter (set_enchantment ITEM_FIELD_ENCHANTMENT_1_1 charter) charter))) ;;
      emit (PNewItem u charter 1) ;;
      with_state (fun s =>
        let guids := invalid_petitions s u charter in
        PExecute (DeletePetitions guids) ;;
        PExecute (DeleteSigns guids) ;;
        PExecute (InsertPetition u charter name))
  end.
Definition HandlePetitionBuyOpcode (u : Z) (recv_data : ByteBuffer) : PM unit := with_gplayer u (fun p =>
  when (gp_guildId p =? 0) (precv parse_buy recv_data (fun '(guidNPC, name) =>
    match petitioner_near v u guidNPC with
    | Some true =>
        when (has_UNIT_STAT_DIED (mv gv) u) (emit (PGuild (GuildRemoveFeignDeath u))) ;;
        charter_name u name (with_state (fun s =>
          match proto_BuyCount v GUILD_CHARTER with
          | None => SendBuyError u BUY_ERR_CANT_FIND_ITEM 0 GUILD_CHARTER
          | Some n =>
              if negb (HasEnough (guilds s) u GUILD_CHARTER_COST) then SendBuyError u BUY_ERR_NOT_ENOUGHT_MONEY guidNPC GUILD_CHARTER
              else
                let '(msg, dest) := CanStoreNewItem_at v (guilds s) u GUILD_CHARTER n in
                if negb (msg =? EQUIP_ERR_OK) then SendBuyError u msg guidNPC GUILD_CHARTER
                else buy_charter u name dest
          end))
    | _ => ret tt
    end))).

Definition signatures_packet (s : PetitionWorld) (guid u : Z) : packet :=
  let low := GUID_LOPART guid in
  Pkt SMSG_PETITION_SHOW_SIGNATURES
    ([FU 8 guid; FU 8 u; FU 4 low; FU 1 (sign_count s low)] ++
     concat ((fun p => [FU 8 p; FU 4 0]) <$> take (Z.to_nat (sign_count s low)) (sign_list s low))).
Definition HandlePetitionShowSignOpcode (u : Z) (recv_data : ByteBuffer) : PM unit := with_gplayer u (fun p =>
  when (gp_guildId p =? 0) (precv (shr_uint 8) recv_data (fun guid => with_state (fun s =>
    guild_send u (signatures_packet s guid u))))).
Definition HandlePetitionQueryOpcode (u : Z) (recv_data : ByteBuffer) : PM unit :=
  precv (let? _ := shr_uint 4 in shr_uint 8) recv_data (SendPetitionQueryOpcode u).
Definition HandlePetitionRenameOpcode (u : Z) (recv_data : ByteBuffer) : PM unit :=
  precv (let? guid := shr_uint 8 in let? name := shr_string in bret (guid, name)) recv_data (fun '(guid, name) =>
    with_state (fun s =>
      match GetItemByGuid (guilds s) u guid with
      | None => ret tt
      | Some _ => charter_name u name
          (PExecute (SetPetitionName (GUID_LOPART guid) name) ;;
           guild_send u (Pkt MSG_PETITION_RENAME [FU 8 guid; FStr name]))
      end)).

Definition sign_results (guid u result : Z) : packet := Pkt SMSG_PETITION_SIGN_RESULTS [FU 8 guid; FU 8 u; FU 4 result].
(** To the signer and the owner. *)
Definition send_sign_results (u owner guid result : Z) : PM unit :=
  guild_send u (sign_results guid u result) ;; send_owner owner (sign_results guid u result).
(** Whether an account has signed. *)
Definition account_signed (s : PetitionWorld) (guid account : Z) : bool :=
  existsb (fun p => sg_account p.2 =? account) (hash_list (signers s guid)).
Definition HandlePetitionSignOpcode (u : Z) (recv_data : ByteBuffer) : PM unit := with_gplayer u (fun p =>
  precv (let? guid := shr_uint 8 in let? _ := shr_uint 1 in bret guid) recv_data (fun guid =>
    let low := GUID_LOPART guid in
    with_petition low (fun owner _ => with_state (fun s =>
      if owner =? u then ret tt
      else if negb (CONFIG_ALLOW_TWO_SIDE_INTERACTION_GUILD gv) && negb (team_of (mv gv) u =? GetPlayerTeamByGUID gv owner) then
        in_guilds (SendCommandResult u GUILD_CREATE_S ERR_GUILD_NOT_ALLIED [])
      else if negb (gp_guildId p =? 0) then in_guilds (SendCommandResult u GUILD_INVITE_S ERR_ALREADY_IN_GUILD_S (GetName gv u))
      else if negb (gp_guildIdInvited p =? 0) then
        in_guilds (SendCommandResult u GUILD_INVITE_S ERR_ALREADY_INVITED_TO_GUILD_S (GetName gv u))
      else if 9 <? u8 (sign_count s low + 1) then ret tt
      else if account_signed s low (account_of (mv gv) u) then send_sign_results u owner guid PETITION_SIGN_ALREADY_SIGNED
      else
        PExecute (InsertSign owner low u (account_of (mv gv) u)) ;;
        send_sign_results u owner guid PETITION_SIGN_OK)))).
Definition HandlePetitionDeclineOpcode (u : Z) (recv_data : ByteBuffer) : PM unit :=
  precv (shr_uint 8) recv_data (fun guid => with_petition (GUID_LOPART guid) (fun owner _ =>
    send_owner owner (Pkt MSG_PETITION_DECLINE [FU 8 u]))).
Definition HandleOfferPetitionOpcode (u : Z) (recv_data : ByteBuffer) : PM unit :=
  precv (let? _ := shr_uint 4 in let? guid := shr_uint 8 in let? to := shr_uint 8 in bret (guid, to)) recv_data
    (fun '(guid, to) => with_state (fun s =>
      match FindPlayer (guilds s) to with
      | None => ret tt
      | Some q =>
          if negb (CONFIG_ALLOW_TWO_SIDE_INTERACTION_GUILD gv) && negb (team_of (mv gv) u =? team_of (mv gv) to) then
            in_guilds (SendCommandResult u GUILD_CREATE_S ERR_GUILD_NOT_ALLIED [])
          else if negb (gp_guildId q =? 0) then in_guilds (SendCommandResult u GUILD_INVITE_S ERR_ALREADY_IN_GUILD_S (GetName gv u))
          else if negb (gp_guildIdInvited q =? 0) then
            in_guilds (SendCommandResult u GUILD_INVITE_S ERR_ALREADY_INVITED_TO_GUILD_S (GetName gv u))
          else guild_send to (signatures_packet s guid u)
      end)).

Definition turn_in_result (u result : Z) : PM unit := guild_send u (Pkt SMSG_TURN_IN_PETITION_RESULTS [FU 4 result]).
(** The guild is founded, the signers join, and the charter is forgotten. *)
Definition found_by_charter (u low : Z) (name : list Z) (signs : list Z) : PM unit :=
  let! o := in_guilds (CreateGuild gv u name) in
  match o with
  | None => ret tt
  | Some g =>
      for_each signs (fun w => in_guilds (AddMember gv g w GUILD_RANK_NONE) ;; ret tt) ;;
      PExecute (DeletePetitions [low]) ;;
      PExecute (DeleteSigns [low]) ;;
      turn_in_result u PETITION_TURN_OK
  end.
Definition HandleTurnInPetitionOpcode (u : Z) (recv_data : ByteBuffer) : PM unit := with_gplayer u (fun p =>
  precv (shr_uint 8) recv_data (fun guid =>
    let low := GUID_LOPART guid in
    with_petition low (fun owner r => with_state (fun s =>
      if negb (gp_guildId p =? 0) then turn_in_result u PETITION_TURN_ALREADY_IN_GUILD
      else if negb (u =? owner) then ret tt
      else if sign_count s low <? CONFIG_MIN_PETITION_SIGNS v then turn_in_result u PETITION_TURN_NEED_MORE_SIGNATURES
      else match GetGuildByName (pt_name r) (guilds s) with
      | Some _ => in_guilds (SendCommandResult u GUILD_CREATE_S ERR_GUILD_NAME_EXISTS_S (pt_name r))
      | None =>
          match GetItemByGuid (guilds s) u guid with
          | None => ret tt
          | Some (bag, slot, _) =>
              DestroyItem 1 u bag slot ;;
              found_by_charter u low (pt_name r) (take (Z.to_nat (sign_count s low)) (sign_list s low))
          end
      end)))).
Definition HandlePetitionShowListOpcode (u : Z) (recv_data : ByteBuffer) : PM unit :=
  precv (shr_uint 8) recv_data (fun guid =>
    match petitioner_near v u guid with
    | None => ret tt
    | Some _ =>
        when (has_UNIT_STAT_DIED (mv gv) u) (emit (PGuild (GuildRemoveFeignDeath u))) ;;
        guild_send u (Pkt SMSG_PETITION_SHOWLIST
          [FU 8 guid; FU 1 1; FU 4 1; FU 4 GUILD_CHARTER; FU 4 CHARTER_DISPLAY_ID; FU 4 GUILD_CHARTER_COST; FU 4 0; FU 4 9])
    end).

(** ** The steps of the server *)

Inductive petition_opcode :=
| CMSG_PETITION_SHOWLIST | CMSG_PETITION_BUY | CMSG_PETITION_SHOW_SIGNATURES | CMSG_PETITION_SIGN | MSG_PETITION_DECLINE_IN
| CMSG_OFFER_PETITION | CMSG_TURN_IN_PETITION | CMSG_PETITION_QUERY | MSG_PETITION_RENAME_IN.
Definition handle_petition (u : Z) (op : petition_opcode) (data : ByteBuffer) : PM unit :=
  match op with
  | CMSG_PETITION_SHOWLIST => HandlePetitionShowListOpcode u data
  | CMSG_PETITION_BUY => HandlePetitionBuyOpcode u data
  | CMSG_PETITION_SHOW_SIGNATURES => HandlePetitionShowSignOpcode u data
  | CMSG_PETITION_SIGN => HandlePetitionSignOpcode u data
  | MSG_PETITION_DECLINE_IN => HandlePetitionDeclineOpcode u data
  | CMSG_OFFER_PETITION => HandleOfferPetitionOpcode u data
  | CMSG_TURN_IN_PETITION => HandleTurnInPetitionOpcode u data
  | CMSG_PETITION_QUERY => HandlePetitionQueryOpcode u data
  | MSG_PETITION_RENAME_IN => HandlePetitionRenameOpcode u data
  end.
(** A packet about charters, or a step of the guilds; the charters and signatures of a
    character who is deleted go as well. *)
Inductive petition_step :=
| PetitionPacketIn (u : Z) (op : petition_opcode) (data : ByteBuffer)
| InGuilds (st : guild_step).
Definition run_petition_step (st : petition_step) : PM unit :=
  match st with
  | PetitionPacketIn u op data => with_state (fun s =>
      when (bool_decide (is_Some (FindPlayer (guilds s) u))) (handle_petition u op data))
  | InGuilds st =>
      in_guilds (run_guild_step gv st) ;;
      match st with
      | GuildCharDelete guid => RemovePetitionsAndSigns_of guid None
      | _ => ret tt
      end
  end.
End petitions.
