(* ===== verification/PetitionRuns.v ===== *)
(** * Guild charters: theorems

    What turning in a charter does to the rosters of [GuildRoster], and what holds of
    signatures over every run. *)
From Stdlib Require Import SpecFloat.
From S2P Require Import Prelude Text ByteBuffer Mail Market MarketSpec MarketRuns Guild GuildBank GuildHandler GuildSample.
From S2P Require Import GuildCore GuildGold GuildStock GuildRoster Petition.

(** ** Programs of guilds and charters *)

Section charters.
Context `{!Utf8Lib} `{!HashOrder} (v : PetitionView).
Implicit Types s : PetitionWorld.
#[local] Abbreviation gv := (gvw v).

Lemma guilds_PExecute st : frames guilds (PExecute st).
Proof. intros s. by destruct st. Qed.
Lemma guilds_send u p : frames guilds (guild_send u p).
Proof. by intros s. Qed.
Hint Resolve guilds_PExecute guilds_send : runs.
Lemma guilds_replay e : frames guilds (replay e).
Proof.
  destruct e; try by intros s. cbn [replay]. unfold RemovePetitionsAndSigns_of, SendPetitionQueryOpcode, with_petition. runs_through.
Qed.
Hint Resolve guilds_replay : runs.
Lemma rs_run_in_guilds {A} (m : GM A) s : run_state (run_in_guilds m) s = set_guilds (run_state m (guilds s)) s.
Proof. unfold run_in_guilds, run_state. by destruct (m (guilds s)) as [[a w] l]. Qed.
Lemma rv_run_in_guilds {A} (m : GM A) s : run_value (run_in_guilds m) s = (run_value m (guilds s), run_log m (guilds s)).
Proof. unfold run_in_guilds, run_value, run_log. by destruct (m (guilds s)) as [[a w] l]. Qed.
Lemma guilds_in_guilds {A} (m : GM A) s : guilds (run_state (in_guilds m) s) = run_state m (guilds s).
Proof.
  unfold in_guilds. rewrite run_state_bind, rv_run_in_guilds, rs_run_in_guilds, run_state_bind, rs_ret.
  assert (Hl : frames guilds (for_each (run_log m (guilds s)) replay)) by runs_through. by rewrite (Hl _).
Qed.
Lemma rv_in_guilds {A} (m : GM A) s : run_value (in_guilds m) s = run_value m (guilds s).
Proof. unfold in_guilds. by rewrite run_value_bind, rv_run_in_guilds, run_value_bind. Qed.
Lemma in_guilds_frame {A X} (π : GuildWorld -> X) (m : GM A) : frames π m -> frames (fun s => π (guilds s)) (in_guilds m).
Proof. intros Hm s. rewrite guilds_in_guilds. apply Hm. Qed.
End charters.
#[export] Hint Resolve guilds_PExecute guilds_send : runs.

(** ** Somebody who need not be online joins *)

Section admission.
Context `{HO : !HashOrder} `{HL : !HashOrderLaws} (v : GuildView).
Implicit Types s : GuildWorld.
Implicit Types ro : Roster.

(** A player online, or a character with a row that makes sense. *)
Definition can_join ro (w : Z) : bool :=
  bool_decide (is_Some (joining_member v (bool_decide (is_Some (ro_players ro !! w))) w 0)).
Lemma joining_any_rank o w r r' : is_Some (joining_member v o w r) <-> is_Some (joining_member v o w r').
Proof.
  unfold joining_member. destruct o; [by split; eauto|]. destruct (character_row v _) as [[[[[n l] c] z] a]|]; [|tauto].
  assert (E : CheckStats (SetStats_row n l c z a (ResetFlags (new_member v w r))) = CheckStats (SetStats_row n l c z a (ResetFlags (new_member v w r')))) by done.
  rewrite E. destruct (CheckStats _); [by split; eauto | tauto].
Qed.
Lemma joining_core o w r m : joining_member v o w r = Some m -> core_member m = (w, r).
Proof.
  unfold joining_member. destruct o; [by intros [= <-]|]. destruct (character_row v _) as [[[[[n l] c] z] a]|]; [|done].
  destruct (CheckStats _); [by intros [= <-] | done].
Qed.
(** Whether the roster or the rows are asked: he has a guild if he has a row. *)
Lemma guild_asked s w : books (roster s) -> settled (roster s) -> 0 < w < 2 ^ 32 ->
  (match FindPlayer s w with Some p => gp_guildId p | None => GetGuildIdFromDB s w end =? 0) = bool_decide (ro_rows (roster s) !! w = None).
Proof.
  intros Hb Hs Hw. rewrite (settled_FindPlayer s w Hs). unfold GetGuildIdFromDB. rewrite lopart by lia. change (t_guild_member s) with (ro_rows (roster s)).
  assert (Hrow : forall g r, ro_rows (roster s) !! w = Some (mkMemberRow g r) -> 0 < g).
  { intros g r Hr. apply (bk_row _ Hb) in Hr as (x & Hx & _). pose proof (bk_guild _ Hb g x Hx). lia. }
  destruct (players s !! w) as [p|] eqn:Hp.
  - assert (Hq : ro_players (roster s) !! w = Some (core_player p)) by (apply player_lookup; eauto).
    destruct (bk_player _ Hb w _ Hq) as [_ Hk]. cbn in Hk. destruct (ro_rows (roster s) !! w) as [[g r]|] eqn:Hr.
    + rewrite bool_decide_false by done. apply Z.eqb_neq. cbn in Hr. rewrite Hr in Hk. cbn in Hk. specialize (Hrow g r eq_refl). lia.
    + rewrite bool_decide_true by done. apply Z.eqb_eq. cbn in Hr. by rewrite Hr in Hk.
  - destruct (ro_rows (roster s) !! w) as [[g r]|] eqn:Hr.
    + rewrite bool_decide_false by done. apply Z.eqb_neq. specialize (Hrow g r eq_refl). cbn. lia.
    + by rewrite bool_decide_true.
Qed.
Lemma enrol_offline g w r ro : ro_rows ro !! w = None -> ro_players ro !! w = None ->
  on_rows (fun t => match t !! w with None => <[w := mkMemberRow g r]> t | Some _ => t end)
    (on_guild g (with_members (insert w (w, r))) ro) = enrol g w (Some r) ro.
Proof.
  intros Hr Hp. unfold on_rows, on_guild, enrol. cbn. rewrite Hr. f_equal. apply map_eq. intros j.
  destruct (decide (j = w)) as [->|Hne]; [by rewrite lookup_alter_eq, Hp | by rewrite lookup_alter_ne by congruence].
Qed.
Lemma roster_AddMember_offline g w s x : settled (roster s) -> GuildStore s !! g = Some x -> 0 < w < 2 ^ 32 ->
  ro_players (roster s) !! w = None -> ro_rows (roster s) !! w = None -> can_join (roster s) w = true ->
  roster (run_state (AddMember v g w GUILD_RANK_NONE) s) = enrol g w (Some (_GetLowestRankId x)) (roster s).
Proof.
  intros Hs Hx Hw Hp Hr Hj. rewrite <- enrol_offline by done.
  assert (Hf : FindPlayer s w = None).
  { rewrite (settled_FindPlayer s w Hs). cbn in Hp. rewrite lookup_fmap in Hp. by destruct (players s !! w). }
  unfold AddMember, with_guild. rewrite rs_with_state, Hx, rs_with_state, Hf. unfold GetGuildIdFromDB. rewrite lopart by lia.
  change (t_guild_member s) with (ro_rows (roster s)). rewrite Hr. change (negb (0 =? 0)) with false. cbn iota.
  rewrite Z.eqb_refl, run_state_bind, rs_emit. rewrite bool_decide_false by (by intros [? [=]]).
  unfold can_join in Hj. rewrite Hp, (bool_decide_false (is_Some None)) in Hj by (by intros [? [=]]). apply bool_decide_eq_true in Hj.
  apply (joining_any_rank _ _ _ (_GetLowestRankId x)) in Hj as [m Hm]. rewrite Hm.
  pose proof (joining_core _ _ _ _ Hm) as Ec. injection Ec as Eg Er.
  rewrite !run_state_bind, rs_ret, rs_emit. rewrite (roster_frame (_UpdateAccountsNumber g)) by auto with runs.
  unfold when at 1. rewrite rs_ret. unfold insert_member_row. rewrite Eg, Er, lopart, act_InsertMember by lia. f_equal.
  rewrite (roster_frame (with_state _)) by runs_through. rewrite act_member_in. unfold core_member. rewrite Eg, Er. unfold when. by rewrite rs_ret.
Qed.
Lemma roster_AddMember_any g w s x : books (roster s) -> settled (roster s) -> GuildStore s !! g = Some x -> 0 < w < 2 ^ 32 ->
  roster (run_state (AddMember v g w GUILD_RANK_NONE) s) =
  if bool_decide (ro_rows (roster s) !! w = None) && can_join (roster s) w then enrol g w (Some (_GetLowestRankId x)) (roster s) else roster s.
Proof.
  intros Hb Hs Hx Hw. pose proof (guild_asked s w Hb Hs Hw) as Ha.
  destruct (bool_decide_reflect (ro_rows (roster s) !! w = None)) as [Hr|Hr]; cbn [andb]; cycle 1.
  { unfold AddMember, with_guild. by rewrite rs_with_state, Hx, rs_with_state, Ha. }
  destruct (ro_players (roster s) !! w) as [q|] eqn:Hq.
  - pose proof Hq as (p & Hp & ->)%player_lookup. rewrite (settled_FindPlayer s w Hs), Hp in Ha. apply Z.eqb_eq in Ha.
    assert (Hj : can_join (roster s) w = true) by (unfold can_join; by rewrite Hq, bool_decide_true by done).
    rewrite Hj. erewrite roster_AddMember; [|done..]. unfold joins_as. by rewrite Z.eqb_refl.
  - destruct (can_join (roster s) w) eqn:Hj; [by apply roster_AddMember_offline|].
    assert (Hf : FindPlayer s w = None).
    { rewrite (settled_FindPlayer s w Hs). cbn in Hq. rewrite lookup_fmap in Hq. by destruct (players s !! w). }
    unfold AddMember, with_guild. rewrite rs_with_state, Hx, rs_with_state. rewrite Hf in Ha |- *. rewrite Ha. cbn [negb].
    rewrite Z.eqb_refl, run_state_bind, rs_emit, bool_decide_false by (by intros [? [=]]).
    unfold can_join in Hj. rewrite Hq, (bool_decide_false (is_Some None)) in Hj by (by intros [? [=]]). apply bool_decide_eq_false in Hj.
    destruct (joining_member v false w (_GetLowestRankId x)) as [m|] eqn:Hm; [|by rewrite rs_ret].
    destruct Hj. apply (joining_any_rank _ _ _ (_GetLowestRankId x)). by eauto.
Qed.
End admission.

(** *** The signers join *)

Section admitting.
Context `{!Utf8Lib} `{HO : !HashOrder} `{HL : !HashOrderLaws} (v : PetitionView).
Implicit Types ro : Roster.
#[local] Abbreviation gv := (gvw v).

Definition admits ro (w : Z) : bool := bool_decide (ro_rows ro !! w = None) && can_join gv ro w.
Definition admit_one (g r w : Z) ro : Roster := if admits ro w then enrol g w (Some r) ro else ro.
Definition admit_all (g r : Z) (ws : list Z) ro : Roster := foldl (fun ro w => admit_one g r w ro) ro ws.

Lemma can_join_enrol g w o ro w' : can_join gv (enrol g w o ro) w' = can_join gv ro w'.
Proof.
  unfold can_join. assert (E : bool_decide (is_Some (ro_players (enrol g w o ro) !! w')) = bool_decide (is_Some (ro_players ro !! w')))
    by (apply bool_decide_ext; cbn; apply lookup_alter_is_Some). by rewrite E.
Qed.
Lemma good_admit_one g r w ro x : good ro -> ro_guilds ro !! g = Some x -> 0 < w < 2 ^ 32 -> 1 <= r < 10 -> good (admit_one g r w ro).
Proof.
  intros [Ho Hs] Hx Hw Hr. unfold admit_one, admits. destruct (bool_decide_reflect (ro_rows ro !! w = None)) as [Hn|]; [|done].
  destruct (can_join gv ro w); [|done]. cbn [andb]. split; [|by apply settled_enrol].
  eapply ordered_enrol; [done | exact Hx | done | by intros row; rewrite Hn | | by intros r' [= <-]].
  intros ->. destruct (proj2 Ho g x Hx) as [L1 _ _]. destruct (member_row _ g x _ _ _ (proj1 Ho) Hx L1) as [_ Hrow]. congruence.
Qed.
(** One more member, if he may join. *)
Lemma admit_one_guild g r w ro x : ro_guilds ro !! g = Some x ->
  exists x', ro_guilds (admit_one g r w ro) !! g = Some x' /\ rg_leader x' = rg_leader x /\ rg_ranks x' = rg_ranks x /\
    forall w' u' r', rg_members x' !! w' = Some (u', r') <->
      if admits ro w then (w' = w /\ u' = w /\ r' = r) \/ (w' <> w /\ rg_members x !! w' = Some (u', r')) else rg_members x !! w' = Some (u', r').
Proof.
  intros Hx. unfold admit_one. destruct (admits ro w); [|by exists x].
  exists (with_members (partial_alter (fun _ => pair w <$> Some r) w) x). split; [by apply enrol_here|]. split_and!; [done..|].
  intros w' u' r'. cbn [with_members rg_members]. rewrite members_enrolled. naive_solver.
Qed.
Lemma admit_one_others g r w ro g' : g' <> g -> ro_guilds (admit_one g r w ro) !! g' = ro_guilds ro !! g'.
Proof. intros Hne. unfold admit_one. destruct (admits ro w); [by apply enrol_others | done]. Qed.
Lemma admits_later g r w ro w' : admits (admit_one g r w ro) w' = admits ro w' && negb (bool_decide (w' = w) && admits ro w).
Proof.
  unfold admit_one. destruct (admits ro w) eqn:Hw; [|by rewrite andb_false_r, andb_true_r]. unfold admits at 1. rewrite can_join_enrol. cbn.
  destruct (decide (w' = w)) as [->|Hne].
  - rewrite lookup_partial_alter_eq, (bool_decide_true (w = w)) by done. cbn. by rewrite andb_false_r.
  - rewrite lookup_partial_alter_ne, (bool_decide_false (w' = w)) by done. cbn. by rewrite andb_true_r.
Qed.
Lemma admit_all_spec g r ws ro x : good ro -> ro_guilds ro !! g = Some x -> Forall (fun w => 0 < w < 2 ^ 32) ws -> 1 <= r < 10 ->
  good (admit_all g r ws ro) /\ (forall g', g' <> g -> ro_guilds (admit_all g r ws ro) !! g' = ro_guilds ro !! g') /\
  exists x', ro_guilds (admit_all g r ws ro) !! g = Some x' /\ rg_leader x' = rg_leader x /\ rg_ranks x' = rg_ranks x /\
    forall w u' r', rg_members x' !! w = Some (u', r') <->
      rg_members x !! w = Some (u', r') \/ (u' = w /\ r' = r /\ w ∈ ws /\ admits ro w = true).
Proof.
  intros Hg Hx Hws Hr. revert ro x Hg Hx. induction Hws as [|w ws Hw Hws IH]; intros ro x Hg Hx.
  { split; [done|]. split; [done|]. exists x. split_and!; [done..|]. intros w u' r'. rewrite elem_of_nil. tauto. }
  destruct (admit_one_guild g r w ro x Hx) as (x1 & Hx1 & L1 & R1 & M1). pose proof (good_admit_one g r w ro x Hg Hx Hw Hr) as Hg1.
  destruct (IH _ x1 Hg1 Hx1) as (H1 & H2 & x' & Hx' & L' & R' & M'). split; [exact H1|]. split.
  - intros g' Hne. cbn [admit_all foldl]. change (foldl _ ?a ws) with (admit_all g r ws a). by rewrite H2, admit_one_others.
  - exists x'. split; [exact Hx'|]. split; [congruence|]. split; [congruence|]. intros w' u' r'.
    rewrite M', M1, admits_later, elem_of_cons, andb_true_iff, negb_true_iff, andb_false_iff, bool_decide_eq_false.
    assert (Hnm : admits ro w' = true -> forall q, rg_members x !! w' = Some q -> False).
    { intros Ha [z r0] Hq. apply andb_true_iff in Ha as [Ha _]. apply bool_decide_eq_true in Ha.
      destruct (member_row ro g x w' z r0 (proj1 (proj1 Hg)) Hx Hq) as [_ Hrow]. congruence. }
    destruct (decide (w' = w)) as [->|Hne]; [|destruct (admits ro w); intuition congruence].
    destruct (admits ro w) eqn:Haw; [|intuition congruence].
    assert (Hn : ~ rg_members x !! w = Some (u', r')) by (intros Hq; by apply (Hnm eq_refl _ Hq)). intuition congruence.
Qed.
End admitting.

(** ** Turning in a charter *)

Section slots_kept.
Context `{HO : !HashOrder} (gv : GuildView).
Hint Extern 3 (runs (fun s s' => slots s' = slots s) (modify _)) => (intros ?; reflexivity) : runs.
Hint Extern 3 (runs (fun s s' => slots s' = slots s) (upd_guild _ _)) => (intros ?; reflexivity) : runs.
Hint Extern 3 (runs (fun s s' => slots s' = slots s) (upd_player _ _)) => (intros ?; reflexivity) : runs.
Lemma slots_of_core {A} (m : GM A) : frames core m -> frames slots m.
Proof. intros Hm s. specialize (Hm s). apply (f_equal (fun c => (c_items c).1.2)) in Hm. exact Hm. Qed.
Hint Extern 6 (runs (fun s s' => slots s' = slots s) _) => (apply slots_of_core; solve [auto 2 with runs nocore]) : runs.
Lemma slots_AddMember g w r : frames slots (AddMember gv g w r).
Proof. unfold AddMember, insert_member_row, SetInGuild. runs_through. Qed.
Hint Resolve slots_AddMember : runs.
Lemma slots_CreateGuild u name : frames slots (CreateGuild gv u name).
Proof. unfold CreateGuild, GenerateGuildId, _CreateDefaultGuildRanks, _CreateRank. runs_through. Qed.

End slots_kept.

(** The names of the guilds. *)
Definition guild_names (s : GuildWorld) : gmap Z (list Z) := m_name <$> GuildStore s.

Section names_kept.
Context `{HO : !HashOrder} (gv : GuildView).
Lemma names_upd_guild g f : (forall x, m_name (f x) = m_name x) -> frames guild_names (upd_guild g f).
Proof. intros Hf. apply runs_modify. intros s. by apply fmap_alter_same. Qed.
Hint Extern 2 (runs (fun s s' => guild_names s' = guild_names s) (upd_guild _ _)) =>
  (apply names_upd_guild; intros ?; reflexivity) : runs.
Hint Extern 2 (runs (fun s s' => guild_names s' = guild_names s) (upd_player _ _)) => (intros ?; reflexivity) : runs.
Lemma names_HandleRoster o g : frames guild_names (HandleRoster gv o g).
Proof. unfold HandleRoster, SendUpdateRoster, SendGuildRankInfo, send_to, BroadcastPacket, send_members. runs_through. Qed.
Hint Resolve names_HandleRoster : runs.
Lemma names_AddMember g w r : frames guild_names (AddMember gv g w r).
Proof. unfold AddMember, insert_member_row, SetInGuild, learn_perks, _UpdateAccountsNumber. runs_through. Qed.
Lemma names_DefaultRanks g l : frames guild_names (_CreateDefaultGuildRanks gv g l).
Proof. unfold _CreateDefaultGuildRanks, _CreateRank. runs_through. Qed.

(** A guild that is founded has the name that was asked for. *)
Lemma names_CreateGuild u name s g : run_value (CreateGuild gv u name) s = Some g ->
  guild_names (run_state (CreateGuild gv u name) s) = <[g := name]> (guild_names s).
Proof.
  unfold CreateGuild. rewrite rv_with_state, rs_with_state. destruct (GetGuildByName name s); [discriminate|].
  destruct (GenerateGuildId_runs s) as [Eg E0]. rewrite run_state_bind, run_value_bind, Eg, E0, 2!run_state_bind, 2!run_value_bind.
  set (s2 := run_state (Execute (DeleteMembers _)) _).
  assert (E2 : guild_names s2 = <[NextGuildId s := name]> (guild_names s)) by apply fmap_insert. clearbody s2.
  rewrite run_state_bind, run_value_bind. set (s3 := run_state (Execute (InsertGuild _ _ _ _ _ _ _ _ _ _ _)) s2).
  assert (E3 : guild_names s3 = guild_names s2) by done. clearbody s3.
  rewrite run_state_bind, run_value_bind, rs_emit, run_state_bind, run_value_bind.
  set (s4 := run_state (_CreateDefaultGuildRanks gv _ _) s3).
  assert (E4 : guild_names s4 = guild_names s3) by apply names_DefaultRanks. clearbody s4.
  rewrite run_state_bind, run_value_bind. destruct (run_value (AddMember _ _ _ _) s4); [|rewrite run_value_bind; discriminate].
  rewrite run_state_bind, run_value_bind, rs_emit, rs_ret. intros [= <-]. rewrite (names_AddMember _ _ _ s4). congruence.
Qed.
End names_kept.

Section turning_in.
Context `{!Utf8Lib} `{HO : !HashOrder} `{HL : !HashOrderLaws} (v : PetitionView).
Implicit Types s : PetitionWorld.
#[local] Abbreviation gv := (gvw v).

Lemma signers_join g ws s x : good (roster (guilds s)) -> ro_guilds (roster (guilds s)) !! g = Some x -> rg_ranks x = 5%nat ->
  Forall (fun w => 0 < w < 2 ^ 32) ws ->
  roster (guilds (run_state (for_each ws (fun w => in_guilds (AddMember gv g w GUILD_RANK_NONE) ;; ret tt)) s)) =
  admit_all v g 4 ws (roster (guilds s)).
Proof.
  intros Hg Hx H5 Hws. revert s x Hg Hx H5. induction Hws as [|w ws Hw Hws IH]; intros s x Hg Hx H5; [done|].
  cbn [for_each]. rewrite !run_state_bind, rs_ret. set (s1 := run_state (in_guilds _) s).
  assert (E1 : roster (guilds s1) = admit_one v g 4 w (roster (guilds s))).
  { unfold s1. rewrite guilds_in_guilds. pose proof Hx as (y & Hy & ->)%roster_lookup.
    rewrite (roster_AddMember_any gv g w _ y) by (apply Hg || done).
    assert (El : _GetLowestRankId y = 4) by (cbn in H5; unfold _GetLowestRankId; by rewrite H5). by rewrite El. }
  destruct (admit_one_guild v g 4 w _ x Hx) as (x1 & Hx1 & _ & R1 & _). cbn [admit_all foldl]. rewrite <- E1 in Hx1 |- *.
  apply (IH s1 x1); [rewrite E1; by eapply good_admit_one | exact Hx1 | congruence].
Qed.

Lemma found_item (w : GuildWorld) u guid bag slot i : GetItemByGuid w u guid = Some (bag, slot, i) -> GetItemByPos w u bag slot = Some i.
Proof.
  unfold GetItemByGuid. intros Hh. apply head_Some_elem_of, list_elem_of_omap in Hh as ([b sl] & _ & Hi).
  destruct (GetItemByPos w u b sl) as [j|] eqn:Ej; [|done]. destruct (_ =? _); [|done]. by injection Hi as -> -> ->.
Qed.
Lemma petition_gone s low : t_petition s = filter (fun p => pt_guid p.2 ∉ [low]) (t_petition s) -> petition_of s low = None.
Proof.
  intros Ht. unfold petition_of. destruct (head _) as [q|] eqn:E; [exfalso|done]. apply head_Some_elem_of, list_elem_of_filter in E as [E Hq].
  apply in_hash_order in Hq. rewrite Ht in Hq. apply map_lookup_filter_Some in Hq as [_ Hn]. apply Hn. cbn. rewrite E. left.
Qed.

(** What is asked of a charter that is turned in. *)
Record charter_ready s (u guid : Z) (p : GuildPlayer) (row : PetitionRow) (bag slot i : Z) : Prop := {
  cr_player : players (guilds s) !! u = Some p;
  cr_free : gp_guildId p = 0;
  cr_petition : petition_of s (GUID_LOPART guid) = Some (u, row);
  cr_signs : CONFIG_MIN_PETITION_SIGNS v <= Z.of_nat (size (signers s (GUID_LOPART guid))) < 256;
  cr_range : forall w r, signers s (GUID_LOPART guid) !! w = Some r -> 0 < w < 2 ^ 32;
  cr_name : GetGuildByName (pt_name row) (guilds s) = None;
  cr_item : GetItemByGuid (guilds s) u guid = Some (bag, slot, i);
  cr_plain : bag_is_filled gv i = false;
  cr_number : NextGuildId (guilds s) + 1 < 2 ^ 32
}.
Lemma signers_listed s low : sign_count s low = Z.of_nat (size (signers s low)) ->
  forall w, w ∈ take (Z.to_nat (sign_count s low)) (sign_list s low) <-> is_Some (signers s low !! w).
Proof.
  intros Ec w. assert (El : length (sign_list s low) = size (signers s low)).
  { unfold sign_list. rewrite length_fmap, (Permutation_length (hash_list_perm _ _)). apply length_map_to_list. }
  rewrite Ec, Nat2Z.id, <- El, firstn_all. unfold sign_list. rewrite list_elem_of_fmap. split.
  - intros ([w' r] & -> & Hin). apply in_hash_order in Hin. by eauto.
  - intros [r Hr]. exists (w, r). split; [done|]. rewrite hash_list_perm. by apply elem_of_map_to_list.
Qed.

(** What [AddMember] keeps is kept when the signers are added. *)
Lemma signers_frame {B} (π : GuildWorld -> B) g ws :
  (forall g w r, frames π (AddMember gv g w r)) ->
  frames (fun s => π (guilds s)) (for_each ws (fun w => in_guilds (AddMember gv g w GUILD_RANK_NONE) ;; ret tt)).
Proof.
  intros Hf. apply runs_for_each; [exact _|]. intros w.
  apply runs_bind; [exact _ | apply in_guilds_frame, Hf | intros b; apply runs_ret, _].
Qed.

(** The charter goes first. *)
Lemma charter_destroyed s u bag slot i : GetItemByPos (guilds s) u bag slot = Some i -> bag_is_filled gv i = false ->
  let s' := run_state (DestroyItem v 1 u bag slot) s in
  roster (guilds s') = roster (guilds s) /\ players (guilds s') = players (guilds s) /\ GuildStore (guilds s') = GuildStore (guilds s) /\
  slots (guilds s') = delete (InBags u (bag_pos bag slot)) (slots (guilds s)).
Proof.
  intros Hi Hb. cbn [DestroyItem]. rewrite rs_with_state, Hi, Hb. unfold when. rewrite !run_state_bind, rs_ret, rs_emit.
  cbv zeta. rewrite guilds_in_guilds, !run_state_bind, !rs_modify, rs_in_market. done.
Qed.
Lemma founded_by_charter s u low name ws p : good (roster (guilds s)) -> players (guilds s) !! u = Some p -> gp_guildId p = 0 ->
  NextGuildId (guilds s) + 1 < 2 ^ 32 -> GetGuildByName name (guilds s) = None -> Forall (fun w => 0 < w < 2 ^ 32) ws ->
  let s' := run_state (found_by_charter v u low name ws) s in
  roster (guilds s') = admit_all v (NextGuildId (guilds s)) 4 ws (found u (roster (guilds s))) /\
  petition_of s' low = None /\ signers s' low = ∅ /\ slots (guilds s') = slots (guilds s) /\
  guild_names (guilds s') = <[NextGuildId (guilds s) := name]> (guild_names (guilds s)).
Proof.
  intros [Ho Hs] Hp H0 Hn Hname Hws. destruct (CreateGuild_founds gv u name (guilds s) p (proj1 Ho) Hs Hp H0 Hn Hname) as [Er Ev].
  unfold found_by_charter. cbv zeta. rewrite run_state_bind, rv_in_guilds, Ev. set (s1 := run_state (in_guilds (CreateGuild gv u name)) s).
  assert (E1 : roster (guilds s1) = found u (roster (guilds s))) by (unfold s1; by rewrite guilds_in_guilds).
  assert (L1 : slots (guilds s1) = slots (guilds s)) by (unfold s1; rewrite guilds_in_guilds; apply slots_CreateGuild).
  assert (N1 : guild_names (guilds s1) = <[NextGuildId (guilds s) := name]> (guild_names (guilds s))).
  { unfold s1. rewrite guilds_in_guilds. by apply names_CreateGuild. }
  clearbody s1. rewrite run_state_bind. set (g := NextGuildId (guilds s)) in *. set (s2 := run_state (for_each ws _) s1).
  assert (Hq : ro_players (roster (guilds s)) !! u = Some (core_player p)) by (apply player_lookup; eauto).
  assert (E2 : roster (guilds s2) = admit_all v (NextGuildId (guilds s)) 4 ws (found u (roster (guilds s)))).
  { unfold s2. rewrite <- E1. eapply signers_join; [| | | exact Hws]; rewrite ?E1.
    - split; [by eapply ordered_found | by apply settled_found].
    - apply lookup_insert_eq.
    - done. }
  assert (L2 : slots (guilds s2) = slots (guilds s1)) by exact (signers_frame slots g ws (slots_AddMember gv) s1).
  assert (N2 : guild_names (guilds s2) = guild_names (guilds s1)) by exact (signers_frame guild_names g ws (names_AddMember gv) s1).
  clearbody s2. rewrite !run_state_bind. set (s3 := run_state (PExecute (DeletePetitions [low])) s2).
  split; [exact E2|]. split_and!.
  - apply petition_gone. change (t_petition _) with (filter (fun p => pt_guid p.2 ∉ [low]) (t_petition s2)). rewrite map_filter_filter.
    apply map_filter_ext. intros k r _. tauto.
  - unfold signers. change (t_petition_sign _) with (filter (fun p => p.1 ∉ [low]) (t_petition_sign s2)).
    rewrite map_lookup_filter_None_2; [done|]. right. intros l _ Hl. apply Hl. left.
  - change (slots (guilds s2) = slots (guilds s)). by rewrite L2.
  - change (guild_names (guilds s2) = <[NextGuildId (guilds s) := name]> (guild_names (guilds s))). by rewrite N2.
Qed.

Lemma admits_found u ro w : admits v (found u ro) w = negb (bool_decide (w = u)) && admits v ro w.
Proof.
  rewrite <- enrol_founder. unfold admits. rewrite can_join_enrol. cbn. destruct (decide (w = u)) as [->|Hne].
  - by rewrite lookup_partial_alter_eq, (bool_decide_true (u = u)).
  - by rewrite lookup_partial_alter_ne, (bool_decide_false (w = u)).
Qed.

(** C8: a charter that is turned in founds the guild it names: with the signatures it
    takes, a free name, the charter in the bags and its owner in no guild, afterwards
    there is one guild more, with the name of the charter, the others keep their names,
    and the owner leads it; its other members are exactly the signers who were in
    no guild and whose character can be read, all with the lowest of five ranks; the
    other guilds keep their rosters, which are in order again ([ordered]); the charter
    is gone from the bags, and its row and its signatures from the tables. *)
Theorem petition_turned_in u data guid p row bag slot i s : ordered (roster (guilds s)) -> settled (roster (guilds s)) ->
  (shr_uint 8 data).1 = Ok guid -> charter_ready s u guid p row bag slot i ->
  let s' := run_state (HandleTurnInPetitionOpcode v u data) s in
  let ro := roster (guilds s) in
  let ro' := roster (guilds s') in
  let low := GUID_LOPART guid in
  ordered ro' /\
  guild_names (guilds s') = <[NextGuildId (guilds s) := pt_name row]> (guild_names (guilds s)) /\
  (exists x, ro_guilds ro' !! NextGuildId (guilds s) = Some x /\ rg_leader x = u /\ rg_ranks x = 5%nat /\
     forall w u' r, rg_members x !! w = Some (u', r) <->
       u' = w /\ ((w = u /\ r = 0) \/
                  (w <> u /\ is_Some (signers s low !! w) /\ ro_rows ro !! w = None /\ can_join gv ro w = true /\ r = 4))) /\
  (forall g, g <> NextGuildId (guilds s) -> ro_guilds ro' !! g = ro_guilds ro !! g) /\
  slots (guilds s') !! InBags u (bag_pos bag slot) = None /\ petition_of s' low = None /\ signers s' low = ∅.
Proof.
  intros Ho Hs Hd [Hp H0 Hpet Hsig Hrange Hname Hitem Hplain Hn] s' ro ro' low. change (GUID_LOPART guid) with low in Hsig, Hpet, Hrange.
  assert (Ec : sign_count s low = Z.of_nat (size (signers s low))) by (apply u8_small; lia).
  pose proof (signers_listed s low Ec) as Hl. set (ws := take (Z.to_nat (sign_count s low)) (sign_list s low)) in *.
  destruct (charter_destroyed s u bag slot i (found_item _ _ _ _ _ _ Hitem) Hplain) as (E1 & P1 & G1 & L1).
  set (s1 := run_state (DestroyItem v 1 u bag slot) s) in *.
  assert (Es : s' = run_state (found_by_charter v u low (pt_name row) ws) s1).
  { unfold s', HandleTurnInPetitionOpcode, with_gplayer, precv, with_petition. rewrite rs_with_state, Hp, Hd. cbv zeta.
    change (GUID_LOPART guid) with low. rewrite rs_with_state, Hpet, rs_with_state, H0, !Z.eqb_refl. cbn [negb].
    destruct (Z.ltb_spec (sign_count s low) (CONFIG_MIN_PETITION_SIGNS v)) as [Hlt|_]; [lia|].
    rewrite Hname, Hitem. apply run_state_bind. }
  assert (Hws : Forall (fun w => 0 < w < 2 ^ 32) ws).
  { apply Forall_forall. intros w Hw. apply Hl in Hw as [r Hr]. by apply (Hrange w r). }
  assert (En : NextGuildId (guilds s1) = NextGuildId (guilds s)) by exact (f_equal ro_next E1).
  destruct (founded_by_charter s1 u low (pt_name row) ws p) as (E2 & Pet & Sig & L2 & Nm);
    [split; by rewrite E1 | by rewrite P1 | done | by rewrite En | unfold GetGuildByName in *; by rewrite G1 | exact Hws |].
  rewrite <- Es in E2, Pet, Sig, L2, Nm. rewrite E1, En in E2. rewrite En in Nm.
  replace (guild_names (guilds s1)) with (guild_names (guilds s)) in Nm by (unfold guild_names; by rewrite G1). change (ro' = admit_all v (NextGuildId (guilds s)) 4 ws (found u ro)) in E2.
  assert (Hq : ro_players ro !! u = Some (core_player p)) by (apply player_lookup; eauto).
  assert (Hf : good (found u ro)) by (split; [by eapply ordered_found | by apply settled_found]).
  destruct (admit_all_spec v (NextGuildId (guilds s)) 4 ws (found u ro) (mkRosterGuild u 5 {[u := (u, 0)]}) Hf) as (Hg & Hoth & x & Hx & Lx & Rx & Mx);
    [apply lookup_insert_eq | exact Hws | lia |].
  rewrite <- E2 in Hg, Hoth, Hx. split; [apply Hg|]. split; [exact Nm|]. split; [|split_and!].
  - exists x. split; [exact Hx|]. split; [done|]. split; [done|]. intros w u' r. rewrite Mx, Hl. cbn [rg_members].
    rewrite lookup_singleton_Some, admits_found, andb_true_iff, negb_true_iff, bool_decide_eq_false.
    unfold admits. rewrite andb_true_iff, bool_decide_eq_true.
    destruct (decide (w = u)) as [->|Hne]; intuition congruence.
  - intros g Hne. rewrite Hoth by done. cbn. by rewrite lookup_insert_ne by congruence.
  - rewrite L2, L1. apply lookup_delete_eq.
  - exact Pet.
  - exact Sig.
Qed.
End turning_in.

(** ** Signatures *)

(** Nine at most for a charter, one for an account, and none of a type. *)
Record signs_of_charter (l : gmap Z SignRow) : Prop := {
  sc_nine : (size l <= 9)%nat;
  sc_account : forall w w' r r', l !! w = Some r -> l !! w' = Some r' -> sg_account r = sg_account r' -> w = w';
  sc_type : forall w r, l !! w = Some r -> sg_type r = 0
}.
Definition signs_ok (s : PetitionWorld) : Prop := forall low l, t_petition_sign s !! low = Some l -> signs_of_charter l.
Definition keeps_signs (s s' : PetitionWorld) : Prop := signs_ok s -> signs_ok s'.
#[export] Instance keeps_signs_preorder : PreOrder keeps_signs.
Proof. split; [by intros s Hs | intros s1 s2 s3 H12 H23 H1; auto]. Qed.
Lemma fewer_signs l l' : l' ⊆ l -> signs_of_charter l -> signs_of_charter l'.
Proof.
  intros Hl [H1 H2 H3]. assert (Hin : forall w r, l' !! w = Some r -> l !! w = Some r) by (eauto using lookup_weaken).
  split; [|eauto..]. apply map_subseteq_size in Hl. lia.
Qed.
Lemma signs_same s s' : t_petition_sign s' = t_petition_sign s -> keeps_signs s s'.
Proof. intros E Hs low l. rewrite E. apply Hs. Qed.
Lemma signs_inner s (f : gmap Z SignRow -> gmap Z SignRow) : (forall l, f l ⊆ l) -> keeps_signs s (on_t_petition_sign (fmap f) s).
Proof.
  intros Hf Hs low l. cbn. rewrite lookup_fmap, fmap_Some. intros (l0 & Hl & ->). apply (fewer_signs l0); [apply Hf | by eapply Hs].
Qed.
Lemma signs_outer s (P : Z * gmap Z SignRow -> Prop) `{!forall p, Decision (P p)} : keeps_signs s (on_t_petition_sign (filter P) s).
Proof. intros Hs low l. cbn. rewrite map_lookup_filter_Some. intros [Hl _]. by eapply Hs. Qed.
Lemma signs_execute st : (forall o g u a, st <> InsertSign o g u a) -> runs keeps_signs (PExecute st).
Proof.
  intros Hst s. destruct st; try by apply signs_same.
  all: try apply signs_outer; try (apply signs_inner; intros l; apply map_filter_subseteq).
  by edestruct Hst.
Qed.
(** One more account signs. *)
Lemma one_more_sign l u a o : signs_of_charter l -> (size l <= 8)%nat -> (forall w r, l !! w = Some r -> sg_account r <> a) ->
  signs_of_charter (<[u := mkSignRow o a 0]> l).
Proof.
  intros [H1 H2 H3] Hn Ha. split.
  - rewrite map_size_insert. destruct (l !! u); cbn; lia.
  - intros w w' r r' [[<- <-]|[Hw Hr]]%lookup_insert_Some [[<- <-]|[Hw' Hr']]%lookup_insert_Some E; [done | | | by eapply H2].
    + by destruct (Ha w' r' Hr').
    + by destruct (Ha w r Hr).
  - intros w r [[_ <-]|[_ Hr]]%lookup_insert_Some; [done | by eapply H3].
Qed.

Section sign_steps.
Context `{!Utf8Lib} `{HO : !HashOrder} `{HL : !HashOrderLaws} (v : PetitionView).
#[local] Abbreviation gv := (gvw v).

Hint Extern 2 (runs keeps_signs (PExecute _)) => (apply signs_execute; congruence) : runs.
Lemma signs_send u p : runs keeps_signs (guild_send u p).
Proof. apply runs_emit, _. Qed.
Hint Resolve signs_send : runs.
Lemma signs_RemovePetitions guid o : runs keeps_signs (RemovePetitionsAndSigns_of guid o).
Proof.
  unfold RemovePetitionsAndSigns_of, SendPetitionQueryOpcode, with_petition. runs_through.
Qed.
Hint Resolve signs_RemovePetitions : runs.
Lemma signs_in_guilds {A} (m : GM A) : runs keeps_signs (in_guilds m).
Proof.
  unfold in_guilds. apply runs_bind; [exact _ | intros s; rewrite rs_run_in_guilds; by apply signs_same |]. intros [a log].
  apply runs_bind; [exact _ | | intros _; apply runs_ret, _]. apply runs_for_each; [exact _|].
  intros e. destruct e; cbn [replay]; auto with runs; apply runs_emit, _.
Qed.
Hint Resolve signs_in_guilds : runs.
Lemma signs_charter_name u n k : runs keeps_signs k -> runs keeps_signs (charter_name v u n k).
Proof. intros Hk. unfold charter_name, name_test. runs_through. Qed.
Lemma signs_precv {A} (parse : B A) data k : (forall a, runs keeps_signs (k a)) -> runs keeps_signs (precv parse data k).
Proof. intros Hk. unfold precv. destruct (parse data).1; [apply Hk | apply runs_ret, _]. Qed.

Lemma signs_with_gplayer u k : (forall p, runs keeps_signs (k p)) -> runs keeps_signs (with_gplayer u k).
Proof. intros Hk. unfold with_gplayer. runs_through. Qed.
Lemma signs_with_petition low k : (forall o r, runs keeps_signs (k o r)) -> runs keeps_signs (with_petition low k).
Proof. intros Hk. unfold with_petition. runs_through. Qed.
Lemma signs_DestroyItem n u b sl : runs keeps_signs (DestroyItem v n u b sl).
Proof. revert b sl. induction n as [|n IH]; intros b sl; cbn [DestroyItem]; runs_through. Qed.
Lemma signs_StoreNewItem u e d : runs keeps_signs (StoreNewItem v u e d).
Proof. unfold StoreNewItem. runs_through. Qed.
Hint Resolve signs_DestroyItem signs_StoreNewItem : runs.
Lemma account_is_new s low a : account_signed s low a = false -> forall w r, signers s low !! w = Some r -> sg_account r <> a.
Proof.
  intros Ha w r Hr E. assert (Ht : account_signed s low a = true); [|congruence]. apply existsb_exists. exists (w, r).
  split; [|by apply Z.eqb_eq]. apply list_elem_of_In. rewrite hash_list_perm. by apply elem_of_map_to_list.
Qed.
Lemma signs_send_results u o g r : runs keeps_signs (send_sign_results u o g r).
Proof. unfold send_sign_results, send_owner. runs_through. Qed.
Hint Resolve signs_send_results : runs.
(** The row a signature enters. *)
Lemma signs_InsertSign s o low u a : (9 <? u8 (sign_count s low + 1)) = false -> account_signed s low a = false ->
  keeps_signs s (run_state (PExecute (InsertSign o low u a)) s).
Proof.
  intros Hn Ha Hs. unfold PExecute. rewrite run_state_bind, rs_modify, rs_emit. intros low' l Hl. cbn in Hl.
  assert (Hok : signs_of_charter (signers s low)).
  { unfold signers. destruct (t_petition_sign s !! low) as [l0|] eqn:E; [by apply (Hs low)|].
    split; cbn; [rewrite map_size_empty; lia | |]; intros *; rewrite lookup_empty; discriminate. }
  fold (signers s low) in Hl. destruct (signers s low !! u) as [r|] eqn:Hu; [by apply (Hs low')|].
  apply lookup_insert_Some in Hl as [[_ <-]|[_ Hl]]; [|by apply (Hs low')].
  apply one_more_sign; [done | | by apply account_is_new].
  pose proof (sc_nine _ Hok) as H9. apply Z.ltb_ge in Hn. unfold sign_count, u8 in Hn.
  rewrite (Z.mod_small (Z.of_nat _)) in Hn by lia. rewrite Z.mod_small in Hn by lia. lia.
Qed.
Lemma signs_HandlePetitionSign u data : runs keeps_signs (HandlePetitionSignOpcode v u data).
Proof.
  apply signs_with_gplayer. intros p. apply signs_precv. intros guid. apply signs_with_petition. intros owner r s.
  rewrite rs_with_state. repeat case_match; try solve [by apply signs_same | apply signs_in_guilds | apply signs_send_results].
  rewrite run_state_bind. etransitivity; [by apply signs_InsertSign | apply signs_send_results].
Qed.
Lemma signs_HandlePetitionBuy u data : runs keeps_signs (HandlePetitionBuyOpcode v u data).
Proof.
  apply signs_with_gplayer. intros p. unfold when at 1. destruct (gp_guildId p =? 0); [|apply runs_ret, _].
  apply signs_precv. intros [guidNPC name]. destruct (petitioner_near v u guidNPC) as [[|]|]; [|apply runs_ret, _..].
  apply runs_bind; [exact _ | unfold when; runs_through; apply runs_emit, _ | intros _]. apply signs_charter_name.
  unfold SendBuyError, buy_charter. runs_through.
Qed.
Lemma signs_HandlePetitionRename u data : runs keeps_signs (HandlePetitionRenameOpcode v u data).
Proof.
  apply signs_precv. intros [guid name]. apply runs_with_state. intros s. destruct (GetItemByGuid _ u guid); [|apply runs_ret, _].
  apply signs_charter_name. runs_through.
Qed.
Lemma signs_HandleTurnInPetition u data : runs keeps_signs (HandleTurnInPetitionOpcode v u data).
Proof.
  apply signs_with_gplayer. intros p. apply signs_precv. intros guid. apply signs_with_petition. intros owner r.
  unfold found_by_charter, turn_in_result. runs_through.
Qed.
Lemma signs_HandleOfferPetition u data : runs keeps_signs (HandleOfferPetitionOpcode v u data).
Proof. apply signs_precv. intros [guid to]. runs_through. Qed.
Lemma signs_HandlePetitionDecline u data : runs keeps_signs (HandlePetitionDeclineOpcode u data).
Proof. apply signs_precv. intros guid. apply signs_with_petition. unfold send_owner. runs_through. Qed.
Lemma signs_HandlePetitionQuery u data : runs keeps_signs (HandlePetitionQueryOpcode u data).
Proof. apply signs_precv. intros guid. apply signs_with_petition. runs_through. Qed.
Lemma signs_HandlePetitionShowSign u data : runs keeps_signs (HandlePetitionShowSignOpcode u data).
Proof.
  apply signs_with_gplayer. intros p. unfold when. destruct (gp_guildId p =? 0); [|apply runs_ret, _].
  apply signs_precv. intros guid. runs_through.
Qed.
Lemma signs_HandlePetitionShowList u data : runs keeps_signs (HandlePetitionShowListOpcode v u data).
Proof. apply signs_precv. intros guid. runs_through. all: apply runs_emit, _. Qed.
Lemma signs_step st : runs keeps_signs (run_petition_step v st).
Proof.
  destruct st as [u op data|st]; cbn [run_petition_step]; [|runs_through].
  apply runs_with_state. intros s. unfold when. destruct (bool_decide _); [|apply runs_ret, _].
  destruct op; cbn [handle_petition]; auto using signs_HandlePetitionBuy, signs_HandlePetitionRename, signs_HandleTurnInPetition,
    signs_HandleOfferPetition, signs_HandlePetitionDecline, signs_HandlePetitionQuery, signs_HandlePetitionShowSign,
    signs_HandlePetitionShowList, signs_HandlePetitionSign.
Qed.
End sign_steps.

(** ** What joining a guild does to signatures *)

Definition same_signs (s s' : PetitionWorld) : Prop := signs_ok s -> t_petition_sign s' = t_petition_sign s.
#[export] Instance same_signs_preorder : PreOrder same_signs.
Proof.
  split; [by intros s Hs | intros s1 s2 s3 H12 H23 H1]. specialize (H12 H1). rewrite <- H12. apply H23. unfold signs_ok. by rewrite H12.
Qed.

Section stale.
Context `{!Utf8Lib} `{HO : !HashOrder} `{HL : !HashOrderLaws}.

Lemma type_none_kept (t : gmap Z (gmap Z SignRow)) (P : Z * SignRow -> Prop) `{!forall p, Decision (P p)} :
  (forall low l, t !! low = Some l -> signs_of_charter l) ->
  filter (fun p => ~ (P p /\ of_type (Some GUILD_CHARTER_TYPE) p.2 = true)) <$> t = t.
Proof.
  intros Ht. apply map_eq. intros low. rewrite lookup_fmap. destruct (t !! low) as [l|] eqn:El; [cbn; f_equal|done].
  apply map_filter_id. intros w r Hr [_ E]. cbn in E. by rewrite (sc_type _ (Ht low l El) w r Hr) in E.
Qed.
Lemma same_DeleteSignsOf o : runs same_signs (PExecute (DeleteSignsOf o (Some GUILD_CHARTER_TYPE))).
Proof. intros s Hs. apply (type_none_kept (t_petition_sign s) (fun p => sg_owner p.2 = o) Hs). Qed.
Lemma same_DeleteSignsBy w : runs same_signs (PExecute (DeleteSignsBy w (Some GUILD_CHARTER_TYPE))).
Proof. intros s Hs. apply (type_none_kept (t_petition_sign s) (fun p => p.1 = w) Hs). Qed.
Lemma same_of_frame {A} (m : PM A) : frames t_petition_sign m -> runs same_signs m.
Proof. intros Hm s _. apply Hm. Qed.
Lemma same_replay e : runs same_signs (replay e).
Proof.
  destruct e; try apply runs_emit, _. cbn [replay]. unfold RemovePetitionsAndSigns_of.
  apply runs_with_state. intros s.
  apply runs_bind; [exact _ | | intros _; apply runs_bind; [exact _ | | intros _; apply runs_bind;
    [exact _ | by apply same_of_frame | intros _; apply same_DeleteSignsOf]]].
  - apply same_of_frame. unfold SendPetitionQueryOpcode, with_petition, guild_send. runs_through. all: apply runs_emit, _.
  - unfold when. destruct (negb _); [apply same_DeleteSignsBy | apply runs_ret, _].
Qed.
(** Nothing a guild does takes a signature away: [Player::RemovePetitionsAndSigns] is
    asked for those of type 9, and no row has this type. *)
Lemma stale_signatures {A} (m : GM A) s : signs_ok s -> t_petition_sign (run_state (in_guilds m) s) = t_petition_sign s.
Proof.
  assert (Hm : runs same_signs (in_guilds m)); [|apply Hm].
  unfold in_guilds. apply runs_bind; [exact _ | intros s' _; by rewrite rs_run_in_guilds |]. intros [a log].
  apply runs_bind; [exact _ | | intros _; apply runs_ret, _]. apply runs_for_each; [exact _ | apply same_replay].
Qed.
End stale.

(** ** Runs *)

Section runs_of_charters.
Context `{!Utf8Lib}.

Fixpoint run_petitions (l : list (HashOrder * PetitionView * petition_step)) (s : PetitionWorld) : PetitionWorld :=
  match l with
  | [] => s
  | (h, v, st) :: l' => run_petitions l' (run_state (@run_petition_step _ h v st) s)
  end.

(** C15: over any sequence of packets about charters and steps of the guilds, whatever
    the names, the positions of items and the distances, no charter has more than nine
    signatures or two of the same account. *)
Theorem signatures_ok l s : signs_ok s -> Forall (fun p => @HashOrderLaws p.1.1) l ->
  signs_ok (run_petitions l s) /\
  forall low, (size (signers (run_petitions l s) low) <= 9)%nat /\
    forall w w' r r', signers (run_petitions l s) low !! w = Some r -> signers (run_petitions l s) low !! w' = Some r' ->
      sg_account r = sg_account r' -> w = w'.
Proof.
  intros Hs Hl. assert (Hr : signs_ok (run_petitions l s)).
  { revert s Hs. induction Hl as [|[[h v] st] l Hp Hl IH]; intros s Hs; [done|]. cbn [run_petitions].
    apply IH. by apply (@signs_step _ h Hp). }
  split; [done|]. intros low. unfold signers. destruct (t_petition_sign (run_petitions l s) !! low) as [t|] eqn:E; cbn.
  - destruct (Hr low t E) as [H1 H2 _]. by eauto.
  - split; [rewrite map_size_empty; lia|]. intros *. rewrite lookup_empty. discriminate.
Qed.
End runs_of_charters.

(** ** A charter in Stormwind *)

Definition sample_charters (t : Z) : PetitionView := {|
  gvw := sample_guild_view t 0;
  CONFIG_MIN_PETITION_SIGNS := 2;
  CONFIG_MIN_CHARTER_NAME := 2;
  CONFIG_STRICT_CHARTER_NAMES := 0;
  REALM_ZONE := 1;
  ReservedNames := ∅;
  petitioner_near _ _ := Some true;
  proto_BuyCount _ := Some 1;
  CanStoreNewItem_at s u entry n := match free_position s u with
    | Some pos => (EQUIP_ERR_OK, [(pos, n)])
    | None => (EQUIP_ERR_BANK_FULL, [])
    end
|}.
Definition charter_packet (t u : Z) (op : petition_opcode) (fs : list field) : HashOrder * PetitionView * petition_step :=
  (key_order, sample_charters t, PetitionPacketIn u op (packet_of fs)).
Definition guild_at (st : guild_step) : HashOrder * PetitionView * petition_step := (key_order, sample_charters 0, InGuilds st).
(** Ann buys a charter for her Knights, item 20; Bob and Eve sign it, Bob twice. *)
Definition charter_guid : Z := MAKE_NEW_GUID 20 0 HIGHGUID_ITEM.
Definition buy_fields : list field :=
  [FU 8 900; FU 4 0; FU 8 0; FStr (text "Knights"); FStr []] ++ replicate 7 (FU 4 0) ++ [FU 2 0] ++ replicate 3 (FU 4 0) ++
  replicate 10 (FStr []) ++ [FU 4 0; FU 4 0].
Definition charter_signed : list (HashOrder * PetitionView * petition_step) :=
  concat ((fun u => [guild_at (GuildLogin u); guild_at (GuildTravel u true)]) <$> [1; 2; 3]) ++
  [charter_packet 10 1 CMSG_PETITION_BUY buy_fields;
   charter_packet 20 2 CMSG_PETITION_SIGN [FU 8 charter_guid; FU 1 0];
   charter_packet 20 2 CMSG_PETITION_SIGN [FU 8 charter_guid; FU 1 0];
   charter_packet 30 3 CMSG_PETITION_SIGN [FU 8 charter_guid; FU 1 0]].
Definition charter_world : PetitionWorld := mkPetitionWorld sample_world ∅ ∅.
Definition signed_world : PetitionWorld := run_petitions charter_signed charter_world.

Example charter_signers : signers signed_world 20 = {[2 := mkSignRow 1 102 0; 3 := mkSignRow 1 103 0]}.
Proof. vm_compute. reflexivity. Qed.
Lemma signatures_ok_witness :
  signs_ok signed_world /\ size (signers signed_world 20) = 2%nat.
Proof.
  split; [|vm_compute; reflexivity]. destruct (signatures_ok charter_signed charter_world) as [Hr _]; [| |exact Hr].
  - intros low l. cbn. by rewrite lookup_empty.
  - unfold charter_signed. cbn [fmap list_fmap concat app].
    repeat first [apply List.Forall_cons; [exact key_order_laws|] | apply List.Forall_nil].
Defined.

(** Ann turns it in, and leads the Knights with Bob and Eve. *)
Definition turned_in : PetitionWorld :=
  run_state (@HandleTurnInPetitionOpcode key_order (sample_charters 40) 1 (packet_of [FU 8 charter_guid])) signed_world.
Definition ann : GuildPlayer := mkGuildPlayer true 0 0 0.
Lemma ordered_signed : ordered (roster (guilds signed_world)).
Proof.
  replace (roster (guilds signed_world)) with (mkRoster ∅ 1 {[1 := (true, 0, 0); 2 := (true, 0, 0); 3 := (true, 0, 0)]} ∅)
    by (vm_compute; reflexivity).
  split; [|by intros g x]. split; try by intros.
  - intros low g r. split; [done|]. by intros (x & Hx & _).
  - intros u p. cbn [ro_players]. intros [[<- <-]|[_ [[<- <-]|[_ [<- <-]%lookup_singleton_Some]]%lookup_insert_Some]]%lookup_insert_Some; by split.
Qed.
Lemma petition_turned_in_witness :
  ordered (roster (guilds turned_in)) /\ guild_names (guilds turned_in) = {[1 := text "Knights"]} /\ slots (guilds turned_in) !! InBags 1 (bag_pos 255 25) = None /\
  rg_members <$> ro_guilds (roster (guilds turned_in)) !! 1 = Some {[1 := (1, 0); 2 := (2, 4); 3 := (3, 4)]}.
Proof.
  destruct (@petition_turned_in key_order key_order_laws (sample_charters 40) 1 (packet_of [FU 8 charter_guid]) charter_guid ann
    (mkPetitionRow 20 (text "Knights")) 255 25 20 signed_world) as (Ho & Hnm & _ & _ & Hsl & _).
  - exact ordered_signed.
  - apply settledb_spec. vm_compute. reflexivity.
  - vm_compute. reflexivity.
  - split; [vm_compute; reflexivity | reflexivity | vm_compute; reflexivity | | | vm_compute; reflexivity | vm_compute; reflexivity | reflexivity | reflexivity].
    + vm_compute. split; [discriminate | reflexivity].
    + intros w r. replace (GUID_LOPART charter_guid) with 20 by (vm_compute; reflexivity). rewrite charter_signers.
      intros [[<- _]|[_ [<- _]%lookup_singleton_Some]]%lookup_insert_Some; lia.
  - split; [exact Ho|]. split; [etrans; [exact Hnm | vm_compute; reflexivity]|]. split; [exact Hsl|]. vm_compute. reflexivity.
Defined.
