(* ===== verification/Social.v ===== *)
(** * Friends and ignored players

    [PlayerSocial] and [SocialMgr] of game/Entities/Player/SocialMgr.cpp, the opcode
    handlers of MiscHandler.cpp that use them, and what logging in, logging out and
    deleting a character does to the lists.  A list is loaded from the table
    character_social at login, by a query whose answer arrives later; so does the answer
    to the name of a friend to be added. *)
From S2P Require Import Prelude Text ByteBuffer Channel.

Definition FRIEND_STATUS_OFFLINE : Z := 0.
Definition FRIEND_STATUS_ONLINE : Z := 1.
Definition FRIEND_STATUS_AFK : Z := 2.
Definition FRIEND_STATUS_DND : Z := 4.
Definition SOCIAL_FLAG_FRIEND : Z := 0x01.
Definition SOCIAL_FLAG_IGNORED : Z := 0x02.
Definition SOCIAL_FLAG_MUTED : Z := 0x04.
Definition SOCIALMGR_FRIEND_LIMIT : Z := 50.
Definition SOCIALMGR_IGNORE_LIMIT : Z := 50.

Definition FRIEND_LIST_FULL : Z := 0x01.
Definition FRIEND_ONLINE : Z := 0x02.
Definition FRIEND_OFFLINE : Z := 0x03.
Definition FRIEND_NOT_FOUND : Z := 0x04.
Definition FRIEND_REMOVED : Z := 0x05.
Definition FRIEND_ADDED_ONLINE : Z := 0x06.
Definition FRIEND_ADDED_OFFLINE : Z := 0x07.
Definition FRIEND_ALREADY : Z := 0x08.
Definition FRIEND_SELF : Z := 0x09.
Definition FRIEND_ENEMY : Z := 0x0A.
Definition FRIEND_IGNORE_FULL : Z := 0x0B.
Definition FRIEND_IGNORE_SELF : Z := 0x0C.
Definition FRIEND_IGNORE_NOT_FOUND : Z := 0x0D.
Definition FRIEND_IGNORE_ALREADY : Z := 0x0E.
Definition FRIEND_IGNORE_ADDED : Z := 0x0F.
Definition FRIEND_IGNORE_REMOVED : Z := 0x10.

Definition SMSG_CONTACT_LIST : Z := 0x0748C.
Definition SMSG_FRIEND_STATUS : Z := 0x0F68C.
Definition SEC_MODERATOR : Z := 1.

(** ** Data *)

Record FriendInfo := mkFriendInfo {
  fi_Status : Z; fi_Flags : Z; fi_Area : Z; fi_Level : Z; fi_Class : Z; fi_Note : list Z
}.
(** The two constructors. *)
Definition no_friend_info : FriendInfo := mkFriendInfo FRIEND_STATUS_OFFLINE 0 0 0 0 [].
Definition new_friend_info (flags : Z) (note : list Z) : FriendInfo := mkFriendInfo FRIEND_STATUS_OFFLINE flags 0 0 0 note.
Definition on_fi_Flags (f : Z -> Z) (i : FriendInfo) : FriendInfo :=
  mkFriendInfo (fi_Status i) (f (fi_Flags i)) (fi_Area i) (fi_Level i) (fi_Class i) (fi_Note i).
Definition set_fi_Note (note : list Z) (i : FriendInfo) : FriendInfo :=
  mkFriendInfo (fi_Status i) (fi_Flags i) (fi_Area i) (fi_Level i) (fi_Class i) note.
Abbreviation PlayerSocialMap := (gmap Z FriendInfo).

(** A row of characters; one that is unlinked has no name and no account. *)
Record CharacterRow := mkCharacterRow { c_name : list Z; c_race : Z; c_account : Z; c_deleted : bool }.
(** The rows of character_social by player and friend: the primary key is that and the
    flags. *)
Abbreviation SocialRows := (gmap (Z * Z) (gmap Z (list Z))).

(** The answers a session waits for: of the log-in, with the account of the character
    and its list; of the name of a friend, with the note; of the name of somebody to be
    ignored. *)
Record LoginQuery := mkLoginQuery { lq_guid : Z; lq_account : option Z; lq_rows : list (Z * Z * list Z) }.
Record SocialSession := mkSocialSession {
  ss_player : option Z;
  ss_inWorld : bool;
  ss_login : option LoginQuery;
  ss_addFriend : option (option (Z * Z * Z) * list Z);
  ss_addIgnore : option (option Z)
}.
Definition new_session : SocialSession := mkSocialSession None false None None None.
Definition set_ss_player (u : option Z) (b : bool) (x : SocialSession) : SocialSession :=
  mkSocialSession u b (ss_login x) (ss_addFriend x) (ss_addIgnore x).
Definition set_ss_inWorld (b : bool) (x : SocialSession) : SocialSession :=
  mkSocialSession (ss_player x) b (ss_login x) (ss_addFriend x) (ss_addIgnore x).
Definition set_ss_login q (x : SocialSession) : SocialSession :=
  mkSocialSession (ss_player x) (ss_inWorld x) q (ss_addFriend x) (ss_addIgnore x).
Definition set_ss_addFriend q (x : SocialSession) : SocialSession :=
  mkSocialSession (ss_player x) (ss_inWorld x) (ss_login x) q (ss_addIgnore x).
Definition set_ss_addIgnore q (x : SocialSession) : SocialSession :=
  mkSocialSession (ss_player x) (ss_inWorld x) (ss_login x) (ss_addFriend x) q.

Record SocialWorld := mkSocialWorld {
  m_sessions : gmap Z SocialSession;                 (* by account *)
  m_socialMap : gmap Z PlayerSocialMap;              (* by player *)
  t_characters : gmap Z CharacterRow;
  t_character_social : SocialRows;
  m_hiCharGuid : Z
}.
Definition on_sessions f (s : SocialWorld) : SocialWorld :=
  mkSocialWorld (f (m_sessions s)) (m_socialMap s) (t_characters s) (t_character_social s) (m_hiCharGuid s).
Definition on_socialMap f (s : SocialWorld) : SocialWorld :=
  mkSocialWorld (m_sessions s) (f (m_socialMap s)) (t_characters s) (t_character_social s) (m_hiCharGuid s).
Definition on_characters f (s : SocialWorld) : SocialWorld :=
  mkSocialWorld (m_sessions s) (m_socialMap s) (f (t_characters s)) (t_character_social s) (m_hiCharGuid s).
Definition on_social_rows f (s : SocialWorld) : SocialWorld :=
  mkSocialWorld (m_sessions s) (m_socialMap s) (t_characters s) (f (t_character_social s)) (m_hiCharGuid s).
Definition set_hiCharGuid n (s : SocialWorld) : SocialWorld :=
  mkSocialWorld (m_sessions s) (m_socialMap s) (t_characters s) (t_character_social s) n.

(** ** Rows *)

Inductive social_statement :=
| AddSocialFlag (flag guid friend : Z)
| InsertSocial (guid friend flag : Z)
| DeleteSocial (guid friend : Z)
| RemoveSocialFlag (flag guid friend : Z)
| SetSocialNote (note : list Z) (guid friend : Z)
| DeleteSocialsOf (guid : Z)
| DeleteCharacter (guid : Z)
| UnlinkCharacter (guid : Z).
(** New flags for the rows of a pair; a statement that would make two of them equal
    changes nothing. *)
Definition rekey (f : Z -> Z) (m : gmap Z (list Z)) : gmap Z (list Z) :=
  let l := (fun p => (f p.1, p.2)) <$> map_to_list m in
  if bool_decide (NoDup l.*1) then list_to_map l else m.
Definition insert_row (guid friend flag : Z) : SocialRows -> SocialRows :=
  partial_alter (fun o => match default ∅ o !! flag with
    | None => Some (<[flag := []]> (default ∅ o))
    | Some _ => o
    end) (guid, friend).
Definition unlinked (c : CharacterRow) : CharacterRow := mkCharacterRow [] (c_race c) 0 true.
Definition social_execute (st : social_statement) (s : SocialWorld) : SocialWorld :=
  match st with
  | AddSocialFlag flag guid friend => on_social_rows (alter (rekey (fun x => Z.lor x flag)) (guid, friend)) s
  | InsertSocial guid friend flag => on_social_rows (insert_row guid friend flag) s
  | DeleteSocial guid friend => on_social_rows (delete (guid, friend)) s
  | RemoveSocialFlag flag guid friend => on_social_rows (alter (rekey (fun x => Z.ldiff x flag)) (guid, friend)) s
  | SetSocialNote note guid friend => on_social_rows (alter (fmap (fun _ => note)) (guid, friend)) s
  | DeleteSocialsOf guid => on_social_rows (filter (fun p => p.1.1 <> guid /\ p.1.2 <> guid)) s
  | DeleteCharacter guid => on_characters (delete guid) s
  | UnlinkCharacter guid => on_characters (alter unlinked guid) s
  end.
Definition living (s : SocialWorld) (guid : Z) : bool :=
  match t_characters s !! guid with Some c => negb (c_deleted c) | None => false end.
Definition accounts_of (s : SocialWorld) (guid : Z) : option Z := c_account <$> t_characters s !! guid.

Inductive social_event :=
| SocialPacket (u : Z) (data : packet)
| SocialQuery (stmt : social_statement)
| SocialUseAfterFree
| SocialConversionOverflow
| CharGuidOverflow.
Abbreviation SM := (M SocialWorld social_event).

(** What is read of the rest of the server. *)
Record SocialView := mkSocialView {
  CONFIG_ALLOW_TWO_SIDE_WHO_LIST : bool;
  CONFIG_GM_LEVEL_IN_WHO_LIST : Z;
  CONFIG_ALLOW_GM_FRIEND : bool;
  CONFIG_ALLOW_TWO_SIDE_ADD_FRIEND : bool;
  session_security : Z -> Z;                         (* by account *)
  account_security : Z -> Z;
  player_team : Z -> Z;
  TeamForRace : Z -> Z;
  IsVisibleGloballyFor : Z -> Z -> bool;
  player_isAFK : Z -> bool;
  player_isDND : Z -> bool;
  player_zone : Z -> Z;
  player_level : Z -> Z;
  player_class : Z -> Z;
  (** A guild leader or captain of an arena team, and the way characters are deleted. *)
  delete_refused : Z -> bool;
  chardelete_removes : Z -> bool
}.
(** [mysql_real_escape_string]. *)
Class SqlLib := { EscapeString : list Z -> list Z }.
(** The order in which the database answers where none is asked for. *)
Class ResultOrder := { in_some_order : forall A : Type, list A -> list A }.
Arguments in_some_order {_ A}.
Class ResultOrderLaws `{ResultOrder} : Prop := { in_some_order_perm : forall A (l : list A), in_some_order l ≡ₚ l }.

(** ** Lists *)

Section social.
Context `{!Utf8Lib} `{!SqlLib} `{!ResultOrder} (v : SocialView).

Definition SExecute (st : social_statement) : SM unit := modify (social_execute st) ;; emit (SocialQuery st).
Definition session_of (s : SocialWorld) (u : Z) : option (Z * SocialSession) :=
  head (filter (fun p => ss_player p.2 = Some u) (map_to_list (m_sessions s))).
(** [ObjectAccessor::FindPlayer]: the account of a player in the world. *)
Definition FindPlayer_social (s : SocialWorld) (u : Z) : option Z :=
  match session_of s u with
  | Some (a, x) => if ss_inWorld x then Some a else None
  | None => None
  end.
Definition player_security (s : SocialWorld) (u : Z) : Z :=
  match session_of s u with Some (a, _) => session_security v a | None => 0 end.
Definition with_social {A} (d : A) (u : Z) (k : PlayerSocialMap -> SM A) : SM A := with_state (fun s =>
  match m_socialMap s !! u with
  | Some l => k l
  | None => emit SocialUseAfterFree ;; ret d
  end).
Definition upd_social (u : Z) (f : PlayerSocialMap -> PlayerSocialMap) : SM unit := modify (on_socialMap (alter f u)).
Definition social_send (u : Z) (data : packet) : SM unit := emit (SocialPacket u data).

Definition GetNumberOfSocialsWithFlag (l : PlayerSocialMap) (flag : Z) : Z :=
  u32 (Z.of_nat (size (filter (fun p => has_flag (fi_Flags p.2) flag = true) l))).
Definition AddToSocialList (u friend_guid : Z) (ignore : bool) : SM bool := with_social false u (fun l =>
  if (if ignore then SOCIALMGR_IGNORE_LIMIT <=? GetNumberOfSocialsWithFlag l SOCIAL_FLAG_IGNORED
      else SOCIALMGR_FRIEND_LIMIT <=? GetNumberOfSocialsWithFlag l SOCIAL_FLAG_FRIEND) then ret false
  else
    let flag := if ignore then SOCIAL_FLAG_IGNORED else SOCIAL_FLAG_FRIEND in
    match l !! friend_guid with
    | Some i =>
        SExecute (AddSocialFlag flag u friend_guid) ;;
        upd_social u (insert friend_guid (on_fi_Flags (fun x => Z.lor x flag) i)) ;; ret true
    | None =>
        SExecute (InsertSocial u friend_guid flag) ;;
        upd_social u (insert friend_guid (on_fi_Flags (fun x => Z.lor x flag) no_friend_info)) ;; ret true
    end).
Definition RemoveFromSocialList (u friend_guid : Z) (ignore : bool) : SM unit := with_social tt u (fun l =>
  match l !! friend_guid with
  | None => ret tt
  | Some i =>
      let flag := if ignore then SOCIAL_FLAG_IGNORED else SOCIAL_FLAG_FRIEND in
      let i' := on_fi_Flags (fun x => Z.ldiff x flag) i in
      if fi_Flags i' =? 0 then SExecute (DeleteSocial u friend_guid) ;; upd_social u (delete friend_guid)
      else upd_social u (insert friend_guid i') ;; SExecute (RemoveSocialFlag flag u friend_guid)
  end).
(** The row gets the note, the list what is sent to the database for it. *)
Definition SetFriendNote (u friend_guid : Z) (note : list Z) : SM unit := with_social tt u (fun l =>
  match l !! friend_guid with
  | None => ret tt
  | Some i =>
      match utf8truncate note 48 with
      | Conv note =>
          SExecute (SetSocialNote note u friend_guid) ;;
          upd_social u (insert friend_guid (set_fi_Note (EscapeString note) i))
      | _ => emit SocialConversionOverflow
      end
  end).
Definition HasFriend (u friend_guid : Z) : SM bool := with_social false u (fun l =>
  ret (match l !! friend_guid with Some i => has_flag (fi_Flags i) SOCIAL_FLAG_FRIEND | None => false end)).
Definition HasIgnore_social (u ignore_guid : Z) : SM bool := with_social false u (fun l =>
  ret (match l !! ignore_guid with Some i => has_flag (fi_Flags i) SOCIAL_FLAG_IGNORED | None => false end)).

(** Who sees whom: one's own side and no game masters, unless one is a game master. *)
Definition sees (s : SocialWorld) (watcher watched : Z) : bool :=
  ((SEC_PLAYER <? player_security s watcher) ||
   (((player_team v watched =? player_team v watcher) || CONFIG_ALLOW_TWO_SIDE_WHO_LIST v) &&
    (player_security s watched <=? CONFIG_GM_LEVEL_IN_WHO_LIST v))) &&
  IsVisibleGloballyFor v watched watcher.
Definition GetFriendInfo (u friendGUID : Z) (i : FriendInfo) : SM FriendInfo := with_state (fun s =>
  let base := mkFriendInfo FRIEND_STATUS_OFFLINE (fi_Flags i) 0 0 0 (fi_Note i) in
  match FindPlayer_social s friendGUID with
  | None => ret base
  | Some _ => with_social base u (fun l =>
      let note := match l !! friendGUID with Some j => fi_Note j | None => fi_Note i end in
      ret (if sees s u friendGUID then
             mkFriendInfo (if player_isDND v friendGUID then FRIEND_STATUS_DND
                           else if player_isAFK v friendGUID then FRIEND_STATUS_AFK else FRIEND_STATUS_ONLINE)
               (fi_Flags i) (player_zone v friendGUID) (u8 (player_level v friendGUID)) (u8 (player_class v friendGUID)) note
           else set_fi_Note note base))
  end).

Definition contact_fields (f : Z) (i : FriendInfo) : list field :=
  [FU 8 f; FU 4 (fi_Flags i); FStr (fi_Note i)] ++
  (if has_flag (fi_Flags i) SOCIAL_FLAG_FRIEND then
     FU 1 (fi_Status i) ::
     (if negb (fi_Status i =? 0) then [FU 4 (fi_Area i); FU 4 (fi_Level i); FU 4 (fi_Class i)] else [])
   else []).
(** The entries for the mask; each is brought up to date on the way. *)
Fixpoint contacts (u mask : Z) (l : list (Z * FriendInfo)) : SM (list (list field)) :=
  match l with
  | [] => ret []
  | (f, i) :: l' =>
      let! i' := GetFriendInfo u f i in
      upd_social u (insert f i') ;;
      let! rest := contacts u mask l' in
      ret (if has_flag (fi_Flags i') mask then contact_fields f i' :: rest else rest)
  end.
Definition SendSocialList (u mask : Z) : SM unit := with_social tt u (fun l =>
  let! entries := contacts u mask (omap_list l) in
  social_send u (Pkt SMSG_CONTACT_LIST ([FU 4 mask; FU 4 (Z.of_nat (length entries))] ++ concat entries))).

Definition BroadcastToFriendListers (u : Z) (data : packet) : SM unit := with_state (fun s =>
  for_each (omap_list (m_socialMap s)) (fun p =>
    match p.2 !! u with
    | Some i =>
        when (has_flag (fi_Flags i) SOCIAL_FLAG_FRIEND && bool_decide (is_Some (FindPlayer_social s p.1)) && sees s p.1 u)
          (social_send p.1 data)
    | None => ret tt
    end)).
Definition friend_status (result friend_guid : Z) (i : FriendInfo) : packet :=
  Pkt SMSG_FRIEND_STATUS
    ([FU 1 result; FU 8 friend_guid] ++
     (if (result =? FRIEND_ADDED_OFFLINE) || (result =? FRIEND_ADDED_ONLINE) then [FStr (fi_Note i)] else []) ++
     (if (result =? FRIEND_ADDED_ONLINE) || (result =? FRIEND_ONLINE)
      then [FU 1 (fi_Status i); FU 4 (fi_Area i); FU 4 (fi_Level i); FU 4 (fi_Class i)] else [])).
Definition SendFriendStatus (u result friend_guid : Z) (broadcast : bool) : SM unit :=
  let! i := GetFriendInfo u friend_guid no_friend_info in
  if broadcast then BroadcastToFriendListers u (friend_status result friend_guid i)
  else social_send u (friend_status result friend_guid i).

(** The rows that are loaded; reading stops when the list is full. *)
Fixpoint load_rows (rows : list (Z * Z * list Z)) (l : PlayerSocialMap) : PlayerSocialMap :=
  match rows with
  | [] => l
  | (f, flags, note) :: rows' =>
      let l' := <[f := new_friend_info flags note]> l in
      if SOCIALMGR_FRIEND_LIMIT + SOCIALMGR_IGNORE_LIMIT <=? Z.of_nat (size l') then l' else load_rows rows' l'
  end.
Definition SocialLoadFromDB (u : Z) (rows : list (Z * Z * list Z)) : SM unit :=
  modify (on_socialMap (partial_alter (fun o => Some (load_rows rows (default ∅ o))) u)).
Definition RemovePlayerSocial (u : Z) : SM unit := modify (on_socialMap (delete u)).
(** The prepared statement CHAR_LOAD_PLAYER_SOCIALLIST. *)
Definition social_list (s : SocialWorld) (u : Z) : list (Z * Z * list Z) :=
  take 255 (in_some_order (concat ((fun p =>
    if (p.1.1 =? u) && living s p.1.2 then (fun q => (p.1.2, q.1, q.2)) <$> map_to_list p.2 else [])
    <$> map_to_list (t_character_social s)))).

(** ** The opcode handlers *)

Definition upd_session (a : Z) (f : SocialSession -> SocialSession) : SM unit := modify (on_sessions (alter f a)).
(** The handlers are given the account and the player of the session. *)
Definition srecv {A} (parse : B A) (recv_data : ByteBuffer) (k : A -> SM unit) : SM unit :=
  match (parse recv_data).1 with Ok x => k x | Err _ => ret tt end.
Definition character_named (s : SocialWorld) (name : list Z) : option (Z * CharacterRow) :=
  head (in_some_order (filter (fun p => c_name p.2 = name) (map_to_list (t_characters s)))).
Definition with_name (name : list Z) (k : list Z -> SM unit) : SM unit :=
  match normalizePlayerName name with
  | Conv n => k n
  | ConvFailed => ret tt
  | ConvOverflow => emit SocialConversionOverflow
  end.

Definition HandleContactListOpcode (u : Z) (recv_data : ByteBuffer) : SM unit :=
  srecv (shr_uint 4) recv_data (SendSocialList u).
Definition HandleAddFriendOpcode (a : Z) (recv_data : ByteBuffer) : SM unit :=
  srecv (let? name := shr_string in let? note := shr_string in bret (name, note)) recv_data (fun '(name, note) =>
    with_name name (fun n => with_state (fun s =>
      upd_session a (set_ss_addFriend (Some ((fun p => (p.1, c_race p.2, c_account p.2)) <$> character_named s n, note)))))).
Definition HandleAddFriendOpcodeCallBack (a u : Z) (result : option (Z * Z * Z)) (note : list Z) : SM unit :=
  match result with
  | None => SendFriendStatus u FRIEND_NOT_FOUND 0 false
  | Some (friendGuid, race, friendAcctid) =>
      if ((SEC_MODERATOR <=? session_security v a) || CONFIG_ALLOW_GM_FRIEND v ||
          (account_security v friendAcctid <? SEC_MODERATOR)) && negb (friendGuid =? 0) then
        let! friendResult :=
          (if friendGuid =? u then ret FRIEND_SELF
           else if negb (player_team v u =? TeamForRace v race) && negb (CONFIG_ALLOW_TWO_SIDE_ADD_FRIEND v) &&
                   (session_security v a <? SEC_GAMEMASTER) then ret FRIEND_ENEMY
           else
             let! already := HasFriend u friendGuid in
             if already then ret FRIEND_ALREADY
             else with_state (fun s =>
               let! added := AddToSocialList u friendGuid false in
               ret (if negb added then FRIEND_LIST_FULL
                    else if bool_decide (is_Some (FindPlayer_social s friendGuid)) && IsVisibleGloballyFor v friendGuid u
                    then FRIEND_ADDED_ONLINE else FRIEND_ADDED_OFFLINE))) in
        SetFriendNote u friendGuid note ;;
        SendFriendStatus u friendResult friendGuid false
      else SendFriendStatus u FRIEND_NOT_FOUND friendGuid false
  end.
Definition HandleDelFriendOpcode (u : Z) (recv_data : ByteBuffer) : SM unit :=
  srecv (shr_uint 8) recv_data (fun guid =>
    RemoveFromSocialList u (GUID_LOPART guid) false ;;
    SendFriendStatus u FRIEND_REMOVED (GUID_LOPART guid) false).
Definition HandleAddIgnoreOpcode (a : Z) (recv_data : ByteBuffer) : SM unit :=
  srecv shr_string recv_data (fun name => with_name name (fun n => with_state (fun s =>
    upd_session a (set_ss_addIgnore (Some (fst <$> character_named s n)))))).
Definition HandleAddIgnoreOpcodeCallBack (u : Z) (result : option Z) : SM unit :=
  match result with
  | None => SendFriendStatus u FRIEND_IGNORE_NOT_FOUND 0 false
  | Some guid =>
      let! ignoreResult :=
        (if guid =? 0 then ret FRIEND_IGNORE_NOT_FOUND
         else if guid =? u then ret FRIEND_IGNORE_SELF
         else
           let! already := HasIgnore_social u guid in
           if already then ret FRIEND_IGNORE_ALREADY
           else let! added := AddToSocialList u guid true in ret (if added then FRIEND_IGNORE_ADDED else FRIEND_IGNORE_FULL)) in
      SendFriendStatus u ignoreResult guid false
  end.
Definition HandleDelIgnoreOpcode (u : Z) (recv_data : ByteBuffer) : SM unit :=
  srecv (shr_uint 8) recv_data (fun guid =>
    RemoveFromSocialList u (GUID_LOPART guid) true ;;
    SendFriendStatus u FRIEND_IGNORE_REMOVED (GUID_LOPART guid) false).
Definition HandleSetContactNotesOpcode (u : Z) (recv_data : ByteBuffer) : SM unit :=
  srecv (let? guid := shr_uint 8 in let? note := shr_string in bret (guid, note)) recv_data
    (fun '(guid, note) => SetFriendNote u (GUID_LOPART guid) note).

(** ** Logging in and out *)

Definition social_login_query (a guid : Z) : SM unit := with_state (fun s =>
  upd_session a (set_ss_login (Some (mkLoginQuery (GUID_LOPART guid) (accounts_of s (GUID_LOPART guid)) (social_list s (GUID_LOPART guid)))))).
(** The parts of [HandlePlayerLogin] and [Player::LoadFromDB] that matter to the lists. *)
Definition social_login (a : Z) (q : LoginQuery) : SM unit :=
  upd_session a (set_ss_login None) ;;
  match lq_account q with
  | None => ret tt
  | Some account => when (account =? a)
      (let u := lq_guid q in
       SocialLoadFromDB u (lq_rows q) ;;
       upd_session a (set_ss_player (Some u) false) ;;
       SendSocialList u (Z.lor (Z.lor SOCIAL_FLAG_FRIEND SOCIAL_FLAG_IGNORED) SOCIAL_FLAG_MUTED) ;;
       upd_session a (set_ss_inWorld true) ;;
       SendFriendStatus u FRIEND_ONLINE u true)
  end.
Definition social_logout (a : Z) : SM unit := with_state (fun s =>
  match m_sessions s !! a ≫= ss_player with
  | None => ret tt
  | Some u =>
      SendFriendStatus u FRIEND_OFFLINE u true ;;
      RemovePlayerSocial u ;;
      upd_session a (set_ss_player None false)
  end).

(** ** Characters *)

Definition new_character (name : list Z) (race account : Z) : SM unit := with_state (fun s =>
  when (0xFFFFFFFE <=? m_hiCharGuid s) (emit CharGuidOverflow) ;;
  modify (set_hiCharGuid (u32 (m_hiCharGuid s + 1))) ;;
  modify (on_characters (insert (m_hiCharGuid s) (mkCharacterRow name race account false)))).
(** Those who have somebody in a list. *)
Definition listers (s : SocialWorld) (guid : Z) : gset Z :=
  list_to_set ((fun p => p.1.1) <$> filter (fun p => p.1.2 = guid) (map_to_list (t_character_social s))).
(** The part of [Player::DeleteFromDB]. *)
Definition social_DeleteFromDB (guid : Z) : SM unit :=
  if chardelete_removes v guid then
    with_state (fun s => for_each (in_some_order (elements (listers s guid))) (fun u => with_state (fun s1 =>
      when (bool_decide (is_Some (FindPlayer_social s1 u)))
        (RemoveFromSocialList u guid false ;; SendFriendStatus u FRIEND_REMOVED guid false)))) ;;
    SExecute (DeleteCharacter guid) ;;
    SExecute (DeleteSocialsOf guid)
  else SExecute (UnlinkCharacter guid).
Definition HandleCharDeleteOpcode_social (a : Z) (recv_data : ByteBuffer) : SM unit :=
  srecv (shr_uint 8) recv_data (fun guid => with_state (fun s =>
    if bool_decide (is_Some (FindPlayer_social s guid)) || delete_refused v guid then ret tt
    else if default 0 (accounts_of s (GUID_LOPART guid)) =? a then social_DeleteFromDB (GUID_LOPART guid)
    else ret tt)).

(** ** The steps of the server *)

Inductive social_opcode :=
| CMSG_CONTACT_LIST | CMSG_ADD_FRIEND | CMSG_DEL_FRIEND | CMSG_SET_CONTACT_NOTES | CMSG_ADD_IGNORE | CMSG_DEL_IGNORE.
Definition handle_social (a u : Z) (op : social_opcode) (data : ByteBuffer) : SM unit :=
  match op with
  | CMSG_CONTACT_LIST => HandleContactListOpcode u data
  | CMSG_ADD_FRIEND => HandleAddFriendOpcode a data
  | CMSG_DEL_FRIEND => HandleDelFriendOpcode u data
  | CMSG_SET_CONTACT_NOTES => HandleSetContactNotesOpcode u data
  | CMSG_ADD_IGNORE => HandleAddIgnoreOpcode a data
  | CMSG_DEL_IGNORE => HandleDelIgnoreOpcode u data
  end.
(** A session is opened and closed; it asks for a character and is answered; its player
    travels and logs out, sends packets and is answered; characters are made and
    deleted. *)
Inductive social_step :=
| SessionOpen (a : Z)
| SessionClose (a : Z)
| LoginAsked (a : Z) (data : ByteBuffer)
| LoginAnswered (a : Z)
| SocialTravel (a : Z) (arrived : bool)
| SocialLogout (a : Z)
| SocialPacketIn (a : Z) (op : social_opcode) (data : ByteBuffer)
| FriendAnswered (a : Z)
| IgnoreAnswered (a : Z)
| CharacterMade (name : list Z) (race account : Z)
| CharacterDeleted (a : Z) (data : ByteBuffer).
Definition with_session (a : Z) (k : SocialSession -> SM unit) : SM unit := with_state (fun s =>
  match m_sessions s !! a with Some x => k x | None => ret tt end).
Definition with_sender (a : Z) (k : Z -> SM unit) : SM unit := with_session a (fun x =>
  match ss_player x with Some u => when (ss_inWorld x) (k u) | None => ret tt end).
Definition run_social_step (st : social_step) : SM unit :=
  match st with
  | SessionOpen a => with_state (fun s =>
      when ((0 <? a) && bool_decide (m_sessions s !! a = None)) (modify (on_sessions (insert a new_session))))
  | SessionClose a => social_logout a ;; modify (on_sessions (delete a))
  | LoginAsked a data => with_session a (fun x =>
      when (bool_decide (ss_player x = None) && bool_decide (ss_login x = None)) (srecv (shr_uint 8) data (social_login_query a)))
  | LoginAnswered a => with_session a (fun x => match ss_login x with Some q => social_login a q | None => ret tt end)
  | SocialTravel a arrived => with_session a (fun x =>
      when (bool_decide (is_Some (ss_player x))) (upd_session a (set_ss_inWorld arrived)))
  | SocialLogout a => social_logout a
  | SocialPacketIn a op data => with_sender a (fun u => handle_social a u op data)
  | FriendAnswered a => with_session a (fun x =>
      match ss_addFriend x with
      | None => ret tt
      | Some (result, note) =>
          match ss_player x with Some u => HandleAddFriendOpcodeCallBack a u result note | None => ret tt end ;;
          upd_session a (set_ss_addFriend None)
      end)
  | IgnoreAnswered a => with_session a (fun x =>
      match ss_addIgnore x with
      | None => ret tt
      | Some result =>
          match ss_player x with Some u => HandleAddIgnoreOpcodeCallBack u result | None => ret tt end ;;
          upd_session a (set_ss_addIgnore None)
      end)
  | CharacterMade name race account => new_character name race account
  | CharacterDeleted a data => with_session a (fun _ => HandleCharDeleteOpcode_social a data)
  end.
End social.
