(* ===== verification/SocialRuns.v ===== *)
(** * Friends and ignored players: theorems

    What holds of the lists over every run: their sizes, and that they are what the
    database keeps for a player. *)
From S2P Require Import Prelude Text ByteBuffer Channel Social.

(** ** What matters to the lists *)

Record Book := mkBook {
  bo_sessions : gmap Z SocialSession;
  bo_lists : gmap Z (gmap Z (Z * list Z));           (* flags and note *)
  bo_chars : gmap Z CharacterRow;
  bo_rows : SocialRows;
  bo_next : Z
}.
Definition core_info (i : FriendInfo) : Z * list Z := (fi_Flags i, fi_Note i).
Definition core_list (l : PlayerSocialMap) : gmap Z (Z * list Z) := core_info <$> l.
Definition book (s : SocialWorld) : Book :=
  mkBook (m_sessions s) (core_list <$> m_socialMap s) (t_characters s) (t_character_social s) (m_hiCharGuid s).
Definition alive (bo : Book) (g : Z) : Prop := exists c, bo_chars bo !! g = Some c /\ c_deleted c = false.
Definition row_is (e : Z * list Z) : gmap Z (list Z) := {[ e.1 := e.2 ]}.
Arguments row_is : simpl never.

(** At most fifty friends and fifty ignored, and nobody who is neither. *)
Definition count (flag : Z) (l : gmap Z Z) : nat := size (filter (fun p => has_flag p.2 flag = true) l).
Record list_ok (l : gmap Z (Z * list Z)) : Prop := {
  lo_flags : forall f e, l !! f = Some e -> 0 < e.1 < 4;
  lo_friends : (count SOCIAL_FLAG_FRIEND (fst <$> l) <= 50)%nat;
  lo_ignored : (count SOCIAL_FLAG_IGNORED (fst <$> l) <= 50)%nat
}.
(** A list that is taken from the rows of a player about living characters. *)
Definition drawn (bo : Book) (g : Z) (l : gmap Z (Z * list Z)) : Prop :=
  forall f e, l !! f = Some e -> alive bo f /\ bo_rows bo !! (g, f) = Some (row_is e).
Definition list_of_rows (rows : list (Z * Z * list Z)) : gmap Z (Z * list Z) :=
  list_to_map ((fun r => (r.1.1, (r.1.2, r.2))) <$> rows).
Arguments list_of_rows : simpl never.
(** A session has or waits for a character. *)
Definition owns (bo : Book) (a g : Z) : Prop := exists x, bo_sessions bo !! a = Some x /\
  (ss_player x = Some g \/ exists q, ss_login x = Some q /\ lq_guid q = g /\ lq_account q = Some a).

Section contacts.
Context `{!SqlLib}.

(** The row and the entry agree; the note may be the one that was sent. *)
Definition agree (o : option (gmap Z (list Z))) (e : option (Z * list Z)) : Prop :=
  match e with
  | Some e => 0 < e.1 < 4 /\ exists n, o = Some (row_is (e.1, n)) /\ (e.2 = n \/ e.2 = EscapeString n)
  | None => o = None
  end.
Record query_ok (bo : Book) (q : LoginQuery) : Prop := {
  qo_nodup : NoDup ((fun r => r.1.1) <$> lq_rows q);
  qo_list : list_ok (list_of_rows (lq_rows q));
  qo_next : forall f e, list_of_rows (lq_rows q) !! f = Some e -> f < bo_next bo;
  qo_same : alive bo (lq_guid q) -> forall f, alive bo f ->
    bo_rows bo !! (lq_guid q, f) = row_is <$> list_of_rows (lq_rows q) !! f
}.
Record contacts_ok (bo : Book) : Prop := {
  co_list : forall g l, bo_lists bo !! g = Some l -> g < bo_next bo /\ list_ok l /\ (forall f e, l !! f = Some e -> f < bo_next bo);
  co_same : forall g l f, bo_lists bo !! g = Some l -> alive bo g -> alive bo f -> agree (bo_rows bo !! (g, f)) (l !! f);
  co_row : forall g f m, bo_rows bo !! (g, f) = Some m -> g < bo_next bo /\ f < bo_next bo;
  co_away : forall g f m, bo_lists bo !! g = None -> alive bo g -> alive bo f -> bo_rows bo !! (g, f) = Some m ->
    exists e, m = row_is e /\ 0 < e.1 < 4;
  co_limits : forall g l, bo_lists bo !! g = None -> alive bo g -> drawn bo g l -> list_ok l;
  co_lister : forall g, is_Some (bo_lists bo !! g) -> exists a x, bo_sessions bo !! a = Some x /\ ss_player x = Some g;
  co_player : forall a x g, bo_sessions bo !! a = Some x -> ss_player x = Some g -> is_Some (bo_lists bo !! g) /\ ss_login x = None;
  co_query : forall a x q, bo_sessions bo !! a = Some x -> ss_login x = Some q -> lq_account q = Some a ->
    query_ok bo q /\ bo_lists bo !! lq_guid q = None;
  co_friend : forall a x g r ac n, bo_sessions bo !! a = Some x -> ss_addFriend x = Some (Some (g, r, ac), n) -> g < bo_next bo;
  co_ignore : forall a x g, bo_sessions bo !! a = Some x -> ss_addIgnore x = Some (Some g) -> g < bo_next bo;
  co_owner : forall a g, owns bo a g -> g < bo_next bo /\
    forall c, bo_chars bo !! g = Some c -> c_account c = a \/ c_deleted c = true;
  co_only : forall a a' g, owns bo a g -> owns bo a' g -> a = a';
  co_account : forall a, is_Some (bo_sessions bo !! a) -> 0 < a;
  co_char : forall g c, bo_chars bo !! g = Some c -> g < bo_next bo /\ (c_deleted c = true -> c_account c = 0)
}.
End contacts.

(** ** Lists of fifty *)

Lemma flag_range fl flag : 0 < fl < 4 -> (flag = 1 \/ flag = 2) -> 0 < Z.lor fl flag < 4 /\ (Z.ldiff fl flag = 0 \/ 0 < Z.ldiff fl flag < 4).
Proof.
  intros Hfl Hf. assert (E : fl = 1 \/ fl = 2 \/ fl = 3) by lia.
  destruct E as [-> | [-> | ->]], Hf as [-> | ->]; apply (bool_decide_unpack _); vm_compute; exact I.
Qed.
Lemma count_mono flag l l' : l' ⊆ l -> (count flag l' <= count flag l)%nat.
Proof. intros Hl. by apply map_subseteq_size, map_filter_subseteq_mono. Qed.
Lemma count_flag_insert flag l f e : (count flag (<[f := e]> l) <= S (count flag l))%nat.
Proof.
  unfold count. destruct (decide (has_flag e flag = true)) as [He|He].
  - rewrite map_filter_insert_True by done. rewrite map_size_insert. case_match; cbn; lia.
  - rewrite map_filter_insert_False by done. apply le_S, map_subseteq_size, map_filter_subseteq_mono, delete_subseteq.
Qed.
Lemma count_flag_same flag l f e : (has_flag e flag = true -> exists e0, l !! f = Some e0 /\ has_flag e0 flag = true) ->
  (count flag (<[f := e]> l) <= count flag l)%nat.
Proof.
  intros He. unfold count. destruct (decide (has_flag e flag = true)) as [Hf|Hf].
  - destruct (He Hf) as (e0 & H0 & Hf0). rewrite map_filter_insert_True by done. rewrite map_size_insert.
    rewrite (map_lookup_filter_Some_2 _ _ _ _ H0); [cbn; lia | done].
  - rewrite map_filter_insert_False by done. apply map_subseteq_size, map_filter_subseteq_mono, delete_subseteq.
Qed.
Lemma list_ok_delete l f : list_ok l -> list_ok (delete f l).
Proof.
  intros [H1 H2 H3]. split.
  - intros f' e [_ He]%lookup_delete_Some. eauto.
  - etransitivity; [apply count_mono | exact H2]. apply map_fmap_mono, delete_subseteq.
  - etransitivity; [apply count_mono | exact H3]. apply map_fmap_mono, delete_subseteq.
Qed.
(** What lies in a good list, but for the notes. *)
Lemma list_ok_within l l' : list_ok l -> (forall f e, l' !! f = Some e -> exists n, l !! f = Some (e.1, n)) -> list_ok l'.
Proof.
  intros [H1 H2 H3] Hl. assert (Hs : fst <$> l' ⊆ fst <$> l).
  { apply map_subseteq_spec. intros f x. rewrite !lookup_fmap, fmap_Some. intros (e & He & ->).
    destruct (Hl f e He) as [n Hn]. by rewrite Hn. }
  split; [|etransitivity; [by apply count_mono | done]..].
  intros f e He. destruct (Hl f e He) as [n Hn]. apply (H1 f _ Hn).
Qed.
Lemma list_ok_size l : list_ok l -> (size l <= 100)%nat.
Proof.
  intros [H1 H2 H3]. rewrite <- (map_size_fmap fst). set (m := fst <$> l) in *.
  rewrite <- (map_filter_union_complement (fun p => has_flag p.2 SOCIAL_FLAG_FRIEND = true) m).
  rewrite map_size_disj_union by apply map_disjoint_filter_complement.
  assert (Hs : filter (fun p => ~ has_flag p.2 SOCIAL_FLAG_FRIEND = true) m ⊆ filter (fun p => has_flag p.2 SOCIAL_FLAG_IGNORED = true) m).
  { apply map_subseteq_spec. intros f x [Hx Hf]%map_lookup_filter_Some. apply map_lookup_filter_Some. split; [done|].
    assert (Hr : 0 < x < 4). { unfold m in Hx. rewrite lookup_fmap, fmap_Some in Hx. destruct Hx as (e & He & ->). eauto. }
    cbn in *. assert (Hc : x = 1 \/ x = 2 \/ x = 3) by lia. destruct Hc as [-> | [-> | ->]]; [by destruct Hf | done | done]. }
  apply map_subseteq_size in Hs. unfold count in *. lia.
Qed.

(** ** An entry and its row change *)

Section updates.
Context `{!SqlLib}.

Definition with_entry (u f : Z) (o : option (Z * list Z)) (rows' : SocialRows) (bo : Book) : Book :=
  mkBook (bo_sessions bo) (alter (partial_alter (fun _ => o) f) u (bo_lists bo)) (bo_chars bo) rows' (bo_next bo).
Lemma ok_entry bo u l f o rows' : contacts_ok bo -> bo_lists bo !! u = Some l -> f < bo_next bo ->
  list_ok (partial_alter (fun _ => o) f l) ->
  (forall p, p <> (u, f) -> rows' !! p = bo_rows bo !! p) ->
  (alive bo u -> alive bo f -> agree (rows' !! (u, f)) o) ->
  contacts_ok (with_entry u f o rows' bo).
Proof.
  intros Hok Hl Hf Hl' Hrows Hagree. pose proof (co_list _ Hok u l Hl) as (Hu & _ & Hn).
  assert (Hlist : forall g l1, alter (partial_alter (fun _ => o) f) u (bo_lists bo) !! g = Some l1 ->
    (g = u /\ l1 = partial_alter (fun _ => o) f l) \/ (g <> u /\ bo_lists bo !! g = Some l1)).
  { intros g l1. destruct (decide (g = u)) as [->|Hne]; [rewrite lookup_alter_eq, Hl; intros [= <-]; by left|].
    rewrite lookup_alter_ne by congruence. by right. }
  assert (Haway : forall g, alter (partial_alter (fun _ => o) f) u (bo_lists bo) !! g = None -> g <> u /\ bo_lists bo !! g = None).
  { intros g. destruct (decide (g = u)) as [->|Hne]; [by rewrite lookup_alter_eq, Hl|]. by rewrite lookup_alter_ne by congruence. }
  split; cbn.
  - intros g l1 [[-> ->]|[_ H1]]%Hlist; [|by apply (co_list _ Hok)]. split; [done|]. split; [done|]. intros f' e.
    destruct (decide (f' = f)) as [->|Hne]; [done|]. rewrite lookup_partial_alter_ne by congruence. apply Hn.
  - intros g l1 f' [[-> ->]|[Hg H1]]%Hlist Ha Hb.
    + destruct (decide (f' = f)) as [->|Hne]; [rewrite lookup_partial_alter_eq; auto|].
      rewrite lookup_partial_alter_ne, Hrows by congruence. by apply (co_same _ Hok).
    + rewrite Hrows by congruence. by apply (co_same _ Hok).
  - intros g f' m Hm. destruct (decide ((g, f') = (u, f))) as [[= -> ->]|Hne]; [done|]. rewrite Hrows in Hm by done. by apply (co_row _ Hok) in Hm.
  - intros g f' m [Hg H1]%Haway Ha Hb. rewrite Hrows by congruence. by apply (co_away _ Hok).
  - intros g l1 [Hg H1]%Haway Ha Hd. apply (co_limits _ Hok g l1 H1 Ha). intros f' e He. destruct (Hd f' e He) as [Hb Hr].
    split; [done|]. cbn in Hr. by rewrite Hrows in Hr by congruence.
  - intros g [l1 [[-> _]|[_ H1]]%Hlist]; apply (co_lister _ Hok); eauto.
  - intros a x g Hx Hp. destruct (co_player _ Hok a x g Hx Hp) as [Hs Hq]. split; [|done]. by rewrite lookup_alter_is_Some.
  - intros a x q Hx Hq Ha. destruct (co_query _ Hok a x q Hx Hq Ha) as [[Q1 Q2 Q3 Q4] Hnone].
    assert (Hne : lq_guid q <> u) by congruence. split; [|by rewrite lookup_alter_ne by congruence].
    split; [done..|]. cbn. intros Hg f' Hf'. rewrite Hrows by congruence. by apply Q4.
  - intros. by eapply (co_friend _ Hok).
  - intros. by eapply (co_ignore _ Hok).
  - apply (co_owner _ Hok).
  - apply (co_only _ Hok).
  - apply (co_account _ Hok).
  - apply (co_char _ Hok).
Qed.

Lemma rekey_row f e : rekey f (row_is e) = row_is (f e.1, e.2).
Proof. unfold rekey, row_is. rewrite map_to_list_singleton. cbn. rewrite bool_decide_true by apply NoDup_singleton. done. Qed.
Lemma list_ok_insert l f e flag : list_ok l -> 0 < e.1 < 4 -> (flag = SOCIAL_FLAG_FRIEND \/ flag = SOCIAL_FLAG_IGNORED) ->
  (count flag (fst <$> l) < 50)%nat ->
  (forall flag', flag' <> flag -> (flag' = SOCIAL_FLAG_FRIEND \/ flag' = SOCIAL_FLAG_IGNORED) -> has_flag e.1 flag' = true ->
     exists e0, l !! f = Some e0 /\ has_flag e0.1 flag' = true) ->
  list_ok (<[f := e]> l).
Proof.
  intros [H1 H2 H3] He Hflag Hc Hother.
  assert (Hcount : forall flag', (flag' = SOCIAL_FLAG_FRIEND \/ flag' = SOCIAL_FLAG_IGNORED) ->
    (count flag' (fst <$> <[f := e]> l) <= 50)%nat).
  { intros flag' Hf. rewrite fmap_insert. destruct (decide (flag' = flag)) as [->|Hne].
    - etransitivity; [apply count_flag_insert | lia].
    - etransitivity; [apply count_flag_same | by destruct Hf as [-> | ->]].
      intros Hh. destruct (Hother flag' Hne Hf Hh) as (e0 & H0 & Hf0). exists e0.1. by rewrite lookup_fmap, H0. }
  split; [|apply Hcount; auto..]. intros f' e' [[<- <-]|[_ He']]%lookup_insert_Some; eauto.
Qed.
End updates.

(** ** The operations on a list keep it *)

Definition keeps_contacts `{!SqlLib} (s s' : SocialWorld) : Prop := contacts_ok (book s) -> contacts_ok (book s').
#[export] Instance keeps_contacts_preorder `{!SqlLib} : PreOrder keeps_contacts.
Proof. split; [by intros s Hs | intros s1 s2 s3 H12 H23 H1; auto]. Qed.

Lemma core_alter o f u (m : gmap Z PlayerSocialMap) :
  core_list <$> alter (partial_alter (fun _ => o) f) u m = alter (partial_alter (fun _ => core_info <$> o) f) u (core_list <$> m).
Proof.
  apply map_eq. intros g. destruct (decide (g = u)) as [->|Hne].
  - rewrite lookup_fmap, !lookup_alter_eq, lookup_fmap. destruct (m !! u) as [l|]; [cbn; f_equal|done].
    unfold core_list. apply map_eq. intros f'. destruct (decide (f' = f)) as [->|Hf].
    + by rewrite lookup_fmap, !lookup_partial_alter_eq.
    + by rewrite lookup_fmap, !lookup_partial_alter_ne, lookup_fmap by congruence.
  - by rewrite lookup_fmap, !lookup_alter_ne, lookup_fmap by congruence.
Qed.
Lemma book_entry u f o R s : book (on_socialMap (alter (partial_alter (fun _ => o) f) u) (on_social_rows R s)) =
  with_entry u f (core_info <$> o) (R (t_character_social s)) (book s).
Proof. unfold book, with_entry. cbn. by rewrite core_alter. Qed.
Lemma book_list s u l : m_socialMap s !! u = Some l -> bo_lists (book s) !! u = Some (core_list l).
Proof. intros Hl. cbn. by rewrite lookup_fmap, Hl. Qed.
Lemma number_count l flag : list_ok (core_list l) -> (flag = SOCIAL_FLAG_FRIEND \/ flag = SOCIAL_FLAG_IGNORED) ->
  GetNumberOfSocialsWithFlag l flag = Z.of_nat (count flag (fst <$> core_list l)).
Proof.
  intros [_ H2 H3] Hf. assert (E : count flag (fst <$> core_list l) = size (filter (fun p => has_flag (fi_Flags p.2) flag = true) l)).
  { unfold count, core_list. rewrite <- map_fmap_compose, map_filter_fmap, map_size_fmap. done. }
  unfold GetNumberOfSocialsWithFlag. rewrite <- E. apply u32_small. destruct Hf as [-> | ->]; lia.
Qed.

Section operations.
Context `{!Utf8Lib} `{!SqlLib} `{RO : !ResultOrder} (v : SocialView).
Implicit Types s : SocialWorld.

Lemma rs_SExecute st s : run_state (SExecute st) s = social_execute st s.
Proof. done. Qed.
Lemma rs_upd_social u f s : run_state (upd_social u f) s = on_socialMap (alter f u) s.
Proof. done. Qed.
Lemma same_book s s' : book s' = book s -> keeps_contacts s s'.
Proof. intros E. unfold keeps_contacts. by rewrite E. Qed.
Lemma kept_frames {A} (m : SM A) : frames book m -> runs keeps_contacts m.
Proof. intros Hm s. apply same_book, Hm. Qed.
(** What a test of the limits tells. *)
Lemma room_left l (ignore : bool) : list_ok (core_list l) ->
  (if ignore then SOCIALMGR_IGNORE_LIMIT <=? GetNumberOfSocialsWithFlag l SOCIAL_FLAG_IGNORED
   else SOCIALMGR_FRIEND_LIMIT <=? GetNumberOfSocialsWithFlag l SOCIAL_FLAG_FRIEND) = false ->
  (count (if ignore then SOCIAL_FLAG_IGNORED else SOCIAL_FLAG_FRIEND) (fst <$> core_list l) < 50)%nat.
Proof.
  intros Hl. unfold SOCIALMGR_IGNORE_LIMIT, SOCIALMGR_FRIEND_LIMIT. destruct ignore; rewrite number_count by auto; intros Hr%Z.leb_gt; lia.
Qed.
Lemma one_flag (ignore : bool) : let flag := if ignore then SOCIAL_FLAG_IGNORED else SOCIAL_FLAG_FRIEND in
  (flag = SOCIAL_FLAG_FRIEND \/ flag = SOCIAL_FLAG_IGNORED) /\ (flag = 1 \/ flag = 2) /\
  forall flag', flag' <> flag -> (flag' = SOCIAL_FLAG_FRIEND \/ flag' = SOCIAL_FLAG_IGNORED) -> Z.land flag flag' = 0.
Proof. destruct ignore; (split; [auto | split; [vm_compute; auto | intros flag' Hn [-> | ->]; done]]). Qed.
Lemma contacts_AddToSocialList u f ignore s : f < m_hiCharGuid s -> keeps_contacts s (run_state (AddToSocialList u f ignore) s).
Proof.
  intros Hf Hok. unfold AddToSocialList, with_social. rewrite rs_with_state. destruct (m_socialMap s !! u) as [l|] eqn:Hl; [|done].
  pose proof (book_list s u l Hl) as Hb. pose proof (co_list _ Hok u _ Hb) as (Hu & Hlo & Hn).
  destruct (if ignore then _ else _) eqn:Hroom; [done|]. apply (room_left l ignore Hlo) in Hroom.
  destruct (one_flag ignore) as (F1 & F2 & F3). set (flag := if ignore then SOCIAL_FLAG_IGNORED else SOCIAL_FLAG_FRIEND) in *.
  assert (Hlook : core_list l !! f = core_info <$> l !! f) by apply lookup_fmap.
  destruct (l !! f) as [i|] eqn:Hi; cbn in Hlook.
  - rewrite !run_state_bind, rs_ret, rs_SExecute, rs_upd_social. cbn [social_execute].
    unfold insert, map_insert. rewrite book_entry.
    pose proof (lo_flags _ Hlo f _ Hlook) as Hr. cbn in Hr.
    apply (ok_entry _ u (core_list l)); [done | done | done | | |].
    + apply (list_ok_insert _ f _ flag); [done | apply (proj1 (flag_range _ _ Hr F2)) | done | done |].
      intros flag' Hne Hf' Hh. exists (core_info i). split; [done|]. cbn in *. rewrite has_flag_lor_other in Hh; [done|]. by apply F3.
    + intros p Hp. by rewrite lookup_alter_ne by congruence.
    + intros Ha Hb'. pose proof (co_same _ Hok u _ f Hb Ha Hb') as Hag. rewrite Hlook in Hag. destruct Hag as (_ & n & Hrow & Hnote).
      cbn in Hrow |- *. split; [apply (proj1 (flag_range _ _ Hr F2))|]. exists n. rewrite lookup_alter_eq, Hrow. cbn [fmap option_fmap option_map]. by rewrite rekey_row.
  - rewrite !run_state_bind, rs_ret, rs_SExecute, rs_upd_social. cbn [social_execute].
    unfold insert, map_insert. rewrite book_entry.
    assert (Hr : 0 < flag < 4) by lia. change (core_info <$> Some (on_fi_Flags (fun x => Z.lor x flag) no_friend_info)) with (Some (flag, [] : list Z)).
    apply (ok_entry _ u (core_list l)); [done | done | done | | |].
    + apply (list_ok_insert _ f _ flag); [done | done | done | done |]. intros flag' Hne Hf' Hh. cbn in Hh.
      unfold has_flag in Hh. by rewrite F3 in Hh.
    + intros p Hp. unfold insert_row. by rewrite lookup_partial_alter_ne by congruence.
    + intros Ha Hb'. pose proof (co_same _ Hok u _ f Hb Ha Hb') as Hag. rewrite Hlook in Hag. cbn in Hag.
      split; [done|]. exists []. unfold insert_row. rewrite lookup_partial_alter_eq, Hag. cbn. split; [|by left]. by rewrite lookup_empty.
Qed.
Lemma list_ok_lower l f fl n fl' n' : list_ok l -> l !! f = Some (fl, n) -> 0 < fl' < 4 ->
  (forall flag, has_flag fl' flag = true -> has_flag fl flag = true) -> list_ok (<[f := (fl', n')]> l).
Proof.
  intros [H1 H2 H3] Hl Hr Hf.
  assert (Hcount : forall flag, (count flag (fst <$> <[f := (fl', n')]> l) <= count flag (fst <$> l))%nat).
  { intros flag. rewrite fmap_insert. apply count_flag_same. intros Hh. exists fl. rewrite lookup_fmap, Hl. split; [done|]. by apply Hf. }
  split; [|etransitivity; [apply Hcount | done]..]. intros f' e' [[<- <-]|[_ He']]%lookup_insert_Some; eauto.
Qed.
Lemma has_flag_ldiff x m flag : has_flag (Z.ldiff x m) flag = true -> has_flag x flag = true.
Proof.
  unfold has_flag. rewrite !negb_true_iff, !Z.eqb_neq. intros Hd E. apply Hd. apply Z.bits_inj_0. intros k.
  pose proof (f_equal (fun z => Z.testbit z k) E) as Hk. cbn in Hk. rewrite Z.land_spec, Z.bits_0 in Hk.
  rewrite Z.land_spec, Z.ldiff_spec. destruct (Z.testbit x k); [cbn in *; by rewrite Hk, andb_false_r | done].
Qed.
Lemma contacts_RemoveFromSocialList u f ignore : runs keeps_contacts (RemoveFromSocialList u f ignore).
Proof.
  intros s Hok. unfold RemoveFromSocialList, with_social. rewrite rs_with_state. destruct (m_socialMap s !! u) as [l|] eqn:Hl; [|done].
  pose proof (book_list s u l Hl) as Hb. pose proof (co_list _ Hok u _ Hb) as (Hu & Hlo & Hn).
  assert (Hlook : core_list l !! f = core_info <$> l !! f) by apply lookup_fmap.
  destruct (l !! f) as [i|] eqn:Hi; cbn in Hlook; [|done]. cbv zeta.
  destruct (one_flag ignore) as (F1 & F2 & F3). set (flag := if ignore then SOCIAL_FLAG_IGNORED else SOCIAL_FLAG_FRIEND) in *.
  pose proof (lo_flags _ Hlo f _ Hlook) as Hr. cbn in Hr. pose proof (proj2 (flag_range _ _ Hr F2)) as Hr'.
  pose proof (Hn f _ Hlook) as Hf. change (fi_Flags (on_fi_Flags _ i)) with (Z.ldiff (fi_Flags i) flag).
  destruct (Z.eqb_spec (Z.ldiff (fi_Flags i) flag) 0) as [Hz|Hz].
  - rewrite run_state_bind, rs_SExecute, rs_upd_social. cbn [social_execute]. unfold delete at 1, map_delete at 1. rewrite book_entry.
    apply (ok_entry _ u (core_list l)); [done | done | done | by apply list_ok_delete | |].
    + intros p Hp. by rewrite lookup_delete_ne by congruence.
    + intros _ _. apply lookup_delete_eq.
  - rewrite run_state_bind, rs_SExecute, rs_upd_social. cbn [social_execute]. unfold insert, map_insert.
    change (on_social_rows ?R (on_socialMap ?F s)) with (on_socialMap F (on_social_rows R s)). rewrite book_entry.
    apply (ok_entry _ u (core_list l)); [done | done | done | | |].
    + apply (list_ok_lower _ f (fi_Flags i) (fi_Note i)); [done | done | cbn; lia | intros flag'; apply has_flag_ldiff].
    + intros p Hp. by rewrite lookup_alter_ne by congruence.
    + intros Ha Hb'. pose proof (co_same _ Hok u _ f Hb Ha Hb') as Hag. rewrite Hlook in Hag. destruct Hag as (_ & n & Hrow & Hnote).
      cbn in Hrow |- *. split; [lia|]. exists n. rewrite lookup_alter_eq, Hrow. cbn [fmap option_fmap option_map]. by rewrite rekey_row.
Qed.
Lemma fmap_row (n : list Z) e : (fun _ => n) <$> row_is e = row_is (e.1, n).
Proof. unfold row_is. by rewrite map_fmap_singleton. Qed.
Lemma contacts_SetFriendNote u f note : runs keeps_contacts (SetFriendNote u f note).
Proof.
  intros s Hok. unfold SetFriendNote, with_social. rewrite rs_with_state. destruct (m_socialMap s !! u) as [l|] eqn:Hl; [|done].
  pose proof (book_list s u l Hl) as Hb. pose proof (co_list _ Hok u _ Hb) as (Hu & Hlo & Hn).
  assert (Hlook : core_list l !! f = core_info <$> l !! f) by apply lookup_fmap.
  destruct (l !! f) as [i|] eqn:Hi; cbn in Hlook; [|done]. destruct (utf8truncate note 48) as [n| |]; [|done..].
  pose proof (lo_flags _ Hlo f _ Hlook) as Hr. cbn in Hr. pose proof (Hn f _ Hlook) as Hf.
  rewrite run_state_bind, rs_SExecute, rs_upd_social. cbn [social_execute]. unfold insert, map_insert. rewrite book_entry.
  apply (ok_entry _ u (core_list l)); [done | done | done | | |].
  - by apply (list_ok_lower _ f (fi_Flags i) (fi_Note i)).
  - intros p Hp. by rewrite lookup_alter_ne by congruence.
  - intros Ha Hb'. pose proof (co_same _ Hok u _ f Hb Ha Hb') as Hag. rewrite Hlook in Hag. destruct Hag as (_ & n0 & Hrow & Hnote).
    cbn in Hrow |- *. split; [done|]. exists n. rewrite lookup_alter_eq, Hrow. cbn [fmap option_fmap option_map]. rewrite fmap_row. split; [done|]. by right.
Qed.
End operations.

(** ** What is sent changes nothing that matters *)

Section sending.
Context `{!Utf8Lib} `{!SqlLib} `{RO : !ResultOrder} (v : SocialView).
Implicit Types s : SocialWorld.

Lemma core_entry s u f i : bo_lists (book s) !! u ≫= (fun l => l !! f) = Some (core_info i) ->
  exists l j, m_socialMap s !! u = Some l /\ l !! f = Some j /\ core_info j = core_info i.
Proof.
  cbn. rewrite lookup_fmap. destruct (m_socialMap s !! u) as [l|]; [cbn|done]. unfold core_list. rewrite lookup_fmap.
  destruct (l !! f) as [j|] eqn:Hj; [|done]. intros [= E1 E2]. exists l, j. unfold core_info. by rewrite Hj, E1, E2.
Qed.
Lemma rs_GetFriendInfo u f i s : run_state (GetFriendInfo v u f i) s = s.
Proof.
  unfold GetFriendInfo, with_social. rewrite rs_with_state. destruct (FindPlayer_social s f); [|done]. rewrite rs_with_state.
  by destruct (m_socialMap s !! u).
Qed.
Lemma friend_info_core u f i s : bo_lists (book s) !! u ≫= (fun l => l !! f) = Some (core_info i) ->
  core_info (run_value (GetFriendInfo v u f i) s) = core_info i.
Proof.
  intros (l & j & Hl & Hj & [= E1 E2])%core_entry. unfold GetFriendInfo, with_social. rewrite rv_with_state.
  destruct (FindPlayer_social s f); [|done]. rewrite rv_with_state, Hl, rv_ret, Hj. unfold core_info. rewrite E2.
  by destruct (sees v s u f).
Qed.
Lemma book_same_entry s u f i i' : bo_lists (book s) !! u ≫= (fun l => l !! f) = Some (core_info i) -> core_info i' = core_info i ->
  book (on_socialMap (alter (insert f i') u) s) = book s.
Proof.
  intros (l & j & Hl & Hj & E)%core_entry E'. unfold book. cbn. f_equal. unfold insert, map_insert. rewrite core_alter.
  apply map_eq. intros g. destruct (decide (g = u)) as [->|Hne]; [|by rewrite lookup_alter_ne by congruence].
  rewrite lookup_alter_eq, lookup_fmap, Hl. cbn. f_equal. apply map_eq. intros f'. destruct (decide (f' = f)) as [->|Hf].
  - rewrite lookup_partial_alter_eq. unfold core_list. rewrite lookup_fmap, Hj. cbn. congruence.
  - by rewrite lookup_partial_alter_ne by congruence.
Qed.
Lemma book_contacts u mask l s : (forall f i, (f, i) ∈ l -> bo_lists (book s) !! u ≫= (fun l0 => l0 !! f) = Some (core_info i)) ->
  book (run_state (contacts v u mask l) s) = book s.
Proof.
  revert s. induction l as [|[f i] l IH]; intros s Hl; [done|]. cbn [contacts].
  rewrite !run_state_bind, rs_GetFriendInfo, rs_ret, rs_upd_social.
  assert (Hf : bo_lists (book s) !! u ≫= (fun l0 => l0 !! f) = Some (core_info i)) by (apply Hl; left).
  assert (E : book (on_socialMap (alter (insert f (run_value (GetFriendInfo v u f i) s)) u) s) = book s).
  { eapply book_same_entry; [exact Hf | by apply friend_info_core]. }
  rewrite IH; rewrite E; [done|]. intros f' i' Hin. apply Hl. by right.
Qed.
Lemma book_SendSocialList u mask : frames book (SendSocialList v u mask).
Proof.
  intros s. unfold SendSocialList, with_social. rewrite rs_with_state. destruct (m_socialMap s !! u) as [l|] eqn:Hl; [|done].
  rewrite run_state_bind. unfold social_send. rewrite rs_emit. apply book_contacts. intros f i Hin.
  rewrite (book_list s u l Hl). cbn. unfold core_list. rewrite lookup_fmap. apply elem_of_omap_list in Hin. by rewrite Hin.
Qed.
Lemma book_Broadcast u data : frames book (BroadcastToFriendListers v u data).
Proof.
  unfold BroadcastToFriendListers. apply runs_with_state. intros s. apply runs_for_each; [exact _|]. intros [w l].
  cbn. destruct (l !! u); [|apply runs_ret, _]. unfold when, social_send. destruct (_ && _); [apply runs_emit, _ | apply runs_ret, _].
Qed.
Lemma book_SendFriendStatus u r f b : frames book (SendFriendStatus v u r f b).
Proof.
  unfold SendFriendStatus. apply runs_bind; [exact _ | intros s; by rewrite rs_GetFriendInfo |].
  intros i. destruct b; [apply book_Broadcast | apply runs_emit, _].
Qed.
Lemma contacts_SendFriendStatus u r f b : runs keeps_contacts (SendFriendStatus v u r f b).
Proof. apply kept_frames, book_SendFriendStatus. Qed.
End sending.

(** ** Sessions come and go *)

Definition pending_ok (n : Z) (x : SocialSession) : Prop :=
  (forall g r ac note, ss_addFriend x = Some (Some (g, r, ac), note) -> g < n) /\ (forall g, ss_addIgnore x = Some (Some g) -> g < n).
Definition with_sessions (t : gmap Z SocialSession) (bo : Book) : Book :=
  mkBook t (bo_lists bo) (bo_chars bo) (bo_rows bo) (bo_next bo).
Definition with_lists (t : gmap Z (gmap Z (Z * list Z))) (bo : Book) : Book :=
  mkBook (bo_sessions bo) t (bo_chars bo) (bo_rows bo) (bo_next bo).

Section sessions.
Context `{!SqlLib}.

(** Sessions change but for their players. *)
Lemma ok_sessions bo t : contacts_ok bo ->
  (forall a x', t !! a = Some x' -> pending_ok (bo_next bo) x' /\
     exists x, bo_sessions bo !! a = Some x /\ ss_player x' = ss_player x /\ (ss_login x' = ss_login x \/ ss_login x' = None)) ->
  (forall a x g, bo_sessions bo !! a = Some x -> ss_player x = Some g -> exists x', t !! a = Some x' /\ ss_player x' = Some g) ->
  contacts_ok (with_sessions t bo).
Proof.
  intros Hok Ht Hp. assert (Hown : forall a g, owns (with_sessions t bo) a g -> owns bo a g).
  { intros a g (x' & Hx' & Hg). destruct (Ht a x' Hx') as (_ & x & Hx & Ep & El). exists x. split; [done|].
    destruct Hg as [Hg|(q & Hq & Hg)]; [left; congruence|]. right. exists q. split; [|done]. destruct El; congruence. }
  split; try apply Hok; cbn.
  - intros g Hg. destruct (co_lister _ Hok g Hg) as (a & x & Hx & Hxp). destruct (Hp a x g Hx Hxp) as (x' & ? & ?). eauto.
  - intros a x' g Hx' Hg. destruct (Ht a x' Hx') as (_ & x & Hx & Ep & El). rewrite Ep in Hg.
    destruct (co_player _ Hok a x g Hx Hg) as [? ?]. split; [done|]. destruct El; congruence.
  - intros a x' q Hx' Hq Ha. destruct (Ht a x' Hx') as (_ & x & Hx & Ep & El).
    destruct (co_query _ Hok a x q Hx) as [[Q1 Q2 Q3 Q4] Q5]; [destruct El; congruence | done |]. by split.
  - intros a x' g r ac n Hx' Hg. by apply (proj1 (Ht a x' Hx')) in Hg.
  - intros a x' g Hx' Hg. by apply (proj1 (Ht a x' Hx')) in Hg.
  - intros a g Ho. apply (co_owner _ Hok). by apply Hown.
  - intros a a' g Ho Ho'. apply (co_only _ Hok a a' g); by apply Hown.
  - intros a [x' Hx']. destruct (Ht a x' Hx') as (_ & x & Hx & _). apply (co_account _ Hok). eauto.
Qed.
Lemma pending_of bo a x : contacts_ok bo -> bo_sessions bo !! a = Some x -> pending_ok (bo_next bo) x.
Proof.
  intros Hok Hx. split; [intros g r ac n Hg; by apply (co_friend _ Hok a x g r ac n) | intros g Hg; by apply (co_ignore _ Hok a x g)].
Qed.
Lemma ok_session bo a f : contacts_ok bo -> (forall x, ss_player (f x) = ss_player x) ->
  (forall x, ss_login (f x) = ss_login x \/ ss_login (f x) = None) ->
  (forall x, bo_sessions bo !! a = Some x -> pending_ok (bo_next bo) x -> pending_ok (bo_next bo) (f x)) ->
  contacts_ok (with_sessions (alter f a (bo_sessions bo)) bo).
Proof.
  intros Hok Hp Hl Hpend. apply ok_sessions; [done| |].
  - intros b x' Hx'. destruct (decide (b = a)) as [->|Hne].
    + rewrite lookup_alter_eq, fmap_Some in Hx'. destruct Hx' as (x & Hx & ->). split; [|exists x; auto].
      apply Hpend; [done|]. by eapply pending_of.
    + rewrite lookup_alter_ne in Hx' by congruence. split; [by eapply pending_of | eauto].
  - intros b x g Hx Hg. destruct (decide (b = a)) as [->|Hne].
    + rewrite lookup_alter_eq, Hx. eexists. split; [done|]. by rewrite Hp.
    + rewrite lookup_alter_ne by congruence. eauto.
Qed.
Lemma ok_open bo a : contacts_ok bo -> 0 < a -> bo_sessions bo !! a = None ->
  contacts_ok (with_sessions (<[a := new_session]> (bo_sessions bo)) bo).
Proof.
  intros Hok Ha Hnone. assert (Hown : forall b g, owns (with_sessions (<[a := new_session]> (bo_sessions bo)) bo) b g -> owns bo b g).
  { intros b g (x & Hx & Hg). cbn in Hx. apply lookup_insert_Some in Hx as [[<- <-]|[_ Hx]]; [|by exists x].
    destruct Hg as [|(q & ? & _)]; done. }
  split; try apply Hok; cbn.
  - intros g Hg. destruct (co_lister _ Hok g Hg) as (b & x & Hx & Hxp). exists b, x. split; [|done].
    rewrite lookup_insert_ne by congruence. done.
  - intros b x g [[<- <-]|[_ Hx]]%lookup_insert_Some; [done|]. by apply (co_player _ Hok b).
  - intros b x q [[<- <-]|[_ Hx]]%lookup_insert_Some Hq Hb; [done|]. destruct (co_query _ Hok b x q Hx Hq Hb) as [[Q1 Q2 Q3 Q4] Q5]. by split.
  - intros b x g r ac n [[<- <-]|[_ Hx]]%lookup_insert_Some; [done|]. by apply (co_friend _ Hok b x).
  - intros b x g [[<- <-]|[_ Hx]]%lookup_insert_Some; [done|]. by apply (co_ignore _ Hok b x).
  - intros b g Ho. apply (co_owner _ Hok). by apply Hown.
  - intros b b' g Ho Ho'. apply (co_only _ Hok b b' g); by apply Hown.
  - intros b [x [[<- _]|[_ Hx]]%lookup_insert_Some]; [done|]. apply (co_account _ Hok). eauto.
Qed.

(** What an entry that agrees with a row is worth. *)
Lemma agree_row o e m : agree o e -> o = Some m -> exists e0 n, e = Some (e0, n) /\ 0 < e0 < 4 /\ exists n0, m = row_is (e0, n0).
Proof.
  destruct e as [[fl n]|]; cbn; [|congruence]. intros (Hr & n0 & -> & _) [= <-]. exists fl, n. eauto.
Qed.
Lemma row_is_inj e e' : row_is e = row_is e' -> e = e'.
Proof.
  destruct e as [a n], e' as [a' n']. unfold row_is. cbn [fst snd]. intros E.
  assert (H1 : ({[a := n]} : gmap Z (list Z)) !! a = Some n) by apply lookup_singleton_eq. rewrite E in H1.
  apply lookup_singleton_Some in H1 as [-> ->]. done.
Qed.
(** The player of a session logs out: his list is what the database has. *)
Lemma ok_logout bo a x g : contacts_ok bo -> bo_sessions bo !! a = Some x -> ss_player x = Some g ->
  contacts_ok (with_sessions (alter (set_ss_player None false) a (bo_sessions bo)) (with_lists (delete g (bo_lists bo)) bo)).
Proof.
  intros Hok Hx Hg. set (bo' := with_sessions _ _).
  assert (Hsess : forall b y', alter (set_ss_player None false) a (bo_sessions bo) !! b = Some y' ->
    exists y, bo_sessions bo !! b = Some y /\ ((b = a /\ y' = set_ss_player None false y) \/ (b <> a /\ y' = y))).
  { intros b y'. destruct (decide (b = a)) as [->|Hne].
    - rewrite lookup_alter_eq, fmap_Some. intros (y & Hy & ->). eauto.
    - rewrite lookup_alter_ne by congruence. eauto. }
  assert (Hown : forall b h, owns bo' b h -> owns bo b h).
  { intros b h (y' & (y & Hy & [[-> ->]|[_ ->]])%Hsess & Hh); exists y; (split; [done|]); [|done].
    destruct Hh as [|Hh]; [done | by right]. }
  assert (Hme : owns bo a g) by (exists x; auto).
  destruct (co_player _ Hok a x g Hx Hg) as [[l Hl] Hq].
  split; try apply Hok; cbn.
  - intros h l1 [_ H1]%lookup_delete_Some. by apply (co_list _ Hok).
  - intros h l1 f [_ H1]%lookup_delete_Some. by apply (co_same _ Hok).
  - intros h f m Hn Ha Hf Hm. destruct (decide (h = g)) as [->|Hne]; [|rewrite lookup_delete_ne in Hn by congruence; by eapply (co_away _ Hok)].
    destruct (agree_row _ _ m (co_same _ Hok g l f Hl Ha Hf) Hm) as (e0 & n & _ & Hr & n0 & ->). by exists (e0, n0).
  - intros h l1 Hn Ha Hd. destruct (decide (h = g)) as [->|Hne]; [|rewrite lookup_delete_ne in Hn by congruence; by eapply (co_limits _ Hok)].
    apply (list_ok_within l); [by apply (co_list _ Hok g)|]. intros f e He. destruct (Hd f e He) as [Hf Hr].
    destruct (agree_row _ _ _ (co_same _ Hok g l f Hl Ha Hf) Hr) as (e0 & n & Hlf & _ & n0 & E). apply row_is_inj in E as ->. eauto.
  - intros h [l1 [Hne Hl1]%lookup_delete_Some]. destruct (co_lister _ Hok h) as (b & y & Hy & Hyp); [eauto|].
    exists b, y. split; [|done]. rewrite lookup_alter_ne; [done|]. intros ->. congruence.
  - intros b y' h (y & Hy & [[-> ->]|[Hb ->]])%Hsess Hh; [done|]. destruct (co_player _ Hok b y h Hy Hh) as [Hs Hq'].
    split; [|done]. rewrite lookup_delete_ne; [done|]. intros <-. apply Hb. apply (co_only _ Hok b a g); [exists y; auto | done].
  - intros b y' q (y & Hy & [[-> ->]|[Hb ->]])%Hsess Hq' Hac; [cbn in Hq'; congruence|].
    destruct (co_query _ Hok b y q Hy Hq' Hac) as [[Q1 Q2 Q3 Q4] Q5]. split; [by split|].
    destruct (decide (lq_guid q = g)) as [->|Hne]; [apply lookup_delete_eq | by rewrite lookup_delete_ne by congruence].
  - intros b y' h r ac n (y & Hy & [[-> ->]|[Hb ->]])%Hsess Hp; by eapply (co_friend _ Hok).
  - intros b y' h (y & Hy & [[-> ->]|[Hb ->]])%Hsess Hp; by eapply (co_ignore _ Hok).
  - intros b h Ho. apply (co_owner _ Hok). by apply Hown.
  - intros b b' h Ho Ho'. apply (co_only _ Hok b b' h); by apply Hown.
  - intros b [y' (y & Hy & _)%Hsess]. apply (co_account _ Hok). eauto.
Qed.
End sessions.

(** ** A list is loaded *)

Section loading.
Context `{!SqlLib} `{RO : !ResultOrder} `{RL : !ResultOrderLaws}.
Implicit Types s : SocialWorld.

Definition rows_of (s : SocialWorld) (u : Z) (p : Z * Z * gmap Z (list Z)) : list (Z * Z * list Z) :=
  if (p.1.1 =? u) && living s p.1.2 then (fun q => (p.1.2, q.1, q.2)) <$> map_to_list p.2 else [].
Definition all_rows (s : SocialWorld) (u : Z) : list (Z * Z * list Z) := concat (rows_of s u <$> map_to_list (t_character_social s)).
Lemma social_list_rows s u : social_list s u = take 255 (in_some_order (all_rows s u)).
Proof. done. Qed.
Lemma living_alive s g : living s g = true <-> alive (book s) g.
Proof.
  unfold living, alive. cbn. destruct (t_characters s !! g) as [c|]; [|split; [done | by intros (? & ? & _)]].
  rewrite negb_true_iff. split; [eauto | by intros (c' & [= <-] & ?)].
Qed.
Lemma elem_rows_of s u p r : r ∈ rows_of s u p <-> p.1 = (u, r.1.1) /\ alive (book s) r.1.1 /\ p.2 !! r.1.2 = Some r.2.
Proof.
  unfold rows_of. destruct p as [[w f] m], r as [[f' fl] n]. cbn [fst snd]. split.
  - destruct (Z.eqb_spec w u) as [->|]; [|intros Hin; cbn in Hin; by apply not_elem_of_nil in Hin].
    destruct (living s f) eqn:Hf; cbn [andb]; [|intros Hin; by apply not_elem_of_nil in Hin].
    rewrite list_elem_of_fmap. intros ([fl' n'] & [= -> -> ->] & Hin%elem_of_map_to_list). apply living_alive in Hf. auto.
  - intros ([= -> ->] & Hf%living_alive & Hm). rewrite Z.eqb_refl, Hf. cbn [andb]. apply list_elem_of_fmap.
    exists (fl, n). split; [done|]. by apply elem_of_map_to_list.
Qed.
Lemma elem_all_rows s u f fl n : (f, fl, n) ∈ all_rows s u <->
  alive (book s) f /\ exists m, t_character_social s !! (u, f) = Some m /\ m !! fl = Some n.
Proof.
  unfold all_rows. rewrite list_elem_of_In, in_concat. split.
  - intros (x & Hx & Hr). apply list_elem_of_In, list_elem_of_fmap in Hx as ([k m] & -> & Hin). apply list_elem_of_In, elem_rows_of in Hr.
    cbn in Hr. destruct Hr as (-> & Hf & Hm). apply elem_of_map_to_list in Hin. eauto.
  - intros (Hf & m & Hin & Hm). exists (rows_of s u ((u, f), m)). split.
    + apply list_elem_of_In, list_elem_of_fmap. exists ((u, f), m). split; [done|]. by apply elem_of_map_to_list.
    + apply list_elem_of_In, elem_rows_of. auto.
Qed.
(** A player who is away has one row for each living character. *)
Lemma all_rows_nodup s u : contacts_ok (book s) -> bo_lists (book s) !! u = None -> alive (book s) u ->
  NoDup ((fun r => r.1.1) <$> all_rows s u).
Proof.
  intros Hok Hn Hu. assert (Hone : forall k m, (k, m) ∈ map_to_list (t_character_social s) -> (length (rows_of s u (k, m)) <= 1)%nat).
  { intros [w f] m Hin%elem_of_map_to_list. unfold rows_of. cbn [fst snd]. destruct (Z.eqb_spec w u) as [->|]; [|cbn; lia].
    destruct (living s f) eqn:Hf; [|cbn; lia]. apply living_alive in Hf.
    destruct (co_away _ Hok u f m Hn Hu Hf Hin) as (e & -> & _). cbn [andb]. unfold row_is. rewrite map_to_list_singleton. cbn. lia. }
  unfold all_rows. pose proof (NoDup_fst_map_to_list (t_character_social s)) as Hnd. revert Hnd Hone.
  generalize (map_to_list (t_character_social s)). intros l. induction l as [|[k m] l IH]; [constructor|].
  cbn [fmap list_fmap concat]. intros [Hk Hnd]%NoDup_cons Hone. rewrite fmap_app. apply NoDup_app. split; [|split].
  - specialize (Hone k m). destruct (rows_of s u (k, m)) as [|r [|r' ?]]; cbn; [constructor | apply NoDup_singleton | exfalso].
    cbn in Hone. specialize (Hone ltac:(left)). lia.
  - intros f (r & -> & Hr)%list_elem_of_fmap (r' & E & Hr')%list_elem_of_fmap. apply Hk. apply elem_rows_of in Hr as (Ek & _). cbn in Ek.
    apply list_elem_of_In, in_concat in Hr' as (x & Hx & Hr'). apply list_elem_of_In, list_elem_of_fmap in Hx as ([k' m'] & -> & Hin).
    apply list_elem_of_In, elem_rows_of in Hr' as (Ek' & _). cbn in Ek'. apply list_elem_of_fmap. exists (k', m'). split; [cbn; congruence | done].
  - apply IH; [done|]. intros k' m' Hin. apply Hone. by right.
Qed.
Lemma list_of_rows_lookup l f fl n : NoDup ((fun r => r.1.1) <$> l) -> list_of_rows l !! f = Some (fl, n) <-> (f, fl, n) ∈ l.
Proof.
  intros Hnd. unfold list_of_rows. rewrite <- elem_of_list_to_map.
  - rewrite list_elem_of_fmap. split; [intros ([[f' fl'] n'] & [= -> -> ->] & ?); done | intros Hin; by exists (f, fl, n)].
  - by rewrite <- list_fmap_compose.
Qed.
Lemma list_of_rows_size l : NoDup ((fun r => r.1.1) <$> l) -> size (list_of_rows l) = length l.
Proof.
  intros Hnd. unfold list_of_rows. rewrite <- length_map_to_list, map_to_list_to_map by (by rewrite <- list_fmap_compose).
  apply length_fmap.
Qed.
(** The answer to the query of a log-in. *)
Lemma query_answer s a g : contacts_ok (book s) -> 0 < a -> accounts_of s g = Some a -> bo_lists (book s) !! g = None ->
  query_ok (book s) (mkLoginQuery g (Some a) (social_list s g)).
Proof.
  intros Hok Ha Hac Hn. assert (Hg : alive (book s) g).
  { unfold accounts_of in Hac. apply fmap_Some in Hac as (c & Hc & ->). exists c. split; [done|].
    destruct (c_deleted c) eqn:Hd; [|done]. pose proof (proj2 (co_char _ Hok g c Hc) Hd). lia. }
  pose proof (all_rows_nodup s g Hok Hn Hg) as Hnd0.
  assert (Hperm : (fun r : Z * Z * list Z => r.1.1) <$> in_some_order (all_rows s g) ≡ₚ (fun r => r.1.1) <$> all_rows s g) by (by rewrite in_some_order_perm).
  assert (Hnd : NoDup ((fun r : Z * Z * list Z => r.1.1) <$> in_some_order (all_rows s g))) by (by rewrite Hperm).
  assert (Hlook : forall f e, list_of_rows (in_some_order (all_rows s g)) !! f = Some e <->
    alive (book s) f /\ exists m, t_character_social s !! (g, f) = Some m /\ m !! e.1 = Some e.2).
  { intros f [fl n]. rewrite list_of_rows_lookup by done. by rewrite in_some_order_perm, elem_all_rows. }
  assert (Hrow : forall f e, list_of_rows (in_some_order (all_rows s g)) !! f = Some e -> alive (book s) f /\ t_character_social s !! (g, f) = Some (row_is e)).
  { intros f e (Hf & m & Hm & He)%Hlook. split; [done|]. destruct (co_away _ Hok g f m Hn Hg Hf Hm) as (e' & -> & _).
    rewrite Hm. unfold row_is in He. apply lookup_singleton_Some in He as [E1 E2]. destruct e, e'. cbn in *. by subst. }
  assert (Hlo : list_ok (list_of_rows (in_some_order (all_rows s g)))) by (apply (co_limits _ Hok g _ Hn Hg); exact Hrow).
  assert (Et : social_list s g = in_some_order (all_rows s g)).
  { rewrite social_list_rows. apply take_ge. rewrite <- list_of_rows_size by done. apply list_ok_size in Hlo. lia. }
  rewrite Et. split; cbn; [done | done | |].
  - intros f e He. apply Hrow in He as [_ Hm]. by apply (co_row _ Hok g f (row_is e)).
  - intros _ f Hf. destruct (list_of_rows (in_some_order (all_rows s g)) !! f) as [e|] eqn:He; [by apply Hrow in He as [_ ->]|].
    cbn. destruct (t_character_social s !! (g, f)) as [m|] eqn:Hm; [|done].
    destruct (co_away _ Hok g f m Hn Hg Hf Hm) as (e & -> & _). exfalso. assert (Hc : list_of_rows (in_some_order (all_rows s g)) !! f = Some e); [|congruence].
    apply Hlook. split; [done|]. exists (row_is e). split; [done|]. apply lookup_singleton_eq.
Qed.
(** Reading goes on to the end. *)
Lemma load_all rows l : NoDup ((fun r => r.1.1) <$> rows) -> (forall r, r ∈ rows -> l !! r.1.1 = None) -> (size l + length rows <= 100)%nat ->
  load_rows rows l = list_to_map ((fun r => (r.1.1, new_friend_info r.1.2 r.2)) <$> rows) ∪ l.
Proof.
  revert l. induction rows as [|[[f fl] n] rows IH]; intros l Hnd Hl Hs; [cbn; by rewrite (left_id_L ∅ (∪))|].
  cbn [fmap list_fmap] in Hnd. apply NoDup_cons in Hnd as [Hf Hnd]. cbn in Hf, Hs. cbn [load_rows].
  assert (Hn : l !! f = None) by (apply (Hl (f, fl, n)); left). assert (E : size (<[f := new_friend_info fl n]> l) = S (size l)).
  { by rewrite map_size_insert, Hn. }
  assert (Hu : list_to_map ((fun r : Z * Z * list Z => (r.1.1, new_friend_info r.1.2 r.2)) <$> (f, fl, n) :: rows) ∪ l =
    list_to_map ((fun r : Z * Z * list Z => (r.1.1, new_friend_info r.1.2 r.2)) <$> rows) ∪ <[f := new_friend_info fl n]> l).
  { cbn. rewrite <- insert_union_l. rewrite insert_union_r; [done|]. apply not_elem_of_list_to_map_1. by rewrite <- list_fmap_compose. }
  rewrite Hu. destruct (Z.leb_spec (SOCIALMGR_FRIEND_LIMIT + SOCIALMGR_IGNORE_LIMIT) (Z.of_nat (size (<[f := new_friend_info fl n]> l)))) as [Hfull|_].
  - rewrite E in Hfull. unfold SOCIALMGR_FRIEND_LIMIT, SOCIALMGR_IGNORE_LIMIT in Hfull.
    assert (E0 : rows = []) by (destruct rows; [done | cbn in Hs; lia]). subst. cbn. by rewrite (left_id_L ∅ (∪)).
  - apply IH; [done | | lia]. intros r Hr. rewrite lookup_insert_ne; [apply Hl; by right|]. intros ->. apply Hf. apply list_elem_of_fmap. by exists r.
Qed.
Lemma core_loaded rows : NoDup ((fun r => r.1.1) <$> rows) -> list_ok (list_of_rows rows) -> core_list (load_rows rows ∅) = list_of_rows rows.
Proof.
  intros Hnd Hlo. apply list_ok_size in Hlo. rewrite list_of_rows_size in Hlo by done. rewrite load_all; [| done | | rewrite map_size_empty; lia].
  2: { intros r _. apply lookup_empty. }
  rewrite (right_id_L ∅ (∪)). unfold core_list, list_of_rows. rewrite <- list_to_map_fmap, <- list_fmap_compose. done.
Qed.
End loading.

(** ** Logging in *)

Section logging_in.
Context `{!SqlLib}.

Lemma owner_is bo a b g c : contacts_ok bo -> 0 < a -> owns bo b g -> bo_chars bo !! g = Some c -> c_account c = a -> b = a.
Proof.
  intros Hok Ha Ho Hc E. destruct (proj2 (co_owner _ Hok b g Ho) c Hc) as [|Hd]; [congruence|].
  pose proof (proj2 (co_char _ Hok g c Hc) Hd). lia.
Qed.
Lemma ok_ask bo a x q : contacts_ok bo -> bo_sessions bo !! a = Some x -> ss_player x = None -> ss_login x = None ->
  (lq_account q = Some a -> query_ok bo q /\ bo_lists bo !! lq_guid q = None /\ exists c, bo_chars bo !! lq_guid q = Some c /\ c_account c = a) ->
  contacts_ok (with_sessions (alter (set_ss_login (Some q)) a (bo_sessions bo)) bo).
Proof.
  intros Hok Hx Hp Hl Hq. set (bo' := with_sessions _ bo). assert (Ha : 0 < a) by (apply (co_account _ Hok); eauto).
  assert (Hsess : forall b y', alter (set_ss_login (Some q)) a (bo_sessions bo) !! b = Some y' ->
    (b = a /\ y' = set_ss_login (Some q) x) \/ (b <> a /\ bo_sessions bo !! b = Some y')).
  { intros b y'. destruct (decide (b = a)) as [->|Hne]; [rewrite lookup_alter_eq, Hx; intros [= <-]; by left|].
    rewrite lookup_alter_ne by congruence. by right. }
  assert (Hown : forall b h, owns bo' b h -> owns bo b h \/ (b = a /\ h = lq_guid q /\ lq_account q = Some a)).
  { intros b h (y' & [[-> ->]|[Hne Hy]]%Hsess & Hh); [right | left; by exists y'].
    destruct Hh as [Hh|(q' & [= <-] & <- & ?)]; [cbn in Hh; congruence | done]. }
  split; try apply Hok; cbn.
  - intros g Hg. destruct (co_lister _ Hok g Hg) as (b & y & Hy & Hyp). exists b, y. split; [|done].
    rewrite lookup_alter_ne; [done|]. intros <-. congruence.
  - intros b y' g [[-> ->]|[_ Hy]]%Hsess Hg; [cbn in Hg; congruence|]. by apply (co_player _ Hok b).
  - intros b y' q' [[-> ->]|[Hne Hy]]%Hsess Hq' Hac.
    + injection Hq' as <-. destruct (Hq Hac) as ([Q1 Q2 Q3 Q4] & Q5 & _). by split.
    + destruct (co_query _ Hok b y' q' Hy Hq' Hac) as [[Q1 Q2 Q3 Q4] Q5]. by split.
  - intros b y' g r ac n [[-> ->]|[_ Hy]]%Hsess Hg; by eapply (co_friend _ Hok).
  - intros b y' g [[-> ->]|[_ Hy]]%Hsess Hg; by eapply (co_ignore _ Hok).
  - intros b h [Ho|(-> & -> & Hac)]%Hown; [by apply (co_owner _ Hok)|]. destruct (Hq Hac) as (_ & _ & c & Hc & E).
    split; [by apply (co_char _ Hok _ c)|]. intros c' Hc'. left. congruence.
  - intros b b' h [Ho|(-> & -> & Hac)]%Hown [Ho'|(-> & E & Hac')]%Hown; [by apply (co_only _ Hok b b' h) | | | done].
    + subst h. destruct (Hq Hac') as (_ & _ & c & Hc & E). by apply (owner_is bo a b (lq_guid q) c).
    + destruct (Hq Hac) as (_ & _ & c & Hc & E). symmetry. by apply (owner_is bo a b' (lq_guid q) c).
  - intros b [y' [[-> _]|[_ Hy]]%Hsess]; [done|]. apply (co_account _ Hok). eauto.
Qed.
Lemma ok_login bo a x q b0 : contacts_ok bo -> bo_sessions bo !! a = Some x -> ss_login x = Some q -> lq_account q = Some a ->
  contacts_ok (with_sessions (alter (fun y => set_ss_player (Some (lq_guid q)) b0 (set_ss_login None y)) a (bo_sessions bo))
    (with_lists (<[lq_guid q := list_of_rows (lq_rows q)]> (bo_lists bo)) bo)).
Proof.
  intros Hok Hx Hl Hac. set (bo' := with_sessions _ _). set (u := lq_guid q).
  destruct (co_query _ Hok a x q Hx Hl Hac) as [[Q1 Q2 Q3 Q4] Q5].
  assert (Hp : ss_player x = None).
  { destruct (ss_player x) as [g|] eqn:E; [|done]. pose proof (proj2 (co_player _ Hok a x g Hx E)). congruence. }
  assert (Hme : owns bo a u) by (exists x; split; [done|]; right; by exists q).
  assert (Hsess : forall b y', alter (fun y => set_ss_player (Some u) b0 (set_ss_login None y)) a (bo_sessions bo) !! b = Some y' ->
    (b = a /\ y' = set_ss_player (Some u) b0 (set_ss_login None x)) \/ (b <> a /\ bo_sessions bo !! b = Some y')).
  { intros b y'. destruct (decide (b = a)) as [->|Hne]; [rewrite lookup_alter_eq, Hx; intros [= <-]; by left|].
    rewrite lookup_alter_ne by congruence. by right. }
  assert (Hown : forall b h, owns bo' b h -> owns bo b h).
  { intros b h (y' & [[-> ->]|[Hne Hy]]%Hsess & Hh); [|by exists y']. destruct Hh as [[= <-]|(q' & ? & _)]; done. }
  split; try apply Hok; cbn.
  - intros g l [[<- <-]|[_ H1]]%lookup_insert_Some; [|by apply (co_list _ Hok)]. split; [by apply (co_owner _ Hok a)|]. by split.
  - intros g l f [[<- <-]|[_ H1]]%lookup_insert_Some Hg Hf; [|by apply (co_same _ Hok)]. rewrite (Q4 Hg f Hf).
    destruct (list_of_rows (lq_rows q) !! f) as [e|] eqn:He; [|done]. cbn. split; [by apply (lo_flags _ Q2 f)|].
    exists e.2. destruct e. auto.
  - intros g f m [Hn Hne]%lookup_insert_None. by apply (co_away _ Hok).
  - intros g l [Hn Hne]%lookup_insert_None. by apply (co_limits _ Hok).
  - intros g [l [[<- _]|[Hne H1]]%lookup_insert_Some].
    + exists a. eexists. rewrite lookup_alter_eq, Hx. split; [done|]. done.
    + destruct (co_lister _ Hok g) as (b & y & Hy & Hyp); [eauto|]. exists b, y. split; [|done].
      rewrite lookup_alter_ne; [done|]. intros <-. congruence.
  - intros b y' g [[-> ->]|[_ Hy]]%Hsess Hg.
    + injection Hg as <-. fold u. rewrite lookup_insert_eq. eauto.
    + destruct (co_player _ Hok b y' g Hy Hg) as [Hs Hq']. split; [|done]. apply lookup_insert_is_Some'. by right.
  - intros b y' q' [[-> ->]|[Hne Hy]]%Hsess Hq' Hac'; [done|]. destruct (co_query _ Hok b y' q' Hy Hq' Hac') as [[P1 P2 P3 P4] P5].
    split; [by split|]. rewrite lookup_insert_ne; [done|]. intros E. apply Hne. apply (co_only _ Hok b a u); [|done].
    exists y'. split; [done|]. right. by exists q'.
  - intros b y' g r ac n [[-> ->]|[_ Hy]]%Hsess Hg; by eapply (co_friend _ Hok).
  - intros b y' g [[-> ->]|[_ Hy]]%Hsess Hg; by eapply (co_ignore _ Hok).
  - intros b h Ho. apply (co_owner _ Hok). by apply Hown.
  - intros b b' h Ho Ho'. apply (co_only _ Hok b b' h); by apply Hown.
  - intros b [y' [[-> _]|[_ Hy]]%Hsess]; apply (co_account _ Hok); eauto.
Qed.
End logging_in.

(** ** Characters are made and deleted *)

Section characters.
Context `{!SqlLib}.

Definition with_characters (c : gmap Z CharacterRow) (t : SocialRows) (bo : Book) : Book :=
  mkBook (bo_sessions bo) (bo_lists bo) c t (bo_next bo).
Lemma ok_fewer bo c t : contacts_ok bo ->
  (forall g x', c !! g = Some x' -> exists x, bo_chars bo !! g = Some x /\ (x' = x \/ (c_account x' = 0 /\ c_deleted x' = true))) ->
  (forall p m, t !! p = Some m -> bo_rows bo !! p = Some m) ->
  (forall g f, alive (with_characters c t bo) g -> alive (with_characters c t bo) f -> t !! (g, f) = bo_rows bo !! (g, f)) ->
  contacts_ok (with_characters c t bo).
Proof.
  intros Hok Hc Ht Hsame. set (bo' := with_characters c t bo) in *.
  assert (Ha : forall g, alive bo' g -> alive bo g).
  { intros g (x' & Hx' & Hd). destruct (Hc g x' Hx') as (x & Hx & [->|[_ Hd']]); [by exists x | congruence]. }
  split; try apply Hok; cbn.
  - intros g l f Hl Hg Hf. rewrite (Hsame g f Hg Hf). apply (co_same _ Hok); auto.
  - intros g f m Hm%Ht. by apply (co_row _ Hok g f m).
  - intros g f m Hn Hg Hf Hm%Ht. apply (co_away _ Hok g f m); auto.
  - intros g l Hn Hg Hd. apply (co_limits _ Hok g l Hn (Ha g Hg)). intros f e He. destruct (Hd f e He) as [Hf Hm].
    split; [by apply Ha|]. by apply Ht.
  - intros a x q Hx Hq Hac. destruct (co_query _ Hok a x q Hx Hq Hac) as [[Q1 Q2 Q3 Q4] Q5]. split; [|done]. split; [done..|].
    intros Hg f Hf. cbn. rewrite (Hsame _ f Hg Hf). auto.
  - intros a g Ho. destruct (co_owner _ Hok a g Ho) as [H1 H2]. split; [done|]. intros x' Hx'.
    destruct (Hc g x' Hx') as (x & Hx & [->|[_ Hd]]); [by apply H2 | by right].
  - intros g x' Hx'. destruct (Hc g x' Hx') as (x & Hx & Hor). destruct (co_char _ Hok g x Hx) as [H1 H2]. split; [done|].
    destruct Hor as [->|[E _]]; auto.
Qed.
Lemma ok_made bo x : contacts_ok bo -> c_deleted x = false ->
  contacts_ok (mkBook (bo_sessions bo) (bo_lists bo) (<[bo_next bo := x]> (bo_chars bo)) (bo_rows bo) (bo_next bo + 1)).
Proof.
  intros Hok Hx. set (bo' := mkBook _ _ _ _ _). set (n := bo_next bo) in *.
  assert (Ha : forall g, alive bo' g -> g = n \/ (g <> n /\ alive bo g)).
  { intros g (x' & Hx' & Hd). cbn in Hx'. apply lookup_insert_Some in Hx' as [[<- _]|[Hne Hx']]; [by left|]. right. split; [done|]. by exists x'. }
  assert (Hr1 : forall f, bo_rows bo !! (n, f) = None).
  { intros f. destruct (bo_rows bo !! (n, f)) as [m|] eqn:E; [|done]. pose proof (proj1 (co_row _ Hok n f m E)) as Hlt. fold n in Hlt. lia. }
  assert (Hr2 : forall g, bo_rows bo !! (g, n) = None).
  { intros g. destruct (bo_rows bo !! (g, n)) as [m|] eqn:E; [|done]. pose proof (proj2 (co_row _ Hok g n m E)) as Hlt. fold n in Hlt. lia. }
  split; try apply Hok; cbn; fold n.
  - intros g l Hl. destruct (co_list _ Hok g l Hl) as (H1 & H2 & H3). fold n in H1, H3. split; [lia|]. split; [done|].
    intros f e He. specialize (H3 f e He). lia.
  - intros g l f Hl Hg Hf. destruct (co_list _ Hok g l Hl) as (H1 & _ & H3). fold n in H1, H3.
    apply Ha in Hg as [->|[_ Hg]]; [lia|]. apply Ha in Hf as [->|[_ Hf]]; [|by apply (co_same _ Hok)].
    rewrite Hr2. destruct (l !! n) as [e|] eqn:He; [specialize (H3 n e He); lia | done].
  - intros g f m Hm. destruct (co_row _ Hok g f m Hm) as [H1 H2]. fold n in H1, H2. lia.
  - intros g f m Hn Hg Hf Hm. apply Ha in Hg as [->|[_ Hg]]; [by rewrite Hr1 in Hm|].
    apply Ha in Hf as [->|[_ Hf]]; [by rewrite Hr2 in Hm|]. by apply (co_away _ Hok g f m).
  - intros g l Hn Hg Hd. apply Ha in Hg as [->|[_ Hg]].
    + assert (El : l = ∅). { apply map_empty. intros f. destruct (l !! f) as [e|] eqn:He; [|done]. destruct (Hd f e He) as [_ Hm]. cbn in Hm. by rewrite Hr1 in Hm. }
      subst l. split; [intros f e; by rewrite lookup_empty | vm_compute; lia..].
    + apply (co_limits _ Hok g l Hn Hg). intros f e He. destruct (Hd f e He) as [Hf Hm]. cbn in Hm. split; [|done].
      apply Ha in Hf as [->|[_ Hf]]; [by rewrite Hr2 in Hm | done].
  - intros a y q Hy Hq Hac. destruct (co_query _ Hok a y q Hy Hq Hac) as [[Q1 Q2 Q3 Q4] Q5]. fold n in Q3.
    assert (Hown : owns bo a (lq_guid q)) by (exists y; split; [done|]; right; by exists q).
    pose proof (proj1 (co_owner _ Hok a _ Hown)) as Hlt. fold n in Hlt. split; [|done]. split; [done | done | |]; cbn.
    + fold n. intros f e He. specialize (Q3 f e He). lia.
    + intros Hg f Hf. apply Ha in Hg as [Hg|[_ Hg]]; [lia|]. apply Ha in Hf as [->|[_ Hf]]; [|by apply Q4].
      rewrite Hr2. destruct (list_of_rows (lq_rows q) !! n) as [e|] eqn:He; [specialize (Q3 n e He); lia | done].
  - intros a y g r ac note Hy Hg. pose proof (co_friend _ Hok a y g r ac note Hy Hg) as Hlt. fold n in Hlt. lia.
  - intros a y g Hy Hg. pose proof (co_ignore _ Hok a y g Hy Hg) as Hlt. fold n in Hlt. lia.
  - intros a g Ho. destruct (co_owner _ Hok a g Ho) as [H1 H2]. fold n in H1. split; [lia|].
    intros c. rewrite lookup_insert_ne by lia. apply H2.
  - intros g c [[<- <-]|[_ Hc]]%lookup_insert_Some; [split; [lia | congruence]|].
    destruct (co_char _ Hok g c Hc) as [H1 H2]. fold n in H1. split; [lia | done].
Qed.
End characters.

(** ** The steps of the server *)

Section steps.
Context `{!Utf8Lib} `{!SqlLib} `{RO : !ResultOrder} `{RL : !ResultOrderLaws} (v : SocialView).
Implicit Types s : SocialWorld.
Hint Resolve contacts_RemoveFromSocialList contacts_SetFriendNote contacts_SendFriendStatus : runs.
Hint Extern 2 (runs keeps_contacts (emit _)) => (apply kept_frames; apply runs_emit, _) : runs.

Lemma rs_HasFriend u f s : run_state (HasFriend u f) s = s.
Proof. unfold HasFriend, with_social. rewrite rs_with_state. by destruct (m_socialMap s !! u). Qed.
Lemma rs_HasIgnore u f s : run_state (HasIgnore_social u f) s = s.
Proof. unfold HasIgnore_social, with_social. rewrite rs_with_state. by destruct (m_socialMap s !! u). Qed.
Lemma contacts_bind {A B} (m : SM A) (k : A -> SM B) s : keeps_contacts s (run_state m s) -> (forall a, runs keeps_contacts (k a)) ->
  keeps_contacts s (run_state (bind m k) s).
Proof. intros Hm Hk. rewrite run_state_bind. etransitivity; [exact Hm | apply Hk]. Qed.
Lemma contacts_srecv {A} (parse : B A) data k : (forall x, runs keeps_contacts (k x)) -> runs keeps_contacts (srecv parse data k).
Proof. intros Hk. unfold srecv. destruct (parse data).1; [apply Hk | apply runs_ret, _]. Qed.
Lemma contacts_with_name name k : (forall n, runs keeps_contacts (k n)) -> runs keeps_contacts (with_name name k).
Proof. intros Hk. unfold with_name. destruct (normalizePlayerName name); [apply Hk | apply runs_ret, _ | apply kept_frames; apply runs_emit, _]. Qed.
Lemma contacts_upd_session a f s :
  (forall x, ss_player (f x) = ss_player x) -> (forall x, ss_login (f x) = ss_login x \/ ss_login (f x) = None) ->
  (contacts_ok (book s) -> forall x, m_sessions s !! a = Some x -> pending_ok (m_hiCharGuid s) x -> pending_ok (m_hiCharGuid s) (f x)) ->
  keeps_contacts s (run_state (upd_session a f) s).
Proof. intros H1 H2 H3 Hok. exact (ok_session (book s) a f Hok H1 H2 (H3 Hok)). Qed.

Lemma character_named_next s name p : contacts_ok (book s) -> character_named s name = Some p -> p.1 < m_hiCharGuid s.
Proof.
  intros Hok Hp. unfold character_named in Hp. apply head_Some_elem_of in Hp. rewrite in_some_order_perm in Hp.
  apply list_elem_of_filter in Hp as [_ Hin]. destruct p as [g c]. apply elem_of_map_to_list in Hin. by apply (co_char _ Hok g c).
Qed.
Lemma contacts_HandleAddFriend a data : runs keeps_contacts (HandleAddFriendOpcode a data).
Proof.
  apply contacts_srecv. intros [name note]. apply contacts_with_name. intros n s. rewrite rs_with_state.
  apply contacts_upd_session; [done | by left |]. intros Hok x Hx [Hp1 Hp2]. split; [|done]. cbn. intros g r ac note'.
  destruct (character_named s n) as [p|] eqn:E; [|done]. intros [= <- _ _ _]. by apply (character_named_next s n p).
Qed.
Lemma contacts_HandleAddIgnore a data : runs keeps_contacts (HandleAddIgnoreOpcode a data).
Proof.
  apply contacts_srecv. intros name. apply contacts_with_name. intros n s. rewrite rs_with_state.
  apply contacts_upd_session; [done | by left |]. intros Hok x Hx [Hp1 Hp2]. split; [done|]. cbn. intros g.
  destruct (character_named s n) as [p|] eqn:E; [|done]. intros [= <-]. by apply (character_named_next s n p).
Qed.
Lemma contacts_HandleAddFriendCallBack a u result note s :
  (forall g r ac, result = Some (g, r, ac) -> g < m_hiCharGuid s) ->
  keeps_contacts s (run_state (HandleAddFriendOpcodeCallBack v a u result note) s).
Proof.
  intros Hlt. unfold HandleAddFriendOpcodeCallBack. destruct result as [[[g r] ac]|]; [|apply contacts_SendFriendStatus].
  destruct (_ && _); [|apply contacts_SendFriendStatus]. specialize (Hlt g r ac eq_refl). apply contacts_bind.
  - destruct (g =? u); [done|]. destruct (negb _ && _ && _); [done|]. rewrite run_state_bind, rs_HasFriend.
    destruct (run_value _ s); [done|]. rewrite rs_with_state, run_state_bind, rs_ret. by apply contacts_AddToSocialList.
  - intros r0. apply runs_bind; [exact _ | auto with runs | intros _; auto with runs].
Qed.
Lemma contacts_HandleAddIgnoreCallBack u result s : (forall g, result = Some g -> g < m_hiCharGuid s) ->
  keeps_contacts s (run_state (HandleAddIgnoreOpcodeCallBack v u result) s).
Proof.
  intros Hlt. unfold HandleAddIgnoreOpcodeCallBack. destruct result as [g|]; [|apply contacts_SendFriendStatus]. specialize (Hlt g eq_refl).
  apply contacts_bind; [|auto with runs]. destruct (g =? 0); [done|]. destruct (g =? u); [done|]. rewrite run_state_bind, rs_HasIgnore.
  destruct (run_value _ s); [done|]. rewrite run_state_bind, rs_ret. by apply contacts_AddToSocialList.
Qed.
Lemma contacts_handle_social a u op data : runs keeps_contacts (handle_social v a u op data).
Proof.
  destruct op; cbn [handle_social].
  - apply contacts_srecv. intros mask. apply kept_frames, book_SendSocialList.
  - apply contacts_HandleAddFriend.
  - apply contacts_srecv. intros g. apply runs_bind; [exact _ | auto with runs..].
  - apply contacts_srecv. intros [g n]. auto with runs.
  - apply contacts_HandleAddIgnore.
  - apply contacts_srecv. intros g. apply runs_bind; [exact _ | auto with runs..].
Qed.

Lemma book_sessions_frame {A} (m : SM A) s : frames book m -> m_sessions (run_state m s) = m_sessions s.
Proof. intros Hm. exact (f_equal bo_sessions (Hm s)). Qed.
Lemma rs_social_logout a s : let s' := run_state (social_logout v a) s in
  match m_sessions s !! a ≫= ss_player with
  | Some u => book s' = with_sessions (alter (set_ss_player None false) a (m_sessions s)) (with_lists (delete u (bo_lists (book s))) (book s))
  | None => s' = s
  end.
Proof.
  cbv zeta. unfold social_logout. rewrite rs_with_state. destruct (m_sessions s !! a ≫= ss_player) as [u|]; [|done].
  rewrite !run_state_bind. pose proof (book_SendFriendStatus v u FRIEND_OFFLINE u true s) as E.
  set (s1 := run_state (SendFriendStatus _ _ _ _ _) s) in *. clearbody s1.
  unfold RemovePlayerSocial, upd_session. rewrite !rs_modify. unfold book, with_sessions, with_lists in *. cbn. rewrite fmap_delete.
  injection E as E1 E2 E3 E4 E5. by rewrite E1, E2, E3, E4, E5.
Qed.
Lemma contacts_logout a : runs keeps_contacts (social_logout v a).
Proof.
  intros s Hok. pose proof (rs_social_logout a s) as E. cbv zeta in E. destruct (m_sessions s !! a) as [x|] eqn:Hx; cbn in E.
  - destruct (ss_player x) as [u|] eqn:Hu; [|by rewrite E]. rewrite E. by apply (ok_logout (book s) a x u).
  - by rewrite E.
Qed.
End steps.

Section all_steps.
Context `{!Utf8Lib} `{!SqlLib} `{RO : !ResultOrder} `{RL : !ResultOrderLaws} (v : SocialView).
Implicit Types s : SocialWorld.

Lemma contacts_close a : runs keeps_contacts (social_logout v a ;; modify (on_sessions (delete a))).
Proof.
  intros s. rewrite run_state_bind, rs_modify. etransitivity; [apply (contacts_logout v a)|]. intros Hok.
  pose proof (rs_social_logout v a s) as E. cbv zeta in E. set (s1 := run_state (social_logout v a) s) in *.
  assert (Hgone : forall x, m_sessions s1 !! a = Some x -> ss_player x = None).
  { intros x Hx. destruct (m_sessions s !! a) as [y|] eqn:Hy; cbn in E; [|congruence].
    destruct (ss_player y) as [u|] eqn:Hu; [|congruence]. apply (f_equal bo_sessions) in E. cbn in E.
    rewrite E, lookup_alter_eq, Hy in Hx. by injection Hx as <-. }
  clearbody s1. apply (ok_sessions (book s1)); [done| |].
  - intros b x Hx. cbn in Hx. apply lookup_delete_Some in Hx as [Hne Hx]. split; [by eapply (pending_of (book s1)) | eauto].
  - intros b x g Hx Hg. exists x. split; [|done]. cbn. rewrite lookup_delete_ne; [done|]. intros <-. specialize (Hgone x Hx). congruence.
Qed.
Lemma contacts_login_query a guid x s : m_sessions s !! a = Some x -> ss_player x = None -> ss_login x = None ->
  keeps_contacts s (run_state (social_login_query a guid) s).
Proof.
  intros Hx Hp Hl Hok. unfold social_login_query. rewrite rs_with_state. set (g := GUID_LOPART guid).
  assert (Ha : 0 < a) by (apply (co_account _ Hok); eauto).
  apply (ok_ask (book s) a x); [done | done | done | done |]. cbn. intros Hac.
  assert (Hc : exists c, t_characters s !! g = Some c /\ c_account c = a).
  { unfold accounts_of in Hac. apply fmap_Some in Hac as (c & Hc & ->). eauto. }
  destruct Hc as (c & Hc & Ec). assert (Hn : bo_lists (book s) !! g = None).
  { apply eq_None_not_Some. intros Hs. destruct (co_lister _ Hok g Hs) as (b & y & Hy & Hyp).
    assert (b = a) as -> by (apply (owner_is (book s) a b g c Hok Ha); [exists y; auto | done | done]). cbn in Hy. congruence. }
  split; [|eauto]. rewrite Hac. by apply query_answer.
Qed.
Lemma core_load u rows (m : gmap Z PlayerSocialMap) : m !! u = None ->
  core_list <$> partial_alter (fun o => Some (load_rows rows (default ∅ o))) u m = <[u := core_list (load_rows rows ∅)]> (core_list <$> m).
Proof.
  intros Hm. apply map_eq. intros g. destruct (decide (g = u)) as [->|Hne].
  - by rewrite lookup_fmap, lookup_partial_alter_eq, lookup_insert_eq, Hm.
  - by rewrite lookup_fmap, lookup_partial_alter_ne, lookup_insert_ne, lookup_fmap by congruence.
Qed.
Lemma contacts_login a q x s : m_sessions s !! a = Some x -> ss_login x = Some q -> keeps_contacts s (run_state (social_login v a q) s).
Proof.
  intros Hx Hq. unfold social_login. rewrite run_state_bind.
  assert (Hdrop : keeps_contacts s (run_state (upd_session a (set_ss_login None)) s)) by (apply contacts_upd_session; auto).
  destruct (lq_account q) as [ac|] eqn:Hac; [|done]. unfold when. destruct (Z.eqb_spec ac a) as [->|]; [|done]. cbv zeta.
  rewrite run_state_bind. set (s1 := run_state (upd_session a (set_ss_login None)) s). rewrite run_state_bind.
  set (s3 := run_state (upd_session a _) (run_state (SocialLoadFromDB _ _) s1)).
  assert (H3 : keeps_contacts s s3).
  { intros Hok. destruct (co_query _ Hok a x q Hx Hq Hac) as [[Q1 Q2 Q3 Q4] Q5].
    assert (Hm : m_socialMap s !! lq_guid q = None). { cbn in Q5. rewrite lookup_fmap in Q5. by destruct (m_socialMap s !! lq_guid q). }
    pose proof (ok_login (book s) a x q false Hok Hx Hq Hac) as Hnew. unfold s3, s1, SocialLoadFromDB, upd_session. rewrite !rs_modify.
    unfold book, with_sessions, with_lists in *. cbn in *. rewrite core_load, core_loaded by done. rewrite alter_twice. exact Hnew. }
  clearbody s3. etransitivity; [exact H3|]. clear. apply contacts_bind; [apply kept_frames, book_SendSocialList | intros _].
  intros s. apply contacts_bind; [apply contacts_upd_session; auto | intros _; apply contacts_SendFriendStatus].
Qed.
Lemma contacts_new_character name race account s : 0 <= m_hiCharGuid s -> m_hiCharGuid s + 1 < 2 ^ 32 ->
  keeps_contacts s (run_state (new_character name race account) s).
Proof.
  intros Hp Hn Hok. unfold new_character. rewrite rs_with_state, !run_state_bind, !rs_modify.
  set (s1 := run_state (when _ _) s). assert (E : s1 = s) by (unfold s1; by destruct (_ <=? _)). rewrite E. clear E s1.
  pose proof (ok_made (book s) (mkCharacterRow name race account false) Hok eq_refl) as Hmade.
  unfold book in *. cbn in *. rewrite u32_small by lia. exact Hmade.
Qed.
Lemma contacts_DeleteFromDB guid : runs keeps_contacts (social_DeleteFromDB v guid).
Proof.
  unfold social_DeleteFromDB. destruct (chardelete_removes v guid).
  - apply runs_bind; [exact _ | | intros _].
    { apply runs_with_state. intros s0. apply runs_for_each; [exact _|]. intros u. apply runs_with_state. intros s1. unfold when.
      destruct (bool_decide _); [|apply runs_ret, _]. apply runs_bind; [exact _ | apply contacts_RemoveFromSocialList | intros _; apply contacts_SendFriendStatus]. }
    intros s Hok. rewrite run_state_bind, !rs_SExecute. cbn [social_execute].
    apply (ok_fewer (book s) (delete guid (t_characters s))); [done | | |].
    + intros g c [_ Hc]%lookup_delete_Some. eauto.
    + intros p m [Hm _]%map_lookup_filter_Some. done.
    + intros g f (c & Hg & _) (c' & Hf & _). cbn in Hg, Hf |- *. apply lookup_delete_Some in Hg as [Hg _], Hf as [Hf _].
      destruct (t_character_social s !! (g, f)) as [m|] eqn:Hm.
      * apply map_lookup_filter_Some. split; [done|]. cbn. split; congruence.
      * apply map_lookup_filter_None. by left.
  - intros s Hok. rewrite rs_SExecute. cbn [social_execute].
    apply (ok_fewer (book s) (alter unlinked guid (t_characters s)) (t_character_social s)); [done | | done | done].
    intros g c'. destruct (decide (g = guid)) as [->|Hne].
    + rewrite lookup_alter_eq, fmap_Some. intros (c & Hc & ->). exists c. split; [done|]. by right.
    + rewrite lookup_alter_ne by congruence. eauto.
Qed.

(** A step is fair when it does not use up the numbers of characters. *)
Definition fair_social_step (st : social_step) (s : SocialWorld) : bool :=
  match st with
  | CharacterMade _ _ _ => (0 <=? m_hiCharGuid s) && (m_hiCharGuid s + 1 <? 2 ^ 32)
  | _ => true
  end.
Lemma contacts_step st s : fair_social_step st s = true -> keeps_contacts s (run_state (run_social_step v st) s).
Proof.
  intros Hfair. destruct st as [a|a|a data|a|a b|a|a op data|a|a|name race account|a data]; cbn [run_social_step];
    unfold with_session; rewrite ?rs_with_state.
  - unfold when. destruct (Z.ltb_spec 0 a) as [Ha|]; [|done]. destruct (bool_decide_reflect (m_sessions s !! a = None)) as [Hn|]; [|done].
    intros Hok. by apply (ok_open (book s)).
  - apply contacts_close.
  - destruct (m_sessions s !! a) as [x|] eqn:Hx; [|done]. unfold when. destruct (bool_decide_reflect (ss_player x = None)) as [Hp|]; [|done].
    destruct (bool_decide_reflect (ss_login x = None)) as [Hl|]; [|done]. cbn. unfold srecv.
    destruct (shr_uint 8 data).1 as [guid|]; [by eapply contacts_login_query | done].
  - destruct (m_sessions s !! a) as [x|] eqn:Hx; [|done]. destruct (ss_login x) as [q|] eqn:Hq; [by eapply contacts_login | done].
  - destruct (m_sessions s !! a) as [x|] eqn:Hx; [|done]. unfold when. destruct (bool_decide _); [|done]. apply contacts_upd_session; auto.
  - apply contacts_logout.
  - unfold with_sender, with_session. rewrite rs_with_state. destruct (m_sessions s !! a) as [x|]; [|done]. destruct (ss_player x) as [u|]; [|done].
    unfold when. destruct (ss_inWorld x); [apply contacts_handle_social | done].
  - destruct (m_sessions s !! a) as [x|] eqn:Hx; [|done]. destruct (ss_addFriend x) as [[result note]|] eqn:Hp; [|done].
    intros Hok. revert Hok. apply contacts_bind.
    + destruct (ss_player x) as [u|]; [|done]. intros Hok. revert Hok. intros Hok. apply contacts_HandleAddFriendCallBack; [|done].
      intros g r ac ->. by apply (co_friend _ Hok a x g r ac note).
    + intros _ s'. apply contacts_upd_session; [done | by left |]. intros _ y _ [H1 H2]. by split.
  - destruct (m_sessions s !! a) as [x|] eqn:Hx; [|done]. destruct (ss_addIgnore x) as [result|] eqn:Hp; [|done].
    apply contacts_bind.
    + destruct (ss_player x) as [u|]; [|done]. intros Hok. apply contacts_HandleAddIgnoreCallBack; [|done].
      intros g ->. by apply (co_ignore _ Hok a x g).
    + intros _ s'. apply contacts_upd_session; [done | by left |]. intros _ y _ [H1 H2]. by split.
  - cbn in Hfair. apply andb_true_iff in Hfair as [Hp%Z.leb_le Hn%Z.ltb_lt]. by apply contacts_new_character.
  - destruct (m_sessions s !! a) as [x|] eqn:Hx; [|done]. unfold HandleCharDeleteOpcode_social. apply contacts_srecv. intros guid.
    apply runs_with_state. intros s1. destruct (_ || _); [apply runs_ret, _|]. destruct (_ =? a); [apply contacts_DeleteFromDB | apply runs_ret, _].
Qed.
End all_steps.

(** ** Runs *)

Section social_runs.
Context `{!Utf8Lib} `{!SqlLib}.
Implicit Types s : SocialWorld.

Fixpoint run_socials (l : list (ResultOrder * SocialView * social_step)) (s : SocialWorld) : SocialWorld :=
  match l with
  | [] => s
  | (ro, v, st) :: l' => run_socials l' (run_state (@run_social_step _ _ ro v st) s)
  end.
Fixpoint fair_socials (l : list (ResultOrder * SocialView * social_step)) (s : SocialWorld) : bool :=
  match l with
  | [] => true
  | (ro, v, st) :: l' => fair_social_step st s && fair_socials l' (run_state (@run_social_step _ _ ro v st) s)
  end.
Lemma contacts_runs l s : contacts_ok (book s) -> Forall (fun p => @ResultOrderLaws p.1.1) l -> fair_socials l s = true ->
  contacts_ok (book (run_socials l s)).
Proof.
  intros Hok Hl. revert s Hok. induction Hl as [|[[ro v] st] l Hp Hl IH]; intros s Hok Hf; [done|].
  cbn [fair_socials run_socials] in *. apply andb_true_iff in Hf as [Hst Hf]. apply IH; [|done]. by apply (@contacts_step _ _ ro Hp v).
Qed.

(** C9: over any sequence of packets, answers of the database, log-ins and log-outs,
    and characters made and deleted, whatever is pending when, a player in play has at
    most fifty friends and fifty ignored players, and the database has his list: for
    every character that is not deleted there is one row with the same flags if he is in
    the list, and none otherwise; the note of the list is that of the row, or what was
    sent to the database for it. *)
Theorem social_lists l s : contacts_ok (book s) -> Forall (fun p => @ResultOrderLaws p.1.1) l -> fair_socials l s = true ->
  let s' := run_socials l s in
  forall u mine, m_socialMap s' !! u = Some mine ->
    GetNumberOfSocialsWithFlag mine SOCIAL_FLAG_FRIEND <= SOCIALMGR_FRIEND_LIMIT /\
    GetNumberOfSocialsWithFlag mine SOCIAL_FLAG_IGNORED <= SOCIALMGR_IGNORE_LIMIT /\
    forall f, living s' u = true -> living s' f = true ->
      match mine !! f with
      | Some i => exists note, t_character_social s' !! (u, f) = Some {[fi_Flags i := note]} /\
                               (fi_Note i = note \/ fi_Note i = EscapeString note)
      | None => t_character_social s' !! (u, f) = None
      end.
Proof.
  intros Hok Hl Hf s' u mine Hlist. pose proof (contacts_runs l s Hok Hl Hf) as Hok'. fold s' in Hok'. clearbody s'.
  pose proof (book_list s' u mine Hlist) as Hb. destruct (co_list _ Hok' u _ Hb) as (_ & Hlo & _).
  unfold SOCIALMGR_FRIEND_LIMIT, SOCIALMGR_IGNORE_LIMIT. rewrite !number_count by auto. destruct Hlo as [_ H1 H2].
  split; [lia|]. split; [lia|]. intros f Hu%living_alive Hf'%living_alive.
  pose proof (co_same _ Hok' u _ f Hb Hu Hf') as Hag. unfold core_list in Hag. rewrite lookup_fmap in Hag.
  destruct (mine !! f) as [i|]; [|exact Hag]. destruct Hag as (_ & n & Hrow & Hn). exists n. split; [exact Hrow | exact Hn].
Qed.

(** ** Logging out and in again *)

Lemma query_living `{RO : ResultOrder} `{RL : !ResultOrderLaws} s u f e : list_of_rows (social_list s u) !! f = Some e -> living s f = true.
Proof.
  unfold list_of_rows. intros He%elem_of_list_to_map_2. apply list_elem_of_fmap in He as ([[f' fl] n] & [= -> ->] & Hin).
  rewrite social_list_rows in Hin. apply elem_of_take in Hin as (i & Hi & _). apply list_elem_of_lookup_2 in Hi.
  rewrite in_some_order_perm in Hi. apply elem_all_rows in Hi as [Hf _]. by apply living_alive.
Qed.
Lemma login_loads `{RO : ResultOrder} `{RL : !ResultOrderLaws} v a q x s : contacts_ok (book s) -> m_sessions s !! a = Some x -> ss_login x = Some q -> lq_account q = Some a ->
  bo_lists (book (run_state (social_login v a q) s)) !! lq_guid q = Some (list_of_rows (lq_rows q)).
Proof.
  intros Hok Hx Hq Hac. destruct (co_query _ Hok a x q Hx Hq Hac) as [[Q1 Q2 Q3 Q4] Q5].
  assert (Hm : m_socialMap s !! lq_guid q = None). { cbn in Q5. rewrite lookup_fmap in Q5. by destruct (m_socialMap s !! lq_guid q). }
  unfold social_login. rewrite Hac, Z.eqb_refl. unfold when. cbv zeta. rewrite !run_state_bind.
  rewrite (f_equal bo_lists (book_SendFriendStatus v _ _ _ _ _)). unfold upd_session. rewrite rs_modify.
  match goal with |- bo_lists (book (on_sessions ?F ?s0)) !! _ = _ => change (bo_lists (book (on_sessions F s0))) with (bo_lists (book s0)) end.
  rewrite (f_equal bo_lists (book_SendSocialList v _ _ _)). unfold SocialLoadFromDB. rewrite !rs_modify. cbn.
  rewrite lookup_fmap, lookup_partial_alter_eq, Hm. cbn. f_equal. by apply core_loaded.
Qed.
End social_runs.

Section reload.
Context `{!Utf8Lib} `{!SqlLib}.
Implicit Types s : SocialWorld.

Lemma owner_account s a x u : contacts_ok (book s) -> m_sessions s !! a = Some x -> ss_player x = Some u -> living s u = true ->
  accounts_of s u = Some a.
Proof.
  intros Hok Hx Hu Hl. apply living_alive in Hl as (c & Hc & Hd). unfold accounts_of. cbn in Hc. rewrite Hc. cbn. f_equal.
  assert (Ho : owns (book s) a u) by (exists x; auto). destruct (proj2 (co_owner _ Hok a u Ho) c Hc); congruence.
Qed.
(** What comes back agrees with what was there. *)
Lemma reloaded_entry bo u (mine rows : gmap Z (Z * list Z)) f : contacts_ok bo -> bo_lists bo !! u = Some mine -> alive bo u ->
  (forall f, alive bo f -> bo_rows bo !! (u, f) = row_is <$> rows !! f) ->
  (forall f e, rows !! f = Some e -> alive bo f) ->
  match rows !! f with
  | Some e' => alive bo f /\ exists e, mine !! f = Some e /\ e'.1 = e.1 /\ (e.2 = e'.2 \/ e.2 = EscapeString e'.2)
  | None => alive bo f -> mine !! f = None
  end.
Proof.
  intros Hok Hl Hu Hrows Halive. destruct (rows !! f) as [e'|] eqn:He.
  - pose proof (Halive f e' He) as Hf. split; [done|]. pose proof (co_same _ Hok u mine f Hl Hu Hf) as Hag. rewrite (Hrows f Hf), He in Hag.
    destruct (mine !! f) as [e|]; [|done]. destruct Hag as (_ & n & E & Hn). apply (inj Some), row_is_inj in E as ->. exists e. auto.
  - intros Hf. pose proof (co_same _ Hok u mine f Hl Hu Hf) as Hag. rewrite (Hrows f Hf), He in Hag.
    destruct (mine !! f) as [e|]; [|done]. by destruct Hag as (_ & n & ? & _).
Qed.

(** He logs out and asks for the character again. *)
Lemma asked_again (ro1 ro2 : ResultOrder) (v1 v2 : SocialView) a x u data guid s :
  @ResultOrderLaws ro1 -> @ResultOrderLaws ro2 -> contacts_ok (book s) -> m_sessions s !! a = Some x -> ss_player x = Some u ->
  living s u = true -> (shr_uint 8 data).1 = Ok guid -> GUID_LOPART guid = u ->
  let s1 := run_state (@run_social_step _ _ ro1 v1 (SocialLogout a)) s in
  let s2 := run_state (@run_social_step _ _ ro2 v2 (LoginAsked a data)) s1 in
  contacts_ok (book s2) /\
  (exists y, m_sessions s2 !! a = Some (set_ss_login (Some (mkLoginQuery u (Some a) (@social_list ro2 s1 u))) y)) /\
  bo_rows (book s2) = bo_rows (book s) /\ bo_chars (book s2) = bo_chars (book s) /\ t_characters s1 = t_characters s.
Proof.
  intros L1 L2 Hok Hx Hu Hlive Hd Hg s1 s2. pose proof (owner_account s a x u Hok Hx Hu Hlive) as Hac.
  assert (Hlogin : ss_login x = None) by (by apply (co_player _ Hok a x u)).
  assert (Hok1 : contacts_ok (book s1)) by (by apply (@contacts_step _ _ ro1 L1 v1)).
  assert (E1 : book s1 = with_sessions (alter (set_ss_player None false) a (m_sessions s)) (with_lists (delete u (bo_lists (book s))) (book s))).
  { pose proof (rs_social_logout v1 a s) as E. cbv zeta in E. rewrite Hx in E. cbn in E. rewrite Hu in E. exact E. }
  assert (Hx1 : m_sessions s1 !! a = Some (set_ss_player None false x)).
  { change (m_sessions s1) with (bo_sessions (book s1)). rewrite E1. cbn. by rewrite lookup_alter_eq, Hx. }
  assert (Hc1 : t_characters s1 = t_characters s) by exact (f_equal bo_chars E1).
  assert (Hac1 : accounts_of s1 u = Some a) by (unfold accounts_of; by rewrite Hc1).
  assert (E2 : s2 = on_sessions (alter (set_ss_login (Some (mkLoginQuery u (Some a) (@social_list ro2 s1 u)))) a) s1).
  { unfold s2. cbn [run_social_step]. unfold with_session. rewrite rs_with_state, Hx1. cbn [ss_player ss_login set_ss_player]. rewrite Hlogin.
    rewrite !bool_decide_true by done. cbn [andb when]. unfold srecv. rewrite Hd. unfold social_login_query. by rewrite rs_with_state, Hg, Hac1. }
  split; [by apply (@contacts_step _ _ ro2 L2 v2)|]. split; [|split; [|split]].
  - exists (set_ss_player None false x). rewrite E2. cbn. by rewrite lookup_alter_eq, Hx1.
  - rewrite E2. exact (f_equal bo_rows E1).
  - rewrite E2. exact (f_equal bo_chars E1).
  - exact Hc1.
Qed.

(** C26: a player who logs out and in again finds his list: the same characters with the
    same flags, but for those that were deleted; each note is the one he had, or the one
    he had was that with what the database needs before it is sent. *)
Theorem social_reload (ro1 ro2 ro3 : ResultOrder) (v1 v2 v3 : SocialView) a x u mine data guid s :
  @ResultOrderLaws ro1 -> @ResultOrderLaws ro2 -> @ResultOrderLaws ro3 -> contacts_ok (book s) ->
  m_sessions s !! a = Some x -> ss_player x = Some u -> living s u = true -> m_socialMap s !! u = Some mine ->
  (shr_uint 8 data).1 = Ok guid -> GUID_LOPART guid = u ->
  let s' := run_socials [(ro1, v1, SocialLogout a); (ro2, v2, LoginAsked a data); (ro3, v3, LoginAnswered a)] s in
  exists mine', m_socialMap s' !! u = Some mine' /\
    forall f, match mine' !! f with
    | Some i' => living s f = true /\ exists i, mine !! f = Some i /\ fi_Flags i' = fi_Flags i /\
        (fi_Note i = fi_Note i' \/ fi_Note i = EscapeString (fi_Note i'))
    | None => living s f = true -> mine !! f = None
    end.
Proof.
  intros L1 L2 L3 Hok Hx Hu Hlive Hlist Hd Hg s'.
  destruct (asked_again ro1 ro2 v1 v2 a x u data guid s L1 L2 Hok Hx Hu Hlive Hd Hg) as (Hok2 & (y & Hx2) & Er & Ec & Hc1).
  set (s1 := run_state (@run_social_step _ _ ro1 v1 (SocialLogout a)) s) in *.
  set (s2 := run_state (@run_social_step _ _ ro2 v2 (LoginAsked a data)) s1) in *.
  set (q := mkLoginQuery u (Some a) (@social_list ro2 s1 u)) in *.
  assert (E3 : bo_lists (book s') !! u = Some (list_of_rows (lq_rows q))).
  { unfold s'. cbn [run_socials]. fold s1. fold s2. cbn [run_social_step]. unfold with_session. rewrite rs_with_state, Hx2. cbn [ss_login set_ss_login].
    by apply (@login_loads _ ro3 L3 v3 a q (set_ss_login (Some q) y)). }
  destruct (co_query _ Hok2 a _ q Hx2 eq_refl eq_refl) as [[_ _ _ Q4] _].
  assert (Ha : forall g, alive (book s) g -> alive (book s2) g) by (intros g (c & Hc & Hd'); exists c; split; [by rewrite Ec | done]).
  clearbody s'. unfold book in E3. cbn [bo_lists] in E3. rewrite lookup_fmap in E3. destruct (m_socialMap s' !! u) as [mine'|]; [|done]. apply (inj Some) in E3. exists mine'. split; [done|].
  intros f. pose proof (reloaded_entry (book s) u (core_list mine) (list_of_rows (lq_rows q)) f Hok (book_list s u mine Hlist)) as Hf.
  rewrite <- E3 in Hf. unfold core_list in Hf. rewrite !lookup_fmap in Hf.
  assert (Hres : match core_info <$> mine' !! f with
    | Some e' => alive (book s) f /\ exists e, core_info <$> mine !! f = Some e /\ e'.1 = e.1 /\ (e.2 = e'.2 \/ e.2 = EscapeString e'.2)
    | None => alive (book s) f -> core_info <$> mine !! f = None
    end).
  { apply Hf; [by apply living_alive | |].
    - intros g Hg'. rewrite <- Er. fold (core_list mine'). rewrite E3. apply Q4; apply Ha; [by apply living_alive | done].
    - intros g e. fold (core_list mine'). rewrite E3. intros He%(@query_living ro2 L2). apply living_alive in He as (c & Hc & Hd').
      exists c. split; [|done]. cbn in Hc. by rewrite Hc1 in Hc. }
  destruct (mine' !! f) as [i'|]; cbn in Hres.
  - destruct Hres as (Hf' & e & He & Efl & Hn). apply living_alive in Hf'. split; [done|].
    destruct (mine !! f) as [i|]; [|done]. injection He as <-. exists i. auto.
  - intros Hl%living_alive. specialize (Hres Hl). by destruct (mine !! f).
Qed.
End reload.

(** ** Three characters of two accounts *)

(** [mysql_real_escape_string]: a backslash before what has a meaning. *)
Definition escape_byte (c : Z) : list Z :=
  if c =? 0 then [92; 48] else if c =? 10 then [92; 110] else if c =? 13 then [92; 114] else if c =? 26 then [92; 90]
  else if (c =? 39) || (c =? 34) || (c =? 92) then [92; c] else [c].
#[export] Instance sample_sql : SqlLib := {| EscapeString l := concat (escape_byte <$> l) |}.
Definition as_stored : ResultOrder := {| in_some_order A l := l |}.
Lemma as_stored_laws : @ResultOrderLaws as_stored.
Proof. by constructor. Qed.
Definition sample_social : SocialView := {|
  CONFIG_ALLOW_TWO_SIDE_WHO_LIST := true;
  CONFIG_GM_LEVEL_IN_WHO_LIST := 3;
  CONFIG_ALLOW_GM_FRIEND := false;
  CONFIG_ALLOW_TWO_SIDE_ADD_FRIEND := false;
  session_security _ := 0;
  account_security _ := 0;
  player_team _ := 469;
  TeamForRace _ := 469;
  IsVisibleGloballyFor _ _ := true;
  player_isAFK _ := false;
  player_isDND _ := false;
  player_zone _ := 12;
  player_level _ := 80;
  player_class _ := 1;
  delete_refused _ := false;
  chardelete_removes _ := true
|}.
Definition sent (fs : list field) : ByteBuffer := mkBuf 0 (Z.of_nat (length (ser fs))) (ser fs).
Definition at_social (st : social_step) : ResultOrder * SocialView * social_step := (as_stored, sample_social, st).
Definition no_socials : SocialWorld := mkSocialWorld ∅ ∅ ∅ ∅ 1.
(** Ann (1) and Amy (3) belong to the account 101, Bob (2) to 102; Ann asks for Bob. *)
Definition ann_asks : list (ResultOrder * SocialView * social_step) := at_social <$>
  [CharacterMade (text "Ann") 1 101; CharacterMade (text "Bob") 1 102; CharacterMade (text "Amy") 1 101; SessionOpen 101;
   LoginAsked 101 (sent [FU 8 1]); LoginAnswered 101; SocialPacketIn 101 CMSG_ADD_FRIEND (sent [FStr (text "bob"); FStr (text "it's me")])].
Definition ann_answered : list (ResultOrder * SocialView * social_step) := ann_asks ++ [at_social (FriendAnswered 101)].

Lemma contacts_none : contacts_ok (book no_socials).
Proof.
  assert (He : forall A (k : Z) (y : A), (∅ : gmap Z A) !! k = Some y -> False) by (intros A k y; by rewrite lookup_empty).
  split; cbn; try (intros *; rewrite ?lookup_empty; done).
  - intros g l _ (c & Hc & _). by apply He in Hc.
  - intros g. rewrite fmap_empty, lookup_empty. by intros [? ?].
  - intros a g (x & Hx & _). by apply He in Hx.
  - intros a a' g (x & Hx & _). by apply He in Hx.
Qed.
(** What the database needs before it is sent stays in the list. *)
Example note_escaped : let s := run_socials ann_answered no_socials in
  (fi_Note <$> (m_socialMap s !! 1 ≫= fun l => l !! 2)) = Some (text "it\'s me") /\
  t_character_social s !! (1, 2) = Some {[SOCIAL_FLAG_FRIEND := text "it's me"]}.
Proof. split; vm_compute; reflexivity. Qed.
(** The answer Ann waited for is given to Amy: she gets the friend. *)
Example answered_to_another : let s := run_socials (ann_asks ++ (at_social <$>
    [SocialLogout 101; LoginAsked 101 (sent [FU 8 3]); LoginAnswered 101; FriendAnswered 101])) no_socials in
  t_character_social s !! (1, 2) = None /\ t_character_social s !! (3, 2) = Some {[SOCIAL_FLAG_FRIEND := text "it's me"]}.
Proof. split; vm_compute; reflexivity. Qed.

Definition answered_world : SocialWorld := run_socials ann_answered no_socials.
Definition list_of_ann : PlayerSocialMap := {[2 := mkFriendInfo 0 SOCIAL_FLAG_FRIEND 0 0 0 (text "it\'s me")]}.
Lemma ann_answered_fair : Forall (fun p : ResultOrder * SocialView * social_step => @ResultOrderLaws p.1.1) ann_answered /\
  fair_socials ann_answered no_socials = true.
Proof.
  split; [|vm_compute; reflexivity]. unfold ann_answered, ann_asks. cbn [fmap list_fmap app].
  repeat first [apply List.Forall_cons; [exact as_stored_laws|] | apply List.Forall_nil].
Qed.
Lemma social_lists_witness :
  GetNumberOfSocialsWithFlag list_of_ann SOCIAL_FLAG_FRIEND <= SOCIALMGR_FRIEND_LIMIT /\
  exists note, t_character_social answered_world !! (1, 2) = Some {[SOCIAL_FLAG_FRIEND := note]} /\
    (text "it\'s me" = note \/ text "it\'s me" = EscapeString note).
Proof.
  destruct ann_answered_fair as [Hl Hf]. assert (Hlist : m_socialMap answered_world !! 1 = Some list_of_ann) by (vm_compute; reflexivity).
  destruct (social_lists ann_answered no_socials contacts_none Hl Hf 1 list_of_ann Hlist) as (H1 & _ & H3).
  split; [exact H1|]. specialize (H3 2 ltac:(vm_compute; reflexivity) ltac:(vm_compute; reflexivity)).
  replace (list_of_ann !! 2) with (Some (mkFriendInfo 0 SOCIAL_FLAG_FRIEND 0 0 0 (text "it\'s me"))) in H3 by (vm_compute; reflexivity).
  exact H3.
Defined.
Lemma social_reload_witness :
  exists mine', m_socialMap (run_socials (at_social <$> [SocialLogout 101; LoginAsked 101 (sent [FU 8 1]); LoginAnswered 101]) answered_world) !! 1 = Some mine' /\
    fi_Note <$> mine' !! 2 = Some (text "it's me").
Proof.
  destruct ann_answered_fair as [Hl Hf].
  destruct (social_reload as_stored as_stored as_stored sample_social sample_social sample_social 101 (mkSocialSession (Some 1) true None None None) 1
    list_of_ann (sent [FU 8 1]) 1 answered_world as_stored_laws as_stored_laws as_stored_laws (contacts_runs _ _ contacts_none Hl Hf))
    as (mine' & Hm & _); [vm_compute; reflexivity.. |].
  exists mine'. split; [exact Hm|]. revert Hm. generalize (eq_refl mine'). vm_compute. intros _ [= <-]. reflexivity.
Defined.

(** ** Who is told *)

Section notices.
Context (v : SocialView).

(** A friend's packet reaches those in the world who have him in their list and may see
    him, and nobody else. *)
Lemma friend_listers_told u data s w p : SocialPacket w p ∈ run_log (BroadcastToFriendListers v u data) s <->
  p = data /\ is_Some (FindPlayer_social s w) /\ sees v s w u = true /\
  exists mine i, m_socialMap s !! w = Some mine /\ mine !! u = Some i /\ has_flag (fi_Flags i) SOCIAL_FLAG_FRIEND = true.
Proof.
  unfold BroadcastToFriendListers. rewrite rl_with_state, run_log_for_each_pure.
  2: { intros [w' l]. cbn. destruct (l !! u); [apply pure_when, pure_emit | apply pure_ret]. }
  rewrite list_elem_of_In, in_concat. split.
  - intros (x & Hx & Hp). apply in_map_iff in Hx as ([w' l] & <- & Hin). apply list_elem_of_In, elem_of_omap_list in Hin. cbn in Hp.
    destruct (l !! u) as [i|] eqn:Hi; [|done]. rewrite rl_when in Hp. destruct (_ && _) eqn:Hc; [|done].
    destruct Hp as [[= <- <-]|[]]. apply andb_true_iff in Hc as [[Hf Hw%bool_decide_eq_true]%andb_true_iff Hs]. eauto 8.
  - intros (-> & Hw & Hs & l & i & Hl & Hi & Hf). exists [SocialPacket w data]. split; [|by left]. apply in_map_iff. exists (w, l).
    split; [|by apply list_elem_of_In, elem_of_omap_list]. cbn. rewrite Hi, rl_when, Hf, Hs, bool_decide_true by done. done.
Qed.
End notices.
